(* ===== verification/_CoqProject ===== *)
-Q . S2P
Prelude.v
NgxNumbers.v
HttpCommon.v
HttpRequestLine.v
HttpUri.v
HttpPath.v
HttpParseUri.v
HttpChunked.v
UpstreamRoundRobin.v
BsonUtf8.v
NgxCodec.v
NgxPrintf.v
NgxTimes.v
NgxInet.v
NgxInetText.v
NgxInetPrint.v
NgxCidr.v
NgxUrl.v
NgxBits.v
NgxRadix.v
NgxRadixSpec.v
NgxRadixTable.v
Http2HuffTable.v
Http2Huff.v
Http2Table.v
Http2TableSpec.v
Http2Hpack.v
Http2HpackSpec.v
Http2HpackResume.v
Http2HpackRead.v
Http2HpackFrames.v
Http2Request.v
Http2Filter.v
Http2FilterSpec.v
HttpRange.v
HttpRangeBody.v
HttpHeader.v
HttpUnsafe.v
BsonBuild.v
BsonIter.v
BsonDoc.v
MongoConn.v
MongoCursor.v
MongoCommand.v
MongoReplica.v
MongoWire.v
MongoDrain.v
MongoWrites.v
GridFS.v
GridFSSpec.v
GridFSMemory.v
GridFSWrite.v
GridFSRead.v
GridfsUrl.v
GridfsConf.v
GridfsHandler.v
GridfsWorld.v
GridfsServe.v
GridfsRetry.v
GridfsRegistry.v
