(* ===== verification/Prelude.v ===== *)
(** * Duckling CLB, nginx side: a verified model

    CLB keeps documents in MongoDB.  A Java service (clb-server) stores them in
    GridFS, and an nginx with a module of its own (nginx-gridfs/
    nginx-gridfs-module) serves them over HTTP: nginx reads a request, finds
    the location, and the module's handler asks MongoDB, through the C driver
    mongo-c-driver, for the document of the file and for its chunks, which it
    passes to the output filters.  This library models that path, from the
    bytes of the request to the bytes of the file, and proves that its parts
    do what they promise, and where they do not.

    In the comments before definitions [src/] is nginx-gridfs/src/ of the
    repository, [module/] is nginx-gridfs/nginx-gridfs-module/ and [driver/]
    is the directory mongo-c-driver/src/ of the latter; the lines and the C
    name follow.

    ** How the code is modelled

    - A byte is an integer, memory a list of bytes, a pointer into it an
      offset, a null pointer [None].  Machine integers are integers with the
      wrap-around written out ([u8] to [u64], [s32], [s64]).  The build is the
      64-bit one for Linux.
    - A C struct is a record, [r <| f := v |>] an assignment to a field.
    - The parsers of nginx are loops on a buffer around a [switch] on a state
      that is kept between calls: [scan] is the loop, there is one definition
      for a [case], and a step either goes on or leaves the loop.
    - The code that talks to MongoDB is in the monad [M W] on a world [W],
      whose [None] is undefined behaviour, and in the client of GridFS and the
      driver also rounds of a loop that were not enough (see below for how
      many are).  The loops of the
      handler tell the two apart: out of rounds is [Unfinished].  For
      GridFS and the handler, what the client of MongoDB and the output
      filters do is a parameter: the classes [Mongo], [Driver] and [Http] are its operations,
      the classes [MongoLaws], [HandlerLaws], [Reconnects] and [Willing] the
      properties that a theorem needs of them.  GridFSMemory.v and
      GridfsWorld.v are instances, on a server in memory, on which the
      theorems are tried.

    ** The files

    - Prelude.v: bytes and machine integers, records, loops on buffers.
    - NgxNumbers.v, NgxCodec.v (src/core/ngx_string.c): numbers read and
      printed; percent encoding, base64, UTF-8, escaping for HTML and JSON, searching.
      The parsers of numbers return the number or an error and never wrap;
      printing then parsing, encoding then decoding give back what was given;
      the lengths computed in advance are those written.
    - NgxPrintf.v (ngx_string.c), NgxTimes.v (src/core/ngx_times.c,
      src/core/ngx_parse_time.c): the printf engine, which never passes the
      end of its buffer; dates, where the calendar is the Gregorian one, what
      is printed is read back, and the parser stays inside its text.
    - NgxInet.v, NgxInetText.v, NgxInetPrint.v, NgxCidr.v, NgxUrl.v
      (src/core/ngx_inet.c): addresses, blocks of addresses and the URLs of
      servers.  The reader of IPv6 addresses never leaves its 16 bytes, and
      reads what RFC 4291 says with an exception; a block is a prefix; a
      printed address is read back.
    - NgxBits.v: numbers and bytes as strings of bits.
    - NgxRadix.v, NgxRadixSpec.v, NgxRadixTable.v (src/core/ngx_radix_tree.c):
      radix trees in memory; any sequence of changes to a tree has the results
      it has on a table of prefixes, and a lookup gives the longest prefix.
    - HttpCommon.v, HttpRequestLine.v (src/http/ngx_http_parse.c): the parser
      of the request line; it can be resumed anywhere without a difference,
      and every pointer it leaves lies in the buffer.
    - HttpUri.v, HttpPath.v (ngx_http_parse.c, ngx_http_request.c): the path
      of a request is normalised as a reference with a stack of directories
      does, and whatever line was accepted it does not lead out of its
      directories and fits its memory.  HttpUnsafe.v: the same for the URIs
      of internal requests, with the exception the code leaves.
    - HttpHeader.v (ngx_http_parse.c, ngx_http_request.c): header lines; the
      name, the value, the hash and the lower case name of a line, resuming,
      and a header that is taken for another.
    - HttpChunked.v (ngx_http_parse.c, ngx_http_request_body.c,
      modules/ngx_http_chunked_filter_module.c): the chunked coding; the
      filter of request bodies refines a decoder that is its specification,
      however the body is cut into buffers, and undoes the filter of
      responses.
    - Http2HuffTable.v, Http2Huff.v (src/http/v2/ngx_http_v2_huff_encode.c,
      ngx_http_v2_huff_decode.c): the code of HPACK.  The decoder gives exactly
      the strings whose code its bits are, in the memory its callers
      allocate, and gives back what the encoder was given.
    - Http2Table.v, Http2TableSpec.v (ngx_http_v2_table.c): the table of
      headers; its rings and the entries that are used again have the results
      of the table of RFC 7541, with the exception of a size that is
      forgotten.
    - Http2Hpack.v (ngx_http_v2.c): the handlers that read a header block.
      Http2HpackSpec.v: a block of the grammar of RFC 7541 gives its headers in
      order.  Http2HpackResume.v, Http2HpackRead.v: every handler can be
      interrupted between any two bytes; the calls end, and a block, correct
      or not, of any number of frames, gives the same in any pieces.
      Http2HpackFrames.v: a block may be cut into frames anywhere, as long as
      the last frame is not empty.
    - Http2Request.v (ngx_http_v2.c): the request that the headers make: the
      checks, the request line, the cookies.  A request that is accepted has
      the headers of its block and nothing that is the end of a line.
      HttpParseUri.v (ngx_http_parse.c): its path, which stays inside as that
      of HttpPath.v does.
    - Http2Filter.v, Http2FilterSpec.v (ngx_http_v2_filter_module.c): the
      filter of response headers.  What it writes fits the memory it computed
      before, and is a block that Http2HpackSpec.v and Http2HpackFrames.v read
      as the headers of the response.
    - HttpRange.v, HttpRangeBody.v
      (modules/ngx_http_range_filter_module.c): the header Range means what
      RFC 7233 says, except that lengths are added without a test for
      overflow, and two suffixes reach before the file; otherwise a partial
      response has the bytes, the positions and the length that were asked
      for, however it is cut into buffers.
    - BsonUtf8.v, BsonBuild.v, BsonIter.v, BsonDoc.v (driver/encoding.c,
      driver/bson.c): the checks on strings, the builder of documents with
      its buffer and its stack, the iterator.  [BsonDoc.build] builds a
      document by the functions of the driver; reading it gives every field
      back.
    - MongoConn.v (driver/env.c, driver/mongo.c): connections over the system
      calls of the class [Net]; which names of collections are accepted.
      MongoCursor.v, MongoCommand.v, MongoReplica.v (mongo.c): messages,
      replies and cursors; commands and writes; servers and replica sets.
      MongoWire.v reads messages as the wire protocol does and says what a
      network that works is ([NetLaws]), in pieces of any size; on it a write
      that is accepted sends the request that was meant, and a refused one
      nothing (MongoWrites.v); a cursor gives the documents of all replies,
      in order, replies of other lengths than the protocol's are refused, and
      a connection that breaks under a cursor has it follow freed memory
      (MongoDrain.v).
    - GridFS.v (driver/gridfs.c): the operations of the client.
      GridFSSpec.v is their contract, [stored] and [holds_file]; GridFSWrite.v
      and GridFSRead.v prove that what is written in any pieces is stored in
      the chunks of the contract, and that reading gives it back from any
      position.
    - GridfsUrl.v, GridfsConf.v, GridfsHandler.v (ngx_http_gridfs_module.c):
      decoding of the key and of the header Range; directives, inheritance
      and the array of connections; the handler.  GridfsRegistry.v shows that
      every location has the settings the handler follows, and what the array
      of connections is like; GridfsServe.v that the handler sends the file,
      or the range; GridfsRetry.v that it ends, but for a header Range with two
      ranges, and opens its connection again at most twice.

    - UpstreamRoundRobin.v (src/http/ngx_http_upstream_round_robin.c): the
      peers of an upstream.  Requests that do not fail are shared out by the
      weights, exactly in every round; no request is given a peer twice,
      whatever other requests do.

    ** Bounds and fuel

    - [scan] and the loops on strings need none: they follow the text.
    - [bson_find] takes turns, one more than the fields of a document.
    - [gridfs_store_buffer] and [gridfs_store_file] take rounds, one for a
      chunk and one more; for buffers of 4 GiB no number is enough
      ([gridfs_store_buffer_diverges]).
    - [gridfs_parse_range] takes one round for a character;
      for two ranges no number is enough ([gridfs_parse_range_hangs]).
    - The handler has one number for its loops and for the range, and is
      [Unfinished] when they are used up: two rounds are all the loops can use
      ([ngx_http_gridfs_handler_ends]), and no number is enough for a header
      Range with two ranges ([ngx_http_gridfs_handler_hangs]).
    - The loops on sockets take [rounds], one for each piece that the network
      takes or gives; as many as the bytes of a message or of a reply are
      enough ([write_socket_sends], [read_socket_reads]).
    - The loops on a radix tree take a round for a bit, [prune] one more for
      the root ([ngx_radix_tree_refines]).
    - [process_header] takes a round for a name that is not in the table;
      [handle_all] takes rounds for the calls of handlers, twice the bytes
      and one are enough ([handle_all_rounds]); the loops on the table of
      headers take a round for an entry.
    - [ngx_utf8_length] passes the length of the text and one more.

    ** Not modelled

    - Of the driver: mongo_create_index, mongo_count, mongo_cmd_add_user, the
      hash of passwords (md5.c, a parameter), bcon.c, which the module does not
      call, numbers.c, which only changes the order of bytes.  The classes of
      GridFS for the client are not derived from mongo.c: what a server
      stores is not in the model of the driver.
    - nginx around these parts: the event loop, processes, memory pools,
      configuration files, the resolver ([getaddrinfo] is a parameter), the phases of a
      request, the other modules, upstreams but for the
      balancing of those whose servers are listed, TLS, mail and streams; of
      HTTP/2 the streams, flow control and every frame that has no headers.
      Allocation does not fail.
    - Logging, and the release of memory and of cursors.
    - clb-server and clb-api, which are Java.

    Next: the rest of ngx_http_parse.c (the status line, the headers of
    several lines), red-black trees and hashes of the core, the other frames
    of HTTP/2. *)

From stdpp Require Export base numbers list strings gmap.
From Stdlib Require Export ZArith Lia.
From Stdlib Require Import Strings.Byte.

#[export] Set Default Goal Selector "!".

(** ** Characters and byte strings

    A [u_char] is a [Z] between 0 and 255; memory regions and [ngx_str_t]
    values are [list Z].  The scope [%chr] writes a C character literal
    (["A"%chr] is [65]), and [bs "..."] a C string literal without its
    terminating NUL. *)

Declare Scope chr_scope.
Delimit Scope chr_scope with chr.

Definition chr_parse (l : list Byte.byte) : option Z :=
  match l with [b] => Some (Z.of_N (Byte.to_N b)) | _ => None end.
Definition chr_print (_ : Z) : option (list Byte.byte) := None.
String Notation Z chr_parse chr_print : chr_scope.

Fixpoint bs (s : string) : list Z :=
  match s with
  | EmptyString => []
  | String a s' => Z.of_N (Ascii.N_of_ascii a) :: bs s'
  end.

Open Scope Z_scope.

#[global] Arguments Z.leb : simpl never.
#[global] Arguments Z.ltb : simpl never.
#[global] Arguments Z.eqb : simpl never.
#[global] Arguments Z.add : simpl never.
#[global] Arguments Z.sub : simpl never.
#[global] Arguments Z.mul : simpl never.
#[global] Arguments Z.div : simpl never.
#[global] Arguments Z.modulo : simpl never.
#[global] Arguments Z.pow : simpl never.
#[global] Arguments Z.land : simpl never.
#[global] Arguments Z.lor : simpl never.
#[global] Arguments Z.shiftl : simpl never.
#[global] Arguments Z.shiftr : simpl never.
#[global] Arguments Z.testbit : simpl never.
#[global] Arguments Z.of_nat : simpl never.
#[global] Arguments Z.to_nat : simpl never.

Definition CR : Z := 13.
Definition LF : Z := 10.

Definition is_byte (b : Z) : Prop := 0 <= b < 256.
#[export] Instance is_byte_dec b : Decision (is_byte b).
Proof. unfold is_byte. apply _. Defined.
Abbreviation bytes := (Forall is_byte).

(** ** Machine integers

    Unsigned arithmetic wraps modulo [2^w]; [s32]/[s64] are the two's
    complement reading of the low bits, as conversions to [int] and
    [int64_t] behave on the targets of the code. *)

Definition u8 (z : Z) : Z := z mod 2 ^ 8.
Definition u16 (z : Z) : Z := z mod 2 ^ 16.
Definition u32 (z : Z) : Z := z mod 2 ^ 32.
Definition u64 (z : Z) : Z := z mod 2 ^ 64.
Definition s8 (z : Z) : Z := (z + 2 ^ 7) mod 2 ^ 8 - 2 ^ 7.
Definition s32 (z : Z) : Z := (z + 2 ^ 31) mod 2 ^ 32 - 2 ^ 31.
Definition s64 (z : Z) : Z := (z + 2 ^ 63) mod 2 ^ 64 - 2 ^ 63.

Definition INT_MAX : Z := 2147483647.
Definition INT_MIN : Z := -2147483648.

Ltac unfold_words := unfold u8, u16, u32, u64, s8, s32, s64 in *.

Lemma u64_small z : 0 <= z < 2 ^ 64 -> u64 z = z.
Proof. intros. unfold u64. by rewrite Z.mod_small. Qed.
Lemma u32_small z : 0 <= z < 2 ^ 32 -> u32 z = z.
Proof. intros. unfold u32. by rewrite Z.mod_small. Qed.
Lemma u16_small z : 0 <= z < 2 ^ 16 -> u16 z = z.
Proof. intros. unfold u16. by rewrite Z.mod_small. Qed.
Lemma u8_small z : 0 <= z < 2 ^ 8 -> u8 z = z.
Proof. intros. unfold u8. by rewrite Z.mod_small. Qed.
Lemma u8_is_byte z : is_byte (u8 z).
Proof. unfold is_byte, u8. apply Z.mod_pos_bound. lia. Qed.
Lemma s32_small z : INT_MIN <= z <= INT_MAX -> s32 z = z.
Proof. unfold INT_MIN, INT_MAX, s32. intros. rewrite Z.mod_small; lia. Qed.
Lemma s64_small z : - 2 ^ 63 <= z < 2 ^ 63 -> s64 z = z.
Proof. intros. unfold s64. rewrite Z.mod_small; lia. Qed.

(** ** Case analysis on the guards of the code

    [zcases] destructs every integer comparison of the goal and of the
    hypotheses into its propositional reading. *)

Lemma if_andb {A} (b1 b2 : bool) (x y : A) :
  (if b1 && b2 then x else y) = if b1 then (if b2 then x else y) else y.
Proof. by destruct b1. Qed.
Lemma if_orb {A} (b1 b2 : bool) (x y : A) :
  (if b1 || b2 then x else y) = if b1 then x else (if b2 then x else y).
Proof. by destruct b1. Qed.

Lemma leb_ext a b c d : (a <= b <-> c <= d) -> (a <=? b) = (c <=? d).
Proof. intros H. apply eq_true_iff_eq. by rewrite !Z.leb_le. Qed.
Lemma ltb_ext a b c d : (a < b <-> c < d) -> (a <? b) = (c <? d).
Proof. intros H. apply eq_true_iff_eq. by rewrite !Z.ltb_lt. Qed.

Ltac zcase :=
  match goal with
  | |- context [?a =? ?b] => destruct (Z.eqb_spec a b)
  | |- context [?a <=? ?b] => destruct (Z.leb_spec a b)
  | |- context [?a <? ?b] => destruct (Z.ltb_spec a b)
  | H : context [?a =? ?b] |- _ => destruct (Z.eqb_spec a b)
  | H : context [?a <=? ?b] |- _ => destruct (Z.leb_spec a b)
  | H : context [?a <? ?b] |- _ => destruct (Z.ltb_spec a b)
  end; simpl in *; try lia; try done.
Ltac zcases := repeat zcase.

(** Decidable facts about the integers of a finite range, by evaluation. *)
Lemma range_enum (lo n : Z) (P : Z -> Prop) `{!forall i, Decision (P i)} :
  forallb (fun i => bool_decide (P i)) (seqZ lo n) = true ->
  forall i, lo <= i < lo + n -> P i.
Proof.
  intros HP i Hi. rewrite forallb_forall in HP.
  eapply bool_decide_eq_true_1, HP, list_elem_of_In, elem_of_seqZ. lia.
Qed.

Lemma byte_enum (P : Z -> Prop) `{!forall i, Decision (P i)} :
  forallb (fun i => bool_decide (P i)) (seqZ 0 256) = true ->
  forall b, is_byte b -> P b.
Proof. intros HP b Hb. exact (range_enum 0 256 P HP b Hb). Qed.

Lemma byte_enum2 (P : Z -> Z -> Prop) `{!forall a b, Decision (P a b)} :
  forallb (fun a => forallb (fun b => bool_decide (P a b)) (seqZ 0 256))
    (seqZ 0 256) = true ->
  forall a b, is_byte a -> is_byte b -> P a b.
Proof.
  intros HP a b Ha Hb. refine (byte_enum (P a) _ b Hb).
  rewrite forallb_forall in HP. apply HP, list_elem_of_In, elem_of_seqZ.
  unfold is_byte in Ha. lia.
Qed.

(** [by_byte c] proves a goal about the byte [c] by enumeration;
    [by_range i lo n] one about [lo <= i < lo + n]. *)
Ltac by_byte c :=
  match goal with H : is_byte c |- _ => pattern c; revert c H end;
  refine (byte_enum _ _); vm_compute; reflexivity.
Ltac by_range i lo n :=
  pattern i; refine (range_enum lo n _ _ i _); [vm_compute; reflexivity | lia].

Lemma forallb_replicate_true {A} (f : A -> bool) (n : nat) (x : A) :
  f x = true -> forallb f (replicate n x) = true.
Proof. intros H. induction n as [|n IH]; [done|]. simpl. by rewrite H. Qed.

(** ** Integers in memory

    [le n z] is the little-endian representation of [z] in [n] bytes,
    [le_value] the number such bytes denote. *)

Fixpoint le (n : nat) (z : Z) : list Z :=
  match n with
  | O => []
  | S n' => z mod 256 :: le n' (z / 256)
  end.

Fixpoint le_value (l : list Z) : Z :=
  match l with
  | [] => 0
  | c :: l' => c + 256 * le_value l'
  end.

Lemma le_length n z : length (le n z) = n.
Proof. revert z. induction n as [|n IH]; intros z; simpl; [done|]. by rewrite IH. Qed.

Lemma le_bytes n z : bytes (le n z).
Proof.
  revert z. induction n as [|n IH]; intros z; simpl; constructor; [|done].
  unfold is_byte. apply Z.mod_pos_bound. lia.
Qed.

Lemma le_value_le n z : le_value (le n z) = z mod 256 ^ Z.of_nat n.
Proof.
  revert z. induction n as [|n IH]; intros z; simpl.
  { by rewrite Z.mod_1_r. }
  rewrite IH, Nat2Z.inj_succ, Z.pow_succ_r by lia.
  rewrite Z.rem_mul_r by lia. done.
Qed.

Lemma s32_le z : INT_MIN <= z <= INT_MAX -> s32 (le_value (le 4 z)) = z.
Proof.
  intros Hz. rewrite le_value_le. change (256 ^ Z.of_nat 4) with (2 ^ 32).
  unfold s32. rewrite Zplus_mod_idemp_l. by apply s32_small.
Qed.

Lemma s64_le z : - 2 ^ 63 <= z < 2 ^ 63 -> s64 (le_value (le 8 z)) = z.
Proof.
  intros Hz. rewrite le_value_le. change (256 ^ Z.of_nat 8) with (2 ^ 64).
  unfold s64. rewrite Zplus_mod_idemp_l. by apply s64_small.
Qed.

(** ** Field assignment

    [r <| f := v |>] is the record [r] after [r->f = v].  A record becomes
    settable by giving its eta-expansion through its projections. *)

Class Settable (R : Type) := eta_expand : R -> R.
Class Setter {R E : Type} (proj : R -> E) := set : E -> R -> R.
Arguments set {R E} proj {_} v !r /.

Ltac solve_setter :=
  lazymatch goal with
  | |- @Setter ?R ?E ?proj =>
      exact (fun (v : E) (r : R) =>
        ltac:(let b := eval hnf in (@eta_expand R _ r) in
              lazymatch b with
              | context C [proj r] => let b' := context C [v] in exact b'
              end))
  end.
#[export] Hint Extern 1 (Setter _) => solve_setter : typeclass_instances.

Notation "r <| f := v |>" := (set f v r)
  (at level 1, left associativity, v at level 200).

(** ** Scanning loops

    The parsers of the code are loops [for (p = b->pos; p < b->last; p++)]
    around a [switch (state)].  [scan] is that loop: [step p ch s] is the
    switch on the character [ch] at offset [p]; [Continue] is its [break],
    [Return] its [return] or [goto].  The result says where the loop stopped. *)

Inductive step_result (S R : Type) : Type :=
  | Continue (s : S)
  | Return (r : R).
Arguments Continue {S R} s.
Arguments Return {S R} r.

Section Scan.
Context {S R : Type} (step : Z -> Z -> S -> step_result S R).

Fixpoint scan (p : Z) (l : list Z) (s : S) : Z * step_result S R :=
  match l with
  | [] => (p, Continue s)
  | ch :: l' =>
      match step p ch s with
      | Continue s' => scan (p + 1) l' s'
      | Return r => (p, Return r)
      end
  end.

(** Scanning a buffer that arrives in two pieces is scanning it whole. *)
Lemma scan_app p l1 l2 s :
  scan p (l1 ++ l2) s =
    match scan p l1 s with
    | (p', Continue s') => scan p' l2 s'
    | r => r
    end.
Proof.
  revert p s. induction l1 as [|ch l1 IH]; intros p s; simpl; [done|].
  by destruct (step p ch s).
Qed.

Lemma scan_continue_pos p l s p' s' :
  scan p l s = (p', Continue s') -> p' = p + Z.of_nat (length l).
Proof.
  revert p s. induction l as [|ch l IH]; intros p s; simpl.
  - intros [= -> ->]. lia.
  - destruct (step p ch s) as [s1|r]; [|done]. intros H%IH. lia.
Qed.

Lemma scan_return_pos p l s p' r :
  scan p l s = (p', Return r) ->
  p <= p' < p + Z.of_nat (length l).
Proof.
  revert p s. induction l as [|ch l IH]; intros p s; simpl; [done|].
  destruct (step p ch s) as [s1|r1].
  - intros H%IH. lia.
  - intros [= -> ->]. lia.
Qed.

Lemma scan_return_step p l s p' r :
  scan p l s = (p', Return r) -> exists ch s', step p' ch s' = Return r.
Proof.
  revert p s. induction l as [|ch l IH]; intros p s; simpl; [done|].
  destruct (step p ch s) as [s1|r1] eqn:E; [apply IH|].
  intros [= -> ->]. by exists ch, s.
Qed.

(** Invariants of the loop: [I p s] holds before each character. *)
Lemma scan_inv (I : Z -> S -> Prop) (Q : Z -> R -> Prop) :
  (forall p ch s s', I p s -> step p ch s = Continue s' -> I (p + 1) s') ->
  (forall p ch s r, I p s -> step p ch s = Return r -> Q p r) ->
  forall l p s, I p s ->
    match scan p l s with
    | (p', Continue s') => I p' s'
    | (p', Return r) => Q p' r
    end.
Proof.
  intros Hc Hr l. induction l as [|ch l IH]; intros p s HI; simpl; [done|].
  destruct (step p ch s) as [s1|r1] eqn:E; [|by eapply Hr].
  by apply IH; eapply Hc.
Qed.
End Scan.

(** ** Return codes (src/core/ngx_core.h) *)

Definition NGX_OK : Z := 0.
Definition NGX_ERROR : Z := -1.
Definition NGX_AGAIN : Z := -2.
Definition NGX_BUSY : Z := -3.
Definition NGX_DONE : Z := -4.
Definition NGX_DECLINED : Z := -5.

(** Limits of a 64-bit build (src/core/ngx_config.h, auto/types). *)
Definition NGX_MAX_INT_T_VALUE : Z := 9223372036854775807.
Definition NGX_MAX_SIZE_T_VALUE : Z := 9223372036854775807.
Definition NGX_MAX_OFF_T_VALUE : Z := 9223372036854775807.
Definition NGX_MAX_TIME_T_VALUE : Z := 9223372036854775807.
Definition NGX_MAX_UINT32_VALUE : Z := 4294967295.
Definition NGX_INT64_LEN : nat := 20.

(** ** State passing, with undefined behaviour *)

Definition M (W A : Type) : Type := W -> option (A * W).
#[export] Instance M_ret W : MRet (M W) := fun A x w => Some (x, w).
#[export] Instance M_bind W : MBind (M W) := fun A B f x w =>
  match x w with Some (a, w') => f a w' | None => None end.
Definition io {W A} (f : W -> A * W) : M W A := fun w => Some (f w).
Definition crash {W A} : M W A := fun _ => None.
Definition or_crash {W A} (x : option A) : M W A :=
  match x with Some a => mret a | None => crash end.
Definition tell {W} (f : W -> W) : M W unit := fun w => Some (tt, f w).
Definition ask {W A} (f : W -> A) : M W A := fun w => Some (f w, w).

(** A loop whose rounds are bounded in the model: it came to its end, or its
    rounds were used up.  This is not undefined behaviour, which is [None]. *)
Inductive bounded (A : Type) := Ended (a : A) | Unfinished.
Arguments Ended {A} a.
Arguments Unfinished {A}.
Definition within {A} (x : option A) : bounded A := match x with Some a => Ended a | None => Unfinished end.
Definition after_end {W A B} (m : M W (bounded A)) (k : A -> M W (bounded B)) : M W (bounded B) :=
  o ← m; match o with Ended a => k a | Unfinished => mret Unfinished end.
Notation "x <~ m ; k" := (after_end m (fun x => k)) (at level 20, m at level 100, k at level 200).
Notation "' x <~ m ; k" := (after_end m (fun p => match p with x => k end))
  (at level 20, x pattern, m at level 100, k at level 200).

Lemma bind_eq {W A B} (m : M W A) (k : A -> M W B) w a w' :
  m w = Some (a, w') -> (m ≫= k) w = k a w'.
Proof. intros E. unfold mbind, M_bind. by rewrite E. Qed.
Lemma bind_or_crash {W A B} (a : A) (k : A -> M W B) w : (or_crash (Some a) ≫= k) w = k a w.
Proof. done. Qed.
Lemma bind_io {W A B} (f : W -> A * W) (k : A -> M W B) w : (io f ≫= k) w = k (f w).1 (f w).2.
Proof. unfold mbind, M_bind, io. by destruct (f w). Qed.

Lemma after_end_eq {W A B} (m : M W (bounded A)) (k : A -> M W (bounded B)) w a w' :
  m w = Some (Ended a, w') -> after_end m k w = k a w'.
Proof. intros E. unfold after_end. by rewrite (bind_eq _ _ _ _ _ E). Qed.

(** [run E] goes on after a step whose result is the equation [E]. *)
Ltac run E := rewrite (bind_eq _ _ _ _ _ E).
