(* ===== verification/NgxNumbers.v ===== *)
(** * Numeric parsing and printing (src/core/ngx_string.c)

    [ngx_atoi] and its siblings, [ngx_atofp], [ngx_hextoi], [ngx_hex_dump]
    and [ngx_sprintf_num].  A pair [(u_char *line, size_t n)] is the list of
    the [n] bytes read. *)

From S2P Require Import Prelude.

Definition is_digit (c : Z) : bool := ("0"%chr <=? c) && (c <=? "9"%chr).

(** ** The decimal parsers *)

(** [src/core/ngx_string.c:913-923] ngx_atoi: the loop the five decimal
    parsers share, for a given [cutoff] and [cutlim]. *)
Fixpoint atoi_loop (cutoff cutlim value : Z) (line : list Z) : Z :=
  match line with
  | [] => value
  | c :: line' =>
      if (c <? "0"%chr) || ("9"%chr <? c) then NGX_ERROR
      else if (cutoff <=? value)
              && ((cutoff <? value) || (cutlim <? c - "0"%chr))
      then NGX_ERROR
      else atoi_loop cutoff cutlim (value * 10 + (c - "0"%chr)) line'
  end.

(** [src/core/ngx_string.c:901-926] ngx_atoi *)
Definition ngx_atoi (line : list Z) : Z :=
  match line with
  | [] => NGX_ERROR
  | _ => atoi_loop (NGX_MAX_INT_T_VALUE / 10) (NGX_MAX_INT_T_VALUE mod 10) 0 line
  end.

(** [src/core/ngx_string.c:985-1010] ngx_atosz *)
Definition ngx_atosz (line : list Z) : Z :=
  match line with
  | [] => NGX_ERROR
  | _ => atoi_loop (NGX_MAX_SIZE_T_VALUE / 10) (NGX_MAX_SIZE_T_VALUE mod 10) 0 line
  end.

(** [src/core/ngx_string.c:1013-1038] ngx_atoof *)
Definition ngx_atoof (line : list Z) : Z :=
  match line with
  | [] => NGX_ERROR
  | _ => atoi_loop (NGX_MAX_OFF_T_VALUE / 10) (NGX_MAX_OFF_T_VALUE mod 10) 0 line
  end.

(** [src/core/ngx_string.c:1041-1066] ngx_atotm *)
Definition ngx_atotm (line : list Z) : Z :=
  match line with
  | [] => NGX_ERROR
  | _ => atoi_loop (NGX_MAX_TIME_T_VALUE / 10) (NGX_MAX_TIME_T_VALUE mod 10) 0 line
  end.

(** [src/core/ngx_string.c:944-971] ngx_atofp: the digit loop, which keeps
    the value, the remaining [point] and whether the dot was seen. *)
Fixpoint atofp_loop (cutoff cutlim value point : Z) (dot : bool)
    (line : list Z) : option (Z * Z) :=
  match line with
  | [] => Some (value, point)
  | c :: line' =>
      if point =? 0 then None
      else if c =? "."%chr then
        if dot then None else atofp_loop cutoff cutlim value point true line'
      else if (c <? "0"%chr) || ("9"%chr <? c) then None
      else if (cutoff <=? value)
              && ((cutoff <? value) || (cutlim <? c - "0"%chr))
      then None
      else atofp_loop cutoff cutlim (value * 10 + (c - "0"%chr))
             (if dot then point - 1 else point) dot line'
  end.

(** [src/core/ngx_string.c:973-981] ngx_atofp: the final scaling
    [while (point--)]. *)
Fixpoint atofp_scale (cutoff value : Z) (point : nat) : Z :=
  match point with
  | O => value
  | S point' =>
      if cutoff <? value then NGX_ERROR
      else atofp_scale cutoff (value * 10) point'
  end.

(** [src/core/ngx_string.c:931-982] ngx_atofp *)
Definition ngx_atofp (line : list Z) (point : Z) : Z :=
  match line with
  | [] => NGX_ERROR
  | _ =>
      let cutoff := NGX_MAX_INT_T_VALUE / 10 in
      let cutlim := NGX_MAX_INT_T_VALUE mod 10 in
      match atofp_loop cutoff cutlim 0 point false line with
      | None => NGX_ERROR
      | Some (value, point') => atofp_scale cutoff value (Z.to_nat point')
      end
  end.

(** ** Hexadecimal *)

(** [src/core/ngx_string.c:1081-1103] ngx_hextoi: the loop. *)
Fixpoint hextoi_loop (cutoff value : Z) (line : list Z) : Z :=
  match line with
  | [] => value
  | ch :: line' =>
      if cutoff <? value then NGX_ERROR
      else if ("0"%chr <=? ch) && (ch <=? "9"%chr) then
        hextoi_loop cutoff (value * 16 + (ch - "0"%chr)) line'
      else
        let c := u8 (Z.lor ch 32) in
        if ("a"%chr <=? c) && (c <=? "f"%chr) then
          hextoi_loop cutoff (value * 16 + (c - "a"%chr + 10)) line'
        else NGX_ERROR
  end.

(** [src/core/ngx_string.c:1069-1104] ngx_hextoi *)
Definition ngx_hextoi (line : list Z) : Z :=
  match line with
  | [] => NGX_ERROR
  | _ => hextoi_loop (NGX_MAX_INT_T_VALUE / 16) 0 line
  end.

Definition hex_lower : list Z := bs "0123456789abcdef".
Definition hex_upper : list Z := bs "0123456789ABCDEF".

(** [src/core/ngx_string.c:1107-1118] ngx_hex_dump *)
Fixpoint ngx_hex_dump (src : list Z) : list Z :=
  match src with
  | [] => []
  | c :: src' =>
      hex_lower !!! Z.to_nat (Z.shiftr c 4)
      :: hex_lower !!! Z.to_nat (Z.land c 15)
      :: ngx_hex_dump src'
  end.

(** ** Printing numbers *)

(** [src/core/ngx_string.c:491-541] ngx_sprintf_num: one of the
    [do { *--p = ...; } while (ui64 ...)] loops.  [room] is how many bytes of
    [temp] are left below [p]; writing below [temp] is [None]. *)
Fixpoint num_digits (digits : list Z) (base : Z) (room : nat)
    (ui64 : Z) (p : list Z) : option (list Z) :=
  match room with
  | O => None
  | S room' =>
      let p' := digits !!! Z.to_nat (ui64 mod base) :: p in
      let ui64' := ui64 / base in
      if ui64' =? 0 then Some p' else num_digits digits base room' ui64' p'
  end.

(** [src/core/ngx_string.c:477-560] ngx_sprintf_num: the bytes written at
    [buf], [room] being [last - buf].  The two decimal branches differ only in
    the width of the division, and [hex[ui64 & 0xf]] with [ui64 >>= 4] is the
    division by 16. *)
Definition ngx_sprintf_num (room : nat) (ui64 zero hexadecimal : Z)
    (width : nat) : option (list Z) :=
  let digits :=
    if hexadecimal =? 0 then
      if ui64 <=? NGX_MAX_UINT32_VALUE
      then num_digits hex_lower 10 NGX_INT64_LEN (u32 ui64) []
      else num_digits hex_lower 10 NGX_INT64_LEN ui64 []
    else if hexadecimal =? 1
    then num_digits hex_lower 16 NGX_INT64_LEN ui64 []
    else num_digits hex_upper 16 NGX_INT64_LEN ui64 [] in
  match digits with
  | None => None
  | Some p =>
      let pad := Nat.min (width - length p) room in
      let room' := (room - pad)%nat in
      Some (replicate pad zero ++ take (Nat.min (length p) room') p)
  end.

(** ** Reference values *)

(** The number a string of digits denotes, continuing from [v]. *)
Definition dec_from (v : Z) (l : list Z) : Z :=
  fold_left (fun v c => v * 10 + (c - "0"%chr)) l v.
Definition dec_value (l : list Z) : Z := dec_from 0 l.
Arguments dec_from : simpl never.

(** What a decimal parser with limit [max] promises. *)
Definition dec_parse (max : Z) (l : list Z) : Z :=
  if bool_decide (l <> []) && forallb is_digit l && (dec_value l <=? max)
  then dec_value l else NGX_ERROR.

Definition hex_digit (c : Z) : option Z :=
  if ("0"%chr <=? c) && (c <=? "9"%chr) then Some (c - "0"%chr)
  else if ("a"%chr <=? c) && (c <=? "f"%chr) then Some (c - "a"%chr + 10)
  else if ("A"%chr <=? c) && (c <=? "F"%chr) then Some (c - "A"%chr + 10)
  else None.

(** The big-endian number a byte string denotes. *)
Definition be_value (l : list Z) : Z := fold_left (fun v c => v * 256 + c) l 0.

Lemma dec_from_cons v c l :
  dec_from v (c :: l) = dec_from (v * 10 + (c - "0"%chr)) l.
Proof. done. Qed.

Lemma dec_from_ge v l :
  0 <= v -> forallb is_digit l = true -> v <= dec_from v l.
Proof.
  revert v. induction l as [|c l IH]; intros v Hv; simpl; [unfold dec_from; simpl; lia|].
  intros [Hc Hl]%andb_prop. rewrite dec_from_cons. unfold is_digit in Hc.
  etransitivity; [|apply IH; [lia | done]]. lia.
Qed.

Lemma atoi_loop_spec max v l :
  9 <= max -> 0 <= v <= max ->
  atoi_loop (max / 10) (max mod 10) v l =
    if forallb is_digit l && (dec_from v l <=? max)
    then dec_from v l else NGX_ERROR.
Proof.
  intros Hmax. revert v. induction l as [|c l IH]; intros v Hv; simpl.
  { unfold dec_from; simpl. by rewrite (proj2 (Z.leb_le v max)) by lia. }
  pose proof (Z.div_mod max 10 ltac:(lia)). pose proof (Z.mod_pos_bound max 10 ltac:(lia)).
  destruct (is_digit c) eqn:Hc; unfold is_digit in Hc.
  2: { replace ((c <? _) || _) with true by lia. done. }
  replace ((c <? _) || _) with false by lia. simpl.
  rewrite dec_from_cons.
  destruct ((max / 10 <=? v) && _) eqn:Hov.
  - destruct (forallb is_digit l) eqn:Hl; [|done]. simpl.
    pose proof (dec_from_ge (v * 10 + (c - "0"%chr)) l ltac:(lia) Hl).
    by rewrite (proj2 (Z.leb_gt _ _)) by lia.
  - apply IH. lia.
Qed.

Lemma atoi_spec max l :
  9 <= max ->
  match l with [] => NGX_ERROR | _ => atoi_loop (max / 10) (max mod 10) 0 l end
  = dec_parse max l.
Proof.
  intros Hmax. unfold dec_parse, dec_value. destruct l as [|c l]; [done|].
  rewrite atoi_loop_spec by lia. by rewrite bool_decide_true.
Qed.

(** ** Printing *)

Section NumDigits.
Context (digits : list Z) (base : Z) (val : Z -> Z).
Context (Hbase : 2 <= base).
Context (Hval : forall i, 0 <= i < base -> val (digits !!! Z.to_nat i) = i).

Definition num_value (l : list Z) : Z :=
  fold_left (fun v c => v * base + val c) l 0.
Definition is_num (l : list Z) : Prop :=
  Forall (fun c => exists i, 0 <= i < base /\ c = digits !!! Z.to_nat i) l.

Lemma num_value_snoc l c : num_value (l ++ [c]) = num_value l * base + val c.
Proof. unfold num_value. by rewrite fold_left_app. Qed.

(** Enough room below [p] for all the digits: the loop writes inside
    [temp] and what it writes denotes the number. *)
Lemma num_digits_spec room n p :
  0 <= n < base ^ Z.of_nat room -> room <> O ->
  exists d, num_digits digits base room n p = Some (d ++ p)
    /\ (0 < length d <= room)%nat /\ is_num d /\ num_value d = n.
Proof.
  revert n p. induction room as [|room IH]; intros n p Hn Hroom; [done|].
  simpl. pose proof (Z.mod_pos_bound n base ltac:(lia)) as Hm.
  assert (Hc : is_num [digits !!! Z.to_nat (n mod base)]).
  { constructor; [|done]. by exists (n mod base). }
  pose proof (Z.div_mod n base ltac:(lia)) as Hdm.
  rewrite Nat2Z.inj_succ, Z.pow_succ_r in Hn by lia.
  destruct (Z.eqb_spec (n / base) 0) as [H0|H0].
  - exists [digits !!! Z.to_nat (n mod base)]. split_and!; try done; simpl; try lia.
    unfold num_value; simpl. rewrite Hval by done. lia.
  - destruct room as [|room]; [simpl in Hn; rewrite Z.div_small in H0; lia|].
    destruct (IH (n / base) (digits !!! Z.to_nat (n mod base) :: p))
      as (d & -> & Hlen & Hd & Hv); [|done|].
    { split; [apply Z.div_pos; lia | apply Z.div_lt_upper_bound; lia]. }
    exists (d ++ [digits !!! Z.to_nat (n mod base)]).
    rewrite <- app_assoc, length_app, num_value_snoc, Hval by done. simpl.
    split_and!; [done | lia | lia | by apply Forall_app | lia].
Qed.
End NumDigits.

#[global] Arguments num_digits : simpl never.

Definition hex_val (c : Z) : Z := default 0 (hex_digit c).

Lemma digit_lookup (digits : list Z) (base : Z) :
  digits = hex_lower /\ (base = 10 \/ base = 16) \/ digits = hex_upper /\ base = 16 ->
  forall i, 0 <= i < base -> hex_val (digits !!! Z.to_nat i) = i.
Proof.
  intros Hd i Hi.
  assert (0 <= i < 16) by (destruct Hd as [[_ [-> | ->]] | [_ ->]]; lia).
  destruct Hd as [[-> _] | [-> _]]; by_range i 0 16.
Qed.

Lemma dec_from_num l v :
  forallb is_digit l = true ->
  dec_from v l = fold_left (fun v c => v * 10 + hex_val c) l v.
Proof.
  revert v. induction l as [|c l IH]; intros v; [done|].
  simpl. intros [Hc Hl]%andb_prop. rewrite dec_from_cons, IH by done.
  unfold hex_val, hex_digit. unfold is_digit in Hc. by rewrite Hc.
Qed.

Lemma is_num_dec l : is_num hex_lower 10 l -> forallb is_digit l = true.
Proof.
  induction 1 as [|c l (i & Hi & ->) _ IH]; [done|]. simpl. rewrite IH.
  rewrite andb_true_r. by_range i 0 10.
Qed.

Lemma decimal_parsers_spec line :
  ngx_atoi line = dec_parse NGX_MAX_INT_T_VALUE line /\
  ngx_atosz line = dec_parse NGX_MAX_SIZE_T_VALUE line /\
  ngx_atoof line = dec_parse NGX_MAX_OFF_T_VALUE line /\
  ngx_atotm line = dec_parse NGX_MAX_TIME_T_VALUE line.
Proof. split_and!; by apply atoi_spec. Qed.

(** *** [ngx_hextoi] *)

Definition hex_from (v : Z) (l : list Z) : Z :=
  fold_left (fun v c => v * 16 + hex_val c) l v.
Arguments hex_from : simpl never.

Definition is_hex (c : Z) : bool := bool_decide (is_Some (hex_digit c)).

Lemma hex_digit_range c d : hex_digit c = Some d -> 0 <= d < 16.
Proof. unfold hex_digit. intros H. zcases; injection H as <-; lia. Qed.

Lemma hextoi_step cutoff v c l :
  is_byte c ->
  hextoi_loop cutoff v (c :: l) =
    if cutoff <? v then NGX_ERROR
    else match hex_digit c with
         | Some d => hextoi_loop cutoff (v * 16 + d) l
         | None => NGX_ERROR
         end.
Proof.
  intros Hc. simpl. destruct (cutoff <? v); [done|].
  assert (E : hex_digit c = (if ("0"%chr <=? c) && (c <=? "9"%chr) then Some (c - "0"%chr)
     else if ("a"%chr <=? u8 (Z.lor c 32)) && (u8 (Z.lor c 32) <=? "f"%chr)
          then Some (u8 (Z.lor c 32) - "a"%chr + 10) else None)).
  { by_byte c. }
  rewrite E. destruct (("0"%chr <=? c) && _); [done|]. by destruct (("a"%chr <=? _) && _).
Qed.

Lemma hex_from_ge v l : 0 <= v -> v <= hex_from v l.
Proof.
  revert v. induction l as [|c l IH]; intros v Hv; unfold hex_from; simpl; [lia|].
  assert (0 <= hex_val c < 16).
  { unfold hex_val. destruct (hex_digit c) eqn:E; simpl; [|lia].
    by apply hex_digit_range in E. }
  etransitivity; [|apply (IH (v * 16 + hex_val c))]; lia.
Qed.

(** The limit of the loop, [max mod 16 = 15]: no digit can overflow once
    [value <= cutoff]. *)
Lemma hextoi_loop_spec v l :
  bytes l -> 0 <= v <= NGX_MAX_INT_T_VALUE ->
  hextoi_loop (NGX_MAX_INT_T_VALUE / 16) v l =
    if forallb is_hex l && (hex_from v l <=? NGX_MAX_INT_T_VALUE)
    then hex_from v l else NGX_ERROR.
Proof.
  change (NGX_MAX_INT_T_VALUE / 16) with (2 ^ 59 - 1).
  change NGX_MAX_INT_T_VALUE with (2 ^ 63 - 1).
  intros Hl. revert v. induction Hl as [|c l Hc Hl IH]; intros v Hv.
  { unfold hex_from; simpl. by rewrite (proj2 (Z.leb_le _ _)) by lia. }
  rewrite hextoi_step by done. simpl. unfold is_hex at 1.
  change (hex_from v (c :: l)) with (hex_from (v * 16 + hex_val c) l).
  unfold hex_val. destruct (hex_digit c) as [d|] eqn:Hd; simpl.
  2: by destruct (_ <? v).
  apply hex_digit_range in Hd. destruct (Z.ltb_spec (2 ^ 59 - 1) v).
  - pose proof (hex_from_ge (v * 16 + d) l ltac:(lia)).
    rewrite (proj2 (Z.leb_gt _ _)) by lia. by rewrite andb_false_r.
  - apply IH. lia.
Qed.

Lemma is_num_hex digits l :
  digits = hex_lower \/ digits = hex_upper ->
  is_num digits 16 l -> forallb is_hex l = true /\ bytes l.
Proof.
  intros Hd. induction 1 as [|c l (i & Hi & ->) _ [IH1 IH2]]; [done|]. simpl. rewrite IH1.
  rewrite andb_true_r, Forall_cons.
  split; [|split; [|done]]; destruct Hd as [-> | ->]; by_range i 0 16.
Qed.

(** *** [ngx_atofp] *)

Lemma atofp_loop_int max v point l :
  9 <= max -> 0 <= v <= max -> 0 < point -> forallb is_digit l = true ->
  forall rest,
  atofp_loop (max / 10) (max mod 10) v point false (l ++ rest) =
    if dec_from v l <=? max
    then atofp_loop (max / 10) (max mod 10) (dec_from v l) point false rest
    else None.
Proof.
  intros Hmax. revert v. induction l as [|c l IH]; intros v Hv Hp Hl rest; simpl.
  { unfold dec_from; simpl. by rewrite (proj2 (Z.leb_le v max)) by lia. }
  simpl in Hl. apply andb_prop in Hl as [Hc Hl]. unfold is_digit in Hc.
  pose proof (Z.div_mod max 10 ltac:(lia)). pose proof (Z.mod_pos_bound max 10 ltac:(lia)).
  replace (point =? 0) with false by lia. replace (c =? "."%chr) with false by lia.
  replace ((c <? _) || _) with false by lia. rewrite dec_from_cons.
  destruct ((max / 10 <=? v) && _) eqn:Hov.
  - pose proof (dec_from_ge (v * 10 + (c - "0"%chr)) l ltac:(lia) Hl).
    by rewrite (proj2 (Z.leb_gt _ _)) by lia.
  - apply IH; try done; lia.
Qed.

Lemma atofp_loop_frac max v point l :
  9 <= max -> 0 <= v <= max -> 0 <= point -> forallb is_digit l = true ->
  atofp_loop (max / 10) (max mod 10) v point true l =
    if (dec_from v l <=? max) && (Z.of_nat (length l) <=? point)
    then Some (dec_from v l, point - Z.of_nat (length l))
    else None.
Proof.
  intros Hmax. revert v point. induction l as [|c l IH]; intros v point Hv Hp Hl; simpl.
  { unfold dec_from; simpl. rewrite (proj2 (Z.leb_le v max)) by lia.
    rewrite (proj2 (Z.leb_le (Z.of_nat 0) point)) by lia. by rewrite Z.sub_0_r. }
  simpl in Hl. apply andb_prop in Hl as [Hc Hl]. unfold is_digit in Hc.
  pose proof (Z.div_mod max 10 ltac:(lia)). pose proof (Z.mod_pos_bound max 10 ltac:(lia)).
  rewrite dec_from_cons. destruct (Z.eqb_spec point 0) as [->|Hp0].
  { rewrite (proj2 (Z.leb_gt (Z.of_nat _) 0)) by lia. by rewrite andb_false_r. }
  replace (c =? "."%chr) with false by lia.
  replace ((c <? _) || _) with false by lia.
  destruct ((max / 10 <=? v) && _) eqn:Hov.
  - pose proof (dec_from_ge (v * 10 + (c - "0"%chr)) l ltac:(lia) Hl).
    by rewrite (proj2 (Z.leb_gt (dec_from _ _) max)) by lia.
  - rewrite IH by (try done; lia).
    replace (Z.of_nat (length l) <=? point - 1)
      with (Z.of_nat (S (length l)) <=? point) by (apply leb_ext; lia).
    by replace (point - 1 - Z.of_nat (length l))
      with (point - Z.of_nat (S (length l))) by lia.
Qed.

Lemma atofp_scale_spec max v n :
  9 <= max -> 0 <= v <= max ->
  atofp_scale (max / 10) v n =
    if v * 10 ^ Z.of_nat n <=? max then v * 10 ^ Z.of_nat n else NGX_ERROR.
Proof.
  intros Hmax. revert v. induction n as [|n IH]; intros v Hv; simpl.
  { rewrite Z.mul_1_r. by rewrite (proj2 (Z.leb_le _ _)) by lia. }
  pose proof (Z.div_mod max 10 ltac:(lia)). pose proof (Z.mod_pos_bound max 10 ltac:(lia)).
  rewrite Nat2Z.inj_succ, Z.pow_succ_r by lia.
  pose proof (Z.pow_pos_nonneg 10 (Z.of_nat n) ltac:(lia) ltac:(lia)).
  destruct (Z.ltb_spec (max / 10) v).
  - by rewrite (proj2 (Z.leb_gt _ _)) by nia.
  - rewrite IH by lia.
    by replace (v * 10 * 10 ^ Z.of_nat n) with (v * (10 * 10 ^ Z.of_nat n)) by lia.
Qed.

(** *** [ngx_sprintf_num] and [ngx_hex_dump] *)

Definition printed_digits (hexadecimal : Z) : list Z :=
  if hexadecimal =? 2 then hex_upper else hex_lower.
Definition printed_base (hexadecimal : Z) : Z :=
  if hexadecimal =? 0 then 10 else 16.

Lemma sprintf_num_branch n hexadecimal :
  0 <= n < 2 ^ 64 -> 0 <= hexadecimal <= 2 ->
  (if hexadecimal =? 0 then
     if n <=? NGX_MAX_UINT32_VALUE
     then num_digits hex_lower 10 NGX_INT64_LEN (u32 n) []
     else num_digits hex_lower 10 NGX_INT64_LEN n []
   else if hexadecimal =? 1
   then num_digits hex_lower 16 NGX_INT64_LEN n []
   else num_digits hex_upper 16 NGX_INT64_LEN n [])
  = num_digits (printed_digits hexadecimal) (printed_base hexadecimal) NGX_INT64_LEN n [].
Proof.
  intros Hn Hx. unfold printed_digits, printed_base.
  destruct (Z.eqb_spec hexadecimal 0) as [->|]; simpl.
  - destruct (n <=? NGX_MAX_UINT32_VALUE) eqn:E; [|done].
    by rewrite u32_small by (unfold NGX_MAX_UINT32_VALUE in E; lia).
  - destruct (Z.eqb_spec hexadecimal 1) as [->|]; [done|].
    by replace (hexadecimal =? 2) with true by lia.
Qed.

Lemma sprintf_num_digits room n zero hexadecimal width :
  0 <= n < 2 ^ 64 -> 0 <= hexadecimal <= 2 ->
  exists d,
    ngx_sprintf_num room n zero hexadecimal width =
      Some (let pad := Nat.min (width - length d) room in
            replicate pad zero ++ take (Nat.min (length d) (room - pad)) d)
    /\ (0 < length d <= 20)%nat
    /\ is_num (printed_digits hexadecimal) (printed_base hexadecimal) d
    /\ num_value (printed_base hexadecimal) hex_val d = n.
Proof.
  intros Hn Hx.
  assert (Hx' : hexadecimal = 0 \/ hexadecimal = 1 \/ hexadecimal = 2) by lia.
  assert (Hpow : 2 ^ 64 <= printed_base hexadecimal ^ Z.of_nat NGX_INT64_LEN).
  { destruct Hx' as [-> | [-> | ->]]; by vm_compute. }
  destruct (num_digits_spec (printed_digits hexadecimal) (printed_base hexadecimal)
              hex_val) with (room := NGX_INT64_LEN) (n := n) (p := @nil Z)
    as (d & Hd & Hlen & Hnum & Hval).
  - clear. unfold printed_base. destruct (hexadecimal =? 0); lia.
  - clear - Hx'. apply digit_lookup. unfold printed_digits, printed_base.
    destruct Hx' as [-> | [-> | ->]]; [left | left | right]; split; auto.
  - lia.
  - by unfold NGX_INT64_LEN.
  - exists d. split; [|done]. rewrite app_nil_r in Hd.
    unfold ngx_sprintf_num. rewrite sprintf_num_branch, Hd by done. reflexivity.
Qed.

Lemma dec_from_zeros k v l :
  dec_from v (replicate k "0"%chr ++ l) = dec_from (v * 10 ^ Z.of_nat k) l.
Proof.
  revert v. induction k as [|k IH]; intros v; simpl.
  { by rewrite Z.pow_0_r, Z.mul_1_r. }
  rewrite dec_from_cons, IH, Nat2Z.inj_succ, Z.pow_succ_r by lia. f_equal. lia.
Qed.

Lemma hex_from_zeros k v l :
  hex_from v (replicate k "0"%chr ++ l) = hex_from (v * 16 ^ Z.of_nat k) l.
Proof.
  revert v. induction k as [|k IH]; intros v; simpl.
  { by rewrite Z.pow_0_r, Z.mul_1_r. }
  change (hex_from v (?c :: ?l)) with (hex_from (v * 16 + hex_val c) l).
  rewrite IH, Nat2Z.inj_succ, Z.pow_succ_r by lia. f_equal.
  change (hex_val "0"%chr) with 0. lia.
Qed.

Lemma hex_dump_byte c :
  is_byte c ->
  let hi := hex_lower !!! Z.to_nat (Z.shiftr c 4) in
  let lo := hex_lower !!! Z.to_nat (Z.land c 15) in
  hex_val hi * 16 + hex_val lo = c
  /\ is_hex hi = true /\ is_hex lo = true /\ is_byte hi /\ is_byte lo.
Proof. intros Hc. by_byte c. Qed.

Lemma hex_dump_from v src :
  bytes src ->
  hex_from v (ngx_hex_dump src) = fold_left (fun v c => v * 256 + c) src v
  /\ forallb is_hex (ngx_hex_dump src) = true /\ bytes (ngx_hex_dump src).
Proof.
  intros Hs. revert v. induction Hs as [|c src Hc Hs IH]; intros v; [done|]. simpl.
  destruct (hex_dump_byte c Hc) as (Hv & -> & -> & ? & ?).
  set (hi := hex_lower !!! Z.to_nat (Z.shiftr c 4)) in *.
  set (lo := hex_lower !!! Z.to_nat (Z.land c 15)) in *.
  change (hex_from v (hi :: lo :: ?l)) with
    (hex_from ((v * 16 + hex_val hi) * 16 + hex_val lo) l).
  destruct (IH (v * 256 + c)) as (IH1 & -> & IH3).
  split; [|split; [done | by constructor; [|constructor]]].
  rewrite <- IH1. f_equal. lia.
Qed.

Definition parse_printed (hexadecimal : Z) (l : list Z) : Z :=
  if hexadecimal =? 0 then ngx_atoi l else ngx_hextoi l.

(** ** Properties *)

(** The five decimal parsers return the number a non-empty digit string
    denotes when it fits the signed 64-bit type, and [NGX_ERROR] on every
    other input: no input makes them wrap around. *)
Theorem decimal_parsers_exact line :
  ngx_atoi line = dec_parse NGX_MAX_INT_T_VALUE line /\
  ngx_atosz line = dec_parse NGX_MAX_SIZE_T_VALUE line /\
  ngx_atoof line = dec_parse NGX_MAX_OFF_T_VALUE line /\
  ngx_atotm line = dec_parse NGX_MAX_TIME_T_VALUE line.
Proof. apply decimal_parsers_spec. Qed.

(** Fixed-point parsing: on [ip "." fp] with at most [point] digits in
    [fp], [ngx_atofp] returns the number scaled by [10^point] exactly, or
    [NGX_ERROR] when that does not fit; more than [point] fractional digits
    are an error. *)
Theorem ngx_atofp_exact ip fp point :
  forallb is_digit ip = true -> forallb is_digit fp = true -> 0 < point ->
  ngx_atofp (ip ++ "."%chr :: fp) point =
    let v := dec_value (ip ++ fp) * 10 ^ (point - Z.of_nat (length fp)) in
    if (Z.of_nat (length fp) <=? point) && (v <=? NGX_MAX_INT_T_VALUE)
    then v else NGX_ERROR.
Proof.
  intros Hip Hfp Hp. unfold ngx_atofp. set (max := NGX_MAX_INT_T_VALUE).
  assert (9 <= max) by (unfold max, NGX_MAX_INT_T_VALUE; lia).
  assert (Hne : exists c l, ip ++ "."%chr :: fp = c :: l) by (destruct ip; eauto).
  destruct Hne as (c0 & l0 & E). rewrite E, <- E.
  rewrite atofp_loop_int by (try done; lia).
  unfold dec_value. set (a := dec_from 0 ip).
  assert (0 <= a) by (apply dec_from_ge; [lia | done]).
  replace (dec_from 0 (ip ++ fp)) with (dec_from a fp)
    by (unfold a, dec_from; by rewrite fold_left_app).
  assert (a <= dec_from a fp) by (apply dec_from_ge; [lia | done]). simpl.
  destruct (Z.leb_spec (Z.of_nat (length fp)) point) as [Hlen|Hlen]; simpl.
  - pose proof (Z.pow_pos_nonneg 10 (point - Z.of_nat (length fp)) ltac:(lia) ltac:(lia)).
    destruct (Z.leb_spec a max); [|by rewrite (proj2 (Z.leb_gt _ max)) by nia].
    replace (point =? 0) with false by lia.
    rewrite atofp_loop_frac by (try done; lia).
    rewrite (proj2 (Z.leb_le _ _) Hlen), andb_true_r.
    destruct (Z.leb_spec (dec_from a fp) max); [|by rewrite (proj2 (Z.leb_gt _ max)) by nia].
    rewrite atofp_scale_spec, Z2Nat.id by lia. done.
  - destruct (a <=? max) eqn:Ha; [|done]. replace (point =? 0) with false by lia.
    rewrite atofp_loop_frac by (try done; lia).
    by rewrite (proj2 (Z.leb_gt _ _) Hlen), andb_false_r.
Qed.

(** [ngx_atofp("10.5", 4, 2)] is [1050], as its comment says. *)
Lemma ngx_atofp_exact_witness : ngx_atofp (bs "10.5") 2 = 1050.
Proof.
  exact (eq_trans (ngx_atofp_exact (bs "10") (bs "5") 2 eq_refl eq_refl eq_refl) eq_refl).
Defined.

(** Printing a 64-bit number never writes below the [temp] array nor past
    [last], whatever the base, padding and width. *)
Theorem ngx_sprintf_num_bounds room n zero hexadecimal width :
  0 <= n < 2 ^ 64 -> 0 <= hexadecimal <= 2 ->
  exists out, ngx_sprintf_num room n zero hexadecimal width = Some out
    /\ (length out <= room)%nat
    /\ (room = 20%nat -> width <= 20 -> width <= length out)%nat.
Proof.
  intros Hn Hx.
  destruct (sprintf_num_digits room n zero hexadecimal width Hn Hx) as (d & -> & Hlen & _).
  eexists. split; [done|]. simpl. rewrite length_app, length_replicate, length_take. lia.
Qed.

Lemma ngx_sprintf_num_bounds_witness :
  exists out, ngx_sprintf_num 3 12345 32 0 0 = Some out /\ (length out <= 3)%nat
    /\ (3 = 20%nat -> 0 <= 20 -> 0 <= length out)%nat.
Proof. apply (ngx_sprintf_num_bounds 3 12345 32 0 0); lia. Defined.

(** Round trip: what [ngx_sprintf_num] prints in a buffer with room for
    it, zero-padded to any width, parses back to the number: with [ngx_atoi]
    in decimal, with [ngx_hextoi] in either hexadecimal form. *)
Theorem ngx_sprintf_num_roundtrip room n hexadecimal width :
  0 <= n <= NGX_MAX_INT_T_VALUE -> 0 <= hexadecimal <= 2 ->
  (20 <= room)%nat -> (width <= room)%nat ->
  exists out, ngx_sprintf_num room n "0"%chr hexadecimal width = Some out
    /\ parse_printed hexadecimal out = n.
Proof.
  intros Hn Hx Hroom Hwidth.
  destruct (sprintf_num_digits room n "0"%chr hexadecimal width)
    as (d & -> & Hlen & Hnum & Hval); [unfold NGX_MAX_INT_T_VALUE in Hn; lia | done |].
  eexists. split; [done|]. simpl.
  replace (Nat.min (width - length d) room) with (width - length d)%nat by lia.
  replace (Nat.min (length d) _) with (length d) by lia. rewrite firstn_all.
  set (k := (width - length d)%nat).
  assert (Hne : exists c l, replicate k "0"%chr ++ d = c :: l)
    by (destruct k, d; simpl in *; eauto; lia).
  unfold parse_printed, printed_base, printed_digits, num_value in *.
  destruct (Z.eqb_spec hexadecimal 0) as [->|H0].
  - simpl in Hnum. apply is_num_dec in Hnum as Hd.
    destruct (decimal_parsers_spec (replicate k "0"%chr ++ d)) as [-> _].
    unfold dec_parse, dec_value. rewrite dec_from_zeros, dec_from_num by done.
    change (0 * 10 ^ Z.of_nat k) with 0. rewrite Hval, forallb_app, Hd.
    replace (forallb is_digit (replicate k "0"%chr)) with true
      by (symmetry; apply forallb_replicate_true; reflexivity).
    destruct Hne as (c & l & ->). rewrite bool_decide_true by done. simpl.
    by rewrite (proj2 (Z.leb_le _ _)) by lia.
  - destruct (is_num_hex (if hexadecimal =? 2 then hex_upper else hex_lower) d)
      as [Hd Hb]; [by destruct (hexadecimal =? 2); auto | done |].
    unfold ngx_hextoi. destruct Hne as (c & l & E). rewrite E, <- E.
    rewrite hextoi_loop_spec, hex_from_zeros; [..|unfold NGX_MAX_INT_T_VALUE; lia].
    + change (0 * 16 ^ Z.of_nat k) with 0. unfold hex_from. rewrite Hval, forallb_app, Hd.
      replace (forallb is_hex (replicate k "0"%chr)) with true
        by (symmetry; apply forallb_replicate_true; reflexivity).
      by rewrite (proj2 (Z.leb_le _ _)) by lia.
    + apply Forall_app. split; [by apply Forall_replicate | done].
Qed.

Lemma ngx_sprintf_num_roundtrip_witness :
  exists out, ngx_sprintf_num 24 65535 "0"%chr 1 8 = Some out
    /\ parse_printed 1 out = 65535.
Proof.
  apply (ngx_sprintf_num_roundtrip 24 65535 1 8); unfold NGX_MAX_INT_T_VALUE; lia.
Defined.

(** [ngx_hextoi] reads back the hexadecimal dump of a byte string as its
    big-endian number, and refuses exactly the dumps that do not fit. *)
Theorem ngx_hextoi_hex_dump src :
  bytes src ->
  ngx_hextoi (ngx_hex_dump src) =
    if bool_decide (src <> []) && (be_value src <=? NGX_MAX_INT_T_VALUE)
    then be_value src else NGX_ERROR.
Proof.
  intros Hs. destruct (hex_dump_from 0 src Hs) as (Hv & Hh & Hb).
  unfold ngx_hextoi. destruct src as [|c src]; [done|].
  rewrite bool_decide_true by done.
  destruct (ngx_hex_dump (c :: src)) as [|h l] eqn:E; [done|]. rewrite <- E in *.
  rewrite hextoi_loop_spec, Hh by (done || unfold NGX_MAX_INT_T_VALUE; lia).
  by rewrite Hv.
Qed.

Lemma ngx_hextoi_hex_dump_witness : ngx_hextoi (ngx_hex_dump [1; 255]) = 511.
Proof.
  refine (eq_trans (ngx_hextoi_hex_dump [1; 255] _) eq_refl).
  by apply (bool_decide_unpack _); vm_compute.
Defined.
