(* ===== verification/HttpCommon.v ===== *)
(** * Data shared by the HTTP parsers (src/http)

    The [usual] table, the method codes and the return codes of
    src/http/ngx_http_request.h, and the buffers the parsers read.

    A pointer into the request is an offset into the memory of its buffer;
    [NULL] is [None].  The table is the one of a non-Windows build. *)

From S2P Require Import Prelude.

(** [src/http/ngx_http_parse.c:13-33] usual: one bit per character. *)
Definition usual : list Z :=
  [ 0xffffdbfe; 0x7fff37d6; 0xffffffff; 0xffffffff;
    0xffffffff; 0xffffffff; 0xffffffff; 0xffffffff ].

(** [usual[ch >> 5] & (1 << (ch & 0x1f))], for any such table. *)
Definition bit_set (table : list Z) (ch : Z) : bool :=
  negb (Z.land (table !!! Z.to_nat (Z.shiftr ch 5))
               (u32 (Z.shiftl 1 (Z.land ch 31))) =? 0).
Definition is_usual (ch : Z) : bool := bit_set usual ch.

(** Method codes (src/http/ngx_http_request.h, lines 28 to 43). *)
Definition NGX_HTTP_UNKNOWN : Z := 0x0001.
Definition NGX_HTTP_GET : Z := 0x0002.
Definition NGX_HTTP_HEAD : Z := 0x0004.
Definition NGX_HTTP_POST : Z := 0x0008.
Definition NGX_HTTP_PUT : Z := 0x0010.
Definition NGX_HTTP_DELETE : Z := 0x0020.
Definition NGX_HTTP_MKCOL : Z := 0x0040.
Definition NGX_HTTP_COPY : Z := 0x0080.
Definition NGX_HTTP_MOVE : Z := 0x0100.
Definition NGX_HTTP_OPTIONS : Z := 0x0200.
Definition NGX_HTTP_PROPFIND : Z := 0x0400.
Definition NGX_HTTP_PROPPATCH : Z := 0x0800.
Definition NGX_HTTP_LOCK : Z := 0x1000.
Definition NGX_HTTP_UNLOCK : Z := 0x2000.
Definition NGX_HTTP_PATCH : Z := 0x4000.
Definition NGX_HTTP_TRACE : Z := 0x8000.

(** Parser results (src/http/ngx_http_request.h, lines 52 to 59). *)
Definition NGX_HTTP_PARSE_HEADER_DONE : Z := 1.
Definition NGX_HTTP_PARSE_INVALID_METHOD : Z := 10.
Definition NGX_HTTP_PARSE_INVALID_REQUEST : Z := 11.
Definition NGX_HTTP_PARSE_INVALID_09_METHOD : Z := 12.
Definition NGX_HTTP_PARSE_INVALID_HEADER : Z := 13.

(** [src/core/ngx_buf.h:20-22] ngx_buf_s: the memory and the window
    [pos, last) still to be read. *)
Record ngx_buf_t := Buf { b_mem : list Z; b_pos : Z; b_last : Z }.
#[export] Instance eta_buf : Settable ngx_buf_t :=
  fun b => Buf (b_mem b) (b_pos b) (b_last b).

(** The bytes of memory from [p] up to [q], and one byte. *)
Definition mem_slice (mem : list Z) (p q : Z) : list Z :=
  take (Z.to_nat (q - p)) (drop (Z.to_nat p) mem).
Definition mem_at (mem : list Z) (p : Z) : Z := mem !!! Z.to_nat p.

Definition buf_ok (b : ngx_buf_t) : Prop :=
  0 <= b_pos b <= b_last b /\ b_last b <= Z.of_nat (length (b_mem b)).

Lemma mem_slice_length mem p q :
  0 <= p <= q -> q <= Z.of_nat (length mem) ->
  Z.of_nat (length (mem_slice mem p q)) = q - p.
Proof. intros. unfold mem_slice. rewrite length_take, length_drop. lia. Qed.

Lemma mem_slice_app mem p q s :
  0 <= p <= q -> q <= s -> s <= Z.of_nat (length mem) ->
  mem_slice mem p s = mem_slice mem p q ++ mem_slice mem q s.
Proof.
  intros. unfold mem_slice.
  replace (Z.to_nat (s - p)) with (Z.to_nat (q - p) + Z.to_nat (s - q))%nat by lia.
  rewrite <- take_take_drop, drop_drop. do 3 f_equal. lia.
Qed.

Lemma mem_slice_cons mem p q :
  0 <= p < q -> q <= Z.of_nat (length mem) ->
  mem_slice mem p q = mem_at mem p :: mem_slice mem (p + 1) q.
Proof.
  intros. rewrite (mem_slice_app mem p (p + 1) q) by lia.
  unfold mem_slice at 1. replace (Z.to_nat (p + 1 - p)) with 1%nat by lia.
  unfold mem_at. destruct (drop (Z.to_nat p) mem) as [|c l] eqn:E.
  { apply (f_equal length) in E. rewrite length_drop in E. simpl in E. lia. }
  simpl. f_equal. assert (H1 : mem !! Z.to_nat p = Some c).
  { pose proof (lookup_drop mem (Z.to_nat p) 0) as H2. rewrite E in H2. simpl in H2.
    by rewrite H2, Nat.add_0_r. }
  symmetry. by apply list_lookup_total_correct.
Qed.

Lemma mem_slice_mid pre l post :
  mem_slice (pre ++ l ++ post) (Z.of_nat (length pre))
    (Z.of_nat (length pre) + Z.of_nat (length l)) = l.
Proof.
  unfold mem_slice. rewrite Nat2Z.id, drop_app_length.
  replace (Z.to_nat _) with (length l) by lia. by rewrite take_app_length.
Qed.

(** Cutting a window where its contents are cut. *)
Lemma mem_slice_cut mem p q l1 l2 :
  0 <= p <= q -> q <= Z.of_nat (length mem) -> mem_slice mem p q = l1 ++ l2 ->
  l1 = mem_slice mem p (p + Z.of_nat (length l1))
  /\ l2 = mem_slice mem (p + Z.of_nat (length l1)) q
  /\ p + Z.of_nat (length l1) <= q.
Proof.
  intros Hp Hq E. pose proof (mem_slice_length mem p q Hp Hq) as Hlen.
  rewrite E, length_app in Hlen.
  rewrite (mem_slice_app mem p (p + Z.of_nat (length l1)) q) in E by lia.
  apply app_inj_1 in E as [E1 E2]; [split_and!; [done|done|lia]|].
  apply Nat2Z.inj. rewrite mem_slice_length; lia.
Qed.

(** The bytes still to be read. *)
Definition window (b : ngx_buf_t) : list Z := mem_slice (b_mem b) (b_pos b) (b_last b).

(** ** Scanning a window of memory *)

Section MemScan.
Context {S R : Type} (step : Z -> Z -> S -> step_result S R) (mem : list Z).

(** Scanning up to [q] and going on from there is scanning up to [s]. *)
Lemma scan_slice_split p q e s :
  0 <= p <= q -> q <= e -> e <= Z.of_nat (length mem) ->
  scan step p (mem_slice mem p e) s =
    match scan step p (mem_slice mem p q) s with
    | (_, Continue s') => scan step q (mem_slice mem q e) s'
    | r => r
    end.
Proof.
  intros. rewrite (mem_slice_app mem p q e), scan_app by done.
  destruct (scan step p (mem_slice mem p q) s) as [p' [s'|r]] eqn:E; [|done].
  apply scan_continue_pos in E. rewrite mem_slice_length in E by lia.
  by replace p' with q by lia.
Qed.

Lemma scan_slice_pos p q s p' s' :
  0 <= p <= q -> q <= Z.of_nat (length mem) ->
  scan step p (mem_slice mem p q) s = (p', Continue s') -> p' = q.
Proof.
  intros Hp Hq E. apply scan_continue_pos in E.
  rewrite mem_slice_length in E by lia. lia.
Qed.

(** An invariant of the loop, whose steps know the character they read. *)
Lemma scan_slice_inv (I : Z -> S -> Prop) (Q : Z -> R -> Prop) q :
  q <= Z.of_nat (length mem) ->
  (forall p s s', 0 <= p < q -> I p s ->
    step p (mem_at mem p) s = Continue s' -> I (p + 1) s') ->
  (forall p s r, 0 <= p < q -> I p s ->
    step p (mem_at mem p) s = Return r -> Q p r) ->
  forall p s, 0 <= p <= q -> I p s ->
    match scan step p (mem_slice mem p q) s with
    | (p', Continue s') => p' = q /\ I p' s'
    | (p', Return r) => p <= p' < q /\ Q p' r
    end.
Proof.
  intros Hq Hc Hr p s Hp. remember (Z.to_nat (q - p)) as n eqn:Hn.
  revert p s Hp Hn. induction n as [|n IH]; intros p s Hp Hn HI.
  - assert (p = q) as -> by lia. unfold mem_slice. by rewrite Z.sub_diag.
  - rewrite mem_slice_cons by lia. simpl.
    destruct (step p (mem_at mem p) s) as [s1|r1] eqn:E.
    + specialize (IH (p + 1) s1 ltac:(lia) ltac:(lia) (Hc p s s1 ltac:(lia) HI E)).
      destruct (scan _ _ _ _) as [p' [s'|r]]; [done|]. destruct IH. split; [lia|done].
    + split; [lia|]. by eapply Hr; [..|exact E]; [lia|].
Qed.
End MemScan.

(** The bytes in [p, q) are neither NUL nor line terminators. *)
Definition no_eol (mem : list Z) (p q : Z) : Prop :=
  forall i, p <= i < q ->
    mem_at mem i <> 0 /\ mem_at mem i <> CR /\ mem_at mem i <> LF.

Lemma no_eol_nil mem p q : q <= p -> no_eol mem p q.
Proof. unfold no_eol. lia. Qed.
Lemma no_eol_snoc mem p q :
  no_eol mem p q -> mem_at mem q <> 0 -> mem_at mem q <> CR -> mem_at mem q <> LF ->
  no_eol mem p (q + 1).
Proof.
  unfold no_eol. intros H ??? i Hi.
  destruct (Z.eq_dec i q) as [->|]; [done | apply H; lia].
Qed.

(** A pointer that is set, and satisfies [P]. *)
Definition is_set (a : option Z) (P : Z -> Prop) : Prop :=
  match a with Some x => P x | None => False end.

Lemma is_usual_eol ch : is_usual ch = true -> is_byte ch -> ch <> 0 /\ ch <> CR /\ ch <> LF.
Proof. intros H Hc. revert H. by_byte ch. Qed.

Lemma mem_at_byte mem p :
  bytes mem -> 0 <= p < Z.of_nat (length mem) -> is_byte (mem_at mem p).
Proof.
  intros Hb Hp. unfold mem_at. rewrite Forall_forall in Hb. apply Hb.
  apply list_elem_of_lookup_total_2. lia.
Qed.
