(* ===== verification/HttpRequestLine.v ===== *)
(** * The request line parser (src/http/ngx_http_parse.c)

    [ngx_http_parse_request_line]: one definition per [case] of its switch,
    the loop, and the epilogue.  The record is the part of
    [ngx_http_request_s] the parser reads or writes. *)

From S2P Require Import Prelude HttpCommon.

(** [src/http/ngx_http_parse.c:107-135] ngx_http_parse_request_line: the
    states. *)
Inductive sw :=
  | sw_start | sw_method | sw_spaces_before_uri | sw_schema | sw_schema_slash
  | sw_schema_slash_slash | sw_host_start | sw_host | sw_host_end
  | sw_host_ip_literal | sw_port | sw_host_http_09 | sw_after_slash_in_uri
  | sw_check_uri | sw_check_uri_http_09 | sw_uri | sw_http_09 | sw_http_H
  | sw_http_HT | sw_http_HTT | sw_http_HTTP | sw_first_major_digit
  | sw_major_digit | sw_first_minor_digit | sw_minor_digit
  | sw_spaces_after_digit | sw_almost_done.

(** [src/http/ngx_http_request.h:547-580] ngx_http_request_s: the fields of
    the request line; [http_minor] and [http_major] are 16-bit fields. *)
Record request := Request {
  state : sw;
  method : Z;
  http_version : Z;
  http_protocol : option Z;      (* http_protocol.data *)
  complex_uri : bool;
  quoted_uri : bool;
  plus_in_uri : bool;
  space_in_uri : bool;
  uri_start : option Z;
  uri_end : option Z;
  uri_ext : option Z;
  args_start : option Z;
  request_start : option Z;
  request_end : option Z;
  method_end : option Z;
  schema_start : option Z;
  schema_end : option Z;
  host_start : option Z;
  host_end : option Z;
  port_end : option Z;
  http_minor : Z;
  http_major : Z
}.
#[export] Instance eta_request : Settable request := fun r =>
  Request (state r) (method r) (http_version r) (http_protocol r) (complex_uri r)
    (quoted_uri r) (plus_in_uri r) (space_in_uri r) (uri_start r) (uri_end r)
    (uri_ext r) (args_start r) (request_start r) (request_end r) (method_end r)
    (schema_start r) (schema_end r) (host_start r) (host_end r) (port_end r)
    (http_minor r) (http_major r).

Definition NGX_HTTP_VERSION_10 : Z := 1000.

(** [src/http/ngx_http_request.c:586-587] ngx_http_create_request: a fresh
    request is zeroed, with these two fields set. *)
Definition init_request : request :=
  Request sw_start NGX_HTTP_UNKNOWN NGX_HTTP_VERSION_10 None false false false
    false None None None None None None None None None None None None 0 0.

(** How the loop is left: [goto done] or [return rc]. *)
Inductive exit :=
  | GotoDone (r : request)
  | Fail (rc : Z) (r : request).

Abbreviation result := (step_result request exit).
Abbreviation invalid_request r := (Return (Fail NGX_HTTP_PARSE_INVALID_REQUEST r)).
Abbreviation invalid_method r := (Return (Fail NGX_HTTP_PARSE_INVALID_METHOD r)).

(** [src/http/ngx_http_parse.c:38-66] ngx_str3_cmp: the comparison macros, on
    as many bytes as the literal has. *)
Definition str_cmp (mem : list Z) (m : Z) (lit : string) : bool :=
  bool_decide (mem_slice mem m (m + Z.of_nat (String.length lit)) = bs lit).

(** [src/http/ngx_http_parse.c:164-266] ngx_http_parse_request_line: the
    [switch (p - m)] on the method's length. *)
Definition method_code (mem : list Z) (m n : Z) (old : Z) : Z :=
  if n =? 3 then
    if str_cmp mem m "GET " then NGX_HTTP_GET
    else if str_cmp mem m "PUT " then NGX_HTTP_PUT else old
  else if n =? 4 then
    if mem_at mem (m + 1) =? "O"%chr then
      if str_cmp mem m "POST" then NGX_HTTP_POST
      else if str_cmp mem m "COPY" then NGX_HTTP_COPY
      else if str_cmp mem m "MOVE" then NGX_HTTP_MOVE
      else if str_cmp mem m "LOCK" then NGX_HTTP_LOCK else old
    else if str_cmp mem m "HEAD" then NGX_HTTP_HEAD else old
  else if n =? 5 then
    if str_cmp mem m "MKCOL" then NGX_HTTP_MKCOL
    else if str_cmp mem m "PATCH" then NGX_HTTP_PATCH
    else if str_cmp mem m "TRACE" then NGX_HTTP_TRACE else old
  else if n =? 6 then
    if str_cmp mem m "DELETE" then NGX_HTTP_DELETE
    else if str_cmp mem m "UNLOCK" then NGX_HTTP_UNLOCK else old
  else if n =? 7 then
    if str_cmp mem m "OPTIONS " then NGX_HTTP_OPTIONS else old
  else if n =? 8 then
    if str_cmp mem m "PROPFIND" then NGX_HTTP_PROPFIND else old
  else if n =? 9 then
    if str_cmp mem m "PROPPATCH" then NGX_HTTP_PROPPATCH else old
  else old.

Definition upper_or_underscore (ch : Z) : bool :=
  negb (((ch <? "A"%chr) || ("Z"%chr <? ch)) && negb (ch =? "_"%chr)).
(** [c = (u_char) (ch | 0x20); c >= 'a' && c <= 'z'] *)
Definition is_alpha (ch : Z) : bool :=
  ("a"%chr <=? u8 (Z.lor ch 32)) && (u8 (Z.lor ch 32) <=? "z"%chr).
Definition is_num (ch : Z) : bool := ("0"%chr <=? ch) && (ch <=? "9"%chr).

(** [src/http/ngx_http_parse.c:145-157] ngx_http_parse_request_line: sw_start *)
Definition on_start (p ch : Z) (r : request) : result :=
  let r := r <| request_start := Some p |> in
  if (ch =? CR) || (ch =? LF) then Continue r
  else if negb (upper_or_underscore ch) then invalid_method r
  else Continue (r <| state := sw_method |>).

(** [src/http/ngx_http_parse.c:159-277] ngx_http_parse_request_line: sw_method *)
Definition on_method (mem : list Z) (p ch : Z) (r : request) : result :=
  if ch =? " "%chr then
    let r := r <| method_end := Some (p - 1) |> in
    let m := default 0 (request_start r) in
    let r := r <| method := method_code mem m (p - m) (method r) |> in
    Continue (r <| state := sw_spaces_before_uri |>)
  else if negb (upper_or_underscore ch) then invalid_method r
  else Continue r.

(** [src/http/ngx_http_parse.c:280-301] ngx_http_parse_request_line:
    sw_spaces_before_uri *)
Definition on_spaces_before_uri (p ch : Z) (r : request) : result :=
  if ch =? "/"%chr then
    Continue (r <| uri_start := Some p |> <| state := sw_after_slash_in_uri |>)
  else if is_alpha ch then
    Continue (r <| schema_start := Some p |> <| state := sw_schema |>)
  else if ch =? " "%chr then Continue r
  else invalid_request r.

(** [src/http/ngx_http_parse.c:303-318] ngx_http_parse_request_line: sw_schema *)
Definition on_schema (p ch : Z) (r : request) : result :=
  if is_alpha ch then Continue r
  else if ch =? ":"%chr then
    Continue (r <| schema_end := Some p |> <| state := sw_schema_slash |>)
  else invalid_request r.

(** [src/http/ngx_http_parse.c:320-338] ngx_http_parse_request_line: the
    states that expect one fixed character, here sw_schema_slash and
    sw_schema_slash_slash. *)
Definition on_expect (c : Z) (next : sw) (ch : Z) (r : request) : result :=
  if ch =? c then Continue (r <| state := next |>) else invalid_request r.

(** [src/http/ngx_http_parse.c:366-390] ngx_http_parse_request_line: sw_host_end *)
Definition on_host_end (p ch : Z) (r : request) : result :=
  let r := r <| host_end := Some p |> in
  if ch =? ":"%chr then Continue (r <| state := sw_port |>)
  else if ch =? "/"%chr then
    Continue (r <| uri_start := Some p |> <| state := sw_after_slash_in_uri |>)
  else if ch =? " "%chr then
    let s := default 0 (schema_end r) in
    Continue (r <| uri_start := Some (s + 1) |> <| uri_end := Some (s + 2) |>
                <| state := sw_host_http_09 |>)
  else invalid_request r.

(** [src/http/ngx_http_parse.c:353-364] ngx_http_parse_request_line: sw_host,
    which falls through to sw_host_end. *)
Definition on_host (p ch : Z) (r : request) : result :=
  if is_alpha ch then Continue r
  else if is_num ch || (ch =? "."%chr) || (ch =? "-"%chr) then Continue r
  else on_host_end p ch r.

(** [src/http/ngx_http_parse.c:340-351] ngx_http_parse_request_line:
    sw_host_start, which falls through to sw_host. *)
Definition on_host_start (p ch : Z) (r : request) : result :=
  let r := r <| host_start := Some p |> in
  if ch =? "["%chr then Continue (r <| state := sw_host_ip_literal |>)
  else on_host p ch (r <| state := sw_host |>).

(** [src/http/ngx_http_parse.c:392-431] ngx_http_parse_request_line:
    sw_host_ip_literal *)
Definition on_host_ip_literal (p ch : Z) (r : request) : result :=
  if is_num ch then Continue r
  else if is_alpha ch then Continue r
  else if ch =? ":"%chr then Continue r
  else if ch =? "]"%chr then Continue (r <| state := sw_host_end |>)
  else if bool_decide (ch ∈ bs "-._~") then Continue r
  else if bool_decide (ch ∈ bs "!$&'()*+,;=") then Continue r
  else invalid_request r.

(** [src/http/ngx_http_parse.c:433-457] ngx_http_parse_request_line: sw_port *)
Definition on_port (p ch : Z) (r : request) : result :=
  if is_num ch then Continue r
  else if ch =? "/"%chr then
    Continue (r <| port_end := Some p |> <| uri_start := Some p |>
                <| state := sw_after_slash_in_uri |>)
  else if ch =? " "%chr then
    let s := default 0 (schema_end r) in
    Continue (r <| port_end := Some p |> <| uri_start := Some (s + 1) |>
                <| uri_end := Some (s + 2) |> <| state := sw_host_http_09 |>)
  else invalid_request r.

(** [src/http/ngx_http_parse.c:460-478] ngx_http_parse_request_line:
    sw_host_http_09 *)
Definition on_host_http_09 (p ch : Z) (r : request) : result :=
  if ch =? " "%chr then Continue r
  else if ch =? CR then
    Continue (r <| http_minor := 9 |> <| state := sw_almost_done |>)
  else if ch =? LF then Return (GotoDone (r <| http_minor := 9 |>))
  else if ch =? "H"%chr then
    Continue (r <| http_protocol := Some p |> <| state := sw_http_H |>)
  else invalid_request r.

(** [src/http/ngx_http_parse.c:482-538] ngx_http_parse_request_line:
    sw_after_slash_in_uri *)
Definition on_after_slash_in_uri (p ch : Z) (r : request) : result :=
  if is_usual ch then Continue (r <| state := sw_check_uri |>)
  else if ch =? " "%chr then
    Continue (r <| uri_end := Some p |> <| state := sw_check_uri_http_09 |>)
  else if ch =? CR then
    Continue (r <| uri_end := Some p |> <| http_minor := 9 |>
                <| state := sw_almost_done |>)
  else if ch =? LF then
    Return (GotoDone (r <| uri_end := Some p |> <| http_minor := 9 |>))
  else if ch =? "."%chr then
    Continue (r <| complex_uri := true |> <| state := sw_uri |>)
  else if ch =? "%"%chr then
    Continue (r <| quoted_uri := true |> <| state := sw_uri |>)
  else if ch =? "/"%chr then
    Continue (r <| complex_uri := true |> <| state := sw_uri |>)
  else if ch =? "?"%chr then
    Continue (r <| args_start := Some (p + 1) |> <| state := sw_uri |>)
  else if ch =? "#"%chr then
    Continue (r <| complex_uri := true |> <| state := sw_uri |>)
  else if ch =? "+"%chr then Continue (r <| plus_in_uri := true |>)
  else if ch =? 0 then invalid_request r
  else Continue (r <| state := sw_check_uri |>).

(** [src/http/ngx_http_parse.c:541-599] ngx_http_parse_request_line:
    sw_check_uri *)
Definition on_check_uri (p ch : Z) (r : request) : result :=
  if is_usual ch then Continue r
  else if ch =? "/"%chr then
    Continue (r <| uri_ext := None |> <| state := sw_after_slash_in_uri |>)
  else if ch =? "."%chr then Continue (r <| uri_ext := Some (p + 1) |>)
  else if ch =? " "%chr then
    Continue (r <| uri_end := Some p |> <| state := sw_check_uri_http_09 |>)
  else if ch =? CR then
    Continue (r <| uri_end := Some p |> <| http_minor := 9 |>
                <| state := sw_almost_done |>)
  else if ch =? LF then
    Return (GotoDone (r <| uri_end := Some p |> <| http_minor := 9 |>))
  else if ch =? "%"%chr then
    Continue (r <| quoted_uri := true |> <| state := sw_uri |>)
  else if ch =? "?"%chr then
    Continue (r <| args_start := Some (p + 1) |> <| state := sw_uri |>)
  else if ch =? "#"%chr then
    Continue (r <| complex_uri := true |> <| state := sw_uri |>)
  else if ch =? "+"%chr then Continue (r <| plus_in_uri := true |>)
  else if ch =? 0 then invalid_request r
  else Continue r.

(** [src/http/ngx_http_parse.c:627-653] ngx_http_parse_request_line: sw_uri *)
Definition on_uri (p ch : Z) (r : request) : result :=
  if is_usual ch then Continue r
  else if ch =? " "%chr then
    Continue (r <| uri_end := Some p |> <| state := sw_http_09 |>)
  else if ch =? CR then
    Continue (r <| uri_end := Some p |> <| http_minor := 9 |>
                <| state := sw_almost_done |>)
  else if ch =? LF then
    Return (GotoDone (r <| uri_end := Some p |> <| http_minor := 9 |>))
  else if ch =? "#"%chr then Continue (r <| complex_uri := true |>)
  else if ch =? 0 then invalid_request r
  else Continue r.

(** [src/http/ngx_http_parse.c:602-624] ngx_http_parse_request_line:
    sw_check_uri_http_09 (resuming in sw_check_uri) and sw_http_09 (resuming in
    sw_uri), which differ only in that.  Their default branch does [p--], so
    that the next iteration reads the same character in the resumed state:
    [again] is that iteration. *)
Definition on_http_09 (resume : sw) (again : Z -> Z -> request -> result)
    (p ch : Z) (r : request) : result :=
  if ch =? " "%chr then Continue r
  else if ch =? CR then
    Continue (r <| http_minor := 9 |> <| state := sw_almost_done |>)
  else if ch =? LF then Return (GotoDone (r <| http_minor := 9 |>))
  else if ch =? "H"%chr then
    Continue (r <| http_protocol := Some p |> <| state := sw_http_H |>)
  else again p ch (r <| space_in_uri := true |> <| state := resume |>).

(** [src/http/ngx_http_parse.c:720-727] ngx_http_parse_request_line:
    sw_first_major_digit *)
Definition on_first_major_digit (ch : Z) (r : request) : result :=
  if (ch <? "1"%chr) || ("9"%chr <? ch) then invalid_request r
  else Continue (r <| http_major := u16 (ch - "0"%chr) |> <| state := sw_major_digit |>).

(** [src/http/ngx_http_parse.c:730-741] ngx_http_parse_request_line:
    sw_major_digit *)
Definition on_major_digit (ch : Z) (r : request) : result :=
  if ch =? "."%chr then Continue (r <| state := sw_first_minor_digit |>)
  else if (ch <? "0"%chr) || ("9"%chr <? ch) then invalid_request r
  else Continue (r <| http_major := u16 (http_major r * 10 + ch - "0"%chr) |>).

(** [src/http/ngx_http_parse.c:744-751] ngx_http_parse_request_line:
    sw_first_minor_digit *)
Definition on_first_minor_digit (ch : Z) (r : request) : result :=
  if (ch <? "0"%chr) || ("9"%chr <? ch) then invalid_request r
  else Continue (r <| http_minor := u16 (ch - "0"%chr) |> <| state := sw_minor_digit |>).

(** [src/http/ngx_http_parse.c:754-774] ngx_http_parse_request_line:
    sw_minor_digit *)
Definition on_minor_digit (ch : Z) (r : request) : result :=
  if ch =? CR then Continue (r <| state := sw_almost_done |>)
  else if ch =? LF then Return (GotoDone r)
  else if ch =? " "%chr then Continue (r <| state := sw_spaces_after_digit |>)
  else if (ch <? "0"%chr) || ("9"%chr <? ch) then invalid_request r
  else Continue (r <| http_minor := u16 (http_minor r * 10 + ch - "0"%chr) |>).

(** [src/http/ngx_http_parse.c:776-788] ngx_http_parse_request_line:
    sw_spaces_after_digit *)
Definition on_spaces_after_digit (ch : Z) (r : request) : result :=
  if ch =? " "%chr then Continue r
  else if ch =? CR then Continue (r <| state := sw_almost_done |>)
  else if ch =? LF then Return (GotoDone r)
  else invalid_request r.

(** [src/http/ngx_http_parse.c:791-798] ngx_http_parse_request_line:
    sw_almost_done *)
Definition on_almost_done (p ch : Z) (r : request) : result :=
  let r := r <| request_end := Some (p - 1) |> in
  if ch =? LF then Return (GotoDone r) else invalid_request r.

(** [src/http/ngx_http_parse.c:656-717] ngx_http_parse_request_line:
    [switch (state)], with the states sw_http_09 and sw_http_H to
    sw_http_HTTP in line. *)
Definition step (mem : list Z) (p ch : Z) (r : request) : result :=
  match state r with
  | sw_start => on_start p ch r
  | sw_method => on_method mem p ch r
  | sw_spaces_before_uri => on_spaces_before_uri p ch r
  | sw_schema => on_schema p ch r
  | sw_schema_slash => on_expect "/"%chr sw_schema_slash_slash ch r
  | sw_schema_slash_slash => on_expect "/"%chr sw_host_start ch r
  | sw_host_start => on_host_start p ch r
  | sw_host => on_host p ch r
  | sw_host_end => on_host_end p ch r
  | sw_host_ip_literal => on_host_ip_literal p ch r
  | sw_port => on_port p ch r
  | sw_host_http_09 => on_host_http_09 p ch r
  | sw_after_slash_in_uri => on_after_slash_in_uri p ch r
  | sw_check_uri => on_check_uri p ch r
  | sw_check_uri_http_09 => on_http_09 sw_check_uri on_check_uri p ch r
  | sw_uri => on_uri p ch r
  | sw_http_09 => on_http_09 sw_uri on_uri p ch r
  | sw_http_H => on_expect "T"%chr sw_http_HT ch r
  | sw_http_HT => on_expect "T"%chr sw_http_HTT ch r
  | sw_http_HTT => on_expect "P"%chr sw_http_HTTP ch r
  | sw_http_HTTP => on_expect "/"%chr sw_first_major_digit ch r
  | sw_first_major_digit => on_first_major_digit ch r
  | sw_major_digit => on_major_digit ch r
  | sw_first_minor_digit => on_first_minor_digit ch r
  | sw_minor_digit => on_minor_digit ch r
  | sw_spaces_after_digit => on_spaces_after_digit ch r
  | sw_almost_done => on_almost_done p ch r
  end.

(** [src/http/ngx_http_parse.c:807-823] ngx_http_parse_request_line: done *)
Definition finish (p : Z) (r : request) : Z * request :=
  let r := match request_end r with
           | None => r <| request_end := Some p |>
           | Some _ => r
           end in
  let r := r <| http_version := http_major r * 1000 + http_minor r |>
             <| state := sw_start |> in
  if (http_version r =? 9) && negb (method r =? NGX_HTTP_GET)
  then (NGX_HTTP_PARSE_INVALID_09_METHOD, r)
  else (NGX_OK, r).

(** [src/http/ngx_http_parse.c:137-142] ngx_http_parse_request_line: the loop
    and its exits; the result is the return code, the request and the
    buffer. *)
Definition ngx_http_parse_request_line (r : request) (b : ngx_buf_t)
  : Z * request * ngx_buf_t :=
  match scan (step (b_mem b)) (b_pos b)
          (mem_slice (b_mem b) (b_pos b) (b_last b)) r with
  | (p, Continue r) => (NGX_AGAIN, r, b <| b_pos := p |>)
  | (p, Return (GotoDone r)) =>
      let (rc, r) := finish p r in (rc, r, b <| b_pos := p + 1 |>)
  | (_, Return (Fail rc r')) => (rc, r' <| state := state r |>, b)
  end.

(** A run on the example of the HTTP specification. *)
Example parse_get :
  let mem := bs "GET /a/b.html?x=1 HTTP/1.1" ++ [CR; LF] in
  let '(rc, r, b) := ngx_http_parse_request_line init_request
                       (Buf mem 0 (Z.of_nat (length mem))) in
  rc = NGX_OK /\ method r = NGX_HTTP_GET /\ uri_start r = Some 4
  /\ uri_end r = Some 17 /\ args_start r = Some 14 /\ uri_ext r = Some 9
  /\ http_version r = 1001 /\ request_end r = Some 26 /\ b_pos b = 28.
Proof. by vm_compute. Qed.

(** ** Pointers *)

(** How far into the line a state is. *)
Definition stage (s : sw) : Z :=
  match s with
  | sw_start => 0
  | sw_method => 1
  | sw_spaces_before_uri | sw_schema => 2
  | sw_schema_slash => 3
  | sw_schema_slash_slash => 4
  | sw_host_start | sw_host | sw_host_end | sw_host_ip_literal | sw_port => 5
  | sw_after_slash_in_uri | sw_check_uri | sw_uri => 6
  | sw_host_http_09 | sw_check_uri_http_09 | sw_http_09 => 7
  | sw_http_H | sw_http_HT | sw_http_HTT | sw_http_HTTP | sw_first_major_digit
  | sw_major_digit | sw_first_minor_digit | sw_minor_digit
  | sw_spaces_after_digit => 8
  | sw_almost_done => 9
  end.

Section Pointers.
Context (mem : list Z) (lo : Z).

(** The end of the line so far: a carriage return has been read in
    [sw_almost_done]. *)
Definition line_end (p : Z) (s : sw) : Z := if stage s =? 9 then p - 1 else p.

Definition method_ok (p : Z) (r : request) : Prop :=
  is_set (request_start r) (fun s => lo <= s < p /\
    is_set (method_end r) (fun e => s <= e < p)).
Definition uri_start_ok (p : Z) (r : request) : Prop :=
  is_set (method_end r) (fun e => is_set (uri_start r) (fun u =>
    e < u < p /\ mem_at mem u = "/"%chr)).
Definition uri_end_ok (p : Z) (r : request) : Prop :=
  is_set (uri_start r) (fun u => is_set (uri_end r) (fun ue => u < ue <= p)).

Definition pointers_inv (p : Z) (r : request) : Prop :=
  let st := stage (state r) in
  lo <= p /\ request_end r = None
  /\ (1 <= st -> is_set (request_start r) (fun s =>
        lo <= s < p /\ no_eol mem s (line_end p (state r))))
  /\ (2 <= st -> method_ok p r)
  /\ (3 <= st <= 5 -> is_set (method_end r) (fun e => is_set (schema_end r) (fun se =>
        e < se /\ se + (st - 2) <= p /\ (st = 3 -> p = se + 1)
        /\ (4 <= st -> mem_at mem (se + 1) = "/"%chr))))
  /\ (6 <= st -> uri_start_ok p r)
  /\ (7 <= st -> uri_end_ok (line_end p (state r)) r).

(** What holds when the parser leaves through [done] at the line feed [p]. *)
Definition pointers_done (p : Z) (r : request) : Prop :=
  method_ok p r /\ uri_start_ok p r /\ mem_at mem p = LF
  /\ is_set (request_start r) (fun s =>
       is_set (uri_end r) (fun ue =>
         let re := default p (request_end r) in
         ue <= re <= p /\ p <= re + 1 /\ no_eol mem s re))
  /\ uri_end_ok p r.
End Pointers.

(** ** One step of the loop *)

(** Splits an equation [on_x ... = Continue r'] (or [Return e]) into the
    branches of the handler. *)
Ltac split_ifs H :=
  repeat match type of H with
         | context [if ?b then _ else _] => destruct b eqn:?
         end; try discriminate H; injection H as <-.

Ltac unfold_step :=
  unfold step, on_start, on_method, on_spaces_before_uri, on_schema, on_expect,
    on_host_start, on_host, on_host_end, on_host_ip_literal, on_port, on_host_http_09,
    on_after_slash_in_uri, on_http_09, on_check_uri, on_uri, on_first_major_digit,
    on_major_digit, on_first_minor_digit, on_minor_digit, on_spaces_after_digit,
    on_almost_done in *.

Lemma is_alpha_eol ch : is_byte ch -> is_alpha ch = true -> ch <> 0 /\ ch <> CR /\ ch <> LF.
Proof. intros Hc. by_byte ch. Qed.

Lemma literal_eol ch l :
  bool_decide (ch ∈ bs l) = true -> forallb (fun c => 31 <? c) (bs l) = true ->
  ch <> 0 /\ ch <> CR /\ ch <> LF.
Proof.
  intros Hch%bool_decide_eq_true_1 Hl. rewrite forallb_forall in Hl.
  apply list_elem_of_In, Hl in Hch. unfold CR, LF. lia.
Qed.

Ltac eol_facts :=
  repeat match goal with
  | H : is_usual ?c = true, Hc : is_byte ?c |- _ =>
      pose proof (is_usual_eol c H Hc); clear H
  | H : is_alpha ?c = true, Hc : is_byte ?c |- _ =>
      pose proof (is_alpha_eol c Hc H); clear H
  | H : bool_decide (?c ∈ bs ?l) = true |- _ =>
      pose proof (literal_eol c l H eq_refl); clear H
  end.

(** The characters the parser lets into the line. *)
Lemma step_no_eol mem p ch r r' :
  is_byte ch -> step mem p ch r = Continue r' -> 1 <= stage (state r') ->
  ch <> 0 /\ ch <> LF /\ (ch <> CR \/ state r' = sw_almost_done).
Proof.
  intros Hc H Hst. destruct (state r) eqn:Hr; unfold step in H; rewrite Hr in H; unfold_step;
    split_ifs H; simpl in Hst; rewrite ?Hr in Hst; simpl in Hst; eol_facts;
    unfold upper_or_underscore, is_num, CR, LF in *; simpl; try lia; auto with lia.
Qed.

(** Opens the pointer facts of a request: the premises on the stage are
    discharged, and every pointer known to be set is named. *)
Ltac open_pointers :=
  repeat match goal with
  | H : (?a <= ?b) -> _ |- _ => specialize (H ltac:(lia)) || clear H
  | H : (?a <= ?b <= ?c) -> _ |- _ => specialize (H ltac:(lia)) || clear H
  end;
  unfold method_ok, uri_start_ok, uri_end_ok in *; simpl in *;
  repeat match goal with
  | H : is_set ?o _ |- _ => destruct o eqn:?; simpl in H; [|done]
  | H : context [is_set ?o _] |- _ => destruct o eqn:?; simpl in H
  | H : _ /\ _ |- _ => destruct H
  | H : False |- _ => destruct H
  end; simplify_eq.

Ltac pointers_solve :=
  repeat match goal with |- _ /\ _ => split | |- _ -> _ => intros end;
  try done; try lia;
  first
    [ rewrite Z.add_simpl_r; assumption
    | match goal with
      | H : (mem_at ?m ?p =? _) = true |- mem_at ?m ?x = _ =>
          replace x with p by lia; lia
      end
    | apply no_eol_snoc; [assumption || (apply no_eol_nil; lia) | intuition congruence ..]
    | idtac ].

Lemma pointers_step mem lo p r r' :
  bytes mem -> 0 <= p < Z.of_nat (length mem) ->
  pointers_inv mem lo p r -> step mem p (mem_at mem p) r = Continue r' ->
  pointers_inv mem lo (p + 1) r'.
Proof.
  intros Hb Hp Hinv H.
  pose proof (step_no_eol _ _ _ _ _ (mem_at_byte mem p Hb Hp) H) as Heol.
  unfold pointers_inv, line_end in *.
  destruct (state r) eqn:Hr; unfold step in H; rewrite Hr in H; unfold_step;
    split_ifs H; simpl in *; rewrite ?Hr in *; simpl in *;
    destruct Hinv as (Hlo & Hre & H1 & H2 & H35 & H6 & H7); open_pointers.
  all: split_and!; intros; simpl; pointers_solve.
Qed.

Lemma step_fail_code mem p ch r rc r' :
  step mem p ch r = Return (Fail rc r') ->
  rc = NGX_HTTP_PARSE_INVALID_METHOD \/ rc = NGX_HTTP_PARSE_INVALID_REQUEST.
Proof.
  intros H. destruct (state r) eqn:Hr; unfold step in H; rewrite Hr in H; unfold_step;
    repeat match type of H with
           | context [if ?b then _ else _] => destruct b
           end; try discriminate H; injection H as <- _; auto.
Qed.

Lemma pointers_exit mem lo p r e :
  pointers_inv mem lo p r -> step mem p (mem_at mem p) r = Return e ->
  match e with
  | GotoDone r' => pointers_done mem lo p r'
  | Fail rc _ => rc = NGX_HTTP_PARSE_INVALID_METHOD
                 \/ rc = NGX_HTTP_PARSE_INVALID_REQUEST
  end.
Proof.
  intros Hinv H. unfold pointers_inv, pointers_done, line_end in *.
  destruct (state r) eqn:Hr; unfold step in H; rewrite Hr in H; unfold_step;
    split_ifs H; simpl in *; rewrite ?Hr in *; simpl in *; try (by auto);
    destruct Hinv as (Hlo & Hre & H1 & H2 & H35 & H6 & H7); open_pointers;
    rewrite ?Hre; simpl.
  all: split_and!; intros; simpl; pointers_solve.
Qed.

Lemma parse_loop_pointers b :
  bytes (b_mem b) -> buf_ok b ->
  match scan (step (b_mem b)) (b_pos b)
          (mem_slice (b_mem b) (b_pos b) (b_last b)) init_request with
  | (p, Continue _) => p = b_last b
  | (p, Return (GotoDone r)) =>
      b_pos b <= p < b_last b /\ pointers_done (b_mem b) (b_pos b) p r
  | (_, Return (Fail rc _)) => rc = NGX_HTTP_PARSE_INVALID_METHOD
                               \/ rc = NGX_HTTP_PARSE_INVALID_REQUEST
  end.
Proof.
  intros Hb [Hpos Hlast].
  pose proof (scan_slice_inv (step (b_mem b)) (b_mem b)
    (pointers_inv (b_mem b) (b_pos b))
    (fun p e => match e with
       | GotoDone r => pointers_done (b_mem b) (b_pos b) p r
       | Fail rc _ => rc = NGX_HTTP_PARSE_INVALID_METHOD
                      \/ rc = NGX_HTTP_PARSE_INVALID_REQUEST
       end) (b_last b) Hlast) as Hscan.
  specialize (Hscan
    ltac:(intros; eapply pointers_step; eauto; lia)
    ltac:(intros; eapply pointers_exit; eauto)
    (b_pos b) init_request Hpos).
  destruct (scan _ _ _ _) as [p [r|[r|rc r]]]; apply Hscan;
    (split; [lia|]; split; [done|]; repeat split; simpl; intros; lia).
Qed.

(** ** Properties *)

(** Same return code, and unless the parser gave up, which leaves [b->pos] and
    [r->state] as the call found them, the same request and buffer. *)
Definition same_outcome (x y : Z * request * ngx_buf_t) : Prop :=
  x.1.1 = y.1.1 /\
  (x.1.1 = NGX_HTTP_PARSE_INVALID_METHOD \/ x.1.1 = NGX_HTTP_PARSE_INVALID_REQUEST
   \/ x = y).

(** C8: Resuming: when the first [k] bytes of a request line make the parser
    return [NGX_AGAIN], it stops exactly at [k], and calling it again on the
    rest of the buffer gives the outcome of one call on the whole; any other
    result is already that of the whole. Reading a request line in pieces
    never changes how it is parsed. *)
Theorem ngx_http_parse_request_line_resume r b k :
  buf_ok b -> b_pos b <= k <= b_last b ->
  let '(rc, r1, b1) := ngx_http_parse_request_line r (b <| b_last := k |>) in
  if rc =? NGX_AGAIN then
    b_pos b1 = k /\
    same_outcome (ngx_http_parse_request_line r b)
      (ngx_http_parse_request_line r1 (b <| b_pos := k |>))
  else ngx_http_parse_request_line r b = (rc, r1, b1 <| b_last := b_last b |>).
Proof.
  intros [Hpos Hlast] Hk. unfold ngx_http_parse_request_line; simpl.
  rewrite (scan_slice_split _ (b_mem b) (b_pos b) k (b_last b)) by lia.
  destruct (scan (step (b_mem b)) (b_pos b) (mem_slice (b_mem b) (b_pos b) k) r)
    as [p [r1|[r1|rc r1]]] eqn:E.
  - apply scan_slice_pos in E; [subst p | lia | lia]. rewrite Z.eqb_refl. split; [done|].
    destruct (scan _ k _ r1) as [p [r2|[r2|rc2 r2]]] eqn:E; [by split; auto..|].
    apply scan_return_step in E as (ch & r3 & E).
    split; [done|]. destruct (step_fail_code _ _ _ _ _ _ E); auto.
  - destruct (finish p r1) as [rc r2] eqn:F.
    assert (rc <> NGX_AGAIN) as ->%Z.eqb_neq; [|by destruct b].
    unfold finish in F. destruct (_ && _); injection F as <- _; done.
  - apply scan_return_step in E as (ch & r2 & E).
    by destruct (step_fail_code _ _ _ _ _ _ E) as [-> | ->], b.
Qed.

Lemma ngx_http_parse_request_line_resume_witness :
  let mem := bs "GET /x HTTP/1.0" ++ [CR; LF] in
  let '(rc, r1, b1) := ngx_http_parse_request_line init_request (Buf mem 0 5) in
  rc = NGX_AGAIN /\
  same_outcome (ngx_http_parse_request_line init_request (Buf mem 0 17))
    (ngx_http_parse_request_line r1 (Buf mem 5 17)).
Proof.
  pose proof (ngx_http_parse_request_line_resume init_request
    (Buf (bs "GET /x HTTP/1.0" ++ [CR; LF]) 0 17) 5
    ltac:(unfold buf_ok; simpl; lia) ltac:(simpl; lia)) as H.
  split; [reflexivity | exact (proj2 H)].
Defined.

(** C40: Every pointer the parser hands to [ngx_http_process_request_line] is
    set and ordered inside the buffer: the method, the URI and the line are
    slices [start <= end] of the bytes read, the URI is not empty and begins
    with a slash, the line contains no NUL, CR or LF, and the next byte to
    read follows the line feed. *)
Theorem ngx_http_parse_request_line_pointers b rc r b' :
  bytes (b_mem b) -> buf_ok b ->
  ngx_http_parse_request_line init_request b = (rc, r, b') ->
  rc = NGX_OK \/ rc = NGX_HTTP_PARSE_INVALID_09_METHOD ->
  exists s me us ue re,
    request_start r = Some s /\ method_end r = Some me /\ uri_start r = Some us
    /\ uri_end r = Some ue /\ request_end r = Some re
    /\ b_pos b <= s <= me /\ me < us < ue /\ ue <= re < b_pos b'
    /\ b_pos b' <= b_last b /\ mem_at (b_mem b) us = "/"%chr
    /\ no_eol (b_mem b) s re /\ mem_at (b_mem b) (b_pos b' - 1) = LF.
Proof.
  intros Hb Hok H Hrc. pose proof (parse_loop_pointers b Hb Hok) as Hscan.
  unfold ngx_http_parse_request_line in H.
  destruct (scan _ _ _ _) as [p [r1|[r1|rc1 r1]]].
  - injection H as <- _ _. by destruct Hrc.
  - destruct Hscan as [Hp (Hm & Hus & Hlf & Hre & Hue)].
    unfold finish in H.
    assert (E : exists v, r = r1 <| request_end := Some (default p (request_end r1)) |>
                  <| http_version := v |> <| state := sw_start |>
                  /\ b' = b <| b_pos := p + 1 |>).
    { destruct (request_end r1) eqn:Er; destruct (_ && _); injection H as _ <- <-;
        simpl; eexists; split; rewrite <- ?Er; done. }
    destruct E as (v & -> & ->). simpl. open_pointers.
    do 5 eexists. split_and!; try done; try lia.
    by replace (p + 1 - 1) with p by lia.
  - injection H as <- _ _. destruct Hscan as [-> | ->], Hrc; done.
Qed.

Lemma ngx_http_parse_request_line_pointers_witness :
  let b := Buf (bs "GET http://h HTTP/1.1" ++ [LF]) 0 22 in
  exists r b', ngx_http_parse_request_line init_request b = (NGX_OK, r, b')
    /\ exists us ue, uri_start r = Some us /\ uri_end r = Some ue /\ us < ue.
Proof.
  set (b := Buf (bs "GET http://h HTTP/1.1" ++ [LF]) 0 22). cbv zeta.
  assert (Hb : bytes (b_mem b)) by (apply (bool_decide_unpack _); vm_compute; exact I).
  assert (Hok : buf_ok b) by (unfold buf_ok; simpl; lia).
  destruct (ngx_http_parse_request_line init_request b) as [[rc r] b'] eqn:E.
  assert (rc = NGX_OK) as ->.
  { apply (f_equal (fun x => x.1.1)) in E. vm_compute in E. by rewrite <- E. }
  exists r, b'. split; [done|].
  destruct (ngx_http_parse_request_line_pointers b _ r b' Hb Hok E (or_introl eq_refl))
    as (s & me & us & ue & re & H). exists us, ue. split_and!; try apply H.
Defined.
