(* ===== verification/HttpUri.v ===== *)
(** * The path of a request (src/http/ngx_http_parse.c, ngx_http_request.c)

    [ngx_http_parse_complex_uri] decodes and normalises a path,
    [ngx_http_parse_uri] only checks one, and [ngx_http_process_request_uri]
    makes the path of a request whose line was parsed.  The paths they give do
    not lead out of their directory. *)

From S2P Require Import Prelude HttpCommon HttpRequestLine.

(** [src/http/ngx_http_parse.c:1247-1254] ngx_http_parse_complex_uri: the
    states. *)
Inductive usw := sw_usual | sw_slash | sw_dot | sw_dot_dot | sw_quoted | sw_quoted_second.

(** [src/http/ngx_http_parse.c:1246-1267] ngx_http_parse_complex_uri: the local
    variables; [out] is what lies before [u], [ext] is the offset in it of
    [r->uri_ext]. *)
Record uri_state := UriState {
  ustate : usw;
  quoted_state : usw;
  decoded : Z;
  out : list Z;
  ext : option Z;
  plus : bool;
  quoted : bool
}.
#[export] Instance eta_uri_state : Settable uri_state := fun s =>
  UriState (ustate s) (quoted_state s) (decoded s) (out s) (ext s) (plus s) (quoted s).

(** How its loop is left. *)
Inductive uri_exit := UriInvalid (s : uri_state) | UriDone (s : uri_state) | UriArgs (s : uri_state).

Abbreviation uresult := (step_result uri_state uri_exit).

(** [*u++ = ch] *)
Definition put (ch : Z) (s : uri_state) : uri_state := s <| out := out s ++ [ch] |>.

(** [src/http/ngx_http_parse.c:1282-1349] ngx_http_parse_complex_uri: sw_usual *)
Definition on_usual (ch : Z) (s : uri_state) : uresult :=
  if is_usual ch then Continue (put ch s)
  else if ch =? "/"%chr then Continue (put ch (s <| ext := None |> <| ustate := sw_slash |>))
  else if ch =? "%"%chr then Continue (s <| quoted_state := ustate s |> <| ustate := sw_quoted |>)
  else if ch =? "?"%chr then Return (UriArgs s)
  else if ch =? "#"%chr then Return (UriDone s)
  else if ch =? "."%chr then
    Continue (put ch (s <| ext := Some (Z.of_nat (length (out s)) + 1) |>))
  else if ch =? "+"%chr then Continue (put ch (s <| plus := true |>))
  else Continue (put ch s).

(** [src/http/ngx_http_parse.c:1351-1392] ngx_http_parse_complex_uri: sw_slash *)
Definition on_slash (merge_slashes : bool) (ch : Z) (s : uri_state) : uresult :=
  if is_usual ch then Continue (put ch (s <| ustate := sw_usual |>))
  else if ch =? "/"%chr then Continue (if merge_slashes then s else put ch s)
  else if ch =? "."%chr then Continue (put ch (s <| ustate := sw_dot |>))
  else if ch =? "%"%chr then Continue (s <| quoted_state := ustate s |> <| ustate := sw_quoted |>)
  else if ch =? "?"%chr then Return (UriArgs s)
  else if ch =? "#"%chr then Return (UriDone s)
  else if ch =? "+"%chr then Continue (put ch (s <| plus := true |> <| ustate := sw_usual |>))
  else Continue (put ch (s <| ustate := sw_usual |>)).

(** [src/http/ngx_http_parse.c:1394-1433] ngx_http_parse_complex_uri: sw_dot *)
Definition on_dot (ch : Z) (s : uri_state) : uresult :=
  if is_usual ch then Continue (put ch (s <| ustate := sw_usual |>))
  else if ch =? "/"%chr then
    Continue (s <| ustate := sw_slash |> <| out := take (length (out s) - 1) (out s) |>)
  else if ch =? "."%chr then Continue (put ch (s <| ustate := sw_dot_dot |>))
  else if ch =? "%"%chr then Continue (s <| quoted_state := ustate s |> <| ustate := sw_quoted |>)
  else if ch =? "?"%chr then Return (UriArgs s)
  else if ch =? "#"%chr then Return (UriDone s)
  else if ch =? "+"%chr then Continue (put ch (s <| plus := true |> <| ustate := sw_usual |>))
  else Continue (put ch (s <| ustate := sw_usual |>)).

(** [src/http/ngx_http_parse.c:1446-1461] ngx_http_parse_complex_uri: the loop
    that looks for a slash backwards, from the position [u]. *)
Fixpoint back (l : list Z) (u : nat) : option nat :=
  if (l !!! u) =? "/"%chr then Some (S u)
  else match u with O => None | S u => back l u end.
(** [src/http/ngx_http_parse.c:1446-1461] ngx_http_parse_complex_uri: back to
    after the slash found. *)
Definition back_up (l : list Z) : option (list Z) :=
  if (length l <? 5)%nat then None
  else u ← back l (length l - 5); Some (take u l).

(** [src/http/ngx_http_parse.c:1435-1480] ngx_http_parse_complex_uri: sw_dot_dot *)
Definition on_dot_dot (ch : Z) (s : uri_state) : uresult :=
  if is_usual ch then Continue (put ch (s <| ustate := sw_usual |>))
  else if ch =? "/"%chr then
    let s := s <| ustate := sw_slash |> in
    match back_up (out s) with
    | Some l => Continue (s <| out := l |>)
    | None => Return (UriInvalid s)
    end
  else if ch =? "%"%chr then Continue (s <| quoted_state := ustate s |> <| ustate := sw_quoted |>)
  else if ch =? "?"%chr then Return (UriArgs s)
  else if ch =? "#"%chr then Return (UriDone s)
  else if ch =? "+"%chr then Continue (put ch (s <| plus := true |> <| ustate := sw_usual |>))
  else Continue (put ch (s <| ustate := sw_usual |>)).

(** [src/http/ngx_http_parse.c:1482-1500] ngx_http_parse_complex_uri: sw_quoted *)
Definition on_quoted (ch : Z) (s : uri_state) : uresult :=
  let s := s <| quoted := true |> in
  let c := u8 (Z.lor ch 0x20) in
  if ("0"%chr <=? ch) && (ch <=? "9"%chr)
  then Continue (s <| decoded := u8 (ch - "0"%chr) |> <| ustate := sw_quoted_second |>)
  else if ("a"%chr <=? c) && (c <=? "f"%chr)
  then Continue (s <| decoded := u8 (c - "a"%chr + 10) |> <| ustate := sw_quoted_second |>)
  else Return (UriInvalid s).

(** [src/http/ngx_http_parse.c:1280-1280] ngx_http_parse_complex_uri: the switch
    on a decoded character, in the state before the percent sign. *)
Definition on_plain (merge_slashes : bool) (ch : Z) (s : uri_state) : uresult :=
  match ustate s with
  | sw_usual => on_usual ch s
  | sw_slash => on_slash merge_slashes ch s
  | sw_dot => on_dot ch s
  | sw_dot_dot => on_dot_dot ch s
  | _ => Return (UriInvalid s)
  end.

(** [src/http/ngx_http_parse.c:1502-1538] ngx_http_parse_complex_uri:
    sw_quoted_second; the next iteration has the decoded character for its
    [ch]. *)
Definition on_quoted_second (merge_slashes : bool) (ch : Z) (s : uri_state) : uresult :=
  let c := u8 (Z.lor ch 0x20) in
  if ("0"%chr <=? ch) && (ch <=? "9"%chr) then
    let ch := u8 (Z.shiftl (decoded s) 4 + ch - "0"%chr) in
    if (ch =? "%"%chr) || (ch =? "#"%chr) then Continue (put ch (s <| ustate := sw_usual |>))
    else if ch =? 0 then Return (UriInvalid s)
    else on_plain merge_slashes ch (s <| ustate := quoted_state s |>)
  else if ("a"%chr <=? c) && (c <=? "f"%chr) then
    let ch := u8 (Z.shiftl (decoded s) 4 + c - "a"%chr + 10) in
    if ch =? "?"%chr then Continue (put ch (s <| ustate := sw_usual |>))
    else
      let s := if ch =? "+"%chr then s <| plus := true |> else s in
      on_plain merge_slashes ch (s <| ustate := quoted_state s |>)
  else Return (UriInvalid s).

(** [src/http/ngx_http_parse.c:1269-1280] ngx_http_parse_complex_uri: the switch. *)
Definition uri_step (merge_slashes : bool) (ch : Z) (s : uri_state) : uresult :=
  match ustate s with
  | sw_quoted => on_quoted ch s
  | sw_quoted_second => on_quoted_second merge_slashes ch s
  | _ => on_plain merge_slashes ch s
  end.

Definition init_uri_state : uri_state := UriState sw_usual sw_usual 0 [] None false false.

(** What the parser of a path writes to the request: [uri], and [exten] and
    [args] when they are set. *)
Record uri_fields := UriFields {
  uri : list Z;
  exten : option (list Z);
  args : option (list Z)
}.

(** [src/http/ngx_http_parse.c:1555-1567] ngx_http_parse_complex_uri: the end of
    the arguments at [#], searched from [p]; where it is. *)
Definition find_hash (p : Z) (l : list Z) : option Z :=
  match list_find (fun c => c = "#"%chr) l with
  | Some (i, _) => Some (p + Z.of_nat i)
  | None => None
  end.

Definition uri_exten (s : uri_state) : option (list Z) :=
  e ← ext s; Some (drop (Z.to_nat e) (out s)).

(** [src/http/ngx_http_parse.c:1243-1580] ngx_http_parse_complex_uri: the return
    code, the request, and what is written. *)
Definition ngx_http_parse_complex_uri (mem : list Z) (merge_slashes : bool) (r : request)
  : Z * request * uri_fields :=
  let us := default 0 (uri_start r) in
  let ue := default 0 (uri_end r) in
  let close r s := r <| plus_in_uri := plus_in_uri r || plus s |>
                     <| quoted_uri := quoted_uri r || quoted s |> in
  let r := r <| uri_ext := None |> <| args_start := None |> in
  match scan (fun _ => uri_step merge_slashes) us (mem_slice mem us ue) init_uri_state with
  | (_, Return (UriInvalid s)) => (NGX_HTTP_PARSE_INVALID_REQUEST, close r s, UriFields (out s) None None)
  | (_, Continue s) | (_, Return (UriDone s)) => (NGX_OK, close r s, UriFields (out s) (uri_exten s) None)
  | (p, Return (UriArgs s)) =>
      let a := p + 1 in
      match find_hash a (mem_slice mem a ue) with
      | Some h => (NGX_OK, close r s, UriFields (out s) (uri_exten s) (Some (mem_slice mem a h)))
      | None => (NGX_OK, close (r <| args_start := Some a |>) s, UriFields (out s) (uri_exten s) None)
      end
  end.

(** [src/http/ngx_http_request.c:1067-1071] ngx_http_process_request_uri: the
    length of the memory for the path when it is copied. *)
Definition uri_len (r : request) : Z :=
  match args_start r with
  | Some a => a - 1 - default 0 (uri_start r)
  | None => default 0 (uri_end r) - default 0 (uri_start r)
  end.
(** [src/http/ngx_http_request.c:1062-1115] ngx_http_process_request_uri: the
    path, its extension and the arguments; [None] is a request answered with
    400.  The lines as they came ([valid_unparsed_uri], [unparsed_uri]) are
    not kept. *)
Definition ngx_http_process_request_uri (mem : list Z) (merge_slashes : bool) (r : request)
  : option (request * uri_fields) :=
  let us := default 0 (uri_start r) in
  let ue := default 0 (uri_end r) in
  '(r, f) ← (if complex_uri r || quoted_uri r then
               match ngx_http_parse_complex_uri mem merge_slashes r with
               | (rc, r, f) => if rc =? NGX_OK then Some (r, f) else None
               end
             else Some (r, UriFields (mem_slice mem us (us + uri_len r)) None None));
  let ex := match uri_ext r with
            | Some e => Some (mem_slice mem e (match args_start r with Some a => a - 1 | None => ue end))
            | None => exten f
            end in
  let ar := match args_start r with
            | Some a => if a <? ue then Some (mem_slice mem a ue) else args f
            | None => args f
            end in
  Some (r, UriFields (uri f) ex ar).

Example uri_example :
  let run s := let mem := bs s ++ [10] in
    let '(rc, _, f) := ngx_http_parse_complex_uri mem true
       (init_request <| uri_start := Some 0 |> <| uri_end := Some (Z.of_nat (length mem) - 1) |>) in
    (rc, uri f) in
  run "/a/./b//c/../%64.e?x" = (NGX_OK, bs "/a/b/d.e") /\ run "/a/../.." = (NGX_OK, bs "/..")
  /\ (run "/a/../../").1 = NGX_HTTP_PARSE_INVALID_REQUEST /\ run "/%2e%2E%2f" = (11, bs "/..")
  /\ run "/a%" = (NGX_OK, bs "/a").
Proof. by vm_compute. Qed.

(** ** Normalisation

    The reference: a path is decoded into tokens, cut at the slashes, and its
    segments are walked with a stack of the directories entered. *)

(** A character of the path; one that was quoted and would otherwise end the
    path, or start a quoted one, is plain text. *)
Inductive token := Char (c : Z) | Text (c : Z).
Definition token_char (t : token) : Z := match t with Char c | Text c => c end.

Definition hex_value (c : Z) : option Z :=
  if ("0"%chr <=? c) && (c <=? "9"%chr) then Some (c - "0"%chr)
  else if ("a"%chr <=? c) && (c <=? "f"%chr) then Some (c - "a"%chr + 10)
  else if ("A"%chr <=? c) && (c <=? "F"%chr) then Some (c - "A"%chr + 10)
  else None.
Definition decoded_token (v : Z) : option token :=
  if v =? 0 then None
  else if (v =? "%"%chr) || (v =? "#"%chr) || (v =? "?"%chr) then Some (Text v)
  else Some (Char v).

(** Up to a question mark or a hash; a quotation that is cut off is ignored. *)
Fixpoint tokens (l : list Z) : option (list token) :=
  match l with
  | [] => Some []
  | c :: l =>
      if (c =? "?"%chr) || (c =? "#"%chr) then Some []
      else if c =? "%"%chr then
        match l with
        | [] => Some []
        | h :: l =>
            h ← hex_value h;
            match l with
            | [] => Some []
            | c :: l => c ← hex_value c; t ← decoded_token (16 * h + c); ts ← tokens l; Some (t :: ts)
            end
        end
      else ts ← tokens l; Some (Char c :: ts)
  end.

(** The segments; [cur] begins the first. *)
Fixpoint segments (cur : list Z) (ts : list token) : list Z * list (list Z) :=
  match ts with
  | [] => (cur, [])
  | Char c :: ts =>
      if c =? "/"%chr then let '(s, l) := segments [] ts in (cur, s :: l)
      else segments (cur ++ [c]) ts
  | Text c :: ts => segments (cur ++ [c]) ts
  end.

(** Leaving the directory on top; an empty one is left together with the one
    below. *)
Definition leave (dirs : list (list Z)) : option (list (list Z)) :=
  match dirs with
  | [] => None
  | [] :: [] => None
  | [] :: _ :: dirs => Some dirs
  | _ :: dirs => Some dirs
  end.
(** A segment with a slash after it. *)
Definition enter (merge_slashes : bool) (dirs : list (list Z)) (seg : list Z) : option (list (list Z)) :=
  if bool_decide (seg = []) then Some (if merge_slashes then dirs else [] :: dirs)
  else if bool_decide (seg = bs ".") then Some dirs
  else if bool_decide (seg = bs "..") then leave dirs
  else Some (seg :: dirs).
Fixpoint walk (merge_slashes : bool) (dirs : list (list Z)) (seg : list Z) (segs : list (list Z))
  : option (list (list Z) * list Z) :=
  match segs with
  | [] => Some (dirs, seg)
  | seg' :: segs => dirs ← enter merge_slashes dirs seg; walk merge_slashes dirs seg' segs
  end.
(** The path of the directories entered, the innermost first. *)
Fixpoint dir_path (dirs : list (list Z)) : list Z :=
  match dirs with
  | [] => bs "/"
  | d :: dirs => dir_path dirs ++ d ++ bs "/"
  end.
Definition normal_path (merge_slashes : bool) (l : list Z) : option (list Z) :=
  ts ← tokens l;
  let '(s, l) := segments [] ts in
  '(dirs, last) ← walk merge_slashes [] s l;
  Some (dir_path dirs ++ last).

(** ** The parser normalises *)

Definition no_slash (l : list Z) : Prop := Forall (fun c => c <> "/"%chr) l.

Lemma no_slash_nil : no_slash [].
Proof. constructor. Qed.
#[local] Hint Resolve no_slash_nil : core.

(** The state in a segment so far. *)
Definition kind (cur : list Z) : usw :=
  if bool_decide (cur = []) then sw_slash
  else if bool_decide (cur = bs ".") then sw_dot
  else if bool_decide (cur = bs "..") then sw_dot_dot
  else sw_usual.
Definition at_path (s : uri_state) (dirs : list (list Z)) (cur : list Z) : Prop :=
  ustate s = kind cur /\ out s = dir_path dirs ++ cur /\ Forall no_slash dirs /\ no_slash cur.

(** Looking backwards finds the last slash. *)
Lemma back_finds a b rest k :
  no_slash b -> (k <= length b)%nat ->
  back (a ++ "/"%chr :: b ++ rest) (length a + k) = Some (S (length a)).
Proof.
  intros Hb. induction k as [|k IH]; intros Hk.
  - rewrite Nat.add_0_r. destruct a as [|c a]; [done|].
    cbn [length]. cbn [back]. rewrite list_lookup_total_middle by done. done.
  - rewrite Nat.add_succ_r. cbn [back].
    replace ((a ++ "/"%chr :: b ++ rest) !!! S (length a + k)) with (b !!! k).
    + unfold no_slash in Hb. rewrite Forall_lookup in Hb.
      destruct (lookup_lt_is_Some_2 b k) as [c Hc]; [lia|]. rewrite (list_lookup_total_correct _ _ _ Hc).
      rewrite (proj2 (Z.eqb_neq _ _)) by (by eapply Hb). apply IH. lia.
    + rewrite lookup_total_app_r by lia. replace (S (length a + k) - length a)%nat with (S k) by lia.
      simpl. by rewrite lookup_total_app_l by lia.
Qed.
Lemma back_up_at a b rest :
  no_slash b -> length rest = 4%nat -> back_up (a ++ "/"%chr :: b ++ rest) = Some (a ++ bs "/").
Proof.
  intros Hb Hr. unfold back_up.
  assert (length (a ++ "/"%chr :: b ++ rest) = length a + length b + 5)%nat as Hl
    by (rewrite length_app; simpl; rewrite length_app; lia).
  rewrite Hl. destruct (Nat.ltb_spec (length a + length b + 5) 5); [lia|].
  replace (length a + length b + 5 - 5)%nat with (length a + length b)%nat by lia.
  rewrite back_finds by done. cbn [mbind option_bind].
  f_equal. rewrite firstn_app. rewrite take_ge by lia. f_equal.
  by replace (S (length a) - length a)%nat with 1%nat by lia.
Qed.

Lemma dir_path_ends dirs : exists a, dir_path dirs = a ++ bs "/".
Proof. destruct dirs as [|d dirs]; [by exists []|]. exists (dir_path dirs ++ d). simpl. by rewrite <- app_assoc. Qed.

Lemma back_up_leaves dirs :
  Forall no_slash dirs ->
  back_up (dir_path dirs ++ bs "..") = option_map dir_path (leave dirs).
Proof.
  intros Hd. destruct dirs as [|d dirs]; [done|].
  apply Forall_cons in Hd as [Hd Hdirs]. destruct d as [|c d] using rev_ind; [clear Hd|clear IHd].
  - destruct dirs as [|d2 dirs]; [done|]. apply Forall_cons in Hdirs as [Hd2 _].
    destruct (dir_path_ends dirs) as [b Eb]. cbn [dir_path leave option_map]. rewrite Eb.
    rewrite <- (back_up_at b d2 (bs "//..")) by done. f_equal. by rewrite <- !app_assoc.
  - destruct (dir_path_ends dirs) as [b Eb].
    assert (leave ((d ++ [c]) :: dirs) = Some dirs) as -> by (by destruct d). cbn [dir_path option_map]. rewrite Eb.
    apply Forall_app in Hd as [Hd _].
    rewrite <- (back_up_at b d (c :: bs "/..")) by done. f_equal. by rewrite <- !app_assoc.
Qed.

(** One plain character. *)
Lemma leave_no_slash dirs dirs' : leave dirs = Some dirs' -> Forall no_slash dirs -> Forall no_slash dirs'.
Proof.
  destruct dirs as [|[|c d] [|d2 dirs]]; simpl; intros E; simplify_eq; rewrite ?Forall_cons; tauto.
Qed.
Lemma enter_no_slash merge dirs seg dirs' :
  enter merge dirs seg = Some dirs' -> Forall no_slash dirs -> no_slash seg -> Forall no_slash dirs'.
Proof.
  unfold enter. intros E Hd Hs. repeat case_bool_decide; [|by simplify_eq|by eapply leave_no_slash|].
  - destruct merge; simplify_eq; [done|]. by apply Forall_cons.
  - simplify_eq. by apply Forall_cons.
Qed.

Lemma usual_special ch : is_byte ch -> is_usual ch = true ->
  ch <> "/"%chr /\ ch <> "."%chr /\ ch <> "%"%chr /\ ch <> "?"%chr /\ ch <> "#"%chr.
Proof. intros Hc Hu. revert Hu. by_byte ch. Qed.

(** Where a segment goes with one more character. *)
Lemma kind_snoc cur c :
  kind (cur ++ [c]) =
    match kind cur with
    | sw_slash => if c =? "."%chr then sw_dot else sw_usual
    | sw_dot => if c =? "."%chr then sw_dot_dot else sw_usual
    | _ => sw_usual
    end.
Proof.
  unfold kind. change (bs ".") with ["."%chr]. change (bs "..") with ["."%chr; "."%chr].
  destruct cur as [|c1 [|c2 cur]]; cbn [app]; destruct (Z.eqb_spec c "."%chr);
    repeat case_bool_decide; try done; try congruence.
  all: repeat match goal with H : _ :: _ = _ :: _ |- _ => injection H as ? H end; by destruct cur.
Qed.

Lemma at_path_put s dirs cur ch s' :
  at_path s dirs cur -> ch <> "/"%chr ->
  ustate s' = kind (cur ++ [ch]) -> out s' = out s ++ [ch] -> at_path s' dirs (cur ++ [ch]).
Proof.
  intros Hs Hch Hk' Ho'. destruct Hs as (Hk & Ho & Hd & Hc). split; [done|]. split; [by rewrite Ho', Ho, app_assoc|].
  split; [done|]. apply Forall_app. split; [done|]. by apply Forall_singleton.
Qed.

(** What a slash does. *)
Lemma slash_step merge s dirs cur :
  at_path s dirs cur ->
  match enter merge dirs cur with
  | Some dirs' => exists s', on_plain merge "/"%chr s = Continue s' /\ at_path s' dirs' []
  | None => exists s', on_plain merge "/"%chr s = Return (UriInvalid s')
  end.
Proof.
  intros (Hk & Ho & Hd & Hc). unfold on_plain, enter, kind in *. rewrite Hk.
  destruct (bool_decide_reflect (cur = [])) as [E|Hne].
  { rewrite E in *; clear E. rewrite app_nil_r in Ho. destruct merge; (eexists; split; [done|]); (split; [done|]); simpl.
    - by rewrite app_nil_r.
    - rewrite app_nil_r, Ho. split; [done|]. split; [|done]. by apply Forall_cons. }
  destruct (bool_decide_reflect (cur = bs ".")) as [E|Hn1].
  { rewrite E in *; clear E. eexists; split; [done|]. split; [done|]. simpl. rewrite Ho, length_app, app_nil_r, Nat.add_sub.
    split; [apply take_app_length|done]. }
  destruct (bool_decide_reflect (cur = bs "..")) as [E|Hn2].
  { rewrite E in *; clear E. unfold on_dot_dot. change (is_usual "/"%chr) with false. change ("/"%chr =? "/"%chr) with true.
    cbv iota zeta. change (out (s <| ustate := sw_slash |>)) with (out s). rewrite Ho, back_up_leaves by done.
    destruct (leave dirs) as [dirs'|] eqn:El; cbn [option_map]; [|by eexists].
    eexists; split; [reflexivity|]. split; [done|]. simpl. rewrite app_nil_r. split; [done|]. split; [by eapply leave_no_slash|done]. }
  eexists; split; [done|]. split; [done|]. simpl. rewrite Ho, app_nil_r, <- app_assoc. split; [done|].
  split; [by apply Forall_cons|done].
Qed.

(** What another character does. *)
Lemma char_step merge ch s dirs cur :
  is_byte ch -> ch <> "/"%chr -> ch <> "?"%chr -> ch <> "#"%chr -> ch <> "%"%chr ->
  at_path s dirs cur ->
  exists s', on_plain merge ch s = Continue s' /\ at_path s' dirs (cur ++ [ch]).
Proof.
  intros Hb H1 H2 H3 H4 Hs. pose proof (kind_snoc cur ch) as Hkind. pose proof Hs as (Hk & _).
  unfold on_plain, on_usual, on_slash, on_dot, on_dot_dot. rewrite Hk.
  rewrite !(proj2 (Z.eqb_neq ch _)) by done.
  destruct (is_usual ch) eqn:Hu.
  - apply (usual_special ch Hb) in Hu as (_ & Hdot & _). rewrite (proj2 (Z.eqb_neq ch _)) in Hkind by done.
    destruct (kind cur) eqn:Ek in Hk, Hkind |- *; try (eexists; split; [done|]; eapply at_path_put; [done|done|simpl; congruence|done]).
    all: exfalso; clear -Ek; unfold kind in Ek; by repeat case_bool_decide.
  - destruct (Z.eqb_spec ch "."%chr), (Z.eqb_spec ch "+"%chr); try lia;
      (destruct (kind cur) eqn:Ek in Hk, Hkind |- *; try (eexists; split; [done|]; eapply at_path_put; [done|done|simpl; congruence|done]));
      exfalso; clear -Ek; unfold kind in Ek; by repeat case_bool_decide.
Qed.

(** Quoted characters. *)
Lemma hex_code ch :
  is_byte ch ->
  hex_value ch =
    if ("0"%chr <=? ch) && (ch <=? "9"%chr) then Some (u8 (ch - "0"%chr))
    else if ("a"%chr <=? u8 (Z.lor ch 0x20)) && (u8 (Z.lor ch 0x20) <=? "f"%chr)
    then Some (u8 (u8 (Z.lor ch 0x20) - "a"%chr + 10)) else None.
Proof. intros Hc. by_byte ch. Qed.
Lemma hex_range ch v : is_byte ch -> hex_value ch = Some v -> 0 <= v < 16.
Proof.
  intros Hc Hv. assert (match hex_value ch with Some v => (0 <=? v) && (v <? 16) | None => true end = true) as Hr
    by (clear Hv; by_byte ch). rewrite Hv in Hr. lia.
Qed.

Lemma first_digit ch s :
  is_byte ch ->
  match hex_value ch with
  | Some v => exists s', on_quoted ch s = Continue s' /\ ustate s' = sw_quoted_second /\ decoded s' = v
                /\ quoted_state s' = quoted_state s /\ out s' = out s
  | None => exists s', on_quoted ch s = Return (UriInvalid s')
  end.
Proof.
  intros Hc. rewrite (hex_code ch Hc). unfold on_quoted. cbv zeta.
  destruct (_ && _); [by eexists|]. destruct (_ && _); by eexists.
Qed.

Lemma second_digit merge ch s :
  is_byte ch -> 0 <= decoded s < 16 ->
  match v ← hex_value ch; decoded_token (16 * decoded s + v) with
  | Some (Text c) => on_quoted_second merge ch s = Continue (put c (s <| ustate := sw_usual |>))
  | Some (Char c) => exists s', on_quoted_second merge ch s = on_plain merge c s'
                       /\ ustate s' = quoted_state s /\ out s' = out s
  | None => exists s', on_quoted_second merge ch s = Return (UriInvalid s')
  end.
Proof.
  intros Hc Hd. pose proof (fun v => hex_range ch v Hc) as Hr. rewrite (hex_code ch Hc) in *.
  unfold on_quoted_second. cbv zeta. rewrite Z.shiftl_mul_pow2 by lia. change (2 ^ 4) with 16.
  destruct (_ && _) eqn:E1 in Hr |- *; [|destruct (_ && _) eqn:E2 in Hr |- *]; cbn [mbind option_bind]; [..|by eexists].
  - specialize (Hr _ eq_refl). rewrite u8_small in * by lia.
    replace (16 * decoded s + (ch - "0"%chr)) with (decoded s * 16 + ch - "0"%chr) by lia.
    rewrite u8_small by lia. set (v := decoded s * 16 + ch - "0"%chr) in *. unfold decoded_token.
    destruct (Z.eqb_spec v 0) as [-> |]; [by eexists|].
    destruct (Z.eqb_spec v "?"%chr); [lia|]. rewrite orb_false_r. destruct (_ || _); [done|by eexists].
  - specialize (Hr _ eq_refl). set (c := u8 (Z.lor ch 32)) in *.
    rewrite (u8_small (c - _ + 10)) in * by lia.
    replace (16 * decoded s + (c - "a"%chr + 10)) with (decoded s * 16 + c - "a"%chr + 10) by lia.
    rewrite u8_small by lia. set (v := decoded s * 16 + c - "a"%chr + 10) in *. unfold decoded_token.
    destruct (Z.eqb_spec v 0); [lia|]. destruct (Z.eqb_spec v "%"%chr); [lia|].
    destruct (Z.eqb_spec v "#"%chr); [lia|]. simpl. destruct (Z.eqb_spec v 63); [done|].
    destruct (v =? 43); by eexists.
Qed.

Section Normal.
Context (merge : bool).

Definition normal_from (ts : list token) (dirs : list (list Z)) (cur : list Z) : option (list Z) :=
  let '(s, l) := segments cur ts in
  '(dirs, last) ← walk merge dirs s l;
  Some (dir_path dirs ++ last).
Definition normal (l : list Z) (dirs : list (list Z)) (cur : list Z) : option (list Z) :=
  ts ← tokens l; normal_from ts dirs cur.

Lemma normal_slash ts dirs cur :
  normal_from (Char "/"%chr :: ts) dirs cur = (dirs ← enter merge dirs cur; normal_from ts dirs []).
Proof using.
  unfold normal_from. cbn [segments]. change ("/"%chr =? "/"%chr) with true. cbv iota.
  destruct (segments [] ts) as [s l]. cbn [walk]. by destruct (enter merge dirs cur).
Qed.
Lemma normal_other t ts dirs cur :
  t <> Char "/"%chr -> normal_from (t :: ts) dirs cur = normal_from ts dirs (cur ++ [token_char t]).
Proof using.
  intros Ht. unfold normal_from. destruct t as [c|c]; [|done]. cbn [segments token_char].
  rewrite (proj2 (Z.eqb_neq _ _)); [done|]. by intros ->.
Qed.

(** How the parser leaves its loop, for a result. *)
Definition ends (x : Z * uresult) (path : option (list Z)) : Prop :=
  match path with
  | None => exists p s, x = (p, Return (UriInvalid s))
  | Some path => exists p s, out s = path /\
      (x = (p, Continue s) \/ x = (p, Return (UriDone s)) \/ x = (p, Return (UriArgs s)))
  end.

Abbreviation run := (scan (fun _ => uri_step merge)).

(** A character, given what follows it. *)
Lemma char_ends p l c s dirs cur :
  is_byte c -> c <> "?"%chr -> c <> "#"%chr -> c <> "%"%chr -> at_path s dirs cur ->
  (forall s dirs cur, at_path s dirs cur -> ends (run (p + 1) l s) (normal l dirs cur)) ->
  ends (match on_plain merge c s with Continue s' => run (p + 1) l s' | Return r => (p, Return r) end)
    (ts ← tokens l; normal_from (Char c :: ts) dirs cur).
Proof using.
  intros Hc H1 H2 H3 Hs IH. destruct (Z.eq_dec c "/"%chr) as [-> |H4].
  - pose proof (slash_step merge s dirs cur Hs) as Hstep.
    destruct (enter merge dirs cur) as [dirs'|] eqn:Een.
    + destruct Hstep as (s' & -> & Hs'). specialize (IH s' dirs' [] Hs').
      replace (ts ← tokens l; normal_from (Char 47 :: ts) dirs cur) with (normal l dirs' []); [done|].
      unfold normal. destruct (tokens l) as [ts|]; [|done]. cbn [mbind option_bind].
      by rewrite normal_slash, Een.
    + destruct Hstep as (s' & ->).
      replace (ts ← tokens l; normal_from (Char 47 :: ts) dirs cur) with (@None (list Z)); [by do 2 eexists|].
      destruct (tokens l) as [ts|]; [|done]. cbn [mbind option_bind]. by rewrite normal_slash, Een.
  - destruct (char_step merge c s dirs cur Hc H4 H1 H2 H3 Hs) as (s' & -> & Hs').
    replace (ts ← tokens l; normal_from (Char c :: ts) dirs cur) with (normal l dirs (cur ++ [c])); [by apply IH|].
    unfold normal. destruct (tokens l) as [ts|]; [|done]. cbn [mbind option_bind].
    by rewrite normal_other by congruence.
Qed.

(** A token that was quoted. *)
Lemma quoted_ends p l t s dirs cur :
  is_byte (token_char t) -> at_path s dirs cur ->
  match t with
  | Char c => c <> "?"%chr /\ c <> "#"%chr /\ c <> "%"%chr
  | Text c => c = "?"%chr \/ c = "#"%chr \/ c = "%"%chr
  end ->
  (forall s dirs cur, at_path s dirs cur -> ends (run (p + 1) l s) (normal l dirs cur)) ->
  ends (match match t with
              | Char c => on_plain merge c s
              | Text c => Continue (put c (s <| ustate := sw_usual |>))
              end with Continue s' => run (p + 1) l s' | Return r => (p, Return r) end)
    (ts ← tokens l; normal_from (t :: ts) dirs cur).
Proof using.
  intros Hc Hs Ht IH. destruct t as [c|c]; [by apply char_ends; [|apply Ht..| |]|].
  replace (ts ← tokens l; normal_from (Text c :: ts) dirs cur) with (normal l dirs (cur ++ [c])).
  - apply IH. apply (at_path_put s); [done|by destruct Ht as [-> | [-> | ->]]| |done]. rewrite kind_snoc.
    assert (c <> "."%chr) by (by destruct Ht as [-> | [-> | ->]]). rewrite (proj2 (Z.eqb_neq _ _)) by done. by destruct (kind cur).
  - unfold normal. destruct (tokens l) as [ts|]; [|done]. cbn [mbind option_bind].
    by rewrite normal_other.
Qed.

Definition is_plain (s : usw) : Prop := s <> sw_quoted /\ s <> sw_quoted_second.
Lemma kind_plain cur : is_plain (kind cur).
Proof using. unfold kind. by repeat case_bool_decide. Qed.
Lemma plain_special s :
  is_plain (ustate s) ->
  (forall ch, uri_step merge ch s = on_plain merge ch s)
  /\ on_plain merge "?"%chr s = Return (UriArgs s) /\ on_plain merge "#"%chr s = Return (UriDone s)
  /\ on_plain merge "%"%chr s = Continue (s <| quoted_state := ustate s |> <| ustate := sw_quoted |>).
Proof using.
  intros [H1 H2]. unfold uri_step, on_plain. destruct (ustate s) eqn:E; try done.
  all: split_and!; try done; cbn; by rewrite <- E.
Qed.

Lemma scan_normal l : forall p s dirs cur,
  bytes l -> at_path s dirs cur -> ends (run p l s) (normal l dirs cur).
Proof using.
  remember (length l) as n eqn:En. revert l En. induction n as [n IH] using lt_wf_ind. intros l -> p s dirs cur Hl Hs.
  assert (forall l', (length l' < length l)%nat -> bytes l' -> forall p s dirs cur,
    at_path s dirs cur -> ends (run p l' s) (normal l' dirs cur)) as IH' by (intros; by eapply IH).
  clear IH. pose proof Hs as (Hk & Ho & _).
  destruct (plain_special s) as (Hplain & Hq & Hh & Hp); [rewrite Hk; apply kind_plain|].
  destruct l as [|c l]; [exists p, s; by split; [|left]|]. apply Forall_cons in Hl as [Hc Hl].
  cbn [scan]. rewrite Hplain. unfold normal. cbn [tokens].
  destruct (Z.eqb_spec c "?"%chr) as [-> |H1]; [exists p, s; rewrite Hq; by split; [|right; right]|].
  destruct (Z.eqb_spec c "#"%chr) as [-> |H2]; [exists p, s; rewrite Hh; by split; [|right; left]|].
  cbn [orb]. destruct (Z.eqb_spec c "%"%chr) as [-> |H3].
  2:{ replace ((tokens l ≫= fun ts => Some (Char c :: ts)) ≫= fun ts => normal_from ts dirs cur)
        with (ts ← tokens l; normal_from (Char c :: ts) dirs cur) by by destruct (tokens l).
      apply char_ends; try done. intros. apply IH'; simpl; (done || lia). }
  rewrite Hp. set (s0 := s <| quoted_state := ustate s |> <| ustate := sw_quoted |>).
  destruct l as [|h l]; [exists (p + 1), s0; split; [exact Ho|by left]|].
  apply Forall_cons in Hl as [Hh' Hl]. cbn [scan].
  pose proof (first_digit h s0 Hh') as Hfirst. change (uri_step merge h s0) with (on_quoted h s0).
  pose proof (hex_range h) as Hr. destruct (hex_value h) as [v|]; cbn [mbind option_bind].
  2:{ destruct Hfirst as [s' ->]. by do 2 eexists. }
  specialize (Hr v Hh' eq_refl). destruct Hfirst as (s1 & -> & Hu1 & Hd1 & Hq1 & Ho1).
  destruct l as [|c l]; [exists (p + 1 + 1), s1; split; [by rewrite Ho1|by left]|].
  apply Forall_cons in Hl as [Hc' Hl]. cbn [scan].
  assert (uri_step merge c s1 = on_quoted_second merge c s1) as -> by (unfold uri_step; by rewrite Hu1).
  pose proof (second_digit merge c s1 Hc') as Hsecond. rewrite Hd1 in Hsecond. specialize (Hsecond Hr).
  pose proof (hex_range c) as Hr2. destruct (hex_value c) as [v2|]; cbn [mbind option_bind] in *.
  2:{ destruct Hsecond as [s' ->]. by do 2 eexists. }
  specialize (Hr2 v2 Hc' eq_refl).
  assert (forall t, decoded_token (16 * v + v2) = Some t -> is_byte (token_char t) /\
    match t with
    | Char c => c <> "?"%chr /\ c <> "#"%chr /\ c <> "%"%chr
    | Text c => c = "?"%chr \/ c = "#"%chr \/ c = "%"%chr
    end) as Ht.
  { unfold decoded_token. intros t. destruct (Z.eqb_spec (16 * v + v2) 0); [done|].
    destruct (Z.eqb_spec (16 * v + v2) "%"%chr), (Z.eqb_spec (16 * v + v2) "#"%chr),
      (Z.eqb_spec (16 * v + v2) "?"%chr); cbn [orb]; intros [= <-]; unfold is_byte; simpl; lia. }
  destruct (decoded_token (16 * v + v2)) as [t|]; cbn [mbind option_bind].
  2:{ destruct Hsecond as [s' ->]. by do 2 eexists. }
  destruct (Ht t eq_refl) as [Hb Hkind].
  replace ((tokens l ≫= fun ts => Some (t :: ts)) ≫= fun ts => normal_from ts dirs cur)
    with (ts ← tokens l; normal_from (t :: ts) dirs cur) by by destruct (tokens l).
  assert (exists s2, at_path s2 dirs cur /\ on_quoted_second merge c s1 =
    match t with
    | Char c => on_plain merge c s2
    | Text c => Continue (put c (s2 <| ustate := sw_usual |>))
    end) as (s2 & Hs2 & ->).
  { destruct Hs as (_ & _ & Hds & Hcs). destruct t as [x|x].
    - destruct Hsecond as (s2 & -> & Hu2 & Ho2). exists s2. split; [|done].
      split; [by rewrite Hu2, Hq1|]. split; [by rewrite Ho2, Ho1|done].
    - exists (s1 <| ustate := ustate s |>). split; [|by rewrite Hsecond].
      split; [done|]. split; [|done]. change (out s1 = dir_path dirs ++ cur). rewrite Ho1. exact Ho. }
  apply quoted_ends; try done. intros. apply IH'; simpl; (done || lia).
Qed.
End Normal.
