(* ===== verification/HttpPath.v ===== *)
(** * Paths that stay where they are

    What a path that [ngx_http_process_request_uri] gives looks like, for every
    request line the parser accepts: it is the path of directories none of
    which is [.] or [..], and what follows; and it fits the memory that was
    taken for it. *)

From S2P Require Import Prelude HttpCommon HttpRequestLine HttpUri.

(** A directory of a path. *)
Definition proper (merge : bool) (d : list Z) : Prop :=
  d <> bs "." /\ d <> bs ".." /\ no_slash d /\ (merge = true -> d <> []).
Definition contained (merge : bool) (path : list Z) : Prop :=
  exists dirs last, path = dir_path dirs ++ last /\ Forall (proper merge) dirs /\ no_slash last.

(** ** Of the normalised paths *)

Definition text_ok (t : token) : Prop := t <> Text "/"%chr.

Lemma decoded_token_text v t : decoded_token v = Some t -> text_ok t.
Proof.
  unfold decoded_token, text_ok. destruct (v =? 0); [done|].
  destruct (Z.eqb_spec v "%"%chr), (Z.eqb_spec v "#"%chr), (Z.eqb_spec v "?"%chr); simpl; intros [= <-]; congruence.
Qed.

Lemma tokens_text l ts : tokens l = Some ts -> Forall text_ok ts.
Proof.
  remember (length l) as n eqn:En. revert l ts En. induction n as [n IH] using lt_wf_ind. intros l ts -> E.
  assert (forall l' ts, (length l' < length l)%nat -> tokens l' = Some ts -> Forall text_ok ts) as IH'
    by (intros; by eapply IH). clear IH.
  destruct l as [|c l]; cbn [tokens] in E; [by injection E as <-|].
  destruct (_ || _); [by injection E as <-|]. destruct (c =? _).
  - destruct l as [|h l]; [by injection E as <-|]. destruct (hex_value h) as [v|]; [|done]. cbn [mbind option_bind] in E.
    destruct l as [|c2 l]; [by injection E as <-|]. destruct (hex_value c2) as [v2|]; [|done]. cbn [mbind option_bind] in E.
    destruct (decoded_token _) as [t|] eqn:Et; [|done]. cbn [mbind option_bind] in E.
    destruct (tokens l) as [ts'|] eqn:Ets; [|done]. injection E as <-.
    constructor; [by eapply decoded_token_text|]. by apply (IH' l); [simpl; lia|].
  - destruct (tokens l) as [ts'|] eqn:Ets; [|done]. injection E as <-.
    constructor; [done|]. by apply (IH' l); [simpl; lia|].
Qed.

Lemma segments_no_slash ts cur :
  Forall text_ok ts -> no_slash cur ->
  no_slash (segments cur ts).1 /\ Forall no_slash (segments cur ts).2.
Proof.
  intros Hts. revert cur. induction Hts as [|t ts Ht _ IH]; intros cur Hc; [done|]. cbn [segments].
  destruct t as [c|c].
  - destruct (Z.eqb_spec c "/"%chr).
    + destruct (IH [] no_slash_nil) as [H1 H2]. destruct (segments [] ts). split; [done|by constructor].
    + apply IH. apply Forall_app. split; [done|]. by apply Forall_singleton.
  - apply IH. apply Forall_app. split; [done|]. apply Forall_singleton. intros ->. by apply Ht.
Qed.

Lemma enter_proper merge dirs seg dirs' :
  enter merge dirs seg = Some dirs' -> no_slash seg -> Forall (proper merge) dirs -> Forall (proper merge) dirs'.
Proof.
  unfold enter. intros E Hs Hd. repeat case_bool_decide.
  - destruct merge; injection E as <-; [done|]. constructor; [|done]. subst seg. by split_and!.
  - by injection E as <-.
  - destruct dirs as [|[|c d] [|d2 dirs]]; cbn [leave] in E; simplify_eq; rewrite ?Forall_cons in *; tauto.
  - injection E as <-. constructor; [|done]. by split_and!.
Qed.

Lemma walk_proper merge segs : forall dirs seg dirs' last,
  walk merge dirs seg segs = Some (dirs', last) -> no_slash seg -> Forall no_slash segs ->
  Forall (proper merge) dirs -> Forall (proper merge) dirs' /\ no_slash last.
Proof.
  induction segs as [|seg' segs IH]; intros dirs seg dirs' last E Hs Hsegs Hd; cbn [walk] in E.
  - by injection E as <- <-.
  - apply Forall_cons in Hsegs as [Hs' Hsegs]. destruct (enter merge dirs seg) as [d|] eqn:Een; [|done].
    apply (IH d seg'); [done..|]. by eapply enter_proper.
Qed.

Lemma normal_contained merge l path : normal merge l [] [] = Some path -> contained merge path.
Proof.
  unfold normal, normal_from. destruct (tokens l) as [ts|] eqn:Et; [|done]. cbn [mbind option_bind].
  destruct (segments_no_slash ts [] (tokens_text _ _ Et) no_slash_nil) as [H1 H2].
  destruct (segments [] ts) as [s segs]. simpl in H1, H2.
  destruct (walk merge [] s segs) as [[dirs last]|] eqn:Ew; [|done]. intros [= <-].
  destruct (walk_proper merge segs [] s dirs last Ew H1 H2 (Forall_nil_2 _)) as [H3 H4].
  by exists dirs, last.
Qed.

(** The first character is the slash that is there. *)
Lemma complex_uri_normal mem merge r us ue :
  bytes mem -> uri_start r = Some us -> uri_end r = Some ue ->
  0 <= us < ue -> ue <= Z.of_nat (length mem) -> mem_at mem us = "/"%chr ->
  let '(rc, _, f) := ngx_http_parse_complex_uri mem merge r in
  match normal merge (mem_slice mem (us + 1) ue) [] [] with
  | Some path => rc = NGX_OK /\ uri f = path
  | None => rc = NGX_HTTP_PARSE_INVALID_REQUEST
  end.
Proof.
  intros Hb Hus Hue Hr Hl Hsl. unfold ngx_http_parse_complex_uri. rewrite Hus, Hue. cbv zeta.
  change (default 0 (Some us)) with us. change (default 0 (Some ue)) with ue.
  rewrite (mem_slice_cons mem us ue) by lia. rewrite Hsl. cbn [scan].
  set (s1 := put "/"%chr (init_uri_state <| ext := None |> <| ustate := sw_slash |>)).
  change (uri_step merge "/"%chr init_uri_state) with (@Continue uri_state uri_exit s1). cbv iota.
  assert (bytes (mem_slice mem (us + 1) ue)) as Hb'.
  { unfold mem_slice. by apply Forall_take, Forall_drop. }
  pose proof (scan_normal merge (mem_slice mem (us + 1) ue) (us + 1) s1 [] [] Hb') as Hscan.
  specialize (Hscan ltac:(split_and!; [done|done|constructor|constructor])). unfold ends in Hscan.
  destruct (normal merge _ [] []) as [path|].
  - destruct Hscan as (p & s & <- & [-> | [-> | ->]]); [done..|]. by destruct (find_hash _ _).
  - by destruct Hscan as (p & s & ->).
Qed.

(** ** The memory for the path *)

Lemma back_up_length l l' : back_up l = Some l' -> (length l' <= length l)%nat.
Proof.
  unfold back_up. destruct (_ <? _)%nat; [done|]. destruct (back _ _) as [u|]; [|done].
  intros [= <-]. rewrite length_take. lia.
Qed.

Definition exit_state (e : uri_exit) : uri_state :=
  match e with UriInvalid s | UriDone s | UriArgs s => s end.

Lemma plain_length merge ch s :
  match on_plain merge ch s with
  | Continue s' => (length (out s') <= length (out s) + 1)%nat
  | Return e => (length (out (exit_state e)) <= length (out s))%nat
  end.
Proof.
  pose proof (back_up_length (out s)) as Hback. destruct s as [st qs d o e pl qd].
  unfold on_plain, on_usual, on_slash, on_dot, on_dot_dot, put. simpl in *.
  destruct st, (is_usual ch), (ch =? 47), (ch =? 37), (ch =? 63), (ch =? 35), (ch =? 46), (ch =? 43), merge;
    simpl; rewrite ?length_app, ?length_take; simpl; try lia.
  all: destruct (back_up o) as [l|]; [specialize (Hback l eq_refl)|]; simpl; lia.
Qed.

Lemma uri_step_length merge ch s :
  match uri_step merge ch s with
  | Continue s' => (length (out s') <= length (out s) + 1)%nat
  | Return e => (length (out (exit_state e)) <= length (out s))%nat
  end.
Proof.
  unfold uri_step. destruct (ustate s) eqn:Es; try apply plain_length; destruct s as [st qs d o e pl qd].
  - unfold on_quoted. cbv zeta. destruct (_ && _); [simpl; lia|]. destruct (_ && _); simpl; lia.
  - unfold on_quoted_second. cbv zeta. destruct (_ && _); [|destruct (_ && _); [|simpl; lia]].
    + destruct (_ || _); [simpl; rewrite length_app; simpl; lia|]. destruct (_ =? 0); [simpl; lia|].
      match goal with |- context [on_plain merge ?c ?s'] => exact (plain_length merge c s') end.
    + destruct (_ =? 63); [simpl; rewrite length_app; simpl; lia|].
      destruct (_ =? 43);
        match goal with |- context [on_plain merge ?c ?s'] => exact (plain_length merge c s') end.
Qed.

Lemma question_returns merge s : exists e, uri_step merge "?"%chr s = Return e.
Proof.
  unfold uri_step, on_plain. destruct (ustate s); by eexists.
Qed.

(** At most one character is written for one that is read, and none from a
    question mark on. *)
Lemma complex_uri_length mem merge r us ue :
  uri_start r = Some us -> uri_end r = Some ue -> 0 <= us <= ue -> ue <= Z.of_nat (length mem) ->
  is_set (args_start r) (fun a => us < a <= ue /\ mem_at mem (a - 1) = "?"%chr) \/ args_start r = None ->
  let '(_, _, f) := ngx_http_parse_complex_uri mem merge r in
  Z.of_nat (length (uri f)) <= uri_len r.
Proof.
  intros Hus Hue Hr Hl Ha.
  set (lim := match args_start r with Some a => a - 1 | None => ue end).
  assert (uri_len r = lim - us) as -> by (unfold uri_len, lim; rewrite Hus, Hue; by destruct (args_start r)).
  assert (us <= lim <= ue /\ (lim < ue -> mem_at mem lim = "?"%chr)) as [Hlim Hq].
  { unfold lim. destruct Ha as [Ha| ->]; [|lia]. destruct (args_start r); [|done]. simpl in Ha.
    split; [lia|]. intros _. apply Ha. }
  pose proof (scan_slice_inv (fun _ => uri_step merge) mem
    (fun p s => Z.of_nat (length (out s)) <= p - us /\ p <= lim)
    (fun p e => Z.of_nat (length (out (exit_state e))) <= p - us /\ p <= lim) ue Hl) as Hscan.
  specialize (fun Hc Hret => Hscan Hc Hret us init_uri_state Hr).
  unfold ngx_http_parse_complex_uri. rewrite Hus, Hue. cbv zeta.
  change (default 0 (Some us)) with us. change (default 0 (Some ue)) with ue.
  assert (match scan (fun _ => uri_step merge) us (mem_slice mem us ue) init_uri_state with
    | (p', Continue s') => p' = ue /\ Z.of_nat (length (out s')) <= p' - us /\ p' <= lim
    | (p', Return r) => us <= p' < ue /\ Z.of_nat (length (out (exit_state r))) <= p' - us /\ p' <= lim
    end) as H.
  { apply Hscan.
    - intros p s s' Hp [H1 H2] E. pose proof (uri_step_length merge (mem_at mem p) s) as Hlen. rewrite E in Hlen.
      split; [lia|]. destruct (Z.eq_dec p lim) as [-> |]; [|lia].
      rewrite Hq in E by lia. destruct (question_returns merge s) as [e He]. congruence.
    - intros p s e Hp [H1 H2] E. pose proof (uri_step_length merge (mem_at mem p) s) as Hlen. rewrite E in Hlen.
      split; lia.
    - simpl. lia. }
  destruct (scan _ us _ _) as [p [s|[s|s|s]]]; simpl in H |- *; try lia.
  destruct (find_hash _ _); simpl; lia.
Qed.

(** ** The path while the request line is read

    Unless the parser has seen something to be normalised, what it has read of
    the path is already normal. *)

Definition headed (d : list Z) : Prop := exists c d', d = c :: d' /\ c <> "."%chr.
Definition clean_dir (d : list Z) : Prop := headed d /\ no_slash d.
Definition clean_with (P : list Z -> Prop) (l : list Z) : Prop :=
  exists dirs last, l = dir_path dirs ++ last /\ Forall clean_dir dirs /\ no_slash last /\ P last.
Definition opening (d : list Z) : Prop := d = [] \/ headed d.
Definition any (l : list Z) : Prop := True.

Lemma clean_slash l : clean_with headed l -> clean_with opening (l ++ bs "/").
Proof.
  intros (dirs & last & -> & Hd & Hl & Hh). exists (last :: dirs), []. cbn [dir_path].
  rewrite app_nil_r, app_assoc. split; [done|]. split; [by constructor|]. split; [apply no_slash_nil|by left].
Qed.
Lemma clean_snoc (P : list Z -> Prop) l c :
  clean_with P l -> c <> "/"%chr -> (forall last, P last -> headed (last ++ [c])) ->
  clean_with headed (l ++ [c]).
Proof.
  intros (dirs & last & -> & Hd & Hl & Hh) Hc HP. exists dirs, (last ++ [c]).
  rewrite app_assoc. split; [done|]. split; [done|]. split; [|by apply HP].
  apply Forall_app. split; [done|]. by apply Forall_singleton.
Qed.
Lemma clean_any P l : clean_with P l -> clean_with any l.
Proof. intros (dirs & last & ? & ? & ? & _). by exists dirs, last. Qed.
Lemma clean_more l c : clean_with any l -> c <> "/"%chr -> clean_with any (l ++ [c]).
Proof.
  intros (dirs & last & -> & Hd & Hl & _) Hc. exists dirs, (last ++ [c]).
  rewrite app_assoc. split; [done|]. split; [done|]. split; [|done].
  apply Forall_app. split; [done|]. by apply Forall_singleton.
Qed.
Lemma headed_snoc l c : headed l -> headed (l ++ [c]).
Proof. intros (c0 & l' & -> & Hc). by exists c0, (l' ++ [c]). Qed.
Lemma opening_snoc l c : c <> "."%chr -> opening l -> headed (l ++ [c]).
Proof. intros Hc [-> |Hl]; [by exists c, []|by apply headed_snoc]. Qed.
Lemma opening_headed l : headed l -> opening l.
Proof. by right. Qed.

Lemma clean_contained merge l : clean_with any l -> contained merge l.
Proof.
  intros (dirs & last & -> & Hd & Hl & _). exists dirs, last. split; [done|]. split; [|done].
  eapply Forall_impl; [exact Hd|]. intros d [(c & d' & -> & Hc) Hs].
  split_and!; [|  |done|done]; intros E; injection E as -> _; by apply Hc.
Qed.

Lemma mem_slice_snoc mem p q :
  0 <= p <= q -> q < Z.of_nat (length mem) -> mem_slice mem p (q + 1) = mem_slice mem p q ++ [mem_at mem q].
Proof.
  intros. rewrite (mem_slice_app mem p q (q + 1)) by lia. f_equal.
  rewrite (mem_slice_cons mem q (q + 1)) by lia. f_equal. unfold mem_slice. by rewrite Z.sub_diag.
Qed.

(** The arguments begin after a question mark. *)
Definition args_ok (mem : list Z) (us p : Z) (r : request) : Prop :=
  match args_start r with Some a => us < a - 1 /\ a <= p /\ mem_at mem (a - 1) = "?"%chr | None => True end.
(** Nothing to normalise. *)
Definition plain (r : request) : Prop := complex_uri r = false /\ quoted_uri r = false.
(** The path without the arguments. *)
Definition path_end (r : request) : Z :=
  match args_start r with Some a => a - 1 | None => default 0 (uri_end r) end.
Definition uri_end_ok (us p : Z) (r : request) : Prop :=
  is_set (uri_end r) (fun ue => us < ue <= p
    /\ match args_start r with Some a => a <= ue | None => True end).
(** The arguments were seen, or something to normalise. *)
Definition path_seen (mem : list Z) (us : Z) (r : request) : Prop :=
  plain r -> is_set (args_start r) (fun a => clean_with any (mem_slice mem us (a - 1))).

Definition path_inv (mem : list Z) (p : Z) (r : request) : Prop :=
  let us := default 0 (uri_start r) in
  if stage (state r) <? 6 then args_start r = None
  else
    0 <= us < p /\ args_ok mem us p r /\
    match state r with
    | sw_after_slash_in_uri => args_start r = None /\ clean_with opening (mem_slice mem us p)
    | sw_check_uri => args_start r = None /\ clean_with headed (mem_slice mem us p)
    | sw_check_uri_http_09 =>
        args_start r = None /\ clean_with headed (mem_slice mem us p) /\ uri_end_ok us p r
        /\ clean_with any (mem_slice mem us (path_end r))
    | HttpRequestLine.sw_uri => path_seen mem us r
    | sw_http_09 => uri_end_ok us p r /\ path_seen mem us r
    | _ => uri_end_ok us p r /\ (plain r -> clean_with any (mem_slice mem us (path_end r)))
    end.

Lemma usual_path c : is_byte c -> is_usual c = true -> c <> "/"%chr /\ c <> "."%chr.
Proof. intros Hc Hu. apply (usual_special c Hc) in Hu as (? & ? & _). done. Qed.

Lemma clean_root (P : list Z -> Prop) mem p :
  0 <= p < Z.of_nat (length mem) -> mem_at mem p = "/"%chr -> P [] -> clean_with P (mem_slice mem p (p + 1)).
Proof.
  intros Hp Hc HP. exists [], []. rewrite (mem_slice_cons mem p (p + 1)), Hc by lia. unfold mem_slice.
  rewrite Z.sub_diag. split; [done|]. split; [done|]. split; [apply no_slash_nil|done].
Qed.
Lemma clean_weaken (P Q : list Z -> Prop) l : (forall d, P d -> Q d) -> clean_with P l -> clean_with Q l.
Proof. intros HPQ (dirs & last & ? & ? & ? & ?). exists dirs, last. eauto. Qed.
Lemma clean_next (P : list Z -> Prop) l c :
  clean_with P l -> c <> "/"%chr -> (forall d, P d -> c <> "."%chr -> headed (d ++ [c])) -> c <> "."%chr ->
  clean_with headed (l ++ [c]).
Proof. intros Hl Hc HP Hd. apply (clean_snoc P); auto. Qed.
Lemma clean_dot l : clean_with headed l -> clean_with headed (l ++ bs ".").
Proof. intros Hl. apply (clean_snoc headed); [done..|]. intros d. apply headed_snoc. Qed.
Lemma opening_next c d : opening d -> c <> "."%chr -> headed (d ++ [c]).
Proof. intros. by apply opening_snoc. Qed.
Lemma headed_next c d : headed d -> c <> "."%chr -> headed (d ++ [c]).
Proof. intros. by apply headed_snoc. Qed.

(** Solves the parts of the invariant after a step. *)
Ltac path_facts :=
  repeat match goal with
  | H : _ /\ _ |- _ => destruct H
  | H : (?x =? ?y) = true |- _ => apply Z.eqb_eq in H
  | H : (?x =? ?y) = false |- _ => apply Z.eqb_neq in H
  | H : is_usual _ = true |- _ => apply usual_path in H; [|assumption]
  | H : is_set ?o _ |- _ => destruct o eqn:?; simpl in H; [|destruct H]
  | H : Some _ = Some _ |- _ => injection H as H
  | |- _ /\ _ => split
  | |- _ -> _ => intros
  | H : ?A /\ ?B -> _, H1 : ?A, H2 : ?B |- _ => specialize (H (conj H1 H2)); simpl in H
  | H : False |- _ => destruct H
  end;
  simpl in *; try done; try lia; try congruence.
Ltac path_clean :=
  match goal with
  | |- clean_with any (mem_slice _ _ (?p + 1 - 1)) => rewrite Z.add_simpl_r; path_clean
  | |- mem_at _ (?p + 1 - 1) = _ => by rewrite Z.add_simpl_r
  | |- clean_with _ (mem_slice _ ?p (?p + 1)) => apply clean_root; [lia|done|try by left]
  | |- clean_with _ (mem_slice _ (?x + 1) (?x + 2)) =>
      replace (x + 2) with (x + 1 + 1) by lia; apply clean_root; [lia|done|done]
  | H : clean_with _ (mem_slice ?m ?u ?p) |- clean_with any (mem_slice ?m ?u ?p) =>
      apply (clean_weaken _ _ _ (fun _ _ => I) H)
  | Hs : (forall us, _ -> mem_slice _ us (_ + 1) = _), H : clean_with ?P _ |- clean_with _ (mem_slice _ _ (_ + 1)) =>
      rewrite Hs by lia;
      first
        [ match goal with E : mem_at _ _ = 47 |- _ => rewrite E; by apply clean_slash end
        | match goal with E : mem_at _ _ = 46 |- _ => rewrite E; by apply clean_dot end
        | first [refine (clean_weaken headed opening _ opening_headed _)|idtac];
          (apply (clean_next P); [exact H|congruence
            |intros ?; first [apply opening_next|apply headed_next]|congruence]) ]
  end.

Lemma path_step mem lo p r r' :
  bytes mem -> 0 <= lo -> 0 <= p < Z.of_nat (length mem) ->
  pointers_inv mem lo p r -> path_inv mem p r -> step mem p (mem_at mem p) r = Continue r' ->
  path_inv mem (p + 1) r'.
Proof.
  intros Hb Hlo Hp Hptr Hinv H.
  assert (stage (state r) = 5 -> is_set (schema_end r) (fun se => 0 <= se /\ se + 3 <= p /\ mem_at mem (se + 1) = "/"%chr))
    as Hse.
  { destruct Hptr as (_ & _ & Hst1 & Hst2 & Hst3 & _). intros Est. specialize (Hst3 ltac:(lia)).
    specialize (Hst2 ltac:(lia)). unfold method_ok in Hst2. path_facts. }
  clear Hptr. unfold path_inv in *. pose proof (mem_at_byte mem p Hb Hp) as Hbyte.
  pose proof (fun us Hus => mem_slice_snoc mem us p Hus (proj2 Hp)) as Hsnoc.
  destruct (state r) eqn:Hr; unfold step in H; rewrite Hr in H; unfold_step;
    split_ifs H; simpl in Hinv, Hse |- *; rewrite ?Hr; simpl; try done; try specialize (Hse eq_refl);
    unfold path_seen, plain, path_end, args_ok, uri_end_ok in *; simpl in *.
  all: destruct (args_start r) as [a|] eqn:Ha; simpl in *; path_facts.
  all: path_clean.
Qed.

(** What holds when the parser leaves through [done]. *)
Definition path_done (mem : list Z) (p : Z) (r : request) : Prop :=
  let us := default 0 (uri_start r) in
  0 <= us /\ args_ok mem us p r /\ uri_end_ok us p r
  /\ (plain r -> clean_with any (mem_slice mem us (path_end r))).

Lemma path_exit mem p r r' :
  0 <= p < Z.of_nat (length mem) ->
  path_inv mem p r -> step mem p (mem_at mem p) r = Return (GotoDone r') -> path_done mem p r'.
Proof.
  intros Hp Hinv H. unfold path_inv, path_done in *.
  destruct (state r) eqn:Hr; unfold step in H; rewrite Hr in H; unfold_step;
    split_ifs H; simpl in Hinv |- *; rewrite ?Hr; simpl; try done;
    unfold path_seen, plain, path_end, args_ok, uri_end_ok in *; simpl in *.
  all: destruct (args_start r) as [a|] eqn:Ha; simpl in *; path_facts.
  all: path_clean.
Qed.

Lemma parse_loop_path b p r :
  bytes (b_mem b) -> buf_ok b ->
  scan (step (b_mem b)) (b_pos b) (mem_slice (b_mem b) (b_pos b) (b_last b)) init_request
    = (p, Return (GotoDone r)) ->
  b_pos b <= p < b_last b /\ path_done (b_mem b) p r.
Proof.
  intros Hb [Hpos Hlast] E.
  pose proof (scan_slice_inv (step (b_mem b)) (b_mem b)
    (fun p r => pointers_inv (b_mem b) (b_pos b) p r /\ path_inv (b_mem b) p r)
    (fun p e => match e with GotoDone r => path_done (b_mem b) p r | Fail _ _ => True end) (b_last b) Hlast) as Hscan.
  specialize (fun Hc Hret => Hscan Hc Hret (b_pos b) init_request Hpos). rewrite E in Hscan. apply Hscan.
  - intros q s s' Hq [H1 H2] Hs. split; [by eapply (pointers_step _ _ q s); [|lia|..]|].
    eapply (path_step _ (b_pos b) q s); [done|lia|lia|done..].
  - intros q s e Hq [H1 H2] Hs. destruct e as [r'|]; [|done]. eapply path_exit; [|done..]. lia.
  - split; [|done]. split; [lia|]. split; [done|]. repeat split; simpl; intros; lia.
Qed.

(** What an accepted request line says of its path. *)
Lemma parsed_path b r b' :
  bytes (b_mem b) -> buf_ok b -> ngx_http_parse_request_line init_request b = (NGX_OK, r, b') ->
  exists us ue p, uri_start r = Some us /\ uri_end r = Some ue /\ 0 <= us < ue
    /\ ue <= Z.of_nat (length (b_mem b)) /\ mem_at (b_mem b) us = "/"%chr /\ path_done (b_mem b) p r.
Proof.
  intros Hb Hok H. pose proof (parse_loop_pointers b Hb Hok) as Hptr. unfold ngx_http_parse_request_line in H.
  destruct (scan _ _ _ _) as [p [r1|[r1|rc1 r1]]] eqn:E; [done| |].
  2:{ injection H as -> _ _. by destruct Hptr. }
  destruct (parse_loop_path b p r1 Hb Hok E) as [_ Hpath].
  destruct Hptr as [Hp (Hm & Hus & _ & _ & Hue)].
  assert (uri_start r = uri_start r1 /\ uri_end r = uri_end r1 /\ args_start r = args_start r1
    /\ complex_uri r = complex_uri r1 /\ quoted_uri r = quoted_uri r1) as (E1 & E2 & E3 & E4 & E5).
  { unfold finish in H. destruct (request_end r1), (_ && _); try discriminate H; by injection H as <- _. }
  unfold method_ok in Hm. unfold uri_start_ok, HttpRequestLine.uri_end_ok in *.
  destruct Hok as [Hpos Hlast]. destruct Hpath as (Hus0 & Hrest).
  destruct (request_start r1) as [rs|]; [|done]. destruct (method_end r1) as [me|]; [|by destruct Hm].
  destruct (uri_start r1) as [us|] eqn:Eus; [|done]. destruct (uri_end r1) as [ue|] eqn:Eue; [|done].
  simpl in Hus, Hue, Hus0, Hrest. exists us, ue, p. split; [done|]. split; [done|]. split; [lia|]. split; [lia|]. split; [apply Hus|].
  unfold path_done, args_ok, uri_end_ok, plain, path_end in *. rewrite E1, E2, E3, E4, E5.
  rewrite Eue in Hrest. simpl in Hrest |- *. done.
Qed.

(** What has been found out about a path is enough for what is made of it. *)
Lemma path_done_contained mem merge r us ue p r' f :
  bytes mem -> uri_start r = Some us -> uri_end r = Some ue -> 0 <= us < ue -> ue <= Z.of_nat (length mem) ->
  mem_at mem us = "/"%chr -> path_done mem p r -> ngx_http_process_request_uri mem merge r = Some (r', f) ->
  contained merge (uri f) /\ Z.of_nat (length (uri f)) <= uri_len r.
Proof.
  intros Hb Hus Hue Hr Hl Hsl (_ & Ha & Hue' & Hclean) H.
  unfold args_ok, uri_end_ok in *. rewrite Hus, Hue in *. simpl in Ha, Hue', Hclean.
  unfold ngx_http_process_request_uri in H. rewrite Hus, Hue in H. cbv zeta in H.
  destruct (complex_uri r || quoted_uri r) eqn:Ep.
  - pose proof (complex_uri_normal mem merge r us ue Hb Hus Hue Hr Hl Hsl) as Hn.
    pose proof (complex_uri_length mem merge r us ue Hus Hue ltac:(lia) Hl) as Hlen.
    destruct (ngx_http_parse_complex_uri mem merge r) as [[rc r1] f1].
    destruct (rc =? NGX_OK) eqn:Erc; [|done]. apply Z.eqb_eq in Erc as ->. injection H as <- <-. simpl. split.
    + destruct (normal merge _ [] []) as [path|] eqn:En; [|done]. destruct Hn as [_ <-].
      by eapply normal_contained.
    + apply Hlen. destruct (args_start r); [left|by right]. simpl. split; [lia|]. apply Ha.
  - injection H as <- <-. simpl. apply orb_false_iff in Ep.
    change (default 0 (Some us)) with us.
    assert (us + uri_len r = path_end r) as El.
    { unfold uri_len, path_end. rewrite Hus, Hue. destruct (args_start r); simpl; lia. }
    rewrite El. split; [by apply clean_contained, Hclean|].
    rewrite mem_slice_length; [unfold uri_len in *; lia| |];
      unfold path_end in *; destruct (args_start r); simpl in *; rewrite ?Hue; simpl; lia.
Qed.

(** ** Properties *)



(** C3: The path of every request whose line was accepted stays where it is:
    it is a path of directories that are not [.] or [..], nor empty when
    slashes are merged, and a last name; only that name can be [..]. The path
    is written within the memory that was taken for it. *)
Theorem ngx_http_process_request_uri_contained b r b' merge r' f :
  bytes (b_mem b) -> buf_ok b -> ngx_http_parse_request_line init_request b = (NGX_OK, r, b') ->
  ngx_http_process_request_uri (b_mem b) merge r = Some (r', f) ->
  contained merge (uri f) /\ Z.of_nat (length (uri f)) <= uri_len r.
Proof.
  intros Hb Hok Hparse H. destruct (parsed_path b r b' Hb Hok Hparse)
    as (us & ue & p & Hus & Hue & Hr & Hl & Hsl & Hdone).
  by apply (path_done_contained (b_mem b) merge r us ue p r' f).
Qed.

Lemma ngx_http_process_request_uri_contained_witness :
  let b := Buf (bs "GET /a/%2e%2e/b/../c?d HTTP/1.1" ++ [LF]) 0 32 in
  exists r b' r' f, ngx_http_parse_request_line init_request b = (NGX_OK, r, b')
    /\ ngx_http_process_request_uri (b_mem b) true r = Some (r', f)
    /\ uri f = bs "/c" /\ contained true (uri f).
Proof.
  set (b := Buf (bs "GET /a/%2e%2e/b/../c?d HTTP/1.1" ++ [LF]) 0 32). cbv zeta.
  destruct (ngx_http_parse_request_line init_request b) as [[rc r] b'] eqn:E.
  assert (rc = NGX_OK) as ->.
  { apply (f_equal (fun x => x.1.1)) in E. vm_compute in E. by rewrite <- E. }
  assert (r = (ngx_http_parse_request_line init_request b).1.2) as Er by (by rewrite E).
  destruct (ngx_http_process_request_uri (b_mem b) true r) as [[r' f]|] eqn:E2.
  - exists r, b', r', f. split; [reflexivity|]. split; [exact E2|]. split.
    + rewrite Er in E2. clear E Er.
      apply (f_equal (fun x => option_map (fun y => uri y.2) x)) in E2. vm_compute in E2. injection E2 as E2. symmetry. exact E2.
    + apply (ngx_http_process_request_uri_contained b r b' true r' f).
      * apply (bool_decide_unpack _). vm_compute. exact I.
      * unfold buf_ok. by split.
      * exact E.
      * exact E2.
  - exfalso. rewrite Er in E2. vm_compute in E2. discriminate E2.
Defined.
