(* ===== verification/HttpParseUri.v ===== *)
(** * Paths that come without a request line (src/http/ngx_http_parse.c)

    ngx_http_parse_uri looks at the path of a request of HTTP/2 as
    ngx_http_parse_request_line looks at that of a request line: it finds the
    arguments and whether the path is to be normalised. *)

From S2P Require Import Prelude HttpCommon HttpRequestLine HttpUri HttpPath.

(** [src/http/ngx_http_parse.c:1099-1104] ngx_http_parse_uri: its states. *)
Inductive psw := sw_start | sw_after_slash_in_uri | sw_check_uri | sw_uri.

Abbreviation presult := (step_result (psw * request) (psw * request)).

(** [src/http/ngx_http_parse.c:1123-1169] ngx_http_parse_uri:
    sw_after_slash_in_uri *)
Definition uri_after_slash (p ch : Z) (r : request) : psw * request :=
  if is_usual ch then (sw_check_uri, r)
  else if ch =? " "%chr then (sw_check_uri, r <| space_in_uri := true |>)
  else if ch =? "."%chr then (sw_uri, r <| complex_uri := true |>)
  else if ch =? "%"%chr then (sw_uri, r <| quoted_uri := true |>)
  else if ch =? "/"%chr then (sw_uri, r <| complex_uri := true |>)
  else if ch =? "?"%chr then (sw_uri, r <| args_start := Some (p + 1) |>)
  else if ch =? "#"%chr then (sw_uri, r <| complex_uri := true |>)
  else if ch =? "+"%chr then (sw_after_slash_in_uri, r <| plus_in_uri := true |>)
  else (sw_check_uri, r).

(** [src/http/ngx_http_parse.c:1171-1218] ngx_http_parse_uri: sw_check_uri *)
Definition uri_check (p ch : Z) (r : request) : psw * request :=
  if is_usual ch then (sw_check_uri, r)
  else if ch =? "/"%chr then (sw_after_slash_in_uri, r <| uri_ext := None |>)
  else if ch =? "."%chr then (sw_check_uri, r <| uri_ext := Some (p + 1) |>)
  else if ch =? " "%chr then (sw_check_uri, r <| space_in_uri := true |>)
  else if ch =? "%"%chr then (sw_uri, r <| quoted_uri := true |>)
  else if ch =? "?"%chr then (sw_uri, r <| args_start := Some (p + 1) |>)
  else if ch =? "#"%chr then (sw_uri, r <| complex_uri := true |>)
  else if ch =? "+"%chr then (sw_check_uri, r <| plus_in_uri := true |>)
  else (sw_check_uri, r).

(** [src/http/ngx_http_parse.c:1220-1235] ngx_http_parse_uri: sw_uri *)
Definition uri_rest (ch : Z) (r : request) : psw * request :=
  if is_usual ch then (sw_uri, r)
  else if ch =? " "%chr then (sw_uri, r <| space_in_uri := true |>)
  else if ch =? "#"%chr then (sw_uri, r <| complex_uri := true |>)
  else (sw_uri, r).

(** [src/http/ngx_http_parse.c:1110-1121] ngx_http_parse_uri: a character *)
Definition parse_uri_step (p ch : Z) (x : psw * request) : presult :=
  let '(st, r) := x in
  match st with
  | sw_start => if negb (ch =? "/"%chr) then Return (st, r) else Continue (sw_after_slash_in_uri, r)
  | sw_after_slash_in_uri => Continue (uri_after_slash p ch r)
  | sw_check_uri => Continue (uri_check p ch r)
  | sw_uri => Continue (uri_rest ch r)
  end.

(** [src/http/ngx_http_parse.c:1095-1240] ngx_http_parse_uri *)
Definition ngx_http_parse_uri (mem : list Z) (r : request) : Z * request :=
  let us := default 0 (uri_start r) in
  match scan parse_uri_step us (mem_slice mem us (default 0 (uri_end r))) (sw_start, r) with
  | (_, Continue (_, r)) => (NGX_OK, r)
  | (_, Return (_, r)) => (NGX_ERROR, r)
  end.

Example parse_uri_1 :
  let run s := let '(rc, r) := ngx_http_parse_uri (bs s) (init_request <| uri_start := Some 0 |> <| uri_end := Some (Z.of_nat (length (bs s))) |>) in
    (rc, complex_uri r, quoted_uri r, space_in_uri r, uri_ext r, args_start r) in
  run "/a b.html?x" = (NGX_OK, false, false, true, Some 5, Some 10) /\ run "/a/.b" = (NGX_OK, true, false, false, None, None)
  /\ run "*" = (NGX_ERROR, false, false, false, None, None).
Proof. by vm_compute. Qed.

(** ** The path *)

(** What is known at [p], as for a request line ([path_inv]). *)
Definition uri_inv (mem : list Z) (us ue : Z) (p : Z) (x : psw * request) : Prop :=
  let '(st, r) := x in
  uri_start r = Some us /\ uri_end r = Some ue /\
  match st with
  | sw_start => p = us /\ args_start r = None
  | sw_after_slash_in_uri => us < p /\ mem_at mem us = "/"%chr /\ args_start r = None /\ clean_with opening (mem_slice mem us p)
  | sw_check_uri => us < p /\ mem_at mem us = "/"%chr /\ args_start r = None /\ clean_with headed (mem_slice mem us p)
  | sw_uri => us < p /\ mem_at mem us = "/"%chr /\ args_ok mem us p r /\ path_seen mem us r
  end.

Lemma uri_step_inv mem us ue p x x' : bytes mem -> 0 <= us <= p -> p < Z.of_nat (length mem) -> uri_inv mem us ue p x ->
  parse_uri_step p (mem_at mem p) x = Continue x' -> uri_inv mem us ue (p + 1) x'.
Proof.
  intros Hb Hus Hp Hinv H. destruct x as [st r]. unfold uri_inv in Hinv. destruct Hinv as (Es & Ee & Hinv).
  pose proof (mem_at_byte mem p Hb ltac:(lia)) as Hbyte. pose proof (mem_slice_snoc mem us p Hus Hp) as Hsnoc0.
  assert (Hsnoc : forall u, u = us -> mem_slice mem u (p + 1) = mem_slice mem u p ++ [mem_at mem p]) by (by intros ? ->).
  destruct st; unfold parse_uri_step, uri_after_slash, uri_check, uri_rest in H; split_ifs H; unfold uri_inv; simpl in *;
    (split; [done|]); (split; [done|]); unfold path_seen, plain, path_end, args_ok in *; simpl in *.
  all: destruct (args_start r) as [a|] eqn:Ha; simpl in *; path_facts.
  all: try path_clean.
  all: subst; match goal with E : negb _ = false |- _ => apply negb_false_iff, Z.eqb_eq in E end; try done.
  apply clean_root; [lia|done|by left].
Qed.

(** A path that is accepted, with what the request knew before. *)
Lemma parse_uri_done mem r us ue r' : bytes mem -> uri_start r = Some us -> uri_end r = Some ue -> 0 <= us < ue -> ue <= Z.of_nat (length mem) ->
  args_start r = None -> ngx_http_parse_uri mem r = (NGX_OK, r') ->
  uri_start r' = Some us /\ uri_end r' = Some ue /\ mem_at mem us = "/"%chr /\ path_done mem ue r'.
Proof.
  intros Hb Hus Hue Hr Hl Ha H. unfold ngx_http_parse_uri in H. rewrite Hus, Hue in H. simpl in H.
  pose proof (scan_slice_inv parse_uri_step mem (uri_inv mem us ue) (fun _ _ => True) ue Hl) as Hscan.
  specialize (fun H1 H2 => Hscan H1 H2 us (sw_start, r) ltac:(lia)).
  destruct (scan _ _ _ _) as [q [[st r1]|[st r1]]] eqn:E; [|done]. injection H as <-.
  destruct Hscan as [-> (Es & Ee & Hinv)]; [|done|by split_and!|].
  { intros p s s' Hp HI Hs. destruct (Z.leb_spec us p); [by apply (uri_step_inv mem us ue p s s'); [|lia|lia|..]|].
    exfalso. destruct s as [st0 r0], HI as (_ & _ & HI). destruct st0; destruct HI; lia. }
  split; [done|]. split; [done|]. assert (Hsl : mem_at mem us = "/"%chr) by (destruct st; [lia|apply Hinv..]).
  split; [done|]. unfold path_done, uri_end_ok, path_end, args_ok. rewrite Es, Ee. simpl.
  destruct st; [lia|..].
  1, 2: destruct Hinv as (_ & _ & -> & Hc); split_and!; try done; try lia; intros _; by apply (clean_weaken _ _ _ (fun _ _ => I) Hc).
  destruct Hinv as (_ & _ & Hargs & Hseen). unfold args_ok, path_seen in *.
  destruct (args_start r1) as [a|].
  - split_and!; try lia; try apply Hargs. exact Hseen.
  - split_and!; try done; try lia. intros Hpl. destruct (Hseen Hpl).
Qed.
