(* ===== verification/HttpChunked.v ===== *)
(** * Chunked transfer coding (src/http)

    [ngx_http_parse_chunked], the request body filter that drives it, and the
    response body filter that produces the coding.  The reference decoder
    [decode] reads one byte at a time; the theorems say that the filter
    implements it whatever the buffers, that it reads back what the response
    filter writes, and that the amount of input it asks for is exact. *)

From S2P Require Import Prelude NgxNumbers HttpCommon.

(** ** The parser *)

(** [src/http/ngx_http_parse.c:2107-2121] ngx_http_parse_chunked: the states. *)
Inductive chunk_state :=
  | sw_chunk_start | sw_chunk_size | sw_chunk_extension
  | sw_chunk_extension_almost_done | sw_chunk_data | sw_after_data
  | sw_after_data_almost_done | sw_last_chunk_extension
  | sw_last_chunk_extension_almost_done | sw_trailer | sw_trailer_almost_done
  | sw_trailer_header | sw_trailer_header_almost_done.

(** [src/http/ngx_http.h:62-66] ngx_http_chunked_s *)
Record ngx_http_chunked_t := Chunked {
  state : chunk_state;
  size : Z;
  length : Z
}.
#[export] Instance eta_chunked : Settable ngx_http_chunked_t := fun c =>
  Chunked (state c) (size c) (length c).
#[export] Instance chunk_state_eq_dec : EqDecision chunk_state.
Proof. solve_decision. Defined.

Inductive chunk_exit := GotoData | GotoDone | GotoInvalid.

(** Both the loop's result and its exits carry the context. *)
Abbreviation chunk_result := (step_result ngx_http_chunked_t (chunk_exit * ngx_http_chunked_t)).
Abbreviation invalid c := (Return (GotoInvalid, c)).

(** [src/http/ngx_http_parse.c:2141-2153] ngx_http_parse_chunked: the value of
    a hexadecimal digit, in sw_chunk_start and sw_chunk_size. *)
Definition chunk_digit (ch : Z) : option Z :=
  let c := u8 (Z.lor ch 32) in
  if ("0"%chr <=? ch) && (ch <=? "9"%chr) then Some (ch - "0"%chr)
  else if ("a"%chr <=? c) && (c <=? "f"%chr) then Some (c - "a"%chr + 10)
  else None.

(** [src/http/ngx_http_parse.c:2140-2155] ngx_http_parse_chunked:
    sw_chunk_start *)
Definition on_chunk_start (ch : Z) (c : ngx_http_chunked_t) : chunk_result :=
  match chunk_digit ch with
  | Some d => Continue (c <| state := sw_chunk_size |> <| size := d |>)
  | None => invalid c
  end.

Definition is_extension (ch : Z) : bool :=
  (ch =? ";"%chr) || (ch =? " "%chr) || (ch =? 9).

(** [src/http/ngx_http_parse.c:2157-2211] ngx_http_parse_chunked:
    sw_chunk_size *)
Definition on_chunk_size (ch : Z) (c : ngx_http_chunked_t) : chunk_result :=
  if NGX_MAX_OFF_T_VALUE / 16 <? size c then invalid c
  else match chunk_digit ch with
  | Some d => Continue (c <| size := size c * 16 + d |>)
  | None =>
      if size c =? 0 then
        if ch =? CR then Continue (c <| state := sw_last_chunk_extension_almost_done |>)
        else if ch =? LF then Continue (c <| state := sw_trailer |>)
        else if is_extension ch then Continue (c <| state := sw_last_chunk_extension |>)
        else invalid c
      else
        if ch =? CR then Continue (c <| state := sw_chunk_extension_almost_done |>)
        else if ch =? LF then Continue (c <| state := sw_chunk_data |>)
        else if is_extension ch then Continue (c <| state := sw_chunk_extension |>)
        else invalid c
  end.

(** [src/http/ngx_http_parse.c:2213-2221] ngx_http_parse_chunked: the states
    that skip to the end of a line: sw_chunk_extension, sw_after_data,
    sw_last_chunk_extension and sw_trailer_header. *)
Definition on_skip_line (cr lf : chunk_state) (ch : Z) (c : ngx_http_chunked_t)
  : chunk_result :=
  if ch =? CR then Continue (c <| state := cr |>)
  else if ch =? LF then Continue (c <| state := lf |>)
  else Continue c.

(** [src/http/ngx_http_parse.c:2223-2228] ngx_http_parse_chunked: the states
    that expect the LF of a CRLF: sw_chunk_extension_almost_done,
    sw_after_data_almost_done, sw_last_chunk_extension_almost_done and
    sw_trailer_header_almost_done. *)
Definition on_expect_lf (lf : chunk_state) (ch : Z) (c : ngx_http_chunked_t)
  : chunk_result :=
  if ch =? LF then Continue (c <| state := lf |>) else invalid c.

(** [src/http/ngx_http_parse.c:2268-2284] ngx_http_parse_chunked: sw_trailer
    and sw_trailer_almost_done *)
Definition on_trailer (ch : Z) (c : ngx_http_chunked_t) : chunk_result :=
  if ch =? CR then Continue (c <| state := sw_trailer_almost_done |>)
  else if ch =? LF then Return (GotoDone, c)
  else Continue (c <| state := sw_trailer_header |>).

(** [src/http/ngx_http_parse.c:2138-2304] ngx_http_parse_chunked: the switch *)
Definition chunk_step (_ ch : Z) (c : ngx_http_chunked_t) : chunk_result :=
  match state c with
  | sw_chunk_start => on_chunk_start ch c
  | sw_chunk_size => on_chunk_size ch c
  | sw_chunk_extension => on_skip_line sw_chunk_extension_almost_done sw_chunk_data ch c
  | sw_chunk_extension_almost_done => on_expect_lf sw_chunk_data ch c
  | sw_chunk_data => Return (GotoData, c)
  | sw_after_data => on_skip_line sw_after_data_almost_done sw_chunk_start ch c
  | sw_after_data_almost_done => on_expect_lf sw_chunk_start ch c
  | sw_last_chunk_extension =>
      on_skip_line sw_last_chunk_extension_almost_done sw_trailer ch c
  | sw_last_chunk_extension_almost_done => on_expect_lf sw_trailer ch c
  | sw_trailer => on_trailer ch c
  | sw_trailer_almost_done =>
      if ch =? LF then Return (GotoDone, c) else invalid c
  | sw_trailer_header => on_skip_line sw_trailer_header_almost_done sw_trailer ch c
  | sw_trailer_header_almost_done => on_expect_lf sw_trailer ch c
  end.

(** [src/http/ngx_http_parse.c:2315-2349] ngx_http_parse_chunked: the bytes
    still to come, at least. *)
Definition chunk_length (c : ngx_http_chunked_t) : Z :=
  match state c with
  | sw_chunk_start => 3
  | sw_chunk_size => 1 + (if size c =? 0 then 1 else size c + 4)
  | sw_chunk_extension | sw_chunk_extension_almost_done => 1 + size c + 4
  | sw_chunk_data => size c + 4
  | sw_after_data | sw_after_data_almost_done => 4
  | sw_last_chunk_extension | sw_last_chunk_extension_almost_done => 2
  | sw_trailer | sw_trailer_almost_done => 1
  | sw_trailer_header | sw_trailer_header_almost_done => 2
  end.

(** [src/http/ngx_http_parse.c:2306-2351] ngx_http_parse_chunked: data *)
Definition data_label (rc p : Z) (b : ngx_buf_t) (c : ngx_http_chunked_t)
  : Z * ngx_buf_t * ngx_http_chunked_t :=
  let b := b <| b_pos := p |> in
  if NGX_MAX_OFF_T_VALUE - 5 <? size c then (NGX_ERROR, b, c)
  else (rc, b, c <| length := chunk_length c |>).

(** [src/http/ngx_http_parse.c:2123-2127] ngx_http_parse_chunked: the state the
    loop is entered in. *)
Definition enter (c : ngx_http_chunked_t) : ngx_http_chunked_t :=
  if bool_decide (state c = sw_chunk_data) && (size c =? 0)
  then c <| state := sw_after_data |> else c.

(** [src/http/ngx_http_parse.c:2101-2363] ngx_http_parse_chunked *)
Definition ngx_http_parse_chunked (b : ngx_buf_t) (ctx : ngx_http_chunked_t)
  : Z * ngx_buf_t * ngx_http_chunked_t :=
  match scan chunk_step (b_pos b) (mem_slice (b_mem b) (b_pos b) (b_last b))
          (enter ctx) with
  | (p, Continue c) => data_label NGX_AGAIN p b c
  | (p, Return (GotoData, c)) => data_label NGX_OK p b c
  | (p, Return (GotoDone, c)) =>
      (NGX_DONE, b <| b_pos := p + 1 |>, c <| state := sw_chunk_start |>)
  | (_, Return (GotoInvalid, c)) => (NGX_ERROR, b, c <| state := state ctx |>)
  end.

(** ** The request body filter *)

Definition NGX_HTTP_BAD_REQUEST : Z := 400.
Definition NGX_HTTP_REQUEST_ENTITY_TOO_LARGE : Z := 413.

(** The buffers given to the next filter: windows of the input, and the
    final one. *)
Inductive out_buf :=
  | OutData (b : ngx_buf_t)
  | OutLast.

(** The part of the request the filter keeps: [r->request_body->chunked] and
    [->rest], [r->headers_in.content_length_n], and the chain [out]. *)
Record body := Body {
  chunked : ngx_http_chunked_t;
  rest : Z;
  content_length_n : Z;
  out : list out_buf
}.
#[export] Instance eta_body : Settable body := fun s =>
  Body (chunked s) (rest s) (content_length_n s) (out s).

(** How the loop on one buffer is left: on to the next buffer, or
    [return rc]. *)
Inductive filter_exit :=
  | NextBuf (s : body) (b : ngx_buf_t)
  | FilterReturn (rc : Z).

Section Filter.
Context (client_max_body_size : Z).

(** [src/http/ngx_http_request_body.c:974-976] ngx_http_request_body_chunked_filter:
    the size check *)
Definition too_large (received size : Z) : bool :=
  negb (client_max_body_size =? 0) && (client_max_body_size - received <? size).

(** [src/http/ngx_http_request_body.c:995-1024] ngx_http_request_body_chunked_filter:
    a parsed chunk: its bytes in this buffer become a buffer of [out]. *)
Definition take_data (s : body) (b : ngx_buf_t) : body * ngx_buf_t :=
  let c := chunked s in
  let sz := b_last b - b_pos b in
  let '(b', c', n) :=
    if size c <? sz
    then (b <| b_pos := b_pos b + size c |>, c <| size := 0 |>,
          content_length_n s + size c)
    else (b <| b_pos := b_last b |>, c <| size := size c - sz |>,
          content_length_n s + sz) in
  (s <| chunked := c' |> <| content_length_n := n |>
     <| out := out s ++ [OutData (b <| b_last := b_pos b' |>)] |>, b').

(** [src/http/ngx_http_request_body.c:955-1065] ngx_http_request_body_chunked_filter:
    the loop [for ( ;; )] on one buffer.  Every turn but the last consumes a
    byte, so that [fuel] is never reached with one more than the bytes of the
    buffer. *)
Fixpoint filter_buf (fuel : nat) (s : body) (b : ngx_buf_t) : option filter_exit :=
  match fuel with
  | O => None
  | S fuel =>
      let '(rc, b, c) := ngx_http_parse_chunked b (chunked s) in
      let s := s <| chunked := c |> in
      if rc =? NGX_OK then
        if too_large (content_length_n s) (size c)
        then Some (FilterReturn NGX_HTTP_REQUEST_ENTITY_TOO_LARGE)
        else let (s, b) := take_data s b in filter_buf fuel s b
      else if rc =? NGX_DONE then
        Some (NextBuf (s <| rest := 0 |> <| out := out s ++ [OutLast] |>) b)
      else if rc =? NGX_AGAIN then
        Some (NextBuf (s <| rest := length c |>) b)
      else Some (FilterReturn NGX_HTTP_BAD_REQUEST)
  end.

(** [src/http/ngx_http_request_body.c:924-951] ngx_http_request_body_chunked_filter:
    the first call *)
Definition filter_init (s : body) : body :=
  let s := s <| out := [] |> in
  if rest s =? -1
  then s <| chunked := Chunked sw_chunk_start 0 0 |> <| content_length_n := 0 |>
         <| rest := 3 |>
  else s.

(** [src/http/ngx_http_request_body.c:951-1067] ngx_http_request_body_chunked_filter:
    the loop on the chain *)
Fixpoint filter_chain (s : body) (cl : list ngx_buf_t) : option (body + Z) :=
  match cl with
  | [] => Some (inl s)
  | b :: cl' =>
      match filter_buf (S (Z.to_nat (b_last b - b_pos b))) s b with
      | None => None
      | Some (FilterReturn rc) => Some (inr rc)
      | Some (NextBuf s _) => filter_chain s cl'
      end
  end.

(** [src/http/ngx_http_request_body.c:924-1074] ngx_http_request_body_chunked_filter:
    the request with the chain to pass on, or the error status. *)
Definition ngx_http_request_body_chunked_filter (s : body) (cl : list ngx_buf_t)
  : option (body + Z) := filter_chain (filter_init s) cl.
End Filter.

(** ** The response body filter *)

(** A buffer of the response: its bytes (in memory or in a file), and the
    flags the filter looks at. *)
Record chain_buf := ChainBuf {
  content : list Z;
  in_memory : bool;
  in_file : bool;
  flush : bool;
  sync : bool;
  last_buf : bool
}.
#[export] Instance eta_chain_buf : Settable chain_buf := fun b =>
  ChainBuf (content b) (in_memory b) (in_file b) (flush b) (sync b) (last_buf b).

Definition mem_buf (l : list Z) : chain_buf := ChainBuf l true false false false false.

(** [src/http/modules/ngx_http_chunked_filter_module.c:128-132]
    ngx_http_chunked_body_filter: the buffers passed on. *)
Definition passed_on (b : chain_buf) : bool :=
  flush b || sync b || in_memory b || in_file b.

Definition chain_size (cl : list chain_buf) : Z :=
  fold_left (fun s b => s + Z.of_nat (List.length (content b))) cl 0.

(** [src/http/modules/ngx_http_chunked_filter_module.c:150-179]
    ngx_http_chunked_body_filter: the chunk header, printed by
    [ngx_sprintf(chunk, "%xO" CRLF, size)]. *)
Definition chunk_header (size : Z) : option chain_buf :=
  match ngx_sprintf_num 20 size " "%chr 1 0 with
  | Some d => Some (mem_buf (d ++ [CR; LF]))
  | None => None
  end.

(** [src/http/modules/ngx_http_chunked_filter_module.c:196-196]
    ngx_http_chunked_body_filter: [cl->buf->last_buf = 0], on the buffer the
    chain ends with. *)
Fixpoint clear_last (cl : list chain_buf) : list chain_buf :=
  match cl with
  | [] => []
  | [b] => [b <| last_buf := false |>]
  | b :: cl' => b :: clear_last cl'
  end.

(** [src/http/modules/ngx_http_chunked_filter_module.c:100-224]
    ngx_http_chunked_body_filter: the chain given to the next filter, for a
    non-empty chain of a chunked response. *)
Definition ngx_http_chunked_body_filter (cl : list chain_buf) : option (list chain_buf) :=
  let size := chain_size cl in
  let is_last := match last cl with Some b => last_buf b | None => false end in
  let cl := if is_last then clear_last cl else cl in
  let kept := List.filter passed_on cl in
  let tail :=
    if is_last then
      [(mem_buf (if size =? 0 then bs "0" ++ [CR; LF; CR; LF]
                else [CR; LF] ++ bs "0" ++ [CR; LF; CR; LF])) <| last_buf := true |>]
    else if 0 <? size then [mem_buf [CR; LF]] else [] in
  if size =? 0 then Some (kept ++ tail)
  else match chunk_header size with
       | Some h => Some (h :: kept ++ tail)
       | None => None
       end.

(** A run: two chunks, one of them with an extension, then the trailer. *)
Example filter_example :
  let m := bs "5;x" ++ [CR; LF] ++ bs "hello" ++ [CR; LF] ++ bs "0" ++ [CR; LF; CR; LF] in
  ngx_http_request_body_chunked_filter 0
    (Body (Chunked sw_chunk_start 0 0) (-1) 0 []) [Buf m 0 (Z.of_nat (List.length m))]
  = Some (inl (Body (Chunked sw_chunk_start 0 9) 0 5 [OutData (Buf m 5 10); OutLast])).
Proof. by vm_compute. Qed.

(** ** The reference decoder *)

(** What is known after some input: the context, the size of the body so far
    and its bytes; the body was complete, with what follows it; or the input
    was refused. *)
Inductive decoded :=
  | Need (c : ngx_http_chunked_t) (n : Z) (data : list Z)
  | Done (n : Z) (data : list Z) (following : list Z)
  | Bad (rc : Z).

Definition emit (d : list Z) (x : decoded) : decoded :=
  match x with
  | Need c n data => Need c n (d ++ data)
  | Done n data l => Done n (d ++ data) l
  | Bad rc => Bad rc
  end.

Definition oversize (c : ngx_http_chunked_t) : bool := NGX_MAX_OFF_T_VALUE - 5 <? size c.

(** ** One step *)

Lemma chunk_digit_range ch d : chunk_digit ch = Some d -> 0 <= d < 16.
Proof. unfold chunk_digit. intros H. zcases; injection H as <-; lia. Qed.

(** The branches of one step, from a context whose state is known. *)
Ltac step_cases c :=
  destruct c as [[] ? ?]; simpl;
  unfold chunk_step, on_chunk_start, on_chunk_size, on_skip_line, on_expect_lf,
    on_trailer; simpl;
  repeat match goal with
    | |- context [match chunk_digit ?c with _ => _ end] =>
        destruct (chunk_digit c) eqn:?; simpl
    | |- context [if ?b then _ else _] => destruct b eqn:?; simpl
    end;
  repeat match goal with
    | E : chunk_digit _ = Some _ |- _ => apply chunk_digit_range in E
    end.

Section Decode.
Context (max : Z).

(** One byte: a byte of data, or a step of the parser. *)
Fixpoint decode (l : list Z) (c : ngx_http_chunked_t) (n : Z) : decoded :=
  let c := enter c in
  match l with
  | [] => Need (c <| length := chunk_length c |>) n []
  | ch :: l' =>
      match chunk_step 0 ch c with
      | Continue c' =>
          if oversize c' then Bad NGX_HTTP_BAD_REQUEST else decode l' c' n
      | Return (GotoData, _) =>
          if too_large max n (size c) then Bad NGX_HTTP_REQUEST_ENTITY_TOO_LARGE
          else emit [ch] (decode l' (c <| size := size c - 1 |>) (n + 1))
      | Return (GotoDone, _) => Done n [] l'
      | Return (GotoInvalid, _) => Bad NGX_HTTP_BAD_REQUEST
      end
  end.

(** Decoding the input in two pieces. *)
Definition decode_then (x : decoded) (l : list Z) : decoded :=
  match x with
  | Need c n data => emit data (decode l c n)
  | Done n data r => Done n data (r ++ l)
  | Bad rc => Bad rc
  end.

Lemma enter_idem c : enter (enter c) = enter c.
Proof.
  unfold enter. destruct (bool_decide (state c = sw_chunk_data) && (size c =? 0)) eqn:E.
  - done.
  - by rewrite E.
Qed.

Lemma emit_nil x : emit [] x = x.
Proof. by destruct x. Qed.
Lemma emit_app d1 d2 x : emit d1 (emit d2 x) = emit (d1 ++ d2) x.
Proof. destruct x; simpl; by rewrite ?(assoc_L (++)). Qed.
Lemma emit_then d x l : decode_then (emit d x) l = emit d (decode_then x l).
Proof. destruct x; simpl; by rewrite ?emit_app. Qed.

Lemma decode_enter l c n : decode l (enter c) n = decode l c n.
Proof. destruct l; simpl; by rewrite enter_idem. Qed.

(** The [length] field plays no part in decoding. *)
Lemma enter_length c x : enter (c <| length := x |>) = (enter c) <| length := x |>.
Proof. unfold enter. destruct c; simpl. by destruct (_ && _). Qed.

Lemma step_length p ch c x :
  chunk_step p ch (c <| length := x |>) =
    match chunk_step p ch c with
    | Continue c' => Continue (c' <| length := x |>)
    | Return (e, c') => Return (e, c' <| length := x |>)
    end.
Proof. step_cases c; done. Qed.

Lemma decode_set_length l c x n : decode l (c <| length := x |>) n = decode l c n.
Proof.
  revert c x n. induction l as [|ch l IH]; intros c x n; simpl; rewrite enter_length; [done|].
  rewrite step_length. destruct (chunk_step 0 ch (enter c)) as [c1|[[] c1]]; [|..|done|done].
  - by rewrite IH.
  - simpl. destruct (too_large _ _ _); [done|].
    by rewrite <- (IH ((enter c) <| size := size (enter c) - 1 |>) x).
Qed.

Lemma decode_app l1 l2 c n :
  decode (l1 ++ l2) c n = decode_then (decode l1 c n) l2.
Proof.
  revert c n. induction l1 as [|ch l1 IH]; intros c n; simpl.
  { by rewrite emit_nil, decode_set_length, decode_enter. }
  destruct (chunk_step 0 ch (enter c)) as [c'|[[] c']]; [|..|done|done].
  - by destruct (oversize c').
  - destruct (too_large _ _ _); [done|]. by rewrite emit_then, IH.
Qed.

(** ** The filter implements the decoder *)

Lemma chunk_step_pos p q ch c : chunk_step p ch c = chunk_step q ch c.
Proof. done. Qed.

(** The size is not negative, and there is some left in the states that lead
    to data. *)
Definition ctx_ok (c : ngx_http_chunked_t) : Prop :=
  0 <= size c /\
  match state c with
  | sw_chunk_extension | sw_chunk_extension_almost_done | sw_chunk_data => 0 < size c
  | sw_chunk_size => True
  | _ => size c = 0
  end.

Lemma step_ok p ch c : ctx_ok c ->
  match chunk_step p ch c with
  | Continue c' => ctx_ok c'
  | Return (GotoData, c') => c' = c /\ state c = sw_chunk_data
  | Return (_, c') => c' = c
  end.
Proof.
  unfold ctx_ok. step_cases c; auto; lia.
Qed.

Lemma enter_ok c : (ctx_ok c \/ state c = sw_chunk_data /\ size c = 0) -> ctx_ok (enter c).
Proof.
  unfold ctx_ok, enter. destruct (bool_decide_reflect (state c = sw_chunk_data)) as [E|E]; simpl.
  - destruct (Z.eqb_spec (size c) 0) as [E0|E0]; simpl.
    + rewrite E0. auto with lia.
    + intros [H|H]; [done | lia].
  - by intros [H|[H _]].
Qed.

(** Once the size is over the limit the parser never gets past the chunk. *)
Definition doomed (c : ngx_http_chunked_t) : Prop :=
  oversize c = true /\
  match state c with
  | sw_chunk_size | sw_chunk_extension | sw_chunk_extension_almost_done
  | sw_chunk_data => True
  | _ => False
  end.

Lemma scan_doomed l p c :
  doomed c ->
  match scan chunk_step p l c with
  | (_, Continue c') | (_, Return (GotoData, c')) => oversize c' = true
  | (_, Return (GotoDone, _)) => False
  | (_, Return (GotoInvalid, _)) => True
  end.
Proof.
  revert p c. induction l as [|ch l IH]; intros p c [Ho Hs]; simpl; [done|].
  assert (H : match chunk_step p ch c with
              | Continue c' => doomed c'
              | Return (GotoData, c') => oversize c' = true
              | Return (GotoDone, _) => False
              | Return (GotoInvalid, _) => True end).
  { clear IH. revert Ho Hs. unfold doomed, oversize, NGX_MAX_OFF_T_VALUE.
    step_cases c; auto; lia. }
  destruct (chunk_step p ch c) as [c'|[[] c']]; [by apply IH | done..].
Qed.

Lemma enter_ctx_ok c : ctx_ok c -> enter c = c.
Proof.
  unfold ctx_ok, enter. intros [_ H]. destruct (bool_decide_reflect (state c = sw_chunk_data)) as [E|E].
  - rewrite E in H. by replace (size c =? 0) with false by lia.
  - done.
Qed.

Lemma step_oversize p ch c c' :
  oversize c = false -> chunk_step p ch c = Continue c' -> oversize c' = true -> doomed c'.
Proof.
  unfold doomed, oversize. intros Ho H Ho'. split; [done|]. revert Ho H Ho'.
  step_cases c; intros Ho H; try discriminate H; injection H as <-; simpl;
    unfold NGX_MAX_OFF_T_VALUE in *; intros Ho'; auto; lia.
Qed.

(** The parser on the bytes [l] against the decoder on the same bytes. *)
Definition parse_matches (l : list Z) (p : Z) (c : ngx_http_chunked_t) (n : Z)
    (r : Z * chunk_result) : Prop :=
  match r with
  | (_, Continue c') =>
      if oversize c' then decode l c n = Bad NGX_HTTP_BAD_REQUEST
      else ctx_ok c' /\ decode l c n = Need (c' <| length := chunk_length c' |>) n []
  | (p', Return (GotoData, c')) =>
      if oversize c' then decode l c n = Bad NGX_HTTP_BAD_REQUEST
      else ctx_ok c' /\ state c' = sw_chunk_data /\ exists l1 l2,
        l = l1 ++ l2 /\ l2 <> [] /\ p' = p + Z.of_nat (List.length l1)
        /\ decode l c n = decode l2 c' n
  | (p', Return (GotoDone, c')) => exists l1 l2,
      l = l1 ++ l2 /\ p' + 1 = p + Z.of_nat (List.length l1) /\ oversize c' = false
      /\ decode l c n = Done n [] l2
  | (_, Return (GotoInvalid, _)) => decode l c n = Bad NGX_HTTP_BAD_REQUEST
  end.

Lemma scan_decode l p c n :
  ctx_ok c -> oversize c = false -> parse_matches l p c n (scan chunk_step p l c).
Proof.
  revert p c n. induction l as [|ch l IH]; intros p c n Hok Ho.
  { simpl. rewrite Ho, enter_ctx_ok by done. done. }
  pose proof (step_ok p ch c Hok) as Hstep. pose proof (step_oversize p ch c) as Hover.
  unfold parse_matches. simpl. rewrite enter_ctx_ok, (chunk_step_pos 0 p) by done.
  destruct (chunk_step p ch c) as [c1|[[] c1]] eqn:E; [| | |done].
  - destruct (oversize c1) eqn:Ho1.
    + pose proof (scan_doomed l (p + 1) c1 (Hover _ Ho eq_refl Ho1)) as Hd.
      destruct (scan _ _ _ _) as [p' [c'|[[] c']]]; try done; by rewrite Hd.
    + specialize (IH (p + 1) c1 n Hstep Ho1). unfold parse_matches in IH.
      destruct (scan _ _ _ _) as [p' [c'|[[] c']]]; [done|..|done].
      * destruct (oversize c'); [done|]. destruct IH as (? & ? & l1 & l2 & -> & ? & -> & ->).
        split_and!; [done..|]. exists (ch :: l1), l2. simpl. split_and!; [done|done|lia|done].
      * destruct IH as (l1 & l2 & -> & ? & ? & ->). exists (ch :: l1), l2. simpl.
        split_and!; [done|lia|done|done].
  - destruct Hstep as [-> Hst]. rewrite Ho. split_and!; [done..|].
    exists [], (ch :: l). simpl. split_and!; [done|done|lia|].
    by rewrite enter_ctx_ok, (chunk_step_pos 0 p), E.
  - subst c1. exists [ch], l. by rewrite Ho.
Qed.

(** The data of a chunk, as far as the bytes at hand go. *)
Lemma decode_data l c n k :
  state c = sw_chunk_data -> k = Nat.min (Z.to_nat (size c)) (List.length l) ->
  too_large max n (size c) = false -> 0 <= size c ->
  decode l c n =
    emit (take k l) (decode (drop k l) (c <| size := size c - Z.of_nat k |>) (n + Z.of_nat k)).
Proof.
  intros Hst -> Htl Hsz. revert c n Hst Htl Hsz. induction l as [|ch l IH]; intros c n Hst Htl Hsz.
  { rewrite Nat.min_0_r. change (Z.of_nat 0) with 0. rewrite Z.sub_0_r, Z.add_0_r. simpl.
    by destruct c. }
  destruct (Z.eq_dec (size c) 0) as [E|E].
  { rewrite E. change (Z.of_nat _) with 0. rewrite Z.sub_0_r, Z.add_0_r.
    change (take _ _) with (@nil Z). rewrite emit_nil. simpl in E. destruct c. simpl in E. by subst. }
  replace (Nat.min (Z.to_nat (size c)) (List.length (ch :: l)))
    with (S (Nat.min (Z.to_nat (size c - 1)) (List.length l))) by (simpl; lia).
  simpl. assert (enter c = c) as ->.
  { unfold enter. replace (size c =? 0) with false by lia. by rewrite andb_false_r. }
  unfold chunk_step. rewrite Hst, Htl.
  rewrite (IH (c <| size := size c - 1 |>) (n + 1)), emit_app; simpl; [|done| |lia].
  - set (k := Nat.min _ _). do 2 f_equal; [|lia]. destruct c; simpl. f_equal. lia.
  - unfold too_large in *. destruct (max =? 0); simpl in *; [done|]. lia.
Qed.

(** ** The filter against the decoder *)

(** The contexts the filter keeps between calls. *)
Definition resumable (c : ngx_http_chunked_t) : Prop :=
  oversize c = false /\ (ctx_ok c \/ state c = sw_chunk_data /\ size c = 0).

Definition out_bytes (o : list out_buf) : list Z :=
  concat (map (fun x => match x with OutData b => window b | OutLast => [] end) o).

Lemma out_bytes_app o1 o2 : out_bytes (o1 ++ o2) = out_bytes o1 ++ out_bytes o2.
Proof. unfold out_bytes. by rewrite map_app, concat_app. Qed.

(** What the loop leaves, when the decoder says [d], from a body [s]. *)
Definition filter_matches (s : body) (b : ngx_buf_t) (d : decoded)
    (r : option filter_exit) : Prop :=
  match d with
  | Need c n data => exists ds,
      r = Some (NextBuf (Body c (chunk_length c) n (out s ++ map OutData ds))
                 (b <| b_pos := b_last b |>))
      /\ out_bytes (map OutData ds) = data /\ oversize c = false /\ ctx_ok c
  | Done n data following => exists ds c p,
      r = Some (NextBuf (Body c 0 n (out s ++ map OutData ds ++ [OutLast])) (b <| b_pos := p |>))
      /\ out_bytes (map OutData ds) = data
      /\ state c = sw_chunk_start /\ following = window (b <| b_pos := p |>)
  | Bad rc => r = Some (FilterReturn rc)
  end.

Lemma filter_matches_emit s b b' d data r c n :
  b_mem b' = b_mem b -> b_last b' = b_last b ->
  filter_matches (Body c (rest s) n (out s ++ [OutData data])) b' d r ->
  filter_matches s b (emit (window data) d) r.
Proof.
  destruct b' as [m p l]. simpl. intros -> ->. destruct d as [c1 n1 d1|n1 d1 f|rc]; simpl; [..|done].
  - intros (ds & -> & <- & H). exists (data :: ds). split_and!; [|done|apply H..].
    by rewrite <- (assoc_L (++)).
  - intros (ds & c1 & p1 & -> & <- & H & ->). exists (data :: ds), c1, p1.
    split_and!; [|done..]. by rewrite <- (assoc_L (++)).
Qed.

Lemma take_data_eq s b :
  let k := Z.min (size (chunked s)) (b_last b - b_pos b) in
  take_data s b =
    (Body ((chunked s) <| size := size (chunked s) - k |>) (rest s) (content_length_n s + k)
       (out s ++ [OutData (b <| b_last := b_pos b + k |>)]),
     b <| b_pos := b_pos b + k |>).
Proof.
  unfold take_data. destruct (Z.ltb_spec (size (chunked s)) (b_last b - b_pos b)); simpl.
  - rewrite Z.min_l by lia. by rewrite Z.sub_diag.
  - rewrite Z.min_r by lia. do 3 f_equal; [|lia]. simpl. do 4 f_equal. lia.
Qed.

Lemma filter_buf_refines fuel s b :
  buf_ok b -> resumable (chunked s) -> b_last b - b_pos b < Z.of_nat fuel ->
  filter_matches s b (decode (window b) (chunked s) (content_length_n s))
    (filter_buf max fuel s b).
Proof.
  revert s b. induction fuel as [|fuel IH]; intros s b [Hpos Hlast] [Ho Hok] Hfuel; [lia|].
  simpl. unfold ngx_http_parse_chunked. fold (window b).
  assert (He : ctx_ok (enter (chunked s))) by by apply enter_ok.
  assert (Hoe : oversize (enter (chunked s)) = false).
  { unfold enter. destruct (_ && _); [|done]. by destruct (chunked s). }
  pose proof (scan_decode (window b) (b_pos b) (enter (chunked s)) (content_length_n s) He Hoe) as H.
  unfold parse_matches in H. rewrite decode_enter in H.
  destruct (scan _ _ _ _) as [p [c'|[[] c']]] eqn:Escan; unfold data_label; fold (oversize c').
  - apply scan_slice_pos in Escan; [subst p | lia | lia].
    destruct (oversize c') eqn:Ho'; [by rewrite H|].
    destruct H as [Hc' ->]. simpl. exists []. rewrite app_nil_r.
    split_and!; [by destruct s | done | by destruct c' | by destruct c'].
  - destruct (oversize c') eqn:Ho'; [by rewrite H|].
    destruct H as (Hc' & Hst & l1 & l2 & El & Hne & -> & ->).
    destruct (mem_slice_cut (b_mem b) (b_pos b) (b_last b) l1 l2) as (_ & El2 & Hp'); [lia..|done|].
    set (p' := b_pos b + _) in *.
    assert (b_pos b <= p') by (unfold p'; lia).
    assert (p' < b_last b).
    { destruct (Z.eq_dec p' (b_last b)) as [E|]; [|lia]. rewrite E in El2.
      unfold mem_slice in El2. rewrite Z.sub_diag in El2. done. }
    assert (Hsz : 0 < size c').
    { destruct Hc' as [_ Hc']. by rewrite Hst in Hc'. }
    simpl. destruct (too_large max (content_length_n s) (size c')) eqn:Htl.
    + destruct l2 as [|ch l2]; [done|]. simpl. rewrite enter_ctx_ok by done.
      unfold chunk_step. by rewrite Hst, Htl.
    + rewrite take_data_eq.
      destruct s as [c0 rst n0 o], b as [m pos lst], c' as [st sz len]; simpl in *.
      remember (Z.min _ _) as k eqn:Ek. assert (Hk : 0 < k <= lst - p') by lia.
      assert (Elen : Z.of_nat (List.length l2) = lst - p')
        by (rewrite El2; apply mem_slice_length; lia).
      rewrite (decode_data l2 _ n0 (Z.to_nat k)) by (done || simpl; lia).
      rewrite Z2Nat.id by lia. simpl.
      destruct (mem_slice_cut m p' lst (take (Z.to_nat k) l2) (drop (Z.to_nat k) l2))
        as (E1 & E2 & _); [lia..|by rewrite take_drop|].
      rewrite length_take_le, Z2Nat.id in E1, E2 by lia.
      rewrite E1, E2. change (mem_slice m p' (p' + k)) with (window (Buf m p' (p' + k))).
      eapply (filter_matches_emit _ _ (Buf m (p' + k) lst)); [done..|].
      specialize (IH (Body (Chunked st (sz - k) (chunk_length (Chunked st sz len))) rst (n0 + k)
        (o ++ [OutData (Buf m p' (p' + k))])) (Buf m (p' + k) lst)).
      rewrite <- (decode_set_length _ (Chunked st (sz - k) len) (chunk_length (Chunked st sz len))).
      simpl. apply IH; [unfold buf_ok; simpl; lia | | simpl; lia].
      split; [unfold oversize in *; simpl in *; lia|].
      destruct (Z.eq_dec k sz); [right; simpl; split; [done|lia] | left].
      unfold ctx_ok; simpl. rewrite Hst. lia.
  - destruct H as (l1 & l2 & El & Hp' & Ho' & ->). simpl.
    destruct (mem_slice_cut (b_mem b) (b_pos b) (b_last b) l1 l2) as (_ & El2 & _); [lia..|done|].
    exists [], (c' <| state := sw_chunk_start |>), (p + 1). split_and!; [by destruct s | done..|].
    rewrite El2, <- Hp'. done.
  - by rewrite H.
Qed.
End Decode.

(** ** What the filter asks for *)

(** The bytes still needed go down by one byte at a time at most. *)
Lemma chunk_length_step p ch c :
  ctx_ok c ->
  match chunk_step p ch c with
  | Continue c' => chunk_length (enter c) <= 1 + chunk_length (enter c')
  | Return (GotoData, _) => chunk_length (enter c) = size c + 4
  | Return (GotoDone, _) => chunk_length (enter c) = 1
  | Return (GotoInvalid, _) => True
  end.
Proof.
  intros Hok. rewrite enter_ctx_ok by done. revert Hok. unfold ctx_ok, chunk_length, enter.
  step_cases c; rewrite ?andb_true_l; repeat case_match; simpl in *; lia.
Qed.

Lemma decode_need max l c n n' d :
  (ctx_ok c \/ state c = sw_chunk_data /\ size c = 0) ->
  decode max l c n = Done n' d [] -> chunk_length (enter c) <= Z.of_nat (List.length l).
Proof.
  revert c n n' d. induction l as [|ch l IH]; intros c n n' d Hok H; [done|].
  apply enter_ok in Hok. simpl in H |- *. pose proof (chunk_length_step 0 ch (enter c) Hok) as Hl.
  rewrite enter_idem in Hl. pose proof (step_ok 0 ch (enter c) Hok) as Hstep.
  destruct (chunk_step 0 ch (enter c)) as [c'|[[] c']]; [| | |done].
  - destruct (oversize c'); [done|]. apply IH in H; [lia | by left].
  - destruct (too_large _ _ _); [done|].
    destruct (decode max l _ _) eqn:E; simpl in H; try done. injection H as <- _ ->.
    destruct Hok as [H0 H1], Hstep as [_ Hst]. rewrite Hst in H1.
    destruct (enter c) as [st sz len]; simpl in *.
    assert (Hc : ctx_ok (Chunked st (sz - 1) len) \/ st = sw_chunk_data /\ sz - 1 = 0).
    { destruct (Z.eq_dec sz 1); [right; split; [done|lia] | left]. unfold ctx_ok; simpl.
      rewrite Hst. lia. }
    apply IH in E; [|exact Hc]. revert E. subst st. unfold enter; simpl.
    destruct (Z.eqb_spec (sz - 1) 0); simpl; unfold chunk_length; simpl; lia.
  - lia.
Qed.

(** A shortest input that completes the body. *)
Definition completion (c : ngx_http_chunked_t) : list Z :=
  let tail := LF :: bs "0" ++ [LF; LF] in
  match state c with
  | sw_chunk_start => bs "0" ++ [LF; LF]
  | sw_chunk_size =>
      if size c =? 0 then [LF; LF] else LF :: replicate (Z.to_nat (size c)) 0 ++ tail
  | sw_chunk_extension | sw_chunk_extension_almost_done =>
      LF :: replicate (Z.to_nat (size c)) 0 ++ tail
  | sw_chunk_data => replicate (Z.to_nat (size c)) 0 ++ tail
  | sw_after_data | sw_after_data_almost_done => tail
  | sw_last_chunk_extension | sw_last_chunk_extension_almost_done => [LF; LF]
  | sw_trailer | sw_trailer_almost_done => [LF]
  | sw_trailer_header | sw_trailer_header_almost_done => [LF; LF]
  end.

Lemma completion_length c : ctx_ok c -> Z.of_nat (List.length (completion c)) = chunk_length c.
Proof.
  unfold ctx_ok, completion, chunk_length. intros [H0 H].
  destruct (state c); [|destruct (Z.eqb_spec (size c) 0)|..];
    simpl; rewrite ?length_app, ?length_replicate; simpl; lia.
Qed.

Lemma decode_zeros sz len n l :
  0 < sz ->
  decode 0 (replicate (Z.to_nat sz) 0 ++ l) (Chunked sw_chunk_data sz len) n =
    emit (replicate (Z.to_nat sz) 0) (decode 0 l (Chunked sw_chunk_data 0 len) (n + sz)).
Proof.
  intros Hsz. rewrite (decode_data 0 _ _ n (Z.to_nat sz)) by
    (try done; simpl; rewrite ?length_app, ?length_replicate; lia).
  rewrite take_app_length', drop_app_length' by (by rewrite length_replicate). simpl.
  by rewrite Z2Nat.id, Z.sub_diag by lia.
Qed.

Lemma decode_completion c n :
  ctx_ok c -> size c <= NGX_MAX_OFF_T_VALUE / 16 ->
  exists n' d, decode 0 (completion c) c n = Done n' d [].
Proof.
  intros Hok Hsz. assert (NGX_MAX_OFF_T_VALUE / 16 = 576460752303423487) as E by done.
  rewrite E in Hsz. destruct c as [st sz len]. unfold ctx_ok in Hok. simpl in *.
  assert (Hlf : forall st', st' = sw_chunk_extension \/ st' = sw_chunk_extension_almost_done
    \/ st' = sw_chunk_size -> 0 < sz -> forall l,
    decode 0 (LF :: l) (Chunked st' sz len) n = decode 0 l (Chunked sw_chunk_data sz len) n).
  { intros st' Hst Hsz' l. simpl. unfold enter; simpl.
    destruct Hst as [-> | [-> | ->]]; simpl;
      unfold chunk_step, on_chunk_size, on_skip_line, on_expect_lf, oversize; simpl;
      rewrite ?E; replace (576460752303423487 <? sz) with false by lia;
      replace (sz =? 0) with false by lia; simpl;
      by replace (_ - 5 <? sz) with false by (unfold NGX_MAX_OFF_T_VALUE; lia). }
  destruct st; unfold completion; cbn [state size]; destruct Hok as [H0 H1]; subst;
    try (by do 2 eexists; reflexivity).
  - destruct (Z.eqb_spec sz 0) as [->|]; [by do 2 eexists; reflexivity|].
    rewrite Hlf, decode_zeros by (auto; lia). by do 2 eexists.
  - rewrite Hlf, decode_zeros by (auto; lia). by do 2 eexists.
  - rewrite Hlf, decode_zeros by (auto; lia). by do 2 eexists.
  - rewrite decode_zeros by lia. by do 2 eexists.
Qed.

(** ** The coding the response filter writes *)

Definition digits_value (v : Z) (d : list Z) : Z :=
  fold_left (fun v c => v * 16 + hex_val c) d v.

Lemma chunk_digit_hex ch :
  is_byte ch -> is_hex ch = true -> chunk_digit ch = Some (hex_val ch) /\ 0 <= hex_val ch.
Proof. intros Hb. by_byte ch. Qed.

Lemma digits_value_ge v d :
  forallb is_hex d = true -> bytes d -> 0 <= v -> v <= digits_value v d.
Proof.
  revert v. unfold digits_value. induction d as [|ch d IH]; intros v Hd Hb Hv; simpl; [lia|].
  simpl in Hd. apply andb_true_iff in Hd as [Hc Hd]. apply Forall_cons in Hb as [Hbc Hb].
  destruct (chunk_digit_hex ch Hbc Hc) as [_ ?].
  etransitivity; [|apply IH; [done..|]]; lia.
Qed.

Lemma decode_digits max d l v len n :
  forallb is_hex d = true -> bytes d -> 0 <= v ->
  digits_value v d <= NGX_MAX_OFF_T_VALUE / 16 ->
  decode max (d ++ l) (Chunked sw_chunk_size v len) n =
    decode max l (Chunked sw_chunk_size (digits_value v d) len) n.
Proof.
  assert (NGX_MAX_OFF_T_VALUE / 16 = 576460752303423487) as E by done.
  revert v. induction d as [|ch d IH]; intros v Hd Hb Hv Hle; [done|].
  simpl in Hd. apply andb_true_iff in Hd as [Hc Hd]. apply Forall_cons in Hb as [Hbc Hb].
  destruct (chunk_digit_hex ch Hbc Hc) as [Hdig Hpos]. cbn [app decode].
  change (enter _) with (Chunked sw_chunk_size v len). unfold chunk_step, on_chunk_size; simpl.
  assert (Hge : v * 16 + hex_val ch <= digits_value v (ch :: d))
    by (apply (digits_value_ge (v * 16 + hex_val ch)); [done..|lia]).
  replace (NGX_MAX_OFF_T_VALUE / 16 <? v) with false by lia.
  rewrite Hdig. unfold oversize; simpl.
  replace (_ <? _) with false by (unfold NGX_MAX_OFF_T_VALUE; lia).
  apply IH; [done..|lia|done].
Qed.

Lemma decode_step max ch l c c' n :
  enter c = c -> chunk_step 0 ch c = Continue c' -> oversize c' = false ->
  decode max (ch :: l) c n = decode max l c' n.
Proof. intros E Hs Ho. simpl. by rewrite E, Hs, Ho. Qed.

(** One chunk as the response filter writes it, from the start of a chunk. *)
Lemma decode_chunk max size len n d data l :
  is_num hex_lower 16 d -> d <> [] -> digits_value 0 d = size ->
  0 < size <= NGX_MAX_OFF_T_VALUE / 16 -> Z.of_nat (List.length data) = size ->
  too_large max n size = false ->
  decode max (d ++ [CR; LF] ++ data ++ CR :: LF :: l) (Chunked sw_chunk_start 0 len) n =
    emit data (decode max l (Chunked sw_chunk_start 0 len) (n + size)).
Proof.
  intros Hnum Hne Hval Hsz Hdata Htl.
  destruct (is_num_hex hex_lower d (or_introl eq_refl) Hnum) as [Hd Hb].
  destruct d as [|ch d]; [done|]. simpl in Hd. apply andb_true_iff in Hd as [Hc Hd].
  apply Forall_cons in Hb as [Hbc Hb]. destruct (chunk_digit_hex ch Hbc Hc) as [Hdig Hpos].
  assert (E : NGX_MAX_OFF_T_VALUE / 16 = 576460752303423487) by done.
  assert (Hval' : digits_value (hex_val ch) d = size) by exact Hval.
  pose proof (digits_value_ge _ _ Hd Hb Hpos) as Hge.
  assert (Ho : forall st s, s <= size -> oversize (Chunked st s len) = false)
    by (intros; unfold oversize, NGX_MAX_OFF_T_VALUE; simpl; lia).
  cbn [app]. rewrite (decode_step _ _ _ _ (Chunked sw_chunk_size (hex_val ch) len)); [|done| |by apply Ho; lia].
  2: { unfold chunk_step, on_chunk_start; simpl. by rewrite Hdig. }
  rewrite decode_digits, Hval' by (done || lia). cbn [app].
  rewrite (decode_step _ _ _ _ (Chunked sw_chunk_extension_almost_done size len)); [|done| |by apply Ho; lia].
  2: { unfold chunk_step, on_chunk_size; simpl. rewrite E.
    replace (576460752303423487 <? size) with false by lia. by replace (size =? 0) with false by lia. }
  rewrite (decode_step _ _ _ _ (Chunked sw_chunk_data size len)); [|done..|by apply Ho; lia].
  rewrite (decode_data max _ _ n (List.length data))
    by (try done; simpl; rewrite ?length_app; simpl; lia).
  rewrite take_app_length, drop_app_length, Hdata. simpl. by rewrite Z.sub_diag.
Qed.

Definition chain_content (cl : list chain_buf) : list Z := concat (map content cl).

Lemma chain_size_content cl : chain_size cl = Z.of_nat (List.length (chain_content cl)).
Proof.
  unfold chain_size, chain_content.
  assert (forall s, fold_left (fun s b => s + Z.of_nat (List.length (content b))) cl s =
    s + Z.of_nat (List.length (concat (map content cl)))) as ->; [|lia].
  induction cl as [|b cl IH]; intros s; simpl; [lia|]. rewrite IH, length_app. lia.
Qed.

(** Buffers with contents are in memory or in a file. *)
Definition chain_ok (cl : list chain_buf) : Prop :=
  Forall (fun b => content b = [] \/ in_memory b = true \/ in_file b = true) cl.

Lemma kept_content cl :
  chain_ok cl -> chain_content (List.filter passed_on cl) = chain_content cl.
Proof.
  unfold chain_content. induction 1 as [|b cl Hb _ IH]; [done|]. simpl.
  assert (passed_on b = true \/ content b = []) as [E|E].
  { unfold passed_on. destruct Hb as [?|[-> | ->]]; [by right | left; by rewrite !orb_true_r..]. }
  - by rewrite E; simpl; rewrite IH.
  - destruct (passed_on b); simpl; by rewrite ?E, IH.
Qed.

Lemma clear_last_ok cl :
  chain_content (clear_last cl) = chain_content cl /\ (chain_ok cl -> chain_ok (clear_last cl)).
Proof.
  induction cl as [|b [|b' cl] [IH1 IH2]]; [done|destruct b; split; [done|by inversion 1; constructor]|].
  change (clear_last (b :: b' :: cl)) with (b :: clear_last (b' :: cl)).
  split; [unfold chain_content in *; cbn [map concat]; by rewrite IH1|].
  unfold chain_ok. intros [? ?]%Forall_cons. constructor; [done | by apply IH2].
Qed.

Definition is_last_chain (cl : list chain_buf) : bool :=
  match last cl with Some b => last_buf b | None => false end.

(** What one call of the response filter puts on the wire. *)
Lemma chunked_body_filter_content cl :
  chain_ok cl -> chain_size cl < 2 ^ 63 ->
  exists out, ngx_http_chunked_body_filter cl = Some out /\
    let data := chain_content cl in
    let last_chunk := if is_last_chain cl then bs "0" ++ [CR; LF; CR; LF] else [] in
    if chain_size cl =? 0 then chain_content out = last_chunk
    else exists d, is_num hex_lower 16 d /\ d <> []
      /\ digits_value 0 d = chain_size cl
      /\ chain_content out = d ++ [CR; LF] ++ data ++ CR :: LF :: last_chunk.
Proof.
  intros Hok Hsz. unfold ngx_http_chunked_body_filter. fold (is_last_chain cl).
  set (cl' := if is_last_chain cl then clear_last cl else cl).
  assert (Hkept : chain_content (List.filter passed_on cl') = chain_content cl).
  { unfold cl'. destruct (clear_last_ok cl) as [Hc Hc'].
    destruct (is_last_chain cl); rewrite kept_content; auto. }
  pose proof (chain_size_content cl) as Hlen.
  assert (Happ : forall a b, chain_content (a ++ b) = chain_content a ++ chain_content b).
  { intros. unfold chain_content. by rewrite map_app, concat_app. }
  destruct (Z.eqb_spec (chain_size cl) 0) as [E|E].
  - eexists. split; [done|]. rewrite Happ, Hkept.
    destruct (chain_content cl); simpl in Hlen; [|lia]. rewrite E.
    by destruct (is_last_chain cl).
  - unfold chunk_header.
    destruct (sprintf_num_digits 20 (chain_size cl) " "%chr 1 0) as (d & -> & Hd & Hnum & Hval);
      [lia..|].
    eexists. split; [done|]. exists d. split_and!; [done|by destruct d; simpl in Hd; [lia|]|done|].
    replace (0 <? chain_size cl) with true by lia.
    change (chain_content (?b :: ?l)) with (content b ++ chain_content l).
    rewrite Happ, Hkept. simpl. rewrite take_ge by lia.
    destruct (is_last_chain cl); simpl; by rewrite <- ?(assoc_L (++)), ?app_nil_r.
Qed.

(** The bytes the next filter receives over the calls for a whole response. *)
Fixpoint wire (chains : list (list chain_buf)) : option (list Z) :=
  match chains with
  | [] => Some []
  | cl :: chains' =>
      match ngx_http_chunked_body_filter cl, wire chains' with
      | Some out, Some l => Some (chain_content out ++ l)
      | _, _ => None
      end
  end.

(** A response: the calls of the filter, the last of which ends it. *)
Fixpoint is_response (chains : list (list chain_buf)) : Prop :=
  match chains with
  | [] => False
  | [cl] => is_last_chain cl = true
  | cl :: chains' => is_last_chain cl = false /\ is_response chains'
  end.

Definition response_content (chains : list (list chain_buf)) : list Z :=
  concat (map chain_content chains).

Lemma decode_last max len n :
  decode max (bs "0" ++ [CR; LF; CR; LF]) (Chunked sw_chunk_start 0 len) n = Done n [] [].
Proof. done. Qed.

Lemma decode_wire max chains len n :
  is_response chains ->
  Forall (fun cl => chain_ok cl /\ chain_size cl <= NGX_MAX_OFF_T_VALUE / 16) chains ->
  (max = 0 \/ n + Z.of_nat (List.length (response_content chains)) <= max) ->
  exists l, wire chains = Some l /\
    decode max l (Chunked sw_chunk_start 0 len) n =
      Done (n + Z.of_nat (List.length (response_content chains))) (response_content chains) [].
Proof.
  assert (E : NGX_MAX_OFF_T_VALUE / 16 = 576460752303423487) by done.
  revert n. induction chains as [|cl chains IH]; intros n Hr Hok Hmax; [done|].
  apply Forall_cons in Hok as [[Hcl Hsz] Hok].
  destruct (chunked_body_filter_content cl Hcl) as (out & Hout & Hwire); [lia|].
  pose proof (chain_size_content cl) as Hlen.
  change (response_content (cl :: chains)) with (chain_content cl ++ response_content chains) in *.
  rewrite length_app in *. simpl. rewrite Hout.
  assert (Htl : too_large max n (chain_size cl) = false).
  { unfold too_large. destruct (Z.eqb_spec max 0); simpl; [done|]. lia. }
  destruct chains as [|cl2 chains].
  - exists (chain_content out). simpl in Hr. split; [simpl; by rewrite app_nil_r|].
    rewrite Hr in Hwire. change (response_content []) with (@nil Z) in *. cbn [List.length] in *.
    rewrite Nat.add_0_r, app_nil_r, <- Hlen.
    destruct (Z.eqb_spec (chain_size cl) 0) as [E0|E0].
    + rewrite Hwire, E0. destruct (chain_content cl); simpl in Hlen; [|lia].
      rewrite Z.add_0_r. apply decode_last.
    + destruct Hwire as (d & Hnum & Hne & Hval & ->).
      rewrite (decode_chunk max (chain_size cl)) by (done || lia).
      rewrite decode_last. simpl. by rewrite app_nil_r.
  - destruct Hr as [Hnl Hr]. rewrite Hnl in Hwire.
    destruct (IH (n + chain_size cl) Hr Hok) as (l & -> & Hdec); [lia|].
    eexists. split; [done|]. rewrite Hlen in Hdec.
    destruct (Z.eqb_spec (chain_size cl) 0) as [E0|E0].
    + rewrite Hwire. destruct (chain_content cl); simpl in Hlen; [|lia]. simpl in *.
      rewrite Z.add_0_r in Hdec. exact Hdec.
    + destruct Hwire as (d & Hnum & Hne & Hval & ->). rewrite <- (assoc_L (++)).
      change (([CR; LF] ++ ?x ++ CR :: LF :: []) ++ l) with ([CR; LF] ++ (x ++ [CR; LF]) ++ l).
      rewrite <- !(assoc_L (++)). change ([CR; LF] ++ l) with (CR :: LF :: l).
      rewrite (decode_chunk max (chain_size cl)) by (done || lia).
      rewrite Hlen, Hdec. simpl. f_equal. lia.
Qed.

(** ** Properties *)

(** A body the filter can be called on again. *)
Definition resumable_body (s : body) : Prop := resumable (chunked s) /\ rest s <> -1.

(** What a caller sees of a result: the status, or the size so far, the bytes
    passed on, the bytes wanted, and, while the body is not complete, the
    context. *)
Definition observe (r : option (body + Z)) : option (Z * list Z * Z * option ngx_http_chunked_t + Z) :=
  match r with
  | None => None
  | Some (inr rc) => Some (inr rc)
  | Some (inl s) =>
      Some (inl (content_length_n s, out_bytes (out s), rest s,
                 if rest s =? 0 then None else Some (chunked s)))
  end.

Definition observe_decoded (d : decoded) : option (Z * list Z * Z * option ngx_http_chunked_t + Z) :=
  match d with
  | Need c n data => Some (inl (n, data, chunk_length c, Some c))
  | Done n data _ => Some (inl (n, data, 0, None))
  | Bad rc => Some (inr rc)
  end.

Lemma chunk_length_pos c : ctx_ok c -> 0 < chunk_length c.
Proof. unfold ctx_ok, chunk_length. destruct (state c); repeat case_match; lia. Qed.

Lemma filter_one max s b :
  buf_ok b -> resumable_body s ->
  let r := ngx_http_request_body_chunked_filter max s [b] in
  observe r = observe_decoded (decode max (window b) (chunked s) (content_length_n s))
  /\ match r with
     | Some (inl s1) => rest s1 <> 0 -> oversize (chunked s1) = false /\ ctx_ok (chunked s1)
         /\ 0 < rest s1 /\ rest s1 = chunk_length (chunked s1)
     | _ => True
     end.
Proof.
  intros Hb [Hs Hrest]. unfold ngx_http_request_body_chunked_filter, filter_init.
  destruct s as [c0 rst n o]; cbn -[filter_buf decode Z.sub Z.eqb] in *.
  replace (rst =? -1) with false by lia.
  pose proof (filter_buf_refines max (S (Z.to_nat (b_last b - b_pos b))) (Body c0 rst n []) b Hb Hs
    ltac:(lia)) as H. cbn [chunked content_length_n] in H.
  set (r := filter_buf _ _ _ _) in *. clearbody r.
  destruct (decode max (window b) c0 n) as [c1 n1 d1|n1 d1 f|rc]; simpl in *.
  - destruct H as (ds & -> & <- & Ho & Hc). pose proof (chunk_length_pos c1 Hc). simpl.
    replace (chunk_length c1 =? 0) with false by lia. by split.
  - destruct H as (ds & c & p & -> & <- & H). simpl.
    rewrite out_bytes_app, app_nil_r. by split.
  - by rewrite H.
Qed.

Definition first_body : body := Body (Chunked sw_chunk_start 0 0) (-1) 0 [].

Lemma filter_first max b :
  ngx_http_request_body_chunked_filter max first_body [b] =
    ngx_http_request_body_chunked_filter max (first_body <| rest := 3 |>) [b].
Proof. done. Qed.

Lemma first_resumable : resumable_body (first_body <| rest := 3 |>).
Proof. split; [split; [done|left; done] | done]. Qed.

(** C9: The request body filter implements the byte-by-byte reference decoder:
    for any buffer and any context it kept from earlier calls it passes on the
    same body bytes, counts them, keeps the same context, asks for the same
    number of bytes, and refuses the same inputs with the same status.  Its
    loop always terminates. *)
Theorem ngx_http_request_body_chunked_filter_refines max s b :
  buf_ok b -> resumable_body s ->
  observe (ngx_http_request_body_chunked_filter max s [b]) =
    observe_decoded (decode max (window b) (chunked s) (content_length_n s)).
Proof. intros Hb Hs. exact (proj1 (filter_one max s b Hb Hs)). Qed.

Lemma ngx_http_request_body_chunked_filter_refines_witness :
  let b := Buf (bs "3" ++ [LF] ++ bs "ab") 0 4 in
  observe (ngx_http_request_body_chunked_filter 0 (first_body <| rest := 3 |>) [b]) =
    Some (inl (2, bs "ab", 5, Some (Chunked sw_chunk_data 1 5))).
Proof.
  exact (eq_trans (ngx_http_request_body_chunked_filter_refines 0 _
    (Buf (bs "3" ++ [LF] ++ bs "ab") 0 4) ltac:(unfold buf_ok; simpl; lia) first_resumable)
    eq_refl).
Defined.

(** Joining the observations of two successive calls. *)
Definition then_observe (s1 : body) (r : option (Z * list Z * Z * option ngx_http_chunked_t + Z)) :=
  match r with
  | Some (inl (n, data, want, c)) => Some (inl (n, out_bytes (out s1) ++ data, want, c))
  | _ => r
  end.

(** C10: Receiving a chunked body in two reads instead of one changes nothing:
    if the first part is incomplete, filtering the second part yields the rest
    of the same body, the same byte count and the same context or refusal, as
    filtering both at once; if the first part is refused, so is the whole. *)
Theorem ngx_http_request_body_chunked_filter_split max s b b1 b2 :
  buf_ok b -> buf_ok b1 -> buf_ok b2 -> resumable_body s ->
  window b = window b1 ++ window b2 ->
  match ngx_http_request_body_chunked_filter max s [b1] with
  | Some (inl s1) =>
      rest s1 <> 0 ->
      observe (ngx_http_request_body_chunked_filter max s [b]) =
        then_observe s1 (observe (ngx_http_request_body_chunked_filter max s1 [b2]))
  | Some (inr rc) => ngx_http_request_body_chunked_filter max s [b] = Some (inr rc)
  | None => False
  end.
Proof.
  intros Hb Hb1 Hb2 Hs E.
  destruct (filter_one max s b Hb Hs) as [H _]. destruct (filter_one max s b1 Hb1 Hs) as [H1 H1'].
  rewrite E, decode_app in H.
  destruct (ngx_http_request_body_chunked_filter max s [b1]) as [[s1|rc]|].
  - intros Hrest. destruct (H1' Hrest) as (Ho & Hc & Hpos & _).
    destruct (filter_one max s1 b2 Hb2) as [H2 _]; [split; [split; [done|by left]|lia]|].
    rewrite H, H2. simpl in H1. replace (rest s1 =? 0) with false in H1 by lia.
    destruct (decode _ (window b1) _ _); simpl in *; try done.
    unfold then_observe. injection H1 as -> -> _ ->. by destruct (decode _ (window b2) _ _).
  - destruct (decode _ (window b1) _ _); simpl in *; try done. injection H1 as ->.
    destruct (ngx_http_request_body_chunked_filter max s [b]) as [[|]|]; simpl in H; congruence.
  - by destruct (decode _ (window b1) _ _).
Qed.

Lemma ngx_http_request_body_chunked_filter_split_witness :
  let m := bs "3" ++ [LF] ++ bs "abc" ++ [LF] ++ bs "0" ++ [LF; LF] in
  match ngx_http_request_body_chunked_filter 0 (first_body <| rest := 3 |>) [Buf m 0 3] with
  | Some (inl s1) =>
      Some (inl (3, bs "abc", 0, None)) =
        then_observe s1 (observe (ngx_http_request_body_chunked_filter 0 s1 [Buf m 3 9]))
  | _ => False
  end.
Proof.
  pose proof (ngx_http_request_body_chunked_filter_split 0 (first_body <| rest := 3 |>)
    (Buf (bs "3" ++ [LF] ++ bs "abc" ++ [LF] ++ bs "0" ++ [LF; LF]) 0 9)
    (Buf (bs "3" ++ [LF] ++ bs "abc" ++ [LF] ++ bs "0" ++ [LF; LF]) 0 3)
    (Buf (bs "3" ++ [LF] ++ bs "abc" ++ [LF] ++ bs "0" ++ [LF; LF]) 3 9)
    ltac:(unfold buf_ok; simpl; lia) ltac:(unfold buf_ok; simpl; lia)
    ltac:(unfold buf_ok; simpl; lia) first_resumable eq_refl) as H.
  exact (H ltac:(discriminate)).
Defined.

(** [rb->rest], the amount of input the filter wants to see next, is
    exact: no shorter input can complete the body, whatever it is, and (unless
    the size being read is already too big for the parser, and without a body
    size limit) some input of that length does. *)
Theorem ngx_http_request_body_chunked_filter_rest max s b s1 :
  buf_ok b -> resumable_body s ->
  ngx_http_request_body_chunked_filter max s [b] = Some (inl s1) -> rest s1 <> 0 ->
  (forall b2 n d, buf_ok b2 ->
     decode max (window b2) (chunked s1) (content_length_n s1) = Done n d [] ->
     rest s1 <= b_last b2 - b_pos b2)
  /\ (size (chunked s1) <= NGX_MAX_OFF_T_VALUE / 16 -> exists b2 s2, buf_ok b2
     /\ b_last b2 - b_pos b2 = rest s1
     /\ ngx_http_request_body_chunked_filter 0 s1 [b2] = Some (inl s2) /\ rest s2 = 0).
Proof.
  intros Hb Hs H Hrest. destruct (filter_one max s b Hb Hs) as [_ H1]. rewrite H in H1.
  destruct (H1 Hrest) as (Ho & Hc & Hpos & Hlen). split.
  - intros b2 n d [? ?] Hd. apply decode_need in Hd; [|by left].
    rewrite enter_ctx_ok in Hd by done. unfold window in Hd. rewrite mem_slice_length in Hd; lia.
  - intros Hsz. destruct (decode_completion (chunked s1) (content_length_n s1) Hc Hsz) as (n' & d & Hd).
    pose proof (completion_length _ Hc) as Hl.
    set (l := completion (chunked s1)) in *. set (b2 := Buf l 0 (Z.of_nat (List.length l))).
    assert (Hb2 : buf_ok b2) by (unfold buf_ok; simpl; lia).
    assert (window b2 = l) as Hw.
    { pose proof (mem_slice_mid [] l []) as Hm. rewrite app_nil_r in Hm. exact Hm. }
    destruct (filter_one 0 s1 b2 Hb2) as [H2 _]; [split; [split; [done|by left]|lia]|].
    rewrite Hw, Hd in H2.
    destruct (ngx_http_request_body_chunked_filter 0 s1 [b2]) as [[s2|]|] eqn:E2; simpl in H2; try done.
    injection H2 as _ _ Hr _. exists b2, s2. split_and!; [done|simpl; lia|done|done].
Qed.

Lemma ngx_http_request_body_chunked_filter_rest_witness :
  exists s1, ngx_http_request_body_chunked_filter 0 (first_body <| rest := 3 |>)
    [Buf (bs "ff;") 0 3] = Some (inl s1) /\ rest s1 = 260 /\
  exists b2 s2, b_last b2 - b_pos b2 = 260
     /\ ngx_http_request_body_chunked_filter 0 s1 [b2] = Some (inl s2) /\ rest s2 = 0.
Proof.
  eexists. split; [reflexivity|]. split; [reflexivity|].
  destruct (ngx_http_request_body_chunked_filter_rest 0 (first_body <| rest := 3 |>)
    (Buf (bs "ff;") 0 3) (Body (Chunked sw_chunk_extension 255 260) 260 0 [])
    ltac:(unfold buf_ok; simpl; lia) first_resumable eq_refl ltac:(discriminate))
    as [_ H].
  destruct (H ltac:(by vm_compute)) as (b2 & s2 & _ & H1 & H2 & H3). by exists b2, s2.
Defined.

(** C11: Round trip: the request body filter reads back what the response body
    filter writes, whatever the buffers of the response (empty ones, files,
    flush and sync marks included) and however its calls group them, as long as
    no call has more than a 16th of the largest offset and the whole is not
    longer than the limit for bodies, if there is one: it delivers the
    concatenation of their contents, counts it, and finds the body complete. *)
Theorem ngx_http_chunked_body_filter_roundtrip max chains :
  is_response chains ->
  Forall (fun cl => chain_ok cl /\ chain_size cl <= NGX_MAX_OFF_T_VALUE / 16) chains ->
  (max = 0 \/ Z.of_nat (List.length (response_content chains)) <= max) ->
  exists l, wire chains = Some l /\
    forall b, buf_ok b -> window b = l ->
      observe (ngx_http_request_body_chunked_filter max first_body [b]) =
        Some (inl (Z.of_nat (List.length (response_content chains)),
                   response_content chains, 0, None)).
Proof.
  intros Hr Hok Hmax. destruct (decode_wire max chains 0 0 Hr Hok Hmax) as (l & Hl & Hd).
  exists l. split; [done|]. intros b Hb <-. rewrite filter_first.
  rewrite (proj1 (filter_one max _ b Hb first_resumable)). simpl. by rewrite Hd.
Qed.

Lemma ngx_http_chunked_body_filter_roundtrip_witness :
  let chains := [[mem_buf (bs "hello"); ChainBuf [] false false true false false];
                 [ChainBuf (bs "abc") false true false false true]] in
  exists l, wire chains = Some l /\
    forall b, buf_ok b -> window b = l ->
      observe (ngx_http_request_body_chunked_filter 8 first_body [b]) =
        Some (inl (8, bs "helloabc", 0, None)).
Proof.
  apply (ngx_http_chunked_body_filter_roundtrip 8
    [[mem_buf (bs "hello"); ChainBuf [] false false true false false];
     [ChainBuf (bs "abc") false true false false true]]).
  - by split.
  - repeat constructor; simpl; auto; by vm_compute.
  - right. simpl. lia.
Defined.
