(* ===== verification/UpstreamRoundRobin.v ===== *)
(** * Balancing upstreams (src/http/ngx_http_upstream_round_robin.c)

    The groups of peers of an upstream, the choice of a peer for a request by
    smooth weighted round robin, and what is noted of it afterwards.  While no
    peer fails, a round of as many requests as the weights sum up to gives each
    peer as many requests as its weight. *)

From S2P Require Import Prelude.

Set Warnings "-register-all".

#[local] Abbreviation length := (@List.length _).

(** ** Peers *)

(** [src/http/ngx_http_upstream_round_robin.h:19-50]
    ngx_http_upstream_rr_peer_s: without the address and the session. *)
Record rr_peer := Peer {
  peer_name : list Z;
  current_weight : Z;
  effective_weight : Z;
  weight : Z;
  conns : Z;
  fails : Z;
  accessed : Z;
  checked : Z;
  max_fails : Z;
  fail_timeout : Z;
  down : bool
}.
#[export] Instance eta_peer : Settable rr_peer := fun p =>
  Peer (peer_name p) (current_weight p) (effective_weight p) (weight p) (conns p) (fails p)
    (accessed p) (checked p) (max_fails p) (fail_timeout p) (down p).

(** [src/http/ngx_http_upstream_round_robin.h:55-74]
    ngx_http_upstream_rr_peers_s: an upstream is the list of its groups, each
    with its backup ([next]) after it. *)
Record rr_peers := Peers {
  number : Z;
  total_weight : Z;
  single : bool;
  weighted : bool;
  peers : list rr_peer
}.
#[export] Instance eta_peers : Settable rr_peers := fun g =>
  Peers (number g) (total_weight g) (single g) (weighted g) (peers g).

(** [src/http/ngx_http_upstream_round_robin.h:121-126]
    ngx_http_upstream_rr_peer_data_t: the number of the group for [peers], the
    number of the peer in it for [current], and the words of [tried]. *)
Record rr_data := Data { group : nat; current : option nat; tried : list Z }.
#[export] Instance eta_data : Settable rr_data := fun d => Data (group d) (current d) (tried d).

(** A server of the configuration, with the names of its addresses. *)
Record server := Server {
  s_addrs : list (list Z);
  s_weight : Z;
  s_max_fails : Z;
  s_fail_timeout : Z;
  s_down : bool;
  s_backup : bool
}.

(** [src/http/ngx_http_upstream_round_robin.c:89-104]
    ngx_http_upstream_init_round_robin: the peers of a server. *)
Definition server_peers (s : server) : list rr_peer :=
  map (fun a => Peer a 0 (s_weight s) (s_weight s) 0 0 0 0 (s_max_fails s) (s_fail_timeout s) (s_down s))
    (s_addrs s).

(** [src/http/ngx_http_upstream_round_robin.c:45-55]
    ngx_http_upstream_init_round_robin: the number of addresses and the sum of
    the weights. *)
Fixpoint count_servers (l : list server) : Z * Z :=
  match l with
  | [] => (0, 0)
  | s :: l =>
      let '(n, w) := count_servers l in
      (u64 (Z.of_nat (length (s_addrs s)) + n), u64 (Z.of_nat (length (s_addrs s)) * s_weight s + w))
  end.

(** [src/http/ngx_http_upstream_round_robin.c:30-172]
    ngx_http_upstream_init_round_robin: for the servers of an upstream block;
    [None] is an error. *)
Definition ngx_http_upstream_init_round_robin (servers : list server) : option (list rr_peers) :=
  let primary := filter (fun s => s_backup s = false) servers in
  let backup := filter (fun s => s_backup s = true) servers in
  let '(n, w) := count_servers primary in
  if n =? 0 then None
  else
    let '(nb, wb) := count_servers backup in
    if nb =? 0 then Some [Peers n w (n =? 1) (negb (w =? n)) (concat (map server_peers primary))]
    else Some [Peers n w false (negb (w =? n)) (concat (map server_peers primary));
               Peers nb wb false (negb (wb =? nb)) (concat (map server_peers backup))].

(** [src/http/ngx_http_upstream_round_robin.c:13-14] ngx_http_upstream_tries *)
Definition ngx_http_upstream_tries (gs : list rr_peers) : Z :=
  match gs with
  | [] => 0
  | g :: next => u64 (number g + match next with [] => 0 | g' :: _ => number g' end)
  end.

(** Words of [tried] for [n] peers. *)
Definition words (n : Z) : nat := Z.to_nat ((n + 63) / 64).

(** [src/http/ngx_http_upstream_round_robin.c:240-291]
    ngx_http_upstream_init_round_robin_peer: the data of a request. *)
Definition ngx_http_upstream_init_round_robin_peer (gs : list rr_peers) : rr_data :=
  let n := match gs with
           | [] => 0
           | g :: [] => number g
           | g :: g' :: _ => if number g <? number g' then number g' else number g
           end in
  Data 0 None (if n <=? 64 then [0] else replicate (words n) 0).

(** ** The choice of a peer *)

(** [src/http/ngx_http_upstream_round_robin.c:534-537] ngx_http_upstream_get_peer:
    [rrp->tried[n] & m]. *)
Definition is_tried (tried : list Z) (i : nat) : bool :=
  negb (Z.land (tried !!! (i / 64)%nat) (Z.shiftl 1 (Z.of_nat (i mod 64))) =? 0).
(** [src/http/ngx_http_upstream_round_robin.c:571-574] ngx_http_upstream_get_peer:
    [rrp->tried[n] |= m]. *)
Definition set_tried (i : nat) (tried : list Z) : list Z :=
  <[(i / 64)%nat := Z.lor (tried !!! (i / 64)%nat) (Z.shiftl 1 (Z.of_nat (i mod 64)))]> tried.

(** [src/http/ngx_http_upstream_round_robin.c:537-550]
    ngx_http_upstream_get_peer: the peers that are passed over. *)
Definition skip_peer (now : Z) (tried : list Z) (i : nat) (p : rr_peer) : bool :=
  is_tried tried i || down p
  || (negb (max_fails p =? 0) && (max_fails p <=? fails p) && (now - checked p <=? fail_timeout p)).

(** [src/http/ngx_http_upstream_round_robin.c:552-557]
    ngx_http_upstream_get_peer: the weights of a peer that is not. *)
Definition bump (p : rr_peer) : rr_peer :=
  let p := p <| current_weight := s64 (current_weight p + effective_weight p) |> in
  if effective_weight p <? weight p then p <| effective_weight := effective_weight p + 1 |> else p.

(** [src/http/ngx_http_upstream_round_robin.c:530-563]
    ngx_http_upstream_get_peer: the loop; [best] is the number of a peer and
    its weight. *)
Fixpoint get_peer_loop (now : Z) (tried : list Z) (i : nat) (l : list rr_peer) (total : Z)
    (best : option (nat * Z)) : list rr_peer * Z * option (nat * Z) :=
  match l with
  | [] => ([], total, best)
  | p :: l =>
      if skip_peer now tried i p then
        let '(l, total, best) := get_peer_loop now tried (S i) l total best in (p :: l, total, best)
      else
        let p' := bump p in
        let total := s64 (total + effective_weight p) in
        let best := match best with
                    | None => Some (i, current_weight p')
                    | Some (b, w) => if w <? current_weight p' then Some (i, current_weight p') else Some (b, w)
                    end in
        let '(l, total, best) := get_peer_loop now tried (S i) l total best in (p' :: l, total, best)
  end.

(** [src/http/ngx_http_upstream_round_robin.c:576-580]
    ngx_http_upstream_get_peer: the peer that was chosen. *)
Definition choose (now total : Z) (p : rr_peer) : rr_peer :=
  let p := p <| current_weight := s64 (current_weight p - total) |> in
  if fail_timeout p <? now - checked p then p <| checked := now |> else p.

(** [src/http/ngx_http_upstream_round_robin.c:511-584]
    ngx_http_upstream_get_peer *)
Definition ngx_http_upstream_get_peer (now : Z) (g : rr_peers) (d : rr_data)
  : option nat * rr_peers * rr_data :=
  let '(l, total, best) := get_peer_loop now (tried d) 0 (peers g) 0 None in
  match best with
  | None => (None, g <| peers := l |>, d)
  | Some (b, _) =>
      (Some b, g <| peers := alter (choose now total) b l |>,
       d <| current := Some b |> <| tried := set_tried b (tried d) |>)
  end.


(** [src/http/ngx_http_upstream_round_robin.c:434-455]
    ngx_http_upstream_get_round_robin_peer: the choice in one group; no peers
    are followed as a null pointer. *)
Definition pick (now : Z) (g : rr_peers) (d : rr_data) : option (option nat * rr_peers * rr_data) :=
  if single g then
    p ← head (peers g);
    Some (if down p then (None, g, d) else (Some 0%nat, g, d <| current := Some 0%nat |>))
  else Some (ngx_http_upstream_get_peer now g d).

(** [src/http/ngx_http_upstream_round_robin.c:477-484]
    ngx_http_upstream_get_round_robin_peer: on to the backup servers. *)
Definition to_backup (g : rr_peers) (d : rr_data) : rr_data :=
  let n := words (number g) in
  d <| group := S (group d) |> <| tried := replicate n 0 ++ drop n (tried d) |>.

(** [src/http/ngx_http_upstream_round_robin.c:418-507]
    ngx_http_upstream_get_round_robin_peer: for the groups from that of the
    data on. *)
Fixpoint ngx_http_upstream_get_round_robin_peer (now : Z) (gs : list rr_peers) (d : rr_data)
  : option (Z * list rr_peers * rr_data) :=
  match gs with
  | [] => None
  | g :: next =>
      '(r, g, d) ← pick now g d;
      match r with
      | Some i => Some (NGX_OK, g <| peers := alter (fun p => p <| conns := u64 (conns p + 1) |>) i (peers g) |> :: next, d)
      | None =>
          let live g := g <| peers := map (fun p => p <| fails := 0 |>) (peers g) |> in
          match next with
          | [] => Some (NGX_BUSY, [live g], d)
          | g' :: _ =>
              '(rc, next, d) ← ngx_http_upstream_get_round_robin_peer now next (to_backup g' d);
              if negb (rc =? NGX_BUSY) then Some (rc, g :: next, d) else Some (NGX_BUSY, live g :: next, d)
          end
      end
  end.

Definition NGX_PEER_FAILED : Z := 4.

(** [src/http/ngx_http_upstream_round_robin.c:616-647]
    ngx_http_upstream_free_round_robin_peer: what is noted of a peer; the
    division is of unsigned numbers. *)
Definition note_peer (now state : Z) (p : rr_peer) : rr_peer :=
  if negb (Z.land state NGX_PEER_FAILED =? 0) then
    let p := p <| fails := u64 (fails p + 1) |> <| accessed := now |> <| checked := now |> in
    let p := if negb (max_fails p =? 0)
             then p <| effective_weight := s64 (effective_weight p - u64 (weight p) / max_fails p) |> else p in
    if effective_weight p <? 0 then p <| effective_weight := 0 |> else p
  else if accessed p <? checked p then p <| fails := 0 |> else p.

(** [src/http/ngx_http_upstream_round_robin.c:586-657]
    ngx_http_upstream_free_round_robin_peer: the group of the data, and the
    tries left; a request without a peer is followed as a null pointer. *)
Definition ngx_http_upstream_free_round_robin_peer (now state tries : Z) (g : rr_peers) (d : rr_data)
  : option (rr_peers * Z) :=
  i ← current d;
  let leave (p : rr_peer) := p <| conns := u64 (conns p - 1) |> in
  if single g then Some (g <| peers := alter leave i (peers g) |>, 0)
  else Some (g <| peers := alter (fun p => leave (note_peer now state p)) i (peers g) |>,
             if tries =? 0 then 0 else tries - 1).

(** ** Requests

    What the requests to an upstream do: one asks for a peer, with fresh data,
    or one that was given the peer [i] of the first group is done with it, in
    any order. *)

Inductive event := Get (now : Z) | Free (now state tries : Z) (i : nat).

Definition serve (gs : list rr_peers) (e : event) : option (option nat * list rr_peers) :=
  match e with
  | Get now =>
      '(rc, gs', d) ← ngx_http_upstream_get_round_robin_peer now gs
                        (ngx_http_upstream_init_round_robin_peer gs);
      Some (if rc =? NGX_OK then current d else None, gs')
  | Free now state tries i =>
      match gs with
      | [] => None
      | g :: next =>
          '(g, _) ← ngx_http_upstream_free_round_robin_peer now state tries g (Data 0 (Some i) []);
          Some (None, g :: next)
      end
  end.

(** The peers that were given, and the groups at the end. *)
Fixpoint serve_all (gs : list rr_peers) (es : list event) : option (list nat * list rr_peers) :=
  match es with
  | [] => Some ([], gs)
  | e :: es =>
      '(r, gs) ← serve gs e;
      '(l, gs) ← serve_all gs es;
      Some (match r with Some i => i :: l | None => l end, gs)
  end.

Fixpoint gets (es : list event) : nat :=
  match es with
  | [] => 0
  | Get _ :: es => S (gets es)
  | Free _ _ _ _ :: es => gets es
  end.

(** No request fails. *)
Definition passed (e : event) : bool :=
  match e with Get _ => true | Free _ state _ _ => Z.land state NGX_PEER_FAILED =? 0 end.

(** ** Sums over the peers *)

Definition sum_of {A} (f : A -> Z) (l : list A) : Z := foldr (fun a z => f a + z) 0 l.

Lemma sum_of_app {A} (f : A -> Z) l k : sum_of f (l ++ k) = sum_of f l + sum_of f k.
Proof. induction l as [|a l IH]; simpl; lia. Qed.

Lemma sum_of_ext {A B} (f : A -> Z) (h : B -> A) (f' : B -> Z) l :
  (forall b, In b l -> f (h b) = f' b) -> sum_of f (map h l) = sum_of f' l.
Proof.
  induction l as [|b l IH]; simpl; intros H; [done|]. rewrite IH by eauto. rewrite H by eauto. done.
Qed.

Lemma sum_of_add {A} (f f' : A -> Z) l : sum_of (fun a => f a + f' a) l = sum_of f l + sum_of f' l.
Proof. induction l as [|a l IH]; simpl; lia. Qed.

Lemma sum_of_le {A} (f : A -> Z) m l :
  (forall a, In a l -> f a <= m) -> sum_of f l <= m * Z.of_nat (length l).
Proof. induction l as [|a l IH]; cbn; intros H; [lia|]. specialize (H a) as Ha. assert (sum_of f l <= m * Z.of_nat (length l)) by eauto. unfold sum_of in *. specialize (Ha (or_introl eq_refl)). lia. Qed.

Lemma sum_of_ge {A} (f : A -> Z) m l :
  (forall a, In a l -> m <= f a) -> m * Z.of_nat (length l) <= sum_of f l.
Proof. induction l as [|a l IH]; cbn; intros H; [lia|]. specialize (H a) as Ha. assert (m * Z.of_nat (length l) <= sum_of f l) by eauto. unfold sum_of in *. specialize (Ha (or_introl eq_refl)). lia. Qed.

(** When none is below [-m] a single one is not far above the sum. *)
Lemma sum_of_bound {A} (f : A -> Z) m l a :
  0 <= m -> (forall a, In a l -> - m <= f a) -> In a l -> f a <= sum_of f l + m * Z.of_nat (length l).
Proof.
  intros Hm. induction l as [|b l IH]; cbn; intros H Ha; [done|].
  assert (Hl : - m * Z.of_nat (length l) <= sum_of f l) by (apply sum_of_ge; eauto).
  unfold sum_of in *. destruct Ha as [->|Ha]; [lia|].
  specialize (IH ltac:(eauto) Ha). specialize (H b (or_introl eq_refl)). lia.
Qed.

Lemma sum_of_alter {A} (f : A -> Z) (h : A -> A) i l a d :
  l !! i = Some a -> f (h a) = f a + d -> sum_of f (alter h i l) = sum_of f l + d.
Proof.
  revert i. induction l as [|b l IH]; intros [|i]; intros Hi Hf; simplify_eq/=; [lia|].
  change (foldr (fun a z => f a + z) 0) with (sum_of f) in *.
  change (list_alter h i l) with (alter h i l). rewrite (IH i) by done. lia.
Qed.

(** Numbers of which none is negative and whose sum is [0]. *)
Lemma sum_of_zero {A} (f : A -> Z) l a :
  (forall a, In a l -> 0 <= f a) -> sum_of f l = 0 -> In a l -> f a = 0.
Proof.
  intros H0 Hs Ha. pose proof (sum_of_bound f 0 l a ltac:(lia) ltac:(intros; simpl; by apply H0) Ha).
  specialize (H0 a Ha). lia.
Qed.

(** ** The loop over peers that do not fail *)

Record healthy (p : rr_peer) : Prop := {
  h_up : down p = false;
  h_fails : fails p = 0;
  h_max : 0 <= max_fails p;
  h_weight : 0 < weight p;
  h_effective : effective_weight p = weight p
}.

(** A peer with its weight added once. *)
Definition gained (p : rr_peer) : rr_peer := p <| current_weight := current_weight p + weight p |>.

Lemma skip_healthy now tried i p :
  is_tried tried i = false -> healthy p -> skip_peer now tried i p = false.
Proof.
  intros Ht [Hd Hf Hm _ _]. unfold skip_peer. rewrite Ht, Hd, Hf. simpl.
  destruct (Z.eqb_spec (max_fails p) 0), (Z.leb_spec (max_fails p) 0); simpl; done || lia.
Qed.

Lemma bump_healthy p :
  healthy p -> - 2 ^ 63 <= current_weight p + weight p < 2 ^ 63 -> bump p = gained p.
Proof.
  destruct p. intros [_ _ _ _ He] Hb. unfold bump, gained. simpl in *. rewrite He, s64_small by done.
  by rewrite Z.ltb_irrefl.
Qed.

Definition in_s64 (p : rr_peer) : Prop := - 2 ^ 63 <= current_weight p + weight p < 2 ^ 63.

(** The best peer: no other has more, and it is the one it was or one of the
    list. *)
Definition best_of (i : nat) (l : list rr_peer) (best best' : option (nat * Z)) : Prop :=
  match best' with
  | None => best = None /\ l = []
  | Some (b, w) =>
      (best = Some (b, w) \/ exists j p, b = (i + j)%nat /\ l !! j = Some p /\ current_weight (gained p) = w)
      /\ (forall p, In p l -> current_weight (gained p) <= w)
      /\ (forall b0 w0, best = Some (b0, w0) -> w0 <= w)
  end.

Lemma best_of_cons i p l best b w bl :
  (forall b0 w0, best = Some (b0, w0) -> w0 <= w) -> current_weight (gained p) <= w ->
  (best = Some (b, w) \/ (b = i /\ current_weight (gained p) = w)) ->
  best_of (S i) l (Some (b, w)) bl -> best_of i (p :: l) best bl.
Proof.
  intros Hle Hp Hor. destruct bl as [[b' w']|]; unfold best_of; [|by intros [? _]].
  intros ([He|(j & q & -> & Hj & Hw)] & Hl & Hb).
  - simplify_eq. split_and!.
    + destruct Hor as [->|[-> Hw]]; [by left|]. right. exists 0%nat, p. split_and!; [lia|done|done].
    + intros q [<-|Hq]; auto.
    + done.
  - specialize (Hb _ _ eq_refl). split_and!.
    + right. exists (S j), q. split_and!; [lia|done|done].
    + intros r [<-|Hr]; [lia|auto].
    + intros b0 w0 H0. specialize (Hle _ _ H0). lia.
Qed.

Lemma get_peer_loop_healthy now tried l : forall i total best,
  (forall j, (j < length l)%nat -> is_tried tried (i + j) = false) ->
  Forall healthy l -> Forall in_s64 l ->
  0 <= total -> total + sum_of weight l < 2 ^ 63 ->
  exists best', get_peer_loop now tried i l total best = (map gained l, total + sum_of weight l, best')
    /\ best_of i l best best'.
Proof.
  induction l as [|p l IH]; intros i total best Ht Hh Hs H0 Hw; simpl.
  { exists best. split; [f_equal; f_equal; lia|].
    destruct best as [[b w]|]; simpl; [|done]. split_and!; [by left|done|]. intros. by simplify_eq. }
  inversion Hh as [|? ? Hp Hh']; inversion Hs as [|? ? Hp' Hs']; subst. clear Hh Hs.
  assert (0 <= sum_of weight l).
  { transitivity (0 * Z.of_nat (length l)); [lia|]. apply sum_of_ge. intros q Hq.
    rewrite Forall_forall in Hh'. apply list_elem_of_In, Hh' in Hq. destruct Hq. lia. }
  pose proof (h_weight _ Hp). simpl in Hw. change (foldr _ _ l) with (sum_of weight l) in *.
  rewrite skip_healthy; [|rewrite <- (Nat.add_0_r i); apply Ht; simpl; lia|done].
  rewrite (bump_healthy p Hp Hp'), (h_effective _ Hp), s64_small by lia.
  set (best1 := match best with None => _ | Some _ => _ end).
  destruct (IH (S i) (total + weight p) best1) as (best' & -> & Hb); try done; try lia.
  { intros j Hj. replace (S i + j)%nat with (i + S j)%nat by lia. apply Ht. simpl. lia. }
  exists best'. split; [f_equal; f_equal; lia|].
  destruct best as [[b0 w0]|]; [destruct (Z.ltb_spec w0 (current_weight (gained p)))|];
    (eapply best_of_cons; [| | |exact Hb]); try (by intros; simplify_eq; lia); auto; lia.
Qed.

Lemma gained_healthy p : healthy p -> healthy (gained p).
Proof. destruct p. intros []. by constructor. Qed.
Lemma gained_current p : current_weight (gained p) = current_weight p + weight p.
Proof. by destruct p. Qed.
Lemma gained_weight p : weight (gained p) = weight p.
Proof. by destruct p. Qed.

Lemma choose_weights now total p :
  weight (choose now total p) = weight p /\
  current_weight (choose now total p) = s64 (current_weight p - total).
Proof. destruct p. unfold choose. simpl. by case_match. Qed.
Lemma choose_healthy now total p : healthy p -> healthy (choose now total p).
Proof. destruct p. intros []. unfold choose. simpl. by case_match; constructor. Qed.

(** ** Fair groups

    [W] is the sum of the weights [ws], [t] the number of requests so far,
    and [c i] how many of them the peer [i] was given. *)

Record fair (W t : Z) (ws : list Z) (c : nat -> Z) (l : list rr_peer) : Prop := {
  f_weights : map weight l = ws;
  f_total : sum_of weight l = W;
  f_healthy : Forall healthy l;
  f_low : forall p, In p l -> 1 - W <= current_weight p;
  f_zero : sum_of current_weight l = 0;
  f_count : forall i p, l !! i = Some p -> W * c i = t * weight p - current_weight p
}.

Definition MAX_TOTAL : Z := 2 ^ 31.

Lemma healthy_in l p : Forall healthy l -> In p l -> healthy p.
Proof. rewrite Forall_forall. intros H Hp. by apply H, list_elem_of_In. Qed.

Lemma fair_length W t ws c l : fair W t ws c l -> Z.of_nat (length l) <= W.
Proof.
  intros [_ Ht Hh _ _ _]. rewrite <- Ht, <- (Z.mul_1_l (Z.of_nat _)). apply sum_of_ge.
  intros p Hp. destruct (healthy_in _ _ Hh Hp). lia.
Qed.

Lemma fair_weight W t ws c l p : fair W t ws c l -> In p l -> 0 < weight p <= W.
Proof.
  intros Hf Hp. destruct Hf as [_ Ht Hh _ _ _].
  split; [by destruct (healthy_in _ _ Hh Hp)|]. rewrite <- Ht.
  pose proof (sum_of_bound weight 0 l p ltac:(lia)) as Hb.
  transitivity (sum_of weight l + 0 * Z.of_nat (length l)); [apply Hb; [|done]|lia].
  intros q Hq. destruct (healthy_in _ _ Hh Hq). lia.
Qed.

(** The current weights stay far from the bounds of their type. *)
Lemma fair_in_s64 W t ws c l : fair W t ws c l -> W <= MAX_TOTAL -> Forall in_s64 l.
Proof.
  intros Hf HW. pose proof (fair_length _ _ _ _ _ Hf) as Hl. apply Forall_forall. intros p Hp.
  apply list_elem_of_In in Hp. pose proof (fair_weight _ _ _ _ _ _ Hf Hp).
  pose proof (f_low _ _ _ _ _ Hf p Hp).
  assert (current_weight p <= 0 + W * Z.of_nat (length l)).
  { rewrite <- (f_zero _ _ _ _ _ Hf). apply sum_of_bound; [lia| |done].
    intros q Hq. pose proof (f_low _ _ _ _ _ Hf q Hq). lia. }
  assert (W * Z.of_nat (length l) <= MAX_TOTAL * MAX_TOTAL) by (apply Z.mul_le_mono_nonneg; lia).
  unfold in_s64, MAX_TOTAL in *. lia.
Qed.

Lemma gained_sum l : sum_of current_weight (map gained l) = sum_of current_weight l + sum_of weight l.
Proof.
  rewrite <- sum_of_add. apply sum_of_ext. intros p _. apply gained_current.
Qed.

(** The best peer has a weight, since together they have [W]. *)
Lemma best_positive W t ws c l b w :
  fair W t ws c l -> l <> [] -> best_of 0 l None (Some (b, w)) ->
  0 < w /\ exists p, l !! b = Some p /\ current_weight p + weight p = w.
Proof.
  intros Hf Hl ([?|(j & p & -> & Hj & Hw)] & Hmax & _); [done|]. rewrite gained_current in Hw.
  split; [|by exists p].
  assert (HW : 0 < W).
  { destruct l as [|q l]; [done|]. pose proof (fair_weight _ _ _ _ _ q Hf ltac:(by left)). lia. }
  pose proof (gained_sum l) as Hs. rewrite (f_zero _ _ _ _ _ Hf), (f_total _ _ _ _ _ Hf) in Hs.
  destruct (decide (0 < w)) as [|Hn]; [done|]. exfalso.
  assert (sum_of current_weight (map gained l) <= 0 * Z.of_nat (length (map gained l))); [|lia].
  apply sum_of_le. intros q Hq. apply in_map_iff in Hq as (r & <- & Hr). specialize (Hmax r Hr). lia.
Qed.

Definition count_more (c : nat -> Z) (b : nat) : nat -> Z := fun i => if decide (i = b) then c i + 1 else c i.

Lemma lookup_gained (now W : Z) b l i p' :
  alter (choose now W) b (map gained l) !! i = Some p' ->
  exists p, l !! i = Some p /\ p' = if decide (i = b) then choose now W (gained p) else gained p.
Proof.
  intros H. destruct (decide (i = b)) as [->|Hne].
  - rewrite list_lookup_alter_eq in H. rewrite list_lookup_fmap in H.
    destruct (l !! b) as [p|]; simplify_eq/=. eauto.
  - rewrite list_lookup_alter_ne in H by done. rewrite list_lookup_fmap in H.
    destruct (l !! i) as [p|]; simplify_eq/=. eauto.
Qed.

Lemma fair_choice W t ws c l now b w :
  fair W t ws c l -> W <= MAX_TOTAL -> l <> [] -> best_of 0 l None (Some (b, w)) ->
  fair W (t + 1) ws (count_more c b) (alter (choose now W) b (map gained l)).
Proof.
  intros Hf HW Hl Hb. destruct (best_positive _ _ _ _ _ _ _ Hf Hl Hb) as (Hw & p & Hp & Ew).
  pose proof (fair_in_s64 _ _ _ _ _ Hf HW) as Hs.
  assert (HpI : In p l) by (apply list_elem_of_In, list_elem_of_lookup; eauto).
  assert (Hc : current_weight (choose now W (gained p)) = current_weight p + weight p - W).
  { rewrite (proj2 (choose_weights _ _ _)), gained_current, s64_small; [done|].
    pose proof (fair_weight _ _ _ _ _ _ Hf HpI). rewrite Forall_forall in Hs.
    specialize (Hs p ltac:(by apply list_elem_of_In)). unfold in_s64, MAX_TOTAL in *. lia. }
  assert (Hpg : map gained l !! b = Some (gained p)) by (rewrite list_lookup_fmap, Hp; done).
  destruct Hf as [Hws Ht Hh Hlow Hz Hcount]. constructor.
  - rewrite <- Hws. apply list_eq. intros i. rewrite !list_lookup_fmap.
    destruct (alter _ b _ !! i) as [q|] eqn:Hi.
    + apply lookup_gained in Hi as (r & -> & ->). simpl. f_equal.
      by case_decide; rewrite ?(proj1 (choose_weights _ _ _)), gained_weight.
    + apply lookup_ge_None in Hi. rewrite length_alter, length_map in Hi.
      by rewrite (proj2 (lookup_ge_None _ _) Hi).
  - rewrite (sum_of_alter weight _ _ _ (gained p) 0 Hpg), <- Ht.
    2:{ rewrite (proj1 (choose_weights _ _ _)). lia. }
    rewrite (sum_of_ext _ _ weight); [lia|]. intros. apply gained_weight.
  - apply Forall_lookup. intros i q Hi. apply lookup_gained in Hi as (r & Hr & ->).
    rewrite Forall_lookup in Hh. specialize (Hh i r Hr).
    case_decide; [apply choose_healthy|]; by apply gained_healthy.
  - intros q Hq. apply list_elem_of_In, list_elem_of_lookup in Hq as (i & Hi).
    apply lookup_gained in Hi as (r & Hr & ->). case_decide as Hd.
    + subst. simplify_eq. rewrite Hc. lia.
    + rewrite gained_current. assert (HrI : In r l) by (apply list_elem_of_In, list_elem_of_lookup; eauto).
      specialize (Hlow r HrI). destruct (healthy_in _ _ Hh HrI). lia.
  - rewrite (sum_of_alter current_weight _ _ _ (gained p) (- W) Hpg), gained_sum; [lia|].
    rewrite Hc, gained_current. lia.
  - intros i q Hi. apply lookup_gained in Hi as (r & Hr & ->). specialize (Hcount i r Hr).
    unfold count_more. case_decide as Hd.
    + subst. simplify_eq. rewrite Hc, (proj1 (choose_weights _ _ _)), gained_weight. lia.
    + rewrite gained_current, gained_weight. lia.
Qed.

(** What does not concern the weights changes nothing. *)
Lemma fair_alter W t ws c l i f :
  (forall p, weight (f p) = weight p /\ current_weight (f p) = current_weight p) ->
  (forall p, healthy p -> healthy (f p)) ->
  fair W t ws c l -> fair W t ws c (alter f i l).
Proof.
  intros Hw Hh [Fws Ft Fh Flow Fz Fcount].
  assert (Hi : forall j q, alter f i l !! j = Some q ->
    exists p, l !! j = Some p /\ weight q = weight p /\ current_weight q = current_weight p /\ (healthy p -> healthy q)).
  { intros j q Hj. destruct (decide (i = j)) as [->|Hne].
    - rewrite list_lookup_alter_eq in Hj. destruct (l !! j) as [p|]; simplify_eq/=. exists p.
      destruct (Hw p). auto.
    - rewrite list_lookup_alter_ne in Hj by done. eauto 6. }
  assert (Hs : forall g : rr_peer -> Z, (forall p, g (f p) = g p) -> map g (alter f i l) = map g l).
  { intros g Hg. change (g <$> alter f i l = g <$> l). apply list_eq. intros j.
    rewrite !list_lookup_fmap. destruct (decide (i = j)) as [->|Hne].
    - rewrite list_lookup_alter_eq. destruct (l !! j); simpl; by rewrite ?Hg.
    - by rewrite list_lookup_alter_ne. }
  assert (Hsum : forall g : rr_peer -> Z, (forall p, g (f p) = g p) -> sum_of g (alter f i l) = sum_of g l).
  { intros g Hg. transitivity (sum_of (fun z => z) (map g (alter f i l))); [symmetry; by apply sum_of_ext|].
    rewrite Hs by done. by apply sum_of_ext. }
  constructor.
  - rewrite Hs; [done|]. apply Hw.
  - rewrite Hsum; [done|]. apply Hw.
  - apply Forall_lookup. intros j q Hj. destruct (Hi j q Hj) as (p & Hp & _ & _ & Hq).
    apply Hq. by eapply Forall_lookup_1.
  - intros q Hq. apply list_elem_of_In, list_elem_of_lookup in Hq as (j & Hj).
    destruct (Hi j q Hj) as (p & Hp & _ & -> & _). apply Flow, list_elem_of_In, list_elem_of_lookup. eauto.
  - rewrite Hsum; [done|]. apply Hw.
  - intros j q Hj. destruct (Hi j q Hj) as (p & Hp & -> & -> & _). by apply Fcount.
Qed.

(** ** Requests to a fair group *)

Record fair_group (W t : Z) (ws : list Z) (c : nat -> Z) (g : rr_peers) : Prop := {
  g_number : number g = Z.of_nat (length (peers g));
  g_several : single g = false;
  g_some : peers g <> [];
  g_fair : fair W t ws c (peers g)
}.

(** In the data of a new request no peer of the group was tried. *)
Lemma fresh_data g next i :
  number g = Z.of_nat (length (peers g)) -> (i < length (peers g))%nat ->
  is_tried (tried (ngx_http_upstream_init_round_robin_peer (g :: next))) i = false.
Proof.
  intros Hn Hi. unfold ngx_http_upstream_init_round_robin_peer, is_tried. cbn [tried].
  set (n := match next with [] => number g | _ :: _ => _ end).
  assert (number g <= n) by (subst n; destruct next; [lia|]; destruct (Z.ltb_spec (number g) (number r)); lia).
  destruct (Z.leb_spec n 64); cbn [tried].
  - replace (i / 64)%nat with 0%nat by (symmetry; apply Nat.div_small; lia). done.
  - unfold words. rewrite lookup_total_replicate_2; [done|].
    assert (i / 64 < Z.to_nat ((n + 63) / 64))%nat; [|lia].
    apply Nat2Z.inj_lt. rewrite Nat2Z.inj_div, Z2Nat.id by (apply Z.div_pos; lia).
    apply Z.div_lt_upper_bound; [lia|]. pose proof (Z.mod_pos_bound (n + 63) 64 ltac:(lia)).
    pose proof (Z.div_mod (n + 63) 64 ltac:(lia)). lia.
Qed.

Lemma serve_get W t ws c g next now :
  fair_group W t ws c g -> W <= MAX_TOTAL ->
  exists i g', serve (g :: next) (Get now) = Some (Some i, g' :: next)
    /\ fair_group W (t + 1) ws (count_more c i) g' /\ (i < length (peers g))%nat.
Proof.
  intros [Hn Hsg Hne Hf] HW.
  pose proof (fair_in_s64 _ _ _ _ _ Hf HW) as Hs.
  destruct (get_peer_loop_healthy now (tried (ngx_http_upstream_init_round_robin_peer (g :: next)))
    (peers g) 0 0 None) as (best & Hloop & Hbest); try done.
  { intros j Hj. by apply fresh_data. }
  { apply Hf. }
  { rewrite (f_total _ _ _ _ _ Hf). unfold MAX_TOTAL in HW. lia. }
  destruct best as [[b w]|]; [|by destruct Hbest].
  destruct (best_positive _ _ _ _ _ _ _ Hf Hne Hbest) as (_ & p & Hp & _).
  pose proof (fair_choice _ _ _ _ _ now _ _ Hf HW Hne Hbest) as Hf'.
  rewrite Z.add_0_l, (f_total _ _ _ _ _ Hf) in Hloop.
  set (l' := alter (choose now W) b (map gained (peers g))) in *.
  exists b, (g <| peers := alter (fun p => p <| conns := u64 (conns p + 1) |>) b l' |>).
  split; [|split].
  - unfold serve. cbn [ngx_http_upstream_get_round_robin_peer]. unfold pick. rewrite Hsg.
    unfold ngx_http_upstream_get_peer. rewrite Hloop. by destruct g.
  - destruct g. simpl in *. constructor; simpl; try done.
    + unfold l'. by rewrite !length_alter, length_map.
    + unfold l'. intros Hnil. apply (f_equal (@List.length _)) in Hnil.
      rewrite !length_alter, length_map in Hnil. by destruct peers0.
    + apply fair_alter; [by intros []| |done]. intros [] []. by constructor.
  - by apply lookup_lt_Some in Hp.
Qed.

Lemma note_passed now state p :
  Z.land state NGX_PEER_FAILED = 0 ->
  note_peer now state p = if accessed p <? checked p then p <| fails := 0 |> else p.
Proof. intros E. unfold note_peer. by rewrite E. Qed.

Lemma serve_free W t ws c g next now state tries i :
  fair_group W t ws c g -> passed (Free now state tries i) = true ->
  exists g', serve (g :: next) (Free now state tries i) = Some (None, g' :: next)
    /\ fair_group W t ws c g' /\ length (peers g') = length (peers g).
Proof.
  intros [Hn Hsg Hne Hf] Hp. apply Z.eqb_eq in Hp.
  eexists. split; [|split].
  - unfold serve, ngx_http_upstream_free_round_robin_peer. cbn [current]. simpl. rewrite Hsg. done.
  - destruct g. simpl in *. constructor; simpl; try done.
    + by rewrite length_alter.
    + intros Hnil. apply (f_equal (@List.length _)) in Hnil. rewrite length_alter in Hnil. by destruct peers0.
    + apply fair_alter; [| |done]; intros p; rewrite note_passed by done.
      * destruct p. simpl. by case_match.
      * intros []. destruct p. simpl in *. case_match; by constructor.
  - destruct g. simpl. by rewrite length_alter.
Qed.

(** How many of the requests [l] were given the peer [i]. *)
Definition given (l : list nat) (i : nat) : Z := Z.of_nat (count_occ Nat.eq_dec l i).

Lemma fair_group_ext W t ws c c' g :
  (forall i, c i = c' i) -> fair_group W t ws c g -> fair_group W t ws c' g.
Proof. intros E [? ? ? []]. constructor; try done. constructor; try done. intros j p Hj. rewrite <- E. eauto. Qed.

Lemma serve_all_fair W ws next es : forall t c g,
  fair_group W t ws c g -> W <= MAX_TOTAL -> forallb passed es = true ->
  exists l g', serve_all (g :: next) es = Some (l, g' :: next)
    /\ length l = gets es
    /\ fair_group W (t + Z.of_nat (gets es)) ws (fun i => c i + given l i) g'.
Proof.
  induction es as [|e es IH]; intros t c g Hg HW Hp; simpl.
  { exists [], g. split; [done|]. split; [done|]. eapply fair_group_ext; [|by rewrite Z.add_0_r].
    intros i. unfold given. simpl. lia. }
  simpl in Hp. apply andb_true_iff in Hp as [He Hes]. destruct e as [now|now state tries i].
  - destruct (serve_get _ _ _ _ _ next now Hg HW) as (i & g1 & -> & Hg1 & _). simpl.
    destruct (IH _ _ _ Hg1 HW Hes) as (l & g' & -> & Hl & Hg').
    exists (i :: l), g'. split; [done|]. split; [simpl; by rewrite Hl|].
    replace (t + Z.of_nat (S (gets es))) with (t + 1 + Z.of_nat (gets es)) by lia.
    eapply fair_group_ext; [|exact Hg']. intros j. unfold count_more, given. cbn.
    destruct (decide (j = i)), (Nat.eq_dec i j); lia || congruence.
  - destruct (serve_free _ _ _ _ _ next _ _ _ _ Hg He) as (g1 & -> & Hg1 & _). cbn.
    destruct (IH _ _ _ Hg1 HW Hes) as (l & g' & -> & Hl & Hg'). by exists l, g'.
Qed.

(** ** Groups of the configuration *)

Definition server_ok (s : server) : Prop := s_down s = false /\ 0 < s_weight s /\ 0 <= s_max_fails s.

Lemma count_servers_exact l :
  Forall server_ok l ->
  sum_of weight (concat (map server_peers l)) <= MAX_TOTAL ->
  count_servers l = (Z.of_nat (length (concat (map server_peers l))), sum_of weight (concat (map server_peers l))).
Proof.
  assert (Hnn : forall l, Forall server_ok l -> Z.of_nat (length (concat (map server_peers l))) <= sum_of weight (concat (map server_peers l))).
  { intros k Hk. rewrite <- (Z.mul_1_l (Z.of_nat _)). apply sum_of_ge. intros p Hp.
    apply in_concat in Hp as (ps & Hps & Hp). apply in_map_iff in Hps as (s & <- & Hs).
    apply in_map_iff in Hp as (a & <- & _). rewrite Forall_forall in Hk.
    destruct (Hk s ltac:(by apply list_elem_of_In)) as (_ & ? & _). simpl. lia. }
  induction l as [|s l IH]; intros Hl Hb; [done|]. inversion Hl as [|? ? (_ & Hw & _) Hl']; subst.
  simpl in *. rewrite sum_of_app, length_app in *. specialize (Hnn l Hl').
  assert (Es : sum_of weight (server_peers s) = Z.of_nat (length (s_addrs s)) * s_weight s).
  { unfold server_peers. clear. induction (s_addrs s) as [|a k IH]; [done|]. cbn. unfold sum_of in IH. lia. }
  assert (El : length (server_peers s) = length (s_addrs s)) by apply length_map.
  rewrite Es in *. assert (Z.of_nat (length (s_addrs s)) <= Z.of_nat (length (s_addrs s)) * s_weight s) by nia.
  unfold MAX_TOTAL in *. rewrite IH by (done || lia).
  rewrite !u64_small by lia. f_equal; lia.
Qed.

Lemma init_fair servers g next :
  ngx_http_upstream_init_round_robin servers = Some (g :: next) ->
  Forall (fun s => s_backup s = false -> server_ok s) servers ->
  sum_of weight (peers g) <= MAX_TOTAL -> single g = false ->
  fair_group (sum_of weight (peers g)) 0 (map weight (peers g)) (fun _ => 0) g.
Proof.
  unfold ngx_http_upstream_init_round_robin. intros Hi Hok Hb Hsg.
  assert (Hp : Forall server_ok (filter (fun s => s_backup s = false) servers)).
  { apply Forall_forall. intros s Hs. apply list_elem_of_filter in Hs as [Es Hs].
    rewrite Forall_forall in Hok. by apply Hok. }
  remember (filter (fun s => s_backup s = false) servers) as primary. clear Heqprimary Hok.
  destruct (count_servers primary) as [n w] eqn:Hc, (Z.eqb_spec n 0); [done|].
  destruct (count_servers (filter _ _)) as [nb wb].
  assert (Hpeers : peers g = concat (map server_peers primary) /\ number g = n).
  { by destruct (nb =? 0); simplify_eq/=. }
  clear Hi. destruct Hpeers as [Ep En]. rewrite Ep in *.
  rewrite count_servers_exact in Hc by done. injection Hc as Hn _.
  assert (Hin : forall p, In p (concat (map server_peers primary)) -> healthy p /\ current_weight p = 0).
  { intros p Hin. apply in_concat in Hin as (ps & Hps & Hin). apply in_map_iff in Hps as (s & <- & Hs).
    apply in_map_iff in Hin as (a & <- & _). rewrite Forall_forall in Hp.
    destruct (Hp s ltac:(by apply list_elem_of_In)) as (? & ? & ?). by split. }
  constructor; rewrite ?Ep; [congruence|done|by intros Hnil; rewrite Hnil in Hn; subst n|].
  constructor; try done.
  - apply Forall_forall. intros p Hq. by apply Hin, list_elem_of_In.
  - intros p Hq. rewrite (proj2 (Hin p Hq)). destruct (concat (map server_peers primary)) as [|q l]; [done|].
    assert (1 * Z.of_nat (length (q :: l)) <= sum_of weight (q :: l)); [|simpl in *; lia].
    apply sum_of_ge. intros r Hr. destruct (proj1 (Hin r Hr)). lia.
  - assert (forall l, (forall p, In p l -> current_weight p = 0) -> sum_of current_weight l = 0) as Hz; [|apply Hz; intros; by apply Hin].
    intros l. induction l as [|q l IH]; simpl; intros Hq; [done|]. rewrite IH by eauto. by rewrite (Hq q) by auto.
  - intros i p Hl. assert (In p (concat (map server_peers primary))) as Hq by (apply list_elem_of_In, list_elem_of_lookup; eauto).
    rewrite (proj2 (Hin p Hq)). lia.
Qed.

(** ** Every peer is given its share *)

(** When no weight is left over from [W] requests, all are [0]. *)
Lemma fair_round W t ws c l :
  fair W t ws c l -> 0 < W -> (W | t) -> forall p, In p l -> current_weight p = 0.
Proof.
  intros Hf HW [k ->] p. apply sum_of_zero; [|apply Hf].
  intros q Hq. pose proof (f_low _ _ _ _ _ Hf q Hq) as Hlow.
  apply list_elem_of_In, list_elem_of_lookup in Hq as (i & Hq).
  pose proof (f_count _ _ _ _ _ Hf i q Hq) as Hc.
  assert (current_weight q = W * (k * weight q - c i)) as E by lia.
  set (m := k * weight q - c i) in *. destruct (Z.le_gt_cases 0 m); nia.
Qed.

(** C33: However many requests an upstream of the configuration gets, none of
    which fails, and in whatever order they end, when it has more than one
    peer, those for backups counted, and of the others none is marked as down
    and the weights are positive and do not add up to more than 2^31: each
    request is given a peer; among [t] requests the peer of weight [w] is given
    at most its share [t * w / W] and less than one more, where [W] is the sum
    of the weights; and after every [W] requests each peer was given exactly
    its share. *)
Theorem round_robin_fair servers g next es :
  ngx_http_upstream_init_round_robin servers = Some (g :: next) ->
  Forall (fun s => s_backup s = false -> server_ok s) servers ->
  sum_of weight (peers g) <= MAX_TOTAL -> single g = false ->
  forallb passed es = true ->
  exists l g', serve_all (g :: next) es = Some (l, g' :: next)
    /\ length l = gets es
    /\ forall i p, peers g !! i = Some p ->
         let W := sum_of weight (peers g) in
         let t := Z.of_nat (gets es) in
         W * given l i < t * weight p + W
         /\ ((W | t) -> W * given l i = t * weight p).
Proof.
  intros Hi Hok HW Hsg Hp. pose proof (init_fair _ _ _ Hi Hok HW Hsg) as Hf.
  destruct (serve_all_fair _ _ next es _ _ _ Hf HW Hp) as (l & g' & Hrun & Hl & [_ _ _ Hf']).
  exists l, g'. split; [done|]. split; [done|]. intros i p Hpi W t.
  assert (Hq : exists q, peers g' !! i = Some q /\ weight q = weight p).
  { pose proof (f_weights _ _ _ _ _ Hf') as E. apply (f_equal (lookup i)) in E.
    change (weight <$> peers g' !! i = weight <$> peers g !! i) in E || rewrite !list_lookup_fmap in E.
    rewrite Hpi in E. destruct (peers g' !! i) as [q|]; simplify_eq/=. eauto. }
  destruct Hq as (q & Hq & <-). assert (Hin : In q (peers g')) by (apply list_elem_of_In, list_elem_of_lookup; eauto).
  pose proof (f_count _ _ _ _ _ Hf' i q Hq) as Hc. pose proof (f_low _ _ _ _ _ Hf' q Hin).
  cbv beta in Hc. split; [subst W t; lia|]. intros Hd.
  rewrite (fair_round _ _ _ _ _ Hf') in Hc; [subst W t; lia| |done|done].
  pose proof (fair_weight _ _ _ _ _ _ Hf' Hin). subst W. lia.
Qed.

(** Weights 5, 1 and 1: two rounds, where requests end when others began. *)
Theorem round_robin_fair_witness :
  let servers := [Server [[97]] 5 1 10 false false; Server [[98]; [99]] 1 1 10 false false;
                  Server [[100]] 1 1 10 false true] in
  let round := [Get 1; Get 2; Free 2 0 1 0; Get 3; Get 3; Free 4 0 1 1; Get 9; Get 9; Get 9] in
  exists g next l g',
    ngx_http_upstream_init_round_robin servers = Some (g :: next) /\
    serve_all (g :: next) (round ++ round) = Some (l, g' :: next) /\
    l = [0; 0; 1; 0; 2; 0; 0; 0; 0; 1; 0; 2; 0; 0]%nat /\ 7 * given l 0 = 14 * 5.
Proof.
  intros servers round.
  let r := eval vm_compute in (ngx_http_upstream_init_round_robin servers) in
  match r with Some (?g :: ?next) => exists g, next end.
  edestruct (round_robin_fair servers) with (es := round ++ round) as (l & g' & Hrun & _ & Hall).
  - by vm_compute.
  - repeat (apply Forall_cons; split; [done|]). done.
  - by vm_compute.
  - done.
  - done.
  - exists l, g'. split; [by vm_compute|]. split; [exact Hrun|].
    vm_compute in Hrun. split; [by simplify_eq|].
    refine (proj2 (Hall 0%nat _ eq_refl) _). by exists 2.
Defined.

(** ** No peer is given twice to one request

    The peers may change between the calls of a request: other requests fail
    and end.  Only the data of the request is its own. *)

(** The calls of one request, each with the time and the upstream as it is
    then; the peers it is given, with the numbers of their groups. *)
Fixpoint attempts (calls : list (Z * list rr_peers)) (d : rr_data) : option (list (nat * nat) * rr_data) :=
  match calls with
  | [] => Some ([], d)
  | (now, gs) :: calls =>
      '(rc, _, d) ← ngx_http_upstream_get_round_robin_peer now (drop (group d) gs) d;
      '(l, d') ← attempts calls d;
      Some (match current d with
            | Some i => if rc =? NGX_OK then (group d, i) :: l else l
            | None => l
            end, d')
  end.

(** The sizes of the groups, which do not change. *)
Definition shaped (ns : list nat) (gs : list rr_peers) : Prop :=
  Forall2 (fun n g => number g = Z.of_nat n /\ length (peers g) = n /\ single g = false) ns gs.
Definition fits (ns : list nat) (d : rr_data) : Prop :=
  Forall (fun n => n <= 64 * length (tried d))%nat ns.

Lemma is_tried_testbit tried i :
  is_tried tried i = Z.testbit (tried !!! (i / 64)%nat) (Z.of_nat (i mod 64)).
Proof.
  unfold is_tried. set (b := Z.of_nat (i mod 64)). assert (0 <= b) by lia.
  destruct (Z.testbit (tried !!! (i / 64)%nat) b) eqn:E; [apply negb_true_iff|apply negb_false_iff].
  - apply Z.eqb_neq. intros H0. apply (f_equal (fun z => Z.testbit z b)) in H0.
    rewrite Z.land_spec, E, Z.shiftl_spec, Z.sub_diag, Z.bits_0 in H0 by done. done.
  - apply Z.eqb_eq, Z.bits_inj'. intros m Hm. rewrite Z.land_spec, Z.bits_0, Z.shiftl_spec by done.
    destruct (decide (m = b)) as [->|Hne]; [by rewrite E|].
    replace (Z.testbit 1 (m - b)) with false; [by rewrite andb_false_r|].
    symmetry. destruct (Z.lt_ge_cases (m - b) 0); [by apply Z.testbit_neg_r|].
    change 1 with (2 ^ 0). apply Z.pow2_bits_false. lia.
Qed.

Lemma is_tried_set i j tried :
  (i < 64 * length tried)%nat ->
  is_tried (set_tried i tried) j = bool_decide (i = j) || is_tried tried j.
Proof.
  intros Hi. assert (i / 64 < length tried)%nat by (apply Nat.Div0.div_lt_upper_bound; lia).
  rewrite !is_tried_testbit. unfold set_tried.
  destruct (decide (i / 64 = j / 64)%nat) as [Eq|Ne].
  - rewrite <- Eq, list_lookup_total_insert by done.
    rewrite decide_True by done. rewrite Z.lor_spec, Z.shiftl_spec, orb_comm by lia. f_equal.
    pose proof (Nat.div_mod_eq i 64). pose proof (Nat.div_mod_eq j 64).
    case_bool_decide as Hd.
    + subst. by rewrite Z.sub_diag.
    + destruct (Z.lt_ge_cases (Z.of_nat (j mod 64) - Z.of_nat (i mod 64)) 0); [by apply Z.testbit_neg_r|].
      change 1 with (2 ^ 0). apply Z.pow2_bits_false. lia.
  - rewrite list_lookup_total_insert_ne by done. case_bool_decide; [congruence|done].
Qed.

Lemma is_tried_zeros n k : (k < 64 * n)%nat -> is_tried (replicate n 0) k = false.
Proof.
  intros Hk. rewrite is_tried_testbit, lookup_total_replicate_2; [by rewrite Z.bits_0|].
  apply Nat.Div0.div_lt_upper_bound. lia.
Qed.

(** The data of a request only moves forward: to a later group, or to more
    peers that were tried. *)
Definition later (d d' : rr_data) : Prop :=
  (group d < group d')%nat \/
  group d = group d' /\ forall i, is_tried (tried d) i = true -> is_tried (tried d') i = true.

Lemma later_trans d1 d2 d3 : later d1 d2 -> later d2 d3 -> later d1 d3.
Proof. intros [?|[? H]] [?|[? H']]; unfold later; [left; lia..|]. right. split; [lia|auto]. Qed.

(** A peer of the data: it was not given before [d], and it will not be given
    after [d']. *)
Definition new_peer (d d' : rr_data) (i : nat) : Prop :=
  ((group d < group d')%nat \/ is_tried (tried d) i = false) /\ is_tried (tried d') i = true.

(** What one call of a request does: it goes on to a peer that is new, in a
    group of its upstream; or there is none. *)
Record asked (ns : list nat) (d : rr_data) (rc : Z) (d' : rr_data) : Prop := {
  a_later : later d d';
  a_words : length (tried d') = length (tried d);
  a_group : (group d' - group d < length ns)%nat;
  a_rc : rc = NGX_OK \/ rc = NGX_BUSY;
  a_peer : rc = NGX_OK -> exists i n, current d' = Some i /\ new_peer d d' i
             /\ ns !! (group d' - group d)%nat = Some n /\ (i < n)%nat
}.

Lemma get_peer_loop_best now tried l : forall i total best l' total' b w,
  get_peer_loop now tried i l total best = (l', total', Some (b, w)) ->
  length l' = length l /\
  (best = Some (b, w) \/ exists j p, b = (i + j)%nat /\ l !! j = Some p /\ skip_peer now tried b p = false).
Proof.
  induction l as [|p l IH]; intros i total best l' total' b w H; cbn in H; [simplify_eq; auto|].
  destruct (skip_peer now tried i p) eqn:Hs.
  - destruct (get_peer_loop now tried (S i) l total best) as [[l1 t1] b1] eqn:E. simplify_eq.
    apply IH in E as [Hl [->|(j & q & -> & Hj & Hq)]]; (split; [simpl; congruence|]); auto.
    right. exists (S j), q. split; [lia|]. split; [done|]. done.
  - destruct (get_peer_loop now tried (S i) l _ _) as [[l1 t1] b1] eqn:E. simplify_eq.
    apply IH in E as [Hl [Hb|(j & q & -> & Hj & Hq)]]; (split; [simpl; congruence|]).
    + destruct best as [[b0 w0]|]; [destruct (w0 <? _)|]; simplify_eq; auto;
        right; exists 0%nat, p; rewrite Nat.add_0_r; auto.
    + right. exists (S j), q. split; [lia|]. done.
Qed.

Lemma get_peer_loop_nobody now tried l : forall i total l' total',
  get_peer_loop now tried i l total None = (l', total', None) ->
  length l' = length l.
Proof.
  induction l as [|p l IH]; intros i total l' total' H; cbn in H; [by simplify_eq|].
  destruct (skip_peer now tried i p).
  - destruct (get_peer_loop now tried (S i) l total None) as [[l1 t1] b1] eqn:E. simplify_eq.
    simpl. f_equal. eauto.
  - exfalso. destruct (get_peer_loop now tried (S i) l _ _) as [[l1 t1] b1] eqn:E. simplify_eq.
    clear IH. revert E. generalize (S i) as k, (s64 (total + effective_weight p)) as t.
    generalize (i, current_weight (bump p)) as best. clear. revert l1 total'.
    induction l as [|q l IH]; intros l1 t1 best k t H; cbn in H; [done|].
    destruct (skip_peer now tried k q).
    + destruct (get_peer_loop now tried (S k) l t _) as [[l2 t2] b2] eqn:E. simplify_eq. eauto.
    + destruct (get_peer_loop now tried (S k) l _ _) as [[l2 t2] b2] eqn:E. simplify_eq.
      destruct best as [b w]. destruct (w <? _); eauto.
Qed.

Lemma pick_asked now g d n :
  length (peers g) = n -> single g = false -> (n <= 64 * length (tried d))%nat ->
  (exists g', pick now g d = Some (None, g', d)) \/
  (exists i g', pick now g d = Some (Some i, g', d <| current := Some i |> <| tried := set_tried i (tried d) |>)
    /\ (i < n)%nat /\ is_tried (tried d) i = false).
Proof.
  intros Hn Hs Hf. unfold pick, ngx_http_upstream_get_peer. rewrite Hs.
  destruct (get_peer_loop now (tried d) 0 (peers g) 0 None) as [[l total] [[b w]|]] eqn:E; [|by left; eauto].
  right. apply get_peer_loop_best in E as [_ [?|(j & p & -> & Hj & Hp)]]; [done|].
  exists j. eexists. split; [done|]. apply lookup_lt_Some in Hj. split; [lia|].
  unfold skip_peer in Hp. by apply orb_false_iff in Hp as [[? _]%orb_false_iff _].
Qed.

Lemma asked_given ns n d i :
  (i < n)%nat -> (n <= 64 * length (tried d))%nat -> is_tried (tried d) i = false ->
  asked (n :: ns) d NGX_OK (d <| current := Some i |> <| tried := set_tried i (tried d) |>).
Proof.
  destruct d as [k cur tr]. simpl. intros Hi Hn Ht. constructor; simpl.
  - right. split; [done|]. intros j. simpl. rewrite is_tried_set by lia. intros ->. by rewrite orb_true_r.
  - unfold set_tried. by rewrite length_insert.
  - lia.
  - by left.
  - intros _. exists i, n. rewrite Nat.sub_diag. split_and!; try done. split; [by right|].
    simpl. rewrite is_tried_set by lia. by rewrite bool_decide_true.
Qed.

Lemma asked_next n ns d d1 rc d2 :
  group d1 = S (group d) -> length (tried d1) = length (tried d) ->
  asked ns d1 rc d2 -> asked (n :: ns) d rc d2.
Proof.
  intros Hg Hl [Hlater Hw Hgr Hrc Hp].
  assert (group d < group d2)%nat by (destruct Hlater as [?|[? _]]; lia).
  constructor; [by left|lia|simpl; lia|done|].
  intros E. destruct (Hp E) as (i & m & Hc & [_ Ht] & Hm & Hi). exists i, m. split_and!; try done.
  - split; [by left|done].
  - by replace (group d2 - group d)%nat with (S (group d2 - group d1)) by lia.
Qed.

(** Every call answers, and moves the data of its request forward. *)
Lemma get_round_robin_peer_asked now ns : forall gs d,
  shaped ns gs -> ns <> [] -> fits ns d ->
  exists rc gs' d', ngx_http_upstream_get_round_robin_peer now gs d = Some (rc, gs', d') /\ asked ns d rc d'.
Proof.
  induction ns as [|n ns IH]; intros gs d Hsh Hne Hf; [done|].
  inversion Hsh as [|? g ? next (Hnum & Hn & Hs) Hsh']; subst. inversion Hf as [|? ? Hfn Hf']; subst.
  simpl. destruct (pick_asked now g d _ eq_refl Hs Hfn) as [[g' ->]|(i & g' & -> & Hi & Ht)]; simpl.
  2:{ eexists _, _, _. split; [done|]. by apply asked_given. }
  destruct Hsh' as [|n1 g1 ns1 next1 (Hnum1 & Hn1 & Hs1) Hsh1].
  { eexists _, _, _. split; [done|]. constructor; [by right|done|simpl; lia|by right|done]. }
  set (d1 := to_backup g1 d).
  assert (Hw : length (tried d1) = length (tried d)).
  { subst d1. unfold to_backup. destruct d as [k cur tr]. simpl in *. rewrite length_app, length_replicate, length_drop.
    inversion Hf' as [|? ? Hfn1 _]; subst. simpl in Hfn1.
    assert (words (number g1) <= length tr)%nat; [|lia]. unfold words. rewrite Hnum1.
    apply Nat2Z.inj_le. rewrite Z2Nat.id by (apply Z.div_pos; lia).
    apply Z.lt_succ_r, Z.div_lt_upper_bound; lia. }
  destruct (IH (g1 :: next1) d1) as (rc & gs' & d' & -> & Hask); [by constructor|done| |].
  { unfold fits. by rewrite Hw. }
  simpl. pose proof (asked_next (length (peers g)) _ d d1 _ _ ltac:(by destruct d) Hw Hask) as Hasked.
  destruct (negb (rc =? NGX_BUSY)) eqn:Hrc; eexists _, _, _; (split; [done|]); [done|].
  apply negb_false_iff, Z.eqb_eq in Hrc. by subst rc.
Qed.

(** A peer that was given before the data [d]. *)
Definition before (d : rr_data) (x : nat * nat) : Prop :=
  (x.1 < group d)%nat \/ (x.1 = group d /\ is_tried (tried d) x.2 = true).

Lemma before_later d d' x : later d d' -> before d x -> before d' x.
Proof.
  unfold before. intros [Hlt|[Hg Ht]] [Hx|[Hx Hb]].
  - left; lia.
  - left; lia.
  - left; lia.
  - right. split; [congruence|auto].
Qed.

Lemma attempts_once ns calls : forall d,
  (group d < length ns)%nat -> fits ns d -> Forall (fun c => shaped ns c.2) calls ->
  exists l d', attempts calls d = Some (l, d') /\ NoDup l
    /\ Forall (fun x => ~ before d x /\ exists n, ns !! x.1 = Some n /\ (x.2 < n)%nat) l.
Proof.
  induction calls as [|[now gs] calls IH]; intros d Hg Hf Hc; simpl.
  { exists [], d. split_and!; [done|constructor|done]. }
  inversion Hc as [|? ? Hsh Hc']; subst. simpl in Hsh.
  destruct (get_round_robin_peer_asked now (drop (group d) ns) (drop (group d) gs) d)
    as (rc & gs' & d1 & -> & Hask).
  { by apply Forall2_drop. }
  { intros E. apply (f_equal (@List.length _)) in E. rewrite length_drop in E. simpl in E. lia. }
  { by apply Forall_drop. }
  destruct Hask as [Hlater Hw Hgr _ Hp]. rewrite length_drop in Hgr. simpl.
  destruct (IH d1) as (l & d2 & -> & Hnd & Hl); [lia|by unfold fits; rewrite Hw|done|]. simpl.
  assert (Hl' : Forall (fun x => ~ before d x /\ exists n, ns !! x.1 = Some n /\ (x.2 < n)%nat) l).
  { eapply Forall_impl; [exact Hl|]. intros x [Hx ?]. split; [|done]. intros Hb. by apply Hx, (before_later d). }
  exists (match current d1 with Some i => if rc =? NGX_OK then (group d1, i) :: l else l | None => l end), d2.
  split; [done|]. destruct (current d1) as [i|] eqn:Hcur; [|done].
  destruct (Z.eqb_spec rc NGX_OK) as [->|]; [|done].
  destruct (Hp eq_refl) as (i' & n & Hi & [Hnew Ht] & Hn & Hin). simplify_eq.
  assert (group d <= group d1)%nat by (destruct Hlater as [|[? _]]; lia). split.
  - apply NoDup_cons. split; [|done]. intros Hx. rewrite Forall_forall in Hl.
    apply (proj1 (Hl _ Hx)). by right.
  - constructor; [|done]. split; [|exists n; split; [|done]].
    + intros [Hb|[Hb Hb']]; simpl in *; [lia|]. destruct Hnew as [?|E]; [lia|congruence].
    + simpl. rewrite lookup_drop in Hn. by replace (group d + (group d1 - group d))%nat with (group d1) in Hn by lia.
Qed.

(** The pairs of a group and a peer. *)
Definition slots (k : nat) (ns : list nat) : list (nat * nat) :=
  concat (imap (fun j n => map (pair (k + j)%nat) (seq 0 n)) ns).

Lemma slots_length ns k : length (slots k ns) = list_sum ns.
Proof.
  unfold slots. revert k. induction ns as [|n ns IH]; intros k; [done|].
  rewrite imap_cons. simpl. rewrite length_app, length_map, length_seq. f_equal.
  rewrite <- (IH (S k)). do 2 f_equal. apply imap_ext. intros. simpl.
  by replace (k + S i)%nat with (S (k + i)) by lia.
Qed.

Lemma slots_complete ns k x n : ns !! x.1 = Some n -> (x.2 < n)%nat -> In ((k + x.1)%nat, x.2) (slots k ns).
Proof.
  intros Hn Hx. unfold slots. apply in_concat. exists (map (pair (k + x.1)%nat) (seq 0 n)). split.
  - apply list_elem_of_In, list_elem_of_lookup. exists x.1. by rewrite list_lookup_imap, Hn.
  - apply in_map, in_seq. lia.
Qed.

Lemma init_fits gs ns :
  shaped ns gs -> (length ns <= 2)%nat -> fits ns (ngx_http_upstream_init_round_robin_peer gs).
Proof.
  intros Hsh Hl. unfold fits, ngx_http_upstream_init_round_robin_peer.
  set (m := match gs with [] => 0 | _ :: _ => _ end).
  assert (Hm : Forall (fun n => Z.of_nat n <= m) ns).
  { subst m. destruct Hsh as [|n g ns gs (Hn & _) Hsh]; [constructor|].
    destruct Hsh as [|n' g' ns gs (Hn' & _) Hsh]; [repeat constructor; lia|].
    destruct Hsh; [|simpl in Hl; lia]. repeat constructor; destruct (Z.ltb_spec (number g) (number g')); lia. }
  assert (m <= 64 * Z.of_nat (length (if m <=? 64 then [0] else replicate (words m) 0))).
  { destruct (Z.leb_spec m 64); simpl; [lia|]. rewrite length_replicate. unfold words.
    rewrite Z2Nat.id by (apply Z.div_pos; lia).
    pose proof (Z.mod_pos_bound (m + 63) 64 ltac:(lia)). pose proof (Z.div_mod (m + 63) 64 ltac:(lia)). lia. }
  cbn [tried]. eapply Forall_impl; [exact Hm|]. simpl. intros n Hn. lia.
Qed.

(** C34: A request that asks an upstream of more than one peer again and again,
    its peers in one group, or in two with one for backups, whatever happens to
    the peers in between, is always answered, is never given the same peer
    twice, only peers there are, and not more often than
    [ngx_http_upstream_tries] says. (The peer of an upstream that has only one
    is given every time.) *)
Theorem round_robin_once ns gs calls :
  shaped ns gs -> (0 < length ns <= 2)%nat -> Z.of_nat (list_sum ns) < 2 ^ 64 ->
  Forall (fun c => shaped ns c.2) calls ->
  exists l d', attempts calls (ngx_http_upstream_init_round_robin_peer gs) = Some (l, d')
    /\ NoDup l
    /\ (forall k i, In (k, i) l -> exists n, ns !! k = Some n /\ (i < n)%nat)
    /\ Z.of_nat (length l) <= ngx_http_upstream_tries gs.
Proof.
  intros Hsh Hl Hb Hc.
  destruct (attempts_once ns calls (ngx_http_upstream_init_round_robin_peer gs))
    as (l & d' & E & Hnd & Hin); [by simpl; lia|by apply init_fits; [|lia]|done|].
  rewrite Forall_forall in Hin. exists l, d'. split; [done|]. split; [done|]. split.
  { intros k i Hki. apply (Hin (k, i)). by apply list_elem_of_In. }
  assert (Ht : ngx_http_upstream_tries gs = Z.of_nat (list_sum ns)).
  { destruct Hsh as [|n g ns gs (Hn & _) Hsh]; [done|]. simpl. rewrite Hn.
    destruct Hsh as [|n' g' ns gs (Hn' & _) Hsh]; simpl in *; [rewrite u64_small; lia|].
    destruct Hsh; [|simpl in Hl; lia]. simpl in *. rewrite Hn', u64_small; lia. }
  rewrite Ht, <- (slots_length ns 0). apply inj_le, NoDup_incl_length; [by apply NoDup_ListNoDup|].
  intros x Hx. destruct (Hin x) as (_ & n & Hn & Hx'); [by apply list_elem_of_In|].
  pose proof (slots_complete ns 0 x n Hn Hx'). by destruct x.
Qed.

(** Two peers and a backup, five calls; the second peer is down at first. *)
Theorem round_robin_once_witness :
  let up w d := Peer [w] 0 w w 0 0 0 0 1 10 d in
  let gs d := [Peers 2 3 false true [up 1 false; up 2 d]; Peers 1 1 false false [up 1 false]] in
  let calls := [(1, gs true); (2, gs false); (2, gs false); (3, gs false); (4, gs true)] in
  exists l d', attempts calls (ngx_http_upstream_init_round_robin_peer (gs true)) = Some (l, d')
    /\ l = [(0, 0); (0, 1); (1, 0)]%nat /\ NoDup l.
Proof.
  intros up gs calls.
  destruct (round_robin_once [2; 1]%nat (gs true) calls) as (l & d' & E & Hnd & _).
  - repeat (apply Forall2_cons; split; [done|]). done.
  - simpl. lia.
  - done.
  - repeat (apply Forall_cons; split; [by repeat (apply Forall2_cons; split; [done|])|]). done.
  - exists l, d'. split; [done|]. split; [|done]. vm_compute in E. by simplify_eq.
Defined.
