(* ===== verification/BsonUtf8.v ===== *)
(** * String validation for BSON (mongo-c-driver/src/encoding.c)

    The UTF-8 validator and the field name checks.  [b->err] is passed in and
    out; a [(const char *, length)] pair is the list of its bytes. *)

From S2P Require Import Prelude.

(** [driver/bson.h:80-81] BSON_OK *)
Definition BSON_OK : Z := 0.
Definition BSON_ERROR : Z := -1.

(** [driver/bson.h:83-93] bson_error_t and bson_validity_t: the bits of
    [b->err]. *)
Definition BSON_SIZE_OVERFLOW : Z := 1.
Definition BSON_NOT_UTF8 : Z := 2.
Definition BSON_FIELD_HAS_DOT : Z := 4.
Definition BSON_FIELD_INIT_DOLLAR : Z := 8.
Definition BSON_ALREADY_FINISHED : Z := 16.

(** [driver/encoding.c:48-57] trailingBytesForUTF8 *)
Definition trailingBytesForUTF8 : list Z :=
  replicate 192 0 ++ replicate 32 1 ++ replicate 16 2 ++ replicate 8 3
  ++ replicate 4 4 ++ replicate 4 5.

(** [driver/encoding.c:70-102] isLegalUTF8: the cases fall through from the
    last byte of the sequence to the first; [source] has [length] bytes. *)
Definition isLegalUTF8 (source : list Z) (length : Z) : bool :=
  let at_ i := source !!! Z.to_nat i in
  let trail a := negb ((a <? 0x80) || (0xBF <? a)) in
  if (length <? 1) || (4 <? length) then false
  else if (length =? 4) && negb (trail (at_ 3)) then false
  else if (3 <=? length) && negb (trail (at_ 2)) then false
  else if (2 <=? length) && (0xBF <? at_ 1) then false
  else if (2 <=? length) &&
          (if at_ 0 =? 0xE0 then at_ 1 <? 0xA0
           else if at_ 0 =? 0xF0 then at_ 1 <? 0x90
           else if at_ 0 =? 0xF4 then 0x8F <? at_ 1
           else at_ 1 <? 0x80) then false
  else if (0x80 <=? at_ 0) && (at_ 0 <? 0xC2) then false
  else negb (0xF4 <? at_ 0).

(** [driver/encoding.c:105-120] bson_string_is_db_ref *)
Definition bson_string_is_db_ref (string : list Z) : bool :=
  let at_ i := string !!! Z.to_nat i in
  let length := Z.of_nat (List.length string) in
  if 4 <=? length then
    (at_ 1 =? "r"%chr) && (at_ 2 =? "e"%chr) && (at_ 3 =? "f"%chr)
  else if 3 <=? length then
    if (at_ 1 =? "i"%chr) && (at_ 2 =? "d"%chr) then true
    else (at_ 1 =? "d"%chr) && (at_ 2 =? "b"%chr)
  else false.

(** [driver/encoding.c:133-151] bson_validate_string: the loop, on the bytes
    from [position] on.  Every turn advances, so that [fuel] is enough when
    it exceeds the number of bytes. *)
Fixpoint validate_loop (check_utf8 check_dot : bool) (fuel : nat) (err : Z)
    (s : list Z) : Z * Z :=
  match fuel, s with
  | S fuel', c :: _ =>
      let err := if check_dot && (c =? "."%chr)
                 then Z.lor err BSON_FIELD_HAS_DOT else err in
      if check_utf8 then
        let sequence_length := trailingBytesForUTF8 !!! Z.to_nat c + 1 in
        if Z.of_nat (List.length s) <? sequence_length
        then (BSON_ERROR, Z.lor err BSON_NOT_UTF8)
        else if negb (isLegalUTF8 s sequence_length)
        then (BSON_ERROR, Z.lor err BSON_NOT_UTF8)
        else validate_loop check_utf8 check_dot fuel' err
               (drop (Z.to_nat sequence_length) s)
      else validate_loop check_utf8 check_dot fuel' err (drop 1 s)
  | _, _ => (BSON_OK, err)
  end.

(** [driver/encoding.c:122-154] bson_validate_string: the return code and
    [b->err]. *)
Definition bson_validate_string (err : Z) (string : list Z)
    (check_utf8 check_dot check_dollar : bool) : Z * Z :=
  let err :=
    if check_dollar && (hd 0 string =? "$"%chr)
       && negb (bson_string_is_db_ref string)
    then Z.lor err BSON_FIELD_INIT_DOLLAR else err in
  validate_loop check_utf8 check_dot (length string) err string.

(** [driver/encoding.c:157-161] bson_check_string *)
Definition bson_check_string (err : Z) (string : list Z) : Z * Z :=
  bson_validate_string err string true false false.

(** [driver/encoding.c:163-167] bson_check_field_name *)
Definition bson_check_field_name (err : Z) (string : list Z) : Z * Z :=
  bson_validate_string err string true true true.

(** ** The reference encoding *)

(** UTF-8 by the arithmetic of its definition. *)
Definition utf8_encode (cp : Z) : list Z :=
  if cp <? 0x80 then [cp]
  else if cp <? 0x800 then [0xC0 + cp / 64; 0x80 + cp mod 64]
  else if cp <? 0x10000 then
    [0xE0 + cp / 4096; 0x80 + cp / 64 mod 64; 0x80 + cp mod 64]
  else
    [0xF0 + cp / 262144; 0x80 + cp / 4096 mod 64; 0x80 + cp / 64 mod 64;
     0x80 + cp mod 64].

(** What the validator takes for one character: the encoding of any number up
    to 0x10FFFF, surrogates included, or 0xF4 with a second byte that is not a
    continuation byte at all. *)
Definition accepted_sequence (s : list Z) : Prop :=
  (exists cp, 0 <= cp <= 0x10FFFF /\ s = utf8_encode cp) \/
  (exists a c d, s = [0xF4; a; c; d] /\ 0 <= a < 0x80
                 /\ 0x80 <= c <= 0xBF /\ 0x80 <= d <= 0xBF).

Lemma trailing_spec b :
  is_byte b ->
  trailingBytesForUTF8 !!! Z.to_nat b =
    if b <? 192 then 0 else if b <? 224 then 1 else if b <? 240 then 2
    else if b <? 248 then 3 else if b <? 252 then 4 else 5.
Proof. intros Hb. by_byte b. Qed.

(** Splits the boolean guards of a goal [negb (...) = true <-> ...] into
    comparisons. *)
Ltac guards :=
  repeat match goal with
  | |- context [?a <? ?b] => destruct (Z.ltb_spec a b); simpl
  | |- context [?a <=? ?b] => destruct (Z.leb_spec a b); simpl
  | |- context [?a =? ?b] => destruct (Z.eqb_spec a b); simpl
  end.

Lemma legal1 a :
  is_byte a -> a < 192 -> isLegalUTF8 [a] 1 = true <-> accepted_sequence [a].
Proof.
  intros Ha Hlt. assert (isLegalUTF8 [a] 1 = (a <? 0x80)) as ->.
  { unfold is_byte in Ha. unfold isLegalUTF8. simpl.
    change ([a] !!! Z.to_nat 0) with a. guards; try lia; done. }
  rewrite Z.ltb_lt. unfold accepted_sequence, is_byte in *. split.
  - intros H. left. exists a. unfold utf8_encode. rewrite (proj2 (Z.ltb_lt a 0x80)) by done.
    split; [lia|done].
  - intros [(cp & Hcp & E)|(? & ? & ? & E & _)]; [|done]. unfold utf8_encode in E.
    revert E. guards; intros [=]; lia.
Qed.

(** Equality of two lists of as many numbers. *)
Ltac cons_eq :=
  repeat (apply (f_equal2 cons); [first [lia | Z.to_euclidean_division_equations; lia]|]);
  reflexivity.

Ltac unfold_legal :=
  unfold isLegalUTF8; simpl; rewrite ?if_andb;
  repeat match goal with
  | |- context [(?a :: ?l) !!! Z.to_nat 0] => change ((a :: l) !!! Z.to_nat 0) with a
  | |- context [(?a :: ?b :: ?l) !!! Z.to_nat 1] => change ((a :: b :: l) !!! Z.to_nat 1) with b
  | |- context [(?a :: ?b :: ?c :: ?l) !!! Z.to_nat 2] =>
      change ((a :: b :: c :: l) !!! Z.to_nat 2) with c
  | |- context [(?a :: ?b :: ?c :: ?d :: ?l) !!! Z.to_nat 3] =>
      change ((a :: b :: c :: d :: l) !!! Z.to_nat 3) with d
  end.

Lemma legal2 a b :
  is_byte b -> 192 <= a < 224 ->
  isLegalUTF8 [a; b] 2 = true <-> accepted_sequence [a; b].
Proof.
  intros Hb Ha. assert (isLegalUTF8 [a; b] 2 = (0xC2 <=? a) && (0x80 <=? b) && (b <=? 0xBF)) as ->.
  { unfold is_byte in Hb. unfold_legal. guards; try lia; done. }
  rewrite !andb_true_iff, !Z.leb_le. unfold accepted_sequence. split.
  - intros [[? ?] ?]. left. exists ((a - 0xC0) * 64 + (b - 0x80)).
    assert (0x80 <= (a - 0xC0) * 64 + (b - 0x80) < 0x800) by lia.
    unfold utf8_encode. guards; try lia. split; [lia|].
    cons_eq.
  - intros [(cp & Hcp & E)|(? & ? & ? & E & _)]; [|done]. unfold utf8_encode in E.
    revert E. guards; intros [=]; subst; pose proof (Z.mod_pos_bound cp 64 ltac:(lia));
      pose proof (Z.div_mod cp 64 ltac:(lia)); lia.
Qed.

(** The bits of a code point of three or four bytes. *)
Lemma cp_split cp :
  0 <= cp ->
  cp = cp / 262144 * 262144 + cp / 4096 mod 64 * 4096 + cp / 64 mod 64 * 64 + cp mod 64
  /\ cp / 4096 = cp / 262144 * 64 + cp / 4096 mod 64
  /\ 0 <= cp / 4096 mod 64 < 64 /\ 0 <= cp / 64 mod 64 < 64 /\ 0 <= cp mod 64 < 64
  /\ 0 <= cp / 262144.
Proof. intros H. Z.to_euclidean_division_equations. lia. Qed.

Lemma cp_join x y z w :
  0 <= x -> 0 <= y < 64 -> 0 <= z < 64 -> 0 <= w < 64 ->
  let cp := x * 262144 + y * 4096 + z * 64 + w in
  cp / 262144 = x /\ cp / 4096 mod 64 = y /\ cp / 64 mod 64 = z /\ cp mod 64 = w
  /\ cp / 4096 = x * 64 + y.
Proof. intros ???? cp. unfold cp. Z.to_euclidean_division_equations. lia. Qed.

Lemma legal3 a b c :
  is_byte b -> is_byte c -> 224 <= a < 240 ->
  isLegalUTF8 [a; b; c] 3 = true <-> accepted_sequence [a; b; c].
Proof.
  intros Hb Hc Ha.
  assert (isLegalUTF8 [a; b; c] 3 =
    (0x80 <=? c) && (c <=? 0xBF) && (b <=? 0xBF) && ((if a =? 0xE0 then 0xA0 else 0x80) <=? b)) as ->.
  { unfold is_byte in *. unfold_legal. guards; try lia; done. }
  rewrite !andb_true_iff, !Z.leb_le. unfold accepted_sequence. split.
  - intros [[[? ?] ?] Hab]. left.
    destruct (cp_join 0 (a - 0xE0) (b - 0x80) (c - 0x80)) as (E1 & E2 & E3 & E4 & E5);
      try (destruct (a =? 0xE0) eqn:E; lia).
    set (cp := _ + _) in *. assert (0x800 <= cp < 0x10000)
      by (unfold cp; destruct (Z.eqb_spec a 0xE0); lia).
    exists cp. split; [lia|]. unfold utf8_encode. guards; try lia.
    rewrite E5, E3, E4. cons_eq.
  - intros [(cp & Hcp & E)|(? & ? & ? & E & _)]; [|done]. unfold utf8_encode in E.
    revert E. guards; intros [= -> -> ->]; destruct (cp_split cp); lia.
Qed.

Lemma legal4 a b c d :
  is_byte b -> is_byte c -> is_byte d -> 240 <= a < 248 ->
  isLegalUTF8 [a; b; c; d] 4 = true <-> accepted_sequence [a; b; c; d].
Proof.
  intros Hb Hc Hd Ha.
  assert (isLegalUTF8 [a; b; c; d] 4 =
    (0x80 <=? d) && (d <=? 0xBF) && (0x80 <=? c) && (c <=? 0xBF) && (a <=? 0xF4)
    && (b <=? (if a =? 0xF4 then 0x8F else 0xBF))
    && ((if a =? 0xF0 then 0x90 else if a =? 0xF4 then 0 else 0x80) <=? b)) as ->.
  { unfold is_byte in *. unfold_legal.
    destruct (Z.eqb_spec a 0xF4), (Z.eqb_spec a 0xF0), (Z.eqb_spec a 0xE0); guards; try lia; done. }
  rewrite !andb_true_iff, !Z.leb_le. unfold accepted_sequence, is_byte in *. split.
  - intros [[[[[[? ?] ?] ?] ?] Hab] Hab'].
    destruct (Z.lt_ge_cases b 0x80) as [Hb'|Hb'].
    { right. exists b, c, d. destruct (Z.eqb_spec a 0xF4); [subst|destruct (a =? 0xF0); lia].
      split_and!; [done|lia..]. }
    left. destruct (cp_join (a - 0xF0) (b - 0x80) (c - 0x80) (d - 0x80)) as (E1 & E2 & E3 & E4 & E5);
      try (destruct (a =? 0xF4); lia).
    set (cp := _ + _) in *. assert (0x10000 <= cp <= 0x10FFFF).
    { unfold cp. destruct (Z.eqb_spec a 0xF4), (Z.eqb_spec a 0xF0); lia. }
    exists cp. split; [lia|]. unfold utf8_encode. guards; try lia.
    rewrite E1, E2, E3, E4. cons_eq.
  - intros [(cp & Hcp & E)|(? & ? & ? & [= -> -> -> ->] & ?)]; [|simpl; lia].
    unfold utf8_encode in E. pose proof (cp_split cp ltac:(lia)) as Hsplit.
    revert E. guards; intros [= -> -> -> ->]; lia.
Qed.

Lemma accepted_length s : accepted_sequence s -> (1 <= length s)%nat /\ bytes s.
Proof.
  intros [(cp & Hcp & ->)|(a & c & d & -> & H)].
  - pose proof (cp_split cp ltac:(lia)) as Hsplit.
    pose proof (Z.div_mod cp 64 ltac:(lia)).
    unfold utf8_encode. guards; (split; [lia|]); repeat constructor; unfold is_byte; lia.
  - simpl. split; [lia|]. repeat constructor; unfold is_byte; lia.
Qed.

(** A sequence as long as its first byte says is legal when it is accepted. *)
Lemma legal_spec s :
  bytes s -> s <> [] ->
  Z.of_nat (length s) = trailingBytesForUTF8 !!! Z.to_nat (hd 0 s) + 1 ->
  isLegalUTF8 s (Z.of_nat (length s)) = true <-> accepted_sequence s.
Proof.
  intros Hs Hne Hlen. destruct s as [|a s]; [done|]. simpl hd in Hlen.
  apply Forall_cons in Hs as [Ha Hs]. rewrite trailing_spec in Hlen by done.
  destruct s as [|b [|c [|d [|e s]]]]; simpl length in *;
    repeat match goal with H : bytes (_ :: _) |- _ => apply Forall_cons in H as [? ?] end.
  - apply legal1; [done|]. revert Hlen. guards; lia.
  - apply legal2; [done|]. revert Hlen. guards; lia.
  - apply legal3; [done..|]. revert Hlen. guards; lia.
  - apply legal4; [done..|]. revert Hlen. guards; lia.
  - split.
    + unfold isLegalUTF8. rewrite (proj2 (Z.ltb_lt 4 _)) by lia. by rewrite orb_true_r.
    + intros [(cp & Hcp & E)|(? & ? & ? & E & _)]; [|done].
      exfalso. apply (f_equal length) in E. revert E. unfold utf8_encode. guards; lia.
Qed.

(** An accepted sequence is as long as its first byte says. *)
Lemma accepted_first s :
  accepted_sequence s ->
  Z.of_nat (length s) = trailingBytesForUTF8 !!! Z.to_nat (hd 0 s) + 1.
Proof.
  intros Hs. pose proof (accepted_length s Hs) as [Hl Hb].
  destruct s as [|a s]; [simpl in Hl; lia|]. apply Forall_cons in Hb as [Ha _].
  simpl hd. rewrite trailing_spec by done. unfold is_byte in Ha.
  destruct Hs as [(cp & Hcp & E)|(b & c & d & [= -> ->] & H)]; [|done].
  pose proof (cp_split cp ltac:(lia)) as Hsplit. pose proof (Z.div_mod cp 64 ltac:(lia)).
  revert E. unfold utf8_encode. guards; intros [= -> ->]; simpl; lia.
Qed.

(** ** Strings *)

Definition accepted_string (s : list Z) : Prop :=
  exists seqs, Forall accepted_sequence seqs /\ s = concat seqs.

Lemma accepted_string_nil : accepted_string [].
Proof. by exists []. Qed.

(** The first sequence of a string is determined by its first byte. *)
Lemma accepted_string_cons c s :
  accepted_string (c :: s) ->
  let k := Z.to_nat (trailingBytesForUTF8 !!! Z.to_nat c + 1) in
  (k <= length (c :: s))%nat /\ accepted_sequence (take k (c :: s))
  /\ accepted_string (drop k (c :: s)).
Proof.
  intros ([|q seqs] & Hf & E); [done|]. apply Forall_cons in Hf as [Hq Hf].
  pose proof (accepted_length q Hq) as [Hl _]. pose proof (accepted_first q Hq) as Hlen.
  destruct q as [|c' q]; [simpl in Hl; lia|]. simpl in E. injection E as -> ->. simpl hd in Hlen.
  replace (Z.to_nat _) with (length (c' :: q)) by lia. cbv zeta.
  change (c' :: q ++ concat seqs) with ((c' :: q) ++ concat seqs).
  rewrite take_app_length, drop_app_length, length_app.
  split_and!; [lia|done|by exists seqs].
Qed.

Lemma accepted_string_app q s :
  accepted_sequence q -> accepted_string s -> accepted_string (q ++ s).
Proof. intros Hq (seqs & Hf & ->). exists (q :: seqs). split; [by constructor|done]. Qed.

Lemma legal_prefix s k :
  (k <= length s)%nat -> isLegalUTF8 s (Z.of_nat k) = isLegalUTF8 (take k s) (Z.of_nat k).
Proof.
  intros Hk. unfold isLegalUTF8.
  destruct (Z.ltb_spec (Z.of_nat k) 1), (Z.ltb_spec 4 (Z.of_nat k)); simpl; try done.
  assert (Hat : forall i, (i < k)%nat -> s !!! i = take k s !!! i).
  { intros i Hi. by rewrite !list_lookup_total_alt, lookup_take_lt. }
  rewrite (Hat (Z.to_nat 0)) by lia.
  destruct (Z.eqb_spec (Z.of_nat k) 4), (Z.leb_spec 3 (Z.of_nat k)), (Z.leb_spec 2 (Z.of_nat k));
    try lia; simpl; by rewrite ?(Hat (Z.to_nat 1)), ?(Hat (Z.to_nat 2)), ?(Hat (Z.to_nat 3)) by lia.
Qed.

Lemma validate_loop_spec dot fuel err s :
  bytes s -> (length s <= fuel)%nat ->
  (accepted_string s /\ (validate_loop true dot fuel err s).1 = BSON_OK
   /\ (dot = false -> (validate_loop true dot fuel err s).2 = err))
  \/ (~ accepted_string s /\ (validate_loop true dot fuel err s).1 = BSON_ERROR
      /\ (dot = false -> (validate_loop true dot fuel err s).2 = Z.lor err BSON_NOT_UTF8)).
Proof.
  revert err s. induction fuel as [|fuel IH]; intros err s Hs Hlen.
  { destruct s; [|simpl in Hlen; lia]. left. split; [apply accepted_string_nil | by split]. }
  destruct s as [|c s]; [left; split; [apply accepted_string_nil | by split]|].
  assert (Hc : is_byte c) by (by apply Forall_cons in Hs as [? _]).
  simpl. set (err' := if dot && _ then _ else _).
  assert (Herr : dot = false -> err' = err) by (by intros ->).
  pose proof (accepted_string_cons c s) as Hcons. cbv zeta in Hcons.
  set (n := trailingBytesForUTF8 !!! Z.to_nat c + 1) in *.
  assert (1 <= n).
  { unfold n. rewrite trailing_spec by done. guards; lia. }
  destruct (Z.ltb_spec (Z.of_nat (S (length s))) n) as [Hn|Hn].
  { right. split; [intros (? & _)%Hcons; simpl in *; lia|]. split; [done|]. by intros ->%Herr. }
  set (k := Z.to_nat n) in *. replace n with (Z.of_nat k) by lia.
  assert (Hk : (1 <= k <= length (c :: s))%nat) by (simpl; lia).
  rewrite legal_prefix by lia.
  assert (Hlen' : length (take k (c :: s)) = k) by (rewrite length_take; lia).
  pose proof (legal_spec (take k (c :: s))) as Hlegal. rewrite Hlen' in Hlegal.
  assert (Hhd : hd 0 (take k (c :: s)) = c) by (destruct k; [lia|done]). rewrite Hhd in Hlegal.
  specialize (Hlegal ltac:(by apply Forall_take) ltac:(by destruct k; [lia|]) ltac:(fold n; lia)).
  destruct (isLegalUTF8 (take k (c :: s)) (Z.of_nat k)); simpl.
  - assert (Hseq : accepted_sequence (take k (c :: s))) by by apply Hlegal.
    destruct (IH err' (drop k (c :: s))) as [(Ha & H1 & H2)|(Ha & H1 & H2)].
    + by apply Forall_drop.
    + rewrite length_drop. simpl in *; lia.
    + left. split; [rewrite <- (take_drop k (c :: s)); by apply accepted_string_app|].
      split; [done|]. intros Hd. by rewrite H2, Herr.
    + right. split; [by intros (_ & _ & ?)%Hcons|]. split; [done|].
      intros Hd. by rewrite H2, Herr.
  - right. split; [intros (_ & Hq & _)%Hcons; by apply Hlegal in Hq|]. split; [done|].
    by intros ->%Herr.
Qed.

(** Bit 1 of [b->err], [BSON_NOT_UTF8], is what makes [bson_finish] fail. *)
Definition not_utf8 (err : Z) : bool := Z.testbit err 1.

Lemma validate_loop_flag utf8 dot fuel err s :
  not_utf8 (validate_loop utf8 dot fuel err s).2 =
    if (validate_loop utf8 dot fuel err s).1 =? BSON_OK then not_utf8 err else true.
Proof.
  revert err s. induction fuel as [|fuel IH]; intros err s; [done|]. destruct s as [|c s]; [done|].
  simpl. set (err' := if dot && _ then _ else _).
  assert (Herr : not_utf8 err' = not_utf8 err).
  { unfold err', not_utf8. destruct (dot && _); [|done]. by rewrite Z.lor_spec, orb_false_r. }
  assert (Hbad : not_utf8 (Z.lor err' BSON_NOT_UTF8) = true).
  { unfold not_utf8. by rewrite Z.lor_spec, orb_true_r. }
  destruct utf8; [|by rewrite IH, Herr].
  destruct (_ <? _); [done|]. destruct (negb _); [done|]. by rewrite IH, Herr.
Qed.

(** A string refused leaves its mark, one accepted does not. *)
Lemma validate_string_flag err s dot dollar :
  bytes s ->
  let r := bson_validate_string err s true dot dollar in
  (accepted_string s /\ r.1 = BSON_OK /\ not_utf8 r.2 = not_utf8 err)
  \/ (~ accepted_string s /\ r.1 = BSON_ERROR /\ not_utf8 r.2 = true).
Proof.
  intros Hs. unfold bson_validate_string. simpl.
  set (err' := if _ && negb _ then _ else _).
  assert (Herr : not_utf8 err' = not_utf8 err).
  { unfold err', not_utf8. destruct (_ && negb _); [|done]. by rewrite Z.lor_spec, orb_false_r. }
  rewrite validate_loop_flag.
  destruct (validate_loop_spec dot (length s) err' s Hs) as [(? & -> & _)|(? & -> & _)]; [lia|..];
    [left | right]; split_and!; done.
Qed.

(** ** Properties *)

(** The UTF-8 check of strings and of field names accepts exactly the
    concatenations of encodings of numbers up to 0x10FFFF, among them the
    surrogates, which are not UTF-8, and of 0xF4 followed by an ASCII
    character and two continuation bytes, which is no encoding at all; a
    string refused is marked so, one accepted leaves the error bits alone. *)
Theorem bson_check_string_exact err s :
  bytes s ->
  (accepted_string s /\ bson_check_string err s = (BSON_OK, err)
   /\ (bson_check_field_name err s).1 = BSON_OK)
  \/ (~ accepted_string s /\ bson_check_string err s = (BSON_ERROR, Z.lor err BSON_NOT_UTF8)
      /\ (bson_check_field_name err s).1 = BSON_ERROR).
Proof.
  intros Hs. unfold bson_check_string, bson_check_field_name, bson_validate_string. simpl.
  set (err' := if _ && negb _ then _ else _).
  destruct (validate_loop_spec false (length s) err s Hs) as [(Ha & H1 & H2)|(Ha & H1 & H2)]; [lia|..];
    destruct (validate_loop_spec true (length s) err' s Hs) as [(Hb & H3 & _)|(Hb & H3 & _)];
    try lia; try done; [left|right]; rewrite H3;
    destruct (validate_loop true false _ err s); simpl in *; by rewrite H1, H2 by done.
Qed.

Lemma bson_check_string_exact_witness :
  bson_check_string 0 [0xF4; "'"%chr; 0x80; 0x80] = (BSON_OK, 0)
  /\ bson_check_string 0 [0xED; 0xA0; 0x80] = (BSON_OK, 0)
  /\ bson_check_string 0 [0xC0; 0x80] = (BSON_ERROR, BSON_NOT_UTF8).
Proof.
  assert (H : forall s, bytes s -> (bson_check_string 0 s).1 = BSON_OK ->
            bson_check_string 0 s = (BSON_OK, 0)).
  { intros s Hs H. destruct (bson_check_string_exact 0 s Hs) as [(_ & E & _)|(_ & E & _)]; [done|].
    by rewrite E in H. }
  split_and!; [apply H; [by apply (bool_decide_unpack _); vm_compute | reflexivity]..|reflexivity].
Defined.
