(* ===== verification/NgxCodec.v ===== *)
(** * Encodings of strings (src/core/ngx_string.c)

    Percent-encoding, base64, UTF-8 decoding, HTML and JSON escaping, and the
    substring search.  A string with its size is the list of its bytes; a
    pointer into a block of memory is the list of the bytes from there to the
    end of the block, and reading past it is [None].  What is written through a
    destination pointer is the resulting list. *)

From S2P Require Import Prelude BsonUtf8.

(** ** Case *)

(** [src/core/ngx_string.h:47-47] ngx_tolower *)
Definition ngx_tolower (c : Z) : Z := if ("A"%chr <=? c) && (c <=? "Z"%chr) then Z.lor c 0x20 else c.

(** [src/core/ngx_string.c:20-29] ngx_strlow *)
Definition ngx_strlow (src : list Z) : list Z := map ngx_tolower src.

(** ** Percent-encoding *)

(** [src/core/ngx_string.h:195-201] NGX_ESCAPE_URI *)
Inductive escape_type :=
  | NGX_ESCAPE_URI | NGX_ESCAPE_ARGS | NGX_ESCAPE_URI_COMPONENT | NGX_ESCAPE_HTML
  | NGX_ESCAPE_REFRESH | NGX_ESCAPE_MEMCACHED | NGX_ESCAPE_MAIL_AUTH.

(** [src/core/ngx_string.h:203-204] NGX_UNESCAPE_URI *)
Definition NGX_UNESCAPE_URI : Z := 1.
Definition NGX_UNESCAPE_REDIRECT : Z := 2.

(** [src/core/ngx_string.c:1433-1557] ngx_escape_uri: the bit maps, by the
    words for the bytes from 0x20 on; the first word is the same for all. *)
Definition escape_map (t : escape_type) : list Z :=
  0xffffffff ::
  match t with
  | NGX_ESCAPE_URI => [0x80000029; 0; 0x80000000]
  | NGX_ESCAPE_ARGS => [0x88000869; 0; 0x80000000]
  | NGX_ESCAPE_URI_COMPONENT => [0xfc009fff; 0x78000001; 0xb8000001]
  | NGX_ESCAPE_HTML => [0x000000ad; 0; 0x80000000]
  | NGX_ESCAPE_REFRESH => [0x00000085; 0; 0x80000000]
  | NGX_ESCAPE_MEMCACHED | NGX_ESCAPE_MAIL_AUTH => [0x00000021; 0; 0]
  end ++
  match t with
  | NGX_ESCAPE_MEMCACHED | NGX_ESCAPE_MAIL_AUTH => replicate 4 0
  | _ => replicate 4 0xffffffff
  end.

Definition hex_upper : list Z := bs "0123456789ABCDEF".

Definition must_escape (t : escape_type) (c : Z) : bool :=
  negb (Z.land (escape_map t !!! Z.to_nat (Z.shiftr c 5)) (Z.shiftl 1 (Z.land c 0x1f)) =? 0).

(** [src/core/ngx_string.c:1559-1574] ngx_escape_uri: without a destination,
    the number of characters to be escaped. *)
Fixpoint ngx_escape_uri_count (src : list Z) (t : escape_type) : Z :=
  match src with
  | [] => 0
  | c :: src => (if must_escape t c then 1 else 0) + ngx_escape_uri_count src t
  end.

(** [src/core/ngx_string.c:1576-1590] ngx_escape_uri *)
Fixpoint ngx_escape_uri (src : list Z) (t : escape_type) : list Z :=
  match src with
  | [] => []
  | c :: src =>
      if must_escape t c
      then "%"%chr :: hex_upper !!! Z.to_nat (Z.shiftr c 4) :: hex_upper !!! Z.to_nat (Z.land c 0xf)
             :: ngx_escape_uri src t
      else c :: ngx_escape_uri src t
  end.

(** [src/core/ngx_string.c:1597-1601] ngx_unescape_uri: its states; [decoded]
    and the digit before ([s - 2]) belong to the last one. *)
Inductive unescape_state := sw_usual | sw_quoted | sw_quoted_second (decoded first : Z).

(** [src/core/ngx_string.c:1669-1706] ngx_unescape_uri: a decoded character of
    a redirect. *)
Definition unescape_redirect (ch first second : Z) : list Z :=
  if ("%"%chr <? ch) && (ch <? 0x7f) then [ch] else ["%"%chr; first; second].

(** [src/core/ngx_string.c:1593-1720] ngx_unescape_uri: what is written, and
    what is left of the source after a jump to [done]. *)
Fixpoint unescape_loop (type : Z) (st : unescape_state) (src : list Z) : list Z * list Z :=
  match src with
  | [] => ([], [])
  | ch :: src =>
      let put l r := (l ++ r.1, r.2) : list Z * list Z in
      match st with
      | sw_usual =>
          if (ch =? "?"%chr) && negb (Z.land type (Z.lor NGX_UNESCAPE_URI NGX_UNESCAPE_REDIRECT) =? 0)
          then ([ch], src)
          else if ch =? "%"%chr then unescape_loop type sw_quoted src
          else put [ch] (unescape_loop type sw_usual src)
      | sw_quoted =>
          let c := Z.lor ch 0x20 in
          if ("0"%chr <=? ch) && (ch <=? "9"%chr)
          then unescape_loop type (sw_quoted_second (ch - "0"%chr) ch) src
          else if ("a"%chr <=? c) && (c <=? "f"%chr)
          then unescape_loop type (sw_quoted_second (c - "a"%chr + 10) ch) src
          else put [ch] (unescape_loop type sw_usual src)
      | sw_quoted_second decoded first =>
          let c := Z.lor ch 0x20 in
          if ("0"%chr <=? ch) && (ch <=? "9"%chr)
          then
            let v := u8 (Z.shiftl decoded 4 + ch - "0"%chr) in
            if negb (Z.land type NGX_UNESCAPE_REDIRECT =? 0)
            then put (unescape_redirect v first ch) (unescape_loop type sw_usual src)
            else put [v] (unescape_loop type sw_usual src)
          else if ("a"%chr <=? c) && (c <=? "f"%chr)
          then
            let v := u8 (Z.shiftl decoded 4 + c - "a"%chr + 10) in
            if negb (Z.land type NGX_UNESCAPE_URI =? 0)
            then if v =? "?"%chr then ([v], src) else put [v] (unescape_loop type sw_usual src)
            else if negb (Z.land type NGX_UNESCAPE_REDIRECT =? 0)
            then if v =? "?"%chr then ([v], src)
                 else put (unescape_redirect v first ch) (unescape_loop type sw_usual src)
            else put [v] (unescape_loop type sw_usual src)
          else unescape_loop type sw_usual src
      end
  end.
(** [src/core/ngx_string.c:1593-1720] ngx_unescape_uri *)
Definition ngx_unescape_uri (src : list Z) (type : Z) : list Z * list Z :=
  unescape_loop type sw_usual src.

Example unescape_example :
  ngx_unescape_uri (bs "a%2Fb%3f?x%20y") NGX_UNESCAPE_URI = (bs "a/b?", bs "?x%20y")
  /\ ngx_unescape_uri (bs "%zz%4") 0 = (bs "zz", []).
Proof. by vm_compute. Qed.

(** ** Base64 *)

Definition basis64 : list Z :=
  bs "ABCDEFGHIJKLMNOPQRSTUVWXYZabcdefghijklmnopqrstuvwxyz0123456789+/".
Definition basis64url : list Z :=
  bs "ABCDEFGHIJKLMNOPQRSTUVWXYZabcdefghijklmnopqrstuvwxyz0123456789-_".

(** [src/core/ngx_string.c:1141-1182] ngx_encode_base64_internal *)
Fixpoint ngx_encode_base64_internal (src : list Z) (basis : list Z) (padding : bool) : list Z :=
  let at_ i := basis !!! Z.to_nat i in
  match src with
  | s0 :: s1 :: s2 :: src =>
      at_ (Z.land (Z.shiftr s0 2) 0x3f)
        :: at_ (Z.lor (Z.shiftl (Z.land s0 3) 4) (Z.shiftr s1 4))
        :: at_ (Z.lor (Z.shiftl (Z.land s1 0x0f) 2) (Z.shiftr s2 6))
        :: at_ (Z.land s2 0x3f)
        :: ngx_encode_base64_internal src basis padding
  | [s0] =>
      [at_ (Z.land (Z.shiftr s0 2) 0x3f); at_ (Z.shiftl (Z.land s0 3) 4)]
        ++ (if padding then ["="%chr; "="%chr] else [])
  | [s0; s1] =>
      [at_ (Z.land (Z.shiftr s0 2) 0x3f);
       at_ (Z.lor (Z.shiftl (Z.land s0 3) 4) (Z.shiftr s1 4));
       at_ (Z.shiftl (Z.land s1 0x0f) 2)]
        ++ (if padding then ["="%chr] else [])
  | [] => []
  end.

(** [src/core/ngx_string.c:1121-1128] ngx_encode_base64 *)
Definition ngx_encode_base64 (src : list Z) : list Z := ngx_encode_base64_internal src basis64 true.
(** [src/core/ngx_string.c:1131-1138] ngx_encode_base64url *)
Definition ngx_encode_base64url (src : list Z) : list Z :=
  ngx_encode_base64_internal src basis64url false.

(** [src/core/ngx_string.c:1188-1206] ngx_decode_base64: the table. *)
Definition unbasis64 : list Z :=
  replicate 32 77 ++
  [77; 77; 77; 77; 77; 77; 77; 77; 77; 77; 77; 62; 77; 77; 77; 63;
   52; 53; 54; 55; 56; 57; 58; 59; 60; 61; 77; 77; 77; 77; 77; 77;
   77;  0;  1;  2;  3;  4;  5;  6;  7;  8;  9; 10; 11; 12; 13; 14;
   15; 16; 17; 18; 19; 20; 21; 22; 23; 24; 25; 77; 77; 77; 77; 77;
   77; 26; 27; 28; 29; 30; 31; 32; 33; 34; 35; 36; 37; 38; 39; 40;
   41; 42; 43; 44; 45; 46; 47; 48; 49; 50; 51; 77; 77; 77; 77; 77]
  ++ replicate 128 77.
(** [src/core/ngx_string.c:1215-1233] ngx_decode_base64url: the table. *)
Definition unbasis64url : list Z :=
  replicate 32 77 ++
  [77; 77; 77; 77; 77; 77; 77; 77; 77; 77; 77; 77; 77; 62; 77; 77;
   52; 53; 54; 55; 56; 57; 58; 59; 60; 61; 77; 77; 77; 77; 77; 77;
   77;  0;  1;  2;  3;  4;  5;  6;  7;  8;  9; 10; 11; 12; 13; 14;
   15; 16; 17; 18; 19; 20; 21; 22; 23; 24; 25; 77; 77; 77; 77; 63;
   77; 26; 27; 28; 29; 30; 31; 32; 33; 34; 35; 36; 37; 38; 39; 40;
   41; 42; 43; 44; 45; 46; 47; 48; 49; 50; 51; 77; 77; 77; 77; 77]
  ++ replicate 128 77.

(** [src/core/ngx_string.c:1245-1253] ngx_decode_base64_internal: the bytes
    before the padding, or an error. *)
Fixpoint base64_body (src : list Z) (basis : list Z) : option (list Z) :=
  match src with
  | [] => Some []
  | c :: src =>
      if c =? "="%chr then Some []
      else if basis !!! Z.to_nat c =? 77 then None
      else l ← base64_body src basis; Some (c :: l)
  end.

(** [src/core/ngx_string.c:1259-1279] ngx_decode_base64_internal: the output
    for [len] bytes. *)
Fixpoint base64_bytes (s : list Z) (basis : list Z) : list Z :=
  let v c := basis !!! Z.to_nat c in
  let b0 a b := u8 (Z.lor (Z.shiftl (v a) 2) (Z.shiftr (v b) 4)) in
  let b1 a b := u8 (Z.lor (Z.shiftl (v a) 4) (Z.shiftr (v b) 2)) in
  match s with
  | s0 :: s1 :: s2 :: s3 :: s =>
      b0 s0 s1 :: b1 s1 s2 :: u8 (Z.lor (Z.shiftl (v s2) 6) (v s3)) :: base64_bytes s basis
  | [s0; s1; s2] => [b0 s0 s1; b1 s1 s2]
  | [s0; s1] => [b0 s0 s1]
  | _ => []
  end.

(** [src/core/ngx_string.c:1239-1282] ngx_decode_base64_internal: [None] is
    [NGX_ERROR]. *)
Definition ngx_decode_base64_internal (src basis : list Z) : option (list Z) :=
  s ← base64_body src basis;
  if (List.length s mod 4 =? 1)%nat then None else Some (base64_bytes s basis).

(** [src/core/ngx_string.c:1185-1209] ngx_decode_base64 *)
Definition ngx_decode_base64 (src : list Z) : option (list Z) := ngx_decode_base64_internal src unbasis64.
(** [src/core/ngx_string.c:1212-1236] ngx_decode_base64url *)
Definition ngx_decode_base64url (src : list Z) : option (list Z) :=
  ngx_decode_base64_internal src unbasis64url.

(** [src/core/ngx_string.h:182-182] ngx_base64_encoded_length *)
Definition ngx_base64_encoded_length (len : Z) : Z := ((len + 2) / 3) * 4.
(** [src/core/ngx_string.h:183-183] ngx_base64_decoded_length *)
Definition ngx_base64_decoded_length (len : Z) : Z := ((len + 3) / 4) * 3.

(** ** UTF-8 *)

(** [src/core/ngx_string.c:1330-1347] ngx_utf8_decode: the continuation bytes
    at [p]. *)
Fixpoint utf8_rest (len : nat) (u valid : Z) (p : list Z) : option (Z * list Z) :=
  match len with
  | O => Some (if valid <? u then u else 0xffffffff, p)
  | S len =>
      match p with
      | [] => None
      | i :: p =>
          if i <? 0x80 then Some (0xffffffff, p)
          else utf8_rest len (u32 (Z.lor (Z.shiftl u 6) (Z.land i 0x3f))) valid p
      end
  end.

(** [src/core/ngx_string.c:1294-1348] ngx_utf8_decode: the value, and where [p]
    points afterwards. *)
Definition ngx_utf8_decode (p : list Z) (n : Z) : option (Z * list Z) :=
  match p with
  | [] => None
  | u :: p' =>
      let sequence u valid len :=
        if u64 (n - 1) <? Z.of_nat len then Some (0xfffffffe, p) else utf8_rest len u valid p' in
      if 0xf0 <=? u then sequence (Z.land u 0x07) 0xffff 3%nat
      else if 0xe0 <=? u then sequence (Z.land u 0x0f) 0x7ff 2%nat
      else if 0xc2 <=? u then sequence (Z.land u 0x1f) 0x7f 1%nat
      else Some (0xffffffff, p')
  end.

(** [src/core/ngx_string.c:1357-1374] ngx_utf8_length: the loop; [beyond] is
    how many bytes of the block lie after [last]. *)
Fixpoint utf8_length_loop (fuel : nat) (p : list Z) (beyond : nat) (n len : Z) : option Z :=
  match fuel with
  | O => None
  | S fuel =>
      if (List.length p <=? beyond)%nat then Some len
      else
        match p with
        | [] => None
        | c :: p' =>
            if c <? 0x80 then utf8_length_loop fuel p' beyond n (len + 1)
            else
              '(u, p) ← ngx_utf8_decode p n;
              if 0x10ffff <? u then Some n else utf8_length_loop fuel p beyond n (len + 1)
        end
  end.

(** [src/core/ngx_string.c:1351-1375] ngx_utf8_length: of the first [n] bytes
    of the block. *)
Definition ngx_utf8_length (p : list Z) (n : nat) : option Z :=
  utf8_length_loop (S (List.length p)) p (List.length p - n) (Z.of_nat n) 0.

(** ** HTML and JSON *)

(** [src/core/ngx_string.c:1764-1788] ngx_escape_html: one character. *)
Definition html_char (ch : Z) : list Z :=
  if ch =? "<"%chr then bs "&lt;"
  else if ch =? ">"%chr then bs "&gt;"
  else if ch =? "&"%chr then bs "&amp;"
  else if ch =? 34 then bs "&quot;"
  else [ch].
(** [src/core/ngx_string.c:1723-1792] ngx_escape_html *)
Definition ngx_escape_html (src : list Z) : list Z := concat (map html_char src).
(** [src/core/ngx_string.c:1729-1759] ngx_escape_html: without a
    destination. *)
Fixpoint ngx_escape_html_count (src : list Z) : Z :=
  match src with
  | [] => 0
  | c :: src =>
      (if c =? "<"%chr then 3 else if c =? ">"%chr then 3 else if c =? "&"%chr then 4
       else if c =? 34 then 5 else 0) + ngx_escape_html_count src
  end.

(** [src/core/ngx_string.c:1823-1839] ngx_escape_json: one character. *)
Definition json_char (ch : Z) : list Z :=
  if 0x1f <? ch then
    (if (ch =? 92) || (ch =? 34) then [92] else []) ++ [ch]
  else
    let lo := Z.land ch 0xf in
    [92; "u"%chr; "0"%chr; "0"%chr; "0"%chr + Z.shiftr ch 4;
     if lo <? 10 then "0"%chr + lo else "A"%chr + lo - 10].
(** [src/core/ngx_string.c:1795-1844] ngx_escape_json *)
Definition ngx_escape_json (src : list Z) : list Z := concat (map json_char src).
(** [src/core/ngx_string.c:1801-1818] ngx_escape_json: without a
    destination. *)
Fixpoint ngx_escape_json_count (src : list Z) : Z :=
  match src with
  | [] => 0
  | c :: src =>
      (if (c =? 92) || (c =? 34) then 1 else if c <=? 0x1f then 5 else 0)
        + ngx_escape_json_count src
  end.

(** ** Searching *)

(** [src/core/ngx_string.c:596-622] ngx_strncasecmp: whether the first [n]
    characters are equal; a 0 follows a list. *)
Fixpoint ngx_strncasecmp_eq (s1 s2 : list Z) (n : nat) : bool :=
  match n with
  | O => true
  | S n =>
      let fold c := if ("A"%chr <=? c) && (c <=? "Z"%chr) then Z.lor c 32 else c in
      let at_ s := match s with c :: _ => c | [] => 0 end in
      let c1 := fold (at_ s1) in
      let c2 := fold (at_ s2) in
      if c1 =? c2 then if c1 =? 0 then true else ngx_strncasecmp_eq (tail s1) (tail s2) n else false
  end.

(** [src/core/ngx_string.h:66-78] ngx_strlchr: the offset of the character. *)
Fixpoint ngx_strlchr (c : Z) (p : list Z) : option nat :=
  match p with
  | [] => None
  | x :: p => if x =? c then Some O else option_map S (ngx_strlchr c p)
  end.

(** [src/core/ngx_string.c:625-656] ngx_strnstr: [s1] are the [len] bytes that
    may be read; the bytes from the match on, or [None] for [NULL]. *)
Fixpoint ngx_strnstr (s1 s2 : list Z) : option (list Z) :=
  match s1, s2 with
  | c1 :: s1', c2 :: s2' =>
      if c1 =? 0 then None
      else if negb (c1 =? c2) then ngx_strnstr s1' s2
      else if (List.length s1' <? List.length s2')%nat then None
      else if bool_decide (take (List.length s2') s1' = s2') then Some s1
      else ngx_strnstr s1' s2
  | _, _ => None
  end.

(** ** Bits *)

Lemma lor_shiftl a b n : 0 <= n -> 0 <= b < 2 ^ n -> Z.lor (Z.shiftl a n) b = a * 2 ^ n + b.
Proof.
  intros Hn Hb. rewrite <- Z.shiftl_mul_pow2 by done.
  assert (Z.land (Z.shiftl a n) b = 0) as E.
  { apply Z.bits_inj'. intros i Hi. rewrite Z.land_spec, Z.bits_0.
    destruct (Z.lt_ge_cases i n); [by rewrite Z.shiftl_spec_low|].
    rewrite <- (Z.mod_small b (2 ^ n)) by done.
    by rewrite Z.mod_pow2_bits_high, andb_false_r by lia. }
  by rewrite Z.add_nocarry_lxor, Z.lxor_lor by done.
Qed.

Lemma land_ones a n : 0 <= n -> Z.land a (2 ^ n - 1) = a mod 2 ^ n.
Proof. intros. rewrite <- Z.land_ones by done. by rewrite Z.ones_equiv, Z.sub_1_r. Qed.

(** [bits] turns masks and shifts into divisions. *)
Ltac bits :=
  repeat match goal with
  | |- context [Z.land ?a 3] => rewrite (land_ones a 2 ltac:(lia) : Z.land a 3 = a mod 4)
  | |- context [Z.land ?a 7] => rewrite (land_ones a 3 ltac:(lia) : Z.land a 7 = a mod 8)
  | |- context [Z.land ?a 15] => rewrite (land_ones a 4 ltac:(lia) : Z.land a 15 = a mod 16)
  | |- context [Z.land ?a 31] => rewrite (land_ones a 5 ltac:(lia) : Z.land a 31 = a mod 32)
  | |- context [Z.land ?a 63] => rewrite (land_ones a 6 ltac:(lia) : Z.land a 63 = a mod 64)
  end;
  rewrite ?Z.shiftr_div_pow2 by lia.

(** ** Percent-encoding *)

(** The value of a hexadecimal digit, either case. *)
Definition hexval (h : Z) : option Z :=
  if ("0"%chr <=? h) && (h <=? "9"%chr) then Some (h - "0"%chr)
  else
    let c := Z.lor h 0x20 in
    if ("a"%chr <=? c) && (c <=? "f"%chr) then Some (c - "a"%chr + 10) else None.

Definition put (l : list Z) (r : list Z * list Z) : list Z * list Z := (l ++ r.1, r.2).

Lemma unescape_quoted type h1 h2 a b rest :
  hexval h1 = Some a -> hexval h2 = Some b ->
  type = 0 \/ (type = NGX_UNESCAPE_URI /\ u8 (Z.shiftl a 4 + b) <> "?"%chr) ->
  unescape_loop type sw_usual ("%"%chr :: h1 :: h2 :: rest)
    = put [u8 (Z.shiftl a 4 + b)] (unescape_loop type sw_usual rest).
Proof.
  intros H1 H2 Ht. unfold hexval in H1, H2.
  assert (Z.land type NGX_UNESCAPE_REDIRECT = 0) as Hr by (by destruct Ht as [-> |[-> _]]).
  cbn [unescape_loop]. change ("%"%chr =? "?"%chr) with false. change ("%"%chr =? "%"%chr) with true.
  cbn [andb]. rewrite Hr. change (0 =? 0) with true. cbn [negb].
  destruct (("0"%chr <=? h1) && (h1 <=? "9"%chr)); [|destruct (_ && _); [|done]];
    injection H1 as <-;
    (destruct (("0"%chr <=? h2) && (h2 <=? "9"%chr)); [|destruct (_ && _); [|done]]);
    injection H2 as <-; rewrite ?Z.add_sub_assoc, ?Z.add_assoc, ?Z.add_sub_assoc in *; try done;
    (destruct Ht as [-> |[-> Hq]]; [done|];
     change (negb (Z.land NGX_UNESCAPE_URI NGX_UNESCAPE_URI =? 0)) with true; cbv iota;
     by rewrite (proj2 (Z.eqb_neq _ _) Hq)).
Qed.

Lemma hex_upper_val c : is_byte c ->
  hexval (hex_upper !!! Z.to_nat (Z.shiftr c 4)) = Some (Z.shiftr c 4) /\
  hexval (hex_upper !!! Z.to_nat (Z.land c 0xf)) = Some (Z.land c 0xf) /\
  u8 (Z.shiftl (Z.shiftr c 4) 4 + Z.land c 0xf) = c.
Proof. intros Hc. by_byte c. Qed.

(** All types escape the percent sign but [NGX_ESCAPE_REFRESH], whose comment
    lists it. *)
Lemma must_escape_percent t : t <> NGX_ESCAPE_REFRESH -> must_escape t "%"%chr = true.
Proof. by destruct t. Qed.

Lemma unescape_escaped t type s :
  t <> NGX_ESCAPE_REFRESH -> bytes s -> type = 0 \/ (type = NGX_UNESCAPE_URI /\ "?"%chr ∉ s) ->
  ngx_unescape_uri (ngx_escape_uri s t) type = (s, []).
Proof.
  unfold ngx_unescape_uri. intros Hr Hs Ht. induction Hs as [|c s Hc _ IH]; [done|].
  assert (type = 0 \/ (type = NGX_UNESCAPE_URI /\ c <> "?"%chr)) as Hc'.
  { destruct Ht as [? |[? Hn]]; [by left|right]. split; [done|]. intros ->. apply Hn. by left. }
  assert (type = 0 \/ (type = NGX_UNESCAPE_URI /\ "?"%chr ∉ s)) as Ht'.
  { destruct Ht as [? |[? Hn]]; [by left|right]. split; [done|]. intros Hin. apply Hn. by right. }
  specialize (IH Ht'). cbn [ngx_escape_uri].
  destruct (must_escape t c) eqn:E.
  - destruct (hex_upper_val c Hc) as (H1 & H2 & H3).
    rewrite (unescape_quoted type _ _ _ _ _ H1 H2) by (by rewrite H3). by rewrite IH, H3.
  - cbn [unescape_loop].
    assert (c <> "%"%chr) by (intros ->; by rewrite must_escape_percent in E).
    rewrite (proj2 (Z.eqb_neq c "%"%chr)) by done.
    assert ((c =? "?"%chr) && negb (Z.land type (Z.lor NGX_UNESCAPE_URI NGX_UNESCAPE_REDIRECT) =? 0)
            = false) as ->.
    { destruct Hc' as [-> |[_ Hq]]; [by rewrite andb_false_r|].
      by rewrite (proj2 (Z.eqb_neq _ _) Hq). }
    by rewrite IH.
Qed.

(** The first pass counts what the second adds. *)
Lemma escape_uri_length t s :
  Z.of_nat (length (ngx_escape_uri s t)) = Z.of_nat (length s) + 2 * ngx_escape_uri_count s t.
Proof.
  induction s as [|c s IH]; [done|]. cbn [ngx_escape_uri ngx_escape_uri_count].
  destruct (must_escape t c); cbn [length]; lia.
Qed.
Lemma escape_html_length s :
  Z.of_nat (length (ngx_escape_html s)) = Z.of_nat (length s) + ngx_escape_html_count s.
Proof.
  induction s as [|c s IH]; [done|]. unfold ngx_escape_html in *. cbn [map concat ngx_escape_html_count].
  rewrite length_app, Nat2Z.inj_add, IH, length_cons. unfold html_char.
  destruct (c =? "<"%chr), (c =? ">"%chr), (c =? "&"%chr), (c =? 34); simpl length; lia.
Qed.
Lemma escape_json_length s :
  Z.of_nat (length (ngx_escape_json s)) = Z.of_nat (length s) + ngx_escape_json_count s.
Proof.
  induction s as [|c s IH]; [done|]. unfold ngx_escape_json in *. cbn [map concat ngx_escape_json_count].
  rewrite length_app, Nat2Z.inj_add, IH, length_cons. unfold json_char.
  destruct (Z.ltb_spec 0x1f c), (Z.eqb_spec c 92), (Z.eqb_spec c 34), (Z.leb_spec c 0x1f);
    cbn [orb app length]; lia.
Qed.

(** What an escaped character of HTML or JSON may be. *)
Lemma html_char_safe c : is_byte c -> Forall (fun x => x <> "<"%chr /\ x <> ">"%chr /\ x <> 34) (html_char c).
Proof. intros Hc. by_byte c. Qed.
Lemma json_char_safe c :
  is_byte c -> Forall (fun x => 0x1f < x) (json_char c)
    /\ (json_char c = [c] /\ c <> 34 /\ c <> 92 \/ json_char c = [92; c] /\ (c = 34 \/ c = 92)
        \/ take 2 (json_char c) = [92; "u"%chr]).
Proof. intros Hc. by_byte c. Qed.

(** ** Base64 *)

Definition inverse_basis (basis unbasis : list Z) : Prop :=
  forall i, 0 <= i < 64 -> let c := basis !!! Z.to_nat i in
    unbasis !!! Z.to_nat c = i /\ c <> "="%chr.
Lemma basis64_inverse : inverse_basis basis64 unbasis64.
Proof. intros i Hi. cbv zeta. by_range i 0 64. Qed.
Lemma basis64url_inverse : inverse_basis basis64url unbasis64url.
Proof. intros i Hi. cbv zeta. by_range i 0 64. Qed.

(** Induction by groups of three. *)
Lemma three_ind (P : list Z -> Prop) :
  P [] -> (forall a, P [a]) -> (forall a b, P [a; b]) ->
  (forall a b c s, P s -> P (a :: b :: c :: s)) -> forall s, P s.
Proof.
  intros H0 H1 H2 H3. fix IH 1. intros [|a [|b [|c s]]]; [done|apply H1|apply H2|].
  apply H3, IH.
Qed.

Section Base64.
Context (basis unbasis : list Z) (Hinv : inverse_basis basis unbasis).

Lemma at_unbasis i : 0 <= i < 64 -> unbasis !!! Z.to_nat (basis !!! Z.to_nat i) = i.
Proof using Hinv. intros Hi. by destruct (Hinv i Hi). Qed.

Lemma body_cons i l : 0 <= i < 64 ->
  base64_body (basis !!! Z.to_nat i :: l) unbasis = (r ← base64_body l unbasis; Some (basis !!! Z.to_nat i :: r)).
Proof using Hinv.
  intros Hi. destruct (Hinv i Hi) as [E Hne]. cbn [base64_body]. rewrite E.
  rewrite (proj2 (Z.eqb_neq _ _) Hne). by destruct (Z.eqb_spec i 77); [lia|].
Qed.

(** The sextets of three bytes, and back. *)
Lemma sextets a b c : is_byte a -> is_byte b -> is_byte c ->
  (Z.land (Z.shiftr a 2) 0x3f = a / 4
   /\ Z.lor (Z.shiftl (Z.land a 3) 4) (Z.shiftr b 4) = a mod 4 * 16 + b / 16
   /\ Z.lor (Z.shiftl (Z.land b 0x0f) 2) (Z.shiftr c 6) = b mod 16 * 4 + c / 64
   /\ Z.land c 0x3f = c mod 64 /\ Z.shiftl (Z.land a 3) 4 = a mod 4 * 16 + 0
   /\ Z.shiftl (Z.land b 0x0f) 2 = b mod 16 * 4 + 0).
Proof using.
  intros Ha Hb Hc. split_and!; [by_byte a| | |by_byte c|by_byte a|by_byte b];
    unfold is_byte in *; bits.
  - rewrite lor_shiftl; change (2 ^ 4) with 16; Z.div_mod_to_equations; lia.
  - rewrite lor_shiftl; change (2 ^ 6) with 64; change (2 ^ 2) with 4; Z.div_mod_to_equations; lia.
Qed.

Lemma sextet_range a b : is_byte a -> is_byte b ->
  0 <= a / 4 < 64 /\ 0 <= a mod 4 * 16 + b / 16 < 64 /\ 0 <= a mod 16 * 4 + b / 64 < 64
  /\ 0 <= a mod 64 < 64 /\ 0 <= a mod 4 * 16 + 0 < 64 /\ 0 <= a mod 16 * 4 + 0 < 64.
Proof using. unfold is_byte. intros. Z.div_mod_to_equations. lia. Qed.

Lemma octets a b c : is_byte a -> is_byte b -> 0 <= c < 4 ->
  u8 (Z.lor (Z.shiftl (a / 4) 2) (Z.shiftr (a mod 4 * 16 + b / 16) 4)) = a
  /\ u8 (Z.lor (Z.shiftl (a mod 4 * 16 + b / 16) 4) (Z.shiftr (b mod 16 * 4 + c) 2)) = b.
Proof using.
  unfold is_byte. intros Ha Hb Hc. rewrite !Z.shiftr_div_pow2 by lia.
  change (2 ^ 4) with 16. change (2 ^ 2) with 4. unfold u8. change (2 ^ 8) with 256.
  split; rewrite lor_shiftl by (Z.div_mod_to_equations; lia);
    [change (2 ^ 2) with 4|change (2 ^ 4) with 16]; Z.div_mod_to_equations; lia.
Qed.

Lemma octet3 b c : is_byte b -> is_byte c ->
  u8 (Z.lor (Z.shiftl (b mod 16 * 4 + c / 64) 6) (c mod 64)) = c.
Proof using.
  unfold is_byte. intros Hb Hc. unfold u8. change (2 ^ 8) with 256.
  rewrite lor_shiftl by (change (2 ^ 6) with 64; Z.div_mod_to_equations; lia).
  change (2 ^ 6) with 64. Z.div_mod_to_equations; lia.
Qed.
Abbreviation sym i := (basis !!! Z.to_nat i).

Lemma decode_groups s padding : bytes s ->
  exists l, base64_body (ngx_encode_base64_internal s basis padding) unbasis = Some l
    /\ base64_bytes l unbasis = s /\ (length l mod 4 <> 1)%nat.
Proof using Hinv.
  revert s. apply (three_ind (fun s => bytes s -> _)).
  - intros _. by exists [].
  - intros a [Ha _]%Forall_cons. destruct (sextets a 0 0 Ha ltac:(done) ltac:(done)) as (E0 & _ & _ & _ & E1 & _).
    pose proof (sextet_range a 0 Ha ltac:(done)) as (R0 & _ & _ & _ & R1 & _).
    exists [sym (a / 4); sym (a mod 4 * 16 + 0)].
    cbn [ngx_encode_base64_internal]. rewrite E0, E1.
    split_and!; [|cbn [base64_bytes]; rewrite !at_unbasis by lia|done].
    + cbn [app]. rewrite !body_cons by lia. by destruct padding.
    + pose proof (proj1 (octets a 0 0 Ha ltac:(done) ltac:(lia))) as E.
      change (0 / 16) with 0 in E. by rewrite E.
  - intros a b [Ha [Hb _]%Forall_cons]%Forall_cons.
    destruct (sextets a b 0 Ha Hb ltac:(done)) as (E0 & E1 & _ & _ & _ & E2).
    pose proof (sextet_range a b Ha Hb) as (R0 & R1 & _ & _ & _ & _).
    pose proof (sextet_range b 0 Hb ltac:(done)) as (_ & _ & _ & _ & _ & R2).
    exists [sym (a / 4); sym (a mod 4 * 16 + b / 16); sym (b mod 16 * 4 + 0)].
    cbn [ngx_encode_base64_internal]. rewrite E0, E1, E2.
    split_and!; [|cbn [base64_bytes]; rewrite !at_unbasis by lia|done].
    + cbn [app]. rewrite !body_cons by lia. by destruct padding.
    + destruct (octets a b 0 Ha Hb ltac:(lia)) as [-> ->]. done.
  - intros a b c s IH [Ha [Hb [Hc Hs]%Forall_cons]%Forall_cons]%Forall_cons.
    destruct (IH Hs) as (l & El & Hl & Hm).
    destruct (sextets a b c Ha Hb Hc) as (E0 & E1 & E2 & E3 & _ & _).
    pose proof (sextet_range a b Ha Hb) as (R0 & R1 & _ & _ & _ & _).
    pose proof (sextet_range b c Hb Hc) as (_ & _ & R2 & _ & _ & _).
    pose proof (sextet_range c 0 Hc ltac:(done)) as (_ & _ & _ & R3 & _ & _).
    exists (sym (a / 4) :: sym (a mod 4 * 16 + b / 16) :: sym (b mod 16 * 4 + c / 64) :: sym (c mod 64) :: l).
    cbn [ngx_encode_base64_internal]. rewrite E0, E1, E2, E3.
    split_and!.
    + rewrite !body_cons by lia. by rewrite El.
    + cbn [base64_bytes]. rewrite !at_unbasis by lia. rewrite Hl.
      assert (0 <= c / 64 < 4) by (unfold is_byte in Hc; Z.div_mod_to_equations; lia).
      destruct (octets a b (c / 64) Ha Hb ltac:(done)) as [-> ->].
      by rewrite (octet3 b c Hb Hc).
    + cbn [length]. replace (S (S (S (S (length l))))) with (length l + 1 * 4)%nat by lia.
      by rewrite Nat.Div0.mod_add.
Qed.

Lemma decode_encode s padding : bytes s ->
  ngx_decode_base64_internal (ngx_encode_base64_internal s basis padding) unbasis = Some s.
Proof using Hinv.
  intros Hs. destruct (decode_groups s padding Hs) as (l & E & H & Hm).
  unfold ngx_decode_base64_internal. rewrite E. cbn [mbind option_bind].
  rewrite (proj2 (Nat.eqb_neq _ _) Hm). by rewrite H.
Qed.

Lemma encoded_length s :
  Z.of_nat (length (ngx_encode_base64_internal s basis true)) = ngx_base64_encoded_length (Z.of_nat (length s)).
Proof using.
  unfold ngx_base64_encoded_length. revert s. apply (three_ind (fun s => _)); [done..|].
  intros a b c s IH. cbn [ngx_encode_base64_internal length]. Z.div_mod_to_equations. lia.
Qed.
End Base64.

Lemma body_length src basis l : base64_body src basis = Some l -> (length l <= length src)%nat.
Proof.
  revert l. induction src as [|c src IH]; intros l; cbn [base64_body]; [by intros [= <-]|].
  destruct (c =? "="%chr); [intros [= <-]; simpl; lia|]. destruct (_ =? 77); [done|].
  destruct (base64_body src basis) as [l'|] eqn:E; [|done]. intros [= <-].
  specialize (IH l' eq_refl). simpl. lia.
Qed.

Lemma decoded_length n (l basis : list Z) :
  (length l <= n)%nat ->
  Z.of_nat (length (base64_bytes l basis)) <= ngx_base64_decoded_length (Z.of_nat n).
Proof.
  unfold ngx_base64_decoded_length. revert l. induction n as [n IH] using lt_wf_ind. intros l Hl.
  destruct l as [|a [|b [|c [|d l]]]]; cbn [base64_bytes length] in *;
    try (Z.div_mod_to_equations; lia).
  specialize (IH (n - 4)%nat ltac:(lia) l ltac:(lia)). Z.div_mod_to_equations. lia.
Qed.

(** ** UTF-8 *)

Lemma utf8_rest_step len u valid x p :
  0 <= u < 2 ^ 20 -> 0 <= x < 64 ->
  utf8_rest (S len) u valid (0x80 + x :: p) = utf8_rest len (u * 64 + x) valid p.
Proof.
  intros Hu Hx. cbn [utf8_rest]. destruct (Z.ltb_spec (0x80 + x) 0x80); [lia|].
  change 0x3f with (2 ^ 6 - 1). rewrite land_ones by lia. change (2 ^ 6) with 64.
  replace ((0x80 + x) mod 64) with x by (Z.div_mod_to_equations; lia).
  rewrite lor_shiftl by lia. change (2 ^ 6) with 64. by rewrite u32_small by lia.
Qed.

Lemma land_7 u : Z.land u 0x07 = u mod 8.
Proof. exact (land_ones u 3 ltac:(lia)). Qed.
Lemma land_15 u : Z.land u 0x0f = u mod 16.
Proof. exact (land_ones u 4 ltac:(lia)). Qed.
Lemma land_31 u : Z.land u 0x1f = u mod 32.
Proof. exact (land_ones u 5 ltac:(lia)). Qed.

Lemma decode_utf8 cp rest n :
  0x80 <= cp <= 0x10FFFF -> Z.of_nat (length (utf8_encode cp)) <= n < 2 ^ 64 ->
  ngx_utf8_decode (utf8_encode cp ++ rest) n = Some (cp, rest).
Proof.
  intros Hcp. unfold utf8_encode. destruct (Z.ltb_spec cp 0x80); [lia|].
  assert (forall u valid, valid < u -> Some (if valid <? u then u else 0xffffffff, rest) = Some (u, rest)) as Hv.
  { intros u valid Hu. by destruct (Z.ltb_spec valid u); [|lia]. }
  destruct (Z.ltb_spec cp 0x800); [|destruct (Z.ltb_spec cp 0x10000)];
    cbn [length app]; intros Hn; unfold ngx_utf8_decode; cbv zeta; rewrite u64_small by lia.
  - destruct (Z.leb_spec 0xf0 (0xC0 + cp / 64)), (Z.leb_spec 0xe0 (0xC0 + cp / 64)),
      (Z.leb_spec 0xc2 (0xC0 + cp / 64)), (Z.ltb_spec (n - 1) (Z.of_nat 1));
      try (Z.div_mod_to_equations; lia).
    rewrite land_31. replace ((0xC0 + cp / 64) mod 32) with (cp / 64) by (Z.div_mod_to_equations; lia).
    rewrite utf8_rest_step by (Z.div_mod_to_equations; lia). cbn [utf8_rest].
    replace (cp / 64 * 64 + cp mod 64) with cp by (Z.div_mod_to_equations; lia). apply Hv. lia.
  - destruct (Z.leb_spec 0xf0 (0xE0 + cp / 4096)), (Z.leb_spec 0xe0 (0xE0 + cp / 4096)),
      (Z.ltb_spec (n - 1) (Z.of_nat 2)); try (Z.div_mod_to_equations; lia).
    rewrite land_15. replace ((0xE0 + cp / 4096) mod 16) with (cp / 4096) by (Z.div_mod_to_equations; lia).
    rewrite !utf8_rest_step by (Z.div_mod_to_equations; lia). cbn [utf8_rest].
    replace ((cp / 4096 * 64 + cp / 64 mod 64) * 64 + cp mod 64) with cp by (Z.div_mod_to_equations; lia).
    apply Hv. lia.
  - destruct (Z.leb_spec 0xf0 (0xF0 + cp / 262144)), (Z.ltb_spec (n - 1) (Z.of_nat 3));
      try (Z.div_mod_to_equations; lia).
    rewrite land_7. replace ((0xF0 + cp / 262144) mod 8) with (cp / 262144) by (Z.div_mod_to_equations; lia).
    rewrite !utf8_rest_step by (Z.div_mod_to_equations; lia). cbn [utf8_rest].
    replace (((cp / 262144 * 64 + cp / 4096 mod 64) * 64 + cp / 64 mod 64) * 64 + cp mod 64)
      with cp by (Z.div_mod_to_equations; lia).
    apply Hv. lia.
Qed.

Definition utf8 (cps : list Z) : list Z := concat (map utf8_encode cps).

Lemma utf8_encode_length cp : (1 <= length (utf8_encode cp) <= 4)%nat.
Proof.
  unfold utf8_encode. destruct (cp <? 0x80), (cp <? 0x800), (cp <? 0x10000); simpl; lia.
Qed.

Lemma length_loop_utf8 cps : forall fuel tail beyond n len,
  Forall (fun cp => 0 <= cp <= 0x10FFFF) cps -> (beyond <= length tail)%nat ->
  (length (utf8 cps ++ tail) < fuel)%nat -> Z.of_nat (length (utf8 cps)) <= n < 2 ^ 64 ->
  exists fuel', (length tail < fuel')%nat /\
    utf8_length_loop fuel (utf8 cps ++ tail) beyond n len
      = utf8_length_loop fuel' tail beyond n (len + Z.of_nat (length cps)).
Proof.
  induction cps as [|cp cps IH]; intros [|fuel] tail beyond n len Hc Hb Hf Hn; try (simpl in Hf; lia).
  { exists (S fuel). split; [done|]. cbn [utf8 map concat app length]. f_equal. lia. }
  apply Forall_cons in Hc as [Hcp Hc]. unfold utf8 in *. cbn [map concat] in *.
  rewrite <- app_assoc in Hf. rewrite length_app in Hf, Hn. pose proof (utf8_encode_length cp) as Hl.
  cbn [utf8_length_loop]. rewrite (proj2 (Nat.leb_gt _ _)) by (rewrite !length_app; lia).
  destruct (IH fuel tail beyond n (len + 1) Hc Hb ltac:(lia) ltac:(lia)) as (fuel' & Hf' & IH').
  exists fuel'. split; [done|]. rewrite <- app_assoc. cbn [length]. replace (len + Z.of_nat (S (length cps)))
    with (len + 1 + Z.of_nat (length cps)) by lia. rewrite <- IH'.
  destruct (Z.lt_ge_cases cp 0x80).
  - unfold utf8_encode. destruct (Z.ltb_spec cp 0x80); [|lia]. cbn [app].
    by destruct (Z.ltb_spec cp 0x80); [|lia].
  - destruct (utf8_encode cp) as [|c l] eqn:E; [simpl in Hl; lia|]. cbn [app].
    assert (0x80 <= c) as Hc1.
    { unfold utf8_encode in E.
      destruct (Z.ltb_spec cp 0x80), (Z.ltb_spec cp 0x800), (Z.ltb_spec cp 0x10000); try lia;
        injection E as <- _; Z.div_mod_to_equations; lia. }
    destruct (Z.ltb_spec c 0x80); [lia|].
    change (c :: l ++ concat (map utf8_encode cps) ++ tail)
      with ((c :: l) ++ concat (map utf8_encode cps) ++ tail). rewrite <- E.
    rewrite decode_utf8 by (rewrite ?E; lia). cbn [mbind option_bind].
    by destruct (Z.ltb_spec 0x10ffff cp); [lia|].
Qed.

(** ** Properties *)

(** A string percent-encoded for any purpose but [NGX_ESCAPE_REFRESH]
    (whose bit map lacks the percent sign its comment lists) is given back by
    the decoder, which reads it whole; in the mode for URIs, where the decoder
    stops at a question mark, as long as the string has none. *)
Theorem ngx_escape_uri_roundtrip t type s :
  t <> NGX_ESCAPE_REFRESH -> bytes s ->
  type = 0 \/ (type = NGX_UNESCAPE_URI /\ "?"%chr ∉ s) ->
  ngx_unescape_uri (ngx_escape_uri s t) type = (s, []).
Proof. apply unescape_escaped. Qed.

Lemma ngx_escape_uri_roundtrip_witness :
  ngx_unescape_uri (ngx_escape_uri [47; 37; 255; 0; 43] NGX_ESCAPE_ARGS) NGX_UNESCAPE_URI
    = ([47; 37; 255; 0; 43], []).
Proof.
  apply (ngx_escape_uri_roundtrip NGX_ESCAPE_ARGS NGX_UNESCAPE_URI [47; 37; 255; 0; 43]).
  - discriminate.
  - by apply (bool_decide_unpack _).
  - right. split; [reflexivity|]. by apply (bool_decide_unpack _).
Defined.

(** The first pass of each escaping function, without a destination, counts
    exactly the bytes the second pass writes beyond the length of the source,
    so a buffer of that size is filled and never exceeded; escaped HTML has no
    angle bracket and no quote, escaped JSON no control character. *)
Theorem ngx_escape_exact s t :
  bytes s ->
  Z.of_nat (length (ngx_escape_uri s t)) = Z.of_nat (length s) + 2 * ngx_escape_uri_count s t
  /\ Z.of_nat (length (ngx_escape_html s)) = Z.of_nat (length s) + ngx_escape_html_count s
  /\ Z.of_nat (length (ngx_escape_json s)) = Z.of_nat (length s) + ngx_escape_json_count s
  /\ Forall (fun c => c <> "<"%chr /\ c <> ">"%chr /\ c <> 34) (ngx_escape_html s)
  /\ Forall (fun c => 0x1f < c) (ngx_escape_json s).
Proof.
  intros Hs. split_and!; [apply escape_uri_length|apply escape_html_length|apply escape_json_length|..];
    apply Forall_concat, Forall_map; eapply Forall_impl; try exact Hs.
  - apply html_char_safe.
  - intros c Hc. by apply json_char_safe.
Qed.

Lemma ngx_escape_exact_witness :
  Z.of_nat (length (ngx_escape_json (34 :: bs "a<b" ++ [10])))
    = 5 + ngx_escape_json_count (34 :: bs "a<b" ++ [10]).
Proof.
  exact (proj1 (proj2 (proj2 (ngx_escape_exact (34 :: bs "a<b" ++ [10]) NGX_ESCAPE_URI
    ltac:(by apply (bool_decide_unpack _)))))).
Defined.

(** Base64, in both alphabets, with and without padding: decoding what was
    encoded gives the bytes back; the padded encoding has exactly the length
    the macro computes; and whatever is decoded, valid or not, fits in the
    length the other macro computes. *)
Theorem ngx_base64_roundtrip s :
  bytes s ->
  ngx_decode_base64 (ngx_encode_base64 s) = Some s
  /\ ngx_decode_base64url (ngx_encode_base64url s) = Some s
  /\ Z.of_nat (length (ngx_encode_base64 s)) = ngx_base64_encoded_length (Z.of_nat (length s))
  /\ forall src d, ngx_decode_base64 src = Some d \/ ngx_decode_base64url src = Some d ->
       Z.of_nat (length d) <= ngx_base64_decoded_length (Z.of_nat (length src)).
Proof.
  intros Hs. split; [by apply decode_encode, Hs; apply basis64_inverse|].
  split; [by apply decode_encode, Hs; apply basis64url_inverse|].
  split; [apply encoded_length|]. intros src d.
  assert (forall basis, ngx_decode_base64_internal src basis = Some d ->
    Z.of_nat (length d) <= ngx_base64_decoded_length (Z.of_nat (length src))) as H.
  { intros basis. unfold ngx_decode_base64_internal.
    destruct (base64_body src basis) as [l|] eqn:E; [|done]. cbn [mbind option_bind].
    destruct (_ =? 1)%nat; [done|]. intros [= <-]. by apply decoded_length, (body_length _ basis). }
  intros [Hd|Hd]; eapply H, Hd.
Qed.

Lemma ngx_base64_roundtrip_witness :
  ngx_encode_base64 [255; 0; 7; 1] = bs "/wAHAQ==" /\
  ngx_decode_base64 (ngx_encode_base64 [255; 0; 7; 1]) = Some [255; 0; 7; 1].
Proof.
  split; [reflexivity|].
  exact (proj1 (ngx_base64_roundtrip [255; 0; 7; 1] ltac:(by apply (bool_decide_unpack _)))).
Defined.

(** [ngx_utf8_length] counts the characters of every string that is the
    UTF-8 encoding of some, whatever follows it in memory.  When a string of
    four bytes or more ends inside a character it reads past the end: the
    decoder is told the length of the whole string, not what is left. *)
Theorem ngx_utf8_length_exact cps rest c :
  Forall (fun cp => 0 <= cp <= 0x10FFFF) cps -> Z.of_nat (length (utf8 cps)) < 2 ^ 63 ->
  ngx_utf8_length (utf8 cps ++ rest) (length (utf8 cps)) = Some (Z.of_nat (length cps))
  /\ ((3 <= length (utf8 cps))%nat -> 0xc2 <= c ->
      ngx_utf8_length (utf8 cps ++ [c]) (S (length (utf8 cps))) = None).
Proof.
  intros Hc Hn. unfold ngx_utf8_length. split.
  - rewrite length_app. replace (_ - _)%nat with (length rest) by lia.
    destruct (length_loop_utf8 cps (S (length (utf8 cps) + length rest)) rest (length rest)
      (Z.of_nat (length (utf8 cps))) 0 Hc) as (fuel & Hf & ->); [done|rewrite length_app; lia|lia|].
    destruct fuel; [lia|]. cbn [utf8_length_loop]. by rewrite Nat.leb_refl.
  - intros H3 Hc2. rewrite length_app. cbn [length].
    replace (_ - _)%nat with 0%nat by lia.
    destruct (length_loop_utf8 cps (S (length (utf8 cps) + 1)) [c] 0
      (Z.of_nat (S (length (utf8 cps)))) 0 Hc) as (fuel & Hf & ->);
      [lia|rewrite length_app; simpl; lia|lia|].
    destruct fuel; [lia|]. cbn [utf8_length_loop length Nat.leb].
    destruct (Z.ltb_spec c 0x80); [lia|]. unfold ngx_utf8_decode. cbv zeta.
    rewrite u64_small by lia.
    destruct (0xf0 <=? c), (0xe0 <=? c), (Z.leb_spec 0xc2 c); try lia;
      cbn [mbind option_bind]; by rewrite (proj2 (Z.ltb_ge _ _)) by lia.
Qed.

Lemma ngx_utf8_length_exact_witness :
  ngx_utf8_length (utf8 [0x41; 0x20AC; 0x1F600] ++ [1; 2]) 8 = Some 3
  /\ ngx_utf8_length (utf8 [0x41; 0x20AC; 0x1F600] ++ [0xC3]) 9 = None.
Proof.
  destruct (ngx_utf8_length_exact [0x41; 0x20AC; 0x1F600] [1; 2] 0xC3) as [H1 H2].
  - by apply (bool_decide_unpack _).
  - reflexivity.
  - split; [exact H1|]. apply H2; [simpl; lia|lia].
Defined.
