(* ===== verification/NgxPrintf.v ===== *)
(** * The printf engine of nginx (src/core/ngx_string.c)

    [ngx_vslprintf] with its conversions; the arguments are a list, of which
    each [va_arg] takes one.  It never writes past its end, and printing into
    a shorter buffer gives the beginning of what a longer one gets. *)

From Stdlib Require Import Floats.SpecFloat.
From S2P Require Import Prelude NgxNumbers.

Set Warnings "-register-all".

#[local] Abbreviation length := (@List.length _).

(** ** Doubles

    As in IEEE 754, rounded to the nearest; a conversion that the language
    does not define is [None]. *)

Definition f64_of_Z (z : Z) : spec_float := binary_normalize 53 1024 z 0 false.
Definition f64_half : spec_float := binary_normalize 53 1024 1 (-1) false.

Definition f64_trunc (f : spec_float) : option Z :=
  match f with
  | S754_zero _ => Some 0
  | S754_finite s m e =>
      let a := if 0 <=? e then Zpos m * 2 ^ e else Zpos m / 2 ^ (- e) in
      Some (if s then - a else a)
  | _ => None
  end.
Definition f64_to_int64 (f : spec_float) : option Z :=
  z ← f64_trunc f; if (- 2 ^ 63 <=? z) && (z <? 2 ^ 63) then Some z else None.
Definition f64_to_uint64 (f : spec_float) : option Z :=
  z ← f64_trunc f; if (0 <=? z) && (z <? 2 ^ 64) then Some z else None.

(** ** The format *)

(** An argument: a number, a double, an [ngx_str_t] or variable value, or a
    [u_char *] with the memory from it on. *)
Inductive arg :=
| ANum (z : Z)
| ADouble (f : spec_float)
| AStr (data : list Z)
| APtr (mem : list Z).

(** [src/core/ngx_string.c:170-178] ngx_vslprintf: what is known of a
    conversion when its letter is reached. *)
Record conv := Conv {
  zero : Z; width : Z; sign : bool; hex : Z; max_width : bool; frac_width : Z; slen : Z
}.
#[export] Instance eta_conv : Settable conv := fun s =>
  Conv (zero s) (width s) (sign s) (hex s) (max_width s) (frac_width s) (slen s).

Definition SIZE_MAX : Z := 2 ^ 64 - 1.

(** [src/core/ngx_string.c:180-182] ngx_vslprintf: a loop over digits, that of
    the width and that of the precision. *)
Fixpoint digits_loop (n : Z) (fmt : list Z) : Z * list Z :=
  match fmt with
  | c :: fmt' => if is_digit c then digits_loop (u64 (n * 10 + c - "0"%chr)) fmt' else (n, fmt)
  | [] => (n, [])
  end.

(** [src/core/ngx_string.c:185-229] ngx_vslprintf: the loop over the flags. *)
Fixpoint flags (s : conv) (fmt : list Z) (args : list arg) : option (conv * list Z * list arg) :=
  match fmt with
  | [] => Some (s, [], args)
  | c :: fmt' =>
      if c =? "u"%chr then flags (s <| sign := false |>) fmt' args
      else if c =? "m"%chr then flags (s <| max_width := true |>) fmt' args
      else if c =? "X"%chr then flags (s <| hex := 2 |> <| sign := false |>) fmt' args
      else if c =? "x"%chr then flags (s <| hex := 1 |> <| sign := false |>) fmt' args
      else if c =? "."%chr then
        let '(n, fmt) := digits_loop (frac_width s) fmt' in Some (s <| frac_width := n |>, fmt, args)
      else if c =? "*"%chr then
        match args with
        | ANum z :: args => flags (s <| slen := u64 z |>) fmt' args
        | _ => None
        end
      else Some (s, fmt, args)
  end.

(** ** What a conversion prints *)

Inductive piece :=
| PByte (c : Z)
| PCopy (mem : list Z) (len : Z)
| PText (mem : list Z)
| PNum (minus : bool) (ui64 zero hex width : Z)
| PReal (minus : bool) (ui64 zero width frac frac_width : Z).

(** [src/core/ngx_string.c:454-464] ngx_vslprintf: the number of a conversion,
    with its sign. *)
Definition signed_number (s : conv) (i64 : Z) : piece :=
  if i64 <? 0 then PNum true (u64 (- i64)) (zero s) (hex s) (width s)
  else PNum false (u64 i64) (zero s) (hex s) (width s).
Definition unsigned_number (s : conv) (ui64 : Z) : piece :=
  PNum false ui64 (zero s) (hex s) (width s).

Definition NGX_INT_T_LEN : Z := 20.

(** [src/core/ngx_string.c:269-421] ngx_vslprintf: the conversions of
    numbers. *)
Definition number (s : conv) (c z : Z) : option piece :=
  let long s := if sign s then signed_number s (s64 z) else unsigned_number s (u64 z) in
  let word s := if sign s then signed_number s (s32 z) else unsigned_number s (u32 z) in
  let wide := if max_width s then s <| width := NGX_INT_T_LEN |> else s in
  if (c =? "O"%chr) || (c =? "T"%chr) || (c =? "r"%chr) then Some (signed_number s (s64 z))
  else if c =? "P"%chr then Some (signed_number s (s32 z))
  else if c =? "M"%chr then
    Some (if s64 z =? -1 then signed_number s (-1) else unsigned_number s (u64 z))
  else if (c =? "z"%chr) || (c =? "l"%chr) || (c =? "L"%chr) then Some (long s)
  else if (c =? "i"%chr) || (c =? "A"%chr) then Some (long wide)
  else if (c =? "d"%chr) || (c =? "D"%chr) then Some (word s)
  else if c =? "p"%chr then Some (PNum false (u64 z) "0"%chr 2 16)
  else if c =? "c"%chr then Some (PByte (Z.land z 255))
  else None.

(** [src/core/ngx_string.c:361-385] ngx_vslprintf: a double, before it is
    printed. *)
Definition real (s : conv) (f : spec_float) : option piece :=
  let minus := SFltb f (S754_zero false) in
  let f := if minus then SFopp f else f in
  ui64 ← f64_to_int64 f;
  if frac_width s =? 0 then Some (PReal minus ui64 (zero s) (width s) 0 0)
  else
    let scale := u64 (10 ^ frac_width s) in
    let rest := SFmul 53 1024 (SFsub 53 1024 f (f64_of_Z ui64)) (f64_of_Z scale) in
    frac ← f64_to_uint64 (SFadd 53 1024 rest f64_half);
    Some (if frac =? scale then PReal minus (u64 (ui64 + 1)) (zero s) (width s) 0 (frac_width s)
          else PReal minus ui64 (zero s) (width s) frac (frac_width s)).

(** [src/core/ngx_string.c:232-451] ngx_vslprintf: the letter of a
    conversion. *)
Definition fetch (s : conv) (c : Z) (args : list arg) : option (piece * list arg) :=
  if (c =? "V"%chr) || (c =? "v"%chr) then
    match args with
    | AStr data :: args => Some (PCopy data (Z.of_nat (length data)), args)
    | _ => None
    end
  else if c =? "s"%chr then
    match args with
    | APtr mem :: args => Some (if slen s =? SIZE_MAX then PText mem else PCopy mem (slen s), args)
    | _ => None
    end
  else if bool_decide (c ∈ bs "OPTMzidlDLArpc") then
    match args with
    | ANum z :: args => p ← number s c z; Some (p, args)
    | _ => None
    end
  else if c =? "f"%chr then
    match args with
    | ADouble f :: args => p ← real s f; Some (p, args)
    | _ => None
    end
  else if c =? "Z"%chr then Some (PByte 0, args)
  else if c =? "N"%chr then Some (PByte LF, args)
  else Some (PByte c, args).

(** ** Writing *)

(** [src/core/ngx_string.c:256-258] ngx_vslprintf: the text up to its end or
    that of the buffer; without either the loop leaves the memory. *)
Fixpoint copy_text (room : nat) (mem : list Z) {struct mem} : option (list Z) :=
  match mem with
  | [] => None
  | c :: mem =>
      if c =? 0 then Some []
      else match room with
           | O => Some []
           | S room => l ← copy_text room mem; Some (c :: l)
           end
  end.

Definition minus_sign (b : bool) : list Z := if b then ["-"%chr] else [].

(** [src/core/ngx_string.c:234-464] ngx_vslprintf: the bytes of a conversion,
    written where [room] bytes are left, of which there is one. *)
Definition put (room : nat) (p : piece) : option (list Z) :=
  match p with
  | PByte c => Some [c]
  | PCopy mem len =>
      let n := Nat.min room (Z.to_nat len) in
      if (n <=? length mem)%nat then Some (take n mem) else None
  | PText mem => copy_text room mem
  | PNum minus ui64 zero hex width =>
      let a := minus_sign minus in
      b ← ngx_sprintf_num (room - length a) ui64 zero hex (Z.to_nat width);
      Some (a ++ b)
  | PReal minus ui64 zero width frac frac_width =>
      let a := minus_sign minus in
      b ← ngx_sprintf_num (room - length a) ui64 zero 0 (Z.to_nat width);
      if frac_width =? 0 then Some (a ++ b)
      else
        let ab := a ++ b ++ (if (length (a ++ b) <? room)%nat then ["."%chr] else []) in
        c ← ngx_sprintf_num (room - length ab) frac "0"%chr 0 (Z.to_nat frac_width);
        Some (ab ++ c)
  end.

(** [src/core/ngx_string.c:160-471] ngx_vslprintf: the loop, a round of which
    is for a character or a conversion of the format.  The end of the format
    is that of the list; a conversion without its letter passes it. *)
Fixpoint vslprintf_loop (rounds room : nat) (fmt : list Z) (args : list arg) : option (list Z) :=
  match fmt, room, rounds with
  | [], _, _ | _, O, _ => Some []
  | _, _, O => None
  | c :: fmt, S room', S rounds =>
      if negb (c =? "%"%chr) then
        l ← vslprintf_loop rounds room' fmt args; Some (c :: l)
      else
        let zero := match fmt with c :: _ => if c =? "0"%chr then "0"%chr else " "%chr | [] => " "%chr end in
        let '(width, fmt) := digits_loop 0 fmt in
        '(s, fmt, args) ← flags (Conv zero width true 0 false 0 SIZE_MAX) fmt args;
        match fmt with
        | [] => None
        | c :: fmt =>
            '(p, args) ← fetch s c args;
            a ← put room p;
            l ← vslprintf_loop rounds (room - length a) fmt args;
            Some (a ++ l)
        end
  end.

(** [src/core/ngx_string.c:146-474] ngx_vslprintf: [room] is [last - buf];
    what is written at [buf]. *)
Definition ngx_vslprintf (room : nat) (fmt : list Z) (args : list arg) : option (list Z) :=
  vslprintf_loop (length fmt) room fmt args.

(** [ngx_sprintf] into [alloc] bytes; a text that does not fit them is
    written past them. *)
Definition ngx_sprintf (alloc : nat) (fmt : list Z) (args : list arg) : option (list Z) :=
  out ← ngx_vslprintf (S alloc) fmt args;
  if (length out <=? alloc)%nat then Some out else None.

Example printf_1 :
  ngx_vslprintf 99 (bs "%s=%05d|%-%5i|%uxD|%.3f|%V|%*s|%c%%%N")
    [APtr (bs "ab" ++ [0]); ANum (-42); ANum 7; ANum 48879; ADouble (SFdiv 53 1024 (f64_of_Z 7) (f64_of_Z 4));
     AStr (bs "xyz"); ANum 2; APtr (bs "hello"); ANum 65]
  = Some (bs "ab=-00042|-    7|beef|1.750|xyz|he|A%" ++ [LF]).
Proof. by vm_compute. Qed.

(** ** The rounds are enough *)

Lemma digits_loop_length n fmt : (length (snd (digits_loop n fmt)) <= length fmt)%nat.
Proof.
  revert n. induction fmt as [|c fmt IH]; intros n; simpl; [done|].
  destruct (is_digit c); simpl; [|lia]. etransitivity; [apply IH|lia].
Qed.

Lemma flags_length fmt : forall s args s' fmt' args',
  flags s fmt args = Some (s', fmt', args') -> (length fmt' <= length fmt)%nat.
Proof.
  induction fmt as [|c fmt IH]; intros s args s' fmt' args' H; simpl in H; [by simplify_eq|]. simpl.
  repeat case_match; simplify_eq; try (apply IH in H; lia); [|simpl; lia].
  pose proof (digits_loop_length (frac_width s) fmt) as Hd.
  match goal with E : digits_loop _ _ = _ |- _ => rewrite E in Hd end. simpl in Hd. lia.
Qed.

(** More rounds than the characters of the format change nothing. *)
Lemma vslprintf_rounds rounds : forall room fmt args,
  (length fmt <= rounds)%nat -> vslprintf_loop rounds room fmt args = ngx_vslprintf room fmt args.
Proof.
  unfold ngx_vslprintf.
  assert (H : forall n m room fmt args, (length fmt <= n)%nat -> (length fmt <= m)%nat ->
    vslprintf_loop n room fmt args = vslprintf_loop m room fmt args); [|intros; by apply H].
  induction n as [|n IH]; intros m room fmt args Hn Hm; (destruct fmt as [|c fmt]; [by destruct m, room|]);
    simpl in *; [lia|]. destruct m as [|m]; [lia|]. destruct room as [|room]; [done|]. simpl.
  destruct (negb (c =? "%"%chr)); [by rewrite (IH m) by lia|].
  set (z := match fmt with [] => _ | _ :: _ => _ end).
  pose proof (digits_loop_length 0 fmt) as Hd. destruct (digits_loop 0 fmt) as [w fmt1]. simpl in Hd.
  destruct (flags _ fmt1 args) as [[[s fmt2] args2]|] eqn:Hf; simpl; [|done].
  apply flags_length in Hf. destruct fmt2 as [|c2 fmt2]; [done|]. simpl in Hf.
  destruct (fetch s c2 args2) as [[p args3]|]; simpl; [|done].
  destruct (put (S room) p) as [a|]; simpl; [|done]. by rewrite (IH m) by lia.
Qed.

(** ** Shorter buffers *)

(** What is written with less room is the beginning of what is written with
    more. *)
Definition truncates {A} (f : nat -> option (list A)) : Prop :=
  forall r r' out, (r <= r')%nat -> f r' = Some out -> f r = Some (take r out) /\ (length out <= r')%nat.

(** One writer after the other, in the room that is left. *)
Definition and_then {A} (f g : nat -> option (list A)) (r : nat) : option (list A) :=
  a ← f r; b ← g (r - length a)%nat; Some (a ++ b).

Lemma truncates_then {A} (f g : nat -> option (list A)) :
  truncates f -> truncates g -> truncates (and_then f g).
Proof.
  intros Hf Hg r r' out Hr. unfold and_then. intros E.
  destruct (f r') as [a|] eqn:Ea; simpl in E; [|done].
  destruct (g (r' - length a)%nat) as [b|] eqn:Eb; simpl in E; simplify_eq.
  destruct (Hf r r' a Hr Ea) as [-> Ha]. simpl.
  destruct (Hg (r - length (take r a))%nat (r' - length a)%nat b) as [-> Hb]; [rewrite length_take; lia|done|].
  simpl. split; [|rewrite length_app; lia].
  rewrite take_app, length_take. do 3 f_equal. lia.
Qed.

Lemma truncates_bytes {A} (l : list A) : truncates (fun r => Some (take r l)).
Proof.
  intros r r' out Hr E. simplify_eq. split; [by rewrite take_take, Nat.min_l by lia|rewrite length_take; lia].
Qed.

Lemma truncates_copy (mem : list Z) (len : nat) :
  truncates (fun r => if (Nat.min r len <=? length mem)%nat then Some (take (Nat.min r len) mem) else None).
Proof.
  intros r r' out Hr E. destruct (Nat.leb_spec (Nat.min r' len) (length mem)); simplify_eq.
  rewrite (proj2 (Nat.leb_le _ _)) by lia. split; [|rewrite length_take; lia].
  rewrite take_take. do 2 f_equal. lia.
Qed.

Lemma truncates_text (mem : list Z) : truncates (fun r => copy_text r mem).
Proof.
  induction mem as [|c mem IH]; intros r r' out Hr E; simpl in *; [done|].
  destruct (c =? 0); [simplify_eq; rewrite take_nil; split; [done|simpl; lia]|].
  destruct r' as [|r']; [simplify_eq; destruct r; [done|lia]|].
  destruct (copy_text r' mem) as [l|] eqn:El; simplify_eq/=.
  destruct r as [|r]; [split; [done|destruct (IH 0%nat r' l ltac:(lia) El); lia]|].
  destruct (IH r r' l ltac:(lia) El) as [-> ?]. split; [done|lia].
Qed.

Lemma truncates_num n zero hex width : truncates (fun r => ngx_sprintf_num r n zero hex width).
Proof.
  intros r r' out Hr. unfold ngx_sprintf_num.
  set (digits := if hex =? 0 then _ else _). destruct digits as [p|]; intros E; simplify_eq.
  set (k := (width - length p)%nat). split.
  - f_equal. rewrite take_app, take_replicate, length_replicate, take_take. f_equal; f_equal; lia.
  - rewrite length_app, length_replicate, length_take. lia.
Qed.

Lemma truncates_nothing {A} : truncates (fun _ => @Some (list A) []).
Proof. intros r r' out Hr E. simplify_eq. rewrite take_nil. split; [done|simpl; lia]. Qed.

(** The conversions as writers. *)
Definition writer (p : piece) : nat -> option (list Z) :=
  match p with
  | PByte c => fun r => Some (take r [c])
  | PCopy mem len => fun r => if (Nat.min r (Z.to_nat len) <=? length mem)%nat then Some (take (Nat.min r (Z.to_nat len)) mem) else None
  | PText mem => fun r => copy_text r mem
  | PNum minus n zero hex width =>
      and_then (fun r => Some (take r (minus_sign minus))) (fun r => ngx_sprintf_num r n zero hex (Z.to_nat width))
  | PReal minus n zero width frac frac_width =>
      and_then (fun r => Some (take r (minus_sign minus)))
        (and_then (fun r => ngx_sprintf_num r n zero 0 (Z.to_nat width))
          (if frac_width =? 0 then fun _ => Some []
           else and_then (fun r => Some (take r ["."%chr]))
                  (fun r => ngx_sprintf_num r frac "0"%chr 0 (Z.to_nat frac_width))))
  end.

Lemma writer_truncates p : truncates (writer p).
Proof.
  destruct p; simpl; repeat (apply truncates_then); try case_match;
    repeat (apply truncates_then); auto using truncates_bytes, truncates_copy, truncates_text,
      truncates_num, truncates_nothing.
Qed.

Lemma take_sign r b : take (S r) (minus_sign b) = minus_sign b.
Proof. by destruct b; simpl; rewrite ?take_nil. Qed.

Lemma put_writer r p : put (S r) p = writer p (S r).
Proof.
  destruct p as [c|mem len|mem|minus n zero hex width|minus n zero width frac fw]; try done.
  { simpl. by rewrite take_nil. }
  { cbn [put writer]. unfold and_then. by rewrite take_sign. }
  cbn [put writer]. unfold and_then. rewrite take_sign. cbn [mbind option_bind].
  destruct (ngx_sprintf_num _ n zero 0 _) as [b|] eqn:Eb; [|done]. cbn [mbind option_bind].
  destruct (fw =? 0); cbn [mbind option_bind]; [by rewrite app_nil_r|].
  assert (length b <= S r - length (minus_sign minus))%nat by (by eapply (truncates_num _ _ _ _ 0%nat); [lia|]).
  set (dot := if (length (minus_sign minus ++ b) <? S r)%nat then _ else _).
  replace (take (S r - length (minus_sign minus) - length b) ["."%chr]) with dot.
  2:{ subst dot. rewrite length_app. destruct (Nat.ltb_spec (length (minus_sign minus) + length b) (S r)).
      - destruct (S r - length (minus_sign minus) - length b)%nat eqn:E; [lia|]. simpl. by rewrite take_nil.
      - by replace (S r - length (minus_sign minus) - length b)%nat with 0%nat by lia. }
  replace (S r - length (minus_sign minus) - length b - length dot)%nat
    with (S r - length (minus_sign minus ++ b ++ dot))%nat by (rewrite !length_app; lia).
  destruct (ngx_sprintf_num _ frac _ _ _); simpl; [|done]. by rewrite <- !app_assoc.
Qed.

Lemma loop_truncates rounds : forall fmt args, truncates (fun r => vslprintf_loop rounds r fmt args).
Proof.
  induction rounds as [|n IH]; intros fmt args r r' out Hr E;
    (destruct fmt as [|c fmt]; [by apply (truncates_nothing r r')|]);
    (destruct r' as [|r']; [simpl in E; simplify_eq; replace r with 0%nat by lia; done|]); [done|].
  simpl in E. destruct r as [|r]; simpl.
  all: destruct (negb (c =? "%"%chr)).
  1, 3: destruct (vslprintf_loop n r' fmt args) as [l|] eqn:El; simplify_eq/=.
  { destruct (IH fmt args 0%nat r' l ltac:(lia) El). split; [done|lia]. }
  { destruct (IH fmt args r r' l ltac:(lia) El) as [-> ?]. split; [done|lia]. }
  all: set (z := match fmt with [] => _ | _ :: _ => _ end) in *.
  all: destruct (digits_loop 0 fmt) as [w fmt1].
  all: destruct (flags _ fmt1 args) as [[[s fmt2] args2]|]; simpl in *; [|done].
  all: destruct fmt2 as [|c2 fmt2]; [done|].
  all: destruct (fetch s c2 args2) as [[p args3]|]; simpl in *; [|done].
  all: assert (Et : and_then (writer p) (fun r => vslprintf_loop n r fmt2 args3) (S r') = Some out)
         by (unfold and_then; by rewrite <- put_writer).
  all: pose proof (truncates_then _ _ (writer_truncates p) (IH fmt2 args3)) as Ht.
  - split; [done|]. by apply (Ht 0%nat (S r') out).
  - destruct (Ht (S r) (S r') out Hr Et) as [E' ?]. split; [|done].
    unfold and_then in E'. by rewrite <- put_writer in E'.
Qed.

(** C39: Printing never writes past the end of the buffer, whatever the format
    and the arguments, and into a shorter buffer it writes the beginning of
    what it writes into a longer one. *)
Theorem ngx_vslprintf_truncates r r' fmt args out :
  (r <= r')%nat -> ngx_vslprintf r' fmt args = Some out ->
  ngx_vslprintf r fmt args = Some (take r out) /\ (length out <= r')%nat.
Proof. apply loop_truncates. Qed.

Theorem ngx_vslprintf_truncates_witness :
  let args := [ANum (-42); ADouble (SFdiv 53 1024 (f64_of_Z (-7)) (f64_of_Z 4)); APtr (bs "xyz" ++ [0])] in
  ngx_vslprintf 7 (bs "%05i;%5.2f|%s") args = Some (bs "-00042;") /\
  ngx_vslprintf 14 (bs "%05i;%5.2f|%s") args = Some (bs "-00042;-    1.").
Proof.
  intros args.
  assert (E : ngx_vslprintf 40 (bs "%05i;%5.2f|%s") args = Some (bs "-00042;-    1.75|xyz")) by by vm_compute.
  split.
  - exact (proj1 (ngx_vslprintf_truncates 7 40 _ args _ ltac:(lia) E)).
  - exact (proj1 (ngx_vslprintf_truncates 14 40 _ args _ ltac:(lia) E)).
Defined.

(** ** What formats print

    [prints fmt args out]: with room for it, the format prints [out]. *)

Definition prints (fmt : list Z) (args : list arg) (out : list Z) : Prop :=
  forall n room, (length fmt <= n)%nat -> (length out <= room)%nat -> vslprintf_loop n room fmt args = Some out.

(** A number in decimal, and in 20 characters with zeros before it. *)
Definition dec_text (n : Z) : list Z := default [] (num_digits hex_lower 10 NGX_INT64_LEN n []).
Definition zeros_text (n : Z) : list Z := replicate (20 - length (dec_text n)) "0"%chr ++ dec_text n.

Lemma dec_text_digits n : 0 <= n < 2 ^ 64 ->
  num_digits hex_lower 10 NGX_INT64_LEN n [] = Some (dec_text n)
  /\ (0 < length (dec_text n) <= 20)%nat /\ forallb is_digit (dec_text n) = true /\ dec_value (dec_text n) = n.
Proof.
  intros Hn. unfold dec_text.
  destruct (num_digits_spec hex_lower 10 hex_val) with (room := NGX_INT64_LEN) (n := n) (p := @nil Z)
    as (d & -> & Hl & Hd & Hv); [lia| |unfold NGX_INT64_LEN; lia|done|].
  { apply digit_lookup. left. split; [done|by left]. }
  rewrite app_nil_r. simpl. unfold NGX_INT64_LEN in Hl. split; [done|].
  apply is_num_dec in Hd. split_and!; [lia..|done|].
  unfold dec_value. by rewrite dec_from_num.
Qed.

Lemma sprintf_num_dec room n zero width : 0 <= n < 2 ^ 64 -> (length (dec_text n) <= room)%nat -> (width <= room)%nat ->
  ngx_sprintf_num room n zero 0 width = Some (replicate (width - length (dec_text n)) zero ++ dec_text n).
Proof.
  intros Hn Hd Hw. unfold ngx_sprintf_num. rewrite sprintf_num_branch by (done || lia).
  change (printed_digits 0) with hex_lower. change (printed_base 0) with 10.
  destruct (dec_text_digits n Hn) as (-> & _). cbv zeta.
  by rewrite (Nat.min_l (width - length (dec_text n)) room), take_ge by lia.
Qed.

Lemma zeros_text_length n : 0 <= n < 2 ^ 64 -> length (zeros_text n) = 20%nat.
Proof. intros Hn. destruct (dec_text_digits n Hn) as (_ & Hl & _). unfold zeros_text. rewrite length_app, length_replicate. lia. Qed.

Lemma prints_nil : prints [] [] [].
Proof. intros n room _ _. by destruct n. Qed.

Lemma prints_char c fmt args out : (c =? "%"%chr) = false -> prints fmt args out -> prints (c :: fmt) args (c :: out).
Proof.
  intros Hc Hp n room Hn Hr. destruct n as [|n]; [simpl in Hn; lia|]. destruct room as [|room]; [simpl in Hr; lia|].
  simpl. rewrite Hc. rewrite Hp by (simpl in *; lia). done.
Qed.

Lemma prints_text t fmt args out :
  forallb (fun c => negb (c =? "%"%chr)) t = true -> prints fmt args out -> prints (t ++ fmt) args (t ++ out).
Proof.
  intros Ht Hp. induction t as [|c t IH]; [done|]. simpl in *. apply andb_prop in Ht as [Hc Ht].
  apply prints_char; [by destruct (c =? _)|by apply IH].
Qed.

(** A conversion of [k] letters, whose text is [t] where there is room. *)
Lemma prints_piece conv fmt arg args p t out :
  (forall n room, vslprintf_loop (S n) (S room) (conv ++ fmt) (arg :: args) =
     (a ← put (S room) p; l ← vslprintf_loop n (S room - length a) fmt args; Some (a ++ l))) ->
  conv <> [] -> (forall room, (length t <= room)%nat -> put room p = Some t) ->
  prints fmt args out -> prints (conv ++ fmt) (arg :: args) (t ++ out).
Proof.
  intros Hs Hne Ht Hp n room Hn Hr. rewrite length_app in *.
  assert (0 < length conv)%nat by (destruct conv; simpl; [done|lia]).
  destruct n as [|n]; [lia|]. destruct room as [|room].
  - assert (t = []) as -> by (destruct t; [done|simpl in Hr; lia]).
    assert (out = []) as -> by (destruct out; [done|simpl in Hr; lia]).
    destruct conv; [done|]. done.
  - rewrite Hs, Ht by lia. cbn [mbind option_bind]. by rewrite Hp by lia.
Qed.

Lemma prints_O z fmt args out : 0 <= z < 2 ^ 63 -> prints fmt args out ->
  prints (bs "%O" ++ fmt) (ANum z :: args) (dec_text z ++ out).
Proof.
  intros Hz. apply (prints_piece (bs "%O") fmt (ANum z) args (signed_number (Conv " "%chr 0 true 0 false 0 SIZE_MAX) (s64 z))).
  - intros n room. done.
  - done.
  - intros room Hr. rewrite s64_small by lia. unfold signed_number. rewrite (proj2 (Z.ltb_ge z 0)) by lia.
    cbn [put zero width hex]. rewrite u64_small by lia. change (Z.to_nat 0) with 0%nat.
    rewrite Nat.sub_0_r, sprintf_num_dec by lia. done.
Qed.

Lemma prints_V s fmt args out : prints fmt args out -> prints (bs "%V" ++ fmt) (AStr s :: args) (s ++ out).
Proof.
  apply (prints_piece (bs "%V") fmt (AStr s) args (PCopy s (Z.of_nat (length s)))).
  - intros n room. done.
  - done.
  - intros room Hr. cbn [put]. rewrite Nat2Z.id, Nat.min_r by lia. by rewrite Nat.leb_refl, take_ge by lia.
Qed.

Lemma prints_0muA z fmt args out : 0 <= z < 2 ^ 64 -> prints fmt args out ->
  prints (bs "%0muA" ++ fmt) (ANum z :: args) (zeros_text z ++ out).
Proof.
  intros Hz. apply (prints_piece (bs "%0muA") fmt (ANum z) args (unsigned_number (Conv "0"%chr NGX_INT_T_LEN false 0 true 0 SIZE_MAX) (u64 z))).
  - intros n room. done.
  - done.
  - intros room Hr. rewrite zeros_text_length in Hr by done. destruct (dec_text_digits z Hz) as (_ & Hl & _).
    unfold unsigned_number. cbn [put zero width hex]. rewrite u64_small by lia. change (Z.to_nat NGX_INT_T_LEN) with 20%nat.
    rewrite Nat.sub_0_r, sprintf_num_dec by lia. done.
Qed.

Lemma sprintf_prints alloc fmt args out :
  prints fmt args out -> (length out <= alloc)%nat -> ngx_sprintf alloc fmt args = Some out.
Proof.
  intros Hp Hl. unfold ngx_sprintf, ngx_vslprintf. rewrite Hp by lia. cbn [mbind option_bind].
  by rewrite (proj2 (Nat.leb_le _ _)).
Qed.

(** Room beyond the digits changes nothing. *)
Lemma num_digits_more digits base n' : forall r r' p x, (r <= r')%nat ->
  num_digits digits base r n' p = Some x -> num_digits digits base r' n' p = Some x.
Proof.
  revert n'. intros n r. revert n. induction r as [|r IH]; intros n r' p x Hr H; [done|].
  destruct r' as [|r']; [lia|]. unfold num_digits in *. fold num_digits in *. cbv zeta in *.
  destruct (n / base =? 0); [done|]. apply IH; [lia|done].
Qed.

(** A number in hexadecimal. *)
Definition hex_text (n : Z) : list Z := default [] (num_digits hex_lower 16 NGX_INT64_LEN n []).

Lemma text_digits base k n : (base = 10 \/ base = 16) -> (0 < k <= NGX_INT64_LEN)%nat -> 0 <= n < base ^ Z.of_nat k ->
  exists d, num_digits hex_lower base NGX_INT64_LEN n [] = Some d /\ (0 < length d <= k)%nat /\
    is_num hex_lower base d /\ num_value base hex_val d = n.
Proof.
  intros Hb Hk Hn.
  destruct (num_digits_spec hex_lower base hex_val) with (room := k) (n := n) (p := @nil Z)
    as (d & Hd & Hl & Hnum & Hv); [lia|apply digit_lookup; left; done|done|lia|].
  rewrite app_nil_r in Hd. exists d. split; [|done]. by apply (num_digits_more _ _ _ k); [lia|].
Qed.

Lemma hex_text_digits k n : (0 < k <= 16)%nat -> 0 <= n < 16 ^ Z.of_nat k ->
  num_digits hex_lower 16 NGX_INT64_LEN n [] = Some (hex_text n) /\ (0 < length (hex_text n) <= k)%nat /\
  forallb is_hex (hex_text n) = true /\ hex_from 0 (hex_text n) = n.
Proof.
  intros Hk Hn. unfold hex_text.
  destruct (text_digits 16 k n) as (d & -> & Hl & Hnum & Hv); [by right|unfold NGX_INT64_LEN; lia|done|].
  cbn [default]. split; [done|]. split; [done|]. split; [|done].
  by apply (is_num_hex hex_lower); [left|].
Qed.

Lemma dec_text_short k n : (0 < k <= 20)%nat -> 0 <= n < 10 ^ Z.of_nat k -> (0 < length (dec_text n) <= k)%nat.
Proof.
  intros Hk Hn. unfold dec_text.
  destruct (text_digits 10 k n) as (d & -> & Hl & _); [by left|unfold NGX_INT64_LEN; lia|done|]. done.
Qed.

Lemma prints_ud z fmt args out : 0 <= z < 2 ^ 32 -> prints fmt args out ->
  prints (bs "%ud" ++ fmt) (ANum z :: args) (dec_text z ++ out).
Proof.
  intros Hz. apply (prints_piece (bs "%ud") fmt (ANum z) args (unsigned_number (Conv " "%chr 0 false 0 false 0 SIZE_MAX) (u32 z))).
  - intros n room. done.
  - done.
  - intros room Hr. rewrite u32_small by lia. cbn [put unsigned_number zero width hex]. change (Z.to_nat 0) with 0%nat.
    cbn [minus_sign length]. rewrite Nat.sub_0_r, sprintf_num_dec by lia. done.
Qed.

Lemma prints_d z fmt args out : 0 <= z < 2 ^ 31 -> prints fmt args out ->
  prints (bs "%d" ++ fmt) (ANum z :: args) (dec_text z ++ out).
Proof.
  intros Hz. apply (prints_piece (bs "%d") fmt (ANum z) args (signed_number (Conv " "%chr 0 true 0 false 0 SIZE_MAX) (s32 z))).
  - intros n room. done.
  - done.
  - intros room Hr. rewrite s32_small by (unfold INT_MIN, INT_MAX; lia). unfold signed_number.
    rewrite (proj2 (Z.ltb_ge z 0)) by lia. rewrite u64_small by lia.
    cbn [put zero width hex]. change (Z.to_nat 0) with 0%nat.
    cbn [minus_sign length]. rewrite Nat.sub_0_r, sprintf_num_dec by lia. done.
Qed.

Lemma prints_xd z fmt args out : 0 <= z < 2 ^ 32 -> prints fmt args out ->
  prints (bs "%xd" ++ fmt) (ANum z :: args) (hex_text z ++ out).
Proof.
  intros Hz. apply (prints_piece (bs "%xd") fmt (ANum z) args (unsigned_number (Conv " "%chr 0 false 1 false 0 SIZE_MAX) (u32 z))).
  - intros n room. done.
  - done.
  - intros room Hr. rewrite u32_small by lia. cbn [put unsigned_number zero width hex minus_sign length].
    destruct (hex_text_digits 8 z) as (Hd & _); [lia|done|].
    rewrite Nat.sub_0_r. unfold ngx_sprintf_num. rewrite sprintf_num_branch by lia.
    change (printed_digits 1) with hex_lower. change (printed_base 1) with 16. rewrite Hd. cbv zeta.
    change (Z.to_nat 0) with 0%nat. rewrite Nat.sub_0_l, Nat.min_0_l, Nat.sub_0_r.
    cbn [replicate app mbind option_bind]. by rewrite take_ge by lia.
Qed.
