(* ===== verification/NgxTimes.v ===== *)
(** * Dates (src/core/ngx_times.c, src/core/ngx_parse_time.c)

    Seconds since 1970 to a date and back: [ngx_gmtime] is the Gregorian
    calendar, [ngx_http_time] prints a date for a header, and
    [ngx_parse_http_time] reads the three forms of RFC 2616. *)

From S2P Require Import Prelude NgxNumbers NgxPrintf.

Set Warnings "-register-all".

#[local] Abbreviation length := (@List.length _).

(** ** From seconds to a date *)

(** The fields of [ngx_tm_t] that are used (struct tm: the month from 1 and the
    year from 0). *)
Record ngx_tm := Tm {
  tm_sec : Z; tm_min : Z; tm_hour : Z; tm_mday : Z; tm_mon : Z; tm_year : Z; tm_wday : Z
}.

(** [(year % 4 == 0) && (year % 100 || (year % 400 == 0))] *)
Definition is_leap (year : Z) : bool :=
  (year mod 4 =? 0) && (negb (year mod 100 =? 0) || (year mod 400 =? 0)).

(** [src/core/ngx_times.c:323-381] ngx_gmtime: the year, the month and the day
    of the day [days] of 1970. *)
Definition gm_date (days : Z) : Z * Z * Z :=
  let days := u64 (days - (31 + 28) + 719527) in
  let year := u64 ((days + 2) * 400) / (365 * 400 + 100 - 4 + 1) in
  let yday := s64 (days - u64 (365 * year + year / 4 - year / 100 + year / 400)) in
  let '(year, yday) :=
    if yday <? 0 then (u64 (year - 1), s64 (365 + (if is_leap year then 1 else 0) + yday)) else (year, yday) in
  let mon := u64 (Z.quot ((yday + 31) * 10) 306) in
  let mday := u64 (yday - (u64 (367 * mon) / 12 - 30) + 1) in
  if 306 <=? yday then (u64 (year + 1), u64 (mon - 10), mday) else (year, u64 (mon + 2), mday).

(** [src/core/ngx_times.c:299-389] ngx_gmtime *)
Definition ngx_gmtime (t : Z) : ngx_tm :=
  let n := u64 t in
  let days := n / 86400 in
  let wday := (4 + days) mod 7 in
  let n := n mod 86400 in
  let hour := n / 3600 in
  let n := n mod 3600 in
  let '(year, mon, mday) := gm_date days in
  Tm (s32 (n mod 60)) (s32 (n / 60)) (s32 hour) (s32 mday) (s32 mon) (s32 year) (s32 wday).

(** [src/core/ngx_times.c:58-60] week, months *)
Definition week : list (list Z) := map bs ["Sun"; "Mon"; "Tue"; "Wed"; "Thu"; "Fri"; "Sat"]%string.
Definition months : list (list Z) :=
  map bs ["Jan"; "Feb"; "Mar"; "Apr"; "May"; "Jun"; "Jul"; "Aug"; "Sep"; "Oct"; "Nov"; "Dec"]%string.

(** An entry of such a table, for [%s]. *)
Definition entry (table : list (list Z)) (i : Z) : option arg :=
  if i <? 0 then None else name ← table !! Z.to_nat i; Some (APtr (name ++ [0])).

(** [src/core/ngx_times.c:254-269] ngx_http_time: [room] is what is left of
    the address space. *)
Definition ngx_http_time (room : nat) (t : Z) : option (list Z) :=
  let tm := ngx_gmtime t in
  w ← entry week (tm_wday tm);
  m ← entry months (tm_mon tm - 1);
  ngx_vslprintf room (bs "%s, %02d %s %4d %02d:%02d:%02d GMT")
    [w; ANum (tm_mday tm); m; ANum (tm_year tm); ANum (tm_hour tm); ANum (tm_min tm); ANum (tm_sec tm)].

(** [src/core/ngx_times.c:272-296] ngx_http_cookie_time *)
Definition ngx_http_cookie_time (room : nat) (t : Z) : option (list Z) :=
  let tm := ngx_gmtime t in
  w ← entry week (tm_wday tm);
  m ← entry months (tm_mon tm - 1);
  ngx_vslprintf room
    (if 2037 <? tm_year tm then bs "%s, %02d-%s-%d %02d:%02d:%02d GMT"
     else bs "%s, %02d-%s-%02d %02d:%02d:%02d GMT")
    [w; ANum (tm_mday tm); m; ANum (if 2037 <? tm_year tm then tm_year tm else Z.rem (tm_year tm) 100);
     ANum (tm_hour tm); ANum (tm_min tm); ANum (tm_sec tm)].

(** ** From a text to seconds *)

(** A result of the parser: a value, [NGX_ERROR], or a read outside the
    text. *)
Inductive parsed (A : Type) := Good (a : A) | Wrong | Outside.
Arguments Good {A} a.
Arguments Wrong {A}.
Arguments Outside {A}.

#[export] Instance parsed_bind : MBind parsed := fun A B k x =>
  match x with Good a => k a | Wrong => Wrong | Outside => Outside end.

Inductive time_format := no | rfc822 | rfc850 | isoc.
#[export] Instance time_format_eq : EqDecision time_format.
Proof. solve_decision. Defined.

Section Parser.
  Variable value : list Z.

(** [*(value + p)] *)
Definition at_ (p : nat) : parsed Z :=
  match value !! p with Some c => Good c | None => Outside end.

(** A digit at [p], or an error; [a || b] does not read what [b] does when [a]
    holds. *)
Definition digit (p : nat) : parsed Z :=
  c ← at_ p; if (c <? "0"%chr) || ("9"%chr <? c) then Wrong else Good (c - "0"%chr).
Definition digits2 (p : nat) : parsed Z := a ← digit p; b ← digit (S p); Good (a * 10 + b).
Definition digits4 (p : nat) : parsed Z := a ← digits2 p; b ← digits2 (S (S p)); Good (a * 100 + b).
Definition expect (p : nat) (c : Z) : parsed unit :=
  d ← at_ p; if negb (d =? c) then Wrong else Good tt.

(** [src/core/ngx_parse_time.c:36-45] ngx_parse_http_time: the name of the day
    of the week. *)
Fixpoint to_separator (l : list Z) (p : nat) : nat * time_format :=
  match l with
  | [] => (p, no)
  | c :: l => if c =? ","%chr then (p, no) else if c =? " "%chr then (p, isoc) else to_separator l (S p)
  end.

(** [src/core/ngx_parse_time.c:47-50] ngx_parse_http_time: the spaces after
    it. *)
Fixpoint skip_spaces (l : list Z) (p : nat) : nat :=
  match l with
  | [] => p
  | c :: l => if negb (c =? " "%chr) then p else skip_spaces l (S p)
  end.

Definition left_from (p : nat) : Z := Z.of_nat (length value) - Z.of_nat p.

(** [src/core/ngx_parse_time.c:56-78] ngx_parse_http_time: a day before the
    month, for what is not [isoc]. *)
Definition day_first (p : nat) : parsed (time_format * Z * nat) :=
  day ← digits2 p;
  let p := (p + 2)%nat in
  c ← at_ p;
  if c =? " "%chr then if left_from p <? 18 then Wrong else Good (rfc822, day, S p)
  else if c =? "-"%chr then Good (rfc850, day, S p)
  else Wrong.

(** [src/core/ngx_parse_time.c:80-116] ngx_parse_http_time: the month, from
    0. *)
Definition parse_month (p : nat) : parsed Z :=
  c ← at_ p;
  if c =? "J"%chr then
    a ← at_ (p + 1); if a =? "a"%chr then Good 0 else n ← at_ (p + 2); Good (if n =? "n"%chr then 5 else 6)
  else if c =? "F"%chr then Good 1
  else if c =? "M"%chr then r ← at_ (p + 2); Good (if r =? "r"%chr then 2 else 4)
  else if c =? "A"%chr then a ← at_ (p + 1); Good (if a =? "p"%chr then 3 else 7)
  else if c =? "S"%chr then Good 8
  else if c =? "O"%chr then Good 9
  else if c =? "N"%chr then Good 10
  else if c =? "D"%chr then Good 11
  else Wrong.

(** [src/core/ngx_parse_time.c:120-122] ngx_parse_http_time *)
Definition after_month (fmt : time_format) (p : nat) : parsed unit :=
  match fmt with
  | rfc822 => expect p " "%chr
  | rfc850 => expect p "-"%chr
  | _ => Good tt
  end.

(** [src/core/ngx_parse_time.c:148-171] ngx_parse_http_time: a day after the
    month. *)
Definition day_second (p : nat) : parsed (Z * nat) :=
  c ← at_ p;
  let p := if c =? " "%chr then S p else p in
  day ← digit p;
  let p := S p in
  c ← at_ p;
  '(day, p) ← (if negb (c =? " "%chr) then d ← digit p; Good (day * 10 + d, S p) else Good (day, p));
  if left_from p <? 14 then Wrong else Good (day, p).

(** [src/core/ngx_parse_time.c:126-171] ngx_parse_http_time: the day and the
    year, where they are known before the time. *)
Definition day_and_year (fmt : time_format) (day : Z) (p : nat) : parsed (Z * Z * nat) :=
  match fmt with
  | rfc822 => year ← digits4 p; Good (day, year, (p + 4)%nat)
  | rfc850 => year ← digits2 p; Good (day, year + (if year <? 70 then 2000 else 1900), (p + 2)%nat)
  | _ => '(day, p) ← day_second p; Good (day, 0, p)
  end.

(** [src/core/ngx_parse_time.c:173-202] ngx_parse_http_time: the time. *)
Definition parse_clock (p : nat) : parsed (Z * Z * Z) :=
  _ ← expect p " "%chr;
  hour ← digits2 (p + 1);
  _ ← expect (p + 3) ":"%chr;
  min ← digits2 (p + 4);
  _ ← expect (p + 6) ":"%chr;
  sec ← digits2 (p + 7);
  Good (hour, min, sec).
End Parser.

(** [src/core/ngx_parse_time.c:12] mday *)
Definition mday : list Z := [31; 28; 31; 30; 31; 30; 31; 31; 30; 31; 30; 31].

(** [src/core/ngx_parse_time.c:226-233] ngx_parse_http_time: a day the month
    does not have. *)
Definition wrong_day (day month year : Z) : bool :=
  if (day =? 29) && (month =? 1) then
    negb (Z.land year 3 =? 0) || ((year mod 100 =? 0) && negb (year mod 400 =? 0))
  else mday !!! Z.to_nat month <? day.

(** [src/core/ngx_parse_time.c:240-264] ngx_parse_http_time: Gauss' formula;
    the month from 0. *)
Definition gauss (day month year : Z) : Z :=
  let month := month - 1 in
  let '(month, year) := if month <=? 0 then (month + 12, u64 (year - 1)) else (month, year) in
  u64 (365 * year + year / 4 - year / 100 + year / 400 + u64 (Z.quot (367 * month) 12)
       - 30 + day - 1 - 719527 + 31 + 28).

(** [src/core/ngx_parse_time.c:14-276] ngx_parse_http_time *)
Definition ngx_parse_http_time (value : list Z) : parsed Z :=
  let '(p, fmt) := to_separator value 0 in
  let p := skip_spaces (drop (S p) value) (S p) in
  if left_from value p <? 18 then Wrong
  else
    '(fmt, day, p) ← (if decide (fmt = isoc) then Good (isoc, 0, p) else day_first value p);
    month ← parse_month value p;
    let p := (p + 3)%nat in
    _ ← after_month value fmt p;
    '(day, year, p) ← day_and_year value fmt day (S p);
    '(hour, min, sec) ← parse_clock value p;
    year ← (if decide (fmt = isoc) then _ ← expect value (p + 9) " "%chr; digits4 value (p + 10) else Good year);
    if (23 <? hour) || (59 <? min) || (59 <? sec) then Wrong
    else if wrong_day day month year then Wrong
    else Good (s64 (u64 (gauss day month year * 86400 + hour * 3600 + min * 60 + sec))).

Example time_examples :
  let t := 1445412480 in
  ngx_http_time 99 t = Some (bs "Wed, 21 Oct 2015 07:28:00 GMT") /\
  ngx_http_cookie_time 99 t = Some (bs "Wed, 21-Oct-15 07:28:00 GMT") /\
  ngx_parse_http_time (bs "Wed, 21 Oct 2015 07:28:00 GMT") = Good t /\
  ngx_parse_http_time (bs "Wednesday, 21-Oct-15 07:28:00 GMT") = Good t /\
  ngx_parse_http_time (bs "Wed Oct 21 07:28:00 2015") = Good t /\
  ngx_parse_http_time (bs "Wed Feb 29 07:28:00 2015") = Wrong /\
  ngx_parse_http_time (bs "Wed, 00 Oct 2015 07:28:00 GMT") = Good (t - 21 * 86400).
Proof. by vm_compute. Qed.

(** ** The calendar

    The reference: the day after a date. *)

Definition month_days (year month : Z) : Z :=
  if (month =? 2) && is_leap year then 29 else mday !!! Z.to_nat (month - 1).
Definition next_day (date : Z * Z * Z) : Z * Z * Z :=
  let '(year, month, day) := date in
  if day <? month_days year month then (year, month, day + 1)
  else if month <? 12 then (year, month + 1, 1) else (year + 1, 1, 1).
Definition valid_date (date : Z * Z * Z) : Prop :=
  let '(year, month, day) := date in 1 <= month <= 12 /\ 1 <= day <= month_days year month.

(** Days before the year that begins in March of [y], and before the day [d]
    of the month [m] of such a year, from 1. *)
Definition before_year (y : Z) : Z := 365 * y + y / 4 - y / 100 + y / 400.
Definition before_day (m d : Z) : Z := 367 * m / 12 - 30 + d - 1.

(** The day of a date since March 1, 1 BC. *)
Definition day_number (date : Z * Z * Z) : Z :=
  let '(year, month, day) := date in
  if month <=? 2 then before_year (year - 1) + before_day (month + 10) day
  else before_year year + before_day (month - 2) day.

Lemma div_succ k y : 0 < k -> (y + 1) / k = y / k + (if (y + 1) mod k =? 0 then 1 else 0).
Proof.
  intros Hk. pose proof (Z.div_mod (y + 1) k ltac:(lia)). pose proof (Z.div_mod y k ltac:(lia)).
  pose proof (Z.mod_pos_bound (y + 1) k Hk). pose proof (Z.mod_pos_bound y k Hk).
  destruct (Z.eqb_spec ((y + 1) mod k) 0); nia.
Qed.

Lemma before_year_succ y : before_year (y + 1) = before_year y + 365 + (if is_leap (y + 1) then 1 else 0).
Proof.
  unfold before_year, is_leap. rewrite !div_succ by lia.
  destruct (Z.eqb_spec ((y + 1) mod 4) 0), (Z.eqb_spec ((y + 1) mod 100) 0), (Z.eqb_spec ((y + 1) mod 400) 0);
    simpl; Z.to_euclidean_division_equations; lia.
Qed.

Lemma before_year_mono y y' : y <= y' -> before_year y + 365 * (y' - y) <= before_year y'.
Proof. unfold before_year. intros. Z.to_euclidean_division_equations. lia. Qed.

(** The month and the day of the day [yday] of a year that begins in March. *)
Definition month_of (yday : Z) : Z := (yday + 31) * 10 / 306.
Definition day_of (yday : Z) : Z := yday - (367 * month_of yday / 12 - 30) + 1.

Definition march_days (m : Z) : Z := nth (Z.to_nat m) [0; 31; 30; 31; 30; 31; 31; 30; 31; 30; 31; 31; 29] 0.

Lemma month_day_of yday :
  0 <= yday < 366 ->
  1 <= month_of yday <= 12 /\ 1 <= day_of yday <= march_days (month_of yday)
  /\ before_day (month_of yday) (day_of yday) = yday /\ (306 <= yday <-> 11 <= month_of yday).
Proof. intros H. by_range yday 0 366. Qed.

Lemma month_day_before m d :
  1 <= m <= 12 -> 1 <= d <= march_days m ->
  0 <= before_day m d < 366 /\ month_of (before_day m d) = m /\ day_of (before_day m d) = d
  /\ (before_day m d = 365 <-> m = 12 /\ d = 29).
Proof.
  intros Hm Hd. assert (march_days m <= 31) by by_range m 1 12. assert (Hd' : 1 <= d <= 31) by lia.
  assert (d <= march_days m ->
    0 <= before_day m d < 366 /\ month_of (before_day m d) = m /\ day_of (before_day m d) = d
    /\ (before_day m d = 365 <-> m = 12 /\ d = 29)) as Hall; [|apply Hall; lia].
  clear Hd. pattern d. refine (range_enum 1 31 _ _ d _); [by_range m 1 12|lia].
Qed.

(** Equality of dates. *)
Ltac date_eq := try lia; repeat lazymatch goal with |- (_, _) = (_, _) => f_equal end; lia.

(** A date by its year that begins in March, its month of it and its day. *)
Definition from_march (y m d : Z) : Z * Z * Z :=
  if 11 <=? m then (y + 1, m - 10, d) else (y, m + 2, d).
Definition valid_march (y m d : Z) : Prop :=
  1 <= m <= 12 /\ 1 <= d <= march_days m /\ (m = 12 /\ d = 29 -> is_leap (y + 1) = true).

Lemma month_days_march y m :
  1 <= m <= 12 ->
  month_days y m = march_days (if m <=? 2 then m + 10 else m - 2) - (if (m =? 2) && negb (is_leap y) then 1 else 0).
Proof. intros Hm. unfold month_days. destruct (is_leap y); simpl; by_range m 1 12. Qed.

Lemma valid_from_march y m d :
  valid_march y m d ->
  valid_date (from_march y m d) /\ day_number (from_march y m d) = before_year y + before_day m d.
Proof.
  intros (Hm & Hd & Hl). unfold from_march. destruct (Z.leb_spec 11 m); simpl.
  - rewrite (proj2 (Z.leb_le (m - 10) 2)), month_days_march, (proj2 (Z.leb_le (m - 10) 2)) by lia.
    replace (m - 10 + 10) with m by lia. replace (y + 1 - 1) with y by lia. split; [|done].
    split; [lia|]. destruct (Z.eqb_spec (m - 10) 2); simpl; [|lia].
    assert (m = 12) as -> by lia. destruct (is_leap (y + 1)); simpl; [lia|].
    change (march_days 12) with 29 in *. destruct (decide (d = 29)) as [Ed|]; [|lia]. discriminate (Hl (conj eq_refl Ed)).
  - rewrite (proj2 (Z.leb_gt (m + 2) 2)), month_days_march, (proj2 (Z.leb_gt (m + 2) 2)) by lia.
    replace (m + 2 - 2) with m by lia. split; [|done]. split; [lia|].
    rewrite (proj2 (Z.eqb_neq (m + 2) 2)) by lia. simpl. lia.
Qed.

Lemma valid_to_march date :
  valid_date date -> exists y m d, date = from_march y m d /\ valid_march y m d.
Proof.
  destruct date as [[y m] d]. simpl. intros [Hm Hd]. rewrite month_days_march in Hd by done.
  unfold from_march, valid_march. destruct (Z.leb_spec m 2).
  - exists (y - 1), (m + 10), d. rewrite (proj2 (Z.leb_le _ _)) by lia.
    replace (y - 1 + 1) with y by lia. split; [date_eq|].
    split; [lia|]. split; [destruct ((m =? 2) && _); lia|]. intros [Em Ed].
    rewrite (proj2 (Z.eqb_eq m 2)) in Hd by lia. destruct (is_leap y); [done|].
    rewrite Em in Hd. change (march_days 12) with 29 in Hd. simpl in Hd. lia.
  - exists y, (m - 2), d. rewrite (proj2 (Z.leb_gt _ _)) by lia. split; [date_eq|].
    split; [lia|]. split; [destruct ((m =? 2) && _); lia|]. lia.
Qed.

Lemma valid_march_yday y m d :
  valid_march y m d -> 0 <= before_day m d < 365 + (if is_leap (y + 1) then 1 else 0).
Proof.
  intros (Hm & Hd & Hl). destruct (month_day_before m d Hm Hd) as (? & _ & _ & H365).
  destruct (is_leap (y + 1)); [lia|]. destruct (decide (before_day m d = 365)) as [E|]; [|lia].
  apply H365, Hl in E. done.
Qed.

(** A day is in one year only. *)
Lemma year_unique y z a b :
  0 <= a < 365 + (if is_leap (y + 1) then 1 else 0) -> 0 <= b < 365 + (if is_leap (z + 1) then 1 else 0) ->
  before_year y + a = before_year z + b -> y = z /\ a = b.
Proof.
  intros Ha Hb E. destruct (Z.lt_trichotomy y z) as [H|[->|H]]; [exfalso|lia|exfalso].
  - pose proof (before_year_mono (y + 1) z ltac:(lia)). pose proof (before_year_succ y). lia.
  - pose proof (before_year_mono (z + 1) y ltac:(lia)). pose proof (before_year_succ z). lia.
Qed.

Lemma day_number_inj date date' :
  valid_date date -> valid_date date' -> day_number date = day_number date' -> date = date'.
Proof.
  intros (y & m & d & -> & H)%valid_to_march (z & n & e & -> & H')%valid_to_march.
  rewrite (proj2 (valid_from_march _ _ _ H)), (proj2 (valid_from_march _ _ _ H')). intros E.
  destruct (year_unique _ _ _ _ (valid_march_yday _ _ _ H) (valid_march_yday _ _ _ H') E) as [-> Ed].
  destruct H as (Hm & Hd & _), H' as (Hn & He & _).
  destruct (month_day_before m d Hm Hd) as (_ & Em & Ed' & _).
  destruct (month_day_before n e Hn He) as (_ & En & Ee & _). assert (m = n /\ d = e) as [-> ->]; [|done].
  split; congruence.
Qed.

(** The days of a month of a year that begins in March. *)
Definition march_length (y m : Z) : Z :=
  march_days m - (if (m =? 12) && negb (is_leap (y + 1)) then 1 else 0).

Lemma march_length_pos y m : 1 <= m <= 12 -> 28 <= march_length y m.
Proof. intros Hm. unfold march_length. destruct (is_leap (y + 1)); simpl; by_range m 1 12. Qed.

Lemma valid_march_length y m d : valid_march y m d <-> 1 <= m <= 12 /\ 1 <= d <= march_length y m.
Proof.
  unfold valid_march, march_length. destruct (Z.eqb_spec m 12) as [->|]; [|simpl; intuition lia].
  change (march_days 12) with 29. destruct (is_leap (y + 1)); simpl; [intuition lia|].
  split; [|intuition lia]. intros (? & ? & Hl). split; [done|]. destruct (decide (d = 29)) as [->|]; [|lia].
  discriminate Hl. done.
Qed.

Lemma next_from_march y m d :
  1 <= m <= 12 ->
  next_day (from_march y m d) =
    if d <? march_length y m then from_march y m (d + 1)
    else if m <? 12 then from_march y (m + 1) 1 else from_march (y + 1) 1 1.
Proof.
  intros Hm. unfold from_march, march_length. destruct (Z.leb_spec 11 m); simpl.
  - rewrite month_days_march by lia. rewrite (proj2 (Z.leb_le (m - 10) 2)) by lia.
    replace (m - 10 + 10) with m by lia. replace (m - 10 =? 2) with (m =? 12) by (apply eq_true_iff_eq; lia).
    destruct (d <? _); [done|]. rewrite (proj2 (Z.ltb_lt (m - 10) 12)) by lia.
    destruct (Z.ltb_spec m 12); [|date_eq]. rewrite (proj2 (Z.leb_le 11 (m + 1))) by lia. date_eq.
  - rewrite month_days_march by lia. rewrite (proj2 (Z.leb_gt (m + 2) 2)) by lia.
    replace (m + 2 - 2) with m by lia. rewrite (proj2 (Z.eqb_neq m 12)), (proj2 (Z.eqb_neq (m + 2) 2)) by lia.
    simpl. destruct (d <? _); [done|]. rewrite (proj2 (Z.ltb_lt m 12)) by lia.
    destruct (Z.ltb_spec (m + 2) 12), (Z.leb_spec 11 (m + 1)); date_eq.
Qed.

Lemma before_next_month m : 1 <= m < 12 -> before_day (m + 1) 1 = before_day m (march_days m) + 1.
Proof. intros Hm. by_range m 1 11. Qed.

Lemma next_day_number date :
  valid_date date -> valid_date (next_day date) /\ day_number (next_day date) = day_number date + 1.
Proof.
  intros (y & m & d & -> & Hv)%valid_to_march. rewrite (proj2 (valid_from_march _ _ _ Hv)).
  apply valid_march_length in Hv as [Hm Hd]. rewrite next_from_march by done.
  destruct (Z.ltb_spec d (march_length y m)) as [|Hge]; [|destruct (Z.ltb_spec m 12)].
  all: match goal with |- valid_date (from_march ?y ?m ?d) /\ _ =>
    assert (Hv : valid_march y m d) by (apply valid_march_length; pose proof (march_length_pos y m); lia) end.
  all: destruct (valid_from_march _ _ _ Hv) as [Hvd ->]; split; [done|].
  - unfold before_day. lia.
  - assert (d = march_days m) as ->; [|rewrite before_next_month; lia].
    unfold march_length in *. rewrite (proj2 (Z.eqb_neq m 12)) in * by lia. simpl in *. lia.
  - assert (m = 12) as -> by lia. assert (d = march_length y 12) as -> by lia.
    rewrite before_year_succ. unfold march_length. change (march_days 12) with 29. unfold before_day.
    change (367 * 12 / 12) with 367. change (367 * 1 / 12) with 30. destruct (is_leap (y + 1)); simpl; lia.
Qed.

(** Days for which nothing of [ngx_gmtime] wraps. *)
Definition MAX_DAYS : Z := 2 ^ 39.

(** The first guess for the year is right, or one too late. *)
Lemma year_guess n :
  0 <= n -> let y := (n + 2) * 400 / 146097 in
  before_year y - 3 <= n < before_year y + 365 /\ 0 <= y /\ 365 * y <= n + 2.
Proof. intros Hn y. subst y. unfold before_year. Z.to_euclidean_division_equations. lia. Qed.

Lemma gm_date_march days :
  0 <= days < MAX_DAYS ->
  exists y yday, before_year y + yday = days + 719468
    /\ 0 <= yday < 365 + (if is_leap (y + 1) then 1 else 0)
    /\ 0 <= y /\ 365 * y <= days + 719470
    /\ gm_date days = from_march y (month_of yday) (day_of yday).
Proof.
  unfold MAX_DAYS. intros Hd. unfold gm_date. rewrite (u64_small (days - (31 + 28) + 719527)) by lia.
  replace (days - (31 + 28) + 719527) with (days + 719468) by lia. set (n := days + 719468) in *.
  rewrite (u64_small ((n + 2) * 400)) by lia. change (365 * 400 + 100 - 4 + 1) with 146097.
  destruct (year_guess n ltac:(lia)) as [Hn Hy]. set (y0 := (n + 2) * 400 / 146097) in *.
  change (365 * y0 + y0 / 4 - y0 / 100 + y0 / 400) with (before_year y0).
  assert (0 <= before_year y0) by (pose proof (before_year_mono 0 y0); change (before_year 0) with 0 in *; lia).
  rewrite (u64_small (before_year y0)), (s64_small (n - before_year y0)) by lia.
  set (guess := if n - before_year y0 <? 0 then _ else _).
  assert (Hg : exists y yday, guess = (y, yday) /\ before_year y + yday = n
    /\ 0 <= yday < 365 + (if is_leap (y + 1) then 1 else 0) /\ 0 <= y /\ 365 * y <= n + 2).
  { subst guess. destruct (Z.ltb_spec (n - before_year y0) 0).
    - pose proof (before_year_succ (y0 - 1)) as Hs. replace (y0 - 1 + 1) with y0 in * by lia.
      assert (0 < y0) by (destruct (decide (y0 = 0)) as [E|]; [rewrite E in *; change (before_year 0) with 0 in *|]; lia).
      exists (y0 - 1), (365 + (if is_leap y0 then 1 else 0) + (n - before_year y0)).
      replace (y0 - 1 + 1) with y0 by lia. rewrite u64_small, s64_small by (destruct (is_leap y0); lia).
      split; [done|]. destruct (is_leap y0); lia.
    - exists y0, (n - before_year y0). split; [done|]. destruct (is_leap (y0 + 1)); lia. }
  destruct Hg as (y & yday & -> & En & Hyd & Hy0 & Hyn). exists y, yday. do 4 (split; [done || lia|]).
  assert (Hyd' : 0 <= yday < 366) by (destruct (is_leap (y + 1)); lia).
  destruct (month_day_of yday Hyd') as (Hm & Hday & _ & H306).
  rewrite Z.quot_div_nonneg by lia. change ((yday + 31) * 10 / 306) with (month_of yday).
  rewrite (u64_small (month_of yday)), (u64_small (367 * month_of yday)) by lia.
  change (yday - (367 * month_of yday / 12 - 30) + 1) with (day_of yday).
  assert (march_days (month_of yday) <= 31) by by_range (month_of yday) 1 12.
  rewrite (u64_small (day_of yday)) by lia. unfold from_march.
  replace (11 <=? month_of yday) with (306 <=? yday) by (apply leb_ext; lia).
  destruct (Z.leb_spec 306 yday); rewrite ?u64_small by lia; date_eq.
Qed.

Lemma gm_date_spec days :
  0 <= days < MAX_DAYS -> valid_date (gm_date days) /\ day_number (gm_date days) = days + 719468.
Proof.
  intros Hd. destruct (gm_date_march days Hd) as (y & yday & E & Hy & _ & _ & ->).
  assert (H366 : 0 <= yday < 366) by (destruct (is_leap (y + 1)); lia).
  destruct (month_day_of yday H366) as (Hm & Hday & Hb & _).
  assert (Hv : valid_march y (month_of yday) (day_of yday)).
  { split; [done|]. split; [done|]. intros [E1 E2]. rewrite E1, E2 in Hb.
    change (before_day 12 29) with 365 in Hb. destruct (is_leap (y + 1)); [done|lia]. }
  destruct (valid_from_march _ _ _ Hv) as [? ->]. split; [done|]. by rewrite Hb.
Qed.

Lemma gm_date_calendar n :
  Z.of_nat n < MAX_DAYS -> gm_date (Z.of_nat n) = Nat.iter n next_day (1970, 1, 1).
Proof.
  induction n as [|n IH]; intros Hn; [by vm_compute|].
  rewrite Nat2Z.inj_succ in *. simpl. rewrite <- IH by lia.
  destruct (gm_date_spec (Z.of_nat n)) as [Hv E]; [lia|].
  destruct (next_day_number _ Hv) as [Hv' E'].
  destruct (gm_date_spec (Z.succ (Z.of_nat n))) as [Hv2 E2]; [lia|].
  apply day_number_inj; [done|done|lia].
Qed.

(** A year begins on the day 306 of that which begins in March. *)
Lemma day_number_year year month day :
  valid_date (year, month, day) ->
  before_year (year - 1) + 306 <= day_number (year, month, day) < before_year year + 306.
Proof.
  intros (y & m & d & E & Hv)%valid_to_march. rewrite E, (proj2 (valid_from_march _ _ _ Hv)).
  pose proof (valid_march_yday _ _ _ Hv) as Hb. pose proof (before_year_succ y) as Hs.
  destruct Hv as (Hm & Hd & _). destruct (month_day_before m d Hm Hd) as (H366 & Em & _).
  destruct (month_day_of _ H366) as (_ & _ & _ & H306). rewrite Em in H306.
  unfold from_march in E. destruct (Z.leb_spec 11 m); injection E as -> _ _.
  - replace (y + 1 - 1) with y by lia. rewrite Hs. lia.
  - pose proof (before_year_succ (y - 1)) as Hs'. replace (y - 1 + 1) with y in Hs' by lia.
    destruct (is_leap y); lia.
Qed.

Lemma month_days_max y m : 1 <= m <= 12 -> month_days y m <= 31.
Proof. intros Hm. unfold month_days. case_match; [lia|]. by_range m 1 12. Qed.

Lemma gm_date_small days :
  0 <= days < MAX_DAYS ->
  let '(year, mon, day) := gm_date days in
  1970 <= year < 2 ^ 31 /\ 1 <= mon <= 12 /\ 1 <= day <= 31
  /\ (days < 2932897 -> year <= 9999).
Proof.
  intros Hd. destruct (gm_date_spec days Hd) as [Hv Hn]. destruct (gm_date days) as [[year mon] day].
  pose proof (day_number_year _ _ _ Hv) as Hy. rewrite Hn in Hy. destruct Hv as [Hm Hd'].
  pose proof (month_days_max year mon Hm). split_and!; try lia.
  - destruct (Z.le_gt_cases 1970 year); [done|]. pose proof (before_year_mono year 1969) as Hb.
    change (before_year 1969) with 719162 in Hb. lia.
  - destruct (Z.lt_ge_cases year (2 ^ 31)); [done|]. pose proof (before_year_mono 0 (year - 1)) as Hb.
    change (before_year 0) with 0 in Hb. unfold MAX_DAYS in *. lia.
  - intros H9. destruct (Z.le_gt_cases year 9999); [done|]. pose proof (before_year_mono 9999 (year - 1)) as Hb.
    change (before_year 9999) with 3652059 in Hb. lia.
Qed.

(** C38: Up to the year 1,500,000,000 [ngx_gmtime] is the Gregorian calendar,
    counted from January 1, 1970, a Thursday, in days of 86400 seconds. *)
Theorem ngx_gmtime_calendar t :
  0 <= t < 86400 * MAX_DAYS ->
  let '(year, month, day) := Nat.iter (Z.to_nat (t / 86400)) next_day (1970, 1, 1) in
  ngx_gmtime t =
    Tm (t mod 60) (t / 60 mod 60) (t / 3600 mod 24) day month year ((t / 86400 + 4) mod 7).
Proof.
  intros Ht. set (days := t / 86400). assert (Hd : 0 <= days < MAX_DAYS).
  { unfold days, MAX_DAYS in *. Z.to_euclidean_division_equations. lia. }
  rewrite <- gm_date_calendar, Z2Nat.id by lia. unfold ngx_gmtime.
  rewrite u64_small by (unfold MAX_DAYS in *; lia). fold days.
  pose proof (gm_date_small days Hd) as Hs. destruct (gm_date days) as [[year mon] day].
  destruct Hs as (? & ? & ? & _).
  assert (E1 : t mod 86400 / 3600 = t / 3600 mod 24) by (Z.to_euclidean_division_equations; lia).
  assert (E2 : (t mod 86400) mod 3600 / 60 = t / 60 mod 60) by (Z.to_euclidean_division_equations; lia).
  assert (E3 : ((t mod 86400) mod 3600) mod 60 = t mod 60) by (Z.to_euclidean_division_equations; lia).
  rewrite E1, E2, E3. replace (4 + days) with (days + 4) by lia.
  pose proof (Z.mod_pos_bound t 60 ltac:(lia)). pose proof (Z.mod_pos_bound (t / 60) 60 ltac:(lia)).
  pose proof (Z.mod_pos_bound (t / 3600) 24 ltac:(lia)). pose proof (Z.mod_pos_bound (days + 4) 7 ltac:(lia)).
  by rewrite !s32_small by (unfold INT_MIN, INT_MAX; lia).
Qed.

(** ** Printing a date *)

Lemma hex_lower_digit k : 0 <= k < 10 -> hex_lower !!! Z.to_nat k = 48 + k.
Proof. intros Hk. by_range k 0 10. Qed.

Lemma num_digits_1 room n p : 0 <= n < 10 -> num_digits hex_lower 10 (S room) n p = Some (48 + n :: p).
Proof.
  intros Hn. unfold num_digits; fold num_digits. rewrite Z.mod_small, Z.div_small, hex_lower_digit by lia. done.
Qed.
Lemma num_digits_S room n p :
  10 <= n -> num_digits hex_lower 10 (S room) n p = num_digits hex_lower 10 room (n / 10) (48 + n mod 10 :: p).
Proof.
  intros Hn. unfold num_digits at 1; fold num_digits. pose proof (Z.mod_pos_bound n 10 ltac:(lia)). rewrite hex_lower_digit by lia.
  rewrite (proj2 (Z.eqb_neq (n / 10) 0)); [done|]. Z.to_euclidean_division_equations. lia.
Qed.

(** [%02d] and [%4d] of numbers with as many digits. *)
Definition two_digits (n : Z) : list Z := [48 + n / 10; 48 + n mod 10].
Definition four_digits (n : Z) : list Z :=
  [48 + n / 10 / 10 / 10; 48 + (n / 10 / 10) mod 10; 48 + (n / 10) mod 10; 48 + n mod 10].

Lemma sprintf_two_digits room n :
  0 <= n < 100 -> (2 <= room)%nat -> ngx_sprintf_num room n "0"%chr 0 2 = Some (two_digits n).
Proof.
  intros Hn Hr. unfold ngx_sprintf_num. simpl (0 =? 0).
  rewrite (proj2 (Z.leb_le n NGX_MAX_UINT32_VALUE)), u32_small by (unfold NGX_MAX_UINT32_VALUE; lia).
  destruct room as [|[|room]]; [lia..|]. unfold NGX_INT64_LEN, two_digits. destruct (decide (n < 10)).
  - rewrite num_digits_1, Z.div_small, Z.mod_small by lia. done.
  - rewrite num_digits_S, num_digits_1 by (Z.to_euclidean_division_equations; lia). done.
Qed.

Lemma sprintf_four_digits room n :
  1000 <= n < 10000 -> (4 <= room)%nat -> ngx_sprintf_num room n " "%chr 0 4 = Some (four_digits n).
Proof.
  intros Hn Hr. unfold ngx_sprintf_num. simpl (0 =? 0).
  rewrite (proj2 (Z.leb_le n NGX_MAX_UINT32_VALUE)), u32_small by (unfold NGX_MAX_UINT32_VALUE; lia).
  destruct room as [|[|[|[|room]]]]; [lia..|]. unfold NGX_INT64_LEN, four_digits.
  rewrite !num_digits_S, num_digits_1 by (Z.to_euclidean_division_equations; lia). done.
Qed.

(** A date as RFC 1123 has it. *)
Definition imf_date (w m : list Z) (day year hour min sec : Z) : list Z :=
  w ++ bs ", " ++ two_digits day ++ bs " " ++ m ++ bs " " ++ four_digits year ++ bs " "
    ++ two_digits hour ++ bs ":" ++ two_digits min ++ bs ":" ++ two_digits sec ++ bs " GMT".

Lemma put_two_digits room n :
  0 <= n < 100 -> (2 <= room)%nat -> put room (signed_number (Conv "0"%chr 2 true 0 false 0 SIZE_MAX) (s32 n)) = Some (two_digits n).
Proof.
  intros Hn Hr. rewrite s32_small by (unfold INT_MIN, INT_MAX; lia). unfold signed_number.
  rewrite (proj2 (Z.ltb_ge n 0)) by lia. cbn [put zero width hex]. rewrite u64_small by lia.
  rewrite Nat.sub_0_r. change (Z.to_nat 2) with 2%nat. by rewrite sprintf_two_digits.
Qed.
Lemma put_four_digits room n :
  1000 <= n < 10000 -> (4 <= room)%nat -> put room (signed_number (Conv " "%chr 4 true 0 false 0 SIZE_MAX) (s32 n)) = Some (four_digits n).
Proof.
  intros Hn Hr. rewrite s32_small by (unfold INT_MIN, INT_MAX; lia). unfold signed_number.
  rewrite (proj2 (Z.ltb_ge n 0)) by lia. cbn [put zero width hex]. rewrite u64_small by lia.
  rewrite Nat.sub_0_r. change (Z.to_nat 4) with 4%nat. by rewrite sprintf_four_digits.
Qed.

(** The rounds of [ngx_vslprintf] on these formats. *)
Lemma print_char n room c fmt args :
  (c =? "%"%chr) = false ->
  vslprintf_loop (S n) (S room) (c :: fmt) args = (l ← vslprintf_loop n room fmt args; Some (c :: l)).
Proof. intros E. simpl. by rewrite E. Qed.

Lemma print_02d n room fmt v args :
  0 <= v < 100 ->
  vslprintf_loop (S n) (S (S room)) (37 :: 48 :: 50 :: 100 :: fmt) (ANum v :: args)
  = (l ← vslprintf_loop n room fmt args; Some (two_digits v ++ l)).
Proof.
  intros Hv. change (vslprintf_loop (S n) (S (S room)) (37 :: 48 :: 50 :: 100 :: fmt) (ANum v :: args)) with
    (a ← put (S (S room)) (signed_number (Conv "0"%chr 2 true 0 false 0 SIZE_MAX) (s32 v));
     l ← vslprintf_loop n (S (S room) - length a) fmt args; Some (a ++ l)).
  rewrite put_two_digits by lia. cbn [mbind option_bind two_digits List.length].
  by replace (S (S room) - 2)%nat with room by lia.
Qed.

Lemma print_4d n room fmt v args :
  1000 <= v < 10000 ->
  vslprintf_loop (S n) (S (S (S (S room)))) (37 :: 52 :: 100 :: fmt) (ANum v :: args)
  = (l ← vslprintf_loop n room fmt args; Some (four_digits v ++ l)).
Proof.
  intros Hv. change (vslprintf_loop (S n) (S (S (S (S room)))) (37 :: 52 :: 100 :: fmt) (ANum v :: args)) with
    (a ← put (S (S (S (S room)))) (signed_number (Conv " "%chr 4 true 0 false 0 SIZE_MAX) (s32 v));
     l ← vslprintf_loop n (S (S (S (S room))) - length a) fmt args; Some (a ++ l)).
  rewrite put_four_digits by lia. cbn [mbind option_bind four_digits List.length].
  by replace (S (S (S (S room))) - 4)%nat with room by lia.
Qed.

Lemma copy_name (name : list Z) room :
  Forall (fun c => c <> 0) name -> copy_text (length name + room) (name ++ [0]) = Some name.
Proof.
  induction 1 as [|c name Hc Hn IH]; [done|]. simpl. rewrite (proj2 (Z.eqb_neq c 0)) by done. by rewrite IH.
Qed.

Lemma print_name n room fmt name args :
  length name = 3%nat -> Forall (fun c => c <> 0) name ->
  vslprintf_loop (S n) (S (S (S room))) (37 :: 115 :: fmt) (APtr (name ++ [0]) :: args)
  = (l ← vslprintf_loop n room fmt args; Some (name ++ l)).
Proof.
  intros Hl Hn. change (vslprintf_loop (S n) (S (S (S room))) (37 :: 115 :: fmt) (APtr (name ++ [0]) :: args)) with
    (a ← copy_text (3 + room) (name ++ [0]);
     l ← vslprintf_loop n (S (S (S room)) - length a) fmt args; Some (a ++ l)).
  rewrite <- Hl at 1. rewrite copy_name by done. cbn [mbind option_bind]. rewrite Hl.
  by replace (S (S (S room)) - 3)%nat with room by lia.
Qed.

Lemma entry_name (table : list (list Z)) i :
  (forall name, name ∈ table -> length name = 3%nat /\ Forall (fun c => c <> 0) name) ->
  0 <= i < Z.of_nat (length table) ->
  exists name, table !! Z.to_nat i = Some name /\ entry table i = Some (APtr (name ++ [0]))
    /\ length name = 3%nat /\ Forall (fun c => c <> 0) name.
Proof.
  intros Ht Hi. destruct (lookup_lt_is_Some_2 table (Z.to_nat i)) as [name E]; [lia|]. exists name.
  unfold entry. rewrite (proj2 (Z.ltb_ge i 0)), E by lia. split; [done|]. split; [done|].
  apply Ht. by eapply list_elem_of_lookup_2.
Qed.

Lemma names_ok (table : list (list Z)) :
  forallb (fun name => bool_decide (length name = 3%nat /\ Forall (fun c => c <> 0) name)) table = true ->
  forall name, name ∈ table -> length name = 3%nat /\ Forall (fun c => c <> 0) name.
Proof. intros H name Hn. rewrite forallb_forall in H. by eapply bool_decide_eq_true_1, H, list_elem_of_In. Qed.

Lemma ngx_http_time_text room t :
  let tm := ngx_gmtime t in
  0 <= tm_wday tm < 7 -> 1 <= tm_mon tm <= 12 -> 0 <= tm_mday tm < 100 -> 1000 <= tm_year tm < 10000 ->
  0 <= tm_hour tm < 100 -> 0 <= tm_min tm < 100 -> 0 <= tm_sec tm < 100 ->
  exists w m, week !! Z.to_nat (tm_wday tm) = Some w /\ months !! Z.to_nat (tm_mon tm - 1) = Some m
    /\ length w = 3%nat /\ length m = 3%nat
    /\ ngx_http_time (29 + room) t =
         Some (imf_date w m (tm_mday tm) (tm_year tm) (tm_hour tm) (tm_min tm) (tm_sec tm)).
Proof.
  intros tm Hw Hm Hd Hy Hh Hmi Hs. unfold ngx_http_time. fold tm.
  destruct (entry_name week (tm_wday tm)) as (w & Ew & -> & Lw & Nw); [by apply names_ok|done|].
  destruct (entry_name months (tm_mon tm - 1)) as (m & Em & -> & Lm & Nm);
    [by apply names_ok|change (Z.of_nat (length months)) with 12; lia|].
  exists w, m. do 4 (split; [done|]). cbn [mbind option_bind]. unfold ngx_vslprintf.
  let f := eval vm_compute in (bs "%s, %02d %s %4d %02d:%02d:%02d GMT") in
  change (bs "%s, %02d %s %4d %02d:%02d:%02d GMT") with f.
  cbn [List.length Nat.add].
  rewrite print_name, !print_char, print_02d, print_char, print_name, print_char, print_4d, print_char,
    print_02d, print_char, print_02d, print_char, print_02d, !print_char by done.
  cbn [vslprintf_loop mbind option_bind]. done.
Qed.

(** ** Reading a date *)

Lemma digit_at value p k : value !! p = Some (48 + k) -> 0 <= k < 10 -> digit value p = Good k.
Proof.
  intros E Hk. unfold digit, at_. rewrite E. cbn [mbind parsed_bind].
  rewrite (proj2 (Z.ltb_ge _ _)), (proj2 (Z.ltb_ge _ _)) by lia. cbn [orb]. f_equal. lia.
Qed.

Lemma digits2_at value p n :
  value !! p = Some (48 + n / 10) -> value !! S p = Some (48 + n mod 10) -> 0 <= n < 100 ->
  digits2 value p = Good n.
Proof.
  intros E1 E2 Hn. unfold digits2. pose proof (Z.mod_pos_bound n 10 ltac:(lia)).
  rewrite (digit_at _ _ _ E1) by (Z.to_euclidean_division_equations; lia). cbn [mbind parsed_bind].
  rewrite (digit_at _ _ _ E2) by lia. cbn [mbind parsed_bind]. f_equal. Z.to_euclidean_division_equations. lia.
Qed.

Lemma digits4_at value p n :
  value !! p = Some (48 + n / 10 / 10 / 10) -> value !! S p = Some (48 + (n / 10 / 10) mod 10) ->
  value !! S (S p) = Some (48 + (n / 10) mod 10) -> value !! S (S (S p)) = Some (48 + n mod 10) ->
  0 <= n < 10000 -> digits4 value p = Good n.
Proof.
  intros E1 E2 E3 E4 Hn. unfold digits4.
  rewrite (digits2_at value p (n / 10 / 10)) by (done || (Z.to_euclidean_division_equations; lia)).
  cbn [mbind parsed_bind]. rewrite (digits2_at value (S (S p)) (n mod 100)); [|..].
  - cbn [mbind parsed_bind]. f_equal. Z.to_euclidean_division_equations. lia.
  - rewrite E3. do 2 f_equal. Z.to_euclidean_division_equations. lia.
  - rewrite E4. do 2 f_equal. Z.to_euclidean_division_equations. lia.
  - Z.to_euclidean_division_equations. lia.
Qed.

Lemma expect_at value p c : value !! p = Some c -> expect value p c = Good tt.
Proof. intros E. unfold expect, at_. rewrite E. cbn [mbind parsed_bind]. by rewrite Z.eqb_refl. Qed.

Lemma parse_month_at value p k m0 m1 m2 :
  months !! k = Some [m0; m1; m2] ->
  value !! p = Some m0 -> value !! (p + 1)%nat = Some m1 -> value !! (p + 2)%nat = Some m2 ->
  parse_month value p = Good (Z.of_nat k).
Proof.
  intros Ek E0 E1 E2. unfold parse_month, at_. rewrite E0, E1, E2.
  do 12 (destruct k as [|k]; [vm_compute in Ek; injection Ek as <- <- <-; by vm_compute|]).
  by vm_compute in Ek.
Qed.

(** Seconds of a date and a time of day. *)
Definition seconds (date : Z * Z * Z) (hour min sec : Z) : Z :=
  (day_number date - 719468) * 86400 + hour * 3600 + min * 60 + sec.

Lemma gauss_day_number year month day :
  valid_date (year, month, day) -> 1970 <= year -> day_number (year, month, day) < 2 ^ 63 ->
  gauss day (month - 1) year = day_number (year, month, day) - 719468.
Proof.
  intros Hv Hy Hn. pose proof (day_number_year _ _ _ Hv) as Hyear. destruct Hv as [Hm _].
  pose proof (before_year_mono 1969 (year - 1) ltac:(lia)) as Hb. change (before_year 1969) with 719162 in Hb.
  pose proof (before_year_mono 0 (year - 1) ltac:(lia)) as H0. change (before_year 0) with 0 in H0.
  assert (Hq : forall m, 1 <= m <= 12 -> u64 (Z.quot (367 * m) 12) = 367 * m / 12).
  { intros m Hm'. rewrite Z.quot_div_nonneg, u64_small by (Z.to_euclidean_division_equations; lia). done. }
  unfold gauss, day_number in *. destruct (Z.leb_spec month 2), (Z.leb_spec (month - 1 - 1) 0); try lia.
  - replace (month - 1 - 1 + 12) with (month + 10) by lia.
    rewrite Hq, (u64_small (year - 1)) by lia.
    unfold before_year, before_day in *. rewrite u64_small by lia. lia.
  - replace (month - 1 - 1) with (month - 2) by lia. rewrite Hq by lia.
    unfold before_year, before_day in *. rewrite u64_small by lia. lia.
Qed.

Lemma wrong_day_valid year month day :
  valid_date (year, month, day) -> wrong_day day (month - 1) year = false.
Proof.
  intros [Hm Hd]. unfold wrong_day, month_days, is_leap in *.
  replace (month - 1 =? 1) with (month =? 2) by (apply eq_true_iff_eq; lia).
  change 3 with (Z.ones 2). rewrite Z.land_ones by lia. change (2 ^ 2) with 4.
  destruct (Z.eqb_spec month 2) as [->|]; cbn [andb] in *.
  - rewrite andb_true_r. destruct (Z.eqb_spec day 29) as [->|].
    + destruct (year mod 4 =? 0), (year mod 100 =? 0), (year mod 400 =? 0); simpl in *; try done; vm_compute in Hd; by destruct Hd.
    + apply Z.ltb_ge. change (mday !!! Z.to_nat (2 - 1)) with 28 in *. destruct (_ && _); lia.
  - rewrite andb_false_r. apply Z.ltb_ge. lia.
Qed.

Lemma to_separator_name (w l : list Z) p :
  Forall (fun c => c <> 44 /\ c <> 32) w -> to_separator (w ++ 44 :: l) p = ((length w + p)%nat, no).
Proof.
  intros Hw. revert p. induction Hw as [|c w [H1 H2] Hw IH]; intros p; [done|]. simpl.
  rewrite (proj2 (Z.eqb_neq c 44)), (proj2 (Z.eqb_neq c 32)), IH by done. f_equal. lia.
Qed.

(** A time of day. *)
Definition valid_clock (hour min sec : Z) : Prop := 0 <= hour < 24 /\ 0 <= min < 60 /\ 0 <= sec < 60.

(** The end of the parser, once all the numbers are known. *)
Lemma parse_end year month day hour min sec :
  valid_date (year, month, day) -> 1970 <= year < 10000 -> valid_clock hour min sec ->
  (if (23 <? hour) || (59 <? min) || (59 <? sec) then Wrong
   else if wrong_day day (month - 1) year then Wrong
   else Good (s64 (u64 (gauss day (month - 1) year * 86400 + hour * 3600 + min * 60 + sec))))
  = Good (seconds (year, month, day) hour min sec).
Proof.
  intros Hv Hy (Hh & Hm & Hs). rewrite !(proj2 (Z.ltb_ge _ _)) by lia. cbn [orb].
  rewrite wrong_day_valid by done. pose proof (day_number_year _ _ _ Hv) as Hn.
  pose proof (before_year_mono year 9999 ltac:(lia)) as Hb. change (before_year 9999) with 3652059 in Hb.
  pose proof (before_year_mono 1969 (year - 1) ltac:(lia)) as Hb'. change (before_year 1969) with 719162 in Hb'.
  rewrite gauss_day_number by (done || lia). fold (seconds (year, month, day) hour min sec).
  assert (0 <= seconds (year, month, day) hour min sec < 2 ^ 50) by (unfold seconds; lia).
  rewrite u64_small, s64_small by lia. done.
Qed.

Lemma parse_imf_date w m k year day hour min sec :
  length w = 3%nat -> Forall (fun c => c <> 44 /\ c <> 32) w ->
  months !! k = Some m -> length m = 3%nat ->
  valid_date (year, Z.of_nat k + 1, day) -> 1970 <= year < 10000 -> valid_clock hour min sec ->
  ngx_parse_http_time (imf_date w m day year hour min sec)
    = Good (seconds (year, Z.of_nat k + 1, day) hour min sec).
Proof.
  intros Lw Nw Em Lm Hv Hy Hc. pose proof Hc as (Hh & Hmi & Hs).
  assert (Hd : 1 <= day <= 31).
  { destruct Hv as [Hm Hd]. pose proof (month_days_max year _ Hm). lia. }
  unfold ngx_parse_http_time. unfold imf_date at 1. change (bs ", ") with [44; 32]. cbn [app].
  rewrite to_separator_name, Lw by done. cbn [Nat.add].
  destruct w as [|w0 [|w1 [|w2 []]]]; try done. destruct m as [|m0 [|m1 [|m2 []]]]; try done.
  set (value := imf_date _ _ _ _ _ _ _).
  assert (El : length value = 29%nat) by done.
  assert (Hskip : skip_spaces (drop 4 value) 4 = 5%nat).
  { change (drop 4 value) with (32 :: 48 + day / 10 :: drop 6 value). cbn [skip_spaces].
    change (32 =? " "%chr) with true. cbn [negb]. change " "%chr with 32.
    rewrite (proj2 (Z.eqb_neq (48 + day / 10) 32)) by (Z.to_euclidean_division_equations; lia). done. }
  rewrite Hskip. unfold left_from at 1. rewrite El. change (Z.of_nat 29 - Z.of_nat 5 <? 18) with false.
  rewrite decide_False by done. unfold day_first.
  rewrite (digits2_at value 5 day) by (done || lia). cbn [mbind parsed_bind Nat.add].
  change (at_ value 7) with (Good 32). cbn [mbind parsed_bind]. change (32 =? " "%chr) with true.
  unfold left_from at 1. rewrite El. change (Z.of_nat 29 - Z.of_nat 7 <? 18) with false.
  cbn [mbind parsed_bind].
  rewrite (parse_month_at value 8 k m0 m1 m2) by done. cbn [mbind parsed_bind Nat.add after_month].
  rewrite (expect_at value 11) by done. cbn [mbind parsed_bind day_and_year].
  rewrite (digits4_at value 12 year) by (done || lia). cbn [mbind parsed_bind Nat.add]. unfold parse_clock.
  cbn [Nat.add]. rewrite (expect_at value 16), (digits2_at value 17 hour), (expect_at value 19), (digits2_at value 20 min),
    (expect_at value 22), (digits2_at value 23 sec) by (done || lia). cbn [mbind parsed_bind].
  rewrite decide_False by done. cbn [mbind parsed_bind].
  pose proof (parse_end year (Z.of_nat k + 1) day hour min sec Hv Hy Hc) as He.
  by replace (Z.of_nat k + 1 - 1) with (Z.of_nat k) in He by lia.
Qed.

Lemma week_plain w : w ∈ week -> length w = 3%nat /\ Forall (fun c => c <> 44 /\ c <> 32) w.
Proof.
  intros Hw. assert (H : forallb (fun w => bool_decide (length w = 3%nat /\ Forall (fun c => c <> 44 /\ c <> 32) w)) week = true)
    by by vm_compute.
  rewrite forallb_forall in H. by eapply bool_decide_eq_true_1, H, list_elem_of_In.
Qed.

(** What [ngx_gmtime] makes of a time until the end of the year 9999. *)
Lemma gmtime_fields t :
  0 <= t < 253402300800 ->
  let tm := ngx_gmtime t in
  valid_date (tm_year tm, tm_mon tm, tm_mday tm) /\ 1970 <= tm_year tm <= 9999
  /\ valid_clock (tm_hour tm) (tm_min tm) (tm_sec tm) /\ 0 <= tm_wday tm < 7
  /\ seconds (tm_year tm, tm_mon tm, tm_mday tm) (tm_hour tm) (tm_min tm) (tm_sec tm) = t.
Proof.
  intros Ht. set (days := t / 86400).
  assert (Hd : 0 <= days < 2932897) by (unfold days; Z.to_euclidean_division_equations; lia).
  assert (Hd' : 0 <= days < MAX_DAYS) by (unfold MAX_DAYS; lia).
  destruct (gm_date_spec days Hd') as [Hv Hn]. pose proof (gm_date_small days Hd') as Hs.
  unfold ngx_gmtime. rewrite u64_small by lia. fold days.
  destruct (gm_date days) as [[year mon] day]. cbn [tm_year tm_mon tm_mday tm_hour tm_min tm_sec tm_wday].
  destruct Hs as (Hy & Hm & Hday & H9). specialize (H9 ltac:(lia)).
  pose proof (Z.mod_pos_bound t 86400 ltac:(lia)). pose proof (Z.mod_pos_bound (t mod 86400) 3600 ltac:(lia)).
  pose proof (Z.mod_pos_bound ((t mod 86400) mod 3600) 60 ltac:(lia)). pose proof (Z.mod_pos_bound (4 + days) 7 ltac:(lia)).
  assert (0 <= t mod 86400 / 3600 < 24) by (Z.to_euclidean_division_equations; lia).
  assert (0 <= (t mod 86400) mod 3600 / 60 < 60) by (Z.to_euclidean_division_equations; lia).
  rewrite !s32_small by (unfold INT_MIN, INT_MAX; lia). unfold valid_clock, seconds. rewrite Hn.
  split; [done|]. split; [lia|]. split; [done|]. split; [done|]. unfold days. Z.to_euclidean_division_equations. lia.
Qed.

(** C37: Until the end of the year 9999 every time is printed as a date of 29
    characters, and that date is read back as the time. *)
Theorem ngx_http_time_roundtrip room t :
  0 <= t < 253402300800 -> (29 <= room)%nat ->
  exists text, ngx_http_time room t = Some text /\ length text = 29%nat
    /\ ngx_parse_http_time text = Good t.
Proof.
  intros Ht Hr. destruct (gmtime_fields t Ht) as (Hv & Hy & Hc & Hw & E). set (tm := ngx_gmtime t) in *.
  pose proof Hv as [Hm Hd]. pose proof (month_days_max (tm_year tm) _ Hm). pose proof Hc as (? & ? & ?).
  replace room with (29 + (room - 29))%nat by lia.
  destruct (ngx_http_time_text (room - 29) t) as (w & m & Ew & Em & Lw & Lm & Etext); fold tm; try lia.
  fold tm in Ew, Em, Etext. rewrite Etext. eexists. split; [done|]. split.
  { unfold imf_date. rewrite !length_app, Lw, Lm. done. }
  destruct (week_plain w) as [_ Nw]; [by eapply list_elem_of_lookup_2|].
  rewrite (parse_imf_date _ _ (Z.to_nat (tm_mon tm - 1))); try done; try lia.
  all: rewrite Z2Nat.id, Z.sub_add by lia; by rewrite ?E.
Qed.

Theorem ngx_http_time_roundtrip_witness :
  exists text, ngx_http_time 40 951782399 = Some text /\ length text = 29%nat
    /\ ngx_parse_http_time text = Good 951782399.
Proof. apply (ngx_http_time_roundtrip 40 951782399); lia. Defined.

(** March 2, 1970. *)
Theorem ngx_gmtime_calendar_witness : ngx_gmtime (60 * 86400 + 62) = Tm 2 1 0 2 3 1970 1.
Proof.
  refine (ngx_gmtime_calendar (60 * 86400 + 62) _). unfold MAX_DAYS. lia.
Defined.

(** ** The parser reads nothing but the text *)

(** [x] is no read outside, and a value of it satisfies [Q]. *)
Definition within {A} (x : parsed A) (Q : A -> Prop) : Prop :=
  match x with Good a => Q a | Wrong => True | Outside => False end.

Lemma within_bind {A B} (x : parsed A) (k : A -> parsed B) Q R :
  within x Q -> (forall a, Q a -> within (k a) R) -> within (x ≫= k) R.
Proof. destruct x; simpl; auto. Qed.

Section Within.
  Context (value : list Z).

Lemma at_within p : (p < length value)%nat -> within (at_ value p) (fun _ => True).
Proof. intros Hp. unfold at_. destruct (lookup_lt_is_Some_2 value p Hp) as [c ->]. done. Qed.

Lemma digit_within p : (p < length value)%nat -> within (digit value p) (fun _ => True).
Proof. intros Hp. eapply within_bind; [by apply at_within|]. intros c _. by case_match. Qed.

Lemma digits2_within p : (p + 1 < length value)%nat -> within (digits2 value p) (fun _ => True).
Proof.
  intros Hp. eapply within_bind; [apply digit_within; lia|]. intros a _.
  eapply within_bind; [apply digit_within; lia|]. done.
Qed.

Lemma digits4_within p : (p + 3 < length value)%nat -> within (digits4 value p) (fun _ => True).
Proof.
  intros Hp. eapply within_bind; [apply digits2_within; lia|]. intros a _.
  eapply within_bind; [apply digits2_within; lia|]. done.
Qed.

Lemma expect_within p c : (p < length value)%nat -> within (expect value p c) (fun _ => True).
Proof. intros Hp. eapply within_bind; [by apply at_within|]. intros d _. by case_match. Qed.
End Within.

(** One read after the other. *)
Ltac read :=
  eapply within_bind;
  [first [apply at_within | apply digit_within | apply digits2_within | apply digits4_within | apply expect_within]; lia
  | intros ? _].

(** Where the formats have the month, and what is left from it. *)
Definition month_at (value : list Z) (x : time_format * Z * nat) : Prop :=
  let '(fmt, _, p) := x in
  match fmt with
  | rfc822 => (p + 17 <= length value)%nat
  | rfc850 => (p + 15 <= length value)%nat
  | isoc => (p + 18 <= length value)%nat
  | no => False
  end.

Lemma day_first_within value p :
  (p + 18 <= length value)%nat -> within (day_first value p) (month_at value).
Proof.
  intros Hp. read.
  eapply within_bind; [apply at_within; lia|]. intros c _. unfold left_from.
  destruct (c =? " "%chr); [|destruct (c =? "-"%chr); simpl; [lia|done]].
  destruct (Z.ltb_spec (Z.of_nat (length value) - Z.of_nat (p + 2)) 18); simpl; [done|lia].
Qed.

Lemma parse_month_within value p : (p + 2 < length value)%nat -> within (parse_month value p) (fun _ => True).
Proof.
  intros Hp. read.
  repeat case_match; try done.
  - read. case_match; [done|]. by read.
  - by read.
  - by read.
Qed.

(** The numbers before the time leave room for it, and for the year after
    it. *)
Lemma day_and_year_within value fmt day p :
  month_at value (fmt, day, p) ->
  within (day_and_year value fmt day (S (p + 3)))
    (fun '(_, _, q) => q + (if decide (fmt = isoc) then 14 else 9) <= length value)%nat.
Proof.
  simpl. intros Hp. destruct fmt; [done|..]; simpl in Hp; cbn [day_and_year].
  - read. simpl. lia.
  - read. simpl. lia.
  - eapply within_bind with (Q := fun x => (x.2 + 14 <= length value)%nat).
    2:{ intros [d q] Hq. exact Hq. }
    eapply within_bind; [apply at_within; lia|]. intros c _.
    set (q := if c =? " "%chr then _ else _).
    assert (q <= S (S (p + 3)))%nat by (subst q; destruct (c =? _); lia).
    do 2 read. eapply within_bind with (Q := fun _ => True).
    { case_match; [|done]. by read. }
    intros [d' q'] _. unfold left_from. case_match eqn:E; [done|]. apply Z.ltb_ge in E. simpl. lia.
Qed.

Lemma parse_clock_within value p : (p + 9 <= length value)%nat -> within (parse_clock value p) (fun _ => True).
Proof.
  intros Hp. do 5 read. by read.
Qed.

Lemma parse_http_time_within value : within (ngx_parse_http_time value) (fun t => - 2 ^ 63 <= t < 2 ^ 63).
Proof.
  unfold ngx_parse_http_time. destruct (to_separator value 0) as [p0 fmt0].
  set (p := skip_spaces _ _). unfold left_from.
  destruct (Z.ltb_spec (Z.of_nat (length value) - Z.of_nat p) 18) as [|Hp]; [done|].
  eapply within_bind with (Q := month_at value).
  { case_match; [simpl; lia|]. apply day_first_within. lia. }
  intros [[fmt day] q] Hq. assert (q + 15 <= length value)%nat by (destruct fmt; simpl in Hq; lia || done).
  eapply within_bind; [apply parse_month_within; lia|]. intros month _.
  eapply within_bind with (Q := fun _ => True).
  { destruct fmt; [done|apply expect_within; lia..|done]. }
  intros _ _. eapply within_bind; [by apply day_and_year_within|]. intros [[day' year] r] Hr.
  eapply within_bind; [apply parse_clock_within; destruct (decide (fmt = isoc)); lia|]. intros [[hour min] sec] _.
  eapply within_bind with (Q := fun _ => True).
  { destruct (decide (fmt = isoc)); [|done]. read.
    apply digits4_within. lia. }
  intros year' _. destruct (_ || _ || _); [done|].
  destruct (wrong_day _ _ _); [done|]. simpl. unfold s64.
  match goal with |- context [?a mod 2 ^ 64] => pose proof (Z.mod_pos_bound a (2 ^ 64) ltac:(lia)) end. lia.
Qed.

(** Whatever the text, the parser of dates reads nothing before it or
    after its end: it gives a time, or [NGX_ERROR]. *)
Theorem ngx_parse_http_time_within value :
  (exists t, ngx_parse_http_time value = Good t /\ - 2 ^ 63 <= t < 2 ^ 63) \/ ngx_parse_http_time value = Wrong.
Proof.
  pose proof (parse_http_time_within value) as H.
  destruct (ngx_parse_http_time value) as [t| |]; [left; eauto|by right|done].
Qed.
