(* ===== verification/NgxInet.v ===== *)
(** * Network addresses (src/core/ngx_inet.c)

    Reading and printing IPv4 and IPv6 addresses, and blocks of addresses.
    An [in_addr_t] is the number the machine has, in network order in memory;
    an IPv6 address is its 16 bytes. *)

From S2P Require Import Prelude NgxNumbers NgxCodec NgxPrintf.

Set Warnings "-register-all".

#[local] Abbreviation length := (@List.length _).

Definition INADDR_NONE : Z := 2 ^ 32 - 1.
Definition NGX_INET6_ADDRSTRLEN : nat := 45.

(** The bytes of a number in the memory of the machine, and the same in
    network order. *)
Definition htonl (z : Z) : Z := le_value (rev (le 4 z)).
Definition ntohl (z : Z) : Z := le_value (rev (le 4 z)).
Definition htons (z : Z) : Z := le_value (rev (le 2 z)).
Definition ntohs (z : Z) : Z := le_value (rev (le 2 z)).

(** ** Reading *)

(** [src/core/ngx_inet.c:28-56] ngx_inet_addr: the loop, and its end. *)
Fixpoint inet_addr_loop (addr octet n : Z) (text : list Z) : Z :=
  match text with
  | [] => if n =? 3 then htonl (u32 (u32 (Z.shiftl addr 8) + octet)) else INADDR_NONE
  | c :: text =>
      if ("0"%chr <=? c) && (c <=? "9"%chr) then
        let octet := octet * 10 + (c - "0"%chr) in
        if 255 <? octet then INADDR_NONE else inet_addr_loop addr octet n text
      else if c =? "."%chr then inet_addr_loop (u32 (u32 (Z.shiftl addr 8) + octet)) 0 (n + 1) text
      else INADDR_NONE
  end.

(** [src/core/ngx_inet.c:17-57] ngx_inet_addr *)
Definition ngx_inet_addr (text : list Z) : Z := inet_addr_loop 0 0 0 text.

(** [src/core/ngx_inet.c:65-78] ngx_inet6_addr: its variables. [addr] is the
    memory at the argument and the offset of the pointer in it; [digit] is the
    text from that pointer on, of which [len4 - 1] bytes are left. *)
Record parse6 := Parse6 {
  p6_mem : list Z; p6_addr : nat; p6_zero : option nat; p6_digit : option (list Z);
  p6_nibbles : Z; p6_word : Z; p6_n : Z
}.
#[export] Instance eta_parse6 : Settable parse6 := fun s =>
  Parse6 (p6_mem s) (p6_addr s) (p6_zero s) (p6_digit s) (p6_nibbles s) (p6_word s) (p6_n s).

(** [*addr++ = b] *)
Definition put_byte (b : Z) (s : parse6) : option parse6 :=
  if (p6_addr s <? length (p6_mem s))%nat
  then Some (s <| p6_mem := <[p6_addr s := b]> (p6_mem s) |> <| p6_addr := S (p6_addr s) |>)
  else None.

(** [src/core/ngx_inet.c:92-93] ngx_inet6_addr: a word is stored. *)
Definition put_word (s : parse6) : option parse6 :=
  s' ← put_byte (u8 (Z.shiftr (p6_word s) 8)) s; put_byte (u8 (Z.land (p6_word s) 255)) s'.

(** How a round of the loop ends. *)
Inductive parse6_step := Again6 (s : parse6) | Leave6 (s : parse6) | Fail6 (s : parse6).

(** [src/core/ngx_inet.c:88-111] ngx_inet6_addr: a colon, after which [p] is
    left. *)
Definition on_colon (p : list Z) (s : parse6) : option parse6_step :=
  if negb (p6_nibbles s =? 0) then
    let s := s <| p6_digit := Some p |> in
    s ← put_word s;
    let s := s <| p6_n := p6_n s - 1 |> in
    Some (if negb (p6_n s =? 0) then Again6 (s <| p6_nibbles := 0 |> <| p6_word := 0 |>) else Fail6 s)
  else
    match p6_zero s with
    | None => Some (Again6 (s <| p6_digit := Some p |> <| p6_zero := Some (p6_addr s) |>))
    | Some _ => Some (Fail6 s)
    end.

(** [src/core/ngx_inet.c:113-128] ngx_inet6_addr: the dot of an IPv4
    address. *)
Definition on_dot (s : parse6) : option parse6_step :=
  match p6_digit s with
  | Some digit =>
      if p6_n s <? 2 then Some (Fail6 s)
      else
        let word := ngx_inet_addr digit in
        if word =? INADDR_NONE then Some (Fail6 (s <| p6_word := word |>))
        else
          let word := ntohl word in
          let s := s <| p6_word := word |> in
          s ← put_byte (u8 (Z.land (Z.shiftr word 24) 255)) s;
          s ← put_byte (u8 (Z.land (Z.shiftr word 16) 255)) s;
          Some (Leave6 (s <| p6_n := p6_n s - 1 |>))
  | None => Some (Fail6 s)
  end.

(** [src/core/ngx_inet.c:130-146] ngx_inet6_addr: a digit.  A word has at most
    four. *)
Definition on_nibble (c : Z) (s : parse6) : parse6_step :=
  let s := s <| p6_nibbles := p6_nibbles s + 1 |> in
  if 4 <? p6_nibbles s then Fail6 s
  else if ("0"%chr <=? c) && (c <=? "9"%chr) then Again6 (s <| p6_word := p6_word s * 16 + (c - "0"%chr) |>)
  else
    let c := Z.lor c 0x20 in
    if ("a"%chr <=? c) && (c <=? "f"%chr) then Again6 (s <| p6_word := p6_word s * 16 + (c - "a"%chr) + 10 |>)
    else Fail6 s.

(** [src/core/ngx_inet.c:85-147] ngx_inet6_addr: the loop. *)
Fixpoint inet6_loop (p : list Z) (s : parse6) : option parse6_step :=
  match p with
  | [] => Some (Leave6 s)
  | c :: p =>
      r ← (if c =? ":"%chr then on_colon p s
           else if (c =? "."%chr) && negb (p6_nibbles s =? 0) then on_dot s
           else Some (on_nibble c s));
      match r with Again6 s => inet6_loop p s | r => Some r end
  end.

(** [src/core/ngx_inet.c:159-163] ngx_inet6_addr: the words after [::] are
    moved to the end, the last byte first.  A round moves one byte. *)
Fixpoint move_loop (rounds : nat) (s d zero : Z) (mem : list Z) : option (list Z) :=
  if s <? zero then Some mem
  else match rounds with
       | O => None
       | S rounds =>
           if d <? Z.of_nat (length mem) then
             x ← mem !! Z.to_nat s; move_loop rounds (s - 1) (d - 1) zero (<[Z.to_nat d := x]> mem)
           else None
       end.

(** [ngx_memzero(zero, n)] *)
Definition ngx_memzero (zero n : nat) (mem : list Z) : option (list Z) :=
  if (zero + n <=? length mem)%nat then Some (take zero mem ++ replicate n 0 ++ drop (zero + n) mem) else None.

(** [src/core/ngx_inet.c:149-174] ngx_inet6_addr: after the loop. *)
Definition inet6_finish (s : parse6) : option (Z * list Z) :=
  if (p6_nibbles s =? 0) && bool_decide (p6_zero s = None) then Some (NGX_ERROR, p6_mem s)
  else
    s ← put_word s;
    let n := p6_n s - 1 in
    if negb (n =? 0) then
      match p6_zero s with
      | Some zero =>
          let n := n * 2 in
          let from := Z.of_nat (p6_addr s) - 1 in
          mem ← move_loop (S (p6_addr s)) from (from + n) (Z.of_nat zero) (p6_mem s);
          mem ← ngx_memzero zero (Z.to_nat n) mem;
          Some (NGX_OK, mem)
      | None => Some (NGX_ERROR, p6_mem s)
      end
    else match p6_zero s with
         | None => Some (NGX_OK, p6_mem s)
         | Some _ => Some (NGX_ERROR, p6_mem s)
         end.

(** [src/core/ngx_inet.c:62-175] ngx_inet6_addr: the result and the 16 bytes
    at [addr], which were [mem].  [None] is a byte written outside them. *)
Definition ngx_inet6_addr (p : list Z) (mem : list Z) : option (Z * list Z) :=
  match p with
  | [] => Some (NGX_ERROR, mem)
  | c :: p' =>
      let p := if c =? ":"%chr then p' else p in
      r ← inet6_loop p (Parse6 mem 0 None None 0 0 8);
      match r with
      | Leave6 s => inet6_finish s
      | Again6 s | Fail6 s => Some (NGX_ERROR, p6_mem s)
      end
  end.

(** ** Printing *)

Record runs := Runs { r_zero : Z; r_last : Z; r_max : Z; r_n : Z }.
#[export] Instance eta_runs : Settable runs := fun s => Runs (r_zero s) (r_last s) (r_max s) (r_n s).

(** [src/core/ngx_inet.c:309-312] ngx_inet6_ntop: the run before is
    kept, if it is the longest. *)
Definition end_run (s : runs) : runs :=
  if r_max s <? r_n s then s <| r_zero := r_last s |> <| r_max := r_n s |> else s.

(** [src/core/ngx_inet.c:307-320] ngx_inet6_ntop: a round of the loop that
    looks for the longest run of zeros. *)
Definition run_step (nonzero : bool) (i : Z) (s : runs) : runs :=
  if nonzero then (end_run s) <| r_n := 0 |>
  else (if r_n s =? 0 then s <| r_last := i |> else s) <| r_n := r_n s + 1 |>.

(** [src/core/ngx_inet.c:300-326] ngx_inet6_ntop *)
Definition find_run (nonzero : list bool) : runs :=
  end_run (snd (fold_left (fun '(i, s) b => (i + 2, run_step b i s)) nonzero (0, Runs (u64 (-1)) (u64 (-1)) 1 0))).

(** [p[i] * 256 + p[i + 1]] *)
Definition word_at (p : list Z) (i : nat) : Z := (p !!! i) * 256 + (p !!! S i).

(** [src/core/ngx_inet.c:343-356] ngx_inet6_ntop: the loop over the words,
    a round for each; the text goes into [len] bytes. *)
Fixpoint words_loop (rounds len : nat) (i n zero max : Z) (p : list Z) : option (list Z) :=
  if negb (i <? n) then Some []
  else match rounds with
       | O => None
       | S rounds =>
           if i =? zero then
             l ← words_loop rounds len (i + (max - 1) * 2 + 2) n zero max p; Some (":"%chr :: l)
           else
             t ← ngx_sprintf len (bs "%xd") [ANum (word_at p (Z.to_nat i))];
             l ← words_loop rounds len (i + 2) n zero max p;
             Some (t ++ (if i <? 14 then [":"%chr] else []) ++ l)
       end.

(** [src/core/ngx_inet.c:289-363] ngx_inet6_ntop: the text at [text], whose
    length is returned; a text longer than [len] is written past its end. *)
Definition ngx_inet6_ntop (p : list Z) (len : nat) : option (list Z) :=
  if (len <? NGX_INET6_ADDRSTRLEN)%nat then Some []
  else
    let nonzero := map (fun i => negb (p !!! i =? 0) || negb (p !!! S i =? 0)) [0; 2; 4; 6; 8; 10; 12; 14]%nat in
    let s := find_run nonzero in
    let zero := r_zero s in
    let max := r_max s in
    let n :=
      if (zero =? 0) &&
         ((max =? 5) && (p !!! 10%nat =? 255) && (p !!! 11%nat =? 255) || (max =? 6)
          || (max =? 7) && negb (p !!! 14%nat =? 0) && negb (p !!! 15%nat =? 1))
      then 12 else 16 in
    l ← words_loop 8 len 0 n zero max p;
    v4 ← (if n =? 12 then ngx_sprintf len (bs "%ud.%ud.%ud.%ud")
            [ANum (p !!! 12%nat); ANum (p !!! 13%nat); ANum (p !!! 14%nat); ANum (p !!! 15%nat)]
          else Some []);
    let text := (if zero =? 0 then [":"%chr] else []) ++ l ++ v4 in
    if (length text <=? len)%nat then Some text else None.

(** A [struct sockaddr] of one of the families the code knows, its port in network
    order.  The path of a Unix domain socket is what the memory holds. *)
Inductive sockaddr :=
| AF_INET (s_addr sin_port : Z)
| AF_INET6 (s6_addr : list Z) (sin6_port : Z)
| AF_UNIX (sun_path : list Z).

(** The bytes at [&sin->sin_addr]. *)
Definition addr_bytes (s_addr : Z) : list Z := le 4 s_addr.
Definition octets (s_addr : Z) : list arg := map ANum (addr_bytes s_addr).

(** [src/core/ngx_inet.c:180-256] ngx_sock_ntop: the text written at [text],
    and the length that is returned. *)
Definition ngx_sock_ntop (sa : sockaddr) (socklen : Z) (len : nat) (port : bool) : option (list Z * Z) :=
  match sa with
  | AF_INET s_addr sin_port =>
      t ← (if port then ngx_vslprintf len (bs "%ud.%ud.%ud.%ud:%d") (octets s_addr ++ [ANum (ntohs sin_port)])
           else ngx_vslprintf len (bs "%ud.%ud.%ud.%ud") (octets s_addr));
      Some (t, Z.of_nat (length t))
  | AF_INET6 s6_addr sin6_port =>
      t ← ngx_inet6_ntop s6_addr len;
      if port then
        p ← ngx_sprintf len (bs "]:%d") [ANum (ntohs sin6_port)];
        let t := ["["%chr] ++ t ++ p in
        if (length t <=? len)%nat then Some (t, Z.of_nat (length t)) else None
      else Some (t, Z.of_nat (length t))
  | AF_UNIX sun_path =>
      t ← (if socklen <=? 2 then ngx_vslprintf len (bs "unix:%Z") []
           else ngx_vslprintf len (bs "unix:%s%Z") [APtr sun_path]);
      Some (t, u64 (Z.of_nat (length t) - 1))
  end.

(** ** Blocks of addresses *)

Inductive cidr := CIn (addr mask : Z) | CIn6 (addr mask : list Z).

(** [src/core/ngx_inet.c:428-439] ngx_ptocidr: the loop over the bytes of an
    IPv6 address. *)
Fixpoint mask_loop (addr : list Z) (shift : Z) (rc : Z) : Z * list Z * list Z :=
  match addr with
  | [] => (rc, [], [])
  | a :: addr =>
      let s := if 8 <? shift then 8 else shift in
      let m := u8 (Z.shiftl 255 (8 - s)) in
      let '(rc, a) := if negb (a =? Z.land a m) then (NGX_DONE, Z.land a m) else (rc, a) in
      let '(rc, addr, mask) := mask_loop addr (shift - s) rc in
      (rc, a :: addr, m :: mask)
  end.

(** [src/core/ngx_inet.c:444-463] ngx_ptocidr: the length of an IPv4
    prefix. *)
Definition in_prefix (addr shift : Z) : Z * option cidr :=
  if 32 <? shift then (NGX_ERROR, None)
  else
    let mask := if negb (shift =? 0) then htonl (u32 (Z.shiftl 0xffffffff (32 - shift))) else 0 in
    if addr =? Z.land addr mask then (NGX_OK, Some (CIn addr mask))
    else (NGX_DONE, Some (CIn (Z.land addr mask) mask)).

(** [src/core/ngx_inet.c:419-441] ngx_ptocidr: the length of an IPv6
    prefix. *)
Definition in6_prefix (addr : list Z) (shift : Z) : Z * option cidr :=
  if 128 <? shift then (NGX_ERROR, None)
  else let '(rc, addr, mask) := mask_loop addr shift NGX_OK in (rc, Some (CIn6 addr mask)).

(** [src/core/ngx_inet.c:368-465] ngx_ptocidr: [mem] is what the union holds.
    After an error it is not used. *)
Definition ngx_ptocidr (text mem : list Z) : option (Z * option cidr) :=
  let mask := ngx_strlchr "/"%chr text in
  let addr := take (default (length text) mask) text in
  let prefix (f : Z -> Z * option cidr) (whole : cidr) :=
    match mask with
    | None => (NGX_OK, Some whole)
    | Some i =>
        let shift := ngx_atoi (drop (S i) text) in
        if shift =? NGX_ERROR then (NGX_ERROR, None) else f shift
    end in
  let in_addr := ngx_inet_addr addr in
  if negb (in_addr =? INADDR_NONE) then
    Some (prefix (in_prefix in_addr) (CIn in_addr 0xffffffff))
  else
    '(rc, in6_addr) ← ngx_inet6_addr addr (le 4 in_addr ++ drop 4 mem);
    Some (if rc =? NGX_OK then prefix (in6_prefix in6_addr) (CIn6 in6_addr (replicate 16 255))
          else (NGX_ERROR, None)).

(** [src/core/ngx_inet.c:468-525] ngx_parse_addr: memory for the address is
    cleared. *)
Definition ngx_parse_addr (text : list Z) : option (Z * option sockaddr) :=
  let inaddr := ngx_inet_addr text in
  if negb (inaddr =? INADDR_NONE) then Some (NGX_OK, Some (AF_INET inaddr 0))
  else
    '(rc, inaddr6) ← ngx_inet6_addr text (replicate 16 0);
    Some (if rc =? NGX_OK then (NGX_OK, Some (AF_INET6 inaddr6 0)) else (NGX_DECLINED, None)).

(** [src/core/ngx_inet.c:1207-1277] ngx_cmp_sockaddr *)
Definition ngx_cmp_sockaddr (sa1 sa2 : sockaddr) (cmp_port : bool) : Z :=
  match sa1, sa2 with
  | AF_INET6 a1 p1, AF_INET6 a2 p2 =>
      if cmp_port && negb (p1 =? p2) then NGX_DECLINED
      else if negb (bool_decide (a1 = a2)) then NGX_DECLINED else NGX_OK
  | AF_UNIX s1, AF_UNIX s2 => if negb (bool_decide (s1 = s2)) then NGX_DECLINED else NGX_OK
  | AF_INET a1 p1, AF_INET a2 p2 =>
      if cmp_port && negb (p1 =? p2) then NGX_DECLINED
      else if negb (a1 =? a2) then NGX_DECLINED else NGX_OK
  | _, _ => NGX_DECLINED
  end.

Example inet6_1 : ngx_inet6_addr (bs "fe80::a:1.2.3.4") (replicate 16 9)
  = Some (NGX_OK, [254; 128; 0; 0; 0; 0; 0; 0; 0; 0; 0; 10; 1; 2; 3; 4]).
Proof. by vm_compute. Qed.
Example inet6_2 : (t ← ngx_inet6_ntop [254; 128; 0; 0; 0; 0; 0; 0; 0; 0; 0; 10; 1; 2; 3; 4] 46; Some t) = Some (bs "fe80::a:102:304").
Proof. by vm_compute. Qed.
Example inet6_3 : (t ← ngx_inet6_ntop [0;0;0;0;0;0;0;0;0;0;255;255;10;0;2;255] 46; Some t) = Some (bs "::ffff:10.0.2.255").
Proof. by vm_compute. Qed.
Example inet6_4 : option_map fst (ngx_inet6_addr (bs "1:2:3:4:5:6:7::") (replicate 16 9)) = Some NGX_ERROR.
Proof. by vm_compute. Qed.
Example inet6_5 : option_map fst (ngx_inet6_addr (bs ":1::2:") (replicate 16 9)) = Some NGX_OK.
Proof. by vm_compute. Qed.
Example inet4_1 : le 4 (ngx_inet_addr (bs "10.0..255")) = [10; 0; 0; 255].
Proof. by vm_compute. Qed.
Example cidr_1 : ngx_ptocidr (bs "10.1.2.3/12") (replicate 16 9)
  = Some (NGX_DONE, Some (CIn (ngx_inet_addr (bs "10.0.0.0")) (ngx_inet_addr (bs "255.240.0.0")))).
Proof. by vm_compute. Qed.
Example cidr_2 : ngx_ptocidr (bs "2001:db8::/33") (replicate 16 9)
  = Some (NGX_OK, Some (CIn6 ([32; 1; 13; 184] ++ replicate 12 0) ([255; 255; 255; 255; 128] ++ replicate 11 0))).
Proof. by vm_compute. Qed.
