(* ===== verification/NgxInetText.v ===== *)
(** * Addresses as texts

    The texts of IPv6 addresses in RFC 4291, section 2.2, and what
    [ngx_inet6_addr] makes of them. *)

From S2P Require Import Prelude NgxNumbers NgxPrintf NgxInet.

Set Warnings "-register-all".

#[local] Abbreviation length := (@List.length _).

(** ** The texts of RFC 4291 *)

(** A group of one to four hexadecimal digits, and an octet of at most three
    decimal ones. *)
Definition group_ok (g : list Z) : Prop := (1 <= length g <= 4)%nat /\ forallb is_hex g = true.
Definition group_bytes (g : list Z) : list Z := [hex_from 0 g / 256; hex_from 0 g mod 256].
Definition octet_ok (o : list Z) : Prop := (1 <= length o <= 3)%nat /\ forallb is_digit o = true /\ dec_value o <= 255.

Definition dotted (o1 o2 o3 o4 : list Z) : list Z :=
  o1 ++ "."%chr :: o2 ++ "."%chr :: o3 ++ "."%chr :: o4.

(** Groups, each with a colon after it, and their bytes. *)
Inductive groups : list Z -> list Z -> Prop :=
| GNil : groups [] []
| GCons g t a : group_ok g -> groups t a -> groups (g ++ ":"%chr :: t) (group_bytes g ++ a).

(** The last group, or the address in decimals that may stand for the last
    two. *)
Inductive last_group : list Z -> list Z -> Prop :=
| LHex g : group_ok g -> last_group g (group_bytes g)
| LDotted o1 o2 o3 o4 :
    octet_ok o1 -> octet_ok o2 -> octet_ok o3 -> octet_ok o4 ->
    last_group (dotted o1 o2 o3 o4) [dec_value o1; dec_value o2; dec_value o3; dec_value o4].

(** Groups before a double colon. *)
Definition compress (t : list Z) : list Z := match t with [] => bs "::" | _ => t ++ bs ":" end.

(** The three forms: all the groups; a double colon between groups; one at the
    end.  A double colon stands for at least one group of zeros. *)
Inductive ipv6_text : list Z -> list Z -> Prop :=
| Full t a l b : groups t a -> last_group l b -> length (a ++ b) = 16%nat -> ipv6_text (t ++ l) (a ++ b)
| Compressed t a k t' a' l b :
    groups t a -> groups t' a' -> last_group l b -> (2 <= k)%nat ->
    length (a ++ replicate k 0 ++ a' ++ b) = 16%nat ->
    ipv6_text (compress t ++ t' ++ l) (a ++ replicate k 0 ++ a' ++ b)
| Trailing t a k : groups t a -> (2 <= k)%nat -> length (a ++ replicate k 0) = 16%nat ->
    ipv6_text (compress t) (a ++ replicate k 0).

(** ** Digits and groups *)

Lemma is_hex_nibble c s :
  is_hex c = true -> p6_nibbles s < 4 ->
  (c =? ":"%chr) = false /\ (c =? "."%chr) = false /\
  on_nibble c s = Again6 (s <| p6_nibbles := p6_nibbles s + 1 |> <| p6_word := p6_word s * 16 + hex_val c |>).
Proof.
  intros Hc Hn. unfold is_hex in Hc. apply bool_decide_eq_true_1 in Hc as [d Hd].
  assert (Hr : (48 <= c <= 57 \/ 65 <= c <= 70 \/ 97 <= c <= 102) /\ hex_val c = d).
  { unfold hex_val. rewrite Hd. split; [|done]. unfold hex_digit in Hd. zcases. }
  destruct Hr as [Hr _]. split_and!; [lia|lia|]. unfold on_nibble. simpl.
  rewrite (proj2 (Z.ltb_ge 4 _)) by lia.
  destruct Hr as [Hr|Hr].
  - replace (_ && _) with true by lia. unfold hex_val, hex_digit. replace (_ && _) with true by lia. done.
  - replace (("0"%chr <=? c) && _) with false by lia.
    assert (Hl : ("a"%chr <=? Z.lor c 32) && (Z.lor c 32 <=? "f"%chr) = true /\ Z.lor c 32 - 97 + 10 = hex_val c).
    { assert (65 <= c < 65 + 38) as Hc by lia. clear Hd. destruct Hr as [Hr|Hr].
      - by_range c 65 6.
      - by_range c 97 6. }
    destruct Hl as [-> Hl]. do 2 f_equal. lia.
Qed.

Lemma loop_digits g : forall rest s,
  forallb is_hex g = true -> p6_nibbles s + Z.of_nat (length g) <= 4 -> 0 <= p6_nibbles s ->
  inet6_loop (g ++ rest) s =
  inet6_loop rest (s <| p6_nibbles := p6_nibbles s + Z.of_nat (length g) |> <| p6_word := hex_from (p6_word s) g |>).
Proof.
  induction g as [|c g IH]; intros rest s Hg Hn H0.
  { simpl. rewrite Z.add_0_r. by destruct s. }
  simpl in Hg. apply andb_prop in Hg as [Hc Hg]. simpl length in Hn.
  cbn [app inet6_loop]. destruct (is_hex_nibble c s Hc ltac:(lia)) as (-> & -> & ->). cbn [andb mbind option_bind].
  rewrite IH; [|done|simpl; lia..]. f_equal. destruct s. cbn. f_equal. lia.
Qed.

Lemma hex_from_bounds g : forall v, 0 <= v -> forallb is_hex g = true ->
  0 <= hex_from v g < (v + 1) * 16 ^ Z.of_nat (length g).
Proof.
  induction g as [|c g IH]; intros v Hv Hg; simpl in *; [unfold hex_from; simpl; lia|].
  apply andb_prop in Hg as [Hc Hg]. apply bool_decide_eq_true_1 in Hc as [d Hd].
  pose proof (hex_digit_range c d Hd). change (hex_from v (c :: g)) with (hex_from (v * 16 + hex_val c) g).
  unfold hex_val. rewrite Hd. cbn [default].
  destruct (IH (v * 16 + d) ltac:(lia) Hg) as [? Hu]. split; [done|].
  rewrite Nat2Z.inj_succ, Z.pow_succ_r by lia. unfold id. pose proof (Z.pow_pos_nonneg 16 (Z.of_nat (length g))). nia.
Qed.

Lemma group_word g : group_ok g -> 0 <= hex_from 0 g < 65536.
Proof.
  intros [Hl Hg]. destruct (hex_from_bounds g 0 ltac:(lia) Hg) as [H0 Hu]. split; [done|].
  eapply Z.lt_le_trans; [done|]. change 65536 with ((0 + 1) * 16 ^ 4).
  apply Z.mul_le_mono_nonneg_l; [lia|]. apply Z.pow_le_mono_r; lia.
Qed.

(** The state between groups: [out] is stored, [n] words are to come. *)
Definition between (out r : list Z) (z : option nat) (d : option (list Z)) (n : Z) : parse6 :=
  Parse6 (out ++ r) (length out) z d 0 0 n.
Definition in_group (out r : list Z) (z : option nat) (d : option (list Z)) (nibbles word n : Z) : parse6 :=
  Parse6 (out ++ r) (length out) z d nibbles word n.

Lemma loop_group g rest out r z d n : group_ok g ->
  inet6_loop (g ++ rest) (between out r z d n) =
  inet6_loop rest (in_group out r z d (Z.of_nat (length g)) (hex_from 0 g) n).
Proof. intros [Hl Hg]. by rewrite loop_digits by (done || simpl; lia). Qed.

Lemma put_byte_app b out x r z d nib w n :
  put_byte b (in_group out (x :: r) z d nib w n) = Some (in_group (out ++ [b]) r z d nib w n).
Proof.
  unfold put_byte, in_group. simpl. rewrite (proj2 (Nat.ltb_lt _ _)) by (rewrite length_app; simpl; lia).
  do 2 f_equal; [|rewrite length_app; simpl; lia].
  rewrite insert_app_r_alt by lia. by rewrite Nat.sub_diag, <- app_assoc.
Qed.

Definition word_bytes (w : Z) : list Z := [w / 256 mod 256; w mod 256].

Lemma word_bytes_group g : group_ok g -> word_bytes (hex_from 0 g) = group_bytes g.
Proof.
  intros Hg%group_word. unfold word_bytes, group_bytes. rewrite (Z.mod_small (_ / _)); [done|].
  split; [apply Z.div_pos|apply Z.div_lt_upper_bound]; lia.
Qed.

Lemma put_word_app w out x y r z d nib n : 0 <= w ->
  put_word (in_group out (x :: y :: r) z d nib w n) = Some (in_group (out ++ word_bytes w) r z d nib w n).
Proof.
  intros Hw. unfold put_word. rewrite put_byte_app. cbn [mbind option_bind].
  rewrite put_byte_app. cbn [p6_word in_group]. rewrite <- app_assoc. cbn [app].
  rewrite Z.shiftr_div_pow2, (Z.land_ones _ 8) by lia. unfold u8, word_bytes. change (2 ^ 8) with 256.
  by rewrite Z.mod_mod by lia.
Qed.

Lemma loop_colon g rest out x y r z d n : group_ok g -> 1 < n ->
  inet6_loop (g ++ ":"%chr :: rest) (between out (x :: y :: r) z d n) =
  inet6_loop rest (between (out ++ group_bytes g) r z (Some rest) (n - 1)).
Proof.
  intros Hg Hn. rewrite loop_group by done. cbn [inet6_loop]. change (":"%chr =? ":"%chr) with true. cbn iota.
  unfold on_colon. cbn [p6_nibbles in_group]. destruct Hg as [Hl Hg].
  rewrite (proj2 (Z.eqb_neq (Z.of_nat (length g)) 0)) by lia. cbn [negb].
  change ((in_group out (x :: y :: r) z d (Z.of_nat (length g)) (hex_from 0 g) n) <| p6_digit := Some rest |>)
    with (in_group out (x :: y :: r) z (Some rest) (Z.of_nat (length g)) (hex_from 0 g) n).
  rewrite put_word_app, word_bytes_group by (done || by apply group_word). cbn [mbind option_bind]. simpl.
  rewrite (proj2 (Z.eqb_neq (n - 1) 0)) by lia. done.
Qed.

(** What [digit] is after groups. *)
Definition digit_after (t rest : list Z) (d : option (list Z)) : option (list Z) :=
  match t with [] => d | _ => Some rest end.

Lemma groups_nil a : groups [] a -> a = [].
Proof. inversion 1 as [|g t b]; [done|]. by destruct g. Qed.

Lemma groups_even t a : groups t a -> exists m, length a = (2 * m)%nat.
Proof. induction 1 as [|g t a Hg Ht [m Hm]]; [by exists 0%nat|]. exists (S m). rewrite length_app. simpl. lia. Qed.

Lemma half_even m : Z.of_nat (2 * m) / 2 = Z.of_nat m.
Proof. rewrite Nat2Z.inj_mul, Z.mul_comm. by apply Z.div_mul. Qed.

Lemma loop_groups t a : groups t a -> forall rest out r z d n,
  Z.of_nat (length r) = 2 * n -> Z.of_nat (length a) < 2 * n ->
  inet6_loop (t ++ rest) (between out r z d n) =
  inet6_loop rest (between (out ++ a) (drop (length a) r) z (digit_after t rest d) (n - Z.of_nat (length a) / 2)).
Proof.
  induction 1 as [|g t a Hg Ht IH]; intros rest out r z d n Hr Ha.
  { simpl. rewrite app_nil_r, Z.sub_0_r. done. }
  destruct r as [|x [|y r]]; simpl length in *; rewrite ?length_app in *; simpl length in *; [lia..|].
  rewrite <- app_assoc. cbn [app]. rewrite loop_colon by (done || lia).
  rewrite IH by lia. f_equal. unfold between. f_equal.
  - rewrite <- !app_assoc. done.
  - rewrite <- app_assoc. done.
  - destruct t; simpl; [|by destruct g]. by destruct g.
  - destruct (groups_even t a Ht) as [m Hm]. rewrite Hm.
    replace (S (S (2 * m))) with (2 * S m)%nat by lia. rewrite !half_even. lia.
Qed.

(** ** The end of the text *)

(** The bytes after [::] are moved by [n], and nothing else is lost. *)
Lemma move_spec pre A : forall R D n rounds, length R = n -> (0 < n)%nat -> (length A <= rounds)%nat ->
  let s := Z.of_nat (length pre) + Z.of_nat (length A) - 1 in
  exists R', length R' = n /\
    move_loop rounds s (s + Z.of_nat n) (Z.of_nat (length pre)) (pre ++ A ++ R ++ D) = Some (pre ++ R' ++ A ++ D).
Proof.
  induction A as [|x A IH] using rev_ind; intros R D n rounds HR Hn Hrounds.
  { simpl. exists R. split; [done|]. destruct rounds; simpl; by rewrite (proj2 (Z.ltb_lt _ _)) by lia. }
  rewrite length_app in *. cbn [length] in *. cbv zeta.
  destruct rounds as [|rounds]; [lia|]. cbn [move_loop].
  destruct (exists_last (l := R)) as (R0 & y & ->); [by intros ->; simpl in HR; lia|].
  rewrite length_app in HR. cbn [length] in HR.
  rewrite (proj2 (Z.ltb_ge _ _)) by lia. rewrite (proj2 (Z.ltb_lt _ _)) by (rewrite !length_app; simpl; lia).
  replace (Z.to_nat (Z.of_nat (length pre) + Z.of_nat (length A + 1) - 1)) with (length pre + length A)%nat by lia.
  replace (Z.to_nat (Z.of_nat (length pre) + Z.of_nat (length A + 1) - 1 + Z.of_nat n))
    with (length pre + (length A + (1 + (length R0 + 0))))%nat by lia.
  replace (pre ++ (A ++ [x]) ++ (R0 ++ [y]) ++ D) with (pre ++ A ++ [x] ++ R0 ++ [y] ++ D) by by rewrite <- !app_assoc.
  assert (E : (pre ++ A ++ [x] ++ R0 ++ [y] ++ D) !! (length pre + length A)%nat = Some x).
  { rewrite lookup_app_r, lookup_app_r by lia. by replace (_ - _ - _)%nat with 0%nat by lia. }
  rewrite E. cbn [mbind option_bind]. rewrite !insert_app_r.
  cbn [app Nat.add]. rewrite (insert_app_r [x] (R0 ++ y :: D) (length R0 + 0)).
  rewrite (insert_app_r R0 (y :: D) 0). cbn [insert list_insert app].
  destruct (IH (x :: R0) (x :: D) n rounds) as (R' & HR' & HI); [simpl; lia|lia|lia|].
  exists R'. split; [done|].
  replace (Z.of_nat (length pre) + Z.of_nat (length A + 1) - 1 - 1) with (Z.of_nat (length pre) + Z.of_nat (length A) - 1) by lia.
  replace (Z.of_nat (length pre) + Z.of_nat (length A + 1) - 1 + Z.of_nat n - 1)
    with (Z.of_nat (length pre) + Z.of_nat (length A) - 1 + Z.of_nat n) by lia.
  cbn [app] in HI. rewrite HI. by rewrite <- app_assoc.
Qed.

(** The last word [w], of which there are two bytes. *)
Lemma finish_full out x y d nib w : 0 <= w -> nib <> 0 ->
  inet6_finish (in_group out [x; y] None d nib w 1) = Some (NGX_OK, out ++ word_bytes w).
Proof.
  intros Hw Hn. unfold inet6_finish. cbn [p6_nibbles p6_zero in_group]. rewrite (proj2 (Z.eqb_neq nib 0)) by done.
  cbn [andb]. rewrite put_word_app by done. cbn [mbind option_bind p6_n p6_zero p6_mem in_group].
  change (negb (1 - 1 =? 0)) with false. by rewrite app_nil_r.
Qed.

Lemma finish_moved A B r d nib w n : 0 <= w -> Z.of_nat (length r) = 2 * n -> 1 < n ->
  inet6_finish (in_group (A ++ B) r (Some (length A)) d nib w n)
  = Some (NGX_OK, A ++ replicate (Z.to_nat (2 * (n - 1))) 0 ++ B ++ word_bytes w).
Proof.
  intros Hw Hr Hn. destruct r as [|x [|y r]]; simpl length in Hr; [lia..|].
  unfold inet6_finish. cbn [p6_zero in_group]. rewrite bool_decide_eq_false_2, andb_false_r by done.
  rewrite put_word_app by done. cbn [mbind option_bind p6_n p6_zero p6_mem p6_addr in_group].
  rewrite (proj2 (Z.eqb_neq (n - 1) 0)) by lia. cbn [negb].
  set (wb := word_bytes w). set (k := Z.to_nat (2 * (n - 1))).
  replace ((n - 1) * 2) with (Z.of_nat k) by lia.
  destruct (move_spec A (B ++ wb) r [] k (S (length ((A ++ B) ++ wb)))) as (R' & HR' & HM); [lia|lia|rewrite !length_app; lia|].
  replace (Z.of_nat (length ((A ++ B) ++ wb)) - 1) with (Z.of_nat (length A) + Z.of_nat (length (B ++ wb)) - 1)
    by (rewrite !length_app; lia).
  replace (((A ++ B) ++ wb) ++ r) with (A ++ (B ++ wb) ++ r ++ []) by (rewrite app_nil_r, <- !app_assoc; done).
  rewrite HM. cbn [mbind option_bind]. rewrite Nat2Z.id, app_nil_r. unfold ngx_memzero.
  rewrite (proj2 (Nat.leb_le _ _)) by (rewrite !length_app; lia). cbn [mbind option_bind].
  rewrite take_app_length, drop_app_add', (drop_app_length' R') by done. done.
Qed.

(** ** IPv4 addresses *)

(** An octet as [ngx_inet_addr] takes it: any number of digits. *)
Definition loose_octet (o : list Z) : Prop := forallb is_digit o = true /\ dec_value o <= 255.

(** The word of four octets, in the order of the text. *)
Definition ipv4_value (b1 b2 b3 b4 : Z) : Z := le_value [b4; b3; b2; b1].

Definition shift_in (addr octet : Z) : Z := u32 (u32 (Z.shiftl addr 8) + octet).

Lemma dec_from_nonneg v o : 0 <= v -> forallb is_digit o = true -> 0 <= dec_from v o.
Proof. intros Hv Ho. pose proof (dec_from_ge v o Hv Ho). lia. Qed.

Lemma inet_digits o : forall addr octet n rest, forallb is_digit o = true -> 0 <= octet -> octet <= 255 ->
  inet_addr_loop addr octet n (o ++ rest) =
  if 255 <? dec_from octet o then INADDR_NONE else inet_addr_loop addr (dec_from octet o) n rest.
Proof.
  induction o as [|c o IH]; intros addr octet n rest Ho H0 Hle.
  { change (dec_from octet []) with octet. by rewrite (proj2 (Z.ltb_ge _ _)) by lia. }
  simpl in Ho. apply andb_prop in Ho as [Hc Ho]. cbn [app inet_addr_loop].
  unfold is_digit in Hc. rewrite Hc. rewrite dec_from_cons.
  destruct (Z.ltb_spec 255 (octet * 10 + (c - "0"%chr))) as [Hgt|Hle'].
  - pose proof (dec_from_ge (octet * 10 + (c - "0"%chr)) o ltac:(lia) Ho). by rewrite (proj2 (Z.ltb_lt _ _)) by lia.
  - apply IH; [done|lia..].
Qed.

Lemma inet_dot addr octet n rest :
  inet_addr_loop addr octet n ("."%chr :: rest) = inet_addr_loop (shift_in addr octet) 0 (n + 1) rest.
Proof. done. Qed.

Lemma shift_in_small addr octet : 0 <= addr < 2 ^ 24 -> 0 <= octet <= 255 -> shift_in addr octet = octet + 256 * addr.
Proof.
  intros Ha Ho. unfold shift_in. rewrite Z.shiftl_mul_pow2 by lia. rewrite (u32_small (addr * 2 ^ 8)), u32_small by lia. lia.
Qed.

Lemma shift_in_octets b1 b2 b3 b4 :
  0 <= b1 <= 255 -> 0 <= b2 <= 255 -> 0 <= b3 <= 255 -> 0 <= b4 <= 255 ->
  shift_in (shift_in (shift_in (shift_in 0 b1) b2) b3) b4 = ipv4_value b1 b2 b3 b4.
Proof. intros. unfold ipv4_value. cbn [le_value]. rewrite (shift_in_small 0 b1) by lia.
  rewrite (shift_in_small _ b2) by lia. rewrite (shift_in_small _ b3) by lia. rewrite (shift_in_small _ b4) by lia. lia.
Qed.

(** Four octets, however they are written. *)
Lemma inet_addr_dotted o1 o2 o3 o4 :
  loose_octet o1 -> loose_octet o2 -> loose_octet o3 -> loose_octet o4 ->
  ngx_inet_addr (dotted o1 o2 o3 o4)
  = htonl (ipv4_value (dec_value o1) (dec_value o2) (dec_value o3) (dec_value o4)).
Proof.
  intros [H1 L1] [H2 L2] [H3 L3] [H4 L4]. unfold ngx_inet_addr, dotted, dec_value in *.
  pose proof (dec_from_nonneg 0 o1 ltac:(lia) H1). pose proof (dec_from_nonneg 0 o2 ltac:(lia) H2).
  pose proof (dec_from_nonneg 0 o3 ltac:(lia) H3). pose proof (dec_from_nonneg 0 o4 ltac:(lia) H4).
  do 3 (rewrite inet_digits, (proj2 (Z.ltb_ge 255 _)), inet_dot by (done || lia)).
  rewrite <- (app_nil_r o4) at 1. rewrite inet_digits, (proj2 (Z.ltb_ge 255 _)) by (done || lia).
  rewrite <- shift_in_octets by lia. done.
Qed.

(** ... and nothing else. *)
Lemma inet_addr_inv text : forall addr octet n, 0 <= octet <= 255 ->
  inet_addr_loop addr octet n text <> INADDR_NONE ->
  exists o os, text = o ++ concat (map (cons "."%chr) os) /\ n + Z.of_nat (length os) = 3 /\
    forallb is_digit o = true /\ dec_from octet o <= 255 /\ Forall loose_octet os.
Proof.
  induction text as [|c text IH]; intros addr octet n Ho H.
  { simpl in H. destruct (Z.eqb_spec n 3); [|done]. exists [], []. split_and!; try done; [simpl; lia|].
    change (dec_from octet []) with octet. lia. }
  cbn [inet_addr_loop] in H. destruct (_ && _) eqn:Hd.
  - destruct (Z.ltb_spec 255 (octet * 10 + (c - "0"%chr))); [done|].
    apply IH in H as (o & os & -> & Hn & Hdo & Hv & Hos); [|lia].
    exists (c :: o), os. split_and!; try done. simpl. rewrite Hdo. unfold is_digit. by rewrite Hd.
  - destruct (Z.eqb_spec c "."%chr) as [->|]; [|done].
    apply IH in H as (o & os & -> & Hn & Hdo & Hv & Hos); [|lia].
    exists [], (o :: os). split_and!; [done|simpl length; lia|done|change (dec_from octet []) with octet; lia|by constructor].
Qed.

Lemma le_le_value l : bytes l -> le (length l) (le_value l) = l.
Proof.
  induction 1 as [|c l Hc Hl IH]; [done|]. unfold is_byte in Hc. simpl.
  replace (c + 256 * le_value l) with (c + le_value l * 256) by lia.
  rewrite Z_mod_plus_full, Z.div_add, Z.mod_small, Z.div_small, Z.add_0_l, IH by lia. done.
Qed.

Lemma le_inj a b : 0 <= a < 2 ^ 32 -> 0 <= b < 2 ^ 32 -> le 4 a = le 4 b -> a = b.
Proof.
  intros Ha Hb E. apply (f_equal le_value) in E. rewrite !le_value_le in E.
  change (256 ^ Z.of_nat 4) with (2 ^ 32) in E. by rewrite !Z.mod_small in E.
Qed.

Lemma le_value_bounds l : bytes l -> 0 <= le_value l < 256 ^ Z.of_nat (length l).
Proof.
  induction 1 as [|c l Hc Hl IH]; [by vm_compute|]. unfold is_byte in Hc. cbn [le_value length].
  rewrite Nat2Z.inj_succ, Z.pow_succ_r by lia. lia.
Qed.

Lemma htonl_range z : 0 <= htonl z < 2 ^ 32.
Proof.
  unfold htonl. pose proof (le_value_bounds (rev (le 4 z))) as H. rewrite length_rev, le_length in H.
  apply H. apply Forall_rev, le_bytes.
Qed.

Lemma htonl_value b1 b2 b3 b4 : bytes [b1; b2; b3; b4] ->
  le 4 (htonl (ipv4_value b1 b2 b3 b4)) = [b1; b2; b3; b4] /\
  ntohl (htonl (ipv4_value b1 b2 b3 b4)) = ipv4_value b1 b2 b3 b4.
Proof.
  intros Hb. unfold htonl, ntohl, ipv4_value.
  assert (Hr : bytes [b4; b3; b2; b1]) by (by rewrite !Forall_cons in *; tauto).
  pose proof (le_le_value _ Hr) as E. cbn [length] in E. rewrite E. cbn [rev app].
  pose proof (le_le_value _ Hb) as E'. cbn [length] in E'. rewrite E'. done.
Qed.

Lemma loose_bytes o : loose_octet o -> is_byte (dec_value o).
Proof. intros [Ho Hv]. pose proof (dec_from_nonneg 0 o ltac:(lia) Ho). unfold is_byte, dec_value in *. lia. Qed.

Lemma octet_loose o : octet_ok o -> loose_octet o.
Proof. by intros (_ & ? & ?). Qed.

Lemma octet_group o : octet_ok o -> group_ok o.
Proof.
  intros (Hl & Hd & _). split; [lia|]. clear Hl. induction o as [|c o IH]; [done|]. simpl in *.
  apply andb_prop in Hd as [Hc Hd]. rewrite IH by done. unfold is_hex, hex_digit. unfold is_digit in Hc. by rewrite Hc.
Qed.

(** ** Reading a text *)

Lemma htonl_none b1 b2 b3 b4 : bytes [b1; b2; b3; b4] ->
  htonl (ipv4_value b1 b2 b3 b4) = INADDR_NONE -> [b1; b2; b3; b4] = [255; 255; 255; 255].
Proof. intros Hb E. destruct (htonl_value _ _ _ _ Hb) as [<- _]. by rewrite E. Qed.

Lemma ipv4_words b1 b2 b3 b4 : bytes [b1; b2; b3; b4] ->
  let w := ipv4_value b1 b2 b3 b4 in
  0 <= w /\ u8 (Z.land (Z.shiftr w 24) 255) = b1 /\ u8 (Z.land (Z.shiftr w 16) 255) = b2 /\ word_bytes w = [b3; b4].
Proof.
  intros Hb w. pose proof (le_value_le 4 w) as _. rewrite !Forall_cons in Hb. destruct Hb as (H1 & H2 & H3 & H4 & _).
  unfold is_byte in *. unfold w, ipv4_value. cbn [le_value]. rewrite !(Z.land_ones _ 8), !Z.shiftr_div_pow2 by lia.
  unfold u8, word_bytes. change (2 ^ 8) with 256. change (2 ^ 24) with (256 * 256 * 256). change (2 ^ 16) with (256 * 256).
  rewrite !Z.mod_mod, <- !Z.div_div by lia.
  assert (D : forall c x, 0 <= c < 256 -> (c + 256 * x) / 256 = x /\ (c + 256 * x) mod 256 = c).
  { intros c x Hc. rewrite (Z.mul_comm 256), Z.div_add, Z_mod_plus_full, Z.div_small, Z.mod_small by lia. lia. }
  rewrite !(proj1 (D b4 _ H4)), !(proj1 (D b3 _ H3)), !(proj1 (D b2 _ H2)), (proj2 (D b1 _ H1)), (proj2 (D b2 _ H2)),
    (proj2 (D b3 _ H3)), (proj2 (D b4 _ H4)).
  split_and!; [lia|done..].
Qed.

(** An IPv4 address at the end, for which there are two words left. *)
Lemma loop_dotted o1 o2 o3 o4 out x y r z n :
  octet_ok o1 -> octet_ok o2 -> octet_ok o3 -> octet_ok o4 -> 2 <= n ->
  let l := dotted o1 o2 o3 o4 in
  let v := ipv4_value (dec_value o1) (dec_value o2) (dec_value o3) (dec_value o4) in
  htonl v <> INADDR_NONE ->
  inet6_loop l (between out (x :: y :: r) z (Some l) n) =
  Some (Leave6 (in_group (out ++ [dec_value o1; dec_value o2]) r z (Some l) (Z.of_nat (length o1)) v (n - 1))).
Proof.
  intros H1 H2 H3 H4 Hn l v Hv.
  assert (Hb : bytes [dec_value o1; dec_value o2; dec_value o3; dec_value o4])
    by (rewrite !Forall_cons; split_and!; try apply loose_bytes, octet_loose; done).
  destruct (ipv4_words _ _ _ _ Hb) as (_ & E1 & E2 & _). destruct (htonl_value _ _ _ _ Hb) as [_ Ev].
  unfold l at 1, dotted. rewrite loop_group by (by apply octet_group).
  cbn [inet6_loop]. change ("."%chr =? ":"%chr) with false. change ("."%chr =? "."%chr) with true.
  cbn [p6_nibbles in_group andb]. rewrite (proj2 (Z.eqb_neq (Z.of_nat (length o1)) 0)) by (destruct H1; lia). cbn [negb].
  unfold on_dot. cbn [p6_digit p6_n in_group]. rewrite (proj2 (Z.ltb_ge n 2)) by lia.
  replace (ngx_inet_addr l) with (htonl v) by (symmetry; apply inet_addr_dotted; by apply octet_loose).
  rewrite (proj2 (Z.eqb_neq _ _)) by done. fold v in Ev. rewrite Ev.
  set (s1 := (in_group out (x :: y :: r) z (Some l) (Z.of_nat (length o1)) (hex_from 0 o1) n) <| p6_word := v |>).
  change s1 with (in_group out (x :: y :: r) z (Some l) (Z.of_nat (length o1)) v n).
  rewrite put_byte_app. cbn [mbind option_bind]. rewrite put_byte_app. cbn [mbind option_bind].
  fold v in E1, E2. rewrite E1, E2, <- app_assoc. done.
Qed.

(** The last group, before which the colon has left [digit] at the last
    group. *)
Definition finishes (r : option parse6_step) (res : option (Z * list Z)) : Prop :=
  match r with Some (Leave6 s) => inet6_finish s = res | _ => False end.

(** What the end gives: the bytes stored, or with a double colon after [A]
    those behind it moved. *)
Definition closed (z : option nat) (out last : list Z) (n : Z) : option (list Z) :=
  match z with
  | None => if n =? Z.of_nat (length last / 2) then Some (out ++ last) else None
  | Some zero =>
      if Z.of_nat (length last / 2) <? n
      then Some (take zero out ++ replicate (Z.to_nat (2 * n) - length last) 0 ++ drop zero out ++ last) else None
  end.

Lemma finish_word out r z d nib w n mem : 0 <= w -> nib <> 0 \/ z <> None ->
  Z.of_nat (length r) = 2 * n -> (forall zero, z = Some zero -> (zero <= length out)%nat) ->
  closed z out (word_bytes w) n = Some mem ->
  inet6_finish (in_group out r z d nib w n) = Some (NGX_OK, mem).
Proof.
  intros Hw Hnz Hr Hz. unfold closed. change (length (word_bytes w) / 2)%nat with 1%nat. destruct z as [zero|].
  - destruct (Z.ltb_spec (Z.of_nat 1) n) as [Hn|]; [|done]. intros [= <-].
    specialize (Hz zero eq_refl). rewrite <- (take_drop zero out) at 1.
    replace (Some zero) with (Some (length (take zero out))) by (rewrite length_take; f_equal; lia).
    rewrite finish_moved by (done || lia). do 4 f_equal. simpl. f_equal. lia.
  - destruct (Z.eqb_spec n (Z.of_nat 1)) as [->|]; [|done]. intros [= <-].
    destruct r as [|x [|y [|]]]; simpl length in Hr; [lia..| |lia].
    rewrite finish_full by (done || by destruct Hnz). done.
Qed.

Lemma octet_255 o : octet_ok o -> dec_value o = 255 -> o = bs "255".
Proof.
  intros (Hl & Hd & _) Hv. unfold dec_value in Hv.
  destruct o as [|a [|b [|c [|]]]]; simpl in Hl, Hd; [lia| | | |lia]; unfold is_digit in Hd;
    rewrite !dec_from_cons in Hv; change (dec_from ?v []) with v in Hv; [lia..|].
  change (bs "255") with [50; 53; 53].
  assert (a = 50) as -> by lia. assert (b = 53) as -> by lia. assert (c = 53) as -> by lia. done.
Qed.

(** What is done with a text from some state of the loop on. *)
Definition run6 (p : list Z) (s : parse6) : option (Z * list Z) :=
  r ← inet6_loop p s;
  match r with
  | Leave6 s => inet6_finish s
  | Again6 s | Fail6 s => Some (NGX_ERROR, p6_mem s)
  end.

Lemma run_groups t a rest out r z d n : groups t a ->
  Z.of_nat (length r) = 2 * n -> Z.of_nat (length a) < 2 * n ->
  run6 (t ++ rest) (between out r z d n) =
  run6 rest (between (out ++ a) (drop (length a) r) z (digit_after t rest d) (n - Z.of_nat (length a) / 2)).
Proof. intros Hg Hr Ha. unfold run6. by rewrite (loop_groups t a Hg rest out r z d n Hr Ha). Qed.

Lemma last_length l b : last_group l b -> length b = 2%nat \/ length b = 4%nat.
Proof. destruct 1; auto. Qed.

Lemma run_last l b out r z d n mem : last_group l b -> l <> bs "255.255.255.255" ->
  (length b = 4%nat -> d = Some l) -> Z.of_nat (length r) = 2 * n -> (forall zero, z = Some zero -> (zero <= length out)%nat) ->
  closed z out b n = Some mem -> run6 l (between out r z d n) = Some (NGX_OK, mem).
Proof.
  intros Hl Hne Hd Hr Hz Hc. unfold run6. destruct Hl as [g Hg|o1 o2 o3 o4 H1 H2 H3 H4].
  - rewrite <- (app_nil_r g), loop_group by done. cbn [inet6_loop mbind option_bind].
    rewrite <- word_bytes_group in Hc by done.
    apply finish_word; [apply group_word; done|left; destruct Hg; lia|done..].
  - rewrite (Hd eq_refl).
    assert (Hn : 2 <= n).
    { unfold closed in Hc. cbn [length] in Hc. change (4 / 2)%nat with 2%nat in Hc. destruct z; zcases. }
    destruct r as [|x [|y r]]; simpl length in Hr; [lia..|].
    set (v := ipv4_value (dec_value o1) (dec_value o2) (dec_value o3) (dec_value o4)).
    assert (Hb : bytes [dec_value o1; dec_value o2; dec_value o3; dec_value o4])
      by (rewrite !Forall_cons; split_and!; try apply loose_bytes, octet_loose; done).
    destruct (ipv4_words _ _ _ _ Hb) as (Hv0 & _ & _ & Ew).
    rewrite loop_dotted; [|done..|].
    2: { intros E%htonl_none; [|done]. injection E as E1 E2 E3 E4. apply Hne.
         by rewrite (octet_255 o1), (octet_255 o2), (octet_255 o3), (octet_255 o4). }
    cbn [mbind option_bind]. fold v. apply finish_word; [done|left; destruct H1; lia|lia| |].
    + intros zero Ez. specialize (Hz zero Ez). rewrite length_app. lia.
    + fold v in Ew. rewrite Ew. unfold closed in *. change (length [dec_value o3; dec_value o4] / 2)%nat with 1%nat.
      change (length [dec_value o1; dec_value o2; dec_value o3; dec_value o4] / 2)%nat with 2%nat in Hc.
      destruct z as [zero|].
      * specialize (Hz zero eq_refl). destruct (Z.ltb_spec (Z.of_nat 2) n); [|done].
        rewrite (proj2 (Z.ltb_lt _ _)) by lia. rewrite <- Hc, take_app_le, drop_app_le, <- !app_assoc by done.
        do 4 f_equal. simpl length. lia.
      * destruct (Z.eqb_spec n (Z.of_nat 2)) as [->|]; [|done]. change (Z.of_nat 2 - 1 =? Z.of_nat 1) with true.
        by rewrite <- Hc, <- app_assoc.
Qed.

(** The two kinds of texts that are refused: a double colon at the end that
    stands for one group, and an IPv4 address that is [INADDR_NONE]. *)
Definition refused (text : list Z) : Prop :=
  (exists t a, groups t a /\ length a = 14%nat /\ text = compress t) \/
  (exists t, text = t ++ bs "255.255.255.255").

Lemma groups_length t a : groups t a -> (length a <= length t)%nat.
Proof. induction 1 as [|g t a [Hg _] Ht IH]; [done|]. rewrite !length_app. simpl. lia. Qed.

Lemma short_read text : (length text < 15)%nat -> ~ refused text.
Proof.
  intros Hl [(t & a & Hg & Ha & ->)|(t & ->)].
  - apply groups_length in Hg. unfold compress in Hl. destruct t; [simpl in Hg; lia|].
    rewrite length_app in Hl. change (length (bs ":")) with 1%nat in Hl. lia.
  - rewrite length_app in Hl. change (length (bs "255.255.255.255")) with 15%nat in Hl. lia.
Qed.

Lemma group_head g : group_ok g -> exists c g', g = c :: g' /\ (c =? ":"%chr) = false.
Proof.
  intros [Hl Hg]. destruct g as [|c g]; [simpl in Hl; lia|]. exists c, g. split; [done|].
  simpl in Hg. apply andb_prop in Hg as [Hc _].
  by destruct (is_hex_nibble c (Parse6 [] 0 None None 0 0 0) Hc ltac:(done)) as (? & _).
Qed.

Lemma inet6_run text mem c t : text = c :: t ->
  ngx_inet6_addr text mem = run6 (if c =? ":"%chr then t else text) (between [] mem None None 8).
Proof. intros ->. done. Qed.

Lemma inet6_run_groups t a rest mem : groups t a -> t <> [] -> length mem = 16%nat -> (length a < 16)%nat ->
  ngx_inet6_addr (t ++ rest) mem =
  run6 rest (between a (drop (length a) mem) None (Some rest) (8 - Z.of_nat (length a) / 2)).
Proof.
  intros Hg Hne Hm Ha. destruct Hg as [|g t a Hg0 Ht]; [done|].
  destruct (group_head g Hg0) as (c & g' & -> & Hc).
  rewrite (inet6_run _ _ c (g' ++ ":"%chr :: t ++ rest)) by (simpl; by rewrite <- app_assoc). rewrite Hc.
  rewrite (run_groups ((c :: g') ++ ":"%chr :: t) (group_bytes (c :: g') ++ a)) by (by constructor || lia). done.
Qed.

Lemma run_zero rest out r d n :
  run6 (":"%chr :: rest) (between out r None d n) = run6 rest (between out r (Some (length out)) (Some rest) n).
Proof. done. Qed.

(** After the groups before a double colon. *)
Lemma inet6_compress t a rest mem : groups t a -> length mem = 16%nat -> (length a < 16)%nat ->
  ngx_inet6_addr (compress t ++ rest) mem =
  run6 rest (between a (drop (length a) mem) (Some (length a)) (Some rest) (8 - Z.of_nat (length a) / 2)).
Proof.
  intros Hg Hm Ha. destruct t as [|c t0] eqn:Et.
  { apply groups_nil in Hg as ->. done. }
  rewrite <- Et in *. replace (compress t) with (t ++ bs ":") by by rewrite Et.
  rewrite <- app_assoc, (inet6_run_groups t a _ mem) by (done || by rewrite Et). apply run_zero.
Qed.

Lemma last_half l b : last_group l b -> (2 * (length b / 2))%nat = length b /\ (1 <= length b / 2)%nat.
Proof. intros [E|E]%last_length; rewrite E; split; done || (vm_compute; lia). Qed.

(** The three forms. *)
Lemma reads_full t a l b mem : groups t a -> last_group l b -> length (a ++ b) = 16%nat ->
  l <> bs "255.255.255.255" -> length mem = 16%nat -> ngx_inet6_addr (t ++ l) mem = Some (NGX_OK, a ++ b).
Proof.
  intros Hg Hl Hlen Hne Hm. rewrite length_app in Hlen. destruct (last_half l b Hl) as [Hb Hb1].
  destruct (groups_even t a Hg) as [m Hm2]. pose proof (last_length l b Hl).
  rewrite (inet6_run_groups t a) by (done || lia || (intros ->; apply groups_nil in Hg as ->; simpl in Hlen; lia)).
  rewrite Hm2, half_even. apply (run_last l b); [done|done|done|rewrite length_drop; lia|done|].
  unfold closed. replace (8 - Z.of_nat m) with (Z.of_nat (length b / 2)) by lia. by rewrite Z.eqb_refl.
Qed.

Lemma reads_compressed t a k t' a' l b mem : groups t a -> groups t' a' -> last_group l b -> (2 <= k)%nat ->
  length (a ++ replicate k 0 ++ a' ++ b) = 16%nat -> l <> bs "255.255.255.255" -> length mem = 16%nat ->
  ngx_inet6_addr (compress t ++ t' ++ l) mem = Some (NGX_OK, a ++ replicate k 0 ++ a' ++ b).
Proof.
  intros Hg Hg' Hl Hk Hlen Hne Hm. rewrite !length_app, length_replicate in Hlen.
  destruct (groups_even t a Hg) as [m Hm2], (groups_even t' a' Hg') as [m' Hm3].
  destruct (last_half l b Hl) as [Hb Hb1].
  rewrite (inet6_compress t a) by (done || lia). rewrite Hm2, half_even.
  rewrite (run_groups t' a' l) by (done || rewrite ?length_drop; lia). rewrite Hm3, half_even.
  apply (run_last l b); [done|done|by destruct t'|rewrite !length_drop; lia| |].
  { intros zero [= <-]. rewrite length_app. lia. }
  unfold closed. rewrite (proj2 (Z.ltb_lt _ _)) by lia.
  rewrite <- Hm2, take_app_length, drop_app_length. do 5 f_equal. lia.
Qed.

Lemma reads_trailing t a k mem : groups t a -> (2 < k)%nat -> length (a ++ replicate k 0) = 16%nat -> length mem = 16%nat ->
  ngx_inet6_addr (compress t) mem = Some (NGX_OK, a ++ replicate k 0).
Proof.
  intros Hg Hk Hlen Hm. rewrite length_app, length_replicate in Hlen. destruct (groups_even t a Hg) as [m Hm2].
  rewrite <- (app_nil_r (compress t)), (inet6_compress t a) by (done || lia). rewrite Hm2, half_even.
  apply (finish_word a _ _ _ 0 0 _ _); [done|by right|rewrite length_drop; lia|intros zero [= <-]; lia|].
  unfold closed. change (length (word_bytes 0) / 2)%nat with 1%nat. rewrite (proj2 (Z.ltb_lt _ _)) by lia.
  rewrite <- Hm2, firstn_all, drop_all. change (word_bytes 0) with (replicate 2 0). rewrite app_nil_l, <- replicate_add.
  simpl length. do 4 f_equal. lia.
Qed.

Lemma inet6_reads text addr mem : ipv6_text text addr -> ~ refused text -> length mem = 16%nat ->
  ngx_inet6_addr text mem = Some (NGX_OK, addr).
Proof.
  intros Ht Hr Hm.
  assert (Hne : forall t l, text = t ++ l -> l <> bs "255.255.255.255") by (intros t0 l0 -> ->; apply Hr; right; by exists t0).
  destruct Ht as [t a l b|t a k t' a' l b|t a k Hg Hk Hlen].
  - apply reads_full; try done. by apply (Hne t).
  - apply reads_compressed; try done. apply (Hne (compress t ++ t')). by rewrite <- app_assoc.
  - apply reads_trailing; try done. rewrite length_app, length_replicate in Hlen.
    assert (k <> 2%nat); [|lia]. intros ->. apply Hr. left. exists t, a. split_and!; [done|lia|done].
Qed.

(** ** Whatever the text *)

(** Two bytes are left for each of the [n] words to come. *)
Record in_bounds (s : parse6) : Prop := InBounds {
  ib_mem : length (p6_mem s) = 16%nat;
  ib_bytes : bytes (p6_mem s);
  ib_addr : Z.of_nat (p6_addr s) + 2 * p6_n s = 16;
  ib_n : 1 <= p6_n s;
  ib_zero : forall zero, p6_zero s = Some zero -> (zero <= p6_addr s)%nat
}.

Lemma put_byte_some b s : (p6_addr s < length (p6_mem s))%nat -> is_byte b -> bytes (p6_mem s) ->
  exists m, put_byte b s = Some (s <| p6_mem := m |> <| p6_addr := S (p6_addr s) |>) /\
    length m = length (p6_mem s) /\ bytes m.
Proof.
  intros Ha Hb Hm. unfold put_byte. rewrite (proj2 (Nat.ltb_lt _ _)) by done.
  eexists. split; [done|]. rewrite length_insert. split; [done|by apply Forall_insert].
Qed.

Lemma put_two_some b c s : (S (p6_addr s) < length (p6_mem s))%nat -> is_byte b -> is_byte c -> bytes (p6_mem s) ->
  exists m, (s' ← put_byte b s; put_byte c s') = Some (s <| p6_mem := m |> <| p6_addr := S (S (p6_addr s)) |>) /\
    length m = length (p6_mem s) /\ bytes m.
Proof.
  intros Ha Hb Hc Hm. destruct (put_byte_some b s ltac:(lia) Hb Hm) as (m1 & -> & Hl1 & Hm1). cbn [mbind option_bind].
  set (s1 := s <| p6_mem := m1 |> <| p6_addr := S (p6_addr s) |>).
  destruct (put_byte_some c s1) as (m2 & -> & Hl2 & Hm2); [simpl; lia|done|done|].
  exists m2. split; [done|]. simpl in Hl2. split; [congruence|done].
Qed.

Lemma put_word_some s : in_bounds s ->
  exists m, put_word s = Some (s <| p6_mem := m |> <| p6_addr := S (S (p6_addr s)) |>) /\ length m = 16%nat /\ bytes m.
Proof.
  intros [Hl Hb Ha Hn Hz]. unfold put_word.
  destruct (put_two_some (u8 (Z.shiftr (p6_word s) 8)) (u8 (Z.land (p6_word s) 255)) s) as (m & E & Hm & Hbm);
    [lia|apply u8_is_byte|apply u8_is_byte|done|].
  exists m. split; [|by rewrite Hm]. destruct (put_byte _ s) as [s1|] eqn:E1; simpl in E; [|done]. simpl.
  unfold put_byte in E1. destruct (_ <? _)%nat; [|done]. injection E1 as <-. done.
Qed.

Definition step_in_bounds (r : parse6_step) : Prop :=
  match r with
  | Again6 s | Leave6 s => in_bounds s
  | Fail6 s => length (p6_mem s) = 16%nat /\ bytes (p6_mem s)
  end.

Lemma on_colon_bounds p s : in_bounds s -> exists r, on_colon p s = Some r /\ step_in_bounds r.
Proof.
  intros Hs. unfold on_colon. destruct (p6_nibbles s =? 0); cbn [negb].
  - destruct (p6_zero s) eqn:Ez; eexists; (split; [done|]); destruct Hs as [Hl Hb Ha Hn Hz]; simpl; [done|].
    constructor; simpl; try done. intros zero [= <-]. done.
  - assert (Hs' : in_bounds (s <| p6_digit := Some p |>)) by (destruct Hs; by constructor).
    destruct (put_word_some _ Hs') as (m & -> & Hlm & Hbm). cbn [mbind option_bind].
    eexists. split; [done|]. destruct Hs as [Hl Hb Ha Hn Hz]. simpl.
    destruct (Z.eqb_spec (p6_n s - 1) 0); simpl; [done|].
    constructor; simpl; try done; [lia|lia|]. intros zero Ez. specialize (Hz zero Ez). lia.
Qed.

Lemma on_dot_bounds s : in_bounds s -> exists r, on_dot s = Some r /\ step_in_bounds r.
Proof.
  intros [Hl Hb Ha Hn Hz]. unfold on_dot. destruct (p6_digit s); [|by eexists].
  destruct (Z.ltb_spec (p6_n s) 2); [by eexists|]. cbv zeta. destruct (_ =? INADDR_NONE); [by eexists|].
  set (w := ntohl (ngx_inet_addr l)). set (s1 := s <| p6_word := w |>).
  destruct (put_byte_some (u8 (Z.land (Z.shiftr w 24) 255)) s1) as (m1 & -> & Hl1 & Hb1);
    [simpl; lia|apply u8_is_byte|done|]. cbn [mbind option_bind].
  set (s2 := s1 <| p6_mem := m1 |> <| p6_addr := S (p6_addr s1) |>).
  destruct (put_byte_some (u8 (Z.land (Z.shiftr w 16) 255)) s2) as (m2 & -> & Hl2 & Hb2);
    [simpl in *; lia|apply u8_is_byte|done|]. cbn [mbind option_bind].
  eexists. split; [done|]. simpl in *. constructor; simpl; try done; [lia|lia|lia|].
  intros zero Ez. specialize (Hz zero Ez). lia.
Qed.

Lemma on_nibble_bounds c s : in_bounds s -> step_in_bounds (on_nibble c s).
Proof. intros [Hl Hb Ha Hn Hz]. unfold on_nibble. repeat case_match; simpl; try done; by constructor. Qed.

Lemma loop_bounds p : forall s, in_bounds s -> exists r, inet6_loop p s = Some r /\ step_in_bounds r.
Proof.
  induction p as [|c p IH]; intros s Hs; simpl; [by eexists|].
  assert (Hr : exists r, (if c =? ":"%chr then on_colon p s
     else if (c =? "."%chr) && negb (p6_nibbles s =? 0) then on_dot s else Some (on_nibble c s)) = Some r /\ step_in_bounds r).
  { destruct (c =? ":"%chr); [by apply on_colon_bounds|].
    destruct (_ && _); [by apply on_dot_bounds|]. eexists. split; [done|by apply on_nibble_bounds]. }
  destruct Hr as (r & -> & Hr). cbn [mbind option_bind]. destruct r; [by apply IH|by eexists..].
Qed.

#[local] Arguments move_loop : simpl never.

Lemma finish_bounds s : in_bounds s -> exists rc mem, inet6_finish s = Some (rc, mem) /\ length mem = 16%nat /\ bytes mem.
Proof.
  intros Hs. unfold inet6_finish. destruct (_ && _); [destruct Hs; by eexists _, _|].
  destruct (put_word_some s Hs) as (m & -> & Hlm & Hbm). cbn [mbind option_bind]. simpl.
  destruct Hs as [Hl Hb Ha Hn Hz]. destruct (Z.eqb_spec (p6_n s - 1) 0); cbn [negb]; destruct (p6_zero s) as [zero|] eqn:Ez;
    [by eexists _, _..| |by eexists _, _].
  specialize (Hz zero eq_refl). set (at_ := S (S (p6_addr s))). set (k := Z.to_nat ((p6_n s - 1) * 2)).
  destruct (move_spec (take zero m) (drop zero (take at_ m)) (drop at_ m) [] k (S at_)) as (R' & HR' & HM);
    [rewrite length_drop; unfold at_, k; lia|unfold k; lia|rewrite length_drop, length_take; lia|].
  rewrite app_nil_r, app_assoc in HM.
  assert (E : take zero m ++ drop zero (take at_ m) = take at_ m).
  { rewrite <- (take_drop zero (take at_ m)) at 2. by rewrite take_take, Nat.min_l by (unfold at_; lia). }
  rewrite E, take_drop in HM. rewrite length_drop, !length_take in HM.
  replace (Z.of_nat at_ - 1) with (Z.of_nat (zero `min` length m) + Z.of_nat (at_ `min` length m - zero) - 1) by (unfold at_; lia).
  replace ((p6_n s - 1) * 2) with (Z.of_nat k) by (unfold k; lia).
  replace (Z.of_nat zero) with (Z.of_nat (zero `min` length m)) by lia. rewrite HM. cbn [mbind option_bind].
  unfold ngx_memzero.
  assert (Hlen : length (take zero m ++ R' ++ drop zero (take at_ m)) = 16%nat).
  { rewrite !length_app, length_drop, !length_take. unfold at_, k in *. lia. }
  rewrite app_nil_r, Hlen. rewrite (proj2 (Nat.leb_le _ _)) by (unfold k; lia). cbn [mbind option_bind].
  eexists _, _. split; [done|]. split.
  - rewrite !length_app, length_take, length_replicate, length_drop, Hlen. unfold k. lia.
  - rewrite !Forall_app. split_and!; [|by apply Forall_replicate|].
    + rewrite take_app_le by (rewrite length_take; lia). by apply Forall_take, Forall_take.
    + replace (drop (zero + k) _) with (drop zero (take at_ m)); [by apply Forall_drop, Forall_take|].
      rewrite drop_app_add', (drop_app_length' R') by (done || rewrite ?length_take; lia). done.
Qed.

(** C20: The parser of IPv6 addresses takes every text of RFC 4291 (all the
    groups, or a double colon for one or more of them, with an IPv4 address
    for the last two or not) and gives its 16 bytes, but for two kinds: a
    double colon at the end that stands for one group, and texts that end with
    255.255.255.255. *)
Theorem ngx_inet6_addr_rfc4291 text addr mem :
  ipv6_text text addr -> ~ refused text -> length mem = 16%nat ->
  ngx_inet6_addr text mem = Some (NGX_OK, addr).
Proof. apply inet6_reads. Qed.

Theorem ngx_inet6_addr_rfc4291_witness :
  ngx_inet6_addr (bs "fe8::1:2.3.4.5") (replicate 16 9) = Some (NGX_OK, [15; 232; 0; 0; 0; 0; 0; 0; 0; 0; 0; 1; 2; 3; 4; 5]).
Proof.
  apply (ngx_inet6_addr_rfc4291 (bs "fe8::1:2.3.4.5")); [|apply short_read|done].
  - apply (Compressed (bs "fe8:") (group_bytes (bs "fe8")) 8 (bs "1:") (group_bytes (bs "1")) (bs "2.3.4.5") [2; 3; 4; 5]).
    + apply (GCons (bs "fe8") [] []); [|constructor]. split; [simpl; lia|done].
    + apply (GCons (bs "1") [] []); [|constructor]. split; [simpl; lia|done].
    + apply (LDotted (bs "2") (bs "3") (bs "4") (bs "5")); (split; [simpl; lia|split; [done|vm_compute; discriminate]]).
    + lia.
    + done.
  - simpl. lia.
Defined.

(** Whatever the text, the parser of IPv6 addresses writes nothing outside
    the 16 bytes it is given, moves nothing from outside them, and ends. *)
Theorem ngx_inet6_addr_inside text mem : length mem = 16%nat -> bytes mem ->
  exists rc mem', ngx_inet6_addr text mem = Some (rc, mem') /\ length mem' = 16%nat /\ bytes mem'.
Proof.
  intros Hl Hb. unfold ngx_inet6_addr. destruct text as [|c p]; [by eexists _, _|].
  destruct (loop_bounds (if c =? ":"%chr then p else c :: p) (Parse6 mem 0 None None 0 0 8)) as (r & -> & Hr); [by constructor|].
  cbn [mbind option_bind]. destruct r; [|by apply finish_bounds|]; (eexists _, _; split; [done|]); destruct Hr; done.
Qed.

Theorem ngx_inet6_addr_inside_witness :
  exists rc mem', ngx_inet6_addr (bs "1::2:3:4:5:6:7:8:9") (replicate 16 0) = Some (rc, mem') /\ length mem' = 16%nat /\ bytes mem'.
Proof. apply ngx_inet6_addr_inside; [done|by repeat constructor]. Defined.

(** The parser of IPv4 addresses takes exactly four strings of digits, any
    of which may be empty or have zeros before it, with three dots between
    them, each a number up to 255; the result has them as its bytes.  The
    broadcast address is the value that stands for an error. *)
Theorem ngx_inet_addr_exact text a : a <> INADDR_NONE ->
  ngx_inet_addr text = a <->
  exists o1 o2 o3 o4, text = dotted o1 o2 o3 o4 /\ Forall loose_octet [o1; o2; o3; o4] /\
    0 <= a < 2 ^ 32 /\ le 4 a = map dec_value [o1; o2; o3; o4].
Proof.
  intros Hne. split.
  - intros E. unfold ngx_inet_addr in E.
    destruct (inet_addr_inv text 0 0 0 ltac:(lia) ltac:(congruence)) as (o & os & -> & Hn & Ho & Hv & Hos).
    destruct os as [|o2 [|o3 [|o4 [|]]]]; simpl in Hn; [lia..| |lia].
    assert (Hall : Forall loose_octet [o; o2; o3; o4]) by (constructor; [by split|done]).
    pose proof Hall as H4. rewrite !Forall_cons in H4. destruct H4 as (H1 & H2 & H3 & H4 & _).
    exists o, o2, o3, o4. assert (Ed : o ++ concat (map (cons "."%chr) [o2; o3; o4]) = dotted o o2 o3 o4)
      by (unfold dotted; cbn [map concat]; by rewrite app_nil_r).
    rewrite Ed in E |- *. fold (ngx_inet_addr (dotted o o2 o3 o4)) in E. rewrite inet_addr_dotted in E by done.
    split_and!; [done|done|subst a; apply htonl_range..|]. subst a. apply htonl_value.
    rewrite !Forall_cons. split_and!; try by apply loose_bytes. done.
  - intros (o1 & o2 & o3 & o4 & -> & Hall & Ha & El). rewrite !Forall_cons in Hall.
    destruct Hall as (H1 & H2 & H3 & H4 & _). rewrite inet_addr_dotted by done.
    apply le_inj; [apply htonl_range|done|]. rewrite El. apply htonl_value.
    rewrite !Forall_cons. split_and!; try by apply loose_bytes. done.
Qed.

Theorem ngx_inet_addr_exact_witness : le 4 (ngx_inet_addr (bs "10..010.255")) = [10; 0; 10; 255].
Proof.
  rewrite (proj2 (ngx_inet_addr_exact (bs "10..010.255") 4278845450 ltac:(done))); [done|].
  exists (bs "10"), [], (bs "010"), (bs "255"). split; [done|]. split; [|split; [lia|done]].
  repeat constructor; vm_compute; discriminate.
Defined.

(** A double colon at the end that stands for one group is refused. *)
Lemma inet6_one_group t a mem : groups t a -> length a = 14%nat -> length mem = 16%nat ->
  exists mem', ngx_inet6_addr (compress t) mem = Some (NGX_ERROR, mem').
Proof.
  intros Hg Ha Hm. rewrite <- (app_nil_r (compress t)), (inet6_compress t a) by (done || lia). rewrite Ha.
  destruct (drop 14 mem) as [|x [|y r]] eqn:E; apply (f_equal length) in E; rewrite length_drop, Hm in E; simpl in E; [lia..|].
  eexists. unfold run6, inet6_finish. cbn [inet6_loop mbind option_bind between p6_nibbles p6_zero].
  rewrite bool_decide_eq_false_2, andb_false_r by done.
  change (between a (x :: y :: r) (Some 14%nat) (Some []) (8 - Z.of_nat 14 / 2)) with (in_group a (x :: y :: r) (Some 14%nat) (Some []) 0 0 1).
  rewrite put_word_app by done. reflexivity.
Qed.
