(* ===== verification/NgxInetPrint.v ===== *)
(** * Printing addresses

    What [ngx_inet6_ntop] and [ngx_sock_ntop] print is a text of the address,
    which is read back. *)

From S2P Require Import Prelude NgxNumbers NgxPrintf NgxInet NgxInetText.

Set Warnings "-register-all".

#[local] Abbreviation length := (@List.length _).

(** ** The words of an address *)

Definition words (p : list Z) (j k : nat) : list Z := map (fun j => word_at p (2 * j)) (seq j k).
Definition word_ok (w : Z) : Prop := 0 <= w < 65536.

Lemma words_split p j k k' : words p j (k + k') = words p j k ++ words p (j + k) k'.
Proof. unfold words. by rewrite seq_app, map_app. Qed.

Lemma words_S p j k : words p j (S k) = word_at p (2 * j) :: words p (S j) k.
Proof. done. Qed.

Lemma words_length p j k : length (words p j k) = k.
Proof. unfold words. by rewrite length_map, length_seq. Qed.

Section Words.
Context (p : list Z) (Hb : bytes p).

Lemma byte_at i : is_byte (p !!! i).
Proof.
  rewrite list_lookup_total_alt. destruct (p !! i) as [x|] eqn:E; [|done].
  rewrite Forall_forall in Hb. apply Hb. by eapply list_elem_of_lookup_2.
Qed.

Lemma word_at_ok i : word_ok (word_at p i).
Proof. pose proof (byte_at i). pose proof (byte_at (S i)). unfold word_ok, word_at, is_byte in *. lia. Qed.

Lemma word_at_bytes i : word_bytes (word_at p i) = [p !!! i; p !!! S i].
Proof.
  pose proof (byte_at i). pose proof (byte_at (S i)). unfold word_bytes, word_at, is_byte in *.
  rewrite Z.add_comm, Z.div_add, (Z.div_small (p !!! S i)), Z.add_0_l, Z_mod_plus_full, !Z.mod_small by lia. done.
Qed.

Lemma words_ok j k : Forall word_ok (words p j k).
Proof. apply Forall_map, Forall_true. intros. apply word_at_ok. Qed.

Lemma words_bytes : length p = 16%nat -> concat (map word_bytes (words p 0 8)) = p.
Proof.
  intros Hp. unfold words. rewrite map_map. cbn [seq map concat Nat.mul Nat.add]. rewrite !word_at_bytes.
  clear Hb. destruct p as [|? [|? [|? [|? [|? [|? [|? [|? [|? [|? [|? [|? [|? [|? [|? [|? [|]]]]]]]]]]]]]]]]]; by simpl in Hp.
Qed.
End Words.

(** ** What the loop over the words prints *)

(** Words, each with a colon after it; with colons between them. *)
Definition colons (ws : list Z) : list Z := concat (map (fun w => hex_text w ++ [":"%chr]) ws).
Fixpoint joined (ws : list Z) : list Z :=
  match ws with
  | [] => []
  | [w] => hex_text w
  | w :: ws => hex_text w ++ ":"%chr :: joined ws
  end.

Lemma hex_text_group w : word_ok w -> group_ok (hex_text w) /\ group_bytes (hex_text w) = word_bytes w.
Proof.
  intros Hw. destruct (hex_text_digits 4 w) as (_ & Hl & Hx & Hv); [lia|done|].
  assert (Hg : group_ok (hex_text w)) by (by split; [lia|]).
  split; [done|]. by rewrite <- word_bytes_group, Hv.
Qed.

Lemma colons_groups ws : Forall word_ok ws -> groups (colons ws) (concat (map word_bytes ws)).
Proof.
  induction 1 as [|w ws Hw Hws IH]; [constructor|]. destruct (hex_text_group w Hw) as [Hg Hgb].
  unfold colons. cbn [map concat]. rewrite <- app_assoc, <- Hgb. by constructor.
Qed.

Lemma joined_snoc ws w : joined (ws ++ [w]) = colons ws ++ hex_text w.
Proof.
  induction ws as [|v ws IH]; [done|]. unfold colons in *. cbn [app map concat]. rewrite <- !app_assoc, <- IH.
  by destruct ws.
Qed.

Lemma hex_text_length w : word_ok w -> (length (hex_text w) <= 4)%nat.
Proof. intros Hw. destruct (hex_text_group w Hw) as [[? _] _]. lia. Qed.

Section Loop.
Context (p : list Z) (Hb : bytes p) (len : nat) (Hlen : (NGX_INET6_ADDRSTRLEN <= len)%nat).

Lemma print_word i : ngx_sprintf len (bs "%xd") [ANum (word_at p i)] = Some (hex_text (word_at p i)).
Proof.
  pose proof (word_at_ok p Hb i) as Hw. pose proof (hex_text_length _ Hw). unfold word_ok, NGX_INET6_ADDRSTRLEN in *.
  apply sprintf_prints; [|lia]. rewrite <- (app_nil_r (hex_text _)). rewrite <- (app_nil_r (bs "%xd")).
  apply prints_xd; [lia|apply prints_nil].
Qed.

(** The words from the [j]-th on, when the run of zeros is not among them. *)
Lemma words_tail k : forall j rounds zero max, (j + k = 8)%nat -> (k <= rounds)%nat ->
  zero < 2 * Z.of_nat j \/ 16 <= zero ->
  words_loop rounds len (2 * Z.of_nat j) 16 zero max p = Some (joined (words p j k)).
Proof.
  induction k as [|k IH]; intros j rounds zero max Hj Hk Hz.
  { assert (j = 8%nat) as -> by lia. by destruct rounds. }
  destruct rounds as [|rounds]; [lia|]. cbn [words_loop].
  rewrite (proj2 (Z.ltb_lt _ _)), (proj2 (Z.eqb_neq _ _)) by lia. cbn [negb].
  replace (Z.to_nat (2 * Z.of_nat j)) with (2 * j)%nat by lia. rewrite print_word. cbn [mbind option_bind].
  replace (2 * Z.of_nat j + 2) with (2 * Z.of_nat (S j)) by lia. rewrite IH by lia. cbn [mbind option_bind].
  rewrite words_S. destruct k as [|k].
  - rewrite (proj2 (Z.ltb_ge _ _)) by lia. by rewrite app_nil_r.
  - rewrite (proj2 (Z.ltb_lt _ _)) by lia. by rewrite words_S.
Qed.

(** The words before a run of zeros. *)
Lemma words_head k : forall j rounds zero max rest, (j + k = zero)%nat -> (zero < 8)%nat ->
  words_loop rounds len (2 * Z.of_nat zero + (max - 1) * 2 + 2) 16 (2 * Z.of_nat zero) max p = Some rest ->
  words_loop (k + S rounds) len (2 * Z.of_nat j) 16 (2 * Z.of_nat zero) max p
  = Some (colons (words p j k) ++ ":"%chr :: rest).
Proof.
  induction k as [|k IH]; intros j rounds zero max rest Hj Hz Hrest; cbn [Nat.add words_loop];
    rewrite (proj2 (Z.ltb_lt _ _)) by lia; cbn [negb].
  - assert (j = zero) as -> by lia. rewrite Z.eqb_refl, Hrest. done.
  - rewrite (proj2 (Z.eqb_neq _ _)) by lia.
    replace (Z.to_nat (2 * Z.of_nat j)) with (2 * j)%nat by lia. rewrite print_word. cbn [mbind option_bind].
    replace (2 * Z.of_nat j + 2) with (2 * Z.of_nat (S j)) by lia. rewrite (IH _ _ _ _ rest) by (done || lia).
    cbn [mbind option_bind]. rewrite (proj2 (Z.ltb_lt _ _)) by lia. rewrite words_S.
    unfold colons. cbn [map concat]. by rewrite <- !app_assoc.
Qed.
End Loop.

(** ** The longest run of zeros *)

Definition run_found (nonzero : list bool) (s : runs) : bool :=
  (r_zero s =? 2 ^ 64 - 1) && (r_max s =? 1) ||
  existsb (fun zero => existsb (fun max =>
    (r_zero s =? 2 * Z.of_nat zero) && (r_max s =? Z.of_nat max) &&
    forallb negb (take max (drop zero nonzero))) (seq 2 (7 - zero))) (seq 0 7).

Lemma find_run_spec b0 b1 b2 b3 b4 b5 b6 b7 :
  let l := [b0; b1; b2; b3; b4; b5; b6; b7] in run_found l (find_run l) = true.
Proof. destruct b0, b1, b2, b3, b4, b5, b6, b7; vm_compute; reflexivity. Qed.

(** Whether a word of the address is not zero, as the code looks at it. *)
Definition nonzero_at (p : list Z) (j : nat) : bool := negb (p !!! (2 * j)%nat =? 0) || negb (p !!! S (2 * j)%nat =? 0).

Lemma run_words p z m r : bytes p -> (z + (m + r) = 8)%nat ->
  forallb negb (take m (drop z (map (nonzero_at p) (seq 0 8)))) = true ->
  concat (map word_bytes (words p z m)) = replicate (2 * m) 0.
Proof.
  intros Hb Hz. rewrite <- Hz, seq_app, map_app, seq_app, map_app. cbn [Nat.add].
  rewrite drop_app_length' by (by rewrite length_map, length_seq).
  rewrite take_app_length' by (by rewrite length_map, length_seq). clear Hz.
  revert z. induction m as [|m IH]; intros z H; [done|]. rewrite words_S. cbn [seq map forallb] in H.
  apply andb_prop in H as [H1 H2]. cbn [map concat]. rewrite (IH _ H2), (word_at_bytes p Hb).
  unfold nonzero_at in H1. replace (2 * S m)%nat with (S (S (2 * m))) by lia.
  assert (p !!! (2 * z)%nat = 0 /\ p !!! S (2 * z) = 0) as [-> ->] by lia. done.
Qed.

Lemma joined_last ws : ws <> [] -> exists vs w, ws = vs ++ [w] /\ joined ws = colons vs ++ hex_text w.
Proof. intros Hne. destruct (exists_last Hne) as (vs & w & ->). exists vs, w. split; [done|apply joined_snoc]. Qed.

Lemma colons_length ws : Forall word_ok ws -> (length (colons ws) <= 5 * length ws)%nat.
Proof.
  induction 1 as [|w ws Hw _ IH]; [simpl; lia|]. unfold colons in *. cbn [map concat].
  pose proof (hex_text_length w Hw). rewrite !length_app. simpl. lia.
Qed.

Lemma joined_length ws : Forall word_ok ws -> (length (joined ws) <= 5 * length ws)%nat.
Proof.
  intros Hws. destruct ws as [|w ws]; [simpl; lia|].
  destruct (joined_last (w :: ws)) as (vs & v & E & ->); [done|]. rewrite E in Hws.
  apply Forall_app in Hws as [Hvs [Hv _]%Forall_cons]. pose proof (colons_length vs Hvs).
  pose proof (hex_text_length v Hv). apply (f_equal length) in E. rewrite !length_app in *. simpl in *. lia.
Qed.

Lemma hex_not_broadcast w : word_ok w -> hex_text w <> bs "255.255.255.255".
Proof. intros Hw%hex_text_length E. rewrite E in Hw. change (15 <= 4)%nat in Hw. lia. Qed.

Lemma compress_colons p z rest :
  (if 2 * Z.of_nat z =? 0 then [":"%chr] else []) ++ colons (words p 0 z) ++ ":"%chr :: rest
  = compress (colons (words p 0 z)) ++ rest.
Proof.
  destruct z as [|z]; [done|]. rewrite (proj2 (Z.eqb_neq _ _)) by lia. cbn [app]. unfold compress.
  destruct (colons (words p 0 (S z))) as [|c t] eqn:E; [|by rewrite <- app_assoc].
  rewrite words_S in E. unfold colons in E. cbn [map concat] in E. by destruct (hex_text _).
Qed.

(** The octets in decimal. *)
Definition quad (a b c d : Z) : list Z := dotted (dec_text a) (dec_text b) (dec_text c) (dec_text d).

Lemma byte_octet b : is_byte b -> octet_ok (dec_text b) /\ dec_value (dec_text b) = b.
Proof.
  intros Hb. unfold is_byte in Hb. destruct (dec_text_digits b ltac:(lia)) as (_ & _ & Hd & Hv).
  pose proof (dec_text_short 3 b ltac:(lia) ltac:(simpl; lia)). split; [|done]. split; [lia|]. split; [done|lia].
Qed.

Lemma quad_last a b c d : bytes [a; b; c; d] -> last_group (quad a b c d) [a; b; c; d].
Proof.
  rewrite !Forall_cons. intros (Ha & Hb & Hc & Hd & _). unfold quad.
  destruct (byte_octet a Ha) as [Oa Va], (byte_octet b Hb) as [Ob Vb], (byte_octet c Hc) as [Oc Vc], (byte_octet d Hd) as [Od Vd].
  rewrite <- Va at 2. rewrite <- Vb at 2. rewrite <- Vc at 2. rewrite <- Vd at 2. by constructor.
Qed.

Lemma quad_length a b c d : bytes [a; b; c; d] -> (length (quad a b c d) <= 15)%nat.
Proof.
  rewrite !Forall_cons. intros (Ha & Hb & Hc & Hd & _). unfold quad, dotted.
  destruct (byte_octet a Ha) as [[La _] _], (byte_octet b Hb) as [[Lb _] _], (byte_octet c Hc) as [[Lc _] _], (byte_octet d Hd) as [[Ld _] _].
  repeat (rewrite length_app; cbn [length]). lia.
Qed.

Lemma prints_quad a b c d fmt args out : bytes [a; b; c; d] -> prints fmt args out ->
  prints (bs "%ud.%ud.%ud.%ud" ++ fmt) (ANum a :: ANum b :: ANum c :: ANum d :: args) (quad a b c d ++ out).
Proof.
  rewrite !Forall_cons. unfold is_byte. intros (Ha & Hb & Hc & Hd & _) Hp. unfold quad, dotted.
  rewrite <- !app_assoc. cbn [app]. rewrite <- !app_assoc. cbn [app]. rewrite <- !app_assoc. cbn [app].
  apply (prints_ud a ("."%chr :: bs "%ud.%ud.%ud" ++ fmt)); [lia|]. apply prints_char; [done|].
  apply (prints_ud b ("."%chr :: bs "%ud.%ud" ++ fmt)); [lia|]. apply prints_char; [done|].
  apply (prints_ud c ("."%chr :: bs "%ud" ++ fmt)); [lia|]. apply prints_char; [done|].
  by apply prints_ud; [lia|].
Qed.

Lemma quad_broadcast a b c d : bytes [a; b; c; d] -> quad a b c d = bs "255.255.255.255" -> [a; b; c; d] = [255; 255; 255; 255].
Proof.
  intros Hb E. assert (Hv : ngx_inet_addr (quad a b c d) = INADDR_NONE) by (rewrite E; by vm_compute).
  pose proof Hb as Hb'. rewrite !Forall_cons in Hb'. destruct Hb' as (Ha & Hb2 & Hc & Hd & _).
  destruct (byte_octet a Ha) as [Oa Va], (byte_octet b Hb2) as [Ob Vb], (byte_octet c Hc) as [Oc Vc], (byte_octet d Hd) as [Od Vd].
  unfold quad in Hv. rewrite inet_addr_dotted in Hv by (by apply octet_loose). rewrite Va, Vb, Vc, Vd in Hv.
  by apply htonl_none.
Qed.

(** ** The text of an address *)

(** The addresses that end with 255.255.255.255 and are printed so. *)
Definition broadcast6 (p : list Z) : Prop :=
  exists k, (k = 0%nat \/ k = 2%nat) /\ p = replicate (12 - k) 0 ++ replicate (4 + k) 255.

(** A text of the address, which fits and is read back. *)
Record text_of (p text : list Z) : Prop := TextOf {
  to_text : ipv6_text text p;
  to_length : (length text <= 40)%nat;
  to_read : forall mem, ~ broadcast6 p -> length mem = 16%nat -> ngx_inet6_addr text mem = Some (NGX_OK, p)
}.

Section Print.
Context (p : list Z) (Hb : bytes p) (Hp : length p = 16%nat).

Lemma text_full : text_of p (joined (words p 0 8)).
Proof.
  destruct (joined_last (words p 0 8)) as (ws & w & E & ->); [done|].
  pose proof (words_ok p Hb 0 8) as Hok. pose proof (words_bytes p Hb Hp) as Ep.
  pose proof (words_length p 0 8) as Hl. rewrite E in Hok, Ep, Hl. rewrite length_app in Hl. simpl in Hl.
  apply Forall_app in Hok as [Hws [Hw _]%Forall_cons]. destruct (hex_text_group w Hw) as [Hg Hgb].
  rewrite map_app, concat_app in Ep. cbn [map concat] in Ep. rewrite app_nil_r, <- Hgb in Ep.
  pose proof (colons_length ws Hws). pose proof (hex_text_length w Hw). pose proof (hex_not_broadcast w Hw).
  rewrite <- Ep at 1. constructor.
  - constructor; [by apply colons_groups|by constructor|by rewrite Ep].
  - rewrite length_app. lia.
  - intros mem _ Hm. apply reads_full; [by apply colons_groups|by constructor|by rewrite Ep|done|done].
Qed.

(** A run of [m] zeros before which there are [z] words and after which [r]. *)
Lemma text_run z m r : (z + (m + r) = 8)%nat -> (2 <= m)%nat ->
  concat (map word_bytes (words p z m)) = replicate (2 * m) 0 ->
  text_of p (compress (colons (words p 0 z)) ++ joined (words p (z + m) r)).
Proof.
  intros Hz Hm Hzero. set (a := concat (map word_bytes (words p 0 z))).
  assert (Ep : p = a ++ replicate (2 * m) 0 ++ concat (map word_bytes (words p (z + m) r))).
  { rewrite <- (words_bytes p Hb Hp) at 1. rewrite <- Hz, words_split, words_split. cbn [Nat.add].
    by rewrite !map_app, !concat_app, Hzero. }
  pose proof (colons_groups _ (words_ok p Hb 0 z)) as Hg. fold a in Hg.
  pose proof (colons_length _ (words_ok p Hb 0 z)) as Hcl. rewrite words_length in Hcl.
  pose proof (joined_length _ (words_ok p Hb (z + m) r)) as Hjl. rewrite words_length in Hjl.
  assert (Htl : (length (compress (colons (words p 0 z)) ++ joined (words p (z + m) r)) <= 40)%nat).
  { rewrite length_app. unfold compress. destruct (colons (words p 0 z)); [simpl; lia|].
    rewrite length_app. simpl in *. lia. }
  destruct r as [|r].
  { cbn [words seq map joined concat] in *. rewrite !app_nil_r in *.
    rewrite Ep at 1. constructor; [constructor; [done|lia|by rewrite <- Ep]|done|].
    intros mem _ Hmem. apply reads_trailing; [done|lia|by rewrite <- Ep|done]. }
  destruct (joined_last (words p (z + m) (S r))) as (ws & w & E & Ej); [done|]. rewrite Ej in *.
  pose proof (words_ok p Hb (z + m) (S r)) as Hok. rewrite E in Hok, Ep.
  apply Forall_app in Hok as [Hws [Hw _]%Forall_cons]. destruct (hex_text_group w Hw) as [Hgw Hgb].
  rewrite map_app, concat_app in Ep. cbn [map concat] in Ep. rewrite app_nil_r, <- Hgb in Ep.
  pose proof (colons_groups ws Hws) as Hg'. pose proof (hex_not_broadcast w Hw) as Hne.
  rewrite Ep at 1. constructor; [constructor; [done|done|by constructor|lia|by rewrite <- Ep]|done|].
  intros mem _ Hmem.
  apply reads_compressed; [done|done|by constructor|lia|by rewrite <- Ep|done|done].
Qed.

Lemma last_four : drop 12 p = [p !!! 12%nat; p !!! 13%nat; p !!! 14%nat; p !!! 15%nat].
Proof.
  clear Hb. destruct p as [|? [|? [|? [|? [|? [|? [|? [|? [|? [|? [|? [|? [|? [|? [|? [|? [|]]]]]]]]]]]]]]]]]; by simpl in Hp.
Qed.

Lemma four_bytes : bytes [p !!! 12%nat; p !!! 13%nat; p !!! 14%nat; p !!! 15%nat].
Proof. rewrite <- last_four. by apply Forall_drop. Qed.

(** An address printed with its end in decimals: after the zeros [ffff] or
    nothing. *)
Lemma text_quad (t' a' : list Z) k : groups t' a' -> (t' = [] /\ a' = [] /\ k = 0%nat \/ t' = bs "ffff:" /\ a' = [255; 255] /\ k = 2%nat) ->
  take 12 p = replicate (12 - k) 0 ++ a' ->
  text_of p (bs "::" ++ t' ++ quad (p !!! 12%nat) (p !!! 13%nat) (p !!! 14%nat) (p !!! 15%nat)).
Proof.
  intros Hg Ht Hz. pose proof four_bytes as H4. pose proof (quad_last _ _ _ _ H4) as Hq.
  pose proof (quad_length _ _ _ _ H4) as Hql.
  set (q := quad (p !!! 12%nat) (p !!! 13%nat) (p !!! 14%nat) (p !!! 15%nat)) in *.
  assert (Ep : p = [] ++ replicate (12 - k) 0 ++ a' ++ [p !!! 12%nat; p !!! 13%nat; p !!! 14%nat; p !!! 15%nat]).
  { rewrite <- last_four. rewrite app_nil_l, app_assoc, <- Hz. by rewrite take_drop. }
  assert (Hk : (2 <= 12 - k)%nat) by (destruct Ht as [(_ & _ & ->)|(_ & _ & ->)]; lia).
  rewrite Ep at 1. change (bs "::") with (compress []). constructor.
  - constructor; [constructor|done|done|done|by rewrite <- Ep].
  - rewrite !length_app. destruct Ht as [(-> & _)|(-> & _)]; simpl; lia.
  - intros mem Hne Hm. rewrite <- Ep in Hne. apply reads_compressed; [constructor|done|done|done|by rewrite <- Ep| |done].
    intros E. apply quad_broadcast in E; [|done]. apply Hne. exists k.
    rewrite Ep, E. destruct Ht as [(_ & -> & ->)|(_ & -> & ->)]; split; auto.
Qed.
End Print.

(** ** [ngx_inet6_ntop] *)

Section Ntop.
Context (p : list Z) (Hb : bytes p) (Hp : length p = 16%nat) (len : nat) (Hlen : (NGX_INET6_ADDRSTRLEN <= len)%nat).

(** The text of the code with [n], for a run found. *)
Definition ntop_text (n zero max : Z) : option (list Z) :=
  l ← words_loop 8 len 0 n zero max p;
  v4 ← (if n =? 12 then ngx_sprintf len (bs "%ud.%ud.%ud.%ud")
          [ANum (p !!! 12%nat); ANum (p !!! 13%nat); ANum (p !!! 14%nat); ANum (p !!! 15%nat)]
        else Some []);
  Some ((if zero =? 0 then [":"%chr] else []) ++ l ++ v4).

Lemma ntop_none zero : 16 <= zero -> exists text, ntop_text 16 zero 1 = Some text /\ text_of p text.
Proof.
  intros Hz. exists (joined (words p 0 8)). split; [|by apply text_full]. unfold ntop_text.
  pose proof (words_tail p Hb len Hlen 8 0 8 zero 1 ltac:(lia) ltac:(lia) ltac:(lia)) as Hw.
  change (2 * Z.of_nat 0) with 0 in Hw. rewrite Hw. cbn [mbind option_bind].
  change (16 =? 12) with false. cbn [mbind option_bind]. rewrite (proj2 (Z.eqb_neq zero 0)) by lia.
  by rewrite app_nil_r.
Qed.

Lemma ntop_run z m r : (z + (m + r) = 8)%nat -> (2 <= m)%nat ->
  concat (map word_bytes (words p z m)) = replicate (2 * m) 0 ->
  exists text, ntop_text 16 (2 * Z.of_nat z) (Z.of_nat m) = Some text /\ text_of p text.
Proof.
  intros Hz Hm Hzero. eexists. split; [|by apply (text_run p Hb Hp z m r)]. unfold ntop_text.
  pose proof (words_head p Hb len Hlen z 0 (7 - z) z (Z.of_nat m) (joined (words p (z + m) r))) as Hw.
  replace (z + S (7 - z))%nat with 8%nat in Hw by lia. change (2 * Z.of_nat 0) with 0 in Hw.
  rewrite Hw; [|lia|lia|].
  - cbn [mbind option_bind]. change (16 =? 12) with false. cbn [mbind option_bind]. rewrite app_nil_r.
    by rewrite compress_colons.
  - replace (2 * Z.of_nat z + (Z.of_nat m - 1) * 2 + 2) with (2 * Z.of_nat (z + m)) by lia.
    apply words_tail; [done|done|lia..].
Qed.

Lemma print_quad : ngx_sprintf len (bs "%ud.%ud.%ud.%ud")
    [ANum (p !!! 12%nat); ANum (p !!! 13%nat); ANum (p !!! 14%nat); ANum (p !!! 15%nat)]
  = Some (quad (p !!! 12%nat) (p !!! 13%nat) (p !!! 14%nat) (p !!! 15%nat)).
Proof.
  pose proof (four_bytes p Hb Hp) as H4. pose proof (quad_length _ _ _ _ H4). unfold NGX_INET6_ADDRSTRLEN in *.
  apply sprintf_prints; [|lia]. rewrite <- (app_nil_r (quad _ _ _ _)). rewrite <- (app_nil_r (bs "%ud.%ud.%ud.%ud")).
  by apply prints_quad, prints_nil.
Qed.

(** The first [m] words are zeros, and the end is printed in decimals. *)
Lemma ntop_v4 m r : (m + r = 8)%nat -> (m = 5%nat /\ word_at p 10 = 65535 \/ m = 6%nat \/ m = 7%nat) ->
  concat (map word_bytes (words p 0 m)) = replicate (2 * m) 0 ->
  exists text, ntop_text 12 0 (Z.of_nat m) = Some text /\ text_of p text.
Proof.
  intros Hr Hm Hzero.
  assert (Ez : take (2 * m) p = replicate (2 * m) 0).
  { rewrite <- (words_bytes p Hb Hp) at 1. rewrite <- Hr, words_split, map_app, concat_app, Hzero.
    apply take_app_length'. by rewrite length_replicate. }
  assert (H12 : (6 <= m)%nat -> take 12 p = replicate (12 - 0) 0).
  { intros Hge. replace 12%nat with (Nat.min 12 (2 * m)) at 1 by lia. rewrite <- take_take, Ez, take_replicate. f_equal. lia. }
  unfold ntop_text. change (12 =? 12) with true. rewrite print_quad. destruct Hm as [[-> Hw]|[-> | ->]].
  - eexists. split.
    + cbn [words_loop]. change (Z.of_nat 5) with 5.
      change (negb (0 <? 12)) with false. change (0 =? 0) with true. change (0 + (5 - 1) * 2 + 2) with 10. cbn iota.
      change (negb (10 <? 12)) with false. change (10 =? 0) with false. change (Z.to_nat 10) with 10%nat. cbn iota.
      rewrite (print_word p Hb len Hlen 10), Hw. change (negb (10 + 2 <? 12)) with true. change (10 <? 14) with true.
      cbn [mbind option_bind]. reflexivity.
    + apply (text_quad p Hb Hp (bs "ffff:") [255; 255] 2).
      * change (bs "ffff:") with (colons [65535]). apply (colons_groups [65535]). by repeat constructor.
      * right. done.
      * change (2 * 5)%nat with 10%nat in Ez.
        replace (take 12 p) with (take 10 p ++ take 2 (drop 10 p)) by (by rewrite take_take_drop).
        rewrite Ez. f_equal. pose proof (word_at_bytes p Hb 10) as E. rewrite Hw in E. change (word_bytes 65535) with [255; 255] in E.
        rewrite E. clear -Hp. destruct p as [|? [|? [|? [|? [|? [|? [|? [|? [|? [|? [|? [|? [|? [|? [|? [|? [|]]]]]]]]]]]]]]]]]; by simpl in Hp.
  - eexists. split; [reflexivity|]. apply (text_quad p Hb Hp [] [] 0); [constructor|by left|].
    rewrite app_nil_r. by apply H12; lia.
  - eexists. split; [reflexivity|]. apply (text_quad p Hb Hp [] [] 0); [constructor|by left|].
    rewrite app_nil_r. by apply H12; lia.
Qed.

Lemma ntop_prints : exists text, ngx_inet6_ntop p len = Some text /\ text_of p text.
Proof.
  unfold ngx_inet6_ntop. rewrite (proj2 (Nat.ltb_ge _ _)) by done.
  set (nz := map _ [0; 2; 4; 6; 8; 10; 12; 14]%nat). change nz with (map (nonzero_at p) (seq 0 8)).
  pose proof (find_run_spec (nonzero_at p 0) (nonzero_at p 1) (nonzero_at p 2) (nonzero_at p 3)
    (nonzero_at p 4) (nonzero_at p 5) (nonzero_at p 6) (nonzero_at p 7)) as Hf. cbv zeta in Hf.
  change [nonzero_at p 0; nonzero_at p 1; nonzero_at p 2; nonzero_at p 3; nonzero_at p 4; nonzero_at p 5;
    nonzero_at p 6; nonzero_at p 7] with (map (nonzero_at p) (seq 0 8)) in Hf.
  set (s := find_run _) in *. clearbody s. cbv zeta.
  set (n := if _ && _ then 12 else 16).
  assert (H : exists text, ntop_text n (r_zero s) (r_max s) = Some text /\ text_of p text).
  { unfold run_found in Hf. apply orb_prop in Hf as [[Hz Hm]%andb_prop|Hf].
    - apply Z.eqb_eq in Hz, Hm. unfold n. rewrite Hz, Hm. change (2 ^ 64 - 1 =? 0) with false. cbn [andb].
      by apply ntop_none.
    - apply existsb_exists in Hf as (z & Hz & Hf). apply existsb_exists in Hf as (m & Hm & Hf).
      apply andb_prop in Hf as [[Ez Em]%andb_prop Hrun]. apply Z.eqb_eq in Ez, Em.
      apply in_seq in Hz, Hm. pose proof (run_words p z m (8 - z - m) Hb ltac:(lia) Hrun) as Hzero.
      destruct (_ && _) eqn:Hc in n; [|unfold n; rewrite Ez, Em; apply (ntop_run z m (8 - z - m)); [lia|lia|done]].
      apply andb_prop in Hc as [Hz0 Hc]. rewrite Ez in Hz0. assert (z = 0%nat) as -> by lia.
      unfold n. rewrite Ez, Em. rewrite Em in Hc. apply (ntop_v4 m (8 - m)); [lia| |done].
      apply orb_prop in Hc as [Hc|Hc]; [apply orb_prop in Hc as [Hc|Hc]|].
      + left. split; [lia|]. unfold word_at. lia.
      + right; left. lia.
      + right; right. lia. }
  destruct H as (text & H & Ht). exists text. split; [|done]. unfold ntop_text in H.
  destruct (words_loop _ _ _ _ _ _ _) as [l|]; [|done]. cbn [mbind option_bind] in *.
  destruct (if n =? 12 then _ else _) as [v4|]; [|done]. cbn [mbind option_bind] in *. injection H as ->.
  destruct Ht as [_ Hl _]. unfold NGX_INET6_ADDRSTRLEN in Hlen. by rewrite (proj2 (Nat.leb_le _ _)) by lia.
Qed.
End Ntop.
