(* ===== verification/NgxCidr.v ===== *)
(** * Blocks of addresses

    [ngx_ptocidr] on an address with a prefix length: the mask has as many
    bits as the number says, and the address keeps those bits. *)

From S2P Require Import Prelude NgxNumbers NgxCodec NgxPrintf NgxInet NgxInetText.

Set Warnings "-register-all".

#[local] Abbreviation length := (@List.length _).

(** ** Texts of addresses *)

(** An address and its bytes in network order: an IPv4 address whose octets
    may have any number of digits, or an IPv6 address as in RFC 4291; but for
    those the code takes for errors. *)
Inductive address : list Z -> list Z -> Prop :=
| A4 o1 o2 o3 o4 :
    loose_octet o1 -> loose_octet o2 -> loose_octet o3 -> loose_octet o4 ->
    [dec_value o1; dec_value o2; dec_value o3; dec_value o4] <> [255; 255; 255; 255] ->
    address (dotted o1 o2 o3 o4) [dec_value o1; dec_value o2; dec_value o3; dec_value o4]
| A6 text addr : ipv6_text text addr -> ~ refused text -> address text addr.

Definition addr_char (c : Z) : bool := is_hex c || (c =? ":"%chr) || (c =? "."%chr).

Lemma forallb_weaken (f g : Z -> bool) l : (forall c, f c = true -> g c = true) -> forallb f l = true -> forallb g l = true.
Proof. rewrite !forallb_forall. naive_solver. Qed.

Lemma hex_addr g : forallb is_hex g = true -> forallb addr_char g = true.
Proof.  apply forallb_weaken. intros c Hc. unfold addr_char. by rewrite Hc. Qed.

Lemma digits_addr o : forallb is_digit o = true -> forallb addr_char o = true.
Proof.
  intros H. apply hex_addr. revert H. apply forallb_weaken. intros c Hc.
  unfold is_hex, hex_digit. unfold is_digit in Hc. by rewrite Hc.
Qed.

Lemma dotted_addr o1 o2 o3 o4 : loose_octet o1 -> loose_octet o2 -> loose_octet o3 -> loose_octet o4 ->
  forallb addr_char (dotted o1 o2 o3 o4) = true.
Proof.
  intros [H1 _] [H2 _] [H3 _] [H4 _]. unfold dotted. repeat (rewrite forallb_app; cbn [forallb]).
  by rewrite !digits_addr.
Qed.

Lemma groups_addr t a : groups t a -> forallb addr_char t = true.
Proof.
  induction 1 as [|g t a [_ Hg] Ht IH]; [done|]. rewrite forallb_app. cbn [forallb]. by rewrite (hex_addr g), IH.
Qed.

Lemma last_addr l b : last_group l b -> forallb addr_char l = true.
Proof. destruct 1 as [g [_ Hg]|]; [by apply hex_addr|apply dotted_addr; by apply octet_loose]. Qed.

Lemma compress_addr t : forallb addr_char t = true -> forallb addr_char (compress t) = true.
Proof. intros H. unfold compress. destruct t; [done|]. by rewrite forallb_app, H. Qed.

Lemma ipv6_addr text addr : ipv6_text text addr -> forallb addr_char text = true.
Proof.
  destruct 1 as [t a l b Hg Hl _|t a k t' a' l b Hg Hg' Hl _ _|t a k Hg _ _];
    rewrite ?forallb_app, ?(compress_addr t), ?(groups_addr t a), ?(last_addr l b), ?(groups_addr t' a') by (done || by eapply groups_addr);
    done.
Qed.

Lemma groups_colon t a : groups t a -> t <> [] -> ":"%chr ∈ t.
Proof. destruct 1 as [|g t a]; [done|]. intros _. set_solver. Qed.

Lemma compress_colon t : ":"%chr ∈ compress t.
Proof. unfold compress. destruct t; [by left|]. apply elem_of_app. right. by left. Qed.

Lemma ipv6_colon text addr : ipv6_text text addr -> ":"%chr ∈ text.
Proof.
  destruct 1 as [t a l b Hg Hl Hlen|t a k t' a' l b|t a k]; rewrite ?elem_of_app; [left|left|]; [|apply compress_colon..].
  apply (groups_colon t a Hg). intros ->. apply groups_nil in Hg as ->. apply last_length in Hl. simpl in Hlen. lia.
Qed.

(** A text with a colon is not one of an IPv4 address. *)
Lemma inet_addr_colon text : ":"%chr ∈ text -> ngx_inet_addr text = INADDR_NONE.
Proof.
  intros Hc. destruct (Z.eq_dec (ngx_inet_addr text) INADDR_NONE) as [|Hne]; [done|]. exfalso.
  destruct (inet_addr_inv text 0 0 0 ltac:(lia) Hne) as (o & os & -> & _ & Ho & _ & Hos).
  assert (H : forallb (fun c => is_digit c || (c =? "."%chr)) (o ++ concat (map (cons "."%chr) os)) = true).
  { rewrite forallb_app. apply andb_true_intro. split.
    - revert Ho. apply forallb_weaken. intros c Hd. by rewrite Hd.
    - clear Hc Hne. induction Hos as [|x os [Hx _] _ IH]; [done|]. cbn [map concat app forallb]. rewrite forallb_app.
      rewrite (forallb_weaken is_digit _ x); [done|intros c Hd; by rewrite Hd|done]. }
  rewrite forallb_forall in H. specialize (H _ (proj1 (list_elem_of_In _ _) Hc)). done.
Qed.

(** ** Masks *)

(** The number of which the first [k] bits of [n] bytes are those of [v], and
    the mask of that many bits. *)
Definition prefix_of (n k v : Z) : Z := v / 2 ^ (8 * n - k) * 2 ^ (8 * n - k).
Definition prefix_mask (n k : Z) : Z := 2 ^ (8 * n) - 2 ^ (8 * n - k).

Lemma be_value_from v l : fold_left (fun v c => v * 256 + c) l v = v * 256 ^ Z.of_nat (length l) + be_value l.
Proof.
  unfold be_value. revert v. induction l as [|c l IH]; intros v; simpl; [lia|].
  rewrite IH, (IH (0 * 256 + c)), Nat2Z.inj_succ, Z.pow_succ_r by lia. lia.
Qed.

Lemma be_value_cons c l : be_value (c :: l) = c * 2 ^ (8 * Z.of_nat (length l)) + be_value l.
Proof.
  unfold be_value at 1. cbn [fold_left]. rewrite be_value_from, Z.pow_mul_r by lia. change (2 ^ 8) with 256. lia.
Qed.

Lemma be_value_bounds l : bytes l -> 0 <= be_value l < 2 ^ (8 * Z.of_nat (length l)).
Proof.
  induction 1 as [|c l Hc Hl IH]; [by vm_compute|]. rewrite be_value_cons. unfold is_byte in Hc. cbn [length].
  replace (8 * Z.of_nat (S (length l))) with (8 + 8 * Z.of_nat (length l)) by lia.
  rewrite Z.pow_add_r by lia. change (2 ^ 8) with 256. nia.
Qed.

(** The byte of a mask. *)
Lemma byte_mask s a : 0 <= s <= 8 -> is_byte a ->
  let m := u8 (Z.shiftl 255 (8 - s)) in
  m = 2 ^ 8 - 2 ^ (8 - s) /\ Z.land a m = a / 2 ^ (8 - s) * 2 ^ (8 - s).
Proof.
  intros Hs Ha. assert (Hs' : s = 0 \/ s = 1 \/ s = 2 \/ s = 3 \/ s = 4 \/ s = 5 \/ s = 6 \/ s = 7 \/ s = 8) by lia.
  cbv zeta. destruct_or! Hs'; subst s; by_byte a.
Qed.

Lemma masked_byte N s a v : 0 <= N -> 0 <= s <= 8 -> 0 <= v < 2 ^ N ->
  (a * 2 ^ N + v) / 2 ^ (N + (8 - s)) * 2 ^ (N + (8 - s)) = a / 2 ^ (8 - s) * 2 ^ (8 - s) * 2 ^ N.
Proof.
  intros HN Hs Hv. rewrite Z.pow_add_r, <- Z.div_div by lia.
  rewrite Z.add_comm, Z.div_add, (Z.div_small v) by lia. rewrite Z.add_0_l. lia.
Qed.

Lemma mask_loop_spec l : bytes l -> forall k rc, 0 <= k <= 8 * Z.of_nat (length l) ->
  exists l' m, mask_loop l k rc = (if bool_decide (l' = l) then rc else NGX_DONE, l', m) /\
    length l' = length l /\ length m = length l /\ bytes l' /\ bytes m /\
    be_value l' = prefix_of (Z.of_nat (length l)) k (be_value l) /\ be_value m = prefix_mask (Z.of_nat (length l)) k.
Proof.
  induction 1 as [|a l Ha Hl IH]; intros k rc Hk.
  { exists [], []. simpl in Hk. assert (k = 0) as -> by lia. split_and!; done. }
  cbn [mask_loop length] in *. set (s := if 8 <? k then 8 else k). set (N := 8 * Z.of_nat (length l)) in *.
  assert (Hs : 0 <= s <= 8) by (unfold s; zcases). assert (Hks : 0 <= k - s <= N) by (unfold s; zcases).
  destruct (byte_mask s a Hs Ha) as [Em Ea]. set (m := u8 _) in *. set (a' := Z.land a m) in *.
  destruct (IH (k - s) (if negb (a =? a') then NGX_DONE else rc) Hks) as (l' & M & E & Hl' & HM & Hbl & HbM & Hv & HvM).
  exists (a' :: l'), (m :: M).
  pose proof (be_value_bounds l Hl) as Hbv. fold N in Hbv.
  assert (Hm : is_byte m) by (apply u8_is_byte).
  assert (Ha' : is_byte a').
  { unfold is_byte in *. rewrite Ea. pose proof (Z.pow_pos_nonneg 2 (8 - s) ltac:(lia) ltac:(lia)).
    pose proof (Z.mul_div_le a (2 ^ (8 - s)) ltac:(lia)). pose proof (Z.div_pos a (2 ^ (8 - s)) ltac:(lia) ltac:(lia)). nia. }
  assert (Hsplit : s = 8 \/ k = s) by (unfold s; zcases).
  split_and!.
  - destruct (Z.eqb_spec a a') as [Eq|Ne]; cbn [negb] in *; rewrite E.
    + rewrite <- Eq. rewrite (bool_decide_ext (a :: l' = a :: l) (l' = l)); [done|]. split; congruence.
    + rewrite (bool_decide_eq_false_2 (a' :: l' = a :: l)) by congruence. by destruct (bool_decide _).
  - simpl. congruence.
  - simpl. congruence.
  - by constructor.
  - by constructor.
  - rewrite !be_value_cons, Hl', Hv. fold N. unfold prefix_of in *.
    replace (8 * Z.of_nat (S (length l))) with (N + 8) by lia. fold N. rewrite Ea. destruct Hsplit as [E8|Ek].
    + rewrite E8. change (8 - 8) with 0. rewrite Z.pow_0_r, Z.div_1_r, Z.mul_1_r. replace (N + 8 - k) with (N - (k - 8)) by lia.
      set (K := N - (k - 8)). assert (HK : 0 <= K <= N) by (unfold K; lia).
      replace (2 ^ N) with (2 ^ (N - K) * 2 ^ K) by (rewrite <- Z.pow_add_r by lia; f_equal; lia).
      rewrite Z.mul_assoc, Z.div_add_l by (pose proof (Z.pow_pos_nonneg 2 K); lia). lia.
    + rewrite <- Ek, Z.sub_diag, Z.sub_0_r. replace (N + 8 - k) with (N + (8 - k)) by lia.
      rewrite masked_byte by lia. rewrite (Z.div_small (be_value l)) by done. lia.
  - rewrite be_value_cons, HM, HvM, Em. unfold prefix_mask. fold N.
    replace (8 * Z.of_nat (S (length l))) with (N + 8) by lia. fold N.
    rewrite Z.mul_sub_distr_r, <- !Z.pow_add_r by lia. destruct Hsplit as [-> | Ek].
    + replace (8 - 8 + N) with N by lia. replace (N + 8 - k) with (N - (k - 8)) by lia. replace (8 + N) with (N + 8) by lia. lia.
    + rewrite <- Ek. replace (N - (k - k)) with N by lia. replace (8 - k + N) with (N + 8 - k) by lia.
      replace (8 + N) with (N + 8) by lia. lia.
Qed.

(** *** IPv4: the same on the bytes of the number *)

Lemma mask_loop_land l : forall k rc rc' l' m, mask_loop l k rc = (rc', l', m) -> l' = zip_with Z.land l m.
Proof.
  induction l as [|a l IH]; intros k rc rc' l' m H; cbn [mask_loop] in H; [by simplify_eq|].
  set (x := u8 _) in H. destruct (negb (a =? Z.land a x)) eqn:Ea;
    destruct (mask_loop l _ _) as [[rc1 l1] m1] eqn:E; simplify_eq; simpl; rewrite (IH _ _ _ _ _ E); [done|].
  f_equal. lia.
Qed.

Lemma mask_loop_mask l l0 : length l = length l0 -> forall k rc rc0,
  snd (mask_loop l k rc) = snd (mask_loop l0 k rc0).
Proof.
  revert l0. induction l as [|a l IH]; intros [|b l0] Hl k rc rc0; try done. cbn [mask_loop].
  set (x := u8 _). set (s := if 8 <? k then 8 else k).
  destruct (if negb (a =? Z.land a x) then _ else _) as [r1 a1], (if negb (b =? Z.land b x) then _ else _) as [r2 b1].
  simpl in Hl. pose proof (IH l0 ltac:(lia) (k - s) r1 r2) as E.
  destruct (mask_loop l (k - s) r1) as [[? ?] ?], (mask_loop l0 (k - s) r2) as [[? ?] ?]. simpl in *. congruence.
Qed.

Lemma le_land n : forall a b, le n (Z.land a b) = zip_with Z.land (le n a) (le n b).
Proof.
  induction n as [|n IH]; intros a b; [done|]. simpl. rewrite <- IH.
  f_equal; [|f_equal]; apply Z.bits_inj'; intros i Hi; change 256 with (2 ^ 8).
  - rewrite Z.land_spec. destruct (Z.ltb_spec i 8).
    + by rewrite !Z.mod_pow2_bits_low, Z.land_spec by lia.
    + by rewrite !Z.mod_pow2_bits_high by lia.
  - by rewrite <- !Z.shiftr_div_pow2, !Z.land_spec, !Z.shiftr_spec, Z.land_spec by lia.
Qed.

Definition in_mask (k : Z) : Z := if negb (k =? 0) then htonl (u32 (Z.shiftl 0xffffffff (32 - k))) else 0.

Lemma in_mask_bytes k : 0 <= k <= 32 -> le 4 (in_mask k) = snd (mask_loop [0; 0; 0; 0] k 0).
Proof. intros Hk. by_range k 0 33. Qed.

Lemma in_prefix_spec a k : 0 <= a < 2 ^ 32 -> 0 <= k <= 32 ->
  exists a' l' m, in_prefix a k = (if bool_decide (l' = le 4 a) then NGX_OK else NGX_DONE, Some (CIn a' (in_mask k))) /\
    le 4 a' = l' /\ le 4 (in_mask k) = m /\ be_value l' = prefix_of 4 k (be_value (le 4 a)) /\ be_value m = prefix_mask 4 k.
Proof.
  intros Ha Hk. destruct (mask_loop_spec (le 4 a) (le_bytes 4 a) k 0) as (l' & m & E & Hl' & Hm & _ & _ & Hv & Hvm);
    [by rewrite le_length; lia|].
  rewrite le_length in *. change (Z.of_nat 4) with 4 in *.
  assert (Em : le 4 (in_mask k) = m).
  { rewrite in_mask_bytes by done. rewrite (mask_loop_mask [0; 0; 0; 0] (le 4 a)) with (rc0 := 0) by done. by rewrite E. }
  assert (El : le 4 (Z.land a (in_mask k)) = l') by (by rewrite le_land, Em; symmetry; eapply mask_loop_land).
  assert (Hland : 0 <= Z.land a (in_mask k) < 2 ^ 32).
  { split; [apply Z.land_nonneg; left; lia|]. destruct (Z.eq_dec (Z.land a (in_mask k)) 0) as [->|]; [lia|].
    assert (0 <= Z.land a (in_mask k)) by (apply Z.land_nonneg; left; lia).
    apply Z.log2_lt_pow2; [lia|]. assert (0 <= in_mask k) by (unfold in_mask; destruct (negb _); [apply htonl_range|lia]).
    pose proof (Z.log2_land a (in_mask k) ltac:(lia) ltac:(lia)).
    destruct (Z.eq_dec a 0) as [->|]; [by rewrite Z.land_0_l in *|].
    pose proof (proj1 (Z.log2_lt_pow2 a 32 ltac:(lia)) ltac:(lia)). lia. }
  exists (Z.land a (in_mask k)), l', m. split_and!; try done.
  unfold in_prefix. rewrite (proj2 (Z.ltb_ge 32 k)) by lia. cbv zeta. fold (in_mask k).
  destruct (Z.eqb_spec a (Z.land a (in_mask k))) as [Eq|Ne].
  - rewrite <- Eq in El |- *. rewrite El. by rewrite bool_decide_eq_true_2.
  - rewrite bool_decide_eq_false_2; [done|]. intros E'. apply Ne, le_inj; [done|done|congruence].
Qed.

(** *** [ngx_ptocidr] *)

Lemma strlchr_app c l rest : c ∉ l -> ngx_strlchr c (l ++ c :: rest) = Some (length l).
Proof.
  induction l as [|x l IH]; intros Hc; simpl; [by rewrite Z.eqb_refl|].
  rewrite (proj2 (Z.eqb_neq x c)) by set_solver. by rewrite IH by set_solver.
Qed.

Lemma strlchr_none c l : c ∉ l -> ngx_strlchr c l = None.
Proof.
  induction l as [|x l IH]; intros Hc; simpl; [done|].
  rewrite (proj2 (Z.eqb_neq x c)) by set_solver. by rewrite IH by set_solver.
Qed.

Lemma no_char (f : Z -> bool) c l : forallb f l = true -> f c = false -> c ∉ l.
Proof. intros Hl Hc Hin. rewrite forallb_forall in Hl. specialize (Hl c (proj1 (list_elem_of_In _ _) Hin)). congruence. Qed.

Definition cidr_bytes (c : cidr) : list Z * list Z :=
  match c with CIn a m => (le 4 a, le 4 m) | CIn6 a m => (a, m) end.

Lemma dotted_bytes o1 o2 o3 o4 : loose_octet o1 -> loose_octet o2 -> loose_octet o3 -> loose_octet o4 ->
  bytes [dec_value o1; dec_value o2; dec_value o3; dec_value o4].
Proof. intros. rewrite !Forall_cons. split_and!; try by apply loose_bytes. done. Qed.

Lemma groups_bytes t a : groups t a -> bytes a.
Proof.
  induction 1 as [|g t a Hg Ht IH]; [done|]. apply Forall_app. split; [|done]. rewrite <- word_bytes_group by done.
  unfold word_bytes. rewrite !Forall_cons. unfold is_byte. split_and!; try apply Z.mod_pos_bound; done || lia.
Qed.

Lemma last_bytes l b : last_group l b -> bytes b.
Proof.
  destruct 1 as [g Hg|]; [|by apply dotted_bytes; apply octet_loose].
  rewrite <- (app_nil_r (group_bytes g)). apply (groups_bytes (g ++ bs ":")). by apply GCons; [|constructor].
Qed.

Lemma ipv6_bytes text addr : ipv6_text text addr -> bytes addr /\ length addr = 16%nat.
Proof.
  destruct 1 as [t a l b Hg Hl Hlen|t a k t' a' l b Hg Hg' Hl Hk Hlen|t a k Hg Hk Hlen]; (split; [|done]);
    rewrite !Forall_app; split_and?; try (by eapply groups_bytes); try (by eapply last_bytes); by apply Forall_replicate.
Qed.

(** What the code finds out about the address before the slash. *)
Lemma address_read t addr : address t addr ->
  forallb addr_char t = true /\ bytes addr /\
  ((exists a, ngx_inet_addr t = a /\ a <> INADDR_NONE /\ 0 <= a < 2 ^ 32 /\ le 4 a = addr) \/
   (ngx_inet_addr t = INADDR_NONE /\ length addr = 16%nat /\
    forall mem, length mem = 16%nat -> ngx_inet6_addr t mem = Some (NGX_OK, addr))).
Proof.
  destruct 1 as [o1 o2 o3 o4 H1 H2 H3 H4 Hne|t addr Ht Hr].
  - pose proof (dotted_bytes o1 o2 o3 o4 H1 H2 H3 H4) as Hb. split; [by apply dotted_addr|]. split; [done|]. left.
    rewrite inet_addr_dotted by done. eexists. split; [done|]. split; [by intros E%htonl_none|].
    split; [apply htonl_range|by apply htonl_value].
  - destruct (ipv6_bytes t addr Ht) as [Hb Hl]. split; [by eapply ipv6_addr|]. split; [done|]. right.
    split; [by eapply inet_addr_colon, ipv6_colon|]. split; [done|]. intros mem Hm. by apply inet6_reads.
Qed.

Lemma atoi_digits d : d <> [] -> forallb is_digit d = true ->
  0 <= dec_value d /\ ngx_atoi d = if dec_value d <=? NGX_MAX_INT_T_VALUE then dec_value d else NGX_ERROR.
Proof.
  intros Hne Hd. split; [by apply dec_from_nonneg; [lia|]|].
  rewrite (proj1 (decimal_parsers_spec d)). unfold dec_parse. by rewrite bool_decide_eq_true_2, Hd.
Qed.

(** What a block is: the address keeps the first [k] bits, of which it is said
    whether they were all. *)
Definition block (addr : list Z) (k : Z) (r : Z * option cidr) : Prop :=
  let n := Z.of_nat (length addr) in
  exists c net mask, cidr_bytes c = (net, mask) /\
    r = (if bool_decide (net = addr) then NGX_OK else NGX_DONE, Some c) /\
    length net = length addr /\ length mask = length addr /\
    be_value net = prefix_of n k (be_value addr) /\ be_value mask = prefix_mask n k.

Lemma in_block a k : 0 <= a < 2 ^ 32 -> 0 <= k -> 
  if k <=? 32 then block (le 4 a) k (in_prefix a k) else in_prefix a k = (NGX_ERROR, None).
Proof.
  intros Ha Hk. destruct (Z.leb_spec k 32) as [Hle|Hgt].
  - destruct (in_prefix_spec a k Ha ltac:(lia)) as (a' & l' & m & -> & El & Em & Hv & Hvm).
    exists (CIn a' (in_mask k)), l', m. rewrite le_length. cbn [cidr_bytes]. rewrite El, Em. split_and!; try done.
    + by rewrite <- El, le_length.
    + by rewrite <- Em, le_length.
  - unfold in_prefix. by rewrite (proj2 (Z.ltb_lt 32 k)).
Qed.

Lemma in6_block addr k : bytes addr -> length addr = 16%nat -> 0 <= k ->
  if k <=? 128 then block addr k (in6_prefix addr k) else in6_prefix addr k = (NGX_ERROR, None).
Proof.
  intros Hb Hl Hk. unfold in6_prefix. destruct (Z.leb_spec k 128) as [Hle|Hgt].
  - rewrite (proj2 (Z.ltb_ge 128 k)) by lia.
    destruct (mask_loop_spec addr Hb k NGX_OK) as (l' & m & -> & Hl' & Hm & _ & _ & Hv & Hvm); [lia|].
    by exists (CIn6 l' m), l', m.
  - by rewrite (proj2 (Z.ltb_lt 128 k)).
Qed.

(** C21: An address the code can read with a slash and a number [k] after it is
    the block of the addresses with the same first [k] bits: the mask has [k]
    ones and then zeros, the address keeps the bits under the mask, NGX_OK says
    that these were all it had and NGX_DONE that others were dropped; a number
    beyond the bits of the family, however long, is NGX_ERROR. The addresses
    are those of IPv4, and of IPv6 as in RFC 4291, but for three that the code
    takes for errors: 255.255.255.255, an IPv6 address that ends with it, and
    one with a double colon at its end that stands for one group. *)
Theorem ngx_ptocidr_prefix t addr digits mem :
  address t addr -> length mem = 16%nat -> digits <> [] -> forallb is_digit digits = true ->
  let k := dec_value digits in
  exists r, ngx_ptocidr (t ++ "/"%chr :: digits) mem = Some r /\
    if k <=? 8 * Z.of_nat (length addr) then block addr k r else r = (NGX_ERROR, None).
Proof.
  intros Ht Hm Hne Hd k. destruct (address_read t addr Ht) as (Hc & Hb & Hr).
  destruct (atoi_digits digits Hne Hd) as [Hk Ek]. fold k in Hk, Ek.
  unfold ngx_ptocidr. rewrite strlchr_app by (by apply (no_char addr_char)). cbn [default].
  unfold id. rewrite take_app_length. cbv zeta.
  replace (drop (S (length t)) (t ++ "/"%chr :: digits)) with digits
    by (rewrite <- (Nat.add_1_r (length t)), drop_app_add; done).
  rewrite Ek. set (limit := 8 * Z.of_nat (length addr)).
  assert (Hbig : (limit = 32 \/ limit = 128) -> NGX_MAX_INT_T_VALUE < k -> (k <=? limit) = false).
  { intros Hlim Hgt. apply Z.leb_gt. unfold NGX_MAX_INT_T_VALUE in Hgt. lia. }
  destruct Hr as [(a & -> & Hna & Ha & El)|(-> & Hl & H6)].
  - rewrite (proj2 (Z.eqb_neq a INADDR_NONE)) by done. cbn [negb]. eexists. split; [done|].
    assert (Hlim : limit = 32) by (unfold limit; by rewrite <- El, le_length).
    destruct (Z.leb_spec k NGX_MAX_INT_T_VALUE).
    + rewrite (proj2 (Z.eqb_neq k NGX_ERROR)) by (unfold NGX_ERROR; lia). rewrite Hlim, <- El. by apply in_block.
    + rewrite Z.eqb_refl, Hbig by (done || by left). done.
  - rewrite Z.eqb_refl. cbn [negb]. rewrite H6 by (rewrite length_app, le_length, length_drop; lia).
    cbn [mbind option_bind]. rewrite Z.eqb_refl. eexists. split; [done|].
    assert (Hlim : limit = 128) by (unfold limit; by rewrite Hl).
    destruct (Z.leb_spec k NGX_MAX_INT_T_VALUE).
    + rewrite (proj2 (Z.eqb_neq k NGX_ERROR)) by (unfold NGX_ERROR; lia). rewrite Hlim. by apply in6_block.
    + rewrite Z.eqb_refl, Hbig by (done || by right). done.
Qed.

Theorem ngx_ptocidr_prefix_witness :
  (exists r, ngx_ptocidr (bs "10.1..7/12") (replicate 16 9) = Some r /\ block [10; 1; 0; 7] 12 r) /\
  (exists r, ngx_ptocidr (bs "2001:db8::/129") (replicate 16 9) = Some r /\ r = (NGX_ERROR, None)).
Proof.
  split.
  - apply (ngx_ptocidr_prefix (bs "10.1..7") [10; 1; 0; 7] (bs "12")); [|done|done|done].
    apply (A4 (bs "10") (bs "1") [] (bs "7")); try (split; [done|vm_compute; discriminate]). done.
  - apply (ngx_ptocidr_prefix (bs "2001:db8::") ([32; 1; 13; 184] ++ replicate 12 0) (bs "129")); [|done|done|done].
    apply A6; [|apply short_read; simpl; lia].
    apply (Trailing (bs "2001:db8:") ([32; 1; 13; 184]) 12); [|lia|done].
    apply (GCons (bs "2001") (bs "db8:") [13; 184]); [split; [simpl; lia|done]|].
    apply (GCons (bs "db8") [] []); [split; [simpl; lia|done]|constructor].
Defined.
