(* ===== verification/NgxUrl.v ===== *)
(** * URLs of servers (src/core/ngx_inet.c)

    [ngx_parse_url]: the address, the port and the URI of a server as the
    configuration gives it.  Names are resolved by [getaddrinfo]. *)

From S2P Require Import Prelude NgxNumbers NgxCodec NgxPrintf NgxInet NgxInetText NgxInetPrint NgxCidr.

Set Warnings "-register-all".

#[local] Abbreviation length := (@List.length _).

(** ** Data *)

Definition sockaddr_in_size : Z := 16.
Definition sockaddr_in6_size : Z := 28.
Definition sockaddr_un_size : Z := 110.
Definition sun_path_size : nat := 108.

(** [src/core/ngx_inet.h:72-76] ngx_addr_t *)
Record ngx_addr := Addr { a_sockaddr : sockaddr; a_socklen : Z; a_name : list Z }.

(** [src/core/ngx_inet.h:79-103] ngx_url_t: [u_url] is the memory from
    [url.data] on, [u_len] is [url.len].  The family is that of the
    [u_sockaddr]. *)
Record ngx_url := Url {
  u_url : list Z; u_len : nat; u_host : list Z; u_port_text : list Z; u_uri : list Z;
  u_port : Z; u_default_port : Z;
  u_listen : bool; u_uri_part : bool; u_no_resolve : bool; u_no_port : bool; u_wildcard : bool;
  u_socklen : Z; u_sockaddr : option sockaddr; u_addrs : list ngx_addr; u_err : option (list Z)
}.
#[export] Instance eta_url : Settable ngx_url := fun u =>
  Url (u_url u) (u_len u) (u_host u) (u_port_text u) (u_uri u) (u_port u) (u_default_port u)
    (u_listen u) (u_uri_part u) (u_no_resolve u) (u_no_port u) (u_wildcard u)
    (u_socklen u) (u_sockaddr u) (u_addrs u) (u_err u).

(** [ngx_memzero(&u, sizeof(ngx_url_t))], and the URL with the options the
    callers set; what follows the URL in memory is [after]. *)
Definition url_init (url after : list Z) (default_port : Z) (listen uri_part no_resolve : bool) : ngx_url :=
  Url (url ++ after) (length url) [] [] [] 0 default_port listen uri_part no_resolve false false 0 None [] None.

Definition url_error (err : string) (u : ngx_url) : Z * ngx_url := (NGX_ERROR, u <| u_err := Some (bs err) |>).

(** The characters of a C string. *)
Fixpoint c_text (l : list Z) : list Z :=
  match l with
  | [] => []
  | c :: l => if c =? 0 then [] else c :: c_text l
  end.

(** [src/core/ngx_string.c:32-53] ngx_cpystrn into [size] bytes of zeros. *)
Definition cpystrn_zeros (size : nat) (src : list Z) (n : nat) : list Z :=
  let t := c_text (take (n - 1) src) in t ++ replicate (size - length t) 0.

(** [":%d"] after the host *)
Definition host_port (host : list Z) (port : Z) : option (list Z) :=
  ngx_sprintf (length host + 6) (bs "%V:%d") [AStr host; ANum port].

(** The port of a URL: [in_port_t], and [htons] of it in the socket address. *)
Definition port_text_number (t : list Z) : option Z :=
  let n := ngx_atoi t in if (n <? 1) || (65535 <? n) then None else Some (u16 n).

(** ** Unix domain sockets *)

(** [src/core/ngx_inet.c:549-625] ngx_parse_unix_domain_url *)
Definition ngx_parse_unix_domain_url (u : ngx_url) : Z * ngx_url :=
  let path := drop 5 (take (u_len u) (u_url u)) in
  let '(path, u) :=
    if u_uri_part u then
      match ngx_strlchr ":"%chr path with
      | Some i => (take i path, u <| u_uri := drop (S i) path |>)
      | None => (path, u)
      end
    else (path, u) in
  if (length path =? 0)%nat then url_error "no path in the unix domain socket" u
  else
    let u := u <| u_host := path |> in
    let len := S (length path) in
    if (sun_path_size <? len)%nat then url_error "too long path in the unix domain socket" u
    else
      let saun := AF_UNIX (cpystrn_zeros sun_path_size path len) in
      (NGX_OK, u <| u_socklen := sockaddr_un_size |> <| u_sockaddr := Some saun |>
                 <| u_addrs := [Addr saun sockaddr_un_size (take (len + 4) (u_url u))] |>).

(** ** Names *)

Section Resolve.
(** [getaddrinfo] of the C library for a host: the addresses it finds, of which
    [None] are those of other families, or [None] for an error. *)
Context (getaddrinfo : list Z -> option (list (option sockaddr))).

Definition inet_of (port : Z) (rp : option sockaddr) : option sockaddr :=
  match rp with Some (AF_INET s_addr _) => Some (AF_INET s_addr port) | _ => None end.
Definition inet6_of (port : Z) (rp : option sockaddr) : option sockaddr :=
  match rp with Some (AF_INET6 s6_addr _) => Some (AF_INET6 s6_addr port) | _ => None end.

(** [src/core/ngx_inet.c:1016-1082] ngx_inet_resolve_host: the loop over the
    results of a family. *)
Fixpoint addrs_loop (size : Z) (len : nat) (l : list sockaddr) : option (list ngx_addr) :=
  match l with
  | [] => Some []
  | sa :: l =>
      '(name, _) ← ngx_sock_ntop sa size len true;
      rest ← addrs_loop size len l;
      Some (Addr sa size name :: rest)
  end.

(** [src/core/ngx_inet.c:949-1091] ngx_inet_resolve_host: the addresses of
    IPv4 come first. *)
Definition ngx_inet_resolve_host (u : ngx_url) : option (Z * ngx_url) :=
  let port := htons (u_port u) in
  match getaddrinfo (c_text (u_host u)) with
  | None => Some (url_error "host not found" u)
  | Some res =>
      let v4 := omap (inet_of port) res in
      let v6 := omap (inet6_of port) res in
      if (length v4 + length v6 =? 0)%nat then Some (url_error "host not found" u)
      else
        a4 ← addrs_loop sockaddr_in_size 21 v4;
        a6 ← addrs_loop sockaddr_in6_size 53 v6;
        Some (NGX_OK, u <| u_addrs := a4 ++ a6 |>)
  end.

(** [INADDR_ANY], [IN6_IS_ADDR_UNSPECIFIED] *)
Definition is_wildcard (sa : sockaddr) : bool :=
  match sa with
  | AF_INET s_addr _ => s_addr =? 0
  | AF_INET6 s6_addr _ => forallb (Z.eqb 0) s6_addr
  | AF_UNIX _ => false
  end.

(** ** IPv4 addresses and names *)

(** [src/core/ngx_inet.c:746-781] ngx_parse_inet_url: the host is an
    address. *)
Definition inet_url_address (u : ngx_url) (s_addr sin_port : Z) : option (Z * ngx_url) :=
  let u := u <| u_wildcard := u_wildcard u || (s_addr =? 0) |> in
  name ← host_port (u_host u) (u_port u);
  Some (NGX_OK, u <| u_addrs := [Addr (AF_INET s_addr sin_port) sockaddr_in_size name] |>).

(** [src/core/ngx_inet.c:730-819] ngx_parse_inet_url: the host, which is what
    is left before [last]. *)
Definition inet_url_host (u : ngx_url) (host : list Z) : option (Z * ngx_url) :=
  let sin_port := htons (u_port u) in
  if (length host =? 0)%nat then Some (url_error "no host" u)
  else
    let u := u <| u_host := host |> in
    if u_listen u && bool_decide (host = bs "*") then
      Some (NGX_OK, u <| u_sockaddr := Some (AF_INET 0 sin_port) |> <| u_wildcard := true |>)
    else
      let s_addr := ngx_inet_addr host in
      let u := u <| u_sockaddr := Some (AF_INET s_addr sin_port) |> in
      if negb (s_addr =? INADDR_NONE) then inet_url_address u s_addr sin_port
      else if u_no_resolve u then Some (NGX_OK, u)
      else
        '(rc, u) ← ngx_inet_resolve_host u;
        if negb (rc =? NGX_OK) then Some (NGX_ERROR, u)
        else
          match u_addrs u with
          | [] => None
          | a :: _ =>
              Some (NGX_OK, u <| u_socklen := a_socklen a |> <| u_sockaddr := Some (a_sockaddr a) |>
                              <| u_wildcard := u_wildcard u || is_wildcard (a_sockaddr a) |>)
          end.

(** [src/core/ngx_inet.c:676-728] ngx_parse_inet_url: the port, if there is
    one. [text] is what is before the URI. *)
Definition inet_url_port (u : ngx_url) (text : list Z) (port : option nat) (uri : bool) : option (Z * ngx_url) :=
  match port with
  | Some i =>
      let t := drop (S i) text in
      match port_text_number t with
      | None => Some (url_error "invalid port" u)
      | Some n => inet_url_host (u <| u_port := n |> <| u_port_text := t |>) (take i text)
      end
  | None =>
      let plain := inet_url_host (u <| u_no_port := true |> <| u_port := u_default_port u |>) text in
      if negb uri && u_listen u && negb (ngx_atoi text =? NGX_ERROR) then
        match port_text_number text with
        | None => Some (url_error "invalid port" u)
        | Some n =>
            Some (NGX_OK, u <| u_port := n |> <| u_sockaddr := Some (AF_INET 0 (htons n)) |>
                            <| u_port_text := text |> <| u_wildcard := true |>)
        end
      else plain
  end.

(** [src/core/ngx_inet.c:627-819] ngx_parse_inet_url *)
Definition ngx_parse_inet_url (u : ngx_url) : option (Z * ngx_url) :=
  let u := u <| u_socklen := sockaddr_in_size |> <| u_sockaddr := Some (AF_INET 0 0) |> in
  let text := take (u_len u) (u_url u) in
  let port := ngx_strlchr ":"%chr text in
  let uri :=
    match ngx_strlchr "/"%chr text, ngx_strlchr "?"%chr text with
    | None, args => args
    | Some i, Some args => Some (if (args <? i)%nat then args else i)
    | uri, None => uri
    end in
  match uri with
  | Some i =>
      if u_listen u || negb (u_uri_part u) then Some (url_error "invalid host" u)
      else
        let port := match port with Some j => if (i <? j)%nat then None else Some j | None => None end in
        inet_url_port (u <| u_uri := drop i text |>) (take i text) port true
  | None => inet_url_port u text port false
  end.

(** ** IPv6 addresses *)

(** [src/core/ngx_inet.c:889-935] ngx_parse_inet6_url: the address in the
    brackets; the port in [sockaddr] is set. *)
Definition inet6_url_host (u : ngx_url) (host : list Z) : option (Z * ngx_url) :=
  let sin6_port := htons (u_port u) in
  if (length host =? 0)%nat then Some (url_error "no host" u)
  else
    let u := u <| u_host := ["["%chr] ++ host ++ ["]"%chr] |> in
    '(rc, s6_addr) ← ngx_inet6_addr host (replicate 16 0);
    let sa := AF_INET6 s6_addr sin6_port in
    let u := u <| u_sockaddr := Some sa |> in
    if negb (rc =? NGX_OK) then Some (url_error "invalid IPv6 address" u)
    else
      let u := u <| u_wildcard := u_wildcard u || is_wildcard sa |> in
      name ← host_port (u_host u) (u_port u);
      Some (NGX_OK, u <| u_addrs := [Addr sa sockaddr_in6_size name] |>).

(** [src/core/ngx_inet.c:864-886] ngx_parse_inet6_url: what follows the
    bracket, of which [p] is the offset: the character after it, which may be
    beyond the URL, and the text up to the URI. *)
Definition inet6_url_port (u : ngx_url) (p last : nat) (host : list Z) : option (Z * ngx_url) :=
  c ← u_url u !! S p;
  if c =? ":"%chr then
    if (last <? p + 2)%nat then None
    else
      let t := drop (p + 2) (take last (u_url u)) in
      match port_text_number t with
      | None => Some (url_error "invalid port" u)
      | Some n => inet6_url_host (u <| u_port := n |> <| u_port_text := t |>) host
      end
  else inet6_url_host (u <| u_no_port := true |> <| u_port := u_default_port u |>) host.

(** [src/core/ngx_inet.c:822-944] ngx_parse_inet6_url *)
Definition ngx_parse_inet6_url (u : ngx_url) : option (Z * ngx_url) :=
  let u := u <| u_socklen := sockaddr_in6_size |> <| u_sockaddr := Some (AF_INET6 (replicate 16 0) 0) |> in
  let text := take (u_len u) (u_url u) in
  match ngx_strlchr "]"%chr (drop 1 text) with
  | None => Some (url_error "invalid host" u)
  | Some n =>
      let p := S n in
      let host := take n (drop 1 text) in
      match ngx_strlchr "/"%chr (drop (S p) text) with
      | Some i =>
          if u_listen u || negb (u_uri_part u) then Some (url_error "invalid host" u)
          else
            let last := (S p + i)%nat in
            inet6_url_port (u <| u_uri := drop last text |>) p last host
      | None => inet6_url_port u p (u_len u) host
      end
  end.

(** [src/core/ngx_inet.c:528-546] ngx_parse_url *)
Definition ngx_parse_url (u : ngx_url) : option (Z * ngx_url) :=
  let text := take (u_len u) (u_url u) in
  if (5 <=? u_len u)%nat && ngx_strncasecmp_eq text (bs "unix:") 5 then Some (ngx_parse_unix_domain_url u)
  else
    match text with
    | c :: _ => if c =? "["%chr then ngx_parse_inet6_url u else ngx_parse_inet_url u
    | [] => ngx_parse_inet_url u
    end.

(** [module/ngx_http_gridfs_module.c:198-215] ngx_http_mongo: the host and the
    port of an argument, which is followed by a 0 in memory. *)
Definition mongo_url (arg : list Z) : option (list Z * Z) :=
  match ngx_parse_url (url_init arg [0] 27017 false false false) with
  | Some (rc, u) => if rc =? NGX_OK then Some (u_host u, u_port u) else None
  | None => None
  end.
End Resolve.

Definition no_names (host : list Z) : option (list (option sockaddr)) := None.

Example url_1 : mongo_url no_names (bs "10.0.0.1") = Some (bs "10.0.0.1", 27017).
Proof. by vm_compute. Qed.
Example url_2 : option_map (fun '(rc, u) => (rc, map a_name (u_addrs u), u_uri u))
    (ngx_parse_url no_names (url_init (bs "[2001:db8::1]:8080/a?b") [0] 80 false true false))
  = Some (NGX_OK, [bs "[2001:db8::1]:8080"], bs "/a?b").
Proof. by vm_compute. Qed.
Example url_3 : option_map (fun '(rc, u) => (rc, u_err u))
    (ngx_parse_url no_names (url_init (bs "example:0") [0] 80 false true false)) = Some (NGX_ERROR, Some (bs "invalid port")).
Proof. by vm_compute. Qed.
(** What follows the bracket is not looked at without a colon. *)
Example url_4 : option_map (fun '(rc, u) => (rc, u_port u, map a_name (u_addrs u)))
    (ngx_parse_url no_names (url_init (bs "[::1]8080") [0] 80 true false false)) = Some (NGX_OK, 80, [bs "[::1]:80"]).
Proof. by vm_compute. Qed.
Example url_5 : option_map (fun '(rc, u) => (rc, u_sockaddr u, map a_name (u_addrs u), u_uri u))
    (ngx_parse_url no_names (url_init (bs "unix:/tmp/s:/x") [0] 80 false true false))
  = Some (NGX_OK, Some (AF_UNIX (bs "/tmp/s" ++ replicate 102 0)), [bs "unix:/tmp/s"], bs "/x").
Proof. by vm_compute. Qed.

(** ** Reading back what is printed *)

(** An address with a port that has a text: not an IPv4 address that stands
    for an error, nor an IPv6 address that is printed with that at the end. *)
Definition printable (sa : sockaddr) : Prop :=
  match sa with
  | AF_INET s_addr sin_port => 0 <= s_addr < 2 ^ 32 /\ s_addr <> INADDR_NONE /\ 0 <= sin_port < 2 ^ 16 /\ sin_port <> 0
  | AF_INET6 s6_addr sin6_port =>
      bytes s6_addr /\ length s6_addr = 16%nat /\ ~ broadcast6 s6_addr /\ 0 <= sin6_port < 2 ^ 16 /\ sin6_port <> 0
  | AF_UNIX _ => False
  end.

Definition port_of (sa : sockaddr) : Z :=
  match sa with AF_INET _ p | AF_INET6 _ p => ntohs p | AF_UNIX _ => 0 end.
Definition size_of (sa : sockaddr) : Z :=
  match sa with AF_INET _ _ => sockaddr_in_size | AF_INET6 _ _ => sockaddr_in6_size | AF_UNIX _ => sockaddr_un_size end.

Lemma htons_ntohs p : 0 <= p < 2 ^ 16 -> htons (ntohs p) = p.
Proof.
  intros Hp. unfold htons, ntohs. pose proof (le_le_value (rev (le 2 p))) as E.
  rewrite length_rev, le_length in E. rewrite E by apply Forall_rev, le_bytes.
  rewrite rev_involutive, le_value_le. by apply Z.mod_small.
Qed.

Lemma ntohs_range p : 0 <= p < 2 ^ 16 -> p <> 0 -> 1 <= ntohs p <= 65535.
Proof.
  intros Hp Hne. unfold ntohs. pose proof (le_value_bounds (rev (le 2 p))) as H. rewrite length_rev, le_length in H.
  specialize (H ltac:(apply Forall_rev, le_bytes)). change (256 ^ Z.of_nat 2) with (2 ^ 16) in H.
  destruct (Z.eq_dec (ntohs p) 0) as [E|E]; [|unfold ntohs in E; lia].
  rewrite <- (htons_ntohs p), E in Hne by done. by vm_compute in Hne.
Qed.

Lemma port_text n : 1 <= n <= 65535 ->
  (length (dec_text n) <= 5)%nat /\ forallb is_digit (dec_text n) = true /\ port_text_number (dec_text n) = Some n.
Proof.
  intros Hn. destruct (dec_text_digits n ltac:(lia)) as (_ & Hl & Hd & Hv).
  split; [pose proof (dec_text_short 5 n ltac:(lia) ltac:(simpl; lia)); lia|]. split; [done|].
  unfold port_text_number. destruct (atoi_digits (dec_text n)) as [_ ->]; [intros E; rewrite E in Hl; simpl in Hl; lia|done|].
  rewrite Hv, (proj2 (Z.leb_le n _)) by (unfold NGX_MAX_INT_T_VALUE; lia).
  rewrite (proj2 (Z.ltb_ge n 1)), (proj2 (Z.ltb_ge 65535 n)) by lia. cbn [orb]. by rewrite u16_small by lia.
Qed.

Lemma prints_port n : 1 <= n <= 65535 -> prints (bs "%d") [ANum n] (dec_text n).
Proof.
  intros Hn. rewrite <- (app_nil_r (dec_text n)). rewrite <- (app_nil_r (bs "%d")). apply prints_d; [lia|apply prints_nil].
Qed.

Lemma host_port_prints host n : 1 <= n <= 65535 -> host_port host n = Some (host ++ ":"%chr :: dec_text n).
Proof.
  intros Hn. destruct (port_text n Hn) as (Hl & _ & _). apply sprintf_prints; [|rewrite length_app; simpl; lia].
  apply (prints_V host (bs ":%d")). apply prints_char; [done|]. by apply prints_port.
Qed.

(** *** IPv4 *)

Lemma addr_quad a : 0 <= a < 2 ^ 32 -> exists b1 b2 b3 b4, addr_bytes a = [b1; b2; b3; b4] /\ bytes [b1; b2; b3; b4] /\
  ngx_inet_addr (quad b1 b2 b3 b4) = a.
Proof.
  intros Ha. unfold addr_bytes. pose proof (le_bytes 4 a) as Hb. pose proof (le_length 4 a) as Hl.
  destruct (le 4 a) as [|b1 [|b2 [|b3 [|b4 [|]]]]] eqn:E; try done.
  exists b1, b2, b3, b4. split; [done|]. split; [done|].
  pose proof Hb as Hb'. rewrite !Forall_cons in Hb'. destruct Hb' as (H1 & H2 & H3 & H4 & _).
  destruct (byte_octet b1 H1) as [O1 V1], (byte_octet b2 H2) as [O2 V2], (byte_octet b3 H3) as [O3 V3], (byte_octet b4 H4) as [O4 V4].
  unfold quad. rewrite inet_addr_dotted by (by apply octet_loose). rewrite V1, V2, V3, V4.
  apply le_inj; [apply htonl_range|done|]. rewrite E. by apply htonl_value.
Qed.

Definition quad_char (c : Z) : bool := is_digit c || (c =? "."%chr).

Lemma quad_chars b1 b2 b3 b4 : bytes [b1; b2; b3; b4] ->
  forallb quad_char (quad b1 b2 b3 b4) = true /\ exists c t, quad b1 b2 b3 b4 = c :: t /\ is_digit c = true.
Proof.
  rewrite !Forall_cons. intros (H1 & H2 & H3 & H4 & _).
  destruct (byte_octet b1 H1) as [(L1 & O1 & _) _], (byte_octet b2 H2) as [(_ & O2 & _) _],
    (byte_octet b3 H3) as [(_ & O3 & _) _], (byte_octet b4 H4) as [(_ & O4 & _) _].
  assert (W : forall o, forallb is_digit o = true -> forallb quad_char o = true).
  { intros o. apply forallb_weaken. intros c Hc. unfold quad_char. by rewrite Hc. }
  split; [unfold quad, dotted; repeat (rewrite forallb_app; cbn [forallb]); by rewrite !W|].
  unfold quad, dotted. destruct (dec_text b1) as [|c t]; [simpl in L1; lia|]. eexists c, _. split; [done|].
  simpl in O1. by apply andb_prop in O1 as [-> _].
Qed.

Lemma not_unix c t : is_digit c = true -> ngx_strncasecmp_eq (c :: t) (bs "unix:") 5 = false.
Proof. intros Hc. unfold is_digit in Hc. assert (48 <= c < 48 + 10) by lia. clear Hc. by_range c 48 10. Qed.

Lemma parse_url_digit g u c t : take (u_len u) (u_url u) = c :: t -> is_digit c = true ->
  ngx_parse_url g u = ngx_parse_inet_url g u.
Proof.
  intros E Hc. unfold ngx_parse_url. rewrite E, not_unix, andb_false_r by done.
  by rewrite (proj2 (Z.eqb_neq c "["%chr)) by (unfold is_digit in Hc; lia).
Qed.

(** A URL of an address and its port. *)
Lemma url_quad g b1 b2 b3 b4 n after default_port listen uri_part no_resolve :
  bytes [b1; b2; b3; b4] -> 1 <= n <= 65535 -> ngx_inet_addr (quad b1 b2 b3 b4) <> INADDR_NONE ->
  let host := quad b1 b2 b3 b4 in
  let text := host ++ ":"%chr :: dec_text n in
  let sa := AF_INET (ngx_inet_addr host) (htons n) in
  exists u, ngx_parse_url g (url_init text after default_port listen uri_part no_resolve) = Some (NGX_OK, u) /\
    u_sockaddr u = Some sa /\ u_socklen u = sockaddr_in_size /\ u_port u = n /\ u_host u = host /\
    u_addrs u = [Addr sa sockaddr_in_size text].
Proof.
  intros Hb Hn Hne host text sa. destruct (quad_chars _ _ _ _ Hb) as (Hq & c & t & Eq & Hc). fold host in Hq, Eq.
  destruct (port_text n Hn) as (Hl & Hd & Hp).
  assert (Htake : take (length text) (text ++ after) = text) by (by rewrite take_app_length).
  assert (Hno : forall x, quad_char x = false -> x <> ":"%chr -> x ∉ text).
  { intros x Hx Hne58. unfold text. rewrite not_elem_of_app, not_elem_of_cons. split_and!; [by apply (no_char quad_char)|done|].
    apply (no_char is_digit); [done|]. unfold quad_char in Hx. by apply orb_false_elim in Hx as [-> _]. }
  rewrite (parse_url_digit g _ c (t ++ ":"%chr :: dec_text n))
    by (cbn [u_len u_url url_init]; rewrite ?Htake; unfold text; rewrite ?Eq; done).
  unfold ngx_parse_inet_url. cbn [u_len u_url url_init]. simpl take. rewrite Htake.
  rewrite (strlchr_none "/"%chr), (strlchr_none "?"%chr) by (by apply Hno).
  unfold text at 2 3. rewrite strlchr_app by (by apply (no_char quad_char)). cbn [inet_url_port].
  replace (drop (S (length host)) (host ++ ":"%chr :: dec_text n)) with (dec_text n)
    by (rewrite <- (Nat.add_1_r (length host)), drop_app_add; done).
  rewrite Hp, take_app_length. unfold inet_url_host. cbv zeta.
  rewrite (proj2 (Nat.eqb_neq (length host) 0)) by (rewrite Eq; simpl; lia). simpl.
  rewrite bool_decide_eq_false_2, andb_false_r by (intros E; rewrite Eq in E; injection E as -> _; by vm_compute in Hc).
  rewrite (proj2 (Z.eqb_neq _ INADDR_NONE)) by done. cbn [negb]. unfold inet_url_address. simpl.
  rewrite host_port_prints by done. simpl. eexists. split; [done|]. done.
Qed.

(** *** IPv6 *)

Lemma parse_url_bracket g u t : take (u_len u) (u_url u) = "["%chr :: t -> ngx_parse_url g u = ngx_parse_inet6_url u.
Proof. intros E. unfold ngx_parse_url. rewrite E. by destruct (5 <=? u_len u)%nat. Qed.

Lemma url_bracket g t addr n after default_port listen uri_part no_resolve :
  forallb addr_char t = true -> t <> [] -> ngx_inet6_addr t (replicate 16 0) = Some (NGX_OK, addr) -> 1 <= n <= 65535 ->
  let host := "["%chr :: t ++ ["]"%chr] in
  let text := host ++ ":"%chr :: dec_text n in
  let sa := AF_INET6 addr (htons n) in
  exists u, ngx_parse_url g (url_init text after default_port listen uri_part no_resolve) = Some (NGX_OK, u) /\
    u_sockaddr u = Some sa /\ u_socklen u = sockaddr_in6_size /\ u_port u = n /\ u_host u = host /\
    u_addrs u = [Addr sa sockaddr_in6_size text].
Proof.
  intros Ht Hne H6 Hn host text sa. destruct (port_text n Hn) as (Hl & Hd & Hp).
  assert (Htake : take (length text) (text ++ after) = text) by (by rewrite take_app_length).
  assert (Etext : text = "["%chr :: t ++ "]"%chr :: ":"%chr :: dec_text n)
    by (unfold text, host; cbn [app]; by rewrite <- app_assoc).
  rewrite (parse_url_bracket g _ (t ++ "]"%chr :: ":"%chr :: dec_text n))
    by (cbn [u_len u_url url_init]; rewrite Htake; done).
  unfold ngx_parse_inet6_url. cbv zeta. set (u0 := (url_init _ _ _ _ _ _) <| u_socklen := _ |> <| u_sockaddr := _ |>).
  change (u_len u0) with (length text). change (u_url u0) with (text ++ after). rewrite Htake.
  assert (E1 : drop 1 text = t ++ "]"%chr :: ":"%chr :: dec_text n) by (by rewrite Etext).
  rewrite E1, strlchr_app by (by apply (no_char addr_char)). cbn [drop].
  assert (E2 : drop (S (S (length t))) text = ":"%chr :: dec_text n).
  { rewrite Etext. cbn [drop]. change (drop (S (length t)) (t ++ "]"%chr :: ":"%chr :: dec_text n) = ":"%chr :: dec_text n).
    rewrite <- (Nat.add_1_r (length t)). by rewrite drop_app_add. }
  rewrite E2, strlchr_none by (rewrite not_elem_of_cons; split; [done|by apply (no_char is_digit)]).
  rewrite take_app_length. unfold inet6_url_port. change (u_url u0) with (text ++ after).
  assert (El : (text ++ after) !! S (S (length t)) = Some ":"%chr).
  { rewrite <- Htake in E2. rewrite lookup_app_l.
    - rewrite <- (Nat.add_0_r (S (S (length t)))), <- lookup_drop. rewrite <- Htake, E2. done.
    - rewrite Etext. simpl. rewrite length_app. simpl. lia. }
  rewrite El. cbn [mbind option_bind].
  change (":"%chr =? ":"%chr) with true. cbn iota.
  rewrite (proj2 (Nat.ltb_ge _ _)) by (rewrite Etext; simpl; rewrite length_app; simpl; lia).
  rewrite Htake. replace (drop (S (length t) + 2) text) with (dec_text n).
  2: { replace (S (length t) + 2)%nat with (S (S (length t)) + 1)%nat by lia. by rewrite <- drop_drop, E2. }
  rewrite Hp. unfold inet6_url_host. cbv zeta.
  rewrite (proj2 (Nat.eqb_neq (length t) 0)) by (destruct t; [done|simpl; lia]).
  rewrite H6. cbn [mbind option_bind]. rewrite Z.eqb_refl. cbn [negb]. simpl.
  change (91 :: t ++ [93]) with host. rewrite host_port_prints by done. simpl. eexists. split; [done|]. done.
Qed.

(** C19: What [ngx_sock_ntop] prints of an address and its port, [ngx_parse_url]
    takes for that address and port, whatever the options and what follows in
    memory: a single address, whose name is the same text.  Excepted are port
    0, the IPv4 address 255.255.255.255 and the two IPv6 addresses that are
    printed with it. *)
Theorem ngx_parse_url_sock_ntop g sa socklen len after default_port listen uri_part no_resolve :
  printable sa -> (53 <= len)%nat ->
  exists text u,
    ngx_sock_ntop sa socklen len true = Some (text, Z.of_nat (length text)) /\
    ngx_parse_url g (url_init text after default_port listen uri_part no_resolve) = Some (NGX_OK, u) /\
    u_sockaddr u = Some sa /\ u_socklen u = size_of sa /\ u_port u = port_of sa /\ u_addrs u = [Addr sa (size_of sa) text].
Proof.
  intros Hsa Hlen. destruct sa as [a p|a p|]; [| |done].
  - destruct Hsa as (Ha & Hne & Hp & Hp0). destruct (addr_quad a Ha) as (b1 & b2 & b3 & b4 & Eb & Hb & Ea).
    pose proof (ntohs_range p Hp Hp0) as Hn. destruct (port_text _ Hn) as (Hl & _ & _).
    pose proof (quad_length _ _ _ _ Hb) as Hql.
    destruct (url_quad g b1 b2 b3 b4 (ntohs p) after default_port listen uri_part no_resolve) as (u & Hu & Hs & Hsz & Hpt & _ & Had);
      [done|done|by rewrite Ea|].
    rewrite Ea, htons_ntohs in Hs, Had by done.
    eexists _, u. split; [|by split_and!].
    cbn [ngx_sock_ntop]. unfold octets. rewrite Eb. unfold ngx_vslprintf.
    rewrite (prints_quad b1 b2 b3 b4 (bs ":%d") [ANum (ntohs p)] (":"%chr :: dec_text (ntohs p))); [done|done| |done|].
    + apply prints_char; [done|]. by apply prints_port.
    + rewrite length_app. simpl. lia.
  - destruct Hsa as (Hb & Hl & Hbr & Hp & Hp0). pose proof (ntohs_range p Hp Hp0) as Hn. destruct (port_text _ Hn) as (Hlp & _ & _).
    destruct (ntop_prints a Hb Hl len) as (t & Et & [Ht Htl Hread]); [unfold NGX_INET6_ADDRSTRLEN; lia|].
    pose proof (ipv6_colon t a Ht) as Hcol. pose proof (ipv6_addr t a Ht) as Hch.
    destruct (url_bracket g t a (ntohs p) after default_port listen uri_part no_resolve) as (u & Hu & Hs & Hsz & Hpt & _ & Had);
      [done|by intros ->; apply elem_of_nil in Hcol|by apply Hread|done|].
    rewrite htons_ntohs in Hs, Had by done.
    eexists _, u. split; [|by split_and!].
    cbn [ngx_sock_ntop]. rewrite Et. cbn [mbind option_bind].
    rewrite (sprintf_prints len (bs "]:%d") _ (bs "]:" ++ dec_text (ntohs p))).
    + cbn [mbind option_bind]. rewrite (proj2 (Nat.leb_le _ _)) by (rewrite !length_app; simpl; lia).
      replace (["["%chr] ++ t ++ bs "]:" ++ dec_text (ntohs p)) with (("["%chr :: t ++ ["]"%chr]) ++ ":"%chr :: dec_text (ntohs p)); [done|].
      cbn [app]. by rewrite <- app_assoc.
    + apply (prints_text (bs "]:") (bs "%d")); [done|]. by apply prints_port.
    + simpl. lia.
Qed.

Theorem ngx_parse_url_sock_ntop_witness :
  exists text u, ngx_sock_ntop (AF_INET6 [32; 1; 13; 184; 0; 0; 0; 0; 0; 0; 0; 0; 0; 0; 0; 1] 36895) 28 113 true
      = Some (text, Z.of_nat (length text)) /\ 
    ngx_parse_url no_names (url_init text [0] 80 false true false) = Some (NGX_OK, u) /\
    u_sockaddr u = Some (AF_INET6 [32; 1; 13; 184; 0; 0; 0; 0; 0; 0; 0; 0; 0; 0; 0; 1] 36895) /\
    u_socklen u = 28 /\ u_port u = 8080 /\
    u_addrs u = [Addr (AF_INET6 [32; 1; 13; 184; 0; 0; 0; 0; 0; 0; 0; 0; 0; 0; 0; 1] 36895) 28 text].
Proof.
  apply (ngx_parse_url_sock_ntop no_names (AF_INET6 [32; 1; 13; 184; 0; 0; 0; 0; 0; 0; 0; 0; 0; 0; 0; 1] 36895)); [|lia].
  split; [by repeat constructor|]. split; [done|]. split; [|split; [lia|done]].
  intros (k & [-> | ->] & E); discriminate E.
Defined.
