(* ===== verification/NgxBits.v ===== *)
(** * Numbers as strings of bits

    The lemmas by which shifts and masks of the code are operations on strings
    of bits; radix trees and the Huffman code of HTTP/2 are about such
    strings. *)

From S2P Require Import Prelude.

#[local] Abbreviation length := (@List.length _).

(** The last [n] bits of a number, the highest first. *)
Fixpoint bits (n : nat) (z : Z) : list bool :=
  match n with O => [] | S n => Z.testbit z (Z.of_nat n) :: bits n z end.

(** The bits of bytes. *)
Definition bytes_bits (l : list Z) : list bool := concat (map (bits 8) l).

Lemma bits_length n z : length (bits n z) = n.
Proof. induction n; simpl; congruence. Qed.

Lemma bytes_bits_app a b : bytes_bits (a ++ b) = bytes_bits a ++ bytes_bits b.
Proof. unfold bytes_bits. by rewrite map_app, concat_app. Qed.

Lemma bytes_bits_length l : length (bytes_bits l) = (8 * length l)%nat.
Proof. induction l as [|c l IH]; [done|]. unfold bytes_bits in *. cbn [map concat length]. rewrite length_app, bits_length, IH. lia. Qed.

Lemma bits_ext n y z : (forall i, 0 <= i < Z.of_nat n -> Z.testbit y i = Z.testbit z i) -> bits n y = bits n z.
Proof.
  induction n as [|n IH]; intros H; [done|]. cbn [bits]. rewrite H by lia. f_equal. apply IH. intros i Hi. apply H. lia.
Qed.

Lemma bits_split n k z : bits (n + k) z = bits n (Z.shiftr z (Z.of_nat k)) ++ bits k z.
Proof.
  induction n as [|n IH]; [done|]. cbn [bits Nat.add app]. rewrite Z.shiftr_spec by lia. f_equal; [|done]. f_equal. lia.
Qed.

Lemma bits_zero n : bits n 0 = replicate n false.
Proof. induction n as [|n IH]; [done|]. cbn [bits replicate]. by rewrite Z.bits_0, IH. Qed.

Lemma bits_ones n : bits n (-1) = replicate n true.
Proof. induction n as [|n IH]; [done|]. cbn [bits replicate]. by rewrite Z.bits_m1, IH by lia. Qed.

Lemma bits_shiftl n k z : bits (n + k) (Z.shiftl z (Z.of_nat k)) = bits n z ++ replicate k false.
Proof.
  rewrite bits_split. rewrite Z.shiftr_shiftl_l, Z.sub_diag, Z.shiftl_0_r by lia. f_equal.
  rewrite <- bits_zero. apply bits_ext. intros i Hi. rewrite Z.shiftl_spec_low, Z.bits_0 by lia. done.
Qed.

Lemma bits_high n k z : 0 <= z < 2 ^ Z.of_nat k -> bits (n + k) z = replicate n false ++ bits k z.
Proof.
  intros Hz. rewrite bits_split, Z.shiftr_div_pow2, Z.div_small, bits_zero by lia. done.
Qed.

Lemma bits_shiftr n k z : 0 <= z < 2 ^ Z.of_nat (n + k) ->
  bits (k + n) (Z.shiftr z (Z.of_nat k)) = replicate k false ++ take n (bits (n + k) z).
Proof.
  intros Hz. rewrite (bits_split n k z), take_app_le, take_ge by (rewrite ?bits_length; lia).
  apply bits_high. rewrite Z.shiftr_div_pow2 by lia. rewrite Nat2Z.inj_add, Z.pow_add_r in Hz by lia.
  split; [apply Z.div_pos; lia|]. apply Z.div_lt_upper_bound; lia.
Qed.

Lemma bits_lor n y z : bits n (Z.lor y z) = zip_with orb (bits n y) (bits n z).
Proof. induction n as [|n IH]; [done|]. cbn [bits zip_with]. by rewrite Z.lor_spec, IH. Qed.

Lemma bits_mod n k z : (n <= k)%nat -> bits n (z mod 2 ^ Z.of_nat k) = bits n z.
Proof. intros H. apply bits_ext. intros i Hi. apply Z.mod_pow2_bits_low. lia. Qed.

Lemma bits_inj n y z : 0 <= y < 2 ^ Z.of_nat n -> 0 <= z < 2 ^ Z.of_nat n -> bits n y = bits n z -> y = z.
Proof.
  revert y z. induction n as [|n IH]; intros y z Hy Hz E; [simpl in *; lia|].
  assert (El : forall w, 0 <= w < 2 ^ Z.of_nat (S n) -> bits n w = bits n (w mod 2 ^ Z.of_nat n)) by (intros; by rewrite bits_mod by lia).
  cbn [bits] in E. injection E as Eb E. rewrite (El y Hy), (El z Hz) in E.
  apply IH in E; [|apply Z.mod_pos_bound; lia..].
  assert (Hd : forall w, 0 <= w < 2 ^ Z.of_nat (S n) -> w = Z.b2z (Z.testbit w (Z.of_nat n)) * 2 ^ Z.of_nat n + w mod 2 ^ Z.of_nat n).
  { intros w Hw. rewrite Nat2Z.inj_succ, Z.pow_succ_r in Hw by lia. rewrite Z.testbit_spec' by lia.
    rewrite (Z.mod_small (w / 2 ^ Z.of_nat n) 2).
    - pose proof (Z.div_mod w (2 ^ Z.of_nat n)). lia.
    - split; [apply Z.div_pos; lia|]. apply Z.div_lt_upper_bound; lia. }
  rewrite (Hd y Hy), (Hd z Hz), Eb, E. done.
Qed.

Lemma bytes_bits_inj l k : bytes l -> bytes k -> bytes_bits l = bytes_bits k -> l = k.
Proof.
  intros Hl. revert k. induction Hl as [|c l Hc Hl IH]; intros k Hk E; destruct Hk as [|d k Hd Hk]; try done.
  unfold bytes_bits in *. cbn [map concat] in E.
  apply app_inj_1 in E as [E1 E2]; [|by rewrite !bits_length]. f_equal; [|by apply IH].
  apply (bits_inj 8); done.
Qed.

(** [n] false bits leave the other string as it is. *)
Lemma zip_or_false_r l : zip_with orb l (replicate (length l) false) = l.
Proof. induction l as [|b l IH]; [done|]. cbn [length replicate zip_with]. by rewrite orb_false_r, IH. Qed.
Lemma zip_or_false_l l : zip_with orb (replicate (length l) false) l = l.
Proof. induction l as [|b l IH]; [done|]. cbn [length replicate zip_with]. by rewrite orb_false_l, IH. Qed.

(** Two strings that are false where the other is not. *)
Lemma zip_or_disjoint a b n m : n = length a -> m = length b ->
  zip_with orb (a ++ replicate m false) (replicate n false ++ b) = a ++ b.
Proof. intros -> ->. rewrite zip_with_app by (by rewrite length_replicate). by rewrite zip_or_false_r, zip_or_false_l. Qed.
