(* ===== verification/NgxRadix.v ===== *)
(** * Radix trees (src/core/ngx_radix_tree.c)

    Trees of bits, with which blocks of addresses are looked up.  The nodes
    are in a heap, from addresses to nodes, and have pointers to their children
    and their parent; the nodes that were deleted are kept in a list. *)

From S2P Require Import Prelude.

Set Warnings "-register-all".

#[local] Abbreviation length := (@List.length _).

Definition NGX_RADIX_NO_VALUE : Z := 2 ^ 64 - 1.

(** ** The tree in memory *)

(** [src/core/ngx_radix_tree.h:21-26] ngx_radix_node_t *)
Record node := Node { n_right : option nat; n_left : option nat; n_parent : option nat; n_value : Z }.
#[export] Instance eta_node : Settable node := fun n => Node (n_right n) (n_left n) (n_parent n) (n_value n).

(** [src/core/ngx_radix_tree.h:29-35] ngx_radix_tree_t: [start] is the next
    address of the memory, which pages are added to when it is used up. *)
Record radix_tree := Tree { root : nat; nodes : gmap nat node; free : option nat; start : nat }.
#[export] Instance eta_tree : Settable radix_tree := fun t => Tree (root t) (nodes t) (free t) (start t).

(** [*p = n] *)
Definition store (p : nat) (n : node) (t : radix_tree) : radix_tree := t <| nodes := <[p := n]> (nodes t) |>.

(** [src/core/ngx_radix_tree.c:463-488] ngx_radix_alloc *)
Definition ngx_radix_alloc (t : radix_tree) : option (nat * radix_tree) :=
  match free t with
  | Some p => n ← nodes t !! p; Some (p, t <| free := n_right n |>)
  | None => Some (start t, t <| start := S (start t) |>)
  end.

(** [node->right] or [node->left] *)
Definition child (right : bool) (n : node) : option nat := if right then n_right n else n_left n.
Definition set_child (right : bool) (p : option nat) (n : node) : node :=
  if right then n <| n_right := p |> else n <| n_left := p |>.

(** [src/core/ngx_radix_tree.c:146-160] ngx_radix32tree_insert: a new node
    under [node]; ngx_radix128tree_insert has the same. *)
Definition new_node (t : radix_tree) (node : nat) (right : bool) : option (nat * radix_tree) :=
  '(next, t) ← ngx_radix_alloc t;
  let t := store next (Node None None (Some node) NGX_RADIX_NO_VALUE) t in
  n ← nodes t !! node;
  Some (next, store node (set_child right (Some next) n) t).

(** [node->value = value] *)
Definition set_value (t : radix_tree) (node : nat) (value : Z) : option radix_tree :=
  n ← nodes t !! node; Some (store node (n <| n_value := value |>) t).

(** [src/core/ngx_radix_tree.c:136-143] ngx_radix32tree_insert: the node is
    there; ngx_radix128tree_insert has the same. *)
Definition insert_found (t : radix_tree) (node : nat) (value : Z) : option (Z * radix_tree) :=
  n ← nodes t !! node;
  if negb (n_value n =? NGX_RADIX_NO_VALUE) then Some (NGX_BUSY, t)
  else t ← set_value t node value; Some (NGX_OK, t).

(** [src/core/ngx_radix_tree.c:206-230] ngx_radix32tree_delete: a node without
    children is given back, and its parents that are of no use without it;
    ngx_radix128tree_delete has the same.  A round is for a node. *)
Fixpoint prune (rounds : nat) (t : radix_tree) (node : nat) : option radix_tree :=
  match rounds with
  | O => None
  | S rounds =>
      n ← nodes t !! node;
      parent ← n_parent n;
      pn ← nodes t !! parent;
      let t := store parent (set_child (bool_decide (n_right pn = Some node)) None pn) t in
      n ← nodes t !! node;
      let t := store node (n <| n_right := free t |>) t <| free := Some node |> in
      let node := parent in
      n ← nodes t !! node;
      match n_right n, n_left n with
      | None, None =>
          if negb (n_value n =? NGX_RADIX_NO_VALUE) then Some t
          else match n_parent n with None => Some t | Some _ => prune rounds t node end
      | _, _ => Some t
      end
  end.

(** [src/core/ngx_radix_tree.c:193-232] ngx_radix32tree_delete: after the
    search; ngx_radix128tree_delete has the same. *)
Definition delete_found (rounds : nat) (t : radix_tree) (node : option nat) : option (Z * radix_tree) :=
  match node with
  | None => Some (NGX_ERROR, t)
  | Some node =>
      n ← nodes t !! node;
      match n_right n, n_left n with
      | None, None => t ← prune rounds t node; Some (NGX_OK, t)
      | _, _ =>
          if negb (n_value n =? NGX_RADIX_NO_VALUE)
          then t ← set_value t node NGX_RADIX_NO_VALUE; Some (NGX_OK, t)
          else Some (NGX_ERROR, t)
      end
  end.

(** ** Keys of 32 bits

    The loops shift [bit] until the mask ends; a round is for a bit. *)

Definition bit_set (a b : Z) : bool := negb (Z.land a b =? 0).

(** [src/core/ngx_radix_tree.c:120-134] ngx_radix32tree_insert: the first
    loop. *)
Fixpoint descend32 (rounds : nat) (t : radix_tree) (key mask bit : Z) (node : nat) (next : option nat)
    : option (Z * nat * option nat) :=
  if negb (bit_set bit mask) then Some (bit, node, next)
  else match rounds with
       | O => None
       | S rounds =>
           n ← nodes t !! node;
           match child (bit_set key bit) n with
           | None => Some (bit, node, None)
           | Some p => descend32 rounds t key mask (Z.shiftr bit 1) p (Some p)
           end
       end.

(** [src/core/ngx_radix_tree.c:145-165] ngx_radix32tree_insert: the second
    loop. *)
Fixpoint grow32 (rounds : nat) (t : radix_tree) (key mask bit : Z) (node : nat) : option (nat * radix_tree) :=
  if negb (bit_set bit mask) then Some (node, t)
  else match rounds with
       | O => None
       | S rounds =>
           '(next, t) ← new_node t node (bit_set key bit);
           grow32 rounds t key mask (Z.shiftr bit 1) next
       end.

(** [src/core/ngx_radix_tree.c:108-170] ngx_radix32tree_insert *)
Definition ngx_radix32tree_insert (t : radix_tree) (key mask value : Z) : option (Z * radix_tree) :=
  '(bit, node, next) ← descend32 32 t key mask 0x80000000 (root t) (Some (root t));
  match next with
  | Some _ => insert_found t node value
  | None =>
      '(node, t) ← grow32 32 t key mask bit node;
      t ← set_value t node value;
      Some (NGX_OK, t)
  end.

(** [src/core/ngx_radix_tree.c:182-191] ngx_radix32tree_delete: the search. *)
Fixpoint search32 (rounds : nat) (t : radix_tree) (key mask bit : Z) (node : option nat) : option (option nat) :=
  match node with
  | None => Some None
  | Some p =>
      if negb (bit_set bit mask) then Some (Some p)
      else match rounds with
           | O => None
           | S rounds =>
               n ← nodes t !! p;
               search32 rounds t key mask (Z.shiftr bit 1) (child (bit_set key bit) n)
           end
  end.

(** [src/core/ngx_radix_tree.c:173-233] ngx_radix32tree_delete *)
Definition ngx_radix32tree_delete (t : radix_tree) (key mask : Z) : option (Z * radix_tree) :=
  node ← search32 32 t key mask 0x80000000 (Some (root t)); delete_found 33 t node.

(** [src/core/ngx_radix_tree.c:247-260] ngx_radix32tree_find: the loop. *)
Fixpoint find32 (rounds : nat) (t : radix_tree) (key bit value : Z) (node : option nat) : option Z :=
  match node with
  | None => Some value
  | Some p =>
      match rounds with
      | O => None
      | S rounds =>
          n ← nodes t !! p;
          let value := if negb (n_value n =? NGX_RADIX_NO_VALUE) then n_value n else value in
          find32 rounds t key (Z.shiftr bit 1) value (child (bit_set key bit) n)
      end
  end.

(** [src/core/ngx_radix_tree.c:236-263] ngx_radix32tree_find *)
Definition ngx_radix32tree_find (t : radix_tree) (key : Z) : option Z :=
  find32 33 t key 0x80000000 NGX_RADIX_NO_VALUE (Some (root t)).

(** ** Keys of 128 bits

    [key] and [mask] are the memory at the pointers. *)

(** [src/core/ngx_radix_tree.c:282-304] ngx_radix128tree_insert: the first
    loop. *)
Fixpoint descend128 (rounds : nat) (t : radix_tree) (key mask : list Z) (i : nat) (bit : Z) (node : nat) (next : option nat)
    : option (nat * Z * nat * option nat) :=
  m ← mask !! i;
  if negb (bit_set bit m) then Some (i, bit, node, next)
  else match rounds with
       | O => None
       | S rounds =>
           k ← key !! i;
           n ← nodes t !! node;
           match child (bit_set k bit) n with
           | None => Some (i, bit, node, None)
           | Some p =>
               let bit := Z.shiftr bit 1 in
               if bit =? 0 then
                 if (S i =? 16)%nat then Some (S i, bit, p, Some p)
                 else descend128 rounds t key mask (S i) 0x80 p (Some p)
               else descend128 rounds t key mask i bit p (Some p)
           end
       end.

(** [src/core/ngx_radix_tree.c:315-343] ngx_radix128tree_insert: the second
    loop. *)
Fixpoint grow128 (rounds : nat) (t : radix_tree) (key mask : list Z) (i : nat) (bit : Z) (node : nat) : option (nat * radix_tree) :=
  m ← mask !! i;
  if negb (bit_set bit m) then Some (node, t)
  else match rounds with
       | O => None
       | S rounds =>
           k ← key !! i;
           '(next, t) ← new_node t node (bit_set k bit);
           let bit := Z.shiftr bit 1 in
           if bit =? 0 then
             if (S i =? 16)%nat then Some (next, t) else grow128 rounds t key mask (S i) 0x80 next
           else grow128 rounds t key mask i bit next
       end.

(** [src/core/ngx_radix_tree.c:268-348] ngx_radix128tree_insert *)
Definition ngx_radix128tree_insert (t : radix_tree) (key mask : list Z) (value : Z) : option (Z * radix_tree) :=
  '(i, bit, node, next) ← descend128 128 t key mask 0 0x80 (root t) (Some (root t));
  match next with
  | Some _ => insert_found t node value
  | None =>
      '(node, t) ← grow128 128 t key mask i bit node;
      t ← set_value t node value;
      Some (NGX_OK, t)
  end.

(** [src/core/ngx_radix_tree.c:362-379] ngx_radix128tree_delete: the
    search. *)
Fixpoint search128 (rounds : nat) (t : radix_tree) (key mask : list Z) (i : nat) (bit : Z) (node : option nat) : option (option nat) :=
  match node with
  | None => Some None
  | Some p =>
      m ← mask !! i;
      if negb (bit_set bit m) then Some (Some p)
      else match rounds with
           | O => None
           | S rounds =>
               k ← key !! i;
               n ← nodes t !! p;
               let node := child (bit_set k bit) n in
               let bit := Z.shiftr bit 1 in
               if bit =? 0 then
                 if (S i =? 16)%nat then Some node else search128 rounds t key mask (S i) 0x80 node
               else search128 rounds t key mask i bit node
           end
  end.

(** [src/core/ngx_radix_tree.c:351-421] ngx_radix128tree_delete *)
Definition ngx_radix128tree_delete (t : radix_tree) (key mask : list Z) : option (Z * radix_tree) :=
  node ← search128 128 t key mask 0 0x80 (Some (root t)); delete_found 129 t node.

(** [src/core/ngx_radix_tree.c:437-455] ngx_radix128tree_find: the loop. *)
Fixpoint find128 (rounds : nat) (t : radix_tree) (key : list Z) (i : nat) (bit value : Z) (node : option nat) : option Z :=
  match node with
  | None => Some value
  | Some p =>
      match rounds with
      | O => None
      | S rounds =>
          n ← nodes t !! p;
          let value := if negb (n_value n =? NGX_RADIX_NO_VALUE) then n_value n else value in
          k ← key !! i;
          let node := child (bit_set k bit) n in
          let bit := Z.shiftr bit 1 in
          if bit =? 0 then find128 rounds t key (S i) 0x80 value node
          else find128 rounds t key i bit value node
      end
  end.

(** [src/core/ngx_radix_tree.c:424-458] ngx_radix128tree_find *)
Definition ngx_radix128tree_find (t : radix_tree) (key : list Z) : option Z :=
  find128 129 t key 0 0x80 NGX_RADIX_NO_VALUE (Some (root t)).

(** ** Creation *)

(** [src/core/ngx_radix_tree.c:90-99] ngx_radix_tree_create: the loop over the
    keys of a length, of which there are [2 ^ 32 / inc]. *)
Fixpoint keys_loop (rounds : nat) (t : radix_tree) (key mask inc : Z) : option radix_tree :=
  match rounds with
  | O => None
  | S rounds =>
      '(rc, t) ← ngx_radix32tree_insert t key mask NGX_RADIX_NO_VALUE;
      if negb (rc =? NGX_OK) then None
      else
        let key := u32 (key + inc) in
        if negb (key =? 0) then keys_loop rounds t key mask inc else Some t
  end.

(** [src/core/ngx_radix_tree.c:84-102] ngx_radix_tree_create: the loop over
    the lengths. *)
Fixpoint lengths_loop (preallocate : nat) (t : radix_tree) (mask inc : Z) : option radix_tree :=
  match preallocate with
  | O => Some t
  | S preallocate =>
      let mask := Z.lor (Z.shiftr mask 1) 0x80000000 in
      t ← keys_loop (Z.to_nat (2 ^ 32 / inc)) t 0 mask inc;
      lengths_loop preallocate t mask (Z.shiftr inc 1)
  end.

(** [src/core/ngx_radix_tree.c:15-105] ngx_radix_tree_create: with pages of
    [ngx_pagesize] bytes.  A [preallocate] of -1 is for the default. *)
Definition ngx_radix_tree_create (ngx_pagesize preallocate : Z) : option radix_tree :=
  '(p, t) ← ngx_radix_alloc (Tree 0 ∅ None 0);
  let t := store p (Node None None None NGX_RADIX_NO_VALUE) (t <| root := p |>) in
  if preallocate =? 0 then Some t
  else
    let preallocate :=
      if preallocate =? -1 then
        let per_page := ngx_pagesize / 32 in
        if per_page =? 128 then 6 else if per_page =? 256 then 7 else 8
      else preallocate in
    lengths_loop (Z.to_nat preallocate) t 0 0x80000000.

Example radix_1 :
  (t ← ngx_radix_tree_create 4096 (-1);
   '(_, t) ← ngx_radix32tree_insert t 0x0a000000 0xff000000 7;
   '(_, t) ← ngx_radix32tree_insert t 0x0a010000 0xffff0000 8;
   '(_, t) ← ngx_radix32tree_delete t 0x0a000000 0xff000000;
   a ← ngx_radix32tree_find t 0x0a010203; b ← ngx_radix32tree_find t 0x0a020304; Some (a, b))
  = Some (8, NGX_RADIX_NO_VALUE).
Proof. by vm_compute. Qed.
