(* ===== verification/NgxRadixSpec.v ===== *)
(** * Radix trees are tables of prefixes

    The contract of a radix tree: a table from strings of bits to values, of
    which a key is given the value of its longest prefix.  [rep] says which
    heaps hold a table, and the operations keep it. *)

From S2P Require Import Prelude NgxBits NgxRadix.

Set Warnings "-register-all".

#[local] Abbreviation length := (@List.length _).

(** ** Tables of prefixes *)

Abbreviation table := (gmap (list bool) Z).

(** Setting the value of a prefix, where [NGX_RADIX_NO_VALUE] is none. *)
Definition assign (T : table) (p : list bool) (value : Z) : table :=
  if decide (value = NGX_RADIX_NO_VALUE) then delete p T else <[p := value]> T.

(** [v] is the value of the longest prefix of [key] in the table. *)
Definition longest_prefix (T : table) (key : list bool) (v : Z) : Prop :=
  (exists k, (k <= length key)%nat /\ T !! take k key = Some v /\
     forall k', (k < k' <= length key)%nat -> T !! take k' key = None) \/
  (v = NGX_RADIX_NO_VALUE /\ forall k, (k <= length key)%nat -> T !! take k key = None).

(** ** The heap of a table

    [loc] is where the node of a string of bits is. *)

Definition parent_of (loc : gmap (list bool) nat) (p : list bool) : option nat :=
  match p with [] => None | _ => loc !! removelast p end.

Definition node_of (loc : gmap (list bool) nat) (T : table) (p : list bool) : node :=
  Node (loc !! (p ++ [true])) (loc !! (p ++ [false])) (parent_of loc p) (default NGX_RADIX_NO_VALUE (T !! p)).

(** The list of nodes to be used again. *)
Fixpoint free_list (h : gmap nat node) (p : option nat) (l : list nat) : Prop :=
  match l with
  | [] => p = None
  | x :: l => p = Some x /\ exists n, h !! x = Some n /\ free_list h (n_right n) l
  end.

Record rep (D : nat) (t : radix_tree) (loc : gmap (list bool) nat) (T : table) : Prop := Rep {
  r_root : loc !! [] = Some (root t);
  r_node : forall p x, loc !! p = Some x -> nodes t !! x = Some (node_of loc T p);
  r_inj : forall p q x, loc !! p = Some x -> loc !! q = Some x -> p = q;
  r_closed : forall p b, is_Some (loc !! (p ++ [b])) -> is_Some (loc !! p);
  r_depth : forall p, is_Some (loc !! p) -> (length p <= D)%nat;
  r_vals : forall p v, T !! p = Some v -> is_Some (loc !! p) /\ v <> NGX_RADIX_NO_VALUE;
  r_free : exists l, free_list (nodes t) (free t) l /\ NoDup l /\ forall x p, x ∈ l -> loc !! p <> Some x;
  r_fresh : forall x, is_Some (nodes t !! x) -> (x < start t)%nat
}.

Lemma snoc_inj {A} (p q : list A) b c : p ++ [b] = q ++ [c] -> p = q /\ b = c.
Proof. apply app_inj_tail. Qed.

Lemma snoc_not_nil {A} (p : list A) b : p ++ [b] <> [].
Proof. by destruct p. Qed.

Lemma snoc_not_self {A} (p : list A) b : p ++ [b] <> p.
Proof. intros E. apply (f_equal length) in E. rewrite length_app in E. simpl in E. lia. Qed.

Lemma parent_snoc loc p b : parent_of loc (p ++ [b]) = loc !! p.
Proof. unfold parent_of. destruct (p ++ [b]) eqn:E; [by destruct p|]. rewrite <- E. by rewrite removelast_last. Qed.

Lemma free_list_store h p l x n : x ∉ l -> free_list h p l -> free_list (<[x := n]> h) p l.
Proof.
  revert p. induction l as [|y l IH]; intros p Hx H; [done|]. destruct H as [-> (m & Hm & H)].
  apply not_elem_of_cons in Hx as [Hxy Hx]. split; [done|]. exists m. split; [by rewrite lookup_insert_ne|].
  by apply IH.
Qed.

(** Following a bit. *)
Lemma rep_child D t loc T p x b : rep D t loc T -> loc !! p = Some x ->
  exists n, nodes t !! x = Some n /\ child b n = loc !! (p ++ [b]) /\ n_value n = default NGX_RADIX_NO_VALUE (T !! p)
    /\ n_parent n = parent_of loc p.
Proof. intros H Hp. exists (node_of loc T p). split; [by apply H|]. by destruct b. Qed.

Lemma closed_app D t loc T p q : rep D t loc T -> loc !! p = None -> loc !! (p ++ q) = None.
Proof.
  intros H Hp. induction q as [|b q IH] using rev_ind; [by rewrite app_nil_r|].
  rewrite app_assoc. destruct (loc !! ((p ++ q) ++ [b])) eqn:E; [|done].
  destruct (r_closed _ _ _ _ H (p ++ q) b) as [y Hy]; [by rewrite E|]. congruence.
Qed.

(** *** Values *)

Lemma assign_lookup T p value q :
  assign T p value !! q = if decide (q = p) then (if decide (value = NGX_RADIX_NO_VALUE) then None else Some value) else T !! q.
Proof.
  unfold assign. destruct (decide (q = p)) as [->|Hne]; destruct (decide (value = _)).
  - by rewrite lookup_delete_eq.
  - by rewrite lookup_insert_eq.
  - by rewrite lookup_delete_ne.
  - by rewrite lookup_insert_ne.
Qed.

Lemma rep_set_value D t loc T p x value : rep D t loc T -> loc !! p = Some x ->
  exists t', set_value t x value = Some t' /\ rep D t' loc (assign T p value).
Proof.
  intros H Hp. unfold set_value. rewrite (r_node _ _ _ _ H p x Hp). cbn [mbind option_bind].
  eexists. split; [done|]. destruct H as [Hr Hn Hi Hc Hd Hv (l & Hl & Hnd & Hfl) Hf]. constructor; simpl; try done.
  - intros q y Hq. destruct (decide (y = x)) as [->|Hne].
    + assert (q = p) as -> by (by eapply Hi). rewrite lookup_insert_eq. unfold node_of. simpl.
      rewrite assign_lookup, decide_True by done. by destruct (decide _) as [->|].
    + rewrite lookup_insert_ne by done. rewrite (Hn q y Hq). unfold node_of. rewrite assign_lookup, decide_False; [done|].
      intros ->. congruence.
  - intros q v. rewrite assign_lookup. destruct (decide (q = p)) as [->|].
    + destruct (decide _); [done|]. intros [= <-]. by rewrite Hp.
    + apply Hv.
  - exists l. split; [|done]. apply free_list_store; [|done]. intros Hx. by eapply Hfl.
  - intros y. rewrite lookup_insert_is_Some. intros [->|[_ Hy]]; [|by apply Hf].
    apply Hf. by rewrite (Hn p y Hp).
Qed.

(** *** A new node *)

(** What [ngx_radix_alloc] gives is not in use. *)
Lemma rep_alloc D t loc T : rep D t loc T ->
  exists y t', ngx_radix_alloc t = Some (y, t') /\ nodes t' = nodes t /\ root t' = root t /\
    (forall p, loc !! p <> Some y) /\
    (exists l, free_list (nodes t) (free t') l /\ NoDup l /\ (y ∉ l) /\ (forall x p, x ∈ l -> loc !! p <> Some x)) /\
    (y < start t')%nat /\ (start t <= start t')%nat.
Proof.
  intros [Hr Hn Hi Hc Hd Hv (l & Hl & Hnd & Hfl) Hf]. unfold ngx_radix_alloc. destruct l as [|y l].
  - simpl in Hl. rewrite Hl. eexists _, _. split; [done|]. simpl. split_and!; try done; try lia.
    + intros p Hp. pose proof (Hf (start t)) as Hs. rewrite (Hn p _ Hp) in Hs. specialize (Hs ltac:(by eexists)). lia.
    + exists []. split_and!; [done|constructor|set_solver|set_solver].
  - destruct Hl as [-> (n & Hny & Hl)]. rewrite Hny. cbn [mbind option_bind]. eexists _, _. split; [done|]. simpl.
    apply NoDup_cons in Hnd as [Hy Hnd]. split_and!; try done.
    + intros p. apply Hfl. by left.
    + exists l. split_and!; [done|done|done|]. intros x p Hx. apply Hfl. by right.
    + apply Hf. by rewrite Hny.
Qed.

Lemma rep_new_node D t loc T p x b : rep D t loc T -> loc !! p = Some x -> loc !! (p ++ [b]) = None -> (length p < D)%nat ->
  exists y t', new_node t x b = Some (y, t') /\ rep D t' (<[p ++ [b] := y]> loc) T.
Proof.
  intros H Hp Hb Hlen. destruct (rep_alloc D t loc T H) as (y & t1 & Ea & En & Er & Hy & (l & Hl & Hnd & Hyl & Hfl) & Hs & Hs').
  pose proof H as [Hr Hn Hi Hc Hd Hv _ Hf]. unfold new_node. rewrite Ea. cbn [mbind option_bind].
  assert (Hxy : x <> y) by (intros ->; by eapply Hy).
  simpl. rewrite lookup_insert_ne, En, (Hn p x Hp) by done. cbn [mbind option_bind]. eexists _, _. split; [done|].
  set (q := p ++ [b]) in *.
  assert (Hqc : forall c, loc !! (q ++ [c]) = None).
  { intros c. by eapply closed_app. }
  assert (Hqne : q <> p) by apply snoc_not_self.
  constructor; simpl.
  - rewrite lookup_insert_ne; [by rewrite Er|apply snoc_not_nil].
  - intros r z. rewrite lookup_insert_Some. intros [[<- <-]|[Hrq Hz]].
    + rewrite lookup_insert_ne, lookup_insert_eq by done. unfold node_of. rewrite !lookup_insert_ne by (symmetry; apply snoc_not_self).
      rewrite !Hqc. unfold q. rewrite parent_snoc, lookup_insert_ne, Hp by done.
      destruct (T !! (p ++ [b])) as [v|] eqn:Ev; [|done]. destruct (Hv _ _ Ev) as [[w Hw] _]. fold q in Hw. congruence.
    + assert (Hzy : z <> y) by (intros ->; by eapply Hy).
      assert (Hpar : parent_of (<[q := y]> loc) r = parent_of loc r).
      { unfold parent_of. destruct r as [|c r]; [done|]. rewrite lookup_insert_ne; [done|]. intros E.
        destruct (exists_last (l := c :: r)) as (r' & d & Er'); [done|]. rewrite Er' in *. rewrite removelast_last in E. subst r'.
        destruct (Hc q d) as [w Hw]; [by rewrite Hz|]. congruence. }
      destruct (decide (r = p)) as [->|Hrp].
      * assert (z = x) as -> by congruence. rewrite lookup_insert_eq. unfold node_of. rewrite Hpar. unfold q.
        destruct b; simpl; rewrite lookup_insert_eq, lookup_insert_ne by (intros E; by apply snoc_inj in E as [_ ?]); done.
      * assert (z <> x) by (intros ->; apply Hrp; by eapply Hi).
        rewrite !lookup_insert_ne by done. rewrite En, (Hn r z Hz). unfold node_of. rewrite Hpar.
        rewrite !lookup_insert_ne by (intros E; apply snoc_inj in E as [-> _]; done). done.
  - intros r s z. rewrite !lookup_insert_Some. intros [[E1 E2]|[N1 H1]] [[E3 E4]|[N2 H2]]; [congruence| | |by eapply Hi].
    + subst z. by destruct (Hy s).
    + subst z. by destruct (Hy r).
  - intros r c. rewrite !lookup_insert_is_Some'. intros [E|Hrc].
    + apply snoc_inj in E as [<- <-]. right. by rewrite Hp.
    + right. by eapply Hc.
  - intros r. rewrite lookup_insert_is_Some'. intros [<-|Hrs]; [|by apply Hd]. unfold q. rewrite length_app. simpl. lia.
  - intros r v Hrv. destruct (Hv r v Hrv) as [? ?]. split; [|done]. rewrite lookup_insert_is_Some'. by right.
  - exists l. split; [|split; [done|]].
    + apply free_list_store; [intros Hx; by eapply Hfl|]. apply free_list_store; [done|]. by rewrite En.
    + intros z r Hz. rewrite lookup_insert_Some. intros [[_ <-]|[_ Hr']]; [done|by eapply Hfl].
  - intros z. rewrite !lookup_insert_is_Some'. intros [<-|[<-|Hz]]; [|done|].
    + assert (x < start t)%nat; [|lia]. apply Hf. by rewrite (Hn p x Hp).
    + rewrite En in Hz. specialize (Hf z Hz). lia.
Qed.

(** ** The loops as walks along a string of bits *)

Fixpoint descend (t : radix_tree) (path : list bool) (x : nat) (next : option nat) : option (list bool * nat * option nat) :=
  match path with
  | [] => Some ([], x, next)
  | b :: path' =>
      n ← nodes t !! x;
      match child b n with
      | None => Some (path, x, None)
      | Some p => descend t path' p (Some p)
      end
  end.

Fixpoint grow (t : radix_tree) (path : list bool) (x : nat) : option (nat * radix_tree) :=
  match path with
  | [] => Some (x, t)
  | b :: path => '(next, t) ← new_node t x b; grow t path next
  end.

Fixpoint search (t : radix_tree) (path : list bool) (x : option nat) : option (option nat) :=
  match x with
  | None => Some None
  | Some p =>
      match path with
      | [] => Some (Some p)
      | b :: path => n ← nodes t !! p; search t path (child b n)
      end
  end.

(** The insertion and the deletion of a string of bits. *)
Definition insert_path (t : radix_tree) (path : list bool) (value : Z) : option (Z * radix_tree) :=
  '(path, x, next) ← descend t path (root t) (Some (root t));
  match next with
  | Some _ => insert_found t x value
  | None => '(x, t) ← grow t path x; t ← set_value t x value; Some (NGX_OK, t)
  end.

Definition delete_path (rounds : nat) (t : radix_tree) (path : list bool) : option (Z * radix_tree) :=
  x ← search t path (Some (root t)); delete_found rounds t x.

Section Ops.
Context (D : nat).

Lemma descend_spec path : forall t loc T p x next, rep D t loc T -> loc !! p = Some x ->
  exists pre rest x' next', path = pre ++ rest /\ descend t path x next = Some (rest, x', next') /\ loc !! (p ++ pre) = Some x' /\
    (rest = [] /\ (pre = [] /\ next' = next \/ next' = Some x') \/
     exists b r, rest = b :: r /\ next' = None /\ loc !! ((p ++ pre) ++ [b]) = None).
Proof.
  induction path as [|b path IH]; intros t loc T p x next H Hp; cbn [descend].
  { exists [], [], x, next. rewrite !app_nil_r. split_and!; [done..|]. left. split; [done|by left]. }
  destruct (rep_child D t loc T p x b H Hp) as (n & -> & Ec & _). cbn [mbind option_bind]. rewrite Ec.
  destruct (loc !! (p ++ [b])) as [y|] eqn:Ey.
  - destruct (IH t loc T _ y (Some y) H Ey) as (pre & rest & x' & next' & -> & -> & Hx & Hr).
    exists (b :: pre), rest, x', next'. rewrite <- app_assoc in Hx, Hr. split_and!; [done..|].
    destruct Hr as [[-> [[-> ->]| ->]]|Hr]; [left| |by right].
    + split; [done|right]. rewrite <- Hx. by rewrite app_assoc, app_nil_r, Ey.
    + left. auto.
  - exists [], (b :: path), x, None. rewrite !app_nil_r. split_and!; [done..|]. right. by exists b, path.
Qed.

Lemma grow_spec path : forall t loc T p x, rep D t loc T -> loc !! p = Some x -> (length (p ++ path) <= D)%nat ->
  (forall b r, path = b :: r -> loc !! (p ++ [b]) = None) ->
  exists y t' loc', grow t path x = Some (y, t') /\ rep D t' loc' T /\ loc' !! (p ++ path) = Some y.
Proof.
  induction path as [|b path IH]; intros t loc T p x H Hp Hl Hn; cbn [grow].
  { exists x, t, loc. by rewrite app_nil_r. }
  rewrite length_app in Hl. simpl in Hl.
  destruct (rep_new_node D t loc T p x b H Hp) as (y & t1 & -> & H1); [by eapply Hn|lia|]. cbn [mbind option_bind].
  destruct (IH t1 _ T (p ++ [b]) y H1) as (z & t2 & loc2 & -> & H2 & Hz).
  - by rewrite lookup_insert_eq.
  - rewrite !length_app. simpl. lia.
  - intros c r _. rewrite lookup_insert_ne by (symmetry; apply snoc_not_self). eapply closed_app; [done|]. by eapply Hn.
  - exists z, t2, loc2. rewrite <- app_assoc in Hz. done.
Qed.

(** Insertion: the table gets the value, unless the prefix had one. *)
Lemma insert_path_spec t loc T path value : rep D t loc T -> (length path <= D)%nat ->
  match T !! path with
  | Some _ => insert_path t path value = Some (NGX_BUSY, t)
  | None => exists t' loc', insert_path t path value = Some (NGX_OK, t') /\ rep D t' loc' (assign T path value)
  end.
Proof.
  intros H Hl. unfold insert_path.
  destruct (descend_spec path t loc T [] (root t) (Some (root t)) H (r_root _ _ _ _ H))
    as (pre & rest & x & next & -> & -> & Hx & Hr). cbn [mbind option_bind app] in *.
  destruct Hr as [[-> Hnext]|(b & r & -> & -> & Hb)].
  - assert (next = Some x) as ->.
    { destruct Hnext as [[-> ->]| ->]; [|done]. by rewrite <- Hx, (r_root _ _ _ _ H). }
    rewrite app_nil_r. unfold insert_found. rewrite (r_node _ _ _ _ H _ _ Hx). cbn [mbind option_bind n_value node_of].
    destruct (T !! pre) as [v|] eqn:Ev; cbn [default].
    + destruct (r_vals _ _ _ _ H _ _ Ev) as [_ Hv]. unfold id. by rewrite (proj2 (Z.eqb_neq v _)).
    + rewrite Z.eqb_refl. cbn [negb]. destruct (rep_set_value D t loc T pre x value H Hx) as (t' & -> & H'). by exists t', loc.
  - assert (T !! (pre ++ b :: r) = None) as ->.
    { destruct (T !! _) as [v|] eqn:Ev; [|done]. destruct (r_vals _ _ _ _ H _ _ Ev) as [[y Hy] _].
      change (b :: r) with ([b] ++ r) in Hy. rewrite app_assoc, (closed_app D t loc T _ r H Hb) in Hy. done. }
    destruct (grow_spec (b :: r) t loc T pre x H Hx Hl) as (y & t1 & loc1 & -> & H1 & Hy); [by intros ? ? [= <- <-]|].
    cbn [mbind option_bind]. destruct (rep_set_value D t1 loc1 T _ y value H1 Hy) as (t' & -> & H'). by exists t', loc1.
Qed.

Lemma search_spec path : forall t loc T p x, rep D t loc T -> loc !! p = Some x ->
  search t path (Some x) = Some (loc !! (p ++ path)).
Proof.
  induction path as [|b path IH]; intros t loc T p x H Hp; cbn [search]; [by rewrite app_nil_r, Hp|].
  destruct (rep_child D t loc T p x b H Hp) as (n & -> & Ec & _). cbn [mbind option_bind]. rewrite Ec.
  change (b :: path) with ([b] ++ path). rewrite app_assoc. destruct (loc !! (p ++ [b])) as [y|] eqn:Ey.
  - by eapply IH.
  - rewrite (closed_app D t loc T _ path H Ey). by destruct path.
Qed.
End Ops.

(** *** Deletion *)

(** A node without children is unlinked and put in the list. *)
Definition unlink (t : radix_tree) (x y : nat) (n pn : node) : radix_tree :=
  let t := store y (set_child (bool_decide (n_right pn = Some x)) None pn) t in
  store x (n <| n_right := free t |>) t <| free := Some x |>.

Lemma rep_unlink D t loc T q b x y : rep D t loc T -> loc !! (q ++ [b]) = Some x -> loc !! q = Some y ->
  (forall c, loc !! ((q ++ [b]) ++ [c]) = None) ->
  rep D (unlink t x y (node_of loc T (q ++ [b])) (node_of loc T q)) (delete (q ++ [b]) loc) (delete (q ++ [b]) T).
Proof.
  intros H Hx Hy Hleaf. pose proof H as [Hr Hn Hi Hc Hd Hv (l & Hl & Hnd & Hfl) Hf]. set (p := q ++ [b]) in *.
  assert (Hpq : p <> q) by apply snoc_not_self.
  assert (Hxy : x <> y) by (intros ->; apply Hpq; by eapply Hi).
  assert (Eb : bool_decide (n_right (node_of loc T q) = Some x) = b).
  { cbn [node_of n_right]. destruct b; [by apply bool_decide_eq_true_2|]. apply bool_decide_eq_false_2. intros E.
    pose proof (Hi _ _ _ E Hx) as E'. unfold p in E'. by apply snoc_inj in E' as [_ ?]. }
  unfold unlink. rewrite Eb. clear Eb. constructor; simpl.
  - rewrite lookup_delete_ne; [done|apply snoc_not_nil].
  - intros r z. rewrite lookup_delete_Some. intros [Hpr Hz].
    assert (z <> x) by (intros ->; apply Hpr; by eapply Hi). rewrite lookup_insert_ne by done.
    assert (Hpar : parent_of (delete p loc) r = parent_of loc r).
    { unfold parent_of. destruct r as [|c r]; [done|]. rewrite lookup_delete_ne; [done|]. intros E.
      destruct (exists_last (l := c :: r)) as (r' & d & Er'); [done|]. rewrite Er' in *. rewrite removelast_last in E. subst r'.
      by rewrite Hleaf in Hz. }
    destruct (decide (r = q)) as [->|Hrq].
    + assert (z = y) as -> by congruence. rewrite lookup_insert_eq. unfold node_of. rewrite Hpar, (lookup_delete_ne T) by done.
      unfold p. destruct b; simpl; rewrite lookup_delete_eq, lookup_delete_ne by (intros E; by apply snoc_inj in E as [_ ?]); done.
    + assert (z <> y) by (intros ->; apply Hrq; by eapply Hi). rewrite lookup_insert_ne, (Hn r z Hz) by done.
      unfold node_of. rewrite Hpar, (lookup_delete_ne T) by done.
      rewrite !lookup_delete_ne by (intros E; apply snoc_inj in E as [-> _]; done). done.
  - intros r s z. rewrite !lookup_delete_Some. intros [_ ?] [_ ?]. by eapply Hi.
  - intros r c [z Hz]. apply lookup_delete_Some in Hz as [Hne Hz]. rewrite lookup_delete_ne; [by eapply Hc|].
    intros <-. by rewrite Hleaf in Hz.
  - intros r [z Hz]. apply lookup_delete_Some in Hz as [_ Hz]. by apply Hd.
  - intros r v. rewrite lookup_delete_Some. intros [Hne Hrv]. rewrite lookup_delete_ne by done. by apply Hv.
  - exists (x :: l). assert (Hxl : x ∉ l) by (intros Hin; by eapply Hfl). split_and!.
    + split; [done|]. eexists. split; [apply lookup_insert_eq|]. simpl. apply free_list_store; [done|].
      apply free_list_store; [intros Hin; by eapply Hfl|done].
    + by constructor.
    + intros z r Hz. rewrite lookup_delete_Some. intros [Hne Hr2]. apply elem_of_cons in Hz as [->|Hz]; [|by eapply Hfl].
      apply Hne. by eapply Hi.
  - intros z. rewrite !lookup_insert_is_Some'. intros [<-|[<-|Hz]]; [| |by apply Hf]; apply Hf.
    + by rewrite (Hn _ _ Hx).
    + by rewrite (Hn _ _ Hy).
Qed.

Lemma prune_spec D rounds : forall t loc T p x, rep D t loc T -> loc !! p = Some x -> p <> [] ->
  (forall c, loc !! (p ++ [c]) = None) -> (length p <= rounds)%nat ->
  exists t' loc', prune rounds t x = Some t' /\ rep D t' loc' (delete p T).
Proof.
  induction rounds as [|rounds IH]; intros t loc T p x H Hx Hne Hleaf Hl; [destruct p; [done|simpl in Hl; lia]|].
  destruct (exists_last Hne) as (q & b & ->). rewrite length_app in Hl. simpl in Hl.
  destruct (r_closed _ _ _ _ H q b) as [y Hy]; [by rewrite Hx|]. cbn [prune].
  rewrite (r_node _ _ _ _ H _ _ Hx). cbn [mbind option_bind]. cbn [n_parent node_of]. rewrite parent_snoc, Hy. cbn [mbind option_bind].
  rewrite (r_node _ _ _ _ H _ _ Hy). cbn [mbind option_bind]. cbv zeta.
  pose proof (rep_unlink D t loc T q b x y H Hx Hy Hleaf) as H1.
  assert (Hxy : x <> y) by (intros ->; apply (snoc_not_self q b); by eapply (r_inj _ _ _ _ H)).
  simpl. rewrite lookup_insert_ne, (r_node _ _ _ _ H _ _ Hx) by done. cbn [mbind option_bind].
  set (t1 := unlink t x y (node_of loc T (q ++ [b])) (node_of loc T q)) in *.
  match goal with |- context [<[x := ?n]> ?h !! y] => change (<[x := n]> h) with (nodes t1) end.
  match goal with |- context [prune rounds ?t y] => change t with t1 end.
  assert (Hy1 : delete (q ++ [b]) loc !! q = Some y) by (by rewrite lookup_delete_ne by apply snoc_not_self).
  rewrite (r_node _ _ _ _ H1 _ _ Hy1). cbn [mbind option_bind n_right n_left n_value n_parent node_of].
  destruct (delete (q ++ [b]) loc !! (q ++ [true])) eqn:Et; [by eexists _, _|].
  destruct (delete (q ++ [b]) loc !! (q ++ [false])) eqn:Ef; [by eexists _, _|].
  rewrite lookup_delete_ne by apply snoc_not_self.
  destruct (T !! q) as [v|] eqn:Ev; cbn [default].
  { destruct (r_vals _ _ _ _ H _ _ Ev) as [_ Hv]. unfold id. rewrite (proj2 (Z.eqb_neq v _)) by done. by eexists _, _. }
  rewrite Z.eqb_refl. cbn [negb]. destruct (parent_of _ q) eqn:Ep; [|by eexists _, _].
  destruct (IH t1 _ _ q y H1 Hy1) as (t2 & loc2 & E & H2).
  - by intros ->.
  - by intros [|].
  - lia.
  - exists t2, loc2. split; [done|]. rewrite delete_id in H2; [done|]. by rewrite lookup_delete_ne by apply snoc_not_self.
Qed.

(** Deletion: the value is taken away.  A root without children must not be
    deleted: it has no parent. *)
Lemma delete_path_spec D t loc T path : rep D t loc T -> (length path <= D)%nat ->
  (path = [] -> exists b, is_Some (loc !! [b])) ->
  exists rc t' loc', delete_path (S D) t path = Some (rc, t') /\ rep D t' loc' (delete path T) /\
    (is_Some (T !! path) -> rc = NGX_OK).
Proof.
  intros H Hl Hroot. unfold delete_path. rewrite (search_spec D path t loc T [] _ H (r_root _ _ _ _ H)). cbn [mbind option_bind app].
  destruct (loc !! path) as [x|] eqn:Ex; cbn [delete_found].
  2: { exists NGX_ERROR, t, loc. assert (ET : T !! path = None).
       { destruct (T !! path) eqn:Ev; [|done]. destruct (r_vals _ _ _ _ H _ _ Ev) as [[? ?] _]. congruence. }
       split_and!; [done|by rewrite delete_id|]. rewrite ET. by intros [? ?]. }
  rewrite (r_node _ _ _ _ H _ _ Ex). cbn [mbind option_bind n_right n_left n_value node_of].
  assert (Hkeep : exists rc t' loc',
    (if negb (default NGX_RADIX_NO_VALUE (T !! path) =? NGX_RADIX_NO_VALUE)
     then t' ← set_value t x NGX_RADIX_NO_VALUE; Some (NGX_OK, t') else Some (NGX_ERROR, t)) = Some (rc, t') /\
    rep D t' loc' (delete path T) /\ (is_Some (T !! path) -> rc = NGX_OK)).
  { destruct (T !! path) as [v|] eqn:Ev; cbn [default].
    - destruct (r_vals _ _ _ _ H _ _ Ev) as [_ Hv]. unfold id. rewrite (proj2 (Z.eqb_neq v _)) by done. cbn [negb].
      destruct (rep_set_value D t loc T path x NGX_RADIX_NO_VALUE H Ex) as (t' & -> & H'). cbn [mbind option_bind].
      exists NGX_OK, t', loc. unfold assign in H'. rewrite decide_True in H' by done. done.
    - rewrite Z.eqb_refl. exists NGX_ERROR, t, loc. split_and!; [done|by rewrite delete_id|by intros [? ?]]. }
  destruct (loc !! (path ++ [true])) eqn:Et; [done|]. destruct (loc !! (path ++ [false])) eqn:Ef; [done|].
  assert (Hne : path <> []).
  { intros ->. destruct (Hroot eq_refl) as (b & z & Hz). destruct b; simpl in *; congruence. }
  destruct (prune_spec D (S D) t loc T path x H Ex Hne) as (t' & loc' & -> & H'); [by intros [|]|lia|].
  exists NGX_OK, t', loc'. done.
Qed.

(** ** Keys and masks as strings of bits *)

(** The bits of 16 bytes. *)
Definition bits128 (key : list Z) : list bool := concat (map (bits 8) (take 16 key)).

(** The bits of a key under the ones a mask begins with. *)
Fixpoint prefix (key mask : list bool) : list bool :=
  match key, mask with
  | b :: key, true :: mask => b :: prefix key mask
  | _, _ => []
  end.
Definition prefix32 (key mask : Z) : list bool := prefix (bits 32 key) (bits 32 mask).
Definition prefix128 (key mask : list Z) : list bool := prefix (bits128 key) (bits128 mask).

Lemma prefix_length key mask : (length (prefix key mask) <= length key)%nat.
Proof. revert mask. induction key as [|b key IH]; intros mask; simpl; [lia|]. destruct mask as [|[] mask]; simpl; [lia| |lia]. specialize (IH mask). lia. Qed.

(** The bit the loops have when [n] are to come. *)
Definition bit_at (n : nat) : Z := match n with O => 0 | S n => 2 ^ Z.of_nat n end.

Lemma bit_at_shift n : Z.shiftr (bit_at (S n)) 1 = bit_at n.
Proof.
  rewrite Z.shiftr_div_pow2 by lia. change (2 ^ 1) with 2. unfold bit_at. destruct n as [|n]; [done|].
  rewrite Nat2Z.inj_succ, Z.pow_succ_r, Z.mul_comm by lia. by rewrite Z.div_mul.
Qed.

Lemma bit_at_zero n : (bit_at n =? 0) = (n =? 0)%nat.
Proof. destruct n as [|n]; [done|]. simpl. apply Z.eqb_neq. pose proof (Z.pow_pos_nonneg 2 (Z.of_nat n)). lia. Qed.

Lemma land_bit z n : (Z.land z (2 ^ Z.of_nat n) =? 0) = negb (Z.testbit z (Z.of_nat n)).
Proof.
  destruct (Z.testbit z (Z.of_nat n)) eqn:E; cbn [negb].
  - apply Z.eqb_neq. intros H. apply (f_equal (fun w => Z.testbit w (Z.of_nat n))) in H.
    rewrite Z.land_spec, E, Z.pow2_bits_true, Z.bits_0 in H by lia. done.
  - apply Z.eqb_eq. apply Z.bits_inj'. intros i Hi. rewrite Z.land_spec, Z.bits_0, Z.pow2_bits_eqb by lia.
    destruct (Z.eqb_spec (Z.of_nat n) i) as [<-|]; [by rewrite E|]. by rewrite andb_false_r.
Qed.

Lemma bit_set_key z n : bit_set z (bit_at (S n)) = Z.testbit z (Z.of_nat n).
Proof. unfold bit_set, bit_at. by rewrite land_bit, negb_involutive. Qed.
Lemma bit_set_mask z n : bit_set (bit_at (S n)) z = Z.testbit z (Z.of_nat n).
Proof. unfold bit_set. rewrite Z.land_comm. apply bit_set_key. Qed.

(** *** 32 bits *)

Definition path32 (n : nat) (key mask : Z) : list bool := prefix (bits n key) (bits n mask).

Lemma path32_S n key mask :
  path32 (S n) key mask = if Z.testbit mask (Z.of_nat n) then Z.testbit key (Z.of_nat n) :: path32 n key mask else [].
Proof. unfold path32. simpl. by destruct (Z.testbit mask _). Qed.

Lemma descend32_path n : forall rounds t key mask x next, (n <= rounds)%nat ->
  exists m, (m <= n)%nat /\
    descend32 rounds t key mask (bit_at n) x next =
      (r ← descend t (path32 n key mask) x next; Some (bit_at m, r.1.2, r.2)) /\
    (forall r, descend t (path32 n key mask) x next = Some r -> r.1.1 = path32 m key mask).
Proof.
  induction n as [|n IH]; intros rounds t key mask x next Hr.
  { exists 0%nat. split; [done|]. split; [by destruct rounds|]. by intros r [= <-]. }
  destruct rounds as [|rounds]; [lia|]. cbn [descend32]. rewrite bit_set_mask, bit_set_key, bit_at_shift, path32_S.
  destruct (Z.testbit mask (Z.of_nat n)) eqn:Em; cbn [negb].
  - cbn [descend]. destruct (nodes t !! x) as [nd|]; cbn [mbind option_bind].
    2: { exists n. split_and!; [lia|done|done]. }
    destruct (child _ nd) as [p|].
    + destruct (IH rounds t key mask p (Some p) ltac:(lia)) as (m & Hm & E & Hp). exists m. split_and!; [lia|done|done].
    + exists (S n). split_and!; [lia|done|]. intros r [= <-]. rewrite path32_S, Em. done.
  - exists (S n). split_and!; [lia|done|]. intros r [= <-]. by rewrite path32_S, Em.
Qed.

Lemma grow32_path n : forall rounds t key mask x, (n <= rounds)%nat ->
  grow32 rounds t key mask (bit_at n) x = grow t (path32 n key mask) x.
Proof.
  induction n as [|n IH]; intros rounds t key mask x Hr; [by destruct rounds|].
  destruct rounds as [|rounds]; [lia|]. cbn [grow32]. rewrite bit_set_mask, bit_set_key, bit_at_shift, path32_S.
  destruct (Z.testbit mask (Z.of_nat n)); cbn [negb grow]; [|done].
  destruct (new_node t x _) as [[next t']|]; [|done]. cbn [mbind option_bind]. apply IH. lia.
Qed.

Lemma search32_path n : forall rounds t key mask x, (n <= rounds)%nat ->
  search32 rounds t key mask (bit_at n) x = search t (path32 n key mask) x.
Proof.
  induction n as [|n IH]; intros rounds t key mask x Hr; (destruct x as [p|]; [|by destruct rounds, (path32 _ key mask)]).
  { by destruct rounds. }
  destruct rounds as [|rounds]; [lia|]. cbn [search32]. rewrite bit_set_mask, bit_set_key, bit_at_shift, path32_S.
  destruct (Z.testbit mask (Z.of_nat n)); cbn [negb search]; [|done].
  destruct (nodes t !! p) as [nd|]; [|done]. cbn [mbind option_bind]. apply IH. lia.
Qed.

Lemma insert32_path t key mask value : ngx_radix32tree_insert t key mask value = insert_path t (prefix32 key mask) value.
Proof.
  unfold ngx_radix32tree_insert, insert_path. change 0x80000000 with (bit_at 32).
  destruct (descend32_path 32 32 t key mask (root t) (Some (root t)) (le_n _)) as (m & Hm & -> & Hp).
  change (prefix32 key mask) with (path32 32 key mask).
  destruct (descend t (path32 32 key mask) _ _) as [[[path x] next]|] eqn:E; cbn [mbind option_bind fst snd]; [|done].
  destruct next; [done|]. rewrite grow32_path by done. by rewrite <- (Hp _ eq_refl).
Qed.

Lemma delete32_path t key mask : ngx_radix32tree_delete t key mask = delete_path 33 t (prefix32 key mask).
Proof.
  unfold ngx_radix32tree_delete, delete_path. change 0x80000000 with (bit_at 32).
  by rewrite (search32_path 32) by done.
Qed.

(** *** 128 bits *)

(** The bits of the 16 bytes from the last [n] of byte [i] on. *)
Definition bits_from (i n : nat) (key : list Z) : list bool :=
  if (16 <=? i)%nat then [] else bits n (key !!! i) ++ concat (map (bits 8) (drop (S i) (take 16 key))).

Lemma bits_from_S i n key : (i < 16)%nat -> (16 <= length key)%nat ->
  bits_from i (S n) key =
    Z.testbit (key !!! i) (Z.of_nat n) :: (if (n =? 0)%nat then bits_from (S i) 8 key else bits_from i n key).
Proof.
  intros Hi Hk. unfold bits_from. rewrite (proj2 (Nat.leb_gt 16 i)) by lia. destruct n as [|n]; [|done].
  cbn [bits app Nat.eqb]. f_equal. destruct (Nat.leb_spec 16 (S i)).
  - rewrite drop_ge by (rewrite length_take; lia). done.
  - rewrite (drop_S _ (key !!! S i) (S i)); [done|]. rewrite lookup_take_lt by lia. apply list_lookup_lookup_total_lt. lia.
Qed.

Lemma bits_from_start key : (16 <= length key)%nat -> bits_from 0 8 key = bits128 key.
Proof. intros Hk. unfold bits_from, bits128. destruct key as [|k key]; [simpl in Hk; lia|]. done. Qed.

Definition path128 (i n : nat) (key mask : list Z) : list bool := prefix (bits_from i n key) (bits_from i n mask).

Lemma descend_rest t path : forall x next rest x',
  descend t path x next = Some (rest, x', None) -> next <> None -> rest <> [].
Proof.
  induction path as [|b path IH]; intros x next rest x' E Hn; cbn [descend] in E; [by simplify_eq|].
  destruct (nodes t !! x) as [nd|]; cbn [mbind option_bind] in E; [|done].
  destruct (child b nd); [by eapply IH|by simplify_eq].
Qed.

Lemma byte_there (l : list Z) i : (i < 16)%nat -> (16 <= length l)%nat -> l !! i = Some (l !!! i).
Proof. intros Hi Hl. apply list_lookup_lookup_total_lt. lia. Qed.

(** [k] bits are to come, [n] of them in byte [i]. *)
Definition at_bit (k i n : nat) : Prop := (i < 16 /\ 1 <= n <= 8 /\ k = 8 * (15 - i) + n)%nat.

Lemma at_bit_next k i n : at_bit (S k) i (S n) ->
  (n = 0%nat /\ (S i = 16%nat /\ k = 0%nat \/ S i <> 16%nat /\ at_bit k (S i) 8)) \/ n <> 0%nat /\ at_bit k i n.
Proof. unfold at_bit. destruct n; [left; split; [done|]; destruct (decide (S i = 16%nat)); [left; lia|right; lia]|right; lia]. Qed.

Section Long.
Context (key mask : list Z) (Hkey : (16 <= length key)%nat) (Hmask : (16 <= length mask)%nat).

Lemma path128_S i n : (i < 16)%nat ->
  path128 i (S n) key mask =
    if Z.testbit (mask !!! i) (Z.of_nat n)
    then Z.testbit (key !!! i) (Z.of_nat n) :: (if (n =? 0)%nat then path128 (S i) 8 key mask else path128 i n key mask)
    else [].
Proof.
  intros Hi. unfold path128. rewrite (bits_from_S i n key), (bits_from_S i n mask) by done. cbn [prefix].
  destruct (Z.testbit (mask !!! i) _); [|done]. by destruct (n =? 0)%nat.
Qed.

Lemma path128_end n : path128 16 n key mask = [].
Proof. done. Qed.

Lemma descend128_path k : forall rounds i n t x next, at_bit k i n -> (k <= rounds)%nat ->
  exists i' n', (path128 i' n' key mask = [] \/ (i' < 16 /\ 1 <= n' <= 8 /\ 8 * (15 - i') + n' <= k)%nat) /\
    descend128 rounds t key mask i (bit_at n) x next =
      (r ← descend t (path128 i n key mask) x next; Some (i', bit_at n', r.1.2, r.2)) /\
    (forall r, descend t (path128 i n key mask) x next = Some r -> r.1.1 = path128 i' n' key mask).
Proof.
  induction k as [|k IH]; intros rounds i n t x next Hat Hr; [unfold at_bit in Hat; lia|].
  destruct n as [|n]; [unfold at_bit in Hat; lia|]. destruct rounds as [|rounds]; [lia|].
  pose proof Hat as (Hi & Hn & Hk). cbn [descend128]. rewrite (byte_there mask i Hi Hmask), (byte_there key i Hi Hkey).
  cbn [mbind option_bind]. rewrite bit_set_mask, bit_set_key, bit_at_shift, bit_at_zero, path128_S by done.
  destruct (Z.testbit (mask !!! i) (Z.of_nat n)) eqn:Em; cbn [negb].
  2: { exists i, (S n). split; [right; lia|]. split; [done|]. intros r [= <-]. by rewrite (path128_S i n Hi), Em. }
  cbn [descend]. destruct (nodes t !! x) as [nd|]; cbn [mbind option_bind].
  2: { exists i, (S n). split; [right; lia|done]. }
  destruct (child _ nd) as [p|].
  2: { exists i, (S n). split; [right; lia|]. split; [done|]. intros r [= <-]. by rewrite (path128_S i n Hi), Em. }
  destruct (at_bit_next k i n Hat) as [[-> [[E16 _]|[Hne Hat']]]|[Hne Hat']].
  - change (0 =? 0)%nat with true. cbn iota. rewrite E16. exists 16%nat, 0%nat. split; [by left|]. split; [done|]. by intros r [= <-].
  - change (0 =? 0)%nat with true. cbn iota. rewrite (proj2 (Nat.eqb_neq (S i) 16)) by done. change 128 with (bit_at 8).
    destruct (IH rounds (S i) 8%nat t p (Some p) Hat' ltac:(lia)) as (i' & n' & Hin & E & Hp).
    exists i', n'. split; [destruct Hin; [by left|right; lia]|]. done.
  - rewrite (proj2 (Nat.eqb_neq n 0)) by done.
    destruct (IH rounds i n t p (Some p) Hat' ltac:(lia)) as (i' & n' & Hin & E & Hp).
    exists i', n'. split; [destruct Hin; [by left|right; lia]|]. done.
Qed.

Lemma grow128_path k : forall rounds i n t x, at_bit k i n -> (k <= rounds)%nat ->
  grow128 rounds t key mask i (bit_at n) x = grow t (path128 i n key mask) x.
Proof.
  induction k as [|k IH]; intros rounds i n t x Hat Hr; [unfold at_bit in Hat; lia|].
  destruct n as [|n]; [unfold at_bit in Hat; lia|]. destruct rounds as [|rounds]; [lia|].
  pose proof Hat as (Hi & Hn & Hk). cbn [grow128]. rewrite (byte_there mask i Hi Hmask), (byte_there key i Hi Hkey).
  cbn [mbind option_bind]. rewrite bit_set_mask, bit_set_key, bit_at_shift, bit_at_zero, path128_S by done.
  destruct (Z.testbit (mask !!! i) (Z.of_nat n)); cbn [negb grow]; [|done].
  destruct (new_node t x _) as [[next t']|]; [|done]. cbn [mbind option_bind].
  destruct (at_bit_next k i n Hat) as [[-> [[E16 _]|[Hne Hat']]]|[Hne Hat']].
  - change (0 =? 0)%nat with true. cbn iota. by rewrite E16.
  - change (0 =? 0)%nat with true. cbn iota. rewrite (proj2 (Nat.eqb_neq (S i) 16)) by done. change 128 with (bit_at 8). by apply IH; [|lia].
  - rewrite (proj2 (Nat.eqb_neq n 0)) by done. by apply IH; [|lia].
Qed.

Lemma search128_path k : forall rounds i n t x, at_bit k i n -> (k <= rounds)%nat ->
  search128 rounds t key mask i (bit_at n) x = search t (path128 i n key mask) x.
Proof.
  induction k as [|k IH]; intros rounds i n t x Hat Hr; [unfold at_bit in Hat; lia|].
  destruct x as [p|]; [|by destruct rounds, (path128 i n key mask)].
  destruct n as [|n]; [unfold at_bit in Hat; lia|]. destruct rounds as [|rounds]; [lia|].
  pose proof Hat as (Hi & Hn & Hk). cbn [search128]. rewrite (byte_there mask i Hi Hmask), (byte_there key i Hi Hkey).
  cbn [mbind option_bind]. rewrite bit_set_mask, bit_set_key, bit_at_shift, bit_at_zero, path128_S by done.
  destruct (Z.testbit (mask !!! i) (Z.of_nat n)); cbn [negb search]; [|done].
  destruct (nodes t !! p) as [nd|]; [|done]. cbn [mbind option_bind].
  destruct (at_bit_next k i n Hat) as [[-> [[E16 _]|[Hne Hat']]]|[Hne Hat']].
  - change (0 =? 0)%nat with true. cbn iota. rewrite E16, path128_end. by destruct (child _ nd).
  - change (0 =? 0)%nat with true. cbn iota. rewrite (proj2 (Nat.eqb_neq (S i) 16)) by done. change 128 with (bit_at 8). by apply IH; [|lia].
  - rewrite (proj2 (Nat.eqb_neq n 0)) by done. by apply IH; [|lia].
Qed.

Lemma path128_start : path128 0 8 key mask = prefix128 key mask.
Proof. unfold path128, prefix128. by rewrite !bits_from_start. Qed.

Lemma insert128_path t value : ngx_radix128tree_insert t key mask value = insert_path t (prefix128 key mask) value.
Proof.
  unfold ngx_radix128tree_insert, insert_path. change 0x80 with (bit_at 8).
  destruct (descend128_path 128 128 0 8 t (root t) (Some (root t))) as (i' & n' & Hin & -> & Hp); [unfold at_bit; lia|done|].
  rewrite path128_start in *.
  destruct (descend t (prefix128 key mask) _ _) as [[[path x] next]|] eqn:E; cbn [mbind option_bind fst snd]; [|done].
  destruct next; [done|]. specialize (Hp _ eq_refl). simpl in Hp. subst path. destruct Hin as [Hnil|Hat].
  - by destruct (descend_rest t (prefix128 key mask) (root t) (Some (root t)) _ x E).
  - by rewrite (grow128_path (8 * (15 - i') + n')) by (done || unfold at_bit; lia).
Qed.

Lemma delete128_path t : ngx_radix128tree_delete t key mask = delete_path 129 t (prefix128 key mask).
Proof.
  unfold ngx_radix128tree_delete, delete_path. change 0x80 with (bit_at 8).
  by rewrite (search128_path 128), path128_start by (done || unfold at_bit; lia).
Qed.
End Long.

(** ** Lookup *)

(** The last value met on the way along a key. *)
Fixpoint best (T : table) (p key : list bool) (acc : Z) : Z :=
  let acc := default acc (T !! p) in
  match key with [] => acc | b :: key => best T (p ++ [b]) key acc end.

Lemma best_none D t loc T p key acc : rep D t loc T -> loc !! p = None -> best T p key acc = acc.
Proof.
  intros H Hp. revert p acc Hp. induction key as [|b key IH]; intros p acc Hp; cbn [best];
    (assert (T !! p = None) as -> by
      (destruct (T !! p) eqn:Ev; [|done]; destruct (r_vals _ _ _ _ H _ _ Ev) as [[? ?] _]; congruence)); [done|].
  apply IH. by eapply closed_app.
Qed.

Lemma best_spec T key : forall p acc,
  (exists k, (k <= length key)%nat /\ T !! (p ++ take k key) = Some (best T p key acc) /\
     forall k', (k < k' <= length key)%nat -> T !! (p ++ take k' key) = None) \/
  (best T p key acc = acc /\ forall k, (k <= length key)%nat -> T !! (p ++ take k key) = None).
Proof.
  induction key as [|b key IH]; intros p acc; cbn [best length].
  - destruct (T !! p) as [v|] eqn:E; cbn [default].
    + left. exists 0%nat. rewrite app_nil_r, E. split_and!; [done|done|]. intros k' Hk'. lia.
    + right. split; [done|]. intros k _. by rewrite take_nil, app_nil_r.
  - assert (Ht : forall k, p ++ take (S k) (b :: key) = (p ++ [b]) ++ take k key) by (intros k; by rewrite <- app_assoc).
    destruct (IH (p ++ [b]) (default acc (T !! p))) as [(k & Hk & Ev & Hmax)|[Ev Hno]].
    + left. exists (S k). rewrite Ht. split_and!; [lia|done|]. intros [|k'] Hk'; [lia|]. rewrite Ht. apply Hmax. lia.
    + rewrite Ev. destruct (T !! p) as [v|] eqn:E; cbn [default].
      * left. exists 0%nat. rewrite app_nil_r, E. split_and!; [lia|done|]. intros [|k'] Hk'; [lia|]. rewrite Ht. apply Hno. lia.
      * right. split; [done|]. intros [|k] Hk; [by rewrite app_nil_r|]. rewrite Ht. apply Hno. lia.
Qed.

Lemma longest_best T key : longest_prefix T key (best T [] key NGX_RADIX_NO_VALUE).
Proof. destruct (best_spec T key [] NGX_RADIX_NO_VALUE) as [H|H]; [by left|by right]. Qed.

(** The value at a node. *)
Lemma rep_value D t loc T p x acc : rep D t loc T -> loc !! p = Some x ->
  exists nd, nodes t !! x = Some nd /\ (forall b, child b nd = loc !! (p ++ [b])) /\
    (if negb (n_value nd =? NGX_RADIX_NO_VALUE) then n_value nd else acc) = default acc (T !! p).
Proof.
  intros H Hp. exists (node_of loc T p). split; [by apply H|]. split; [by intros []|]. cbn [n_value node_of].
  destruct (T !! p) as [v|] eqn:Ev; cbn [default]; [|by rewrite Z.eqb_refl].
  destruct (r_vals _ _ _ _ H _ _ Ev) as [_ Hv]. unfold id. by rewrite (proj2 (Z.eqb_neq v _)).
Qed.

Lemma rep_bottom D t loc T p b : rep D t loc T -> length p = D -> loc !! (p ++ [b]) = None.
Proof.
  intros H Hl. destruct (loc !! (p ++ [b])) eqn:E; [|done].
  pose proof (r_depth _ _ _ _ H (p ++ [b]) ltac:(by rewrite E)) as Hd. rewrite length_app in Hd. simpl in Hd. lia.
Qed.

Lemma find32_spec t loc T key : rep 32 t loc T -> forall n rounds p acc,
  (length p + n = 32)%nat -> (n < rounds)%nat ->
  find32 rounds t key (bit_at n) acc (loc !! p) = Some (best T p (bits n key) acc).
Proof.
  intros H. induction n as [|n IH]; intros rounds p acc Hl Hr;
    (destruct (loc !! p) as [x|] eqn:Ex; [|destruct rounds; cbn [find32]; by rewrite (best_none 32 t loc T)]);
    (destruct rounds as [|rounds]; [lia|]); cbn [find32];
    destruct (rep_value 32 t loc T p x acc H Ex) as (nd & -> & Ec & Ev); cbn [mbind option_bind]; cbv zeta; rewrite Ev, Ec.
  - rewrite (rep_bottom 32 t loc T) by (done || lia). by destruct rounds.
  - rewrite bit_at_shift, bit_set_key. apply IH; [rewrite length_app; simpl; lia|lia].
Qed.

Lemma find128_spec t loc T key : rep 128 t loc T -> (17 <= length key)%nat -> forall k rounds i n p acc,
  (k = 0 /\ i = 16 /\ n = 8 \/ at_bit k i n)%nat -> (length p + k = 128)%nat -> (k < rounds)%nat ->
  find128 rounds t key i (bit_at n) acc (loc !! p) = Some (best T p (bits_from i n key) acc).
Proof.
  intros H Hkey. induction k as [|k IH]; intros rounds i n p acc Hat Hl Hr;
    (destruct (loc !! p) as [x|] eqn:Ex; [|destruct rounds; cbn [find128]; by rewrite (best_none 128 t loc T)]);
    (destruct rounds as [|rounds]; [lia|]); cbn [find128];
    destruct (rep_value 128 t loc T p x acc H Ex) as (nd & -> & Ec & Ev); cbn [mbind option_bind]; cbv zeta; rewrite Ev.
  - destruct Hat as [(_ & -> & ->)|Hat]; [|unfold at_bit in Hat; lia].
    rewrite (list_lookup_lookup_total_lt key 16) by lia. cbn [mbind option_bind]. rewrite Ec, (rep_bottom 128 t loc T) by (done || lia).
    change (Z.shiftr (bit_at 8) 1 =? 0) with false. by destruct rounds.
  - destruct Hat as [(? & _)|Hat]; [done|]. pose proof Hat as (Hi & Hn & Hk). destruct n as [|n]; [lia|].
    rewrite (list_lookup_lookup_total_lt key i) by lia. cbn [mbind option_bind]. rewrite Ec, bit_set_key, bit_at_shift, bit_at_zero.
    rewrite (bits_from_S i n key) by lia. cbn [best].
    destruct (at_bit_next k i n Hat) as [[-> [[E16 ->]|[Hne Hat']]]|[Hne Hat']].
    + change (0 =? 0)%nat with true. cbn iota. change 128 with (bit_at 8). rewrite E16.
      apply IH; [by left|rewrite length_app; simpl; lia|lia].
    + change (0 =? 0)%nat with true. cbn iota. change 128 with (bit_at 8).
      apply IH; [by right|rewrite length_app; simpl; lia|lia].
    + rewrite (proj2 (Nat.eqb_neq n 0)) by done. apply IH; [by right|rewrite length_app; simpl; lia|lia].
Qed.
