(* ===== verification/NgxRadixTable.v ===== *)
(** * What radix trees are for

    A tree that was created and then changed any number of times answers every
    lookup as the table of the prefixes that are in it: with the value of the
    longest one.  For keys of 32 and of 128 bits. *)

From S2P Require Import Prelude NgxBits NgxRadix NgxRadixSpec.

Set Warnings "-register-all".

#[local] Abbreviation length := (@List.length _).

(** ** Both families of keys *)

Inductive family := Bits32 | Bits128.

Definition key_of (f : family) : Type := match f with Bits32 => Z | Bits128 => list Z end.
Definition insert_in (f : family) : radix_tree -> key_of f -> key_of f -> Z -> option (Z * radix_tree) :=
  match f with Bits32 => ngx_radix32tree_insert | Bits128 => ngx_radix128tree_insert end.
Definition delete_in (f : family) : radix_tree -> key_of f -> key_of f -> option (Z * radix_tree) :=
  match f with Bits32 => ngx_radix32tree_delete | Bits128 => ngx_radix128tree_delete end.
Definition find_in (f : family) : radix_tree -> key_of f -> option Z :=
  match f with Bits32 => ngx_radix32tree_find | Bits128 => ngx_radix128tree_find end.

Definition width (f : family) : nat := match f with Bits32 => 32 | Bits128 => 128 end.
Definition prefix_in (f : family) : key_of f -> key_of f -> list bool :=
  match f with Bits32 => prefix32 | Bits128 => prefix128 end.
Definition bits_in (f : family) : key_of f -> list bool :=
  match f with Bits32 => bits 32 | Bits128 => bits128 end.

(** How much memory there is at a key: its bytes, and [extra] more. *)
Definition readable (f : family) (extra : nat) : key_of f -> Prop :=
  match f with Bits32 => fun _ => True | Bits128 => fun key => (16 + extra <= length key)%nat end.

(** ** Changes *)

Inductive change (f : family) := Insert (key mask : key_of f) (value : Z) | Delete (key mask : key_of f).
Arguments Insert {f}.
Arguments Delete {f}.

Definition apply_change {f : family} (t : radix_tree) (c : change f) : option (Z * radix_tree) :=
  match c with
  | Insert key mask value => insert_in f t key mask value
  | Delete key mask => delete_in f t key mask
  end.

Fixpoint apply_changes {f : family} (t : radix_tree) (l : list (change f)) : option (list Z * radix_tree) :=
  match l with
  | [] => Some ([], t)
  | c :: l => '(rc, t) ← apply_change t c; '(rcs, t) ← apply_changes t l; Some (rc :: rcs, t)
  end.

(** A change is sound if its keys can be read and it does not delete the
    prefix of no bits. *)
Definition sound {f : family} (c : change f) : Prop :=
  match c with
  | Insert key mask _ => readable f 0 key /\ readable f 0 mask
  | Delete key mask => readable f 0 key /\ readable f 0 mask /\ prefix_in f key mask <> []
  end.

(** The same on a table, with the codes that are returned. *)
Inductive table_change {f : family} (T : table) : change f -> Z -> table -> Prop :=
| inserted key mask value : T !! prefix_in f key mask = None ->
    table_change T (Insert key mask value) NGX_OK (assign T (prefix_in f key mask) value)
| busy key mask value : is_Some (T !! prefix_in f key mask) ->
    table_change T (Insert key mask value) NGX_BUSY T
| deleted key mask : is_Some (T !! prefix_in f key mask) ->
    table_change T (Delete key mask) NGX_OK (delete (prefix_in f key mask) T)
| not_there key mask rc : T !! prefix_in f key mask = None ->
    table_change T (Delete key mask) rc T.

Inductive table_changes {f : family} : table -> list (change f) -> list Z -> table -> Prop :=
| no_change T : table_changes T [] [] T
| changes T c rc T' l rcs T'' : table_change T c rc T' -> table_changes T' l rcs T'' ->
    table_changes T (c :: l) (rc :: rcs) T''.

(** ** Creation *)

Lemma keys_loop_spec D rounds : forall t loc key mask inc, (32 <= D)%nat -> rep D t loc ∅ -> 0 < inc ->
  0 <= key < 2 ^ 32 -> key + Z.of_nat rounds * inc = 2 ^ 32 ->
  exists t' loc', keys_loop rounds t key mask inc = Some t' /\ rep D t' loc' ∅.
Proof.
  induction rounds as [|rounds IH]; intros t loc key mask inc HD H Hinc Hk Hr; [lia|]. cbn [keys_loop].
  rewrite insert32_path.
  pose proof (insert_path_spec D t loc ∅ (prefix32 key mask) NGX_RADIX_NO_VALUE H) as Hi. rewrite lookup_empty in Hi.
  destruct Hi as (t1 & loc1 & -> & H1).
  { pose proof (prefix_length (bits 32 key) (bits 32 mask)) as Hp. rewrite bits_length in Hp. unfold prefix32. lia. }
  unfold assign in H1. rewrite decide_True, delete_empty in H1 by done. cbn [mbind option_bind].
  rewrite Z.eqb_refl. cbn [negb]. destruct rounds as [|rounds].
  - replace (key + inc) with (2 ^ 32) by lia. change (u32 (2 ^ 32) =? 0) with true. by exists t1, loc1.
  - assert (key + inc < 2 ^ 32) by nia. rewrite u32_small by lia. rewrite (proj2 (Z.eqb_neq _ 0)) by lia. cbn [negb].
    apply (IH t1 loc1); [done|done|done|lia|lia].
Qed.

Lemma lengths_loop_spec D pre : forall t loc mask d, (32 <= D)%nat -> rep D t loc ∅ -> (pre + d <= 32)%nat ->
  exists t' loc', lengths_loop pre t mask (bit_at (32 - d)) = Some t' /\ rep D t' loc' ∅.
Proof.
  induction pre as [|pre IH]; intros t loc mask d HD H Hd; cbn [lengths_loop]; [by exists t, loc|].
  replace (32 - d)%nat with (S (31 - d)) by lia. rewrite bit_at_shift. cbv zeta.
  set (inc := bit_at (S (31 - d))). assert (Hinc : inc = 2 ^ Z.of_nat (31 - d)) by done.
  assert (E : 2 ^ 32 = 2 ^ (Z.of_nat (S d)) * inc).
  { rewrite Hinc, <- Z.pow_add_r by lia. f_equal. lia. }
  assert (0 < inc) by (rewrite Hinc; apply Z.pow_pos_nonneg; lia).
  destruct (keys_loop_spec D (Z.to_nat (2 ^ 32 / inc)) t loc 0 (Z.lor (Z.shiftr mask 1) 0x80000000) inc) as (t1 & loc1 & -> & H1);
    [done|done|done|lia| |].
  { rewrite E, Z.div_mul by lia. rewrite Z2Nat.id by (apply Z.pow_nonneg; lia). lia. }
  cbn [mbind option_bind]. replace (31 - d)%nat with (32 - S d)%nat by lia. apply (IH t1 loc1); [done|done|lia].
Qed.

Lemma create_spec D pagesize preallocate : (32 <= D)%nat -> -1 <= preallocate <= 32 ->
  exists t loc, ngx_radix_tree_create pagesize preallocate = Some t /\ rep D t loc ∅.
Proof.
  intros HD Hpre. unfold ngx_radix_tree_create. cbn [ngx_radix_alloc free mbind option_bind].
  set (t := store _ _ _). assert (H : rep D t {[ [] := 0%nat ]} ∅).
  { constructor; simpl; try done.
    - intros p x. rewrite lookup_singleton_Some. intros [<- <-]. rewrite lookup_insert_eq. done.
    - intros p q x. rewrite !lookup_singleton_Some. intros [<- _] [<- _]. done.
    - intros p b [x Hx]. apply lookup_singleton_Some in Hx as [Hx _]. by destruct p.
    - intros p [x Hx]. apply lookup_singleton_Some in Hx as [<- _]. simpl. lia.
    - exists []. split_and!; [done|constructor|set_solver].
    - intros x [n Hn]. apply lookup_insert_Some in Hn as [[<- _]|[_ Hn]]; [lia|done]. }
  destruct (preallocate =? 0); [by exists t, {[ [] := 0%nat ]}|].
  cbv zeta. set (pre := if preallocate =? -1 then _ else _).
  assert (0 <= pre <= 32) by (unfold pre; destruct (Z.eqb_spec preallocate (-1)); [repeat case_match; lia|lia]).
  change 0x80000000 with (bit_at (32 - 0)). apply (lengths_loop_spec D _ t {[ [] := 0%nat ]}); [done|done|lia].
Qed.

(** ** Changes keep the table *)

Lemma prefix_width f key mask : (length (prefix_in f key mask) <= width f)%nat.
Proof.
  destruct f; cbn [prefix_in width].
  - unfold prefix32. pose proof (prefix_length (bits 32 key) (bits 32 mask)) as H. by rewrite bits_length in H.
  - unfold prefix128. etransitivity; [apply prefix_length|]. unfold bits128.
    enough (H : forall l, length (concat (map (bits 8) l)) = (8 * length l)%nat) by (rewrite H, length_take; lia).
    intros l. induction l as [|c l IH]; [done|]. cbn [map concat length]. rewrite length_app, bits_length, IH. lia.
Qed.

Lemma change_spec f t loc T (c : change f) : rep (width f) t loc T -> sound c ->
  exists rc t' loc' T', apply_change t c = Some (rc, t') /\ rep (width f) t' loc' T' /\ table_change T c rc T'.
Proof.
  intros H Hc. destruct c as [key mask value|key mask]; cbn [apply_change sound] in *.
  - assert (E : insert_in f t key mask value = insert_path t (prefix_in f key mask) value).
    { destruct f; [apply insert32_path|]. destruct Hc as [Hk Hm]. simpl in Hk, Hm. apply insert128_path; lia. }
    rewrite E. pose proof (insert_path_spec _ t loc T _ value H (prefix_width f key mask)) as Hi.
    destruct (T !! prefix_in f key mask) as [v|] eqn:Ev.
    + exists NGX_BUSY, t, loc, T. split_and!; [done|done|]. apply busy. by rewrite Ev.
    + destruct Hi as (t' & loc' & -> & H'). exists NGX_OK, t', loc', (assign T (prefix_in f key mask) value).
      split_and!; [done|done|by apply inserted].
  - destruct Hc as (Hk & Hm & Hne).
    assert (E : delete_in f t key mask = delete_path (S (width f)) t (prefix_in f key mask)).
    { destruct f; [apply delete32_path|]. simpl in Hk, Hm. apply delete128_path; lia. }
    rewrite E. destruct (delete_path_spec _ t loc T _ H (prefix_width f key mask)) as (rc & t' & loc' & -> & H' & Hrc); [done|].
    exists rc, t', loc', (delete (prefix_in f key mask) T). split_and!; [done|done|].
    destruct (T !! prefix_in f key mask) as [v|] eqn:Ev.
    + rewrite Hrc by done. apply deleted. by rewrite Ev.
    + rewrite delete_id by done. by apply not_there.
Qed.

Lemma changes_spec f (l : list (change f)) : forall t loc T, rep (width f) t loc T -> Forall sound l ->
  exists rcs t' loc' T', apply_changes t l = Some (rcs, t') /\ rep (width f) t' loc' T' /\ table_changes T l rcs T'.
Proof.
  induction l as [|c l IH]; intros t loc T H Hl; cbn [apply_changes].
  { exists [], t, loc, T. split_and!; [done|done|constructor]. }
  apply Forall_cons in Hl as [Hc Hl]. destruct (change_spec f t loc T c H Hc) as (rc & t1 & loc1 & T1 & -> & H1 & Hs).
  destruct (IH t1 loc1 T1 H1 Hl) as (rcs & t2 & loc2 & T2 & E & H2 & Hss). cbn [mbind option_bind]. rewrite E.
  exists (rc :: rcs), t2, loc2, T2. split_and!; [done|done|by econstructor].
Qed.

Lemma find_spec f t loc T key : rep (width f) t loc T -> readable f 1 key ->
  find_in f t key = Some (best T [] (bits_in f key) NGX_RADIX_NO_VALUE).
Proof.
  intros H Hk. destruct f; cbn [find_in bits_in key_of width readable] in *.
  - unfold ngx_radix32tree_find. change 0x80000000 with (bit_at 32). rewrite <- (r_root _ _ _ _ H).
    by apply (find32_spec t loc T key H); [|lia].
  - unfold ngx_radix128tree_find. change 0x80 with (bit_at 8). rewrite <- (r_root _ _ _ _ H).
    rewrite (find128_spec t loc T key H Hk 128) by (done || lia || (right; unfold at_bit; lia)).
    by rewrite bits_from_start by lia.
Qed.

(** ** Properties *)

(** C29: A tree that is created, with the nodes of up to 32 bits allocated in
    advance or none, and then changed by any insertions, and any deletions but
    that of the prefix of no bits, refines the table of their prefixes: no
    change goes wrong, an insertion is refused exactly when its prefix is
    there, the deletion of a prefix that is there succeeds, and a lookup gives
    the value of the longest prefix of its key. Keys and masks of 16 bytes must
    be readable; for a lookup one more byte must be. (To delete the prefix of
    no bits follows a null pointer.) *)
Theorem ngx_radix_tree_refines f pagesize preallocate (l : list (change f)) :
  -1 <= preallocate <= 32 -> Forall sound l ->
  exists t rcs t' T,
    ngx_radix_tree_create pagesize preallocate = Some t /\ apply_changes t l = Some (rcs, t') /\
    table_changes ∅ l rcs T /\
    forall key, readable f 1 key -> exists v, find_in f t' key = Some v /\ longest_prefix T (bits_in f key) v.
Proof.
  intros Hpre Hl. destruct (create_spec (width f) pagesize preallocate) as (t & loc & E & H); [destruct f; simpl; lia|done|].
  destruct (changes_spec f l t loc ∅ H Hl) as (rcs & t' & loc' & T & El & H' & HT).
  exists t, rcs, t', T. split_and!; [done|done|done|]. intros key Hk. eexists. split; [by apply (find_spec f t' loc' T)|].
  apply longest_best.
Qed.

Theorem ngx_radix_tree_refines_witness :
  let l := [Insert (0x0a000000 : key_of Bits32) (0xff000000 : key_of Bits32) 7; Insert (0x0a010000 : key_of Bits32) (0xffff0000 : key_of Bits32) 8;
            Insert (0x0a000000 : key_of Bits32) (0xff000000 : key_of Bits32) 9; Delete (0x0a010000 : key_of Bits32) (0xffff0000 : key_of Bits32)] in
  exists t rcs t' T, ngx_radix_tree_create 4096 0 = Some t /\ apply_changes t l = Some (rcs, t') /\
    table_changes ∅ l rcs T /\
    forall key, readable Bits32 1 key -> exists v, find_in Bits32 t' key = Some v /\ longest_prefix T (bits_in Bits32 key) v.
Proof. intros l. apply (ngx_radix_tree_refines Bits32 4096 0 l); [lia|]. unfold l. repeat constructor. discriminate. Defined.

(** Two cases that the theorem leaves out: the deletion of the prefix of no
    bits from a tree without any node below the root follows the parent of the
    root, which is null; and a lookup of 128 bits that reaches the bottom of
    the tree reads the byte after the key. *)
Lemma delete_root_undefined :
  (t ← ngx_radix_tree_create 4096 0; '(_, t) ← ngx_radix32tree_insert t 0 0 7; ngx_radix32tree_delete t 0 0) = None.
Proof. by vm_compute. Qed.

Lemma find_reads_beyond :
  let key := replicate 16 1 in
  (t ← ngx_radix_tree_create 4096 0; '(_, t) ← ngx_radix128tree_insert t key (replicate 16 255) 7;
   Some (ngx_radix128tree_find t key, ngx_radix128tree_find t (key ++ [0]))) = Some (None, Some 7).
Proof. by vm_compute. Qed.
