(* ===== verification/Http2Huff.v ===== *)
(** * The Huffman code of HTTP/2 (src/http/v2/ngx_http_v2_huff_encode.c,
    src/http/v2/ngx_http_v2_huff_decode.c)

    Strings of headers are compressed by a code of 5 to 30 bits for a byte.
    The encoder collects bits in a word of 64; the decoder follows a table of
    256 states and takes 4 bits at a time.  Both are compared with the code
    itself: the string of bits that are the codes of the bytes. *)

From S2P Require Import Prelude NgxBits NgxCodec Http2HuffTable.

#[local] Abbreviation length := (@List.length _).

(** ** Encoding

    A pointer into [dst] is the bytes written before it. *)

(** [src/http/v2/ngx_http_v2_huff_encode.c:167-175] ngx_http_v2_huff_encode_buf:
    the 8 bytes of a word, the highest first. *)
Definition ngx_http_v2_huff_encode_buf (buf : Z) : list Z :=
  [u8 (Z.shiftr buf 56); u8 (Z.shiftr buf 48); u8 (Z.shiftr buf 40); u8 (Z.shiftr buf 32);
   u8 (Z.shiftr buf 24); u8 (Z.shiftr buf 16); u8 (Z.shiftr buf 8); u8 buf].

(** [src/http/v2/ngx_http_v2_huff_encode.c:207-234] ngx_http_v2_huff_encode:
    the loop; [None] is its [return 0]. *)
Fixpoint huff_encode_loop (table : list huff_encode_code) (n : nat) (src : list Z) (dst : list Z) (buf pending : Z)
    : option (Z * Z) * list Z :=
  match src with
  | [] => (Some (buf, pending), dst)
  | ch :: src =>
      let next := table !!! Z.to_nat ch in
      let code := code next in
      let pending := pending + len next in
      if pending <? 64 then
        huff_encode_loop table n src dst (Z.lor buf (u64 (Z.shiftl code (64 - pending)))) pending
      else if (n <=? length dst + 8)%nat then (None, dst)
      else
        let pending := pending - 64 in
        let buf := Z.lor buf (Z.shiftr code pending) in
        let dst := dst ++ ngx_http_v2_huff_encode_buf buf in
        let buf := if negb (pending =? 0) then u64 (Z.shiftl code (64 - pending)) else 0 in
        huff_encode_loop table n src dst buf pending
  end.

(** [src/http/v2/ngx_http_v2_huff_encode.c:248-251] ngx_http_v2_huff_encode:
    the last bytes, [n] of them. *)
Fixpoint huff_encode_rest (n : nat) (buf pending : Z) (dst : list Z) : list Z :=
  match n with
  | O => dst
  | S n => let pending := pending - 8 in huff_encode_rest n buf pending (dst ++ [u8 (Z.shiftr buf pending)])
  end.

(** [src/http/v2/ngx_http_v2_huff_encode.c:191-254] ngx_http_v2_huff_encode:
    the length, and what was written at [dst]. *)
Definition ngx_http_v2_huff_encode (src : list Z) (lower : bool) : Z * list Z :=
  let table := if lower then ngx_http_v2_huff_encode_table_lc else ngx_http_v2_huff_encode_table in
  match huff_encode_loop table (length src) src [] 0 0 with
  | (None, dst) => (0, dst)
  | (Some (buf, pending), dst) =>
      if pending =? 0 then (Z.of_nat (length dst), dst)
      else
        let buf := Z.lor buf (Z.shiftr (2 ^ 64 - 1) pending) in
        let pending := (pending + 7) / 8 * 8 in
        if (length src <=? length dst + Z.to_nat (pending / 8))%nat then (0, dst)
        else
          let buf := Z.shiftr buf (64 - pending) in
          let dst := huff_encode_rest (Z.to_nat (pending / 8)) buf pending dst in
          (Z.of_nat (length dst), dst)
  end.

Example huff_encode_1 : ngx_http_v2_huff_encode (bs "www.example.com") false =
  (12, [0xf1; 0xe3; 0xc2; 0xe5; 0xf2; 0x3a; 0x6b; 0xa0; 0xab; 0x90; 0xf4; 0xff]).
Proof. by vm_compute. Qed.
Example huff_encode_2 : fst (ngx_http_v2_huff_encode (bs "~~") false) = 0.
Proof. by vm_compute. Qed.

(** ** Decoding *)

(** [src/http/v2/ngx_http_v2_huff_decode.c:2693-2714] ngx_http_v2_huff_decode_bits:
    the result, [*state], [*ending] and [*dst]. *)
Definition ngx_http_v2_huff_decode_bits (state ending : Z) (bits : Z) (dst : list Z) : Z * Z * Z * list Z :=
  let code : huff_decode_code := (ngx_http_v2_huff_decode_codes !!! Z.to_nat state) !!! Z.to_nat bits in
  if next code =? state then (NGX_ERROR, state, ending, dst)
  else
    let dst := if negb (emit code =? 0) then dst ++ [sym code] else dst in
    (NGX_OK, next code, Http2HuffTable.ending code, dst).

(** [src/http/v2/ngx_http_v2_huff_decode.c:2653-2675] ngx_http_v2_huff_decode:
    the loop. *)
Fixpoint huff_decode_loop (state ending : Z) (src : list Z) (dst : list Z) : Z * Z * Z * list Z :=
  match src with
  | [] => (NGX_OK, state, ending, dst)
  | ch :: src =>
      match ngx_http_v2_huff_decode_bits state ending (Z.shiftr ch 4) dst with
      | (rc, state, ending, dst) =>
          if negb (rc =? NGX_OK) then (NGX_ERROR, state, ending, dst)
          else
            match ngx_http_v2_huff_decode_bits state ending (Z.land ch 0xf) dst with
            | (rc, state, ending, dst) =>
                if negb (rc =? NGX_OK) then (NGX_ERROR, state, ending, dst)
                else huff_decode_loop state ending src dst
            end
      end
  end.

(** [src/http/v2/ngx_http_v2_huff_decode.c:2642-2690] ngx_http_v2_huff_decode *)
Definition ngx_http_v2_huff_decode (state : Z) (src dst : list Z) (last : bool) : Z * Z * list Z :=
  match huff_decode_loop state 1 src dst with
  | (rc, state, ending, dst) =>
      if negb (rc =? NGX_OK) then (NGX_ERROR, state, dst)
      else if last then
        if ending =? 0 then (NGX_ERROR, state, dst) else (NGX_OK, 0, dst)
      else (NGX_OK, state, dst)
  end.

Example huff_decode_1 :
  ngx_http_v2_huff_decode 0 [0xf1; 0xe3; 0xc2; 0xe5; 0xf2; 0x3a; 0x6b; 0xa0; 0xab; 0x90; 0xf4; 0xff] [] true
  = (NGX_OK, 0, bs "www.example.com").
Proof. by vm_compute. Qed.

(** ** The code

    A byte has a code, a string of bits; the code of 30 ones is that of the end
    of a string, which no string has. *)

Definition huff_code (c : Z) : list bool :=
  let e := ngx_http_v2_huff_encode_table !!! Z.to_nat c in bits (Z.to_nat (len e)) (code e).
Definition huff_bits (s : list Z) : list bool := concat (map huff_code s).
Abbreviation ones n := (replicate n true).

(** Bits that no code begins. *)
Definition stuck (x : list bool) : Prop := forall c, is_byte c -> ~ huff_code c `prefix_of` x.

Fixpoint is_prefix (a b : list bool) : bool :=
  match a, b with
  | [], _ => true
  | x :: a, y :: b => eqb x y && is_prefix a b
  | _, _ => false
  end.

Lemma is_prefix_spec a b : is_prefix a b = true <-> a `prefix_of` b.
Proof.
  revert b. induction a as [|x a IH]; intros b; [split; [intros _; apply prefix_nil|done]|].
  destruct b as [|y b]; [split; [done|intros H; by apply prefix_nil_not in H]|].
  cbn [is_prefix]. rewrite andb_true_iff, eqb_true_iff, IH. split.
  - intros [-> H]. by apply prefix_cons.
  - intros H. split; [by apply prefix_cons_inv_1 in H|by apply prefix_cons_inv_2 in H].
Qed.

Lemma huff_bits_app a b : huff_bits (a ++ b) = huff_bits a ++ huff_bits b.
Proof. unfold huff_bits. by rewrite map_app, concat_app. Qed.

(** What is checked of the code, by evaluation: the length of a code, that it
    has a zero, and that no code begins another. *)
Definition code_good (c : Z) : bool :=
  let e := ngx_http_v2_huff_encode_table !!! Z.to_nat c in
  (5 <=? len e) && (len e <=? 30) && (0 <=? code e) && (code e <? 2 ^ len e) && negb (forallb id (huff_code c)).

Lemma code_good_all c : is_byte c -> code_good c = true.
Proof. intros H. by_byte c. Qed.

Lemma codes_prefix_free :
  let codes := map (fun c => (c, huff_code c)) (seqZ 0 256) in
  forallb (fun x => forallb (fun y => negb (is_prefix x.2 y.2) || (x.1 =? y.1)) codes) codes = true.
Proof. by vm_compute. Qed.

Lemma code_prefix_free c d : is_byte c -> is_byte d -> huff_code c `prefix_of` huff_code d -> c = d.
Proof.
  intros Hc Hd H. pose proof codes_prefix_free as Hf. cbv zeta in Hf.
  assert (Hin : forall b, is_byte b -> In (b, huff_code b) (map (fun c => (c, huff_code c)) (seqZ 0 256))).
  { intros b Hb. apply (in_map (fun c => (c, huff_code c))), list_elem_of_In, elem_of_seqZ. unfold is_byte in Hb. lia. }
  rewrite forallb_forall in Hf. specialize (Hf _ (Hin c Hc)). rewrite forallb_forall in Hf. specialize (Hf _ (Hin d Hd)).
  cbn [fst snd] in Hf. rewrite (proj2 (is_prefix_spec _ _) H) in Hf. by apply Z.eqb_eq in Hf.
Qed.

Lemma huff_code_length c : is_byte c -> (5 <= length (huff_code c) <= 30)%nat.
Proof. intros Hc. pose proof (code_good_all c Hc) as H. unfold code_good in H. unfold huff_code. rewrite bits_length. zcases. Qed.

Lemma huff_code_zero c : is_byte c -> forallb id (huff_code c) = false.
Proof. intros Hc. pose proof (code_good_all c Hc) as H. unfold code_good in H. apply andb_prop in H as [_ H]. by apply negb_true_iff. Qed.

Lemma forallb_prefix (a b : list bool) : a `prefix_of` b -> forallb id b = true -> forallb id a = true.
Proof. intros [k ->]. rewrite forallb_app. by intros [H _]%andb_prop. Qed.

Lemma ones_all n : forallb id (ones n) = true.
Proof. by apply forallb_replicate_true. Qed.
Lemma all_ones x : forallb id x = true -> x = ones (length x).
Proof. induction x as [|[] x IH]; simpl; [done| |done]. intros H. by rewrite <- IH. Qed.

Lemma ones_stuck n : stuck (ones n).
Proof. intros c Hc H. apply forallb_prefix in H; [|apply ones_all]. by rewrite huff_code_zero in H. Qed.

Lemma eos_stuck x : stuck (ones 30 ++ x).
Proof.
  intros c Hc H. destruct (prefix_weak_total (huff_code c) (ones 30) (ones 30 ++ x)) as [H'|H'];
    [done|by apply prefix_app_r| |].
  - by apply (ones_stuck 30 c).
  - apply prefix_length_eq in H'; [|pose proof (huff_code_length c Hc); simpl; lia].
    apply (ones_stuck 30 c Hc). by rewrite H'.
Qed.

(** A string of bits is the codes of at most one string and bits that no code
    begins. *)
Lemma huff_bits_unique a b x y : bytes a -> bytes b -> stuck x -> stuck y ->
  huff_bits a ++ x = huff_bits b ++ y -> a = b /\ x = y.
Proof.
  intros Ha. revert b. induction Ha as [|c a Hc Ha IH]; intros b Hb Hx Hy E; destruct Hb as [|d b Hd Hb].
  - done.
  - destruct (Hx d Hd). cbn in E. rewrite E. exists (huff_bits b ++ y). by rewrite (assoc_L app).
  - destruct (Hy c Hc). cbn in E. rewrite <- E. exists (huff_bits a ++ x). by rewrite (assoc_L app).
  - unfold huff_bits in *. cbn [map concat] in E. rewrite <- !(assoc_L app) in E.
    assert (Ecd : c = d).
    { destruct (prefix_weak_total (huff_code c) (huff_code d) (huff_code c ++ concat (map huff_code a) ++ x)) as [H|H].
      - by exists (concat (map huff_code a) ++ x).
      - rewrite E. by exists (concat (map huff_code b) ++ y).
      - by apply code_prefix_free.
      - symmetry. by apply code_prefix_free. }
    subst d. apply app_inv_head in E. destruct (IH b Hb Hx Hy E) as [-> ->]. done.
Qed.

(** ** The states of the decoder

    A state stands for the bits that were read of a code that is not
    complete.  They are found by following the table. *)

Definition entry (st n : Z) : huff_decode_code := (ngx_http_v2_huff_decode_codes !!! Z.to_nat st) !!! Z.to_nat n.

Definition explore_entry (st : Z) (p : list bool) (acc : list Z * gmap Z (list bool)) (n : Z) : list Z * gmap Z (list bool) :=
  let e := entry st n in
  let b := p ++ bits 4 n in
  if (next e =? st) || bool_decide (is_Some (acc.2 !! next e)) then acc
  else (next e :: acc.1, <[next e := if emit e =? 0 then b else drop (length (huff_code (sym e))) b]> acc.2).

Fixpoint explore (fuel : nat) (todo : list Z) (m : gmap Z (list bool)) : gmap Z (list bool) :=
  match fuel, todo with
  | S fuel, st :: todo => let acc := foldl (explore_entry st (m !!! st)) (todo, m) (seqZ 0 16) in explore fuel acc.1 acc.2
  | _, _ => m
  end.

Definition states : list (list bool) :=
  let m := explore 300 [0] {[0 := []]} in map (fun st => m !!! st) (seqZ 0 256).
Definition state_bits (st : Z) : list bool := states !!! Z.to_nat st.

Definition check_state (st : Z) : bool :=
  let p := state_bits st in
  (length p <? 30)%nat && forallb (fun c => negb (is_prefix (huff_code c) p)) (seqZ 0 256)
  && forallb (fun n =>
       let e := entry st n in
       let b := p ++ bits 4 n in
       if next e =? st then is_prefix (ones 30) b
       else (0 <=? next e) && (next e <? 256)
            && (if emit e =? 0 then bool_decide (b = state_bits (next e))
                else (0 <=? sym e) && (sym e <? 256) && bool_decide (b = huff_code (sym e) ++ state_bits (next e)))
            && eqb (negb (ending e =? 0)) (forallb id (state_bits (next e)))) (seqZ 0 16).

Lemma check_states : forallb check_state (seqZ 0 256) = true.
Proof. by vm_compute. Qed.

Lemma state_good st : is_byte st -> stuck (state_bits st) /\ (length (state_bits st) < 30)%nat.
Proof.
  intros Hst. pose proof check_states as Hf. rewrite forallb_forall in Hf.
  specialize (Hf st). unfold check_state in Hf. cbv zeta in Hf. rewrite !andb_true_iff, !forallb_forall in Hf.
  destruct Hf as [[Hl Hf] _]; [apply list_elem_of_In, elem_of_seqZ; unfold is_byte in Hst; lia|].
  apply Nat.ltb_lt in Hl. split; [|done]. intros c Hc H. specialize (Hf c).
  rewrite (proj2 (is_prefix_spec _ _) H) in Hf.
  discriminate Hf. apply list_elem_of_In, elem_of_seqZ. unfold is_byte in Hc. lia.
Qed.

(** A step of the table: the bits that are pending and four more are the end of
    a string, or the code of a byte at most and the bits that are pending
    next. *)
Lemma entry_step st n : is_byte st -> 0 <= n < 16 ->
  let e := entry st n in
  let b := state_bits st ++ bits 4 n in
  if next e =? st then ones 30 `prefix_of` b
  else is_byte (next e)
       /\ (if emit e =? 0 then b = state_bits (next e) else is_byte (sym e) /\ b = huff_code (sym e) ++ state_bits (next e))
       /\ (ending e <> 0 <-> state_bits (next e) = ones (length (state_bits (next e)))).
Proof.
  intros Hst Hn. pose proof check_states as Hf. rewrite forallb_forall in Hf.
  specialize (Hf st). unfold check_state in Hf. cbv zeta in Hf. rewrite !andb_true_iff, !forallb_forall in Hf.
  destruct Hf as [_ Hf]; [apply list_elem_of_In, elem_of_seqZ; unfold is_byte in Hst; lia|].
  specialize (Hf n ltac:(apply list_elem_of_In, elem_of_seqZ; lia)).
  cbv zeta. destruct (next _ =? st); [by apply is_prefix_spec|].
  rewrite !andb_true_iff, eqb_true_iff in Hf. destruct Hf as (((H1 & H2) & H3) & H4).
  apply Z.leb_le in H1. apply Z.ltb_lt in H2. split; [done|]. split.
  - destruct (emit _ =? 0); [by apply bool_decide_eq_true_1 in H3|].
    rewrite !andb_true_iff in H3. destruct H3 as ((H5 & H6) & H7).
    apply Z.leb_le in H5. apply Z.ltb_lt in H6. split; [done|]. by apply bool_decide_eq_true_1 in H7.
  - split.
    + intros H. apply all_ones. rewrite <- H4. apply negb_true_iff. by apply Z.eqb_neq.
    + intros H E. rewrite H, ones_all, E in H4. done.
Qed.

(** The bits [b] that were read are the codes of [s] and those of the state. *)
Definition read_as (b : list bool) (s : list Z) (st : Z) : Prop :=
  is_byte st /\ bytes s /\ b = huff_bits s ++ state_bits st.

Lemma decode_bits_step b s st en n dst : read_as b s st -> 0 <= n < 16 ->
  match ngx_http_v2_huff_decode_bits st en n (dst ++ s) with
  | (rc, st', en', dst') =>
      (rc = NGX_OK /\ exists s', dst' = dst ++ s' /\ read_as (b ++ bits 4 n) s' st'
                       /\ (en' <> 0 <-> state_bits st' = ones (length (state_bits st'))))
      \/ (rc = NGX_ERROR /\ dst' = dst ++ s /\ exists x, b ++ bits 4 n = huff_bits s ++ ones 30 ++ x)
  end.
Proof.
  intros (Hst & Hs & ->) Hn. unfold ngx_http_v2_huff_decode_bits. fold (entry st n).
  pose proof (entry_step st n Hst Hn) as H. cbv zeta in H |- *. destruct (next (entry st n) =? st).
  - right. destruct H as [x Hx]. split_and!; [done..|]. exists x. by rewrite <- (assoc_L app), Hx.
  - left. destruct H as (Hnx & Hb & He). split; [done|]. destruct (emit (entry st n) =? 0); cbn [negb].
    + exists s. split_and!; [done| |apply He]. unfold read_as. split_and!; [done..|]. by rewrite <- (assoc_L app), Hb.
    + destruct Hb as [Hc Hb]. exists (s ++ [sym (entry st n)]). split_and!; [by rewrite (assoc_L app)| |apply He].
      unfold read_as. split_and!; [done|by apply Forall_app_2; [|apply Forall_singleton]|].
      rewrite <- (assoc_L app), Hb, huff_bits_app, <- (assoc_L app). f_equal. unfold huff_bits. cbn. by rewrite app_nil_r.
Qed.

Lemma byte_nibbles ch : is_byte ch -> 0 <= Z.shiftr ch 4 < 16 /\ 0 <= Z.land ch 0xf < 16 /\
  bits 8 ch = bits 4 (Z.shiftr ch 4) ++ bits 4 (Z.land ch 0xf).
Proof.
  intros H. rewrite Z.shiftr_div_pow2 by lia. change 0xf with (Z.ones 4). rewrite Z.land_ones by lia. unfold is_byte in H.
  change (2 ^ 4) with 16. split_and!.
  1: apply Z.div_pos; lia. 1: apply Z.div_lt_upper_bound; lia. 1-2: apply Z.mod_pos_bound; lia.
  rewrite (bits_split 4 4), Z.shiftr_div_pow2 by lia. f_equal. symmetry. by apply (bits_mod 4 4).
Qed.

Lemma decode_loop_spec src : bytes src -> forall b s st en dst, read_as b s st ->
  (en <> 0 <-> state_bits st = ones (length (state_bits st))) ->
  match huff_decode_loop st en src (dst ++ s) with
  | (rc, st', en', dst') =>
      (rc = NGX_OK /\ exists s', dst' = dst ++ s' /\ read_as (b ++ bytes_bits src) s' st'
                       /\ (en' <> 0 <-> state_bits st' = ones (length (state_bits st'))))
      \/ (rc = NGX_ERROR /\ exists s' x, dst' = dst ++ s' /\ bytes s' /\ b ++ bytes_bits src = huff_bits s' ++ ones 30 ++ x)
  end.
Proof.
  induction 1 as [|ch src Hch Hsrc IH]; intros b s st en dst Hr He.
  { left. split; [done|]. exists s. unfold bytes_bits. cbn. rewrite app_nil_r. done. }
  cbn [huff_decode_loop]. destruct (byte_nibbles ch Hch) as (H1 & H2 & E8).
  assert (Eb : bytes_bits (ch :: src) = bits 4 (Z.shiftr ch 4) ++ bits 4 (Z.land ch 0xf) ++ bytes_bits src).
  { unfold bytes_bits. cbn [map concat]. by rewrite E8, <- (assoc_L app). }
  pose proof (decode_bits_step b s st en _ dst Hr H1) as Hd.
  destruct (ngx_http_v2_huff_decode_bits st en (Z.shiftr ch 4) (dst ++ s)) as (((rc & st1) & en1) & dst1).
  destruct Hd as [(-> & s1 & -> & Hr1 & He1)|(-> & -> & x & Hx)].
  2: { right. change (negb (NGX_ERROR =? NGX_OK)) with true. cbv iota. split; [done|]. exists s, (x ++ bits 4 (Z.land ch 0xf) ++ bytes_bits src). split; [done|].
       split; [by destruct Hr as (_ & ? & _)|]. rewrite Eb, (assoc_L app b), Hx. by rewrite <- !(assoc_L app). }
  change (negb (NGX_OK =? NGX_OK)) with false. cbv iota. pose proof (decode_bits_step _ s1 st1 en1 _ dst Hr1 H2) as Hd.
  destruct (ngx_http_v2_huff_decode_bits st1 en1 (Z.land ch 0xf) (dst ++ s1)) as (((rc & st2) & en2) & dst2).
  destruct Hd as [(-> & s2 & -> & Hr2 & He2)|(-> & -> & x & Hx)].
  - change (negb (NGX_OK =? NGX_OK)) with false. cbv iota. specialize (IH _ s2 st2 en2 dst Hr2 He2). rewrite <- !(assoc_L app), <- Eb in IH. exact IH.
  - right. change (negb (NGX_ERROR =? NGX_OK)) with true. cbv iota. split; [done|]. exists s1, (x ++ bytes_bits src). split; [done|].
    split; [by destruct Hr1 as (_ & ? & _)|]. rewrite Eb, !(assoc_L app), Hx. by rewrite <- !(assoc_L app).
Qed.

Lemma huff_bits_bound src s x : bytes s -> bytes_bits src = huff_bits s ++ x ->
  Z.of_nat (length s) <= Z.of_nat (length src) * 8 / 5.
Proof.
  intros Hs E. apply (f_equal length) in E. rewrite bytes_bits_length, length_app in E.
  assert (5 * length s <= length (huff_bits s))%nat.
  { clear E. induction Hs as [|c s Hc Hs IH]; [done|]. unfold huff_bits in *. cbn [map concat length]. rewrite length_app.
    pose proof (huff_code_length c Hc). lia. }
  apply Z.div_le_lower_bound; lia.
Qed.

Lemma read_as_start : read_as [] [] 0.
Proof. split_and!; [done|constructor|by vm_compute]. Qed.

Lemma ngx_tolower_byte c : is_byte c -> is_byte (ngx_tolower c).
Proof. intros H. by_byte c. Qed.

(** What the bits mean: the codes of the bytes of a string, and less than 30
    ones after them. *)
Definition huff_means (src s : list Z) : Prop :=
  bytes s /\ exists k, (k < 30)%nat /\ bytes_bits src = huff_bits s ++ ones k.

Lemma huff_decode_sound src dst : bytes src ->
  exists rc st s, ngx_http_v2_huff_decode 0 src dst true = (rc, st, dst ++ s) /\ bytes s /\
    Z.of_nat (length s) <= Z.of_nat (length src) * 8 / 5 /\
    (rc = NGX_OK /\ st = 0 /\ huff_means src s \/
     rc = NGX_ERROR /\ exists x, stuck x /\ bytes_bits src = huff_bits s ++ x /\ forall k, (k < 30)%nat -> x <> ones k).
Proof.
  intros Hsrc. pose proof (decode_loop_spec src Hsrc [] [] 0 1 dst read_as_start ltac:(by vm_compute)) as H.
  rewrite app_nil_r in H. unfold ngx_http_v2_huff_decode. destruct (huff_decode_loop 0 1 src dst) as (((rc & st) & en) & dst').
  destruct H as [(-> & s & -> & (Hst & Hs & Hb) & He)|(-> & s & x & -> & Hs & Hb)]; cbn [app] in Hb.
  - change (negb (NGX_OK =? NGX_OK)) with false. cbv iota. destruct (state_good st Hst) as [Hstuck Hl].
    assert (Hlen := huff_bits_bound src s _ Hs Hb). destruct (Z.eqb_spec en 0) as [E|E].
    + exists NGX_ERROR, st, s. split_and!; [done..|]. right. split; [done|]. exists (state_bits st). split_and!; [done..|].
      intros k _ Eo. apply (proj2 He); [|done]. by rewrite Eo, length_replicate.
    + exists NGX_OK, 0, s. apply He in E. split_and!; [done..|]. left. split_and!; [done..|]. split; [done|].
      exists (length (state_bits st)). split; [done|]. by rewrite <- E.
  - change (negb (NGX_ERROR =? NGX_OK)) with true. cbv iota. exists NGX_ERROR, st, s.
    split_and!; [done..|by apply (huff_bits_bound src s (ones 30 ++ x))|]. right. split; [done|].
    exists (ones 30 ++ x). split_and!; [apply eos_stuck|done|]. intros k Hk Eo.
    apply (f_equal length) in Eo. rewrite length_app, !length_replicate in Eo. lia.
Qed.

Lemma huff_decode_complete src s dst : bytes src -> huff_means src s ->
  ngx_http_v2_huff_decode 0 src dst true = (NGX_OK, 0, dst ++ s).
Proof.
  intros Hsrc (Hs & k & Hk & E). destruct (huff_decode_sound src dst Hsrc) as (rc & st & s' & -> & Hs' & _ & [H|H]).
  - destruct H as (-> & -> & _ & k' & _ & E'). rewrite E in E'.
    by apply huff_bits_unique in E' as [-> _]; [|done..|apply ones_stuck|apply ones_stuck].
  - destruct H as (-> & x & Hx & E' & Hne). rewrite E in E'.
    apply huff_bits_unique in E' as [_ Ex]; [|done..|apply ones_stuck|done]. by destruct (Hne k).
Qed.

(** C27: The decoder gives a string exactly when the bits are the codes of the
    bytes of the string and less than 30 ones after them: the string is the
    only one, anything else is an error, and what is written, in an error
    too, are at most 8 bytes for 5, as much as the caller has allocated.  (RFC
    7541 allows 7 ones at the end; more are not refused.) *)
Theorem ngx_http_v2_huff_decode_exact src dst : bytes src ->
  exists rc st s, ngx_http_v2_huff_decode 0 src dst true = (rc, st, dst ++ s) /\
    Z.of_nat (length s) <= Z.of_nat (length src) * 8 / 5 /\
    (rc = NGX_OK /\ st = 0 \/ rc = NGX_ERROR) /\
    forall s', (rc = NGX_OK /\ s' = s) <-> huff_means src s'.
Proof.
  intros Hsrc. destruct (huff_decode_sound src dst Hsrc) as (rc & st & s & E & Hs & Hl & H).
  exists rc, st, s. split_and!; [done..|destruct H as [(-> & -> & _)|(-> & _)]; [by left|by right]|].
  intros s'. split.
  - intros [-> ->]. destruct H as [(_ & _ & H)|(H & _)]; [done|discriminate H].
  - intros Hm. rewrite (huff_decode_complete src s' dst) in E by done. injection E as <- _ E.
    by apply app_inv_head in E.
Qed.

Theorem ngx_http_v2_huff_decode_exact_witness : bytes [0xf1; 0xe3] /\
  exists rc st s, ngx_http_v2_huff_decode 0 [0xf1; 0xe3] [] true = (rc, st, [] ++ s) /\
    Z.of_nat (length s) <= Z.of_nat (length [0xf1; 0xe3]) * 8 / 5 /\
    (rc = NGX_OK /\ st = 0 \/ rc = NGX_ERROR) /\
    forall s', (rc = NGX_OK /\ s' = s) <-> huff_means [0xf1; 0xe3] s'.
Proof.
  assert (H : bytes [0xf1; 0xe3]) by (repeat constructor; done). split; [exact H|].
  exact (ngx_http_v2_huff_decode_exact [0xf1; 0xe3] [] H).
Defined.

(** ** Decoding in pieces *)

Lemma huff_decode_loop_app st en a b dst :
  huff_decode_loop st en (a ++ b) dst =
    match huff_decode_loop st en a dst with
    | (rc, st, en, dst) => if negb (rc =? NGX_OK) then (rc, st, en, dst) else huff_decode_loop st en b dst
    end.
Proof.
  revert st en dst. induction a as [|ch a IH]; intros st en dst; [done|]. cbn [app huff_decode_loop].
  destruct (ngx_http_v2_huff_decode_bits _ _ _ _) as (((rc & st1) & en1) & dst1). destruct (negb (rc =? NGX_OK)); [done|].
  destruct (ngx_http_v2_huff_decode_bits _ _ _ _) as (((rc2 & st2) & en2) & dst2). destruct (negb (rc2 =? NGX_OK)); [done|].
  apply IH.
Qed.

Lemma huff_decode_bits_ending st en en' n dst :
  ngx_http_v2_huff_decode_bits st en n dst =
    match ngx_http_v2_huff_decode_bits st en' n dst with
    | (rc, st, en2, dst) => (rc, st, if rc =? NGX_OK then en2 else en, dst)
    end.
Proof. unfold ngx_http_v2_huff_decode_bits. by destruct (next _ =? st). Qed.

Lemma huff_decode_loop_ending st en en' b dst : b <> [] ->
  huff_decode_loop st en b dst = huff_decode_loop st en' b dst \/
  exists x y y' z, huff_decode_loop st en b dst = (NGX_ERROR, x, y, z) /\ huff_decode_loop st en' b dst = (NGX_ERROR, x, y', z).
Proof.
  intros Hb. destruct b as [|ch b]; [done|]. cbn [huff_decode_loop]. rewrite (huff_decode_bits_ending st en en').
  destruct (ngx_http_v2_huff_decode_bits st en' _ _) as (((rc2 & st2) & en2) & dst2).
  destruct (rc2 =? NGX_OK) eqn:E2; cbn [negb]; [by left|]. right. by exists st2, en, en2, dst2.
Qed.

(** A call goes on where the call before left off: only the last piece must
    not be empty. *)
Lemma ngx_http_v2_huff_decode_app st a b dst last : b <> [] ->
  ngx_http_v2_huff_decode st (a ++ b) dst last =
    match ngx_http_v2_huff_decode st a dst false with
    | (rc, st, dst) => if negb (rc =? NGX_OK) then (rc, st, dst) else ngx_http_v2_huff_decode st b dst last
    end.
Proof.
  intros Hb. unfold ngx_http_v2_huff_decode. rewrite huff_decode_loop_app.
  destruct (huff_decode_loop st 1 a dst) as (((rc & st1) & en1) & dst1). destruct (negb (rc =? NGX_OK)) eqn:E; [by rewrite E|].
  cbn [negb]. change (negb (NGX_OK =? NGX_OK)) with false. cbv iota.
  destruct (huff_decode_loop_ending st1 en1 1 b dst1 Hb) as [->|(x & y & y' & z & -> & ->)]; done.
Qed.

(** ** What the encoder writes *)

Lemma encode_buf_bits buf : bytes_bits (ngx_http_v2_huff_encode_buf buf) = bits 64 buf.
Proof.
  assert (E : forall k, bits 8 (u8 (Z.shiftr buf k)) = bits 8 (Z.shiftr buf k)) by (intros; by apply (bits_mod 8 8)).
  unfold bytes_bits, ngx_http_v2_huff_encode_buf. cbn [map concat]. rewrite !E, app_nil_r.
  unfold u8. rewrite (bits_mod 8 8) by lia.
  rewrite (bits_split 8 56), (bits_split 8 48), (bits_split 8 40), (bits_split 8 32), (bits_split 8 24), (bits_split 8 16), (bits_split 8 8).
  done.
Qed.

(** The word holds the bits [p], at its upper end. *)
Definition holds (buf : Z) (p : list bool) : Prop :=
  0 <= buf < 2 ^ 64 /\ (length p <= 64)%nat /\ bits 64 buf = p ++ replicate (64 - length p) false.

Lemma holds_lor buf z p q : holds buf p -> 0 <= z < 2 ^ 64 -> (length p + length q <= 64)%nat ->
  bits 64 z = replicate (length p) false ++ q ++ replicate (64 - length p - length q) false ->
  holds (Z.lor buf z) (p ++ q).
Proof.
  intros (Hb & _ & E) Hz Hl Ez. unfold holds. split_and!.
  - apply Z.lor_nonneg; lia.
  - apply Z.log2_lt_cancel. destruct (Z.eqb_spec (Z.lor buf z) 0) as [->|H0]; [done|].
    rewrite Z.log2_lor by lia. change (Z.log2 (2 ^ 64)) with 64.
    apply Z.max_lub_lt; [destruct (Z.eqb_spec buf 0) as [->|]|destruct (Z.eqb_spec z 0) as [->|]]; try done; apply Z.log2_lt_pow2; lia.
  - rewrite length_app. lia.
  - rewrite bits_lor, E, Ez, (zip_or_disjoint p _ (length p)), <- (assoc_L app); [f_equal; f_equal; f_equal; rewrite length_app; lia|done|].
    rewrite length_app, length_replicate. lia.
Qed.

Lemma u64_range z : 0 <= u64 z < 2 ^ 64.
Proof. apply Z.mod_pos_bound. lia. Qed.

Lemma bits_code n l c : (l <= n)%nat -> 0 <= c < 2 ^ Z.of_nat l -> bits n c = replicate (n - l) false ++ bits l c.
Proof. intros Hl Hc. replace n with ((n - l) + l)%nat at 1 by lia. by apply bits_high. Qed.

(** [code << (64 - pending)] *)
Lemma shifted_code c l k : (l + k <= 64)%nat -> 0 <= c < 2 ^ Z.of_nat l ->
  bits 64 (u64 (Z.shiftl c (Z.of_nat k))) = replicate (64 - k - l) false ++ bits l c ++ replicate k false.
Proof.
  intros Hk Hc. unfold u64. rewrite (bits_mod 64 64) by lia. replace 64%nat with ((64 - k) + k)%nat at 1 by lia.
  rewrite bits_shiftl, (bits_code _ l), <- (assoc_L app) by (done || lia). done.
Qed.

(** The codes of the table that is used. *)
Definition table_of (lower : bool) : list huff_encode_code :=
  if lower then ngx_http_v2_huff_encode_table_lc else ngx_http_v2_huff_encode_table.
Definition lowered (lower : bool) (s : list Z) : list Z := if lower then map ngx_tolower s else s.

Lemma table_of_code lower c : is_byte c ->
  let e := table_of lower !!! Z.to_nat c in
  0 <= code e < 2 ^ len e /\ 5 <= len e <= 30 /\ bits (Z.to_nat (len e)) (code e) = huff_code (if lower then ngx_tolower c else c).
Proof.
  intros Hc. cbv zeta.
  assert (Ee : table_of lower !!! Z.to_nat c = ngx_http_v2_huff_encode_table !!! Z.to_nat (if lower then ngx_tolower c else c)
    /\ is_byte (if lower then ngx_tolower c else c)).
  { destruct lower; [|done].
    assert (H : let e := ngx_http_v2_huff_encode_table_lc !!! Z.to_nat c in let e' := ngx_http_v2_huff_encode_table !!! Z.to_nat (ngx_tolower c) in
      ((code e =? code e') && (len e =? len e') && (0 <=? ngx_tolower c) && (ngx_tolower c <? 256)) = true) by by_byte c.
    cbv zeta in H. rewrite !andb_true_iff in H. destruct H as (((H1 & H2) & H3) & H4).
    apply Z.eqb_eq in H1, H2. apply Z.leb_le in H3. apply Z.ltb_lt in H4. split; [|done]. unfold table_of.
    destruct (ngx_http_v2_huff_encode_table_lc !!! _), (ngx_http_v2_huff_encode_table !!! _). simpl in *. congruence. }
  destruct Ee as [-> Hb]. pose proof (code_good_all _ Hb) as H. unfold code_good in H.
  rewrite !andb_true_iff in H. destruct H as ((((H1 & H2) & H3) & H4) & _).
  apply Z.leb_le in H1, H2, H3. apply Z.ltb_lt in H4. done.
Qed.

Lemma lowered_bits lower c src : huff_bits (lowered lower (c :: src)) =
  huff_code (if lower then ngx_tolower c else c) ++ huff_bits (lowered lower src).
Proof. by destruct lower. Qed.

(** A code that does not fit: its first bits complete the word, the others
    begin the next. *)
Lemma holds_flush buf p c l : holds buf p -> (length p < 64)%nat -> (l <= 30)%nat -> (64 <= length p + l)%nat -> 0 <= c < 2 ^ Z.of_nat l ->
  let r := (length p + l - 64)%nat in
  let q := drop (l - r) (bits l c) in
  bits 64 (Z.lor buf (Z.shiftr c (Z.of_nat r))) = p ++ take (l - r) (bits l c) /\ length q = r /\
  holds (if negb (Z.of_nat r =? 0) then u64 (Z.shiftl c (64 - Z.of_nat r)) else 0) q.
Proof.
  intros Hb Hp Hl Hr Hc r q. assert (Hq : length q = r) by (unfold q; rewrite length_drop, bits_length; lia).
  replace l with ((l - r) + r)%nat in Hc at 1 by lia. split_and!; [|done|].
  - destruct Hb as (_ & _ & E). rewrite bits_lor, E.
    replace 64%nat with ((64 - (l - r) - r) + (r + (l - r)))%nat at 2 by lia.
    rewrite bits_high.
    2: { split; [apply Z.shiftr_nonneg; lia|]. rewrite Z.shiftr_div_pow2 by lia. apply Z.div_lt_upper_bound; [lia|].
         rewrite !Nat2Z.inj_add, !Z.pow_add_r in * by lia. nia. }
    rewrite (bits_shiftr (l - r) r) by done. replace ((l - r) + r)%nat with l by lia.
    rewrite (assoc_L app), <- replicate_add. apply zip_or_disjoint; [lia|]. rewrite length_take, bits_length. lia.
  - destruct (Z.eqb_spec (Z.of_nat r) 0) as [E|E]; cbn [negb].
    + unfold holds. split_and!; [done|done|lia|]. destruct q; [by vm_compute|simpl in Hq; lia].
    + unfold holds. split_and!; [apply u64_range..|lia|]. replace (64 - Z.of_nat r) with (Z.of_nat (64 - r)) by lia.
      unfold u64. rewrite (bits_mod 64 64) by lia. replace 64%nat with (r + (64 - r))%nat at 1 by lia.
      rewrite bits_shiftl, Hq. f_equal. unfold q. replace l with ((l - r) + r)%nat at 2 by lia. rewrite bits_split.
      by rewrite drop_app_length' by (rewrite bits_length; lia).
Qed.

Lemma encode_buf_bytes buf : bytes (ngx_http_v2_huff_encode_buf buf).
Proof. repeat constructor; apply Z.mod_pos_bound; lia. Qed.

Lemma encode_loop_spec lower n src : bytes src -> forall s dst buf p,
  bytes dst -> (length p < 64)%nat -> holds buf p -> bytes_bits dst ++ p = huff_bits s -> (dst = [] \/ length dst < n)%nat ->
  match huff_encode_loop (table_of lower) n src dst buf (Z.of_nat (length p)) with
  | (Some (buf', pending), dst') => exists p', pending = Z.of_nat (length p') /\ (length p' < 64)%nat /\ holds buf' p' /\ bytes dst' /\
      bytes_bits dst' ++ p' = huff_bits (s ++ lowered lower src) /\ (dst' = [] \/ length dst' < n)%nat
  | (None, dst') => (dst' = [] \/ length dst' < n)%nat /\ (8 * n <= length (huff_bits (s ++ lowered lower src)))%nat
  end.
Proof.
  induction 1 as [|c src Hc Hsrc IH]; intros s dst buf p Hd Hp Hb E Hn.
  { simpl. exists p. replace (lowered lower []) with (@nil Z) by by destruct lower. by rewrite app_nil_r. }
  cbn [huff_encode_loop]. pose proof (table_of_code lower c Hc) as He. cbv zeta in He |- *.
  set (e := table_of lower !!! Z.to_nat c) in *. destruct He as (Hcode & Hlen & Ecode).
  set (c' := if lower then ngx_tolower c else c) in *.
  assert (Es : huff_bits (s ++ lowered lower (c :: src)) = huff_bits ((s ++ [c']) ++ lowered lower src)).
  { rewrite !huff_bits_app, lowered_bits, <- (assoc_L app). unfold huff_bits at 4. cbn [map concat]. by rewrite app_nil_r. }
  assert (Es' : huff_bits (s ++ [c']) = huff_bits s ++ huff_code c').
  { rewrite huff_bits_app. unfold huff_bits at 2. cbn [map concat]. by rewrite app_nil_r. }
  rewrite Es. set (l := Z.to_nat (len e)) in *. replace (len e) with (Z.of_nat l) in * by lia.
  assert (Hcl : length (huff_code c') = l) by by rewrite <- Ecode, bits_length.
  destruct (Z.ltb_spec (Z.of_nat (length p) + Z.of_nat l) 64).
  - replace (Z.of_nat (length p) + Z.of_nat l) with (Z.of_nat (length (p ++ huff_code c'))) by (rewrite length_app; lia).
    apply IH; [done|rewrite length_app; lia| |by rewrite (assoc_L app), E, Es'|done].
    apply holds_lor; [done|apply u64_range|lia|]. rewrite length_app, Hcl.
    replace (64 - Z.of_nat (length p + l)) with (Z.of_nat (64 - length p - l)) by lia.
    rewrite (shifted_code _ l), Ecode by (done || lia). do 2 f_equal. lia.
  - destruct (Nat.leb_spec n (length dst + 8)).
    + split; [done|]. rewrite huff_bits_app, Es', <- E, !length_app, bytes_bits_length. lia.
    + pose proof (holds_flush buf p (code e) l Hb Hp ltac:(lia) ltac:(lia) Hcode) as Hf. cbv zeta in Hf.
      set (r := (length p + l - 64)%nat) in *. replace (Z.of_nat (length p) + Z.of_nat l - 64) with (Z.of_nat r) by lia.
      destruct Hf as (E64 & Hq & Hh). set (q := drop (l - r) (bits l (code e))) in *.
      specialize (IH (s ++ [c']) (dst ++ ngx_http_v2_huff_encode_buf (Z.lor buf (Z.shiftr (code e) (Z.of_nat r))))
        (if negb (Z.of_nat r =? 0) then u64 (Z.shiftl (code e) (64 - Z.of_nat r)) else 0) q).
      rewrite Hq in IH. apply IH; clear IH.
      * apply Forall_app_2; [done|apply encode_buf_bytes].
      * lia.
      * done.
      * rewrite bytes_bits_app, encode_buf_bits, E64, Es', <- E, <- !(assoc_L app). unfold q. by rewrite take_drop, Ecode.
      * rewrite length_app. right. simpl. lia.
Qed.

Lemma encode_rest_spec m buf dst : huff_encode_rest m buf (8 * Z.of_nat m) dst = dst ++ huff_encode_rest m buf (8 * Z.of_nat m) [] /\
  bytes (huff_encode_rest m buf (8 * Z.of_nat m) []) /\
  bytes_bits (huff_encode_rest m buf (8 * Z.of_nat m) []) = bits (8 * m) buf /\ length (huff_encode_rest m buf (8 * Z.of_nat m) []) = m.
Proof.
  revert dst. induction m as [|m IH]; intros dst; [by rewrite app_nil_r|]. cbn [huff_encode_rest].
  replace (8 * Z.of_nat (S m) - 8) with (8 * Z.of_nat m) by lia. cbv zeta.
  destruct (IH (dst ++ [u8 (Z.shiftr buf (8 * Z.of_nat m))])) as (-> & H1 & H2 & H3).
  destruct (IH ([] ++ [u8 (Z.shiftr buf (8 * Z.of_nat m))])) as (-> & _). split_and!.
  - by rewrite <- (assoc_L app).
  - cbn [app]. apply Forall_cons. split; [apply u8_is_byte|done].
  - rewrite !bytes_bits_app, H2. replace (8 * S m)%nat with (8 + 8 * m)%nat by lia. rewrite (bits_split 8 (8 * m)).
    unfold bytes_bits. cbn [app map concat]. rewrite app_nil_r. f_equal. unfold u8. rewrite (bits_mod 8 8) by lia. do 2 f_equal. lia.
  - rewrite !length_app, H3. simpl. lia.
Qed.

(** The end of the encoder: the last bits, with ones up to the end of a
    byte. *)
Lemma encode_last buf p : holds buf p -> (0 < length p < 64)%nat ->
  let m := ((length p + 7) / 8)%nat in
  bits (8 * m) (Z.shiftr (Z.lor buf (Z.shiftr (2 ^ 64 - 1) (Z.of_nat (length p)))) (64 - 8 * Z.of_nat m)) = p ++ ones (8 * m - length p).
Proof.
  intros (_ & _ & E) Hp m. assert (Hm : (length p <= 8 * m <= 64)%nat).
  { unfold m. pose proof (Nat.div_mod_eq (length p + 7) 8). pose proof (Nat.mod_upper_bound (length p + 7) 8). lia. }
  set (w := Z.lor _ _). replace (64 - 8 * Z.of_nat m) with (Z.of_nat (64 - 8 * m)) by lia.
  assert (Ew : bits 64 w = p ++ ones (64 - length p)).
  { unfold w. rewrite bits_lor, E. replace 64%nat with (length p + (64 - length p))%nat at 2 by lia.
    rewrite (bits_shiftr (64 - length p) (length p)).
    2: { replace (64 - length p + length p)%nat with 64%nat by lia. lia. }
    replace (64 - length p + length p)%nat with 64%nat by lia. change (bits 64 (2 ^ 64 - 1)) with (ones 64).
    rewrite take_replicate, Nat.min_l by lia. apply zip_or_disjoint; [done|]. by rewrite length_replicate. }
  replace 64%nat with (8 * m + (64 - 8 * m))%nat in Ew at 1 by lia. rewrite bits_split in Ew.
  apply (f_equal (take (8 * m))) in Ew. rewrite take_app_length' in Ew by by rewrite bits_length.
  rewrite Ew, take_app, take_ge, take_replicate by lia. do 2 f_equal. lia.
Qed.

(** The encoder writes the codes of the bytes, of their lower case when it
    is asked to, and ones up to the end of the last byte; it gives up, with 0,
    exactly when this is not shorter than the text, and never writes past the
    length of the text. *)
Lemma huff_encode_spec src lower : bytes src ->
  let b := huff_bits (lowered lower src) in
  let size := ((length b + 7) / 8)%nat in
  if (size <? length src)%nat
  then exists out k, ngx_http_v2_huff_encode src lower = (Z.of_nat size, out) /\ bytes out /\ length out = size /\
         (k < 8)%nat /\ bytes_bits out = b ++ ones k
  else exists out, ngx_http_v2_huff_encode src lower = (0, out) /\ (length out <= length src)%nat.
Proof.
  intros Hsrc b size. pose proof (encode_loop_spec lower (length src) src Hsrc [] [] 0 [] ltac:(constructor) ltac:(simpl; lia)) as H.
  specialize (H ltac:(unfold holds; split_and!; [done|done|simpl; lia|by vm_compute]) eq_refl (or_introl eq_refl)).
  assert (Hsz : (8 * size <= length b + 7 < 8 * size + 8)%nat).
  { unfold size. pose proof (Nat.div_mod_eq (length b + 7) 8). pose proof (Nat.mod_upper_bound (length b + 7) 8). lia. }
  change (huff_bits ([] ++ lowered lower src)) with b in H. clearbody b size.
  unfold ngx_http_v2_huff_encode. fold (table_of lower). change (Z.of_nat (length [])) with 0 in H.
  destruct (huff_encode_loop (table_of lower) (length src) src [] 0 0) as [[[buf pending]|] dst].
  2: { destruct H as [Hn H]. rewrite (proj2 (Nat.ltb_ge size (length src))) by lia. exists dst. split; [done|].
       destruct Hn as [->|Hn]; simpl; lia. }
  destruct H as (p & -> & Hp & Hh & Hd & E & Hn).
  assert (El : (8 * length dst + length p = length b)%nat) by by rewrite <- E, length_app, bytes_bits_length.
  destruct (Z.eqb_spec (Z.of_nat (length p)) 0) as [E0|E0].
  { assert (size = length dst) by lia. subst size. destruct (Nat.ltb_spec (length dst) (length src)).
    - exists dst, 0%nat. split_and!; [done..|lia|]. destruct p; [|simpl in E0; lia]. by rewrite app_nil_r in E |- *.
    - destruct Hn as [->|Hn]; [|lia]. exists []. split; [done|simpl; lia]. }
  set (m := ((length p + 7) / 8)%nat). assert (Hm : (8 * m <= length p + 7 < 8 * m + 8)%nat).
  { unfold m. pose proof (Nat.div_mod_eq (length p + 7) 8). pose proof (Nat.mod_upper_bound (length p + 7) 8). lia. }
  replace ((Z.of_nat (length p) + 7) / 8) with (Z.of_nat m) by (unfold m; rewrite Nat2Z.inj_div, Nat2Z.inj_add; done).
  rewrite Z.div_mul, Nat2Z.id by lia. assert (size = (length dst + m)%nat) by lia. subst size.
  destruct (Nat.leb_spec (length src) (length dst + m)).
  { rewrite (proj2 (Nat.ltb_ge _ _)) by done. exists dst. split; [done|]. destruct Hn as [->|Hn]; simpl; lia. }
  rewrite (proj2 (Nat.ltb_lt _ _)) by done. replace (Z.of_nat m * 8) with (8 * Z.of_nat m) by lia.
  pose proof (encode_last buf p Hh ltac:(lia)) as Ebits. cbv zeta in Ebits. fold m in Ebits.
  set (w := Z.shiftr _ _) in *. destruct (encode_rest_spec m w dst) as (-> & H1 & H2 & H3).
  eexists _, (8 * m - length p)%nat. split_and!; [by rewrite length_app, H3|by apply Forall_app_2|by rewrite length_app, H3|lia|].
  by rewrite bytes_bits_app, H2, Ebits, (assoc_L app), E.
Qed.

(** C28: The encoder gives up, with 0, exactly when the codes of the bytes, or
    of their lower case when it is asked to, take as many bytes as the text, and
    never writes past the length of the text; otherwise it writes those codes
    in as few bytes as they fit in, and the decoder gives the text back. *)
Theorem ngx_http_v2_huff_roundtrip src lower dst : bytes src ->
  let text := lowered lower src in
  let size := ((length (huff_bits text) + 7) / 8)%nat in
  let (n, out) := ngx_http_v2_huff_encode src lower in
  (length out <= length src)%nat /\
  if (size <? length src)%nat
  then n = Z.of_nat size /\ length out = size /\ (exists k, (k < 8)%nat /\ bytes_bits out = huff_bits text ++ ones k) /\
       ngx_http_v2_huff_decode 0 out dst true = (NGX_OK, 0, dst ++ text)
  else n = 0.
Proof.
  intros Hsrc text size. pose proof (huff_encode_spec src lower Hsrc) as H. cbv zeta in H. fold text size in H.
  destruct (Nat.ltb_spec size (length src)).
  - destruct H as (out & k & -> & Hb & Hl & Hk & E). split_and!; [lia|done|done|by exists k|].
    apply huff_decode_complete; [done|]. split; [|exists k; split; [lia|done]].
    unfold text, lowered. destruct lower; [|done]. apply Forall_map. eapply Forall_impl; [exact Hsrc|].
    intros c Hc. simpl. apply (ngx_tolower_byte c Hc).
  - destruct H as (out & -> & Hl). done.
Qed.

Theorem ngx_http_v2_huff_roundtrip_witness : bytes (bs "Content-Type") /\
  ngx_http_v2_huff_decode 0 (ngx_http_v2_huff_encode (bs "Content-Type") true).2 [] true = (NGX_OK, 0, bs "content-type").
Proof.
  assert (H : bytes (bs "Content-Type")) by (repeat constructor; done). split; [exact H|].
  pose proof (ngx_http_v2_huff_roundtrip (bs "Content-Type") true [] H) as Hr. cbv zeta in Hr.
  destruct (ngx_http_v2_huff_encode (bs "Content-Type") true) as [n out]. destruct Hr as [_ Hr].
  destruct Hr as (_ & _ & _ & Hr). exact Hr.
Defined.
