(* ===== verification/Http2Table.v ===== *)
(** * The table of headers of HTTP/2 (src/http/v2/ngx_http_v2_table.c)

    Headers that a client has sent are kept in a table, from which it can ask
    for them by an index.  The bytes are in a ring of 4096, the entries in
    memory of their own that is used again; the array of pointers to them is a
    ring too, with counters of what was added, deleted and used again, and
    grows when it is full. *)

From S2P Require Import Prelude.

Set Warnings "-register-all".

#[local] Abbreviation length := (@List.length _).

Definition NGX_HTTP_V2_TABLE_SIZE : nat := 4096.

(** [src/http/v2/ngx_http_v2.h:59-62] ngx_http_v2_header_t: a header whose
    strings are in memory of their own. *)
Record v2_header := Header { h_name : list Z; h_value : list Z }.
#[export] Instance v2_header_inhabited : Inhabited v2_header := populate (Header [] []).

(** [src/http/v2/ngx_http_v2_table.c:20-82] ngx_http_v2_static_table *)
Definition ngx_http_v2_static_table : list v2_header :=
  [Header (bs ":authority") (bs "");
   Header (bs ":method") (bs "GET");
   Header (bs ":method") (bs "POST");
   Header (bs ":path") (bs "/");
   Header (bs ":path") (bs "/index.html");
   Header (bs ":scheme") (bs "http");
   Header (bs ":scheme") (bs "https");
   Header (bs ":status") (bs "200");
   Header (bs ":status") (bs "204");
   Header (bs ":status") (bs "206");
   Header (bs ":status") (bs "304");
   Header (bs ":status") (bs "400");
   Header (bs ":status") (bs "404");
   Header (bs ":status") (bs "500");
   Header (bs "accept-charset") (bs "");
   Header (bs "accept-encoding") (bs "gzip, deflate");
   Header (bs "accept-language") (bs "");
   Header (bs "accept-ranges") (bs "");
   Header (bs "accept") (bs "");
   Header (bs "access-control-allow-origin") (bs "");
   Header (bs "age") (bs "");
   Header (bs "allow") (bs "");
   Header (bs "authorization") (bs "");
   Header (bs "cache-control") (bs "");
   Header (bs "content-disposition") (bs "");
   Header (bs "content-encoding") (bs "");
   Header (bs "content-language") (bs "");
   Header (bs "content-length") (bs "");
   Header (bs "content-location") (bs "");
   Header (bs "content-range") (bs "");
   Header (bs "content-type") (bs "");
   Header (bs "cookie") (bs "");
   Header (bs "date") (bs "");
   Header (bs "etag") (bs "");
   Header (bs "expect") (bs "");
   Header (bs "expires") (bs "");
   Header (bs "from") (bs "");
   Header (bs "host") (bs "");
   Header (bs "if-match") (bs "");
   Header (bs "if-modified-since") (bs "");
   Header (bs "if-none-match") (bs "");
   Header (bs "if-range") (bs "");
   Header (bs "if-unmodified-since") (bs "");
   Header (bs "last-modified") (bs "");
   Header (bs "link") (bs "");
   Header (bs "location") (bs "");
   Header (bs "max-forwards") (bs "");
   Header (bs "proxy-authenticate") (bs "");
   Header (bs "proxy-authorization") (bs "");
   Header (bs "range") (bs "");
   Header (bs "referer") (bs "");
   Header (bs "refresh") (bs "");
   Header (bs "retry-after") (bs "");
   Header (bs "server") (bs "");
   Header (bs "set-cookie") (bs "");
   Header (bs "strict-transport-security") (bs "");
   Header (bs "transfer-encoding") (bs "");
   Header (bs "user-agent") (bs "");
   Header (bs "vary") (bs "");
   Header (bs "via") (bs "");
   Header (bs "www-authenticate") (bs "")].

(** [src/http/v2/ngx_http_v2.h:59-62] ngx_http_v2_header_t: an entry, whose
    strings are in the ring. *)
Record v2_entry := Entry { e_name_len : nat; e_name : nat; e_value_len : nat; e_value : nat }.

(** [src/http/v2/ngx_http_v2.h:95-107] ngx_http_v2_hpack_t: with the entries
    that were allocated.  A slot of the array is [None] until it is
    assigned. *)
Record hpack := Hpack {
  entries : option (list (option nat));
  added : Z; deleted : Z; reused : Z; allocated : Z;
  hsize : Z; hfree : Z;
  storage : list Z; hpos : nat;
  pool : list v2_entry
}.
#[export] Instance eta_hpack : Settable hpack := fun h =>
  Hpack (entries h) (added h) (deleted h) (reused h) (allocated h) (hsize h) (hfree h) (storage h) (hpos h) (pool h).

(** The connection is allocated with zeros; [ring] is what is in the memory of
    the ring before it is written. *)
Definition hpack_init (ring : list Z) : hpack := Hpack None 0 0 0 0 0 0 ring 0 [].

(** [ngx_memcpy(storage + p, s)]: [None] past the end of the ring. *)
Definition ring_write (p : nat) (s : list Z) (m : list Z) : option (list Z) :=
  if (p + length s <=? length m)%nat then Some (take p m ++ s ++ drop (p + length s) m) else None.
(** [ngx_memcpy(dst, storage + p, n)] *)
Definition ring_read (p n : nat) (m : list Z) : option (list Z) :=
  if (p + n <=? length m)%nat then Some (take n (drop p m)) else None.

(** [hpack.entries[i % hpack.allocated]] *)
Definition slot (h : hpack) (i : Z) : option nat :=
  if allocated h =? 0 then None else
  es ← entries h; p ← es !! Z.to_nat (i mod allocated h); p.

(** ** Lookups *)

(** [src/http/v2/ngx_http_v2_table.c:126-133] ngx_http_v2_get_indexed_header: a
    string of the ring is copied; lines 150 to 157 are the same. *)
Definition copy_ring (m : list Z) (p n : nat) : option (list Z) :=
  let rest := (NGX_HTTP_V2_TABLE_SIZE - p)%nat in
  if (rest <? n)%nat then a ← ring_read p rest m; b ← ring_read 0 (n - rest) m; Some (a ++ b)
  else ring_read p n m.

(** [src/http/v2/ngx_http_v2_table.c:89-171] ngx_http_v2_get_indexed_header:
    the result and [state.header]. *)
Definition ngx_http_v2_get_indexed_header (h : hpack) (header : v2_header) (index : Z) (name_only : bool) : option (Z * v2_header) :=
  if index =? 0 then Some (NGX_ERROR, header)
  else
    let index := index - 1 in
    match ngx_http_v2_static_table !! Z.to_nat index with
    | Some e => Some (NGX_OK, e)
    | None =>
        let index := index - Z.of_nat (length ngx_http_v2_static_table) in
        if index <? u64 (added h - deleted h) then
          p ← slot h (u64 (added h - index - 1));
          e ← pool h !! p;
          name ← copy_ring (storage h) (e_name e) (e_name_len e);
          if name_only then Some (NGX_OK, Header name (h_value header))
          else
            value ← copy_ring (storage h) (e_value e) (e_value_len e);
            Some (NGX_OK, Header name value)
        else Some (NGX_ERROR, header)
    end.

(** ** Changes *)

(** [src/http/v2/ngx_http_v2_table.c:309-312] ngx_http_v2_table_account: the
    oldest entry is deleted; ngx_http_v2_table_size has the same in lines 341
    and 342. *)
Definition evict_entry (h : hpack) : option hpack :=
  p ← slot h (deleted h);
  e ← pool h !! p;
  Some (h <| deleted := u64 (deleted h + 1) |>
          <| hfree := u64 (hfree h + (32 + Z.of_nat (e_name_len e) + Z.of_nat (e_value_len e))) |>).

(** [src/http/v2/ngx_http_v2_table.c:309-313] ngx_http_v2_table_account: the
    loop; a round is for an entry. *)
Fixpoint account_loop (rounds : nat) (h : hpack) (size : Z) : option hpack :=
  match rounds with
  | O => None
  | S rounds =>
      h ← evict_entry h;
      if hfree h <? size then account_loop rounds h size else Some h
  end.

(** [src/http/v2/ngx_http_v2_table.c:287-318] ngx_http_v2_table_account *)
Definition ngx_http_v2_table_account (h : hpack) (size : Z) : option (Z * hpack) :=
  let size := size + 32 in
  if size <=? hfree h then Some (NGX_OK, h <| hfree := hfree h - size |>)
  else if hsize h <? size then Some (NGX_DECLINED, h <| deleted := added h |> <| hfree := hsize h |>)
  else
    h ← account_loop (Z.to_nat (u64 (added h - deleted h))) h size;
    Some (NGX_OK, h <| hfree := hfree h - size |>).

(** [src/http/v2/ngx_http_v2_table.c:187-207] ngx_http_v2_add_header: the
    memory of the table. *)
Definition hpack_start (h : hpack) : hpack :=
  match entries h with
  | Some _ => h
  | None =>
      h <| allocated := 64 |> <| hsize := Z.of_nat NGX_HTTP_V2_TABLE_SIZE |> <| hfree := Z.of_nat NGX_HTTP_V2_TABLE_SIZE |>
        <| entries := Some (replicate 64 None) |> <| hpos := 0%nat |>
  end.

(** [src/http/v2/ngx_http_v2_table.c:215-223] ngx_http_v2_add_header: memory for
    the entry. *)
Definition take_entry (h : hpack) : option (nat * hpack) :=
  if reused h =? deleted h then Some (length (pool h), h <| pool := pool h ++ [Entry 0 0 0 0] |>)
  else p ← slot h (reused h); Some (p, h <| reused := u64 (reused h + 1) |>).

(** [src/http/v2/ngx_http_v2_table.c:230-239] ngx_http_v2_add_header: a string
    is copied at [hpack.pos], with [avail] bytes before the end of the ring;
    lines 246 to 254 are the same.  Also the bytes that are left, which the
    code takes to be [TABLE_SIZE - len] when the copy went round. *)
Definition put_ring (h : hpack) (avail : nat) (s : list Z) : option (nat * hpack) :=
  if (length s <=? avail)%nat then
    m ← ring_write (hpos h) s (storage h);
    Some ((avail - length s)%nat, h <| storage := m |> <| hpos := (hpos h + length s)%nat |>)
  else
    m ← ring_write (hpos h) (take avail s) (storage h);
    m ← ring_write 0 (drop avail s) m;
    Some ((NGX_HTTP_V2_TABLE_SIZE - length s)%nat, h <| storage := m |> <| hpos := (length s - avail)%nat |>).

(** [src/http/v2/ngx_http_v2_table.c:225-254] ngx_http_v2_add_header: the
    strings of the entry. *)
Definition put_header (h : hpack) (header : v2_header) : option (v2_entry * hpack) :=
  let avail := (NGX_HTTP_V2_TABLE_SIZE - hpos h)%nat in
  let name := hpos h in
  '(avail, h) ← put_ring h avail (h_name header);
  let value := hpos h in
  '(_, h) ← put_ring h avail (h_value header);
  Some (Entry (length (h_name header)) name (length (h_value header)) value, h).

(** [src/http/v2/ngx_http_v2_table.c:256-280] ngx_http_v2_add_header: an array
    that is full is copied into a longer one, the oldest entry first. *)
Definition grow (h : hpack) : option hpack :=
  es ← entries h;
  if allocated h =? u64 (added h - deleted h) then
    let index := Z.to_nat (deleted h mod allocated h) in
    Some (h <| entries := Some (drop index es ++ take index es ++ replicate 64 None) |>
            <| added := allocated h |> <| deleted := 0 |> <| reused := 0 |> <| allocated := allocated h + 64 |>)
  else Some h.

(** [src/http/v2/ngx_http_v2_table.c:282] ngx_http_v2_add_header: the entry is
    added. *)
Definition append_entry (h : hpack) (p : nat) : option hpack :=
  es ← entries h;
  Some (h <| entries := Some (<[Z.to_nat (added h mod allocated h) := Some p]> es) |> <| added := u64 (added h + 1) |>).

(** [src/http/v2/ngx_http_v2_table.c:174-285] ngx_http_v2_add_header *)
Definition ngx_http_v2_add_header (h : hpack) (header : v2_header) : option (Z * hpack) :=
  let h := hpack_start h in
  '(rc, h) ← ngx_http_v2_table_account h (Z.of_nat (length (h_name header) + length (h_value header)));
  if negb (rc =? NGX_OK) then Some (NGX_OK, h)
  else
    '(p, h) ← take_entry h;
    '(e, h) ← put_header h header;
    let h := h <| pool := <[p := e]> (pool h) |> in
    h ← grow h;
    h ← append_entry h p;
    Some (NGX_OK, h).

(** [src/http/v2/ngx_http_v2_table.c:340-343] ngx_http_v2_table_size: the loop;
    a round is for an entry. *)
Fixpoint size_loop (rounds : nat) (h : hpack) (needed : Z) : option hpack :=
  if hfree h <? needed then
    match rounds with
    | O => None
    | S rounds => h ← evict_entry h; size_loop rounds h needed
    end
  else Some h.

(** [src/http/v2/ngx_http_v2_table.c:321-349] ngx_http_v2_table_size *)
Definition ngx_http_v2_table_size (h : hpack) (size : Z) : option (Z * hpack) :=
  if Z.of_nat NGX_HTTP_V2_TABLE_SIZE <? size then Some (NGX_ERROR, h)
  else
    let needed := s64 (hsize h - size) in
    h ← size_loop (Z.to_nat (u64 (added h - deleted h))) h needed;
    Some (NGX_OK, h <| hsize := size |> <| hfree := u64 (hfree h - needed) |>).

Example table_1 :
  let hdr := Header (bs "custom-key") (bs "custom-header") in
  ('(_, h) ← ngx_http_v2_add_header (hpack_init (replicate 4096 0)) hdr;
   '(_, h) ← ngx_http_v2_add_header h (Header (bs "cache-control") (bs "no-cache"));
   ngx_http_v2_get_indexed_header h (Header [] []) 63 false) = Some (NGX_OK, hdr).
Proof. by vm_compute. Qed.
