(* ===== verification/Http2TableSpec.v ===== *)
(** * The table of headers of HTTP/2: its contract

    The table of RFC 7541, a list of headers with a limit to its size, and the
    proof that the ring of bytes, the ring of pointers and the memory of
    entries of Http2Table.v are one. *)

From S2P Require Import Prelude Http2Table.

#[local] Abbreviation length := (@List.length _).
#[local] Opaque NGX_HTTP_V2_TABLE_SIZE.

(** ** The table of RFC 7541 (sections 2.3.2, 4.1 to 4.4)

    The oldest header is first. *)
Record rfc_table := RfcTable { t_headers : list v2_header; t_max : Z }.

Definition header_size (h : v2_header) : Z := 32 + Z.of_nat (length (h_name h)) + Z.of_nat (length (h_value h)).
Fixpoint table_total (l : list v2_header) : Z := match l with [] => 0 | h :: l => header_size h + table_total l end.

(** Entries are evicted from the end until the size is at most [m]. *)
Fixpoint evict (m : Z) (l : list v2_header) : list v2_header :=
  match l with
  | [] => []
  | h :: l' => if table_total l <=? m then l else evict m l'
  end.

Definition rfc_add (t : rfc_table) (h : v2_header) : rfc_table :=
  if header_size h <=? t_max t then RfcTable (evict (t_max t - header_size h) (t_headers t) ++ [h]) (t_max t)
  else RfcTable [] (t_max t).
Definition rfc_resize (t : rfc_table) (n : Z) : rfc_table := RfcTable (evict n (t_headers t)) n.

(** The static table, and the dynamic one from its newest header on. *)
Definition rfc_lookup (t : rfc_table) (i : Z) : option v2_header :=
  if i <=? 0 then None else (ngx_http_v2_static_table ++ reverse (t_headers t)) !! Z.to_nat (i - 1).

(** ** Bytes in the ring *)

#[local] Abbreviation SZ := NGX_HTTP_V2_TABLE_SIZE.
#[local] Abbreviation ZS := (Z.of_nat NGX_HTTP_V2_TABLE_SIZE).
Lemma size_pos : (0 < SZ)%nat.
Proof. change (0 < 4096)%nat. lia. Qed.

Definition ring_at (st : list Z) (a : Z) (s : list Z) : Prop :=
  forall k c, s !! k = Some c -> st !! Z.to_nat ((a + Z.of_nat k) mod ZS) = Some c.

(** The offset [p] stands for the position [a]; the end of the ring is its
    start too. *)
Definition offset (a : Z) (p : nat) : Prop := (p <= SZ)%nat /\ Z.of_nat p mod ZS = a mod ZS.

Lemma ring_write_lookup p s m m' i : ring_write p s m = Some m' ->
  length m' = length m /\ m' !! i = if (p <=? i)%nat && (i <? p + length s)%nat then s !! (i - p)%nat else m !! i.
Proof.
  unfold ring_write. destruct (Nat.leb_spec (p + length s) (length m)) as [Hl|]; [|done]. intros [= <-].
  split; [rewrite !length_app, length_take, length_drop; lia|].
  destruct (Nat.leb_spec p i); cbn [andb]; [|by rewrite lookup_app_l, lookup_take_lt by (rewrite ?length_take; lia)].
  rewrite lookup_app_r by (rewrite length_take; lia). rewrite length_take, Nat.min_l by lia.
  destruct (Nat.ltb_spec i (p + length s)); [by rewrite lookup_app_l by lia|].
  rewrite lookup_app_r, lookup_drop by lia. f_equal. lia.
Qed.

(** What [put_ring] does to the bytes of the ring. *)
Definition written (st st' : list Z) (a : Z) (s : list Z) : Prop :=
  forall i, (i < SZ)%nat ->
    st' !! i = let k := Z.to_nat ((Z.of_nat i - a) mod ZS) in if (k <? length s)%nat then s !! k else st !! i.

Lemma written_at st st' a s : (length s <= SZ)%nat -> written st st' a s -> ring_at st' a s.
Proof.
  pose proof size_pos as Hsz. intros Hs H k c Hk. pose proof (lookup_lt_Some _ _ _ Hk). rewrite H.
  2: { pose proof (Z.mod_pos_bound (a + Z.of_nat k) ZS). lia. }
  cbv zeta. rewrite Z2Nat.id by (apply Z.mod_pos_bound; lia). rewrite Zminus_mod_idemp_l.
  replace (a + Z.of_nat k - a) with (Z.of_nat k) by lia. rewrite Z.mod_small, Nat2Z.id by lia.
  by rewrite (proj2 (Nat.ltb_lt _ _)).
Qed.

Lemma written_other st st' a s b s' : written st st' a s -> ring_at st b s' ->
  b + Z.of_nat (length s') <= a -> a + Z.of_nat (length s) <= b + ZS -> ring_at st' b s'.
Proof.
  pose proof size_pos as Hsz. intros H Hat H1 H2 k c Hk. pose proof (lookup_lt_Some _ _ _ Hk). rewrite H.
  2: { pose proof (Z.mod_pos_bound (b + Z.of_nat k) ZS). lia. }
  cbv zeta. rewrite Z2Nat.id by (apply Z.mod_pos_bound; lia). rewrite Zminus_mod_idemp_l.
  replace (b + Z.of_nat k - a) with (b + Z.of_nat k - a + ZS + (-1) * ZS) by lia. rewrite Z.mod_add, Z.mod_small by lia.
  rewrite (proj2 (Nat.ltb_ge _ _)) by lia. by apply Hat.
Qed.

Lemma put_ring_spec h a avail s :
  length (storage h) = SZ -> offset a (hpos h) -> (length s <= SZ)%nat ->
  avail = (SZ - hpos h)%nat \/ (length s <= avail <= SZ - hpos h)%nat ->
  exists avail' h', put_ring h avail s = Some (avail', h') /\ h' = h <| storage := storage h' |> <| hpos := hpos h' |> /\
    length (storage h') = SZ /\ offset (a + Z.of_nat (length s)) (hpos h') /\ written (storage h) (storage h') a s /\
    (avail' <= SZ - hpos h')%nat /\
    (avail = (SZ - hpos h)%nat -> avail' = (SZ - hpos h')%nat \/ (SZ - length s <= avail')%nat).
Proof.
  unfold put_ring, written, offset. generalize size_pos. generalize SZ. intros N Hsz Hst [Hp Ha] Hs Hav.
  assert (Hw : forall i, (i < N)%nat -> (Z.of_nat i - a) mod Z.of_nat N = (Z.of_nat i - Z.of_nat (hpos h)) mod Z.of_nat N).
  { intros i Hi. rewrite <- Zminus_mod_idemp_r, <- Ha, Zminus_mod_idemp_r. done. }
  destruct (Nat.leb_spec (length s) avail).
  - destruct (ring_write (hpos h) s (storage h)) as [m|] eqn:E.
    2: { unfold ring_write in E. rewrite (proj2 (Nat.leb_le _ _)) in E by lia. done. }
    cbn [mbind option_bind]. eexists _, _. split; [done|]. destruct h; simpl in *. split_and!.
    + done.
    + rewrite <- Hst. apply (ring_write_lookup _ _ _ _ 0%nat E).
    + lia.
    + rewrite Nat2Z.inj_add, <- Zplus_mod_idemp_l, Ha, Zplus_mod_idemp_l. done.
    + intros i Hi. cbv zeta. rewrite (Hw i Hi). destruct (ring_write_lookup _ _ _ _ i E) as [_ ->].
      destruct (Nat.leb_spec hpos i); cbn [andb].
      * rewrite Z.mod_small by lia. replace (Z.to_nat _) with (i - hpos)%nat by lia.
        destruct (Nat.ltb_spec i (hpos + length s)); destruct (Nat.ltb_spec (i - hpos) (length s)); done || lia.
      * replace (Z.of_nat i - Z.of_nat hpos) with (Z.of_nat i - Z.of_nat hpos + Z.of_nat N + (-1) * Z.of_nat N) by lia.
        rewrite Z.mod_add, Z.mod_small by lia. by rewrite (proj2 (Nat.ltb_ge _ _)) by lia.
    + lia.
    + lia.
  - assert (avail = (N - hpos h)%nat) as -> by lia.
    destruct (ring_write (hpos h) (take _ s) (storage h)) as [m|] eqn:E.
    2: { unfold ring_write in E. rewrite (proj2 (Nat.leb_le _ _)) in E by (rewrite length_take; lia). done. }
    cbn [mbind option_bind]. pose proof (proj1 (ring_write_lookup _ _ _ _ 0%nat E)) as Hm.
    destruct (ring_write 0 (drop _ s) m) as [m'|] eqn:E'.
    2: { unfold ring_write in E'. rewrite (proj2 (Nat.leb_le _ _)) in E' by (rewrite length_drop; lia). done. }
    cbn [mbind option_bind]. eexists _, _. split; [done|]. destruct h; simpl in *. split_and!.
    + done.
    + rewrite (proj1 (ring_write_lookup _ _ _ _ 0%nat E')). lia.
    + lia.
    + rewrite <- Zplus_mod_idemp_l, <- Ha, Zplus_mod_idemp_l.
      replace (Z.of_nat hpos + Z.of_nat (length s)) with (Z.of_nat (length s - (N - hpos)) + 1 * Z.of_nat N) by lia. by rewrite Z.mod_add by lia.
    + intros i Hi. cbv zeta. rewrite (Hw i Hi). destruct (ring_write_lookup _ _ _ _ i E') as [_ ->].
      destruct (ring_write_lookup _ _ _ _ i E) as [_ ->]. rewrite length_take, length_drop. cbn [Nat.leb andb].
      destruct (Nat.leb_spec hpos i); cbn [andb].
      * rewrite Z.mod_small by lia. replace (Z.to_nat _) with (i - hpos)%nat by lia.
        rewrite (proj2 (Nat.ltb_ge i _)) by lia. rewrite (proj2 (Nat.ltb_lt i _)), (proj2 (Nat.ltb_lt (i - hpos) _)) by lia.
        by rewrite lookup_take_lt by lia.
      * replace (Z.of_nat i - Z.of_nat hpos) with (Z.of_nat i - Z.of_nat hpos + Z.of_nat N + (-1) * Z.of_nat N) by lia.
        rewrite Z.mod_add, Z.mod_small by lia. replace (Z.to_nat _) with (N - hpos + i)%nat by lia.
        rewrite Nat.sub_0_r. destruct (Nat.ltb_spec i (0 + (length s - (N - hpos)))).
        -- rewrite (proj2 (Nat.ltb_lt (N - hpos + i) _)) by lia. by rewrite lookup_drop.
        -- by rewrite (proj2 (Nat.ltb_ge (N - hpos + i) _)) by lia.
    + lia.
    + lia.
Qed.

(** [copy_ring] reads what is there. *)
Lemma copy_ring_spec st a p s : length st = SZ -> offset a p -> (length s <= SZ)%nat -> ring_at st a s ->
  copy_ring st p (length s) = Some s.
Proof.
  pose proof size_pos as Hsz. intros Hst [Hp Ha] Hs Hat. unfold copy_ring, ring_read. 
  assert (Hk : forall k c, s !! k = Some c -> st !! (if p + k <? SZ then p + k else p + k - SZ)%nat = Some c).
  { intros k c Hk. rewrite <- (Hat k c Hk). pose proof (lookup_lt_Some _ _ _ Hk). f_equal.
    rewrite <- Zplus_mod_idemp_l, <- Ha, Zplus_mod_idemp_l. destruct (Nat.ltb_spec (p + k) SZ).
    - rewrite Z.mod_small by lia. lia.
    - replace (Z.of_nat p + Z.of_nat k) with (Z.of_nat p + Z.of_nat k - ZS + 1 * ZS) by lia. rewrite Z.mod_add by lia.
      rewrite Z.mod_small by lia. lia. }
  assert (Heq : forall l, length l = length s -> (forall k c, s !! k = Some c -> l !! k = Some c) -> l = s).
  { intros l Hl H. apply list_eq_same_length with (n := length s); [done|done|]. intros i x y Hi Hx Hy. apply H in Hy. congruence. }
  destruct (Nat.ltb_spec (SZ - p) (length s)).
  - rewrite !(proj2 (Nat.leb_le _ _)) by lia. cbn [mbind option_bind]. f_equal.
    apply Heq; [rewrite length_app, !length_take, length_drop, drop_0; lia|]. intros k c E.
    specialize (Hk k c E). pose proof (lookup_lt_Some _ _ _ E). destruct (Nat.ltb_spec (p + k) SZ).
    + rewrite lookup_app_l, lookup_take_lt, lookup_drop by (rewrite ?length_take, ?length_drop; lia). done.
    + rewrite lookup_app_r by (rewrite length_take, length_drop; lia). rewrite length_take, length_drop, drop_0, lookup_take_lt by lia.
      rewrite <- Hk. f_equal. lia.
  - rewrite (proj2 (Nat.leb_le _ _)) by lia. f_equal. apply Heq; [rewrite length_take, length_drop; lia|]. intros k c E.
    specialize (Hk k c E). pose proof (lookup_lt_Some _ _ _ E). rewrite lookup_take_lt, lookup_drop by lia.
    rewrite (proj2 (Nat.ltb_lt _ _)) in Hk by lia. done.
Qed.

(** ** The representation *)

Definition data_len (x : v2_header) : Z := Z.of_nat (length (h_name x)) + Z.of_nat (length (h_value x)).
Fixpoint data_total (l : list v2_header) : Z := match l with [] => 0 | x :: l => data_len x + data_total l end.

Definition entry_of (st : list Z) (a : Z) (e : v2_entry) (x : v2_header) : Prop :=
  e_name_len e = length (h_name x) /\ offset a (e_name e) /\ ring_at st a (h_name x) /\
  e_value_len e = length (h_value x) /\
  offset (a + Z.of_nat (length (h_name x))) (e_value e) /\ ring_at st (a + Z.of_nat (length (h_name x))) (h_value x).

(** The headers of the entries that the pointers [live] point to are one after
    the other in the ring, from the position [a] on. *)
Fixpoint laid (pool : list v2_entry) (st : list Z) (a : Z) (live : list nat) (hs : list v2_header) : Prop :=
  match live, hs with
  | [], [] => True
  | p :: live, x :: hs => (exists e, pool !! p = Some e /\ entry_of st a e x) /\ laid pool st (a + data_len x) live hs
  | _, _ => False
  end.

(** [dead] are the entries between [reused] and [deleted], [live] those between
    [deleted] and [added]; for the header that is being added [taken] bytes have
    been accounted for, and [put] bytes written. *)
Record rep (h : hpack) (t : rfc_table) (dead live : list nat) (a taken put : Z) : Prop := {
  rep_max : 0 <= t_max t <= ZS;
  rep_size : hsize h = t_max t;
  rep_free : hfree h = t_max t - table_total (t_headers t) - taken;
  rep_room : 0 <= taken /\ table_total (t_headers t) + taken <= t_max t;
  rep_storage : length (storage h) = SZ;
  rep_pos : offset (a + data_total (t_headers t) + put) (hpos h);
  rep_slots : exists es, entries h = Some es /\ Z.of_nat (length es) = allocated h /\
    forall k p, (dead ++ live) !! k = Some p -> es !! Z.to_nat ((reused h + Z.of_nat k) mod allocated h) = Some (Some p);
  rep_reused : 0 <= reused h;
  rep_deleted : deleted h = reused h + Z.of_nat (length dead);
  rep_added : added h = deleted h + Z.of_nat (length live);
  rep_allocated : 0 < allocated h /\ Z.of_nat (length dead) + Z.of_nat (length live) <= allocated h;
  rep_nodup : NoDup (dead ++ live);
  rep_pool : Forall (fun p => (p < length (pool h))%nat) (dead ++ live);
  rep_laid : laid (pool h) (storage h) a live (t_headers t)
}.

Lemma data_total_app a b : data_total (a ++ b) = data_total a + data_total b.
Proof. induction a as [|x a IH]; simpl; [done|]. rewrite IH. lia. Qed.
Lemma table_total_app a b : table_total (a ++ b) = table_total a + table_total b.
Proof. induction a as [|x a IH]; simpl; [done|]. rewrite IH. lia. Qed.
Lemma table_total_data l : table_total l = data_total l + 32 * Z.of_nat (length l) /\ 0 <= data_total l.
Proof. induction l as [|x l IH]; simpl; [done|]. unfold header_size, data_len. lia. Qed.
Lemma header_size_data x : header_size x = 32 + data_len x /\ 0 <= data_len x.
Proof. unfold header_size, data_len. lia. Qed.

Lemma laid_length pool st a live hs : laid pool st a live hs -> length live = length hs.
Proof. revert a hs. induction live as [|p live IH]; intros a hs; destruct hs as [|x hs]; simpl; try done. intros [_ H]. by rewrite (IH _ _ H). Qed.

Lemma rep_slot h t dead live a taken put k p : rep h t dead live a taken put -> (dead ++ live) !! k = Some p ->
  slot h (reused h + Z.of_nat k) = Some p.
Proof.
  intros H Hk. destruct (rep_slots _ _ _ _ _ _ _ H) as (es & He & _ & Hes). unfold slot.
  destruct (rep_allocated _ _ _ _ _ _ _ H). rewrite (proj2 (Z.eqb_neq _ 0)) by lia. rewrite He. cbn [mbind option_bind].
  by rewrite (Hes k p Hk).
Qed.

Lemma evict_total m l : table_total (evict m l) <= table_total l /\ (0 <= m -> table_total (evict m l) <= m).
Proof.
  induction l as [|x l IH]; simpl; [lia|]. pose proof (header_size_data x). destruct (Z.leb_spec (header_size x + table_total l) m); simpl; lia.
Qed.

Lemma evict_none m l : table_total l <= m -> evict m l = l.
Proof. intros H. destruct l as [|x l]; [done|]. simpl in *. by rewrite (proj2 (Z.leb_le _ _)). Qed.
Lemma evict_one m x l : m < table_total (x :: l) -> evict m (x :: l) = evict m l.
Proof. intros H. simpl in *. by rewrite (proj2 (Z.leb_gt _ _)). Qed.

(** ** Eviction *)

Lemma evict_entry_rep h x hs m dead live a : rep h (RfcTable (x :: hs) m) dead live a 0 0 -> added h < 2 ^ 64 ->
  exists h' p live', live = p :: live' /\ evict_entry h = Some h' /\ rep h' (RfcTable hs m) (dead ++ [p]) live' (a + data_len x) 0 0 /\
    added h' = added h.
Proof.
  intros H Hadd. pose proof (rep_laid _ _ _ _ _ _ _ H) as Hl. destruct live as [|p live]; [done|].
  destruct Hl as [(e & He & Hx) Hl]. pose proof Hx as (En & _ & _ & Ev & _).
  assert (Hs : slot h (deleted h) = Some p).
  { rewrite (rep_deleted _ _ _ _ _ _ _ H). apply (rep_slot _ _ _ _ _ _ _ _ _ H). by rewrite lookup_app_r, Nat.sub_diag by lia. }
  unfold evict_entry. rewrite Hs. cbn [mbind option_bind]. rewrite He. cbn [mbind option_bind].
  pose proof (header_size_data x). pose proof (table_total_data hs).
  destruct H as [Hmax Hsize Hfree Hroom Hst Hpos Hslots Hre Hdel Hadded Halloc Hnd Hpool _]. simpl in *.
  eexists _, p, live. split; [done|]. split; [done|]. assert (ZS = 4096) by done. split; [|done].
  constructor; simpl; try done.
  - rewrite u64_small; unfold data_len in *; lia.
  - lia.
  - by replace (a + data_len x + data_total hs) with (a + (data_len x + data_total hs)) by lia.
  - by rewrite <- (assoc_L app).
  - rewrite u64_small, length_app by lia. simpl. lia.
  - rewrite u64_small by lia. simpl in *. lia.
  - rewrite length_app. simpl in *. lia.
  - by rewrite <- (assoc_L app).
  - by rewrite <- (assoc_L app).
Qed.

Lemma account_loop_rep size m hs : forall rounds h dead live a, rep h (RfcTable hs m) dead live a 0 0 -> added h < 2 ^ 64 ->
  (length hs <= rounds)%nat -> hfree h < size -> size <= m ->
  exists h' dead' live' a', account_loop rounds h size = Some h' /\ rep h' (RfcTable (evict (m - size) hs) m) dead' live' a' 0 0 /\
    added h' = added h /\ size <= hfree h'.
Proof.
  induction hs as [|x hs IH]; intros rounds h dead live a H Hadd Hr Hf Hs.
  { pose proof (rep_free _ _ _ _ _ _ _ H). simpl in *. lia. }
  destruct rounds as [|rounds]; [simpl in Hr; lia|]. cbn [account_loop].
  pose proof (rep_free _ _ _ _ _ _ _ H) as E. cbn [t_max t_headers] in E. rewrite evict_one by lia.
  destruct (evict_entry_rep _ _ _ _ _ _ _ H Hadd) as (h1 & p & live' & -> & -> & H1 & Ha1). cbn [mbind option_bind].
  destruct (Z.ltb_spec (hfree h1) size).
  - destruct (IH rounds h1 _ _ _ H1) as (h' & dead' & live2 & a' & E' & H' & Ha' & Hf'); [lia|simpl in Hr; lia|done|done|].
    exists h', dead', live2, a'. split_and!; [done|done|lia|done].
  - exists h1, (dead ++ [p]), live', (a + data_len x). pose proof (rep_free _ _ _ _ _ _ _ H1) as E1. cbn [t_max t_headers] in E1.
    rewrite evict_none by lia. done.
Qed.

Lemma size_loop_rep n m hs : forall rounds h dead live a, rep h (RfcTable hs m) dead live a 0 0 -> added h < 2 ^ 64 ->
  (length hs <= rounds)%nat -> 0 <= n ->
  exists h' dead' live' a', size_loop rounds h (m - n) = Some h' /\ rep h' (RfcTable (evict n hs) m) dead' live' a' 0 0 /\
    added h' = added h.
Proof.
  induction hs as [|x hs IH]; intros rounds h dead live a H Hadd Hr Hn;
    pose proof (rep_free _ _ _ _ _ _ _ H) as E; cbn [t_max t_headers] in E.
  { exists h, dead, live, a. simpl in E. destruct rounds; cbn [size_loop]; rewrite (proj2 (Z.ltb_ge _ _)) by lia; done. }
  destruct rounds as [|rounds]; [simpl in Hr; lia|]. cbn [size_loop]. destruct (Z.ltb_spec (hfree h) (m - n)).
  - rewrite evict_one by lia.
    destruct (evict_entry_rep _ _ _ _ _ _ _ H Hadd) as (h1 & p & live' & -> & -> & H1 & Ha1). cbn [mbind option_bind].
    destruct (IH rounds h1 _ _ _ H1) as (h' & dead' & live2 & a' & E' & H' & Ha'); [lia|simpl in Hr; lia|done|].
    exists h', dead', live2, a'. split_and!; [done|done|lia].
  - exists h, dead, live, a. rewrite evict_none by lia. done.
Qed.

Lemma rep_rounds h t dead live a taken put : rep h t dead live a taken put -> added h < 2 ^ 64 ->
  Z.to_nat (u64 (added h - deleted h)) = length (t_headers t).
Proof.
  intros H Ha. pose proof (laid_length _ _ _ _ _ (rep_laid _ _ _ _ _ _ _ H)) as El. destruct H.
  rewrite u64_small by lia. lia.
Qed.

Lemma table_size_rep h t dead live a n : rep h t dead live a 0 0 -> added h < 2 ^ 64 -> 0 <= n <= ZS ->
  exists h' dead' live' a', ngx_http_v2_table_size h n = Some (NGX_OK, h') /\ rep h' (rfc_resize t n) dead' live' a' 0 0 /\ added h' = added h.
Proof.
  intros H Ha Hn. unfold ngx_http_v2_table_size. rewrite (proj2 (Z.ltb_ge _ _)) by lia. cbv zeta.
  assert (ZS = 4096) by done. pose proof (rep_max _ _ _ _ _ _ _ H). rewrite (rep_rounds _ _ _ _ _ _ _ H Ha).
  rewrite (rep_size _ _ _ _ _ _ _ H), s64_small by lia. destruct t as [hs m]. cbn [t_headers t_max] in *.
  destruct (size_loop_rep n m hs (length hs) h dead live a H Ha) as (h' & dead' & live' & a' & -> & H' & Ha'); [done|lia|].
  cbn [mbind option_bind]. eexists _, dead', live', a'. split; [done|]. split; [|done].
  unfold rfc_resize. cbn [t_headers t_max]. destruct (evict_total n hs) as [_ Ht].
  pose proof (table_total_data (evict n hs)).
  destruct H' as [Hmax Hsize Hfree Hroom Hst Hpos Hslots Hre Hdel Hadded Halloc Hnd Hpool Hlaid]. simpl in *.
  constructor; simpl; try done; try lia. rewrite u64_small by lia. lia.
Qed.

(** ** Addition *)

Lemma account_rep h t dead live a x : rep h t dead live a 0 0 -> added h < 2 ^ 64 ->
  exists rc h' t' dead' live' a' taken, ngx_http_v2_table_account h (data_len x) = Some (rc, h') /\
    rep h' t' dead' live' a' taken 0 /\ added h' = added h /\
    if header_size x <=? t_max t
    then rc = NGX_OK /\ taken = header_size x /\ rfc_add t x = RfcTable (t_headers t' ++ [x]) (t_max t')
    else rc = NGX_DECLINED /\ taken = 0 /\ rfc_add t x = t'.
Proof.
  intros H Ha. destruct (header_size_data x) as [Ex Hx]. unfold ngx_http_v2_table_account. cbv zeta.
  replace (data_len x + 32) with (header_size x) by lia. unfold rfc_add.
  pose proof (rep_free _ _ _ _ _ _ _ H) as Hf. pose proof (rep_room _ _ _ _ _ _ _ H) as Hr. destruct t as [hs m]. cbn [t_headers t_max] in *.
  pose proof (table_total_data hs) as [Et Ht].
  destruct (Z.leb_spec (header_size x) (hfree h)).
  { eexists _, _, (RfcTable hs m), dead, live, a, (header_size x). split; [done|]. rewrite (proj2 (Z.leb_le _ m)) by lia.
    split; [|cbn [t_headers t_max]; rewrite evict_none by lia; done].
    destruct H as [Hmax Hsize Hfree Hroom Hst Hpos Hslots Hre Hdel Hadded Halloc Hnd Hpool Hlaid]. simpl in *. constructor; simpl; try done; lia. }
  rewrite (rep_size _ _ _ _ _ _ _ H). cbn [t_max]. destruct (Z.ltb_spec m (header_size x)).
  { rewrite (proj2 (Z.leb_gt _ m)) by lia. eexists _, _, (RfcTable [] m), (dead ++ live), [], (a + data_total hs), 0.
    split; [done|]. split; [|done].
    destruct H as [Hmax Hsize Hfree Hroom Hst Hpos Hslots Hre Hdel Hadded Halloc Hnd Hpool Hlaid]. simpl in *.
    rewrite Z.add_0_r in Hpos. constructor; simpl; rewrite ?app_nil_r, ?length_app, ?Z.add_0_r; try done; lia. }
  rewrite (proj2 (Z.leb_le _ m)) by lia. rewrite (rep_rounds _ _ _ _ _ _ _ H Ha). cbn [t_headers].
  destruct (account_loop_rep (header_size x) m hs (length hs) h dead live a H Ha) as (h1 & dead' & live' & a' & -> & H' & Ha' & Hf');
    [done|done|done|]. cbn [mbind option_bind].
  eexists _, _, (RfcTable (evict (m - header_size x) hs) m), dead', live', a', (header_size x). split; [done|]. split; [|done].
  destruct (evict_total (m - header_size x) hs) as [_ Hev].
  destruct H' as [Hmax Hsize Hfree Hroom Hst Hpos Hslots Hre Hdel Hadded Halloc Hnd Hpool Hlaid]. simpl in *. constructor; simpl; try done; lia.
Qed.

(** An entry that no pointer of the rings points to. *)
Lemma take_entry_rep h t dead live a taken : rep h t dead live a taken 0 -> added h < 2 ^ 64 ->
  exists p h' dead', take_entry h = Some (p, h') /\ rep h' t dead' live a taken 0 /\ added h' = added h /\ storage h' = storage h /\ hpos h' = hpos h /\
    (p ∉ (dead' ++ live)) /\ (p < length (pool h'))%nat /\
    (Z.of_nat (length live) < allocated h' -> Z.of_nat (length dead') + Z.of_nat (length live) < allocated h') /\
    (Z.of_nat (length live) = allocated h' -> dead' = []).
Proof.
  intros H Ha. pose proof (rep_deleted _ _ _ _ _ _ _ H) as Hd. unfold take_entry. destruct (Z.eqb_spec (reused h) (deleted h)) as [E|E].
  - assert (dead = []) as -> by (destruct dead; [done|simpl in Hd; lia]).
    eexists _, _, []. split; [done|]. simpl. rewrite length_app. simpl. split_and!; try done; try lia.
    + destruct H as [Hmax Hsize Hfree Hroom Hst Hpos Hslots Hre Hdel Hadded Halloc Hnd Hpool Hlaid]. simpl in *.
      constructor; simpl; try done.
      * eapply Forall_impl; [exact Hpool|]. intros q Hq. rewrite length_app. simpl in *. lia.
      * clear -Hlaid. revert Hlaid. generalize a, (t_headers t). induction live as [|p live IH]; intros b hs Hl; destruct hs as [|x hs]; simpl in *; try done.
        destruct Hl as [(e & He & Hx) Hl]. split; [|by apply IH]. exists e. split; [|done].
        rewrite lookup_app_l; [done|]. by apply lookup_lt_Some in He.
    + pose proof (rep_pool _ _ _ _ _ _ _ H) as Hp. rewrite Forall_forall in Hp. intros Hin. apply Hp in Hin. lia.
  - destruct dead as [|p dead]; [simpl in Hd; lia|].
    assert (Hs : slot h (reused h) = Some p).
    { rewrite <- (Z.add_0_r (reused h)). by apply (rep_slot _ _ _ _ _ _ _ 0%nat _ H). }
    rewrite Hs. cbn [mbind option_bind]. exists p. eexists _, dead. split; [done|].
    destruct H as [Hmax Hsize Hfree Hroom Hst Hpos (es & He & Hel & Hes) Hre Hdel Hadded Halloc Hnd Hpool Hlaid]. simpl in *.
    apply NoDup_cons in Hnd as [Hp Hnd]. apply Forall_cons in Hpool as [Hlt Hpool]. split_and!; try done; try lia.
    constructor; simpl; try done; rewrite ?u64_small by lia; try lia.
    exists es. split_and!; [done|done|]. intros k q Hk. rewrite <- (Hes (S k) q Hk).
    by replace (reused h + 1 + Z.of_nat k) with (reused h + Z.of_nat (S k)) by lia.
Qed.

Lemma entry_of_written st st' a s b e x : written st st' a s -> entry_of st b e x ->
  b + data_len x <= a -> a + Z.of_nat (length s) <= b + ZS -> entry_of st' b e x.
Proof.
  unfold data_len. intros Hw (H1 & H2 & H3 & H4 & H5 & H6) Ha Hb. unfold entry_of. split_and!; try done.
  - eapply written_other; [done|done|lia|lia].
  - eapply written_other; [done|done|lia|lia].
Qed.

Lemma laid_written pool st st' a s live : written st st' a s -> forall hs b, laid pool st b live hs ->
  b + data_total hs <= a -> a + Z.of_nat (length s) <= b + ZS -> laid pool st' b live hs.
Proof.
  intros Hw. induction live as [|p live IH]; intros hs b Hl Ha Hb; destruct hs as [|x hs]; simpl in *; try done.
  destruct Hl as [(e & He & Hx) Hl]. pose proof (table_total_data hs). pose proof (header_size_data x). split.
  - exists e. split; [done|]. eapply entry_of_written; [done|done|lia|lia].
  - apply IH; [done|lia|lia].
Qed.

Lemma put_header_rep h t dead live a x : rep h t dead live a (header_size x) 0 ->
  exists e h', put_header h x = Some (e, h') /\ added h' = added h /\ allocated h' = allocated h /\ pool h' = pool h /\
    rep h' t dead live a (header_size x) (data_len x) /\
    entry_of (storage h') (a + data_total (t_headers t)) e x.
Proof.
  intros H. pose proof (rep_storage _ _ _ _ _ _ _ H) as Hst. pose proof (rep_pos _ _ _ _ _ _ _ H) as Hpos.
  pose proof (rep_laid _ _ _ _ _ _ _ H) as Hl. pose proof (rep_room _ _ _ _ _ _ _ H) as Hr. pose proof (rep_max _ _ _ _ _ _ _ H).
  destruct (table_total_data (t_headers t)) as [Et Ht]. pose proof (header_size_data x) as [Ex _].
  assert (Hx : data_len x = Z.of_nat (length (h_name x)) + Z.of_nat (length (h_value x))) by done.
  set (P := a + data_total (t_headers t)) in *. unfold put_header. cbv zeta. 
  rewrite Z.add_0_r in Hpos.
  destruct (put_ring_spec h P (SZ - hpos h) (h_name x) Hst Hpos) as (av & h1 & -> & E1 & Hst1 & Hpos1 & Hw1 & Hav1 & Hav1'); [lia|by left|].
  cbn [mbind option_bind].
  destruct (put_ring_spec h1 (P + Z.of_nat (length (h_name x))) av (h_value x) Hst1 Hpos1) as (av2 & h2 & -> & E2 & Hst2 & Hpos2 & Hw2 & _); [lia|lia|].
  cbn [mbind option_bind]. eexists _, h2. split; [done|].
  assert (Eh : h2 = h <| storage := storage h2 |> <| hpos := hpos h2 |>) by by rewrite E2, E1.
  clear E1 E2. assert (length (h_name x) <= SZ /\ length (h_value x) <= SZ)%nat as [Hn Hv] by lia.
  split_and!; [by rewrite Eh|by rewrite Eh|by rewrite Eh| |].
  - destruct H as [Hmax Hsize Hfree Hroom _ _ Hslots Hre Hdel Hadded Halloc Hnd Hpool Hlaid].
    constructor; try rewrite Eh; simpl; try done.
    + by replace (a + data_total (t_headers t) + data_len x) with (P + Z.of_nat (length (h_name x)) + Z.of_nat (length (h_value x))) by (unfold P; lia).
    + eapply laid_written; [exact Hw2| |lia|lia]. eapply laid_written; [exact Hw1|done|lia|lia].
  - unfold entry_of. simpl. split_and!; [done|done| |done|done|exact (written_at _ _ _ _ Hv Hw2)].
    eapply written_other; [exact Hw2|exact (written_at _ _ _ _ Hn Hw1)|lia|lia].
Qed.

Lemma laid_pool pool st p e live : p ∉ live -> forall hs a, laid pool st a live hs -> laid (<[p := e]> pool) st a live hs.
Proof.
  intros Hp. induction live as [|q live IH]; intros hs a Hl; destruct hs as [|x hs]; simpl in *; try done.
  rewrite not_elem_of_cons in Hp. destruct Hl as [(d & Hd & Hx) Hl]. split; [|apply IH; [tauto|done]].
  exists d. split; [|done]. rewrite list_lookup_insert_ne by tauto. done.
Qed.

Lemma pool_rep h p e t dead live a taken put : rep h t dead live a taken put -> p ∉ live ->
  rep (h <| pool := <[p := e]> (pool h) |>) t dead live a taken put.
Proof.
  intros [Hmax Hsize Hfree Hroom Hst Hpos Hslots Hre Hdel Hadded Halloc Hnd Hpool Hlaid] Hp. constructor; simpl; try done.
  - eapply Forall_impl; [exact Hpool|]. intros q Hq. by rewrite length_insert.
  - by apply laid_pool.
Qed.

Lemma laid_snoc pool st p e x live : pool !! p = Some e -> forall hs a, laid pool st a live hs ->
  entry_of st (a + data_total hs) e x -> laid pool st a (live ++ [p]) (hs ++ [x]).
Proof.
  intros Hp. induction live as [|q live IH]; intros hs a Hl Hx; destruct hs as [|y hs]; simpl in *; try done.
  - split; [|done]. exists e. split; [done|]. by rewrite Z.add_0_r in Hx.
  - destruct Hl as [Hy Hl]. split; [done|]. apply IH; [done|]. by replace (a + data_len y + data_total hs) with (a + (data_len y + data_total hs)) by lia.
Qed.

(** A full array is copied in the order of its entries. *)
Lemma grow_rep h t dead live a taken put : rep h t dead live a taken put -> added h < 2 ^ 64 ->
  (Z.of_nat (length live) < allocated h -> Z.of_nat (length dead) + Z.of_nat (length live) < allocated h) ->
  (Z.of_nat (length live) = allocated h -> dead = []) ->
  exists h', grow h = Some h' /\ rep h' t dead live a taken put /\ added h' <= added h /\ pool h' = pool h /\ storage h' = storage h /\
    Z.of_nat (length dead) + Z.of_nat (length live) < allocated h'.
Proof.
  intros H Ha Hroom1 Hfull. destruct (rep_slots _ _ _ _ _ _ _ H) as (es & He & Hel & Hes).
  pose proof (rep_added _ _ _ _ _ _ _ H) as Hadd. pose proof (rep_deleted _ _ _ _ _ _ _ H) as Hdel.
  pose proof (rep_reused _ _ _ _ _ _ _ H) as Hre. pose proof (rep_allocated _ _ _ _ _ _ _ H) as Halloc.
  unfold grow. rewrite He. cbn [mbind option_bind]. rewrite u64_small by lia.
  destruct (Z.eqb_spec (allocated h) (added h - deleted h)).
  2: { exists h. split_and!; try done; lia. }
  rewrite Hfull in * by lia. eexists. split; [done|]. simpl in *. split_and!; try done; try lia.
  destruct H as [Hmax Hsize Hfree Hroom Hst Hpos _ _ _ _ _ Hnd Hpool Hlaid]. simpl in *.
  constructor; simpl; try done; try lia.
  set (ix := Z.to_nat (deleted h mod allocated h)).
  assert (Hix : (ix < length es)%nat) by (unfold ix; pose proof (Z.mod_pos_bound (deleted h) (allocated h)); lia).
  eexists. split; [done|]. split; [rewrite !length_app, length_drop, length_take; simpl; lia|].
  intros k p Hk. pose proof (lookup_lt_Some _ _ _ Hk). rewrite Z.mod_small, Z.add_0_l, Nat2Z.id by lia.
  specialize (Hes k p Hk). replace (reused h + Z.of_nat k) with (deleted h + Z.of_nat k) in Hes by lia.
  rewrite <- Zplus_mod_idemp_l in Hes.
  assert (Eix : Z.of_nat ix = deleted h mod allocated h) by (unfold ix; pose proof (Z.mod_pos_bound (deleted h) (allocated h)); lia).
  rewrite <- Eix in Hes. destruct (Nat.ltb_spec (ix + k) (length es)).
  - rewrite Z.mod_small in Hes by lia. rewrite lookup_app_l, lookup_drop by (rewrite length_drop; lia).
    rewrite <- Hes. f_equal. lia.
  - replace (Z.of_nat ix + Z.of_nat k) with (Z.of_nat ix + Z.of_nat k - allocated h + 1 * allocated h) in Hes by lia.
    rewrite Z.mod_add, Z.mod_small in Hes by lia. rewrite lookup_app_r by (rewrite length_drop; lia). rewrite length_drop.
    rewrite lookup_app_l, lookup_take_lt by (rewrite ?length_take; lia). rewrite <- Hes. f_equal. lia.
Qed.

Lemma append_entry_rep h t dead live a p e x : rep h t dead live a (header_size x) (data_len x) -> added h + 1 < 2 ^ 64 ->
  Z.of_nat (length dead) + Z.of_nat (length live) < allocated h ->
  pool h !! p = Some e -> p ∉ (dead ++ live) -> entry_of (storage h) (a + data_total (t_headers t)) e x ->
  exists h', append_entry h p = Some h' /\ rep h' (RfcTable (t_headers t ++ [x]) (t_max t)) dead (live ++ [p]) a 0 0 /\ added h' = added h + 1.
Proof.
  intros H Ha Hlt Hp Hnin Hx. destruct (rep_slots _ _ _ _ _ _ _ H) as (es & He & Hel & Hes).
  unfold append_entry. rewrite He. cbn [mbind option_bind]. eexists. split; [done|]. simpl. rewrite u64_small.
  2: { destruct H. lia. }
  split; [|done]. destruct H as [Hmax Hsize Hfree Hroom Hst Hpos _ Hre Hdel Hadded Halloc Hnd Hpool Hlaid].
  constructor; simpl; rewrite ?table_total_app, ?data_total_app, ?length_app; cbn [table_total data_total length]; rewrite ?u64_small by lia; try done; try lia.
  - by replace (a + (data_total (t_headers t) + (data_len x + 0)) + 0) with (a + data_total (t_headers t) + data_len x) by lia.
  - eexists. split; [done|]. split; [by rewrite length_insert|]. intros k q Hk. rewrite (assoc_L app) in Hk.
    assert (Hm : forall i, (Z.to_nat (i mod allocated h) < length es)%nat) by (intros i; pose proof (Z.mod_pos_bound i (allocated h)); lia).
    destruct (Nat.ltb_spec k (length (dead ++ live))) as [Hkl|Hkl]; pose proof Hkl as Hkl'; rewrite length_app in Hkl'.
    + rewrite lookup_app_l in Hk by done. rewrite list_lookup_insert_ne; [by apply Hes|]. intros E.
      apply Z2Nat.inj in E; [|apply Z.mod_pos_bound; lia..].
      assert (Ed : (added h - (reused h + Z.of_nat k)) mod allocated h = 0) by by rewrite Zminus_mod, E, Z.sub_diag.
      rewrite Z.mod_small in Ed by lia. lia.
    + rewrite lookup_app_r in Hk by done. destruct (k - length (dead ++ live))%nat as [|j] eqn:Ek; [|by destruct j].
      simpl in Hk. injection Hk as <-. rewrite length_app in Ek.
      replace (reused h + Z.of_nat k) with (added h) by lia. by rewrite list_lookup_insert_eq.
  - rewrite (assoc_L app). apply NoDup_app. split_and!; [done| |apply NoDup_singleton]. intros q Hq Hq1. by apply list_elem_of_singleton in Hq1 as ->.
  - rewrite (assoc_L app). apply Forall_app_2; [done|]. apply Forall_singleton. by apply lookup_lt_Some in Hp.
  - by eapply laid_snoc.
Qed.

Lemma add_header_rep h t dead live a x : rep h t dead live a 0 0 -> added h + 1 < 2 ^ 64 ->
  exists h' dead' live' a', ngx_http_v2_add_header h x = Some (NGX_OK, h') /\ rep h' (rfc_add t x) dead' live' a' 0 0 /\ added h' <= added h + 1.
Proof.
  intros H Ha. unfold ngx_http_v2_add_header. cbv zeta. destruct (rep_slots _ _ _ _ _ _ _ H) as (es & He & _).
  unfold hpack_start. rewrite He. replace (Z.of_nat (length (h_name x) + length (h_value x))) with (data_len x) by (unfold data_len; lia).
  destruct (account_rep h t dead live a x H ltac:(lia)) as (rc & h1 & t1 & dead1 & live1 & a1 & taken & -> & H1 & Ha1 & Hrc).
  cbn [mbind option_bind]. destruct (header_size x <=? t_max t); destruct Hrc as (-> & -> & ->).
  2: { exists h1, dead1, live1, a1. split_and!; [done..|lia]. }
  change (negb (NGX_OK =? NGX_OK)) with false. cbv iota.
  destruct (take_entry_rep _ _ _ _ _ _ H1 ltac:(lia)) as (p & h2 & dead2 & -> & H2 & Ha2 & Hst2 & Hpos2 & Hnin & Hlt & Hr2 & Hf2).
  cbn [mbind option_bind]. destruct (put_header_rep _ _ _ _ _ _ H2) as (e & h3 & -> & Ha3 & Hal3 & Hp3 & H3 & Hx3).
  cbn [mbind option_bind]. rewrite elem_of_app in Hnin.
  destruct (grow_rep _ _ _ _ _ _ _ (pool_rep h3 p e _ _ _ _ _ _ H3 ltac:(tauto))) as (h5 & -> & H5 & Ha5 & Hp5 & Hst5 & Hlt5);
    [simpl; lia|simpl; rewrite Hal3; exact Hr2|simpl; rewrite Hal3; exact Hf2|]. simpl in Ha5, Hp5, Hst5. cbn [mbind option_bind].
  destruct (append_entry_rep h5 t1 dead2 live1 a1 p e x H5) as (h6 & -> & H6 & Ha6); [lia|done| | | |].
  - rewrite Hp5, Hp3. by rewrite list_lookup_insert_eq.
  - by rewrite elem_of_app.
  - by rewrite Hst5.
  - cbn [mbind option_bind]. eexists h6, dead2, _, a1. split; [done|]. split; [done|lia].
Qed.

(** ** Lookup *)

Lemma laid_lookup pool st live : forall hs a k p x, laid pool st a live hs -> live !! k = Some p -> hs !! k = Some x ->
  exists e b, pool !! p = Some e /\ entry_of st b e x.
Proof.
  induction live as [|q live IH]; intros hs a k p x Hl Hp Hx; destruct hs as [|y hs]; simpl in Hl; try done.
  destruct Hl as [(e & He & Hy) Hl]. destruct k as [|k]; simpl in Hp, Hx.
  - injection Hp as ->. injection Hx as ->. by exists e, a.
  - by apply (IH hs (a + data_len y) k p x).
Qed.

Lemma data_total_elem x hs : x ∈ hs -> data_len x <= data_total hs.
Proof.
  induction hs as [|y hs IH]; [by intros ?%not_elem_of_nil|]. pose proof (table_total_data hs). pose proof (header_size_data y).
  simpl. intros [->|Hx]%elem_of_cons; [lia|]. specialize (IH Hx). lia.
Qed.

(** What a lookup gives: of a header of the dynamic table, the name only when
    only the name was asked for. *)
Definition looked_up (t : rfc_table) (header : v2_header) (i : Z) (name_only : bool) : Z * v2_header :=
  match rfc_lookup t i with
  | None => (NGX_ERROR, header)
  | Some x => (NGX_OK, if name_only && (Z.of_nat (length ngx_http_v2_static_table) <? i) then Header (h_name x) (h_value header) else x)
  end.

Lemma get_indexed_rep h t dead live a header i name_only : rep h t dead live a 0 0 -> added h < 2 ^ 64 -> 0 <= i < 2 ^ 64 ->
  ngx_http_v2_get_indexed_header h header i name_only = Some (looked_up t header i name_only).
Proof.
  intros H Ha Hi. unfold ngx_http_v2_get_indexed_header, looked_up, rfc_lookup. destruct (Z.eqb_spec i 0) as [->|Hi0]; [done|].
  rewrite (proj2 (Z.leb_gt i 0)) by lia. cbv zeta. set (stat := ngx_http_v2_static_table).
  assert (Hn : Z.of_nat (length stat) = 61) by done.
  destruct (stat !! Z.to_nat (i - 1)) as [x|] eqn:E.
  { pose proof (lookup_lt_Some _ _ _ E). rewrite (lookup_app_l_Some _ _ _ _ E).
    rewrite (proj2 (Z.ltb_ge _ i)) by lia. by rewrite andb_false_r. }
  apply lookup_ge_None in E. rewrite lookup_app_r by lia. rewrite (proj2 (Z.ltb_lt _ i)) by lia.
  pose proof (laid_length _ _ _ _ _ (rep_laid _ _ _ _ _ _ _ H)) as Hlen.
  pose proof (rep_added _ _ _ _ _ _ _ H). pose proof (rep_deleted _ _ _ _ _ _ _ H). pose proof (rep_reused _ _ _ _ _ _ _ H).
  rewrite u64_small by lia. remember (Z.to_nat (i - 1) - length stat)%nat as j eqn:Hj.
  destruct (Z.ltb_spec (i - 1 - Z.of_nat (length stat)) (added h - deleted h)).
  2: { rewrite (lookup_ge_None_2 (reverse _)); [done|]. rewrite length_reverse. lia. }
  rewrite reverse_lookup by lia. remember (length (t_headers t) - S j)%nat as k eqn:Hk.
  destruct (lookup_lt_is_Some_2 live k ltac:(lia)) as [p Hp]. destruct (lookup_lt_is_Some_2 (t_headers t) k ltac:(lia)) as [x Hx].
  rewrite Hx. rewrite u64_small by lia.
  replace (added h - (i - 1 - Z.of_nat (length stat)) - 1) with (reused h + Z.of_nat (length dead + k)) by lia.
  rewrite (rep_slot _ _ _ _ _ _ _ (length dead + k)%nat p H).
  2: { rewrite lookup_app_r by lia. by replace (length dead + k - length dead)%nat with k by lia. }
  cbn [mbind option_bind].
  destruct (laid_lookup _ _ _ _ _ _ _ _ (rep_laid _ _ _ _ _ _ _ H) Hp Hx) as (e & b & -> & E1 & E2 & E3 & E4 & E5 & E6).
  cbn [mbind option_bind]. rewrite E1, E4. pose proof (rep_storage _ _ _ _ _ _ _ H) as Hst.
  assert (Hxl : data_len x <= data_total (t_headers t)) by (apply data_total_elem, list_elem_of_lookup; by exists k).
  destruct (table_total_data (t_headers t)). pose proof (rep_room _ _ _ _ _ _ _ H). pose proof (rep_max _ _ _ _ _ _ _ H).
  unfold data_len in Hxl. rewrite (copy_ring_spec _ b _ (h_name x)) by (done || lia). cbn [mbind option_bind andb].
  destruct name_only; [done|]. rewrite (copy_ring_spec _ (b + Z.of_nat (length (h_name x))) _ (h_value x)) by (done || lia).
  cbn [mbind option_bind]. by destruct x.
Qed.

(** ** Sequences of operations *)

Inductive table_op := AddHeader (x : v2_header) | TableSize (n : Z) | GetIndexed (i : Z) (name_only : bool).

Definition op_ok (o : table_op) : Prop :=
  match o with AddHeader _ => True | TableSize n => 0 <= n | GetIndexed i _ => 0 <= i < 2 ^ 64 end.

Definition table_op_code (h : hpack) (o : table_op) : option (Z * v2_header * hpack) :=
  match o with
  | AddHeader x => '(rc, h) ← ngx_http_v2_add_header h x; Some (rc, x, h)
  | TableSize n => '(rc, h) ← ngx_http_v2_table_size h n; Some (rc, Header [] [], h)
  | GetIndexed i b => '(rc, x) ← ngx_http_v2_get_indexed_header h (Header [] []) i b; Some (rc, x, h)
  end.

(** The table has no size before its first header: a change of the size before
    it is forgotten. *)
Definition table_op_rfc (s : option rfc_table) (o : table_op) : Z * v2_header * option rfc_table :=
  let t := default (RfcTable [] 4096) s in
  match o with
  | AddHeader x => (NGX_OK, x, Some (rfc_add t x))
  | TableSize n => if 4096 <? n then (NGX_ERROR, Header [] [], s) else (NGX_OK, Header [] [], (fun t => rfc_resize t n) <$> s)
  | GetIndexed i b => (looked_up t (Header [] []) i b, s)
  end.

Fixpoint run_code (h : hpack) (l : list table_op) : option (list (Z * v2_header)) :=
  match l with
  | [] => Some []
  | o :: l => '(r, h) ← table_op_code h o; rs ← run_code h l; Some (r :: rs)
  end.
Fixpoint run_rfc (s : option rfc_table) (l : list table_op) : list (Z * v2_header) :=
  match l with [] => [] | o :: l => let (r, s) := table_op_rfc s o in r :: run_rfc s l end.

(** The table before the first header, and after it. *)
Definition table_is (h : hpack) (s : option rfc_table) : Prop :=
  match s with
  | None => entries h = None /\ added h = 0 /\ deleted h = 0 /\ reused h = 0 /\ hsize h = hfree h /\ 0 <= hsize h <= 4096 /\
            length (storage h) = SZ /\ pool h = []
  | Some t => exists dead live a, rep h t dead live a 0 0
  end.

Lemma start_rep h : table_is h None -> rep (hpack_start h) (RfcTable [] 4096) [] [] 0 0 0.
Proof.
  intros (He & Ha & Hd & Hr & _ & _ & Hst & Hp). assert (ZS = 4096) by done. unfold hpack_start. rewrite He.
  constructor; simpl; rewrite ?Ha, ?Hd, ?Hr, ?Hp; try done; try lia.
  - by split; [lia|].
  - eexists. by split_and!.
  - constructor.
Qed.

Lemma hpack_start_twice h : hpack_start (hpack_start h) = hpack_start h.
Proof. unfold hpack_start. by destruct (entries h) eqn:E; rewrite ?E. Qed.

Lemma add_header_is h s x : table_is h s -> added h + 1 < 2 ^ 64 ->
  exists h', ngx_http_v2_add_header h x = Some (NGX_OK, h') /\
    table_is h' (Some (rfc_add (default (RfcTable [] 4096) s) x)) /\ added h' <= added h + 1.
Proof.
  intros H Ha. destruct s as [t|].
  - destruct H as (dead & live & a & H). destruct (add_header_rep _ _ _ _ _ x H Ha) as (h' & d' & l' & a' & -> & H' & Ha').
    exists h'. split_and!; [done|by exists d', l', a'|done].
  - assert (E : ngx_http_v2_add_header h x = ngx_http_v2_add_header (hpack_start h) x) by by unfold ngx_http_v2_add_header; rewrite hpack_start_twice.
    assert (Ea : added (hpack_start h) = added h) by by unfold hpack_start; destruct (entries h).
    destruct (add_header_rep _ _ _ _ _ x (start_rep h H) ltac:(lia)) as (h' & d' & l' & a' & E' & H' & Ha').
    exists h'. rewrite E, E', <- Ea. split_and!; [done|by exists d', l', a'|done].
Qed.

Lemma table_size_is h s n : table_is h s -> added h < 2 ^ 64 -> 0 <= n <= 4096 ->
  exists h', ngx_http_v2_table_size h n = Some (NGX_OK, h') /\ table_is h' ((fun t => rfc_resize t n) <$> s) /\ added h' = added h.
Proof.
  intros H Ha Hn. assert (ZS = 4096) by done. destruct s as [t|].
  - destruct H as (dead & live & a & H). destruct (table_size_rep _ _ _ _ _ n H Ha ltac:(lia)) as (h' & d' & l' & a' & -> & H' & Ha').
    exists h'. split_and!; [done|by exists d', l', a'|done].
  - destruct H as (He & Ea & Ed & Er & Es & Hs & Hst & Hp). unfold ngx_http_v2_table_size.
    rewrite (proj2 (Z.ltb_ge _ _)) by lia. cbv zeta. rewrite s64_small by lia.
    assert (El : size_loop (Z.to_nat (u64 (added h - deleted h))) h (hsize h - n) = Some h).
    { destruct (Z.to_nat _); cbn [size_loop]; by rewrite (proj2 (Z.ltb_ge _ _)) by lia. }
    rewrite El. cbn [mbind option_bind]. eexists. split; [done|]. simpl. split; [|done].
    rewrite u64_small by lia. split_and!; try done; lia.
Qed.

Lemma get_indexed_is h s header i b : table_is h s -> added h < 2 ^ 64 -> 0 <= i < 2 ^ 64 ->
  ngx_http_v2_get_indexed_header h header i b = Some (looked_up (default (RfcTable [] 4096) s) header i b).
Proof.
  intros H Ha Hi. destruct s as [t|].
  - destruct H as (dead & live & a & H). by apply (get_indexed_rep _ _ dead live a).
  - cbn [default from_option]. rewrite <- (get_indexed_rep _ _ _ _ _ header i b (start_rep h H)); [|by unfold hpack_start; destruct (entries h)|done].
    destruct H as (He & Ea & Ed & Er & _). unfold ngx_http_v2_get_indexed_header, hpack_start. rewrite He. simpl.
    destruct (Z.eqb_spec i 0); [done|]. cbv zeta. destruct (ngx_http_v2_static_table !! _) eqn:E; [done|]. apply lookup_ge_None in E.
    change (length ngx_http_v2_static_table) with 61%nat in E. rewrite Ea, Ed. change (u64 (0 - 0)) with 0. by rewrite (proj2 (Z.ltb_ge _ _)) by lia.
Qed.

(** C26: Whatever is added to the table of headers, looked up and changed in its
    size, the ring of bytes, the ring of pointers and the entries that are used
    again give the results of the table of RFC 7541: no entry is overwritten
    while it can be looked up, and nothing outside the memory is read or
    written.  (The size is forgotten when it is set before the first
    header.) *)
Theorem ngx_http_v2_table_refines ring l : length ring = SZ -> Forall op_ok l -> Z.of_nat (length l) < 2 ^ 63 ->
  run_code (hpack_init ring) l = Some (run_rfc None l).
Proof.
  intros Hring Hl Hn. assert (H : table_is (hpack_init ring) None) by (simpl; split_and!; done).
  assert (Ha : added (hpack_init ring) + Z.of_nat (length l) < 2 ^ 64) by (simpl; lia).
  revert H Ha. clear Hring Hn. generalize (hpack_init ring) (@None rfc_table). clear ring.
  induction Hl as [|o l Ho Hl IH]; intros h s H Ha; [done|]. cbn [run_code run_rfc length] in *.
  unfold table_op_code, table_op_rfc. destruct o as [x|n|i b]; simpl in Ho.
  - destruct (add_header_is h s x H ltac:(lia)) as (h' & -> & H' & Ha'). cbn [mbind option_bind]. rewrite (IH h' _ H') by lia. done.
  - destruct (Z.ltb_spec 4096 n).
    + unfold ngx_http_v2_table_size. change ZS with 4096. rewrite (proj2 (Z.ltb_lt _ _)) by done. cbn [mbind option_bind].
      rewrite (IH h s H) by lia. done.
    + destruct (table_size_is h s n H ltac:(lia) ltac:(lia)) as (h' & -> & H' & Ha'). cbn [mbind option_bind].
      rewrite (IH h' _ H') by lia. done.
  - rewrite (get_indexed_is h s _ i b H) by lia. cbn [mbind option_bind]. destruct (looked_up _ _ _ _) as [rc x] eqn:E. 
    cbn [mbind option_bind]. rewrite (IH h s H) by lia. done.
Qed.

Theorem ngx_http_v2_table_refines_witness :
  let l := [AddHeader (Header (bs "a") (bs "b")); GetIndexed 62 false; TableSize 0; GetIndexed 62 false] in
  Z.of_nat (length l) < 2 ^ 63 /\
  run_code (hpack_init (replicate SZ 0)) l =
    Some [(NGX_OK, Header (bs "a") (bs "b")); (NGX_OK, Header (bs "a") (bs "b")); (NGX_OK, Header [] []); (NGX_ERROR, Header [] [])].
Proof.
  intros l. assert (Hn : Z.of_nat (length l) < 2 ^ 63) by (unfold l; simpl; lia). split; [exact Hn|].
  rewrite (ngx_http_v2_table_refines (replicate SZ 0) l); [by vm_compute|apply length_replicate| |exact Hn].
  unfold l. repeat constructor; done.
Defined.

(** A client that wants no table says so before its first header; the table
    has 4096 bytes all the same. *)
Lemma table_size_forgotten :
  run_code (hpack_init (replicate SZ 0)) [TableSize 0; AddHeader (Header (bs "a") (bs "b")); GetIndexed 62 false] =
    Some [(NGX_OK, Header [] []); (NGX_OK, Header (bs "a") (bs "b")); (NGX_OK, Header (bs "a") (bs "b"))].
Proof. by vm_compute. Qed.
