(* ===== verification/Http2Hpack.v ===== *)
(** * Header blocks of HTTP/2 (src/http/v2/ngx_http_v2.c)

    The part of the state machine of a connection that reads the headers of a
    request: numbers and strings of HPACK, with the table of Http2Table.v, over
    any number of frames and any number of reads.  The memory from [pos] to
    [end] is a list of bytes.  What is done with a header when it is complete
    is a parameter. *)

From S2P Require Import Prelude Http2Huff Http2Table.

Set Warnings "-register-all".

#[local] Abbreviation length := (@List.length _).

Definition NGX_HTTP_V2_STATE_BUFFER_SIZE : Z := 16.
Definition NGX_HTTP_V2_INT_OCTETS : nat := 4.
Definition NGX_HTTP_V2_FRAME_HEADER_SIZE : nat := 9.
Definition NGX_HTTP_V2_CONTINUATION_FRAME : Z := 0x9.
Definition NGX_HTTP_V2_END_HEADERS_FLAG : Z := 0x04.

Definition NGX_HTTP_V2_PROTOCOL_ERROR : Z := 0x1.
Definition NGX_HTTP_V2_INTERNAL_ERROR : Z := 0x2.
Definition NGX_HTTP_V2_SIZE_ERROR : Z := 0x6.
Definition NGX_HTTP_V2_COMP_ERROR : Z := 0x9.
Definition NGX_HTTP_V2_ENHANCE_YOUR_CALM : Z := 0xb.

(** The handlers that a read can go on with; [StateHead] is the end of the
    block. *)
Inductive handler := HeaderBlock | FieldLen | FieldHuff | FieldRaw | FieldSkip | HeaderComplete | StateSkip | StateHead.
#[export] Instance handler_eq_dec : EqDecision handler.
Proof. solve_decision. Defined.

(** What becomes of the request of a header: it goes on, it has been terminated
    and the stream is forgotten, or the connection is. *)
Inductive taken (W : Type) := Taken (w : W) | Dropped (w : W) | Failed (err : Z).
Arguments Taken {W} w.
Arguments Dropped {W} w.
Arguments Failed {W} err.

Section Hpack.
Context {W : Type}.

(** Lines 1499 to 1598 of ngx_http_v2_state_process_header, and
    ngx_http_v2_run_request. *)
Context (take_header : W -> v2_header -> taken W) (run_request : W -> W).

(** [http2_max_field_size] *)
Context (max_field_size : Z).

(** [src/http/v2/ngx_http_v2.h:65-91] ngx_http_v2_state_t: with the table and
    the requests of the connection.  [field] is the memory from [field_start]
    to [field_end], of the [field_alloc] bytes that were allocated. *)
Record v2_state := State {
  sid : Z; len : Z; padding : Z; flags : Z;
  parse_name : bool; parse_value : bool; index : bool;
  header : v2_header; header_limit : Z;
  field_state : Z; field : list Z; field_alloc : Z; field_rest : Z;
  stream : bool; buffer : list Z; next_handler : handler;
  table : hpack; world : W
}.
#[export] Instance eta_v2_state : Settable v2_state := fun s =>
  State (sid s) (len s) (padding s) (flags s) (parse_name s) (parse_value s) (index s) (header s) (header_limit s)
    (field_state s) (field s) (field_alloc s) (field_rest s) (stream s) (buffer s) (next_handler s) (table s) (world s).

(** A handler returns the memory that is left, or [NULL] after the error of the
    connection. *)
Inductive outcome := Goes (s : v2_state) (d : list Z) | Stops (err : Z).

Definition end_headers (s : v2_state) : bool := negb (Z.land (flags s) NGX_HTTP_V2_END_HEADERS_FLAG =? 0).

(** [src/http/v2/ngx_http_v2.c:2252-2278] ngx_http_v2_state_save;
    ngx_http_v2_state_headers_save sets a timer before. *)
Definition ngx_http_v2_state_save (s : v2_state) (d : list Z) (h : handler) : outcome :=
  if NGX_HTTP_V2_STATE_BUFFER_SIZE <? Z.of_nat (length d) then Stops NGX_HTTP_V2_INTERNAL_ERROR
  else Goes (s <| buffer := d |> <| next_handler := h |>) [].

(** ** Numbers *)

(** [src/http/v2/ngx_http_v2.c:2344-2359] ngx_http_v2_parse_int: the loop over
    the bytes after the first, [n] of which were read. *)
Fixpoint int_loop (l : list Z) (n : nat) (shift value : Z) : option (nat * Z) :=
  match l with
  | [] => None
  | octet :: l =>
      let value := value + Z.shiftl (Z.land octet 0x7f) shift in
      if octet <? 128 then Some (S n, value) else int_loop l (S n) (shift + 7) value
  end.

(** [src/http/v2/ngx_http_v2.c:2319-2371] ngx_http_v2_parse_int: the value or a
    negative result, [state.length] and [*pos]. *)
Definition ngx_http_v2_parse_int (s : v2_state) (d : list Z) (prefix : Z) : option (Z * v2_state * list Z) :=
  match d with
  | [] => None
  | ch :: rest =>
      let value := Z.land ch prefix in
      if negb (value =? prefix) then
        if len s =? 0 then Some (NGX_ERROR, s, d)
        else Some (value, s <| len := len s - 1 |>, rest)
      else
        let l := take (NGX_HTTP_V2_INT_OCTETS - 1) rest in
        match int_loop l 1 0 value with
        | Some (n, value) =>
            if len s <? Z.of_nat n then Some (NGX_ERROR, s, d)
            else Some (value, s <| len := len s - Z.of_nat n |>, drop n d)
        | None =>
            if len s <=? Z.of_nat (S (length l)) then Some (NGX_ERROR, s, d)
            else if (S (length l) =? NGX_HTTP_V2_INT_OCTETS)%nat then Some (NGX_DECLINED, s, d)
            else Some (NGX_AGAIN, s, d)
        end
  end.

(** ** Frames *)

Definition be_value (l : list Z) : Z := foldl (fun z c => z * 256 + c) 0 l.

(** [src/http/v2/ngx_http_v2.c:1650-1658] ngx_http_v2_handle_continuation: what
    is there of the padding is skipped. *)
Definition continuation_padding (s : v2_state) (d : list Z) : v2_state * list Z :=
  let l := Z.to_nat (len s) in
  if negb (padding s =? 0) && (len s <? Z.of_nat (length d)) then
    let skip := Z.min (padding s) (Z.of_nat (length d) - len s) in
    (s <| padding := padding s - skip |>, take l d ++ drop (l + Z.to_nat skip) d)
  else (s, d).

(** [src/http/v2/ngx_http_v2.c:1640-1699] ngx_http_v2_handle_continuation; the
    [request_length] of the stream, a number for the log, is not counted. *)
Definition ngx_http_v2_handle_continuation (s : v2_state) (d : list Z) (h : handler) : option outcome :=
  let '(s, d) := continuation_padding s d in
  let l := Z.to_nat (len s) in
  if (length d <? l + NGX_HTTP_V2_FRAME_HEADER_SIZE)%nat then Some (ngx_http_v2_state_save s d h)
  else
    let p := drop l d in
    let head := be_value (take 4 p) in
    if negb (Z.land head 0xff =? NGX_HTTP_V2_CONTINUATION_FRAME) then Some (Stops NGX_HTTP_V2_PROTOCOL_ERROR)
    else
      f ← p !! 4%nat;
      let s := s <| flags := Z.lor (flags s) f |> in
      if negb (sid s =? Z.land (be_value (take 4 (drop 5 p))) 0x7fffffff) then Some (Stops NGX_HTTP_V2_PROTOCOL_ERROR)
      else
        let s := s <| len := len s + Z.shiftr head 8 |> in
        Some (Goes (s <| next_handler := h |>) (take l d ++ drop (l + NGX_HTTP_V2_FRAME_HEADER_SIZE) d)).

(** [src/http/v2/ngx_http_v2.c:2198-2217] ngx_http_v2_state_complete *)
Definition ngx_http_v2_state_complete (s : v2_state) (d : list Z) : outcome :=
  Goes (s <| stream := false |> <| next_handler := StateHead |>) d.

(** [src/http/v2/ngx_http_v2.c:2230-2249] ngx_http_v2_state_skip *)
Definition ngx_http_v2_state_skip (s : v2_state) (d : list Z) : outcome :=
  if Z.of_nat (length d) <? len s then ngx_http_v2_state_save (s <| len := len s - Z.of_nat (length d) |>) [] StateSkip
  else ngx_http_v2_state_complete s (drop (Z.to_nat (len s)) d).

(** [src/http/v2/ngx_http_v2.c:2219-2227] ngx_http_v2_state_skip_padded *)
Definition ngx_http_v2_state_skip_padded (s : v2_state) (d : list Z) : outcome :=
  ngx_http_v2_state_skip (s <| len := len s + padding s |> <| padding := 0 |>) d.

(** [src/http/v2/ngx_http_v2.c:1603-1637] ngx_http_v2_state_header_complete *)
Definition ngx_http_v2_state_header_complete (s : v2_state) (d : list Z) : option outcome :=
  if negb (len s =? 0) then Some (Goes (s <| next_handler := HeaderBlock |>) d)
  else if negb (end_headers s) then ngx_http_v2_handle_continuation s d HeaderComplete
  else
    let s := if stream s then s <| world := run_request (world s) |> else s in
    if negb (padding s =? 0) then Some (ngx_http_v2_state_skip_padded s d)
    else Some (ngx_http_v2_state_complete s d).

(** ** Strings

    [next] is ngx_http_v2_state_process_header. *)

(** [src/http/v2/ngx_http_v2.c:1309-1319] ngx_http_v2_state_field_huff: how much
    of the string is there; ngx_http_v2_state_field_raw and
    ngx_http_v2_state_field_skip have the same. *)
Definition piece (s : v2_state) (d : list Z) : Z := Z.min (Z.min (Z.of_nat (length d)) (field_rest s)) (len s).

(** [src/http/v2/ngx_http_v2.c:1337-1355] ngx_http_v2_state_field_huff: after a
    piece; ngx_http_v2_state_field_raw and ngx_http_v2_state_field_skip have the
    same. *)
Definition after_piece (next : v2_state -> list Z -> option outcome) (s : v2_state) (d : list Z) (h : handler) : option outcome :=
  if field_rest s =? 0 then next s d
  else if negb (len s =? 0) then Some (ngx_http_v2_state_save s d h)
  else if end_headers s then Some (Stops NGX_HTTP_V2_SIZE_ERROR)
  else ngx_http_v2_handle_continuation s d h.

(** [*field_end = '\0'], and the memory before it: [None] past the memory that
    was allocated. *)
Definition fits (s : v2_state) : option unit := if Z.of_nat (length (field s)) <? field_alloc s then Some tt else None.

(** [src/http/v2/ngx_http_v2.c:1303-1356] ngx_http_v2_state_field_huff *)
Definition ngx_http_v2_state_field_huff (next : v2_state -> list Z -> option outcome) (s : v2_state) (d : list Z) : option outcome :=
  let size := piece s d in
  let s := s <| len := len s - size |> <| field_rest := field_rest s - size |> in
  let '(rc, st, f) := ngx_http_v2_huff_decode (field_state s) (take (Z.to_nat size) d) (field s) (field_rest s =? 0) in
  let s := s <| field_state := st |> <| field := f |> in
  _ ← fits s;
  if negb (rc =? NGX_OK) then Some (Stops NGX_HTTP_V2_COMP_ERROR)
  else after_piece next s (drop (Z.to_nat size) d) FieldHuff.

(** [src/http/v2/ngx_http_v2.c:1358-1400] ngx_http_v2_state_field_raw *)
Definition ngx_http_v2_state_field_raw (next : v2_state -> list Z -> option outcome) (s : v2_state) (d : list Z) : option outcome :=
  let size := piece s d in
  let s := s <| len := len s - size |> <| field_rest := field_rest s - size |> <| field := field s ++ take (Z.to_nat size) d |> in
  _ ← fits s;
  after_piece next s (drop (Z.to_nat size) d) FieldRaw.

(** [src/http/v2/ngx_http_v2.c:1403-1442] ngx_http_v2_state_field_skip *)
Definition ngx_http_v2_state_field_skip (next : v2_state -> list Z -> option outcome) (s : v2_state) (d : list Z) : option outcome :=
  let size := piece s d in
  let s := s <| len := len s - size |> <| field_rest := field_rest s - size |> in
  after_piece next s (drop (Z.to_nat size) d) FieldSkip.

(** [src/http/v2/ngx_http_v2.c:1246-1264] ngx_http_v2_state_field_len: the
    results that are no number; ngx_http_v2_state_header_block has the same in
    lines 1168 to 1185. *)
Definition int_error (rc : Z) (s : v2_state) (d : list Z) (h : handler) : outcome :=
  if rc =? NGX_AGAIN then ngx_http_v2_state_save s d h
  else if rc =? NGX_DECLINED then Stops NGX_HTTP_V2_COMP_ERROR
  else Stops NGX_HTTP_V2_SIZE_ERROR.

(** [src/http/v2/ngx_http_v2.c:1216-1300] ngx_http_v2_state_field_len *)
Definition ngx_http_v2_state_field_len (next : v2_state -> list Z -> option outcome) (s : v2_state) (d : list Z) : option outcome :=
  if negb (end_headers s) && (len s <? Z.of_nat NGX_HTTP_V2_INT_OCTETS) then ngx_http_v2_handle_continuation s d FieldLen
  else if len s <? 1 then Some (Stops NGX_HTTP_V2_SIZE_ERROR)
  else
    match d with
    | [] => Some (ngx_http_v2_state_save s d FieldLen)
    | ch :: _ =>
        let huff := Z.shiftr ch 7 in
        '(n, s, d) ← ngx_http_v2_parse_int s d 0x7f;
        if n <? 0 then Some (int_error n s d FieldLen)
        else if max_field_size <? n then Some (Stops NGX_HTTP_V2_ENHANCE_YOUR_CALM)
        else
          let s := s <| field_rest := n |> in
          if negb (stream s) && negb (index s) then ngx_http_v2_state_field_skip next s d
          else
            let s := s <| field_alloc := (if negb (huff =? 0) then n * 8 / 5 else n) + 1 |> <| field := [] |> in
            if negb (huff =? 0) then ngx_http_v2_state_field_huff next s d
            else ngx_http_v2_state_field_raw next s d
    end.

(** ** Headers *)

(** [src/http/v2/ngx_http_v2.c:1469-1600] ngx_http_v2_state_process_header: the
    name and the value are complete. *)
Definition process_complete (s : v2_state) (d : list Z) : option outcome :=
  let s :=
    if parse_value s then s <| parse_value := false |> <| header := Header (h_name (header s)) (field s) |> else s in
  let size := Z.of_nat (length (h_name (header s))) + Z.of_nat (length (h_value (header s))) in
  if header_limit s <? size then Some (Stops NGX_HTTP_V2_ENHANCE_YOUR_CALM)
  else
    let s := s <| header_limit := header_limit s - size |> in
    s ← (if index s then
           '(rc, t) ← ngx_http_v2_add_header (table s) (header s);
           Some (s <| table := t |> <| index := false |>)
         else Some s);
    if negb (stream s) then ngx_http_v2_state_header_complete s d
    else
      match take_header (world s) (header s) with
      | Taken w => ngx_http_v2_state_header_complete (s <| world := w |>) d
      | Dropped w => ngx_http_v2_state_header_complete (s <| world := w |> <| stream := false |>) d
      | Failed err => Some (Stops err)
      end.

(** [src/http/v2/ngx_http_v2.c:1445-1600] ngx_http_v2_state_process_header:
    after a name it begins with the value, and is called again after it:
    [rounds] is 2. *)
Fixpoint process_header (rounds : nat) (s : v2_state) (d : list Z) : option outcome :=
  if parse_name s then
    match rounds with
    | O => None
    | S rounds =>
        let s := s <| parse_name := false |> <| header := Header (field s) (h_value (header s)) |> in
        ngx_http_v2_state_field_len (process_header rounds) s d
    end
  else process_complete s d.
Definition ngx_http_v2_state_process_header : v2_state -> list Z -> option outcome := process_header 1.

(** [src/http/v2/ngx_http_v2.c:1116-1213] ngx_http_v2_state_header_block *)
Definition ngx_http_v2_state_header_block (s : v2_state) (d : list Z) : option outcome :=
  match d with
  | [] => Some (ngx_http_v2_state_save s d HeaderBlock)
  | ch :: _ =>
      if negb (end_headers s) && (len s <? Z.of_nat NGX_HTTP_V2_INT_OCTETS) then ngx_http_v2_handle_continuation s d HeaderBlock
      else
        let '(indexed, size_update, prefix, s) :=
          if 128 <=? ch then (true, false, 0x7f, s)
          else if 64 <=? ch then (false, false, 0x3f, s <| index := true |>)
          else if 32 <=? ch then (false, true, 0x1f, s)
          else (false, false, 0xf, s) in
        '(value, s, d) ← ngx_http_v2_parse_int s d prefix;
        if value <? 0 then Some (int_error value s d HeaderBlock)
        else if indexed : bool then
          '(rc, x) ← ngx_http_v2_get_indexed_header (table s) (header s) value false;
          if negb (rc =? NGX_OK) then Some (Stops NGX_HTTP_V2_COMP_ERROR)
          else ngx_http_v2_state_process_header (s <| header := x |>) d
        else if size_update : bool then
          '(rc, t) ← ngx_http_v2_table_size (table s) value;
          if negb (rc =? NGX_OK) then Some (Stops NGX_HTTP_V2_COMP_ERROR)
          else ngx_http_v2_state_header_complete (s <| table := t |>) d
        else
          s ← (if value =? 0 then Some (Some (s <| parse_name := true |>))
               else
                 '(rc, x) ← ngx_http_v2_get_indexed_header (table s) (header s) value true;
                 if negb (rc =? NGX_OK) then Some None else Some (Some (s <| header := x |>)));
          match s with
          | None => Some (Stops NGX_HTTP_V2_COMP_ERROR)
          | Some s => ngx_http_v2_state_field_len ngx_http_v2_state_process_header (s <| parse_value := true |>) d
          end
  end.

(** ** Reading *)

(** [h2c->state.handler(h2c, p, end)] *)
Definition handle (s : v2_state) (d : list Z) : option outcome :=
  match next_handler s with
  | HeaderBlock => ngx_http_v2_state_header_block s d
  | FieldLen => ngx_http_v2_state_field_len ngx_http_v2_state_process_header s d
  | FieldHuff => ngx_http_v2_state_field_huff ngx_http_v2_state_process_header s d
  | FieldRaw => ngx_http_v2_state_field_raw ngx_http_v2_state_process_header s d
  | FieldSkip => ngx_http_v2_state_field_skip ngx_http_v2_state_process_header s d
  | HeaderComplete => ngx_http_v2_state_header_complete s d
  | StateSkip => Some (ngx_http_v2_state_skip s d)
  | StateHead => Some (Goes s d)
  end.

(** [src/http/v2/ngx_http_v2.c:359-366] ngx_http_v2_read_handler: the handlers
    are called until nothing is left, here up to the end of the block.  A round
    is for a call. *)
Fixpoint handle_all (rounds : nat) (s : v2_state) (d : list Z) : option outcome :=
  if bool_decide (next_handler s = StateHead) then Some (Goes s d)
  else
    match rounds with
    | O => None
    | S rounds =>
        r ← handle s d;
        match r with
        | Stops err => Some (Stops err)
        | Goes s [] => Some (Goes s [])
        | Goes s d => handle_all rounds s d
        end
    end.

(** [src/http/v2/ngx_http_v2.c:333-366] ngx_http_v2_read_handler: what was saved
    and what was received. *)
Definition read_block (s : v2_state) (received : list Z) : option outcome :=
  let d := buffer s ++ received in
  handle_all (2 * length d + 2) (s <| buffer := [] |>) d.

Fixpoint read_pieces (s : v2_state) (pieces : list (list Z)) : option outcome :=
  match pieces with
  | [] => Some (Goes s [])
  | d :: pieces =>
      r ← read_block s d;
      match r with
      | Stops err => Some (Stops err)
      | Goes s rest => if bool_decide (next_handler s = StateHead) then Some (Goes s (rest ++ concat pieces)) else read_pieces s pieces
      end
  end.

End Hpack.
