(* ===== verification/Http2HpackSpec.v ===== *)
(** * Header blocks of HTTP/2: their meaning

    The grammar of RFC 7541 (sections 5 and 6), with the limits of the code, and
    the proof that the state machine of Http2Hpack.v gives the headers of a
    block that follows it. *)

From S2P Require Import Prelude NgxBits Http2Huff Http2Table Http2TableSpec Http2Hpack.

#[local] Abbreviation length := (@List.length _).

(** ** The grammar *)

(** The bytes of a number after the first: 7 bits each, the lowest first. *)
Inductive varint : list Z -> Z -> Prop :=
  | varint_last b : 0 <= b < 128 -> varint [b] b
  | varint_more b l v : 128 <= b < 256 -> varint l v -> varint (b :: l) (b - 128 + 128 * v).

(** Section 5.1: the number is in the bits of [prefix] of the first byte, or it
    is that much more than all of them.  The code takes 4 bytes at most. *)
Definition rfc_int (prefix v : Z) (b : Z) (tl : list Z) : Prop :=
  (tl = [] /\ v = Z.land b prefix /\ v <> prefix) \/
  (Z.land b prefix = prefix /\ varint tl (v - prefix) /\ (length tl < NGX_HTTP_V2_INT_OCTETS)%nat).

(** Section 5.2: a string as it is or in the Huffman code, whose length is in
    the first bytes.  The code takes [limit] bytes at most. *)
Inductive rfc_string (limit : Z) : list Z -> list Z -> Prop :=
  | string_raw b tl s : 0 <= b < 128 -> rfc_int 0x7f (Z.of_nat (length s)) b tl -> Z.of_nat (length s) <= limit ->
      rfc_string limit ((b :: tl) ++ s) s
  | string_huff b tl h s : 128 <= b < 256 -> rfc_int 0x7f (Z.of_nat (length h)) b tl -> Z.of_nat (length h) <= limit ->
      bytes h -> huff_means h s -> rfc_string limit ((b :: tl) ++ h) s.

(** The table before the first header of a connection has no size, see
    [table_op_rfc]. *)
Definition the_table (t : option rfc_table) : rfc_table := default (RfcTable [] 4096) t.
Definition table_resize (t : option rfc_table) (n : Z) : option rfc_table := (fun t => rfc_resize t n) <$> t.

(** The name of a literal: that of an entry of the table, or a string. *)
Inductive rfc_name (limit : Z) (t : option rfc_table) (prefix : Z) : Z -> list Z -> list Z -> Prop :=
  | name_indexed b tl i x : rfc_int prefix i b tl -> 0 < i -> rfc_lookup (the_table t) i = Some x ->
      rfc_name limit t prefix b tl (h_name x)
  | name_literal b l n : Z.land b prefix = 0 -> rfc_string limit l n -> rfc_name limit t prefix b l n.

(** Section 6: an entry of the table; a literal that is added to the table; a
    literal that is not, with or without leave to add it elsewhere; a change of
    the size of the table. *)
Inductive rfc_field (limit : Z) (t : option rfc_table) : list Z -> option v2_header -> option rfc_table -> Prop :=
  | field_indexed b tl i x : 128 <= b < 256 -> rfc_int 0x7f i b tl -> rfc_lookup (the_table t) i = Some x ->
      rfc_field limit t (b :: tl) (Some x) t
  | field_added b l n lv v : 64 <= b < 128 -> rfc_name limit t 0x3f b l n -> rfc_string limit lv v ->
      rfc_field limit t (b :: l ++ lv) (Some (Header n v)) (Some (rfc_add (the_table t) (Header n v)))
  | field_literal b l n lv v : 0 <= b < 32 -> rfc_name limit t 0xf b l n -> rfc_string limit lv v ->
      rfc_field limit t (b :: l ++ lv) (Some (Header n v)) t
  | field_size b tl n : 32 <= b < 64 -> rfc_int 0x1f n b tl -> n <= 4096 ->
      rfc_field limit t (b :: tl) None (table_resize t n).

(** A block, and its headers in order. *)
Inductive rfc_block (limit : Z) : option rfc_table -> list Z -> list v2_header -> option rfc_table -> Prop :=
  | block_end t : rfc_block limit t [] [] t
  | block_field t l x t1 d hs t2 : rfc_field limit t l x t1 -> rfc_block limit t1 d hs t2 ->
      rfc_block limit t (l ++ d) (option_list x ++ hs) t2.

(** The fields of a state after assignments, when it is a constructor. *)
Ltac flat := cbv zeta; cbn [set sid len padding flags parse_name parse_value index header header_limit
  field_state field field_alloc field_rest stream buffer next_handler table world] in *.

(** ** Numbers *)

Lemma varint_pos l v : varint l v -> 0 <= v /\ l <> [].
Proof. induction 1; split; try done; lia. Qed.

Lemma int_loop_spec l v : varint l v -> forall n shift value e, 0 <= shift ->
  int_loop (l ++ e) n shift value = Some ((n + length l)%nat, value + v * 2 ^ shift).
Proof.
  induction 1 as [b Hb|b l v Hb Hl IH]; intros n shift value e Hs; cbn [app int_loop length].
  - rewrite (proj2 (Z.ltb_lt _ _)) by lia. change 0x7f with (Z.ones 7). rewrite Z.land_ones, Z.mod_small, Z.shiftl_mul_pow2 by lia.
    do 2 f_equal. lia.
  - rewrite (proj2 (Z.ltb_ge _ _)) by lia. rewrite IH by lia. change 0x7f with (Z.ones 7). rewrite Z.land_ones, Z.shiftl_mul_pow2 by lia.
    replace (b mod 2 ^ 7) with (b - 128) by (apply Z.mod_unique with 1; lia).
    rewrite Z.pow_add_r by lia. change (2 ^ 7) with 128. f_equal. f_equal; lia.
Qed.

Section Meaning.
Context {W : Type} (take_header : W -> v2_header -> taken W) (run_request : W -> W) (max_field_size : Z).
Abbreviation state := (@v2_state W).
Abbreviation PH := (ngx_http_v2_state_process_header take_header run_request max_field_size).

Lemma parse_int_spec (s : state) prefix v b tl e : rfc_int prefix v b tl ->
  Z.of_nat (S (length tl)) <= len s ->
  ngx_http_v2_parse_int s (b :: tl ++ e) prefix = Some (v, s <| len := len s - Z.of_nat (S (length tl)) |>, e).
Proof.
  intros [(-> & -> & Hv)|(Hp & Hv & Hl)] Hlen; cbn [ngx_http_v2_parse_int].
  - rewrite (proj2 (Z.eqb_neq _ _)) by done. cbn [negb app]. simpl in Hlen. by rewrite (proj2 (Z.eqb_neq _ _)) by lia.
  - rewrite Hp, Z.eqb_refl. cbn [negb]. destruct (varint_pos _ _ Hv) as [Hv0 Hne].
    rewrite take_app, (take_ge tl) by (unfold NGX_HTTP_V2_INT_OCTETS in *; lia). cbv zeta.
    rewrite (int_loop_spec _ _ Hv) by lia. rewrite (proj2 (Z.ltb_ge _ _)) by lia.
    replace (prefix + (v - prefix) * 2 ^ 0) with v by (rewrite Z.pow_0_r; lia).
    cbn [Nat.add drop]. by rewrite drop_app_length.
Qed.

Lemma rfc_int_nonneg prefix v b tl : 0 <= prefix -> 0 <= b -> rfc_int prefix v b tl -> 0 <= v.
Proof.
  intros Hp Hb [(_ & -> & _)|(_ & Hv & _)]; [apply Z.land_nonneg; lia|]. apply varint_pos in Hv. lia.
Qed.

(** ** Strings *)

Lemma field_raw_full next (s : state) v e : field_rest s = Z.of_nat (length v) -> Z.of_nat (length v) <= len s ->
  Z.of_nat (length (field s) + length v) < field_alloc s ->
  ngx_http_v2_state_field_raw next s (v ++ e) =
    next (s <| len := len s - Z.of_nat (length v) |> <| field_rest := 0 |> <| field := field s ++ v |>) e.
Proof.
  intros Hr Hl Ha. unfold ngx_http_v2_state_field_raw, after_piece, fits.
  assert (piece s (v ++ e) = Z.of_nat (length v)) as -> by (unfold piece; rewrite length_app; lia).
  destruct s. flat. subst. rewrite Nat2Z.id, take_app_length, drop_app_length, Z.sub_diag, length_app.
  rewrite (proj2 (Z.ltb_lt _ _)) by lia. done.
Qed.

Lemma field_huff_full next (s : state) h v e : field_rest s = Z.of_nat (length h) -> field_state s = 0 -> field s = [] ->
  field_alloc s = Z.of_nat (length h) * 8 / 5 + 1 -> bytes h -> Z.of_nat (length h) <= len s -> huff_means h v ->
  ngx_http_v2_state_field_huff next s (h ++ e) =
    next (s <| len := len s - Z.of_nat (length h) |> <| field_rest := 0 |> <| field := v |> <| field_state := 0 |>) e.
Proof.
  intros Hr Hst Hf Ha Hh Hl Hm. unfold ngx_http_v2_state_field_huff, after_piece, fits.
  assert (piece s (h ++ e) = Z.of_nat (length h)) as -> by (unfold piece; rewrite length_app; lia).
  destruct s. flat. subst. rewrite Nat2Z.id, take_app_length, drop_app_length, Z.sub_diag.
  change (0 =? 0) with true. rewrite (huff_decode_complete h v []) by done. flat.
  destruct Hm as (Hv & k & _ & Hk). pose proof (huff_bits_bound h v _ Hv Hk). cbn [app].
  rewrite (proj2 (Z.ltb_lt _ _)) by lia. done.
Qed.

Lemma rfc_string_length limit l v : rfc_string limit l v -> (0 < length l)%nat.
Proof. by intros []; simpl; lia. Qed.

Lemma field_len_spec next (s : state) l v e : rfc_string max_field_size l v -> end_headers s = true -> field_state s = 0 ->
  stream s || index s = true -> Z.of_nat (length l) <= len s ->
  exists a, ngx_http_v2_state_field_len max_field_size next s (l ++ e) =
    next (s <| len := len s - Z.of_nat (length l) |> <| field_rest := 0 |> <| field_alloc := a |> <| field := v |> <| field_state := 0 |>) e.
Proof.
  intros Hl He Hst Hsi Hlen. unfold ngx_http_v2_state_field_len. rewrite He. cbn [negb andb].
  assert (Hskip : negb (stream s) && negb (index s) = false) by (by destruct (stream s), (index s)).
  destruct Hl as [b tl v Hb Hi Hlim|b tl h v Hb Hi Hlim Hh Hm]; rewrite length_app in Hlen |- *; cbn [length] in Hlen |- *;
    (rewrite (proj2 (Z.ltb_ge (len s) 1)) by lia); rewrite <- (assoc_L app); cbn [app];
    rewrite (parse_int_spec s _ _ _ _ _ Hi) by (cbn [length]; lia); cbn [mbind option_bind];
    rewrite (proj2 (Z.ltb_ge _ 0)), (proj2 (Z.ltb_ge max_field_size _)) by lia; destruct s; flat; rewrite Hskip.
  - replace (Z.shiftr b 7) with 0 by (rewrite Z.shiftr_div_pow2 by lia; symmetry; apply Z.div_small; lia).
    change (negb (0 =? 0)) with false. cbv iota. simpl in Hst. subst. eexists. rewrite field_raw_full; flat; [|done|lia|simpl; lia].
    do 2 f_equal. lia.
  - replace (Z.shiftr b 7) with 1 by (rewrite Z.shiftr_div_pow2 by lia; apply Z.div_unique with (b - 128); lia).
    change (negb (1 =? 0)) with true. cbv iota. simpl in Hst. subst. eexists. erewrite field_huff_full; flat; [|done..|lia|done].
    do 2 f_equal. lia.
Qed.
(** ** Headers *)

Abbreviation header_complete := (ngx_http_v2_state_header_complete run_request).

(** Between two headers of a block. *)
Definition ready (s : state) : Prop :=
  parse_name s = false /\ parse_value s = false /\ index s = false /\ field_state s = 0 /\ stream s = true /\ end_headers s = true.

(** [n] bytes later, with the headers of [m] bytes handed over. *)
Definition later (s s' : state) (n m : Z) (w : W) (t : option rfc_table) (k : Z) : Prop :=
  ready s' /\ len s' = len s - n /\ header_limit s' = header_limit s - m /\ padding s' = padding s /\ buffer s' = buffer s /\ world s' = w /\
  table_is (table s') t /\ added (table s') <= added (table s) + k.

Lemma process_complete_spec (s : state) e x t w :
  (if parse_value s then Header (h_name (header s)) (field s) else header s) = x ->
  parse_name s = false -> field_state s = 0 -> stream s = true -> end_headers s = true ->
  table_is (table s) t -> added (table s) + 1 < 2 ^ 64 -> data_len x <= header_limit s -> take_header (world s) x = Taken w ->
  exists s', process_complete take_header run_request s e = header_complete s' e /\
    later s s' 0 (data_len x) w (if index s then Some (rfc_add (the_table t) x) else t) 1.
Proof.
  intros Hx Hn Hfs Hst He Ht Ha Hlim Hw. unfold process_complete.
  assert (Ex : forall s0 : state, s0 = (if parse_value s then s <| parse_value := false |> <| header := Header (h_name (header s)) (field s) |> else s) ->
    s0 = s <| parse_value := false |> <| header := x |>).
  { intros s0 ->. rewrite <- Hx. by destruct s as [? ? ? ? ? []]. }
  rewrite (Ex _ eq_refl). clear Ex Hx. destruct s. flat. subst. fold (data_len x).
  rewrite (proj2 (Z.ltb_ge _ _)) by done. destruct index.
  - destruct (add_header_is table t x Ht Ha) as (h' & -> & Ht' & Ha'). cbn [mbind option_bind]. flat. cbn [negb].
    rewrite Hw. flat. eexists. split; [done|]. unfold later, ready. flat. split_and!; try done; lia.
  - cbn [mbind option_bind]. flat. cbn [negb]. rewrite Hw. flat. eexists. split; [done|]. unfold later, ready. flat. split_and!; try done; lia.
Qed.

Lemma process_header_value rounds (s : state) e : parse_name s = false ->
  process_header take_header run_request max_field_size rounds s e = process_complete take_header run_request s e.
Proof. destruct rounds; simpl; by intros ->. Qed.

(** A string that is a value, after the name is known. *)
Lemma value_spec rounds (s : state) lv v e t w : rfc_string max_field_size lv v ->
  parse_name s = false -> parse_value s = true -> field_state s = 0 -> stream s = true -> end_headers s = true ->
  Z.of_nat (length lv) <= len s -> table_is (table s) t -> added (table s) + 1 < 2 ^ 64 ->
  let x := Header (h_name (header s)) v in
  data_len x <= header_limit s -> take_header (world s) x = Taken w ->
  exists s', ngx_http_v2_state_field_len max_field_size (process_header take_header run_request max_field_size rounds) s (lv ++ e) = header_complete s' e /\
    later s s' (Z.of_nat (length lv)) (data_len x) w (if index s then Some (rfc_add (the_table t) x) else t) 1.
Proof.
  intros Hv Hn Hpv Hfs Hst He Hl Ht Ha x Hlim Hw.
  destruct (field_len_spec (process_header take_header run_request max_field_size rounds) s lv v e Hv He Hfs) as (a & ->); [by rewrite Hst|done|].
  set (s1 := s <| len := _ |> <| field_rest := _ |> <| field_alloc := _ |> <| field := _ |> <| field_state := _ |>).
  assert (Es : s1 = s1) by done. rewrite process_header_value by by destruct s.
  destruct (process_complete_spec s1 e x t w) as (s' & -> & H); try (by destruct s).
  - unfold s1. destruct s. flat. by subst.
  - exists s'. split; [done|]. unfold later in *. clear Es. unfold s1 in *. destruct s. flat. destruct H as (? & ? & ? & ? & ? & ? & ? & ?).
    split_and!; try done; lia.
Qed.
(** A name that is a string, and the value after it. *)
Lemma name_value_spec (s : state) l n lv v e t w : rfc_string max_field_size l n -> rfc_string max_field_size lv v ->
  parse_name s = true -> parse_value s = true -> field_state s = 0 -> stream s = true -> end_headers s = true ->
  Z.of_nat (length l + length lv) <= len s -> table_is (table s) t -> added (table s) + 1 < 2 ^ 64 ->
  let x := Header n v in
  data_len x <= header_limit s -> take_header (world s) x = Taken w ->
  exists s', ngx_http_v2_state_field_len max_field_size PH s (l ++ lv ++ e) = header_complete s' e /\
    later s s' (Z.of_nat (length l + length lv)) (data_len x) w (if index s then Some (rfc_add (the_table t) x) else t) 1.
Proof.
  intros Hl Hv Hn Hpv Hfs Hst He Hlen Ht Ha x Hlim Hw.
  destruct (field_len_spec PH s l n (lv ++ e) Hl He Hfs) as (a & ->); [by rewrite Hst|lia|].
  set (s1 := s <| len := _ |> <| field_rest := _ |> <| field_alloc := _ |> <| field := _ |> <| field_state := _ |>).
  set (s2 := s1 <| parse_name := false |> <| header := Header (field s1) (h_value (header s1)) |>).
  assert (EP : PH s1 (lv ++ e) = ngx_http_v2_state_field_len max_field_size (process_header take_header run_request max_field_size 0) s2 (lv ++ e)).
  { unfold ngx_http_v2_state_process_header. cbn [process_header]. assert (parse_name s1 = true) as -> by by destruct s. done. }
  rewrite EP. clear EP. destruct (value_spec 0 s2 lv v e t w Hv) as (s' & E & H); try (by destruct s).
  - unfold s2, s1. destruct s. flat. lia.
  - assert (header s2 = Header n (h_value (header s))) as Eh by by destruct s. rewrite Eh in H. exists s'. split; [done|].
    unfold later in *. unfold s2, s1 in *. destruct s. flat. destruct H as (? & ? & ? & ? & ? & ? & ? & ?). split_and!; try done; lia.
Qed.

Lemma varint_bound l v : varint l v -> v < 128 ^ Z.of_nat (length l).
Proof.
  induction 1 as [b Hb|b l v Hb Hl IH]; [simpl; lia|]. cbn [length]. rewrite Nat2Z.inj_succ, Z.pow_succ_r by lia. lia.
Qed.

Lemma rfc_int_bound prefix v b tl : 0 <= prefix < 256 -> 0 <= b -> rfc_int prefix v b tl -> 0 <= v < 2 ^ 64.
Proof.
  intros Hp Hb H. split; [apply (rfc_int_nonneg prefix v b tl); [lia|lia|done]|]. destruct H as [(_ & -> & _)|(_ & Hv & Hl)].
  - replace prefix with (Z.land prefix (Z.ones 8)) by (rewrite Z.land_ones, Z.mod_small; lia).
    rewrite Z.land_assoc, Z.land_ones by lia. pose proof (Z.mod_pos_bound (Z.land b prefix) (2 ^ 8)). lia.
  - apply varint_bound in Hv. unfold NGX_HTTP_V2_INT_OCTETS in Hl.
    assert (128 ^ Z.of_nat (length tl) <= 128 ^ 3) by (apply Z.pow_le_mono_r; lia). lia.
Qed.

(** The literal fields: after the number of the name. *)
Definition literal_next (s : state) (value : Z) (d : list Z) : option outcome :=
  s ← (if value =? 0 then Some (Some (s <| parse_name := true |>))
       else
         '(rc, x) ← ngx_http_v2_get_indexed_header (table s) (header s) value true;
         if negb (rc =? NGX_OK) then Some None else Some (Some (s <| header := x |>)));
  match s with
  | None => Some (Stops NGX_HTTP_V2_COMP_ERROR)
  | Some s => ngx_http_v2_state_field_len max_field_size PH (s <| parse_value := true |>) d
  end.

Lemma literal_spec (s : state) prefix b l n lv v e t w : 0 <= prefix < 256 -> prefix <> 0 -> 0 <= b ->
  rfc_name max_field_size t prefix b l n -> rfc_string max_field_size lv v ->
  parse_name s = false -> field_state s = 0 -> stream s = true -> end_headers s = true ->
  Z.of_nat (S (length l + length lv)) <= len s -> table_is (table s) t -> added (table s) + 1 < 2 ^ 64 ->
  let x := Header n v in
  data_len x <= header_limit s -> take_header (world s) x = Taken w ->
  exists s1 value d, ngx_http_v2_parse_int s (b :: l ++ lv ++ e) prefix = Some (value, s1, d) /\ 0 <= value /\
    exists s', literal_next s1 value d = header_complete s' e /\
    later s s' (Z.of_nat (S (length l + length lv))) (data_len x) w (if index s then Some (rfc_add (the_table t) x) else t) 1.
Proof.
  intros Hp Hp0 Hb Hname Hv Hn Hfs Hst He Hlen Ht Ha x Hlim Hw. destruct Hname as [b tl i y Hi Hi0 Hy|b l n Hb0 Hl].
  - pose proof (rfc_int_bound _ _ _ _ Hp Hb Hi) as Hib.
    rewrite (parse_int_spec s _ _ _ _ _ Hi) by lia. eexists _, i, _. split; [done|]. split; [lia|].
    unfold literal_next. rewrite (proj2 (Z.eqb_neq i 0)) by lia. set (s1 := s <| len := _ |>).
    assert (Et : table s1 = table s) by by destruct s. rewrite Et. rewrite (get_indexed_is _ t) by (done || lia). cbn [mbind option_bind].
    unfold looked_up. fold (the_table t). rewrite Hy. set (y' := if (_ : bool) then _ else y). assert (Ey : h_name y' = h_name y) by (unfold y'; by case_match).
    clearbody y'. cbn [mbind option_bind]. change (negb (NGX_OK =? NGX_OK)) with false. cbv iota. cbn [mbind option_bind].
    set (s2 := s1 <| header := y' |> <| parse_value := true |>).
    destruct (value_spec 1 s2 lv v e t w Hv) as (s' & E & H); try (by destruct s).
    + unfold s2, s1. destruct s. flat. lia.
    + unfold s2, s1. destruct s. flat. by rewrite Ey.
    + unfold s2, s1. destruct s. flat. by rewrite Ey.
    + assert (header s2 = y') as Eh by by destruct s. rewrite Eh, Ey in H. exists s'. split; [exact E|].
      unfold later in *. unfold s2, s1 in *. destruct s. flat. destruct H as (? & ? & ? & ? & ? & ? & ? & ?). split_and!; try done; lia.
  - assert (Hi : rfc_int prefix 0 b []) by (left; split_and!; [done|done|lia]).
    change (b :: l ++ lv ++ e) with (b :: [] ++ l ++ lv ++ e). rewrite (parse_int_spec s _ _ _ _ _ Hi) by (simpl; lia).
    eexists _, 0, _. split; [done|]. split; [lia|]. unfold literal_next. change (0 =? 0) with true. cbn [mbind option_bind].
    set (s1 := s <| len := _ |>). set (s2 := s1 <| parse_name := true |> <| parse_value := true |>).
    destruct (name_value_spec s2 l n lv v e t w Hl Hv) as (s' & E & H); try (by destruct s).
    + unfold s2, s1. destruct s. flat. simpl in *. lia.
    + exists s'. split; [exact E|]. unfold later in *. unfold s2, s1 in *. destruct s. flat. simpl in *.
      destruct H as (? & ? & ? & ? & ? & ? & ? & ?). split_and!; try done; lia.
Qed.

(** One field of a block. *)
Lemma field_spec (s : state) l x t t1 e w : rfc_field max_field_size t l x t1 -> ready s -> Z.of_nat (length l) <= len s ->
  table_is (table s) t -> added (table s) + 1 < 2 ^ 64 ->
  (match x with Some x => data_len x <= header_limit s /\ take_header (world s) x = Taken w | None => w = world s end) ->
  exists s', ngx_http_v2_state_header_block take_header run_request max_field_size s (l ++ e) = header_complete s' e /\
    later s s' (Z.of_nat (length l)) (match x with Some x => data_len x | None => 0 end) w t1 1.
Proof.
  intros Hl Hr Hlen Ht Ha Hx. pose proof Hr as (Hn & Hpv & Hix & Hfs & Hst & He).
  destruct Hl as [b tl i x Hb Hi Hy|b l n lv v Hb Hname Hv|b l n lv v Hb Hname Hv|b tl n Hb Hi Hn4];
    cbn [app]; unfold ngx_http_v2_state_header_block; rewrite He; cbn [negb andb].
  - destruct Hx as [Hlim Hw]. rewrite (proj2 (Z.leb_le _ _)) by lia.
    rewrite (parse_int_spec s _ _ _ _ _ Hi) by (simpl in *; lia). cbn [mbind option_bind].
    pose proof (rfc_int_bound 0x7f i b tl ltac:(lia) ltac:(lia) Hi) as Hib. rewrite (proj2 (Z.ltb_ge i 0)) by lia.
    set (s1 := s <| len := _ |>). assert (Et : table s1 = table s) by by destruct s. rewrite Et.
    rewrite (get_indexed_is _ t) by (done || lia). unfold looked_up. fold (the_table t). rewrite Hy. cbn [mbind option_bind andb].
    change (negb (NGX_OK =? NGX_OK)) with false. cbv iota. unfold ngx_http_v2_state_process_header.
    rewrite process_header_value by by destruct s.
    destruct (process_complete_spec (s1 <| header := x |>) e x t w) as (s' & -> & H); try (by destruct s).
    { destruct s; simpl in *; by subst. }
    exists s'. split; [done|]. unfold later in *. unfold s1 in *. destruct s. flat. subst index. simpl in *.
    destruct H as (? & ? & ? & ? & ? & ? & ? & ?). split_and!; try done; lia.
  - destruct Hx as [Hlim Hw]. rewrite (proj2 (Z.leb_gt 128 b)), (proj2 (Z.leb_le 64 b)) by lia. set (s0 := s <| index := true |>).
    rewrite <- (assoc_L app). simpl in Hlen. rewrite length_app in Hlen.
    destruct (literal_spec s0 0x3f b l n lv v e t w ltac:(lia) ltac:(lia) ltac:(lia) Hname Hv) as (s1 & value & d & E1 & H0 & s' & E2 & H);
      try (by destruct s).
    rewrite E1. cbn [mbind option_bind]. rewrite (proj2 (Z.ltb_ge value 0)) by lia. fold (literal_next s1 value d). rewrite E2.
    exists s'. split; [done|]. simpl. rewrite length_app. unfold s0 in *. by destruct s.
  - destruct Hx as [Hlim Hw]. rewrite (proj2 (Z.leb_gt 128 b)), (proj2 (Z.leb_gt 64 b)), (proj2 (Z.leb_gt 32 b)) by lia.
    rewrite <- (assoc_L app). simpl in Hlen. rewrite length_app in Hlen.
    destruct (literal_spec s 0xf b l n lv v e t w ltac:(lia) ltac:(lia) ltac:(lia) Hname Hv) as (s1 & value & d & E1 & H0 & s' & E2 & H);
      try (by destruct s).
    rewrite E1. cbn [mbind option_bind]. rewrite (proj2 (Z.ltb_ge value 0)) by lia. fold (literal_next s1 value d). rewrite E2.
    exists s'. split; [done|]. simpl. rewrite length_app. by rewrite Hix in H.
  - rewrite (proj2 (Z.leb_gt 128 b)), (proj2 (Z.leb_gt 64 b)), (proj2 (Z.leb_le 32 b)) by lia.
    rewrite (parse_int_spec s _ _ _ _ _ Hi) by (simpl in *; lia). cbn [mbind option_bind].
    pose proof (rfc_int_bound 0x1f n b tl ltac:(lia) ltac:(lia) Hi) as Hib. rewrite (proj2 (Z.ltb_ge n 0)) by lia.
    set (s1 := s <| len := _ |>). assert (Et : table s1 = table s) by by destruct s. rewrite Et.
    destruct (table_size_is (table s) t n Ht ltac:(lia) ltac:(lia)) as (h' & -> & Ht' & Ha'). cbn [mbind option_bind].
    change (negb (NGX_OK =? NGX_OK)) with false. cbv iota. eexists. split; [done|]. unfold later, ready in *. unfold s1. destruct s. flat. simpl in *.
    split_and!; try done; lia.
Qed.
(** ** Blocks *)

(** The request takes the headers one after the other. *)
Inductive takes : W -> list v2_header -> W -> Prop :=
  | takes_none w : takes w [] w
  | takes_one w x w1 hs w2 : take_header w x = Taken w1 -> takes w1 hs w2 -> takes w (x :: hs) w2.

Lemma rfc_field_length limit t l x t1 : rfc_field limit t l x t1 -> (0 < length l)%nat.
Proof. intros []; simpl; lia. Qed.

Lemma rfc_block_nil limit t d hs t' : rfc_block limit t d hs t' -> d = [] -> hs = [] /\ t' = t.
Proof.
  intros [|? l ? ? ? ? ? Hl _]; [done|]. intros E. apply (f_equal length) in E. rewrite length_app in E.
  apply rfc_field_length in Hl. simpl in E. lia.
Qed.

(** The end of a block: the padding is skipped. *)
Lemma header_complete_end (s : state) pad e : len s = 0 -> end_headers s = true -> stream s = true -> padding s = Z.of_nat (length pad) ->
  exists s', header_complete s (pad ++ e) = Some (Goes s' e) /\
    next_handler s' = StateHead /\ world s' = run_request (world s) /\ table s' = table s /\ buffer s' = buffer s.
Proof.
  intros Hl He Hs Hp. unfold ngx_http_v2_state_header_complete. rewrite Hl, He, Hs. change (negb (0 =? 0)) with false. cbn [negb].
  destruct s. flat. subst. destruct (Z.eqb_spec (Z.of_nat (length pad)) 0) as [E|E]; cbn [negb].
  - destruct pad; [|simpl in E; lia]. eexists. split; [done|]. by flat.
  - unfold ngx_http_v2_state_skip_padded, ngx_http_v2_state_skip, ngx_http_v2_state_complete. flat.
    rewrite length_app, (proj2 (Z.ltb_ge _ _)) by lia. rewrite Z.add_0_l, Nat2Z.id, drop_app_length.
    eexists. split; [done|]. by flat.
Qed.

Lemma block_run t d hs t' : rfc_block max_field_size t d hs t' -> forall (s : state) pad e w rounds,
  d <> [] -> next_handler s = HeaderBlock -> ready s -> len s = Z.of_nat (length d) -> padding s = Z.of_nat (length pad) ->
  table_is (table s) t -> added (table s) + Z.of_nat (length d) < 2 ^ 64 ->
  data_total hs <= header_limit s -> takes (world s) hs w -> (length d <= rounds)%nat ->
  exists s', handle_all take_header run_request max_field_size rounds s (d ++ pad ++ e) = Some (Goes s' e) /\
    next_handler s' = StateHead /\ world s' = run_request w /\ table_is (table s') t' /\ buffer s' = buffer s.
Proof.
  induction 1 as [|t l x t1 d hs t2 Hl Hd IH]; intros s pad e w rounds Hne Hh Hr Hlen Hp Ht Ha Hlim Hw Hrd; [done|].
  pose proof (rfc_field_length _ _ _ _ _ Hl) as Hpos. rewrite length_app in Hlen, Ha, Hrd. rewrite <- (assoc_L app).
  destruct rounds as [|rounds]; [lia|]. cbn [handle_all]. rewrite Hh. rewrite bool_decide_eq_false_2 by done.
  unfold handle. rewrite Hh.
  assert (Hx : exists w1, match x with Some x => data_len x <= header_limit s /\ take_header (world s) x = Taken w1 | None => w1 = world s end /\
    takes w1 hs w /\ data_total hs + (match x with Some x => data_len x | None => 0 end) <= header_limit s).
  { destruct x as [x|]; simpl in Hw, Hlim.
    - inversion Hw as [|? ? w1 ? ? Ew Hw1]; subst. exists w1. pose proof (table_total_data hs). split_and!; try done; lia.
    - exists (world s). split_and!; try done; lia. }
  destruct Hx as (w1 & Hx & Hw1 & Hlim1).
  destruct (field_spec s l x t t1 (d ++ pad ++ e) w1 Hl Hr ltac:(lia) Ht ltac:(lia) Hx) as (s1 & -> & Hr1 & Hl1 & Hlim2 & Hp1 & Hb1 & Hw1' & Ht1 & Ha1).
  destruct d as [|c d].
  - destruct (rfc_block_nil _ _ _ _ _ Hd eq_refl) as [-> ->]. inversion Hw1; subst. cbn [app].
    destruct Hr1 as (_ & _ & _ & _ & Hs1 & He1).
    destruct (header_complete_end s1 pad e) as (s' & -> & E1 & E2 & E3 & E4); [simpl in *; lia|done|done|lia|].
    cbn [mbind option_bind]. exists s'. rewrite E2, E3, E4.
    assert (Hall : handle_all take_header run_request max_field_size rounds s' e = Some (Goes s' e)) by (destruct rounds; cbn [handle_all]; by rewrite bool_decide_eq_true_2 by done).
    split_and!; try done. by destruct e.
  - set (s2 := s1 <| next_handler := HeaderBlock |>).
    assert (E : header_complete s1 ((c :: d) ++ pad ++ e) = Some (Goes s2 ((c :: d) ++ pad ++ e))).
    { unfold ngx_http_v2_state_header_complete. rewrite (proj2 (Z.eqb_neq (len s1) 0)) by (simpl in *; lia). done. }
    rewrite E. cbn [mbind option_bind app].
    destruct (IH s2 pad e w rounds) as (s' & E' & H'); try (by destruct s1); try (unfold s2; destruct s1; flat; simpl in *; lia).
    { unfold s2; destruct s1; flat; simpl in *; by subst. }
    exists s'. split; [exact E'|]. rewrite <- Hb1. unfold s2 in H'. by destruct s1.
Qed.
End Meaning.
