(* ===== verification/Http2HpackResume.v ===== *)
(** * Header blocks of HTTP/2: any cutting into reads

    A block that comes in pieces is read as one that comes at once. *)

From S2P Require Import Prelude NgxBits Http2Huff Http2Table Http2TableSpec Http2Hpack Http2HpackSpec.

#[local] Abbreviation length := (@List.length _).

Section Resume.
Context {W : Type} (take_header : W -> v2_header -> taken W) (run_request : W -> W) (max_field_size : Z).
Abbreviation state := (@v2_state W).
Abbreviation outcome := (@outcome W).
Abbreviation PH := (ngx_http_v2_state_process_header take_header run_request max_field_size).
Abbreviation handle := (handle take_header run_request max_field_size).
Abbreviation header_complete := (ngx_http_v2_state_header_complete run_request).

Definition sane (s : state) : Prop := 0 <= len s /\ 0 <= field_rest s /\ 0 <= padding s.

(** What was saved comes before what is received next. *)
Definition goes_on (s : state) (e : list Z) : option outcome := handle (s <| buffer := [] |>) (buffer s ++ e).

(** When the block has ended, [state.length] is of no use any more. *)
Definition same (r r' : option outcome) : Prop :=
  r = r' \/ exists s s' d, r = Some (Goes s d) /\ r' = Some (Goes s' d) /\ next_handler s = StateHead /\ next_handler s' = StateHead /\
              s <| len := 0 |> = s' <| len := 0 |>.

(** [f] with [e] after [d]: it ends as without, with [e] left; or it had saved
    the state, and goes on from there. *)
Definition resumes (f : state -> list Z -> option outcome) (s : state) (d e : list Z) : Prop :=
  match f s d with
  | None => f s (d ++ e) = None
  | Some (Stops err) => f s (d ++ e) = Some (Stops err)
  | Some (Goes s' d') =>
      sane s' /\
      ((buffer s' = [] /\ bytes d' /\ f s (d ++ e) = Some (Goes s' (d' ++ e))) \/
       (d' = [] /\ next_handler s' <> StateHead /\ bytes (buffer s') /\ same (f s (d ++ e)) (goes_on s' e)))
  end.

(** The functions do not look at the handler that is to be called next. *)
Definition ignores (f : state -> list Z -> option outcome) : Prop := forall s h d, f (s <| next_handler := h |>) d = f s d.

(** ** Continuations *)

Lemma be_value_nonneg l : bytes l -> 0 <= be_value l.
Proof.
  unfold be_value. assert (H : forall z, 0 <= z -> bytes l -> 0 <= foldl (fun z c => z * 256 + c) z l).
  { induction l as [|c l IH]; intros z Hz Hl; [done|]. apply Forall_cons in Hl as [Hc Hl]. unfold is_byte in Hc. simpl. apply IH; [lia|done]. }
  by apply H.
Qed.

Lemma continuation_padding_app (s : state) d e : sane s ->
  let (s1, d1) := continuation_padding s d in
  continuation_padding s (d ++ e) = continuation_padding s1 (d1 ++ e) /\
  ((Z.to_nat (len s) + NGX_HTTP_V2_FRAME_HEADER_SIZE <= length d1)%nat -> continuation_padding s (d ++ e) = (s1, d1 ++ e)) /\
  s1 = s <| padding := padding s1 |> /\ 0 <= padding s1 /\ (bytes d -> bytes d1).
Proof.
  unfold sane, NGX_HTTP_V2_FRAME_HEADER_SIZE. intros (Hl & _ & Hp). unfold continuation_padding. destruct s. flat.
  destruct (Z.eqb_spec padding 0) as [->|Hp0]; cbn [negb andb].
  { flat. cbn [negb andb Z.eqb]. done. }
  destruct (Z.ltb_spec len (Z.of_nat (length d))) as [Hd|Hd].
  2: { flat. destruct (Z.eqb_spec padding 0); [done|]. cbn [negb andb]. split_and!; try done. lia. }
  set (l := Z.to_nat len). assert (El : Z.of_nat l = len) by (unfold l; lia).
  flat. rewrite length_app, (proj2 (Z.ltb_lt len (Z.of_nat (length d + length e)))) by lia.
  rewrite !length_app, length_take, length_drop.
  destruct (Z.leb_spec padding (Z.of_nat (length d) - len)) as [Hle|Hle].
  - rewrite (Z.min_l padding (Z.of_nat (length d) - len)), Z.sub_diag by done. change (negb (0 =? 0)) with false. cbn [andb].
    rewrite Z.min_l by lia. rewrite Z.sub_diag. assert (E : take l (d ++ e) ++ drop (l + Z.to_nat padding) (d ++ e) = (take l d ++ drop (l + Z.to_nat padding) d) ++ e).
    { rewrite take_app_le, drop_app_le by lia. by rewrite (assoc_L app). }
    rewrite E. split_and!; try done. intros Hb. apply Forall_app_2; [by apply Forall_take|by apply Forall_drop].
  - rewrite (Z.min_r padding (Z.of_nat (length d) - len)) by lia. set (skip := Z.of_nat (length d) - len).
    rewrite (proj2 (Z.eqb_neq (padding - skip) 0)) by lia. cbn [negb andb].
    rewrite (drop_ge d) by lia. rewrite app_nil_r. replace (length d - (l + Z.to_nat skip))%nat with 0%nat by lia.
    rewrite Nat.add_0_r, Nat.min_l by lia.
    split_and!; try done; try lia.
    2: { intros Hb. by apply Forall_take. }
    destruct (Z.ltb_spec len (Z.of_nat (l + length e))) as [He|He].
    + f_equal; [f_equal; lia|]. rewrite take_app_le, (take_app_le (take l d)), take_take, Nat.min_id by (rewrite ?length_take; lia). f_equal.
      rewrite !drop_app, (drop_ge d), (drop_ge (take l d)) by (rewrite ?length_take; lia). rewrite length_take. cbn [app]. f_equal. lia.
    + destruct e; [|simpl in He; lia]. rewrite !app_nil_r. cbn [length]. rewrite Nat.add_0_r.
      rewrite (drop_ge d), app_nil_r by lia. f_equal. f_equal. lia.
Qed.
Lemma continuation_ignores h0 : ignores (fun s d => ngx_http_v2_handle_continuation s d h0).
Proof.
  intros s h d. unfold ngx_http_v2_handle_continuation, continuation_padding, ngx_http_v2_state_save. destruct s. flat.
  destruct (_ && _); flat; (destruct (_ <? _)%nat; [by destruct (_ <? _)|]); (destruct (negb _); [done|]); (destruct (_ !! _); [|done]); done.
Qed.

(** A state between two reads whose handler is [h]. *)
Definition saved_as (f : state -> list Z -> option outcome) (h : handler) : Prop :=
  forall s d, next_handler s = h -> handle s d = f s d.

Lemma resumes_goes (f : state -> list Z -> option outcome) s d e s' d' : f s d = Some (Goes s' d') -> sane s' -> buffer s' = [] -> bytes d' ->
  f s (d ++ e) = Some (Goes s' (d' ++ e)) -> resumes f s d e.
Proof. intros E Hs Hb Hd E'. unfold resumes. rewrite E. split; [done|]. by left. Qed.

Lemma resumes_stops (f : state -> list Z -> option outcome) s d e err : f s d = Some (Stops err) -> f s (d ++ e) = Some (Stops err) -> resumes f s d e.
Proof. intros E E'. unfold resumes. by rewrite E. Qed.

Lemma resumes_saved (f : state -> list Z -> option outcome) s d e s1 d1 h : f s d = Some (ngx_http_v2_state_save s1 d1 h) ->
  (length d1 <= 16)%nat -> sane s1 -> bytes d1 -> h <> StateHead ->
  same (f s (d ++ e)) (handle (s1 <| buffer := [] |> <| next_handler := h |>) (d1 ++ e)) -> resumes f s d e.
Proof.
  intros E Hl Hs Hd Hh E'. unfold resumes. rewrite E. unfold ngx_http_v2_state_save, NGX_HTTP_V2_STATE_BUFFER_SIZE.
  rewrite (proj2 (Z.ltb_ge _ _)) by lia. split; [by destruct s1|]. right. split_and!; by destruct s1.
Qed.

Lemma continuation_resumes h (s : state) d e : sane s -> len s < 8 -> buffer s = [] -> bytes d -> e <> [] -> h <> StateHead ->
  (forall s1 x, s1 = s <| padding := padding s1 |> -> x <> [] ->
     handle (s1 <| next_handler := h |>) x = ngx_http_v2_handle_continuation s1 x h) ->
  resumes (fun s d => ngx_http_v2_handle_continuation s d h) s d e.
Proof.
  intros Hs Hl Hb Hd He Hh Hf.
  pose proof (continuation_padding_app s d e Hs) as H. destruct (continuation_padding s d) as [s1 d1] eqn:E1.
  destruct H as (H1 & H2 & Es1 & Hp1 & Hd1). specialize (Hd1 Hd).
  assert (Hl1 : len s1 = len s) by (rewrite Es1; by destruct s). assert (Hsn1 : sane s1) by (rewrite Es1; destruct Hs as (? & ? & ?); by destruct s).
  assert (Hb1 : buffer s1 = []) by (rewrite Es1; by destruct s).
  destruct (length d1 <? Z.to_nat (len s1) + NGX_HTTP_V2_FRAME_HEADER_SIZE)%nat eqn:Elt.
  - apply (resumes_saved _ _ _ _ s1 d1 h); try done.
    + unfold ngx_http_v2_handle_continuation. by rewrite E1, Elt.
    + apply Nat.ltb_lt in Elt. unfold NGX_HTTP_V2_FRAME_HEADER_SIZE in Elt. lia.
    + left. assert (Eb : s1 <| buffer := [] |> = s1) by (rewrite <- Hb1; by destruct s1). rewrite Eb, Hf.
      * unfold ngx_http_v2_handle_continuation. by rewrite H1.
      * done.
      * by intros [_ ?]%app_eq_nil.
  - apply Nat.ltb_ge in Elt. rewrite Hl1 in Elt. specialize (H2 Elt). unfold resumes, ngx_http_v2_handle_continuation.
    rewrite E1, H2, Hl1. rewrite !(proj2 (Nat.ltb_ge _ _)) by (rewrite ?length_app; lia).
    unfold NGX_HTTP_V2_FRAME_HEADER_SIZE in *. set (l := Z.to_nat (len s)) in *. cbv zeta.
    assert (Ed : drop l (d1 ++ e) = drop l d1 ++ e) by (by rewrite drop_app_le by lia).
    rewrite Ed, (take_app_le (drop l d1) e 4) by (rewrite length_drop; lia). destruct (negb _); [done|].
    rewrite lookup_app_l by (rewrite length_drop; lia). destruct (drop l d1 !! 4%nat) as [f|] eqn:Ef; [|done]. cbn [mbind option_bind].
    rewrite (drop_app_le (drop l d1)) by (rewrite length_drop; lia). rewrite (take_app_le (drop 5 (drop l d1))) by (rewrite !length_drop; lia).
    destruct (negb _); [done|]. cbn [mbind option_bind]. rewrite take_app_le, (drop_app_le d1) by lia.
    assert (0 <= Z.shiftr (be_value (take 4 (drop l d1))) 8) by (apply Z.shiftr_nonneg, be_value_nonneg, Forall_take, Forall_drop, Hd1).
    split; [|left; split_and!].
    + destruct Hsn1 as (? & ? & ?). unfold sane. destruct s1. flat. lia.
    + by destruct s1.
    + apply Forall_app_2; [by apply Forall_take|by apply Forall_drop].
    + by rewrite (assoc_L app).
Qed.

(** ** The end of a header *)

Lemma skip_resumes (s : state) d e : sane s -> buffer s = [] -> bytes d -> e <> [] ->
  resumes (fun s d => Some (ngx_http_v2_state_skip s d)) s d e.
Proof.
  intros (Hl & Hr & Hp) Hb Hd He. destruct (Z.ltb_spec (Z.of_nat (length d)) (len s)) as [Hlt|Hge].
  - apply (resumes_saved _ _ _ _ (s <| len := len s - Z.of_nat (length d) |>) [] StateSkip); try done.
    + unfold ngx_http_v2_state_skip. by rewrite (proj2 (Z.ltb_lt _ _)).
    + simpl. lia.
    + unfold sane. destruct s. flat. lia.
    + unfold Http2Hpack.handle, ngx_http_v2_state_skip, ngx_http_v2_state_complete, ngx_http_v2_state_save. destruct s. flat. cbn [app].
      rewrite length_app. rewrite (ltb_ext _ _ (Z.of_nat (length e)) (len - Z.of_nat (length d))) by lia. subst.
      destruct (Z.ltb_spec (Z.of_nat (length e)) (len - Z.of_nat (length d))); flat.
      * left. do 3 f_equal. lia.
      * right. rewrite drop_app, (drop_ge d) by lia. cbn [app]. replace (Z.to_nat len - length d)%nat with (Z.to_nat (len - Z.of_nat (length d))) by lia.
        eexists _, _, _. by split_and!.
  - apply (resumes_goes _ _ _ _ (s <| stream := false |> <| next_handler := StateHead |>) (drop (Z.to_nat (len s)) d)).
    + unfold ngx_http_v2_state_skip. by rewrite (proj2 (Z.ltb_ge _ _)).
    + by destruct s.
    + by destruct s.
    + by apply Forall_drop.
    + unfold ngx_http_v2_state_skip. rewrite (proj2 (Z.ltb_ge _ _)) by (rewrite length_app; lia). by rewrite drop_app_le by lia.
Qed.

(** What a function does after its own changes to the state. *)
Lemma resumes_after (f g : state -> list Z -> option outcome) s d e s1 d1 : (forall x, x = [] \/ x = e -> f s (d ++ x) = g s1 (d1 ++ x)) ->
  resumes g s1 d1 e -> resumes f s d e.
Proof.
  intros H Hg. pose proof (H [] (or_introl eq_refl)) as E0. pose proof (H e (or_intror eq_refl)) as E1. rewrite !app_nil_r in E0.
  unfold resumes in *. by rewrite E0, E1.
Qed.

Lemma header_complete_resumes (s : state) d e : sane s -> buffer s = [] -> bytes d -> e <> [] -> resumes header_complete s d e.
Proof.
  intros Hs Hb Hd He. destruct (Z.eqb_spec (len s) 0) as [E0|E0].
  2: { apply (resumes_goes _ _ _ _ (s <| next_handler := HeaderBlock |>) d); try (by destruct s); unfold ngx_http_v2_state_header_complete; by rewrite (proj2 (Z.eqb_neq _ _)). }
  destruct (end_headers s) eqn:Ee.
  2: { apply (resumes_after _ (fun s d => ngx_http_v2_handle_continuation s d HeaderComplete) s d e s d).
       { intros x _. unfold ngx_http_v2_state_header_complete. by rewrite E0, Ee. }
       apply continuation_resumes; try done; [lia|]. intros s1 x Es1 Hx.
       change (header_complete (s1 <| next_handler := HeaderComplete |>) x = ngx_http_v2_handle_continuation s1 x HeaderComplete).
       rewrite <- (continuation_ignores HeaderComplete s1 HeaderComplete x). unfold ngx_http_v2_state_header_complete.
       rewrite Es1. destruct s. unfold end_headers in *. flat. by rewrite E0, Ee. }
  set (s1 := if stream s then s <| world := run_request (world s) |> else s).
  assert (Hs1 : sane s1 /\ buffer s1 = [] /\ padding s1 = padding s /\ len s1 = 0) by (unfold s1, sane in *; destruct (stream s); destruct s; flat; done).
  destruct Hs1 as (Hs1 & Hb1 & Hp1 & Hl1). destruct (Z.eqb_spec (padding s) 0) as [Ep|Ep].
  - apply (resumes_goes _ _ _ _ (s1 <| stream := false |> <| next_handler := StateHead |>) d); try (by destruct s1);
      unfold ngx_http_v2_state_header_complete; rewrite E0, Ee; cbn [negb]; fold s1; by rewrite Hp1, Ep.
  - apply (resumes_after _ (fun s d => Some (ngx_http_v2_state_skip s d)) s d e (s1 <| len := len s1 + padding s1 |> <| padding := 0 |>) d).
    + intros x _. unfold ngx_http_v2_state_header_complete. rewrite E0, Ee. cbn [negb]. fold s1. assert (negb (padding s1 =? 0) = true) as -> by by rewrite Hp1, (proj2 (Z.eqb_neq (padding s) 0)). done.
    + apply skip_resumes; try done. unfold sane in *. destruct s1. flat. lia.
Qed.

Lemma header_complete_ignores : ignores header_complete.
Proof.
  intros s h d. unfold ngx_http_v2_state_header_complete. change (len (s <| next_handler := h |>)) with (len s).
  change (end_headers (s <| next_handler := h |>)) with (end_headers s). destruct (negb (len s =? 0)); [by destruct s|].
  destruct (negb (end_headers s)); [apply continuation_ignores|].
  unfold ngx_http_v2_state_skip_padded, ngx_http_v2_state_skip, ngx_http_v2_state_complete, ngx_http_v2_state_save. destruct s. flat.
  destruct stream; flat; (destruct (negb _); [|done]); by destruct (_ <? _).
Qed.
(** ** Headers and strings *)

Abbreviation process_complete := (process_complete take_header run_request).
Abbreviation field_len := (ngx_http_v2_state_field_len max_field_size).

(** The frame that is read. *)
Definition framed (s : state) (l fl p : Z) : state := s <| len := l |> <| flags := fl |> <| padding := p |>.

(** A function that looks at the state, but for the frame, and then does as
    [g], with the same frame and nothing saved. *)
Definition same_frame (s s' : state) : Prop :=
  sid s' = sid s /\ len s' = len s /\ flags s' = flags s /\ padding s' = padding s /\ field_rest s' = field_rest s /\ buffer s' = buffer s.
Definition leads_to (f g : state -> list Z -> option outcome) (s : state) : Prop :=
  (exists s', same_frame s s' /\ forall l fl p d, f (framed s l fl p) d = g (framed s' l fl p) d) \/
  (forall l fl p d, f (framed s l fl p) d = None) \/ (exists err, forall l fl p d, f (framed s l fl p) d = Some (Stops err)).

Lemma framed_same (s s' : state) : same_frame s s' -> framed s' (len s) (flags s) (padding s) = s'.
Proof. intros (_ & <- & <- & <- & _). by destruct s'. Qed.

Lemma leads_to_goes (f g : state -> list Z -> option outcome) s : leads_to f g s ->
  (exists s', same_frame s s' /\ forall d, f s d = g s' d) \/ (forall d, f s d = None) \/ (exists err, forall d, f s d = Some (Stops err)).
Proof.
  assert (Es : framed s (len s) (flags s) (padding s) = s) by by destruct s.
  intros [(s' & Hs & H)|[H|(err & H)]].
  - left. exists s'. split; [done|]. intros d. specialize (H (len s) (flags s) (padding s) d). by rewrite Es, (framed_same s s') in H.
  - right. left. intros d. by rewrite <- (H (len s) (flags s) (padding s) d), Es.
  - right. right. exists err. intros d. by rewrite <- (H (len s) (flags s) (padding s) d), Es.
Qed.

Lemma leads_to_resumes (f g : state -> list Z -> option outcome) s d e : leads_to f g s -> sane s -> buffer s = [] ->
  (forall s', sane s' -> buffer s' = [] -> resumes g s' d e) -> resumes f s d e.
Proof.
  intros [(s' & (_ & E1 & _ & E2 & E3 & E4) & H)|[H|(err & H)]]%leads_to_goes (Hl & Hr & Hp) Hb Hg.
  - apply (resumes_after f g s d e s' d); [intros; apply H|]. apply Hg; [|congruence]. unfold sane. by rewrite E1, E2, E3.
  - unfold resumes. by rewrite !H.
  - by apply (resumes_stops _ _ _ _ err).
Qed.

Lemma process_complete_leads s : leads_to process_complete header_complete s.
Proof.
  unfold leads_to, Http2Hpack.process_complete, framed. destruct s. destruct parse_value; flat;
    (destruct (_ <? _); [right; right; by eexists|]); destruct index; flat;
    (try (destruct (ngx_http_v2_add_header _ _) as [[rc t]|]; [|by right; left])); cbn [mbind option_bind]; flat;
    (destruct stream; cbn [negb]; [destruct (take_header _ _) as [w|w|err]; [| |by right; right; eexists]|]);
    left; eexists (State _ _ _ _ _ _ _ _ _ _ _ _ _ _ _ _ _ _); (split; [|intros l fl p d; flat; reflexivity]); by unfold same_frame.
Qed.

Lemma process_complete_resumes (s : state) d e : sane s -> buffer s = [] -> bytes d -> e <> [] -> resumes process_complete s d e.
Proof.
  intros Hs Hb Hd He. apply (leads_to_resumes _ _ _ _ _ (process_complete_leads s) Hs Hb).
  intros s' Hs' Hb'. by apply header_complete_resumes.
Qed.

Lemma process_complete_ignores : ignores process_complete.
Proof.
  intros s h d. unfold Http2Hpack.process_complete. destruct s. destruct parse_value; flat;
    (destruct (_ <? _); [done|]); destruct index; flat;
    (try (destruct (ngx_http_v2_add_header _ _) as [[rc t]|]; [|done])); cbn [mbind option_bind]; flat;
    (destruct stream; cbn [negb]; [destruct (take_header _ _) as [w|w|err]; [| |done]|]); flat;
    match goal with |- _ = header_complete ?s0 d => exact (header_complete_ignores s0 h d) end.
Qed.

(** The functions that read a string call [next] in states whose name is as
    complete as it was. *)
Definition agree (b : bool) (n1 n2 : state -> list Z -> option outcome) : Prop := forall s d, parse_name s = b -> n1 s d = n2 s d.

Lemma after_piece_agree b n1 n2 h s d : agree b n1 n2 -> parse_name s = b -> after_piece n1 s d h = after_piece n2 s d h.
Proof. intros H Hb. unfold after_piece. by rewrite (H s d Hb). Qed.

Lemma field_huff_agree b n1 n2 s d : agree b n1 n2 -> parse_name s = b -> ngx_http_v2_state_field_huff n1 s d = ngx_http_v2_state_field_huff n2 s d.
Proof.
  intros H Hb. unfold ngx_http_v2_state_field_huff. destruct s. flat. destruct (ngx_http_v2_huff_decode _ _ _ _) as [[rc st] f]. flat.
  destruct (fits _); [|done]. cbn [mbind option_bind]. destruct (negb _); [done|]. by apply (after_piece_agree b).
Qed.

Lemma field_raw_agree b n1 n2 s d : agree b n1 n2 -> parse_name s = b -> ngx_http_v2_state_field_raw n1 s d = ngx_http_v2_state_field_raw n2 s d.
Proof.
  intros H Hb. unfold ngx_http_v2_state_field_raw. destruct s. flat. destruct (fits _); [|done]. cbn [mbind option_bind]. by apply (after_piece_agree b).
Qed.

Lemma field_skip_agree b n1 n2 s d : agree b n1 n2 -> parse_name s = b -> ngx_http_v2_state_field_skip n1 s d = ngx_http_v2_state_field_skip n2 s d.
Proof. intros H Hb. unfold ngx_http_v2_state_field_skip. destruct s. flat. by apply (after_piece_agree b). Qed.

Lemma parse_int_frame (s : state) d p v s' d' : ngx_http_v2_parse_int s d p = Some (v, s', d') -> s' = s <| len := len s' |>.
Proof.
  unfold ngx_http_v2_parse_int. destruct d as [|ch d]; [done|]. intros H. destruct s. repeat case_match; simplify_eq; done.
Qed.

Lemma field_len_agree b n1 n2 s d : agree b n1 n2 -> parse_name s = b -> field_len n1 s d = field_len n2 s d.
Proof.
  intros H Hb. unfold ngx_http_v2_state_field_len. destruct (negb _ && _); [done|]. destruct (_ <? 1); [done|]. destruct d as [|ch d]; [done|].
  destruct (ngx_http_v2_parse_int s (ch :: d) 0x7f) as [[[v s'] d']|] eqn:E; cbn [mbind option_bind]; [|done]. apply parse_int_frame in E.
  destruct (v <? 0); [done|]. destruct (max_field_size <? v); [done|].
  assert (Hb' : parse_name s' = b) by (rewrite E; by destruct s). clear E. destruct s'. flat.
  destruct (negb stream && negb index); [by apply (field_skip_agree b)|].
  destruct (negb (_ =? 0)); [by apply (field_huff_agree b)|by apply (field_raw_agree b)].
Qed.

Lemma process_header_0 : agree false (process_header take_header run_request max_field_size 0) PH.
Proof. intros s d H. unfold ngx_http_v2_state_process_header. cbn [process_header]. by rewrite H. Qed.

Lemma PH_eq s d : PH s d =
  if parse_name s then field_len PH (s <| parse_name := false |> <| header := Header (field s) (h_value (header s)) |>) d
  else process_complete s d.
Proof.
  unfold ngx_http_v2_state_process_header at 1. cbn [process_header]. destruct (parse_name s); [|done].
  apply (field_len_agree false); [apply process_header_0|by destruct s].
Qed.

(** ** Strings

    The three functions that read a string do the same, apart from what becomes
    of a piece: nothing, an error, or the state of the decoder and the string
    so far. *)

Definition eater := Z -> Z -> list Z -> list Z -> bool -> option (option (Z * list Z)).

Definition string_reader (eat : eater) (h : handler) (next : state -> list Z -> option outcome) (s : state) (d : list Z) : option outcome :=
  let size := piece s d in
  let s := s <| len := len s - size |> <| field_rest := field_rest s - size |> in
  r ← eat (field_alloc s) (field_state s) (field s) (take (Z.to_nat size) d) (field_rest s =? 0);
  match r with
  | None => Some (Stops NGX_HTTP_V2_COMP_ERROR)
  | Some (st, f) => after_piece next (s <| field_state := st |> <| field := f |>) (drop (Z.to_nat size) d) h
  end.

Definition eat_huff : eater := fun a st f x last =>
  let '(rc, st, f) := ngx_http_v2_huff_decode st x f last in
  if Z.of_nat (length f) <? a then if negb (rc =? NGX_OK) then Some None else Some (Some (st, f)) else None.
Definition eat_raw : eater := fun a st f x last =>
  if Z.of_nat (length (f ++ x)) <? a then Some (Some (st, f ++ x)) else None.
Definition eat_skip : eater := fun a st f x last => Some (Some (st, f)).

(** A string may be eaten in two pieces, and nothing may be eaten after the
    first. *)
Definition two_bites (eat : eater) : Prop := forall a st f x,
  match eat a st f x false with
  | None => forall y last, y <> [] -> eat a st f (x ++ y) last = None
  | Some None => forall y last, y <> [] -> eat a st f (x ++ y) last = Some None
  | Some (Some (st1, f1)) => eat a st1 f1 [] false = Some (Some (st1, f1)) /\ forall y last, y <> [] -> eat a st f (x ++ y) last = eat a st1 f1 y last
  end.

Lemma huff_decode_grows st x f last : (length f <= length (ngx_http_v2_huff_decode st x f last).2)%nat.
Proof.
  assert (H1 : forall st en n f, (length f <= length (ngx_http_v2_huff_decode_bits st en n f).2)%nat).
  { intros. unfold ngx_http_v2_huff_decode_bits. destruct (_ =? _); simpl; [lia|]. destruct (negb _); rewrite ?length_app; simpl; lia. }
  assert (H : forall x st en f, (length f <= length (huff_decode_loop st en x f).2)%nat).
  { clear -H1. induction x as [|c x IH]; intros st en f; [done|]. cbn [huff_decode_loop].
    pose proof (H1 st en (Z.shiftr c 4) f) as Ha. destruct (ngx_http_v2_huff_decode_bits st en _ f) as [[[rc st1] en1] f1]. destruct (negb (rc =? NGX_OK)); [done|].
    pose proof (H1 st1 en1 (Z.land c 0xf) f1) as Hb. destruct (ngx_http_v2_huff_decode_bits st1 en1 _ f1) as [[[rc2 st2] en2] f2]. simpl in *.
    destruct (negb (rc2 =? NGX_OK)); simpl; [lia|]. specialize (IH st2 en2 f2). lia. }
  unfold ngx_http_v2_huff_decode. specialize (H x st 1 f). destruct (huff_decode_loop st 1 x f) as [[[rc st1] en1] f1].
  destruct (negb _); [done|]. destruct last; [|done]. by destruct (_ =? _).
Qed.

Lemma eat_huff_bites : two_bites eat_huff.
Proof.
  intros a st f x. unfold eat_huff. destruct (ngx_http_v2_huff_decode st x f false) as [[rc st1] f1] eqn:E.
  assert (Happ : forall y last, y <> [] -> ngx_http_v2_huff_decode st (x ++ y) f last =
    if negb (rc =? NGX_OK) then (rc, st1, f1) else ngx_http_v2_huff_decode st1 y f1 last).
  { intros y last Hy. rewrite ngx_http_v2_huff_decode_app by done. by rewrite E. }
  destruct (Z.ltb_spec (Z.of_nat (length f1)) a) as [Ha|Ha]; destruct (negb (rc =? NGX_OK)) eqn:Er.
  - intros y last Hy. rewrite Happ by done. by rewrite (proj2 (Z.ltb_lt _ _)), Er by done.
  - split; [|intros y last Hy; by rewrite Happ by done]. unfold ngx_http_v2_huff_decode. cbn [huff_decode_loop].
    change (negb (NGX_OK =? NGX_OK)) with false. cbv iota. by rewrite (proj2 (Z.ltb_lt _ _)) by done.
  - intros y last Hy. rewrite Happ by done. by rewrite (proj2 (Z.ltb_ge _ _)) by done.
  - intros y last Hy. rewrite Happ by done. pose proof (huff_decode_grows st1 y f1 last) as Hg.
    destruct (ngx_http_v2_huff_decode st1 y f1 last) as [[rc2 st2] f2]. simpl in Hg. by rewrite (proj2 (Z.ltb_ge _ _)) by lia.
Qed.

Lemma eat_raw_bites : two_bites eat_raw.
Proof.
  intros a st f x. unfold eat_raw. destruct (Z.ltb_spec (Z.of_nat (length (f ++ x))) a) as [Ha|Ha].
  - rewrite app_nil_r, (proj2 (Z.ltb_lt _ _)) by done. split; [done|]. intros y last _. by rewrite (assoc_L app).
  - intros y last _. rewrite (assoc_L app), length_app, (proj2 (Z.ltb_ge _ _)) by lia. done.
Qed.

Lemma eat_skip_bites : two_bites eat_skip.
Proof. done. Qed.

Lemma field_huff_reader next s d : ngx_http_v2_state_field_huff next s d = string_reader eat_huff FieldHuff next s d.
Proof.
  unfold ngx_http_v2_state_field_huff, string_reader, eat_huff, fits. destruct s. flat.
  destruct (ngx_http_v2_huff_decode _ _ _ _) as [[rc st] f]. flat. destruct (_ <? _); [|done]. cbn [mbind option_bind]. by destruct (negb _).
Qed.

Lemma field_raw_reader next s d : ngx_http_v2_state_field_raw next s d = string_reader eat_raw FieldRaw next s d.
Proof.
  unfold ngx_http_v2_state_field_raw, string_reader, eat_raw, fits. destruct s. flat. by destruct (_ <? _).
Qed.

Lemma field_skip_reader next s d : ngx_http_v2_state_field_skip next s d = string_reader eat_skip FieldSkip next s d.
Proof. unfold ngx_http_v2_state_field_skip, string_reader, eat_skip. by destruct s. Qed.

Lemma after_piece_ignores next h0 : ignores next -> ignores (fun s d => after_piece next s d h0).
Proof.
  intros H s h d. unfold after_piece. change (field_rest (s <| next_handler := h |>)) with (field_rest s).
  destruct (field_rest s =? 0); [apply H|]. change (len (s <| next_handler := h |>)) with (len s).
  change (end_headers (s <| next_handler := h |>)) with (end_headers s).
  destruct (negb (len s =? 0)); [unfold ngx_http_v2_state_save; by destruct (_ <? _), s|]. destruct (end_headers s); [done|]. apply continuation_ignores.
Qed.

Lemma string_reader_ignores eat h0 next : ignores next -> ignores (string_reader eat h0 next).
Proof.
  intros H s h d. unfold string_reader. destruct s. flat. unfold piece. flat.
  destruct (eat _ _ _ _ _) as [[[st f]|]|]; cbn [mbind option_bind]; [|done..].
  match goal with |- _ = after_piece next ?s0 ?d0 h0 => exact (after_piece_ignores next h0 H s0 h d0) end.
Qed.

(** What is asked of [PH]: [b] tells whether it may be called between a name and
    a value. *)
Definition allowed (b : bool) (s : state) : Prop := parse_name s = true -> b = true.
Definition PH_resumes (b : bool) : Prop := forall s d e, sane s -> buffer s = [] -> bytes d -> e <> [] -> allowed b s -> resumes PH s d e.

(** A string that waits for the next frame. *)
Lemma reader_waits eat h next (s : state) d : len s = 0 -> 0 < field_rest s -> end_headers s = false ->
  eat (field_alloc s) (field_state s) (field s) [] false = Some (Some (field_state s, field s)) ->
  string_reader eat h next s d = ngx_http_v2_handle_continuation s d h.
Proof.
  intros Hl Hr He Hb. unfold string_reader. cbv zeta. assert (piece s d = 0) as -> by (unfold piece; lia).
  change (take (Z.to_nat 0) d) with (@nil Z). change (drop (Z.to_nat 0) d) with d.
  assert (s <| len := len s - 0 |> <| field_rest := field_rest s - 0 |> = s) as -> by (rewrite !Z.sub_0_r; by destruct s).
  rewrite (proj2 (Z.eqb_neq (field_rest s) 0)) by lia. rewrite Hb. cbn [mbind option_bind].
  assert (s <| field_state := field_state s |> <| field := field s |> = s) as -> by by destruct s.
  unfold after_piece. by rewrite (proj2 (Z.eqb_neq (field_rest s) 0)), Hl, He by lia.
Qed.

Section Reader.
Context (eat : eater) (h : handler) (b : bool) (Heat : two_bites eat)
  (Hh : forall s d, next_handler s = h -> handle s d = string_reader eat h PH s d) (Hns : h <> StateHead)
  (Hig : ignores PH) (HPH : PH_resumes b).

(** After a piece that ends the string or the frame. *)
Lemma after_piece_resumes s d e : sane s -> buffer s = [] -> bytes d -> e <> [] -> allowed b s -> field_rest s = 0 \/ len s = 0 ->
  (field_rest s <> 0 -> eat (field_alloc s) (field_state s) (field s) [] false = Some (Some (field_state s, field s))) ->
  resumes (fun s d => after_piece PH s d h) s d e.
Proof.
  intros Hs Hb Hd He Hal Hend Hbite. pose proof Hs as (Hl & Hr & Hp). destruct (Z.eqb_spec (field_rest s) 0) as [Er|Er].
  { apply (resumes_after _ PH s d e s d); [by intros; unfold after_piece; rewrite Er|]. by apply HPH. }
  assert (Hl0 : len s = 0) by lia. clear Hend. specialize (Hbite Er). destruct (end_headers s) eqn:Ee.
  { apply (resumes_stops _ _ _ _ NGX_HTTP_V2_SIZE_ERROR); unfold after_piece; by rewrite (proj2 (Z.eqb_neq _ _)), Hl0, Ee. }
  apply (resumes_after _ (fun s d => ngx_http_v2_handle_continuation s d h) s d e s d).
  { intros x _. unfold after_piece. by rewrite (proj2 (Z.eqb_neq _ _)), Hl0, Ee. }
  apply continuation_resumes; try done; [lia|]. intros s3 x Es3 Hx. rewrite Hh by by destruct s3.
  rewrite string_reader_ignores by done. rewrite Es3 in *. clear Es3. unfold end_headers in Ee. destruct s. flat. apply reader_waits; flat; try done. lia.
Qed.

Lemma string_reader_resumes s d e : sane s -> buffer s = [] -> bytes d -> e <> [] -> allowed b s -> resumes (string_reader eat h PH) s d e.
Proof.
  intros Hs Hb Hd He Hal. pose proof Hs as (Hl & Hr & Hp).
  set (size := piece s d). set (d2 := drop (Z.to_nat size) d). set (x := take (Z.to_nat size) d).
  assert (Hsize : 0 <= size <= Z.of_nat (length d) /\ size <= field_rest s /\ size <= len s) by (unfold size, piece; lia).
  assert (Hd2 : bytes d2) by by apply Forall_drop.
  pose proof (Heat (field_alloc s) (field_state s) (field s) x) as Hbite.
  destruct (decide (field_rest s - size = 0 \/ len s - size = 0)) as [Hend|Hmore].
  - (* the piece is the same with what comes after it *)
    set (r := eat (field_alloc s) (field_state s) (field s) x (field_rest s - size =? 0)).
    set (s2 := fun st f => s <| len := len s - size |> <| field_rest := field_rest s - size |> <| field_state := st |> <| field := f |>).
    assert (E : forall y, string_reader eat h PH s (d ++ y) =
      match r with None => None | Some None => Some (Stops NGX_HTTP_V2_COMP_ERROR) | Some (Some (st, f)) => after_piece PH (s2 st f) (d2 ++ y) h end).
    { intros y. unfold string_reader. replace (piece s (d ++ y)) with size by (unfold size, piece in *; rewrite length_app; lia).
      rewrite take_app_le, drop_app_le by lia. fold x d2. unfold r, s2. destruct s. flat. by destruct (eat _ _ _ _ _) as [[[]|]|]. }
    pose proof (E []) as E0. rewrite !app_nil_r in E0. destruct r as [[[st f]|]|] eqn:Er.
    + apply (resumes_after _ (fun s d => after_piece PH s d h) s d e (s2 st f) d2); [intros y _; apply E|].
      unfold s2, sane, allowed in *. destruct s. flat. apply after_piece_resumes; unfold sane, allowed; flat; try done; [lia|].
      intros H0. unfold r in Er. rewrite (proj2 (Z.eqb_neq _ _)) in Er by done. rewrite Er in Hbite. by destruct Hbite.
    + by apply (resumes_stops _ _ _ _ NGX_HTTP_V2_COMP_ERROR).
    + unfold resumes. by rewrite E0, E.
  - (* all is taken, and more is needed *)
    assert (Hsd : size = Z.of_nat (length d)) by (unfold size, piece in *; lia).
    assert (Ex : x = d) by (unfold x; rewrite take_ge by lia; done). assert (Ed2 : d2 = []) by (unfold d2; apply drop_ge; lia).
    assert (Hlast : (field_rest s - size =? 0) = false) by (apply Z.eqb_neq; lia).
    set (size2 := Z.min (Z.min (Z.of_nat (length e)) (field_rest s - size)) (len s - size)).
    assert (Epiece : piece s (d ++ e) = size + size2) by (unfold size2, piece; rewrite length_app; lia).
    assert (Hy : take (Z.to_nat size2) e <> []).
    { intros E%(f_equal length). rewrite length_take in E. destruct e; [done|]. unfold size2 in E. simpl in E. lia. }
    rewrite Ex in Hbite. assert (Esz : piece s d = size) by done. clearbody size. set (s2 := s <| len := len s - size |> <| field_rest := field_rest s - size |>).
    assert (E0 : string_reader eat h PH s d = match eat (field_alloc s) (field_state s) (field s) d false with
      None => None | Some None => Some (Stops NGX_HTTP_V2_COMP_ERROR)
      | Some (Some (st, f)) => Some (ngx_http_v2_state_save (s2 <| field_state := st |> <| field := f |>) [] h) end).
    { unfold string_reader, after_piece. rewrite Esz. fold x d2. rewrite Ex, Ed2. clear Esz Epiece. unfold s2. destruct s. flat. rewrite Hlast.
      destruct (eat _ _ _ _ _) as [[[st f]|]|]; [|done..]. cbn [mbind option_bind]. by rewrite (proj2 (Z.eqb_neq (len - size) 0)) by lia. }
    assert (E1 : string_reader eat h PH s (d ++ e) =
      r ← eat (field_alloc s) (field_state s) (field s) (d ++ take (Z.to_nat size2) e) (field_rest s - size - size2 =? 0);
      match r with None => Some (Stops NGX_HTTP_V2_COMP_ERROR)
      | Some (st, f) => after_piece PH (s <| len := len s - size - size2 |> <| field_rest := field_rest s - size - size2 |> <| field_state := st |> <| field := f |>)
          (drop (Z.to_nat size2) e) h end).
    { unfold string_reader. rewrite Epiece. rewrite take_app, (take_ge d), drop_app, (drop_ge d) by lia.
      replace (Z.to_nat (size + size2) - length d)%nat with (Z.to_nat size2) by lia. cbn [app]. rewrite !Z.sub_add_distr. by destruct s. }
    destruct (eat (field_alloc s) (field_state s) (field s) d false) as [[[st f]|]|] eqn:Er.
    2: { apply (resumes_stops _ _ _ _ NGX_HTTP_V2_COMP_ERROR); [done|]. rewrite E1. by rewrite Hbite. }
    2: { unfold resumes. rewrite E0, E1. by rewrite Hbite. }
    destruct Hbite as [_ Hbite]. apply (resumes_saved _ _ _ _ (s2 <| field_state := st |> <| field := f |>) [] h); try done; [simpl; lia|..].
    + unfold s2, sane. destruct s. flat. lia.
    + left. rewrite E1, Hbite by done. cbn [app]. rewrite Hh by by destruct s. rewrite string_reader_ignores by done.
      unfold string_reader. unfold s2, piece, size2. destruct s. flat. cbv zeta. by rewrite Hsd, Hb.
Qed.
End Reader.

(** ** Numbers *)

Lemma int_loop_app l x : bytes l -> forall n shift value, 0 <= shift -> 0 <= value ->
  match int_loop l n shift value with
  | Some (n', v) => int_loop (l ++ x) n shift value = Some (n', v) /\ (n < n' <= n + length l)%nat /\ 0 <= v
  | None => forall n' v, int_loop (l ++ x) n shift value = Some (n', v) -> (n + length l < n')%nat
  end.
Proof.
  assert (Hlt : forall x n shift value n' v, int_loop x n shift value = Some (n', v) -> (n < n')%nat).
  { clear. induction x as [|c x IH]; intros n shift value n' v; [done|]. cbn [int_loop]. destruct (c <? 128); [intros [= <- <-]; lia|].
    intros H%IH. lia. }
  induction 1 as [|c l Hc Hl IH]; intros n shift value Hs Hv.
  - cbn [int_loop app length]. intros n' v H%Hlt. lia.
  - cbn [int_loop app length]. assert (0 <= value + Z.shiftl (Z.land c 0x7f) shift).
    { unfold is_byte in Hc. apply Z.add_nonneg_nonneg; [done|]. apply Z.shiftl_nonneg, Z.land_nonneg. lia. }
    destruct (c <? 128); [split_and!; [done|lia..]|].
    specialize (IH (S n) (shift + 7) _ ltac:(lia) H). destruct (int_loop l _ _ _) as [[n' v]|].
    + destruct IH as (? & ? & ?). split_and!; [done|lia..].
    + intros n' v H'. apply IH in H'. lia.
Qed.

(** What is known of a number with more bytes after it. *)
Lemma parse_int_app (s : state) d e p : 0 <= p -> 0 <= len s -> bytes d -> d <> [] ->
  exists v s1 d1, ngx_http_v2_parse_int s d p = Some (v, s1, d1) /\
    ((v = NGX_AGAIN /\ s1 = s /\ d1 = d /\ (length d <= 3)%nat) \/
     ((v = NGX_ERROR \/ v = NGX_DECLINED) /\ s1 = s /\ ngx_http_v2_parse_int s (d ++ e) p = Some (v, s, d ++ e)) \/
     (0 <= v /\ s1 = s <| len := len s1 |> /\ 0 <= len s1 /\ bytes d1 /\ ngx_http_v2_parse_int s (d ++ e) p = Some (v, s1, d1 ++ e))).
Proof.
  intros Hp Hl Hd Hne. destruct d as [|ch rest]; [done|]. apply Forall_cons in Hd as [Hch Hrest]. unfold is_byte in Hch.
  cbn [app ngx_http_v2_parse_int]. assert (Hv : 0 <= Z.land ch p) by (apply Z.land_nonneg; lia).
  destruct (Z.eqb_spec (Z.land ch p) p) as [Ep|Ep]; cbn [negb].
  2: { destruct (Z.eqb_spec (len s) 0) as [E0|E0]; eexists _, _, _; (split; [done|]); right; [left|right]; split_and!; try done.
       - by left.
       - destruct s. flat. lia. }
  rewrite take_app. set (l := take _ rest). set (x := take _ e). assert (Hbl : bytes l) by by apply Forall_take.
  pose proof (int_loop_app l x Hbl 1 0 (Z.land ch p) ltac:(lia) Hv) as Hloop.
  assert (Hll : (length l <= 3)%nat /\ (length l < 3 -> l = rest)%nat).
  { unfold l. rewrite length_take. unfold NGX_HTTP_V2_INT_OCTETS. split; [lia|]. intros. apply take_ge. lia. }
  destruct Hll as [Hll Hlr]. destruct (int_loop l 1 0 _) as [[n v]|].
  - destruct Hloop as (-> & Hn & Hv'). destruct (Z.ltb_spec (len s) (Z.of_nat n)) as [Hlt|Hge]; eexists _, _, _; (split; [done|]); right; [left|right].
    + split_and!; try done. by left.
    + assert (length l <= length rest)%nat by (unfold l; rewrite length_take; lia).
      split_and!; try done; [destruct s; flat; lia|apply Forall_drop; by constructor|].
      change (ch :: rest ++ e) with ((ch :: rest) ++ e). by rewrite drop_app_le by (simpl; lia).
  - assert (Hlx : (length l <= length (l ++ x))%nat) by (rewrite length_app; lia).
    destruct (Z.leb_spec (len s) (Z.of_nat (S (length l)))) as [Hle|Hgt].
    { eexists _, _, _. split; [done|]. right. left. split_and!; [by left|done|].
      destruct (int_loop (l ++ x) 1 0 _) as [[n' v']|] eqn:E'.
      - specialize (Hloop _ _ eq_refl). by rewrite (proj2 (Z.ltb_lt _ _)) by lia.
      - by rewrite (proj2 (Z.leb_le _ _)) by lia. }
    unfold NGX_HTTP_V2_INT_OCTETS in *. destruct (Nat.eqb_spec (S (length l)) 4) as [E4|E4]; eexists _, _, _; (split; [done|]).
    + right. left. split_and!; [by right|done|]. assert (Hx : x = []) by (unfold x; replace (4 - 1 - length rest)%nat with 0%nat; [done|]; unfold l in E4; rewrite length_take in E4; lia).
      rewrite Hx, app_nil_r in *. destruct (int_loop l 1 0 _) as [[n' v']|] eqn:E'.
      { specialize (Hloop _ _ eq_refl). pose proof (int_loop_app l [] Hbl 1 0 (Z.land ch p) ltac:(lia) Hv) as H. rewrite E' in H. lia. }
      by rewrite (proj2 (Z.leb_gt _ _)), E4 by lia.
    + left. split_and!; try done. rewrite <- Hlr by lia. simpl. lia.
Qed.

Lemma parse_int_ignores (s : state) h d p : ngx_http_v2_parse_int (s <| next_handler := h |>) d p =
  (fun r => (r.1.1, r.1.2 <| next_handler := h |>, r.2)) <$> ngx_http_v2_parse_int s d p.
Proof. unfold ngx_http_v2_parse_int. destruct d as [|ch d]; [done|]. destruct s. flat. repeat case_match; done. Qed.

(** ** The length of a string *)

(** The three ways to read a string. *)
Inductive reading : eater -> handler -> Prop :=
  | reading_huff : reading eat_huff FieldHuff
  | reading_raw : reading eat_raw FieldRaw
  | reading_skip : reading eat_skip FieldSkip.

Lemma reading_bites eat h : reading eat h -> two_bites eat.
Proof. intros []; [apply eat_huff_bites|apply eat_raw_bites|apply eat_skip_bites]. Qed.
Lemma reading_goes_on eat h : reading eat h -> h <> StateHead.
Proof. by intros []. Qed.
Lemma reading_handler eat h : reading eat h -> forall s d, next_handler s = h -> handle s d = string_reader eat h PH s d.
Proof.
  intros [] s d Hs; unfold Http2Hpack.handle; rewrite Hs; [apply field_huff_reader|apply field_raw_reader|apply field_skip_reader].
Qed.

(** ngx_http_v2_state_field_len after the number [n]. *)
Definition string_begin (huff n : Z) (next : state -> list Z -> option outcome) (s : state) (d : list Z) : option outcome :=
  let s := s <| field_rest := n |> in
  if negb (stream s) && negb (index s) then ngx_http_v2_state_field_skip next s d
  else
    let s := s <| field_alloc := (if negb (huff =? 0) then n * 8 / 5 else n) + 1 |> <| field := [] |> in
    if negb (huff =? 0) then ngx_http_v2_state_field_huff next s d
    else ngx_http_v2_state_field_raw next s d.

Lemma string_begin_reads huff n s : exists eat h s2, reading eat h /\
  (len s2 = len s /\ field_rest s2 = n /\ padding s2 = padding s /\ buffer s2 = buffer s /\ parse_name s2 = parse_name s) /\
  forall next d, string_begin huff n next s d = string_reader eat h next s2 d.
Proof.
  unfold string_begin. destruct (negb (stream _) && negb _) eqn:E; [|destruct (negb (huff =? 0)) eqn:Eh].
  - eexists eat_skip, FieldSkip, _. split; [constructor|]. split; [|intros; apply field_skip_reader]. by destruct s.
  - eexists eat_huff, FieldHuff, _. split; [constructor|]. split; [|intros; apply field_huff_reader]. by destruct s.
  - eexists eat_raw, FieldRaw, _. split; [constructor|]. split; [|intros; apply field_raw_reader]. by destruct s.
Qed.

Lemma string_begin_ignores huff n next : ignores next -> ignores (string_begin huff n next).
Proof.
  intros H s h d. unfold string_begin. destruct s. flat. destruct (negb stream && negb index); [|destruct (negb (huff =? 0))];
    rewrite ?field_skip_reader, ?field_huff_reader, ?field_raw_reader;
    match goal with |- _ = string_reader ?eat ?h0 next ?s0 d => exact (string_reader_ignores eat h0 next H s0 h d) end.
Qed.

Lemma field_len_eq next (s : state) ch d : field_len next s (ch :: d) =
  if negb (end_headers s) && (len s <? Z.of_nat NGX_HTTP_V2_INT_OCTETS) then ngx_http_v2_handle_continuation s (ch :: d) FieldLen
  else if len s <? 1 then Some (Stops NGX_HTTP_V2_SIZE_ERROR)
  else
    '(n, s, d) ← ngx_http_v2_parse_int s (ch :: d) 0x7f;
    if n <? 0 then Some (int_error n s d FieldLen)
    else if max_field_size <? n then Some (Stops NGX_HTTP_V2_ENHANCE_YOUR_CALM)
    else string_begin (Z.shiftr ch 7) n next s d.
Proof. done. Qed.

Lemma save_ignores (s : state) h d h0 : ngx_http_v2_state_save (s <| next_handler := h |>) d h0 = ngx_http_v2_state_save s d h0.
Proof. unfold ngx_http_v2_state_save. destruct (_ <? _); [done|]. by destruct s. Qed.

Lemma int_error_ignores (s : state) n h d h0 : int_error n (s <| next_handler := h |>) d h0 = int_error n s d h0.
Proof. unfold int_error. by rewrite save_ignores. Qed.

Lemma field_len_ignores next : ignores next -> ignores (field_len next).
Proof.
  intros H s h d. destruct d as [|ch d].
  { unfold ngx_http_v2_state_field_len. rewrite (continuation_ignores FieldLen s h []), save_ignores. done. }
  rewrite !field_len_eq. rewrite (continuation_ignores FieldLen s h (ch :: d)), parse_int_ignores.
  change (end_headers (s <| next_handler := h |>)) with (end_headers s). change (len (s <| next_handler := h |>)) with (len s).
  destruct (negb _ && _); [done|]. destruct (_ <? 1); [done|].
  destruct (ngx_http_v2_parse_int s (ch :: d) 0x7f) as [[[n s1] d1]|]; [|done]. cbn [fmap option_fmap option_map fst snd mbind option_bind].
  rewrite int_error_ignores, string_begin_ignores; done.
Qed.

Lemma process_header_ignores rounds : ignores (process_header take_header run_request max_field_size rounds).
Proof.
  induction rounds as [|rounds IH]; intros s h d; cbn [process_header]; change (parse_name (s <| next_handler := h |>)) with (parse_name s).
  - destruct (parse_name s); [done|apply process_complete_ignores].
  - destruct (parse_name s); [|apply process_complete_ignores].
    etransitivity; [|exact (field_len_ignores _ IH _ h d)]. by destruct s.
Qed.
Lemma PH_ignores : ignores PH.
Proof. apply process_header_ignores. Qed.

Lemma string_begin_resumes b huff n s d e : PH_resumes b -> sane s -> 0 <= n -> buffer s = [] -> bytes d -> e <> [] -> allowed b s ->
  resumes (string_begin huff n PH) s d e.
Proof.
  intros HPH (Hl & Hr & Hp) Hn Hb Hd He Hal.
  destruct (string_begin_reads huff n s) as (eat & h & s2 & Hk & (E1 & E2 & E3 & E4 & E5) & Es2).
  apply (resumes_after _ (string_reader eat h PH) s d e s2 d); [intros; apply Es2|].
  apply (string_reader_resumes eat h b); try done.
  - by apply (reading_bites eat h).
  - by apply reading_handler.
  - by apply (reading_goes_on eat h).
  - apply PH_ignores.
  - unfold sane. lia.
  - congruence.
  - unfold allowed. by rewrite E5.
Qed.

(** A handler that was saved with all that was there is called again with
    more. *)
Lemma again_resumes f h (s s1 : state) d e : sane s -> sane s1 -> buffer s1 = [] -> bytes d -> (length d <= 3)%nat -> h <> StateHead ->
  ignores f -> (forall s d, next_handler s = h -> handle s d = f s d) ->
  f s d = Some (ngx_http_v2_state_save s1 d h) -> f s1 (d ++ e) = f s (d ++ e) -> resumes f s d e.
Proof.
  intros Hs Hs1 Hb Hd Hl Hh Hig Hf E E1. apply (resumes_saved _ _ _ _ s1 d h); try done; [lia|]. left.
  rewrite Hf by by destruct s1. rewrite Hig. assert (s1 <| buffer := [] |> = s1) as -> by (rewrite <- Hb; by destruct s1). done.
Qed.

Lemma field_len_resumes b s d e : PH_resumes b -> sane s -> buffer s = [] -> bytes d -> e <> [] -> allowed b s -> resumes (field_len PH) s d e.
Proof.
  intros HPH Hs Hb Hd He Hal. pose proof Hs as (Hl & Hr & Hp).
  destruct (negb (end_headers s) && (len s <? Z.of_nat NGX_HTTP_V2_INT_OCTETS)) eqn:Ew.
  { assert (Hc : forall (s1 : state) x, end_headers s1 = end_headers s -> len s1 = len s -> field_len PH s1 x = ngx_http_v2_handle_continuation s1 x FieldLen)
      by (intros s1 x E1 E2; unfold ngx_http_v2_state_field_len; by rewrite E1, E2, Ew).
    apply (resumes_after _ (fun s d => ngx_http_v2_handle_continuation s d FieldLen) s d e s d); [intros; by apply Hc|].
    apply andb_true_iff in Ew as [_ Ew%Z.ltb_lt]. apply continuation_resumes; try done; [unfold NGX_HTTP_V2_INT_OCTETS in Ew; lia|].
    intros s1 x Es1 Hx. transitivity (field_len PH s1 x); [exact (field_len_ignores PH PH_ignores s1 FieldLen x)|].
    apply Hc; rewrite Es1; by destruct s. }
  destruct (len s <? 1) eqn:E1.
  { apply (resumes_stops _ _ _ _ NGX_HTTP_V2_SIZE_ERROR); unfold ngx_http_v2_state_field_len; by rewrite Ew, E1. }
  assert (Hagain : field_len PH s d = Some (ngx_http_v2_state_save s d FieldLen) -> (length d <= 3)%nat -> resumes (field_len PH) s d e).
  { intros E Hd3. apply (again_resumes _ FieldLen s s d e Hs Hs Hb Hd Hd3 ltac:(done) (field_len_ignores PH PH_ignores)); [|done..].
    intros s0 d0 E0. unfold Http2Hpack.handle. by rewrite E0. }
  destruct d as [|ch d]; [apply Hagain; [unfold ngx_http_v2_state_field_len; by rewrite Ew, E1|simpl; lia]|].
  destruct (parse_int_app s (ch :: d) e 0x7f ltac:(lia) Hl Hd ltac:(done)) as (n & s1 & d1 & Ei & H).
  assert (E : forall x n s1 d1, ngx_http_v2_parse_int s (ch :: d ++ x) 0x7f = Some (n, s1, d1) -> field_len PH s ((ch :: d) ++ x) =
    if n <? 0 then Some (int_error n s1 d1 FieldLen)
    else if max_field_size <? n then Some (Stops NGX_HTTP_V2_ENHANCE_YOUR_CALM)
    else string_begin (Z.shiftr ch 7) n PH s1 d1).
  { clear -Ew E1. intros x n s1 d1 Ei. cbn [app]. rewrite field_len_eq, Ew, E1, Ei. done. }
  assert (E0 := E [] n s1 d1). rewrite !app_nil_r in E0. specialize (E0 Ei).
  destruct H as [(-> & -> & -> & Hd3)|[(Hn & -> & Ei')|(Hn & Es1 & Hl1 & Hd1 & Ei')]].
  - by apply Hagain.
  - specialize (E e _ _ _ Ei'). destruct Hn as [-> | ->]; [by apply (resumes_stops _ _ _ _ NGX_HTTP_V2_SIZE_ERROR)|by apply (resumes_stops _ _ _ _ NGX_HTTP_V2_COMP_ERROR)].
  - specialize (E e _ _ _ Ei'). rewrite (proj2 (Z.ltb_ge n 0)) in E, E0 by lia.
    destruct (max_field_size <? n) eqn:Em; [by apply (resumes_stops _ _ _ _ NGX_HTTP_V2_ENHANCE_YOUR_CALM)|].
    apply (resumes_after _ (string_begin (Z.shiftr ch 7) n PH) s (ch :: d) e s1 d1); [intros x [->| ->]; rewrite ?app_nil_r; done|].
    apply (string_begin_resumes b); try done; rewrite Es1; unfold sane, allowed in *; destruct s; flat; done.
Qed.

Lemma PH_resumes_false : PH_resumes false.
Proof.
  intros s d e Hs Hb Hd He Hal. apply (resumes_after _ process_complete s d e s d); [|by apply process_complete_resumes].
  intros x _. rewrite PH_eq. unfold allowed in Hal. destruct (parse_name s); [by specialize (Hal eq_refl)|done].
Qed.

Lemma PH_resumes_true : PH_resumes true.
Proof.
  intros s d e Hs Hb Hd He _. destruct (parse_name s) eqn:E; [|apply PH_resumes_false; try done; unfold allowed; by rewrite E].
  apply (resumes_after _ (field_len PH) s d e (s <| parse_name := false |> <| header := Header (field s) (h_value (header s)) |>) d).
  - intros x _. by rewrite PH_eq, E.
  - apply (field_len_resumes false); try by destruct s. apply PH_resumes_false.
Qed.

(** ** The beginning of a header *)

Abbreviation header_block := (ngx_http_v2_state_header_block take_header run_request max_field_size).

(** ngx_http_v2_state_header_block: the kind of a field, by its first byte, and
    what is done after its number [v]. *)
Definition opened (ch : Z) (s : state) : state := if (64 <=? ch) && (ch <? 128) then s <| index := true |> else s.
Definition field_prefix (ch : Z) : Z := if 128 <=? ch then 0x7f else if 64 <=? ch then 0x3f else if 32 <=? ch then 0x1f else 0xf.
Definition after_number (ch v : Z) (s : state) (d : list Z) : option outcome :=
  if 128 <=? ch then
    '(rc, x) ← ngx_http_v2_get_indexed_header (table s) (header s) v false;
    if negb (rc =? NGX_OK) then Some (Stops NGX_HTTP_V2_COMP_ERROR) else PH (s <| header := x |>) d
  else if (32 <=? ch) && (ch <? 64) then
    '(rc, t) ← ngx_http_v2_table_size (table s) v;
    if negb (rc =? NGX_OK) then Some (Stops NGX_HTTP_V2_COMP_ERROR) else header_complete (s <| table := t |>) d
  else
    s ← (if v =? 0 then Some (Some (s <| parse_name := true |>))
         else '(rc, x) ← ngx_http_v2_get_indexed_header (table s) (header s) v true;
              if negb (rc =? NGX_OK) then Some None else Some (Some (s <| header := x |>)));
    match s with
    | None => Some (Stops NGX_HTTP_V2_COMP_ERROR)
    | Some s => field_len PH (s <| parse_value := true |>) d
    end.

Lemma header_block_eq (s : state) ch d : header_block s (ch :: d) =
  if negb (end_headers s) && (len s <? Z.of_nat NGX_HTTP_V2_INT_OCTETS) then ngx_http_v2_handle_continuation s (ch :: d) HeaderBlock
  else
    '(v, s, d) ← ngx_http_v2_parse_int (opened ch s) (ch :: d) (field_prefix ch);
    if v <? 0 then Some (int_error v s d HeaderBlock) else after_number ch v s d.
Proof.
  unfold ngx_http_v2_state_header_block, opened, field_prefix, after_number. destruct (negb _ && _); [done|].
  destruct (Z.leb_spec 128 ch); [rewrite (proj2 (Z.ltb_ge ch 128)), andb_false_r by lia; done|].
  destruct (Z.leb_spec 64 ch); [rewrite (proj2 (Z.ltb_lt ch 128)), (proj2 (Z.ltb_ge ch 64)), !andb_false_r by lia; done|].
  destruct (Z.leb_spec 32 ch); [rewrite (proj2 (Z.ltb_lt ch 64)) by lia; done|done].
Qed.

Lemma after_number_leads ch v s :
  leads_to (after_number ch v) PH s \/ leads_to (after_number ch v) header_complete s \/ leads_to (after_number ch v) (field_len PH) s.
Proof.
  unfold after_number, leads_to, framed. destruct s. flat. destruct (128 <=? ch); [|destruct ((32 <=? ch) && _)].
  - left. destruct (ngx_http_v2_get_indexed_header _ _ _ _) as [[rc x]|]; [|by right; left]. cbn [mbind option_bind].
    destruct (negb _); [by right; right; eexists|]. left. eexists (State _ _ _ _ _ _ _ _ _ _ _ _ _ _ _ _ _ _). split; [|intros l fl p d; flat; reflexivity]. done.
  - right. left. destruct (ngx_http_v2_table_size _ _) as [[rc t]|]; [|by right; left]. cbn [mbind option_bind].
    destruct (negb _); [by right; right; eexists|]. left. eexists (State _ _ _ _ _ _ _ _ _ _ _ _ _ _ _ _ _ _). split; [|intros l fl p d; flat; reflexivity]. done.
  - right. right. destruct (v =? 0).
    + left. eexists (State _ _ _ _ _ _ _ _ _ _ _ _ _ _ _ _ _ _). split; [|intros l fl p d; cbn [mbind option_bind]; flat; reflexivity]. done.
    + destruct (ngx_http_v2_get_indexed_header _ _ _ _) as [[rc x]|]; [|by right; left]. cbn [mbind option_bind].
      destruct (negb _); [by right; right; eexists|]. left. eexists (State _ _ _ _ _ _ _ _ _ _ _ _ _ _ _ _ _ _). split; [|intros l fl p d; cbn [mbind option_bind]; flat; reflexivity]. done.
Qed.

Lemma after_number_resumes ch v s d e : sane s -> buffer s = [] -> bytes d -> e <> [] -> resumes (after_number ch v) s d e.
Proof.
  intros Hs Hb Hd He. destruct (after_number_leads ch v s) as [H|[H|H]]; apply (leads_to_resumes _ _ _ _ _ H Hs Hb); intros s' Hs' Hb'.
  - by apply PH_resumes_true.
  - by apply header_complete_resumes.
  - apply (field_len_resumes true); try done. apply PH_resumes_true.
Qed.

Lemma after_number_ignores ch v : ignores (after_number ch v).
Proof.
  intros s h d. unfold after_number. destruct s. flat. destruct (128 <=? ch); [|destruct ((32 <=? ch) && _)].
  - destruct (ngx_http_v2_get_indexed_header _ _ _ _) as [[rc x]|]; [|done]. cbn [mbind option_bind]. destruct (negb _); [done|].
    match goal with |- _ = PH ?s0 d => exact (PH_ignores s0 h d) end.
  - destruct (ngx_http_v2_table_size _ _) as [[rc t]|]; [|done]. cbn [mbind option_bind]. destruct (negb _); [done|].
    match goal with |- _ = header_complete ?s0 d => exact (header_complete_ignores s0 h d) end.
  - destruct (v =? 0); [|destruct (ngx_http_v2_get_indexed_header _ _ _ _) as [[rc x]|]; [|done]]; cbn [mbind option_bind]; [|destruct (negb _); [done|]]; cbn [mbind option_bind];
      match goal with |- _ = field_len PH ?s0 d => exact (field_len_ignores PH PH_ignores s0 h d) end.
Qed.

Lemma opened_ignores ch s h : opened ch (s <| next_handler := h |>) = (opened ch s) <| next_handler := h |>.
Proof. unfold opened. by destruct (_ && _). Qed.

Lemma header_block_ignores : ignores header_block.
Proof.
  intros s h d. destruct d as [|ch d]; [cbn [ngx_http_v2_state_header_block]; by rewrite save_ignores|]. rewrite !header_block_eq.
  rewrite (continuation_ignores HeaderBlock s h (ch :: d)).
  change (end_headers (s <| next_handler := h |>)) with (end_headers s). change (len (s <| next_handler := h |>)) with (len s).
  destruct (negb _ && _); [done|]. rewrite opened_ignores, parse_int_ignores. destruct (ngx_http_v2_parse_int _ _ _) as [[[v s1] d1]|]; [|done].
  cbn [fmap option_fmap option_map fst snd mbind option_bind]. by rewrite int_error_ignores, after_number_ignores.
Qed.

Lemma sane_len (s : state) n : 0 <= n -> sane s -> sane (s <| len := n |>) /\ buffer (s <| len := n |>) = buffer s.
Proof. intros Hn (? & ? & ?). unfold sane. destruct s. flat. done. Qed.

Lemma opened_opened ch s : opened ch (opened ch s) = opened ch s.
Proof. unfold opened. destruct (_ && _); [by destruct s|done]. Qed.

Lemma opened_frame ch s : same_frame s (opened ch s) /\ end_headers (opened ch s) = end_headers s.
Proof. unfold opened, same_frame. destruct (_ && _); [by destruct s|done]. Qed.

Lemma header_block_resumes s d e : sane s -> buffer s = [] -> bytes d -> e <> [] -> resumes header_block s d e.
Proof.
  intros Hs Hb Hd He. pose proof Hs as (Hl & Hr & Hp).
  assert (Hh : forall s d, next_handler s = HeaderBlock -> handle s d = header_block s d) by (intros s0 d0 E0; unfold Http2Hpack.handle; by rewrite E0).
  destruct d as [|ch d].
  { apply (again_resumes _ HeaderBlock s s [] e Hs Hs Hb Hd ltac:(simpl; lia) ltac:(done) header_block_ignores); done. }
  destruct (negb (end_headers s) && (len s <? Z.of_nat NGX_HTTP_V2_INT_OCTETS)) eqn:Ew.
  { assert (Hc : forall (s1 : state) x, end_headers s1 = end_headers s -> len s1 = len s -> x <> [] -> header_block s1 x = ngx_http_v2_handle_continuation s1 x HeaderBlock).
    { intros s1 [|c x] E1 E2 Hx; [done|]. by rewrite header_block_eq, E1, E2, Ew. }
    apply (resumes_after _ (fun s d => ngx_http_v2_handle_continuation s d HeaderBlock) s (ch :: d) e s (ch :: d)); [intros; by apply Hc|].
    apply andb_true_iff in Ew as [_ Ew%Z.ltb_lt]. apply continuation_resumes; try done; [unfold NGX_HTTP_V2_INT_OCTETS in Ew; lia|].
    intros s1 x Es1 Hx. transitivity (header_block s1 x); [exact (header_block_ignores s1 HeaderBlock x)|].
    apply Hc; [rewrite Es1; by destruct s..|done]. }
  destruct (opened_frame ch s) as [(_ & El & _ & Ep & Er & Eb) Ee]. set (so := opened ch s) in *.
  assert (Hso : sane so) by (unfold sane; by rewrite El, Ep, Er).
  assert (E : forall x v s1 d1, ngx_http_v2_parse_int so (ch :: d ++ x) (field_prefix ch) = Some (v, s1, d1) -> header_block s ((ch :: d) ++ x) =
    if v <? 0 then Some (int_error v s1 d1 HeaderBlock) else after_number ch v s1 d1).
  { intros x v s1 d1 Ei. cbn [app]. rewrite header_block_eq, Ew. fold so. by rewrite Ei. }
  assert (Hpre : 0 <= field_prefix ch) by (unfold field_prefix; repeat case_match; lia).
  destruct (parse_int_app so (ch :: d) e (field_prefix ch) Hpre ltac:(lia) Hd ltac:(done)) as (v & s1 & d1 & Ei & H).
  assert (E0 := E [] v s1 d1). rewrite !app_nil_r in E0. specialize (E0 Ei).
  destruct H as [(-> & -> & -> & Hd3)|[(Hv & -> & Ei')|(Hv & Es1 & Hl1 & Hd1 & Ei')]].
  - apply (again_resumes _ HeaderBlock s so (ch :: d) e Hs Hso ltac:(congruence) Hd Hd3 ltac:(done) header_block_ignores); [done..|].
    cbn [app]. rewrite !header_block_eq, Ee, El, Ew. unfold so. by rewrite opened_opened.
  - specialize (E e _ _ _ Ei'). destruct Hv as [-> | ->]; [by apply (resumes_stops _ _ _ _ NGX_HTTP_V2_SIZE_ERROR)|by apply (resumes_stops _ _ _ _ NGX_HTTP_V2_COMP_ERROR)].
  - specialize (E e _ _ _ Ei'). rewrite (proj2 (Z.ltb_ge v 0)) in E, E0 by lia.
    apply (resumes_after _ (after_number ch v) s (ch :: d) e s1 d1); [intros x [->| ->]; rewrite ?app_nil_r; done|].
    assert (Hs1 : sane s1 /\ buffer s1 = []) by (rewrite Es1; destruct (sane_len so (len s1) Hl1 Hso) as [? ->]; split; [done|congruence]).
    destruct Hs1. by apply after_number_resumes.
Qed.

(** Every handler. *)
Lemma handle_resumes s d e : sane s -> buffer s = [] -> bytes d -> e <> [] -> next_handler s <> StateHead -> resumes handle s d e.
Proof.
  intros Hs Hb Hd He Hh.
  assert (Hstring : forall eat h, reading eat h -> next_handler s = h -> resumes handle s d e).
  { intros eat h Hk E. apply (resumes_after _ (string_reader eat h PH) s d e s d).
    - intros x _. by apply reading_handler.
    - apply (string_reader_resumes eat h true); try done.
      + by apply (reading_bites eat h).
      + by apply reading_handler.
      + by apply (reading_goes_on eat h).
      + apply PH_ignores.
      + apply PH_resumes_true. }
  destruct (next_handler s) eqn:E; try (by eapply Hstring; [constructor|]); try done.
  - apply (resumes_after _ header_block s d e s d); [intros; unfold Http2Hpack.handle; by rewrite E|]. by apply header_block_resumes.
  - apply (resumes_after _ (field_len PH) s d e s d); [intros; unfold Http2Hpack.handle; by rewrite E|].
    apply (field_len_resumes true); try done. apply PH_resumes_true.
  - apply (resumes_after _ header_complete s d e s d); [intros; unfold Http2Hpack.handle; by rewrite E|]. by apply header_complete_resumes.
  - apply (resumes_after _ (fun s d => Some (ngx_http_v2_state_skip s d)) s d e s d); [intros; unfold Http2Hpack.handle; by rewrite E|]. by apply skip_resumes.
Qed.
End Resume.
