(* ===== verification/Http2HpackRead.v ===== *)
(** * Header blocks of HTTP/2: the calls of the handlers

    The calls end, within a number of rounds that the bytes bound, and a block
    that comes in any pieces is read as one that comes at once. *)

From S2P Require Import Prelude NgxBits Http2Huff Http2Table Http2TableSpec Http2Hpack Http2HpackSpec Http2HpackResume.

#[local] Abbreviation length := (@List.length _).

Section Read.
Context {W : Type} (take_header : W -> v2_header -> taken W) (run_request : W -> W) (max_field_size : Z).
Abbreviation state := (@v2_state W).
Abbreviation outcome := (@outcome W).
Abbreviation PH := (ngx_http_v2_state_process_header take_header run_request max_field_size).
Abbreviation handle := (handle take_header run_request max_field_size).
Abbreviation handle_all := (handle_all take_header run_request max_field_size).
Abbreviation header_complete := (ngx_http_v2_state_header_complete run_request).
Abbreviation process_complete := (process_complete take_header run_request).
Abbreviation field_len := (ngx_http_v2_state_field_len max_field_size).
Abbreviation header_block := (ngx_http_v2_state_header_block take_header run_request max_field_size).

(** ** Progress *)

Definition settled (s : state) : Prop := next_handler s = HeaderBlock \/ next_handler s = StateHead.

(** Bytes are taken, all of them maybe, or the next handler is one that takes
    some. *)
Definition shrinks (f : state -> list Z -> option outcome) (s : state) (d : list Z) : Prop :=
  forall s' d', f s d = Some (Goes s' d') -> d' = [] \/ (length d' < length d)%nat \/ (length d' = length d /\ settled s').

Lemma shrinks_after f g s d s1 d1 : f s d = g s1 d1 -> (length d1 <= length d)%nat -> shrinks g s1 d1 -> shrinks f s d.
Proof. intros E Hl Hg s' d' H. rewrite E in H. destruct (Hg s' d' H) as [?|[?|[? ?]]]; [by left|right; left; lia|]. destruct (Nat.eq_dec (length d1) (length d)); right; [right|left]; split_and?; (done || lia). Qed.

Lemma save_empty (s : state) d h s' d' : ngx_http_v2_state_save s d h = Goes s' d' -> d' = [].
Proof. unfold ngx_http_v2_state_save. destruct (_ <? _); [done|]. by intros [= <- <-]. Qed.

Lemma shrinks_save (s : state) d0 h s1 d : shrinks (fun _ _ => Some (ngx_http_v2_state_save s1 d0 h)) s d.
Proof. intros s' d' [= H%save_empty]. by left. Qed.

Lemma shrinks_stops err s d : shrinks (fun _ _ => Some (Stops err)) s d.
Proof. by intros s' d'. Qed.

Lemma continuation_less (s : state) d h s' d' : ngx_http_v2_handle_continuation s d h = Some (Goes s' d') -> d' = [] \/ (length d' < length d)%nat.
Proof.
  unfold ngx_http_v2_handle_continuation. destruct (continuation_padding s d) as [s1 d1] eqn:E.
  assert (Hd1 : (length d1 <= length d)%nat).
  { unfold continuation_padding in E. destruct (_ && _); simplify_eq; [|done]. rewrite length_app, length_take, length_drop. lia. }
  destruct (Nat.ltb_spec (length d1) (Z.to_nat (len s1) + NGX_HTTP_V2_FRAME_HEADER_SIZE)) as [Hl|Hl]; [intros [= H%save_empty]; by left|].
  destruct (negb _); [done|]. destruct (_ !! _); [|done]. cbn [mbind option_bind]. destruct (negb _); [done|]. intros [= <- <-].
  right. rewrite length_app, length_take, length_drop. unfold NGX_HTTP_V2_FRAME_HEADER_SIZE in *. lia.
Qed.
Lemma continuation_shrinks h s d : shrinks (fun s d => ngx_http_v2_handle_continuation s d h) s d.
Proof. intros s' d' H%continuation_less. destruct H; [by left|by right; left]. Qed.

Lemma skip_shrinks s d : shrinks (fun s d => Some (ngx_http_v2_state_skip s d)) s d.
Proof.
  unfold ngx_http_v2_state_skip. intros s' d'. destruct (_ <? _); [exact (shrinks_save s _ _ _ d s' d')|].
  unfold ngx_http_v2_state_complete. intros [= <- <-]. rewrite length_drop. right.
  destruct (Nat.eq_dec (Z.to_nat (len s)) 0) as [E|E]; [|destruct d; [by right; split; [simpl; lia|destruct s; right]|left; simpl; lia]].
  right. split; [lia|]. destruct s. by right.
Qed.

Lemma header_complete_shrinks s d : shrinks header_complete s d.
Proof.
  unfold ngx_http_v2_state_header_complete. intros s' d'. destruct (negb (len s =? 0)).
  { intros [= <- <-]. right. right. split; [done|]. destruct s. by left. }
  destruct (negb (end_headers s)); [apply continuation_shrinks|].
  destruct (negb _); [apply skip_shrinks|]. unfold ngx_http_v2_state_complete. intros [= <- <-]. right. right. split; [done|].
  destruct s. destruct stream; by right.
Qed.

Lemma leads_to_shrinks f g s d : leads_to f g s -> (forall s', shrinks g s' d) -> shrinks f s d.
Proof.
  intros [(s1 & _ & H)|[H|(err & H)]]%leads_to_goes Hg.
  - by apply (shrinks_after f g s d s1 d).
  - intros s' d'. by rewrite H.
  - intros s' d'. by rewrite H.
Qed.

Lemma process_complete_shrinks s d : shrinks process_complete s d.
Proof. apply (leads_to_shrinks _ _ _ _ (process_complete_leads take_header run_request s)). intros. apply header_complete_shrinks. Qed.

Lemma string_reader_shrinks eat h next s d : (forall s d, shrinks next s d) -> shrinks (string_reader eat h next) s d.
Proof.
  intros Hn s' d'. unfold string_reader, after_piece. cbv zeta. set (s1 := s <| len := len s - _ |> <| field_rest := field_rest s - _ |>).
  destruct (eat _ _ _ _ _) as [[[st f]|]|]; [|done..]. cbn [mbind option_bind]. set (s2 := s1 <| field_state := st |> <| field := f |>).
  set (d1 := drop _ d). assert (Hd1 : (length d1 <= length d)%nat) by (unfold d1; rewrite length_drop; lia).
  assert (Hg : forall g, shrinks g s2 d1 -> g s2 d1 = Some (Goes s' d') -> d' = [] \/ (length d' < length d)%nat \/ (length d' = length d /\ settled s')).
  { intros g H E. exact (shrinks_after (fun _ _ => g s2 d1) g s d s2 d1 eq_refl Hd1 H s' d' E). }
  destruct (_ =? 0); [by apply Hg|]. destruct (negb _); [apply (Hg (fun _ _ => Some (ngx_http_v2_state_save s2 d1 h))), shrinks_save|].
  destruct (end_headers s2); [done|]. apply (Hg (fun s d => ngx_http_v2_handle_continuation s d h)), continuation_shrinks.
Qed.

Lemma parse_int_shrinks (s : state) d p v s1 d1 : ngx_http_v2_parse_int s d p = Some (v, s1, d1) -> v < 0 \/ (length d1 < length d)%nat.
Proof.
  unfold ngx_http_v2_parse_int. destruct d as [|ch rest]; [done|]. intros H.
  assert (Hn : forall l n sh z n' v, int_loop l n sh z = Some (n', v) -> (n < n')%nat).
  { clear. induction l as [|c l IH]; intros n sh z n' v; [done|]. cbn [int_loop]. destruct (c <? 128); [intros [= <- <-]; lia|]. intros H%IH. lia. }
  destruct (negb _); [destruct (_ =? 0); simplify_eq; [by left|right; simpl; lia]|].
  destruct (int_loop _ _ _ _) as [[n z]|] eqn:E; [|repeat case_match; simplify_eq; by left].
  apply Hn in E. destruct (_ <? _); simplify_eq; [by left|]. right. rewrite length_drop. simpl. lia.
Qed.

Lemma int_error_empty v (s : state) d h s' d' : int_error v s d h = Goes s' d' -> d' = [].
Proof. unfold int_error. repeat case_match; [apply save_empty|done..]. Qed.

Lemma string_begin_shrinks huff n next s d : (forall s d, shrinks next s d) -> shrinks (string_begin huff n next) s d.
Proof.
  intros Hn. destruct (string_begin_reads huff n s) as (eat & h & s2 & _ & _ & E).
  apply (shrinks_after _ (string_reader eat h next) s d s2 d); [apply E|done|by apply string_reader_shrinks].
Qed.

Lemma field_len_shrinks next s d : (forall s d, shrinks next s d) -> shrinks (field_len next) s d.
Proof.
  intros Hn s' d'. destruct d as [|ch d].
  { unfold ngx_http_v2_state_field_len. destruct (negb _ && _); [apply continuation_shrinks|]. destruct (_ <? 1); [done|]. exact (shrinks_save s _ _ _ [] s' d'). }
  rewrite field_len_eq. destruct (negb _ && _); [apply continuation_shrinks|]. destruct (_ <? 1); [done|].
  destruct (ngx_http_v2_parse_int _ _ _) as [[[v s1] d1]|] eqn:E; [|done]. cbn [mbind option_bind].
  destruct (Z.ltb_spec v 0) as [Hv|Hv]; [intros [= H%int_error_empty]; by left|]. destruct (_ <? v); [done|].
  destruct (parse_int_shrinks _ _ _ _ _ _ E) as [?|Hd]; [lia|]. intros H.
  destruct (string_begin_shrinks _ _ _ _ _ Hn _ _ H) as [?|[?|[? ?]]]; [by left|right; left; lia..].
Qed.

Lemma PH_shrinks s d : shrinks PH s d.
Proof.
  assert (H : forall rounds s d, shrinks (process_header take_header run_request max_field_size rounds) s d); [|apply H].
  clear. induction rounds as [|rounds IH]; intros s d s' d'; cbn [process_header]; destruct (parse_name s); try done;
    [apply process_complete_shrinks|by apply field_len_shrinks|apply process_complete_shrinks].
Qed.

Lemma after_number_shrinks ch v s d : shrinks (after_number take_header run_request max_field_size ch v) s d.
Proof.
  destruct (after_number_leads take_header run_request max_field_size ch v s) as [H|[H|H]]; apply (leads_to_shrinks _ _ _ _ H); intros s'.
  - apply PH_shrinks.
  - apply header_complete_shrinks.
  - apply field_len_shrinks, PH_shrinks.
Qed.

Lemma header_block_shrinks s d s' d' : header_block s d = Some (Goes s' d') -> d' = [] \/ (length d' < length d)%nat.
Proof.
  destruct d as [|ch d].
  { cbn [ngx_http_v2_state_header_block]. intros [= <- <-]. by left. }
  rewrite header_block_eq. destruct (negb _ && _); [apply continuation_less|].
  destruct (ngx_http_v2_parse_int _ _ _) as [[[v s1] d1]|] eqn:E; [|done]. cbn [mbind option_bind].
  destruct (Z.ltb_spec v 0) as [Hv|Hv]; [intros [= H%int_error_empty]; by left|].
  destruct (parse_int_shrinks _ _ _ _ _ _ E) as [?|Hd]; [lia|]. intros H.
  destruct (after_number_shrinks _ _ _ _ _ _ H) as [?|[?|[? ?]]]; [by left|right; lia..].
Qed.

Lemma handle_shrinks s d : next_handler s <> StateHead -> shrinks handle s d.
Proof.
  intros Hh s' d'. unfold Http2Hpack.handle. destruct (next_handler s) eqn:E.
  - intros H%header_block_shrinks. destruct H; [by left|by right; left].
  - apply field_len_shrinks, PH_shrinks.
  - rewrite field_huff_reader. apply string_reader_shrinks, PH_shrinks.
  - rewrite field_raw_reader. apply string_reader_shrinks, PH_shrinks.
  - rewrite field_skip_reader. apply string_reader_shrinks, PH_shrinks.
  - apply header_complete_shrinks.
  - exact (skip_shrinks s d s' d').
  - done.
Qed.

(** ** The number of calls *)

Definition calls (s : state) (d : list Z) : nat := 2 * length d + if bool_decide (next_handler s = HeaderBlock) then 0 else 1.

Lemma handle_calls s d s' d' : next_handler s <> StateHead -> handle s d = Some (Goes s' d') ->
  d' = [] \/ next_handler s' = StateHead \/ (calls s' d' < calls s d)%nat.
Proof.
  intros Hh H. unfold calls. destruct (decide (next_handler s = HeaderBlock)) as [E|E].
  - unfold Http2Hpack.handle in H. rewrite E in H. apply header_block_shrinks in H as [?|?]; [by left|]. right. right. repeat case_bool_decide; lia.
  - rewrite (bool_decide_false (next_handler s = HeaderBlock)) by done. destruct (handle_shrinks s d Hh s' d' H) as [?|[?|[? [?|?]]]]; [by left|right; right..|right; by left].
    + case_bool_decide; lia.
    + rewrite (bool_decide_true (next_handler s' = HeaderBlock)) by done. lia.
Qed.

(** More rounds than calls make no difference. *)
Lemma handle_all_rounds s d n m : (calls s d < n)%nat -> (calls s d < m)%nat -> handle_all n s d = handle_all m s d.
Proof.
  remember (calls s d) as k eqn:Ek. revert s d n m Ek. induction k as [k IH] using lt_wf_ind. intros s d n m Ek Hn Hm.
  destruct n as [|n]; [lia|]. destruct m as [|m]; [lia|]. cbn [Http2Hpack.handle_all]. case_bool_decide as Hh; [done|].
  destruct (handle s d) as [[s' d'|err]|] eqn:E; cbn [mbind option_bind]; [|done..].
  destruct (handle_calls s d s' d' Hh E) as [->|[H|H]]; [done|..]; (destruct d' as [|c d']; [done|]).
  - destruct n, m; cbn [Http2Hpack.handle_all]; by rewrite bool_decide_true.
  - apply (IH (calls s' (c :: d'))); try done; lia.
Qed.

Definition read_all (s : state) (d : list Z) : option outcome := handle_all (2 * length d + 2) s d.

Lemma read_all_rounds n s d : (calls s d < n)%nat -> handle_all n s d = read_all s d.
Proof. intros Hn. apply handle_all_rounds; [done|]. unfold calls. case_bool_decide; lia. Qed.

Lemma read_all_end s d : next_handler s = StateHead -> read_all s d = Some (Goes s d).
Proof. intros H. unfold read_all. rewrite Nat.add_comm. cbn [Nat.add Http2Hpack.handle_all]. by rewrite bool_decide_true. Qed.

Lemma read_all_eq s d : next_handler s <> StateHead -> read_all s d =
  match handle s d with
  | None => None
  | Some (Stops err) => Some (Stops err)
  | Some (Goes s' []) => Some (Goes s' [])
  | Some (Goes s' d') => read_all s' d'
  end.
Proof.
  intros Hh. unfold read_all at 1. replace (2 * length d + 2)%nat with (S (2 * length d + 1)) by lia. cbn [Http2Hpack.handle_all].
  rewrite bool_decide_false by done. destruct (handle s d) as [[s' d'|err]|] eqn:E; cbn [mbind option_bind]; [|done..].
  destruct (handle_calls s d s' d' Hh E) as [->|[H|H]]; [done|..]; (destruct d' as [|c d']; [done|]).
  - rewrite read_all_end by done. rewrite Nat.add_comm. cbn [Nat.add Http2Hpack.handle_all]. by rewrite bool_decide_true.
  - apply read_all_rounds. unfold calls in *. repeat case_bool_decide; lia.
Qed.

(** ** Reads *)

Lemma same_sym (r r' : option outcome) : same r r' -> same r' r.
Proof. intros [->|(s & s' & d & ? & ? & ? & ? & ?)]; [by left|right]. by exists s', s, d. Qed.

Lemma same_trans (r1 r2 r3 : option outcome) : same r1 r2 -> same r2 r3 -> same r1 r3.
Proof.
  intros [->|(s & s' & d & -> & -> & H1 & H2 & E)] H; [done|]. destruct H as [<-|(s2 & s3 & d2 & E2 & -> & H3 & H4 & E')]; [right; by exists s, s', d|].
  injection E2 as <- <-. right. exists s, s3, d. split_and!; try done. congruence.
Qed.

(** What a call gives, and the calls after it. *)
Definition goes_all (r : option outcome) : option outcome :=
  match r with
  | Some (Goes s []) => Some (Goes s [])
  | Some (Goes s d) => read_all s d
  | r => r
  end.

Lemma goes_all_same r r' : same r r' -> same (goes_all r) (goes_all r').
Proof.
  intros [->|(s & s' & d & -> & -> & H1 & H2 & E)]; [by left|]. unfold goes_all.
  destruct d as [|c d]; [|rewrite !read_all_end by done]; right; eexists _, _, _; by split_and!.
Qed.

Lemma read_all_goes s d : next_handler s <> StateHead -> read_all s d = goes_all (handle s d).
Proof. intros H. rewrite read_all_eq by done. by destruct (handle s d) as [[s' []|]|]. Qed.

(** What is read goes on with what is read next. *)
Definition read_resumes (s : state) (d e : list Z) : Prop :=
  match read_all s d with
  | None => read_all s (d ++ e) = None
  | Some (Stops err) => read_all s (d ++ e) = Some (Stops err)
  | Some (Goes s' d') =>
      (next_handler s' = StateHead /\ read_all s (d ++ e) = Some (Goes s' (d' ++ e))) \/
      (next_handler s' <> StateHead /\ d' = [] /\ sane s' /\ bytes (buffer s') /\
       same (read_all s (d ++ e)) (read_all (s' <| buffer := [] |>) (buffer s' ++ e)))
  end.

Lemma read_all_resumes s d e : sane s -> buffer s = [] -> bytes d -> e <> [] -> read_resumes s d e.
Proof.
  remember (calls s d) as k eqn:Ek. revert s d Ek. induction k as [k IH] using lt_wf_ind. intros s d Ek Hs Hb Hd He.
  unfold read_resumes. destruct (decide (next_handler s = StateHead)) as [Hh|Hh].
  { rewrite !read_all_end by done. left. by split. }
  pose proof (handle_resumes take_header run_request max_field_size s d e Hs Hb Hd He Hh) as H. unfold resumes in H.
  rewrite (read_all_eq s d), (read_all_goes s (d ++ e)) by done. destruct (handle s d) as [[s' d'|err]|] eqn:E; [|by rewrite H..].
  destruct H as [Hs' [(Hb' & Hd' & H)|(-> & Hh' & Hbb & H)]].
  - rewrite H. assert (Eb : s' <| buffer := [] |> = s') by (rewrite <- Hb'; by destruct s').
    assert (Eg : goes_all (Some (Goes s' (d' ++ e))) = read_all s' (d' ++ e)) by (unfold goes_all; by destruct d', e).
    rewrite Eg. destruct d' as [|c d'].
    + cbn [app]. destruct (decide (next_handler s' = StateHead)) as [H0|H0]; [left; by rewrite read_all_end by done|right].
      rewrite Eb, Hb'. cbn [app]. split_and!; try done. by left.
    + destruct (handle_calls s d s' _ Hh E) as [?|[H0|H0]]; [done|rewrite !read_all_end by done; by left|].
      apply (IH (calls s' (c :: d'))); try done; lia.
  - right. split_and!; try done. rewrite (read_all_goes (s' <| buffer := [] |>)) by by destruct s'. apply goes_all_same, H.
Qed.

Abbreviation read_block := (read_block take_header run_request max_field_size).
Abbreviation read_pieces := (read_pieces take_header run_request max_field_size).

Lemma handle_all_ends n s d s' d' : handle_all n s d = Some (Goes s' d') -> next_handler s' = StateHead \/ d' = [].
Proof.
  revert s d. induction n as [|n IH]; intros s d; cbn [Http2Hpack.handle_all]; case_bool_decide as Hh; try done.
  1, 2: intros [= <- <-]; by left.
  destruct (handle s d) as [[s1 [|c d1]|err]|]; cbn [mbind option_bind]; [intros [= <- <-]; by right|apply IH|done..].
Qed.

Lemma read_pieces_same (pieces : list (list Z)) : Forall (fun d => bytes d /\ d <> []) pieces -> pieces <> [] -> forall s,
  sane s -> bytes (buffer s) -> next_handler s <> StateHead -> same (read_pieces s pieces) (read_block s (concat pieces)).
Proof.
  induction 1 as [|d pieces [Hd Hne] Hp IH]; intros Hpne s Hs Hb Hh; [done|]. cbn [Http2Hpack.read_pieces concat].
  assert (Hs0 : sane (s <| buffer := [] |>)) by by destruct s. assert (Hb0 : buffer (s <| buffer := [] |>) = []) by by destruct s.
  unfold read_block. rewrite (assoc_L app). fold (read_all (s <| buffer := [] |>) (buffer s ++ d)). fold (read_all (s <| buffer := [] |>) ((buffer s ++ d) ++ concat pieces)).
  destruct pieces as [|p pieces].
  - cbn [concat]. rewrite app_nil_r. destruct (read_all _ _) as [[s' d'|err]|] eqn:E; [|by left..]. cbn [mbind option_bind].
    apply handle_all_ends in E. case_bool_decide as Hh'; [rewrite app_nil_r; by left|]. destruct E as [?| ->]; [done|by left].
  - assert (He : concat (p :: pieces) <> []) by (inversion_clear Hp as [|? ? [? Hp1]]; by destruct p).
    pose proof (read_all_resumes (s <| buffer := [] |>) (buffer s ++ d) (concat (p :: pieces)) Hs0 Hb0 ltac:(by apply Forall_app_2) He) as H.
    unfold read_resumes in H. destruct (read_all _ (buffer s ++ d)) as [[s' d'|err]|]; cbn [mbind option_bind]; [|by rewrite H; left..].
    destruct H as [[Hh' H]|(Hh' & -> & Hs' & Hb' & H)].
    + rewrite bool_decide_true by done. rewrite H. by left.
    + rewrite bool_decide_false by done. eapply same_trans; [apply IH; [done..|]|by apply same_sym]. done.
Qed.

(** What a whole block comes to, its pieces come to. *)
Lemma read_pieces_whole (s s' : state) pieces rest : Forall (fun d => bytes d /\ d <> []) pieces -> pieces <> [] -> sane s -> buffer s = [] ->
  next_handler s = HeaderBlock -> read_all s (concat pieces) = Some (Goes s' rest) ->
  exists s1, read_pieces s pieces = Some (Goes s1 rest) /\ next_handler s1 = next_handler s' /\ buffer s1 = buffer s' /\ world s1 = world s' /\ table s1 = table s'.
Proof.
  intros Hp Hne Hs Hb Hh E.
  assert (Eb : read_block s (concat pieces) = Some (Goes s' rest)).
  { unfold read_block. rewrite Hb. cbn [app]. assert (s <| buffer := [] |> = s) as -> by (rewrite <- Hb; by destruct s). exact E. }
  destruct (read_pieces_same pieces Hp Hne s Hs ltac:(by rewrite Hb) ltac:(by rewrite Hh)) as [H|(s1 & s2 & d & H1 & H2 & H3 & H4 & H5)].
  - exists s'. by rewrite H.
  - rewrite Eb in H2. injection H2 as <- <-. exists s1. rewrite H1, H3, H4. split; [done|]. split; [done|].
    split_and!; [apply (f_equal buffer) in H5|apply (f_equal world) in H5|apply (f_equal table) in H5]; by destruct s1, s'.
Qed.

(** C25: However the bytes of a header block, of any number of frames, correct or
    not, arrive, what the connection comes to is the same: the same error, or
    the same bytes left and the same state, [state.length] apart when the block
    has ended. *)
Theorem ngx_http_v2_header_block_resume (s : state) pieces : Forall (fun d => bytes d /\ d <> []) pieces -> pieces <> [] ->
  sane s -> bytes (buffer s) -> next_handler s <> StateHead ->
  read_pieces s pieces = read_block s (concat pieces) \/
  exists s1 s2 d, read_pieces s pieces = Some (Goes s1 d) /\ read_block s (concat pieces) = Some (Goes s2 d) /\
    next_handler s1 = StateHead /\ next_handler s2 = StateHead /\ s1 <| len := 0 |> = s2 <| len := 0 |>.
Proof. intros Hp Hne Hs Hb Hh. exact (read_pieces_same pieces Hp Hne s Hs Hb Hh). Qed.

End Read.

(** ** An example *)

Definition example_block : list Z := [0x82; 0x86; 0x84; 0x41; 0x8c; 0xf1; 0xe3; 0xc2; 0xe5; 0xf2; 0x3a; 0x6b; 0xa0; 0xab; 0x90; 0xf4; 0xff].
Definition example_headers : list v2_header :=
  [Header (bs ":method") (bs "GET"); Header (bs ":scheme") (bs "http"); Header (bs ":path") (bs "/"); Header (bs ":authority") (bs "www.example.com")].
Definition example_state : @v2_state (list v2_header) :=
  State 1 17 2 0x4 false false false (Header [] []) 4096 0 [] 0 0 true [] HeaderBlock (hpack_init (replicate NGX_HTTP_V2_TABLE_SIZE 0)) [].
Definition example_take (w : list v2_header) (x : v2_header) : taken (list v2_header) := Taken (w ++ [x]).

(** RFC 7541, C.4.1. *)
Lemma example_follows : rfc_block 4096 None example_block example_headers
  (Some (rfc_add (the_table None) (Header (bs ":authority") (bs "www.example.com")))).
Proof.
  assert (H1 : forall l x t1 d hs t2 t, rfc_field 4096 t l (Some x) t1 -> rfc_block 4096 t1 d hs t2 -> rfc_block 4096 t (l ++ d) (x :: hs) t2)
    by (intros l x t1 d hs t2 t Hf Hd; exact (block_field 4096 t l (Some x) t1 d hs t2 Hf Hd)).
  assert (H2 : forall b i x t, 128 <= b < 256 -> Z.land b 0x7f = i -> i <> 0x7f -> rfc_lookup (the_table t) i = Some x -> rfc_field 4096 t [b] (Some x) t).
  { intros b i x t Hb Hi Hn Hx. apply (field_indexed 4096 t b [] i x); [done| |done]. by left. }
  apply (H1 [0x82] _ None (drop 1 example_block)); [by apply (H2 0x82 2)|].
  apply (H1 [0x86] _ None (drop 2 example_block)); [by apply (H2 0x86 6)|].
  apply (H1 [0x84] _ None (drop 3 example_block)); [by apply (H2 0x84 4)|].
  set (h := drop 5 example_block). eapply (H1 ([0x41] ++ [] ++ [0x8c] ++ h) _ _ []); [|constructor].
  apply (field_added 4096 None 0x41 [] (bs ":authority") ([0x8c] ++ h)); [done| |].
  - apply (name_indexed 4096 None 0x3f 0x41 [] 1 (Header (bs ":authority") [])); [by left|done|by vm_compute].
  - apply (string_huff 4096 0x8c [] h); [done|by left|done|by repeat constructor|].
    destruct (huff_decode_sound h [] ltac:(by repeat constructor)) as (rc & st & s & E & _ & _ & [(_ & _ & H)|(-> & _)]).
    + replace s with (bs "www.example.com") in H; [done|]. vm_compute in E. by injection E as _ _ <-.
    + vm_compute in E. done.
Qed.

Theorem ngx_http_v2_header_block_resume_witness :
  let pieces := [[0x41; 0x8c]; [0xff; 0xff]; [0xff; 0xff]] in
  Forall (fun d => bytes d /\ d <> []) pieces /\
  (read_pieces example_take id 4096 example_state pieces = read_block example_take id 4096 example_state (concat pieces) \/
   exists s1 s2 d, read_pieces example_take id 4096 example_state pieces = Some (Goes s1 d) /\
     read_block example_take id 4096 example_state (concat pieces) = Some (Goes s2 d) /\
     next_handler s1 = StateHead /\ next_handler s2 = StateHead /\ s1 <| len := 0 |> = s2 <| len := 0 |>).
Proof.
  intros pieces. assert (Hp : Forall (fun d => bytes d /\ d <> []) pieces) by (repeat constructor; done). split; [exact Hp|].
  exact (ngx_http_v2_header_block_resume example_take id 4096 example_state pieces Hp ltac:(done) ltac:(unfold sane; simpl; lia) ltac:(constructor) ltac:(done)).
Defined.
