(* ===== verification/Http2HpackFrames.v ===== *)
(** * Header blocks of HTTP/2: CONTINUATION frames

    A block that is cut into frames, anywhere, is read as one in one frame. *)

From S2P Require Import Prelude NgxBits Http2Huff Http2Table Http2TableSpec Http2Hpack Http2HpackSpec Http2HpackResume Http2HpackRead.

#[local] Abbreviation length := (@List.length _).

(** The 9 bytes before the payload of a CONTINUATION frame of [n] bytes with the
    flags [f] for the stream [id]; the bit before the identifier is ignored. *)
Definition continuation_head (id f n : Z) (hdr : list Z) : Prop :=
  length hdr = NGX_HTTP_V2_FRAME_HEADER_SIZE /\ be_value (take 4 hdr) = n * 256 + NGX_HTTP_V2_CONTINUATION_FRAME /\
  hdr !! 4%nat = Some f /\ Z.land (be_value (take 4 (drop 5 hdr))) 0x7fffffff = id.

Section Frames.
Context {W : Type} (take_header : W -> v2_header -> taken W) (run_request : W -> W) (max_field_size : Z).
Abbreviation state := (@v2_state W).
Abbreviation outcome := (@outcome W).
Abbreviation PH := (ngx_http_v2_state_process_header take_header run_request max_field_size).
Abbreviation handle := (handle take_header run_request max_field_size).
Abbreviation header_complete := (ngx_http_v2_state_header_complete run_request).
Abbreviation process_complete := (process_complete take_header run_request).
Abbreviation field_len := (ngx_http_v2_state_field_len max_field_size).
Abbreviation header_block := (ngx_http_v2_state_header_block take_header run_request max_field_size).
Abbreviation read_all := (read_all take_header run_request max_field_size).

(** ** A frame and the next *)

Section Cut.
(** After the [len s] bytes of a frame come [pad], the head of the next frame
    and its [m] bytes, with which [y] begins. *)
Context (id f m : Z) (pad hdr y : list Z) (Hm : 0 <= m) (Hhdr : continuation_head id f m hdr).

Definition cut_at (s : state) (x : list Z) : Prop :=
  sid s = id /\ len s = Z.of_nat (length x) /\ padding s = Z.of_nat (length pad) /\ end_headers s = false /\ 0 <= field_rest s.

(** The state and the bytes as if the two frames were one. *)
Definition joined (s : state) : state := framed s (len s + m) (Z.lor (flags s) f) 0.
Abbreviation rest := (pad ++ hdr ++ y).

Lemma join h (s : state) x : cut_at s x ->
  ngx_http_v2_handle_continuation s (x ++ rest) h = Some (Goes (joined s <| next_handler := h |>) (x ++ y)).
Proof.
  intros (Hid & Hl & Hp & _ & _). destruct Hhdr as (Hh & Ev & Ef & Eid).
  assert (Epad : continuation_padding s (x ++ rest) = (s <| padding := 0 |>, x ++ hdr ++ y)).
  { unfold continuation_padding. rewrite Hp, Hl. destruct (Z.eqb_spec (Z.of_nat (length pad)) 0) as [E|E]; cbn [negb andb].
    - destruct pad; [|simpl in E; lia]. cbn [app]. f_equal. destruct s. simpl in Hp. by subst.
    - rewrite !length_app, (proj2 (Z.ltb_lt _ _)) by lia. rewrite Z.min_l by lia. rewrite Z.sub_diag. f_equal.
      rewrite Nat2Z.id, take_app_length. f_equal. rewrite drop_app, (drop_ge x) by lia. cbn [app].
      replace (length x + Z.to_nat (Z.of_nat (length pad)) - length x)%nat with (length pad) by lia. apply drop_app_length. }
  unfold ngx_http_v2_handle_continuation. rewrite Epad. change (len (s <| padding := 0 |>)) with (len s). rewrite Hl, Nat2Z.id. cbv zeta.
  rewrite (proj2 (Nat.ltb_ge _ _)) by (rewrite !length_app, Hh; lia). unfold NGX_HTTP_V2_FRAME_HEADER_SIZE in *.
  rewrite drop_app_length, take_app_length. rewrite (take_app_le hdr) by lia. rewrite Ev.
  replace (Z.land (m * 256 + NGX_HTTP_V2_CONTINUATION_FRAME) 0xff) with NGX_HTTP_V2_CONTINUATION_FRAME.
  2: { change 0xff with (Z.ones 8). rewrite Z.land_ones by lia. unfold NGX_HTTP_V2_CONTINUATION_FRAME. apply Z.mod_unique with m; lia. }
  rewrite Z.eqb_refl. cbn [negb]. rewrite lookup_app_l, Ef by lia. cbn [mbind option_bind].
  rewrite (drop_app_le hdr), take_app_le by (rewrite ?length_drop; lia). rewrite Eid.
  assert (sid (s <| padding := 0 |> <| flags := Z.lor (flags (s <| padding := 0 |>)) f |>) = id) as -> by by destruct s.
  rewrite Z.eqb_refl. cbn [negb].
  replace (Z.shiftr (m * 256 + NGX_HTTP_V2_CONTINUATION_FRAME) 8) with m.
  2: { rewrite Z.shiftr_div_pow2 by lia. unfold NGX_HTTP_V2_CONTINUATION_FRAME. apply Z.div_unique with 9; lia. }
  rewrite drop_app, (drop_ge x) by lia. cbn [app]. replace (length x + 9 - length x)%nat with (length hdr) by lia. rewrite drop_app_length.
  unfold joined, framed. destruct s. flat. by rewrite Hl.
Qed.

(** [g] with the bytes of two frames: as with those of one, up to where the
    first ends.  (The error for a number that is too long depends on the bytes
    left in the frame.) *)
Definition cuts (g : state -> list Z -> option outcome) (s : state) (x : list Z) : Prop :=
  match g s (x ++ rest) with
  | None => g (joined s) (x ++ y) = None
  | Some (Stops _) => exists err, g (joined s) (x ++ y) = Some (Stops err)
  | Some (Goes s' d') =>
      (exists x', d' = x' ++ rest /\ bytes x' /\ cut_at s' x' /\ next_handler s' = HeaderBlock /\
         g (joined s) (x ++ y) = Some (Goes (joined s') (x' ++ y))) \/
      (exists x', d' = x' ++ y /\ next_handler s' <> StateHead /\ g (joined s) (x ++ y) = handle s' d')
  end.

Lemma cuts_after (f1 g : state -> list Z -> option outcome) s x s1 x1 : f1 s (x ++ rest) = g s1 (x1 ++ rest) ->
  f1 (joined s) (x ++ y) = g (joined s1) (x1 ++ y) -> cuts g s1 x1 -> cuts f1 s x.
Proof. intros E1 E2. unfold cuts. by rewrite E1, E2. Qed.

Lemma cuts_stops (g : state -> list Z -> option outcome) s x err err' : g s (x ++ rest) = Some (Stops err) ->
  g (joined s) (x ++ y) = Some (Stops err') -> cuts g s x.
Proof. intros E1 E2. unfold cuts. rewrite E1. by exists err'. Qed.

Lemma cuts_join (g : state -> list Z -> option outcome) h s x : cut_at s x -> h <> StateHead ->
  g s (x ++ rest) = ngx_http_v2_handle_continuation s (x ++ rest) h ->
  g (joined s) (x ++ y) = handle (joined s <| next_handler := h |>) (x ++ y) -> cuts g s x.
Proof.
  intros Hc Hh E1 E2. unfold cuts. rewrite E1, (join h s x Hc). right. exists x. split_and!; [done| |done]. by destruct s.
Qed.

Lemma header_complete_cuts s x : cut_at s x -> bytes x -> cuts header_complete s x.
Proof.
  intros Hc Hx. pose proof Hc as (Hid & Hl & Hp & He & Hr). destruct (Z.eqb_spec (len s) 0) as [E0|E0].
  - apply (cuts_join _ HeaderComplete); try done.
    + unfold ngx_http_v2_state_header_complete. by rewrite E0, He.
    + symmetry. exact (header_complete_ignores run_request (joined s) HeaderComplete (x ++ y)).
  - unfold cuts, ngx_http_v2_state_header_complete. rewrite (proj2 (Z.eqb_neq _ _)) by done. cbn [negb]. left. exists x.
    split; [done|]. split; [done|]. split; [unfold cut_at, end_headers in *; by destruct s|]. split; [by destruct s|].
    assert (len (joined s) <> 0) by (unfold joined, framed; destruct s; flat; lia). rewrite (proj2 (Z.eqb_neq _ _)) by done. by destruct s.
Qed.

Lemma leads_to_cuts f1 g s x : leads_to f1 g s -> cut_at s x -> (forall s', cut_at s' x -> cuts g s' x) -> cuts f1 s x.
Proof.
  intros H (Hid & Hl & Hp & He & Hr) Hg. assert (Es : framed s (len s) (flags s) (padding s) = s) by by destruct s.
  destruct H as [(s' & Hs & H)|[H|(err & H)]].
  - apply (cuts_after _ g s x s' x).
    + specialize (H (len s) (flags s) (padding s) (x ++ rest)). by rewrite Es, (framed_same s s') in H.
    + unfold joined. destruct Hs as (_ & -> & -> & _). apply H.
    + destruct Hs as (E1 & E2 & E3 & E4 & E5 & _). apply Hg. unfold cut_at, end_headers in *. by rewrite E1, E2, E3, E4, E5.
  - unfold cuts. pose proof (H (len s) (flags s) (padding s) (x ++ rest)) as E. rewrite Es in E. rewrite E. apply H.
  - pose proof (H (len s) (flags s) (padding s) (x ++ rest)) as E. rewrite Es in E. apply (cuts_stops _ _ _ err err); [done|apply H].
Qed.

Lemma process_complete_cuts s x : cut_at s x -> bytes x -> cuts process_complete s x.
Proof.
  intros Hc Hx. apply (leads_to_cuts _ _ _ _ (process_complete_leads take_header run_request s) Hc). intros s' Hs'. by apply header_complete_cuts.
Qed.


(** ** Strings *)

Lemma two_bites_app (eat : eater) a st f0 x z last : two_bites eat -> (z = [] -> last = false) ->
  eat a st f0 (x ++ z) last = match eat a st f0 x false with Some (Some (st1, f1)) => eat a st1 f1 z last | r => r end.
Proof.
  intros Heat Hz. pose proof (Heat a st f0 x) as H. destruct z as [|c z].
  - rewrite (Hz eq_refl), app_nil_r. destruct (eat a st f0 x false) as [[[st1 f1]|]|]; [|done..]. by destruct H.
  - destruct (eat a st f0 x false) as [[[st1 f1]|]|]; [destruct H as [_ H]|..]; by apply H.
Qed.

(** What is asked of [PH]. *)
Definition PH_cuts (b : bool) : Prop := forall s x, cut_at s x -> bytes x -> allowed b s -> cuts PH s x.

(** A string that ends in the first frame. *)
Lemma string_ends eat h next (s : state) x z : 0 <= field_rest s <= Z.of_nat (length x) -> field_rest s <= len s ->
  let n := field_rest s in let k := Z.to_nat n in
  string_reader eat h next s (x ++ z) = match eat (field_alloc s) (field_state s) (field s) (take k x) true with
    | None => None | Some None => Some (Stops NGX_HTTP_V2_COMP_ERROR)
    | Some (Some (st, f0)) => next (s <| len := len s - n |> <| field_rest := 0 |> <| field_state := st |> <| field := f0 |>) (drop k x ++ z) end.
Proof.
  intros Hr Hl n k. unfold string_reader, after_piece.
  assert (piece s (x ++ z) = n) as -> by (unfold piece; rewrite length_app; lia).
  fold k. rewrite take_app_le, drop_app_le by lia. unfold n. destruct s. flat. rewrite Z.sub_diag. change (0 =? 0) with true.
  by destruct (eat _ _ _ _ _) as [[[st f0]|]|].
Qed.

(** A string that goes on after the first frame, of which [x] is left. *)
Lemma string_goes_on eat h (s : state) x : cut_at s x -> Z.of_nat (length x) < field_rest s ->
  string_reader eat h PH s (x ++ rest) = match eat (field_alloc s) (field_state s) (field s) x false with
    | None => None | Some None => Some (Stops NGX_HTTP_V2_COMP_ERROR)
    | Some (Some (st, f0)) =>
        ngx_http_v2_handle_continuation (s <| len := 0 |> <| field_rest := field_rest s - len s |> <| field_state := st |> <| field := f0 |>) rest h end.
Proof.
  intros (_ & Hl & _ & He & _) Hr. unfold string_reader, after_piece.
  assert (piece s (x ++ rest) = len s) as -> by (unfold piece; rewrite length_app; lia).
  rewrite Hl, Nat2Z.id, take_app_length, drop_app_length, Z.sub_diag. unfold end_headers in *. destruct s. flat.
  rewrite (proj2 (Z.eqb_neq _ _)) by lia. destruct (eat _ _ _ _ _) as [[[st f0]|]|]; [|done..]. cbn [mbind option_bind]. flat.
  change (negb (0 =? 0)) with false. cbv iota. by rewrite He.
Qed.

Lemma string_joined eat h (s : state) x : two_bites eat -> cut_at s x -> Z.of_nat (length x) < field_rest s ->
  string_reader eat h PH (joined s) (x ++ y) = match eat (field_alloc s) (field_state s) (field s) x false with
    | None => None | Some None => Some (Stops NGX_HTTP_V2_COMP_ERROR)
    | Some (Some (st, f0)) =>
        string_reader eat h PH (joined (s <| len := 0 |> <| field_rest := field_rest s - len s |> <| field_state := st |> <| field := f0 |>)) y end.
Proof.
  intros Heat (_ & Hl & _) Hr. unfold string_reader at 1.
  set (k := Z.min (Z.min (Z.of_nat (length y)) (field_rest s - len s)) m).
  assert (piece (joined s) (x ++ y) = len s + k) as -> by (unfold piece, joined, framed; destruct s; flat; rewrite length_app; lia).
  rewrite take_app, (take_ge x), drop_app, (drop_ge x) by lia. replace (Z.to_nat (len s + k) - length x)%nat with (Z.to_nat k) by lia. cbn [app].
  unfold joined, framed. rewrite two_bites_app; [|done|].
  2: { intros E%(f_equal length). rewrite length_take in E. change (length []) with 0%nat in E. assert (k = 0) by (unfold k in *; lia). clearbody k. destruct s. flat. apply Z.eqb_neq. lia. }
  destruct s. flat. destruct (eat _ _ _ x false) as [[[st f0]|]|]; [|done..]. unfold string_reader, piece. flat. fold k.
  rewrite !Z.add_0_l, !Z.sub_add_distr, !Z.add_simpl_l. fold k. done.
Qed.

Lemma string_reader_cuts eat h b s x : reading eat h -> PH_cuts b -> cut_at s x -> bytes x -> allowed b s -> cuts (string_reader eat h PH) s x.
Proof.
  intros Hk HPH Hc Hx Hal. pose proof Hc as (Hid & Hl & Hp & He & Hr).
  pose proof (reading_bites eat h Hk) as Heat.
  destruct (Z.leb_spec (field_rest s) (Z.of_nat (length x))) as [Hin|Hout].
  - assert (E1 := string_ends eat h PH s x rest ltac:(lia) ltac:(lia)).
    assert (E2 : string_reader eat h PH (joined s) (x ++ y) = _) by (apply string_ends; unfold joined, framed; destruct s; flat; lia).
    cbv zeta in E1, E2. replace (field_rest (joined s)) with (field_rest s) in E2 by by destruct s.
    replace (field_alloc (joined s)) with (field_alloc s) in E2 by by destruct s.
    replace (field_state (joined s)) with (field_state s) in E2 by by destruct s. replace (field (joined s)) with (field s) in E2 by by destruct s.
    destruct (eat _ _ _ _ true) as [[[st f0]|]|]; [|by apply (cuts_stops _ _ _ NGX_HTTP_V2_COMP_ERROR NGX_HTTP_V2_COMP_ERROR)|unfold cuts; by rewrite E1].
    apply (cuts_after _ PH s x _ _ E1).
    + rewrite E2. f_equal. unfold joined, framed. destruct s. flat. f_equal. lia.
    + apply HPH; [|by apply Forall_drop|unfold allowed in *; by destruct s].
      unfold cut_at, end_headers in *. destruct s. flat. split_and!; try done. rewrite length_drop. lia.
  - assert (E1 := string_goes_on eat h s x Hc Hout). assert (E2 := string_joined eat h s x Heat Hc Hout).
    destruct (eat _ _ _ x false) as [[[st f0]|]|]; [|by apply (cuts_stops _ _ _ NGX_HTTP_V2_COMP_ERROR NGX_HTTP_V2_COMP_ERROR)|unfold cuts; by rewrite E1].
    set (s2 := s <| len := 0 |> <| field_rest := _ |> <| field_state := st |> <| field := f0 |>) in *.
    assert (Hc2 : cut_at s2 []) by (unfold s2, cut_at, end_headers in *; destruct s; flat; split_and!; try done; lia).
    unfold cuts. rewrite E1, E2. change rest with ([] ++ rest) at 1. rewrite (join h s2 [] Hc2). right. exists []. split; [done|]. split.
    + destruct s. by apply (reading_goes_on eat h).
    + rewrite (reading_handler _ _ _ eat h Hk) by by destruct s2. symmetry. exact (string_reader_ignores eat h PH (PH_ignores _ _ _) (joined s2) h y).
Qed.

(** ** Numbers *)

(** With 4 bytes a number is complete, or too long. *)
Lemma parse_int_whole x p : bytes x -> (NGX_HTTP_V2_INT_OCTETS <= length x)%nat -> 0 <= p ->
  (forall (s : state) z, 4 <= len s -> exists v, (v = NGX_DECLINED \/ v = NGX_ERROR) /\ ngx_http_v2_parse_int s (x ++ z) p = Some (v, s, x ++ z)) \/
  exists v n, 0 <= v /\ (n <= length x)%nat /\
    forall (s : state) z, 4 <= len s -> ngx_http_v2_parse_int s (x ++ z) p = Some (v, s <| len := len s - Z.of_nat n |>, drop n x ++ z).
Proof.
  unfold NGX_HTTP_V2_INT_OCTETS. intros Hx Hl Hp. destruct x as [|ch r]; [simpl in Hl; lia|]. cbn [length] in Hl. apply Forall_cons in Hx as [Hch Hr]. unfold is_byte in Hch.
  cbn [app ngx_http_v2_parse_int]. assert (Hv : 0 <= Z.land ch p) by (apply Z.land_nonneg; lia).
  destruct (Z.eqb_spec (Z.land ch p) p) as [Ep|Ep]; cbn [negb].
  2: { right. exists (Z.land ch p), 1%nat. split_and!; [done|simpl; lia|]. intros s z Hs. by rewrite (proj2 (Z.eqb_neq (len s) 0)) by lia. }
  set (l := take (NGX_HTTP_V2_INT_OCTETS - 1) r). assert (Hl3 : length l = 3%nat) by (unfold l, NGX_HTTP_V2_INT_OCTETS; rewrite length_take; lia).
  assert (E : forall z, take (NGX_HTTP_V2_INT_OCTETS - 1) (r ++ z) = l) by (intros z; unfold NGX_HTTP_V2_INT_OCTETS; by rewrite take_app_le by lia).
  pose proof (int_loop_app l [] ltac:(by apply Forall_take) 1 0 (Z.land ch p) ltac:(lia) Hv) as H.
  destruct (int_loop l 1 0 (Z.land ch p)) as [[n v]|] eqn:Ei.
  - destruct H as (_ & Hn & Hv'). right. exists v, n. split_and!; [done|simpl; lia|]. intros s z Hs. rewrite E, Ei.
    rewrite (proj2 (Z.ltb_ge _ _)) by lia. change (ch :: r ++ z) with ((ch :: r) ++ z). by rewrite drop_app_le by (simpl; lia).
  - left. intros s z Hs. rewrite E, Ei, Hl3. destruct (len s <=? Z.of_nat 4); eexists; (split; [|done]); [by right|by left].
Qed.

Lemma int_error_stops v (s : state) d h : v = NGX_DECLINED \/ v = NGX_ERROR -> exists err, int_error v s d h = Stops err.
Proof. intros [-> | ->]; by eexists. Qed.

Lemma string_begin_cuts b huff n s x : PH_cuts b -> cut_at s x -> bytes x -> 0 <= n -> allowed b s -> cuts (string_begin huff n PH) s x.
Proof.
  intros HPH Hc Hx Hn Hal. pose proof Hc as (Hid & Hl & Hp & He & Hr).
  assert (Hread : forall eat h s2, reading eat h -> cut_at s2 x -> allowed b s2 ->
    (forall d, string_begin huff n PH s d = string_reader eat h PH s2 d) -> (forall d, string_begin huff n PH (joined s) d = string_reader eat h PH (joined s2) d) ->
    cuts (string_begin huff n PH) s x).
  { intros eat h s2 Hk Hc2 Hal2 E1 E2. apply (cuts_after _ (string_reader eat h PH) s x s2 x); [apply E1|apply E2|by apply (string_reader_cuts eat h b)]. }
  unfold cut_at, allowed, end_headers in *. destruct s. flat.
  destruct (negb stream && negb index) eqn:E; [|destruct (negb (huff =? 0)) eqn:Eh].
  - eapply (Hread eat_skip FieldSkip (State _ _ _ _ _ _ _ _ _ _ _ _ _ _ _ _ _ _)); [constructor| | |
      intros d; unfold string_begin; flat; rewrite E; apply field_skip_reader|intros d; unfold string_begin, joined, framed; flat; rewrite E; apply field_skip_reader]; done.
  - eapply (Hread eat_huff FieldHuff (State _ _ _ _ _ _ _ _ _ _ _ _ _ _ _ _ _ _)); [constructor| | |
      intros d; unfold string_begin; flat; rewrite E, Eh; apply field_huff_reader|intros d; unfold string_begin, joined, framed; flat; rewrite E, Eh; apply field_huff_reader]; done.
  - eapply (Hread eat_raw FieldRaw (State _ _ _ _ _ _ _ _ _ _ _ _ _ _ _ _ _ _)); [constructor| | |
      intros d; unfold string_begin; flat; rewrite E, Eh; apply field_raw_reader|intros d; unfold string_begin, joined, framed; flat; rewrite E, Eh; apply field_raw_reader]; done.
Qed.

Lemma joined_len (s : state) n : joined (s <| len := len s - n |>) = (joined s) <| len := len (joined s) - n |>.
Proof. unfold joined, framed. destruct s. flat. f_equal. lia. Qed.

Lemma cut_at_len (s : state) x n : cut_at s x -> (n <= length x)%nat -> cut_at (s <| len := len s - Z.of_nat n |>) (drop n x).
Proof.
  unfold cut_at, end_headers. intros (Hid & Hl & Hp & He & Hr) Hn. destruct s. flat. split_and!; try done. rewrite length_drop. lia.
Qed.

(** A frame with 4 bytes left, and what follows it. *)
Lemma not_waiting (s : state) : 4 <= len s -> negb (end_headers s) && (len s <? Z.of_nat NGX_HTTP_V2_INT_OCTETS) = false /\ (len s <? 1) = false.
Proof. intros H. change (Z.of_nat NGX_HTTP_V2_INT_OCTETS) with 4. rewrite !(proj2 (Z.ltb_ge _ _)) by lia. by rewrite andb_false_r. Qed.

Lemma field_len_cuts b s x : PH_cuts b -> cut_at s x -> bytes x -> allowed b s -> cuts (field_len PH) s x.
Proof.
  intros HPH Hc Hx Hal. pose proof Hc as (Hid & Hl & Hp & He & Hr). destruct (Z.ltb_spec (len s) 4) as [Hlt|Hge].
  { apply (cuts_join _ FieldLen); try done.
    - unfold ngx_http_v2_state_field_len. rewrite He. change (Z.of_nat NGX_HTTP_V2_INT_OCTETS) with 4. by rewrite (proj2 (Z.ltb_lt _ _)).
    - symmetry. exact (field_len_ignores max_field_size PH (PH_ignores _ _ _) (joined s) FieldLen (x ++ y)). }
  assert (Hj : 4 <= len (joined s)) by (unfold joined, framed; destruct s; flat; lia).
  destruct (not_waiting s Hge) as [Hw H1]. destruct (not_waiting (joined s) Hj) as [Hwj H1j].
  destruct x as [|ch x]; [simpl in Hl; lia|].
  assert (E : forall (s0 : state) z, 4 <= len s0 -> field_len PH s0 ((ch :: x) ++ z) =
    '(n, s0, d) ← ngx_http_v2_parse_int s0 ((ch :: x) ++ z) 0x7f;
    if n <? 0 then Some (int_error n s0 d FieldLen)
    else if max_field_size <? n then Some (Stops NGX_HTTP_V2_ENHANCE_YOUR_CALM)
    else string_begin (Z.shiftr ch 7) n PH s0 d).
  { intros s0 z H0. destruct (not_waiting s0 H0) as [Hw0 H10]. cbn [app]. by rewrite field_len_eq, Hw0, H10. }
  destruct (parse_int_whole (ch :: x) 0x7f Hx ltac:(unfold NGX_HTTP_V2_INT_OCTETS; lia) ltac:(lia)) as [H|(v & n & Hv & Hn & H)].
  - destruct (H s rest Hge) as (v & Hv & E1). destruct (H (joined s) y Hj) as (v' & Hv' & E2).
    assert (Hneg : forall v, v = NGX_DECLINED \/ v = NGX_ERROR -> (v <? 0) = true) by (by intros ? [-> | ->]).
    destruct (int_error_stops v s ((ch :: x) ++ rest) FieldLen Hv) as [err Eerr]. destruct (int_error_stops v' (joined s) ((ch :: x) ++ y) FieldLen Hv') as [err' Eerr'].
    apply (cuts_stops _ _ _ err err'); rewrite E by done; [rewrite E1|rewrite E2]; cbn [mbind option_bind]; rewrite Hneg by done; by f_equal.
  - specialize (H s rest Hge) as E1. specialize (H (joined s) y Hj) as E2. rewrite <- joined_len in E2.
    pose proof (cut_at_len s (ch :: x) n Hc Hn) as Hc2. set (s2 := s <| len := len s - Z.of_nat n |>) in *.
    destruct (max_field_size <? v) eqn:Em.
    + apply (cuts_stops _ _ _ NGX_HTTP_V2_ENHANCE_YOUR_CALM NGX_HTTP_V2_ENHANCE_YOUR_CALM); rewrite E by done; [rewrite E1|rewrite E2]; cbn [mbind option_bind];
        by rewrite (proj2 (Z.ltb_ge v 0)), Em by lia.
    + apply (cuts_after _ (string_begin (Z.shiftr ch 7) v PH) s (ch :: x) s2 (drop n (ch :: x)));
        [rewrite E, E1 by done; cbn [mbind option_bind]; by rewrite (proj2 (Z.ltb_ge v 0)), Em by lia
        |rewrite E, E2 by done; cbn [mbind option_bind]; by rewrite (proj2 (Z.ltb_ge v 0)), Em by lia|].
      apply (string_begin_cuts b); [done|done|by apply Forall_drop|done|unfold allowed in *; by destruct s].
Qed.

Lemma PH_cuts_false : PH_cuts false.
Proof.
  intros s x Hc Hx Hal. assert (Hn : parse_name s = false) by (destruct (parse_name s) eqn:E; [by specialize (Hal E)|done]).
  apply (cuts_after _ process_complete s x s x); [by rewrite PH_eq, Hn| |by apply process_complete_cuts].
  rewrite PH_eq. assert (parse_name (joined s) = false) as -> by by destruct s. done.
Qed.

Lemma PH_cuts_true : PH_cuts true.
Proof.
  intros s x Hc Hx _. destruct (parse_name s) eqn:E; [|apply PH_cuts_false; try done; unfold allowed; by rewrite E].
  apply (cuts_after _ (field_len PH) s x (s <| parse_name := false |> <| header := Header (field s) (h_value (header s)) |>) x).
  - by rewrite PH_eq, E.
  - rewrite PH_eq. assert (parse_name (joined s) = true) as -> by by destruct s. by destruct s.
  - apply (field_len_cuts false); [apply PH_cuts_false|by destruct s|done|by destruct s].
Qed.

Lemma after_number_cuts ch v s x : cut_at s x -> bytes x -> cuts (after_number take_header run_request max_field_size ch v) s x.
Proof.
  intros Hc Hx. destruct (after_number_leads take_header run_request max_field_size ch v s) as [H|[H|H]]; apply (leads_to_cuts _ _ _ _ H Hc); intros s' Hs'.
  - by apply PH_cuts_true.
  - by apply header_complete_cuts.
  - by apply (field_len_cuts true); [apply PH_cuts_true|..].
Qed.

Lemma opened_joined ch s : opened ch (joined s) = joined (opened ch s).
Proof. unfold opened, joined, framed. destruct (_ && _); [by destruct s|done]. Qed.

Lemma header_block_cuts s x : cut_at s x -> bytes x -> y <> [] -> cuts header_block s x.
Proof.
  intros Hc Hx Hy. pose proof Hc as (Hid & Hl & Hp & He & Hr). destruct (Z.ltb_spec (len s) 4) as [Hlt|Hge].
  { apply (cuts_join _ HeaderBlock); try done.
    - assert (Hd : exists c z, x ++ rest = c :: z).
      { destruct Hhdr as (Hh & _). unfold NGX_HTTP_V2_FRAME_HEADER_SIZE in Hh. destruct (x ++ rest) as [|c z] eqn:E; [|by exists c, z].
        apply (f_equal length) in E. rewrite !length_app in E. simpl in E. lia. }
      destruct Hd as (c & z & ->). rewrite header_block_eq, He. change (Z.of_nat NGX_HTTP_V2_INT_OCTETS) with 4. by rewrite (proj2 (Z.ltb_lt _ _)).
    - symmetry. exact (header_block_ignores take_header run_request max_field_size (joined s) HeaderBlock (x ++ y)). }
  destruct x as [|ch x]; [simpl in Hl; lia|].
  assert (Hco : cut_at (opened ch s) (ch :: x) /\ 4 <= len (opened ch s)).
  { destruct (opened_frame ch s) as [(E1 & E2 & E3 & E4 & E5 & _) E6]. unfold cut_at. by rewrite E1, E2, E4, E5, E6. }
  destruct Hco as [Hco Hgo]. set (so := opened ch s) in *. assert (Hj : 4 <= len (joined so)) by (unfold joined, framed; destruct so; flat; lia).
  assert (E : forall (s0 : state) z, 4 <= len s0 -> header_block s0 ((ch :: x) ++ z) =
    '(v, s0, d) ← ngx_http_v2_parse_int (opened ch s0) ((ch :: x) ++ z) (field_prefix ch);
    if v <? 0 then Some (int_error v s0 d HeaderBlock) else after_number take_header run_request max_field_size ch v s0 d).
  { intros s0 z H0. destruct (not_waiting s0 H0) as [Hw0 _]. cbn [app]. by rewrite header_block_eq, Hw0. }
  assert (Ea : header_block s ((ch :: x) ++ rest) = _) by (by apply E). fold so in Ea.
  assert (Eb : header_block (joined s) ((ch :: x) ++ y) = _) by (apply E; unfold joined, framed; destruct s; flat; lia). rewrite opened_joined in Eb. fold so in Eb.
  assert (Hpre : 0 <= field_prefix ch) by (unfold field_prefix; repeat case_match; lia).
  destruct (parse_int_whole (ch :: x) (field_prefix ch) Hx ltac:(unfold NGX_HTTP_V2_INT_OCTETS; lia) Hpre) as [H|(v & n & Hv & Hn & H)].
  - destruct (H so rest Hgo) as (v & Hv & E1). destruct (H (joined so) y Hj) as (v' & Hv' & E2).
    assert (Hneg : forall v, v = NGX_DECLINED \/ v = NGX_ERROR -> (v <? 0) = true) by (by intros ? [-> | ->]).
    destruct (int_error_stops v so ((ch :: x) ++ rest) HeaderBlock Hv) as [err Eerr]. destruct (int_error_stops v' (joined so) ((ch :: x) ++ y) HeaderBlock Hv') as [err' Eerr'].
    apply (cuts_stops _ _ _ err err'); [rewrite Ea, E1|rewrite Eb, E2]; cbn [mbind option_bind]; rewrite Hneg by done; by f_equal.
  - specialize (H so rest Hgo) as E1. specialize (H (joined so) y Hj) as E2. rewrite <- joined_len in E2.
    pose proof (cut_at_len so (ch :: x) n Hco Hn) as Hc2. set (s2 := so <| len := len so - Z.of_nat n |>) in *.
    apply (cuts_after _ (after_number take_header run_request max_field_size ch v) s (ch :: x) s2 (drop n (ch :: x)));
      [rewrite Ea, E1; cbn [mbind option_bind]; by rewrite (proj2 (Z.ltb_ge v 0)) by lia
      |rewrite Eb, E2; cbn [mbind option_bind]; by rewrite (proj2 (Z.ltb_ge v 0)) by lia|].
    apply after_number_cuts; [done|by apply Forall_drop].
Qed.

(** The calls of the handlers. *)
Definition agrees (r r' : option outcome) : Prop :=
  match r with None => r' = None | Some (Stops _) => exists err, r' = Some (Stops err) | Some (Goes s d) => r' = Some (Goes s d) end.

Lemma read_all_cuts x : bytes x -> y <> [] -> forall s, next_handler s = HeaderBlock -> cut_at s x ->
  agrees (read_all s (x ++ rest)) (read_all (joined s) (x ++ y)).
Proof.
  remember (length x) as n eqn:En. revert x En. induction n as [n IH] using lt_wf_ind. intros x En Hx Hy s Hh Hc.
  assert (Hrest : rest <> []).
  { destruct Hhdr as (E & _). unfold NGX_HTTP_V2_FRAME_HEADER_SIZE in E. intros E0%(f_equal length). rewrite !length_app in E0. simpl in E0. lia. }
  assert (Hhj : next_handler (joined s) = HeaderBlock) by by destruct s.
  assert (Hany : forall (s : state) d, next_handler s = HeaderBlock -> handle s d = header_block s d) by (intros s0 d0 E0; unfold Http2Hpack.handle; by rewrite E0).
  pose proof (header_block_cuts s x Hc Hx Hy) as H. unfold cuts in H.
  rewrite !read_all_goes, !Hany by (done || by rewrite ?Hh, ?Hhj).
  destruct (header_block s (x ++ rest)) as [[s' d'|err]|] eqn:E; cbn [goes_all]; [|destruct H as [err' ->]; by exists err'|by rewrite H].
  destruct H as [(x' & -> & Hx' & Hc' & Hh' & ->)|(x' & -> & Hh' & ->)].
  - assert (Eg : forall (s0 : state) z, z <> [] -> goes_all take_header run_request max_field_size (Some (Goes s0 (x' ++ z))) = read_all s0 (x' ++ z)).
    { intros s0 z Hz. unfold goes_all. destruct (x' ++ z) eqn:E0; [|done]. by apply app_eq_nil in E0 as [_ ?]. }
    change (agrees (goes_all take_header run_request max_field_size (Some (Goes s' (x' ++ rest)))) (goes_all take_header run_request max_field_size (Some (Goes (joined s') (x' ++ y))))).
    rewrite !Eg by done. apply header_block_shrinks in E as [E|E]; [by apply app_eq_nil in E as [_ ?]|]. rewrite !length_app in E.
    apply (IH (length x')); try done. lia.
  - assert (Ey : x' ++ y <> []) by (by intros [_ ?]%app_eq_nil).
    destruct (x' ++ y) as [|c d] eqn:E0; [done|]. rewrite <- E0, read_all_goes by done.
    rewrite E0. destruct (goes_all _ _ _ (handle s' (c :: d))) as [[]|]; [done|by eexists|done].
Qed.
End Cut.

(** ** Frames *)

(** The CONTINUATION frames of a block, with the bytes in them and their flags
    together: the last frame, that is not empty, has END_HEADERS. *)
Inductive continued (id : Z) : list Z -> list Z -> Z -> Prop :=
  | last_frame hdr fl x : continuation_head id fl (Z.of_nat (length x)) hdr -> Z.land fl NGX_HTTP_V2_END_HEADERS_FLAG <> 0 -> x <> [] ->
      continued id (hdr ++ x) x fl
  | more_frames hdr fl x t d fl' : continuation_head id fl (Z.of_nat (length x)) hdr -> Z.land fl NGX_HTTP_V2_END_HEADERS_FLAG = 0 ->
      continued id t d fl' -> continued id (hdr ++ x ++ t) (x ++ d) (Z.lor fl fl').

Lemma continued_ends id t d fl : continued id t d fl -> Z.land fl NGX_HTTP_V2_END_HEADERS_FLAG <> 0 /\ t <> [].
Proof.
  induction 1 as [hdr fl x (Hh & _) Hf Hx|hdr fl x t d fl' Hh Hf Ht [IH Hne]].
  - split; [done|]. by intros [_ ?]%app_eq_nil.
  - split; [by rewrite Z.land_lor_distr_l, Hf, Z.lor_0_l|]. by intros [_ [_ ?]%app_eq_nil]%app_eq_nil.
Qed.

Lemma agrees_trans (r1 r2 r3 : option outcome) : agrees r1 r2 -> agrees r2 r3 -> agrees r1 r3.
Proof. unfold agrees. destruct r1 as [[]|]; [by intros ->|intros [? ->]; done|by intros ->]. Qed.

Lemma read_all_frames id t d2 fl : continued id t d2 fl -> forall (s : state) d1 pad e,
  bytes d1 -> bytes d2 -> next_handler s = HeaderBlock -> sid s = id -> end_headers s = false -> 0 <= field_rest s ->
  len s = Z.of_nat (length d1) -> padding s = Z.of_nat (length pad) ->
  agrees (read_all s (d1 ++ pad ++ t ++ e))
    (read_all (framed s (Z.of_nat (length d1 + length d2)) (Z.lor (flags s) fl) 0) (d1 ++ d2 ++ e)).
Proof.
  induction 1 as [hdr fl x Hhdr Hf Hx|hdr fl x t d fl' Hhdr Hf Ht IH]; intros s d1 pad e Hb1 Hb2 Hh Hid He Hr Hl Hp.
  - rewrite Nat2Z.inj_add, <- Hl, <- (assoc_L app hdr).
    apply (read_all_cuts id fl (Z.of_nat (length x)) pad hdr (x ++ e)); try done; [lia|]. by intros [? _]%app_eq_nil.
  - apply Forall_app in Hb2 as [Hbx Hbd]. pose proof (continued_ends _ _ _ _ Ht) as [_ Htne].
    rewrite <- !(assoc_L app hdr), <- !(assoc_L app x). eapply agrees_trans.
    + apply (read_all_cuts id fl (Z.of_nat (length x)) pad hdr (x ++ t ++ e)); try done; [lia|]. by intros [_ [? _]%app_eq_nil]%app_eq_nil.
    + set (s1 := joined fl (Z.of_nat (length x)) s). specialize (IH s1 (d1 ++ x) [] e).
      cbn [app] in IH. rewrite <- !(assoc_L app d1) in IH. rewrite length_app in IH.
      replace (framed s (Z.of_nat (length d1 + length (x ++ d))) (Z.lor (flags s) (Z.lor fl fl')) 0)
        with (framed s1 (Z.of_nat (length d1 + length x + length d)) (Z.lor (flags s1) fl') 0).
      2: { unfold s1, joined, framed. destruct s. flat. by rewrite length_app, Z.lor_assoc, Nat.add_assoc. }
      apply IH; [by apply Forall_app_2|done|..]; clear IH; unfold s1, joined, framed, end_headers in *; destruct s; flat; try done.
      * by rewrite Z.land_lor_distr_l, Hf, Z.lor_0_r.
      * lia.
Qed.

(** What a block [d] is on the wire, after the first frame has been begun. *)
Inductive in_frames (s : state) : list Z -> list Z -> Prop :=
  | one_frame d pad : end_headers s = true -> len s = Z.of_nat (length d) -> padding s = Z.of_nat (length pad) -> in_frames s d (d ++ pad)
  | many_frames d1 d2 pad t fl : end_headers s = false -> len s = Z.of_nat (length d1) -> padding s = Z.of_nat (length pad) ->
      continued (sid s) t d2 fl -> in_frames s (d1 ++ d2) (d1 ++ pad ++ t).

(** The state of ngx_http_v2_state_headers when the block begins. *)
Definition begun (s : state) : Prop :=
  parse_name s = false /\ parse_value s = false /\ index s = false /\ field_state s = 0 /\ field_rest s = 0 /\
  stream s = true /\ buffer s = [] /\ next_handler s = HeaderBlock.

Lemma read_all_block t d hs t' (s : state) wire rest w : rfc_block max_field_size t d hs t' -> d <> [] -> begun s -> in_frames s d wire ->
  bytes d -> table_is (table s) t -> added (table s) + Z.of_nat (length d) < 2 ^ 64 ->
  data_total hs <= header_limit s -> takes take_header (world s) hs w ->
  exists s', read_all s (wire ++ rest) = Some (Goes s' rest) /\ next_handler s' = StateHead /\ buffer s' = [] /\
    world s' = run_request w /\ table_is (table s') t'.
Proof.
  intros Hd Hne (Hn & Hpv & Hix & Hfs & Hfr & Hst & Hb & Hh) Hw Hbd Ht Ha Hlim Htk.
  assert (Hrun : forall (s : state) pad, begun s -> end_headers s = true -> len s = Z.of_nat (length d) -> padding s = Z.of_nat (length pad) ->
    table_is (table s) t -> added (table s) + Z.of_nat (length d) < 2 ^ 64 -> data_total hs <= header_limit s -> takes take_header (world s) hs w ->
    exists s', read_all s (d ++ pad ++ rest) = Some (Goes s' rest) /\ next_handler s' = StateHead /\ buffer s' = [] /\
      world s' = run_request w /\ table_is (table s') t').
  { clear -Hd Hne. intros s pad (Hn & Hpv & Hix & Hfs & _ & Hst & Hb & Hh) He Hl Hp Ht Ha Hlim Htk.
    destruct (block_run take_header run_request max_field_size t d hs t' Hd s pad rest w (2 * length (d ++ pad ++ rest) + 2)) as (s' & E & E1 & E2 & E3 & E4);
      try done; [rewrite !length_app; lia|]. exists s'. rewrite Hb in E4. by split_and!. }
  destruct Hw as [d pad He Hl Hp|d1 d2 pad tl fl He Hl Hp Hc].
  - rewrite <- (assoc_L app). by apply Hrun.
  - apply Forall_app in Hbd as [Hb1 Hb2]. destruct (continued_ends _ _ _ _ Hc) as [Hends _].
    assert (Hag := read_all_frames _ _ _ _ Hc s d1 pad rest Hb1 Hb2 Hh eq_refl He ltac:(lia) Hl Hp).
    rewrite <- !(assoc_L app). set (s2 := framed s _ _ 0) in Hag.
    destruct (Hrun s2 []) as (s' & E & H); try (by unfold s2, framed; destruct s).
    + unfold s2, framed, end_headers. destruct s. flat. apply negb_true_iff, Z.eqb_neq. rewrite Z.land_lor_distr_l. intros E0. apply Hends. by apply Z.lor_eq_0_iff in E0 as [_ E0].
    + unfold s2, framed. destruct s. flat. rewrite length_app. lia.
    + exists s'. split; [|done]. cbn [app] in E. rewrite <- (assoc_L app) in E. unfold agrees in Hag.
      destruct (read_all s _) as [[s0 d0|err]|]; rewrite E in Hag; [by injection Hag as <- <-|by destruct Hag|done].
Qed.

(** C22: A header block that follows RFC 7541, within the limits of the
    configuration, whose headers the request accepts, gives it its headers,
    decoded, in the order of the block, and the table its entries, wherever it
    is cut into frames, as long as the last one is not empty, and however the
    bytes arrive; the bytes after it are left for the next frame. (When the
    last frame is empty, the request is not started.) *)
Theorem ngx_http_v2_header_block_meaning (s : state) t d hs t' wire rest w pieces :
  rfc_block max_field_size t d hs t' -> d <> [] -> bytes d -> begun s -> in_frames s d wire ->
  table_is (table s) t -> added (table s) + Z.of_nat (length d) < 2 ^ 64 ->
  data_total hs <= header_limit s -> takes take_header (world s) hs w ->
  Forall (fun d => bytes d /\ d <> []) pieces -> concat pieces = wire ++ rest ->
  exists s', read_pieces take_header run_request max_field_size s pieces = Some (Goes s' rest) /\
    next_handler s' = StateHead /\ buffer s' = [] /\ world s' = run_request w /\ table_is (table s') t'.
Proof.
  intros Hd Hne Hbd Hbg Hw Ht Ha Hlim Htk Hp Hc.
  destruct (read_all_block t d hs t' s wire rest w Hd Hne Hbg Hw Hbd Ht Ha Hlim Htk) as (s' & E & E1 & E2 & E3 & E4).
  destruct Hbg as (_ & _ & _ & _ & Hfr & _ & Hb & Hh). rewrite <- Hc in E.
  assert (Hpne : pieces <> []).
  { intros ->. destruct Hw as [d pad _ _ _|d1 d2 pad tl fl _ _ _ Hcont]; [by destruct d|].
    destruct (continued_ends _ _ _ _ Hcont) as [_ Htl]. by destruct d1, pad, tl. }
  assert (Hs : sane s) by (unfold sane; destruct Hw; lia).
  destruct (read_pieces_whole take_header run_request max_field_size s s' pieces rest Hp Hpne Hs Hb Hh E) as (s1 & H1 & H2 & H3 & H4 & H5).
  exists s1. rewrite H2, H3, H4, H5. by split_and!.
Qed.
End Frames.

(** ** An example *)

(** The block of RFC 7541, C.4.1, in a frame with a byte of padding and in
    another. *)
Definition example_begun : @v2_state (list v2_header) := example_state <| len := 7 |> <| padding := 1 |> <| flags := 0 |>.
Definition example_head (n : Z) : list Z := [0; 0; n; 9; 4; 0; 0; 0; 1].
Definition example_wire : list Z := take 7 example_block ++ [0] ++ example_head 10 ++ drop 7 example_block.

Theorem ngx_http_v2_header_block_meaning_witness :
  let pieces := [take 5 example_wire; drop 5 (take 12 example_wire); drop 12 example_wire ++ [77]] in
  Forall (fun d => bytes d /\ d <> []) pieces /\
  exists s', read_pieces example_take id 4096 example_begun pieces = Some (Goes s' [77]) /\ next_handler s' = StateHead /\ buffer s' = [] /\
    world s' = id example_headers /\ table_is (table s') (Some (rfc_add (the_table None) (Header (bs ":authority") (bs "www.example.com")))).
Proof.
  intros pieces. assert (Hp : Forall (fun d => bytes d /\ d <> []) pieces) by (repeat constructor; done). split; [exact Hp|].
  apply (ngx_http_v2_header_block_meaning example_take id 4096 example_begun None example_block example_headers _ example_wire [77] example_headers pieces);
    [exact example_follows|done|by repeat constructor|done| | |done|done| |exact Hp|done].
  - apply (many_frames example_begun (take 7 example_block) (drop 7 example_block) [0] (example_head 10 ++ drop 7 example_block) 4); [done|done|done|].
    apply (last_frame 1 (example_head 10) 4 (drop 7 example_block)); done.
  - simpl. split_and!; done.
  - by repeat econstructor.
Defined.

(** A last frame that is empty: the request is not run until something else
    arrives. *)
Lemma empty_last_frame : exists s,
  read_pieces example_take (fun w => w ++ [Header (bs "run") []]) 4096 (example_state <| padding := 0 |> <| flags := 0 |>) [example_block; example_head 0] =
    Some (Goes s []) /\ next_handler s = HeaderComplete /\ world s = example_headers.
Proof. eexists. split; [by vm_compute|]. split; by vm_compute. Qed.
