(* ===== verification/Http2Request.v ===== *)
(** * Requests of HTTP/2 (src/http/v2/ngx_http_v2.c)

    What becomes of the headers of a block: they are checked, those that begin
    with a colon stand for the request line, the cookies are joined.  What the
    handlers of single headers do with them, found by a hash of their names, is
    a parameter, and so is what is done with the request that is complete. *)

From S2P Require Import Prelude HttpCommon HttpRequestLine HttpUri HttpPath HttpParseUri Http2Table Http2Hpack Http2HpackSpec.

#[local] Abbreviation length := (@List.length _).

Definition NGX_ABORT : Z := -6.
Definition NGX_HTTP_READING_REQUEST_STATE : Z := 1.
Definition NGX_HTTP_PROCESS_REQUEST_STATE : Z := 2.

(** [src/http/ngx_http_request.h:358-558] ngx_http_request_s: the fields that
    the headers set.  [req_path] is the memory of [:path], [req_uri] what
    ngx_http_process_request_uri writes. *)
Record v2_request := Req {
  rq : request;
  req_path : list Z;
  req_uri : option uri_fields;
  method_name : list Z;
  unparsed_uri : list Z;
  schema : option (list Z);
  headers_in : list (list Z * list Z);
  cookies : option (list (list Z));
  invalid_header : bool;
  request_line : list Z;
  http_state : Z
}.
#[export] Instance eta_v2_request : Settable v2_request := fun r =>
  Req (rq r) (req_path r) (req_uri r) (method_name r) (unparsed_uri r) (schema r) (headers_in r) (cookies r) (invalid_header r)
    (request_line r) (http_state r).

Definition new_request : v2_request := Req init_request [] None [] [] None [] None false [] NGX_HTTP_READING_REQUEST_STATE.

Section Request.
(** [underscores_in_headers], [ignore_invalid_headers], [merge_slashes] *)
Context (underscores ignore_invalid merge_slashes : bool).

(** [cmcf->headers_in_hash]: the handler of a header, if it has one, and whether
    it accepts a value. *)
Context (headers_in_hash : list Z -> option (v2_request -> list Z -> bool)).

(** ** Checks *)

(** [src/http/v2/ngx_http_v2.c:2909-2941] ngx_http_v2_validate_header: the
    characters of the name. *)
Fixpoint validate_name (l : list Z) (invalid : bool) : Z * bool :=
  match l with
  | [] => (NGX_OK, invalid)
  | ch :: l =>
      if (("a"%chr <=? ch) && (ch <=? "z"%chr)) || (ch =? "-"%chr) || (("0"%chr <=? ch) && (ch <=? "9"%chr)) || ((ch =? "_"%chr) && underscores) then
        validate_name l invalid
      else if (ch =? 0) || (ch =? LF) || (ch =? CR) || (ch =? ":"%chr) then (NGX_ERROR, invalid)
      else if ("A"%chr <=? ch) && (ch <=? "Z"%chr) then (NGX_ERROR, invalid)
      else validate_name l true
  end.

(** [src/http/v2/ngx_http_v2.c:2943-2957] ngx_http_v2_validate_header: those of
    the value. *)
Fixpoint validate_value (l : list Z) : Z :=
  match l with
  | [] => NGX_OK
  | ch :: l => if (ch =? 0) || (ch =? LF) || (ch =? CR) then NGX_ERROR else validate_value l
  end.

(** [src/http/v2/ngx_http_v2.c:2894-2960] ngx_http_v2_validate_header *)
Definition ngx_http_v2_validate_header (r : v2_request) (x : v2_header) : Z * v2_request :=
  match h_name x with
  | [] => (NGX_ERROR, r)
  | c :: name =>
      let (rc, invalid) := validate_name (if c =? ":"%chr then name else c :: name) false in
      let r := r <| invalid_header := invalid |> in
      if negb (rc =? NGX_OK) then (rc, r) else (validate_value (h_value x), r)
  end.

(** ** The request line *)

(** [src/http/v2/ngx_http_v2.c:3012-3049] ngx_http_v2_parse_path: the string
    ends with a zero, which is not counted. *)
Definition ngx_http_v2_parse_path (r : v2_request) (value : list Z) : Z * v2_request :=
  if negb (length (unparsed_uri r) =? 0)%nat then (NGX_DECLINED, r)
  else if (length value =? 0)%nat then (NGX_DECLINED, r)
  else
    let mem := value ++ [0] in
    let r := r <| req_path := mem |> <| rq := (rq r) <| uri_start := Some 0 |> <| uri_end := Some (Z.of_nat (length value)) |> |> in
    let (rc, q) := ngx_http_parse_uri mem (rq r) in
    let r := r <| rq := q |> in
    if negb (rc =? NGX_OK) then (NGX_DECLINED, r)
    else
      match ngx_http_process_request_uri mem merge_slashes q with
      | None => (NGX_ABORT, r)
      | Some (q, f) => (NGX_OK, r <| rq := q |> <| req_uri := Some f |> <| unparsed_uri := value |>)
      end.

(** [src/http/v2/ngx_http_v2.c:3064-3084] ngx_http_v2_parse_method: the
    methods. *)
Definition methods : list (list Z * Z) :=
  [(bs "GET", NGX_HTTP_GET); (bs "POST", NGX_HTTP_POST); (bs "HEAD", NGX_HTTP_HEAD); (bs "OPTIONS", NGX_HTTP_OPTIONS);
   (bs "PROPFIND", NGX_HTTP_PROPFIND); (bs "PUT", NGX_HTTP_PUT); (bs "MKCOL", NGX_HTTP_MKCOL); (bs "DELETE", NGX_HTTP_DELETE);
   (bs "COPY", NGX_HTTP_COPY); (bs "MOVE", NGX_HTTP_MOVE); (bs "PROPPATCH", NGX_HTTP_PROPPATCH); (bs "LOCK", NGX_HTTP_LOCK);
   (bs "UNLOCK", NGX_HTTP_UNLOCK); (bs "PATCH", NGX_HTTP_PATCH); (bs "TRACE", NGX_HTTP_TRACE)].

(** [src/http/v2/ngx_http_v2.c:3103-3126] ngx_http_v2_parse_method: the
    search. *)
Fixpoint find_method (tests : list (list Z * Z)) (name : list Z) : option Z :=
  match tests with
  | [] => None
  | (m, v) :: tests => if bool_decide (name = m) then Some v else find_method tests name
  end.

(** [src/http/v2/ngx_http_v2.c:3052-3144] ngx_http_v2_parse_method *)
Definition ngx_http_v2_parse_method (r : v2_request) (value : list Z) : Z * v2_request :=
  if negb (length (method_name r) =? 0)%nat then (NGX_DECLINED, r)
  else if (length value =? 0)%nat then (NGX_DECLINED, r)
  else
    let r := r <| method_name := value |> in
    match find_method methods value with
    | Some v => (NGX_OK, r <| rq := (rq r) <| method := v |> |>)
    | None => if forallb upper_or_underscore value then (NGX_OK, r) else (NGX_DECLINED, r)
    end.

(** [src/http/v2/ngx_http_v2.c:3147-3168] ngx_http_v2_parse_scheme *)
Definition ngx_http_v2_parse_scheme (r : v2_request) (value : list Z) : Z * v2_request :=
  if schema r is Some _ then (NGX_DECLINED, r)
  else if (length value =? 0)%nat then (NGX_DECLINED, r)
  else (NGX_OK, r <| schema := Some value |>).

(** [src/http/v2/ngx_http_v2.c:3171-3213] ngx_http_v2_parse_authority *)
Definition ngx_http_v2_parse_authority (r : v2_request) (value : list Z) : Z * v2_request :=
  let r := r <| headers_in := headers_in r ++ [(bs "host", value)] |> in
  match headers_in_hash (bs "host") with
  | None => (NGX_ERROR, r)
  | Some handler => if handler r value then (NGX_OK, r) else (NGX_ABORT, r)
  end.

(** [src/http/v2/ngx_http_v2.c:2963-3009] ngx_http_v2_pseudo_header *)
Definition ngx_http_v2_pseudo_header (r : v2_request) (x : v2_header) : Z * v2_request :=
  let name := drop 1 (h_name x) in
  if bool_decide (name = bs "path") then ngx_http_v2_parse_path r (h_value x)
  else if bool_decide (name = bs "method") then ngx_http_v2_parse_method r (h_value x)
  else if bool_decide (name = bs "scheme") then ngx_http_v2_parse_scheme r (h_value x)
  else if bool_decide (name = bs "authority") then ngx_http_v2_parse_authority r (h_value x)
  else (NGX_DECLINED, r).

(** [src/http/v2/ngx_http_v2.c:3257-3283] ngx_http_v2_cookie *)
Definition ngx_http_v2_cookie (r : v2_request) (value : list Z) : v2_request :=
  r <| cookies := Some (default [] (cookies r) ++ [value]) |>.

(** [src/http/v2/ngx_http_v2.c:1499-1599] ngx_http_v2_state_process_header: a
    header that is complete.  A stream that is terminated is dropped. *)
Definition take_header (r : v2_request) (x : v2_header) : taken v2_request :=
  let (rc, r) := ngx_http_v2_validate_header r x in
  if negb (rc =? NGX_OK) then Dropped r
  else if default 0 (head (h_name x)) =? ":"%chr then
    let (rc, r) := ngx_http_v2_pseudo_header r x in
    if rc =? NGX_OK then Taken r
    else if rc =? NGX_ABORT then Dropped r
    else if rc =? NGX_DECLINED then Dropped r
    else Failed NGX_HTTP_V2_INTERNAL_ERROR
  else if invalid_header r && ignore_invalid then Taken r
  else if bool_decide (h_name x = bs "cookie") then Taken (ngx_http_v2_cookie r (h_value x))
  else
    let r := r <| headers_in := headers_in r ++ [(h_name x, h_value x)] |> in
    match headers_in_hash (h_name x) with
    | Some handler => if handler r (h_value x) then Taken r else Dropped r
    | None => Taken r
    end.

(** ** The end of the headers *)

(** [src/http/v2/ngx_http_v2.c:3216-3254] ngx_http_v2_construct_request_line:
    [None] is a request answered with 400. *)
Definition ngx_http_v2_construct_request_line (r : v2_request) : option v2_request :=
  if (length (method_name r) =? 0)%nat || (length (unparsed_uri r) =? 0)%nat then None
  else Some (r <| request_line := method_name r ++ bs " " ++ unparsed_uri r ++ bs " HTTP/2.0" |>).

(** [src/http/v2/ngx_http_v2.c:3308-3315] ngx_http_v2_construct_cookie_header:
    the length. *)
Definition cookies_len (vals : list (list Z)) : nat := (foldl (fun len v => len + (length v + 2)) 0 vals - 2)%nat.

(** [src/http/v2/ngx_http_v2.c:3326-3336] ngx_http_v2_construct_cookie_header:
    the loop, up to [len] bytes; [None] past the last cookie or the memory. *)
Fixpoint join_cookies (len : nat) (vals : list (list Z)) (buf : list Z) : option (list Z) :=
  match vals with
  | [] => None
  | v :: vals =>
      let buf := buf ++ v in
      if (length buf =? len)%nat then Some buf
      else if (len <? length buf + 2)%nat then None
      else join_cookies len vals (buf ++ bs "; ")
  end.

(** [src/http/v2/ngx_http_v2.c:3286-3373] ngx_http_v2_construct_cookie_header:
    whether the request goes on; [None] is undefined. *)
Definition ngx_http_v2_construct_cookie_header (r : v2_request) : option (bool * v2_request) :=
  match cookies r with
  | None => Some (true, r)
  | Some vals =>
      buf ← join_cookies (cookies_len vals) vals [];
      let r := r <| headers_in := headers_in r ++ [(bs "cookie", buf)] |> in
      match headers_in_hash (bs "cookie") with
      | None => Some (false, r)
      | Some handler => Some (handler r buf, r)
      end
  end.

(** [src/http/v2/ngx_http_v2.c:3376-3387] ngx_http_v2_run_request: up to the
    state in which ngx_http_process_request_header is called. *)
Definition ngx_http_v2_run_request (r : v2_request) : option v2_request :=
  match ngx_http_v2_construct_request_line r with
  | None => Some r
  | Some r =>
      '(ok, r) ← ngx_http_v2_construct_cookie_header r;
      Some (if ok : bool then r <| http_state := NGX_HTTP_PROCESS_REQUEST_STATE |> else r)
  end.

(** ** What a request may have *)

Definition clean_char (c : Z) : Prop := c <> 0 /\ c <> LF /\ c <> CR.
(** A header cannot be taken for the end of a line or for another header. *)
Definition header_ok (h : list Z * list Z) : Prop :=
  h.1 <> [] /\ Forall (fun c => clean_char c /\ c <> ":"%chr /\ ~ "A"%chr <= c <= "Z"%chr) h.1 /\ Forall clean_char h.2.

(** A character that is not meant to be in a name. *)
Definition strange (c : Z) : bool :=
  negb ((("a"%chr <=? c) && (c <=? "z"%chr)) || (c =? "-"%chr) || (("0"%chr <=? c) && (c <=? "9"%chr)) || ((c =? "_"%chr) && underscores)).
Definition is_pseudo (x : v2_header) : bool := default 0 (head (h_name x)) =? ":"%chr.
(** The header that is made of one of the block, and the cookie. *)
Definition header_of (x : v2_header) : list (list Z * list Z) :=
  if bool_decide (h_name x = bs ":authority") then [(bs "host", h_value x)]
  else if is_pseudo x || (ignore_invalid && existsb strange (h_name x)) || bool_decide (h_name x = bs "cookie") then []
  else [(h_name x, h_value x)].
Definition cookie_of (x : v2_header) : list (list Z) := if bool_decide (h_name x = bs "cookie") then [h_value x] else [].

(** ** Checks *)

Lemma validate_name_spec l : forall invalid rc invalid', validate_name l invalid = (rc, invalid') -> rc = NGX_OK ->
  Forall (fun c => clean_char c /\ c <> ":"%chr /\ ~ "A"%chr <= c <= "Z"%chr) l /\ invalid' = invalid || existsb strange l.
Proof.
  induction l as [|c l IH]; intros invalid rc invalid' H Hrc; cbn [validate_name existsb] in *; [injection H as <- <-; by rewrite orb_false_r|].
  rewrite <- (negb_involutive (_ || _ || _ || _)) in H. fold (strange c) in H. destruct (strange c) eqn:E; cbn [negb orb] in *.
  - destruct ((c =? 0) || _ || _ || _) eqn:E2; [by simplify_eq|]. destruct ((_ <=? c) && _) eqn:E3; [by simplify_eq|].
    destruct (IH _ _ _ H Hrc) as [Hl ->]. split; [|by destruct invalid]. constructor; [|done]. unfold clean_char. lia.
  - destruct (IH _ _ _ H Hrc) as [Hl ->]. split; [|done]. constructor; [|done]. unfold strange, clean_char, LF, CR in *. lia.
Qed.

Lemma validate_value_spec l : validate_value l = NGX_OK -> Forall clean_char l.
Proof.
  induction l as [|c l IH]; intros H; [done|]. cbn [validate_value] in H. destruct (_ || _) eqn:E; [done|].
  constructor; [unfold clean_char; lia|by apply IH].
Qed.

(** A header of the block that has been checked. *)
Definition checked (x : v2_header) : Prop :=
  h_name x <> [] /\ Forall clean_char (h_value x) /\
  Forall (fun c => clean_char c /\ c <> ":"%chr /\ ~ "A"%chr <= c <= "Z"%chr) (if is_pseudo x then drop 1 (h_name x) else h_name x).

Lemma validate_header_spec r x r' : ngx_http_v2_validate_header r x = (NGX_OK, r') ->
  checked x /\ (is_pseudo x = false -> r' = r <| invalid_header := existsb strange (h_name x) |>) /\
  exists b, r' = r <| invalid_header := b |>.
Proof.
  unfold ngx_http_v2_validate_header, checked, is_pseudo. destruct (h_name x) as [|c name] eqn:En; [done|]. cbn [head default].
  destruct (validate_name _ false) as [rc invalid] eqn:Ev. destruct (Z.eqb_spec rc NGX_OK) as [Er|Er]; cbn [negb]; [|intros [= E _]; done].
  intros H. assert (Ha : validate_value (h_value x) = NGX_OK) by congruence. apply validate_value_spec in Ha.
  assert (Hr : r' = r <| invalid_header := invalid |>) by congruence. apply validate_name_spec in Ev as [Hn Hi]; [|done].
  split; [|split].
  - split; [done|]. split; [done|]. simpl; by destruct (c =? 58).
  - intros E. rewrite Hr, Hi. simpl in E. by rewrite E.
  - by exists invalid.
Qed.

(** ** Headers one after the other *)

Definition upper (c : Z) : Prop := upper_or_underscore c = true.

(** What is known of a request after the headers [done] of its block. *)
Record reading (done : list v2_header) (r : v2_request) : Prop := {
  reading_state : http_state r = NGX_HTTP_READING_REQUEST_STATE;
  reading_checked : Forall checked done;
  reading_headers : headers_in r = concat (map header_of done);
  reading_cookies : cookies r = match concat (map cookie_of done) with [] => None | l => Some l end;
  reading_method : method_name r = [] \/ Header (bs ":method") (method_name r) ∈ done /\ Forall upper (method_name r);
  reading_path : unparsed_uri r = [] /\ args_start (rq r) = None \/
    unparsed_uri r <> [] /\ Header (bs ":path") (unparsed_uri r) ∈ done /\ exists f, req_uri r = Some f /\ contained merge_slashes (uri f)
}.

Lemma methods_upper : forallb (fun m => forallb upper_or_underscore m.1) methods = true.
Proof. by vm_compute. Qed.

Lemma find_method_in tests name v : find_method tests name = Some v -> exists m, m ∈ tests /\ m.1 = name.
Proof.
  induction tests as [|[m v'] tests IH]; [done|]. cbn [find_method]. case_bool_decide as E.
  - intros _. exists (m, v'). split; [left|by rewrite E].
  - intros (m' & ? & ?)%IH. exists m'. split; [by right|done].
Qed.

Lemma parse_method_spec r value r' : ngx_http_v2_parse_method r value = (NGX_OK, r') ->
  Forall upper value /\ method_name r = [] /\ exists q, args_start q = args_start (rq r) /\ r' = r <| method_name := value |> <| rq := q |>.
Proof.
  unfold ngx_http_v2_parse_method. destruct (Nat.eqb_spec (length (method_name r)) 0) as [E|E]; cbn [negb]; [|done].
  destruct (length value =? 0)%nat; [done|]. apply nil_length_inv in E.
  assert (Hup : forall l, forallb upper_or_underscore l = true -> Forall upper l) by (intros l Hl; apply Forall_forall; intros c Hc; rewrite forallb_forall in Hl; by apply Hl, list_elem_of_In).
  destruct (find_method methods value) as [v|] eqn:Ef.
  - intros [= <-]. apply find_method_in in Ef as (m & Hm & <-). split; [|split; [done|]].
    + apply Hup. pose proof methods_upper as H. rewrite forallb_forall in H. by apply H, list_elem_of_In.
    + eexists ((rq r) <| method := v |>). split; [done|]. by destruct r.
  - destruct (forallb _ value) eqn:Eu; [|done]. intros [= <-]. split; [by apply Hup|]. split; [done|]. exists (rq r). split; [done|]. by destruct r.
Qed.

Lemma parse_path_spec r value r' : ngx_http_v2_parse_path r value = (NGX_OK, r') -> bytes value ->
  value <> [] /\ unparsed_uri r = [] /\ (args_start (rq r) = None ->
    exists q f, contained merge_slashes (uri f) /\
      r' = r <| req_path := value ++ [0] |> <| rq := q |> <| req_uri := Some f |> <| unparsed_uri := value |>).
Proof.
  unfold ngx_http_v2_parse_path. destruct (Nat.eqb_spec (length (unparsed_uri r)) 0) as [E|E]; cbn [negb]; [|done].
  destruct (Nat.eqb_spec (length value) 0) as [E0|E0]; [done|]. apply nil_length_inv in E. intros H Hb. split; [by intros ->|]. split; [done|]. intros Ha.
  set (mem := value ++ [0]) in *. set (q0 := (rq r) <| uri_start := Some 0 |> <| uri_end := Some (Z.of_nat (length value)) |>) in *.
  assert (Hmem : bytes mem) by (apply Forall_app_2; [done|by repeat constructor]).
  assert (Hlen : Z.of_nat (length value) <= Z.of_nat (length mem)) by (unfold mem; rewrite length_app; lia).
  replace (rq _) with q0 in H by by destruct r. destruct (ngx_http_parse_uri mem q0) as [rc q] eqn:Ep.
  destruct (Z.eqb_spec rc NGX_OK) as [->|]; cbn [negb] in H; [|done].
  destruct (parse_uri_done mem q0 0 (Z.of_nat (length value)) q Hmem) as (Es & Ee & Hsl & Hdone); try done; [by unfold q0; destruct (rq r)..|lia|].
  destruct (ngx_http_process_request_uri mem merge_slashes q) as [[q' f]|] eqn:Eu; [|done]. injection H as <-.
  destruct (path_done_contained mem merge_slashes q 0 (Z.of_nat (length value)) _ q' f Hmem Es Ee ltac:(lia) Hlen Hsl Hdone Eu) as [Hc _].
  exists q', f. split; [done|]. by destruct r.
Qed.

(** One more header. *)
Lemma reading_more done r x r' : reading done r -> checked x -> http_state r' = http_state r ->
  headers_in r' = headers_in r ++ header_of x -> cookies r' = match default [] (cookies r) ++ cookie_of x with [] => None | l => Some l end ->
  (method_name r' = method_name r \/ Header (bs ":method") (method_name r') = x /\ Forall upper (method_name r')) ->
  (unparsed_uri r' = unparsed_uri r /\ args_start (rq r') = args_start (rq r) /\ req_uri r' = req_uri r \/
   unparsed_uri r' <> [] /\ Header (bs ":path") (unparsed_uri r') = x /\ exists f, req_uri r' = Some f /\ contained merge_slashes (uri f)) ->
  reading (done ++ [x]) r'.
Proof.
  intros [H1 H2 H3 H4 H5 H6] Hx E1 E2 E3 E5 E6. split.
  - congruence.
  - apply Forall_app_2; [done|by constructor].
  - by rewrite E2, H3, map_app, concat_app, <- (app_nil_r (header_of x)).
  - rewrite E3, H4, map_app, concat_app. simpl. rewrite app_nil_r. by destruct (concat (map cookie_of done)).
  - destruct E5 as [-> |[E Hup]]; [destruct H5 as [?|[H ?]]; [by left|right; split; [apply elem_of_app; by left|done]]|].
    right. split; [|done]. rewrite E. apply elem_of_app. right. by left.
  - destruct E6 as [(-> & -> & ->)|(Hne & E & Hf)]; [destruct H6 as [?|(Hne & H & ?)]; [by left|right; split; [done|]; split; [apply elem_of_app; by left|done]]|].
    right. split; [done|]. split; [|done]. rewrite E. apply elem_of_app. right. by left.
Qed.

Lemma pseudo_name x n : is_pseudo x = true -> drop 1 (h_name x) = bs n -> h_name x = ":"%chr :: bs n.
Proof.
  unfold is_pseudo. destruct (h_name x) as [|c name]; [done|]. simpl. intros ->%Z.eqb_eq. rewrite drop_0. by intros ->.
Qed.

Lemma header_of_pseudo x : is_pseudo x = true -> h_name x <> bs ":authority" -> header_of x = [] /\ cookie_of x = [].
Proof.
  intros Hp Hn. unfold header_of, cookie_of. rewrite bool_decide_eq_false_2, Hp by done. split; [done|].
  rewrite bool_decide_eq_false_2; [done|]. intros E. unfold is_pseudo in Hp. by rewrite E in Hp.
Qed.

Lemma pseudo_header_reading done r x r' : reading done r -> checked x -> bytes (h_value x) -> is_pseudo x = true ->
  ngx_http_v2_pseudo_header r x = (NGX_OK, r') -> reading (done ++ [x]) r'.
Proof.
  intros Hr Hx Hb Hp H. unfold ngx_http_v2_pseudo_header in H.
  assert (Hcookies : cookies r = match default [] (cookies r) with [] => None | l => Some l end)
    by (destruct Hr as [_ _ _ -> _ _]; by destruct (concat (map cookie_of done))).
  assert (Hx0 : forall n v, h_name x = n -> h_value x = v -> Header n v = x) by (by intros ? ? <- <-; destruct x).
  repeat case_bool_decide; [..|done]; match goal with E : drop 1 _ = _ |- _ => rename E into En end; apply (pseudo_name x _ Hp) in En.
  - destruct (parse_path_spec _ _ _ H Hb) as (Hv & Eu & Hq). destruct (reading_path _ _ Hr) as [[_ Ha]|[Hne _]]; [|done].
    destruct (Hq Ha) as (q & f & Hc & ->). destruct (header_of_pseudo x Hp) as [Eh Ec]; [by rewrite En|].
    apply (reading_more done r x _ Hr Hx); rewrite ?Eh, ?Ec, ?app_nil_r; try by destruct r.
    + left. by destruct r.
    + right. split; [by destruct r|]. split; [destruct r; simpl; by apply Hx0|]. exists f. by destruct r.
  - destruct (parse_method_spec _ _ _ H) as (Hup & Em & q & Hq & ->). destruct (header_of_pseudo x Hp) as [Eh Ec]; [by rewrite En|].
    apply (reading_more done r x _ Hr Hx); rewrite ?Eh, ?Ec, ?app_nil_r; try by destruct r.
    + right. split; [destruct r; simpl; by apply Hx0|by destruct r].
    + left. by destruct r.
  - unfold ngx_http_v2_parse_scheme in H. destruct (schema r); [done|]. destruct (_ =? 0)%nat; [done|]. injection H as <-.
    destruct (header_of_pseudo x Hp) as [Eh Ec]; [by rewrite En|].
    apply (reading_more done r x _ Hr Hx); rewrite ?Eh, ?Ec, ?app_nil_r; try by destruct r.
    + left. by destruct r.
    + left. by destruct r.
  - unfold ngx_http_v2_parse_authority in H. assert (Eh : header_of x = [(bs "host", h_value x)]) by (unfold header_of; by rewrite bool_decide_eq_true_2).
    assert (Ec : cookie_of x = []) by (unfold cookie_of; rewrite bool_decide_eq_false_2; [done|by rewrite En]).
    destruct (headers_in_hash _) as [handler|]; [|done]. destruct (handler _ _); [|done]. injection H as <-.
    apply (reading_more done r x _ Hr Hx); rewrite ?Eh, ?Ec, ?app_nil_r; try by destruct r.
    + left. by destruct r.
    + left. by destruct r.
Qed.

Lemma take_header_reading done r x r' : reading done r -> bytes (h_value x) -> take_header r x = Taken r' -> reading (done ++ [x]) r'.
Proof.
  intros Hr Hb H. unfold take_header in H. destruct (ngx_http_v2_validate_header r x) as [rc r1] eqn:Ev.
  destruct (Z.eqb_spec rc NGX_OK) as [->|]; cbn [negb] in H; [|done]. apply validate_header_spec in Ev as (Hx & Hinv & b & Er1).
  assert (Hr1 : reading done r1) by (destruct Hr; rewrite Er1; destruct r; by split).
  assert (Hcookies : cookies r1 = match default [] (cookies r1) with [] => None | l => Some l end)
    by (destruct Hr1 as [_ _ _ -> _ _]; by destruct (concat (map cookie_of done))).
  fold (is_pseudo x) in H. destruct (is_pseudo x) eqn:Hp.
  { destruct (ngx_http_v2_pseudo_header r1 x) as [rc r2] eqn:E2. destruct (Z.eqb_spec rc NGX_OK) as [->|].
    - injection H as <-. by apply (pseudo_header_reading done r1).
    - by repeat case_match. }
  assert (Hi : invalid_header r1 = existsb strange (h_name x)) by (rewrite Hinv by done; by destruct r).
  assert (Hn : h_name x <> bs ":authority") by (intros E; unfold is_pseudo in Hp; by rewrite E in Hp).
  rewrite Hi in H. destruct (existsb strange (h_name x) && ignore_invalid) eqn:Eig.
  { injection H as <-. assert (Eh : header_of x = []).
    { unfold header_of. rewrite bool_decide_eq_false_2, Hp by done. rewrite andb_comm, Eig. done. }
    assert (Ec : cookie_of x = []).
    { unfold cookie_of. rewrite bool_decide_eq_false_2; [done|]. intros E. rewrite E in Eig. unfold strange in Eig. by destruct underscores. }
    apply (reading_more done r1 x _ Hr1 Hx); rewrite ?Eh, ?Ec, ?app_nil_r; try done; by left. }
  case_bool_decide as Eck.
  { injection H as <-. assert (Eh : header_of x = []) by (unfold header_of; rewrite bool_decide_eq_false_2, Hp by done; rewrite andb_comm, Eig; by rewrite bool_decide_eq_true_2).
    assert (Ec : cookie_of x = [h_value x]) by (unfold cookie_of; by rewrite bool_decide_eq_true_2).
    apply (reading_more done r1 x _ Hr1 Hx); rewrite ?Eh, ?Ec, ?app_nil_r; try by destruct r1.
    - destruct r1. simpl in *. by destruct (default [] cookies0).
    - left. by destruct r1.
    - left. by destruct r1. }
  assert (Eh : header_of x = [(h_name x, h_value x)]) by (unfold header_of; rewrite bool_decide_eq_false_2, Hp by done; rewrite andb_comm, Eig; by rewrite bool_decide_eq_false_2).
  assert (Ec : cookie_of x = []) by (unfold cookie_of; by rewrite bool_decide_eq_false_2).
  assert (Er : r' = r1 <| headers_in := headers_in r1 ++ [(h_name x, h_value x)] |>).
  { destruct (headers_in_hash _) as [handler|]; [destruct (handler _ _)|]; congruence. }
  rewrite Er. apply (reading_more done r1 x _ Hr1 Hx); rewrite ?Eh, ?Ec, ?app_nil_r; try by destruct r1.
  - left. by destruct r1.
  - left. by destruct r1.
Qed.

Lemma takes_reading hs r w : takes take_header r hs w -> Forall (fun x => bytes (h_value x)) hs -> forall done, reading done r -> reading (done ++ hs) w.
Proof.
  induction 1 as [w|w x w1 hs w2 E Hw IH]; intros Hb done Hr; [by rewrite app_nil_r|]. apply Forall_cons in Hb as [Hx Hb].
  change (x :: hs) with ([x] ++ hs). rewrite (assoc_L app). apply IH; [done|]. by apply (take_header_reading done w).
Qed.

(** ** The end of the headers *)

(** The cookies in one header. *)
Fixpoint joined_cookies (vals : list (list Z)) : list Z :=
  match vals with
  | [] => []
  | [v] => v
  | v :: vals => v ++ bs "; " ++ joined_cookies vals
  end.

Lemma cookies_len_spec vals : vals <> [] -> cookies_len vals = length (joined_cookies vals).
Proof.
  unfold cookies_len.
  assert (H : forall n, vals <> [] -> (foldl (fun len v => len + (length v + 2)) n vals = n + length (joined_cookies vals) + 2)%nat).
  { induction vals as [|v vals IH]; intros n Hn; [done|]. cbn [foldl joined_cookies]. destruct vals as [|v2 vals]; [simpl; lia|].
    rewrite IH by done. rewrite !length_app. change (length (bs "; ")) with 2%nat. lia. }
  intros Hn. rewrite H by done. lia.
Qed.

Lemma join_cookies_spec vals buf : vals <> [] -> join_cookies (length buf + length (joined_cookies vals)) vals buf = Some (buf ++ joined_cookies vals).
Proof.
  revert buf. induction vals as [|v vals IH]; intros buf Hn; [done|]. cbn [join_cookies joined_cookies]. destruct vals as [|v2 vals].
  - by rewrite length_app, Nat.eqb_refl.
  - set (j := joined_cookies (v2 :: vals)). rewrite !length_app. change (length (bs "; ")) with 2%nat.
    rewrite (proj2 (Nat.eqb_neq _ _)) by lia. rewrite (proj2 (Nat.ltb_ge _ _)) by lia.
    specialize (IH ((buf ++ v) ++ bs "; ") ltac:(done)). fold j in IH. rewrite !length_app in IH. change (length (bs "; ")) with 2%nat in IH.
    replace (length buf + (length v + (2 + length j)))%nat with (length buf + length v + 2 + length j)%nat by lia.
    rewrite IH. by rewrite <- !(assoc_L app).
Qed.

Definition cookie_header (ck : list (list Z)) : list (list Z * list Z) :=
  match ck with [] => [] | _ => [(bs "cookie", joined_cookies ck)] end.

Lemma run_request_is done r : reading done r ->
  exists r', ngx_http_v2_run_request r = Some r' /\
    (http_state r' = NGX_HTTP_PROCESS_REQUEST_STATE ->
       method_name r <> [] /\ unparsed_uri r <> [] /\ req_uri r' = req_uri r /\
       request_line r' = method_name r ++ bs " " ++ unparsed_uri r ++ bs " HTTP/2.0" /\
       headers_in r' = concat (map header_of done) ++ cookie_header (concat (map cookie_of done))).
Proof.
  intros [Hst _ Hh Hck _ _]. unfold ngx_http_v2_run_request, ngx_http_v2_construct_request_line, ngx_http_v2_construct_cookie_header.
  destruct (_ || _) eqn:E; [exists r; split; [done|]; intros E'; by rewrite Hst in E'|]. apply orb_false_iff in E as [Em Eu].
  assert (Hm : method_name r <> []) by by destruct (method_name r). assert (Hu : unparsed_uri r <> []) by by destruct (unparsed_uri r).
  change (cookies (r <| request_line := _ |>)) with (cookies r). rewrite Hck. 
  destruct (concat (map cookie_of done)) as [|v ck] eqn:Eck.
  - cbn [mbind option_bind]. eexists. split; [done|]. intros _. destruct r. simpl in *. rewrite app_nil_r. by split_and!.
  - assert (Ej : join_cookies (cookies_len (v :: ck)) (v :: ck) [] = Some (joined_cookies (v :: ck)))
      by (rewrite cookies_len_spec by done; exact (join_cookies_spec (v :: ck) [] ltac:(done))).
    rewrite Ej. cbn [mbind option_bind]. set (r1 := r <| request_line := _ |>). set (r2 := r1 <| headers_in := _ |>).
    assert (H2 : http_state r2 = NGX_HTTP_READING_REQUEST_STATE) by by destruct r.
    destruct (headers_in_hash _) as [handler|]; [destruct (handler _ _)|]; cbn [mbind option_bind]; eexists; (split; [done|]); intros E'; try by rewrite H2 in E'.
    unfold r2, r1. destruct r. simpl in *. rewrite Hh. by split_and!.
Qed.

Lemma checked_header x h : checked x -> h ∈ header_of x -> header_ok h.
Proof.
  intros (Hn & Hv & Hc). unfold header_of. case_bool_decide as E1.
  - intros ->%list_elem_of_singleton. split; [done|]. split; [|done]. apply (bool_decide_unpack _). by vm_compute.
  - destruct (is_pseudo x) eqn:Hp; [by intros ?%elem_of_nil|]. cbn [orb]. destruct (_ || _); [by intros ?%elem_of_nil|].
    intros ->%list_elem_of_singleton. by split_and!.
Qed.

Lemma joined_cookies_clean vals : Forall (Forall clean_char) vals -> Forall clean_char (joined_cookies vals).
Proof.
  induction 1 as [|v vals Hv Hl IH]; [constructor|]. cbn [joined_cookies]. destruct vals; [done|].
  apply Forall_app_2; [done|]. apply Forall_app_2; [|done]. by repeat constructor.
Qed.

Lemma headers_clean hs : Forall checked hs -> Forall header_ok (concat (map header_of hs) ++ cookie_header (concat (map cookie_of hs))).
Proof.
  intros Hhs. assert (Hck : Forall (Forall clean_char) (concat (map cookie_of hs))).
  { induction Hhs as [|x hs (_ & Hv & _) Hhs IH]; [constructor|]. cbn [map concat]. apply Forall_app_2; [|done]. unfold cookie_of. case_bool_decide; by repeat constructor. }
  apply Forall_app_2.
  - clear Hck. induction Hhs as [|x hs Hx Hhs IH]; [constructor|]. cbn [map concat]. apply Forall_app_2; [|done].
    apply Forall_forall. intros h. by apply checked_header.
  - unfold cookie_header. destruct (concat _) eqn:E; [constructor|]. rewrite <- E in *. constructor; [|constructor]. split; [done|]. split; [|by apply joined_cookies_clean].
    apply (bool_decide_unpack _). by vm_compute.
Qed.

(** C23: A request whose headers were accepted is what the block said, and no
    more: its line has the method and the path of the block, its path stays in
    its directories, only the last name of it may be [..], its headers are
    those of the block in their order, without those whose names have a strange
    character when these are ignored, with the authority for the host and the
    cookies joined at the end; no name has an upper case letter or a colon, and
    no name, value or line a zero or the end of a line, so none can be taken
    for something else by what is behind this server. *)
Theorem ngx_http_v2_request_clean hs w : Forall (fun x => bytes (h_value x)) hs -> takes take_header new_request hs w ->
  exists r, ngx_http_v2_run_request w = Some r /\
    (http_state r = NGX_HTTP_PROCESS_REQUEST_STATE -> exists m p f,
       Header (bs ":method") m ∈ hs /\ Header (bs ":path") p ∈ hs /\
       request_line r = m ++ bs " " ++ p ++ bs " HTTP/2.0" /\ Forall upper m /\ Forall clean_char (request_line r) /\
       req_uri r = Some f /\ contained merge_slashes (uri f) /\
       headers_in r = concat (map header_of hs) ++ cookie_header (concat (map cookie_of hs)) /\ Forall header_ok (headers_in r)).
Proof.
  intros Hb Hw. assert (Hnew : reading [] new_request) by (split; try done; by left).
  pose proof (takes_reading hs new_request w Hw Hb [] Hnew) as Hr. cbn [app] in Hr.
  destruct (run_request_is hs w Hr) as (r & E & Hrun). exists r. split; [done|]. intros Hst.
  destruct (Hrun Hst) as (Hm & Hp & Eu & El & Eh). destruct Hr as [_ Hck _ _ Hmeth Hpath].
  destruct Hmeth as [?|[Hmin Hup]]; [done|]. destruct Hpath as [[? _]|(_ & Hpin & f & Hf & Hc)]; [done|].
  exists (method_name w), (unparsed_uri w), f. rewrite Eu, El, Eh. split_and!; try done; [|by apply headers_clean].
  rewrite Forall_forall in Hck. apply Hck in Hmin as (_ & Hmc & _). apply Hck in Hpin as (_ & Hpc & _).
  repeat (apply Forall_app_2; [done || by repeat constructor|]). by repeat constructor.
Qed.
End Request.

(** ** An example *)

Definition example_request : list v2_header :=
  [Header (bs ":method") (bs "GET"); Header (bs ":path") (bs "/a/../b c?d"); Header (bs ":scheme") (bs "http"); Header (bs ":authority") (bs "h");
   Header (bs "cookie") (bs "a=1"); Header (bs "accept") (bs "*/*"); Header (bs "x~y") (bs "1"); Header (bs "cookie") (bs "b=2")].
Definition example_hash (name : list Z) : option (v2_request -> list Z -> bool) :=
  if bool_decide (name = bs "host") || bool_decide (name = bs "cookie") then Some (fun _ _ => true) else None.

Fixpoint take_all (r : v2_request) (hs : list v2_header) : option v2_request :=
  match hs with
  | [] => Some r
  | x :: hs => match take_header false true true example_hash r x with Taken r => take_all r hs | _ => None end
  end.

Lemma take_all_takes hs r w : take_all r hs = Some w -> takes (take_header false true true example_hash) r hs w.
Proof.
  revert r. induction hs as [|x hs IH]; intros r; cbn [take_all]; [intros [= ->]; constructor|].
  destruct (take_header _ _ _ _ r x) as [r1| |] eqn:E; [|done..]. intros H. by apply (takes_one _ r x r1); [|apply IH].
Qed.

Theorem ngx_http_v2_request_clean_witness : Forall (fun x => bytes (h_value x)) example_request /\
  exists w r, takes (take_header false true true example_hash) new_request example_request w /\
  ngx_http_v2_run_request example_hash w = Some r /\ http_state r = NGX_HTTP_PROCESS_REQUEST_STATE /\
  request_line r = bs "GET /a/../b c?d HTTP/2.0" /\ (uri <$> req_uri r) = Some (bs "/b c") /\
  headers_in r = [(bs "host", bs "h"); (bs "accept", bs "*/*"); (bs "cookie", bs "a=1; b=2")] /\ Forall header_ok (headers_in r).
Proof.
  assert (Hb : Forall (fun x => bytes (h_value x)) example_request) by (apply (bool_decide_unpack _); by vm_compute). split; [exact Hb|].
  destruct (take_all new_request example_request) as [w|] eqn:E; [|by vm_compute in E].
  assert (Hw := take_all_takes example_request new_request w E).
  destruct (ngx_http_v2_request_clean false true true example_hash example_request w Hb Hw) as (r & Er & H).
  exists w, r. split; [exact Hw|]. split; [exact Er|].
  assert (Hst : http_state r = NGX_HTTP_PROCESS_REQUEST_STATE /\ request_line r = bs "GET /a/../b c?d HTTP/2.0" /\ (uri <$> req_uri r) = Some (bs "/b c") /\
    headers_in r = [(bs "host", bs "h"); (bs "accept", bs "*/*"); (bs "cookie", bs "a=1; b=2")]).
  { vm_compute in E. injection E as <-. vm_compute in Er. injection Er as <-. vm_compute. by split_and!. }
  destruct Hst as (H1 & H2 & H3 & H4). split; [exact H1|]. split; [exact H2|]. split; [exact H3|]. split; [exact H4|].
  destruct (H H1) as (m & p & f & _ & _ & _ & _ & _ & _ & _ & _ & Hok). exact Hok.
Defined.
