(* ===== verification/Http2Filter.v ===== *)
(** * Responses of HTTP/2 (src/http/v2/ngx_http_v2_filter_module.c)

    The filter of response headers: the header block, in memory whose size is
    computed before, and the frames it is cut into.  The queue of frames, what
    is sent when, and the body are not modelled; allocation does not fail. *)

From S2P Require Import Prelude NgxNumbers NgxCodec NgxPrintf NgxTimes Http2HuffTable Http2Huff Http2Table Http2Hpack.

#[local] Abbreviation length := (@List.length _).

(** [src/http/v2/ngx_http_v2_filter_module.c:19-54] ngx_http_v2_integer_octets:
    and the other macros. *)
Definition ngx_http_v2_integer_octets (v : Z) : Z := 1 + v / 127.
Definition ngx_http_v2_literal_size (n : Z) : Z := ngx_http_v2_integer_octets n + n.
Definition ngx_http_v2_indexed (i : Z) : Z := 128 + i.
Definition ngx_http_v2_inc_indexed (i : Z) : Z := 64 + i.
Definition NGX_HTTP_V2_ENCODE_RAW : Z := 0.
Definition NGX_HTTP_V2_ENCODE_HUFF : Z := 0x80.
Definition NGX_HTTP_V2_STATUS_INDEX : Z := 8.
Definition NGX_HTTP_V2_CONTENT_LENGTH_INDEX : Z := 28.
Definition NGX_HTTP_V2_CONTENT_TYPE_INDEX : Z := 31.
Definition NGX_HTTP_V2_DATE_INDEX : Z := 33.
Definition NGX_HTTP_V2_LAST_MODIFIED_INDEX : Z := 44.
Definition NGX_HTTP_V2_LOCATION_INDEX : Z := 46.
Definition NGX_HTTP_V2_SERVER_INDEX : Z := 54.
Definition NGX_HTTP_V2_VARY_INDEX : Z := 59.
(** [src/http/v2/ngx_http_v2.h:23-25] NGX_HTTP_V2_MAX_FIELD *)
Definition NGX_HTTP_V2_MAX_FIELD : Z := 127 + Z.shiftl 1 ((Z.of_nat NGX_HTTP_V2_INT_OCTETS - 1) * 7) - 1.
Definition NGX_OFF_T_LEN : Z := 20.
Definition NGINX_VER : list Z := bs "nginx/1.10.1".

Definition NGX_HTTP_V2_HEADERS_FRAME : Z := 0x1.
Definition NGX_HTTP_V2_NO_FLAG : Z := 0x00.
Definition NGX_HTTP_V2_END_STREAM_FLAG : Z := 0x01.

(** ** Writing

    What is written at a position with [room] bytes after it; [None] if they
    are not enough. *)
Definition part : Type := nat -> option (list Z).
Definition put_bytes (l : list Z) : part := fun room => if (length l <=? room)%nat then Some l else None.
Definition then_put (p q : part) : part := fun room => a ← p room; b ← q (room - length a)%nat; Some (a ++ b).
Notation "p +> q" := (then_put p q) (at level 62, right associativity).
(** A text of ngx_sprintf. *)
Definition put_printed (fmt : list Z) (args : list arg) : part := fun room => ngx_sprintf room fmt args.

(** ** Numbers and strings *)

(** [src/http/v2/ngx_http_v2_filter_module.c:656-661] ngx_http_v2_write_int: the
    loop; a round is for 7 bits. *)
Fixpoint write_int_loop (rounds : nat) (value : Z) : option (list Z) :=
  match rounds with
  | O => None
  | S rounds =>
      if 128 <=? value then l ← write_int_loop rounds (value / 128); Some (value mod 128 + 128 :: l)
      else Some [u8 value]
  end.

(** [src/http/v2/ngx_http_v2_filter_module.c:645-664] ngx_http_v2_write_int: at
    a byte that is [first]. *)
Definition ngx_http_v2_write_int (first prefix value : Z) : part := fun room =>
  if value <? prefix then put_bytes [Z.lor first value] room
  else l ← write_int_loop 10 (value - prefix); put_bytes (Z.lor first prefix :: l) room.

(** [src/http/v2/ngx_http_v2_filter_module.c:619-642] ngx_http_v2_string_encode:
    [None] also if the [tmp_len] bytes at [tmp] are not enough. *)
Definition ngx_http_v2_string_encode (tmp_len : Z) (src : list Z) (lower : bool) : part := fun room =>
  let (hlen, tmp) := ngx_http_v2_huff_encode src lower in
  if tmp_len <? Z.of_nat (length tmp) then None
  else if 0 <? hlen then
    (ngx_http_v2_write_int NGX_HTTP_V2_ENCODE_HUFF 127 hlen +> put_bytes (take (Z.to_nat hlen) tmp)) room
  else
    (ngx_http_v2_write_int NGX_HTTP_V2_ENCODE_RAW 127 (Z.of_nat (length src)) +> put_bytes (if lower then map ngx_tolower src else src)) room.

(** [src/http/v2/ngx_http_v2_filter_module.c:523-534] ngx_http_v2_header_filter:
    a date where it is encoded.  The code of a date is shorter than the date;
    otherwise, [None], it would be copied after the byte of its length was
    written over it. *)
Definition put_time (tmp_len t : Z) : part := fun room =>
  text ← ngx_http_time (S room) t;
  if (room <? length text)%nat then None
  else
    let src := take 29 text in
    if 0 <? (ngx_http_v2_huff_encode src false).1 then ngx_http_v2_string_encode tmp_len src false room else None.

(** ** The response *)

(** [src/http/ngx_http_request.h:245-277] ngx_http_headers_out_t: an element of
    the list, with whether its [hash] is not 0, and the fields that the filter
    looks at.  A pointer to an element is whether it is not null, or the index
    of the element. *)
Record out_header := OutHeader { oh_hash : bool; oh_key : list Z; oh_value : list Z }.
Record v2_response := Resp {
  r_header_sent : bool; r_header_only : bool;
  r_status : Z;
  r_server : bool; r_date : bool;
  r_content_type : list Z; r_content_type_len : Z; r_charset : list Z;
  r_content_length : bool; r_content_length_n : Z;
  r_last_modified : bool; r_last_modified_time : Z;
  r_location : option nat;
  r_headers : list out_header;
  r_gzip_vary : bool
}.
#[export] Instance eta_v2_response : Settable v2_response := fun r =>
  Resp (r_header_sent r) (r_header_only r) (r_status r) (r_server r) (r_date r) (r_content_type r) (r_content_type_len r) (r_charset r)
    (r_content_length r) (r_content_length_n r) (r_last_modified r) (r_last_modified_time r) (r_location r) (r_headers r) (r_gzip_vary r).

(** What does not change: the request, its connection and the configuration.
    [local_addr] is what ngx_connection_local_sockaddr gives; [local_port] is 0
    for a Unix domain socket. *)
Record v2_env := Env {
  is_main : bool; is_head : bool;
  server_tokens : bool;
  server_name_in_redirect : bool; server_name : list Z; host : list Z;
  local_addr : option (list Z); local_port : Z; ssl : bool;
  port_in_redirect : bool;
  conf_gzip_vary : bool;
  cached_http_time : list Z;
  frame_size : Z; stream_id : Z
}.

(** [src/http/v2/ngx_http_v2_filter_module.c:172-226] ngx_http_v2_header_filter:
    the byte for the status, or 0, and what the status changes. *)
Definition status_byte (e : v2_env) (r : v2_response) : Z * v2_response :=
  let r := if is_head e then r <| r_header_only := true |> else r in
  let no_modified r := r <| r_last_modified_time := -1 |> <| r_last_modified := false |> in
  let s := r_status r in
  if s =? 200 then (ngx_http_v2_indexed 8, r)
  else if s =? 204 then
    (ngx_http_v2_indexed 9,
     no_modified (r <| r_header_only := true |> <| r_content_type := [] |> <| r_content_length := false |> <| r_content_length_n := -1 |>))
  else if s =? 206 then (ngx_http_v2_indexed 10, r)
  else if s =? 304 then (ngx_http_v2_indexed 11, r <| r_header_only := true |>)
  else
    (if s =? 400 then ngx_http_v2_indexed 12 else if s =? 404 then ngx_http_v2_indexed 13
     else if s =? 500 then ngx_http_v2_indexed 14 else 0, no_modified r).

(** [src/http/v2/ngx_http_v2_filter_module.c:243-244] ngx_http_v2_header_filter:
    the charset is added to the type. *)
Definition with_charset (r : v2_response) : bool :=
  (r_content_type_len r =? Z.of_nat (length (r_content_type r))) && negb (length (r_charset r) =? 0)%nat.

(** [src/http/v2/ngx_http_v2_filter_module.c:250-251] ngx_http_v2_header_filter:
    the length is sent, and (256-257) the time of the last change. *)
Definition sends_length (r : v2_response) : bool := negb (r_content_length r) && (0 <=? r_content_length_n r).
Definition sends_modified (r : v2_response) : bool := negb (r_last_modified r) && negb (r_last_modified_time r =? -1).

(** [src/http/v2/ngx_http_v2_filter_module.c:228-260] ngx_http_v2_header_filter:
    the length of what the filter adds; [ver_len] is [nginx_ver_len]. *)
Definition fixed_len (e : v2_env) (ver_len st : Z) (r : v2_response) : Z :=
  (if negb (st =? 0) then 1 else 1 + ngx_http_v2_literal_size 3) +
  (if negb (r_server r) then 1 + (if server_tokens e then ver_len else 5) else 0) +
  (if negb (r_date r) then 1 + ngx_http_v2_literal_size 29 else 0) +
  (if negb (length (r_content_type r) =? 0)%nat then
     1 + Z.of_nat NGX_HTTP_V2_INT_OCTETS + Z.of_nat (length (r_content_type r)) +
     (if with_charset r then 10 + Z.of_nat (length (r_charset r)) else 0) else 0) +
  (if sends_length r then 1 + ngx_http_v2_integer_octets NGX_OFF_T_LEN + NGX_OFF_T_LEN else 0) +
  (if sends_modified r then 1 + ngx_http_v2_literal_size 29 else 0).

(** What the filter does with the request. *)
Inductive filtered := Sent (frames block : list Z) (r : v2_response) (ver : option (list Z)) | NotSent | Nothing (r : v2_response).

(** [src/http/v2/ngx_http_v2_filter_module.c:305-316] ngx_http_v2_header_filter:
    the port that is written in a location, or 0. *)
Definition location_port (e : v2_env) : Z :=
  if port_in_redirect e then if local_port e =? (if ssl e then 443 else 80) then 0 else local_port e else 0.

(** [src/http/v2/ngx_http_v2_filter_module.c:302-343] ngx_http_v2_header_filter:
    the absolute form of a location, in memory of [location.len] bytes. *)
Definition absolute_location (e : v2_env) (host value : list Z) : option (list Z) :=
  let port := location_port e in
  let len := (8 + length host + length value + (if negb (port =? 0)%Z then 6 else 0))%nat in
  (put_bytes (bs "http") +> put_bytes (if ssl e then bs "s" else []) +> put_bytes (bs "://") +> put_bytes host +>
   (if negb (port =? 0) then put_printed (bs ":%ui") [ANum port] else put_bytes []) +> put_bytes value) len.

(** [src/http/v2/ngx_http_v2_filter_module.c:267-281] ngx_http_v2_header_filter:
    the host of a location; [None] is an error. *)
Definition location_host (e : v2_env) : option (list Z) :=
  if server_name_in_redirect e then Some (server_name e)
  else if negb (length (host e) =? 0)%nat then Some (host e) else local_addr e.

(** [src/http/v2/ngx_http_v2_filter_module.c:264-355] ngx_http_v2_header_filter:
    the location in the list becomes one that the filter writes.  [None] is
    undefined, [Some None] an error. *)
Definition take_location (e : v2_env) (r : v2_response) : option (option (list Z * v2_response)) :=
  match r_location r with
  | None => Some (Some ([], r))
  | Some i =>
      h ← r_headers r !! i;
      match oh_value h with
      | [] => Some (Some ([], r))
      | c :: _ =>
          let hide key value := r <| r_headers := <[i := OutHeader false key value]> (r_headers r) |> in
          if c =? "/"%chr then
            match location_host e with
            | None => Some None
            | Some host =>
                v ← absolute_location e host (oh_value h);
                Some (Some (v, hide (bs "Location") v))
            end
          else Some (Some (oh_value h, hide (oh_key h) (oh_value h)))
      end
  end.

(** [src/http/v2/ngx_http_v2_filter_module.c:370-413] ngx_http_v2_header_filter:
    the lengths of the memory at [pos] and at [tmp]; [None] for a header that
    is too long.  The parts of the list are one here. *)
Fixpoint list_len (l : list out_header) (len tmp_len : Z) : option (Z * Z) :=
  match l with
  | [] => Some (len, tmp_len)
  | h :: l =>
      if negb (oh_hash h) then list_len l len tmp_len
      else if NGX_HTTP_V2_MAX_FIELD <? Z.of_nat (length (oh_key h)) then None
      else if NGX_HTTP_V2_MAX_FIELD <? Z.of_nat (length (oh_value h)) then None
      else
        let len := len + (1 + Z.of_nat NGX_HTTP_V2_INT_OCTETS + Z.of_nat (length (oh_key h)) +
                          Z.of_nat NGX_HTTP_V2_INT_OCTETS + Z.of_nat (length (oh_value h))) in
        let tmp_len := if tmp_len <? Z.of_nat (length (oh_key h)) then Z.of_nat (length (oh_key h)) else tmp_len in
        let tmp_len := if tmp_len <? Z.of_nat (length (oh_value h)) then Z.of_nat (length (oh_value h)) else tmp_len in
        list_len l len tmp_len
  end.

(** ** The block *)

(** [src/http/v2/ngx_http_v2_filter_module.c:146-150] ngx_http_v2_header_filter:
    [nginx] and [accept_encoding]. *)
Definition nginx_huff : list Z := [0x84; 0xaa; 0x63; 0x55; 0xe7].
Definition accept_encoding_huff : list Z := [0x8b; 0x84; 0x84; 0x2d; 0x69; 0x5b; 0x05; 0x44; 0x3c; 0x86; 0xaa; 0x6f].

(** [src/http/v2/ngx_http_v2_filter_module.c:428-435] ngx_http_v2_header_filter:
    the status. *)
Definition status_part (st : Z) (r : v2_response) : part :=
  if negb (st =? 0) then put_bytes [st]
  else put_bytes [ngx_http_v2_inc_indexed NGX_HTTP_V2_STATUS_INDEX; Z.lor NGX_HTTP_V2_ENCODE_RAW 3] +>
       put_printed (bs "%03ui") [ANum (r_status r)].

(** [src/http/v2/ngx_http_v2_filter_module.c:444-449] ngx_http_v2_header_filter:
    [nginx_ver], encoded in its [ngx_http_v2_literal_size(NGINX_VER)] bytes by
    the first response that has it. *)
Definition encode_version (tmp_len : Z) (e : v2_env) (ver : option (list Z)) (r : v2_response) : option (option (list Z)) :=
  if negb (r_server r) && server_tokens e then
    match ver with
    | Some v => Some (Some v)
    | None => v ← ngx_http_v2_string_encode tmp_len NGINX_VER false (Z.to_nat (ngx_http_v2_literal_size (Z.of_nat (length NGINX_VER)))); Some (Some v)
    end
  else Some ver.

(** [src/http/v2/ngx_http_v2_filter_module.c:437-456] ngx_http_v2_header_filter:
    the server, when [nginx_ver] is encoded. *)
Definition server_part (e : v2_env) (ver : option (list Z)) (r : v2_response) : part :=
  if r_server r then put_bytes []
  else put_bytes [ngx_http_v2_inc_indexed NGX_HTTP_V2_SERVER_INDEX] +>
       put_bytes (if server_tokens e then default [] ver else nginx_huff).

(** [src/http/v2/ngx_http_v2_filter_module.c:458-466] ngx_http_v2_header_filter:
    the date. *)
Definition date_part (tmp_len : Z) (e : v2_env) (r : v2_response) : part :=
  if r_date r then put_bytes []
  else put_bytes [ngx_http_v2_inc_indexed NGX_HTTP_V2_DATE_INDEX] +> ngx_http_v2_string_encode tmp_len (cached_http_time e) false.

(** [src/http/v2/ngx_http_v2_filter_module.c:471-494] ngx_http_v2_header_filter:
    the type, with the charset. *)
Definition type_text (r : v2_response) : list Z :=
  if with_charset r then r_content_type r ++ bs "; charset=" ++ r_charset r else r_content_type r.
(** [src/http/v2/ngx_http_v2_filter_module.c:468-502] ngx_http_v2_header_filter:
    it is written, and kept in the response. *)
Definition type_part (tmp_len : Z) (r : v2_response) : part :=
  if (length (r_content_type r) =? 0)%nat then put_bytes []
  else put_bytes [ngx_http_v2_inc_indexed NGX_HTTP_V2_CONTENT_TYPE_INDEX] +> ngx_http_v2_string_encode tmp_len (type_text r) false.
Definition keep_type (r : v2_response) : v2_response :=
  if (length (r_content_type r) =? 0)%nat then r else r <| r_content_type := type_text r |>.

(** [src/http/v2/ngx_http_v2_filter_module.c:504-516] ngx_http_v2_header_filter:
    the length: its text is written before the byte of the length of the
    text. *)
Definition length_part (r : v2_response) : part :=
  if sends_length r then
    put_bytes [ngx_http_v2_inc_indexed NGX_HTTP_V2_CONTENT_LENGTH_INDEX] +>
    (fun room => t ← ngx_sprintf (room - 1) (bs "%O") [ANum (r_content_length_n r)];
                 put_bytes (Z.lor NGX_HTTP_V2_ENCODE_RAW (u8 (Z.of_nat (length t))) :: t) room)
  else put_bytes [].

(** [src/http/v2/ngx_http_v2_filter_module.c:518-535] ngx_http_v2_header_filter:
    the time of the last change. *)
Definition modified_part (tmp_len : Z) (r : v2_response) : part :=
  if sends_modified r then
    put_bytes [ngx_http_v2_inc_indexed NGX_HTTP_V2_LAST_MODIFIED_INDEX] +> put_time tmp_len (r_last_modified_time r)
  else put_bytes [].

(** [src/http/v2/ngx_http_v2_filter_module.c:537-545] ngx_http_v2_header_filter:
    the location. *)
Definition location_part (tmp_len : Z) (location : list Z) : part :=
  if (length location =? 0)%nat then put_bytes []
  else put_bytes [ngx_http_v2_inc_indexed NGX_HTTP_V2_LOCATION_INDEX] +> ngx_http_v2_string_encode tmp_len location false.

(** [src/http/v2/ngx_http_v2_filter_module.c:548-554] ngx_http_v2_header_filter:
    [Vary]. *)
Definition vary_part (r : v2_response) : part :=
  if r_gzip_vary r then put_bytes [ngx_http_v2_inc_indexed NGX_HTTP_V2_VARY_INDEX] +> put_bytes accept_encoding_huff else put_bytes [].

(** [src/http/v2/ngx_http_v2_filter_module.c:557-593] ngx_http_v2_header_filter:
    the headers of the list. *)
Fixpoint list_part (tmp_len : Z) (l : list out_header) : part :=
  match l with
  | [] => put_bytes []
  | h :: l =>
      if negb (oh_hash h) then list_part tmp_len l
      else put_bytes [0] +> ngx_http_v2_string_encode tmp_len (oh_key h) true +>
           ngx_http_v2_string_encode tmp_len (oh_value h) false +> list_part tmp_len l
  end.

(** ** Frames *)

(** [src/http/v2/ngx_http_v2.h:302-333] ngx_http_v2_write_uint32:
    ngx_http_v2_write_len_and_type and ngx_http_v2_write_sid are made of it. *)
Definition ngx_http_v2_write_uint32 (s : Z) : list Z := [u8 (Z.shiftr s 24); u8 (Z.shiftr s 16); u8 (Z.shiftr s 8); u8 s].
Definition ngx_http_v2_write_len_and_type (l t : Z) : list Z := ngx_http_v2_write_uint32 (u32 (Z.lor (Z.shiftl l 8) t)).

(** [src/http/v2/ngx_http_v2_filter_module.c:709-711] ngx_http_v2_create_headers_frame:
    the head of a frame. *)
Definition frame_head (n type flags sid : Z) : list Z := ngx_http_v2_write_len_and_type n type ++ [flags] ++ ngx_http_v2_write_uint32 sid.

(** [src/http/v2/ngx_http_v2_filter_module.c:698-766] ngx_http_v2_create_headers_frame:
    the loop; a round is for a frame. *)
Fixpoint frames_loop (rounds : nat) (size sid type flags : Z) (block : list Z) : option (list Z) :=
  match rounds with
  | O => None
  | S rounds =>
      let rest := Z.of_nat (length block) in
      let (n, flags) := if rest <=? size then (rest, Z.lor flags NGX_HTTP_V2_END_HEADERS_FLAG) else (size, flags) in
      let out := frame_head n type flags sid ++ take (Z.to_nat n) block in
      if negb (rest - n =? 0) then
        l ← frames_loop rounds n sid NGX_HTTP_V2_CONTINUATION_FRAME NGX_HTTP_V2_NO_FLAG (drop (Z.to_nat n) block); Some (out ++ l)
      else Some out
  end.

(** [src/http/v2/ngx_http_v2_filter_module.c:667-767] ngx_http_v2_create_headers_frame *)
Definition ngx_http_v2_create_headers_frame (e : v2_env) (r : v2_response) (block : list Z) : option (list Z) :=
  frames_loop (S (length block)) (frame_size e) (stream_id e) NGX_HTTP_V2_HEADERS_FRAME
    (if r_header_only r then NGX_HTTP_V2_END_STREAM_FLAG else NGX_HTTP_V2_NO_FLAG) block.

(** ** The filter *)

(** [src/http/v2/ngx_http_v2_filter_module.c:228-598] ngx_http_v2_header_filter:
    after the status. *)
Definition filter_response (e : v2_env) (ver : option (list Z)) (st : Z) (r : v2_response) : option filtered :=
  let ver_len := match ver with Some v => Z.of_nat (length v) | None => ngx_http_v2_literal_size (Z.of_nat (length NGINX_VER)) end in
  let len := fixed_len e ver_len st r in
  taken ← take_location e r;
  match taken with
  | None => Some NotSent
  | Some (location, r) =>
      let len := if (length location =? 0)%nat then len else len + (1 + Z.of_nat NGX_HTTP_V2_INT_OCTETS + Z.of_nat (length location)) in
      let tmp_len := len in
      let len := if r_gzip_vary r && conf_gzip_vary e then len + (1 + 12) else len in
      let r := r <| r_gzip_vary := r_gzip_vary r && conf_gzip_vary e |> in
      match list_len (r_headers r) len tmp_len with
      | None => Some NotSent
      | Some (len, tmp_len) =>
          ver ← encode_version tmp_len e ver r;
          block ← (status_part st r +> server_part e ver r +> date_part tmp_len e r +> type_part tmp_len r +> length_part r +>
                   modified_part tmp_len r +> location_part tmp_len location +> vary_part r +> list_part tmp_len (r_headers r)) (Z.to_nat len);
          let r := keep_type r in
          frames ← ngx_http_v2_create_headers_frame e r block;
          Some (Sent frames block r ver)
      end
  end.

(** [src/http/v2/ngx_http_v2_filter_module.c:126-616] ngx_http_v2_header_filter:
    of a request of a stream.  [ver] is [nginx_ver]; [None] is undefined. *)
Definition ngx_http_v2_header_filter (e : v2_env) (ver : option (list Z)) (r : v2_response) : option filtered :=
  if r_header_sent r then Some (Nothing r)
  else
    let r := r <| r_header_sent := true |> in
    if negb (is_main e) then Some (Nothing r)
    else let (st, r) := status_byte e r in filter_response e ver st r.
