(* ===== verification/Http2FilterSpec.v ===== *)
(** * Responses of HTTP/2: what a client reads

    The parts of the block that the filter of Http2Filter.v writes are headers
    of the grammar of Http2HpackSpec.v and fit their memory; the frames are those
    of Http2HpackFrames.v. *)

From S2P Require Import Prelude NgxNumbers NgxCodec NgxPrintf NgxTimes NgxBits Http2HuffTable Http2Huff Http2Table Http2TableSpec.
From S2P Require Import Http2Hpack Http2HpackSpec Http2HpackResume Http2HpackRead Http2HpackFrames Http2Filter.

#[local] Abbreviation length := (@List.length _).

(** ** What is written *)

(** In [n] bytes the part writes [out]. *)
Definition gives (p : part) (n : Z) (out : list Z) : Prop :=
  Z.of_nat (length out) <= n /\ forall room, n <= Z.of_nat room -> p room = Some out.

Lemma gives_bytes l n : Z.of_nat (length l) <= n -> gives (put_bytes l) n l.
Proof. intros H. split; [done|]. intros room Hr. unfold put_bytes. by rewrite (proj2 (Nat.leb_le _ _)) by lia. Qed.

Lemma gives_then p q n m a b : gives p n a -> gives q m b -> gives (p +> q) (n + m) (a ++ b).
Proof.
  intros [Ha Hp] [Hb Hq]. split; [rewrite length_app; lia|]. intros room Hr. unfold then_put.
  rewrite Hp by lia. cbn [mbind option_bind]. by rewrite Hq by lia.
Qed.

Lemma gives_more p n m a : gives p n a -> n <= m -> gives p m a.
Proof. intros [Ha Hp] H. split; [lia|]. intros room Hr. apply Hp. lia. Qed.

Lemma gives_printed fmt args out n : prints fmt args out -> Z.of_nat (length out) <= n -> gives (put_printed fmt args) n out.
Proof. intros Hp Hn. split; [done|]. intros room Hr. apply sprintf_prints; [done|lia]. Qed.

Lemma write_int_loop_spec k : forall rounds v, (k < rounds)%nat -> 0 <= v < 128 ^ Z.of_nat (S k) ->
  exists l, write_int_loop rounds v = Some l /\ varint l v /\ (length l <= S k)%nat /\ bytes l.
Proof.
  induction k as [|k IH]; intros [|rounds] v Hr Hv; try lia; cbn [write_int_loop].
  - change (128 ^ Z.of_nat 1) with 128 in Hv. rewrite (proj2 (Z.leb_gt 128 v)), u8_small by lia. exists [v].
    split_and!; [done|by constructor|done|]. repeat constructor; lia.
  - rewrite Nat2Z.inj_succ, Z.pow_succ_r in Hv by lia. destruct (Z.leb_spec 128 v) as [H|H].
    + destruct (IH rounds (v / 128)) as (l & -> & Hl & Hlen & Hb); [lia|split; [apply Z.div_pos; lia|apply Z.div_lt_upper_bound; lia]|].
      pose proof (Z.mod_pos_bound v 128 ltac:(lia)). cbn [mbind option_bind]. exists (v mod 128 + 128 :: l). split; [done|]. split; [|split; [simpl; lia|]].
      * replace v with (v mod 128 + 128 - 128 + 128 * (v / 128)) at 2 by (pose proof (Z.div_mod v 128); lia). constructor; [lia|done].
      * constructor; [unfold is_byte; lia|done].
    + rewrite u8_small by lia. exists [v]. split_and!; [done|constructor; lia|simpl; lia|]. repeat constructor; lia.
Qed.

(** The bytes of the length of a string. *)
Definition int_size (n : Z) : Z := if n <? 127 then 1 else 4.

Lemma write_int_spec (huff : bool) v : 0 <= v <= NGX_HTTP_V2_MAX_FIELD ->
  exists b tl, gives (ngx_http_v2_write_int (if huff then NGX_HTTP_V2_ENCODE_HUFF else NGX_HTTP_V2_ENCODE_RAW) 127 v) (int_size v) (b :: tl) /\
    bytes (b :: tl) /\ rfc_int 0x7f v b tl /\ (if huff : bool then 128 <= b < 256 else 0 <= b < 128).
Proof.
  intros Hv. unfold ngx_http_v2_write_int, int_size. set (first := if huff then NGX_HTTP_V2_ENCODE_HUFF else NGX_HTTP_V2_ENCODE_RAW).
  assert (Hfirst : forall x, 0 <= x < 128 -> Z.land (Z.lor first x) 0x7f = x /\ (if huff then 128 <= Z.lor first x < 256 else 0 <= Z.lor first x < 128)).
  { intros x Hx. unfold first. destruct huff; (split; [by_range x 0 128|]).
    - assert (H : ((128 <=? Z.lor 0x80 x) && (Z.lor 0x80 x <? 256)) = true) by by_range x 0 128. apply andb_prop in H as [H1 H2]. unfold NGX_HTTP_V2_ENCODE_HUFF. lia.
    - unfold NGX_HTTP_V2_ENCODE_RAW. rewrite Z.lor_0_l. lia. }
  destruct (Z.ltb_spec v 127) as [H|H].
  - exists (Z.lor first v), []. destruct (Hfirst v ltac:(lia)) as [E Hb]. split; [by apply gives_bytes|]. split; [|split; [left; rewrite E; split_and!; [done|done|lia]|done]].
    repeat constructor; destruct huff; lia.
  - destruct (Hfirst 127 ltac:(lia)) as [E Hb].
    destruct (write_int_loop_spec 2 10 (v - 127)) as (l & -> & Hl & Hlen & Hbl); [lia|unfold NGX_HTTP_V2_MAX_FIELD in Hv; change (128 ^ Z.of_nat 3) with (2 ^ 21); change (Z.shiftl 1 _) with (2 ^ 21) in Hv; lia|].
    exists (Z.lor first 127), l. cbn [mbind option_bind]. split; [apply gives_bytes; simpl; lia|].
    split; [constructor; [destruct huff; unfold is_byte; lia|done]|]. split; [|done]. right. unfold NGX_HTTP_V2_INT_OCTETS. split_and!; [done|done|lia].
Qed.

Lemma huff_bits_some s : bytes s -> (0 < length s)%nat -> (0 < length (huff_bits s))%nat.
Proof.
  intros Hs Hl. destruct s as [|c s]; [done|]. inversion Hs; subst. pose proof (code_good_all c ltac:(done)) as Hg.
  unfold huff_bits. cbn [map concat]. rewrite length_app. unfold code_good in Hg. destruct (huff_code c); [by rewrite andb_false_r in Hg|simpl; lia].
Qed.

(** A string is written as itself or in the Huffman code, whichever is
    shorter. *)
Lemma string_encode_spec tmp_len src lower : bytes src -> Z.of_nat (length src) <= NGX_HTTP_V2_MAX_FIELD -> Z.of_nat (length src) <= tmp_len ->
  exists out, gives (ngx_http_v2_string_encode tmp_len src lower) (int_size (Z.of_nat (length src)) + Z.of_nat (length src)) out /\
    bytes out /\ rfc_string NGX_HTTP_V2_MAX_FIELD out (lowered lower src).
Proof.
  intros Hb Hmax Htmp. pose proof (huff_encode_spec src lower Hb) as H. cbv zeta in H.
  set (size := ((length (huff_bits (lowered lower src)) + 7) / 8)%nat) in H.
  assert (Hlow : bytes (lowered lower src) /\ length (lowered lower src) = length src).
  { unfold lowered. destruct lower; [|done]. split; [|by rewrite length_map]. apply Forall_map. eapply Forall_impl; [done|]. intros c. apply ngx_tolower_byte. }
  destruct Hlow as [Hlow Hll]. unfold ngx_http_v2_string_encode. destruct (Nat.ltb_spec size (length src)) as [Hs|Hs].
  - destruct H as (out & k & E & Hbo & Hlo & Hk & Ebits). rewrite E.
    assert (Hpos : (0 < size)%nat).
    { pose proof (huff_bits_some _ Hlow ltac:(lia)). apply (Nat.div_le_lower_bound _ 8 1); lia. }
    destruct (write_int_spec true (Z.of_nat size)) as (b & tl & Hw & Hbw & Hi & Hr); [lia|].
    exists ((b :: tl) ++ out). split; [|split; [by apply Forall_app_2|]].
    + assert (Hsize : int_size (Z.of_nat size) <= int_size (Z.of_nat (length src))) by (unfold int_size; do 2 case_match; lia).
      apply (gives_more _ (int_size (Z.of_nat size) + Z.of_nat (length out))); [|lia].
      split; [destruct Hw; rewrite length_app; lia|]. intros room Hroom. rewrite (proj2 (Z.ltb_ge _ _)), (proj2 (Z.ltb_lt 0 _)) by lia.
      rewrite Nat2Z.id, take_ge by lia. apply (gives_then _ _ _ _ _ _ Hw (gives_bytes out (Z.of_nat (length out)) (Z.le_refl _))). done.
    + subst size. rewrite <- Hlo in *. apply string_huff; [done|done|lia|done|]. split; [done|]. exists k. split; [lia|done].
  - destruct H as (out & E & Hlo). rewrite E.
    destruct (write_int_spec false (Z.of_nat (length src))) as (b & tl & Hw & Hbw & Hi & Hr); [lia|].
    exists ((b :: tl) ++ lowered lower src). split; [|split; [by apply Forall_app_2|]].
    + split; [destruct Hw; rewrite length_app; lia|]. intros room Hroom. rewrite (proj2 (Z.ltb_ge _ _)) by lia. change (0 <? 0) with false. cbv iota.
      apply (gives_then _ _ _ _ _ _ Hw (gives_bytes (lowered lower src) (Z.of_nat (length src)) ltac:(lia))). done.
    + rewrite <- Hll in *. by apply string_raw.
Qed.

(** ** Fields *)

Lemma rfc_block_app limit t d1 h1 t1 : rfc_block limit t d1 h1 t1 -> forall d2 h2 t2, rfc_block limit t1 d2 h2 t2 -> rfc_block limit t (d1 ++ d2) (h1 ++ h2) t2.
Proof.
  induction 1 as [|t l x t1 d hs t3 Hf _ IH]; intros d2 h2 t2 H2; [done|]. rewrite <- !(assoc_L app). eapply block_field; [done|by apply IH].
Qed.

(** In [n] bytes the part writes the headers [hs]: whatever the table of who
    reads them is, they are a block, that ends with another table. *)
Definition writes (p : part) (n : Z) (hs : list v2_header) : Prop :=
  exists out, gives p n out /\ bytes out /\ (hs <> [] -> out <> []) /\ forall t, exists t', rfc_block NGX_HTTP_V2_MAX_FIELD t out hs t'.

Lemma writes_nothing n : 0 <= n -> writes (put_bytes []) n [].
Proof. intros Hn. exists []. split_and!; [by apply gives_bytes|constructor|done|]. intros t. exists t. constructor. Qed.

Lemma writes_then p q n m hs hs' : writes p n hs -> writes q m hs' -> writes (p +> q) (n + m) (hs ++ hs').
Proof.
  intros (a & Ha & Hba & Hna & Hfa) (b & Hb & Hbb & Hnb & Hfb). exists (a ++ b).
  split; [by apply gives_then|]. split; [by apply Forall_app_2|]. split.
  { intros Hne [-> ->]%app_eq_nil. destruct hs as [|h hs]; [by apply Hnb|by apply Hna]. }
  intros t. destruct (Hfa t) as [t1 H1], (Hfb t1) as [t2 H2]. exists t2. by apply (rfc_block_app _ _ _ _ t1).
Qed.

Lemma writes_field p n out x : gives p n out -> bytes out -> out <> [] ->
  (forall t, exists t', rfc_field NGX_HTTP_V2_MAX_FIELD t out (Some x) t') -> writes p n [x].
Proof.
  intros Hp Hb Hne H. exists out. do 3 (split; [done|]). intros t. destruct (H t) as [t' Ht]. exists t'.
  rewrite <- (app_nil_r out). apply (block_field _ t out (Some x) t' [] [] t'); [done|constructor].
Qed.

(** An entry of the static table. *)
Lemma static_lookup t i x : 0 < i -> ngx_http_v2_static_table !! Z.to_nat (i - 1) = Some x -> rfc_lookup t i = Some x.
Proof. intros Hi Hx. unfold rfc_lookup. rewrite (proj2 (Z.leb_gt i 0)) by lia. by apply lookup_app_l_Some. Qed.

Lemma writes_indexed i x : 0 < i < 127 -> ngx_http_v2_static_table !! Z.to_nat (i - 1) = Some x ->
  writes (put_bytes [ngx_http_v2_indexed i]) 1 [x].
Proof.
  intros Hi Hx. unfold ngx_http_v2_indexed. apply (writes_field _ _ [128 + i]); [by apply gives_bytes| |done|].
  - repeat constructor; lia.
  - intros t. exists t. apply (field_indexed _ _ _ _ i); [lia| |apply static_lookup; [lia|done]]. left. split; [done|]. split; [by_range i 1 126|lia].
Qed.

(** A header whose name is in the static table, and whose value the part [p]
    writes. *)
Lemma writes_inc_indexed i x p n v out : 0 < i < 63 -> ngx_http_v2_static_table !! Z.to_nat (i - 1) = Some x ->
  gives p n out -> bytes out -> rfc_string NGX_HTTP_V2_MAX_FIELD out v ->
  writes (put_bytes [ngx_http_v2_inc_indexed i] +> p) (1 + n) [Header (h_name x) v].
Proof.
  intros Hi Hx Hp Hb Hv. unfold ngx_http_v2_inc_indexed. apply (writes_field _ _ ([64 + i] ++ out)).
  - apply gives_then; [by apply gives_bytes|done].
  - constructor; [unfold is_byte; lia|done].
  - done.
  - intros t. eexists. change ([64 + i] ++ out) with ((64 + i) :: [] ++ out). apply field_added; [lia| |done].
    apply (name_indexed _ _ _ _ _ i); [|lia|apply static_lookup; [lia|done]]. left. split; [done|]. split; [by_range i 1 62|lia].
Qed.

Lemma writes_string i x tmp_len src : 0 < i < 63 -> ngx_http_v2_static_table !! Z.to_nat (i - 1) = Some x -> bytes src ->
  Z.of_nat (length src) <= NGX_HTTP_V2_MAX_FIELD -> Z.of_nat (length src) <= tmp_len ->
  writes (put_bytes [ngx_http_v2_inc_indexed i] +> ngx_http_v2_string_encode tmp_len src false)
    (1 + (int_size (Z.of_nat (length src)) + Z.of_nat (length src))) [Header (h_name x) src].
Proof.
  intros Hi Hx Hb Hl Ht. destruct (string_encode_spec tmp_len src false Hb Hl Ht) as (out & Hg & Hbo & Hs).
  by apply (writes_inc_indexed _ _ _ _ _ out).
Qed.

(** A short string as it is. *)
Lemma raw_string s : (length s < 127)%nat -> rfc_string NGX_HTTP_V2_MAX_FIELD (Z.of_nat (length s) :: s) s.
Proof.
  intros Hs. change (Z.of_nat (length s) :: s) with ((Z.of_nat (length s) :: []) ++ s).
  assert (127 <= NGX_HTTP_V2_MAX_FIELD) by by vm_compute.
  apply string_raw; [lia| |lia]. left. split; [done|]. split; [|lia].
  change 0x7f with (Z.ones 7). rewrite Z.land_ones, Z.mod_small by lia. done.
Qed.

(** A string in the Huffman code that is a constant. *)
Lemma huff_constant b h s k : b = 128 + Z.of_nat (length h) -> (length h < 127)%nat -> bytes (h ++ s) ->
  (k < 30)%nat -> bytes_bits h = huff_bits s ++ ones k -> rfc_string NGX_HTTP_V2_MAX_FIELD (b :: h) s.
Proof.
  intros -> Hl [Hbh Hbs]%Forall_app Hk E.
  assert (127 <= NGX_HTTP_V2_MAX_FIELD) by by vm_compute.
  change (128 + Z.of_nat (length h) :: h) with ((128 + Z.of_nat (length h) :: []) ++ h).
  apply string_huff; [lia| |lia|done|by split; [|exists k]]. left. split; [done|]. split; [|lia].
  change 0x7f with (Z.ones 7). rewrite Z.land_ones by lia. apply Z.mod_unique with 1; lia.
Qed.

(** ** The parts *)

(** A status in three digits. *)
Definition status_text (s : Z) : list Z := replicate (3 - length (dec_text s)) "0"%chr ++ dec_text s.

Lemma prints_03ui z fmt args out : 0 <= z < 2 ^ 64 -> prints fmt args out ->
  prints (bs "%03ui" ++ fmt) (ANum z :: args) (replicate (3 - length (dec_text z)) "0"%chr ++ dec_text z ++ out).
Proof.
  intros Hz Hp. rewrite (assoc_L app). revert Hp.
  apply (prints_piece (bs "%03ui") fmt (ANum z) args (unsigned_number (Conv "0"%chr 3 false 0 false 0 SIZE_MAX) (u64 z))).
  - intros n room. done.
  - done.
  - intros room Hr. rewrite length_app, length_replicate in Hr. unfold unsigned_number. cbn [put zero width hex]. rewrite u64_small by lia. change (Z.to_nat 3) with 3%nat.
    cbn [minus_sign length]. rewrite Nat.sub_0_r.
    destruct (Nat.le_gt_cases 3 room) as [H|H]; [by rewrite sprintf_num_dec by lia|]. lia.
Qed.

Lemma prints_ui z fmt args out : 0 <= z < 2 ^ 64 -> prints fmt args out ->
  prints (bs "%ui" ++ fmt) (ANum z :: args) (dec_text z ++ out).
Proof.
  intros Hz. apply (prints_piece (bs "%ui") fmt (ANum z) args (unsigned_number (Conv " "%chr 0 false 0 false 0 SIZE_MAX) (u64 z))).
  - intros n room. done.
  - done.
  - intros room Hr. rewrite u64_small by lia. cbn [put unsigned_number zero width hex]. change (Z.to_nat 0) with 0%nat.
    cbn [minus_sign length]. rewrite Nat.sub_0_r, sprintf_num_dec by lia. done.
Qed.

Lemma digits_bytes l : forallb is_digit l = true -> bytes l.
Proof. intros H. apply Forall_forall. intros c Hc. rewrite forallb_forall in H. apply list_elem_of_In, H in Hc. unfold is_digit in Hc. unfold is_byte. lia. Qed.

Lemma status_text_spec s : 0 <= s < 1000 -> length (status_text s) = 3%nat /\ bytes (status_text s).
Proof.
  intros Hs. unfold status_text. destruct (dec_text_digits s) as (_ & _ & Hd & _); [lia|]. pose proof (dec_text_short 3 s ltac:(lia) ltac:(simpl; lia)).
  split; [rewrite length_app, length_replicate; lia|]. apply Forall_app. split; [apply Forall_replicate; by vm_compute|by apply digits_bytes].
Qed.

Lemma status_part_writes e r st r1 : status_byte e r = (st, r1) -> 0 <= r_status r < 1000 ->
  writes (status_part st r1) (if negb (st =? 0) then 1 else 1 + ngx_http_v2_literal_size 3) [Header (bs ":status") (status_text (r_status r))].
Proof.
  intros E Hs. assert (Hi : forall i, 0 < i < 127 -> ngx_http_v2_static_table !! Z.to_nat (i - 1) = Some (Header (bs ":status") (status_text (r_status r))) ->
    writes (status_part (ngx_http_v2_indexed i) r1) (if negb (ngx_http_v2_indexed i =? 0) then 1 else 1 + ngx_http_v2_literal_size 3) [Header (bs ":status") (status_text (r_status r))]).
  { intros i Hi Hx. unfold status_part. assert (ngx_http_v2_indexed i <> 0) by (unfold ngx_http_v2_indexed; lia).
    rewrite (proj2 (Z.eqb_neq _ 0)) by done. by apply writes_indexed. }
  unfold status_byte in E. cbv zeta in E.
  replace (r_status (if is_head e then r <| r_header_only := true |> else r)) with (r_status r) in E by by destruct (is_head e).
  assert (Er : r_status r1 = r_status r) by (destruct r as [hs ho s sv dt ct ctl cs cl cln lm lmt lo hd gv], (is_head e); cbn [r_status] in *; repeat case_match; by simplify_eq/=).
  destruct (Z.eqb_spec (r_status r) 200) as [E1|_]; [injection E as <- _; by apply Hi; [|rewrite E1]|].
  destruct (Z.eqb_spec (r_status r) 204) as [E1|_]; [injection E as <- _; by apply Hi; [|rewrite E1]|].
  destruct (Z.eqb_spec (r_status r) 206) as [E1|_]; [injection E as <- _; by apply Hi; [|rewrite E1]|].
  destruct (Z.eqb_spec (r_status r) 304) as [E1|_]; [injection E as <- _; by apply Hi; [|rewrite E1]|].
  injection E as <- _.
  destruct (Z.eqb_spec (r_status r) 400) as [E1|_]; [by apply Hi; [|rewrite E1]|].
  destruct (Z.eqb_spec (r_status r) 404) as [E1|_]; [by apply Hi; [|rewrite E1]|].
  destruct (Z.eqb_spec (r_status r) 500) as [E1|_]; [by apply Hi; [|rewrite E1]|].
  clear Hi. unfold status_part. change (negb (0 =? 0)) with false. cbv iota. rewrite Er. destruct (status_text_spec _ Hs) as [Hl Hb].
  assert (Hg : gives (put_printed (bs "%03ui") [ANum (r_status r)]) 3 (status_text (r_status r))).
  { apply gives_printed; [|lia]. pose proof (prints_03ui (r_status r) [] [] [] ltac:(lia) prints_nil) as H. by rewrite !app_nil_r in H. }
  apply (writes_field _ _ ([72; 3] ++ status_text (r_status r))).
  - change (1 + ngx_http_v2_literal_size 3) with (2 + 3). apply gives_then; [by apply gives_bytes|done].
  - apply Forall_app. split; [by repeat constructor|done].
  - done.
  - intros t. eexists. change ([72; 3] ++ status_text (r_status r)) with (72 :: [] ++ (3 :: status_text (r_status r))).
    apply field_added; [lia| |pose proof (raw_string (status_text (r_status r)) ltac:(lia)) as Hraw; by rewrite Hl in Hraw].
    apply (name_indexed _ _ _ _ _ 8 (Header (bs ":status") (bs "200"))); [|lia|by apply static_lookup]. by left.
Qed.

(** [nginx_ver]. *)
Definition version_code : list Z := default [] (ngx_http_v2_string_encode 12 NGINX_VER false 13%nat).
Definition version_is (ver : option (list Z)) : Prop := ver = None \/ ver = Some version_code.

Lemma encode_version_spec tmp_len e ver r : version_is ver -> (r_server r = false -> server_tokens e = true -> ver = None -> 12 <= tmp_len) ->
  exists ver', encode_version tmp_len e ver r = Some ver' /\ version_is ver' /\
    (r_server r = false -> server_tokens e = true -> ver' = Some version_code).
Proof.
  intros Hv Ht. unfold encode_version. destruct (negb (r_server r) && server_tokens e) eqn:E.
  - apply andb_prop in E as [?%negb_true_iff ?]. exists (Some version_code). split_and!; [|by right|done]. destruct Hv as [-> | ->]; [|done].
    unfold ngx_http_v2_string_encode. destruct (ngx_http_v2_huff_encode NGINX_VER false) as [hlen tmp] eqn:Eh. vm_compute in Eh. injection Eh as <- <-.
    specialize (Ht ltac:(done) ltac:(done) eq_refl). cbn [length]. rewrite (proj2 (Z.ltb_ge _ _)) by (simpl; lia). reflexivity.
  - exists ver. split_and!; [done..|]. intros Hs Hk. rewrite Hs, Hk in E. done.
Qed.

Lemma server_part_writes e ver r n : (r_server r = false -> server_tokens e = true -> ver = Some version_code /\ Z.of_nat (length version_code) <= n) ->
  writes (server_part e ver r) (if negb (r_server r) then 1 + (if server_tokens e then n else 5) else 0)
    (if r_server r then [] else [Header (bs "server") (if server_tokens e then NGINX_VER else bs "nginx")]).
Proof.
  intros H. unfold server_part. destruct (r_server r); cbn [negb]; [by apply writes_nothing|]. destruct (server_tokens e).
  - destruct (H eq_refl eq_refl) as [-> Hn]. apply (writes_inc_indexed 54 (Header (bs "server") []) _ _ _ version_code); [lia|done|by apply gives_bytes|..].
    + apply (bool_decide_unpack _). by vm_compute.
    + assert (version_code = [137; 170; 99; 85; 229; 128; 174; 16; 46; 31]) as -> by by vm_compute.
      apply (huff_constant _ _ _ 4); [done|simpl; lia|apply (bool_decide_unpack _); by vm_compute|lia|by vm_compute].
  - apply (writes_inc_indexed 54 (Header (bs "server") []) _ _ _ nginx_huff); [lia|done|by apply gives_bytes|..].
    + apply (bool_decide_unpack _). by vm_compute.
    + apply (huff_constant _ _ _ 2); [done|simpl; lia|apply (bool_decide_unpack _); by vm_compute|lia|by vm_compute].
Qed.

Lemma date_part_writes tmp_len e r : bytes (cached_http_time e) -> length (cached_http_time e) = 29%nat -> r_date r = true \/ 29 <= tmp_len ->
  writes (date_part tmp_len e r) (if negb (r_date r) then 1 + ngx_http_v2_literal_size 29 else 0)
    (if r_date r then [] else [Header (bs "date") (cached_http_time e)]).
Proof.
  intros Hb Hl Ht. unfold date_part. destruct (r_date r); cbn [negb]; [by apply writes_nothing|]. destruct Ht as [?|Ht]; [done|].
  assert (29 <= NGX_HTTP_V2_MAX_FIELD) by by vm_compute.
  pose proof (writes_string 33 (Header (bs "date") []) tmp_len (cached_http_time e) ltac:(lia) eq_refl Hb ltac:(lia) ltac:(lia)) as H'. rewrite Hl in H'. exact H'.
Qed.

Lemma vary_part_writes r : writes (vary_part r) (if r_gzip_vary r then 1 + 12 else 0) (if r_gzip_vary r then [Header (bs "vary") (bs "Accept-Encoding")] else []).
Proof.
  unfold vary_part. destruct (r_gzip_vary r); [|by apply writes_nothing].
  apply (writes_inc_indexed 59 (Header (bs "vary") []) _ _ _ accept_encoding_huff); [lia|done|by apply gives_bytes|..].
  - apply (bool_decide_unpack _). by vm_compute.
  - apply (huff_constant _ _ _ 4); [done|simpl; lia|apply (bool_decide_unpack _); by vm_compute|lia|by vm_compute].
Qed.

(** ** The date is shorter in the Huffman code *)

Definition light (c : Z) : bool := (0 <=? c) && (c <? 256) && (Http2HuffTable.len (ngx_http_v2_huff_encode_table !!! Z.to_nat c) <=? 7).

Lemma light_bits l : forallb light l = true -> bytes l /\ (length (huff_bits l) <= 7 * length l)%nat.
Proof.
  induction l as [|c l IH]; [by intros _|]. cbn [forallb]. intros [Hc [Hb Hl]%IH]%andb_prop. unfold light in Hc.
  apply andb_prop in Hc as [Hc Hc7]. unfold huff_bits in *. cbn [map concat length]. rewrite length_app. unfold huff_code at 1. rewrite bits_length.
  split; [constructor; [unfold is_byte; lia|done]|]. lia.
Qed.

Lemma light_digit d : 0 <= d < 10 -> light (48 + d) = true.
Proof. intros Hd. by_range d 0 10. Qed.

Lemma light_two n : 0 <= n < 100 -> forallb light (two_digits n) = true.
Proof. intros Hn. unfold two_digits. cbn [forallb]. by rewrite !light_digit by (Z.to_euclidean_division_equations; lia). Qed.
Lemma light_four n : 1000 <= n < 10000 -> forallb light (four_digits n) = true.
Proof. intros Hn. unfold four_digits. cbn [forallb]. by rewrite !light_digit by (Z.to_euclidean_division_equations; lia). Qed.

Lemma light_names w : w ∈ week ++ months -> forallb light w = true.
Proof.
  intros Hw. assert (H : forallb (forallb light) (week ++ months) = true) by by vm_compute.
  rewrite forallb_forall in H. by apply H, list_elem_of_In.
Qed.

Lemma imf_date_bits w m day year hour min sec : w ∈ week -> m ∈ months -> length w = 3%nat -> length m = 3%nat ->
  0 <= day < 100 -> 1000 <= year < 10000 -> 0 <= hour < 100 -> 0 <= min < 100 -> 0 <= sec < 100 ->
  let text := imf_date w m day year hour min sec in
  length text = 29%nat /\ bytes text /\ (length (huff_bits text) <= 204)%nat.
Proof.
  intros Hw Hm Lw Lm Hd Hy Hh Hmi Hs text. set (rest := bs " " ++ two_digits day ++ bs " " ++ m ++ bs " " ++ four_digits year ++ bs " "
    ++ two_digits hour ++ bs ":" ++ two_digits min ++ bs ":" ++ two_digits sec ++ bs " GMT").
  assert (E : text = w ++ [44] ++ rest) by done.
  assert (Hlen : length rest = 25%nat) by (unfold rest; by rewrite !length_app, Lm).
  destruct (light_bits w) as [Hbw Hlw]; [apply light_names, elem_of_app; by left|].
  destruct (light_bits rest) as [Hbr Hlr].
  { unfold rest. rewrite !forallb_app, !light_two, light_four, (light_names m) by (done || (apply elem_of_app; by right)). by vm_compute. }
  rewrite E, !length_app, !huff_bits_app, !length_app, Lw, Hlen. split; [done|]. split; [|change (length (huff_bits [44])) with 8%nat; lia].
  apply Forall_app. split; [done|]. by constructor.
Qed.

Lemma time_text t : 0 <= t < 253402300800 ->
  exists text, (forall room, (29 <= room)%nat -> ngx_http_time room t = Some text) /\ length text = 29%nat /\ bytes text /\ (length (huff_bits text) <= 204)%nat.
Proof.
  intros Ht. destruct (gmtime_fields t Ht) as (Hv & Hy & Hc & Hw & _). set (tm := ngx_gmtime t) in *.
  pose proof Hv as [Hm Hd]. pose proof (month_days_max (tm_year tm) _ Hm). pose proof Hc as (? & ? & ?).
  destruct (ngx_http_time_text 0 t) as (w & m & Ew & Em & Lw & Lm & _); fold tm; try lia. fold tm in Ew, Em.
  exists (imf_date w m (tm_mday tm) (tm_year tm) (tm_hour tm) (tm_min tm) (tm_sec tm)). split.
  - intros room Hr. replace room with (29 + (room - 29))%nat by lia.
    destruct (ngx_http_time_text (room - 29) t) as (w' & m' & Ew' & Em' & _ & _ & E); fold tm; try lia. fold tm in Ew', Em', E. rewrite E. congruence.
  - apply imf_date_bits; try done; try lia; by eapply list_elem_of_lookup_2.
Qed.
Definition last_modified_text (t : Z) : list Z := default [] (ngx_http_time 29 t).

Lemma put_time_spec tmp_len t : 0 <= t < 253402300800 -> 29 <= tmp_len ->
  exists out, gives (put_time tmp_len t) 30 out /\ bytes out /\ rfc_string NGX_HTTP_V2_MAX_FIELD out (last_modified_text t).
Proof.
  intros Ht Htmp. destruct (time_text t Ht) as (text & E & Hl & Hb & Hbits). unfold last_modified_text. rewrite E by lia. cbn [default].
  assert (29 <= NGX_HTTP_V2_MAX_FIELD) by by vm_compute.
  destruct (string_encode_spec tmp_len text false Hb) as (out & Hg & Hbo & Hs); [lia..|]. exists out. split; [|done].
  rewrite Hl in Hg. split; [apply Hg|]. intros room Hr. unfold put_time. rewrite E by lia. cbn [mbind option_bind].
  rewrite (proj2 (Nat.ltb_ge _ _)), take_ge by lia. pose proof (huff_encode_spec text false Hb) as H'. cbv zeta in H'. cbn [lowered] in H'.
  set (size := ((length (huff_bits text) + 7) / 8)%nat) in H'.
  assert (size <= 26)%nat by (unfold size; change 26%nat with (211 / 8)%nat; apply Nat.Div0.div_le_mono; lia).
  rewrite (proj2 (Nat.ltb_lt size _)) in H' by lia. destruct H' as (o & k & E' & _). rewrite E'. cbn [fst].
  rewrite (proj2 (Z.ltb_lt 0 _)); [by apply Hg|]. pose proof (huff_bits_some _ Hb ltac:(lia)).
  assert (1 <= size)%nat by (apply (Nat.div_le_lower_bound _ 8 1); lia). lia.
Qed.

Lemma writes_more p n m hs : writes p n hs -> n <= m -> writes p m hs.
Proof. intros (out & Hg & H) Hn. exists out. split; [by apply (gives_more _ n)|done]. Qed.

Lemma int_size_most n : int_size n <= Z.of_nat NGX_HTTP_V2_INT_OCTETS.
Proof. unfold int_size. change (Z.of_nat NGX_HTTP_V2_INT_OCTETS) with 4. case_match; lia. Qed.

Lemma type_text_length r : Z.of_nat (length (type_text r)) =
  Z.of_nat (length (r_content_type r)) + (if with_charset r then 10 + Z.of_nat (length (r_charset r)) else 0).
Proof. unfold type_text. destruct (with_charset r); [rewrite !length_app; simpl length; lia|lia]. Qed.

Definition type_headers (r : v2_response) : list v2_header :=
  if (length (r_content_type r) =? 0)%nat then [] else [Header (bs "content-type") (type_text r)].
Lemma type_part_writes tmp_len r :
  (length (r_content_type r) <> 0%nat -> bytes (type_text r) /\ Z.of_nat (length (type_text r)) <= NGX_HTTP_V2_MAX_FIELD /\ Z.of_nat (length (type_text r)) <= tmp_len) ->
  writes (type_part tmp_len r) (if negb (length (r_content_type r) =? 0)%nat then
     1 + Z.of_nat NGX_HTTP_V2_INT_OCTETS + Z.of_nat (length (r_content_type r)) +
     (if with_charset r then 10 + Z.of_nat (length (r_charset r)) else 0) else 0) (type_headers r).
Proof.
  intros H. unfold type_part, type_headers. destruct (Nat.eqb_spec (length (r_content_type r)) 0) as [E|E]; cbn [negb]; [by apply writes_nothing|].
  destruct (H E) as (Hb & Hl & Ht). clear H. eapply writes_more; [by apply (writes_string 31 (Header (bs "content-type") []))|].
  rewrite type_text_length. pose proof (int_size_most (Z.of_nat (length (type_text r)))) as H. rewrite type_text_length in H. lia.
Qed.

Definition length_headers (r : v2_response) : list v2_header :=
  if sends_length r then [Header (bs "content-length") (dec_text (r_content_length_n r))] else [].
Lemma length_part_writes r : r_content_length_n r < 2 ^ 63 ->
  writes (length_part r) (if sends_length r then 1 + ngx_http_v2_integer_octets NGX_OFF_T_LEN + NGX_OFF_T_LEN else 0) (length_headers r).
Proof.
  intros Hn. unfold length_part, length_headers. destruct (sends_length r) eqn:E; [|by apply writes_nothing].
  unfold sends_length in E. apply andb_prop in E as [_ E]. destruct (dec_text_digits (r_content_length_n r)) as (_ & Hl & Hd & _); [lia|].
  set (t := dec_text _) in *. apply (writes_inc_indexed 28 (Header (bs "content-length") []) _ 21 _ (Z.of_nat (length t) :: t)); [lia|done|..].
  - split; [simpl; lia|]. intros room Hr. rewrite (sprintf_prints _ _ _ t); [|rewrite <- (app_nil_r t); apply prints_O; [lia|apply prints_nil]|lia].
    cbn [mbind option_bind]. rewrite u8_small by lia. unfold NGX_HTTP_V2_ENCODE_RAW. rewrite Z.lor_0_l. apply (gives_bytes _ 21); [simpl; lia|done].
  - constructor; [unfold is_byte; lia|by apply digits_bytes].
  - apply raw_string. lia.
Qed.

Definition modified_headers (r : v2_response) : list v2_header :=
  if sends_modified r then [Header (bs "last-modified") (last_modified_text (r_last_modified_time r))] else [].
Lemma modified_part_writes tmp_len r : (sends_modified r = true -> 0 <= r_last_modified_time r < 253402300800 /\ 29 <= tmp_len) ->
  writes (modified_part tmp_len r) (if sends_modified r then 1 + ngx_http_v2_literal_size 29 else 0) (modified_headers r).
Proof.
  intros H. unfold modified_part, modified_headers. destruct (sends_modified r); [|by apply writes_nothing]. destruct (H eq_refl) as [Ht Htmp].
  destruct (put_time_spec tmp_len _ Ht Htmp) as (out & Hg & Hb & Hs). by apply (writes_inc_indexed 44 (Header (bs "last-modified") []) _ 30 _ out).
Qed.

Definition location_headers (location : list Z) : list v2_header := if (length location =? 0)%nat then [] else [Header (bs "location") location].
Lemma location_part_writes tmp_len l : bytes l -> Z.of_nat (length l) <= NGX_HTTP_V2_MAX_FIELD -> Z.of_nat (length l) <= tmp_len ->
  writes (location_part tmp_len l) (if (length l =? 0)%nat then 0 else 1 + Z.of_nat NGX_HTTP_V2_INT_OCTETS + Z.of_nat (length l)) (location_headers l).
Proof.
  intros Hb Hl Ht. unfold location_part, location_headers. destruct (length l =? 0)%nat; [by apply writes_nothing|].
  eapply writes_more; [by apply (writes_string 46 (Header (bs "location") []))|]. pose proof (int_size_most (Z.of_nat (length l))). lia.
Qed.

(** *** The headers of the list *)

Definition list_headers (l : list out_header) : list v2_header :=
  map (fun h => Header (map ngx_tolower (oh_key h)) (oh_value h)) (filter (fun h => oh_hash h = true) l).
Definition too_long (h : out_header) : Prop :=
  oh_hash h = true /\ (NGX_HTTP_V2_MAX_FIELD < Z.of_nat (length (oh_key h)) \/ NGX_HTTP_V2_MAX_FIELD < Z.of_nat (length (oh_value h))).

(** The memory for them, and what the temporary memory is for. *)
Definition list_fits (tmp_len : Z) (h : out_header) : Prop :=
  oh_hash h = true -> Z.of_nat (length (oh_key h)) <= tmp_len /\ Z.of_nat (length (oh_value h)) <= tmp_len /\
    Z.of_nat (length (oh_key h)) <= NGX_HTTP_V2_MAX_FIELD /\ Z.of_nat (length (oh_value h)) <= NGX_HTTP_V2_MAX_FIELD.

Lemma list_len_spec l : forall len0 tmp0,
  match list_len l len0 tmp0 with
  | None => Exists too_long l
  | Some (len1, tmp1) => exists n, len1 = len0 + n /\ tmp0 <= tmp1 /\ Forall (list_fits tmp1) l /\
      forall tmp, Forall (fun h => oh_hash h = true -> bytes (oh_key h) /\ bytes (oh_value h)) l -> Forall (list_fits tmp) l -> writes (list_part tmp l) n (list_headers l)
  end.
Proof.
  induction l as [|h l IH]; intros len0 tmp0; cbn [list_len].
  { exists 0. split_and!; [lia|lia|constructor|]. intros tmp _ _. by apply writes_nothing. }
  unfold list_headers. rewrite filter_cons. destruct (oh_hash h) eqn:Eh; cbn [negb].
  2: { rewrite decide_False by done. specialize (IH len0 tmp0). destruct (list_len l len0 tmp0) as [[len1 tmp1]|]; [|by right].
    destruct IH as (n & -> & Ht & Hf & Hw). exists n. split_and!; [done|done|constructor; [by unfold list_fits; rewrite Eh|done]|].
    intros tmp Hb Hfit. inversion Hb; inversion Hfit; subst. cbn [list_part]. rewrite Eh. by apply Hw. }
  rewrite decide_True by done. destruct (Z.ltb_spec NGX_HTTP_V2_MAX_FIELD (Z.of_nat (length (oh_key h)))) as [Hk|Hk]; [left; by split; [|left]|].
  destruct (Z.ltb_spec NGX_HTTP_V2_MAX_FIELD (Z.of_nat (length (oh_value h)))) as [Hv|Hv]; [left; by split; [|right]|]. cbv zeta.
  match goal with |- context [list_len l ?a ?b] => specialize (IH a b); destruct (list_len l a b) as [[len1 tmp1]|]; [|by right] end.
  destruct IH as (n & -> & Ht & Hf & Hw). eexists (_ + n). split; [symmetry; apply Z.add_assoc|].
  assert (tmp0 <= tmp1 /\ Z.of_nat (length (oh_key h)) <= tmp1 /\ Z.of_nat (length (oh_value h)) <= tmp1) as (H1 & H2 & H3).
  { repeat case_match; lia. }
  split; [done|]. split; [by constructor|]. intros tmp Hb Hfit. inversion Hb as [|? ? Hbh Hb']; inversion Hfit as [|? ? Hh Hfit']; subst. destruct (Hbh Eh) as [Hbk Hbv].
  destruct (Hh Eh) as (T1 & T2 & _ & _). cbn [list_part map]. rewrite Eh. cbn [negb].
  destruct (string_encode_spec tmp (oh_key h) true Hbk Hk T1) as (ok & Gk & Bk & Sk).
  destruct (string_encode_spec tmp (oh_value h) false Hbv Hv T2) as (ov & Gv & Bv & Sv).
  destruct (Hw tmp Hb' Hfit') as (out & G & B & _ & F). exists ([0] ++ ok ++ ov ++ out). split.
  { eapply gives_more; [apply gives_then; [apply (gives_bytes _ 1); simpl; lia|apply gives_then; [exact Gk|apply gives_then; [exact Gv|exact G]]]|].
    pose proof (int_size_most (Z.of_nat (length (oh_key h)))). pose proof (int_size_most (Z.of_nat (length (oh_value h)))). lia. }
  split; [repeat (apply Forall_app; split); try done; by repeat constructor|]. split; [done|]. intros t. destruct (F t) as [t' F']. exists t'.
  change (Header (map ngx_tolower (oh_key h)) (oh_value h) :: ?l) with (option_list (Some (Header (map ngx_tolower (oh_key h)) (oh_value h))) ++ l).
  replace ([0] ++ ok ++ ov ++ out) with ((0 :: ok ++ ov) ++ out) by (cbn [app]; by rewrite (assoc_L app)).
  eapply block_field; [|exact F']. apply field_literal; [lia|by apply name_literal|done].
Qed.

(** *** The location *)

Definition location_text (e : v2_env) (host value : list Z) : list Z :=
  bs "http" ++ (if ssl e then bs "s" else []) ++ bs "://" ++ host ++
    (if negb (location_port e =? 0) then ":"%chr :: dec_text (location_port e) else []) ++ value.

Lemma absolute_location_spec e host value : 0 <= local_port e < 65536 -> absolute_location e host value = Some (location_text e host value).
Proof.
  intros Hp. unfold absolute_location, location_text. assert (Hl : 0 <= location_port e < 65536) by (unfold location_port; repeat case_match; lia).
  set (port := location_port e) in *. cbv zeta.
  assert (Hg : gives (if negb (port =? 0) then put_printed (bs ":%ui") [ANum port] else put_bytes []) (if negb (port =? 0) then 6 else 0)
    (if negb (port =? 0) then ":"%chr :: dec_text port else [])).
  { destruct (Z.eqb_spec port 0) as [E|E]; cbn [negb]; [by apply gives_bytes|]. pose proof (dec_text_short 5 port ltac:(lia) ltac:(simpl; lia)).
    apply gives_printed; [|simpl; lia]. apply (prints_char ":"%chr); [done|]. rewrite <- (app_nil_r (dec_text port)).
    apply (prints_ui port []); [lia|apply prints_nil]. }
  assert (Hssl : gives (put_bytes (if ssl e then bs "s" else [])) 1 (if ssl e then bs "s" else [])) by (apply gives_bytes; destruct (ssl e); simpl; lia).
  pose proof (gives_bytes (bs "http") 4 ltac:(done)) as H1. pose proof (gives_bytes (bs "://") 3 ltac:(done)) as H3.
  pose proof (gives_bytes host _ (Z.le_refl _)) as Hh. pose proof (gives_bytes value _ (Z.le_refl _)) as Hv.
  apply (gives_then _ _ _ _ _ _ H1 (gives_then _ _ _ _ _ _ Hssl (gives_then _ _ _ _ _ _ H3 (gives_then _ _ _ _ _ _ Hh (gives_then _ _ _ _ _ _ Hg Hv))))).
  destruct (negb (port =? 0)); lia.
Qed.

(** What is sent as the location, and the other headers of the list. *)
Definition redirect_text (e : v2_env) (value : list Z) : option (list Z) :=
  if default 0 (head value) =? "/"%chr then host ← location_host e; Some (location_text e host value) else Some value.
Definition location_value (r : v2_response) : list Z := default [] (i ← r_location r; h ← r_headers r !! i; Some (oh_value h)).
Definition other_headers (r : v2_response) : list out_header :=
  match r_location r with
  | Some i => if (length (location_value r) =? 0)%nat then r_headers r else delete i (r_headers r)
  | None => r_headers r
  end.
Abbreviation shown := (filter (fun h => oh_hash h = true)).

Lemma filter_hidden (i : nat) x (l : list out_header) : oh_hash x = false -> shown (<[i := x]> l) = shown (delete i l).
Proof.
  intros Hx. destruct (decide (i < length l)%nat) as [Hi|Hi].
  - rewrite insert_take_drop, delete_take_drop, !filter_app, filter_cons, decide_False by (done || by rewrite Hx). done.
  - by rewrite list_insert_ge, delete_take_drop, take_ge, drop_ge, app_nil_r by lia.
Qed.

Lemma take_location_spec e r : (forall i, r_location r = Some i -> is_Some (r_headers r !! i)) -> 0 <= local_port e < 65536 ->
  match redirect_text e (location_value r) with
  | None => take_location e r = Some None
  | Some l => exists hs, take_location e r = Some (Some (l, r <| r_headers := hs |>)) /\ shown hs = shown (other_headers r) /\
      (forall P, Forall P (r_headers r) -> Forall (fun h => oh_hash h = true -> P h) hs)
  end.
Proof.
  intros Hi Hp. unfold take_location, location_value, other_headers, location_value.
  assert (Hsame : forall P, Forall P (r_headers r) -> Forall (fun h => oh_hash h = true -> P h) (r_headers r)).
  { intros P H. eapply Forall_impl; [exact H|done]. }
  assert (Hhide : forall i k v P, Forall P (r_headers r) -> Forall (fun h => oh_hash h = true -> P h) (<[i := OutHeader false k v]> (r_headers r))).
  { intros i k v P H. apply Forall_insert; [by apply Hsame|done]. }
  destruct (r_location r) as [i|] eqn:Ei; cbn [mbind option_bind].
  2: { cbn. exists (r_headers r). split; [by destruct r|split; [done|exact Hsame]]. }
  destruct (Hi i eq_refl) as [h Eh]. rewrite Eh. cbn [mbind option_bind default]. destruct (oh_value h) as [|c v] eqn:Ev.
  { cbn. exists (r_headers r). split; [by destruct r|split; [done|exact Hsame]]. }
  unfold redirect_text. change (default 0 (head (id (c :: v)))) with c. change (length (id (c :: v)) =? 0)%nat with false. cbv iota.
  change (id (c :: v)) with (c :: v). destruct (c =? "/"%chr).
  - destruct (location_host e) as [host|]; cbn [mbind option_bind]; [|done]. rewrite absolute_location_spec by done. cbn [mbind option_bind].
    eexists. split; [done|]. split; [by apply filter_hidden|apply Hhide].
  - eexists. split; [done|]. split; [by apply filter_hidden|apply Hhide].
Qed.

(** ** Frames *)

Lemma be_value_uint32 s : 0 <= s < 2 ^ 32 -> be_value (ngx_http_v2_write_uint32 s) = s.
Proof.
  intros Hs. unfold ngx_http_v2_write_uint32, be_value. cbn [foldl]. unfold u8. rewrite !Z.shiftr_div_pow2 by lia.
  change (2 ^ 24) with 16777216. change (2 ^ 16) with 65536. change (2 ^ 8) with 256. Z.to_euclidean_division_equations. lia.
Qed.

Lemma frame_head_spec n type flags sid : 0 <= n < 2 ^ 24 -> 0 <= type < 256 -> 0 <= sid < 2 ^ 31 ->
  let hdr := frame_head n type flags sid in
  length hdr = NGX_HTTP_V2_FRAME_HEADER_SIZE /\ be_value (take 4 hdr) = n * 256 + type /\ hdr !! 4%nat = Some flags /\
  Z.land (be_value (take 4 (drop 5 hdr))) 0x7fffffff = sid.
Proof.
  intros Hn Ht Hs hdr. split; [done|].
  change (take 4 hdr) with (ngx_http_v2_write_uint32 (u32 (Z.lor (Z.shiftl n 8) type))).
  change (take 4 (drop 5 hdr)) with (ngx_http_v2_write_uint32 sid). rewrite (be_value_uint32 sid) by lia.
  assert (E : Z.lor (Z.shiftl n 8) type = n * 256 + type).
  { assert (E0 : Z.land (Z.shiftl n 8) type = 0).
    { apply Z.bits_inj'. intros k Hk. rewrite Z.land_spec, Z.shiftl_spec, Z.bits_0 by lia. destruct (Z.ltb_spec k 8) as [H|H].
      - by rewrite (Z.testbit_neg_r n) by lia.
      - rewrite <- (Z.mod_small type (2 ^ 8)), Z.mod_pow2_bits_high by lia. apply andb_false_r. }
    rewrite <- Z.lxor_lor, <- Z.add_nocarry_lxor, Z.shiftl_mul_pow2 by (done || lia). done. }
  rewrite E, u32_small, be_value_uint32 by lia. split_and!; [done|done|].
  change 0x7fffffff with (Z.ones 31). rewrite Z.land_ones, Z.mod_small by lia. done.
Qed.

Lemma frames_continued rounds : forall size sid block, (length block < rounds)%nat -> block <> [] -> 0 < size < 2 ^ 24 -> 0 <= sid < 2 ^ 31 ->
  exists out, frames_loop rounds size sid NGX_HTTP_V2_CONTINUATION_FRAME NGX_HTTP_V2_NO_FLAG block = Some out /\
    continued sid out block NGX_HTTP_V2_END_HEADERS_FLAG.
Proof.
  induction rounds as [|rounds IH]; intros size sid block Hr Hne Hsz Hsid; [lia|]. cbn [frames_loop].
  assert (Hhead : forall n f, 0 <= n < 2 ^ 24 -> continuation_head sid f n (frame_head n NGX_HTTP_V2_CONTINUATION_FRAME f sid)) by (intros n f Hn; by apply frame_head_spec).
  destruct (Z.leb_spec (Z.of_nat (length block)) size) as [H|H].
  - rewrite Z.sub_diag. cbn [negb Z.eqb]. rewrite Nat2Z.id, take_ge by lia. eexists. split; [done|]. apply last_frame; [apply Hhead; lia|done|done].
  - rewrite (proj2 (Z.eqb_neq _ 0)) by lia. cbn [negb].
    destruct (IH size sid (drop (Z.to_nat size) block)) as (out & -> & Hc); [rewrite length_drop; lia| |done|done|].
    { intros E. apply (f_equal length) in E. rewrite length_drop in E. simpl in E. lia. }
    cbn [mbind option_bind]. eexists. split; [done|]. rewrite <- (take_drop (Z.to_nat size) block) at 2. rewrite <- (assoc_L app).
    change NGX_HTTP_V2_END_HEADERS_FLAG with (Z.lor NGX_HTTP_V2_NO_FLAG NGX_HTTP_V2_END_HEADERS_FLAG). apply more_frames; [|done|done].
    rewrite length_take, Nat.min_l by lia. rewrite Z2Nat.id by lia. apply Hhead. lia.
Qed.

(** The frames of a block are read as the block, see [read_all_block]. *)
Lemma frames_spec e r block : block <> [] -> 0 < frame_size e < 2 ^ 24 -> 0 <= stream_id e < 2 ^ 31 ->
  exists n fl wire, ngx_http_v2_create_headers_frame e r block = Some (frame_head n NGX_HTTP_V2_HEADERS_FRAME fl (stream_id e) ++ wire) /\
    0 <= n <= frame_size e /\ Z.land fl NGX_HTTP_V2_END_STREAM_FLAG = Z.b2z (r_header_only r) /\
    forall W (s : @v2_state W), sid s = stream_id e -> Http2Hpack.len s = n -> Http2Hpack.flags s = fl -> padding s = 0 -> in_frames s block wire.
Proof.
  intros Hne Hsz Hsid. unfold ngx_http_v2_create_headers_frame. cbn [frames_loop].
  set (f0 := if r_header_only r then NGX_HTTP_V2_END_STREAM_FLAG else NGX_HTTP_V2_NO_FLAG).
  destruct (Z.leb_spec (Z.of_nat (length block)) (frame_size e)) as [H|H].
  - rewrite Z.sub_diag. cbn [negb Z.eqb]. rewrite Nat2Z.id, take_ge by lia. eexists _, _, _. split; [done|]. split; [lia|].
    split; [unfold f0; by destruct (r_header_only r)|]. intros W s Hs Hl Hf Hp. rewrite <- (app_nil_r block) at 2. apply one_frame; [|done|done].
    unfold end_headers. rewrite Hf. unfold f0. by destruct (r_header_only r).
  - rewrite (proj2 (Z.eqb_neq _ 0)) by lia. cbn [negb].
    destruct (frames_continued (length block) (frame_size e) (stream_id e) (drop (Z.to_nat (frame_size e)) block)) as (out & -> & Hc); [rewrite length_drop; lia| |done|done|].
    { intros E. apply (f_equal length) in E. rewrite length_drop in E. simpl in E. lia. }
    cbn [mbind option_bind]. eexists _, _, _. split; [by rewrite <- (assoc_L app)|]. split; [lia|].
    split; [unfold f0; by destruct (r_header_only r)|]. intros W s Hs Hl Hf Hp.
    rewrite <- (take_drop (Z.to_nat (frame_size e)) block) at 1. apply (many_frames s _ _ [] out NGX_HTTP_V2_END_HEADERS_FLAG).
    + unfold end_headers. rewrite Hf. unfold f0. by destruct (r_header_only r).
    + rewrite Hl, length_take. lia.
    + done.
    + by rewrite Hs.
Qed.

(** ** The response that is sent *)

(** What the status leaves of the response. *)
Definition keeps_modified (s : Z) : bool := (s =? 200) || (s =? 206) || (s =? 304).

Definition after_status (e : v2_env) (r : v2_response) : v2_response :=
  let s := r_status r in
  Resp (r_header_sent r) (is_head e || (s =? 204) || (s =? 304) || r_header_only r) s (r_server r) (r_date r)
    (if s =? 204 then [] else r_content_type r) (r_content_type_len r) (r_charset r)
    (if s =? 204 then false else r_content_length r) (if s =? 204 then -1 else r_content_length_n r)
    (keeps_modified s && r_last_modified r) (if keeps_modified s then r_last_modified_time r else -1)
    (r_location r) (r_headers r) (r_gzip_vary r).

Lemma resp_ext r1 r2 : r_header_sent r1 = r_header_sent r2 -> r_header_only r1 = r_header_only r2 -> r_status r1 = r_status r2 ->
  r_server r1 = r_server r2 -> r_date r1 = r_date r2 -> r_content_type r1 = r_content_type r2 -> r_content_type_len r1 = r_content_type_len r2 ->
  r_charset r1 = r_charset r2 -> r_content_length r1 = r_content_length r2 -> r_content_length_n r1 = r_content_length_n r2 ->
  r_last_modified r1 = r_last_modified r2 -> r_last_modified_time r1 = r_last_modified_time r2 -> r_location r1 = r_location r2 ->
  r_headers r1 = r_headers r2 -> r_gzip_vary r1 = r_gzip_vary r2 -> r1 = r2.
Proof. destruct r1, r2. cbn. intros. subst. reflexivity. Qed.

Lemma status_byte_spec e r : (status_byte e r).2 = after_status e r.
Proof.
  unfold status_byte, after_status, keeps_modified. cbv zeta.
  assert (Es : r_status (if is_head e then r <| r_header_only := true |> else r) = r_status r) by by destruct (is_head e).
  rewrite !Es. destruct (Z.eqb_spec (r_status r) 200) as [E|_]; [rewrite E; by destruct (is_head e); apply resp_ext|].
  destruct (Z.eqb_spec (r_status r) 204) as [E|_]; [rewrite E; by destruct (is_head e); apply resp_ext|].
  destruct (Z.eqb_spec (r_status r) 206) as [E|_]; [rewrite E; by destruct (is_head e); apply resp_ext|].
  destruct (Z.eqb_spec (r_status r) 304) as [E|_]; [rewrite E; by destruct (is_head e); apply resp_ext|].
  by destruct (is_head e); apply resp_ext.
Qed.

Lemma after_type e r : type_headers (after_status e r) = if r_status r =? 204 then [] else type_headers r.
Proof. unfold after_status. destruct r as [hs ho s sv dt ct ctl cs cl cln lm lmt lo hd gv]. cbn [r_status]. by destruct (s =? 204). Qed.
Lemma after_length e r : length_headers (after_status e r) = if r_status r =? 204 then [] else length_headers r.
Proof. unfold after_status. destruct r as [hs ho s sv dt ct ctl cs cl cln lm lmt lo hd gv]. cbn [r_status]. by destruct (s =? 204). Qed.
Lemma after_modified e r : modified_headers (after_status e r) = if keeps_modified (r_status r) then modified_headers r else [].
Proof.
  unfold after_status. destruct r as [hs ho s sv dt ct ctl cs cl cln lm lmt lo hd gv]. cbn [r_status]. by destruct (keeps_modified s), lm.
Qed.

(** The headers of a response, in the order in which they are sent. *)
Definition response_headers (e : v2_env) (r : v2_response) : list v2_header :=
  [Header (bs ":status") (status_text (r_status r))] ++
  (if r_server r then [] else [Header (bs "server") (if server_tokens e then NGINX_VER else bs "nginx")]) ++
  (if r_date r then [] else [Header (bs "date") (cached_http_time e)]) ++
  (if r_status r =? 204 then [] else type_headers r) ++
  (if r_status r =? 204 then [] else length_headers r) ++
  (if keeps_modified (r_status r) then modified_headers r else []) ++
  location_headers (default [] (redirect_text e (location_value r))) ++
  (if r_gzip_vary r && conf_gzip_vary e then [Header (bs "vary") (bs "Accept-Encoding")] else []) ++
  list_headers (other_headers r).

(** What the other modules and the connection ensure. *)
Record response_ok (e : v2_env) (r : v2_response) : Prop := {
  ok_status : 0 <= r_status r < 1000;
  ok_type : bytes (type_text r) /\ Z.of_nat (length (type_text r)) <= NGX_HTTP_V2_MAX_FIELD;
  ok_length : r_content_length_n r < 2 ^ 63;
  ok_modified : r_last_modified_time r = -1 \/ 0 <= r_last_modified_time r < 253402300800;
  ok_location : forall i, r_location r = Some i -> is_Some (r_headers r !! i);
  ok_redirect : forall l, redirect_text e (location_value r) = Some l -> bytes l /\ Z.of_nat (length l) <= NGX_HTTP_V2_MAX_FIELD;
  ok_headers : Forall (fun h => bytes (oh_key h) /\ bytes (oh_value h)) (r_headers r);
  ok_date : bytes (cached_http_time e) /\ length (cached_http_time e) = 29%nat;
  ok_port : 0 <= local_port e < 65536;
  ok_frames : 0 < frame_size e < 2 ^ 24;
  ok_stream : 0 <= stream_id e < 2 ^ 31
}.

(** The memory computed before is enough for what is written, and the block has
    the headers. *)
Lemma block_writes e ver r st loc hs len0 n tmp :
  version_is ver -> (st, after_status e r) = status_byte e r ->
  let ver_len := match ver with Some v => Z.of_nat (length v) | None => ngx_http_v2_literal_size (Z.of_nat (length NGINX_VER)) end in
  let len := fixed_len e ver_len st (after_status e r) in
  let rr := (after_status e r) <| r_headers := hs |> <| r_gzip_vary := r_gzip_vary (after_status e r) && conf_gzip_vary e |> in
  let lenl := if (length loc =? 0)%nat then 0 else 1 + Z.of_nat NGX_HTTP_V2_INT_OCTETS + Z.of_nat (length loc) in
  len0 = len + lenl -> len0 <= tmp -> response_ok e r -> bytes loc -> Z.of_nat (length loc) <= NGX_HTTP_V2_MAX_FIELD ->
  writes (list_part tmp hs) n (list_headers hs) ->
  exists ver', encode_version tmp e ver rr = Some ver' /\ version_is ver' /\
    writes (status_part st rr +> server_part e ver' rr +> date_part tmp e rr +> type_part tmp rr +> length_part rr +>
            modified_part tmp rr +> location_part tmp loc +> vary_part rr +> list_part tmp hs)
      (len0 + (if r_gzip_vary r && conf_gzip_vary e then 1 + 12 else 0) + n)
      ([Header (bs ":status") (status_text (r_status r))] ++
       (if r_server r then [] else [Header (bs "server") (if server_tokens e then NGINX_VER else bs "nginx")]) ++
       (if r_date r then [] else [Header (bs "date") (cached_http_time e)]) ++
       type_headers (after_status e r) ++ length_headers (after_status e r) ++ modified_headers (after_status e r) ++
       location_headers loc ++ (if r_gzip_vary r && conf_gzip_vary e then [Header (bs "vary") (bs "Accept-Encoding")] else []) ++ list_headers hs).
Proof.
  intros Hver Est ver_len len rr lenl El Ht Hok Hbl Hml Hlist.
  set (r1 := after_status e r) in *.
  set (n1 := if negb (st =? 0) then 1 else 1 + ngx_http_v2_literal_size 3).
  set (n2 := if negb (r_server r) then 1 + (if server_tokens e then ver_len else 5) else 0).
  set (n3 := if negb (r_date r) then 1 + ngx_http_v2_literal_size 29 else 0).
  set (n4 := if negb (length (r_content_type r1) =? 0)%nat then 1 + Z.of_nat NGX_HTTP_V2_INT_OCTETS + Z.of_nat (length (r_content_type r1)) +
     (if with_charset r1 then 10 + Z.of_nat (length (r_charset r1)) else 0) else 0).
  set (n5 := if sends_length r1 then 1 + ngx_http_v2_integer_octets NGX_OFF_T_LEN + NGX_OFF_T_LEN else 0).
  set (n6 := if sends_modified r1 then 1 + ngx_http_v2_literal_size 29 else 0).
  assert (Elen : len = n1 + n2 + n3 + n4 + n5 + n6) by done.
  assert (Hvl : 10 <= ver_len <= 13 /\ (ver = None -> ver_len = 13)) by (unfold ver_len; destruct Hver as [-> | ->]; by vm_compute).
  assert (H1 : 1 <= n1) by (unfold n1; by case_match).
  assert (H2 : 0 <= n2) by (unfold n2; repeat case_match; lia).
  assert (H3 : 0 <= n3) by (unfold n3; by case_match).
  assert (H4 : 0 <= n4) by (unfold n4; repeat case_match; lia).
  assert (H5 : 0 <= n5) by (unfold n5; by case_match).
  assert (H6 : 0 <= n6) by (unfold n6; by case_match).
  assert (Hl : 0 <= lenl) by (unfold lenl; case_match; lia).
  destruct (encode_version_spec tmp e ver rr Hver) as (ver' & Ev & Hver' & Hv').
  { change (r_server rr) with (r_server r). intros E1 E2 E3. unfold n2 in *. rewrite E1, E2 in *. cbn [negb] in *. destruct Hvl as [_ Hvl]. specialize (Hvl E3). lia. }
  exists ver'. split; [done|]. split; [done|].
  replace (len0 + _ + n) with (n1 + (n2 + (n3 + (n4 + (n5 + (n6 + (lenl + ((if r_gzip_vary r && conf_gzip_vary e then 1 + 12 else 0) + n)))))))) by lia.
  repeat apply writes_then; [..|done].
  - change (status_part st rr) with (status_part st r1). apply (status_part_writes e r); [by symmetry|apply (ok_status e r Hok)].
  - apply (server_part_writes e ver' rr ver_len). intros E1 E2. split; [by apply Hv'|]. unfold ver_len. destruct Hver as [-> | ->]; by vm_compute.
  - apply (date_part_writes tmp e rr); [apply (ok_date e r Hok)|apply (ok_date e r Hok)|]. change (r_date rr) with (r_date r). destruct (r_date r); [by left|right].
    unfold n3 in *. cbn [negb] in *. change (1 + ngx_http_v2_literal_size 29) with 31 in *. lia.
  - apply (type_part_writes tmp rr). change (r_content_type rr) with (r_content_type r1). change (type_text rr) with (type_text r1). intros Hne.
    assert (type_text r1 = type_text r) as E.
    { unfold r1, after_status in Hne |- *. cbn [r_content_type] in Hne. destruct (r_status r =? 204) eqn:E204; [by simpl in Hne|]. unfold type_text, with_charset. done. }
    rewrite E. destruct (ok_type e r Hok) as [Hb Hm]. split; [done|]. split; [done|]. rewrite <- E, type_text_length.
    unfold n4 in *. destruct (Nat.eqb_spec (length (r_content_type r1)) 0); [done|]. cbn [negb] in *. lia.
  - apply (length_part_writes rr). change (r_content_length_n rr) with (r_content_length_n r1). pose proof (ok_length e r Hok).
    unfold r1, after_status. cbn [r_content_length_n]. case_match; lia.
  - apply (modified_part_writes tmp rr). change (sends_modified rr) with (sends_modified r1). change (r_last_modified_time rr) with (r_last_modified_time r1). intros Es.
    unfold n6 in *. rewrite Es in *. change (1 + ngx_http_v2_literal_size 29) with 31 in *. split; [|lia].
    pose proof (ok_modified e r Hok) as Hm. unfold sends_modified, r1, after_status in Es |- *. cbn [r_last_modified r_last_modified_time] in *.
    destruct (keeps_modified _); [|done]. destruct Hm as [Hm|Hm]; [|done]. rewrite Hm in Es. by rewrite andb_false_r in Es.
  - apply location_part_writes; [done|done|]. unfold lenl in *. destruct (Nat.eqb_spec (length loc) 0); lia.
  - apply (vary_part_writes rr).
Qed.

Lemma too_long_shown l : Exists too_long l <-> Exists too_long (shown l).
Proof.
  rewrite !Exists_exists. split.
  - intros (h & Hin & Hh). exists h. split; [|done]. apply list_elem_of_filter. by split; [apply Hh|].
  - intros (h & [_ Hin]%list_elem_of_filter & Hh). by exists h.
Qed.

(** A response is refused when it has a header that is too long, or no host for
    its location. *)
Definition refused (e : v2_env) (r : v2_response) : Prop :=
  redirect_text e (location_value r) = None \/ Exists too_long (shown (other_headers r)).

(** A response is refused, or sent: the block has its headers, whatever is in
    the table of the client, and the frames are read as the block. *)
Definition well_sent (e : v2_env) (r : v2_response) (out : option filtered) : Prop :=
  match out with
  | Some (Sent frames block r' ver') =>
      ~ refused e r /\ version_is ver' /\ r_header_sent r' = true /\
      r_header_only r' = (is_head e || (r_status r =? 204) || (r_status r =? 304) || r_header_only r) /\
      (forall t, exists t', rfc_block NGX_HTTP_V2_MAX_FIELD t block (response_headers e r) t') /\ bytes block /\
      exists n fl wire, frames = frame_head n NGX_HTTP_V2_HEADERS_FRAME fl (stream_id e) ++ wire /\
        0 <= n <= frame_size e /\ Z.land fl NGX_HTTP_V2_END_STREAM_FLAG = Z.b2z (r_header_only r') /\
        forall W (s : @v2_state W), sid s = stream_id e -> Http2Hpack.len s = n -> Http2Hpack.flags s = fl -> padding s = 0 ->
          in_frames s block wire
  | Some NotSent => refused e r
  | _ => False
  end.

Lemma filter_response_spec e ver r st : version_is ver -> (st, after_status e r) = status_byte e r -> r_header_sent r = true -> response_ok e r ->
  well_sent e r (filter_response e ver st (after_status e r)).
Proof.
  intros Hver Est Hsent Hok. unfold filter_response, well_sent. cbv zeta.
  pose proof (take_location_spec e (after_status e r) (ok_location e r Hok) (ok_port e r Hok)) as Hloc.
  change (location_value (after_status e r)) with (location_value r) in Hloc. change (other_headers (after_status e r)) with (other_headers r) in Hloc.
  unfold refused. destruct (redirect_text e (location_value r)) as [loc|] eqn:Eloc.
  2: { rewrite Hloc. cbn [mbind option_bind]. by left. }
  destruct Hloc as (hs & -> & Hshown & Hall). cbn [mbind option_bind].
  destruct (ok_redirect e r Hok loc Eloc) as [Hbl Hml]. specialize (Hall _ (ok_headers e r Hok)).
  set (rr := (after_status e r) <| r_headers := hs |> <| r_gzip_vary := r_gzip_vary ((after_status e r) <| r_headers := hs |>) && conf_gzip_vary e |>). change (r_headers rr) with hs.
  change (r_gzip_vary ((after_status e r) <| r_headers := hs |>)) with (r_gzip_vary r).
  match goal with |- context [if (length loc =? 0)%nat then ?a else ?b] => set (len0 := if (length loc =? 0)%nat then a else b) end.
  match goal with |- context [list_len hs ?a ?b] => pose proof (list_len_spec hs a b) as Hlist; destruct (list_len hs a b) as [[len1 tmp1]|] end.
  2: { right. rewrite too_long_shown in Hlist. by rewrite <- Hshown. }
  destruct Hlist as (n & -> & Htmp & Hfit & Hw).
  destruct (block_writes e ver r st loc hs len0 n tmp1) as (ver' & Ev & Hver' & block & Hg & Hbb & Hne & Hblock); try done.
  { unfold len0. destruct (length loc =? 0)%nat; lia. }
  { by apply Hw. }
  change ((after_status e r) <| r_headers := hs |> <| r_gzip_vary := r_gzip_vary (after_status e r) && conf_gzip_vary e |>) with rr in Ev, Hg. rewrite Ev. cbn [mbind option_bind].
  replace (if r_gzip_vary r && conf_gzip_vary e then len0 + (1 + 12) else len0) with (len0 + (if r_gzip_vary r && conf_gzip_vary e then 1 + 12 else 0)) by (destruct (r_gzip_vary r && conf_gzip_vary e); lia).
  destruct Hg as [Hlen Hg]. rewrite Hg by lia. cbn [mbind option_bind].
  destruct (frames_spec e (keep_type rr) block) as (m & fl & wire & -> & Hm & Hfl & Hin); [by apply Hne|apply (ok_frames e r Hok)|apply (ok_stream e r Hok)|].
  cbn [mbind option_bind].
  assert (Ek : r_header_sent (keep_type rr) = true /\ r_header_only (keep_type rr) = r_header_only (after_status e r)) by (unfold keep_type; destruct (length (r_content_type rr) =? 0)%nat; done).
  destruct Ek as [Ek1 Ek2]. split.
  { intros [?|H]; [done|]. rewrite <- Hshown, <- too_long_shown, Exists_exists in H. destruct H as (h & Hin' & Hh & Hlong).
    rewrite Forall_forall in Hfit. destruct (Hfit h Hin' Hh) as (_ & _ & ? & ?). lia. }
  split; [done|]. split; [done|]. split; [by rewrite Ek2|]. split; [|split; [done|by exists m, fl, wire]].
  intros t. destruct (Hblock t) as [t' Ht']. exists t'. unfold response_headers. rewrite Eloc. cbn [default]. unfold list_headers in *.
  rewrite Hshown, after_type, after_length, after_modified in Ht'. exact Ht'.
Qed.

(** C24: A response whose date, times and status are those of HTTP, and whose
    type and location are no longer than a header may be, is sent, unless it is
    refused because a header is too long or no host is known for its location:
    what is written fits the memory that was computed for it, and is a block
    that gives exactly the headers of the response, in order and with names in
    lower case, to any client, whatever is in its table; the frames that the
    block is cut into are read as that block, and end the stream when there is
    no body. *)
Theorem ngx_http_v2_header_filter_sends e ver r :
  r_header_sent r = false -> is_main e = true -> version_is ver -> response_ok e r ->
  well_sent e r (ngx_http_v2_header_filter e ver r).
Proof.
  intros Hsent Hmain Hver Hok. unfold ngx_http_v2_header_filter. rewrite Hsent, Hmain. cbn [negb].
  destruct (status_byte e (r <| r_header_sent := true |>)) as [st r1] eqn:Est.
  pose proof (status_byte_spec e (r <| r_header_sent := true |>)) as Er. rewrite Est in Er. cbn [snd] in Er. subst r1.
  set (rs := r <| r_header_sent := true |>) in *.
  assert (E1 : refused e rs = refused e r) by reflexivity. assert (E2 : response_headers e rs = response_headers e r) by reflexivity.
  assert (Hoks : response_ok e rs) by (destruct Hok; by split).
  pose proof (filter_response_spec e ver rs st Hver (eq_sym Est) eq_refl Hoks) as H. unfold well_sent in H |- *. by rewrite E1, E2 in H.
Qed.

(** ** An example *)

Definition example_env : v2_env :=
  Env true true true false [] (bs "h") None 8080 true true true (bs "Sun, 06 Nov 1994 08:49:37 GMT") 50 3.
Definition example_response : v2_response :=
  Resp false false 206 false false (bs "text/html") 9 (bs "utf-8") false 12 false 784111777 (Some 0%nat)
    [OutHeader true (bs "Location") (bs "/a"); OutHeader true (bs "ETag") (bs "~1"); OutHeader false (bs "X") (bs "y")] true.

Theorem ngx_http_v2_header_filter_sends_witness : response_ok example_env example_response /\
  well_sent example_env example_response (ngx_http_v2_header_filter example_env None example_response) /\
  (exists r ver frames block, ngx_http_v2_header_filter example_env None example_response = Some (Sent frames block r ver) /\
     length block = 121%nat /\ length frames = (121 + 3 * 9)%nat) /\
  response_headers example_env example_response =
    [Header (bs ":status") (bs "206"); Header (bs "server") (bs "nginx/1.10.1"); Header (bs "date") (bs "Sun, 06 Nov 1994 08:49:37 GMT");
     Header (bs "content-type") (bs "text/html; charset=utf-8"); Header (bs "content-length") (bs "12");
     Header (bs "last-modified") (bs "Sun, 06 Nov 1994 08:49:37 GMT"); Header (bs "location") (bs "https://h:8080/a");
     Header (bs "vary") (bs "Accept-Encoding"); Header (bs "etag") (bs "~1")].
Proof.
  assert (Hok : response_ok example_env example_response).
  { split; try (simpl; lia); try (apply (bool_decide_unpack _); by vm_compute).
    - intros i [= <-]. by eexists.
    - intros l E. vm_compute in E. injection E as <-. apply (bool_decide_unpack _). by vm_compute. }
  split; [exact Hok|]. split.
  - apply (ngx_http_v2_header_filter_sends example_env None example_response); [reflexivity|reflexivity|by left|exact Hok].
  - split; [|by vm_compute].
    destruct (ngx_http_v2_header_filter example_env None example_response) as [[frames block r ver| |]|] eqn:E; [|by vm_compute in E..].
    exists r, ver, frames, block. split; [done|]. vm_compute in E. injection E as <- <- _ _. done.
Defined.
