(* ===== verification/HttpRange.v ===== *)
(** * Ranges of bytes (src/http/modules/ngx_http_range_filter_module.c)

    The header Range of a request, the headers of a partial response, and the
    buffers of its body.  A header value is a list of characters, and what
    follows it in memory the character 0. *)

From S2P Require Import Prelude NgxNumbers NgxCodec NgxPrintf NgxTimes HttpCommon HttpChunked.

Set Warnings "-register-all".

#[local] Abbreviation length := (@List.length _).

(** ** Data *)

Definition NGX_HTTP_VERSION_10 : Z := 1000.
Definition NGX_HTTP_OK : Z := 200.
Definition NGX_HTTP_PARTIAL_CONTENT : Z := 206.
Definition NGX_HTTP_RANGE_NOT_SATISFIABLE : Z := 416.
Definition NGX_OFF_T_LEN : nat := 20.
Definition NGX_ATOMIC_T_LEN : nat := 20.

(** [src/http/modules/ngx_http_range_filter_module.c:48-52] ngx_http_range_t *)
Record range := Range { start : Z; end_ : Z; content_range : list Z }.
#[export] Instance eta_range : Settable range := fun g => Range (start g) (end_ g) (content_range g).

(** [src/http/modules/ngx_http_range_filter_module.c:55-59]
    ngx_http_range_filter_ctx_t *)
Record range_ctx := RangeCtx { offset : Z; boundary_header : list Z; ranges : list range }.
#[export] Instance eta_range_ctx : Settable range_ctx := fun c =>
  RangeCtx (offset c) (boundary_header c) (ranges c).

(** What the filter looks at and sets of a request and its response: the
    headers that may be absent are options, [content_length] says whether
    there is that header. *)
Record response := Response {
  http_version : Z;
  is_main : bool;
  subrequest_ranges : bool;
  allow_ranges : bool;
  single_range : bool;
  max_ranges : Z;
  range_header : option (list Z);
  if_range : option (list Z);
  status : Z;
  content_length_n : Z;
  content_length : bool;
  content_offset : Z;
  content_type : list Z;
  content_type_len : Z;
  charset : list Z;
  etag : option (list Z);
  last_modified_time : Z;
  content_range_header : option (list Z);
  accept_ranges : bool
}.
#[export] Instance eta_response : Settable response := fun r =>
  Response (http_version r) (is_main r) (subrequest_ranges r) (allow_ranges r) (single_range r) (max_ranges r)
    (range_header r) (if_range r) (status r) (content_length_n r) (content_length r) (content_offset r)
    (content_type r) (content_type_len r) (charset r) (etag r) (last_modified_time r) (content_range_header r)
    (accept_ranges r).

(** ** The header Range *)

(** [*p] *)
Definition peek (l : list Z) : Z := match l with c :: _ => c | [] => 0 end.

(** [src/http/modules/ngx_http_range_filter_module.c:306-306]
    ngx_http_range_parse: a loop over spaces. *)
Fixpoint skip_blanks (l : list Z) : list Z :=
  match l with
  | c :: l' => if c =? " "%chr then skip_blanks l' else l
  | [] => []
  end.

Definition cutoff : Z := NGX_MAX_OFF_T_VALUE / 10.
Definition cutlim : Z := NGX_MAX_OFF_T_VALUE mod 10.

(** [src/http/modules/ngx_http_range_filter_module.c:313-319]
    ngx_http_range_parse: a loop over the digits of a number. *)
Fixpoint off_digits (n : Z) (l : list Z) : option (Z * list Z) :=
  match l with
  | c :: l' =>
      if is_digit c then
        if (cutoff <=? n) && ((cutoff <? n) || (cutlim <? c - "0"%chr)) then None
        else off_digits (s64 (n * 10 + c - "0"%chr)) l'
      else Some (n, l)
  | [] => Some (n, [])
  end.

Definition at_end (l : list Z) : bool := (peek l =? ","%chr) || (peek l =? 0).

(** [src/http/modules/ngx_http_range_filter_module.c:339-355]
    ngx_http_range_parse: the last position, or the length of a suffix. *)
Definition last_number (l : list Z) : option (Z * list Z) :=
  if negb (is_digit (peek l)) then None
  else
    '(n, l) ← off_digits 0 l;
    let l := skip_blanks l in
    if at_end l then Some (n, l) else None.

(** [src/http/modules/ngx_http_range_filter_module.c:362-367]
    ngx_http_range_parse: the end after the last position. *)
Definition clip (content_length end_ : Z) : Z :=
  if content_length <=? end_ then content_length else s64 (end_ + 1).

(** [src/http/modules/ngx_http_range_filter_module.c:301-368]
    ngx_http_range_parse: one range, and what follows it. *)
Definition one_range (content_length : Z) (l : list Z) : option (Z * Z * list Z) :=
  let l := skip_blanks l in
  if negb (peek l =? "-"%chr) then
    if negb (is_digit (peek l)) then None
    else
      '(start, l) ← off_digits 0 l;
      let l := skip_blanks l in
      if negb (peek l =? "-"%chr) then None
      else
        let l := skip_blanks (tail l) in
        if at_end l then Some (start, content_length, l)
        else '(end_, l) ← last_number l; Some (start, clip content_length end_, l)
  else
    '(n, l) ← last_number (tail l);
    Some (s64 (content_length - n), clip content_length (s64 (content_length - 1)), l).

(** [src/http/modules/ngx_http_range_filter_module.c:301-400]
    ngx_http_range_parse: the loop; the code, and the ranges. *)
Fixpoint range_loop (turns : nat) (content_length n size : Z) (rs : list range) (l : list Z)
    : option (Z * list range) :=
  match turns with
  | O => None
  | S turns =>
      match one_range content_length l with
      | None => Some (NGX_HTTP_RANGE_NOT_SATISFIABLE, rs)
      | Some (start, end_, l) =>
          let go n size rs :=
            if peek l =? ","%chr then range_loop turns content_length n size rs (tail l)
            else if bool_decide (rs = []) then Some (NGX_HTTP_RANGE_NOT_SATISFIABLE, rs)
            else if content_length <? size then Some (NGX_DECLINED, rs)
            else Some (NGX_OK, rs) in
          if start <? end_ then
            let rs := rs ++ [Range start end_ []] in
            if n =? 0 then Some (NGX_DECLINED, rs)
            else go (n - 1) (s64 (size + (end_ - start))) rs
          else go n size rs
      end
  end.

(** [src/http/modules/ngx_http_range_filter_module.c:274-401]
    ngx_http_range_parse: [mctx] is the context of the main request; the
    loop takes a turn for a comma, and one more. *)
Definition ngx_http_range_parse (r : response) (mctx : option range_ctx) (ctx : range_ctx) (n : Z)
    : option (Z * range_ctx) :=
  match mctx with
  | Some mctx => Some (NGX_OK, ctx <| ranges := ranges mctx |>)
  | None =>
      value ← range_header r;
      '(rc, rs) ← range_loop (S (length value)) (content_length_n r) n 0 (ranges ctx) (drop 6 value);
      Some (rc, ctx <| ranges := rs |>)
  end.

(** ** The headers of the response *)

Definition CRLF : list Z := [CR; LF].

(** [src/http/modules/ngx_http_range_filter_module.c:404-450]
    ngx_http_range_singlepart_header *)
Definition ngx_http_range_singlepart_header (r : response) (ctx : range_ctx) : option response :=
  if negb (is_main r) then Some r
  else
    g ← head (ranges ctx);
    text ← ngx_sprintf (length (bs "bytes -/") + 3 * NGX_OFF_T_LEN) (bs "bytes %O-%O/%O")
             [ANum (start g); ANum (s64 (end_ g - 1)); ANum (content_length_n r)];
    Some (r <| content_range_header := Some text |>
            <| content_length_n := s64 (end_ g - start g) |>
            <| content_offset := start g |>
            <| content_length := false |>).

(** [src/http/modules/ngx_http_range_filter_module.c:462-517]
    ngx_http_range_multipart_header: the text before each part. *)
Definition boundary_text (r : response) (boundary : Z) : option (list Z) :=
  let with_charset := (content_type_len r =? Z.of_nat (length (content_type r))) && negb (bool_decide (charset r = [])) in
  let alloc := (4 + NGX_ATOMIC_T_LEN + 16 + length (content_type r) + 23
                + if with_charset then 10 + length (charset r) else 0)%nat in
  let first := CRLF ++ bs "--%0muA" ++ CRLF in
  if with_charset then
    ngx_sprintf alloc (first ++ bs "Content-Type: %V; charset=%V" ++ CRLF ++ bs "Content-Range: bytes ")
      [ANum boundary; AStr (content_type r); AStr (charset r)]
  else if negb (bool_decide (content_type r = [])) then
    ngx_sprintf alloc (first ++ bs "Content-Type: %V" ++ CRLF ++ bs "Content-Range: bytes ")
      [ANum boundary; AStr (content_type r)]
  else ngx_sprintf alloc (first ++ bs "Content-Range: bytes ") [ANum boundary].

(** [src/http/modules/ngx_http_range_filter_module.c:546-563]
    ngx_http_range_multipart_header: the loop over the ranges; their texts
    and the length of all. *)
Fixpoint part_texts (content_length header_len len : Z) (rs : list range) : option (list range * Z) :=
  match rs with
  | [] => Some ([], len)
  | g :: rs =>
      text ← ngx_sprintf (3 * NGX_OFF_T_LEN + 2 + 4) (bs "%O-%O/%O" ++ CRLF ++ CRLF)
               [ANum (start g); ANum (s64 (end_ g - 1)); ANum content_length];
      '(rs, len) ← part_texts content_length header_len
                     (u64 (len + (header_len + Z.of_nat (length text) + u64 (end_ g - start g)))) rs;
      Some (g <| content_range := text |> :: rs, len)
  end.

(** [src/http/modules/ngx_http_range_filter_module.c:453-574]
    ngx_http_range_multipart_header *)
Definition ngx_http_range_multipart_header (boundary : Z) (r : response) (ctx : range_ctx)
    : option (response * range_ctx) :=
  header ← boundary_text r boundary;
  type ← ngx_sprintf (length (bs "Content-Type: multipart/byteranges; boundary=") + NGX_ATOMIC_T_LEN)
           (bs "multipart/byteranges; boundary=%0muA") [ANum boundary];
  '(rs, len) ← part_texts (content_length_n r) (Z.of_nat (length header))
                 (4 + Z.of_nat NGX_ATOMIC_T_LEN + 4) (ranges ctx);
  Some (r <| content_type := type |> <| content_type_len := Z.of_nat (length type) |> <| charset := [] |>
          <| content_length_n := s64 len |> <| content_length := false |>,
        ctx <| boundary_header := header |> <| ranges := rs |>).

(** [src/http/modules/ngx_http_range_filter_module.c:577-608]
    ngx_http_range_not_satisfiable *)
Definition ngx_http_range_not_satisfiable (r : response) : option response :=
  text ← ngx_sprintf (length (bs "bytes */") + NGX_OFF_T_LEN) (bs "bytes */%O") [ANum (content_length_n r)];
  Some (r <| status := NGX_HTTP_RANGE_NOT_SATISFIABLE |> <| content_range_header := Some text |>
          <| content_length_n := -1 |> <| content_length := false |>).

(** How the header filter is left: to the next filter, with a context if the
    response is partial, or with a code. *)
Inductive header_exit :=
  | Next (r : response) (ctx : option range_ctx)
  | Stop (rc : Z) (r : response).

(** [src/http/modules/ngx_http_range_filter_module.c:179-216]
    ngx_http_range_header_filter: whether the condition If-Range holds; the
    parser of dates does not leave its text. *)
Definition if_range_holds (r : response) : option bool :=
  match if_range r with
  | None => Some true
  | Some v =>
      if (2 <=? length v)%nat && bool_decide (list.last v = Some 34) then
        match etag r with
        | None => Some false
        | Some e => Some (bool_decide (v = e))
        end
      else if last_modified_time r =? -1 then Some false
      else
        match ngx_parse_http_time v with
        | Good t => Some (t =? last_modified_time r)
        | Wrong => Some (NGX_ERROR =? last_modified_time r)
        | Outside => None
        end
  end.

(** [src/http/modules/ngx_http_range_filter_module.c:146-271]
    ngx_http_range_header_filter: [mctx] is the context of the main request of
    a subrequest, [boundary] the next number of [ngx_next_temp_number]. *)
Definition ngx_http_range_header_filter (boundary : Z) (mctx : option range_ctx) (r : response) : option header_exit :=
  if (http_version r <? NGX_HTTP_VERSION_10) || negb (status r =? NGX_HTTP_OK)
     || (negb (is_main r) && negb (subrequest_ranges r)) || (content_length_n r =? -1) || negb (allow_ranges r)
     || (max_ranges r =? 0)
  then Some (Next r None)
  else
    let plain := Some (Next (r <| accept_ranges := true |>) None) in
    match range_header r with
    | None => plain
    | Some v =>
        if (length v <? 7)%nat || negb (ngx_strncasecmp_eq v (bs "bytes=") 6) then plain
        else
          holds ← if_range_holds r;
          if negb holds then plain
          else
            let n := if single_range r then 1 else max_ranges r in
            '(rc, ctx) ← ngx_http_range_parse r (if is_main r then None else mctx) (RangeCtx (content_offset r) [] []) n;
            if rc =? NGX_OK then
              let r := r <| status := NGX_HTTP_PARTIAL_CONTENT |> in
              if (length (ranges ctx) =? 1)%nat
              then r ← ngx_http_range_singlepart_header r ctx; Some (Next r (Some ctx))
              else '(r, ctx) ← ngx_http_range_multipart_header boundary r ctx; Some (Next r (Some ctx))
            else if rc =? NGX_HTTP_RANGE_NOT_SATISFIABLE
            then r ← ngx_http_range_not_satisfiable r; Some (Stop NGX_HTTP_RANGE_NOT_SATISFIABLE r)
            else plain
    end.

(** ** The language of the header

    What RFC 7233 calls a byte-range-spec or a suffix, with the spaces that
    the parser allows around its numbers. *)





Definition total (rs : list range) : Z := fold_right (fun g n => end_ g - start g + n) 0 rs.


(** ** Reading one range *)


Lemma is_digit_range c : is_digit c = true -> 48 <= c <= 57.
Proof. unfold is_digit. lia. Qed.









Lemma clip_min cl e : 0 <= cl <= NGX_MAX_OFF_T_VALUE -> -1 <= e -> clip cl e = Z.min cl (e + 1).
Proof.
  intros Hcl He. unfold clip, NGX_MAX_OFF_T_VALUE in *. destruct (Z.leb_spec cl e); [lia|].
  rewrite s64_small by lia. lia.
Qed.



(** ** Reading all ranges *)


Lemma s64_add a b : s64 (s64 a + b) = s64 (a + b).
Proof.
  unfold s64. replace ((a + 2 ^ 63) mod 2 ^ 64 - 2 ^ 63 + b + 2 ^ 63) with ((a + 2 ^ 63) mod 2 ^ 64 + b) by lia.
  rewrite Zplus_mod_idemp_l. do 2 f_equal. lia.
Qed.








(** ** Any header *)

Lemma skip_blanks_length l : (length (skip_blanks l) <= length l)%nat.
Proof. induction l as [|c l IH]; simpl; [lia|]. destruct (_ =? _); simpl; lia. Qed.
Lemma tail_length (l : list Z) : (length (tail l) <= length l)%nat.
Proof. destruct l; simpl; lia. Qed.

Lemma off_digits_inv l : forall n v rest, 0 <= n <= NGX_MAX_OFF_T_VALUE -> off_digits n l = Some (v, rest) ->
  0 <= v <= NGX_MAX_OFF_T_VALUE /\ (length rest <= length l)%nat.
Proof.
  induction l as [|c l IH]; intros n v rest Hn; simpl; [by intros [= <- <-]|].
  destruct (is_digit c) eqn:Hc; [|by intros [= <- <-]]. apply is_digit_range in Hc.
  destruct (_ && _) eqn:E; [done|]. unfold cutoff, cutlim, NGX_MAX_OFF_T_VALUE in *.
  change (9223372036854775807 / 10) with 922337203685477580 in E. change (9223372036854775807 mod 10) with 7 in E.
  simpl in *. rewrite s64_small by lia. intros H%IH; [|lia]. destruct H. split; [done|]. lia.
Qed.

Lemma last_number_inv l v rest : last_number l = Some (v, rest) ->
  0 <= v <= NGX_MAX_OFF_T_VALUE /\ (length rest <= length l)%nat.
Proof.
  unfold last_number. destruct (negb _); [done|]. destruct (off_digits 0 l) as [[n l1]|] eqn:E; [|done].
  apply off_digits_inv in E as [Hv Hl]; [|done]. simpl. destruct (at_end _); [|done]. intros [= <- <-].
  pose proof (skip_blanks_length l1). split; [done|lia].
Qed.

(** What every range that is read is like. *)
Definition in_reach (cl s e : Z) : Prop :=
  e <= cl /\ ((0 <= s <= NGX_MAX_OFF_T_VALUE) \/ (e = cl /\ cl - NGX_MAX_OFF_T_VALUE <= s)).

Lemma one_range_inv cl l s e rest : 0 <= cl <= NGX_MAX_OFF_T_VALUE -> one_range cl l = Some (s, e, rest) ->
  in_reach cl s e /\ (length rest <= length l)%nat.
Proof.
  intros Hcl. pose proof (skip_blanks_length l) as Hl0. unfold one_range, in_reach.
  destruct (negb (peek (skip_blanks l) =? _)); [|].
  - destruct (negb _); [done|]. destruct (off_digits 0 _) as [[a l1]|] eqn:E; [|done]. cbn [mbind option_bind].
    apply off_digits_inv in E as [Ha Hl1]; [|done]. destruct (negb _); [done|].
    set (l2 := skip_blanks (tail (skip_blanks l1))).
    assert (Hl2 : (length l2 <= length l)%nat).
    { pose proof (skip_blanks_length (tail (skip_blanks l1))). pose proof (tail_length (skip_blanks l1)).
      pose proof (skip_blanks_length l1). unfold l2. lia. }
    destruct (at_end l2); [intros [= <- <- <-]; split; [lia|done]|].
    destruct (last_number l2) as [[b l3]|] eqn:E2; [|done]. apply last_number_inv in E2 as [Hb Hl3].
    intros [= <- <- <-]. rewrite clip_min by lia. split; [lia|lia].
  - destruct (last_number _) as [[n l1]|] eqn:E; [|done]. apply last_number_inv in E as [Hn Hl1].
    intros [= <- <- <-]. pose proof (tail_length (skip_blanks l)). unfold NGX_MAX_OFF_T_VALUE in *.
    rewrite !s64_small by lia. rewrite clip_min by (unfold NGX_MAX_OFF_T_VALUE; lia). split; [lia|lia].
Qed.

Lemma total_app rs g : total (rs ++ [g]) = total rs + (end_ g - start g).
Proof. induction rs as [|h rs IH]; simpl; [lia|]. rewrite IH. lia. Qed.

Definition good_range (cl : Z) (g : range) : Prop := in_reach cl (start g) (end_ g) /\ start g < end_ g.

(** Ranges whose lengths add up without overflow. *)
Lemma ranges_inside cl rs : 0 <= cl <= NGX_MAX_OFF_T_VALUE -> Forall (good_range cl) rs -> s64 (total rs) <= cl ->
  total rs < 2 ^ 63 -> total rs <= cl /\ Forall (fun g => 0 <= start g) rs.
Proof.
  intros Hcl Hg Hs Ht.
  assert (Hpos : forall l, Forall (good_range cl) l -> 0 <= total l).
  { induction 1 as [|g l [_ ?] _ IH]; simpl; lia. }
  rewrite s64_small in Hs by (specialize (Hpos rs Hg); lia). split; [done|].
  assert (Hsz : Forall (fun g => end_ g - start g <= total rs) rs).
  { clear Ht Hs. induction Hg as [|g rs Hg0 Hg IH]; constructor; simpl.
    - specialize (Hpos rs Hg). lia.
    - eapply Forall_impl; [exact IH|]. simpl. destruct Hg0. intros h ?. lia. }
  rewrite Forall_forall in *. intros g Hin. specialize (Hg g Hin) as [[He Hr] Hlt]. specialize (Hsz g Hin).
  unfold NGX_MAX_OFF_T_VALUE in *. simpl in Hsz. lia.
Qed.

Lemma range_loop_inv cl : 0 <= cl <= NGX_MAX_OFF_T_VALUE -> forall turns n rs l,
  (length l < turns)%nat -> 0 <= n -> Forall (good_range cl) rs ->
  exists rc rs', range_loop turns cl n (s64 (total rs)) rs l = Some (rc, rs') /\
    ((rc = NGX_OK /\ rs' <> [] /\ Forall (good_range cl) rs' /\ s64 (total rs') <= cl
      /\ Z.of_nat (length rs') <= n + Z.of_nat (length rs))
     \/ rc = NGX_DECLINED \/ rc = NGX_HTTP_RANGE_NOT_SATISFIABLE).
Proof.
  intros Hcl. induction turns as [|turns IH]; intros n rs l Hl Hn Hrs; [lia|]. cbn [range_loop].
  destruct (one_range cl l) as [[[s e] rest]|] eqn:E; [|eexists _, _; by split; [|right; right]].
  destruct (one_range_inv cl l s e rest Hcl E) as [Hr Hlr]. clear E.
  assert (Hgo : forall n' rs', Forall (good_range cl) rs' -> 0 <= n' ->
    n' + Z.of_nat (length rs') <= n + Z.of_nat (length rs) ->
    exists rc rs'', (if peek rest =? ","%chr then range_loop turns cl n' (s64 (total rs')) rs' (tail rest)
     else if bool_decide (rs' = []) then Some (NGX_HTTP_RANGE_NOT_SATISFIABLE, rs')
     else if cl <? s64 (total rs') then Some (NGX_DECLINED, rs') else Some (NGX_OK, rs')) = Some (rc, rs'') /\
    ((rc = NGX_OK /\ rs'' <> [] /\ Forall (good_range cl) rs'' /\ s64 (total rs'') <= cl
      /\ Z.of_nat (length rs'') <= n + Z.of_nat (length rs))
     \/ rc = NGX_DECLINED \/ rc = NGX_HTTP_RANGE_NOT_SATISFIABLE)).
  { intros n' rs' Hrs' Hn' Hle. destruct (Z.eqb_spec (peek rest) ","%chr) as [Hc|_].
    - destruct rest as [|c rest]; [done|]. destruct (IH n' rs' rest) as (rc & rs'' & E & H); [simpl in *; lia|done..|].
      exists rc, rs''. split; [exact E|]. intuition lia.
    - case_bool_decide; [eexists _, _; by split; [|right; right]|].
      destruct (Z.ltb_spec cl (s64 (total rs'))); eexists _, _; (split; [done|]); [by right; left|left]. by split_and!; try lia. }
  destruct (Z.ltb_spec s e) as [Hse|]; [|by apply Hgo].
  destruct (Z.eqb_spec n 0) as [->|]; [eexists _, _; by split; [|right; left]|].
  pose proof (Hgo (n - 1) (rs ++ [Range s e []])) as H. rewrite total_app in H. simpl in H. rewrite s64_add. apply H.
  - rewrite Forall_app, Forall_singleton. by split.
  - lia.
  - rewrite length_app. simpl. lia.
Qed.





(** C16: every header is answered, by ranges or by one of two refusals.  When
    ranges are accepted there is at least one and no more than allowed, none
    is empty or passes the end of the file; and if their lengths add up to
    less than 2^63, all lie in the file and they have no more bytes than it. *)
Theorem ngx_http_range_parse_inside r ctx n value :
  0 <= content_length_n r <= NGX_MAX_OFF_T_VALUE -> range_header r = Some value -> ranges ctx = [] -> 0 <= n ->
  exists rc ctx', ngx_http_range_parse r None ctx n = Some (rc, ctx') /\
    (rc = NGX_DECLINED \/ rc = NGX_HTTP_RANGE_NOT_SATISFIABLE \/
     (rc = NGX_OK /\ ranges ctx' <> [] /\ Z.of_nat (length (ranges ctx')) <= n
      /\ Forall (fun g => start g < end_ g <= content_length_n r) (ranges ctx')
      /\ (total (ranges ctx') < 2 ^ 63 ->
          total (ranges ctx') <= content_length_n r /\ Forall (fun g => 0 <= start g) (ranges ctx')))).
Proof.
  intros Hcl Hr Hctx Hn. unfold ngx_http_range_parse. rewrite Hr, Hctx. cbn [mbind option_bind].
  destruct (range_loop_inv _ Hcl (S (length value)) n [] (drop 6 value)) as (rc & rs & E & H);
    [rewrite length_drop; lia|done..|].
  change (s64 (total [])) with 0 in E. rewrite E. cbn [mbind option_bind]. eexists _, _. split; [done|].
  destruct H as [(-> & Hne & Hg & Hs & Hl)|[->| ->]]; [|by left|by right; left]. right; right.
  simpl in *. split_and!; [done|done|lia| |].
  - eapply Forall_impl; [exact Hg|]. intros g [[? _] ?]. lia.
  - by apply ranges_inside.
Qed.

(** ** Examples *)

Definition get (value : list Z) (len : Z) : response :=
  Response 1001 true false true false 5 (Some value) None 200 len true 0 (bs "text/css") 8 (bs "utf-8") None 0 None false.
Definition no_ranges : range_ctx := RangeCtx 0 [] [].



Lemma ngx_http_range_parse_inside_witness :
  exists rc ctx', ngx_http_range_parse (get (bs "bytes=5-,x") 100) None no_ranges 5 = Some (rc, ctx') /\
    (rc = NGX_DECLINED \/ rc = NGX_HTTP_RANGE_NOT_SATISFIABLE \/
     (rc = NGX_OK /\ ranges ctx' <> [] /\ Z.of_nat (length (ranges ctx')) <= 5
      /\ Forall (fun g => start g < end_ g <= 100) (ranges ctx')
      /\ (total (ranges ctx') < 2 ^ 63 ->
          total (ranges ctx') <= 100 /\ Forall (fun g => 0 <= start g) (ranges ctx')))).
Proof. by apply (ngx_http_range_parse_inside (get (bs "bytes=5-,x") 100) no_ranges 5 (bs "bytes=5-,x")). Defined.
