(* ===== verification/HttpRangeBody.v ===== *)
(** * The body of a partial response
    (src/http/modules/ngx_http_range_filter_module.c)

    The buffers of a response become those of a range, however the response
    is cut into them, or the parts of a multipart message; as many bytes as
    the header announced. *)

From S2P Require Import Prelude NgxNumbers NgxCodec NgxPrintf NgxTimes HttpCommon HttpChunked HttpRange.

Set Warnings "-register-all".

#[local] Abbreviation length := (@List.length _).

(** ** The filter *)

(** [src/core/ngx_buf.h:137-139] ngx_buf_special *)
Definition ngx_buf_special (b : chain_buf) : bool :=
  (flush b || last_buf b || sync b) && negb (in_memory b) && negb (in_file b).

(** [src/core/ngx_buf.h:145-147] ngx_buf_size *)
Definition ngx_buf_size (b : chain_buf) : Z := Z.of_nat (length (content b)).

(** [src/http/modules/ngx_http_range_filter_module.c:717-722]
    ngx_http_range_singlepart_body: a buffer that is passed over. *)
Definition skipped (b : chain_buf) : chain_buf := b <| content := [] |> <| sync := true |>.

(** [src/http/modules/ngx_http_range_filter_module.c:727-736]
    ngx_http_range_singlepart_body: a buffer in which the range begins. *)
Definition from_start (g : range) (s : Z) (b : chain_buf) : chain_buf :=
  if s <? start g then b <| content := drop (Z.to_nat (start g - s)) (content b) |> else b.

(** [src/http/modules/ngx_http_range_filter_module.c:738-752]
    ngx_http_range_singlepart_body: the buffer in which the range ends. *)
Definition to_end (g : range) (last : Z) (b : chain_buf) : chain_buf :=
  b <| content := take (length (content b) - Z.to_nat (last - end_ g)) (content b) |> <| last_buf := true |>.

(** [src/http/modules/ngx_http_range_filter_module.c:699-762]
    ngx_http_range_singlepart_body: the loop; the offset after it, and what
    [*ll] points to when it was set.  A link whose [next] is not set again
    keeps the buffers that were passed over. *)
Fixpoint singlepart_loop (g : range) (off : Z) (cl : list chain_buf) : Z * option (list chain_buf) :=
  match cl with
  | [] => (off, None)
  | b :: cl =>
      let last := off + ngx_buf_size b in
      let link b := let '(o, rest) := singlepart_loop g last cl in
                    (o, Some (b :: default (map skipped cl) rest)) in
      if ngx_buf_special b then link b
      else if (end_ g <=? off) || (last <=? start g) then singlepart_loop g last cl
      else
        let b := from_start g off b in
        if end_ g <=? last then (last, Some [to_end g last b]) else link b
  end.

(** How the body filter is left: to the next filter, or with a code. *)
Inductive body_exit := Pass (cl : list chain_buf) | Done (rc : Z).

(** [src/http/modules/ngx_http_range_filter_module.c:686-769]
    ngx_http_range_singlepart_body *)
Definition ngx_http_range_singlepart_body (g : range) (ctx : range_ctx) (cl : list chain_buf) : body_exit * range_ctx :=
  let '(o, out) := singlepart_loop g (offset ctx) cl in
  (match out with Some out => Pass out | None => Done NGX_OK end, ctx <| offset := o |>).

(** [src/http/modules/ngx_http_range_filter_module.c:646-683]
    ngx_http_range_test_overlapped *)
Definition ngx_http_range_test_overlapped (ctx : range_ctx) (buf : chain_buf) : option range_ctx :=
  if negb (offset ctx =? 0) then None
  else if negb (last_buf buf)
          && existsb (fun g => (start g <? offset ctx) || (offset ctx + ngx_buf_size buf <? end_ g)) (ranges ctx)
  then None
  else Some (ctx <| offset := ngx_buf_size buf |>).

(** [src/http/modules/ngx_http_range_filter_module.c:822-846]
    ngx_http_range_multipart_body: the buffer of a part's data; a range that
    is not inside the buffer is memory outside it. *)
Definition part_data (buf : chain_buf) (g : range) : option chain_buf :=
  if (0 <=? start g) && (start g <=? end_ g) && (end_ g <=? ngx_buf_size buf) then
    Some (ChainBuf (take (Z.to_nat (end_ g - start g)) (drop (Z.to_nat (start g)) (content buf)))
            (in_memory buf) (in_file buf) false false false)
  else None.

(** [src/http/modules/ngx_http_range_filter_module.c:784-857]
    ngx_http_range_multipart_body: the loop over the ranges. *)
Fixpoint part_bufs (header : list Z) (buf : chain_buf) (rs : list range) : option (list chain_buf) :=
  match rs with
  | [] => Some []
  | g :: rs =>
      data ← part_data buf g;
      out ← part_bufs header buf rs;
      Some (mem_buf header :: mem_buf (content_range g) :: data :: out)
  end.

(** [src/http/modules/ngx_http_range_filter_module.c:772-899]
    ngx_http_range_multipart_body *)
Definition ngx_http_range_multipart_body (ctx : range_ctx) (buf : chain_buf) : option (list chain_buf) :=
  out ← part_bufs (boundary_header ctx) buf (ranges ctx);
  if (length (boundary_header ctx) <? 4 + NGX_ATOMIC_T_LEN)%nat then None
  else Some (out ++ [(mem_buf (take (4 + NGX_ATOMIC_T_LEN) (boundary_header ctx) ++ bs "--" ++ CRLF)) <| last_buf := true |>]).

(** [src/http/modules/ngx_http_range_filter_module.c:611-643]
    ngx_http_range_body_filter *)
Definition ngx_http_range_body_filter (ctx : option range_ctx) (cl : list chain_buf)
    : option (body_exit * option range_ctx) :=
  match cl, ctx with
  | [], _ | _, None => Some (Pass cl, ctx)
  | buf :: _, Some ctx =>
      match ranges ctx with
      | [g] => let '(e, ctx) := ngx_http_range_singlepart_body g ctx cl in Some (e, Some ctx)
      | _ =>
          if ngx_buf_special buf then Some (Pass cl, Some ctx)
          else
            match ngx_http_range_test_overlapped ctx buf with
            | None => Some (Done NGX_ERROR, Some ctx)
            | Some ctx => out ← ngx_http_range_multipart_body ctx buf; Some (Pass out, Some ctx)
            end
      end
  end.

(** The chains that a response's chains become. *)
Fixpoint body_run (ctx : option range_ctx) (chains : list (list chain_buf)) : option (list (list chain_buf)) :=
  match chains with
  | [] => Some []
  | cl :: chains =>
      '(e, ctx) ← ngx_http_range_body_filter ctx cl;
      match e with
      | Pass out => outs ← body_run ctx chains; Some (out :: outs)
      | Done rc => if rc =? NGX_OK then body_run ctx chains else None
      end
  end.

(** ** One range *)

(** The bytes of a range, of a text whose first byte is at [off]. *)
Definition slice (off : Z) (g : range) (l : list Z) : list Z :=
  drop (Z.to_nat (start g - off)) (take (Z.to_nat (end_ g - off)) l).

Lemma slice_app off g l1 l2 :
  slice off g (l1 ++ l2) = slice off g l1 ++ slice (off + Z.of_nat (length l1)) g l2.
Proof.
  unfold slice. rewrite take_app, drop_app, length_take. f_equal.
  destruct (Z.lt_ge_cases (end_ g - off) (Z.of_nat (length l1))).
  - replace (Z.to_nat (end_ g - off) - length l1)%nat with 0%nat by lia.
    replace (Z.to_nat (end_ g - (off + _))) with 0%nat by lia. by rewrite !take_0, !drop_nil.
  - by replace (Z.to_nat (end_ g - off) - length l1)%nat with (Z.to_nat (end_ g - (off + Z.of_nat (length l1)))) by lia;
      replace (Z.to_nat (start g - off) - _)%nat with (Z.to_nat (start g - (off + Z.of_nat (length l1)))) by lia.
Qed.

Lemma slice_nil off g : slice off g [] = [].
Proof. unfold slice. by rewrite take_nil, drop_nil. Qed.
Lemma slice_before off g l : end_ g <= off -> slice off g l = [].
Proof. intros. unfold slice. replace (Z.to_nat (end_ g - off)) with 0%nat by lia. by rewrite take_0, drop_nil. Qed.
Lemma slice_after off g l : off + Z.of_nat (length l) <= start g -> slice off g l = [].
Proof. intros. unfold slice. apply drop_ge. rewrite length_take. lia. Qed.

Lemma chain_content_cons b cl : chain_content (b :: cl) = content b ++ chain_content cl.
Proof. done. Qed.
Lemma skipped_content cl : chain_content (map skipped cl) = [].
Proof. induction cl as [|b cl IH]; [done|]. simpl. by rewrite chain_content_cons, IH. Qed.

Lemma special_content b : content b = [] \/ in_memory b = true \/ in_file b = true ->
  ngx_buf_special b = true -> content b = [].
Proof. unfold ngx_buf_special. intros [?|[-> | ->]]; [done|..]; by rewrite ?andb_false_r. Qed.

Lemma from_start_content g off b : content (from_start g off b) = drop (Z.to_nat (start g - off)) (content b).
Proof.
  unfold from_start. destruct (Z.ltb_spec off (start g)); [done|].
  by replace (Z.to_nat (start g - off)) with 0%nat by lia.
Qed.

Lemma to_end_content g off b : off <= end_ g <= off + ngx_buf_size b ->
  content (to_end g (off + ngx_buf_size b) (from_start g off b)) = slice off g (content b).
Proof.
  intros He. unfold to_end. simpl content. rewrite from_start_content, length_drop. unfold slice, ngx_buf_size in *.
  rewrite skipn_firstn_comm. f_equal. lia.
Qed.

Lemma slice_through off g l : off + Z.of_nat (length l) <= end_ g -> slice off g l = drop (Z.to_nat (start g - off)) l.
Proof. intros He. unfold slice. rewrite take_ge by lia. done. Qed.

Lemma singlepart_loop_content g cl : chain_ok cl -> forall off,
  let '(o, out) := singlepart_loop g off cl in
  chain_content (default [] out) = slice off g (chain_content cl)
  /\ (o = off + Z.of_nat (length (chain_content cl)) \/ (end_ g <= o /\ end_ g <= off + Z.of_nat (length (chain_content cl)))).
Proof.
  induction 1 as [|b cl Hb Hok IH]; intros off; cbn [singlepart_loop].
  { change (chain_content []) with (@nil Z). rewrite slice_nil. split; [done|]. left. simpl. lia. }
  specialize (IH (off + ngx_buf_size b)). destruct (singlepart_loop g (off + ngx_buf_size b) cl) as [o rest].
  destruct IH as [IHc IHo]. rewrite chain_content_cons, slice_app, length_app. fold (ngx_buf_size b).
  assert (Hrest : chain_content (default (map skipped cl) rest) = slice (off + ngx_buf_size b) g (chain_content cl)).
  { rewrite <- IHc. destruct rest; [done|apply skipped_content]. }
  assert (Ho : o = off + Z.of_nat (length (content b) + length (chain_content cl))
    \/ end_ g <= o /\ end_ g <= off + Z.of_nat (length (content b) + length (chain_content cl))).
  { unfold ngx_buf_size in *. lia. }
  destruct (ngx_buf_special b) eqn:Es.
  { split; [|done]. simpl. by rewrite chain_content_cons, Hrest, (special_content b Hb Es), slice_nil. }
  destruct (_ || _) eqn:Ek.
  { rewrite IHc. split; [|done]. apply orb_true_iff in Ek as [Ek|Ek].
    - by rewrite (slice_before off) by lia.
    - by rewrite (slice_after off) by (unfold ngx_buf_size in *; lia). }
  apply orb_false_iff in Ek as [Ek1 Ek2]. destruct (Z.leb_spec (end_ g) (off + ngx_buf_size b)) as [He|He].
  - simpl. rewrite chain_content_cons, to_end_content by lia. rewrite (slice_before (off + _)) by lia.
    split; [done|]. right. unfold ngx_buf_size in *. lia.
  - simpl. rewrite chain_content_cons, Hrest, from_start_content. split; [|done].
    by rewrite (slice_through off) by (unfold ngx_buf_size in *; lia).
Qed.

(** The buffer with the last byte of the range is the last. *)
Lemma singlepart_loop_last g cl : chain_ok cl -> start g < end_ g -> forall off,
  off < end_ g <= off + Z.of_nat (length (chain_content cl)) ->
  exists o out, singlepart_loop g off cl = (o, Some out) /\ out <> [] /\ is_last_chain out = true.
Proof.
  intros Hok Hg. induction Hok as [|b cl Hb Hok IH]; intros off Ho; cbn [singlepart_loop]; [simpl in Ho; lia|].
  rewrite chain_content_cons, length_app in Ho.
  assert (Hlink : forall b', off + ngx_buf_size b < end_ g -> exists o out,
    (let '(o, rest) := singlepart_loop g (off + ngx_buf_size b) cl in (o, Some (b' :: default (map skipped cl) rest)))
      = (o, Some out) /\ out <> [] /\ is_last_chain out = true).
  { intros b' Hlt. destruct (IH (off + ngx_buf_size b)) as (o & out & -> & Hne & Hl); [unfold ngx_buf_size in *; lia|].
    exists o, (b' :: out). split; [done|]. split; [done|]. by destruct out. }
  destruct (ngx_buf_special b) eqn:Es.
  { apply Hlink. unfold ngx_buf_size. rewrite (special_content b Hb Es). simpl. lia. }
  destruct (Z.leb_spec (end_ g) off); [lia|]. simpl.
  destruct (Z.leb_spec (off + ngx_buf_size b) (start g)).
  { apply IH. unfold ngx_buf_size in *. lia. }
  destruct (Z.leb_spec (end_ g) (off + ngx_buf_size b)); [|by apply Hlink].
  by eexists _, _.
Qed.

Definition response_content (chains : list (list chain_buf)) : list Z := concat (map chain_content chains).

Lemma chain_content_concat outs : chain_content (concat outs) = response_content outs.
Proof.
  unfold response_content. induction outs as [|out outs IH]; [done|]. simpl. rewrite <- IH.
  unfold chain_content. by rewrite map_app, concat_app.
Qed.

Lemma body_run_single g chains : Forall chain_ok chains -> forall ctx off, ranges ctx = [g] ->
  (offset ctx = off \/ (end_ g <= offset ctx /\ end_ g <= off)) ->
  exists outs, body_run (Some ctx) chains = Some outs
    /\ response_content outs = slice off g (response_content chains).
Proof.
  induction 1 as [|cl chains Hcl Hok IH]; intros ctx off Hg Ho.
  { exists []. split; [done|]. by rewrite slice_nil. }
  assert (Hs : forall l, slice (offset ctx) g l = slice off g l).
  { intros l. destruct Ho as [->|[H1 H2]]; [done|]. by rewrite !slice_before. }
  cbn [body_run]. destruct cl as [|b cl'].
  { destruct (IH ctx off Hg Ho) as (outs & E & Hc). exists ([] :: outs). cbn [ngx_http_range_body_filter mbind option_bind].
    by rewrite E. }
  remember (b :: cl') as cl eqn:Ecl.
  assert (Ef : ngx_http_range_body_filter (Some ctx) cl =
    (let '(e, ctx) := ngx_http_range_singlepart_body g ctx cl in Some (e, Some ctx))) by by rewrite Ecl; simpl; rewrite Hg.
  rewrite Ef. unfold ngx_http_range_singlepart_body.
  pose proof (singlepart_loop_content g cl Hcl (offset ctx)) as Hloop.
  destruct (singlepart_loop g (offset ctx) cl) as [o out]. destruct Hloop as [Hc Hoff]. cbn [mbind option_bind].
  set (ctx' := ctx <| offset := o |>). assert (Hg' : ranges ctx' = [g]) by done.
  destruct (IH ctx' (off + Z.of_nat (length (chain_content cl))) Hg') as (outs & E & Hr).
  { change (offset ctx') with o. lia. }
  rewrite Hs in Hc. unfold response_content in *. simpl map. simpl concat. rewrite slice_app.
  destruct out as [out|]; simpl in Hc.
  - exists (out :: outs). rewrite E. split; [done|]. simpl. by rewrite Hc, Hr.
  - exists outs. simpl. rewrite E. split; [done|]. by rewrite <- Hc, Hr.
Qed.

(** ** Partial responses *)

(** The request [r] asks for the ranges [rs], and may have them. *)
Record partial (r : response) (rs : list range) : Prop := {
  p_version : NGX_HTTP_VERSION_10 <= http_version r;
  p_main : is_main r = true;
  p_status : status r = NGX_HTTP_OK;
  p_length : 0 <= content_length_n r <= NGX_MAX_OFF_T_VALUE;
  p_allow : allow_ranges r = true;
  p_max : 0 < max_ranges r;
  p_offset : content_offset r = 0;
  p_if : if_range_holds r = Some true;
  p_value : exists value, range_header r = Some value /\ (7 <= length value)%nat
    /\ ngx_strncasecmp_eq value (bs "bytes=") 6 = true;
  p_ranges : ngx_http_range_parse r None (RangeCtx 0 [] []) (if single_range r then 1 else max_ranges r)
    = Some (NGX_OK, RangeCtx 0 [] rs)
}.

Lemma partial_ranges r rs : partial r rs ->
  rs <> [] /\ Forall (good_range (content_length_n r)) rs /\ s64 (total rs) <= content_length_n r.
Proof.
  intros Hp. destruct (p_value r rs Hp) as (value & Hv & _). pose proof (p_ranges r rs Hp) as E.
  unfold ngx_http_range_parse in E. rewrite Hv in E. cbn [mbind option_bind ranges] in E.
  pose proof (p_max r rs Hp).
  destruct (range_loop_inv _ (p_length r rs Hp) (S (length value)) (if single_range r then 1 else max_ranges r) [] (drop 6 value))
    as (rc & rs' & E' & H'); [rewrite length_drop; lia|destruct (single_range r); lia|done|].
  change (s64 (total [])) with 0 in E'. rewrite E' in E. simpl in E. injection E as -> <-.
  destruct H' as [(_ & Hne & Hg & Hs & _)|[H'|H']]; [done|by unfold NGX_OK, NGX_DECLINED in *; discriminate..].
Qed.

Lemma partial_filter boundary mctx r rs : partial r rs ->
  ngx_http_range_header_filter boundary mctx r =
    let r' := r <| status := NGX_HTTP_PARTIAL_CONTENT |> in
    let ctx := RangeCtx 0 [] rs in
    if (length rs =? 1)%nat
    then r ← ngx_http_range_singlepart_header r' ctx; Some (Next r (Some ctx))
    else '(r, ctx) ← ngx_http_range_multipart_header boundary r' ctx; Some (Next r (Some ctx)).
Proof.
  intros Hp. destruct Hp as [Hv Hm Hst Hl Ha Hmax Ho Hif (value & Hr & Hlen & Hb) Hrs].
  unfold ngx_http_range_header_filter. rewrite Hm, Hst, Ha, Hr, Hif, Ho, Hb. cbn [negb andb orb].
  rewrite (proj2 (Z.ltb_ge _ _)), (proj2 (Z.eqb_neq (content_length_n r) (-1))), (proj2 (Z.eqb_neq (max_ranges r) 0)) by lia.
  rewrite (proj2 (Nat.ltb_ge _ _)) by lia. change (NGX_HTTP_OK =? NGX_HTTP_OK) with true. cbn [negb orb mbind option_bind].
  rewrite Hrs. done.
Qed.

(** ** The texts of a partial response *)

Lemma dec_text_length n : 0 <= n < 2 ^ 63 -> (length (dec_text n) <= 20)%nat.
Proof. intros Hn. destruct (dec_text_digits n) as (_ & ? & _); lia. Qed.

(** [first-last/length] *)
Definition range_text (len : Z) (g : range) : list Z :=
  dec_text (start g) ++ bs "-" ++ dec_text (end_ g - 1) ++ bs "/" ++ dec_text len.

Definition inside (len : Z) (g : range) : Prop := 0 <= start g < end_ g /\ end_ g <= len < 2 ^ 63.

Lemma prints_range len g fmt args out : inside len g -> prints fmt args out ->
  prints (bs "%O-%O/%O" ++ fmt) (ANum (start g) :: ANum (s64 (end_ g - 1)) :: ANum len :: args) (range_text len g ++ out).
Proof.
  intros [Hg Hl] Hp. rewrite s64_small by lia. unfold range_text. rewrite <- !app_assoc.
  change (bs "%O-%O/%O" ++ fmt) with (bs "%O" ++ bs "-" ++ bs "%O" ++ bs "/" ++ bs "%O" ++ fmt).
  apply prints_O; [lia|]. apply prints_text; [done|]. apply prints_O; [lia|]. apply prints_text; [done|].
  by apply prints_O; [lia|].
Qed.

Lemma range_text_length len g : inside len g -> (length (range_text len g) <= 62)%nat.
Proof.
  intros [Hg Hl]. unfold range_text. rewrite !length_app. pose proof (dec_text_length (start g)).
  pose proof (dec_text_length (end_ g - 1)). pose proof (dec_text_length len). simpl. lia.
Qed.

Lemma partial_inside r rs : partial r rs -> total rs < 2 ^ 63 -> Forall (inside (content_length_n r)) rs.
Proof.
  intros Hp Ht. destruct (partial_ranges r rs Hp) as (_ & Hg & Hs). pose proof (p_length r rs Hp) as Hl.
  unfold NGX_MAX_OFF_T_VALUE in Hl.
  destruct (ranges_inside _ rs (p_length r rs Hp) Hg Hs Ht) as [_ H0]. rewrite Forall_forall in *.
  intros g Hin. specialize (Hg g Hin) as [[He _] Hlt]. specialize (H0 g Hin). simpl in H0. split; lia.
Qed.

Lemma partial_one r g : partial r [g] -> inside (content_length_n r) g.
Proof.
  intros Hp. destruct (partial_ranges r [g] Hp) as (_ & Hg & _). apply Forall_singleton in Hg as [Hr Hlt].
  pose proof (p_length r [g] Hp). pose proof (partial_inside r [g] Hp) as Hi.
  rewrite Forall_singleton in Hi. apply Hi. simpl. destruct Hr. unfold NGX_MAX_OFF_T_VALUE in *. lia.
Qed.

(** C14: A partial response with one range says which bytes it has and how
    many, and however the whole response is cut into buffers and chains, those
    bytes, and no others, are what is passed on. *)
Theorem ngx_http_range_single_response boundary mctx r g chains :
  partial r [g] -> Forall chain_ok chains -> Z.of_nat (length (response_content chains)) = content_length_n r ->
  exists r' ctx outs, ngx_http_range_header_filter boundary mctx r = Some (Next r' (Some ctx))
    /\ status r' = NGX_HTTP_PARTIAL_CONTENT
    /\ content_range_header r' = Some (bs "bytes " ++ range_text (content_length_n r) g)
    /\ body_run (Some ctx) chains = Some outs
    /\ response_content outs
         = take (Z.to_nat (end_ g - start g)) (drop (Z.to_nat (start g)) (response_content chains))
    /\ Z.of_nat (length (response_content outs)) = content_length_n r'.
Proof.
  intros Hp Hok Hlen. pose proof (partial_one r g Hp) as Hin. rewrite (partial_filter boundary mctx r [g] Hp).
  cbv zeta. change (length [g] =? 1)%nat with true. cbv iota. unfold ngx_http_range_singlepart_header.
  change (is_main (r <| status := NGX_HTTP_PARTIAL_CONTENT |>)) with (is_main r). rewrite (p_main r [g] Hp).
  change (content_length_n (r <| status := NGX_HTTP_PARTIAL_CONTENT |>)) with (content_length_n r).
  cbn [negb head ranges mbind option_bind].
  rewrite (sprintf_prints _ _ _ (bs "bytes " ++ range_text (content_length_n r) g)).
  2:{ rewrite <- (app_nil_r (range_text _ _)).
      apply (prints_text (bs "bytes ") (bs "%O-%O/%O" ++ [])); [done|]. by apply prints_range, prints_nil. }
  2:{ rewrite length_app. pose proof (range_text_length _ g Hin). simpl. lia. }
  cbn [mbind option_bind]. destruct (body_run_single g chains Hok (RangeCtx 0 [] [g]) 0 eq_refl (or_introl eq_refl))
    as (outs & E & Hc). eexists _, _, outs. split; [done|]. split; [done|]. split; [done|]. split; [exact E|].
  destruct Hin as [Hg Hl]. rewrite Hc. unfold slice. rewrite !Z.sub_0_r, skipn_firstn_comm.
  replace (Z.to_nat (end_ g) - Z.to_nat (start g))%nat with (Z.to_nat (end_ g - start g)) by lia.
  split; [done|]. rewrite length_take, length_drop. simpl. rewrite s64_small by lia. lia.
Qed.

(** ** Several ranges *)

(** The text before each part, and a part. *)
Definition part_header (r : response) (boundary : Z) : list Z :=
  CRLF ++ bs "--" ++ zeros_text boundary ++ CRLF ++
  (if (content_type_len r =? Z.of_nat (length (content_type r))) && negb (bool_decide (charset r = []))
   then bs "Content-Type: " ++ content_type r ++ bs "; charset=" ++ charset r ++ CRLF
   else if negb (bool_decide (content_type r = [])) then bs "Content-Type: " ++ content_type r ++ CRLF else [])
  ++ bs "Content-Range: bytes ".

Definition part (r : response) (boundary : Z) (body : list Z) (g : range) : list Z :=
  part_header r boundary ++ range_text (content_length_n r) g ++ CRLF ++ CRLF
  ++ take (Z.to_nat (end_ g - start g)) (drop (Z.to_nat (start g)) body).

(** The whole message. *)
Definition multipart (r : response) (boundary : Z) (body : list Z) (rs : list range) : list Z :=
  concat (map (part r boundary body) rs) ++ CRLF ++ bs "--" ++ zeros_text boundary ++ bs "--" ++ CRLF.

Ltac printed :=
  repeat first [apply prints_nil | apply prints_V | apply prints_0muA; [done|] | apply prints_text; [done|]].

Lemma boundary_text_eq r boundary : 0 <= boundary < 2 ^ 64 -> boundary_text r boundary = Some (part_header r boundary).
Proof.
  intros Hb. pose proof (zeros_text_length boundary Hb) as Hz. unfold boundary_text, part_header.
  destruct (_ && _); [|destruct (negb _)]; apply sprintf_prints; try (rewrite !length_app, Hz; simpl; lia).
  - assert (H : prints (CRLF ++ bs "--" ++ bs "%0muA" ++ (CRLF ++ bs "Content-Type: ") ++ bs "%V" ++ bs "; charset="
        ++ bs "%V" ++ (CRLF ++ bs "Content-Range: bytes ") ++ [])
      [ANum boundary; AStr (content_type r); AStr (charset r)]
      (CRLF ++ bs "--" ++ zeros_text boundary ++ (CRLF ++ bs "Content-Type: ") ++ content_type r ++ bs "; charset="
        ++ charset r ++ (CRLF ++ bs "Content-Range: bytes ") ++ [])) by printed.
    rewrite app_nil_r, <- !app_assoc in *. exact H.
  - assert (H : prints (CRLF ++ bs "--" ++ bs "%0muA" ++ (CRLF ++ bs "Content-Type: ") ++ bs "%V"
        ++ (CRLF ++ bs "Content-Range: bytes ") ++ [])
      [ANum boundary; AStr (content_type r)]
      (CRLF ++ bs "--" ++ zeros_text boundary ++ (CRLF ++ bs "Content-Type: ") ++ content_type r
        ++ (CRLF ++ bs "Content-Range: bytes ") ++ [])) by printed.
    rewrite app_nil_r, <- !app_assoc in *. exact H.
  - assert (H : prints (CRLF ++ bs "--" ++ bs "%0muA" ++ (CRLF ++ bs "Content-Range: bytes ") ++ [])
      [ANum boundary] (CRLF ++ bs "--" ++ zeros_text boundary ++ (CRLF ++ bs "Content-Range: bytes ") ++ [])) by printed.
    rewrite app_nil_r, <- !app_assoc in *. exact H.
Qed.

Definition with_text (len : Z) (g : range) : range := g <| content_range := range_text len g ++ CRLF ++ CRLF |>.

Lemma part_texts_eq cl hl rs : Forall (inside cl) rs -> 0 <= hl -> forall len n, 0 <= len ->
  n = len + fold_right (fun g n => hl + Z.of_nat (length (content_range (with_text cl g))) + (end_ g - start g) + n) 0 rs ->
  n < 2 ^ 63 -> part_texts cl hl len rs = Some (map (with_text cl) rs, n).
Proof.
  intros Hin Hhl. induction Hin as [|g rs Hg Hrs IH]; intros len n Hlen; cbn [part_texts fold_right map].
  { intros -> _. by rewrite Z.add_0_r. }
  set (m := fold_right _ 0 rs) in *. intros Hn Hmax.
  assert (Hm : 0 <= m).
  { unfold m. clear - Hhl Hrs. induction Hrs as [|h rs [? ?] _ IH]; cbn [fold_right]; lia. }
  rewrite (sprintf_prints _ _ _ (range_text cl g ++ CRLF ++ CRLF)).
  2:{ apply prints_range; [done|]. rewrite <- (app_nil_r (CRLF ++ CRLF)). apply prints_text; [done|apply prints_nil]. }
  2:{ rewrite length_app. pose proof (range_text_length cl g Hg). simpl. lia. }
  cbn [mbind option_bind]. destruct Hg as [Hg Hl]. change (content_range (with_text cl g)) with (range_text cl g ++ CRLF ++ CRLF) in Hn.
  rewrite (u64_small (end_ g - start g)), u64_small by lia. by rewrite (IH _ n) by lia.
Qed.

Lemma part_bufs_eq header b cl rs : Forall (inside cl) rs -> ngx_buf_size b = cl -> forall text,
  exists out, part_bufs header b (map (fun g => g <| content_range := text g |>) rs) = Some out
    /\ chain_content out = concat (map (fun g => header ++ text g
         ++ take (Z.to_nat (end_ g - start g)) (drop (Z.to_nat (start g)) (content b))) rs).
Proof.
  intros Hin Hb text. induction Hin as [|g rs Hg _ (out & E & Hc)]; [by exists []|].
  cbn [map part_bufs]. unfold part_data.
  change (start (g <| content_range := text g |>)) with (start g).
  change (end_ (g <| content_range := text g |>)) with (end_ g).
  rewrite Hb. destruct Hg as [Hg Hl]. rewrite !(proj2 (Z.leb_le _ _)) by lia. cbn [andb mbind option_bind].
  rewrite E. cbn [mbind option_bind]. eexists. split; [done|].
  by rewrite !chain_content_cons, Hc, !app_assoc.
Qed.

Lemma multipart_length r boundary body rs : 0 <= boundary < 2 ^ 64 -> Forall (inside (content_length_n r)) rs ->
  Z.of_nat (length body) = content_length_n r ->
  Z.of_nat (length (multipart r boundary body rs)) =
    28 + fold_right (fun g n => Z.of_nat (length (part_header r boundary))
           + Z.of_nat (length (content_range (with_text (content_length_n r) g))) + (end_ g - start g) + n) 0 rs.
Proof.
  intros Hb Hin Hl. unfold multipart. rewrite !length_app, (zeros_text_length boundary Hb).
  assert (H : Z.of_nat (length (concat (map (part r boundary body) rs))) = fold_right (fun g n =>
    Z.of_nat (length (part_header r boundary)) + Z.of_nat (length (content_range (with_text (content_length_n r) g)))
    + (end_ g - start g) + n) 0 rs).
  { induction Hin as [|g rs [Hg Hle] _ IH]; [done|]. cbn [map concat fold_right]. rewrite length_app, Nat2Z.inj_add, IH.
    change (content_range (with_text (content_length_n r) g)) with (range_text (content_length_n r) g ++ CRLF ++ CRLF).
    unfold part. rewrite !length_app, length_take, length_drop. simpl. lia. }
  rewrite Nat2Z.inj_add, H. simpl. lia.
Qed.

Lemma multipart_filter r boundary b rs : (length rs <> 1)%nat -> 0 <= boundary < 2 ^ 64 -> ngx_buf_special b = false ->
  ngx_buf_size b = content_length_n r -> Forall (inside (content_length_n r)) rs ->
  exists out ctx', ngx_http_range_body_filter (Some (RangeCtx 0 (part_header r boundary) (map (with_text (content_length_n r)) rs))) [b]
      = Some (Pass out, ctx') /\ chain_content out = multipart r boundary (content b) rs.
Proof.
  intros Hne Hb Hsp Hsz Hin. set (ctx := RangeCtx 0 _ _).
  assert (Hm : ngx_http_range_body_filter (Some ctx) [b] =
    match ngx_http_range_test_overlapped ctx b with
    | None => Some (Done NGX_ERROR, Some ctx)
    | Some ctx => out ← ngx_http_range_multipart_body ctx b; Some (Pass out, Some ctx)
    end).
  { unfold ngx_http_range_body_filter. rewrite Hsp. by destruct rs as [|g1 [|g2 rs]]. }
  assert (Ho : ngx_http_range_test_overlapped ctx b = Some (ctx <| offset := ngx_buf_size b |>)).
  { unfold ngx_http_range_test_overlapped. change (negb (offset ctx =? 0)) with false. cbv iota.
    replace (existsb _ (ranges ctx)) with false; [by rewrite andb_false_r|]. symmetry.
    unfold ctx. cbn [ranges offset]. clear - Hin Hsz. induction Hin as [|g rs [Hg Hl] _ IH]; [done|]. cbn [map existsb].
    rewrite IH, orb_false_r. apply orb_false_iff. rewrite !Z.ltb_ge, Hsz. simpl. lia. }
  rewrite Hm, Ho. unfold ngx_http_range_multipart_body.
  destruct (part_bufs_eq (part_header r boundary) b _ rs Hin Hsz (fun g => range_text (content_length_n r) g ++ CRLF ++ CRLF))
    as (out & E & Hc).
  change (part_bufs (boundary_header (ctx <| offset := ngx_buf_size b |>)) b (ranges (ctx <| offset := ngx_buf_size b |>)))
    with (part_bufs (part_header r boundary) b (map (with_text (content_length_n r)) rs)).
  change (boundary_header (ctx <| offset := ngx_buf_size b |>)) with (part_header r boundary).
  change (map (with_text (content_length_n r)) rs)
    with (map (fun g => g <| content_range := range_text (content_length_n r) g ++ CRLF ++ CRLF |>) rs).
  rewrite E. cbn [mbind option_bind].
  assert (Hh : exists rest, part_header r boundary = (CRLF ++ bs "--" ++ zeros_text boundary) ++ rest).
  { eexists. unfold part_header. by rewrite <- (app_assoc CRLF), <- (app_assoc (bs "--")). }
  destruct Hh as [rest Hh].
  assert (H24 : length (CRLF ++ bs "--" ++ zeros_text boundary) = 24%nat) by by rewrite !length_app, zeros_text_length.
  rewrite (proj2 (Nat.ltb_ge _ _)) by (rewrite Hh, length_app, H24; unfold NGX_ATOMIC_T_LEN; lia).
  eexists _, _. split; [done|]. unfold chain_content in *. rewrite map_app, concat_app, Hc. unfold multipart. f_equal.
  - f_equal. apply map_ext. intros g. unfold part. by rewrite <- !app_assoc.
  - change (4 + NGX_ATOMIC_T_LEN)%nat with 24%nat.
    assert (Et : take 24 (part_header r boundary) = CRLF ++ bs "--" ++ zeros_text boundary).
    { rewrite Hh. by apply take_app_length'. }
    rewrite Et. cbn [map concat content set mem_buf]. by rewrite app_nil_r, <- !app_assoc.
Qed.

(** C15: A partial response with several ranges, when it is in one buffer, and
    when neither the lengths of the ranges nor the message add up to 2^63 or
    more, becomes a multipart message: for each range a boundary, the type, the
    positions and the bytes, then the last boundary; the length that was
    announced is that of the message, and the type names the boundary. *)
Theorem ngx_http_range_multipart_response boundary mctx r rs b :
  partial r rs -> (length rs <> 1)%nat -> total rs < 2 ^ 63 -> 0 <= boundary < 2 ^ 64 ->
  ngx_buf_special b = false -> ngx_buf_size b = content_length_n r ->
  let message := multipart r boundary (content b) rs in
  Z.of_nat (length message) < 2 ^ 63 ->
  exists r' ctx out ctx', ngx_http_range_header_filter boundary mctx r = Some (Next r' (Some ctx))
    /\ status r' = NGX_HTTP_PARTIAL_CONTENT
    /\ content_type r' = bs "multipart/byteranges; boundary=" ++ zeros_text boundary
    /\ ngx_http_range_body_filter (Some ctx) [b] = Some (Pass out, ctx')
    /\ chain_content out = message /\ content_length_n r' = Z.of_nat (length message).
Proof.
  intros Hp Hne Ht Hb Hsp Hsz message Hlen. pose proof (partial_inside r rs Hp Ht) as Hin.
  rewrite (partial_filter boundary mctx r rs Hp). cbv zeta. rewrite (proj2 (Nat.eqb_neq _ _)) by done.
  set (r1 := r <| status := NGX_HTTP_PARTIAL_CONTENT |>). unfold ngx_http_range_multipart_header.
  rewrite (boundary_text_eq r1 boundary Hb). cbn [mbind option_bind].
  rewrite (sprintf_prints _ _ _ (bs "multipart/byteranges; boundary=" ++ zeros_text boundary)).
  2:{ rewrite <- (app_nil_r (zeros_text _)). apply (prints_text (bs "multipart/byteranges; boundary=") (bs "%0muA" ++ []));
        [done|]. printed. }
  2:{ rewrite length_app, zeros_text_length by done. unfold NGX_ATOMIC_T_LEN. simpl. lia. }
  cbn [mbind option_bind]. change (content_length_n r1) with (content_length_n r).
  change (part_header r1 boundary) with (part_header r boundary). cbn [ranges].
  unfold message in Hlen. rewrite multipart_length in Hlen by done.
  change (4 + Z.of_nat NGX_ATOMIC_T_LEN + 4) with 28.
  rewrite (part_texts_eq _ (Z.of_nat (length (part_header r boundary))) rs Hin (Zle_0_nat _) 28 _ ltac:(lia) eq_refl)
    by exact Hlen. cbn [mbind option_bind].
  destruct (multipart_filter r boundary b rs Hne Hb Hsp Hsz Hin) as (out & ctx' & E & Hc).
  eexists _, _, out, ctx'. split; [done|]. split; [done|]. split; [done|]. split; [exact E|]. split; [exact Hc|].
  rewrite <- multipart_length with (body := content b) in Hlen by done. fold message in Hlen.
  rewrite <- (s64_small (Z.of_nat (length message))) by lia. unfold message. by rewrite multipart_length.
Qed.

(** ** Examples *)

Lemma partial_get value len rs : 0 <= len <= NGX_MAX_OFF_T_VALUE -> (7 <= length value)%nat ->
  ngx_strncasecmp_eq value (bs "bytes=") 6 = true ->
  ngx_http_range_parse (get value len) None (RangeCtx 0 [] []) 5 = Some (NGX_OK, RangeCtx 0 [] rs) ->
  partial (get value len) rs.
Proof.
  intros Hl Hv Hb Hr. split; try done; unfold get; cbn [max_ranges content_length_n http_version]; try done.
  by exists value.
Qed.

Lemma ngx_http_range_single_response_witness :
  let chains := [[mem_buf (bs "012"); ChainBuf (bs "34") false true false false false];
                 [mem_buf (bs "56789"); ChainBuf [] false false false false true]] in
  exists r' ctx outs, ngx_http_range_header_filter 7 None (get (bs "bytes=2-5") 10) = Some (Next r' (Some ctx))
    /\ status r' = NGX_HTTP_PARTIAL_CONTENT
    /\ content_range_header r' = Some (bs "bytes " ++ range_text 10 (Range 2 6 []))
    /\ body_run (Some ctx) chains = Some outs
    /\ response_content outs = bs "2345"
    /\ Z.of_nat (length (response_content outs)) = content_length_n r'.
Proof.
  intros chains. refine (ngx_http_range_single_response 7 None (get (bs "bytes=2-5") 10) (Range 2 6 []) chains _ _ _).
  - apply partial_get; [done|simpl; lia|done|by vm_compute].
  - repeat (constructor; [repeat (constructor; [first [by left|by right; left|by right; right]|]); constructor|]). constructor.
  - done.
Defined.

Lemma ngx_http_range_multipart_response_witness :
  let r := get (bs "bytes=0-1,8-") 10 in
  let rs := [Range 0 2 []; Range 8 10 []] in
  let b := (mem_buf (bs "0123456789")) <| last_buf := true |> in
  let message := multipart r 7 (bs "0123456789") rs in
  exists r' ctx out ctx', ngx_http_range_header_filter 7 None r = Some (Next r' (Some ctx))
    /\ status r' = NGX_HTTP_PARTIAL_CONTENT
    /\ content_type r' = bs "multipart/byteranges; boundary=" ++ zeros_text 7
    /\ ngx_http_range_body_filter (Some ctx) [b] = Some (Pass out, ctx')
    /\ chain_content out = message /\ content_length_n r' = Z.of_nat (length message).
Proof.
  intros r rs b message. refine (ngx_http_range_multipart_response 7 None r rs b _ _ _ _ _ _ _); try done.
  apply partial_get; [done|simpl; lia|done|by vm_compute].
Defined.

(** The response to the header of [ngx_http_range_parse_overflow] takes bytes
    before the buffer. *)
Example overflow_example :
  let r := get (bs "bytes=-9223372036854773808,-2000") 10 in
  let b := (mem_buf (bs "0123456789")) <| last_buf := true |> in
  match ngx_http_range_header_filter 7 None r with
  | Some (Next r' ctx) => ngx_http_range_body_filter ctx [b] = None
  | _ => False
  end.
Proof. by vm_compute. Qed.
