(* ===== verification/HttpHeader.v ===== *)
(** * Header lines (src/http/ngx_http_parse.c, ngx_http_request.c)

    [ngx_http_parse_header_line], which reads one header line of a request or
    of an upstream's response, and what [ngx_http_process_request_headers]
    makes of the line. *)

From S2P Require Import Prelude HttpCommon BsonUtf8 NgxCodec.

(** [src/http/ngx_http_parse.c:832-841] ngx_http_parse_header_line: the
    states. *)
Inductive hsw :=
  | sw_start | sw_name | sw_space_before_value | sw_value | sw_space_after_value
  | sw_ignore_line | sw_almost_done | sw_header_almost_done.

Definition NGX_HTTP_LC_HEADER_LEN : Z := 32.

(** [src/http/ngx_http_request.h:547-557] ngx_http_request_s: the fields of a
    header line. *)
Record hrequest := HRequest {
  hstate : hsw;
  header_hash : Z;
  lowcase_index : Z;
  lowcase_header : list Z;
  header_name_start : option Z;
  header_name_end : option Z;
  header_start : option Z;
  header_end : option Z;
  invalid_header : bool
}.
#[export] Instance eta_hrequest : Settable hrequest := fun r =>
  HRequest (hstate r) (header_hash r) (lowcase_index r) (lowcase_header r) (header_name_start r)
    (header_name_end r) (header_start r) (header_end r) (invalid_header r).

Definition init_hrequest : hrequest :=
  HRequest sw_start 0 0 (replicate 32 0) None None None None false.

(** [src/http/ngx_http_parse.c:845-853] ngx_http_parse_header_line: the table
    [lowcase]. *)
Definition lowcase_table : list Z :=
  replicate 32 0 ++ replicate 13 0 ++ bs "-" ++ [0; 0] ++ bs "0123456789" ++ replicate 6 0
  ++ [0] ++ bs "abcdefghijklmnopqrstuvwxyz" ++ replicate 5 0
  ++ [0] ++ bs "abcdefghijklmnopqrstuvwxyz" ++ replicate 5 0 ++ replicate 128 0.
Definition lowcase (ch : Z) : Z := lowcase_table !!! Z.to_nat ch.

(** [src/core/ngx_hash.h:111-111] ngx_hash *)
Definition ngx_hash (key c : Z) : Z := u64 (key * 31 + c).
(** [src/core/ngx_hash.c:610-622] ngx_hash_key *)
Definition ngx_hash_key (data : list Z) : Z := fold_left ngx_hash data 0.
(** [src/core/ngx_hash.c:625-637] ngx_hash_key_lc *)
Definition ngx_hash_key_lc (data : list Z) : Z := ngx_hash_key (ngx_strlow data).

Inductive hexit := HDone (r : hrequest) | HHeaderDone (r : hrequest) | HFail (r : hrequest).
Abbreviation hresult := (step_result hrequest hexit).

Section Parser.
Context (allow_underscores upstream : bool) (mem : list Z).

(** [r->lowcase_header[i++] = c; i &= (NGX_HTTP_LC_HEADER_LEN - 1)] *)
Definition push_lowcase (c : Z) (r : hrequest) : hrequest :=
  r <| lowcase_header := <[Z.to_nat (lowcase_index r) := c]> (lowcase_header r) |>
    <| lowcase_index := Z.land (lowcase_index r + 1) (NGX_HTTP_LC_HEADER_LEN - 1) |>.

(** [src/http/ngx_http_parse.c:865-911] ngx_http_parse_header_line: sw_start; the
    record holds the local [hash] and [i]. *)
Definition on_hstart (p ch : Z) (r : hrequest) : hresult :=
  let r := r <| header_name_start := Some p |> <| invalid_header := false |> in
  if ch =? CR then Continue (r <| header_end := Some p |> <| hstate := sw_header_almost_done |>)
  else if ch =? LF then Return (HHeaderDone (r <| header_end := Some p |>))
  else
    let r := r <| hstate := sw_name |> in
    let first c r := r <| header_hash := ngx_hash 0 c |>
                       <| lowcase_header := <[0%nat := c]> (lowcase_header r) |> <| lowcase_index := 1 |> in
    if negb (lowcase ch =? 0) then Continue (first (lowcase ch) r)
    else if ch =? "_"%chr then
      Continue (if allow_underscores then first ch r else r <| invalid_header := true |>)
    else if ch =? 0 then Return (HFail r)
    else Continue (r <| invalid_header := true |>).

(** [src/http/ngx_http_parse.c:914-974] ngx_http_parse_header_line: sw_name *)
Definition on_hname (p ch : Z) (r : hrequest) : hresult :=
  if negb (lowcase ch =? 0) then
    Continue (push_lowcase (lowcase ch) (r <| header_hash := ngx_hash (header_hash r) (lowcase ch) |>))
  else if ch =? "_"%chr then
    Continue (if allow_underscores
              then push_lowcase ch (r <| header_hash := ngx_hash (header_hash r) ch |>)
              else r <| invalid_header := true |>)
  else if ch =? ":"%chr then
    Continue (r <| header_name_end := Some p |> <| hstate := sw_space_before_value |>)
  else if ch =? CR then
    Continue (r <| header_name_end := Some p |> <| header_start := Some p |> <| header_end := Some p |>
                <| hstate := sw_almost_done |>)
  else if ch =? LF then
    Return (HDone (r <| header_name_end := Some p |> <| header_start := Some p |> <| header_end := Some p |>))
  else
    let s := default 0 (header_name_start r) in
    if (ch =? "/"%chr) && upstream && (p - s =? 4) && bool_decide (mem_slice mem s (s + 4) = bs "HTTP")
    then Continue (r <| hstate := sw_ignore_line |>)
    else if ch =? 0 then Return (HFail r)
    else Continue (r <| invalid_header := true |>).

(** [src/http/ngx_http_parse.c:977-998] ngx_http_parse_header_line:
    sw_space_before_value *)
Definition on_space_before_value (p ch : Z) (r : hrequest) : hresult :=
  if ch =? " "%chr then Continue r
  else if ch =? CR then
    Continue (r <| header_start := Some p |> <| header_end := Some p |> <| hstate := sw_almost_done |>)
  else if ch =? LF then Return (HDone (r <| header_start := Some p |> <| header_end := Some p |>))
  else if ch =? 0 then Return (HFail r)
  else Continue (r <| header_start := Some p |> <| hstate := sw_value |>).

(** [src/http/ngx_http_parse.c:1000-1017] ngx_http_parse_header_line: sw_value *)
Definition on_value (p ch : Z) (r : hrequest) : hresult :=
  if ch =? " "%chr then Continue (r <| header_end := Some p |> <| hstate := sw_space_after_value |>)
  else if ch =? CR then Continue (r <| header_end := Some p |> <| hstate := sw_almost_done |>)
  else if ch =? LF then Return (HDone (r <| header_end := Some p |>))
  else if ch =? 0 then Return (HFail r)
  else Continue r.

(** [src/http/ngx_http_parse.c:1019-1034] ngx_http_parse_header_line:
    sw_space_after_value *)
Definition on_space_after_value (ch : Z) (r : hrequest) : hresult :=
  if ch =? " "%chr then Continue r
  else if ch =? CR then Continue (r <| hstate := sw_almost_done |>)
  else if ch =? LF then Return (HDone r)
  else if ch =? 0 then Return (HFail r)
  else Continue (r <| hstate := sw_value |>).

(** [src/http/ngx_http_parse.c:1036-1066] ngx_http_parse_header_line: the
    switch, with sw_ignore_line, sw_almost_done and sw_header_almost_done in
    line. *)
Definition hstep (p ch : Z) (r : hrequest) : hresult :=
  match hstate r with
  | sw_start => on_hstart p ch r
  | sw_name => on_hname p ch r
  | sw_space_before_value => on_space_before_value p ch r
  | sw_value => on_value p ch r
  | sw_space_after_value => on_space_after_value ch r
  | sw_ignore_line => Continue (if ch =? LF then r <| hstate := sw_start |> else r)
  | sw_almost_done =>
      if ch =? LF then Return (HDone r) else if ch =? CR then Continue r else Return (HFail r)
  | sw_header_almost_done => if ch =? LF then Return (HHeaderDone r) else Return (HFail r)
  end.
End Parser.

(** [src/http/ngx_http_parse.c:826-1092] ngx_http_parse_header_line: [hash] and
    [i] are stored at the end of a line or of the buffer, and the state unless
    the line is invalid. *)
Definition ngx_http_parse_header_line (allow_underscores upstream : bool) (r : hrequest) (b : ngx_buf_t)
  : Z * hrequest * ngx_buf_t :=
  match scan (hstep allow_underscores upstream (b_mem b)) (b_pos b)
          (mem_slice (b_mem b) (b_pos b) (b_last b)) r with
  | (p, Continue r) => (NGX_AGAIN, r, b <| b_pos := p |>)
  | (p, Return (HDone r)) => (NGX_OK, r <| hstate := sw_start |>, b <| b_pos := p + 1 |>)
  | (p, Return (HHeaderDone r')) =>
      (NGX_HTTP_PARSE_HEADER_DONE,
       r' <| hstate := sw_start |> <| header_hash := header_hash r |> <| lowcase_index := lowcase_index r |>,
       b <| b_pos := p + 1 |>)
  | (_, Return (HFail r')) =>
      (NGX_HTTP_PARSE_INVALID_HEADER,
       r' <| hstate := hstate r |> <| header_hash := header_hash r |> <| lowcase_index := lowcase_index r |>, b)
  end.

(** [src/core/ngx_hash.h:93-98] ngx_table_elt_t *)
Record table_elt := TableElt { hash : Z; key : list Z; value : list Z; lowcase_key : list Z }.

(** [src/http/ngx_http_request.c:1265-1309] ngx_http_process_request_headers: the
    header for a line; [None] is one that is ignored. *)
Definition request_header (ignore_invalid_headers : bool) (mem : list Z) (r : hrequest) : option table_elt :=
  if invalid_header r && ignore_invalid_headers then None
  else
    let s := default 0 (header_name_start r) in
    let k := mem_slice mem s (default 0 (header_name_end r)) in
    let v := mem_slice mem (default 0 (header_start r)) (default 0 (header_end r)) in
    Some (TableElt (header_hash r) k v
            (if Z.of_nat (length k) =? lowcase_index r
             then take (length k) (lowcase_header r) else ngx_strlow k)).

(** ** Names *)

Section Names.
Context (allow upstream : bool) (mem : list Z).
Abbreviation run := (scan (hstep allow upstream mem)).

(** A character that stands for itself in the table of names. *)
Definition name_ok (c : Z) : bool := negb (lowcase c =? 0) || (c =? "_"%chr) && allow.
(** A character that does not end the name. *)
Definition name_char (c : Z) : Prop :=
  is_byte c /\ c <> ":"%chr /\ c <> CR /\ c <> LF /\ c <> 0 /\ (upstream = true -> c <> "/"%chr).

#[export] Instance name_char_dec c : Decision (name_char c).
Proof using. unfold name_char. apply _. Defined.

Definition name_put (r : hrequest) (c : Z) : hrequest :=
  if name_ok c then push_lowcase (ngx_tolower c) (r <| header_hash := ngx_hash (header_hash r) (ngx_tolower c) |>)
  else r <| invalid_header := true |>.

Lemma lowcase_tolower c : is_byte c -> lowcase c <> 0 -> lowcase c = ngx_tolower c.
Proof using.
  intros Hc Hl. assert (((lowcase c =? 0) || (lowcase c =? ngx_tolower c)) = true) as Hb by (clear Hl; by_byte c).
  lia.
Qed.

Lemma name_step p c r : name_char c -> hstate r = sw_name -> hstep allow upstream mem p c r = Continue (name_put r c).
Proof using.
  intros (Hb & H1 & H2 & H3 & H4 & H5) Hr. unfold hstep. rewrite Hr. unfold on_hname, name_put, name_ok.
  destruct (Z.eqb_spec (lowcase c) 0) as [Hl|Hl]; simpl.
  - destruct (Z.eqb_spec c "_"%chr) as [-> |Hu]; simpl; [by destruct allow|].
    rewrite (proj2 (Z.eqb_neq c ":"%chr)), (proj2 (Z.eqb_neq c CR)), (proj2 (Z.eqb_neq c LF)),
      (proj2 (Z.eqb_neq c 0)) by done.
    destruct (Z.eqb_spec c "/"%chr) as [E|E]; [|done]. destruct upstream; [by destruct H5|done].
  - by rewrite lowcase_tolower.
Qed.

Lemma name_put_state r c : hstate (name_put r c) = hstate r.
Proof using. destruct r. unfold name_put. by destruct (name_ok c). Qed.

Lemma scan_name l : forall p r, Forall name_char l -> hstate r = sw_name ->
  run p l r = (p + Z.of_nat (length l), Continue (fold_left name_put l r)).
Proof using.
  induction l as [|c l IH]; intros p r Hl Hr; cbn [scan fold_left].
  - by rewrite Z.add_0_r.
  - apply Forall_cons in Hl as [Hc Hl]. rewrite name_step by done.
    rewrite IH; [|done|by rewrite name_put_state]. f_equal. cbn [length]. lia.
Qed.

(** What the name leaves alone, and what it leaves behind. *)
Lemma fold_name_frame l r :
  let r' := fold_left name_put l r in
  hstate r' = hstate r /\ header_name_start r' = header_name_start r /\ header_name_end r' = header_name_end r
  /\ header_start r' = header_start r /\ header_end r' = header_end r
  /\ invalid_header r' = invalid_header r || negb (forallb name_ok l).
Proof using.
  revert r. induction l as [|c l IH]; intros r; cbn [fold_left forallb].
  { split_and!; try done. by rewrite orb_false_r. }
  destruct (IH (name_put r c)) as (E1 & E2 & E3 & E4 & E5 & E6). cbv zeta in *.
  rewrite E1, E2, E3, E4, E5, E6. destruct r. unfold name_put. destruct (name_ok c); simpl; [done|].
  by rewrite orb_true_r.
Qed.

Lemma fold_name_lowcase l r pre :
  forallb name_ok l = true -> length (lowcase_header r) = 32%nat ->
  lowcase_index r = Z.of_nat (length pre) mod 32 -> (length pre + length l <= 32)%nat ->
  take (length pre) (lowcase_header r) = pre ->
  let r' := fold_left name_put l r in
  header_hash r' = fold_left ngx_hash (ngx_strlow l) (header_hash r)
  /\ lowcase_index r' = Z.of_nat (length pre + length l) mod 32
  /\ take (length pre + length l) (lowcase_header r') = pre ++ ngx_strlow l.
Proof using.
  revert r pre. induction l as [|c l IH]; intros r pre Hl Hlen Hi Hpre Ht.
  { simpl. rewrite Nat.add_0_r, app_nil_r. done. }
  cbn [forallb] in Hl. apply andb_true_iff in Hl as [Hc Hl]. cbn [length] in Hpre.
  cbn [fold_left].
  set (r1 := push_lowcase (ngx_tolower c) (r <| header_hash := ngx_hash (header_hash r) (ngx_tolower c) |>)).
  assert (name_put r c = r1) as -> by (unfold name_put; by rewrite Hc). cbv zeta.
  assert (lowcase_index r1 = Z.of_nat (length (pre ++ [ngx_tolower c])) mod 32) as Hi1.
  { unfold r1, push_lowcase. simpl. change (NGX_HTTP_LC_HEADER_LEN - 1) with (Z.ones 5).
    rewrite Z.land_ones by lia. rewrite Hi, length_app. simpl. rewrite Zplus_mod_idemp_l. f_equal. lia. }
  assert (lowcase_header r1 = <[length pre := ngx_tolower c]> (lowcase_header r)) as Hh1.
  { unfold r1, push_lowcase. simpl. rewrite Hi, Z.mod_small by lia. by rewrite Nat2Z.id. }
  destruct (IH r1 (pre ++ [ngx_tolower c])) as (E1 & E2 & E3); rewrite ?Hh1, ?length_insert, ?length_app in *;
    simpl in *; try done; try lia.
  - rewrite Nat.add_1_r, (take_S_r _ _ (ngx_tolower c)).
    + rewrite take_insert_ge by lia. by rewrite Ht.
    + apply list_lookup_insert_eq. lia.
  - rewrite E1. split; [done|]. replace (length pre + S (length l))%nat with (length pre + 1 + length l)%nat by lia.
    rewrite E2, E3, <- app_assoc. done.
Qed.
End Names.

(** ** Values *)

Section Values.
Context (allow upstream : bool) (mem : list Z).
Abbreviation run := (scan (hstep allow upstream mem)).

Definition text (c : Z) : Prop := c <> CR /\ c <> LF /\ c <> 0.

#[export] Instance text_dec c : Decision (text c).
Proof using. unfold text. apply _. Defined.

Lemma scan_spaces n p r :
  hstate r = sw_space_before_value \/ hstate r = sw_space_after_value ->
  run p (replicate n " "%chr) r = (p + Z.of_nat n, Continue r).
Proof using.
  intros Hr. revert p. induction n as [|n IH]; intros p; cbn [replicate scan]; [by rewrite Z.add_0_r|].
  assert (hstep allow upstream mem p 32 r = Continue r) as -> by (unfold hstep; by destruct Hr as [-> | ->]).
  rewrite IH. f_equal. lia.
Qed.

(** Inside the value, or in spaces of it. *)
Lemma scan_inside l c p r :
  hstate r = sw_value \/ hstate r = sw_space_after_value -> Forall text l -> text c -> c <> " "%chr ->
  exists e, run p (l ++ [c]) r = (p + Z.of_nat (length l) + 1, Continue (r <| header_end := e |> <| hstate := sw_value |>)).
Proof using.
  intros Hr Hl (H1 & H2 & H3) H4. revert p r Hr. induction Hl as [|d l (D1 & D2 & D3) _ IH]; intros p r Hr; cbn [app scan].
  - destruct r as [st hh li lh ns ne hs he iv]. simpl in Hr. exists he. unfold hstep. destruct Hr as [-> | ->]; simpl;
      unfold on_value, on_space_after_value;
      rewrite (proj2 (Z.eqb_neq c _) H4), (proj2 (Z.eqb_neq c _) H1), (proj2 (Z.eqb_neq c _) H2),
        (proj2 (Z.eqb_neq c _) H3); simpl; by rewrite Z.add_0_r.
  - assert (exists e s, (s = sw_value \/ s = sw_space_after_value) /\
      hstep allow upstream mem p d r = Continue (r <| header_end := e |> <| hstate := s |>)) as (e & s & Hs & ->).
    { destruct r as [st hh li lh ns ne hs he iv]. unfold hstep. destruct Hr as [Hr|Hr]; simpl in Hr; rewrite Hr; simpl;
        unfold on_value, on_space_after_value; destruct (Z.eqb_spec d 32);
        rewrite ?(proj2 (Z.eqb_neq d _) D1), ?(proj2 (Z.eqb_neq d _) D2), ?(proj2 (Z.eqb_neq d _) D3); simpl; eauto. }
    destruct (IH (p + 1) (r <| header_end := e |> <| hstate := s |>)) as [e' ->]; [by destruct r|].
    exists e'. destruct r. cbn [length]. f_equal. lia.
Qed.

(** The end of a line after the value, at [p]. *)
Definition eol (l : list Z) : Prop := l = [LF] \/ l = [CR; LF].
Lemma scan_end n l rest p r :
  hstate r = sw_value -> eol l ->
  run p (replicate n " "%chr ++ l ++ rest) r =
    (p + Z.of_nat n + Z.of_nat (length l) - 1,
     Return (HDone (r <| header_end := Some p |>
       <| hstate := if bool_decide (l = [LF]) then (if (n =? 0)%nat then sw_value else sw_space_after_value)
                    else sw_almost_done |>))).
Proof using.
  intros Hr Hl. destruct r as [st hh li lh ns ne hs he iv]. simpl in Hr. subst st. destruct n as [|n].
  - cbn [replicate app]. destruct Hl as [-> | ->]; cbn [app scan]; unfold hstep; simpl; f_equal; lia.
  - cbn [replicate app scan]. unfold hstep at 1. simpl. rewrite scan_app, scan_spaces by (by right).
    destruct Hl as [-> | ->]; cbn [app scan]; unfold hstep; simpl; f_equal; lia.
Qed.
Lemma scan_end_empty l rest p r :
  hstate r = sw_space_before_value -> eol l ->
  exists s, run p (l ++ rest) r =
    (p + Z.of_nat (length l) - 1,
     Return (HDone (r <| header_start := Some p |> <| header_end := Some p |> <| hstate := s |>))).
Proof using.
  intros Hr Hl. destruct r as [st hh li lh ns ne hs he iv]. simpl in Hr. subst st.
  destruct Hl as [-> | ->]; cbn [app scan]; unfold hstep; simpl; eexists; f_equal; lia.
Qed.
End Values.

(** ** Lines *)

(** A value: no line ends, and no space at its ends. *)
Definition value_ok (v : list Z) : Prop :=
  Forall text v /\ (forall c, head v = Some c -> c <> " "%chr) /\ (forall c, last v = Some c -> c <> " "%chr).
Definition header_line (name : list Z) (n1 : nat) (v : list Z) (n2 : nat) (e : list Z) : list Z :=
  name ++ bs ":" ++ replicate n1 " "%chr ++ v ++ replicate n2 " "%chr ++ e.

(** The request before the first character of a name: the hash and the index
    are those of the last name when the character is not one of a name. *)
Definition before_name (allow : bool) (p c : Z) (r : hrequest) : hrequest :=
  let r := r <| header_name_start := Some p |> <| invalid_header := false |> <| hstate := sw_name |> in
  if name_ok allow c then r <| header_hash := 0 |> <| lowcase_index := 0 |> else r.

Lemma start_step allow upstream mem p c r :
  name_char upstream c -> hstate r = sw_start ->
  hstep allow upstream mem p c r = Continue (name_put allow (before_name allow p c r) c).
Proof.
  intros (Hb & H1 & H2 & H3 & H4 & _) Hr. destruct r as [st hh li lh ns ne hs he iv]. simpl in Hr. subst st.
  unfold hstep, on_hstart, before_name, name_put, name_ok. simpl.
  rewrite (proj2 (Z.eqb_neq c CR)), (proj2 (Z.eqb_neq c LF)), (proj2 (Z.eqb_neq c 0)) by done.
  destruct (Z.eqb_spec (lowcase c) 0) as [Hl|Hl]; simpl.
  - destruct (Z.eqb_spec c 95) as [-> |Hu]; [|done]. by destruct allow.
  - by rewrite lowcase_tolower.
Qed.

Lemma value_scan allow upstream mem p v n2 e rest r :
  hstate r = sw_space_before_value -> value_ok v -> eol e ->
  exists s n1, scan (hstep allow upstream mem) p (v ++ replicate n2 " "%chr ++ e ++ rest) r =
    (p + Z.of_nat (length v) + Z.of_nat n2 + Z.of_nat (length e) - 1,
     Return (HDone (r <| header_start := Some (p + Z.of_nat n1) |>
       <| header_end := Some (p + Z.of_nat n1 + Z.of_nat (length v)) |> <| hstate := s |>)))
    /\ (v <> [] -> n1 = 0%nat).
Proof.
  intros Hr (Hv & Hhead & Hlast) He. destruct v as [|c v].
  { cbn [app]. rewrite scan_app, scan_spaces by (by left).
    destruct (scan_end_empty allow upstream mem e rest (p + Z.of_nat n2) r Hr He) as [s ->].
    exists s, n2. split; [|done]. cbn [length]. by rewrite !Z.add_0_r. }
  apply Forall_cons in Hv as [(C1 & C2 & C3) Hv]. pose proof (Hhead c eq_refl) as C4.
  assert (exists h, scan (hstep allow upstream mem) p (c :: v) r =
    (p + Z.of_nat (length (c :: v)), Continue (r <| header_start := Some p |> <| header_end := h |> <| hstate := sw_value |>)))
    as [h Escan].
  { cbn [scan]. set (r1 := r <| header_start := Some p |> <| hstate := sw_value |>).
    assert (hstep allow upstream mem p c r = Continue r1) as ->.
    { destruct r as [st hh li lh ns ne hs he iv]. simpl in Hr. subst st. unfold hstep. simpl. unfold on_space_before_value.
      by rewrite (proj2 (Z.eqb_neq c _) C4), (proj2 (Z.eqb_neq c _) C1), (proj2 (Z.eqb_neq c _) C2),
        (proj2 (Z.eqb_neq c _) C3). }
    destruct v as [|d v _] using rev_ind; [exists (header_end r); destruct r; simpl; f_equal; lia|].
    apply Forall_app in Hv as [Hv Hd]. apply Forall_cons in Hd as [Hd _].
    destruct (scan_inside allow upstream mem v d (p + 1) r1) as [h ->]; [by left|done..| |].
    - apply Hlast. rewrite app_comm_cons. apply last_snoc.
    - exists h. destruct r. simpl. rewrite length_app. simpl. f_equal. lia. }
  rewrite scan_app, Escan, scan_end by done. eexists _, 0%nat. split; [|done].
  destruct r. cbn [set header_start header_end hstate]. rewrite Z.add_0_r. reflexivity.
Qed.

Lemma eol_length e : eol e -> (0 < length e)%nat.
Proof. by intros [-> | ->]; simpl; lia. Qed.

(** A slice of a window that is cut in three. *)
Lemma slice_of b l1 l2 l3 :
  buf_ok b -> window b = l1 ++ l2 ++ l3 ->
  mem_slice (b_mem b) (b_pos b + Z.of_nat (length l1)) (b_pos b + Z.of_nat (length l1) + Z.of_nat (length l2)) = l2.
Proof.
  intros [Hp Hl] Hw. unfold window in Hw.
  destruct (mem_slice_cut _ _ _ _ _ Hp Hl Hw) as (_ & Hw2 & Hle).
  destruct (mem_slice_cut (b_mem b) (b_pos b + Z.of_nat (length l1)) (b_last b) l2 l3) as (H2 & _); [lia|done|done|done].
Qed.

Ltac lengths := repeat first [rewrite length_app | rewrite length_replicate | progress simpl].

(** One line: what the parser leaves of its name and its value. *)
Lemma line_parsed allow upstream r b c name n1 v n2 e rest :
  buf_ok b -> hstate r = sw_start -> window b = header_line (c :: name) n1 v n2 e ++ rest ->
  Forall (name_char upstream) (c :: name) -> value_ok v -> eol e ->
  exists r' b', ngx_http_parse_header_line allow upstream r b = (NGX_OK, r', b')
    /\ buf_ok b' /\ b_mem b' = b_mem b /\ window b' = rest /\ hstate r' = sw_start
    /\ (let rn := fold_left (name_put allow) (c :: name) (before_name allow (b_pos b) c r) in
        header_hash r' = header_hash rn /\ lowcase_index r' = lowcase_index rn
        /\ lowcase_header r' = lowcase_header rn)
    /\ invalid_header r' = negb (forallb (name_ok allow) (c :: name))
    /\ mem_slice (b_mem b) (default 0 (header_name_start r')) (default 0 (header_name_end r')) = c :: name
    /\ mem_slice (b_mem b) (default 0 (header_start r')) (default 0 (header_end r')) = v.
Proof.
  intros Hok Hr Hw Hname Hv He. pose proof Hok as [Hp Hlast]. unfold header_line in Hw. rewrite <- !app_assoc in Hw.
  pose proof (slice_of b [] (c :: name) _ Hok Hw) as Sname. cbn [length] in Sname. rewrite Z.add_0_r in Sname.
  unfold ngx_http_parse_header_line. fold (window b). rewrite Hw.
  apply Forall_cons in Hname as [Hc Hname]. set (r0 := before_name allow (b_pos b) c r).
  set (rn := fold_left (name_put allow) (c :: name) r0).
  destruct (fold_name_frame allow (c :: name) r0) as (F1 & F2 & F3 & F4 & F5 & F6). fold rn in F1, F2, F3, F4, F5, F6.
  assert (hstate r0 = sw_name /\ header_name_start r0 = Some (b_pos b) /\ invalid_header r0 = false) as (R1 & R2 & R3).
  { unfold r0, before_name. destruct r. by destruct (name_ok allow c). }
  cbn [app scan]. rewrite start_step by done. fold r0.
  rewrite scan_app, scan_name by (try done; by rewrite name_put_state).
  change (fold_left (name_put allow) name (name_put allow r0 c)) with rn.
  cbn [app scan]. change (bs ":" ++ ?x) with (":"%chr :: x). cbn [scan].
  set (pc := b_pos b + 1 + Z.of_nat (length name)).
  assert (hstep allow upstream (b_mem b) pc 58 rn
    = Continue (rn <| header_name_end := Some pc |> <| hstate := sw_space_before_value |>)) as ->.
  { unfold hstep. rewrite F1, R1. reflexivity. }
  set (r1 := rn <| header_name_end := Some pc |> <| hstate := sw_space_before_value |>).
  rewrite scan_app, scan_spaces by (left; by destruct rn).
  destruct (value_scan allow upstream (b_mem b) (pc + 1 + Z.of_nat n1) v n2 e rest r1) as (s & k & Ev & Hk);
    [by destruct rn|done|done|]. rewrite Ev. clear Ev.
  do 2 eexists. split; [reflexivity|].
  assert (Z.of_nat (length rest) = b_last b - (pc + 1 + Z.of_nat n1 + Z.of_nat (length v) + Z.of_nat n2 + Z.of_nat (length e)))
    as Hrest.
  { pose proof (mem_slice_length (b_mem b) (b_pos b) (b_last b) Hp Hlast) as Hl. fold (window b) in Hl.
    rewrite Hw in Hl. rewrite !length_app, !length_replicate in Hl. unfold pc. simpl in Hl. lia. }
  pose proof (eol_length e He) as Hel.
  assert (buf_ok (b <| b_pos := pc + 1 + Z.of_nat n1 + Z.of_nat (length v) + Z.of_nat n2 + Z.of_nat (length e) - 1 + 1 |>))
    as Hok'.
  { destruct b. unfold buf_ok in *. unfold pc in *. simpl in *. lia. }
  split; [exact Hok'|]. split; [by destruct b|]. split.
  { unfold window. destruct b as [mem bp bl]. simpl in *.
    pose proof (slice_of (Buf mem bp bl) (c :: name ++ bs ":" ++ replicate n1 32 ++ v ++ replicate n2 32 ++ e) rest []) as Hs.
    rewrite app_nil_r, !app_comm_cons, <- !app_assoc in Hs. specialize (Hs Hok Hw). simpl in Hs.
    etransitivity; [|exact Hs]. f_equal; unfold pc; lengths; lia. }
  split; [by destruct rn|]. cbv zeta. fold rn. split; [by destruct rn|].
  destruct rn as [st hh li lh ns ne hs he iv] eqn:Ern. simpl in F2, F6 |- *. subst ns iv.
  rewrite R2, R3 in *. split; [done|]. split.
  { etransitivity; [|exact Sname]. simpl. f_equal. unfold pc. lia. }
  simpl. destruct v as [|v0 v].
  { unfold mem_slice. simpl. by rewrite Z.add_0_r, Z.sub_diag. }
  rewrite Hk, Z.add_0_r by done.
  pose proof (slice_of b (c :: name ++ bs ":" ++ replicate n1 32) (v0 :: v) (replicate n2 32 ++ e ++ rest) Hok) as Hs.
  rewrite !app_comm_cons, <- !app_assoc in Hs. specialize (Hs Hw). etransitivity; [|exact Hs].
  f_equal; unfold pc; lengths; lia.
Qed.

(** The header of a line, from what the parser left. *)
Lemma header_of r mem k v :
  mem_slice mem (default 0 (header_name_start r)) (default 0 (header_name_end r)) = k ->
  mem_slice mem (default 0 (header_start r)) (default 0 (header_end r)) = v ->
  request_header false mem r = Some (TableElt (header_hash r) k v
    (if Z.of_nat (length k) =? lowcase_index r then take (length k) (lowcase_header r) else ngx_strlow k)).
Proof. intros <- <-. unfold request_header. by rewrite andb_false_r. Qed.

(** ** Resuming *)

Lemma before_length allow p c r : length (lowcase_header (before_name allow p c r)) = length (lowcase_header r).
Proof. unfold before_name. destruct r. by destruct (name_ok allow c). Qed.

(** Same return code, and unless the line is invalid the same buffer and the
    same request, up to the hash and the index of a name that was not
    finished when the header ended. *)
Definition same_line (x y : Z * hrequest * ngx_buf_t) : Prop :=
  x.1.1 = y.1.1 /\
  (x.1.1 = NGX_HTTP_PARSE_INVALID_HEADER
   \/ x.1.1 = NGX_HTTP_PARSE_HEADER_DONE /\ x.2 = y.2
      /\ x.1.2 <| header_hash := 0 |> <| lowcase_index := 0 |> = y.1.2 <| header_hash := 0 |> <| lowcase_index := 0 |>
   \/ x = y).

(** ** Properties *)

(** Resuming: when the first [k] bytes of a header line make the parser
    return [NGX_AGAIN], calling it again on the rest of the buffer gives the
    outcome of one call on the whole; any other result is already that of the
    whole. *)
Theorem ngx_http_parse_header_line_resume allow upstream r b k :
  buf_ok b -> b_pos b <= k <= b_last b ->
  let '(rc, r1, b1) := ngx_http_parse_header_line allow upstream r (b <| b_last := k |>) in
  if rc =? NGX_AGAIN then
    b_pos b1 = k /\
    same_line (ngx_http_parse_header_line allow upstream r b)
      (ngx_http_parse_header_line allow upstream r1 (b <| b_pos := k |>))
  else ngx_http_parse_header_line allow upstream r b = (rc, r1, b1 <| b_last := b_last b |>).
Proof.
  intros [Hpos Hlast] Hk. unfold ngx_http_parse_header_line; simpl.
  rewrite (scan_slice_split _ (b_mem b) (b_pos b) k (b_last b)) by lia.
  destruct (scan _ (b_pos b) (mem_slice (b_mem b) (b_pos b) k) r) as [p [r1|[r1|r1|r1]]] eqn:E.
  - apply scan_slice_pos in E; [subst p | lia | lia]. rewrite Z.eqb_refl. split; [done|].
    destruct (scan _ k _ r1) as [p [r2|[r2|r2|r2]]].
    + split; [done|]. by right; right.
    + split; [done|]. by right; right.
    + split; [done|]. right; left. by destruct r2.
    + split; [done|]. by left.
  - by destruct b.
  - by destruct b.
  - by destruct b.
Qed.

Lemma ngx_http_parse_header_line_resume_witness :
  let mem := bs "Host: a.b" ++ [CR; LF] in
  exists r1 b1, ngx_http_parse_header_line false false init_hrequest (Buf mem 0 3) = (NGX_AGAIN, r1, b1) /\
  same_line (ngx_http_parse_header_line false false init_hrequest (Buf mem 0 11))
    (ngx_http_parse_header_line false false r1 (Buf mem 3 11)).
Proof.
  set (mem := bs "Host: a.b" ++ [CR; LF]). cbv zeta.
  pose proof (ngx_http_parse_header_line_resume false false init_hrequest (Buf mem 0 11) 3) as H.
  change ((Buf mem 0 11) <| b_last := 3 |>) with (Buf mem 0 3) in H.
  change ((Buf mem 0 11) <| b_pos := 3 |>) with (Buf mem 3 11) in H.
  destruct (ngx_http_parse_header_line false false init_hrequest (Buf mem 0 3)) as [[rc r1] b1] eqn:E.
  assert (rc = NGX_AGAIN) as ->.
  { apply (f_equal (fun x => x.1.1)) in E. vm_compute in E. by rewrite <- E. }
  exists r1, b1. split; [reflexivity|]. apply H.
  - split; [by split|by apply Z.leb_le].
  - by split.
Defined.

(** C30: A line [name: value], with any spaces around the value and either end
    of line, gives the name and the value without the spaces, and the rest of
    the buffer is left to be read. The line is flagged exactly when the name
    has a character that is not a letter, a digit, a dash, or an underscore
    where these are allowed; when it has none and is at most 32 characters
    long, the hash is that of the name in lower case, and the name in lower
    case is given. *)
Theorem ngx_http_parse_header_line_exact allow r b c name n1 v n2 e rest :
  buf_ok b -> hstate r = sw_start -> length (lowcase_header r) = 32%nat ->
  window b = header_line (c :: name) n1 v n2 e ++ rest ->
  Forall (name_char false) (c :: name) -> value_ok v -> eol e ->
  exists r' b' h, ngx_http_parse_header_line allow false r b = (NGX_OK, r', b')
    /\ window b' = rest /\ hstate r' = sw_start
    /\ request_header false (b_mem b) r' = Some h /\ key h = c :: name /\ value h = v
    /\ invalid_header r' = negb (forallb (name_ok allow) (c :: name))
    /\ (forallb (name_ok allow) (c :: name) = true -> (length name < 32)%nat ->
        hash h = ngx_hash_key_lc (c :: name) /\ lowcase_key h = ngx_strlow (c :: name)).
Proof.
  intros Hok Hr Hlc Hw Hname Hv He.
  destruct (line_parsed allow false r b c name n1 v n2 e rest Hok Hr Hw Hname Hv He)
    as (r' & b' & E & _ & _ & Hw' & Hs & (F1 & F2 & F3) & Hinv & Sk & Sv).
  exists r', b'. eexists. split; [exact E|]. split; [exact Hw'|]. split; [exact Hs|].
  split; [by apply header_of|]. split; [done|]. split; [done|]. split; [exact Hinv|].
  intros Hall Hlen. cbn [hash lowcase_key].
  destruct (fold_name_lowcase allow (c :: name) (before_name allow (b_pos b) c r) [] Hall) as (G1 & G2 & G3).
  { by rewrite before_length. }
  { unfold before_name. apply andb_true_iff in Hall as [-> _]. by destruct r. }
  { simpl. lia. }
  { by rewrite take_0. }
  assert (header_hash (before_name allow (b_pos b) c r) = 0) as Hz.
  { unfold before_name. apply andb_true_iff in Hall as [-> _]. by destruct r. }
  rewrite F1, F2, F3, G1, G2, Hz. split; [done|].
  set (lh := lowcase_header (fold_left (name_put allow) (c :: name) (before_name allow (b_pos b) c r))) in *.
  assert (take (length (c :: name)) lh = ngx_strlow (c :: name)) as -> by exact G3. by destruct (_ =? _).
Qed.

Lemma ngx_http_parse_header_line_exact_witness :
  let mem := bs "Host:  a b " ++ [CR; LF] ++ bs "X" in
  exists r' b' h, ngx_http_parse_header_line false false init_hrequest (Buf mem 0 14) = (NGX_OK, r', b')
    /\ window b' = bs "X" /\ request_header false mem r' = Some h /\ key h = bs "Host" /\ value h = bs "a b"
    /\ lowcase_key h = bs "host".
Proof.
  set (mem := bs "Host:  a b " ++ [CR; LF] ++ bs "X"). cbv zeta.
  destruct (ngx_http_parse_header_line_exact false init_hrequest (Buf mem 0 14) "H"%chr (bs "ost") 2 (bs "a b") 1
    [CR; LF] (bs "X")) as (r' & b' & h & E & Hw & _ & Hh & Hk & Hv & _ & Hl).
  - by split.
  - reflexivity.
  - reflexivity.
  - vm_compute. reflexivity.
  - apply (bool_decide_unpack _). vm_compute. exact I.
  - split; [|split].
    + apply (bool_decide_unpack _). vm_compute. exact I.
    + intros x [= <-]. discriminate.
    + intros x [= <-]. discriminate.
  - by right.
  - exists r', b', h. split; [exact E|]. split; [exact Hw|]. split; [exact Hh|]. split; [exact Hk|].
    split; [exact Hv|]. apply Hl; [reflexivity|by apply Nat.leb_le].
Defined.

(** After a header with a name of one letter [a], a line whose name is a
    character that is not allowed and then [s] continues the hash and the
    lower case copy of the last name: where invalid headers are not ignored
    it is taken for the header named [a] and [s], whatever the character. *)
Theorem ngx_http_parse_header_line_stale allow r b a n1 v n2 e bad s m1 w m2 e' rest :
  buf_ok b -> hstate r = sw_start -> length (lowcase_header r) = 32%nat ->
  window b = header_line [a] n1 v n2 e ++ header_line (bad :: s) m1 w m2 e' ++ rest ->
  name_char false a -> Forall (name_char false) (bad :: s) -> value_ok v -> value_ok w -> eol e -> eol e' ->
  name_ok allow a = true -> name_ok allow bad = false -> forallb (name_ok allow) s = true -> (length s < 31)%nat ->
  exists r1 b1 r2 b2 h, ngx_http_parse_header_line allow false r b = (NGX_OK, r1, b1)
    /\ ngx_http_parse_header_line allow false r1 b1 = (NGX_OK, r2, b2)
    /\ request_header false (b_mem b1) r2 = Some h /\ key h = bad :: s /\ value h = w
    /\ hash h = ngx_hash_key_lc (a :: s) /\ lowcase_key h = ngx_strlow (a :: s).
Proof.
  intros Hok Hr Hlc Hw Ha Hbs Hv Hwv He He' Oa Obad Os Hlen.
  destruct (line_parsed allow false r b a [] n1 v n2 e _ Hok Hr Hw ltac:(by constructor) Hv He)
    as (r1 & b1 & E1 & Hok1 & _ & Hw1 & Hs1 & (F1 & F2 & F3) & _).
  destruct (line_parsed allow false r1 b1 bad s m1 w m2 e' rest Hok1 Hs1 Hw1 Hbs Hwv He')
    as (r2 & b2 & E2 & _ & _ & _ & _ & (G1 & G2 & G3) & _ & Sk & Sv).
  exists r1, b1, r2, b2. eexists. split; [exact E1|]. split; [exact E2|].
  split; [by apply header_of|]. split; [done|]. split; [done|]. cbn [hash lowcase_key].
  assert (length (lowcase_header r1) = 32%nat /\ header_hash r1 = ngx_hash 0 (ngx_tolower a) /\ lowcase_index r1 = 1
    /\ take 1 (lowcase_header r1) = [ngx_tolower a]) as (Hlc1 & Hh1 & Hi1 & Ht1).
  { rewrite F1, F2, F3. cbn [fold_left]. unfold name_put, before_name. rewrite Oa. unfold push_lowcase.
    destruct r as [st hh li lh ns ne hs he iv]. cbn. split; [by rewrite length_insert|]. split; [done|]. split; [done|].
    simpl in Hlc. by destruct lh. }
  set (r0 := name_put allow (before_name allow (b_pos b1) bad r1) bad).
  assert (lowcase_header r0 = lowcase_header r1 /\ header_hash r0 = header_hash r1 /\ lowcase_index r0 = lowcase_index r1)
    as (K1 & K2 & K3).
  { unfold r0, name_put, before_name. rewrite Obad. by destruct r1. }
  cbn [fold_left] in G1, G2, G3. fold r0 in G1, G2, G3.
  destruct (fold_name_lowcase allow s r0 [ngx_tolower a] Os) as (L1 & L2 & L3).
  { by rewrite K1. } { by rewrite K3, Hi1. } { simpl. lia. } { by rewrite K1. }
  rewrite G1, G2, G3, L1, L2, K2, Hh1. split; [done|].
  rewrite Z.mod_small by (simpl; lia). set (lh := lowcase_header (fold_left (name_put allow) s r0)) in *.
  assert (take (length (bad :: s)) lh = ngx_strlow (a :: s)) as -> by exact L3. by rewrite Z.eqb_refl.
Qed.

Lemma ngx_http_parse_header_line_stale_witness :
  let mem := bs "H: x" ++ [LF] ++ bs "(ost: y" ++ [LF] in
  exists r1 b1 r2 b2 h, ngx_http_parse_header_line false false init_hrequest (Buf mem 0 13) = (NGX_OK, r1, b1)
    /\ ngx_http_parse_header_line false false r1 b1 = (NGX_OK, r2, b2)
    /\ request_header false (b_mem b1) r2 = Some h /\ key h = bs "(ost" /\ lowcase_key h = bs "host"
    /\ hash h = ngx_hash_key (bs "host").
Proof.
  set (mem := bs "H: x" ++ [LF] ++ bs "(ost: y" ++ [LF]). cbv zeta.
  destruct (ngx_http_parse_header_line_stale false init_hrequest (Buf mem 0 13) "H"%chr 1 (bs "x") 0 [LF]
    "("%chr (bs "ost") 1 (bs "y") 0 [LF] []) as (r1 & b1 & r2 & b2 & h & E1 & E2 & Hh & Hk & _ & Hash & Hl).
  - by split.
  - reflexivity.
  - reflexivity.
  - vm_compute. reflexivity.
  - apply (bool_decide_unpack _). vm_compute. exact I.
  - apply (bool_decide_unpack _). vm_compute. exact I.
  - split; [|split]; [apply (bool_decide_unpack _); vm_compute; exact I|intros z [= <-]; discriminate..].
  - split; [|split]; [apply (bool_decide_unpack _); vm_compute; exact I|intros z [= <-]; discriminate..].
  - by left.
  - by left.
  - reflexivity.
  - reflexivity.
  - reflexivity.
  - by apply Nat.leb_le.
  - exists r1, b1, r2, b2, h. split; [exact E1|]. split; [exact E2|]. split; [exact Hh|]. split; [exact Hk|].
    split; [exact Hl|exact Hash].
Defined.
