(* ===== verification/HttpUnsafe.v ===== *)
(** * URIs of internal requests (src/http/ngx_http_parse.c)

    [ngx_http_parse_unsafe_uri] checks the URI of an internal redirect or of a
    subrequest, cuts its arguments and decodes it; [ngx_http_arg] and
    [ngx_http_split_args] work on arguments. *)

From S2P Require Import Prelude HttpCommon BsonUtf8 NgxCodec.

(** [src/os/unix/ngx_files.h:201-201] ngx_path_separator *)
Definition ngx_path_separator (c : Z) : bool := c =? "/"%chr.

(** [src/http/ngx_http_parse.c:1808-1810] ngx_http_parse_unsafe_uri: two dots at
    [p], then a separator or the end. *)
Definition parent_at (p : list Z) : bool :=
  match p with
  | c1 :: c2 :: rest =>
      (c1 =? "."%chr) && (c2 =? "."%chr)
      && match rest with [] => true | c3 :: _ => ngx_path_separator c3 end
  | _ => false
  end.

(** [src/http/ngx_http_parse.c:1814-1849] ngx_http_parse_unsafe_uri: the first
    loop; whether something is quoted, the path and the arguments. *)
Fixpoint unsafe_scan (quoted : bool) (l : list Z) : option (bool * list Z * option (list Z)) :=
  match l with
  | [] => Some (quoted, [], None)
  | ch :: l =>
      if ch =? "%"%chr then '(q, u, a) ← unsafe_scan true l; Some (q, ch :: u, a)
      else if is_usual ch then '(q, u, a) ← unsafe_scan quoted l; Some (q, ch :: u, a)
      else if ch =? "?"%chr then Some (quoted, [], Some l)
      else if ch =? 0 then None
      else if ngx_path_separator ch && parent_at l then None
      else '(q, u, a) ← unsafe_scan quoted l; Some (q, ch :: u, a)
  end.

(** [src/http/ngx_http_parse.c:1880-1898] ngx_http_parse_unsafe_uri: the second
    loop, on the decoded path. *)
Fixpoint unsafe_decoded (l : list Z) : bool :=
  match l with
  | [] => false
  | ch :: l => (ch =? 0) || (ngx_path_separator ch && parent_at l) || unsafe_decoded l
  end.

(** [src/http/ngx_http_parse.c:1791-1911] ngx_http_parse_unsafe_uri: the return
    code, the URI and the arguments, if they are set. *)
Definition ngx_http_parse_unsafe_uri (uri : list Z) : Z * list Z * option (list Z) :=
  if bool_decide (uri = []) || (hd 0 uri =? "?"%chr) then (NGX_ERROR, uri, None)
  else if parent_at uri then (NGX_ERROR, uri, None)
  else
    match unsafe_scan false uri with
    | None => (NGX_ERROR, uri, None)
    | Some (quoted, path, args) =>
        if quoted : bool then
          let d := (ngx_unescape_uri path 0).1 in
          if parent_at d || unsafe_decoded d then (NGX_ERROR, d, args) else (NGX_OK, d, args)
        else (NGX_OK, path, args)
    end.

(** [src/http/ngx_http_parse.c:2080-2099] ngx_http_split_args: the path and the
    arguments; their length is 0 without a question mark. *)
Definition ngx_http_split_args (uri : list Z) : list Z * list Z :=
  match list_find (fun c => c = "?"%chr) uri with
  | Some (i, _) => (take i uri, drop (S i) uri)
  | None => (uri, [])
  end.

Example unsafe_example :
  ngx_http_parse_unsafe_uri (bs "/a/%2e%2e/b") = (NGX_ERROR, bs "/a/../b", None)
  /\ ngx_http_parse_unsafe_uri (bs "/a/..?x") = (NGX_OK, bs "/a/..", Some (bs "x"))
  /\ ngx_http_parse_unsafe_uri (bs "/a%20b?x") = (NGX_OK, bs "/a b", Some (bs "x")).
Proof. by vm_compute. Qed.

(** ** Segments [..] *)

(** [..] is a segment of [l] between [a] and [b]. *)
Definition parent_segment (l a b : list Z) : Prop :=
  l = a ++ bs ".." ++ b /\ (a = [] \/ last a = Some "/"%chr) /\ (b = [] \/ head b = Some "/"%chr).

Lemma parent_at_true b : b = [] \/ head b = Some "/"%chr -> parent_at (bs ".." ++ b) = true.
Proof. intros [-> |Hb]; [done|]. destruct b as [|c b]; [done|]. by injection Hb as ->. Qed.

(** A segment that is not at the front follows a slash. *)
Lemma parent_after l a b :
  parent_segment l a b -> a <> [] -> exists a', l = a' ++ "/"%chr :: bs ".." ++ b /\ a = a' ++ bs "/".
Proof.
  intros (-> & [-> |Ha] & _) Hne; [done|]. destruct a as [|c a _] using rev_ind; [done|].
  rewrite last_snoc in Ha. injection Ha as ->. exists a. by rewrite <- app_assoc.
Qed.

Lemma unsafe_decoded_false l :
  unsafe_decoded l = false ->
  Forall (fun c => c <> 0) l /\ forall a b, l = a ++ "/"%chr :: b -> parent_at b = false.
Proof.
  induction l as [|c l IH]; cbn [unsafe_decoded]; intros E; [split; [constructor|by intros [] b]|].
  rewrite !orb_false_iff in E. destruct E as [[E1 E2] E3]. destruct (IH E3) as [H1 H2].
  split; [constructor; [lia|done]|]. intros [|c' a] b Hl; [injection Hl as -> ->; exact E2|].
  injection Hl as _ Hl. by eapply H2.
Qed.

Lemma unsafe_scan_path q l q' u a :
  unsafe_scan q l = Some (q', u, a) ->
  l = u ++ match a with Some a => "?"%chr :: a | None => [] end
  /\ Forall (fun c => c <> 0) u
  /\ (forall x y, u = x ++ "/"%chr :: y ->
        parent_at (y ++ match a with Some a => "?"%chr :: a | None => [] end) = false).
Proof.
  revert q q' u. induction l as [|c l IH]; intros q q' u E; cbn [unsafe_scan] in E.
  { injection E as <- <- <-. split; [done|]. split; [constructor|]. by intros []. }
  assert (forall qq, (c =? "?"%chr) = false -> c <> 0 -> (c = "/"%chr -> parent_at l = false) ->
    ('(q, u, a) ← unsafe_scan qq l; Some (q, c :: u, a)) = Some (q', u, a) ->
    c :: l = u ++ match a with Some a => "?"%chr :: a | None => [] end
    /\ Forall (fun c => c <> 0) u
    /\ (forall x y, u = x ++ "/"%chr :: y ->
          parent_at (y ++ match a with Some a => "?"%chr :: a | None => [] end) = false)) as Hstep.
  { intros qq _ H0 Hp E'. destruct (unsafe_scan qq l) as [[[q1 u1] a1]|] eqn:E1; [|done]. injection E' as <- <- <-.
    destruct (IH _ _ _ E1) as (-> & H1 & H2). split; [done|]. split; [by constructor|].
    intros [|x0 x] y Hx; [injection Hx as -> ->; by apply Hp|]. injection Hx as _ Hx. by eapply H2. }
  destruct (Z.eqb_spec c "%"%chr) as [-> |Hpc]; [by eapply Hstep|].
  destruct (is_usual c) eqn:Hu.
  { assert (c <> 0 /\ c <> "/"%chr /\ c <> "?"%chr) as (U1 & U2 & U3) by (split_and!; by intros ->).
    eapply Hstep; [lia|done|done|done]. }
  destruct (Z.eqb_spec c "?"%chr) as [-> |Hq].
  { injection E as <- <- <-. split; [done|]. split; [constructor|]. by intros []. }
  destruct (Z.eqb_spec c 0) as [-> |H0]; [done|].
  destruct (ngx_path_separator c && parent_at l) eqn:Hsep; [done|].
  eapply Hstep; [lia|done| |exact E]. intros ->. by apply andb_false_iff in Hsep as [|].
Qed.

(** Without arguments after it, a segment [..] is seen. *)
Lemma no_parent l rest a b :
  parent_at (l ++ rest) = false ->
  (forall x y, l = x ++ "/"%chr :: y -> parent_at (y ++ rest) = false) ->
  parent_segment l a b -> b = [] /\ rest <> [].
Proof.
  intros Hfirst Hall Hp. destruct b as [|c b].
  - split; [done|]. intros ->. destruct a as [|c a].
    + destruct Hp as (-> & _). by rewrite !app_nil_r in Hfirst.
    + destruct (parent_after _ _ _ Hp ltac:(done)) as (a' & -> & _). specialize (Hall a' _ eq_refl).
      by rewrite !app_nil_r in Hall.
  - exfalso. assert (c = "/"%chr) as -> by (destruct Hp as (_ & _ & [|[= ->]]); done). destruct a as [|c' a].
    + destruct Hp as (-> & _). done.
    + destruct (parent_after _ _ _ Hp ltac:(done)) as (a' & -> & _). specialize (Hall a' _ eq_refl). done.
Qed.

(** ** Properties *)

(** C31: A URI that is accepted has no NUL in its path, and no segment [..], with
    one exception: [..] at the end of a path that was not quoted and that
    arguments follow, which the check mistakes for a longer name. *)
Theorem ngx_http_parse_unsafe_uri_checked uri path args :
  ngx_http_parse_unsafe_uri uri = (NGX_OK, path, args) ->
  Forall (fun c => c <> 0) path
  /\ forall a b, parent_segment path a b -> b = [] /\ is_Some args /\ uri = path ++ bs "?" ++ default [] args.
Proof.
  unfold ngx_http_parse_unsafe_uri. destruct (_ || _); [done|]. destruct (parent_at uri) eqn:Hp; [done|].
  destruct (unsafe_scan false uri) as [[[q u] a0]|] eqn:E; [|done].
  destruct (unsafe_scan_path _ _ _ _ _ E) as (El & H1 & H2). destruct q.
  - set (d := (ngx_unescape_uri u 0).1). cbv zeta. destruct (parent_at d) eqn:Hp2; [done|].
    destruct (unsafe_decoded d) eqn:Hd; [done|]. cbn [orb].
    intros [= <- <-]. destruct (unsafe_decoded_false _ Hd) as [H3 H4]. split; [done|].
    intros a b Hseg. destruct (no_parent d [] a b) as [_ Hne]; [by rewrite app_nil_r| |exact Hseg|by destruct Hne].
    intros x y Hx. rewrite app_nil_r. by eapply H4.
  - intros [= <- <-]. split; [done|]. intros a b Hseg. rewrite El in Hp.
    destruct (no_parent u _ a b Hp H2 Hseg) as [-> Hne]. split; [done|].
    destruct a0 as [a0|]; [|done]. split; [done|]. exact El.
Qed.

Lemma ngx_http_parse_unsafe_uri_checked_witness :
  ngx_http_parse_unsafe_uri (bs "/a/..?x") = (NGX_OK, bs "/a/..", Some (bs "x"))
  /\ parent_segment (bs "/a/..") (bs "/a/") []
  /\ Forall (fun c => c <> 0) (bs "/a/..").
Proof.
  assert (ngx_http_parse_unsafe_uri (bs "/a/..?x") = (NGX_OK, bs "/a/..", Some (bs "x"))) as E
    by (vm_compute; reflexivity).
  split; [exact E|]. split; [by split_and!; [|right|left]|].
  apply (ngx_http_parse_unsafe_uri_checked _ _ _ E).
Defined.
