(* ===== verification/BsonBuild.v ===== *)
(** * Building BSON documents (mongo-c-driver/src/bson.c)

    The buffer a document is built in, with the memory it points to.  An
    operation returns [None] when the code would read or write outside an
    array; a C string argument is the list of its bytes, without the NUL.
    Failed allocations end the process in [bson_fatal_msg] and are not
    modelled. *)

From S2P Require Import Prelude BsonUtf8.

(** [driver/bson.h:133-142] bson: [data] is the allocated memory, [None] when
    [NULL], and [cur] the offset from [data]. *)
Record bson := Bson {
  data : option (list Z);
  cur : Z;
  dataSize : Z;
  finished : bool;
  stack : list Z;
  stackPos : Z;
  err : Z
}.
#[export] Instance eta_bson : Settable bson := fun b =>
  Bson (data b) (cur b) (dataSize b) (finished b) (stack b) (stackPos b) (err b).

(** [driver/bson.h:104-124] bson_type *)
Definition BSON_EOO : Z := 0.
Definition BSON_DOUBLE : Z := 1.
Definition BSON_STRING : Z := 2.
Definition BSON_OBJECT : Z := 3.
Definition BSON_ARRAY : Z := 4.
Definition BSON_BINDATA : Z := 5.
Definition BSON_UNDEFINED : Z := 6.
Definition BSON_OID : Z := 7.
Definition BSON_BOOL : Z := 8.
Definition BSON_DATE : Z := 9.
Definition BSON_NULL : Z := 10.
Definition BSON_REGEX : Z := 11.
Definition BSON_DBREF : Z := 12.
Definition BSON_CODE : Z := 13.
Definition BSON_SYMBOL : Z := 14.
Definition BSON_CODEWSCOPE : Z := 15.
Definition BSON_INT : Z := 16.
Definition BSON_TIMESTAMP : Z := 17.
Definition BSON_LONG : Z := 18.

Definition BSON_BIN_BINARY : Z := 0.
Definition BSON_BIN_BINARY_OLD : Z := 2.

(** [driver/bson.c:29] initialBufferSize *)
Definition initialBufferSize : Z := 128.

(** A return code and the buffer, or undefined behaviour. *)
Abbreviation outcome := (option (Z * bson)).

Section Build.
(** What the bytes of fresh memory happen to be. *)
Context (junk : Z -> Z).
Definition fresh (n : Z) : list Z := map junk (seqZ 0 n).

(** [driver/bson.c:94-99] _bson_reset *)
Definition _bson_reset (b : bson) : bson :=
  b <| finished := false |> <| stackPos := 0 |> <| err := 0 |>.

(** [driver/bson.c:584-592] _bson_init_size *)
Definition _bson_init_size (b : bson) (size : Z) : bson :=
  let b := if size =? 0 then b <| data := None |>
           else b <| data := Some (fresh size) |> in
  _bson_reset (b <| dataSize := size |> <| cur := 4 |>).

(** [driver/bson.c:594-596] bson_init *)
Definition bson_init (b : bson) : bson := _bson_init_size b initialBufferSize.

(** [driver/bson.c:598-600] bson_init_size *)
Definition bson_init_size (b : bson) (size : Z) : bson := _bson_init_size b size.

(** A store of the bytes [l] at offset [off] of [data]. *)
Definition store (off : Z) (l : list Z) (b : bson) : option bson :=
  match data b with
  | Some m =>
      if (0 <=? off) && (off + Z.of_nat (length l) <=? Z.of_nat (length m))
      then Some (b <| data := Some (take (Z.to_nat off) m ++ l
                                     ++ drop (Z.to_nat off + length l) m) |>)
      else None
  | None => None
  end.

(** [driver/bson.c:607-610] bson_append: the bytes are those [memcpy] reads. *)
Definition bson_append (b : bson) (l : list Z) : option bson :=
  b' ← store (cur b) l b; Some (b' <| cur := cur b + Z.of_nat (length l) |>).

(** [driver/bson.c:602-605] bson_append_byte *)
Definition bson_append_byte (b : bson) (c : Z) : option bson := bson_append b [u8 c].

(** [driver/bson.c:617-620] bson_append32_as_int *)
Definition bson_append32_as_int (b : bson) (z : Z) : option bson :=
  bson_append b (le 4 z).

(** [driver/bson.c:612-615] bson_append32: [data] points to the number. *)
Definition bson_append32 (b : bson) (z : Z) : option bson := bson_append b (le 4 z).

(** [driver/bson.c:622-625] bson_append64 *)
Definition bson_append64 (b : bson) (z : Z) : option bson := bson_append b (le 8 z).

(** The conversion of [1.5 * n] from [double] to [int]: what does not fit is
    [INT_MIN] on the x86 targets.  Products that fit are exact. *)
Definition three_halves_int (n : Z) : Z :=
  if 3 * n / 2 <=? INT_MAX then 3 * n / 2 else INT_MIN.

(** [driver/bson.c:627-654] bson_ensure_space *)
Definition bson_ensure_space (b : bson) (bytesNeeded : Z) : Z * bson :=
  let pos := cur b in
  if u64 (pos + bytesNeeded) <=? dataSize b then (BSON_OK, b)
  else
    let grow new_size :=
      let old := default [] (data b) in
      (BSON_OK, b <| data := Some (take (Z.to_nat new_size)
                        (old ++ fresh (new_size - Z.of_nat (length old)))) |>
                  <| dataSize := new_size |>) in
    let new_size := three_halves_int (u64 (dataSize b + bytesNeeded)) in
    if new_size <? dataSize b then
      if u64 (dataSize b + bytesNeeded) <? INT_MAX then grow INT_MAX
      else (BSON_ERROR, b <| err := BSON_SIZE_OVERFLOW |>)
    else grow new_size.

(** [driver/bson.c:656-675] bson_finish *)
Definition bson_finish (b : bson) : outcome :=
  if negb (Z.land (err b) BSON_NOT_UTF8 =? 0) then Some (BSON_ERROR, b)
  else if finished b then Some (BSON_OK, b)
  else
    let '(rc, b) := bson_ensure_space b 1 in
    if rc =? BSON_ERROR then Some (BSON_ERROR, b)
    else
      b ← bson_append_byte b 0;
      if INT_MAX <=? cur b then Some (BSON_ERROR, b <| err := BSON_SIZE_OVERFLOW |>)
      else
        b ← store 0 (le 4 (cur b)) b;
        Some (BSON_OK, b <| finished := true |>).

(** [driver/bson.c:677-687] bson_destroy *)
Definition bson_destroy (b : bson) : bson :=
  b <| data := None |> <| err := 0 |> <| cur := 0 |> <| finished := true |>.

(** [driver/bson.c:101-107] bson_size *)
Definition bson_size (b : bson) : option Z :=
  match data b with
  | None => Some 0
  | Some m => if 4 <=? Z.of_nat (length m) then Some (s32 (le_value (take 4 m))) else None
  end.

(** The [n] bytes [memcpy] reads at the start of [src]. *)
Definition read_n (src : list Z) (n : Z) : option (list Z) :=
  if (0 <=? n) && (n <=? Z.of_nat (length src)) then Some (take (Z.to_nat n) src) else None.

(** [driver/bson.c:73-81] bson_copy: [in] may not be [NULL]. *)
Definition bson_copy (out b : bson) : outcome :=
  if negb (finished b) then Some (BSON_ERROR, out)
  else
    n ← bson_size b;
    let out := bson_init_size out n in
    src ← read_n (default [] (data b)) n;
    out ← store 0 src out;
    Some (BSON_OK, out <| finished := true |>).

(** [driver/bson.c:689-709] bson_append_estart *)
Definition bson_append_estart (b : bson) (type : Z) (name : list Z) (dataSize : Z)
  : outcome :=
  let len := Z.of_nat (length name) + 1 in
  if finished b then
    Some (BSON_ERROR, b <| err := Z.lor (err b) BSON_ALREADY_FINISHED |>)
  else
    let '(rc, b) := bson_ensure_space b (u64 (1 + len + dataSize)) in
    if rc =? BSON_ERROR then Some (BSON_ERROR, b)
    else
      let '(rc, e) := bson_check_field_name (err b) name in
      let b := b <| err := e |> in
      if rc =? BSON_ERROR then Some (BSON_ERROR, b)
      else
        b ← bson_append_byte b type;
        b ← bson_append b (name ++ [0]);
        Some (BSON_OK, b).

(** ** Building types *)

(** The functions that write a fixed sequence of pieces after the start of
    the element. *)
Fixpoint append_pieces (b : bson) (pieces : list (list Z)) : outcome :=
  match pieces with
  | [] => Some (BSON_OK, b)
  | l :: pieces' => b ← bson_append b l; append_pieces b pieces'
  end.
Definition after_start (start : outcome) (pieces : list (list Z)) : outcome :=
  '(rc, b) ← start;
  if rc =? BSON_ERROR then Some (BSON_ERROR, b) else append_pieces b pieces.

(** [driver/bson.c:715-720] bson_append_int *)
Definition bson_append_int (b : bson) (name : list Z) (i : Z) : outcome :=
  after_start (bson_append_estart b BSON_INT name 4) [le 4 i].

(** [driver/bson.c:722-727] bson_append_long *)
Definition bson_append_long (b : bson) (name : list Z) (i : Z) : outcome :=
  after_start (bson_append_estart b BSON_LONG name 8) [le 8 i].

(** [driver/bson.c:729-734] bson_append_double: a double by its 64 bits. *)
Definition bson_append_double (b : bson) (name : list Z) (d : Z) : outcome :=
  after_start (bson_append_estart b BSON_DOUBLE name 8) [le 8 d].

(** [driver/bson.c:736-741] bson_append_bool *)
Definition bson_append_bool (b : bson) (name : list Z) (i : Z) : outcome :=
  after_start (bson_append_estart b BSON_BOOL name 1) [[if i =? 0 then 0 else 1]].

(** [driver/bson.c:743-747] bson_append_null *)
Definition bson_append_null (b : bson) (name : list Z) : outcome :=
  after_start (bson_append_estart b BSON_NULL name 0) [].

(** [driver/bson.c:749-753] bson_append_undefined *)
Definition bson_append_undefined (b : bson) (name : list Z) : outcome :=
  after_start (bson_append_estart b BSON_UNDEFINED name 0) [].

(** [driver/bson.c:755-773] bson_append_string_base: [value] is the memory
    from the pointer on. *)
Definition bson_append_string_base (b : bson) (name value : list Z) (len type : Z)
  : outcome :=
  let sl := u64 (len + 1) in
  if INT_MAX <? sl then Some (BSON_ERROR, b <| err := BSON_SIZE_OVERFLOW |>)
  else
    s ← read_n value (sl - 1);
    let '(rc, e) := bson_check_string (err b) s in
    let b := b <| err := e |> in
    if rc =? BSON_ERROR then Some (BSON_ERROR, b)
    else after_start (bson_append_estart b type name (4 + sl)) [le 4 sl; s; [0]].

(** [driver/bson.c:775-777] bson_append_string *)
Definition bson_append_string (b : bson) (name value : list Z) : outcome :=
  bson_append_string_base b name (value ++ [0]) (Z.of_nat (length value)) BSON_STRING.

(** [driver/bson.c:779-781] bson_append_symbol *)
Definition bson_append_symbol (b : bson) (name value : list Z) : outcome :=
  bson_append_string_base b name (value ++ [0]) (Z.of_nat (length value)) BSON_SYMBOL.

(** [driver/bson.c:783-785] bson_append_code *)
Definition bson_append_code (b : bson) (name value : list Z) : outcome :=
  bson_append_string_base b name (value ++ [0]) (Z.of_nat (length value)) BSON_CODE.

(** [driver/bson.c:787-789] bson_append_string_n *)
Definition bson_append_string_n (b : bson) (name value : list Z) (len : Z) : outcome :=
  bson_append_string_base b name value len BSON_STRING.

(** [driver/bson.c:791-793] bson_append_symbol_n *)
Definition bson_append_symbol_n (b : bson) (name value : list Z) (len : Z) : outcome :=
  bson_append_string_base b name value len BSON_SYMBOL.

(** [driver/bson.c:795-797] bson_append_code_n *)
Definition bson_append_code_n (b : bson) (name value : list Z) (len : Z) : outcome :=
  bson_append_string_base b name value len BSON_CODE.

(** [driver/bson.c:799-817] bson_append_code_w_scope_n *)
Definition bson_append_code_w_scope_n (b : bson) (name code : list Z) (len : Z)
    (scope : option bson) : outcome :=
  match scope with
  | None => Some (BSON_ERROR, b)
  | Some scope =>
      let sl := u64 (len + 1) in
      n ← bson_size scope;
      if INT_MAX <? 4 + 4 + s64 sl + n
      then Some (BSON_ERROR, b <| err := BSON_SIZE_OVERFLOW |>)
      else
        let size := u64 (4 + 4 + sl + n) in
        '(rc, b) ← bson_append_estart b BSON_CODEWSCOPE name size;
        if rc =? BSON_ERROR then Some (BSON_ERROR, b)
        else
          c ← read_n code sl;
          s ← read_n (default [] (data scope)) n;
          append_pieces b [le 4 size; le 4 sl; c; s]
  end.

(** [driver/bson.c:819-821] bson_append_code_w_scope *)
Definition bson_append_code_w_scope (b : bson) (name code : list Z) (scope : option bson)
  : outcome :=
  bson_append_code_w_scope_n b name (code ++ [0]) (Z.of_nat (length code)) scope.

(** [driver/bson.c:823-841] bson_append_binary: [str] is the memory from the
    pointer on; [type] is a [char]. *)
Definition bson_append_binary (b : bson) (name : list Z) (type : Z) (str : list Z)
    (len : Z) : outcome :=
  if s8 type =? BSON_BIN_BINARY_OLD then
    '(rc, b) ← bson_append_estart b BSON_BINDATA name (u64 (4 + 1 + 4 + len));
    if rc =? BSON_ERROR then Some (BSON_ERROR, b)
    else s ← read_n str len;
         append_pieces b [le 4 (len + 4); [u8 type]; le 4 len; s]
  else
    '(rc, b) ← bson_append_estart b BSON_BINDATA name (u64 (4 + 1 + len));
    if rc =? BSON_ERROR then Some (BSON_ERROR, b)
    else s ← read_n str len; append_pieces b [le 4 len; [u8 type]; s].

(** [driver/bson.c:843-848] bson_append_oid: the 12 bytes of the identifier. *)
Definition bson_append_oid (b : bson) (name oid : list Z) : outcome :=
  after_start (bson_append_estart b BSON_OID name 12) [oid].

(** [driver/bson.c:856-866] bson_append_regex *)
Definition bson_append_regex (b : bson) (name pattern opts : list Z) : outcome :=
  let plen := Z.of_nat (length pattern) + 1 in
  let olen := Z.of_nat (length opts) + 1 in
  '(rc, b) ← bson_append_estart b BSON_REGEX name (plen + olen);
  if rc =? BSON_ERROR then Some (BSON_ERROR, b)
  else
    let '(rc, e) := bson_check_string (err b) pattern in
    let b := b <| err := e |> in
    if rc =? BSON_ERROR then Some (BSON_ERROR, b)
    else append_pieces b [pattern ++ [0]; opts ++ [0]].

(** [driver/bson.c:868-874] bson_append_bson *)
Definition bson_append_bson (b : bson) (name : list Z) (sub : option bson) : outcome :=
  match sub with
  | None => Some (BSON_ERROR, b)
  | Some sub =>
      n ← bson_size sub;
      '(rc, b) ← bson_append_estart b BSON_OBJECT name (u64 n);
      if rc =? BSON_ERROR then Some (BSON_ERROR, b)
      else s ← read_n (default [] (data sub)) n; append_pieces b [s]
  end.

(** [driver/bson.c:897-904] bson_append_timestamp *)
Definition bson_append_timestamp (b : bson) (name : list Z) (i t : Z) : outcome :=
  after_start (bson_append_estart b BSON_TIMESTAMP name 8) [le 4 i; le 4 t].

(** [driver/bson.c:906-912] bson_append_timestamp2 *)
Definition bson_append_timestamp2 (b : bson) (name : list Z) (time increment : Z) : outcome :=
  after_start (bson_append_estart b BSON_TIMESTAMP name 8) [le 4 increment; le 4 time].

(** [driver/bson.c:914-918] bson_append_date *)
Definition bson_append_date (b : bson) (name : list Z) (millis : Z) : outcome :=
  after_start (bson_append_estart b BSON_DATE name 8) [le 8 millis].

(** [driver/bson.c:920-922] bson_append_time_t *)
Definition bson_append_time_t (b : bson) (name : list Z) (secs : Z) : outcome :=
  bson_append_date b name (s64 (secs * 1000)).

(** [driver/bson.c:924-929] bson_append_start_object: an object or, for
    [bson_append_start_array] (lines 931 to 936), an array. *)
Definition bson_append_start (type : Z) (b : bson) (name : list Z) : outcome :=
  '(rc, b) ← bson_append_estart b type name 5;
  if rc =? BSON_ERROR then Some (BSON_ERROR, b)
  else if (0 <=? stackPos b) && (stackPos b <? Z.of_nat (length (stack b))) then
    let b := b <| stack := <[Z.to_nat (stackPos b) := cur b]> (stack b) |>
               <| stackPos := stackPos b + 1 |> in
    append_pieces b [le 4 0]
  else None.
Definition bson_append_start_object := bson_append_start BSON_OBJECT.

(** [driver/bson.c:931-936] bson_append_start_array *)
Definition bson_append_start_array := bson_append_start BSON_ARRAY.

(** [driver/bson.c:938-953] bson_append_finish_object *)
Definition bson_append_finish_object (b : bson) : outcome :=
  let '(rc, b) := bson_ensure_space b 1 in
  if rc =? BSON_ERROR then Some (BSON_ERROR, b)
  else
    b ← bson_append_byte b 0;
    let b := b <| stackPos := stackPos b - 1 |> in
    if (0 <=? stackPos b) && (stackPos b <? Z.of_nat (length (stack b))) then
      let start := stack b !!! Z.to_nat (stackPos b) in
      if INT_MAX <=? cur b - start
      then Some (BSON_ERROR, b <| err := BSON_SIZE_OVERFLOW |>)
      else
        b ← store start (le 4 (cur b - start)) b;
        Some (BSON_OK, b)
    else None.

(** [driver/bson.c:959-961] bson_append_finish_array *)
Definition bson_append_finish_array (b : bson) : outcome := bson_append_finish_object b.

(** ** The buffer while a document is built *)

(** [b] holds the bytes [w] before [cur], inside memory it owns. *)
Definition holds (b : bson) (w : list Z) : Prop :=
  exists m, data b = Some m /\ Z.of_nat (length m) = dataSize b
    /\ dataSize b <= INT_MAX /\ cur b = Z.of_nat (length w)
    /\ 4 <= cur b <= dataSize b /\ take (length w) m = w.

(** The fields that appending bytes leaves alone. *)
Definition meta (b : bson) : bool * list Z * Z * Z :=
  (finished b, stack b, stackPos b, err b).

Lemma holds_cur b w : holds b w -> cur b = Z.of_nat (length w).
Proof. by intros (m & _ & _ & _ & ? & _). Qed.

Lemma store_holds b off l m :
  data b = Some m -> Z.of_nat (length m) = dataSize b -> 0 <= off ->
  off + Z.of_nat (length l) <= dataSize b ->
  exists m', store off l b = Some (b <| data := Some m' |>)
    /\ length m' = length m
    /\ m' = take (Z.to_nat off) m ++ l ++ drop (Z.to_nat off + length l) m.
Proof.
  intros Hd Hlen Hoff Hl. unfold store. rewrite Hd.
  rewrite (proj2 (Z.leb_le 0 off)), (proj2 (Z.leb_le _ _)) by lia.
  eexists. split; [done|]. split; [|done].
  rewrite !length_app, length_take, length_drop. lia.
Qed.

Lemma append_holds b w l :
  holds b w -> Z.of_nat (length w) + Z.of_nat (length l) <= dataSize b ->
  exists b', bson_append b l = Some b' /\ holds b' (w ++ l) /\ meta b' = meta b
    /\ dataSize b' = dataSize b.
Proof.
  intros (m & Hd & Hlen & Hmax & Hcur & Hc4 & Hw) Hl. unfold bson_append.
  destruct (store_holds b (cur b) l m Hd Hlen) as (m' & -> & Hlen' & Hm'); [lia..|].
  simpl. eexists. split; [done|]. destruct b; simpl in *. split; [|done].
  exists m'. simpl. rewrite length_app. split_and!; [done|lia..|].
  rewrite Hm', Hcur, Nat2Z.id, (assoc_L (++)), take_app_length'; [by rewrite Hw|].
  rewrite !length_app, length_take. lia.
Qed.

(** The buffer grows by at most half when it has to: it stays within three
    times what is written, unless that is already near [INT_MAX]. *)
Definition grown (b b' : bson) (w : list Z) (need : Z) : Prop :=
  dataSize b' = dataSize b \/ dataSize b' <= 3 * (Z.of_nat (length w) + need)
  \/ INT_MAX < 3 * (dataSize b + need) / 2.

Lemma ensure_space_holds b w need :
  holds b w -> 0 <= need < 2 ^ 62 ->
  exists rc b', bson_ensure_space b need = (rc, b') /\ holds b' w /\
    ((rc = BSON_OK /\ Z.of_nat (length w) + need <= dataSize b' /\ meta b' = meta b
      /\ grown b b' w need)
     \/ (rc = BSON_ERROR /\ INT_MAX <= dataSize b + need
         /\ b' = b <| err := BSON_SIZE_OVERFLOW |>)).
Proof.
  intros (m & Hd & Hlen & Hmax & Hcur & Hc4 & Hw) Hneed. unfold bson_ensure_space.
  assert (INT_MAX = 2147483647) as E by done.
  rewrite (u64_small (cur b + need)) by lia. rewrite (u64_small (dataSize b + need)) by lia.
  destruct (Z.leb_spec (cur b + need) (dataSize b)).
  { exists BSON_OK, b. split; [done|]. split; [by exists m|]. left.
    split_and!; [done|lia|done|by left]. }
  assert (Hgrow : forall n, dataSize b <= n <= INT_MAX -> Z.of_nat (length w) + need <= n ->
    (n <= 3 * (Z.of_nat (length w) + need) \/ INT_MAX < 3 * (dataSize b + need) / 2) ->
    exists rc b', (BSON_OK, b <| data := Some (take (Z.to_nat n) (default [] (data b) ++
        fresh (n - Z.of_nat (length (default [] (data b)))))) |> <| dataSize := n |>) = (rc, b')
      /\ holds b' w /\
      ((rc = BSON_OK /\ Z.of_nat (length w) + need <= dataSize b' /\ meta b' = meta b
      /\ grown b b' w need)
     \/ (rc = BSON_ERROR /\ INT_MAX <= dataSize b + need
         /\ b' = b <| err := BSON_SIZE_OVERFLOW |>))).
  { intros n Hn Hroom Hgr. rewrite Hd. simpl. do 2 eexists. split; [done|].
    destruct b; simpl in *. split.
    - eexists. split; [reflexivity|]. simpl. split_and!; try lia.
      + rewrite length_take, length_app. unfold fresh. rewrite length_map, length_seqZ. lia.
      + rewrite take_take, Nat.min_l, take_app_le by lia. done.
    - left. split_and!; [done|lia|done|]. right. destruct Hgr; [left|right]; done. }
  assert (Hdiv : dataSize b + need <= 3 * (dataSize b + need) / 2)
    by (apply Z.div_le_lower_bound; lia).
  assert (Hdiv' : 3 * (dataSize b + need) / 2 <= 3 * (Z.of_nat (length w) + need)).
  { apply Z.div_le_upper_bound; lia. }
  unfold three_halves_int.
  destruct (Z.leb_spec (3 * (dataSize b + need) / 2) INT_MAX).
  - rewrite (proj2 (Z.ltb_ge _ _)) by lia. apply Hgrow; lia.
  - rewrite (proj2 (Z.ltb_lt INT_MIN _)) by (unfold INT_MIN; lia).
    destruct (Z.ltb_spec (dataSize b + need) INT_MAX); [apply Hgrow; lia|].
    do 2 eexists. split; [done|]. split; [exists m; by destruct b|]. right. split_and!; [done|lia|done].
Qed.

(** ** Appending an element *)

Definition frame (b : bson) : bool * list Z * Z := (finished b, stack b, stackPos b).

Definition elem_bytes (type : Z) (name payload : list Z) : list Z :=
  u8 type :: name ++ 0 :: payload.

(** Why an element is refused: the document is finished, the name is not
    UTF-8, or the document would outgrow [INT_MAX]. *)
Definition refused (b : bson) (name : list Z) (dataSize' : Z) : Prop :=
  finished b = true \/ ~ accepted_string name
  \/ INT_MAX <= dataSize b + (2 + Z.of_nat (length name) + dataSize').

Definition small_name (name : list Z) : Prop :=
  bytes name /\ Z.of_nat (length name) < 2 ^ 60.

Lemma estart_holds b w type name ds :
  holds b w -> small_name name -> 0 <= ds < 2 ^ 61 ->
  exists rc b', bson_append_estart b type name ds = Some (rc, b') /\ frame b' = frame b /\
    ((rc = BSON_OK /\ holds b' (w ++ elem_bytes type name []) /\ not_utf8 (err b') = not_utf8 (err b)
      /\ finished b = false /\ accepted_string name
      /\ Z.of_nat (length (w ++ elem_bytes type name [])) + ds <= dataSize b'
      /\ grown b b' w (2 + Z.of_nat (length name) + ds))
     \/ (rc = BSON_ERROR /\ holds b' w /\ refused b name ds)).
Proof.
  intros Hb [Hn Hlen] Hds. unfold bson_append_estart.
  destruct (finished b) eqn:Hf.
  { do 2 eexists. split; [done|]. destruct b; simpl in *. subst. split; [done|]. right.
    split_and!; [done|exact Hb|by left]. }
  rewrite u64_small by lia.
  destruct (ensure_space_holds b w (1 + (Z.of_nat (length name) + 1) + ds) Hb ltac:(lia))
    as (rc & b1 & -> & Hb1 & [(-> & Hroom & Hmeta & Hgrow)|(-> & Hmax & ->)]).
  2: { do 2 eexists. split; [done|]. split; [by destruct b|]. right.
    split_and!; [done|done|right; right; lia]. }
  change (BSON_OK =? BSON_ERROR) with false. cbv iota.
  pose proof (validate_string_flag (err b1) name true true Hn) as Hv.
  unfold bson_check_field_name. destruct (bson_validate_string _ _ _ _ _) as [rc e].
  simpl in Hv. unfold meta in Hmeta. injection Hmeta as Hm1 Hm2 Hm3 Hm4.
  destruct Hv as [(Ha & -> & He)|(Ha & -> & He)].
  2: { do 2 eexists. split; [done|]. destruct b1; unfold frame; simpl in *. split; [by subst|].
    right. split_and!; [done|exact Hb1|by right; left]. }
  change (BSON_OK =? BSON_ERROR) with false. cbv iota. unfold bson_append_byte.
  set (b2 := b1 <| err := e |>).
  assert (Hb2 : holds b2 w) by (unfold b2; destruct b1; exact Hb1).
  assert (Hds2 : dataSize b2 = dataSize b1) by (unfold b2; by destruct b1).
  assert (He2 : err b2 = e) by (unfold b2; by destruct b1).
  assert (Hf2 : frame b2 = frame b) by (unfold b2, frame; destruct b1; simpl in *; by subst).
  clearbody b2.
  destruct (append_holds b2 w [u8 type] Hb2) as (b3 & -> & Hb3 & Hm' & Hds3); [simpl; lia|].
  simpl.
  destruct (append_holds b3 (w ++ [u8 type]) (name ++ [0]) Hb3) as (b4 & -> & Hb4 & Hm4' & Hds4).
  { rewrite !length_app. simpl. lia. }
  simpl. do 2 eexists. split; [done|].
  assert (Hmeta4 : meta b4 = meta b2) by congruence. unfold meta in Hmeta4.
  split; [unfold frame in *; congruence|]. left.
  rewrite <- (assoc_L (++)) in Hb4. split_and!; [done|exact Hb4| |done|done| |].
  - injection Hmeta4 as _ _ _ ->. rewrite He2, He. by rewrite Hm4.
  - rewrite !length_app. simpl. rewrite length_app. simpl. lia.
  - unfold grown in *. replace (2 + Z.of_nat (length name) + ds) with
      (1 + (Z.of_nat (length name) + 1) + ds) by lia. by rewrite Hds4, Hds3, Hds2.
Qed.

Lemma append_pieces_holds b w pieces :
  holds b w -> Z.of_nat (length w) + Z.of_nat (length (concat pieces)) <= dataSize b ->
  exists b', append_pieces b pieces = Some (BSON_OK, b') /\ holds b' (w ++ concat pieces)
    /\ meta b' = meta b /\ dataSize b' = dataSize b.
Proof.
  revert b w. induction pieces as [|l pieces IH]; intros b w Hb Hroom; simpl in *.
  { exists b. by rewrite app_nil_r. }
  rewrite length_app in Hroom.
  destruct (append_holds b w l Hb) as (b1 & -> & Hb1 & Hm & Hd); [lia|]. simpl.
  destruct (IH b1 (w ++ l) Hb1) as (b2 & -> & Hb2 & Hm2 & Hd2); [rewrite length_app; lia|].
  exists b2. rewrite <- (assoc_L (++)) in Hb2. split_and!; [done|done|congruence|lia].
Qed.

(** The element [(type, name, payload)] is appended whole, or the buffer is
    as before and there is a reason. *)
Definition appends (r : outcome) (b : bson) (w : list Z) (type : Z) (name payload : list Z)
    (reason : Prop) : Prop :=
  exists rc b', r = Some (rc, b') /\ frame b' = frame b /\
    ((rc = BSON_OK /\ holds b' (w ++ elem_bytes type name payload)
      /\ not_utf8 (err b') = not_utf8 (err b) /\ finished b = false
      /\ grown b b' w (2 + Z.of_nat (length name) + Z.of_nat (length payload)))
     \/ (rc = BSON_ERROR /\ holds b' w
         /\ (refused b name (Z.of_nat (length payload)) \/ reason))).

Lemma after_start_appends b w type name pieces ds :
  holds b w -> small_name name -> ds < 2 ^ 61 -> ds = Z.of_nat (length (concat pieces)) ->
  appends (after_start (bson_append_estart b type name ds) pieces) b w type name
    (concat pieces) False.
Proof.
  intros Hb Hn Hds ->. unfold after_start, appends.
  destruct (estart_holds b w type name _ Hb Hn (conj (Nat2Z.is_nonneg _) Hds))
    as (rc & b1 & -> & Hf & [(-> & Hb1 & He & Hfin & _ & Hroom & Hgrow)|(-> & Hb1 & Hr)]); simpl.
  - destruct (append_pieces_holds b1 _ pieces Hb1) as (b2 & -> & Hb2 & Hm & Hd2); [lia|].
    exists BSON_OK, b2. unfold meta, frame in *. split; [done|]. split; [congruence|]. left.
    split_and!; [done| |congruence|done|unfold grown in *; by rewrite Hd2].
    unfold elem_bytes in *. rewrite <- !(assoc_L (++)) in Hb2. simpl in Hb2.
    by rewrite <- (assoc_L (++)) in Hb2.
  - exists BSON_ERROR, b1. split; [done|]. split; [done|]. right. split_and!; [done|done|by left].
Qed.
Lemma read_n_app s rest : read_n (s ++ rest) (Z.of_nat (length s)) = Some s.
Proof.
  unfold read_n. rewrite length_app, (proj2 (Z.leb_le 0 _)), (proj2 (Z.leb_le _ _)) by lia.
  simpl. by rewrite Nat2Z.id, take_app_length.
Qed.

Lemma appends_meta r b b' w type name payload (P Q : Prop) :
  meta b' = (finished b, stack b, stackPos b, err b') -> dataSize b' = dataSize b ->
  not_utf8 (err b') = not_utf8 (err b) ->
  appends r b' w type name payload P -> (P -> Q) -> appends r b w type name payload Q.
Proof.
  intros Hm Hd He (rc & b1 & -> & Hf & H) HPQ. injection Hm as Hm1 Hm2 Hm3.
  exists rc, b1. unfold frame in *. split; [done|]. split; [congruence|].
  destruct H as [(? & ? & ? & ? & ?)|(? & ? & [Hr|HP])]; [left | right..].
  - split_and!; [done|done|congruence|congruence|]. unfold grown in *. by rewrite <- Hd.
  - split_and!; [done|done|left]. unfold refused in *. by rewrite <- Hm1, <- Hd.
  - split_and!; [done|done|right; auto].
Qed.

(** The payload of a string. *)
Definition string_payload (s : list Z) : list Z :=
  le 4 (Z.of_nat (length s) + 1) ++ s ++ [0].

Lemma string_base_appends b w name s rest type :
  holds b w -> small_name name -> small_name s ->
  appends (bson_append_string_base b name (s ++ rest) (Z.of_nat (length s)) type) b w
    type name (string_payload s) (~ accepted_string s \/ INT_MAX <= Z.of_nat (length s)).
Proof.
  intros Hb Hn [Hs Hlen]. unfold bson_append_string_base.
  rewrite u64_small by lia.
  destruct (Z.ltb_spec INT_MAX (Z.of_nat (length s) + 1)).
  { exists BSON_ERROR, (b <| err := BSON_SIZE_OVERFLOW |>). split; [done|].
    split; [by destruct b|]. right. split; [done|]. split; [destruct b; exact Hb|].
    right; right. lia. }
  rewrite Z.add_simpl_r, read_n_app. simpl.
  pose proof (validate_string_flag (err b) s false false Hs) as Hv.
  unfold bson_check_string. destruct (bson_validate_string _ _ _ _ _) as [rc e]. simpl in Hv.
  destruct Hv as [(Ha & -> & He)|(Ha & -> & He)].
  2: { exists BSON_ERROR, (b <| err := e |>). split; [done|]. split; [by destruct b|]. right.
    split; [done|]. split; [destruct b; exact Hb|]. by right; left. }
  change (BSON_OK =? BSON_ERROR) with false. cbv iota.
  eapply (appends_meta _ b (b <| err := e |>)); [by destruct b..| |].
  { replace (string_payload s) with (concat [le 4 (Z.of_nat (length s) + 1); s; [0]])
      by (simpl; by rewrite ?app_nil_r).
    apply after_start_appends; [destruct b; exact Hb|done|lia|].
    simpl. rewrite !length_app. simpl. lia. }
  by intros.
Qed.

(** The payload of binary data of subtype [type]: the old subtype has a
    second length in front of the data. *)
Definition binary_payload (type : Z) (d : list Z) : list Z :=
  if s8 type =? BSON_BIN_BINARY_OLD
  then le 4 (Z.of_nat (length d) + 4) ++ u8 type :: le 4 (Z.of_nat (length d)) ++ d
  else le 4 (Z.of_nat (length d)) ++ u8 type :: d.

Lemma read_after_start b type name pieces ds s d rest n :
  n = Z.of_nat (length d) -> s = d ++ rest ->
  ('(rc, b) ← bson_append_estart b type name ds;
   if rc =? BSON_ERROR then Some (BSON_ERROR, b)
   else d' ← read_n s n; append_pieces b (pieces ++ [d'])) =
  after_start (bson_append_estart b type name ds) (pieces ++ [d]).
Proof.
  intros -> ->. unfold after_start. rewrite read_n_app.
  by destruct (bson_append_estart b type name ds) as [[rc b']|].
Qed.

Lemma binary_appends b w name type d rest :
  holds b w -> small_name name -> Z.of_nat (length d) < 2 ^ 59 ->
  appends (bson_append_binary b name type (d ++ rest) (Z.of_nat (length d))) b w
    BSON_BINDATA name (binary_payload type d) False.
Proof.
  intros Hb Hn Hd. unfold bson_append_binary, binary_payload.
  destruct (s8 type =? BSON_BIN_BINARY_OLD).
  - rewrite u64_small by lia.
    pose proof (after_start_appends b w BSON_BINDATA name
      ([le 4 (Z.of_nat (length d) + 4); [u8 type]; le 4 (Z.of_nat (length d))] ++ [d])
      (4 + 1 + 4 + Z.of_nat (length d)) Hb Hn) as H.
    rewrite <- (read_after_start b _ _ _ _ (d ++ rest) d rest (Z.of_nat (length d))) in H by done.
    simpl in H. rewrite app_nil_r in H. apply H; simpl; lia.
  - rewrite u64_small by lia.
    pose proof (after_start_appends b w BSON_BINDATA name
      ([le 4 (Z.of_nat (length d)); [u8 type]] ++ [d]) (4 + 1 + Z.of_nat (length d)) Hb Hn) as H.
    rewrite <- (read_after_start b _ _ _ _ (d ++ rest) d rest (Z.of_nat (length d))) in H by done.
    simpl in H. rewrite app_nil_r in H. apply H; simpl; lia.
Qed.

(** A finished document: its bytes, which begin with their number, and
    whatever memory follows. *)
Definition is_doc (b : bson) (d : list Z) : Prop :=
  finished b = true /\ exists rest, data b = Some (d ++ rest)
    /\ 5 <= Z.of_nat (length d) <= INT_MAX /\ take 4 d = le 4 (Z.of_nat (length d)).

Lemma doc_size b d : is_doc b d -> bson_size b = Some (Z.of_nat (length d)).
Proof.
  intros (_ & rest & Hd & Hlen & Ht). unfold bson_size. rewrite Hd, length_app.
  rewrite (proj2 (Z.leb_le _ _)), take_app_le, Ht, s32_le by (unfold INT_MIN in *; lia). done.
Qed.

Lemma bson_appends b w name sub d :
  holds b w -> small_name name -> is_doc sub d ->
  appends (bson_append_bson b name (Some sub)) b w BSON_OBJECT name d False.
Proof.
  intros Hb Hn Hsub. unfold bson_append_bson. rewrite (doc_size sub d Hsub). simpl.
  destruct Hsub as (_ & rest & -> & Hlen & _). simpl.
  assert (INT_MAX = 2147483647) by done. rewrite u64_small by lia.
  pose proof (after_start_appends b w BSON_OBJECT name ([] ++ [d]) (Z.of_nat (length d)) Hb Hn) as Happ.
  rewrite <- (read_after_start b _ _ _ _ (d ++ rest) d rest (Z.of_nat (length d))) in Happ by done.
  simpl in Happ. rewrite app_nil_r in Happ. apply Happ; [lia|done].
Qed.
(** ** Objects and arrays *)

Definition open_ok (b : bson) : Prop :=
  Z.of_nat (length (stack b)) = 32 /\ 0 <= stackPos b <= 32.

Lemma start_spec type b w name :
  holds b w -> small_name name -> open_ok b -> stackPos b < 32 ->
  exists rc b', bson_append_start type b name = Some (rc, b') /\
    ((rc = BSON_OK /\ holds b' (w ++ elem_bytes type name (le 4 0))
      /\ not_utf8 (err b') = not_utf8 (err b) /\ finished b = false /\ finished b' = false
      /\ stackPos b' = stackPos b + 1
      /\ stack b' = <[Z.to_nat (stackPos b) := Z.of_nat (length (w ++ elem_bytes type name []))]>
                      (stack b)
      /\ grown b b' w (2 + Z.of_nat (length name) + 5))
     \/ (rc = BSON_ERROR /\ holds b' w /\ frame b' = frame b /\ refused b name 5)).
Proof.
  intros Hb Hn [Hst Hsp] Hlt. unfold bson_append_start.
  destruct (estart_holds b w type name 5 Hb Hn ltac:(lia))
    as (rc & b1 & -> & Hf & [(-> & Hb1 & He & Hfin & _ & Hroom & Hgrow)|(-> & Hb1 & Hr)]);
    cbn [mbind option_bind].
  2: { do 2 eexists. split; [done|]. right. by split_and!. }
  change (BSON_OK =? BSON_ERROR) with false. cbv iota.
  unfold frame in Hf. injection Hf as Hf1 Hf2 Hf3. rewrite Hf2, Hf3.
  rewrite (proj2 (Z.leb_le _ _)), (proj2 (Z.ltb_lt _ _)) by lia. cbn [andb].
  set (st := <[Z.to_nat (stackPos b) := cur b1]> (stack b)).
  set (b2 := b1 <| stack := st |> <| stackPos := stackPos b + 1 |>).
  assert (Hb2 : holds b2 (w ++ elem_bytes type name [])) by (unfold b2; destruct b1; exact Hb1).
  assert (Hd2 : dataSize b2 = dataSize b1) by (unfold b2; by destruct b1).
  assert (Hm2 : meta b2 = (finished b1, st, stackPos b + 1, err b1))
    by (unfold b2; by destruct b1).
  clearbody b2.
  destruct (append_pieces_holds b2 _ [le 4 0] Hb2) as (b3 & E3 & Hb3 & Hm3 & Hd3); [simpl; lia|].
  rewrite E3. do 2 eexists. split; [done|]. left.
  rewrite Hm2 in Hm3. unfold meta in Hm3. injection Hm3 as -> -> -> ->.
  split_and!; [done| |done|done|congruence|done| |unfold grown in *; by rewrite Hd3, Hd2].
  - unfold elem_bytes in *. rewrite <- (assoc_L (++)) in Hb3. simpl in Hb3.
    by rewrite <- (assoc_L (++)) in Hb3.
  - unfold st. by rewrite (holds_cur _ _ Hb1).
Qed.

(** Overwriting the length at the start of the open object. *)
Lemma patch_holds b w n body :
  holds b (w ++ le 4 0 ++ body) ->
  exists b', store (Z.of_nat (length w)) (le 4 n) b = Some b'
    /\ holds b' (w ++ le 4 n ++ body) /\ meta b' = meta b /\ dataSize b' = dataSize b.
Proof.
  intros (m & Hd & Hlen & Hmax & Hcur & Hc4 & Hw).
  pose proof (le_length 4 0) as H0. pose proof (le_length 4 n) as Hn.
  set (z := le 4 0) in *. set (l := le 4 n) in *. clearbody z l.
  rewrite !length_app in Hcur.
  destruct (store_holds b (Z.of_nat (length w)) l m Hd Hlen) as (m' & -> & Hlen' & Hm'); [lia..|].
  eexists. split; [done|]. destruct b; simpl in *. split; [|done].
  exists m'. simpl. rewrite !length_app in *. split_and!; [done|lia..|].
  rewrite Hm', Nat2Z.id, Hn.
  assert (Em : m = (w ++ z ++ body) ++ drop (length w + (4 + length body)) m).
  { rewrite <- H0, <- !length_app, <- Hw at 1. rewrite !length_app. by rewrite take_drop. }
  set (tl := drop (length w + (4 + length body)) m) in *. clearbody tl. subst m.
  rewrite <- !(assoc_L (++)), take_app_length.
  replace (drop (length w + 4) (w ++ z ++ body ++ tl)) with (body ++ tl).
  2: { rewrite <- drop_drop, drop_app_length, drop_app_length'; [done|by rewrite H0]. }
  rewrite !(assoc_L (++)). apply take_app_length'. rewrite !length_app. lia.
Qed.

Lemma finish_object_spec b w body :
  holds b (w ++ le 4 0 ++ body) -> open_ok b -> 0 < stackPos b ->
  stack b !!! Z.to_nat (stackPos b - 1) = Z.of_nat (length w) ->
  exists rc b', bson_append_finish_object b = Some (rc, b') /\
    ((rc = BSON_OK /\ holds b' (w ++ le 4 (Z.of_nat (length body) + 5) ++ body ++ [0])
      /\ err b' = err b /\ finished b' = finished b /\ stack b' = stack b
      /\ stackPos b' = stackPos b - 1
      /\ grown b b' (w ++ le 4 0 ++ body) 1)
     \/ (rc = BSON_ERROR /\ INT_MAX <= dataSize b' + 1
         /\ grown b b' (w ++ le 4 0 ++ body) 1)).
Proof.
  intros Hb [Hst Hsp] Hpos Htop. unfold bson_append_finish_object.
  set (n := Z.of_nat (length body) + 5).
  destruct (ensure_space_holds b _ 1 Hb ltac:(lia))
    as (rc & b1 & -> & Hb1 & [(-> & Hroom & Hmeta & Hgrow)|(-> & Hmax & ->)]).
  2: { do 2 eexists. split; [done|]. right. split; [done|].
    destruct b; split; [done|by left]. }
  change (BSON_OK =? BSON_ERROR) with false. cbv iota.
  unfold bson_append_byte.
  destruct (append_holds b1 _ [u8 0] Hb1) as (b2 & -> & Hb2 & Hm2 & Hd2); [cbn [length]; lia|].
  cbn [mbind option_bind]. unfold meta in *. injection Hmeta as Hf1 Hf2 Hf3 Hf4. injection Hm2 as Hg1 Hg2 Hg3 Hg4.
  set (b3 := b2 <| stackPos := stackPos b2 - 1 |>).
  assert (Hb3 : holds b3 (w ++ le 4 0 ++ (body ++ [0]))).
  { rewrite <- !(assoc_L (++)) in Hb2. unfold b3; destruct b2; exact Hb2. }
  assert (Hd3 : dataSize b3 = dataSize b2) by (unfold b3; by destruct b2).
  assert (Hm3 : meta b3 = (finished b2, stack b2, stackPos b2 - 1, err b2))
    by (unfold b3; by destruct b2).
  clearbody b3. unfold meta in Hm3. injection Hm3 as Hh1 Hh2 Hh3 Hh4.
  rewrite Hh3, Hg3, Hf3, Hh2, Hg2, Hf2.
  rewrite (proj2 (Z.leb_le _ _)), (proj2 (Z.ltb_lt _ _)) by lia. cbn [andb]. rewrite Htop.
  rewrite (holds_cur _ _ Hb3).
  replace (Z.of_nat (length (w ++ le 4 0 ++ body ++ [0])) - Z.of_nat (length w)) with n
    by (unfold n; rewrite !length_app, le_length; simpl; lia).
  destruct (Z.leb_spec INT_MAX n).
  - do 2 eexists. split; [done|]. right. split; [done|].
    assert (dataSize (b3 <| err := BSON_SIZE_OVERFLOW |>) = dataSize b3) as E by by destruct b3.
    split; [|unfold grown in *; by rewrite E, Hd3, Hd2]. rewrite E.
    destruct Hb3 as (m & _ & _ & _ & Hcur & Hc & _). unfold n in *.
    rewrite !length_app, le_length in Hcur. simpl in Hcur. lia.
  - destruct (patch_holds b3 w n (body ++ [0]) Hb3) as (b4 & -> & Hb4 & Hm4 & Hd4). simpl.
    do 2 eexists. split; [done|]. left. unfold meta in Hm4. injection Hm4 as -> -> -> ->.
    split_and!; [done|exact Hb4|congruence..|lia|]. unfold grown in *. by rewrite Hd4, Hd3, Hd2.
Qed.
End Build.
