(* ===== verification/BsonIter.v ===== *)
(** * Reading BSON documents (mongo-c-driver/src/bson.c)

    The iterator over the memory [m] of a document, [bson_find] and the typed
    accessors.  A pointer into the document is an offset; [None] is a read
    outside the memory, or the exit of the process on an unknown type
    ([bson_fatal_msg]). *)

From S2P Require Import Prelude BsonUtf8 BsonBuild.

(** [driver/bson.h:128-131] bson_iterator *)
Record bson_iterator := Iter { it_cur : Z; first : bool }.

(** ** Memory *)

Definition read_char (m : list Z) (p : Z) : option Z :=
  if 0 <=? p then m !! Z.to_nat p else None.
Definition read_bytes (m : list Z) (p n : Z) : option (list Z) :=
  if (0 <=? p) && (0 <=? n) && (p + n <=? Z.of_nat (length m))
  then Some (take (Z.to_nat n) (drop (Z.to_nat p) m)) else None.

(** The bytes of the C string that starts a piece of memory. *)
Fixpoint c_string (l : list Z) : option (list Z) :=
  match l with
  | [] => None
  | c :: l' => if c =? 0 then Some [] else s ← c_string l'; Some (c :: s)
  end.
Definition string_at (m : list Z) (p : Z) : option (list Z) :=
  if 0 <=? p then c_string (drop (Z.to_nat p) m) else None.
Definition strlen (m : list Z) (p : Z) : option Z :=
  s ← string_at m p; Some (Z.of_nat (length s)).

(** ** Doubles

    A double is its 64 bits; [double_trunc] is its integer part, [None] for
    infinities and NaN. *)

Definition double_trunc (bits : Z) : option Z :=
  let e := bits / 2 ^ 52 mod 2 ^ 11 in
  let f := bits mod 2 ^ 52 in
  if e =? 2047 then None
  else
    let v := if e =? 0 then 0
             else if 1075 <=? e then (2 ^ 52 + f) * 2 ^ (e - 1075)
             else (2 ^ 52 + f) / 2 ^ (1075 - e) in
    Some (if bits / 2 ^ 63 =? 0 then v else - v).

(** Conversions to [int] and [int64_t]: what does not fit becomes the
    smallest integer on the x86 targets. *)
Definition double_to_int (bits : Z) : Z :=
  match double_trunc bits with
  | Some v => if (INT_MIN <=? v) && (v <=? INT_MAX) then v else INT_MIN
  | None => INT_MIN
  end.
Definition double_to_int64 (bits : Z) : Z :=
  match double_trunc bits with
  | Some v => if (- 2 ^ 63 <=? v) && (v <? 2 ^ 63) then v else - 2 ^ 63
  | None => - 2 ^ 63
  end.

(** ** The iterator *)

Section Iterator.
Context (m : list Z).

(** [driver/bson.c:285-288] bson_iterator_init *)
Definition bson_iterator_init : bson_iterator := Iter 4 true.

(** [driver/bson.c:290-293] bson_iterator_from_buffer *)
Definition bson_iterator_from_buffer (buffer : Z) : bson_iterator := Iter (buffer + 4) true.

(** [driver/bson.c:304-306] bson_iterator_more *)
Definition bson_iterator_more (i : bson_iterator) : option Z := read_char m (it_cur i).

(** [driver/bson.c:376-378] bson_iterator_type *)
Definition bson_iterator_type (i : bson_iterator) : option Z :=
  c ← read_char m (it_cur i); Some (s8 c).

(** [driver/bson.c:380-382] bson_iterator_key *)
Definition bson_iterator_key (i : bson_iterator) : Z := it_cur i + 1.

(** [driver/bson.c:384-388] bson_iterator_value *)
Definition bson_iterator_value (i : bson_iterator) : option Z :=
  n ← strlen m (it_cur i + 1); Some (it_cur i + 1 + (n + 1)).

(** [driver/bson.c:392-396] bson_iterator_int_raw *)
Definition bson_iterator_int_raw (i : bson_iterator) : option Z :=
  p ← bson_iterator_value i; l ← read_bytes m p 4; Some (s32 (le_value l)).

(** [driver/bson.c:398-402] bson_iterator_double_raw *)
Definition bson_iterator_double_raw (i : bson_iterator) : option Z :=
  p ← bson_iterator_value i; l ← read_bytes m p 8; Some (le_value l).

(** [driver/bson.c:404-408] bson_iterator_long_raw *)
Definition bson_iterator_long_raw (i : bson_iterator) : option Z :=
  p ← bson_iterator_value i; l ← read_bytes m p 8; Some (s64 (le_value l)).

(** [driver/bson.c:410-412] bson_iterator_bool_raw *)
Definition bson_iterator_bool_raw (i : bson_iterator) : option Z :=
  p ← bson_iterator_value i; c ← read_char m p; Some (s8 c).

(** [driver/bson.c:316-367] bson_iterator_next: the size of the value, by
    type. *)
Definition value_size (i : bson_iterator) (type : Z) : option Z :=
  if (type =? BSON_UNDEFINED) || (type =? BSON_NULL) then Some 0
  else if type =? BSON_BOOL then Some 1
  else if type =? BSON_INT then Some 4
  else if (type =? BSON_LONG) || (type =? BSON_DOUBLE) || (type =? BSON_TIMESTAMP)
          || (type =? BSON_DATE) then Some 8
  else if type =? BSON_OID then Some 12
  else if (type =? BSON_STRING) || (type =? BSON_SYMBOL) || (type =? BSON_CODE)
  then n ← bson_iterator_int_raw i; Some (s32 (4 + n))
  else if type =? BSON_BINDATA then n ← bson_iterator_int_raw i; Some (s32 (5 + n))
  else if (type =? BSON_OBJECT) || (type =? BSON_ARRAY) || (type =? BSON_CODEWSCOPE)
  then bson_iterator_int_raw i
  else if type =? BSON_DBREF
  then n ← bson_iterator_int_raw i; Some (s32 (4 + 12 + n))
  else if type =? BSON_REGEX then
    s ← bson_iterator_value i;
    n1 ← strlen m s;
    n2 ← strlen m (s + (n1 + 1));
    Some (n1 + 1 + (n2 + 1))
  else None.

(** [driver/bson.c:308-374] bson_iterator_next *)
Definition bson_iterator_next (i : bson_iterator) : option (Z * bson_iterator) :=
  if first i then
    c ← read_char m (it_cur i); Some (s8 c, Iter (it_cur i) false)
  else
    type ← bson_iterator_type i;
    if type =? BSON_EOO then Some (BSON_EOO, i)
    else
      ds ← value_size i type;
      n ← strlen m (it_cur i + 1);
      let i := Iter (it_cur i + (1 + n + 1 + ds)) false in
      c ← read_char m (it_cur i);
      Some (s8 c, i).

(** [driver/bson.c:297-300] bson_find: the loop, at most [fuel] turns. *)
Fixpoint find_loop (fuel : nat) (it : bson_iterator) (name : list Z)
  : option bson_iterator :=
  match fuel with
  | O => None
  | S fuel =>
      '(type, it) ← bson_iterator_next it;
      if type =? 0 then Some it
      else
        key ← string_at m (bson_iterator_key it);
        if bool_decide (name = key) then Some it else find_loop fuel it name
  end.

(** [driver/bson.c:295-302] bson_find *)
Definition bson_find (fuel : nat) (name : list Z) : option (Z * bson_iterator) :=
  it ← find_loop fuel bson_iterator_init name;
  type ← bson_iterator_type it;
  Some (type, it).

(** ** Accessors *)

(** [driver/bson.c:414-416] bson_iterator_oid *)
Definition bson_iterator_oid (i : bson_iterator) : option (list Z) :=
  p ← bson_iterator_value i; read_bytes m p 12.

(** [driver/bson.c:418-429] bson_iterator_int *)
Definition bson_iterator_int (i : bson_iterator) : option Z :=
  type ← bson_iterator_type i;
  if type =? BSON_INT then bson_iterator_int_raw i
  else if type =? BSON_LONG then n ← bson_iterator_long_raw i; Some (s32 n)
  else if type =? BSON_DOUBLE then d ← bson_iterator_double_raw i; Some (double_to_int d)
  else Some 0.

(** [driver/bson.c:444-455] bson_iterator_long *)
Definition bson_iterator_long (i : bson_iterator) : option Z :=
  type ← bson_iterator_type i;
  if type =? BSON_INT then bson_iterator_int_raw i
  else if type =? BSON_LONG then bson_iterator_long_raw i
  else if type =? BSON_DOUBLE then d ← bson_iterator_double_raw i; Some (double_to_int64 d)
  else Some 0.

(** [driver/bson.c:479-495] bson_iterator_bool *)
Definition bson_iterator_bool (i : bson_iterator) : option Z :=
  let as_bool (b : bool) := if b then 1 else 0 in
  type ← bson_iterator_type i;
  if type =? BSON_BOOL then bson_iterator_bool_raw i
  else if type =? BSON_INT
  then n ← bson_iterator_int_raw i; Some (as_bool (negb (n =? 0)))
  else if type =? BSON_LONG
  then n ← bson_iterator_long_raw i; Some (as_bool (negb (n =? 0)))
  else if type =? BSON_DOUBLE
  then d ← bson_iterator_double_raw i; Some (as_bool (negb (d mod 2 ^ 63 =? 0)))
  else if (type =? BSON_EOO) || (type =? BSON_NULL) then Some 0
  else Some 1.

(** [driver/bson.c:497-505] bson_iterator_string: the bytes of the C string
    the result points to. *)
Definition bson_iterator_string (i : bson_iterator) : option (list Z) :=
  type ← bson_iterator_type i;
  if (type =? BSON_STRING) || (type =? BSON_SYMBOL)
  then p ← bson_iterator_value i; string_at m (p + 4)
  else Some [].

(** [driver/bson.c:507-509] bson_iterator_string_len *)
Definition bson_iterator_string_len (i : bson_iterator) : option Z :=
  bson_iterator_int_raw i.

(** [driver/bson.c:511-521] bson_iterator_code: the pointer, if not [NULL]. *)
Definition bson_iterator_code (i : bson_iterator) : option (option Z) :=
  type ← bson_iterator_type i;
  if (type =? BSON_STRING) || (type =? BSON_CODE)
  then p ← bson_iterator_value i; Some (Some (p + 4))
  else if type =? BSON_CODEWSCOPE
  then p ← bson_iterator_value i; Some (Some (p + 8))
  else Some None.

(** [driver/bson.c:457-462] bson_iterator_timestamp *)
Definition bson_iterator_timestamp (i : bson_iterator) : option (Z * Z) :=
  p ← bson_iterator_value i;
  l ← read_bytes m p 4;
  h ← read_bytes m (p + 4) 4;
  Some (s32 (le_value l), s32 (le_value h)).

(** [driver/bson.c:536-538] bson_iterator_date *)
Definition bson_iterator_date (i : bson_iterator) : option Z := bson_iterator_long_raw i.

(** [driver/bson.c:540-542] bson_iterator_time_t *)
Definition bson_iterator_time_t (i : bson_iterator) : option Z :=
  d ← bson_iterator_date i; Some (Z.quot d 1000).

(** [driver/bson.c:550-552] bson_iterator_bin_type *)
Definition bson_iterator_bin_type (i : bson_iterator) : option Z :=
  p ← bson_iterator_value i; c ← read_char m (p + 4); Some (s8 c).

(** [driver/bson.c:544-548] bson_iterator_bin_len *)
Definition bson_iterator_bin_len (i : bson_iterator) : option Z :=
  t ← bson_iterator_bin_type i;
  n ← bson_iterator_int_raw i;
  Some (if t =? BSON_BIN_BINARY_OLD then s32 (n - 4) else n).

(** [driver/bson.c:554-558] bson_iterator_bin_data: the pointer. *)
Definition bson_iterator_bin_data (i : bson_iterator) : option Z :=
  t ← bson_iterator_bin_type i;
  p ← bson_iterator_value i;
  Some (if t =? BSON_BIN_BINARY_OLD then p + 9 else p + 5).

(** [driver/bson.c:564-568] bson_iterator_regex_opts *)
Definition bson_iterator_regex_opts (i : bson_iterator) : option Z :=
  p ← bson_iterator_value i; n ← strlen m p; Some (p + n + 1).

(** [driver/bson.c:576-578] bson_iterator_subiterator *)
Definition bson_iterator_subiterator (i : bson_iterator) : option bson_iterator :=
  p ← bson_iterator_value i; Some (bson_iterator_from_buffer p).
End Iterator.

(** [driver/bson.c:876-895] bson_append_element: [elem] iterates over [m].  The
    result of [bson_append_estart] is not looked at. *)
Definition bson_append_element (junk : Z -> Z) (b : bson) (name_or_null : option (list Z))
    (m : list Z) (elem : bson_iterator) : outcome :=
  '(_, next) ← bson_iterator_next m elem;
  let size := it_cur next - it_cur elem in
  match name_or_null with
  | None =>
      let '(rc, b) := bson_ensure_space junk b (u64 size) in
      if rc =? BSON_ERROR then Some (BSON_ERROR, b)
      else
        l ← read_bytes m (it_cur elem) size;
        b ← bson_append b l;
        Some (BSON_OK, b)
  | Some name =>
      n ← strlen m (bson_iterator_key elem);
      let data_size := u64 (size - 2 - n) in
      type ← read_char m (it_cur elem);
      '(_, b) ← bson_append_estart junk b type name data_size;
      v ← bson_iterator_value m elem;
      l ← read_bytes m v data_size;
      b ← bson_append b l;
      Some (BSON_OK, b)
  end.

(** ** Object identifiers *)

(** [driver/bson.c:118-127] hexbyte *)
Definition hexbyte (hex : Z) : Z :=
  if ("0"%chr <=? hex) && (hex <=? "9"%chr) then hex - "0"%chr
  else if ("A"%chr <=? hex) && (hex <=? "F"%chr) then hex - "A"%chr + 10
  else if ("a"%chr <=? hex) && (hex <=? "f"%chr) then hex - "a"%chr + 10
  else 0.

(** [driver/bson.c:129-134] bson_oid_from_string *)
Definition bson_oid_from_string (str : list Z) : list Z :=
  map (fun i => u8 (Z.lor (Z.shiftl (hexbyte (str !!! Z.to_nat (2 * i))) 4)
                          (hexbyte (str !!! Z.to_nat (2 * i + 1)))))
      (seqZ 0 12).

Definition oid_hex : list Z := bs "0123456789abcdef".

(** [driver/bson.c:136-144] bson_oid_to_string: the 24 characters. *)
Definition bson_oid_to_string (oid : list Z) : list Z :=
  concat (map (fun b => [oid_hex !!! Z.to_nat (Z.shiftr (Z.land b 0xf0) 4);
                         oid_hex !!! Z.to_nat (Z.land b 0x0f)])
              (take 12 oid)).

(** The static variables of [bson_oid_gen]. *)
Record oid_state := OidState { incr : Z; fuzz : Z }.

Definition be (n : nat) (z : Z) : list Z := rev (le n z).

(** [driver/bson.c:154-177] bson_oid_gen: [t] is the time and [rnd] what
    [rand()] returns; no custom functions are installed. *)
Definition bson_oid_gen (t rnd : Z) (s : oid_state) : list Z * oid_state :=
  let i := incr s in
  let f := if fuzz s =? 0 then rnd else fuzz s in
  (be 4 t ++ le 4 f ++ be 4 i, OidState (s32 (incr s + 1)) f).

(** [driver/bson.c:179-184] bson_oid_generated_time: the upper half of the
    64-bit [time_t] is not initialised by the code; these are the lower 32
    bits. *)
Definition bson_oid_generated_time (oid : list Z) : Z := le_value (rev (take 4 oid)).

(** ** Reading memory that is laid out as expected *)

Definition no_nul (s : list Z) : Prop := Forall (fun c => c <> 0) s.

Lemma c_string_app s l : no_nul s -> c_string (s ++ 0 :: l) = Some s.
Proof.
  induction 1 as [|c s Hc _ IH]; simpl; [done|].
  rewrite IH. by destruct (Z.eqb_spec c 0).
Qed.

Lemma string_at_app pre s post :
  no_nul s -> string_at (pre ++ s ++ 0 :: post) (Z.of_nat (length pre)) = Some s.
Proof.
  intros Hs. unfold string_at. rewrite (proj2 (Z.leb_le _ _)) by lia.
  rewrite Nat2Z.id, drop_app_length. by apply c_string_app.
Qed.

Lemma read_char_app pre c post : read_char (pre ++ c :: post) (Z.of_nat (length pre)) = Some c.
Proof.
  unfold read_char. rewrite (proj2 (Z.leb_le _ _)), Nat2Z.id by lia.
  rewrite lookup_app_r, Nat.sub_diag by lia. done.
Qed.

Lemma read_bytes_app pre l post :
  read_bytes (pre ++ l ++ post) (Z.of_nat (length pre)) (Z.of_nat (length l)) = Some l.
Proof.
  unfold read_bytes. rewrite !length_app.
  rewrite !(proj2 (Z.leb_le _ _)) by lia. simpl.
  by rewrite !Nat2Z.id, drop_app_length, take_app_length.
Qed.

(** A part of memory: [l] at offset [p]. *)
Definition at_ (m : list Z) (p : Z) (l : list Z) : Prop :=
  exists pre post, m = pre ++ l ++ post /\ p = Z.of_nat (length pre).

Lemma at_app m p l1 l2 :
  at_ m p (l1 ++ l2) -> at_ m p l1 /\ at_ m (p + Z.of_nat (length l1)) l2.
Proof.
  intros (pre & post & -> & ->). split.
  - exists pre, (l2 ++ post). by rewrite <- (assoc_L (++)).
  - exists (pre ++ l1), post. rewrite length_app, <- !(assoc_L (++)). split; [done|lia].
Qed.

Lemma at_cons m p c l : at_ m p (c :: l) -> read_char m p = Some c /\ at_ m (p + 1) l.
Proof.
  intros H. apply (at_app m p [c] l) in H as [(pre & post & -> & ->) H]. split; [|exact H].
  apply read_char_app.
Qed.

Lemma at_string m p s l : at_ m p (s ++ 0 :: l) -> no_nul s -> string_at m p = Some s.
Proof.
  intros (pre & post & -> & ->) Hs. rewrite <- (assoc_L (++)). simpl. by apply string_at_app.
Qed.

Lemma at_strlen m p s l :
  at_ m p (s ++ 0 :: l) -> no_nul s -> strlen m p = Some (Z.of_nat (length s)).
Proof. intros H Hs. unfold strlen. by rewrite (at_string m p s l). Qed.

Lemma at_read m p l n : at_ m p l -> n = Z.of_nat (length l) -> read_bytes m p n = Some l.
Proof. intros (pre & post & -> & ->) ->. apply read_bytes_app. Qed.

(** ** Elements *)

(** A value of the given type, as its bytes.  The length fields are those the
    iterator trusts. *)
Definition with_size (extra : Z) (payload : list Z) : Prop :=
  exists n rest, payload = le 4 n ++ rest /\ INT_MIN <= n <= INT_MAX - extra
    /\ Z.of_nat (length payload) = n + extra.

Definition payload_ok (type : Z) (payload : list Z) : Prop :=
  let len := Z.of_nat (length payload) in
  if (type =? BSON_UNDEFINED) || (type =? BSON_NULL) then len = 0
  else if type =? BSON_BOOL then len = 1
  else if type =? BSON_INT then len = 4
  else if (type =? BSON_LONG) || (type =? BSON_DOUBLE) || (type =? BSON_TIMESTAMP)
          || (type =? BSON_DATE) then len = 8
  else if type =? BSON_OID then len = 12
  else if (type =? BSON_STRING) || (type =? BSON_SYMBOL) || (type =? BSON_CODE)
  then with_size 4 payload
  else if type =? BSON_BINDATA then with_size 5 payload
  else if (type =? BSON_OBJECT) || (type =? BSON_ARRAY) || (type =? BSON_CODEWSCOPE)
  then with_size 0 payload
  else if type =? BSON_DBREF then with_size 16 payload
  else if type =? BSON_REGEX then exists s1 s2, no_nul s1 /\ no_nul s2
         /\ payload = s1 ++ 0 :: s2 ++ [0]
  else False.

Record elem := Elem { e_type : Z; e_name : list Z; e_payload : list Z }.
Definition elem_ok (e : elem) : Prop :=
  0 < e_type e <= 18 /\ no_nul (e_name e) /\ payload_ok (e_type e) (e_payload e).
Definition enc (e : elem) : list Z := elem_bytes (e_type e) (e_name e) (e_payload e).

(** [i] points to the element [e], which [rest] follows. *)
Definition at_elem (m : list Z) (i : bson_iterator) (e : elem) (rest : list Z) : Prop :=
  at_ m (it_cur i) (enc e ++ rest).

Definition value_pos (i : bson_iterator) (e : elem) : Z :=
  it_cur i + 2 + Z.of_nat (length (e_name e)).

Lemma enc_length e :
  Z.of_nat (length (enc e)) = 2 + Z.of_nat (length (e_name e)) + Z.of_nat (length (e_payload e)).
Proof. unfold enc, elem_bytes. simpl. rewrite length_app. simpl. lia. Qed.

Section Element.
Context (m : list Z) (i : bson_iterator) (e : elem) (rest : list Z).
Hypothesis (He : elem_ok e) (Hat : at_elem m i e rest).

Lemma elem_cons :
  read_char m (it_cur i) = Some (u8 (e_type e))
  /\ at_ m (it_cur i + 1) (e_name e ++ 0 :: e_payload e ++ rest).
Proof using Hat.
  apply at_cons. unfold at_elem, enc, elem_bytes in Hat. simpl in Hat.
  by rewrite <- (assoc_L (++)) in Hat.
Qed.

Lemma elem_type : bson_iterator_type m i = Some (e_type e).
Proof using He Hat.
  unfold bson_iterator_type. rewrite (proj1 elem_cons). simpl.
  destruct He as [? _]. f_equal. by_range (e_type e) 0 19.
Qed.

Lemma elem_key_at : at_ m (it_cur i + 1) (e_name e ++ 0 :: e_payload e ++ rest).
Proof using Hat. exact (proj2 elem_cons). Qed.

Lemma elem_key : string_at m (bson_iterator_key i) = Some (e_name e).
Proof using He Hat. eapply at_string; [apply elem_key_at | apply He]. Qed.

Lemma elem_value : bson_iterator_value m i = Some (value_pos i e).
Proof using He Hat.
  unfold bson_iterator_value. erewrite at_strlen; [|apply elem_key_at|apply He].
  simpl. f_equal. unfold value_pos. lia.
Qed.

Lemma elem_payload_at : at_ m (value_pos i e) (e_payload e ++ rest).
Proof using He Hat.
  destruct (at_app _ _ (e_name e ++ [0]) (e_payload e ++ rest)
    ltac:(rewrite <- (assoc_L (++)); exact elem_key_at)) as [_ H].
  rewrite length_app in H. simpl in H. unfold value_pos.
  by replace (it_cur i + 2 + _) with (it_cur i + 1 + Z.of_nat (length (e_name e) + 1)) by lia.
Qed.

Lemma elem_int_raw n r :
  e_payload e = le 4 n ++ r -> INT_MIN <= n <= INT_MAX -> bson_iterator_int_raw m i = Some n.
Proof using He Hat.
  intros Ep Hn. unfold bson_iterator_int_raw. rewrite elem_value. simpl.
  pose proof elem_payload_at as H. rewrite Ep, <- (assoc_L (++)) in H.
  apply at_app in H as [H _]. rewrite (at_read _ _ _ 4 H) by (by rewrite le_length).
  simpl. f_equal. by apply s32_le.
Qed.

Lemma elem_value_size :
  value_size m i (e_type e) = Some (Z.of_nat (length (e_payload e))).
Proof using He Hat.
  destruct He as (_ & _ & Hp). unfold payload_ok in Hp. unfold value_size.
  assert (Hsz : forall x, with_size x (e_payload e) -> 0 <= x ->
    bson_iterator_int_raw m i = Some (Z.of_nat (length (e_payload e)) - x)
    /\ s32 (x + (Z.of_nat (length (e_payload e)) - x)) = Z.of_nat (length (e_payload e))).
  { intros x (n & r & Ep & Hn & Hlen) Hx. rewrite Hlen.
    rewrite (elem_int_raw n r Ep) by lia. split; [f_equal; lia|].
    rewrite s32_small; [lia|]. unfold INT_MIN in *. lia. }
  repeat match type of Hp with
    | (if ?b then _ else _) => destruct b eqn:?; [try (by rewrite Hp)|]
    end; [..|done].
  - destruct (Hsz 4 Hp) as [-> ?]; [lia|]. simpl. by f_equal.
  - destruct (Hsz 5 Hp) as [-> ?]; [lia|]. simpl. by f_equal.
  - destruct (Hsz 0 Hp) as [-> ?]; [lia|]. by rewrite Z.sub_0_r.
  - destruct (Hsz 16 Hp) as [-> ?]; [lia|]. simpl. by f_equal.
  - destruct Hp as (s1 & s2 & Hs1 & Hs2 & Ep). rewrite elem_value. simpl.
    pose proof elem_payload_at as H. rewrite Ep, <- (assoc_L (++)) in H. simpl in H.
    rewrite (at_strlen _ _ _ _ H) by done. simpl.
    destruct (at_app _ _ (s1 ++ [0]) (s2 ++ 0 :: rest)
      ltac:(rewrite <- (assoc_L (++)); simpl; by rewrite <- (assoc_L (++)) in H)) as [_ H'].
    rewrite length_app in H'. simpl in H'.
    replace (value_pos i e + (Z.of_nat (length s1) + 1))
      with (value_pos i e + Z.of_nat (length s1 + 1)) by lia.
    rewrite (at_strlen _ _ _ _ H') by done. simpl. f_equal.
    rewrite Ep, length_app. simpl. rewrite length_app. simpl. lia.
Qed.

(** The iterator moves to what follows the element. *)
Lemma elem_next c rest' :
  rest = c :: rest' -> first i = false ->
  bson_iterator_next m i =
    Some (s8 c, Iter (it_cur i + Z.of_nat (length (enc e))) false)
  /\ at_ m (it_cur i + Z.of_nat (length (enc e))) rest.
Proof using He Hat.
  intros Er Hf. destruct (at_app _ _ _ _ Hat) as [_ Hrest]. split; [|done].
  unfold bson_iterator_next. rewrite Hf, elem_type. cbn [mbind option_bind].
  destruct He as [Ht _]. rewrite (proj2 (Z.eqb_neq (e_type e) BSON_EOO)) by (unfold BSON_EOO; lia).
  rewrite elem_value_size. cbn [mbind option_bind].
  erewrite at_strlen; [|apply elem_key_at|apply He]. cbn [mbind option_bind it_cur].
  pose proof (enc_length e) as Hl.
  replace (it_cur i + (1 + Z.of_nat (length (e_name e)) + 1 + Z.of_nat (length (e_payload e))))
    with (it_cur i + Z.of_nat (length (enc e))) by lia.
  rewrite Er in Hrest. by destruct (at_cons _ _ _ _ Hrest) as [-> _].
Qed.
End Element.

(** ** Searching a document *)

Definition enc_all (es : list elem) : list Z := concat (map enc es).

(** The first element with the name, and its position; without one, the
    position of the terminator. *)
Fixpoint find_pos (p : Z) (es : list elem) (name : list Z) : Z * option elem :=
  match es with
  | [] => (p, None)
  | e :: es' =>
      if bool_decide (name = e_name e) then (p, Some e)
      else find_pos (p + Z.of_nat (length (enc e))) es' name
  end.

Definition type_of (r : option elem) : Z :=
  match r with Some e => e_type e | None => BSON_EOO end.

Lemma s8_type t : 0 <= t <= 18 -> s8 (u8 t) = t.
Proof. intros. by_range t 0 19. Qed.

Section Find.
Context (m : list Z) (name : list Z).

(** The type the iterator reads on the elements [es]. *)
Definition head_type (es : list elem) : Z :=
  match es with [] => BSON_EOO | e :: _ => e_type e end.

Lemma at_head p es tail :
  at_ m p (enc_all es ++ 0 :: tail) -> Forall elem_ok es ->
  exists c, read_char m p = Some c /\ s8 c = head_type es.
Proof.
  intros H Hes. destruct es as [|e es]; simpl in H.
  - exists 0. by destruct (at_cons _ _ _ _ H) as [-> _].
  - rewrite <- (assoc_L (++)) in H. apply (elem_cons m (Iter p false)) in H as [H _].
    eexists. split; [exact H|]. apply Forall_cons in Hes as [[? _] _]. apply (s8_type (e_type e)). lia.
Qed.

Lemma find_loop_spec fuel it p es tail :
  at_ m p (enc_all es ++ 0 :: tail) -> Forall elem_ok es ->
  bson_iterator_next m it = Some (head_type es, Iter p false) ->
  (length es < fuel)%nat ->
  find_loop m fuel it name = Some (Iter (find_pos p es name).1 false)
  /\ bson_iterator_type m (Iter (find_pos p es name).1 false)
     = Some (type_of (find_pos p es name).2)
  /\ match (find_pos p es name).2 with
     | Some e => elem_ok e
         /\ exists r, at_elem m (Iter (find_pos p es name).1 false) e r
     | None => True
     end.
Proof.
  revert it p es. induction fuel as [|fuel IH]; intros it p es H Hes Hnext Hlen; [lia|].
  destruct (at_head p es tail H Hes) as (c & Hc & Hs8).
  destruct es as [|e es]; simpl in *.
  { rewrite Hnext. simpl. split_and!; [done| |done]. unfold bson_iterator_type. simpl.
    rewrite Hc. simpl. by rewrite Hs8. }
  apply Forall_cons in Hes as [He Hes]. rewrite Hnext. simpl.
  destruct He as (Ht & Hname & Hp). assert (He : elem_ok e) by by split.
  rewrite (proj2 (Z.eqb_neq (e_type e) 0)) by lia.
  rewrite <- (assoc_L (++)) in H.
  rewrite (elem_key m (Iter p false) e _ He H). simpl.
  destruct (bool_decide (name = e_name e)) eqn:E.
  { split; [done|]. split; [exact (elem_type m (Iter p false) e _ He H)|].
    split; [done|]. eexists. exact H. }
  assert (Hc' : exists c' r', enc_all es ++ 0 :: tail = c' :: r' /\ s8 c' = head_type es).
  { destruct es as [|e' es]; [by do 2 eexists|]. apply Forall_cons in Hes as [[? _] _].
    do 2 eexists. split; [reflexivity|]. apply (s8_type (e_type e')). lia. }
  destruct Hc' as (c' & r' & Er & Hs').
  destruct (elem_next m (Iter p false) e _ He H c' r' Er eq_refl) as [Hn Hat].
  simpl in Hn, Hat. rewrite Hs' in Hn.
  apply (IH _ _ es Hat Hes Hn). lia.
Qed.
End Find.

Lemma bson_find_spec m name fuel es tail :
  at_ m 4 (enc_all es ++ 0 :: tail) -> Forall elem_ok es -> (length es < fuel)%nat ->
  bson_find m fuel name =
    Some (type_of (find_pos 4 es name).2, Iter (find_pos 4 es name).1 false)
  /\ match (find_pos 4 es name).2 with
     | Some e => elem_ok e
         /\ exists r, at_elem m (Iter (find_pos 4 es name).1 false) e r
     | None => True
     end.
Proof.
  intros H Hes Hf. destruct (at_head m 4 es tail H Hes) as (c & Hc & Hs8).
  assert (Hnext : bson_iterator_next m bson_iterator_init = Some (head_type es, Iter 4 false)).
  { unfold bson_iterator_next, bson_iterator_init. simpl. rewrite Hc. simpl. by rewrite Hs8. }
  destruct (find_loop_spec m name fuel bson_iterator_init 4 es tail H Hes Hnext Hf)
    as (H1 & H2 & H3).
  split; [|done]. unfold bson_find. rewrite H1. cbn [mbind option_bind]. by rewrite H2.
Qed.
