(* ===== verification/BsonDoc.v ===== *)
(** * Documents: building and reading together

    The abstract documents ([value], [fields]) the buffers and the iterator of
    BsonBuild.v and BsonIter.v represent: [append_value] builds a document
    through the functions of bson.c, and the round trip theorem reads every
    field back. *)

From S2P Require Import Prelude BsonUtf8 BsonBuild BsonIter.

Set Warnings "-register-all".

(** A value, with its constructor of [bson_type]; a double by its bits. *)
Inductive value :=
  | VDouble (d : Z)
  | VString (s : list Z)
  | VObject (fs : list (list Z * value))
  | VArray (fs : list (list Z * value))
  | VBinary (type : Z) (d : list Z)
  | VUndefined
  | VOid (o : list Z)
  | VBool (b : bool)
  | VDate (d : Z)
  | VNull
  | VCode (s : list Z)
  | VSymbol (s : list Z)
  | VInt (n : Z)
  | VTimestamp (i t : Z)
  | VLong (n : Z).
Abbreviation fields := (list (list Z * value)).

Definition value_type (v : value) : Z :=
  match v with
  | VDouble _ => BSON_DOUBLE | VString _ => BSON_STRING | VObject _ => BSON_OBJECT
  | VArray _ => BSON_ARRAY | VBinary _ _ => BSON_BINDATA | VUndefined => BSON_UNDEFINED
  | VOid _ => BSON_OID | VBool _ => BSON_BOOL | VDate _ => BSON_DATE | VNull => BSON_NULL
  | VCode _ => BSON_CODE | VSymbol _ => BSON_SYMBOL | VInt _ => BSON_INT
  | VTimestamp _ _ => BSON_TIMESTAMP | VLong _ => BSON_LONG
  end.

(** The bytes of a document with the given elements. *)
Definition doc_bytes (body : list Z) : list Z :=
  le 4 (Z.of_nat (length body) + 5) ++ body ++ [0].

Fixpoint payload (v : value) : list Z :=
  match v with
  | VDouble d => le 8 d
  | VString s | VCode s | VSymbol s => string_payload s
  | VObject fs | VArray fs =>
      doc_bytes (concat (map (fun f => elem_bytes (value_type f.2) f.1 (payload f.2)) fs))
  | VBinary t d => binary_payload t d
  | VUndefined | VNull => []
  | VOid o => o
  | VBool b => [if b then 1 else 0]
  | VDate n | VLong n => le 8 n
  | VInt n => le 4 n
  | VTimestamp i t => le 4 i ++ le 4 t
  end.

Definition to_elem (f : list Z * value) : elem := Elem (value_type f.2) f.1 (payload f.2).
Definition body (fs : fields) : list Z := enc_all (map to_elem fs).

Lemma payload_fields fs :
  concat (map (fun f => elem_bytes (value_type f.2) f.1 (payload f.2)) fs) = body fs.
Proof. unfold body, enc_all. by rewrite map_map. Qed.

(** ** Building *)

Section Build.
Context (junk : Z -> Z).

Fixpoint append_value (v : value) (name : list Z) (b : bson) : outcome :=
  match v with
  | VDouble d => bson_append_double junk b name d
  | VString s => bson_append_string junk b name s
  | VCode s => bson_append_code junk b name s
  | VSymbol s => bson_append_symbol junk b name s
  | VBinary t d => bson_append_binary junk b name t d (Z.of_nat (length d))
  | VUndefined => bson_append_undefined junk b name
  | VOid o => bson_append_oid junk b name o
  | VBool x => bson_append_bool junk b name (if x then 1 else 0)
  | VDate n => bson_append_date junk b name n
  | VNull => bson_append_null junk b name
  | VInt n => bson_append_int junk b name n
  | VTimestamp i t => bson_append_timestamp junk b name i t
  | VLong n => bson_append_long junk b name n
  | VObject fs | VArray fs =>
      '(rc, b) ← bson_append_start junk (value_type v) b name;
      if rc =? BSON_ERROR then Some (BSON_ERROR, b)
      else
        '(rc, b) ← (fix append_fields fs b :=
           match fs with
           | [] => Some (BSON_OK, b)
           | (n, v) :: fs' =>
               '(rc, b) ← append_value v n b;
               if rc =? BSON_ERROR then Some (BSON_ERROR, b) else append_fields fs' b
           end) fs b;
        if rc =? BSON_ERROR then Some (BSON_ERROR, b)
        else bson_append_finish_object junk b
  end.

Fixpoint append_fields (fs : fields) (b : bson) : outcome :=
  match fs with
  | [] => Some (BSON_OK, b)
  | (n, v) :: fs' =>
      '(rc, b) ← append_value v n b;
      if rc =? BSON_ERROR then Some (BSON_ERROR, b) else append_fields fs' b
  end.

(** A whole document, from any [bson] variable. *)
Definition build (fs : fields) (b : bson) : outcome :=
  '(rc, b) ← append_fields fs (bson_init junk b);
  if rc =? BSON_ERROR then Some (BSON_ERROR, b) else bson_finish junk b.
End Build.

(** A run. *)
Example build_example :
  let fs := [(bs "n", VInt 7); (bs "o", VObject [(bs "s", VString (bs "hi"))])] in
  option_map (fun r => (r.1, take 30 (default [] (data r.2))))
    (build (fun _ => 205) fs (Bson None 0 0 true (replicate 32 0) 0 0))
  = Some (BSON_OK, [30; 0; 0; 0; 16; 110; 0; 7; 0; 0; 0; 3; 111; 0; 15; 0; 0; 0;
                    2; 115; 0; 3; 0; 0; 0; 104; 105; 0; 0; 0]).
Proof. by vm_compute. Qed.

(** ** Well-formed values *)

Definition name_ok (name : list Z) : Prop :=
  no_nul name /\ bytes name /\ accepted_string name.

Fixpoint wf (v : value) : Prop :=
  match v with
  | VDouble d => 0 <= d < 2 ^ 64
  | VString s | VCode s | VSymbol s => name_ok s
  | VObject fs | VArray fs =>
      (fix all (fs : fields) : Prop :=
         match fs with
         | [] => True
         | (n, v) :: fs' => name_ok n /\ wf v /\ all fs'
         end) fs
  | VBinary t _ => -128 <= t < 128
  | VUndefined | VNull | VBool _ => True
  | VOid o => length o = 12%nat
  | VDate n | VLong n => - 2 ^ 63 <= n < 2 ^ 63
  | VInt n => INT_MIN <= n <= INT_MAX
  | VTimestamp i t => INT_MIN <= i <= INT_MAX /\ INT_MIN <= t <= INT_MAX
  end.

Definition wf_fields (fs : fields) : Prop := Forall (fun f => name_ok f.1 /\ wf f.2) fs.

Lemma wf_all fs :
  (fix all (fs : fields) : Prop :=
     match fs with [] => True | (n, v) :: fs' => name_ok n /\ wf v /\ all fs' end) fs
  <-> wf_fields fs.
Proof.
  unfold wf_fields. induction fs as [|[n v] fs IH]; [done|]. rewrite Forall_cons, IH. simpl. tauto.
Qed.

(** How many objects are open at once while a value is built. *)
Fixpoint depth (v : value) : Z :=
  match v with
  | VObject fs | VArray fs => 1 + fold_right Z.max 0 (map (fun f => depth f.2) fs)
  | _ => 0
  end.
Definition depth_fields (fs : fields) : Z := fold_right Z.max 0 (map (fun f => depth f.2) fs).

(** Induction over values and, mutually, the fields of objects. *)
Section ValueInd.
Context (P : value -> Prop).
Hypothesis (Hscalar : forall v, match v with VObject _ | VArray _ => True | _ => P v end).
Hypothesis (Hobject : forall fs, Forall (fun f => P f.2) fs -> P (VObject fs)).
Hypothesis (Harray : forall fs, Forall (fun f => P f.2) fs -> P (VArray fs)).

Fixpoint value_ind' (v : value) : P v :=
  let fields_ind := fix fields_ind (fs : fields) : Forall (fun f => P f.2) fs :=
    match fs with
    | [] => @List.Forall_nil _ (fun f => P f.2)
    | f :: fs' =>
        @List.Forall_cons _ (fun f => P f.2) f fs' (value_ind' f.2) (fields_ind fs')
    end in
  match v with
  | VObject fs => Hobject fs (fields_ind fs)
  | VArray fs => Harray fs (fields_ind fs)
  | v => Hscalar v
  end.
End ValueInd.

(** ** Building succeeds and writes the encoding *)

(** The state of a document under construction that no error has touched. *)
Definition building (b : bson) (w : list Z) : Prop :=
  holds b w /\ finished b = false /\ open_ok b /\ not_utf8 (err b) = false
  /\ dataSize b <= 3 * Z.of_nat (length w) + 3 * stackPos b + 128.

(** The sizes for which the buffer cannot overflow. *)
Definition max_doc : Z := 2 ^ 28.

(** [b'] is [b] with [l] appended; the open objects are as they were. *)
Definition extends (b b' : bson) (w l : list Z) : Prop :=
  building b' (w ++ l) /\ stackPos b' = stackPos b
  /\ take (Z.to_nat (stackPos b)) (stack b') = take (Z.to_nat (stackPos b)) (stack b).

Lemma elem_bytes_app t n p1 p2 : elem_bytes t n (p1 ++ p2) = elem_bytes t n p1 ++ p2.
Proof. unfold elem_bytes. simpl. by rewrite <- (assoc_L (++)). Qed.

Lemma elem_bytes_length t n p :
  Z.of_nat (length (elem_bytes t n p)) = 2 + Z.of_nat (length n) + Z.of_nat (length p).
Proof. unfold elem_bytes. simpl. rewrite length_app. simpl. lia. Qed.

Lemma appends_building r b w type name p (reason : Prop) :
  appends r b w type name p reason -> ~ reason -> building b w -> accepted_string name ->
  Z.of_nat (length w) + Z.of_nat (length (elem_bytes type name p)) <= max_doc ->
  exists b', r = Some (BSON_OK, b') /\ extends b b' w (elem_bytes type name p).
Proof.
  intros (rc & b1 & -> & Hf & H) Hno (Hb & Hfin & Hopen & Herr & Hds) Ha Hsz.
  unfold frame in Hf. injection Hf as Hf1 Hf2 Hf3. destruct Hopen as [Ho1 Ho2].
  rewrite elem_bytes_length in Hsz. unfold max_doc in Hsz.
  assert (INT_MAX = 2147483647) as E by done.
  destruct H as [(-> & Hb1 & He & _ & Hg)|(_ & _ & [[Hr|[Hr|Hr]]|Hr])];
    [|congruence|done|lia|done].
  exists b1. split; [done|]. split; [|split; [done|by rewrite Hf2]].
  split_and!; [done|congruence|split; congruence|congruence|].
  rewrite length_app, Nat2Z.inj_add, elem_bytes_length, Hf3.
  destruct Hg as [Hg|[Hg|Hg]]; [lia|lia|].
  assert (3 * (dataSize b + (2 + Z.of_nat (length name) + Z.of_nat (length p))) / 2 <= 2 ^ 31 - 2^28)
    by (apply Z.div_le_upper_bound; lia). lia.
Qed.

Section BuildSpec.
Context (junk : Z -> Z).

Lemma append_fields_eq fs b :
  (fix append_fields fs b :=
     match fs with
     | [] => Some (BSON_OK, b)
     | (n, v) :: fs' =>
         '(rc, b) ← append_value junk v n b;
         if rc =? BSON_ERROR then Some (BSON_ERROR, b) else append_fields fs' b
     end) fs b = append_fields junk fs b.
Proof. revert b. induction fs as [|[n v] fs IH]; intros b; simpl; [done|].
  destruct (append_value junk v n b) as [[rc b']|]; simpl; [|done]. by rewrite IH.
Qed.

(** What building a value is to achieve. *)
Definition value_built (v : value) : Prop := forall name b w,
  wf v -> name_ok name -> building b w -> stackPos b + depth v <= 32 ->
  Z.of_nat (length w) + Z.of_nat (length (elem_bytes (value_type v) name (payload v))) <= max_doc ->
  exists b', append_value junk v name b = Some (BSON_OK, b')
    /\ extends b b' w (elem_bytes (value_type v) name (payload v)).

Lemma extends_trans b b1 b2 w l1 l2 :
  extends b b1 w l1 -> extends b1 b2 (w ++ l1) l2 -> extends b b2 w (l1 ++ l2).
Proof.
  intros (H1 & H2 & H3) (H4 & H5 & H6). unfold extends.
  rewrite (assoc_L (++)). split_and!; [done|congruence|]. rewrite H2 in H6. congruence.
Qed.

Lemma depth_fields_cons n v fs :
  depth_fields ((n, v) :: fs) = Z.max (depth v) (depth_fields fs).
Proof. done. Qed.

Lemma depth_nonneg fs : 0 <= depth_fields fs.
Proof. induction fs as [|[n v] fs IH]; [done|]. rewrite depth_fields_cons. lia. Qed.

Lemma append_fields_built fs b w :
  Forall (fun f => value_built f.2) fs -> wf_fields fs -> building b w ->
  stackPos b + depth_fields fs <= 32 ->
  Z.of_nat (length w) + Z.of_nat (length (body fs)) <= max_doc ->
  exists b', append_fields junk fs b = Some (BSON_OK, b') /\ extends b b' w (body fs).
Proof.
  intros Hv. revert b w. induction Hv as [|[n v] fs Hv _ IH]; intros b w Hwf Hb Hd Hsz.
  { exists b. split; [done|]. unfold extends. rewrite app_nil_r. by split_and!. }
  apply Forall_cons in Hwf as [[Hn Hwf] Hwfs]. simpl in Hv, Hn, Hwf.
  rewrite depth_fields_cons in Hd.
  change (body ((n, v) :: fs)) with (elem_bytes (value_type v) n (payload v) ++ body fs) in *.
  rewrite length_app in Hsz.
  destruct (Hv n b w Hwf Hn Hb) as (b1 & E1 & Hext); [lia..|].
  destruct (IH b1 (w ++ elem_bytes (value_type v) n (payload v)) Hwfs) as (b2 & E2 & Hext2).
  - apply Hext.
  - destruct Hext as (_ & -> & _). lia.
  - rewrite length_app. lia.
  - exists b2. split; [|by eapply extends_trans]. cbn [append_fields].
    rewrite E1. cbn [mbind option_bind]. exact E2.
Qed.

Lemma building_holds b w : building b w -> holds b w.
Proof. by intros [? _]. Qed.

Lemma name_small name : name_ok name -> Z.of_nat (length name) <= max_doc -> small_name name.
Proof. intros (_ & Hb & _) Hl. split; [done|]. unfold max_doc in Hl. lia. Qed.

(** The object whose fields are [fs]. *)
Lemma object_built ty fs name b w :
  Forall (fun f => value_built f.2) fs -> wf_fields fs -> name_ok name -> building b w ->
  stackPos b + 1 + depth_fields fs <= 32 ->
  Z.of_nat (length w) + Z.of_nat (length (elem_bytes ty name (doc_bytes (body fs)))) <= max_doc ->
  exists b', ('(rc, b) ← bson_append_start junk ty b name;
      if rc =? BSON_ERROR then Some (BSON_ERROR, b)
      else
        '(rc, b) ← append_fields junk fs b;
        if rc =? BSON_ERROR then Some (BSON_ERROR, b)
        else bson_append_finish_object junk b) = Some (BSON_OK, b')
    /\ extends b b' w (elem_bytes ty name (doc_bytes (body fs))).
Proof.
  intros Hv Hwf Hn Hb Hd Hsz. pose proof (depth_nonneg fs).
  assert (INT_MAX = 2147483647) as E by done. pose proof Hb as (Hh & Hfin & Hopen & Herr & Hds).
  unfold doc_bytes in *. rewrite !elem_bytes_length, !length_app, le_length in Hsz. simpl in Hsz.
  unfold max_doc in *. destruct Hopen as [Ho1 Ho2].
  destruct (start_spec junk ty b w name Hh) as
    (rc & b1 & -> & [(-> & Hh1 & He1 & _ & Hf1 & Hsp1 & Hst1 & Hg1)|(_ & _ & _ & Hr)]).
  { split; [apply Hn|lia]. }
  { by split. }
  { lia. }
  2: { exfalso. destruct Hr as [Hr|[Hr|Hr]]; [congruence|by apply Hr, Hn|lia]. }
  cbn [mbind option_bind]. change (BSON_OK =? BSON_ERROR) with false. cbv iota.
  set (start := elem_bytes ty name []) in *.
  assert (Hls : Z.of_nat (length start) = 2 + Z.of_nat (length name))
    by (unfold start; rewrite elem_bytes_length; simpl; lia).
  assert (Es : forall p, w ++ elem_bytes ty name p = (w ++ start) ++ p).
  { intros p. rewrite <- (app_nil_l p) at 1. by rewrite elem_bytes_app, (assoc_L (++)). }
  clearbody start. rewrite Es in Hh1.
  assert (Hb1 : building b1 ((w ++ start) ++ le 4 0)).
  { split_and!; [done|done| |congruence|].
    - split; [by rewrite Hst1, length_insert|lia].
    - rewrite !length_app, le_length, Hsp1.
      destruct Hg1 as [Hg|[Hg|Hg]]; [lia|lia|].
      assert (3 * (dataSize b + (2 + Z.of_nat (length name) + 5)) / 2 <= 2 ^ 31 - 2^28)
        by (apply Z.div_le_upper_bound; lia). lia. }
  destruct (append_fields_built fs b1 _ Hv Hwf Hb1) as (b2 & -> & (Hb2 & Hsp2 & Hst2));
    [lia|rewrite !length_app, le_length; unfold max_doc; lia|].
  cbn [mbind option_bind]. change (BSON_OK =? BSON_ERROR) with false. cbv iota.
  rewrite <- (assoc_L (++) (w ++ start)) in Hb2.
  pose proof Hb2 as (Hh2 & Hf2 & Ho2' & He2 & Hds2).
  assert (Htop : stack b2 !!! Z.to_nat (stackPos b2 - 1) = Z.of_nat (length (w ++ start))).
  { rewrite Hsp2, Hsp1, Z.add_simpl_r in *. apply list_lookup_total_correct.
    rewrite <- (lookup_take_lt _ (Z.to_nat (stackPos b + 1))), Hst2, lookup_take_lt by lia.
    rewrite Hst1. apply list_lookup_insert_eq. lia. }
  destruct (finish_object_spec junk b2 (w ++ start) (body fs) Hh2 Ho2' ltac:(lia) Htop)
    as (rc & b3 & -> & [(-> & Hh3 & He3 & Hf3 & Hst3 & Hsp3 & Hg3)|(_ & Hmax & Hg3)]);
    rewrite !length_app, le_length in Hds2.
  2: { exfalso. unfold grown in Hg3. rewrite !length_app, le_length in Hg3.
    destruct Hg3 as [Hg|[Hg|Hg]]; [lia|lia|].
    assert (3 * (dataSize b2 + 1) / 2 <= 2 ^ 31 - 2^28) by (apply Z.div_le_upper_bound; lia). lia. }
  exists b3. split; [done|].
  split; [|split; [lia|]].
  - rewrite Es. split; [exact Hh3|]. split; [congruence|].
    split; [split; [rewrite Hst3; apply Ho2'|lia]|]. split; [congruence|].
    rewrite !length_app, le_length. simpl. unfold grown in Hg3.
    rewrite !length_app, le_length in Hg3. destruct Hg3 as [Hg|[Hg|Hg]]; [lia|lia|].
    assert (3 * (dataSize b2 + 1) / 2 <= 2 ^ 31 - 2^28) by (apply Z.div_le_upper_bound; lia). lia.
  - rewrite Hst3. rewrite Hsp1 in Hst2.
    apply (f_equal (take (Z.to_nat (stackPos b)))) in Hst2.
    rewrite !take_take, !Nat.min_l in Hst2 by lia. rewrite Hst2, Hst1.
    rewrite take_insert, decide_False by lia. done.
Qed.
Lemma string_base_built ty name b w s :
  name_ok name -> name_ok s -> building b w ->
  Z.of_nat (length w) + Z.of_nat (length (elem_bytes ty name (string_payload s))) <= max_doc ->
  exists b', bson_append_string_base junk b name (s ++ [0]) (Z.of_nat (length s)) ty = Some (BSON_OK, b')
    /\ extends b b' w (elem_bytes ty name (string_payload s)).
Proof.
  intros Hn Hs Hb Hsz. pose proof Hsz as Hsz'.
  unfold string_payload in Hsz'. rewrite elem_bytes_length, !length_app, le_length in Hsz'.
  simpl in Hsz'.
  eapply appends_building; [| |exact Hb|apply Hn|exact Hsz].
  - apply string_base_appends; [apply Hb|apply name_small; [done|lia]..].
  - destruct Hs as (_ & _ & Hs). intros [?|Hbig]; [done|].
    unfold max_doc in *. change INT_MAX with 2147483647 in Hbig. lia.
Qed.

Lemma pieces_built ty name b w pieces ds :
  name_ok name -> building b w -> ds = Z.of_nat (length (concat pieces)) ->
  Z.of_nat (length w) + Z.of_nat (length (elem_bytes ty name (concat pieces))) <= max_doc ->
  exists b', after_start (bson_append_estart junk b ty name ds) pieces = Some (BSON_OK, b')
    /\ extends b b' w (elem_bytes ty name (concat pieces)).
Proof.
  intros Hn Hb Hds Hsz. pose proof Hsz as Hsz'. rewrite elem_bytes_length in Hsz'.
  eapply (appends_building _ _ _ _ _ _ False); [|tauto|exact Hb|apply Hn|exact Hsz].
  apply after_start_appends; [apply Hb|apply name_small; [done|lia]| |done].
  unfold max_doc in Hsz'. lia.
Qed.

Lemma binary_built name b w t d :
  name_ok name -> building b w ->
  Z.of_nat (length w) + Z.of_nat (length (elem_bytes BSON_BINDATA name (binary_payload t d)))
    <= max_doc ->
  exists b', bson_append_binary junk b name t d (Z.of_nat (length d)) = Some (BSON_OK, b')
    /\ extends b b' w (elem_bytes BSON_BINDATA name (binary_payload t d)).
Proof.
  intros Hn Hb Hsz. pose proof Hsz as Hsz'. rewrite elem_bytes_length in Hsz'.
  assert (Hd : Z.of_nat (length d) <= Z.of_nat (length (binary_payload t d))).
  { unfold binary_payload. destruct (_ =? _); rewrite !length_app; simpl; lia. }
  eapply (appends_building _ _ _ _ _ _ False); [|tauto|exact Hb|apply Hn|exact Hsz].
  pose proof (binary_appends junk b w name t d []) as H. rewrite app_nil_r in H.
  apply H; [apply Hb|apply name_small; [done|lia]|]. unfold max_doc in Hsz'. lia.
Qed.

Lemma value_built_all v : value_built v.
Proof.
  revert v. apply (value_ind' value_built); [intros v|intros fs IH..].
  - destruct v; try exact I; intros name bb w Hwf Hn Hb _ Hsz; simpl in *.
    all: try (apply string_base_built; done).
    all: try (apply binary_built; done).
    + pose proof (pieces_built BSON_DOUBLE name bb w [le 8 d] 8 Hn Hb eq_refl Hsz) as H. exact H.
    + pose proof (pieces_built BSON_UNDEFINED name bb w [] 0 Hn Hb eq_refl Hsz) as H. exact H.
    + pose proof (pieces_built BSON_OID name bb w [o] 12 Hn Hb) as H.
      simpl in H. rewrite app_nil_r in H. apply H; [lia|done].
    + pose proof (pieces_built BSON_BOOL name bb w [[if b then 1 else 0]] 1 Hn Hb eq_refl Hsz) as H.
      unfold bson_append_bool. by destruct b.
    + pose proof (pieces_built BSON_DATE name bb w [le 8 d] 8 Hn Hb eq_refl Hsz) as H. exact H.
    + pose proof (pieces_built BSON_NULL name bb w [] 0 Hn Hb eq_refl Hsz) as H. exact H.
    + pose proof (pieces_built BSON_INT name bb w [le 4 n] 4 Hn Hb eq_refl Hsz) as H. exact H.
    + pose proof (pieces_built BSON_TIMESTAMP name bb w [le 4 i; le 4 t] 8 Hn Hb eq_refl Hsz) as H.
      exact H.
    + pose proof (pieces_built BSON_LONG name bb w [le 8 n] 8 Hn Hb eq_refl Hsz) as H. exact H.
  - intros name b w Hwf Hn Hb Hd Hsz. cbn [append_value payload value_type] in *.
    rewrite payload_fields in *. change (wf (VObject fs)) with (wf (VArray fs)) in Hwf.
    cbn [wf] in Hwf. rewrite wf_all in Hwf. cbn [depth] in Hd. fold (depth_fields fs) in Hd.
    destruct (object_built BSON_OBJECT fs name b w IH Hwf Hn Hb) as (b' & E & Hext); [lia|done|].
    exists b'. split; [|done]. rewrite <- E.
    destruct (bson_append_start junk BSON_OBJECT b name) as [[rc b1]|]; [|done].
    cbn [mbind option_bind]. by rewrite append_fields_eq.
  - intros name b w Hwf Hn Hb Hd Hsz. cbn [append_value payload value_type] in *.
    rewrite payload_fields in *. cbn [wf] in Hwf. rewrite wf_all in Hwf.
    cbn [depth] in Hd. fold (depth_fields fs) in Hd.
    destruct (object_built BSON_ARRAY fs name b w IH Hwf Hn Hb) as (b' & E & Hext); [lia|done|].
    exists b'. split; [|done]. rewrite <- E.
    destruct (bson_append_start junk BSON_ARRAY b name) as [[rc b1]|]; [|done].
    cbn [mbind option_bind]. by rewrite append_fields_eq.
Qed.

(** Finishing a document. *)
Lemma finish_spec b h bd :
  building b (h ++ bd) -> length h = 4%nat -> stackPos b = 0 ->
  Z.of_nat (length bd) <= max_doc ->
  exists b', bson_finish junk b = Some (BSON_OK, b') /\ is_doc b' (doc_bytes bd).
Proof.
  intros (Hb & Hfin & Hopen & Herr & Hds) Hh Hsp Hsz. unfold max_doc in Hsz.
  rewrite length_app, Hh in Hds. assert (INT_MAX = 2147483647) as E by done.
  unfold bson_finish.
  assert (Z.land (err b) BSON_NOT_UTF8 = 0) as ->.
  { apply Z.bits_inj'. intros n Hn. rewrite Z.land_spec, Z.bits_0.
    change BSON_NOT_UTF8 with (2 ^ 1). rewrite Z.pow2_bits_eqb by lia.
    destruct (Z.eqb_spec 1 n) as [<-|]; [|by rewrite andb_false_r].
    unfold not_utf8 in Herr. by rewrite Herr. }
  rewrite Hfin. cbn [negb Z.eqb].
  destruct (ensure_space_holds junk b (h ++ bd) 1 Hb ltac:(lia))
    as (rc & b1 & -> & Hb1 & [(-> & Hroom & Hmeta & _)|(-> & Hmax & ->)]); [|lia].
  change (BSON_OK =? BSON_ERROR) with false. cbv iota. unfold bson_append_byte.
  destruct (append_holds b1 _ [u8 0] Hb1) as (b2 & -> & Hb2 & Hm2 & Hd2); [cbn [length]; lia|].
  cbn [mbind option_bind]. rewrite (holds_cur _ _ Hb2).
  destruct Hb2 as (m & Hdm & Hlm & Hmax & Hcur & Hc & Hw).
  rewrite !length_app, Hh in *. simpl length in *.
  set (n := Z.of_nat (4 + length bd + 1)) in *.
  rewrite (proj2 (Z.leb_gt INT_MAX n)) by (unfold n; lia).
  destruct (store_holds b2 0 (le 4 n) m Hdm Hlm) as (m' & -> & Hlm' & Hm');
    [lia|rewrite le_length; unfold n in *; lia|].
  cbn [mbind option_bind]. eexists. split; [reflexivity|].
  assert (Hl : length (doc_bytes bd) = (length bd + 5)%nat)
    by (unfold doc_bytes; rewrite !length_app, le_length; simpl; lia).
  assert (En : n = Z.of_nat (length bd) + 5) by (unfold n; lia).
  destruct b2; cbn -[le doc_bytes] in *. split; [done|].
  exists (drop (4 + length bd + 1) m). rewrite Hl. split; [|split; [lia|]].
  - f_equal. rewrite Hm', En, le_length. unfold doc_bytes.
    change (take (Z.to_nat 0) m) with (@nil Z). rewrite app_nil_l, <- (assoc_L (++)). f_equal.
    change (Z.to_nat 0 + 4)%nat with 4%nat.
    rewrite <- (take_drop (S (S (S (S (length bd + 1))))) m) at 1. rewrite Hw.
    rewrite <- !(assoc_L (++)). by rewrite drop_app_length' by done.
  - unfold doc_bytes. rewrite take_app_length' by (by rewrite le_length). f_equal. lia.
Qed.

Lemma build_spec fs b :
  length (stack b) = 32%nat -> wf_fields fs -> depth_fields fs <= 32 ->
  Z.of_nat (length (body fs)) + 4 <= max_doc ->
  exists b', build junk fs b = Some (BSON_OK, b') /\ is_doc b' (doc_bytes (body fs)).
Proof.
  intros Hst Hwf Hd Hsz. unfold build.
  set (h := take 4 (fresh junk initialBufferSize)).
  assert (Hh : length h = 4%nat) by done.
  assert (Hb : building (bson_init junk b) h).
  { unfold bson_init, _bson_init_size, _bson_reset. destruct b; simpl in *.
    split_and!; try done; try lia.
    - exists (fresh junk initialBufferSize). by split_and!.
    - split; simpl; lia. }
  assert (Hv : Forall (fun f => value_built f.2) fs)
    by (apply Forall_forall; intros; apply value_built_all).
  assert (Hsp0 : stackPos (bson_init junk b) = 0) by by destruct b.
  destruct (append_fields_built fs _ h Hv Hwf Hb) as (b1 & -> & (Hb1 & Hsp & _)); [lia..|].
  apply (finish_spec b1 h (body fs)); [done|done|lia|lia].
Qed.
End BuildSpec.

(** ** Reading back *)

(** [bson_find] with enough turns for any document of this size. *)
Definition find_in (b : bson) (name : list Z) : option (Z * bson_iterator) :=
  match data b with
  | Some m => bson_find m (S (length m)) name
  | None => None
  end.

Fixpoint lookup_field (fs : fields) (name : list Z) : option value :=
  match fs with
  | [] => None
  | (n, v) :: fs' => if bool_decide (name = n) then Some v else lookup_field fs' name
  end.

(** The accessors of the value's type return [v] at [it]; an object or an
    array is there as a document of its own. *)
Definition reads (b : bson) (it : bson_iterator) (v : value) : Prop :=
  match data b with
  | None => False
  | Some m =>
      bson_iterator_type m it = Some (value_type v) /\
      match v with
      | VDouble d => bson_iterator_double_raw m it = Some d
      | VString s | VSymbol s => bson_iterator_string m it = Some s
          /\ bson_iterator_string_len m it = Some (Z.of_nat (length s) + 1)
      | VCode s => exists p, bson_iterator_code m it = Some (Some p) /\ string_at m p = Some s
      | VObject fs | VArray fs => exists p, bson_iterator_value m it = Some p
          /\ at_ m p (doc_bytes (body fs))
      | VBinary t d => bson_iterator_bin_type m it = Some t
          /\ bson_iterator_bin_len m it = Some (Z.of_nat (length d))
          /\ exists p, bson_iterator_bin_data m it = Some p
             /\ read_bytes m p (Z.of_nat (length d)) = Some d
      | VUndefined | VNull => True
      | VOid o => bson_iterator_oid m it = Some o
      | VBool x => bson_iterator_bool m it = Some (if x then 1 else 0)
      | VDate n => bson_iterator_date m it = Some n
      | VInt n => bson_iterator_int m it = Some n /\ bson_iterator_long m it = Some n
      | VLong n => bson_iterator_long m it = Some n
      | VTimestamp i t => bson_iterator_timestamp m it = Some (i, t)
      end
  end.

Lemma binary_payload_length t d :
  Z.of_nat (length (binary_payload t d)) =
    Z.of_nat (length d) + if s8 t =? BSON_BIN_BINARY_OLD then 9 else 5.
Proof. unfold binary_payload. destruct (_ =? _); rewrite !length_app; simpl; lia. Qed.

Lemma payload_ok_value v :
  wf v -> Z.of_nat (length (payload v)) <= max_doc -> payload_ok (value_type v) (payload v).
Proof.
  intros Hwf Hsz. unfold max_doc in Hsz. assert (INT_MAX = 2147483647) as E by done.
  assert (INT_MIN = -2147483648) as E' by done.
  assert (Hstr : forall s, Z.of_nat (length (string_payload s)) <= 2 ^ 28 ->
    with_size 4 (string_payload s)).
  { intros s Hs. unfold string_payload in *. rewrite !length_app, le_length in Hs. simpl in Hs.
    eexists _, _. split; [reflexivity|]. rewrite !length_app, le_length. simpl. lia. }
  assert (Hdoc : forall l, Z.of_nat (length (doc_bytes l)) <= 2 ^ 28 -> with_size 0 (doc_bytes l)).
  { intros l Hl. unfold doc_bytes in *. rewrite !length_app, le_length in Hl. simpl in Hl.
    eexists _, _. split; [reflexivity|]. rewrite !length_app, le_length. simpl. lia. }
  destruct v; unfold payload_ok; simpl in *; auto.
  - rewrite binary_payload_length in Hsz. pose proof (binary_payload_length type d) as Hl.
    unfold with_size. rewrite Hl. unfold binary_payload in *.
    destruct (s8 type =? BSON_BIN_BINARY_OLD); eexists _, _; (split; [reflexivity|]); lia.
  - lia.
Qed.

Lemma find_pos_fields p fs name :
  match (find_pos p (map to_elem fs) name).2, lookup_field fs name with
  | Some e, Some v => e = Elem (value_type v) name (payload v)
      /\ exists n, (n, v) ∈ fs
  | None, None => True
  | _, _ => False
  end.
Proof.
  revert p. induction fs as [|[n v] fs IH]; intros p; simpl; [done|].
  case_bool_decide as E; simpl.
  - subst. split; [done|]. exists n. left.
  - specialize (IH (p + Z.of_nat (length (enc (to_elem (n, v)))))).
    destruct (find_pos _ _ _).2, (lookup_field fs name); try done.
    destruct IH as [-> [n' ?]]. split; [done|]. exists n'. by right.
Qed.

Lemma double_le d : 0 <= d < 2 ^ 64 -> le_value (le 8 d) = d.
Proof. intros. rewrite le_value_le. change (256 ^ Z.of_nat 8) with (2 ^ 64). by apply Z.mod_small. Qed.

Section Reads.
Context (m : list Z) (it : bson_iterator) (name : list Z) (v : value) (rest : list Z).
Let e := Elem (value_type v) name (payload v).
Hypothesis (He : elem_ok e) (Hat : at_elem m it e rest) (Hwf : wf v).

Lemma read_at n l :
  payload v = l -> n = Z.of_nat (length l) -> read_bytes m (value_pos it e) n = Some l.
Proof using He Hat.
  intros <- ->. eapply at_read; [|done].
  exact (proj1 (at_app _ _ _ _ (elem_payload_at m it e rest He Hat))).
Qed.

Lemma read_piece l1 l2 l3 n :
  payload v = l1 ++ l2 ++ l3 -> n = Z.of_nat (length l2) ->
  read_bytes m (value_pos it e + Z.of_nat (length l1)) n = Some l2.
Proof using He Hat.
  intros Ep Hn. pose proof (elem_payload_at m it e rest He Hat) as H. simpl in H.
  rewrite Ep, <- !(assoc_L (++)) in H. apply at_app in H as [_ H]. apply at_app in H as [H _].
  by eapply at_read.
Qed.

Lemma read_string s :
  payload v = string_payload s -> name_ok s ->
  string_at m (value_pos it e + 4) = Some s
  /\ (Z.of_nat (length s) + 1 <= INT_MAX ->
      bson_iterator_int_raw m it = Some (Z.of_nat (length s) + 1)).
Proof using He Hat.
  intros Ep (Hs & _). pose proof (elem_payload_at m it e rest He Hat) as H. simpl in H.
  rewrite Ep in H. unfold string_payload in H. split.
  - rewrite <- !(assoc_L (++)) in H. apply at_app in H as [_ H]. rewrite le_length in H.
    eapply at_string; [|done]. exact H.
  - intros Hl. eapply (elem_int_raw m it e rest He Hat); [exact Ep|]. unfold INT_MIN. lia.
Qed.

Lemma read_value v0 b :
  v = v0 -> data b = Some m -> Z.of_nat (length (payload v)) <= max_doc -> reads b it v0.
Proof using He Hat Hwf.
  intros Ev Hd Hsz. unfold reads. rewrite Hd.
  pose proof (elem_type m it e rest He Hat) as Hty.
  pose proof (elem_value m it e rest He Hat) as Hval.
  pose proof (elem_payload_at m it e rest He Hat) as Hpay. cbn [e_type e_payload e] in *.
  assert (Hty' : bson_iterator_type m it = Some (value_type v0)) by by rewrite <- Ev.
  split; [exact Hty'|]. clear Hty.
  assert (INT_MAX = 2147483647) as E by done. assert (INT_MIN = -2147483648) as E' by done.
  unfold max_doc in Hsz. assert (Ep : payload v = payload v0) by by rewrite Ev.
  assert (Hwf0 : wf v0) by by rewrite <- Ev.
  assert (H8 : forall n, payload v = le 8 n -> read_bytes m (value_pos it e) 8 = Some (le 8 n))
    by (intros n Hn; apply read_at; [done | by rewrite le_length]).
  assert (H4 : forall n, payload v = le 4 n -> INT_MIN <= n <= INT_MAX ->
    bson_iterator_int_raw m it = Some n).
  { intros n Hn Hr. eapply (elem_int_raw m it e rest He Hat n []); [|done]. by rewrite app_nil_r. }
  clear Ev.
  destruct v0; cbn [payload wf value_type] in *; try exact I.
  - unfold bson_iterator_double_raw. rewrite Hval. cbn [mbind option_bind].
    rewrite (H8 d Ep). cbn [mbind option_bind]. by rewrite double_le.
  - destruct (read_string s Ep Hwf0) as [Hs Hn]. unfold bson_iterator_string. rewrite Hty'.
    cbn [mbind option_bind]. simpl. rewrite Hval. cbn [mbind option_bind]. split; [done|].
    apply Hn. rewrite Ep in Hsz. unfold string_payload in Hsz.
    rewrite !length_app in Hsz. simpl in Hsz. lia.
  - rewrite payload_fields in Ep. exists (value_pos it e). split; [done|].
    rewrite Ep in Hpay. by apply at_app in Hpay as [? _].
  - rewrite payload_fields in Ep. exists (value_pos it e). split; [done|].
    rewrite Ep in Hpay. by apply at_app in Hpay as [? _].
  - rewrite Ep, binary_payload_length in Hsz. unfold binary_payload in *.
    rewrite Ep in Hpay.
    assert (Hs8 : s8 (u8 type) = type).
    { clear - Hwf0. assert (exists k, 0 <= k < 256 /\ type = k - 128) as (k & Hk & ->)
        by (exists (type + 128); lia). by_range k 0 256. }
    assert (Hs8' : s8 type = type).
    { clear - Hwf0. assert (exists k, 0 <= k < 256 /\ type = k - 128) as (k & Hk & ->)
        by (exists (type + 128); lia). by_range k 0 256. }
    rewrite Hs8' in *. set (len := Z.of_nat (length d)) in *.
    assert (Hhead : exists n tl, payload v = le 4 n ++ u8 type :: tl
        /\ n = (if type =? BSON_BIN_BINARY_OLD then len + 4 else len)).
    { destruct (type =? BSON_BIN_BINARY_OLD); do 2 eexists; by split. }
    destruct Hhead as (n & tl & Ep' & Hn).
    assert (Hraw : bson_iterator_int_raw m it = Some n).
    { eapply (elem_int_raw m it e rest He Hat); [exact Ep'|].
      destruct (type =? BSON_BIN_BINARY_OLD); lia. }
    assert (Hbt : bson_iterator_bin_type m it = Some type).
    { unfold bson_iterator_bin_type. rewrite Hval. cbn [mbind option_bind].
      rewrite <- Ep, Ep', <- (assoc_L (++)) in Hpay. apply at_app in Hpay as [_ Hpay].
      rewrite le_length in Hpay. destruct (at_cons _ _ _ _ Hpay) as [Hc _].
      change (Z.of_nat 4) with 4 in Hc. rewrite Hc. cbn [mbind option_bind]. by rewrite Hs8. }
    unfold bson_iterator_bin_len, bson_iterator_bin_data. rewrite Hbt, Hraw, Hval.
    cbn [mbind option_bind]. split; [done|].
    destruct (type =? BSON_BIN_BINARY_OLD).
    + split; [f_equal; rewrite Hn; replace (len + 4 - 4) with len by lia; apply s32_small; lia|].
      eexists. split; [done|].
      rewrite <- (app_nil_r d) in Ep.
      replace (value_pos it e + 9) with (value_pos it e + Z.of_nat (length
        (le 4 (len + 4) ++ u8 type :: le 4 len))) by (rewrite length_app; simpl; lia).
      apply (read_piece _ d []); [|done]. rewrite Ep. by rewrite <- !(assoc_L (++)).
    + split; [by f_equal|]. eexists. split; [done|].
      replace (value_pos it e + 5) with (value_pos it e + Z.of_nat (length
        (le 4 len ++ [u8 type]))) by (rewrite length_app; simpl; lia).
      apply (read_piece _ d []); [|done]. rewrite Ep, app_nil_r. by rewrite <- !(assoc_L (++)).
  - unfold bson_iterator_oid. rewrite Hval. cbn [mbind option_bind].
    apply read_at; [done|lia].
  - unfold bson_iterator_bool, bson_iterator_bool_raw. rewrite Hty', Hval. cbn [mbind option_bind].
    simpl. rewrite Ep in Hpay. destruct (at_cons _ _ _ _ Hpay) as [-> _]. by destruct b0.
  - unfold bson_iterator_date, bson_iterator_long_raw. rewrite Hval. cbn [mbind option_bind].
    rewrite (H8 d Ep). cbn [mbind option_bind]. by rewrite s64_le.
  - exists (value_pos it e + 4). unfold bson_iterator_code. rewrite Hty'.
    cbn [mbind option_bind]. simpl. rewrite Hval. split; [done|].
    by apply (read_string s Ep).
  - destruct (read_string s Ep Hwf0) as [Hs Hn]. unfold bson_iterator_string. rewrite Hty'.
    cbn [mbind option_bind]. simpl. rewrite Hval. cbn [mbind option_bind]. split; [done|].
    apply Hn. rewrite Ep in Hsz. unfold string_payload in Hsz.
    rewrite !length_app in Hsz. simpl in Hsz. lia.
  - unfold bson_iterator_int, bson_iterator_long. rewrite Hty'. cbn [mbind option_bind]. simpl.
    split; by apply H4.
  - unfold bson_iterator_timestamp. rewrite Hval. cbn [mbind option_bind].
    pose proof (read_piece [] (le 4 i) (le 4 t) 4 Ep) as R1.
    pose proof (read_piece (le 4 i) (le 4 t) [] 4) as R2.
    change (Z.of_nat (length [])) with 0 in R1. rewrite Z.add_0_r in R1.
    rewrite R1 by (by rewrite le_length). cbn [mbind option_bind].
    rewrite !le_length in R2. change (Z.of_nat 4) with 4 in R2.
    rewrite R2 by (by rewrite ?app_nil_r). cbn [mbind option_bind].
    destruct Hwf0. by rewrite !s32_le by lia.
  - unfold bson_iterator_long, bson_iterator_long_raw. rewrite Hty', Hval.
    cbn [mbind option_bind]. simpl. rewrite (H8 n Ep). cbn [mbind option_bind]. by rewrite s64_le.
Qed.
End Reads.

(** ** Properties *)

(** C7: Building any document of well-formed fields, nested to a depth of at
    most 32 and below 256 MiB, through the [bson_append_*] functions succeeds,
    never writes outside the buffer, and leaves a finished document whose
    bytes are the encoding of the fields; then [bson_find] on any name
    terminates, finds the first field of that name or reports its absence, and
    the accessors return the value that was appended. *)
Theorem bson_document_roundtrip junk fs b0 :
  length (stack b0) = 32%nat -> wf_fields fs -> depth_fields fs <= 32 ->
  Z.of_nat (length (doc_bytes (body fs))) <= max_doc ->
  exists b, build junk fs b0 = Some (BSON_OK, b) /\ is_doc b (doc_bytes (body fs))
    /\ forall name, match lookup_field fs name with
         | Some v => exists it, find_in b name = Some (value_type v, it) /\ reads b it v
         | None => exists it, find_in b name = Some (BSON_EOO, it)
         end.
Proof.
  intros Hst Hwf Hd Hsz. pose proof Hsz as Hsz'.
  unfold doc_bytes in Hsz. rewrite !length_app, le_length in Hsz. simpl in Hsz.
  destruct (build_spec junk fs b0 Hst Hwf Hd ltac:(lia)) as (b & Hb & Hdoc).
  exists b. split; [done|]. split; [done|]. intros name.
  destruct Hdoc as (_ & tl & Hdata & Hlen & _). unfold find_in. rewrite Hdata.
  set (m := doc_bytes (body fs) ++ tl) in *.
  assert (Hat : at_ m 4 (enc_all (map to_elem fs) ++ 0 :: tl)).
  { exists (le 4 (Z.of_nat (length (body fs)) + 5)), []. rewrite app_nil_r, le_length.
    split; [|done]. unfold m, doc_bytes. fold (body fs). by rewrite <- !(assoc_L (++)). }
  assert (Hsizes : forall n v, (n, v) ∈ fs -> Z.of_nat (length (payload v)) <= max_doc).
  { intros n v Hin. assert (length (payload v) <= length (body fs))%nat; [|lia].
    clear - Hin. induction fs as [|f fs IH]; [by apply not_elem_of_nil in Hin|].
    change (body (f :: fs)) with (enc (to_elem f) ++ body fs). rewrite length_app.
    apply elem_of_cons in Hin as [<-|Hin]; [|specialize (IH Hin); lia].
    pose proof (enc_length (to_elem (n, v))) as Hl. cbn [to_elem e_payload e_name fst snd] in Hl. lia. }
  assert (Hes : Forall elem_ok (map to_elem fs)).
  { apply Forall_map, Forall_forall. intros [n v] Hin. unfold wf_fields in Hwf.
    rewrite Forall_forall in Hwf. destruct (Hwf _ Hin) as [Hn Hv]. simpl in *.
    split; [by destruct v|]. split; [apply Hn|]. apply payload_ok_value; [done|by eapply Hsizes]. }
  assert (Hfuel : (length (map to_elem fs) < S (length m))%nat).
  { rewrite length_map. assert (length fs <= length (body fs))%nat.
    { clear. induction fs as [|f fs IH]; [simpl; lia|].
      change (body (f :: fs)) with (enc (to_elem f) ++ body fs). rewrite length_app.
      pose proof (enc_length (to_elem f)). simpl. lia. }
    unfold m, doc_bytes. rewrite !length_app. lia. }
  destruct (bson_find_spec m name (S (length m)) (map to_elem fs) tl Hat Hes Hfuel) as [-> Hfound].
  pose proof (find_pos_fields 4 fs name) as Hpos.
  destruct (find_pos 4 (map to_elem fs) name) as [p [e|]]; simpl in *;
    destruct (lookup_field fs name) as [v|]; try done; [|by eexists].
  destruct Hpos as [-> [n Hin]], Hfound as [He [r Hr]]. eexists. split; [done|].
  eapply (read_value m _ name v r He Hr); [| |done|by eapply Hsizes].
  - unfold wf_fields in Hwf. rewrite Forall_forall in Hwf. by apply (Hwf (n, v)).
  - done.
Qed.

Definition example_fields : fields :=
  [(bs "_id", VOid (bs "0123456789ab")); (bs "length", VLong 5000000000);
   (bs "sub", VArray [(bs "0", VInt (-7)); (bs "1", VObject [])]);
   (bs "data", VBinary 0 [1; 2; 3])].

Lemma bson_document_roundtrip_witness :
  exists b, build (fun _ => 0) example_fields (Bson None 0 0 false (replicate 32 0) 0 0) = Some (BSON_OK, b)
    /\ (exists it, find_in b (bs "length") = Some (BSON_LONG, it) /\ reads b it (VLong 5000000000))
    /\ (exists it, find_in b (bs "data") = Some (BSON_BINDATA, it) /\ reads b it (VBinary 0 [1; 2; 3]))
    /\ (exists it, find_in b (bs "none") = Some (BSON_EOO, it)).
Proof.
  assert (Hascii : forall s, forallb (fun c => (0 <? c) && (c <? 128)) s = true -> name_ok s).
  { intros s Hs. assert (Hf : Forall (fun c => 0 < c < 128) s).
    { apply Forall_forall. intros c Hc. rewrite forallb_forall in Hs.
      specialize (Hs c ltac:(by apply list_elem_of_In)). lia. }
    split_and!.
    - eapply Forall_impl; [exact Hf|]. simpl. intros; lia.
    - eapply Forall_impl; [exact Hf|]. simpl. unfold is_byte. intros; lia.
    - induction Hf as [|c s Hc _ IH]; [apply accepted_string_nil|].
      apply (accepted_string_app [c]); [|apply IH; simpl in Hs; by apply andb_true_iff in Hs as [_ ?]].
      left. exists c. unfold utf8_encode. rewrite (proj2 (Z.ltb_lt c 0x80)) by lia. split; [lia|done]. }
  destruct (bson_document_roundtrip (fun _ => 0) example_fields
    (Bson None 0 0 false (replicate 32 0) 0 0)) as (b & Hb & _ & H).
  - done.
  - repeat constructor; simpl; try (by apply Hascii); unfold INT_MIN, INT_MAX; lia.
  - by vm_compute.
  - by vm_compute.
  - exists b. split; [done|]. split_and!;
      [exact (H (bs "length")) | exact (H (bs "data")) | exact (H (bs "none"))].
Defined.

(** Each function that appends one element either appends the whole
    element, leaving the rest of the document alone, or returns an error and
    leaves the written bytes as they were; it never writes outside the buffer;
    and it refuses only for a reason: the document is finished, the name (or
    the string) is not UTF-8, or the document would reach [INT_MAX]. *)
Theorem bson_append_whole junk b w name :
  holds b w -> small_name name ->
  (forall n, appends (bson_append_int junk b name n) b w BSON_INT name (le 4 n) False)
  /\ (forall n, appends (bson_append_long junk b name n) b w BSON_LONG name (le 8 n) False)
  /\ (forall d, appends (bson_append_double junk b name d) b w BSON_DOUBLE name (le 8 d) False)
  /\ (forall d, appends (bson_append_date junk b name d) b w BSON_DATE name (le 8 d) False)
  /\ (forall n, appends (bson_append_bool junk b name n) b w BSON_BOOL name
        [if n =? 0 then 0 else 1] False)
  /\ appends (bson_append_null junk b name) b w BSON_NULL name [] False
  /\ (forall o, length o = 12%nat ->
        appends (bson_append_oid junk b name o) b w BSON_OID name o False)
  /\ (forall t i, appends (bson_append_timestamp2 junk b name t i) b w BSON_TIMESTAMP name
        (le 4 i ++ le 4 t) False)
  /\ (forall s, small_name s -> appends (bson_append_string junk b name s) b w BSON_STRING name
        (string_payload s) (~ accepted_string s \/ INT_MAX <= Z.of_nat (length s)))
  /\ (forall t d, Z.of_nat (length d) < 2 ^ 59 ->
        appends (bson_append_binary junk b name t d (Z.of_nat (length d))) b w BSON_BINDATA name
          (binary_payload t d) False)
  /\ (forall sub d, is_doc sub d ->
        appends (bson_append_bson junk b name (Some sub)) b w BSON_OBJECT name d False).
Proof.
  intros Hb Hn.
  assert (H : forall ty pieces l ds, concat pieces = l -> ds = Z.of_nat (length l) -> ds < 2 ^ 61 ->
    appends (after_start (bson_append_estart junk b ty name ds) pieces) b w ty name l False).
  { intros ty pieces l ds <- -> Hds. by apply after_start_appends. }
  assert (H1 : forall ty l ds, ds = Z.of_nat (length l) -> ds < 2 ^ 61 ->
    appends (after_start (bson_append_estart junk b ty name ds) [l]) b w ty name l False).
  { intros ty l ds. apply H. simpl. by rewrite app_nil_r. }
  split; [intros n; apply H1; [by rewrite le_length | lia]|].
  split; [intros n; apply H1; [by rewrite le_length | lia]|].
  split; [intros n; apply H1; [by rewrite le_length | lia]|].
  split; [intros n; apply H1; [by rewrite le_length | lia]|].
  split; [intros n; apply H1; [reflexivity | lia]|].
  split; [apply (H _ []); [reflexivity | reflexivity | lia]|].
  split; [intros o Ho; apply H1; [by rewrite Ho | lia]|].
  split; [intros t i; apply (H _ [le 4 i; le 4 t]);
          [reflexivity | by rewrite length_app, !le_length | lia]|].
  split; [intros s Hs; by apply string_base_appends|].
  split; [|intros sub d Hsub; by apply bson_appends].
  intros t d Hd. pose proof (binary_appends junk b w name t d []) as Hbin.
  rewrite app_nil_r in Hbin. by apply Hbin.
Qed.

Lemma bson_append_whole_witness :
  let b := bson_init (fun _ => 0) (Bson None 0 0 false (replicate 32 0) 0 0) in
  holds b [0; 0; 0; 0] /\
  appends (bson_append_int (fun _ => 0) b (bs "n") 5) b [0; 0; 0; 0] BSON_INT (bs "n") [5; 0; 0; 0] False.
Proof.
  intros b. assert (Hb : holds b [0; 0; 0; 0]).
  { exists (replicate 128 0). by split_and!. }
  split; [exact Hb|].
  assert (Hn : small_name (bs "n")) by (split; [by repeat constructor | by vm_compute]).
  exact (proj1 (bson_append_whole (fun _ => 0) b [0; 0; 0; 0] (bs "n") Hb Hn) 5).
Defined.

(** The limit on nesting is not checked: with 32 objects open, opening
    one more is a write outside [b->stack]. *)
Theorem bson_append_start_overflow junk type b w name :
  building b w -> stackPos b = 32 -> name_ok name ->
  Z.of_nat (length w) + Z.of_nat (length name) + 7 <= max_doc ->
  bson_append_start junk type b name = None.
Proof.
  intros (Hb & Hfin & [Hst _] & _ & Hds) Hsp Hn Hsz. unfold max_doc in Hsz.
  assert (INT_MAX = 2147483647) as E by done. unfold bson_append_start.
  destruct (estart_holds junk b w type name 5 Hb) as
    (rc & b1 & -> & Hf & [(-> & _)|(_ & _ & Hr)]).
  - split; [apply Hn|lia].
  - lia.
  - cbn [mbind option_bind]. change (BSON_OK =? BSON_ERROR) with false. cbv iota.
    unfold frame in Hf. injection Hf as _ -> ->. rewrite Hst, Hsp. done.
  - exfalso. destruct Hr as [Hr|[Hr|Hr]]; [congruence|by apply Hr, Hn|lia].
Qed.

(** The buffer after [n] calls of [bson_append_start_object] with the name
    [a]. *)
Fixpoint nest (n : nat) (b : bson) : option bson :=
  match n with
  | O => Some b
  | S n' => '(_, b) ← bson_append_start_object (fun _ => 0) b (bs "a"); nest n' b
  end.

Lemma bson_append_start_overflow_witness :
  match nest 32 (bson_init (fun _ => 0) (Bson None 0 0 false (replicate 32 0) 0 0)) with
  | Some b => stackPos b = 32 /\ bson_append_start (fun _ => 0) BSON_OBJECT b (bs "a") = None
  | None => False
  end.
Proof.
  destruct (nest 32 _) as [b|] eqn:E; [|by vm_compute in E].
  vm_compute in E. injection E as <-. split; [done|].
  match goal with |- bson_append_start _ _ ?b _ = _ =>
    apply (bson_append_start_overflow _ _ b (take 228 (default [] (data b)))) end.
  - split; [eexists; split; [reflexivity|]; split_and!; by vm_compute|].
    split_and!; by vm_compute.
  - done.
  - split_and!; [by repeat constructor|by repeat constructor|].
    apply (accepted_string_app [97] []); [|apply accepted_string_nil].
    left. by exists 97.
  - by vm_compute.
Defined.

(** An object identifier printed in hexadecimal reads back, and so does
    every string of 24 lowercase hexadecimal digits through the
    identifier. *)
Theorem bson_oid_string_roundtrip oid str :
  bytes oid -> length oid = 12%nat -> length str = 24%nat -> Forall (fun c => c ∈ oid_hex) str ->
  bson_oid_from_string (bson_oid_to_string oid) = oid
  /\ bson_oid_to_string (bson_oid_from_string str) = str.
Proof.
  intros Hb Hl Hs Hd. assert (Hrd : forall b, is_byte b ->
    u8 (Z.lor (Z.shiftl (hexbyte (oid_hex !!! Z.to_nat (Z.shiftr (Z.land b 0xf0) 4))) 4)
              (hexbyte (oid_hex !!! Z.to_nat (Z.land b 0x0f)))) = b).
  { intros b Hb0. by_byte b. }
  assert (Hw : forall c d, c ∈ oid_hex -> d ∈ oid_hex ->
    let b := u8 (Z.lor (Z.shiftl (hexbyte c) 4) (hexbyte d)) in
    oid_hex !!! Z.to_nat (Z.shiftr (Z.land b 0xf0) 4) = c /\ oid_hex !!! Z.to_nat (Z.land b 0x0f) = d).
  { intros c d Hc Hd'. set (P c d := let b := u8 (Z.lor (Z.shiftl (hexbyte c) 4) (hexbyte d)) in
      oid_hex !!! Z.to_nat (Z.shiftr (Z.land b 0xf0) 4) = c /\ oid_hex !!! Z.to_nat (Z.land b 0x0f) = d).
    assert (Hall : forallb (fun c => forallb (fun d => bool_decide (P c d)) oid_hex) oid_hex = true)
      by (vm_compute; reflexivity).
    rewrite forallb_forall in Hall. specialize (Hall c ltac:(by apply list_elem_of_In)).
    rewrite forallb_forall in Hall. specialize (Hall d ltac:(by apply list_elem_of_In)).
    by apply bool_decide_eq_true_1 in Hall. }
  split.
  - do 12 (destruct oid as [|? oid]; [done|]). destruct oid; [|done].
    repeat match goal with H : bytes (_ :: _) |- _ => apply Forall_cons in H as [? H] end.
    unfold bson_oid_from_string, bson_oid_to_string. simpl.
    repeat (apply (f_equal2 cons); [by apply Hrd|]). done.
  - do 24 (destruct str as [|? str]; [done|]). destruct str; [|done].
    repeat match goal with H : Forall (fun c => c ∈ oid_hex) (_ :: _) |- _ =>
      apply Forall_cons in H as [? H] end.
    unfold bson_oid_from_string, bson_oid_to_string. simpl.
    repeat (apply (f_equal2 cons); [by apply Hw|]). done.
Qed.

Lemma bson_oid_string_roundtrip_witness :
  bson_oid_from_string (bson_oid_to_string (bs "0123456789ab")) = bs "0123456789ab"
  /\ bson_oid_to_string (bson_oid_from_string (bs "4c88beb3ffffffff0123456a")) = bs "4c88beb3ffffffff0123456a".
Proof.
  apply bson_oid_string_roundtrip; [by apply (bool_decide_unpack _); vm_compute|done|done|].
  by apply (bool_decide_unpack _); vm_compute.
Defined.
