(* ===== verification/MongoConn.v ===== *)
(** * Connections of the MongoDB driver (mongo-c-driver/src/env.c, mongo.c)

    The record of a connection, its errors, the sockets below it and the
    checks of names.  The system calls are the class [Net]; env.c calls [send]
    and [recv] until all bytes have gone or come, in as many pieces as the
    network likes.  A loop that does not end in [rounds] turns is [None], like
    undefined behaviour. *)

From stdpp Require Import pretty.
From S2P Require Import Prelude BsonUtf8 BsonBuild BsonIter.

Set Warnings "-register-all".

#[local] Abbreviation length := (@List.length _).

(** ** Data *)

Definition MONGO_OK : Z := 0.
Definition MONGO_ERROR : Z := -1.
Definition MONGO_DEFAULT_PORT : Z := 27017.
Definition MONGO_DEFAULT_MAX_BSON_SIZE : Z := 4 * 1024 * 1024.
Definition MONGO_ERR_LEN : nat := 128.

(** [driver/mongo.h:41-60] mongo_error_t *)
Definition MONGO_CONN_SUCCESS : Z := 0.
Definition MONGO_CONN_NO_SOCKET : Z := 1.
Definition MONGO_CONN_FAIL : Z := 2.
Definition MONGO_CONN_ADDR_FAIL : Z := 3.
Definition MONGO_CONN_NOT_MASTER : Z := 4.
Definition MONGO_CONN_BAD_SET_NAME : Z := 5.
Definition MONGO_CONN_NO_PRIMARY : Z := 6.
Definition MONGO_IO_ERROR : Z := 7.
Definition MONGO_SOCKET_ERROR : Z := 8.
Definition MONGO_READ_SIZE_ERROR : Z := 9.
Definition MONGO_COMMAND_FAILED : Z := 10.
Definition MONGO_WRITE_ERROR : Z := 11.
Definition MONGO_NS_INVALID : Z := 12.
Definition MONGO_BSON_INVALID : Z := 13.
Definition MONGO_BSON_NOT_FINISHED : Z := 14.
Definition MONGO_BSON_TOO_LARGE : Z := 15.
Definition MONGO_WRITE_CONCERN_INVALID : Z := 16.

(** [driver/mongo.h:140-144] mongo_host_port: a list of them follows [next]. *)
Record host_port := HostPort { host : list Z; port : Z }.

(** [driver/mongo.h:146-154] mongo_write_concern *)
Record write_concern := WriteConcern {
  wc_w : Z; wc_wtimeout : Z; wc_j : Z; wc_fsync : Z; wc_mode : option (list Z); wc_cmd : option bson
}.
#[export] Instance eta_wc : Settable write_concern := fun c =>
  WriteConcern (wc_w c) (wc_wtimeout c) (wc_j c) (wc_fsync c) (wc_mode c) (wc_cmd c).

(** [driver/mongo.h:156-161] mongo_replica_set *)
Record replica_set := ReplicaSet {
  seeds : list host_port; hosts : list host_port; set_name : list Z; primary_connected : bool
}.
#[export] Instance eta_rs : Settable replica_set := fun r =>
  ReplicaSet (seeds r) (hosts r) (set_name r) (primary_connected r).

(** [driver/mongo.h:163-179] mongo: the texts [errstr] and [lasterrstr] are
    arrays of [MONGO_ERR_LEN] characters. *)
Record mongo := Mongo {
  primary : option host_port;
  replica : option replica_set;
  sock : Z;
  op_timeout_ms : Z;
  max_bson_size : Z;
  connected : bool;
  concern : option write_concern;
  c_err : Z;
  errcode : Z;
  errstr : list Z;
  lasterrcode : Z;
  lasterrstr : list Z
}.
#[export] Instance eta_mongo : Settable mongo := fun c =>
  Mongo (primary c) (replica c) (sock c) (op_timeout_ms c) (max_bson_size c) (connected c)
    (concern c) (c_err c) (errcode c) (errstr c) (lasterrcode c) (lasterrstr c).

(** ** The system *)

(** System calls: what [send] has taken, or [-1], with [errno]; what [recv] has
    got, where nothing is an error or the end of the stream, with [errno]; the
    addresses of a name. *)
Class Net (W : Type) := {
  addr : Type;
  sys_send : Z -> list Z -> W -> (Z * Z) * W;
  sys_recv : Z -> Z -> W -> (list Z * Z) * W;
  sys_close : Z -> W -> W;
  sys_socket : option addr -> W -> Z * W;
  sys_connect : Z -> addr + list Z -> W -> Z * W;
  sys_setsockopt : Z -> list Z -> Z -> W -> (Z * Z) * W;
  getaddrinfo : list Z -> Z -> W -> option (list addr) * W;
  sys_rand : W -> Z * W;
  strerror : Z -> list Z
}.

Definition EPIPE : Z := 32.

(** A store of bytes at the beginning of an array. *)
Definition over (l array : list Z) : list Z := l ++ drop (length l) array.

(** A computation of the driver: on a connection and the world. *)
Abbreviation D W := (M (mongo * W)).

Definition on_conn {W} (f : mongo -> mongo) : D W unit := fun '(c, w) => Some (tt, (f c, w)).
Definition conn {W} : D W mongo := fun '(c, w) => Some (c, (c, w)).
Definition net {W A} (f : W -> A * W) : D W A := fun '(c, w) => let '(a, w) := f w in Some (a, (c, w)).

(** [driver/mongo.c:113-126] __mongo_set_error *)
Definition __mongo_set_error (e : Z) (str : option (list Z)) (code : Z) (c : mongo) : mongo :=
  let c := c <| c_err := e |> <| errcode := code |> in
  match str with
  | Some s => c <| errstr := over (take (Nat.min (length s) (MONGO_ERR_LEN - 1)) s ++ [0]) (errstr c) |>
  | None => c
  end.

(** [driver/mongo.c:128-134] mongo_clear_errors *)
Definition mongo_clear_errors (c : mongo) : mongo :=
  c <| c_err := 0 |> <| errcode := 0 |> <| lasterrcode := 0 |>
    <| errstr := replicate MONGO_ERR_LEN 0 |> <| lasterrstr := replicate MONGO_ERR_LEN 0 |>.

Section Sockets.
Context {W : Type} `{Net W}.

(** [driver/env.c:228-249] mongo_env_write_socket *)
Fixpoint mongo_env_write_socket (rounds : nat) (cbuf : list Z) : D W Z :=
  match cbuf, rounds with
  | [], _ => mret MONGO_OK
  | _, O => crash
  | _, S rounds =>
      c ← conn;
      '(sent, errno) ← net (sys_send (sock c) cbuf);
      if sent =? -1 then
        _ ← on_conn (fun c => if errno =? EPIPE then c <| connected := false |> else c);
        _ ← on_conn (__mongo_set_error MONGO_IO_ERROR (Some (strerror errno)) errno);
        mret MONGO_ERROR
      else mongo_env_write_socket rounds (drop (Z.to_nat sent) cbuf)
  end.

(** [driver/env.c:251-264] mongo_env_read_socket: the result, and the bytes
    that were stored. *)
Fixpoint mongo_env_read_socket (rounds : nat) (len : Z) : D W (Z * list Z) :=
  if len =? 0 then mret (MONGO_OK, [])
  else
    match rounds with
    | O => crash
    | S rounds =>
        c ← conn;
        '(l, errno) ← net (sys_recv (sock c) len);
        match l with
        | [] =>
            _ ← on_conn (__mongo_set_error MONGO_IO_ERROR (Some (strerror errno)) errno);
            mret (MONGO_ERROR, [])
        | _ =>
            '(rc, l') ← mongo_env_read_socket rounds (len - Z.of_nat (length l));
            mret (rc, l ++ l')
        end
    end.

Definition SO_RCVTIMEO : list Z := bs "SO_RCVTIMEO".
Definition SO_SNDTIMEO : list Z := bs "SO_SNDTIMEO".
Definition TCP_NODELAY : list Z := bs "TCP_NODELAY".

(** [driver/env.c:266-283] mongo_env_set_socket_op_timeout *)
Definition mongo_env_set_socket_op_timeout (millis : Z) : D W Z :=
  c ← conn;
  '(rc, errno) ← net (sys_setsockopt (sock c) SO_RCVTIMEO millis);
  if rc =? -1 then
    _ ← on_conn (__mongo_set_error MONGO_IO_ERROR (Some (bs "setsockopt SO_RCVTIMEO failed.")) errno);
    mret MONGO_ERROR
  else
    '(rc, errno) ← net (sys_setsockopt (sock c) SO_SNDTIMEO millis);
    if rc =? -1 then
      _ ← on_conn (__mongo_set_error MONGO_IO_ERROR (Some (bs "setsockopt SO_SNDTIMEO failed.")) errno);
      mret MONGO_ERROR
    else mret MONGO_OK.

(** [driver/env.c:285-313] mongo_env_unix_socket_connect *)
Definition mongo_env_unix_socket_connect (sock_path : list Z) : D W Z :=
  _ ← on_conn (fun c => c <| connected := false |>);
  s ← net (sys_socket None);
  if s <? 0 then _ ← on_conn (fun c => c <| sock := 0 |>); mret MONGO_ERROR
  else
    _ ← on_conn (fun c => c <| sock := s |>);
    status ← net (sys_connect s (inr (take 107 sock_path)));
    if status <? 0 then
      _ ← net (fun w => (tt, sys_close s w));
      _ ← on_conn (fun c => c <| sock := 0 |> <| c_err := MONGO_CONN_FAIL |>);
      mret MONGO_ERROR
    else _ ← on_conn (fun c => c <| connected := true |>); mret MONGO_OK.

(** [driver/env.c:347-379] mongo_env_socket_connect: the loop over the
    addresses of the host. *)
Fixpoint connect_loop (ai_list : list addr) : D W unit :=
  match ai_list with
  | [] => mret tt
  | ai :: rest =>
      s ← net (sys_socket (Some ai));
      if s <? 0 then _ ← on_conn (fun c => c <| sock := 0 |>); connect_loop rest
      else
        _ ← on_conn (fun c => c <| sock := s |>);
        status ← net (sys_connect s (inl ai));
        if negb (status =? 0) then
          _ ← net (fun w => (tt, sys_close s w));
          _ ← on_conn (fun c => c <| sock := 0 |>);
          connect_loop rest
        else
          _ ← net (sys_setsockopt s TCP_NODELAY 1);
          c ← conn;
          _ ← (if 0 <? op_timeout_ms c then mongo_env_set_socket_op_timeout (op_timeout_ms c) else mret MONGO_OK);
          on_conn (fun c => c <| connected := true |>)
  end.

(** [driver/env.c:315-390] mongo_env_socket_connect *)
Definition mongo_env_socket_connect (host : list Z) (port : Z) : D W Z :=
  if port <? 0 then mongo_env_unix_socket_connect host
  else
    _ ← on_conn (fun c => c <| sock := 0 |> <| connected := false |>);
    ai ← net (getaddrinfo host port);
    match ai with
    | None => _ ← on_conn (fun c => c <| c_err := MONGO_CONN_ADDR_FAIL |>); mret MONGO_ERROR
    | Some ai_list =>
        _ ← connect_loop ai_list;
        c ← conn;
        if negb (connected c) then _ ← on_conn (fun c => c <| c_err := MONGO_CONN_FAIL |>); mret MONGO_ERROR
        else mret MONGO_OK
    end.
End Sockets.

(** ** Names *)

Definition dot : Z := "."%chr.

(** [driver/mongo.c:137-151] mongo_ns_to_cmd_db: without a dot the search
    leaves the string. *)
Fixpoint mongo_ns_to_cmd_db (ns : list Z) : option (list Z) :=
  match ns with
  | [] => None
  | c :: ns => if c =? dot then Some (bs ".$cmd") else s ← mongo_ns_to_cmd_db ns; Some (c :: s)
  end.

(** [driver/mongo.c:168-173] mongo_validate_ns: what follows the first dot. *)
Fixpoint after_dot (ns : list Z) : list Z :=
  match ns with
  | [] => []
  | c :: ns => if c =? dot then ns else after_dot ns
  end.

(** [driver/mongo.c:199-213] mongo_validate_ns: the loop over the name of the
    database; its length, if it has no character it must not have. *)
Fixpoint db_name_loop (ns : list Z) : option (option Z) :=
  match ns with
  | [] => None
  | c :: ns =>
      if c =? dot then Some (Some 0)
      else if (c =? " "%chr) || (c =? "$"%chr) || (c =? "/"%chr) || (c =? 92) then Some None
      else n ← db_name_loop ns; Some (n ← n; Some (n + 1))
  end.

(** [driver/mongo.c:219-237] mongo_validate_ns: the loop over the name of the
    collection, with the last character; its length, or the complaint. *)
Fixpoint collection_loop (last : option Z) (l : list Z) : Z + list Z :=
  match l with
  | [] => inl 0
  | c :: l =>
      if bool_decide (last = Some dot) && (c =? dot) then inr (bs "Collection may not contain two consecutive '.'")
      else if c =? "$"%chr then inr (bs "Collection may not contain '$'")
      else match collection_loop (Some c) l with inl n => inl (n + 1) | inr e => inr e end
  end.

(** [driver/mongo.c:153-254] mongo_validate_ns: [None] when the name is good,
    else the complaint. *)
Definition check_ns (ns : list Z) : option (option (list Z)) :=
  let bad e := Some (Some (bs e)) in
  let coll := after_dot ns in
  if bool_decide (head ns = Some dot) then bad "ns cannot start with a '.'."
  else if bool_decide (head coll = Some dot) then bad "ns cannot start with a '.'."
  else if bool_decide (coll = []) then bad "Collection name missing."
  else if (length ns - length coll - 1 =? 0)%nat then bad "Database name missing."
  else
    db ← db_name_loop ns;
    match db with
    | None => bad "Database name may not contain ' ', '$', '/', or '\'"
    | Some n =>
        match collection_loop None coll with
        | inr e => Some (Some e)
        | inl m =>
            if 128 <? n + 1 + m then Some (Some (bs "Namespace too long; has " ++ bs (pretty (n + 1 + m)) ++ bs " but must <= 128."))
            else if bool_decide (list.last ns = Some dot) then bad "Collection may not end with '.'"
            else Some None
        end
    end.

(** [driver/mongo.c:153-254] mongo_validate_ns *)
Definition mongo_validate_ns {W} (ns : list Z) : D W Z :=
  r ← or_crash (check_ns ns);
  match r with
  | None => mret MONGO_OK
  | Some e => _ ← on_conn (__mongo_set_error MONGO_NS_INVALID (Some e) 0); mret MONGO_ERROR
  end.

(** [atoi] of a string: an optional sign and the digits that follow. *)
Fixpoint atoi_digits (n : Z) (l : list Z) : Z :=
  match l with
  | c :: l => if ("0"%chr <=? c) && (c <=? "9"%chr) then atoi_digits (n * 10 + (c - "0"%chr)) l else n
  | [] => n
  end.
Definition is_space (c : Z) : bool := (c =? 32) || ((9 <=? c) && (c <=? 13)).
Fixpoint atoi (l : list Z) : Z :=
  match l with
  | c :: l' =>
      if is_space c then atoi l'
      else if c =? "-"%chr then s32 (- atoi_digits 0 l')
      else if c =? "+"%chr then s32 (atoi_digits 0 l')
      else s32 (atoi_digits 0 l)
  | [] => 0
  end.

(** [driver/mongo.c:502-510] mongo_parse_host: the last colon. *)
Fixpoint split_at (len split : nat) (s : list Z) : nat :=
  match s with
  | [] => split
  | c :: s => split_at (S len) (if c =? ":"%chr then len else split) s
  end.

(** [driver/mongo.c:498-521] mongo_parse_host: a name that does not fit its
    255 characters is written past them. *)
Definition mongo_parse_host (host_string : list Z) : option host_port :=
  let split := split_at 0 0 host_string in
  let idx := if (split =? 0)%nat then length host_string else split in
  if (255 <=? idx)%nat then None
  else Some (HostPort (take idx host_string)
               (if (split =? 0)%nat then MONGO_DEFAULT_PORT else atoi (drop (S idx) host_string))).

Example ns_examples :
  check_ns (bs "test.fs.files") = Some None /\ check_ns (bs "test") = Some (Some (bs "Collection name missing.")) /\
  check_ns (bs "test..x") = Some (Some (bs "ns cannot start with a '.'.")) /\
  check_ns (bs "test.a..x") = Some (Some (bs "Collection may not contain two consecutive '.'")) /\
  check_ns (bs "te$t.a") = Some (Some (bs "Database name may not contain ' ', '$', '/', or '\'")) /\
  mongo_parse_host (bs "db1.example.com:27018") = Some (HostPort (bs "db1.example.com") 27018) /\
  mongo_parse_host (bs "localhost") = Some (HostPort (bs "localhost") 27017).
Proof. by vm_compute. Qed.

(** ** Which names are good *)

Definition db_char (c : Z) : Prop :=
  c <> dot /\ c <> " "%chr /\ c <> "$"%chr /\ c <> "/"%chr /\ c <> 92.
Definition not_dollar (c : Z) : Prop := c <> "$"%chr.
Definition no_dots (l : list Z) : Prop := forall a b, l <> a ++ dot :: dot :: b.

(** A database and a collection, as the manual of the server has them. *)
Definition good_ns (ns : list Z) : Prop :=
  exists db coll, ns = db ++ dot :: coll /\ db <> [] /\ Forall db_char db
    /\ coll <> [] /\ head coll <> Some dot /\ list.last coll <> Some dot
    /\ no_dots coll /\ Forall not_dollar coll /\ (length ns <= 128)%nat.

Lemma after_dot_spec ns :
  ((dot ∉ ns) /\ after_dot ns = []) \/ (exists db, (dot ∉ db) /\ ns = db ++ dot :: after_dot ns).
Proof.
  induction ns as [|c ns IH]; simpl; [by left; split; [apply not_elem_of_nil|]|].
  destruct (Z.eqb_spec c dot) as [->|Hc].
  - right. exists []. split; [apply not_elem_of_nil|done].
  - destruct IH as [[Hn ->]|(db & Hn & E)].
    + left. rewrite not_elem_of_cons. by split.
    + right. exists (c :: db). rewrite not_elem_of_cons. simpl. split; [by split|by rewrite <- E].
Qed.

Lemma db_name_loop_spec db coll : dot ∉ db ->
  (Forall db_char db /\ db_name_loop (db ++ dot :: coll) = Some (Some (Z.of_nat (length db))))
  \/ (~ Forall db_char db /\ db_name_loop (db ++ dot :: coll) = Some None).
Proof.
  induction db as [|c db IH]; simpl; [by left|].
  rewrite not_elem_of_cons. intros [Hc%not_eq_sym Hd]. rewrite (proj2 (Z.eqb_neq c dot)) by done.
  destruct (_ || _) eqn:E.
  - right. split; [|done]. rewrite Forall_cons. unfold db_char.
    intros [(_ & ? & ? & ? & ?) _]. rewrite !orb_true_iff, !Z.eqb_eq in E. tauto.
  - rewrite !orb_false_iff, !Z.eqb_neq in E.
    destruct (IH Hd) as [[Hf ->]|[Hf ->]]; [left|right]; simpl; rewrite Forall_cons.
    + split; [by split; [unfold db_char; tauto|]|]. do 2 f_equal. lia.
    + split; [tauto|done].
Qed.

Lemma no_dots_cons c l : no_dots (c :: l) <-> ~ (c = dot /\ head l = Some dot) /\ no_dots l.
Proof.
  split.
  - intros H. split; [|intros a b ->; by apply (H (c :: a) b)].
    intros [-> E]. destruct l as [|d l]; [done|]. injection E as ->. by apply (H [] l).
  - intros [H1 H2] [|d a] b E; injection E as -> ->; [by apply H1|by eapply H2].
Qed.
Lemma no_dots_nil : no_dots [].
Proof. by intros [|] b. Qed.

Lemma collection_loop_spec l : forall lst,
  (collection_loop lst l = inl (Z.of_nat (length l)) /\ no_dots (option_list lst ++ l) /\ Forall not_dollar l)
  \/ (exists e, collection_loop lst l = inr e) /\ ~ (no_dots (option_list lst ++ l) /\ Forall not_dollar l).
Proof.
  induction l as [|c l IH]; intros lst; simpl.
  - left. rewrite app_nil_r. split_and!; [done| |done].
    destruct lst; simpl; [|apply no_dots_nil]. rewrite no_dots_cons. split; [by intros []|apply no_dots_nil].
  - assert (Hd : no_dots (option_list lst ++ c :: l) <-> ~ (lst = Some dot /\ c = dot) /\ no_dots (c :: l)).
    { destruct lst as [x|]; simpl; [|split; [by split; [intros []|]|by intros []]].
      rewrite no_dots_cons. simpl. split; intros [Hx Hl]; (split; [|done]); by intros [[= ->] [= ->]]; apply Hx. }
    rewrite Hd, Forall_cons. clear Hd. unfold not_dollar at 1 3.
    destruct (_ && _) eqn:E1.
    { apply andb_true_iff in E1 as [E1%bool_decide_eq_true E2%Z.eqb_eq]. right. split; [by eexists|tauto]. }
    destruct (Z.eqb_spec c "$"%chr) as [->|Hc]; [right; split; [by eexists|tauto]|].
    destruct (IH (Some c)) as [(-> & Hn & Hf)|[[e ->] Hn]]; [left|right].
    + split_and!; [f_equal; lia| |done|done|done].
      intros [-> ->]. by rewrite bool_decide_eq_true_2 in E1.
    + split; [by eexists|]. simpl in Hn. tauto.
Qed.

Lemma app_dot_inj db1 c1 db2 c2 : dot ∉ db1 -> dot ∉ db2 ->
  db1 ++ dot :: c1 = db2 ++ dot :: c2 -> db1 = db2 /\ c1 = c2.
Proof.
  revert db2. induction db1 as [|x l IH]; intros [|y l2]; simpl; rewrite ?not_elem_of_cons.
  - by intros _ _ [= ->].
  - intros _ [? _] [= <- _]. done.
  - intros [? _] _ [= -> _]. done.
  - intros [_ H1] [_ H2] [= -> E]. by destruct (IH l2 H1 H2 E) as [-> ->].
Qed.

Lemma good_ns_split db coll : dot ∉ db ->
  good_ns (db ++ dot :: coll) <->
  db <> [] /\ Forall db_char db /\ coll <> [] /\ head coll <> Some dot /\ list.last coll <> Some dot
  /\ no_dots coll /\ Forall not_dollar coll /\ (length (db ++ dot :: coll) <= 128)%nat.
Proof.
  intros Hn. split; [|by intros; exists db, coll].
  intros (db' & coll' & E & H1 & H2 & H3). assert (Hn' : dot ∉ db').
  { intros Hin. rewrite Forall_forall in H2. by destruct (H2 _ Hin). }
  apply app_dot_inj in E as [-> ->]; [|done..]. done.
Qed.

Lemma after_dot_app db coll : dot ∉ db -> after_dot (db ++ dot :: coll) = coll.
Proof.
  induction db as [|c db IH]; simpl; [done|]. rewrite not_elem_of_cons. intros [Hc Hd].
  rewrite (proj2 (Z.eqb_neq c dot)) by congruence. by apply IH.
Qed.

Ltac refused := eexists; split; [done|split; [done|tauto]].

Lemma check_ns_dot db coll : dot ∉ db ->
  exists r, check_ns (db ++ dot :: coll) = Some r /\ (r = None <-> good_ns (db ++ dot :: coll)).
Proof.
  intros Hn. setoid_rewrite (good_ns_split db coll Hn). unfold check_ns. rewrite after_dot_app by done.
  case_bool_decide as E1.
  { assert (db = []) by (destruct db as [|c db]; [done|]; injection E1 as ->; set_solver). refused. }
  case_bool_decide as E2; [refused|]. case_bool_decide as E3; [refused|].
  rewrite length_app. simpl length. replace (_ - _ - _)%nat with (length db) by lia.
  destruct (Nat.eqb_spec (length db) 0) as [->%nil_length_inv|E4]; [done|].
  destruct (db_name_loop_spec db coll Hn) as [[Hf ->]|[Hf ->]]; [|refused].
  simpl. destruct (collection_loop_spec coll None) as [(-> & Hd & Hc)|[[e ->] Hc]]; [|refused].
  destruct (Z.ltb_spec 128 (Z.of_nat (length db) + 1 + Z.of_nat (length coll))) as [Hl|Hl].
  { eexists. split; [done|]. split; [done|]. lia. }
  assert (El : list.last (db ++ dot :: coll) = list.last coll).
  { rewrite (last_app_cons db coll dot). by destruct coll. }
  case_bool_decide as E5; rewrite El in E5; [refused|].
  eexists; split; [done|]. split; [|done]. intros _. split_and!; try done; [by intros ->|simpl; lia].
Qed.

Lemma check_ns_spec ns : exists r, check_ns ns = Some r /\ (r = None <-> good_ns ns).
Proof.
  destruct (after_dot_spec ns) as [[Hn E]|(db & Hn & ->)]; [|by apply check_ns_dot].
  assert (Hg : ~ good_ns ns) by (intros (db & coll & -> & _); set_solver).
  unfold check_ns. rewrite E. case_bool_decide; refused.
Qed.

Lemma validate_ns_eq {W} ns c (w : W) :
  (good_ns ns /\ mongo_validate_ns ns (c, w) = Some (MONGO_OK, (c, w)))
  \/ (~ good_ns ns /\ exists c', c_err c' = MONGO_NS_INVALID
      /\ mongo_validate_ns ns (c, w) = Some (MONGO_ERROR, (c', w))).
Proof.
  destruct (check_ns_spec ns) as (r & E & Hr). unfold mongo_validate_ns. rewrite E, bind_or_crash.
  destruct r as [e|]; [right; split; [|eexists; split; [|reflexivity]; reflexivity]|left; split; [|done]]; [|by apply Hr].
  intros Hg%Hr. done.
Qed.

(** mongo_validate_ns always answers, and accepts exactly the names of a
    database and a collection: a database without dots, spaces, dollars and
    slashes, a collection without dollars and consecutive dots that neither
    begins nor ends with a dot, 128 characters at most.  The others are
    refused with the error MONGO_NS_INVALID, and nothing is sent. *)
Theorem mongo_validate_ns_exact {W} ns c (w : W) :
  exists rc c', mongo_validate_ns ns (c, w) = Some (rc, (c', w))
    /\ ((rc = MONGO_OK /\ c' = c /\ good_ns ns)
        \/ (rc = MONGO_ERROR /\ c_err c' = MONGO_NS_INVALID /\ ~ good_ns ns)).
Proof.
  destruct (validate_ns_eq ns c w) as [[Hg E]|(Hg & c' & Hc & E)]; eexists _, _; (split; [exact E|]);
    [by left|by right].
Qed.
