(* ===== verification/MongoCursor.v ===== *)
(** * Messages and cursors of the MongoDB driver (mongo-c-driver/src/mongo.c)

    Messages with their header, replies, and the cursor that takes the
    documents out of replies and asks for more.  A pointer to the reply of a
    cursor can be one that was freed, and a pointer to the query of a cursor
    one to a variable that is gone; following those is [None]. *)

From S2P Require Import Prelude BsonUtf8 BsonBuild BsonIter MongoConn.

Set Warnings "-register-all".

#[local] Abbreviation length := (@List.length _).

(** ** Messages *)

(** [driver/mongo.h:103-111] mongo_operations *)
Definition MONGO_OP_UPDATE : Z := 2001.
Definition MONGO_OP_INSERT : Z := 2002.
Definition MONGO_OP_QUERY : Z := 2004.
Definition MONGO_OP_GET_MORE : Z := 2005.
Definition MONGO_OP_DELETE : Z := 2006.
Definition MONGO_OP_KILL_CURSORS : Z := 2007.

(** [driver/mongo.h:114-124] mongo_message: [m_data] is what was appended so
    far to the [m_len] bytes of the message. *)
Record message := Message { m_len : Z; m_id : Z; m_responseTo : Z; m_op : Z; m_data : list Z }.
#[export] Instance eta_message : Settable message := fun m =>
  Message (m_len m) (m_id m) (m_responseTo m) (m_op m) (m_data m).

(** [driver/mongo.h:126-137] mongo_reply: [objs] is all of it after the
    fields. *)
Record reply := Reply {
  r_len : Z; r_id : Z; r_responseTo : Z; r_op : Z;
  r_flag : Z; r_cursorID : Z; r_start : Z; r_num : Z; objs : list Z
}.
#[export] Instance eta_reply : Settable reply := fun r =>
  Reply (r_len r) (r_id r) (r_responseTo r) (r_op r) (r_flag r) (r_cursorID r) (r_start r) (r_num r) (objs r).

(** The bytes of a document: as many as its size says. *)
Definition bson_bytes (b : bson) : option (list Z) :=
  n ← bson_size b; read_n (default [] (data b)) n.

(** [driver/bson.c:63-71] bson_empty *)
Definition bson_empty : bson := Bson (Some [5; 0; 0; 0; 0; 0]) 0 0 true [] 0 0.

Section Messages.
Context {W : Type} `{Net W}.
(** The turns for the loops on sockets, and what fresh memory holds. *)
Context (rounds : nat) (junk : Z -> Z).

(** [driver/mongo.c:268-285] mongo_message_create *)
Definition mongo_message_create (len id responseTo op : Z) : D W (option message) :=
  if INT_MAX <=? len then mret None
  else
    id ← (if id =? 0 then net sys_rand else mret id);
    mret (Some (Message (s32 len) id responseTo op [])).

(** [driver/mongo.c:351-354] mongo_data_append: [None] past the end of the
    message. *)
Definition mongo_data_append (mm : message) (l : list Z) : option message :=
  if 16 + Z.of_nat (length (m_data mm)) + Z.of_nat (length l) <=? m_len mm
  then Some (mm <| m_data := m_data mm ++ l |>) else None.

(** [driver/mongo.c:356-359] mongo_data_append32 *)
Definition mongo_data_append32 (mm : message) (z : Z) : option message := mongo_data_append mm (le 4 z).
(** [driver/mongo.c:361-364] mongo_data_append64 *)
Definition mongo_data_append64 (mm : message) (z : Z) : option message := mongo_data_append mm (le 8 z).

(** The appends that build a message. *)
Fixpoint append_all (mm : message) (pieces : list (list Z)) : option message :=
  match pieces with
  | [] => Some mm
  | l :: pieces => mm ← mongo_data_append mm l; append_all mm pieces
  end.

(** A string with its end. *)
Definition cstr (s : list Z) : list Z := s ++ [0].

Definition head_bytes (mm : message) : list Z :=
  le 4 (m_len mm) ++ le 4 (m_id mm) ++ le 4 (m_responseTo mm) ++ le 4 (m_op mm).

(** [driver/mongo.c:288-310] mongo_message_send: bytes that were not written
    are what they happen to be. *)
Definition mongo_message_send (mm : message) : D W Z :=
  res ← mongo_env_write_socket rounds (head_bytes mm);
  if negb (res =? MONGO_OK) then mret res
  else
    let rest := m_len mm - 16 - Z.of_nat (length (m_data mm)) in
    mongo_env_write_socket rounds (m_data mm ++ map junk (seqZ 0 rest)).

(** [driver/mongo.c:312-348] mongo_read_response: the results of the first two
    reads are not looked at. *)
Definition mongo_read_response : D W (Z * option reply) :=
  '(_, head) ← mongo_env_read_socket rounds 16;
  '(_, flds) ← mongo_env_read_socket rounds 20;
  let head := over head (map junk (seqZ 0 16)) in
  let flds := over flds (map junk (seqZ 0 20)) in
  let int32 l i := s32 (le_value (take 4 (drop i l))) in
  let len := u32 (le_value (take 4 head)) in
  if (len <? 36) || (64 * 1024 * 1024 <? len) then mret (MONGO_READ_SIZE_ERROR, None)
  else
    '(res, objs) ← mongo_env_read_socket rounds (len - 36);
    if negb (res =? MONGO_OK) then mret (res, None)
    else
      mret (MONGO_OK, Some (Reply len (int32 head 4%nat) (int32 head 8%nat) (int32 head 12%nat)
        (int32 flds 0%nat) (s64 (le_value (take 8 (drop 4 flds)))) (int32 flds 12%nat) (int32 flds 16%nat) objs)).
End Messages.

(** ** Cursors *)

(** [driver/mongo.h:62-70] mongo_cursor_error_t *)
Definition MONGO_CURSOR_EXHAUSTED : Z := 0.
Definition MONGO_CURSOR_INVALID : Z := 1.
Definition MONGO_CURSOR_PENDING : Z := 2.
Definition MONGO_CURSOR_QUERY_FAIL : Z := 3.
Definition MONGO_CURSOR_BSON_ERROR : Z := 4.

(** A pointer to a reply, and one to a document of the caller. *)
Inductive reply_ptr := NoReply | Live (r : reply) | Freed.
Inductive doc_ptr := NoDoc | Doc (b : bson) | Gone.

(** [driver/mongo.h:181-194] mongo_cursor: the connection is that of the
    state; [flags] as two booleans, [current] as the offset in the reply. *)
Record cursor := Cursor {
  k_reply : reply_ptr;
  k_ns : list Z;
  must_free : bool;
  query_sent : bool;
  seen : Z;
  current : option Z;
  k_err : Z;
  query : doc_ptr;
  k_fields : doc_ptr;
  options : Z;
  limit : Z;
  skip : Z
}.
#[export] Instance eta_cursor : Settable cursor := fun k =>
  Cursor (k_reply k) (k_ns k) (must_free k) (query_sent k) (seen k) (current k) (k_err k) (query k)
    (k_fields k) (options k) (limit k) (skip k).

(** [driver/mongo.c:1318-1324] mongo_cursor_init *)
Definition mongo_cursor_init (ns : list Z) : cursor :=
  Cursor NoReply ns false false 0 None 0 NoDoc NoDoc 0 0 0.

(** [driver/mongo.c:1326-1328] mongo_cursor_set_query *)
Definition mongo_cursor_set_query (k : cursor) (q : doc_ptr) : cursor := k <| query := q |>.
(** [driver/mongo.c:1330-1332] mongo_cursor_set_fields *)
Definition mongo_cursor_set_fields (k : cursor) (f : doc_ptr) : cursor := k <| k_fields := f |>.
(** [driver/mongo.c:1334-1336] mongo_cursor_set_skip *)
Definition mongo_cursor_set_skip (k : cursor) (n : Z) : cursor := k <| skip := n |>.
(** [driver/mongo.c:1338-1340] mongo_cursor_set_limit *)
Definition mongo_cursor_set_limit (k : cursor) (n : Z) : cursor := k <| limit := n |>.
(** [driver/mongo.c:1342-1344] mongo_cursor_set_options *)
Definition mongo_cursor_set_options (k : cursor) (n : Z) : cursor := k <| options := n |>.

Section Cursors.
Context {W : Type} `{Net W}.
Context (rounds : nat) (junk : Z -> Z).

Definition live (p : reply_ptr) : D W reply :=
  match p with Live r => mret r | _ => crash end.

(** [driver/mongo.c:256-264] mongo_set_last_error: the value at [it] in the
    memory [m] of a document. *)
Definition mongo_set_last_error (m : list Z) (it : bson_iterator) : D W unit :=
  result_len ← or_crash (bson_iterator_string_len m it);
  result_string ← or_crash (
    type ← bson_iterator_type m it;
    let len := if result_len <? Z.of_nat MONGO_ERR_LEN then result_len else Z.of_nat MONGO_ERR_LEN in
    if (type =? BSON_STRING) || (type =? BSON_SYMBOL)
    then p ← bson_iterator_value m it; read_bytes m (p + 4) len
    else read_n [0] len);
  _ ← on_conn (fun c => c <| lasterrstr := over result_string (lasterrstr c) |>);
  '(type, it) ← or_crash (bson_find m (length m) (bs "code"));
  if negb (type =? BSON_NULL) then
    code ← or_crash (bson_iterator_int m it); on_conn (fun c => c <| lasterrcode := code |>)
  else mret tt.

(** [driver/mongo.c:783-797] mongo_cursor_bson_valid: the result, and the error
    of the cursor. *)
Definition mongo_cursor_bson_valid (k : cursor) (b : bson) : D W (Z * cursor) :=
  let bad e :=
    _ ← on_conn (fun c => c <| c_err := e |>);
    mret (MONGO_ERROR, k <| k_err := MONGO_CURSOR_BSON_ERROR |>) in
  if negb (finished b) then bad MONGO_BSON_NOT_FINISHED
  else if negb (Z.land (err b) BSON_NOT_UTF8 =? 0) then bad MONGO_BSON_INVALID
  else mret (MONGO_OK, k).

(** [driver/mongo.c:1157-1165] mongo_cursor_op_query: the query or the fields
    of a cursor, the empty document where there is none. *)
Definition query_doc (k : cursor) (p : doc_ptr) : D W (Z * cursor * bson) :=
  match p with
  | NoDoc => mret (MONGO_OK, k, bson_empty)
  | Doc b => '(rc, k) ← mongo_cursor_bson_valid k b; mret (rc, k, b)
  | Gone => crash
  end.

(** What a pointer to the variable [empty] is after the call. *)
Definition after_call (p : doc_ptr) : doc_ptr :=
  match p with NoDoc => Gone | p => p end.

(** [driver/mongo.c:1145-1211] mongo_cursor_op_query *)
Definition mongo_cursor_op_query (k : cursor) : D W (Z * cursor) :=
  _ ← on_conn mongo_clear_errors;
  '(rc, k, q) ← query_doc k (query k);
  if negb (rc =? MONGO_OK) then mret (MONGO_ERROR, k)
  else
    let k := k <| query := after_call (query k) |> in
    '(rc, k, f) ← query_doc k (k_fields k);
    if negb (rc =? MONGO_OK) then mret (MONGO_ERROR, k)
    else
      let k := k <| k_fields := after_call (k_fields k) |> in
      qs ← or_crash (bson_size q);
      fs ← or_crash (bson_size f);
      mm ← mongo_message_create
             (u64 (16 + 4 + Z.of_nat (length (k_ns k)) + 1 + 4 + 4 + qs + fs)) 0 0 MONGO_OP_QUERY;
      match mm with
      | None => mret (MONGO_ERROR, k)
      | Some mm =>
          qb ← or_crash (bson_bytes q);
          fb ← or_crash (bson_bytes f);
          mm ← or_crash (append_all mm [le 4 (options k); cstr (k_ns k); le 4 (skip k); le 4 (limit k); qb; fb]);
          res ← mongo_message_send rounds junk mm;
          if negb (res =? MONGO_OK) then mret (MONGO_ERROR, k)
          else
            '(res, r) ← mongo_read_response rounds junk;
            match r with
            | Some r =>
                let k := k <| k_reply := Live r |> in
                failed ← (if r_num r =? 1
                          then '(type, it) ← or_crash (bson_find (objs r) (length (objs r)) (bs "$err"));
                               if type =? 0 then mret false
                               else _ ← mongo_set_last_error (objs r) it; mret true
                          else mret false);
                if (failed : bool) then mret (MONGO_ERROR, k <| k_err := MONGO_CURSOR_QUERY_FAIL |>)
                else mret (MONGO_OK, k <| seen := s32 (seen k + r_num r) |> <| query_sent := true |>)
            | None => mret (MONGO_ERROR, k)
            end
      end.

(** [driver/mongo.c:1412-1440] mongo_cursor_destroy *)
Definition mongo_cursor_destroy (k : cursor) : D W Z :=
  match k_reply k with
  | Freed => crash
  | Live r =>
      if r_cursorID r =? 0 then mret MONGO_OK
      else
        mm ← mongo_message_create (16 + 4 + 4 + 8) 0 0 MONGO_OP_KILL_CURSORS;
        match mm with
        | None => mret MONGO_ERROR
        | Some mm =>
            mm ← or_crash (append_all mm [le 4 0; le 4 1; le 8 (r_cursorID r)]);
            mongo_message_send rounds junk mm
        end
  | NoReply => mret MONGO_OK
  end.

(** [driver/mongo.c:1213-1270] mongo_cursor_get_more: the reply is freed before
    the request is sent, and the cursor destroyed, with that reply, when it
    cannot be. *)
Definition mongo_cursor_get_more (k : cursor) : D W (Z * cursor) :=
  if (0 <? limit k) && (limit k <=? seen k) then mret (MONGO_ERROR, k <| k_err := MONGO_CURSOR_EXHAUSTED |>)
  else
    match k_reply k with
    | Freed => crash
    | NoReply => mret (MONGO_ERROR, k <| k_err := MONGO_CURSOR_INVALID |>)
    | Live r =>
        if r_cursorID r =? 0 then mret (MONGO_ERROR, k <| k_err := MONGO_CURSOR_EXHAUSTED |>)
        else
          let sl := Z.of_nat (length (k_ns k)) + 1 in
          let more := if 0 <? limit k then s32 (limit k - seen k) else 0 in
          mm ← mongo_message_create (16 + 4 + sl + 4 + 8) 0 0 MONGO_OP_GET_MORE;
          match mm with
          | None => mret (MONGO_ERROR, k)
          | Some mm =>
              mm ← or_crash (append_all mm [le 4 0; cstr (k_ns k); le 4 more; le 8 (r_cursorID r)]);
              let k := k <| k_reply := Freed |> in
              res ← mongo_message_send rounds junk mm;
              if negb (res =? MONGO_OK) then _ ← mongo_cursor_destroy k; mret (MONGO_ERROR, k)
              else
                '(res, r) ← mongo_read_response rounds junk;
                match r with
                | None => _ ← mongo_cursor_destroy k; mret (MONGO_ERROR, k)
                | Some r =>
                    mret (MONGO_OK, k <| k_reply := Live r |> <| current := None |>
                                      <| seen := s32 (seen k + r_num r) |>)
                end
          end
    end.

(** [bson_size(&cursor->current)], for the document at [p]. *)
Definition size_at (m : list Z) (p : Z) : option Z :=
  l ← read_bytes m p 4; Some (s32 (le_value l)).

(** [driver/mongo.c:1380-1409] mongo_cursor_next: the document after the
    current one, or the first of the next reply. *)
Definition step_document (k : cursor) : D W (Z * cursor) :=
  r ← live (k_reply k);
  match current k with
  | None => mret (MONGO_OK, k <| current := Some 0 |>)
  | Some p =>
      n ← or_crash (size_at (objs r) p);
      if r_len r - 36 <=? p + n then
        '(rc, k) ← mongo_cursor_get_more k;
        if negb (rc =? MONGO_OK) then mret (MONGO_ERROR, k)
        else
          r ← live (k_reply k);
          if r_num r =? 0 then
            mret (MONGO_ERROR, if r_cursorID r =? 0 then k else k <| k_err := MONGO_CURSOR_PENDING |>)
          else mret (MONGO_OK, k <| current := Some 0 |>)
      else mret (MONGO_OK, k <| current := Some (p + n) |>)
  end.

(** [driver/mongo.c:1354-1410] mongo_cursor_next *)
Definition mongo_cursor_next (k : cursor) : D W (Z * cursor) :=
  '(rc, k) ← (if query_sent k then mret (MONGO_OK, k) else mongo_cursor_op_query k);
  if negb (rc =? MONGO_OK) then mret (MONGO_ERROR, k)
  else
    match k_reply k with
    | NoReply => mret (MONGO_ERROR, k)
    | Freed => crash
    | Live r =>
        if r_num r =? 0 then
          if r_cursorID r =? 0 then mret (MONGO_ERROR, k)
          else
            '(rc, k) ← mongo_cursor_get_more k;
            if negb (rc =? MONGO_OK) then mret (MONGO_ERROR, k)
            else
              r ← live (k_reply k);
              if r_num r =? 0 then mret (MONGO_ERROR, k) else step_document k
        else step_document k
    end.

(** [driver/mongo.c:1272-1291] mongo_find: no cursor when the query fails. *)
Definition mongo_find (ns : list Z) (q f : doc_ptr) (limit skip options : Z) : D W (option cursor) :=
  let k := (mongo_cursor_init ns) <| must_free := true |> in
  let k := mongo_cursor_set_fields (mongo_cursor_set_query k q) f in
  let k := mongo_cursor_set_options (mongo_cursor_set_skip (mongo_cursor_set_limit k limit) skip) options in
  '(rc, k) ← mongo_cursor_op_query k;
  if rc =? MONGO_OK then mret (Some k)
  else _ ← mongo_cursor_destroy k; mret None.

(** The bytes of the current document. *)
Definition current_document (k : cursor) : option (list Z) :=
  match k_reply k, current k with
  | Live r, Some p => n ← size_at (objs r) p; read_bytes (objs r) p n
  | _, _ => None
  end.

(** [driver/mongo.c:1293-1316] mongo_find_one: the document that is copied to
    [out]. *)
Definition mongo_find_one (ns : list Z) (q f : doc_ptr) : D W (Z * option (list Z)) :=
  let k := mongo_cursor_set_fields (mongo_cursor_set_query (mongo_cursor_init ns) q) f in
  let k := mongo_cursor_set_limit k 1 in
  '(rc, k) ← mongo_cursor_next k;
  if rc =? MONGO_OK then
    out ← or_crash (current_document k);
    _ ← mongo_cursor_destroy k;
    mret (MONGO_OK, Some out)
  else _ ← mongo_cursor_destroy k; mret (MONGO_ERROR, None).
End Cursors.
