(* ===== verification/MongoCommand.v ===== *)
(** * Commands and writes of the MongoDB driver (mongo-c-driver/src/mongo.c)

    Commands are documents that are looked up in the collection [$cmd] of a
    database; writes are messages without a reply, after which the last error
    can be asked for.  The hash of passwords is a parameter. *)

From S2P Require Import Prelude BsonUtf8 BsonBuild BsonIter MongoConn MongoCursor.

Set Warnings "-register-all".

#[local] Abbreviation length := (@List.length _).

Section Commands.
Context {W : Type} `{Net W}.
Context (rounds : nat) (junk : Z -> Z).

(** A variable of type [bson] before [bson_init], and documents that are built
    in one: the results of the appends are not looked at. *)
Definition unset_bson : bson := Bson None 0 0 false [] 0 0.
Definition document (appends : list (bson -> outcome)) : option bson :=
  b ← foldl (fun b f => b ← b; '(_, b) ← f b; Some b) (Some (bson_init junk unset_bson)) appends;
  '(_, b) ← bson_finish junk b;
  Some b.

(** [driver/mongo.c:1544-1579] mongo_run_command: the document that is given
    back. *)
Definition mongo_run_command (db : list Z) (command : bson) : D W (Z * option (list Z)) :=
  '(res, response) ← mongo_find_one rounds junk (db ++ bs ".$cmd") (Doc command) (Doc bson_empty);
  match response with
  | None => mret (MONGO_ERROR, None)
  | Some m =>
      '(type, it) ← or_crash (bson_find m (length m) (bs "ok"));
      success ← (if type =? 0 then mret 0 else or_crash (bson_iterator_bool m it));
      if success =? 0 then
        _ ← on_conn (fun c => c <| c_err := MONGO_COMMAND_FAILED |>); mret (MONGO_ERROR, None)
      else mret (MONGO_OK, Some m)
  end.

(** [driver/mongo.c:1581-1602] mongo_simple_int_command *)
Definition mongo_simple_int_command (db cmdstr : list Z) (arg : Z) : D W (Z * option (list Z)) :=
  cmd ← or_crash (document [fun b => bson_append_int junk b cmdstr arg]);
  mongo_run_command db cmd.

(** [driver/mongo.c:1604-1625] mongo_simple_str_command *)
Definition mongo_simple_str_command (db cmdstr arg : list Z) : D W (Z * option (list Z)) :=
  cmd ← or_crash (document [fun b => bson_append_string junk b cmdstr arg]);
  mongo_run_command db cmd.

(** [driver/mongo.c:1627-1629] mongo_cmd_drop_db *)
Definition mongo_cmd_drop_db (db : list Z) : D W (Z * option (list Z)) :=
  mongo_simple_int_command db (bs "dropDatabase") 1.

(** [driver/mongo.c:1631-1633] mongo_cmd_drop_collection *)
Definition mongo_cmd_drop_collection (db collection : list Z) : D W (Z * option (list Z)) :=
  mongo_simple_str_command db (bs "drop") collection.

(** [driver/mongo.c:1635-1637] mongo_cmd_reset_error *)
Definition mongo_cmd_reset_error (db : list Z) : D W (Z * option (list Z)) :=
  mongo_simple_int_command db (bs "reseterror") 1.

(** [driver/mongo.c:1639-1664] mongo_cmd_get_error_helper: a missing field is
    taken for an error. *)
Definition mongo_cmd_get_error_helper (db cmdtype : list Z) : D W (Z * option (list Z)) :=
  _ ← on_conn mongo_clear_errors;
  '(rc, out) ← mongo_simple_int_command db cmdtype 1;
  match out with
  | Some m =>
      '(type, it) ← or_crash (bson_find m (length m) (bs "err"));
      if negb (type =? BSON_NULL) then _ ← mongo_set_last_error m it; mret (MONGO_ERROR, out)
      else mret (MONGO_OK, out)
  | None => mret (MONGO_OK, out)
  end.

(** [driver/mongo.c:1666-1668] mongo_cmd_get_prev_error *)
Definition mongo_cmd_get_prev_error (db : list Z) := mongo_cmd_get_error_helper db (bs "getpreverror").
(** [driver/mongo.c:1670-1672] mongo_cmd_get_last_error *)
Definition mongo_cmd_get_last_error (db : list Z) := mongo_cmd_get_error_helper db (bs "getlasterror").

(** [driver/mongo.c:1674-1690] mongo_cmd_ismaster *)
Definition mongo_cmd_ismaster : D W (Z * option (list Z)) :=
  '(rc, out) ← mongo_simple_int_command (bs "admin") (bs "ismaster") 1;
  match out with
  | Some m =>
      '(_, it) ← or_crash (bson_find m (length m) (bs "ismaster"));
      b ← or_crash (bson_iterator_bool m it);
      mret (b, out)
  | None => mret (0, out)
  end.

(** [driver/mongo.c:705-713] mongo_check_connection *)
Definition mongo_check_connection : D W Z :=
  c ← conn;
  if negb (connected c) then mret MONGO_ERROR
  else '(rc, _) ← mongo_simple_int_command (bs "admin") (bs "ping") 1; mret rc.

(** [driver/mongo.c:1497-1516] mongo_create_capped_collection: the document of
    the command. *)
Definition capped_command (collection : list Z) (size max : Z) : option bson :=
  document ([(fun b => bson_append_string junk b (bs "create") collection);
             (fun b => bson_append_bool junk b (bs "capped") 1);
             (fun b => bson_append_int junk b (bs "size") size)]
            ++ if 0 <? max then [fun b => bson_append_int junk b (bs "max") size] else []).

(** [driver/mongo.c:1497-1516] mongo_create_capped_collection *)
Definition mongo_create_capped_collection (db collection : list Z) (size max : Z) : D W (Z * option (list Z)) :=
  cmd ← or_crash (capped_command collection size max); mongo_run_command db cmd.

(** ** Users *)

(** The hash (md5.c) of a string. *)
Context (md5 : list Z -> list Z).

Definition hex_char : list Z := bs "0123456789abcdef".
(** [driver/mongo.c:1692-1700] digest2hex *)
Definition digest2hex (digest : list Z) : list Z :=
  flat_map (fun b => [hex_char !!! Z.to_nat (Z.shiftr (Z.land b 240) 4); hex_char !!! Z.to_nat (Z.land b 15)]) digest.

(** [driver/mongo.c:1702-1712] mongo_pass_digest *)
Definition mongo_pass_digest (user pass : list Z) : list Z := digest2hex (md5 (user ++ bs ":mongo:" ++ pass)).

(** [driver/mongo.c:1745-1787] mongo_cmd_authenticate *)
Definition mongo_cmd_authenticate (db user pass : list Z) : D W Z :=
  '(rc, from_db) ← mongo_simple_int_command db (bs "getnonce") 1;
  match from_db with
  | None => mret MONGO_ERROR
  | Some m =>
      '(_, it) ← or_crash (bson_find m (length m) (bs "nonce"));
      nonce ← or_crash (bson_iterator_string m it);
      let hex_digest := digest2hex (md5 (nonce ++ user ++ mongo_pass_digest user pass)) in
      cmd ← or_crash (document [(fun b => bson_append_int junk b (bs "authenticate") 1);
                                (fun b => bson_append_string junk b (bs "user") user);
                                (fun b => bson_append_string junk b (bs "nonce") nonce);
                                (fun b => bson_append_string junk b (bs "key") hex_digest)]);
      '(rc, _) ← mongo_run_command db cmd;
      mret rc
  end.

(** ** Write concern *)

(** [driver/mongo.c:1071-1073] mongo_write_concern_init *)
Definition mongo_write_concern_init : write_concern := WriteConcern 0 0 0 0 None None.

(** [driver/mongo.c:1075-1121] mongo_write_concern_finish *)
Definition mongo_write_concern_finish (wc : write_concern) : option write_concern :=
  let int name n := if n =? 0 then [] else [fun b => bson_append_int junk b name n] in
  command ← document ([fun b => bson_append_int junk b (bs "getlasterror") 1]
    ++ match wc_mode wc with
       | Some mode => [fun b => bson_append_string junk b (bs "w") mode]
       | None => if negb (wc_w wc =? 0) && (1 <? wc_w wc) then int (bs "w") (wc_w wc) else []
       end
    ++ int (bs "wtimeout") (wc_wtimeout wc) ++ int (bs "j") (wc_j wc) ++ int (bs "fsync") (wc_fsync wc));
  Some (wc <| wc_cmd := Some command |>).

(** [driver/mongo.c:827-848] mongo_choose_write_concern: the result and the
    concern that is chosen. *)
Definition mongo_choose_write_concern (custom : option write_concern) : D W (Z * option write_concern) :=
  c ← conn;
  let chosen := match custom with Some wc => Some wc | None => concern c end in
  let chosen := match chosen with Some wc => if wc_w wc <? 1 then None else Some wc | None => None end in
  match chosen with
  | Some wc =>
      match wc_cmd wc with
      | None =>
          _ ← on_conn (__mongo_set_error MONGO_WRITE_CONCERN_INVALID
            (Some (bs "Must call mongo_write_concern_finish() before using *write_concern.")) 0);
          mret (MONGO_ERROR, chosen)
      | Some _ => mret (MONGO_OK, chosen)
      end
  | None => mret (MONGO_OK, None)
  end.

(** [driver/mongo.c:799-825] mongo_check_last_error *)
Definition mongo_check_last_error (ns : list Z) (wc : write_concern) : D W Z :=
  cmd_ns ← or_crash (mongo_ns_to_cmd_db ns);
  '(res, response) ← mongo_find_one rounds junk cmd_ns
    (match wc_cmd wc with Some b => Doc b | None => NoDoc end) (Doc bson_empty);
  match response with
  | None => mret MONGO_ERROR
  | Some m =>
      let failed it :=
        _ ← on_conn (__mongo_set_error MONGO_WRITE_ERROR (Some (bs "See conn->lasterrstr for details.")) 0);
        _ ← mongo_set_last_error m it; mret MONGO_ERROR in
      '(type, it) ← or_crash (bson_find m (length m) (bs "$err"));
      if type =? BSON_STRING then failed it
      else
        '(type, it) ← or_crash (bson_find m (length m) (bs "err"));
        if type =? BSON_STRING then failed it else mret MONGO_OK
  end.

(** ** Writes *)

(** [driver/mongo.c:748-780] mongo_bson_valid *)
Definition mongo_bson_valid (b : bson) (write : bool) : D W Z :=
  let bad e := _ ← on_conn (fun c => c <| c_err := e |>); mret MONGO_ERROR in
  if negb (finished b) then bad MONGO_BSON_NOT_FINISHED
  else
    size ← or_crash (bson_size b);
    c ← conn;
    if max_bson_size c <? size then bad MONGO_BSON_TOO_LARGE
    else if negb (Z.land (err b) BSON_NOT_UTF8 =? 0) then bad MONGO_BSON_INVALID
    else if write && (negb (Z.land (err b) BSON_FIELD_HAS_DOT =? 0) || negb (Z.land (err b) BSON_FIELD_INIT_DOLLAR =? 0))
    then bad MONGO_BSON_INVALID
    else _ ← on_conn (fun c => c <| c_err := 0 |>); mret MONGO_OK.

(** [driver/mongo.c:888-900] mongo_insert: the message is sent and, with a
    write concern, the last error asked for; the same in the four writes. *)
Definition send_write (ns : list Z) (wc : option write_concern) (len op : Z) (pieces : list (list Z)) : D W Z :=
  mm ← mongo_message_create len 0 0 op;
  match mm with
  | None => _ ← on_conn (fun c => c <| c_err := MONGO_BSON_TOO_LARGE |>); mret MONGO_ERROR
  | Some mm =>
      mm ← or_crash (append_all mm pieces);
      res ← mongo_message_send rounds junk mm;
      match wc with
      | Some wc => if res =? MONGO_ERROR then mret MONGO_ERROR else mongo_check_last_error ns wc
      | None => mret res
      end
  end.

(** [driver/mongo.c:854-901] mongo_insert *)
Definition mongo_insert (ns : list Z) (b : bson) (custom : option write_concern) : D W Z :=
  rc ← mongo_validate_ns ns;
  if negb (rc =? MONGO_OK) then mret MONGO_ERROR
  else
    rc ← mongo_bson_valid b true;
    if negb (rc =? MONGO_OK) then mret MONGO_ERROR
    else
      '(rc, wc) ← mongo_choose_write_concern custom;
      if rc =? MONGO_ERROR then mret MONGO_ERROR
      else
        size ← or_crash (bson_size b);
        doc ← or_crash (bson_bytes b);
        send_write ns wc (u64 (16 + 4 + Z.of_nat (length ns) + 1 + size)) MONGO_OP_INSERT [le 4 0; cstr ns; doc].

(** [driver/mongo.c:917-921] mongo_insert_batch: the loop that checks the
    documents; their size. *)
Fixpoint batch_size (bsons : list bson) (size : Z) : D W (option Z) :=
  match bsons with
  | [] => mret (Some size)
  | b :: bsons =>
      n ← or_crash (bson_size b);
      rc ← mongo_bson_valid b true;
      if negb (rc =? MONGO_OK) then mret None else batch_size bsons (u64 (size + n))
  end.

Definition MONGO_CONTINUE_ON_ERROR : Z := 1.

(** [driver/mongo.c:903-962] mongo_insert_batch *)
Definition mongo_insert_batch (ns : list Z) (bsons : list bson) (custom : option write_concern) (flags : Z) : D W Z :=
  let overhead := 16 + 4 + Z.of_nat (length ns) + 1 in
  rc ← mongo_validate_ns ns;
  if negb (rc =? MONGO_OK) then mret MONGO_ERROR
  else
    size ← batch_size bsons overhead;
    match size with
    | None => mret MONGO_ERROR
    | Some size =>
        c ← conn;
        if u64 (max_bson_size c) <? u64 (size - overhead) then
          _ ← on_conn (fun c => c <| c_err := MONGO_BSON_TOO_LARGE |>); mret MONGO_ERROR
        else
          '(rc, wc) ← mongo_choose_write_concern custom;
          if rc =? MONGO_ERROR then mret MONGO_ERROR
          else
            docs ← or_crash (mapM bson_bytes bsons);
            send_write ns wc size MONGO_OP_INSERT
              ([le 4 (if Z.land flags MONGO_CONTINUE_ON_ERROR =? 0 then 0 else 1); cstr ns] ++ docs)
    end.

(** [driver/mongo.c:964-1014] mongo_update: the name is not checked. *)
Definition mongo_update (ns : list Z) (cond op : bson) (flags : Z) (custom : option write_concern) : D W Z :=
  rc ← mongo_bson_valid op false;
  if negb (rc =? MONGO_OK) then mret MONGO_ERROR
  else
    '(rc, wc) ← mongo_choose_write_concern custom;
    if rc =? MONGO_ERROR then mret MONGO_ERROR
    else
      cs ← or_crash (bson_size cond);
      os ← or_crash (bson_size op);
      c ← or_crash (bson_bytes cond);
      o ← or_crash (bson_bytes op);
      send_write ns wc (u64 (16 + 4 + Z.of_nat (length ns) + 1 + 4 + cs + os)) MONGO_OP_UPDATE
        [le 4 0; cstr ns; le 4 flags; c; o].

(** [driver/mongo.c:1016-1064] mongo_remove *)
Definition mongo_remove (ns : list Z) (cond : bson) (custom : option write_concern) : D W Z :=
  rc ← mongo_bson_valid cond false;
  if negb (rc =? MONGO_OK) then mret MONGO_ERROR
  else
    '(rc, wc) ← mongo_choose_write_concern custom;
    if rc =? MONGO_ERROR then mret MONGO_ERROR
    else
      cs ← or_crash (bson_size cond);
      c ← or_crash (bson_bytes cond);
      send_write ns wc (u64 (16 + 4 + Z.of_nat (length ns) + 1 + 4 + cs)) MONGO_OP_DELETE
        [le 4 0; cstr ns; le 4 0; c].
End Commands.
