(* ===== verification/MongoReplica.v ===== *)
(** * Servers and replica sets of the MongoDB driver (mongo-c-driver/src/mongo.c)

    A connection to one server, or to the primary of a replica set, which is
    looked for among the hosts that a seed names. *)

From S2P Require Import Prelude BsonUtf8 BsonBuild BsonIter MongoConn MongoCursor MongoCommand.

Set Warnings "-register-all".

#[local] Abbreviation length := (@List.length _).

(** [driver/mongo.c:403-407] WC1: a write concern of one server, with its
    command. *)
Definition WC1 : write_concern :=
  WriteConcern 1 0 0 0 None
    (Some (Bson (Some ([23; 0; 0; 0; 16] ++ bs "getlasterror" ++ [0; 1; 0; 0; 0; 0; 0; 0; 0; 0; 0; 0; 0; 0]))
             0 128 true [] 0 0)).

(** [driver/mongo.c:409-413] mongo_init *)
Definition mongo_init : mongo :=
  Mongo None None 0 0 MONGO_DEFAULT_MAX_BSON_SIZE false (Some WC1) 0 0
    (replicate MONGO_ERR_LEN 0) 0 (replicate MONGO_ERR_LEN 0).

(** [driver/mongo.c:440-453] mongo_replica_set_init *)
Definition mongo_replica_set_init (name : list Z) : mongo :=
  mongo_init <| replica := Some (ReplicaSet [] [] name false) |> <| primary := Some (HostPort [] 0) |>.

(** [driver/mongo.c:460-474] mongo_replica_set_add_node: a name that does not
    fit its 255 characters is written past them. *)
Definition mongo_replica_set_add_node (l : list host_port) (host : list Z) (port : Z) : option (list host_port) :=
  if (255 <=? length host)%nat then None else Some (l ++ [HostPort host port]).

Section Replica.
Context {W : Type} `{Net W}.
Context (rounds : nat) (junk : Z -> Z).

Definition set_replica (f : replica_set -> replica_set) : D W unit :=
  c ← conn;
  match replica c with
  | Some rs => on_conn (fun c => c <| replica := Some (f rs) |>)
  | None => crash
  end.
Definition get_replica : D W replica_set := c ← conn; or_crash (replica c).

Definition close_socket : D W unit := c ← conn; net (fun w => (tt, sys_close (sock c) w)).

(** [driver/mongo.c:489-491] mongo_replica_set_add_seed *)
Definition mongo_replica_set_add_seed (host : list Z) (port : Z) : D W unit :=
  rs ← get_replica;
  l ← or_crash (mongo_replica_set_add_node (seeds rs) host port);
  set_replica (fun rs => rs <| seeds := l |>).

(** [driver/mongo.c:376-384] mongo_check_is_master: what a server says of
    itself, whether it is the primary and the largest document; the same in
    mongo_replica_set_check_host. *)
Definition is_master_of (m : list Z) : D W bool :=
  '(type, it) ← or_crash (bson_find m (length m) (bs "ismaster"));
  ismaster ← (if type =? 0 then mret 0 else or_crash (bson_iterator_bool m it));
  '(type, it) ← or_crash (bson_find m (length m) (bs "maxBsonObjectSize"));
  size ← (if type =? 0 then mret MONGO_DEFAULT_MAX_BSON_SIZE else or_crash (bson_iterator_int m it));
  _ ← on_conn (fun c => c <| max_bson_size := size |>);
  mret (negb (ismaster =? 0)).

(** [driver/mongo.c:368-396] mongo_check_is_master *)
Definition mongo_check_is_master : D W Z :=
  '(rc, out) ← mongo_simple_int_command rounds junk (bs "admin") (bs "ismaster") 1;
  match out with
  | None => mret MONGO_ERROR
  | Some m =>
      master ← is_master_of m;
      if (master : bool) then mret MONGO_OK
      else _ ← on_conn (fun c => c <| c_err := MONGO_CONN_NOT_MASTER |>); mret MONGO_ERROR
  end.

(** [driver/mongo.c:415-430] mongo_client *)
Definition mongo_client (host : list Z) (port : Z) : D W Z :=
  _ ← on_conn (fun _ => mongo_init);
  if (255 <=? length host)%nat then crash
  else
    _ ← on_conn (fun c => c <| primary := Some (HostPort host port) |>);
    rc ← mongo_env_socket_connect host port;
    if negb (rc =? MONGO_OK) then mret MONGO_ERROR
    else mongo_check_is_master.

(** [driver/mongo.c:544-558] mongo_replica_set_check_seed: the loop over the
    host names of a seed. *)
Fixpoint hosts_loop (turns : nat) (m : list Z) (it : bson_iterator) : D W unit :=
  match turns with
  | O => crash
  | S turns =>
      '(type, it) ← or_crash (bson_iterator_next m it);
      if type =? 0 then mret tt
      else
        host_string ← or_crash (bson_iterator_string m it);
        hp ← or_crash (mongo_parse_host host_string);
        rs ← get_replica;
        l ← or_crash (mongo_replica_set_add_node (hosts rs) (host hp) (port hp));
        _ ← set_replica (fun rs => rs <| hosts := l |>);
        hosts_loop turns m it
  end.

(** [driver/mongo.c:523-567] mongo_replica_set_check_seed *)
Definition mongo_replica_set_check_seed : D W unit :=
  '(rc, out) ← mongo_simple_int_command rounds junk (bs "admin") (bs "ismaster") 1;
  _ ← match out with
      | Some m =>
          '(type, it) ← or_crash (bson_find m (length m) (bs "hosts"));
          if type =? 0 then mret tt
          else
            data ← or_crash (bson_iterator_value m it);
            hosts_loop (length m) m (bson_iterator_from_buffer data)
      | None => mret tt
      end;
  _ ← close_socket;
  on_conn (fun c => c <| sock := 0 |> <| connected := false |>).

(** [driver/mongo.c:572-610] mongo_replica_set_check_host *)
Definition mongo_replica_set_check_host : D W Z :=
  '(rc, out) ← mongo_simple_int_command rounds junk (bs "admin") (bs "ismaster") 1;
  r ← match out with
      | None => mret (Some false)
      | Some m =>
          master ← is_master_of m;
          '(type, it) ← or_crash (bson_find m (length m) (bs "setName"));
          if type =? 0 then mret (Some master)
          else
            name ← or_crash (bson_iterator_string m it);
            rs ← get_replica;
            mret (if bool_decide (name = set_name rs) then Some master else None)
      end;
  match r with
  | None => _ ← on_conn (fun c => c <| c_err := MONGO_CONN_BAD_SET_NAME |>); mret MONGO_ERROR
  | Some true => _ ← set_replica (fun rs => rs <| primary_connected := true |>); mret MONGO_OK
  | Some false => _ ← close_socket; mret MONGO_OK
  end.

(** [driver/mongo.c:623-632] mongo_replica_set_client: the loop over the
    seeds. *)
Fixpoint seeds_loop (l : list host_port) : D W unit :=
  match l with
  | [] => mret tt
  | node :: l =>
      res ← mongo_env_socket_connect (host node) (port node);
      if res =? MONGO_OK then
        _ ← mongo_replica_set_check_seed;
        rs ← get_replica;
        match hosts rs with [] => seeds_loop l | _ => mret tt end
      else seeds_loop l
  end.

(** [driver/mongo.c:642-668] mongo_replica_set_client: the loop over the hosts;
    the node that is the primary, or an error. *)
Fixpoint primary_loop (l : list host_port) : D W (Z * option host_port) :=
  match l with
  | [] => mret (MONGO_OK, None)
  | node :: l =>
      res ← mongo_env_socket_connect (host node) (port node);
      if res =? MONGO_OK then
        rc ← mongo_replica_set_check_host;
        if negb (rc =? MONGO_OK) then mret (MONGO_ERROR, None)
        else
          rs ← get_replica;
          if primary_connected rs then mret (MONGO_OK, Some node)
          else
            _ ← close_socket;
            _ ← on_conn (fun c => c <| sock := 0 |> <| connected := false |>);
            primary_loop l
      else primary_loop l
  end.

(** [driver/mongo.c:612-672] mongo_replica_set_client *)
Definition mongo_replica_set_client : D W Z :=
  _ ← on_conn (fun c => c <| sock := 0 |> <| connected := false |>);
  rs ← get_replica;
  _ ← seeds_loop (seeds rs);
  rs ← get_replica;
  let no_primary := _ ← on_conn (fun c => c <| c_err := MONGO_CONN_NO_PRIMARY |>); mret MONGO_ERROR in
  match hosts rs with
  | [] => no_primary
  | l =>
      '(rc, node) ← primary_loop l;
      if negb (rc =? MONGO_OK) then mret MONGO_ERROR
      else
        match node with
        | Some node => _ ← on_conn (fun c => c <| primary := Some node |>); mret MONGO_OK
        | None => no_primary
        end
  end.

(** [driver/mongo.c:715-729] mongo_disconnect *)
Definition mongo_disconnect : D W unit :=
  c ← conn;
  if negb (connected c) then mret tt
  else
    _ ← match replica c with
        | Some _ => set_replica (fun rs => rs <| primary_connected := false |> <| hosts := [] |>)
        | None => mret tt
        end;
    _ ← close_socket;
    on_conn (fun c => c <| sock := 0 |> <| connected := false |>).

(** [driver/mongo.c:690-703] mongo_reconnect *)
Definition mongo_reconnect : D W Z :=
  _ ← mongo_disconnect;
  c ← conn;
  match replica c with
  | Some _ =>
      _ ← set_replica (fun rs => rs <| primary_connected := false |> <| hosts := [] |>);
      mongo_replica_set_client
  | None =>
      hp ← or_crash (primary c);
      mongo_env_socket_connect (host hp) (port hp)
  end.

(** [driver/mongo.c:682-688] mongo_set_op_timeout *)
Definition mongo_set_op_timeout (millis : Z) : D W Z :=
  _ ← on_conn (fun c => c <| op_timeout_ms := millis |>);
  c ← conn;
  _ ← (if negb (sock c =? 0) && connected c then mongo_env_set_socket_op_timeout millis else mret MONGO_OK);
  mret MONGO_OK.

(** [driver/mongo.c:731-745] mongo_destroy *)
Definition mongo_destroy : D W unit :=
  _ ← mongo_disconnect;
  on_conn (fun c => mongo_clear_errors (c <| replica := None |>)).
End Replica.
