(* ===== verification/MongoWire.v ===== *)
(** * What the MongoDB driver sends and receives

    Over a network that works, however it cuts the bytes: the messages of the
    driver decode, by the wire protocol, to the requests that were meant; a
    cursor gives every document of the replies once and in order; and over one
    that breaks, the cursor follows memory that was freed. *)

From S2P Require Import Prelude BsonUtf8 BsonBuild BsonIter MongoConn MongoCursor MongoCommand.

Set Warnings "-register-all".

#[local] Abbreviation length := (@List.length _).

(** ** The wire protocol

    What a server takes the bytes it receives for: a message begins with its
    length, and documents with theirs. *)

Inductive request :=
  | Update (ns : list Z) (flags : Z) (selector update : list Z)
  | Insert (flags : Z) (ns : list Z) (docs : list (list Z))
  | Query (flags : Z) (ns : list Z) (skip count : Z) (query fields : list Z)
  | GetMore (ns : list Z) (count cursor : Z)
  | Delete (ns : list Z) (flags : Z) (selector : list Z)
  | KillCursors (ids : list Z).

Definition take_int32 (l : list Z) : option (Z * list Z) :=
  if (length l <? 4)%nat then None else Some (s32 (le_value (take 4 l)), drop 4 l).
Definition take_int64 (l : list Z) : option (Z * list Z) :=
  if (length l <? 8)%nat then None else Some (s64 (le_value (take 8 l)), drop 8 l).
Definition take_cstring (l : list Z) : option (list Z * list Z) :=
  s ← c_string l; Some (s, drop (S (length s)) l).
Definition take_document (l : list Z) : option (list Z * list Z) :=
  '(n, _) ← take_int32 l;
  if (5 <=? n) && (n <=? Z.of_nat (length l)) then Some (take (Z.to_nat n) l, drop (Z.to_nat n) l) else None.

(** All of [l] as elements that [item] takes off. *)
Fixpoint take_all {A} (item : list Z -> option (A * list Z)) (fuel : nat) (l : list Z) : option (list A) :=
  match l, fuel with
  | [], _ => Some []
  | _, O => None
  | _, S fuel => '(a, l) ← item l; r ← take_all item fuel l; Some (a :: r)
  end.
Definition documents (l : list Z) : option (list (list Z)) := take_all take_document (length l) l.

Definition decode_body (op : Z) (l : list Z) : option request :=
  if op =? MONGO_OP_UPDATE then
    '(_, l) ← take_int32 l; '(ns, l) ← take_cstring l; '(flags, l) ← take_int32 l;
    '(s, l) ← take_document l; '(u, l) ← take_document l;
    if bool_decide (l = []) then Some (Update ns flags s u) else None
  else if op =? MONGO_OP_INSERT then
    '(flags, l) ← take_int32 l; '(ns, l) ← take_cstring l; docs ← documents l; Some (Insert flags ns docs)
  else if op =? MONGO_OP_QUERY then
    '(flags, l) ← take_int32 l; '(ns, l) ← take_cstring l; '(skip, l) ← take_int32 l; '(count, l) ← take_int32 l;
    '(q, l) ← take_document l; '(f, l) ← take_document l;
    if bool_decide (l = []) then Some (Query flags ns skip count q f) else None
  else if op =? MONGO_OP_GET_MORE then
    '(_, l) ← take_int32 l; '(ns, l) ← take_cstring l; '(count, l) ← take_int32 l; '(id, l) ← take_int64 l;
    if bool_decide (l = []) then Some (GetMore ns count id) else None
  else if op =? MONGO_OP_DELETE then
    '(_, l) ← take_int32 l; '(ns, l) ← take_cstring l; '(flags, l) ← take_int32 l; '(s, l) ← take_document l;
    if bool_decide (l = []) then Some (Delete ns flags s) else None
  else if op =? MONGO_OP_KILL_CURSORS then
    '(_, l) ← take_int32 l; '(n, l) ← take_int32 l; ids ← take_all take_int64 (length l) l;
    if n =? Z.of_nat (length ids) then Some (KillCursors ids) else None
  else None.

Definition decode (l : list Z) : option request :=
  '(len, l1) ← take_int32 l; '(_, l2) ← take_int32 l1; '(_, l3) ← take_int32 l2; '(op, body) ← take_int32 l3;
  if len =? Z.of_nat (length l) then decode_body op body else None.

Definition int (z : Z) : Prop := INT_MIN <= z <= INT_MAX.

Lemma int_0 : int 0.
Proof. done. Qed.
Lemma int_1 : int 1.
Proof. done. Qed.
Lemma int_length {A} (l : list A) : Z.of_nat (length l) <= INT_MAX -> int (Z.of_nat (length l)).
Proof. unfold int, INT_MIN. lia. Qed.
Create HintDb wire.
#[export] Hint Resolve int_0 int_1 int_length : wire.

Lemma take_int32_le z l : int z -> take_int32 (le 4 z ++ l) = Some (z, l).
Proof. intros Hz. unfold take_int32. simpl. f_equal. f_equal. by apply s32_le. Qed.
Lemma take_int64_le z l : - 2 ^ 63 <= z < 2 ^ 63 -> take_int64 (le 8 z ++ l) = Some (z, l).
Proof. intros Hz. unfold take_int64. simpl. f_equal. f_equal. by apply s64_le. Qed.
Lemma take_cstring_cstr s l : no_nul s -> take_cstring (cstr s ++ l) = Some (s, l).
Proof.
  intros Hs. unfold take_cstring, cstr. rewrite <- app_assoc. simpl.
  rewrite c_string_app by done. cbn [mbind option_bind]. do 2 f_equal.
  rewrite cons_middle, app_assoc. rewrite drop_app_length'; [done|]. rewrite length_app. simpl. lia.
Qed.

(** The bytes of a document. *)
Definition document_bytes (d : list Z) : Prop :=
  5 <= Z.of_nat (length d) <= INT_MAX /\ take 4 d = le 4 (Z.of_nat (length d)).

Lemma take_document_app d l : document_bytes d -> take_document (d ++ l) = Some (d, l).
Proof.
  intros [Hl Hd]. unfold take_document.
  assert (E : d ++ l = le 4 (Z.of_nat (length d)) ++ (drop 4 d ++ l)).
  { by rewrite <- Hd, app_assoc, take_drop. }
  rewrite E at 1. rewrite take_int32_le by (unfold int, INT_MIN in *; lia). simpl.
  rewrite length_app, !(proj2 (Z.leb_le _ _)) by lia. simpl.
  by rewrite Nat2Z.id, take_app_length, drop_app_length.
Qed.

Lemma take_all_concat {A} item (f : A -> list Z) xs :
  Forall (fun a => f a <> [] /\ forall l, item (f a ++ l) = Some (a, l)) xs ->
  forall n, (length (concat (map f xs)) <= n)%nat -> take_all item n (concat (map f xs)) = Some xs.
Proof.
  induction 1 as [|a xs [Ha Hi] _ IH]; intros n Hn; [by destruct n|].
  simpl in *. rewrite length_app in Hn.
  destruct (f a) as [|b fa] eqn:E; [done|]. simpl in *. destruct n as [|n]; [lia|].
  simpl. specialize (Hi (concat (map f xs))). simpl in Hi. rewrite Hi. simpl. by rewrite IH by lia.
Qed.

Lemma documents_concat ds : Forall document_bytes ds -> documents (concat ds) = Some ds.
Proof.
  intros Hds. unfold documents. rewrite <- (map_id ds) at 1 2. apply (take_all_concat _ (fun d => d)); [|done].
  eapply Forall_impl; [exact Hds|]. intros d Hd. cbn beta. split; [|intros l; by apply take_document_app].
  destruct Hd as [Hd _]. intros ->. simpl in Hd. lia.
Qed.

(** A message of the driver. *)
Definition message_of (id op : Z) (body : list Z) : list Z :=
  head_bytes (Message (16 + Z.of_nat (length body)) id 0 op []) ++ body.

Lemma decode_message id op body :
  16 + Z.of_nat (length body) <= INT_MAX -> int id -> int op ->
  decode (message_of id op body) = decode_body op body.
Proof.
  intros Hl Hid Hop. unfold decode, message_of, head_bytes. simpl m_len. simpl m_id. simpl m_responseTo. simpl m_op.
  rewrite <- !app_assoc, take_int32_le by (unfold int, INT_MIN; lia).
  change (Some (?x, ?l) ≫= ?k) with (k (x, l)). cbv beta iota.
  rewrite take_int32_le by done. cbn [mbind option_bind]. rewrite take_int32_le by done.
  cbn [mbind option_bind]. rewrite take_int32_le by done. cbn [mbind option_bind].
  rewrite !length_app, !le_length, (proj2 (Z.eqb_eq _ _)) by lia. done.
Qed.

(** Reads the fields of a message. *)
Ltac decoded :=
  lazy beta iota delta [decode_body Z.eqb Pos.eqb MONGO_OP_UPDATE MONGO_OP_INSERT MONGO_OP_QUERY
    MONGO_OP_GET_MORE MONGO_OP_DELETE MONGO_OP_KILL_CURSORS];
  cbn [concat app];
  repeat (first [rewrite take_int32_le by eauto with wire | rewrite take_int64_le by done
                | rewrite take_cstring_cstr by done | rewrite take_document_app by done];
          cbn [mbind option_bind]).

Lemma decode_insert flags ns docs : int flags -> no_nul ns -> Forall document_bytes docs ->
  decode_body MONGO_OP_INSERT (concat ([le 4 flags; cstr ns] ++ docs)) = Some (Insert flags ns docs).
Proof. intros. decoded. by rewrite documents_concat. Qed.
Lemma decode_update flags ns q u : int flags -> no_nul ns -> document_bytes q -> document_bytes u ->
  decode_body MONGO_OP_UPDATE (concat [le 4 0; cstr ns; le 4 flags; q; u]) = Some (Update ns flags q u).
Proof. intros. by decoded. Qed.
Lemma decode_delete ns q : no_nul ns -> document_bytes q ->
  decode_body MONGO_OP_DELETE (concat [le 4 0; cstr ns; le 4 0; q]) = Some (Delete ns 0 q).
Proof. intros. by decoded. Qed.
Lemma decode_query flags ns skip n q f :
  int flags -> int skip -> int n -> no_nul ns -> document_bytes q -> document_bytes f ->
  decode_body MONGO_OP_QUERY (concat [le 4 flags; cstr ns; le 4 skip; le 4 n; q; f]) = Some (Query flags ns skip n q f).
Proof. intros. by decoded. Qed.
Lemma decode_get_more ns n id : int n -> - 2 ^ 63 <= id < 2 ^ 63 -> no_nul ns ->
  decode_body MONGO_OP_GET_MORE (concat [le 4 0; cstr ns; le 4 n; le 8 id]) = Some (GetMore ns n id).
Proof. intros. by decoded. Qed.
Lemma decode_kill_cursors id : - 2 ^ 63 <= id < 2 ^ 63 ->
  decode_body MONGO_OP_KILL_CURSORS (concat [le 4 0; le 4 1; le 8 id]) = Some (KillCursors [id]).
Proof.
  intros. decoded.
  assert (Hid : Forall (fun a => le 8 a <> [] /\ forall l, take_int64 (le 8 a ++ l) = Some (a, l)) [id]).
  { repeat constructor; [done|]. intros. by apply take_int64_le. }
  change (le 8 id ++ []) with (concat (map (le 8) [id])).
  rewrite (take_all_concat _ _ _ Hid) by done.
  done.
Qed.

(** Looks at results that are known. *)
Ltac known :=
  change (MONGO_OK =? MONGO_OK) with true; change (MONGO_ERROR =? MONGO_OK) with false;
  change (MONGO_OK =? MONGO_ERROR) with false; change (MONGO_ERROR =? MONGO_ERROR) with true;
  cbn [negb].

(** ** A network that works

    [outgoing] is what was sent on a connection, [incoming] what is still to
    be received; both may go in pieces of any size. *)

Class NetLaws (W : Type) `{Net W} := {
  outgoing : W -> list Z;
  incoming : W -> list Z;
  send_law s l w : l <> [] ->
    exists n e w', sys_send s l w = ((Z.of_nat n, e), w') /\ (0 < n <= length l)%nat
      /\ outgoing w' = outgoing w ++ take n l /\ incoming w' = incoming w;
  recv_law s n w : 0 < n -> incoming w <> [] ->
    exists l e w', sys_recv s n w = ((l, e), w') /\ l <> [] /\ Z.of_nat (length l) <= n
      /\ incoming w = l ++ incoming w' /\ outgoing w' = outgoing w;
  rand_law w : exists r w', sys_rand w = (r, w') /\ 0 <= r <= INT_MAX
    /\ outgoing w' = outgoing w /\ incoming w' = incoming w
}.

Section Working.
Context {W : Type} `{NetLaws W}.
Context (junk : Z -> Z).

(** [w'] is [w] after [out] was sent and [inp] received. *)
Definition moved (w w' : W) (out inp : list Z) : Prop :=
  outgoing w' = outgoing w ++ out /\ incoming w = inp ++ incoming w'.

Lemma moved_refl w : moved w w [] [].
Proof. split; [by rewrite app_nil_r|done]. Qed.

Lemma moved_trans w1 w2 w3 o1 o2 i1 i2 :
  moved w1 w2 o1 i1 -> moved w2 w3 o2 i2 -> moved w1 w3 (o1 ++ o2) (i1 ++ i2).
Proof.
  intros [Ho1 Hi1] [Ho2 Hi2].
  split; [by rewrite Ho2, Ho1, app_assoc|by rewrite Hi1, Hi2, app_assoc].
Qed.

Lemma net_eq {A} (f : W -> A * W) c w a w' : f w = (a, w') -> net f (c, w) = Some (a, (c, w')).
Proof. intros E. unfold net. by rewrite E. Qed.
Lemma conn_eq c (w : W) : conn (c, w) = Some (c, (c, w)).
Proof. done. Qed.

Lemma write_socket_sends rounds l : forall c w,
  (length l <= rounds)%nat ->
  exists w', mongo_env_write_socket rounds l (c, w) = Some (MONGO_OK, (c, w')) /\ moved w w' l [].
Proof.
  induction rounds as [|rounds IH] in l |- *; intros c w Hr.
  { destruct l; [|simpl in Hr; lia]. exists w. split; [done|apply moved_refl]. }
  destruct l as [|b l]; [exists w; split; [done|apply moved_refl]|].
  cbn [mongo_env_write_socket]. run (conn_eq c w).
  destruct (send_law (sock c) (b :: l) w) as (n & e & w1 & E & Hn & Ho & Hi); [done|].
  run (net_eq _ c _ _ _ E). rewrite (proj2 (Z.eqb_neq (Z.of_nat n) (-1))) by lia. rewrite Nat2Z.id.
  destruct (IH (drop n (b :: l)) c w1) as (w' & -> & Ho' & Hi'); [rewrite length_drop; lia|].
  exists w'. split; [done|]. split; [|by rewrite <- Hi, Hi'].
  by rewrite Ho', Ho, <- app_assoc, take_drop.
Qed.

Lemma read_socket_reads rounds l : forall c w rest,
  incoming w = l ++ rest -> (length l <= rounds)%nat ->
  exists w', mongo_env_read_socket rounds (Z.of_nat (length l)) (c, w) = Some ((MONGO_OK, l), (c, w'))
    /\ moved w w' [] l.
Proof.
  induction rounds as [|rounds IH] in l |- *; intros c w rest Hin Hr.
  { destruct l; [|simpl in Hr; lia]. exists w. split; [done|apply moved_refl]. }
  destruct l as [|b l]; [exists w; split; [done|apply moved_refl]|].
  cbn [mongo_env_read_socket]. rewrite (proj2 (Z.eqb_neq _ 0)) by (simpl; lia). run (conn_eq c w).
  destruct (recv_law (sock c) (Z.of_nat (length (b :: l))) w) as (got & e & w1 & E & Hne & Hle & Hi & Ho);
    [simpl; lia|by rewrite Hin|].
  run (net_eq _ c _ _ _ E). destruct got as [|g got]; [done|].
  rewrite Hin in Hi. assert (Hl : b :: l = (g :: got) ++ drop (length (g :: got)) (b :: l)).
  { rewrite <- (take_drop (length (g :: got)) (b :: l)) at 1. f_equal.
    apply (f_equal (take (length (g :: got)))) in Hi. rewrite take_app_le in Hi by lia.
    by rewrite take_app_length in Hi. }
  set (rem := drop (length (g :: got)) (b :: l)) in *.
  assert (Hi1 : incoming w1 = rem ++ rest).
  { rewrite Hl, <- app_assoc in Hi. by apply app_inv_head in Hi. }
  assert (Hlen : length (b :: l) = (length (g :: got) + length rem)%nat) by by rewrite Hl, length_app.
  destruct (IH rem c w1 rest Hi1) as (w' & E' & Ho' & Hi'); [simpl in *; lia|].
  replace (Z.of_nat (length (b :: l)) - Z.of_nat (length (g :: got))) with (Z.of_nat (length rem)) by lia.
  run E'. rewrite Hl. exists w'. split; [done|]. split; [by rewrite Ho', Ho|].
  by rewrite Hin, Hl, <- !app_assoc, <- Hi', Hi1.
Qed.

(** ** Sending a message *)


Lemma append_all_data pieces : forall mm,
  16 + Z.of_nat (length (m_data mm ++ concat pieces)) <= m_len mm ->
  append_all mm pieces = Some (mm <| m_data := m_data mm ++ concat pieces |>).
Proof.
  induction pieces as [|l pieces IH]; intros mm Hl; simpl in *.
  { rewrite app_nil_r. by destruct mm. }
  rewrite !length_app in Hl. unfold mongo_data_append. rewrite (proj2 (Z.leb_le _ _)) by lia. simpl.
  rewrite IH by (simpl; rewrite !length_app; lia). simpl. by rewrite app_assoc.
Qed.

Lemma message_send_sends rounds mm c w :
  m_len mm = 16 + Z.of_nat (length (m_data mm)) -> (16 + length (m_data mm) <= rounds)%nat ->
  exists w', mongo_message_send rounds junk mm (c, w) = Some (MONGO_OK, (c, w'))
    /\ moved w w' (head_bytes mm ++ m_data mm) [].
Proof.
  intros Hl Hr. unfold mongo_message_send.
  destruct (write_socket_sends rounds (head_bytes mm) c w) as (w1 & E1 & M1).
  { unfold head_bytes. rewrite !length_app, !le_length. lia. }
  run E1. known. replace (m_len mm - 16 - _) with 0 by lia.
  change (map junk (seqZ 0 0)) with (@nil Z). rewrite app_nil_r.
  destruct (write_socket_sends rounds (m_data mm) c w1) as (w2 & E2 & M2); [lia|].
  exists w2. split; [exact E2|]. exact (moved_trans _ _ _ _ _ _ _ M1 M2).
Qed.

(** A message is made, filled and sent. *)
Lemma message_sent rounds op pieces c w :
  16 + Z.of_nat (length (concat pieces)) < INT_MAX -> (16 + length (concat pieces) <= rounds)%nat ->
  exists id mm mm' w1 w2,
    mongo_message_create (16 + Z.of_nat (length (concat pieces))) 0 0 op (c, w) = Some (Some mm, (c, w1))
    /\ append_all mm pieces = Some mm'
    /\ mongo_message_send rounds junk mm' (c, w1) = Some (MONGO_OK, (c, w2))
    /\ int id /\ moved w w2 (message_of id op (concat pieces)) [].
Proof.
  intros Hl Hr. destruct (rand_law w) as (id & w1 & E & Hid & Ho & Hi).
  set (mm := Message (16 + Z.of_nat (length (concat pieces))) id 0 op []).
  assert (Hmm : append_all mm pieces = Some (mm <| m_data := concat pieces |>)).
  { rewrite append_all_data; [done|]. simpl. lia. }
  destruct (message_send_sends rounds (mm <| m_data := concat pieces |>) c w1) as (w2 & E2 & M2);
    [done|done|].
  exists id, mm, (mm <| m_data := concat pieces |>), w1, w2. split_and!; [|done|exact E2| |].
  - unfold mongo_message_create. rewrite (proj2 (Z.leb_gt _ _)) by lia. simpl Z.eqb. cbv iota.
    run (net_eq sys_rand c w id w1 E). by rewrite s32_small by (unfold INT_MIN; lia).
  - unfold int, INT_MIN. lia.
  - destruct M2 as [Ho2 Hi2]. split; [by rewrite Ho2, Ho|by rewrite <- Hi].
Qed.

(** ** Writes *)

Lemma doc_bytes_eq b d : is_doc b d -> bson_bytes b = Some d.
Proof.
  intros Hd. unfold bson_bytes. rewrite (doc_size b d Hd). destruct Hd as (_ & rest & -> & _).
  apply read_n_app.
Qed.
Lemma is_doc_bytes b d : is_doc b d -> document_bytes d.
Proof. intros (_ & rest & _ & Hl & Ht). by split. Qed.

End Working.

(** ** A network, for the examples

    It takes at most three bytes at a time and gives at most two. *)

Record pipe := Pipe { sent_bytes : list Z; to_come : list Z }.

#[export] Instance pipe_net : Net pipe := {|
  addr := unit;
  sys_send _ l w := let n := Nat.min 3 (length l) in
    ((Z.of_nat n, 0), Pipe (sent_bytes w ++ take n l) (to_come w));
  sys_recv _ n w := let n := Nat.min 2 (Z.to_nat n) in
    ((take n (to_come w), 0), Pipe (sent_bytes w) (drop n (to_come w)));
  sys_close _ w := w;
  sys_socket _ w := (3, w);
  sys_connect _ _ w := (0, w);
  sys_setsockopt _ _ _ w := ((0, 0), w);
  getaddrinfo _ _ w := (Some [tt], w);
  sys_rand w := (7, w);
  strerror _ := []
|}.

#[export] Program Instance pipe_laws : NetLaws pipe := {| outgoing := sent_bytes; incoming := to_come |}.
Next Obligation.
  intros s l w Hl. exists (Nat.min 3 (length l)). eexists _, _. split; [done|]. split; [|done].
  destruct l; [done|]. simpl length. lia.
Qed.
Next Obligation.
  intros s n w Hn Hi. eexists _, _, _. split; [done|]. cbn [sent_bytes to_come] in *. split_and!.
  - destruct (to_come w); [done|]. by replace (Z.to_nat n) with (S (Z.to_nat (n - 1))) by lia.
  - rewrite length_take. lia.
  - by rewrite take_drop.
  - done.
Qed.
Next Obligation. intros w. by exists 7, w. Qed.

Definition start : pipe := Pipe [] [].

(** The connection of the examples, and a document [{ n: 1 }]. *)
Definition some_conn : mongo :=
  Mongo None None 3 0 MONGO_DEFAULT_MAX_BSON_SIZE true None 0 0
    (replicate MONGO_ERR_LEN 0) 0 (replicate MONGO_ERR_LEN 0).
Definition n_is (n : Z) : list Z := [12; 0; 0; 0; 16] ++ bs "n" ++ [0] ++ le 4 n ++ [0].
Definition doc_n (n : Z) : bson := Bson (Some (n_is n)) 0 128 true [] 0 0.
