(* ===== verification/MongoDrain.v ===== *)
(** * What a cursor of the MongoDB driver gives

    Replies, and the documents of a query: over a network that works, a cursor
    gives the documents of all replies once, in order, and asks for the next
    reply when it has given the last document of one. *)

From S2P Require Import Prelude BsonUtf8 BsonBuild BsonIter MongoConn MongoCursor MongoWire.

Set Warnings "-register-all".

#[local] Abbreviation length := (@List.length _).

(** ** Replies *)

Definition reply_head (r : reply) : list Z :=
  le 4 (r_len r) ++ le 4 (r_id r) ++ le 4 (r_responseTo r) ++ le 4 (r_op r).
Definition reply_fields (r : reply) : list Z :=
  le 4 (r_flag r) ++ le 8 (r_cursorID r) ++ le 4 (r_start r) ++ le 4 (r_num r).
Definition reply_bytes (r : reply) : list Z := reply_head r ++ reply_fields r ++ objs r.

Definition MAX_REPLY : Z := 64 * 1024 * 1024.

Record reply_ok (r : reply) : Prop := {
  ok_len : r_len r = 36 + Z.of_nat (length (objs r));
  ok_max : r_len r <= MAX_REPLY;
  ok_id : int (r_id r); ok_to : int (r_responseTo r); ok_op : int (r_op r);
  ok_flag : int (r_flag r); ok_start : int (r_start r); ok_num : int (r_num r);
  ok_cursor : - 2 ^ 63 <= r_cursorID r < 2 ^ 63
}.

(** A reply with the documents [ds]. *)
Definition reply_with (r : reply) (ds : list (list Z)) : Prop :=
  reply_ok r /\ objs r = concat ds /\ r_num r = Z.of_nat (length ds)
  /\ ds <> [] /\ Forall document_bytes ds.

(** Messages one after another, and the requests they are. *)
Inductive says : list Z -> list request -> Prop :=
  | says_nil : says [] []
  | says_cons msg l r rs : decode msg = Some r -> says l rs -> says (msg ++ l) (r :: rs).

(** All the documents that a cursor gives, until it gives no more. *)
Fixpoint drain {W} `{Net W} (rounds : nat) (junk : Z -> Z) (n : nat) (k : cursor)
    : D W (list (list Z) * cursor) :=
  match n with
  | O => crash
  | S n =>
      '(rc, k) ← mongo_cursor_next rounds junk k;
      if rc =? MONGO_OK then
        d ← or_crash (current_document k);
        '(ds, k) ← drain rounds junk n k;
        mret (d :: ds, k)
      else mret ([], k)
  end.

Lemma over_full (l a : list Z) : length l = length a -> over l a = l.
Proof. intros E. unfold over. rewrite E, drop_all. apply app_nil_r. Qed.

Lemma reply_fields_eq r : reply_ok r ->
  let int32 l i := s32 (le_value (take 4 (drop i l))) in
  Reply (r_len r) (int32 (reply_head r) 4%nat) (int32 (reply_head r) 8%nat) (int32 (reply_head r) 12%nat)
    (int32 (reply_fields r) 0%nat) (s64 (le_value (take 8 (drop 4 (reply_fields r)))))
    (int32 (reply_fields r) 12%nat) (int32 (reply_fields r) 16%nat) (objs r) = r.
Proof.
  intros [_ _ H1 H2 H3 H4 H5 H6 H7] int32. unfold int32.
  change (take 4 (drop 4 (reply_head r))) with (le 4 (r_id r)).
  change (take 4 (drop 8 (reply_head r))) with (le 4 (r_responseTo r)).
  change (take 4 (drop 12 (reply_head r))) with (le 4 (r_op r)).
  change (take 4 (drop 0 (reply_fields r))) with (le 4 (r_flag r)).
  change (take 8 (drop 4 (reply_fields r))) with (le 8 (r_cursorID r)).
  change (take 4 (drop 12 (reply_fields r))) with (le 4 (r_start r)).
  change (take 4 (drop 16 (reply_fields r))) with (le 4 (r_num r)).
  rewrite !s32_le, s64_le by done. by destruct r.
Qed.

Lemma bind_ret {S A B} (a : A) (k : A -> M S B) s : (mret a ≫= k) s = k a s.
Proof. done. Qed.

Section Drain.
Context {W : Type} `{NetLaws W}.
Context (rounds : nat) (junk : Z -> Z).

Lemma read_head_eq l n c w rest :
  incoming w = l ++ rest -> n = Z.of_nat (length l) -> n <= Z.of_nat rounds ->
  exists w', mongo_env_read_socket rounds n (c, w) = Some ((MONGO_OK, l), (c, w')) /\ moved w w' [] l
    /\ incoming w' = rest.
Proof.
  intros Hi -> Hr. destruct (read_socket_reads rounds l c w rest Hi ltac:(lia)) as (w' & E & M).
  exists w'. split_and!; [done..|]. destruct M as [_ M]. rewrite Hi in M. by apply app_inv_head in M.
Qed.

Lemma read_response_reads r c w rest :
  incoming w = reply_bytes r ++ rest -> reply_ok r -> r_len r <= Z.of_nat rounds ->
  exists w', mongo_read_response rounds junk (c, w) = Some ((MONGO_OK, Some r), (c, w'))
    /\ moved w w' [] (reply_bytes r) /\ incoming w' = rest.
Proof.
  intros Hi Hok Hr. unfold reply_bytes in *. rewrite <- !app_assoc in Hi.
  assert (Hl := ok_len r Hok). unfold mongo_read_response.
  destruct (read_head_eq _ 16 c w _ Hi eq_refl ltac:(lia)) as (w1 & E1 & M1 & I1). run E1.
  destruct (read_head_eq _ 20 c w1 _ I1 eq_refl ltac:(lia)) as (w2 & E2 & M2 & I2). run E2.
  rewrite !over_full by done.
  assert (Elen : u32 (le_value (take 4 (reply_head r))) = r_len r).
  { unfold reply_head. rewrite take_app_length' by done. rewrite le_value_le.
    unfold u32. change (256 ^ Z.of_nat 4) with (2 ^ 32). rewrite Z.mod_mod by lia. apply Z.mod_small.
    pose proof (ok_max r Hok). unfold MAX_REPLY in *. lia. }
  rewrite Elen. pose proof (ok_max r Hok) as Hm. unfold MAX_REPLY in Hm.
  rewrite !(proj2 (Z.ltb_ge _ _)) by lia. cbn [orb].
  destruct (read_head_eq (objs r) (r_len r - 36) c w2 rest I2) as (w3 & E3 & M3 & I3); [lia..|].
  run E3. known. exists w3. split_and!; [|split|done].
  - unfold mret, M_ret. do 4 f_equal. exact (reply_fields_eq r Hok).
  - destruct M1 as [O1 _], M2 as [O2 _], M3 as [O3 _]. by rewrite O3, O2, O1, !app_nil_r.
  - by rewrite Hi, I3, <- !app_assoc.
Qed.

(** ** The next document *)

Lemma size_at_document pre d post : document_bytes d ->
  size_at (pre ++ d ++ post) (Z.of_nat (length pre)) = Some (Z.of_nat (length d)).
Proof.
  intros [Hl Ht]. assert (Ed : d ++ post = le 4 (Z.of_nat (length d)) ++ drop 4 d ++ post).
  { by rewrite <- Ht, app_assoc, take_drop. }
  unfold size_at. rewrite Ed.
  rewrite (read_bytes_app pre (le 4 (Z.of_nat (length d))) (drop 4 d ++ post) : read_bytes _ _ 4 = _). cbn [mbind option_bind]. rewrite s32_le; [done|]. unfold INT_MIN. lia.
Qed.

(** The cursor is at the document [d] of its reply [r]. *)
Definition at_document (k : cursor) (r : reply) (pre : list (list Z)) (d : list Z) (post : list (list Z)) : Prop :=
  k_reply k = Live r /\ current k = Some (Z.of_nat (length (concat pre)))
  /\ reply_with r (pre ++ d :: post) /\ query_sent k = true /\ limit k = 0.

Lemma at_document_objs k r pre d post : at_document k r pre d post ->
  objs r = concat pre ++ d ++ concat post /\ document_bytes d.
Proof.
  intros (_ & _ & (_ & Ho & _ & _ & Hd) & _). rewrite Ho, concat_app. split; [done|].
  rewrite Forall_app, Forall_cons in Hd. tauto.
Qed.

Lemma at_document_current k r pre d post : at_document k r pre d post -> current_document k = Some d.
Proof.
  intros Ha. destruct (at_document_objs _ _ _ _ _ Ha) as [Ho Hd].
  destruct Ha as (Hk & Hc & _). unfold current_document. rewrite Hk, Hc, Ho, size_at_document by done.
  cbn [mbind option_bind]. apply read_bytes_app.
Qed.

Lemma at_document_num k r pre d post : at_document k r pre d post -> (r_num r =? 0) = false.
Proof.
  intros (_ & _ & (_ & _ & Hn & _ & _) & _). rewrite Hn, length_app. simpl. apply Z.eqb_neq. lia.
Qed.

(** The cursor looks for the document after [d]. *)
Lemma next_at k r pre d post c w : at_document k r pre d post ->
  mongo_cursor_next rounds junk k (c, w) =
    match post with
    | [] =>
        ('(rc, k) ← mongo_cursor_get_more rounds junk k;
         if negb (rc =? MONGO_OK) then mret (MONGO_ERROR, k)
         else
           r ← live (k_reply k);
           if r_num r =? 0 then
             mret (MONGO_ERROR, if r_cursorID r =? 0 then k else k <| k_err := MONGO_CURSOR_PENDING |>)
           else mret (MONGO_OK, k <| current := Some 0 |>)) (c, w)
    | _ => Some ((MONGO_OK, k <| current := Some (Z.of_nat (length (concat pre)) + Z.of_nat (length d)) |>), (c, w))
    end.
Proof.
  intros Ha. pose proof (at_document_num _ _ _ _ _ Ha) as Hn.
  destruct (at_document_objs _ _ _ _ _ Ha) as [Ho Hd]. destruct Ha as (Hk & Hc & (Hok & _ & _ & _ & Hds) & Hq & _).
  unfold mongo_cursor_next. rewrite Hq, bind_ret. known. rewrite Hk, Hn.
  unfold step_document. rewrite Hk. cbn [live]. rewrite bind_ret, Hc, Ho, size_at_document by done.
  rewrite bind_or_crash, (ok_len r Hok), Ho, !length_app.
  destruct post as [|d' post].
  - rewrite (proj2 (Z.leb_le _ _)) by (simpl; lia). done.
  - rewrite (proj2 (Z.leb_gt _ _)); [done|].
    rewrite Forall_app, !Forall_cons in Hds. destruct Hds as (_ & _ & [Hl _] & _). simpl. rewrite length_app. lia.
Qed.

Lemma get_more_reads k r pre d r' ds' c w rest :
  at_document k r pre d [] -> r_cursorID r <> 0 -> reply_with r' ds' -> no_nul (k_ns k) ->
  33 + Z.of_nat (length (k_ns k)) < INT_MAX -> 33 + Z.of_nat (length (k_ns k)) <= Z.of_nat rounds ->
  r_len r' <= Z.of_nat rounds -> incoming w = reply_bytes r' ++ rest ->
  exists msg w', mongo_cursor_get_more rounds junk k (c, w) =
      Some ((MONGO_OK, k <| k_reply := Live r' |> <| current := None |> <| seen := s32 (seen k + r_num r') |>), (c, w'))
    /\ outgoing w' = outgoing w ++ msg /\ incoming w' = rest
    /\ decode msg = Some (GetMore (k_ns k) 0 (r_cursorID r)).
Proof.
  intros Ha Hid Hr' Hns Hs Hr Hl Hi. destruct Ha as (Hk & Hc & (Hok & _) & Hq & Hlim).
  set (ps := [le 4 0; cstr (k_ns k); le 4 0; le 8 (r_cursorID r)]).
  assert (Hps : 16 + Z.of_nat (length (concat ps)) = 33 + Z.of_nat (length (k_ns k))).
  { simpl. rewrite !length_app. unfold cstr. rewrite length_app. simpl. lia. }
  destruct (message_sent junk rounds MONGO_OP_GET_MORE ps c w) as (id & mm & mm' & w1 & w2 & E1 & E2 & E3 & Hint & M);
    [lia..|]. rewrite Hps in E1. destruct M as [OM IM].
  destruct (read_response_reads r' c w2 rest) as (w3 & E4 & [O4 _] & I4); [by rewrite <- Hi|apply Hr'|done|].
  exists (message_of id MONGO_OP_GET_MORE (concat ps)), w3. split_and!; [|by rewrite O4, app_nil_r|done|].
  - unfold mongo_cursor_get_more. rewrite Hlim. change (0 <? 0) with false. cbn [andb]. rewrite Hk.
    rewrite (proj2 (Z.eqb_neq (r_cursorID r) 0)) by done.
    replace (16 + 4 + _ + 4 + 8) with (33 + Z.of_nat (length (k_ns k))) by lia.
    run E1. fold ps. rewrite E2, bind_or_crash. run E3. known. run E4. done.
  - rewrite decode_message; [|lia|done|done]. apply decode_get_more; [done|apply Hok|done].
Qed.

(** The next document is the first of the next reply. *)
Lemma next_reply k r pre d r' d' ds' c w rest :
  at_document k r pre d [] -> r_cursorID r <> 0 -> reply_with r' (d' :: ds') -> no_nul (k_ns k) ->
  33 + Z.of_nat (length (k_ns k)) < INT_MAX -> 33 + Z.of_nat (length (k_ns k)) <= Z.of_nat rounds ->
  r_len r' <= Z.of_nat rounds -> incoming w = reply_bytes r' ++ rest ->
  exists msg w' k', mongo_cursor_next rounds junk k (c, w) = Some ((MONGO_OK, k'), (c, w'))
    /\ at_document k' r' [] d' ds' /\ k_ns k' = k_ns k
    /\ outgoing w' = outgoing w ++ msg /\ incoming w' = rest
    /\ decode msg = Some (GetMore (k_ns k) 0 (r_cursorID r)).
Proof.
  intros Ha Hid Hr' Hns Hs Hr Hl Hi.
  destruct (get_more_reads k r pre d r' (d' :: ds') c w rest) as (msg & w' & E & O & I & D); [done..|].
  rewrite (next_at _ _ _ _ _ c w Ha). run E. known. exists msg, w'. eexists.
  split.
  - etransitivity; [by refine (bind_eq _ _ _ r' (c, w') _)|].
    assert (Hn : (r_num r' =? 0) = false).
    { destruct Hr' as (_ & _ & -> & _). apply Z.eqb_neq. simpl. lia. }
    by rewrite Hn.
  - split_and!; try done. destruct Ha as (_ & _ & _ & Hq & Hlim). by split_and!.
Qed.

(** After the last document of the last reply, no more. *)
Lemma next_end k r pre d c w :
  at_document k r pre d [] -> r_cursorID r = 0 ->
  mongo_cursor_next rounds junk k (c, w)
    = Some ((MONGO_ERROR, k <| k_err := MONGO_CURSOR_EXHAUSTED |>), (c, w)).
Proof.
  intros Ha Hid. rewrite (next_at _ _ _ _ _ c w Ha). destruct Ha as (Hk & _ & _ & _ & Hlim).
  unfold mongo_cursor_get_more. rewrite Hlim. change (0 <? 0) with false. cbn [andb]. by rewrite Hk, Hid.
Qed.

(** ** All documents *)

(** The replies to a query: each but the last names the cursor. *)
Fixpoint replies (r : reply) (rs : list (reply * list (list Z))) : Prop :=
  match rs with
  | [] => r_cursorID r = 0
  | (r', ds) :: rs => r_cursorID r <> 0 /\ reply_with r' ds /\ r_len r' <= Z.of_nat rounds /\ replies r' rs
  end.
(** The cursors that are named. *)
Fixpoint named (r : reply) (rs : list (reply * list (list Z))) : list Z :=
  match rs with [] => [] | (r', _) :: rs => r_cursorID r :: named r' rs end.

Lemma drain_step n k k1 k' d ds (s0 s1 s : mongo * W) :
  mongo_cursor_next rounds junk k s0 = Some ((MONGO_OK, k1), s1) -> current_document k1 = Some d ->
  drain rounds junk n k1 s1 = Some ((ds, k'), s) ->
  drain rounds junk (S n) k s0 = Some ((d :: ds, k'), s).
Proof. intros E1 E2 E3. cbn [drain]. run E1. known. rewrite E2, bind_or_crash. by run E3. Qed.

Lemma next_same k r pre d d' post : at_document k r pre d (d' :: post) ->
  exists k', at_document k' r (pre ++ [d]) d' post /\ k_ns k' = k_ns k
    /\ forall c w, mongo_cursor_next rounds junk k (c, w) = Some ((MONGO_OK, k'), (c, w)).
Proof.
  intros Ha. eexists. split; [|split; [|intros c w; exact (next_at _ _ _ _ _ c w Ha)]]; [|done].
  destruct Ha as (Hk & Hc & Hr & Hq & Hl). split_and!; [done| |by rewrite <- app_assoc|done|done].
  cbn [current set]. rewrite concat_app, length_app. simpl. rewrite app_nil_r. f_equal. lia.
Qed.

(** The rest of a reply is given, then the last document of it is the current
    one. *)
Lemma drain_reply r post : forall k pre d, at_document k r pre d post ->
  exists k1 pre1 d1, at_document k1 r pre1 d1 [] /\ k_ns k1 = k_ns k
    /\ forall n ds k' c w (s : mongo * W), drain rounds junk n k1 (c, w) = Some ((ds, k'), s) ->
        drain rounds junk (length post + n) k (c, w) = Some ((post ++ ds, k'), s).
Proof.
  induction post as [|d' post IH]; intros k pre d Ha; [by exists k, pre, d|].
  destruct (next_same k r pre d d' post Ha) as (k2 & Ha2 & Hns2 & E).
  destruct (IH k2 (pre ++ [d]) d' Ha2) as (k1 & pre1 & d1 & Ha1 & Hns1 & Hdr).
  exists k1, pre1, d1. split; [done|]. split; [congruence|]. intros n ds k' c w s Hd. simpl.
  eapply drain_step; [apply E|by eapply at_document_current|by apply Hdr].
Qed.

Lemma drain_rest rs rest : forall k r post pre d c w n,
  at_document k r pre d post -> replies r rs -> no_nul (k_ns k) ->
  33 + Z.of_nat (length (k_ns k)) < INT_MAX -> 33 + Z.of_nat (length (k_ns k)) <= Z.of_nat rounds ->
  incoming w = concat (map (fun '(r, _) => reply_bytes r) rs) ++ rest ->
  (length post + length (concat (map snd rs)) < n)%nat ->
  exists msgs w' k', drain rounds junk n k (c, w) = Some ((post ++ concat (map snd rs), k'), (c, w'))
    /\ k_err k' = MONGO_CURSOR_EXHAUSTED /\ outgoing w' = outgoing w ++ msgs /\ incoming w' = rest
    /\ says msgs (map (GetMore (k_ns k) 0) (named r rs)).
Proof.
  induction rs as [|[r' ds'] rs IH]; intros k r post pre d c w n Ha Hrs Hns Hs Hr Hi Hn;
    destruct (drain_reply r post k pre d Ha) as (k1 & pre1 & d1 & Ha1 & Hns1 & Hdr);
    rewrite <- Hns1 in *; destruct (Nat.le_exists_sub (length post) n ltac:(lia)) as (m & -> & _);
    rewrite (Nat.add_comm m); (destruct m as [|m]; [simpl in Hn; lia|]).
  - exists [], w. eexists. split.
    { rewrite app_nil_r. rewrite <- (app_nil_r post) at 2. apply Hdr. cbn [drain].
      by run (next_end _ _ _ _ c w Ha1 Hrs). }
    split_and!; [done|by rewrite app_nil_r|done|constructor].
  - destruct Hrs as (Hid & Hr' & Hl & Hrs). destruct ds' as [|d' ds']; [by destruct Hr' as (_ & _ & _ & ? & _)|].
    simpl in Hi. rewrite <- app_assoc in Hi.
    destruct (next_reply k1 r pre1 d1 r' d' ds' c w _ Ha1 Hid Hr' Hns Hs Hr Hl Hi)
      as (msg & w1 & k2 & E & Ha2 & Hns2 & O1 & I1 & D1).
    rewrite <- Hns2 in Hns, Hs, Hr.
    destruct (IH k2 r' ds' [] d' c w1 m Ha2 Hrs Hns Hs Hr I1) as (msgs & w' & k' & E' & He & O & I & D).
    { simpl in Hn. rewrite length_app in Hn. lia. }
    exists (msg ++ msgs), w', k'. split.
    { apply Hdr. eapply drain_step; [exact E|by eapply at_document_current|exact E']. }
    split_and!; [done|by rewrite O, O1, app_assoc|done|].
    rewrite Hns2 in D. by constructor.
Qed.

(** ** The query *)

(** A document of the caller, or the empty one where there is none. *)
Definition doc_at (p : doc_ptr) (d : list Z) : Prop :=
  match p with
  | NoDoc => d = [5; 0; 0; 0; 0]
  | Doc b => is_doc b d /\ Z.land (err b) BSON_NOT_UTF8 = 0
  | Gone => False
  end.

Lemma query_doc_eq k p d (s : mongo * W) : doc_at p d ->
  exists b, query_doc k p s = Some ((MONGO_OK, k, b), s) /\ is_doc b d.
Proof.
  destruct p as [|b|]; simpl; [| |done].
  - intros ->. exists bson_empty. split; [done|]. by split; [|exists [0]].
  - intros [Hd Hu]. exists b. split; [|done]. unfold mongo_cursor_bson_valid.
    destruct Hd as [-> _]. by rewrite Hu.
Qed.

(** A reply that does not tell of an error. *)
Definition no_error (r : reply) : Prop :=
  r_num r = 1 -> exists it, bson_find (objs r) (length (objs r)) (bs "$err") = Some (0, it).

Lemma no_error_eq r (s : mongo * W) : no_error r ->
  (if r_num r =? 1
   then '(type, it) ← or_crash (bson_find (objs r) (length (objs r)) (bs "$err"));
        if type =? 0 then mret false else _ ← mongo_set_last_error (objs r) it; mret true
   else mret false) s = Some (false, s).
Proof. intros Hr. destruct (Z.eqb_spec (r_num r) 1) as [E|]; [|done]. by destruct (Hr E) as [it ->]. Qed.

Lemma op_query_reads k q f r ds c w rest :
  doc_at (query k) q -> doc_at (k_fields k) f -> int (options k) -> int (skip k) -> int (limit k) -> no_nul (k_ns k) ->
  29 + Z.of_nat (length (k_ns k) + length q + length f) < INT_MAX ->
  29 + Z.of_nat (length (k_ns k) + length q + length f) <= Z.of_nat rounds ->
  reply_with r ds -> r_len r <= Z.of_nat rounds -> no_error r -> incoming w = reply_bytes r ++ rest ->
  exists msg w' k', mongo_cursor_op_query rounds junk k (c, w) = Some ((MONGO_OK, k'), (mongo_clear_errors c, w'))
    /\ k_reply k' = Live r /\ query_sent k' = true /\ k_ns k' = k_ns k /\ limit k' = limit k /\ current k' = current k
    /\ outgoing w' = outgoing w ++ msg /\ incoming w' = rest
    /\ decode msg = Some (Query (options k) (k_ns k) (skip k) (limit k) q f).
Proof.
  intros Hq Hf Ho Hsk Hl Hns Hs Hr Hrd Hlr Hne Hi. unfold mongo_cursor_op_query.
  run (eq_refl : on_conn mongo_clear_errors (c, w) = Some (tt, (mongo_clear_errors c, w))).
  destruct (query_doc_eq k (query k) q (mongo_clear_errors c, w) Hq) as (bq & Eq & Hbq). run Eq. known.
  set (k1 := k <| query := _ |>).
  destruct (query_doc_eq k1 (k_fields k1) f (mongo_clear_errors c, w) Hf) as (bf & Ef & Hbf). run Ef. known.
  rewrite (doc_size bq q Hbq), (doc_size bf f Hbf), (doc_bytes_eq bq q Hbq), (doc_bytes_eq bf f Hbf), !bind_or_crash.
  set (k2 := k1 <| k_fields := _ |>). change (k_ns k2) with (k_ns k). change (options k2) with (options k).
  change (skip k2) with (skip k). change (limit k2) with (limit k).
  set (ps := [le 4 (options k); cstr (k_ns k); le 4 (skip k); le 4 (limit k); q; f]).
  assert (Hps : 16 + Z.of_nat (length (concat ps))
      = u64 (16 + 4 + Z.of_nat (length (k_ns k)) + 1 + 4 + 4 + Z.of_nat (length q) + Z.of_nat (length f))).
  { rewrite u64_small by (unfold INT_MAX in *; lia). simpl. rewrite !length_app. unfold cstr.
    rewrite length_app. simpl. rewrite !length_app. simpl. lia. }
  rewrite <- Hps. rewrite u64_small in Hps by (unfold INT_MAX in *; lia).
  destruct (message_sent junk rounds MONGO_OP_QUERY ps (mongo_clear_errors c) w)
    as (id & mm & mm' & w1 & w2 & E1 & E2 & E3 & Hint & OM & IM); [lia..|].
  run E1. rewrite !bind_or_crash. fold ps. rewrite E2, bind_or_crash. run E3. known.
  destruct (read_response_reads r (mongo_clear_errors c) w2 rest) as (w3 & E4 & [O4 _] & I4);
    [by rewrite <- Hi|apply Hrd|done|].
  run E4. cbv zeta. run (no_error_eq r (mongo_clear_errors c, w3) Hne).
  eexists (message_of id MONGO_OP_QUERY (concat ps)), w3, _. split; [done|].
  split_and!; [done..|by rewrite O4, app_nil_r|done|].
  rewrite decode_message; [|lia|done|done]. apply decode_query; eauto using is_doc_bytes.
Qed.

(** C12: Over a network that works, in pieces of any size, a cursor without a
    limit, for a query that fits a message, whose replies have at least one
    document each, and whose first reply does not tell of an error, gives
    exactly the documents of all the replies, each once and in order, and then
    says that it is exhausted; it has sent the query and, for each cursor that
    a reply named, one request for more, and has read the replies and nothing
    after them. *)
Theorem mongo_cursor_drains ns qp fp q f n_skip opts r ds rs rest c w :
  let k := mongo_cursor_set_options (mongo_cursor_set_skip
    (mongo_cursor_set_fields (mongo_cursor_set_query (mongo_cursor_init ns) qp) fp) n_skip) opts in
  let docs := ds ++ concat (map snd rs) in
  doc_at qp q -> doc_at fp f -> int opts -> int n_skip -> no_nul ns ->
  29 + Z.of_nat (length ns + length q + length f) < INT_MAX ->
  29 + Z.of_nat (length ns + length q + length f) <= Z.of_nat rounds ->
  reply_with r ds -> r_len r <= Z.of_nat rounds -> no_error r -> replies r rs ->
  incoming w = reply_bytes r ++ concat (map (fun '(r, _) => reply_bytes r) rs) ++ rest ->
  exists msgs w' k', drain rounds junk (S (length docs)) k (c, w) = Some ((docs, k'), (mongo_clear_errors c, w'))
    /\ k_err k' = MONGO_CURSOR_EXHAUSTED /\ outgoing w' = outgoing w ++ msgs /\ incoming w' = rest
    /\ says msgs (Query opts ns n_skip 0 q f :: map (GetMore ns 0) (named r rs)).
Proof.
  intros k docs Hq Hf Ho Hsk Hns Hs Hr Hrd Hlr Hne Hrs Hi.
  destruct (op_query_reads k q f r ds c w _ Hq Hf Ho Hsk ltac:(done) Hns Hs Hr Hrd Hlr Hne Hi)
    as (msg & w1 & k1 & E & Hk1 & Hq1 & Hns1 & Hl1 & Hc1 & O1 & I1 & D1).
  assert (Hne' : ds <> []) by apply Hrd. destruct ds as [|d ds]; [done|].
  set (k2 := k1 <| current := Some 0 |>).
  assert (Ha : at_document k2 r [] d ds) by by split_and!.
  assert (En : mongo_cursor_next rounds junk k (c, w) = Some ((MONGO_OK, k2), (mongo_clear_errors c, w1))).
  { unfold mongo_cursor_next. change (query_sent k) with false. cbv iota. run E. known.
    rewrite Hk1, (at_document_num _ _ _ _ _ Ha). unfold step_document. rewrite Hk1. cbn [live].
    by rewrite bind_ret, Hc1. }
  assert (Hlq : (5 <= length q)%nat /\ (5 <= length f)%nat).
  { split; [destruct qp as [|b|]|destruct fp as [|b|]]; simpl in *; subst; simpl; try lia; try done;
      [destruct Hq as [Hd%is_doc_bytes _]|destruct Hf as [Hd%is_doc_bytes _]]; destruct Hd; lia. }
  destruct (drain_rest rs rest k2 r ds [] d (mongo_clear_errors c) w1 (length docs) Ha Hrs)
    as (msgs & w' & k' & E' & He & O & I & D).
  - by change (k_ns k2) with (k_ns k1); rewrite Hns1.
  - change (k_ns k2) with (k_ns k1). rewrite Hns1. change (k_ns k) with ns. lia.
  - change (k_ns k2) with (k_ns k1). rewrite Hns1. change (k_ns k) with ns. lia.
  - done.
  - unfold docs. simpl. rewrite length_app. lia.
  - exists (msg ++ msgs), w', k'. split; [|split_and!; [done|by rewrite O, O1, app_assoc|done|]].
    + eapply drain_step; [exact En|by eapply at_document_current|exact E'].
    + change (k_ns k2) with (k_ns k1) in D. rewrite Hns1 in D. by constructor.
Qed.
End Drain.

(** ** Replies that are refused *)

(** a reply is 36 bytes to 64 MiB long: when its first field says
    otherwise, whatever the rest of its header says, the result is the error
    MONGO_READ_SIZE_ERROR, there is no reply, and nothing after the header is
    received. *)
Theorem mongo_read_response_bounds {W} `{NetLaws W} rounds junk len head rest c w :
  0 <= len < 2 ^ 32 -> ~ 36 <= len <= MAX_REPLY -> length head = 32%nat ->
  incoming w = le 4 len ++ head ++ rest -> 36 <= Z.of_nat rounds ->
  exists w', mongo_read_response rounds junk (c, w) = Some ((MONGO_READ_SIZE_ERROR, None), (c, w'))
    /\ incoming w' = rest /\ outgoing w' = outgoing w.
Proof.
  intros Hlen Hbad Hhead Hi Hr. unfold mongo_read_response, MAX_REPLY in *.
  rewrite <- (take_drop 12 head), <- app_assoc, app_assoc in Hi.
  destruct (read_head_eq rounds _ 16 c w _ Hi) as (w1 & E1 & [O1 _] & I1);
    [rewrite length_app, le_length, length_take; lia|lia|]. run E1.
  destruct (read_head_eq rounds _ 20 c w1 _ I1) as (w2 & E2 & [O2 _] & I2); [rewrite length_drop; lia|lia|]. run E2.
  rewrite over_full by by rewrite length_app, le_length, length_take, Hhead.
  rewrite take_app_length', le_value_le by done. unfold u32. change (256 ^ Z.of_nat 4) with (2 ^ 32).
  rewrite Z.mod_mod, Z.mod_small by lia. exists w2. rewrite O2, O1, !app_nil_r. split; [|done].
  destruct (Z.ltb_spec len 36); [done|]. rewrite (proj2 (Z.ltb_lt _ len)) by lia. done.
Qed.

(** ** A network that breaks *)

Lemma write_socket_fails {W} `{Net W} rounds b l c w :
  (forall s l w, exists e w', sys_send s l w = ((-1, e), w')) ->
  exists s', mongo_env_write_socket (S rounds) (b :: l) (c, w) = Some (MONGO_ERROR, s').
Proof.
  intros Hs. destruct (Hs (sock c) (b :: l) w) as (e & w' & E). eexists. cbn [mongo_env_write_socket].
  run (conn_eq c w). by run (net_eq _ c _ _ _ E).
Qed.

Lemma message_send_fails {W} `{Net W} rounds junk mm c w :
  (forall s l w, exists e w', sys_send s l w = ((-1, e), w')) -> (0 < rounds)%nat ->
  exists s', mongo_message_send rounds junk mm (c, w) = Some (MONGO_ERROR, s').
Proof.
  intros Hs Hr. destruct rounds as [|rounds]; [lia|]. unfold mongo_message_send.
  destruct (head_bytes mm) as [|b l] eqn:El; [done|].
  destruct (write_socket_fails rounds b l c w Hs) as [s' E]. run E. by eexists.
Qed.

(** when a cursor asks for more and the request cannot be sent,
    mongo_cursor_get_more destroys a cursor whose reply it has freed, and so
    follows a pointer into freed memory: there is no defined result. *)
Theorem mongo_cursor_get_more_broken {W} `{Net W} rounds junk k r c w :
  (forall s l w, exists e w', sys_send s l w = ((-1, e), w')) ->
  k_reply k = Live r -> r_cursorID r <> 0 -> limit k = 0 ->
  33 + Z.of_nat (length (k_ns k)) < INT_MAX -> (0 < rounds)%nat ->
  mongo_cursor_get_more rounds junk k (c, w) = None.
Proof.
  intros Hsend Hk Hid Hl Hs Hr. unfold mongo_cursor_get_more.
  rewrite Hl. change (0 <? 0) with false. cbn [andb]. rewrite Hk, (proj2 (Z.eqb_neq _ 0)) by done.
  set (len := 16 + 4 + _ + 4 + 8). assert (Hlen : 33 <= len < INT_MAX) by lia.
  unfold mongo_message_create. rewrite (proj2 (Z.leb_gt _ _)) by lia. change (0 =? 0) with true. cbv iota.
  destruct (sys_rand w) as [id w1] eqn:Er.
  rewrite (bind_eq _ _ (c, w) (Some (Message (s32 len) id 0 MONGO_OP_GET_MORE [])) (c, w1)) by
    by rewrite (bind_eq _ _ _ id (c, w1)) by exact (net_eq _ c _ _ _ Er).
  rewrite append_all_data, bind_or_crash.
  2:{ unfold len in *. rewrite s32_small by (unfold INT_MIN; lia). simpl. unfold cstr.
      rewrite !length_app. simpl. lia. }
  edestruct (message_send_fails rounds junk) as [[c' w'] E]; [exact Hsend|exact Hr|]. by run E.
Qed.

(** ** Examples *)

Definition reply_1 : reply := Reply 60 1 7 1 0 5 0 2 (n_is 1 ++ n_is 2).
Definition reply_2 : reply := Reply 48 2 7 1 0 0 2 1 (n_is 3).
Definition to_read : pipe := Pipe [] (reply_bytes reply_1 ++ reply_bytes reply_2 ++ [1]).

Lemma n_is_document n : document_bytes (n_is n).
Proof. split; [|done]. unfold n_is. rewrite !length_app, le_length. simpl. unfold INT_MAX. lia. Qed.
Lemma reply_1_with : reply_with reply_1 [n_is 1; n_is 2].
Proof. split; [by split|]. split_and!; [done|done|done|]. by repeat constructor; apply n_is_document. Qed.
Lemma reply_2_with : reply_with reply_2 [n_is 3].
Proof. split; [by split|]. split_and!; [done|done|done|]. by repeat constructor; apply n_is_document. Qed.

Lemma mongo_cursor_drains_witness :
  let k := mongo_cursor_set_options (mongo_cursor_set_skip
    (mongo_cursor_set_fields (mongo_cursor_set_query (mongo_cursor_init (bs "test.c")) (Doc (doc_n 1))) NoDoc) 0) 0 in
  exists msgs w' k', drain 100 (fun _ => 0) 4 k (some_conn, to_read)
      = Some (([n_is 1; n_is 2; n_is 3], k'), (mongo_clear_errors some_conn, w'))
    /\ k_err k' = MONGO_CURSOR_EXHAUSTED /\ outgoing w' = outgoing to_read ++ msgs /\ incoming w' = [1]
    /\ says msgs [Query 0 (bs "test.c") 0 0 (n_is 1) [5; 0; 0; 0; 0]; GetMore (bs "test.c") 0 5].
Proof.
  refine (mongo_cursor_drains 100 (fun _ => 0) (bs "test.c") (Doc (doc_n 1)) NoDoc (n_is 1) [5; 0; 0; 0; 0] 0 0
    reply_1 [n_is 1; n_is 2] [(reply_2, [n_is 3])] [1] some_conn to_read _ _ _ _ _ _ _ reply_1_with _ _ _ _);
    try done.
  - split; [|done]. split; [done|]. exists []. by split_and!.
  - by repeat constructor.
  - split; [done|]. split; [exact reply_2_with|done].
Defined.

Lemma mongo_read_response_bounds_witness :
  exists w', mongo_read_response 100 (fun _ => 0) (some_conn, Pipe [] (le 4 (2 ^ 31) ++ replicate 32 0 ++ [9]))
      = Some ((MONGO_READ_SIZE_ERROR, None), (some_conn, w'))
    /\ incoming w' = [9] /\ outgoing w' = [].
Proof.
  refine (mongo_read_response_bounds 100 (fun _ => 0) (2 ^ 31) (replicate 32 0) [9] some_conn
    (Pipe [] (le 4 (2 ^ 31) ++ replicate 32 0 ++ [9])) _ _ _ _ _); [done|unfold MAX_REPLY; lia|done|done|done].
Defined.

(** A network that takes nothing. *)
Definition broken_net : Net unit := {|
  addr := unit;
  sys_send _ _ w := ((-1, EPIPE), w);
  sys_recv _ _ w := (([], 0), w);
  sys_close _ w := w;
  sys_socket _ w := (3, w);
  sys_connect _ _ w := (-1, w);
  sys_setsockopt _ _ _ w := ((0, 0), w);
  getaddrinfo _ _ w := (None, w);
  sys_rand w := (7, w);
  strerror _ := bs "Broken pipe"
|}.

Lemma mongo_cursor_get_more_broken_witness :
  @mongo_cursor_get_more unit broken_net 100 (fun _ => 0)
    ((mongo_cursor_init (bs "test.c")) <| k_reply := Live reply_1 |> <| query_sent := true |>) (some_conn, tt) = None.
Proof.
  apply (@mongo_cursor_get_more_broken unit broken_net 100 (fun _ => 0) _ reply_1); try done.
  - intros s l w. by exists EPIPE, w.
  - lia.
Defined.
