(* ===== verification/MongoWrites.v ===== *)
(** * What the writes of the MongoDB driver send

    Inserts, updates and removals, over a network that works: a write that the
    driver accepts sends one message, which decodes to the request that was
    meant, and one it refuses sends nothing. *)

From S2P Require Import Prelude BsonUtf8 BsonBuild BsonIter MongoConn MongoCursor MongoCommand MongoWire.

Set Warnings "-register-all".

#[local] Abbreviation length := (@List.length _).

(** ** The four writes *)

Inductive write :=
  | WInsert (b : bson)
  | WBatch (bs : list bson) (flags : Z)
  | WUpdate (cond op : bson) (flags : Z)
  | WRemove (cond : bson).

Definition perform {W} `{Net W} (rounds : nat) (junk : Z -> Z) (ns : list Z) (wr : write)
    (custom : option write_concern) : D W Z :=
  match wr with
  | WInsert b => mongo_insert rounds junk ns b custom
  | WBatch bs flags => mongo_insert_batch rounds junk ns bs custom flags
  | WUpdate cond op flags => mongo_update rounds junk ns cond op flags custom
  | WRemove cond => mongo_remove rounds junk ns cond custom
  end.

(** The documents of a write; the fields and the request that go with them. *)
Definition docs_of (wr : write) : list bson :=
  match wr with WInsert b | WRemove b => [b] | WBatch bs _ => bs | WUpdate cond op _ => [cond; op] end.

Definition batch_flags (flags : Z) : Z := if Z.land flags MONGO_CONTINUE_ON_ERROR =? 0 then 0 else 1.

Definition body (ns : list Z) (wr : write) (ds : list (list Z)) : list (list Z) :=
  match wr with
  | WInsert _ => [le 4 0; cstr ns] ++ ds
  | WBatch _ flags => [le 4 (batch_flags flags); cstr ns] ++ ds
  | WUpdate _ _ flags => [le 4 0; cstr ns; le 4 flags] ++ ds
  | WRemove _ => [le 4 0; cstr ns; le 4 0] ++ ds
  end.

Definition request_of (ns : list Z) (wr : write) (ds : list (list Z)) : request :=
  match wr with
  | WInsert _ => Insert 0 ns ds
  | WBatch _ flags => Insert (batch_flags flags) ns ds
  | WUpdate _ _ flags => MongoWire.Update ns flags (ds !!! 0%nat) (ds !!! 1%nat)
  | WRemove _ => Delete ns 0 (ds !!! 0%nat)
  end.

(** ** What is accepted *)

(** A document that may be stored, or used to look for others. *)
Definition usable (c : mongo) (stored : bool) (b : bson) (d : list Z) : Prop :=
  Z.of_nat (length d) <= max_bson_size c /\ Z.land (err b) BSON_NOT_UTF8 = 0
  /\ (stored = true -> Z.land (err b) BSON_FIELD_HAS_DOT = 0 /\ Z.land (err b) BSON_FIELD_INIT_DOLLAR = 0).

(** Names are checked in inserts only; of an update, the second document. *)
Definition accepted (c : mongo) (ns : list Z) (wr : write) (ds : list (list Z)) : Prop :=
  16 + Z.of_nat (length (concat (body ns wr ds))) < INT_MAX /\
  match wr with
  | WInsert b => good_ns ns /\ Forall2 (usable c true) [b] ds
  | WBatch bs _ => good_ns ns /\ Forall2 (usable c true) bs ds
      /\ Z.of_nat (length (concat ds)) <= max_bson_size c
  | WUpdate _ op _ => usable c false op (ds !!! 1%nat)
  | WRemove cond => usable c false cond (ds !!! 0%nat)
  end.

Section Writes.
Context {W : Type} `{NetLaws W}.
Context (rounds : nat) (junk : Z -> Z).

(** The outcome of a write that is accepted when [P], as the request [r]. *)
Definition performs (P : Prop) (r : request) (w : W) (res : option (Z * (mongo * W))) : Prop :=
  exists rc c' w', res = Some (rc, (c', w')) /\
    ((P /\ rc = MONGO_OK /\ exists msg, moved w w' msg [] /\ decode msg = Some r)
     \/ (~ P /\ rc = MONGO_ERROR /\ c_err c' <> 0 /\ w' = w)).

Lemma performs_iff (P Q : Prop) r w res : (P <-> Q) -> performs P r w res -> performs Q r w res.
Proof. unfold performs. intros HPQ. by setoid_rewrite HPQ. Qed.

Lemma refuses (P : Prop) r w c' : ~ P -> c_err c' <> 0 -> performs P r w (Some (MONGO_ERROR, (c', w))).
Proof. intros HP Hc. eexists _, _, _. split; [done|]. by right. Qed.

Lemma message_too_long len id responseTo op (s : mongo * W) :
  INT_MAX <= len -> mongo_message_create len id responseTo op s = Some (None, s).
Proof. intros Hl. unfold mongo_message_create. by rewrite (proj2 (Z.leb_le _ _)). Qed.

Lemma send_write_performs ns op pieces c w n r :
  n = 16 + Z.of_nat (length (concat pieces)) -> n < 2 ^ 62 -> n <= Z.of_nat rounds -> int op ->
  decode_body op (concat pieces) = Some r ->
  performs (n < INT_MAX) r w (send_write rounds junk ns None (u64 n) op pieces (c, w)).
Proof.
  intros -> Hn Hr Hop Hd. unfold send_write. rewrite u64_small by lia.
  destruct (Z.lt_ge_cases (16 + Z.of_nat (length (concat pieces))) INT_MAX) as [Hl|Hl].
  - destruct (message_sent junk rounds op pieces c w Hl ltac:(lia))
      as (id & mm & mm' & w1 & w2 & E1 & E2 & E3 & Hid & M).
    run E1. rewrite E2, bind_or_crash. run E3. eexists _, _, _. split; [done|]. left. split_and!; [done..|].
    exists (message_of id op (concat pieces)). split; [done|]. rewrite decode_message; [done|lia|done..].
  - run (message_too_long _ 0 0 op (c, w) Hl). apply refuses; [lia|done].
Qed.

Lemma bson_valid_eq b d stored c (w : W) : is_doc b d ->
  exists c', concern c' = concern c /\ max_bson_size c' = max_bson_size c /\
  ((usable c stored b d /\ mongo_bson_valid b stored (c, w) = Some (MONGO_OK, (c', w)))
   \/ (~ usable c stored b d /\ c_err c' <> 0 /\
       mongo_bson_valid b stored (c, w) = Some (MONGO_ERROR, (c', w)))).
Proof.
  intros Hd. unfold mongo_bson_valid, usable. rewrite (doc_size b d Hd).
  destruct Hd as [-> _]. cbn [negb]. rewrite bind_or_crash. run (conn_eq c w).
  destruct (Z.ltb_spec (max_bson_size c) (Z.of_nat (length d))).
  { exists (c <| c_err := MONGO_BSON_TOO_LARGE |>). do 2 (split; [done|]). right. split; [lia|done]. }
  destruct (Z.eqb_spec (Z.land (err b) BSON_NOT_UTF8) 0); cbn [negb].
  2:{ exists (c <| c_err := MONGO_BSON_INVALID |>). do 2 (split; [done|]). right. split; [tauto|done]. }
  destruct (stored && _) eqn:E.
  { exists (c <| c_err := MONGO_BSON_INVALID |>). do 2 (split; [done|]). right. split; [|done].
    apply andb_true_iff in E as [-> E%orb_true_iff]. rewrite !negb_true_iff, !Z.eqb_neq in E. tauto. }
  exists (c <| c_err := 0 |>). do 2 (split; [done|]). left. split; [|done].
  split_and!; [done..|]. intros ->. simpl in E.
  apply orb_false_iff in E. by rewrite !negb_false_iff, !Z.eqb_eq in E.
Qed.

Lemma choose_none c (w : W) :
  concern c = None -> mongo_choose_write_concern None (c, w) = Some ((MONGO_OK, None), (c, w)).
Proof. intros Hc. unfold mongo_choose_write_concern. run (conn_eq c w). by rewrite Hc. Qed.

(** The message is sent, and decodes by the lemma [l]. *)
Ltac sent l :=
  eapply performs_iff; [|eapply send_write_performs; [| | |done|apply l]];
  try solve [done | eauto using is_doc_bytes | constructor; eauto using is_doc_bytes];
  simpl in *; rewrite ?length_app, ?app_nil_r in *; unfold cstr in *;
  do 2 (rewrite ?length_app in *; simpl in * ); try lia.

Lemma insert_performs ns b d c w :
  is_doc b d -> concern c = None -> no_nul ns ->
  16 + Z.of_nat (length (concat (body ns (WInsert b) [d]))) <= Z.of_nat rounds < 2 ^ 62 ->
  performs (accepted c ns (WInsert b) [d]) (Insert 0 ns [d]) w (mongo_insert rounds junk ns b None (c, w)).
Proof.
  intros Hd Hc Hns Hr. unfold mongo_insert, accepted.
  destruct (validate_ns_eq ns c w) as [[Hg E]|(Hg & c' & Hc' & E)]; run E; known.
  2:{ apply refuses; [tauto|by rewrite Hc']. }
  destruct (bson_valid_eq b d true c w Hd) as (c1 & Hc1 & _ & [[Hu E']|(Hu & He & E')]); run E'; known.
  2:{ apply refuses; [|done]. rewrite Forall2_cons. tauto. }
  rewrite <- Hc1 in Hc. run (choose_none c1 w Hc). known.
  rewrite (doc_size b d Hd), (doc_bytes_eq b d Hd), !bind_or_crash.
  sent (decode_insert 0 ns [d]).
  intuition (try lia). by constructor; [|constructor].
Qed.

Lemma update_performs ns cond op flags q u c w :
  is_doc cond q -> is_doc op u -> concern c = None -> no_nul ns -> int flags ->
  16 + Z.of_nat (length (concat (body ns (WUpdate cond op flags) [q; u]))) <= Z.of_nat rounds < 2 ^ 62 ->
  performs (accepted c ns (WUpdate cond op flags) [q; u]) (MongoWire.Update ns flags q u) w
    (mongo_update rounds junk ns cond op flags None (c, w)).
Proof.
  intros Hq Hu Hc Hns Hf Hr. unfold mongo_update, accepted.
  destruct (bson_valid_eq op u false c w Hu) as (c1 & Hc1 & _ & [[Hd E]|(Hd & He & E)]); run E; known.
  2:{ apply refuses; [tauto|done]. }
  rewrite <- Hc1 in Hc. run (choose_none c1 w Hc). known.
  rewrite (doc_size cond q Hq), (doc_bytes_eq cond q Hq), (doc_size op u Hu), (doc_bytes_eq op u Hu), !bind_or_crash.
  sent (decode_update flags ns q u). intuition lia.
Qed.

Lemma remove_performs ns cond q c w :
  is_doc cond q -> concern c = None -> no_nul ns ->
  16 + Z.of_nat (length (concat (body ns (WRemove cond) [q]))) <= Z.of_nat rounds < 2 ^ 62 ->
  performs (accepted c ns (WRemove cond) [q]) (Delete ns 0 q) w (mongo_remove rounds junk ns cond None (c, w)).
Proof.
  intros Hq Hc Hns Hr. unfold mongo_remove, accepted.
  destruct (bson_valid_eq cond q false c w Hq) as (c1 & Hc1 & _ & [[Hd E]|(Hd & He & E)]); run E; known.
  2:{ apply refuses; [tauto|done]. }
  rewrite <- Hc1 in Hc. run (choose_none c1 w Hc). known.
  rewrite (doc_size cond q Hq), (doc_bytes_eq cond q Hq), !bind_or_crash.
  sent (decode_delete ns q). intuition lia.
Qed.

Lemma batch_size_eq bs ds : Forall2 is_doc bs ds -> forall c (w : W) size,
  0 <= size -> size + Z.of_nat (length (concat ds)) < 2 ^ 62 ->
  exists c', concern c' = concern c /\ max_bson_size c' = max_bson_size c /\
  ((Forall2 (usable c true) bs ds /\
     batch_size bs size (c, w) = Some (Some (size + Z.of_nat (length (concat ds))), (c', w)))
   \/ (~ Forall2 (usable c true) bs ds /\ c_err c' <> 0 /\ batch_size bs size (c, w) = Some (None, (c', w)))).
Proof.
  induction 1 as [|b d bs ds Hd _ IH]; intros c w size H0s Hs; simpl batch_size.
  { exists c. do 2 (split; [done|]). left. split; [constructor|]. simpl. by rewrite Z.add_0_r. }
  simpl concat in *. rewrite length_app in *. rewrite (doc_size b d Hd), bind_or_crash.
  setoid_rewrite (Forall2_cons (usable c true) b bs d ds).
  destruct (bson_valid_eq b d true c w Hd) as (c1 & Hc1 & Hm1 & [[Hu E]|(Hu & He & E)]); run E; known.
  2:{ exists c1. do 2 (split; [done|]). right. split; [tauto|done]. }
  rewrite u64_small by lia.
  destruct (IH c1 w (size + Z.of_nat (length d))) as (c2 & Hc2 & Hm2 & Hor); [lia..|].
  exists c2. split; [congruence|]. split; [congruence|]. unfold usable in *. rewrite Hm1 in Hor.
  destruct Hor as [[Hf ->]|(Hf & He & ->)]; [left|right; tauto].
  split; [tauto|]. do 3 f_equal. lia.
Qed.

Lemma batch_performs ns bs flags ds c w :
  Forall2 is_doc bs ds -> concern c = None -> no_nul ns -> 0 <= max_bson_size c <= INT_MAX ->
  16 + Z.of_nat (length (concat (body ns (WBatch bs flags) ds))) <= Z.of_nat rounds < 2 ^ 62 ->
  performs (accepted c ns (WBatch bs flags) ds) (Insert (batch_flags flags) ns ds) w
    (mongo_insert_batch rounds junk ns bs None flags (c, w)).
Proof.
  intros Hd Hc Hns Hm Hr. unfold mongo_insert_batch, accepted.
  destruct (validate_ns_eq ns c w) as [[Hg E]|(Hg & c' & Hc' & E)]; run E; known.
  2:{ apply refuses; [tauto|by rewrite Hc']. }
  simpl in Hr. rewrite !length_app in Hr. unfold cstr in Hr. rewrite length_app in Hr.
  destruct (batch_size_eq bs ds Hd c w (16 + 4 + Z.of_nat (length ns) + 1))
    as (c1 & Hc1 & Hm1 & [[Hu E']|(Hu & He & E')]); [lia|simpl in Hr; lia| |]; run E'.
  2:{ apply refuses; [tauto|done]. }
  run (conn_eq c1 w). rewrite Hm1, (u64_small (max_bson_size c)), (u64_small (_ - _)) by (unfold INT_MAX in *; simpl in Hr; lia).
  destruct (Z.ltb_spec (max_bson_size c) (16 + 4 + Z.of_nat (length ns) + 1 + Z.of_nat (length (concat ds))
    - (16 + 4 + Z.of_nat (length ns) + 1))) as [Hl|Hl].
  { apply refuses; [|done]. intros (_ & _ & _ & Hl'). lia. }
  rewrite <- Hc1 in Hc. run (choose_none c1 w Hc). known.
  assert (Ed : mapM bson_bytes bs = Some ds).
  { apply mapM_Some_2. eapply Forall2_impl; [exact Hd|exact doc_bytes_eq]. }
  assert (Hb : Forall document_bytes ds).
  { clear - Hd. induction Hd; constructor; eauto using is_doc_bytes. }
  rewrite Ed, bind_or_crash.
  fold (batch_flags flags).
  rewrite <- (u64_small (16 + 4 + Z.of_nat (length ns) + 1 + Z.of_nat (length (concat ds)))) by (simpl in Hr; lia).
  sent (decode_insert (batch_flags flags) ns ds).
  - intuition lia.
  - unfold batch_flags. by destruct (_ =? _).
Qed.

(** C13: over a network that works, in pieces of any size, an insert, batch of
    inserts, update or removal without a write concern sends one message when
    the driver accepts it, and the message decodes by the wire protocol to the
    request that was meant, with its documents; when the driver refuses it, for
    its name, its documents or its size, the result is an error, which is noted
    on the connection, and nothing is sent. *)
Theorem mongo_writes_sent ns wr ds c w :
  Forall2 is_doc (docs_of wr) ds -> concern c = None -> no_nul ns -> 0 <= max_bson_size c <= INT_MAX ->
  match wr with WUpdate _ _ flags => int flags | _ => True end ->
  16 + Z.of_nat (length (concat (body ns wr ds))) <= Z.of_nat rounds < 2 ^ 62 ->
  exists rc c' w', perform rounds junk ns wr None (c, w) = Some (rc, (c', w')) /\
    ((accepted c ns wr ds /\ rc = MONGO_OK /\
        exists msg, moved w w' msg [] /\ decode msg = Some (request_of ns wr ds))
     \/ (~ accepted c ns wr ds /\ rc = MONGO_ERROR /\ c_err c' <> 0 /\ w' = w)).
Proof.
  intros Hd Hc Hns Hm Hf Hr.
  change (performs (accepted c ns wr ds) (request_of ns wr ds) w
    (perform rounds junk ns wr None (c, w))).
  destruct wr as [b|bs flags|cond op flags|cond]; simpl in Hd.
  - inversion Hd as [|? d ? ? Hb Hn]; subst. inversion Hn; subst. by apply insert_performs.
  - by apply batch_performs.
  - inversion Hd as [|? q ? ? Hq Hn]; subst. inversion Hn as [|? u ? ? Hu Hn']; subst. inversion Hn'; subst.
    by apply update_performs.
  - inversion Hd as [|? q ? ? Hq Hn]; subst. inversion Hn; subst. by apply remove_performs.
Qed.
End Writes.

Example mongo_insert_example :
  match mongo_insert 100 (fun _ => 0) (bs "test.c") (doc_n 1) None (some_conn, start) with
  | Some (rc, (_, w)) => rc = MONGO_OK /\ decode (sent_bytes w) = Some (Insert 0 (bs "test.c") [n_is 1])
  | None => False
  end.
Proof. by vm_compute. Qed.

Lemma mongo_writes_sent_witness :
  exists rc c' w', perform 100 (fun _ => 0) (bs "test.c") (WUpdate (doc_n 1) (doc_n 2) 1) None (some_conn, start)
      = Some (rc, (c', w')) /\
    ((accepted some_conn (bs "test.c") (WUpdate (doc_n 1) (doc_n 2) 1) [n_is 1; n_is 2] /\ rc = MONGO_OK /\
        exists msg, moved start w' msg [] /\
          decode msg = Some (MongoWire.Update (bs "test.c") 1 (n_is 1) (n_is 2)))
     \/ (~ accepted some_conn (bs "test.c") (WUpdate (doc_n 1) (doc_n 2) 1) [n_is 1; n_is 2]
         /\ rc = MONGO_ERROR /\ c_err c' <> 0 /\ w' = start)).
Proof.
  refine (mongo_writes_sent 100 (fun _ => 0) (bs "test.c") (WUpdate (doc_n 1) (doc_n 2) 1)
    [n_is 1; n_is 2] some_conn start _ _ _ _ _ _).
  - repeat constructor; try (exists []; split_and!; [done|done|done|done]).
  - done.
  - repeat constructor; done.
  - done.
  - done.
  - done.
Defined.
