(* ===== verification/GridFS.v ===== *)
(** * The GridFS client (mongo-c-driver/src/gridfs.c)

    Files are stored as documents of a [files] collection and, cut in chunks,
    of a [chunks] collection.  The MongoDB client of mongo.c with its server
    is the interface [Mongo]; documents are the abstract documents of
    BsonDoc.v, which that file proves to be what the bson.c functions build
    and read.  An operation returns [None] where the code follows a null
    pointer or reads outside a document. *)

From S2P Require Import Prelude BsonUtf8 BsonBuild BsonIter BsonDoc.

(** [driver/mongo.h:32-33] MONGO_OK *)
Definition MONGO_OK : Z := 0.
Definition MONGO_ERROR : Z := -1.
Definition MONGO_INDEX_UNIQUE : Z := 1.

(** [driver/gridfs.h:26-26] DEFAULT_CHUNK_SIZE *)
Definition DEFAULT_CHUNK_SIZE : Z := 256 * 1024.

(** ** The world: server, clock and identifiers *)

Class Mongo (W : Type) := {
  new_oid : W -> list Z * W;                       (* bson_oid_gen *)
  time_now : W -> Z * W;                           (* time(NULL) *)
  mongo_insert : list Z -> fields -> W -> Z * W;
  (* the documents the cursor will yield, or a null cursor *)
  mongo_find : list Z -> fields -> Z -> W -> option (list fields) * W;
  mongo_find_one : list Z -> fields -> W -> option fields * W;
  mongo_remove : list Z -> fields -> W -> Z * W;
  mongo_run_command : list Z -> fields -> W -> option fields * W;
  mongo_create_index : list Z -> fields -> Z -> W -> Z * W
}.

(** ** Documents *)

Definition string_ok (s : list Z) : bool := (bson_check_string 0 s).1 =? BSON_OK.

(** [bson_init], the [bson_append_*] calls and [bson_finish]: the document is
    finished unless a name or a string was refused. *)
Definition bson_doc (fs : fields) : option fields :=
  if forallb (fun f => string_ok f.1 &&
                match f.2 with VString s => string_ok s | _ => true end) fs
  then Some fs else None.

(** The C string a value's bytes begin with. *)
Fixpoint c_str (s : list Z) : list Z :=
  match s with
  | [] => []
  | c :: s' => if c =? 0 then [] else c :: c_str s'
  end.

(** The accessors of bson.c on the result of [bson_find]: [None] is
    [BSON_EOO]. *)
Definition field_type (v : option value) : Z :=
  match v with Some v => value_type v | None => BSON_EOO end.
Definition field_int (v : option value) : Z :=
  match v with
  | Some (VInt n) => n
  | Some (VLong n) => s32 n
  | Some (VDouble d) => double_to_int d
  | _ => 0
  end.
Definition field_long (v : option value) : Z :=
  match v with
  | Some (VInt n) | Some (VLong n) => n
  | Some (VDouble d) => double_to_int64 d
  | _ => 0
  end.
Definition field_string (v : option value) : list Z :=
  match v with Some (VString s) | Some (VSymbol s) => c_str s | _ => [] end.
Definition field_bool (v : option value) : bool :=
  match v with
  | Some (VBool b) => b
  | Some (VInt n) | Some (VLong n) => negb (n =? 0)
  | Some (VDouble d) => negb (d mod 2 ^ 63 =? 0)
  | Some VNull | None => false
  | Some _ => true
  end.
(** These read the bytes of the value whatever its type: what they read past
    the end of the document, or from a value of another type, is not
    modelled. *)
Definition field_oid (v : option value) : option (list Z) :=
  match v with Some (VOid o) => Some o | _ => None end.
Definition field_date (v : option value) : option Z :=
  match v with
  | Some (VDate n) | Some (VLong n) => Some n
  | Some (VDouble d) => Some (s64 d)
  | _ => None
  end.
Definition field_binary (v : option value) : option (list Z) :=
  match v with Some (VBinary _ d) => Some d | _ => None end.

(** ** Doubles

    A double that is not negative is a fraction; [rnd] is the rounding of
    a fraction to 53 significant bits, to nearest, ties to even. *)

Definition half_even (n d : Z) : Z :=
  let q := n / d in
  let r := n mod d in
  if (2 * r <? d) || ((2 * r =? d) && Z.even q) then q else q + 1.

Definition rnd (x : Z * Z) : Z * Z :=
  let '(n, d) := x in
  if n =? 0 then (0, 1)
  else
    let k := Z.log2 n - Z.log2 d in
    let k := if n * 2 ^ Z.max 0 (- k) <? d * 2 ^ Z.max 0 k then k - 1 else k in
    let e := k - 52 in
    let m := half_even (n * 2 ^ Z.max 0 (- e)) (d * 2 ^ Z.max 0 e) in
    (m * 2 ^ Z.max 0 e, 2 ^ Z.max 0 (- e)).

(** Conversion to [int]: [INT_MIN] when it does not fit (x86). *)
Definition dbl_int (x : Z * Z) : Z :=
  let v := x.1 / x.2 in if v <=? INT_MAX then v else INT_MIN.

(** ** Files *)

(** [driver/gridfs.h:31-37] gridfs *)
Record gridfs := GridFS {
  dbname : list Z;
  prefix : list Z;
  files_ns : list Z;
  chunks_ns : list Z
}.

(** [driver/gridfs.h:40-51] gridfile: [pending_data] is the allocated memory,
    [None] when [NULL]. *)
Record gridfile := GridFile {
  gfs : gridfs;
  meta : fields;
  pos : Z;
  id : list Z;
  remote_name : list Z;
  content_type : list Z;
  length : Z;
  chunk_num : Z;
  pending_data : option (list Z);
  pending_len : Z
}.
#[export] Instance eta_gridfile : Settable gridfile := fun f =>
  GridFile (gfs f) (meta f) (pos f) (id f) (remote_name f) (content_type f)
    (length f) (chunk_num f) (pending_data f) (pending_len f).

(** [driver/gridfs.c:477-482] gridfile_get_filename *)
Definition gridfile_get_filename (f : gridfile) : list Z :=
  field_string (lookup_field (meta f) (bs "filename")).

(** [driver/gridfs.c:484-489] gridfile_get_chunksize *)
Definition gridfile_get_chunksize (f : gridfile) : Z :=
  field_int (lookup_field (meta f) (bs "chunkSize")).

(** [driver/gridfs.c:491-500] gridfile_get_contentlength *)
Definition gridfile_get_contentlength (f : gridfile) : Z :=
  let it := lookup_field (meta f) (bs "length") in
  if field_type it =? BSON_INT then u64 (field_int it) else u64 (field_long it).

(** [driver/gridfs.c:502-508] gridfile_get_contenttype: [None] is [NULL]. *)
Definition gridfile_get_contenttype (f : gridfile) : option (list Z) :=
  let it := lookup_field (meta f) (bs "contentType") in
  if field_type it =? BSON_EOO then None else Some (field_string it).

(** [driver/gridfs.c:510-515] gridfile_get_uploaddate *)
Definition gridfile_get_uploaddate (f : gridfile) : option Z :=
  field_date (lookup_field (meta f) (bs "uploadDate")).

(** [driver/gridfs.c:517-522] gridfile_get_md5 *)
Definition gridfile_get_md5 (f : gridfile) : list Z :=
  field_string (lookup_field (meta f) (bs "md5")).

(** [driver/gridfs.c:531-536] gridfile_get_boolean *)
Definition gridfile_get_boolean (f : gridfile) (name : list Z) : bool :=
  field_bool (lookup_field (meta f) name).

(** [driver/gridfs.c:538-545] gridfile_get_metadata *)
Definition gridfile_get_metadata (f : gridfile) : option fields :=
  match lookup_field (meta f) (bs "metadata") with
  | None => Some []
  | Some (VObject fs) | Some (VArray fs) => Some fs
  | Some _ => None
  end.

(** [driver/gridfs.c:547-566] gridfile_get_numchunks: a division by zero gives
    an infinity or a NaN, whose conversion is [INT_MIN]. *)
Definition gridfile_get_numchunks (f : gridfile) : Z :=
  let length := gridfile_get_contentlength f in
  let chunkSize := u64 (gridfile_get_chunksize f) in
  if chunkSize =? 0 then INT_MIN
  else
    let a := rnd (length, 1) in
    let b := rnd (chunkSize, 1) in
    let numchunks := rnd (a.1 * b.2, a.2 * b.1) in
    if dbl_int numchunks * numchunks.2 <? numchunks.1
    then dbl_int (rnd (numchunks.1 + numchunks.2, numchunks.2))
    else dbl_int numchunks.

(** [driver/gridfs.c:711-717] gridfile_seek: the position reached. *)
Definition gridfile_seek (f : gridfile) (offset : Z) : Z * gridfile :=
  let length := gridfile_get_contentlength f in
  let p := if length <? offset then length else offset in
  (p, f <| pos := p |>).

(** [driver/gridfs.c:455-464] gridfile_init *)
Definition gridfile_init (g : gridfs) (m : fields) (f : gridfile) : gridfile :=
  f <| gfs := g |> <| pos := 0 |> <| meta := m |>.

(** [driver/gridfs.c:45-55] chunk_new *)
Definition chunk_new (id : list Z) (chunkNumber : Z) (data : list Z) : fields :=
  [(bs "files_id", VOid id); (bs "n", VInt chunkNumber);
   (bs "data", VBinary BSON_BIN_BINARY data)].

(** ** Operations *)

Section Operations.
Context {W : Type} `{Mongo W}.

(** [driver/mongo.c:748-780] mongo_bson_valid: what is not finished is not
    sent. *)
Definition insert_bson (ns : list Z) (d : option fields) : M W Z :=
  match d with
  | None => mret MONGO_ERROR
  | Some d => io (mongo_insert ns d)
  end.

(** [driver/gridfs.c:62-126] gridfs_init *)
Definition gridfs_init (dbname : list Z) (prefix : option (list Z)) : M W (Z * gridfs) :=
  let prefix := default (bs "fs") prefix in
  let g := GridFS dbname prefix (dbname ++ bs "." ++ prefix ++ bs ".files")
             (dbname ++ bs "." ++ prefix ++ bs ".chunks") in
  success ← io (mongo_create_index (files_ns g) [(bs "filename", VInt 1)] 0);
  if negb (success =? MONGO_OK) then mret (MONGO_ERROR, g)
  else
    success ← io (mongo_create_index (chunks_ns g)
                    [(bs "files_id", VInt 1); (bs "n", VInt 1)] MONGO_INDEX_UNIQUE);
    if negb (success =? MONGO_OK) then mret (MONGO_ERROR, g)
    else mret (MONGO_OK, g).

(** [driver/gridfs.c:136-177] gridfs_insert_file *)
Definition gridfs_insert_file (g : gridfs) (name : option (list Z)) (id : list Z)
    (length : Z) (contenttype : option (list Z)) : M W Z :=
  res ← match bson_doc [(bs "filemd5", VOid id); (bs "root", VString (prefix g))] with
        | None => mret None
        | Some command => io (mongo_run_command (dbname g) command)
        end;
  match res with
  | None => mret MONGO_ERROR
  | Some res =>
      t ← io time_now;
      let text k (s : option (list Z)) :=
        match s with
        | Some (c :: s') => [(k, VString (c :: s'))]
        | _ => []
        end in
      insert_bson (files_ns g)
        (bson_doc ([(bs "_id", VOid id)] ++ text (bs "filename") name ++
          [(bs "length", VLong (s64 length)); (bs "chunkSize", VInt DEFAULT_CHUNK_SIZE);
           (bs "uploadDate", VDate (s64 (1000 * t)));
           (bs "md5", VString (field_string (lookup_field res (bs "md5"))))] ++
          text (bs "contentType") contenttype))
  end.

(** [mongo_insert( client, chunks_ns, oChunk )]: its result is not looked
    at. *)
Definition put_chunk (g : gridfs) (id : list Z) (n : Z) (data : list Z) : M W unit :=
  _ ← io (mongo_insert (chunks_ns g) (chunk_new id n data)); mret tt.

(** [driver/gridfs.c:195-204] gridfs_store_buffer: the loop, on the bytes from
    [data_ptr] to [end], at most [fuel] times.  The number of bytes left is
    converted to [unsigned int]. *)
Fixpoint store_loop (fuel : nat) (g : gridfs) (id : list Z) (chunkNumber : Z)
    (data : list Z) : M W unit :=
  match data with
  | [] => mret tt
  | _ =>
      match fuel with
      | O => crash
      | S fuel =>
          let left := u32 (Z.of_nat (List.length data)) in
          let chunkLen := if DEFAULT_CHUNK_SIZE <? left then DEFAULT_CHUNK_SIZE else left in
          _ ← put_chunk g id chunkNumber (take (Z.to_nat chunkLen) data);
          store_loop fuel g id (chunkNumber + 1) (drop (Z.to_nat chunkLen) data)
      end
  end.

(** [driver/gridfs.c:179-209] gridfs_store_buffer *)
Definition gridfs_store_buffer (fuel : nat) (g : gridfs) (data : list Z)
    (remotename contenttype : option (list Z)) : M W Z :=
  id ← io new_oid;
  _ ← store_loop fuel g id 0 data;
  gridfs_insert_file g remotename id (Z.of_nat (List.length data)) contenttype.

(** [driver/gridfs.c:346-356] gridfs_store_file: the [do] loop.  [rest] is
    what the stream still holds; [fread] returns fewer bytes than asked for
    only at the end. *)
Fixpoint store_file_loop (fuel : nat) (g : gridfs) (id : list Z) (chunkNumber length : Z)
    (buffer rest : list Z) : M W Z :=
  match fuel with
  | O => crash
  | S fuel =>
      _ ← put_chunk g id chunkNumber buffer;
      let length := length + Z.of_nat (List.length buffer) in
      let n := Z.to_nat DEFAULT_CHUNK_SIZE in
      match take n rest with
      | [] => mret length
      | buffer => store_file_loop fuel g id (chunkNumber + 1) length buffer (drop n rest)
      end
  end.

(** [driver/gridfs.c:323-370] gridfs_store_file: [content] is the file's, or
    [None] when it cannot be opened. *)
Definition gridfs_store_file (fuel : nat) (g : gridfs) (filename : list Z)
    (content : option (list Z)) (remotename contenttype : option (list Z)) : M W Z :=
  match content with
  | None => mret MONGO_ERROR
  | Some content =>
      id ← io new_oid;
      let n := Z.to_nat DEFAULT_CHUNK_SIZE in
      length ← store_file_loop fuel g id 0 0 (take n content) (drop n content);
      let remotename := match remotename with
                        | None | Some [] => Some filename
                        | _ => remotename
                        end in
      gridfs_insert_file g remotename id length contenttype
  end.

(** [driver/gridfs.c:211-226] gridfile_writer_init *)
Definition gridfile_writer_init (f : gridfile) (g : gridfs)
    (remote_name content_type : list Z) : M W gridfile :=
  oid ← io new_oid;
  mret (f <| gfs := g |> <| id := oid |> <| chunk_num := 0 |> <| length := 0 |>
          <| pending_len := 0 |> <| pending_data := None |>
          <| GridFS.remote_name := remote_name |> <| GridFS.content_type := content_type |>).

(** A copy of the bytes [l] to offset [off] of a block of memory. *)
Definition poke (off : Z) (l m : list Z) : option (list Z) :=
  if (0 <=? off) && (off + Z.of_nat (List.length l) <=? Z.of_nat (List.length m))
  then Some (take (Z.to_nat off) m ++ l ++ drop (Z.to_nat off + List.length l) m)
  else None.

Section Writer.
(** The contents of fresh memory. *)
Context (junk : Z -> Z).

(** [realloc]: the old contents, cut or followed by fresh bytes. *)
Definition resize (n : Z) (m : list Z) : list Z :=
  take (Z.to_nat n) (m ++ fresh junk (n - Z.of_nat (List.length m))).

(** [driver/gridfs.c:238-248] gridfile_write_buffer: less than one chunk. *)
Definition write_pending (f : gridfile) (data : list Z) (to_write : Z) : M W gridfile :=
  let len := Z.of_nat (List.length data) in
  p ← match pending_data f with
      | Some m =>
          m' ← or_crash (poke (pending_len f) data (resize (pending_len f + to_write) m));
          mret (Some m')
      | None =>
          if 0 <? to_write
          then m' ← or_crash (poke 0 data (fresh junk to_write)); mret (Some m')
          else mret None
      end;
  mret (f <| pending_data := p |> <| pending_len := pending_len f + len |>).

(** [driver/gridfs.c:258-275] gridfile_write_buffer: the pending bytes and the
    first of the new ones make a chunk. *)
Definition write_first (f : gridfile) (data : list Z) : M W (gridfile * list Z) :=
  let partial := DEFAULT_CHUNK_SIZE - pending_len f in
  old ← or_crash (read_n (default [] (pending_data f)) (pending_len f));
  new ← or_crash (read_n data partial);
  b ← or_crash (poke 0 old (fresh junk DEFAULT_CHUNK_SIZE));
  b ← or_crash (poke (pending_len f) new b);
  _ ← put_chunk (gfs f) (id f) (chunk_num f) b;
  mret (f <| chunk_num := chunk_num f + 1 |> <| length := u64 (length f + DEFAULT_CHUNK_SIZE) |>,
        drop (Z.to_nat partial) data).

(** [driver/gridfs.c:277-285] gridfile_write_buffer: whole chunks of the new
    bytes. *)
Fixpoint write_chunks (n : nat) (f : gridfile) (data : list Z) : M W (gridfile * list Z) :=
  match n with
  | O => mret (f, data)
  | S n =>
      c ← or_crash (read_n data DEFAULT_CHUNK_SIZE);
      _ ← put_chunk (gfs f) (id f) (chunk_num f) c;
      write_chunks n
        (f <| chunk_num := chunk_num f + 1 |> <| length := u64 (length f + DEFAULT_CHUNK_SIZE) |>)
        (drop (Z.to_nat DEFAULT_CHUNK_SIZE) data)
  end.

(** [driver/gridfs.c:228-297] gridfile_write_buffer *)
Definition gridfile_write_buffer (f : gridfile) (data : list Z) : M W gridfile :=
  let to_write := u64 (Z.of_nat (List.length data) + pending_len f) in
  if to_write <? DEFAULT_CHUNK_SIZE then write_pending f data to_write
  else
    let chunks_to_write := to_write / DEFAULT_CHUNK_SIZE in
    let bytes_left := to_write mod DEFAULT_CHUNK_SIZE in
    '(f, data, chunks_to_write) ←
      (if 0 <? pending_len f
       then '(f, data) ← write_first f data; mret (f, data, chunks_to_write - 1)
       else mret (f, data, chunks_to_write));
    '(f, data) ← write_chunks (Z.to_nat chunks_to_write) f data;
    p ← (if bytes_left =? 0 then mret None
         else l ← or_crash (read_n data bytes_left); mret (Some l));
    mret (f <| pending_data := p |> <| pending_len := bytes_left |>).

(** [driver/gridfs.c:299-321] gridfile_writer_done: the response, and the
    file whose pending memory is freed. *)
Definition gridfile_writer_done (f : gridfile) : M W (Z * gridfile) :=
  f ← match pending_data f with
      | Some m =>
          l ← or_crash (read_n m (pending_len f));
          _ ← put_chunk (gfs f) (id f) (chunk_num f) l;
          mret (f <| length := u64 (length f + pending_len f) |>)
      | None => mret f
      end;
  response ← gridfs_insert_file (gfs f) (Some (remote_name f)) (id f) (length f)
               (Some (content_type f));
  mret (response, f).
End Writer.

(** [driver/gridfs.c:384-405] gridfs_remove_filename: the loop on the cursor. *)
Fixpoint remove_loop (g : gridfs) (files : list fields) : M W unit :=
  match files with
  | [] => mret tt
  | file :: files' =>
      oid ← or_crash (field_oid (lookup_field file (bs "_id")));
      _ ← io (mongo_remove (files_ns g) [(bs "_id", VOid oid)]);
      _ ← io (mongo_remove (chunks_ns g) [(bs "files_id", VOid oid)]);
      remove_loop g files'
  end.

(** [driver/gridfs.c:372-408] gridfs_remove_filename: a null cursor is
    followed. *)
Definition gridfs_remove_filename (g : gridfs) (filename : list Z) : M W unit :=
  match bson_doc [(bs "filename", VString filename)] with
  | None => crash
  | Some query =>
      files ← io (mongo_find (files_ns g) query 0);
      match files with
      | None => crash
      | Some files => remove_loop g files
      end
  end.

(** [driver/gridfs.c:410-438] gridfs_find_query: the size of a query that is
    not finished is read from uninitialised memory. *)
Definition gridfs_find_query (g : gridfs) (query : option fields) (f : gridfile)
  : M W (Z * gridfile) :=
  query ← or_crash query;
  out ← io (mongo_find_one (files_ns g)
              [(bs "query", VObject query);
               (bs "orderby", VObject [(bs "uploadDate", VInt (-1))])]);
  match out with
  | None => mret (MONGO_ERROR, f)
  | Some out => mret (MONGO_OK, gridfile_init g out f)
  end.

(** [driver/gridfs.c:440-453] gridfs_find_filename *)
Definition gridfs_find_filename (g : gridfs) (filename : list Z) (f : gridfile)
  : M W (Z * gridfile) :=
  gridfs_find_query g (bson_doc [(bs "filename", VString filename)]) f.

(** [driver/gridfs.c:568-591] gridfile_get_chunk: an empty document when there
    is no such chunk. *)
Definition gridfile_get_chunk (f : gridfile) (n : Z) : M W fields :=
  oid ← or_crash (field_oid (lookup_field (meta f) (bs "_id")));
  out ← io (mongo_find_one (chunks_ns (gfs f)) [(bs "files_id", VOid oid); (bs "n", VInt n)]);
  mret (default [] out).

(** [driver/gridfs.c:593-636] gridfile_get_chunks: what the cursor will
    yield, or a null cursor. *)
Definition gridfile_get_chunks (f : gridfile) (start size : Z) : M W (option (list fields)) :=
  oid ← or_crash (field_oid (lookup_field (meta f) (bs "_id")));
  let n := if size =? 1 then VInt (s32 start)
           else VObject [(bs "$gte", VInt (s32 start))] in
  let query := [(bs "files_id", VOid oid); (bs "n", n)] in
  let orderby := [(bs "n", VInt 1)] in
  io (mongo_find (chunks_ns (gfs f))
        [(bs "query", VObject query); (bs "orderby", VObject orderby)] (s32 size)).

(** [driver/gridfs.c:646-653] gridfile_write_file: the loop; the bytes
    written to the stream. *)
Fixpoint write_file_loop (num : nat) (i : Z) (f : gridfile) : M W (list Z) :=
  match num with
  | O => mret []
  | S num =>
      chunk ← gridfile_get_chunk f i;
      d ← or_crash (field_binary (lookup_field chunk (bs "data")));
      l ← write_file_loop num (i + 1) f;
      mret (d ++ l)
  end.

(** [driver/gridfs.c:638-656] gridfile_write_file *)
Definition gridfile_write_file (f : gridfile) : M W (Z * list Z) :=
  l ← write_file_loop (Z.to_nat (gridfile_get_numchunks f)) 0 f;
  mret (gridfile_get_contentlength f, l).

(** [driver/gridfs.c:684-703] gridfile_read: the loop.  [skip] is the offset
    in the first chunk, [current] the cursor's document, which is null before
    the first and stays the last one when there are no more; the result is what
    is copied to [buf]. *)
Fixpoint read_loop (n : nat) (skip bytes_left : Z) (current : option fields)
    (chunks : list fields) : option (list Z) :=
  match n with
  | O => Some []
  | S n =>
      let '(current, chunks) :=
        match chunks with
        | c :: chunks => (Some c, chunks)
        | [] => (current, [])
        end in
      chunk ← current;
      data ← field_binary (lookup_field chunk (bs "data"));
      let chunk_len := u64 (Z.of_nat (List.length data) - skip) in
      let chunk_data := drop (Z.to_nat skip) data in
      if chunk_len <? bytes_left then
        l ← read_n chunk_data chunk_len;
        l' ← read_loop n 0 (u64 (bytes_left - chunk_len)) current chunks;
        Some (l ++ l')
      else
        l ← read_n chunk_data bytes_left;
        l' ← read_loop n 0 bytes_left current chunks;
        Some (l ++ drop (List.length l) l')
  end.

(** [driver/gridfs.c:658-709] gridfile_read: the number of bytes and the
    bytes; a division by zero or a null cursor is a crash. *)
Definition gridfile_read (f : gridfile) (size : Z) : M W (Z * list Z * gridfile) :=
  let contentlength := gridfile_get_contentlength f in
  let chunksize := u64 (gridfile_get_chunksize f) in
  let left := u64 (contentlength - pos f) in
  let size := if left <? size then left else size in
  if chunksize =? 0 then crash
  else
    let first_chunk := pos f / chunksize in
    let last_chunk := u64 (u64 (pos f + size) - 1) / chunksize in
    let total_chunks := u64 (last_chunk - first_chunk + 1) in
    chunks ← gridfile_get_chunks f first_chunk total_chunks;
    chunks ← or_crash chunks;
    l ← or_crash (read_loop (Z.to_nat total_chunks) (pos f mod chunksize) size None chunks);
    mret (size, l, f <| pos := u64 (pos f + size) |>).
End Operations.
