(* ===== verification/GridFSSpec.v ===== *)
(** * What the GridFS client promises

    The contract of a MongoDB server as far as the client relies on it
    ([MongoLaws]), the chunk documents of a file ([chunk_docs], [pieces]), and
    the proofs that the writers of GridFS.v store exactly the pieces of the
    data, and that reading gives the data back. *)

From stdpp Require Import sorting.
From S2P Require Import Prelude BsonUtf8 BsonBuild BsonIter BsonDoc GridFS.

Set Warnings "-register-all".

#[local] Abbreviation length := (@List.length _).

(** ** Queries *)

(** One condition of a query on one field: equality, or [$gte]. *)
Definition condition (q : value) (v : option value) : bool :=
  match q, v with
  | VOid a, Some (VOid b) => bool_decide (a = b)
  | VString a, Some (VString b) => bool_decide (a = b)
  | VInt a, Some (VInt b) => a =? b
  | VObject [(op, VInt a)], Some (VInt b) => bool_decide (op = bs "$gte") && (a <=? b)
  | _, _ => false
  end.
Definition matches (q d : fields) : bool :=
  forallb (fun c => condition c.2 (lookup_field d c.1)) q.

(** The documents on which [matches] is MongoDB's notion: a field the query
    asks for is absent or of the type asked for. *)
Definition same_type (q : value) (v : option value) : bool :=
  match q, v with
  | _, None => true
  | VOid _, Some (VOid _) | VString _, Some (VString _) | VInt _, Some (VInt _)
  | VObject _, Some (VInt _) => true
  | _, _ => false
  end.
Definition typed (q d : fields) : Prop :=
  forallb (fun c => same_type c.2 (lookup_field d c.1)) q = true.

(** Sorting by a field that is an integer, or a date, in all documents. *)
Definition int_key (d : fields) (k : list Z) : Z :=
  match lookup_field d k with Some (VInt n) | Some (VDate n) => n | _ => 0 end.
Definition sortable (k : list Z) (l : list fields) : Prop :=
  (forall d, d ∈ l -> exists n, lookup_field d k = Some (VInt n)) \/
  (forall d, d ∈ l -> exists n, lookup_field d k = Some (VDate n)).
Definition before (k : list Z) (dir : Z) (d1 d2 : fields) : Prop :=
  dir * int_key d1 k <= dir * int_key d2 k.

(** [l] are the documents of [ds] that match, in order. *)
Definition answers (ds : list fields) (q : fields) (k : list Z) (dir : Z) (l : list fields) : Prop :=
  l ≡ₚ filter (fun d => matches q d = true) ds /\ StronglySorted (before k dir) l.

(** The request for documents matching [q], sorted by [k]. *)
Definition request (q : fields) (k : list Z) (dir : Z) : fields :=
  [(bs "query", VObject q); (bs "orderby", VObject [(k, VInt dir)])].

(** ** The server

    [docs w ns] are the documents of a collection.  While [up w] holds the
    server answers; an insert is accepted when the document is one the driver
    sends (at most 4 MB, no [$] or [.] in its names) and its [_id], and its
    [files_id] and [n], are new; the server may add an [_id]. *)

Definition max_bson_size : Z := 4 * 1024 * 1024.
Definition sendable (d : fields) : Prop :=
  Z.of_nat (length (doc_bytes (body d))) <= max_bson_size /\
  forallb (fun f => forallb (fun c => negb (c =? "."%chr) && negb (c =? "$"%chr)) f.1) d = true.
Definition clash (d d' : fields) : Prop :=
  (exists v, lookup_field d (bs "_id") = Some v /\ lookup_field d' (bs "_id") = Some v) \/
  (exists v n, lookup_field d (bs "files_id") = Some v /\ lookup_field d' (bs "files_id") = Some v
     /\ lookup_field d (bs "n") = Some n /\ lookup_field d' (bs "n") = Some n).
Definition with_id (d d' : fields) : Prop :=
  d' = d \/ exists o, lookup_field d (bs "_id") = None /\ d' = (bs "_id", VOid o) :: d.

Class MongoLaws (W : Type) `{Mongo W} := {
  docs : W -> list Z -> list fields;
  up : W -> Prop;
  same (w w' : W) := up w' /\ forall ns, docs w' ns = docs w ns;
  new_oid_law w : up w ->
    same w (new_oid w).2 /\ bytes (new_oid w).1 /\ length (new_oid w).1 = 12%nat;
  time_now_law w : up w -> same w (time_now w).2;
  insert_law ns d w : up w -> sendable d -> (forall d', d' ∈ docs w ns -> ~ clash d d') ->
    (mongo_insert ns d w).1 = MONGO_OK /\ up (mongo_insert ns d w).2 /\
    (exists d', with_id d d' /\ docs (mongo_insert ns d w).2 ns = docs w ns ++ [d']) /\
    (forall ns', ns' <> ns -> docs (mongo_insert ns d w).2 ns' = docs w ns');
  filemd5_law db o p w : up w ->
    same w (mongo_run_command db [(bs "filemd5", VOid o); (bs "root", VString p)] w).2 /\
    exists res md5, (mongo_run_command db [(bs "filemd5", VOid o); (bs "root", VString p)] w).1
                      = Some res /\
      lookup_field res (bs "md5") = Some (VString md5) /\ length md5 = 32%nat /\
      Forall (fun c => c ∈ oid_hex) md5;
  find_law ns q k dir limit w : up w ->
    Forall (typed q) (docs w ns) ->
    sortable k (filter (fun d => matches q d = true) (docs w ns)) ->
    same w (mongo_find ns (request q k dir) limit w).2 /\
    exists l m, answers (docs w ns) q k dir l /\
      (mongo_find ns (request q k dir) limit w).1 = Some (take m l) /\
      (0 < limit -> m = Z.to_nat limit);
  find_one_law ns q k dir w : up w ->
    Forall (typed q) (docs w ns) ->
    sortable k (filter (fun d => matches q d = true) (docs w ns)) ->
    same w (mongo_find_one ns (request q k dir) w).2 /\
    exists l, answers (docs w ns) q k dir l /\
      (mongo_find_one ns (request q k dir) w).1 = head l
}.

(** ** The pieces of a file *)

Fixpoint pieces_loop (fuel : nat) (k : Z) (data : list Z) : list (list Z) :=
  match fuel, data with
  | S fuel, _ :: _ => take (Z.to_nat k) data :: pieces_loop fuel k (drop (Z.to_nat k) data)
  | _, _ => []
  end.
Definition pieces (k : Z) (data : list Z) : list (list Z) := pieces_loop (length data) k data.

(** The documents [cs] are the chunks [n], [n + 1], ... of the file [o], with
    the data [ps]. *)
Definition chunk_of (o : list Z) (n : Z) (data : list Z) (c : fields) : Prop :=
  lookup_field c (bs "files_id") = Some (VOid o) /\ lookup_field c (bs "n") = Some (VInt n)
  /\ lookup_field c (bs "data") = Some (VBinary BSON_BIN_BINARY data).
Fixpoint chunk_docs (o : list Z) (n : Z) (ps : list (list Z)) (cs : list fields) : Prop :=
  match ps, cs with
  | [], [] => True
  | p :: ps, c :: cs => chunk_of o n p c /\ chunk_docs o (n + 1) ps cs
  | _, _ => False
  end.

(** The document of a file. *)
Definition text_field (s : list Z) : option value :=
  match s with [] => None | _ => Some (VString s) end.
Definition file_doc (o name type : list Z) (length : Z) (m : fields) : Prop :=
  lookup_field m (bs "_id") = Some (VOid o)
  /\ lookup_field m (bs "filename") = text_field name
  /\ lookup_field m (bs "contentType") = text_field type
  /\ lookup_field m (bs "length") = Some (VLong length)
  /\ lookup_field m (bs "chunkSize") = Some (VInt DEFAULT_CHUNK_SIZE)
  /\ (exists t, lookup_field m (bs "uploadDate") = Some (VDate t)).

(** Between [w0] and [w] the chunks [cs] and the file documents [ms] were
    added to the collections of [g]; nothing else changed. *)
Definition added `{MongoLaws W} (g : gridfs) (cs ms : list fields) (w0 w : W) : Prop :=
  up w /\ docs w (chunks_ns g) = docs w0 (chunks_ns g) ++ cs
  /\ docs w (files_ns g) = docs w0 (files_ns g) ++ ms
  /\ forall ns, ns <> chunks_ns g -> ns <> files_ns g -> docs w ns = docs w0 ns.

(** The identifier [o] is not used in the collections of [g]. *)
Definition unused `{MongoLaws W} (g : gridfs) (o : list Z) (w : W) : Prop :=
  (forall d, d ∈ docs w (chunks_ns g) -> lookup_field d (bs "files_id") <> Some (VOid o)) /\
  (forall d, d ∈ docs w (files_ns g) -> lookup_field d (bs "_id") <> Some (VOid o)).

(** The file was stored whole. *)
Definition stored `{MongoLaws W} (g : gridfs) (o name type data : list Z) (w0 w : W) : Prop :=
  exists cs m, added g cs [m] w0 w /\ chunk_docs o 0 (pieces DEFAULT_CHUNK_SIZE data) cs
    /\ file_doc o name type (Z.of_nat (length data)) m.

(** ** Pieces *)

Section Pieces.
Context (k : Z) (Hk : 0 < k).

Lemma pieces_loop_fuel f f' data :
  (length data <= f)%nat -> (length data <= f')%nat ->
  pieces_loop f k data = pieces_loop f' k data.
Proof using Hk.
  revert f' data. induction f as [|f IH]; intros f' [|c data] Hf Hf'; simpl in *; try lia.
  - by destruct f'.
  - by destruct f'.
  - destruct f' as [|f']; simpl in *; [lia|]. f_equal.
    apply IH; rewrite length_drop; simpl; lia.
Qed.

Lemma pieces_nil : pieces k [] = [].
Proof using. done. Qed.

Lemma pieces_step data :
  data <> [] -> pieces k data = take (Z.to_nat k) data :: pieces k (drop (Z.to_nat k) data).
Proof using Hk.
  intros Hd. destruct data as [|c data]; [done|]. unfold pieces. simpl. f_equal.
  apply pieces_loop_fuel; rewrite ?length_drop; simpl; lia.
Qed.

Lemma pieces_small data : data <> [] -> Z.of_nat (length data) <= k -> pieces k data = [data].
Proof using Hk.
  intros Hd Hl. rewrite pieces_step by done.
  rewrite take_ge, drop_ge by lia. done.
Qed.

(** The last pieces are those of what follows a multiple of [k]. *)
Lemma pieces_app m a b :
  Z.of_nat (length a) = k * Z.of_nat m -> pieces k (a ++ b) = pieces k a ++ pieces k b.
Proof using Hk.
  revert a. induction m as [|m IH]; intros a Ha.
  { destruct a; [done|]. simpl in Ha. lia. }
  assert (length (take (Z.to_nat k) a) = Z.to_nat k) as Ht by (rewrite length_take; nia).
  assert (a <> []) by (intros ->; simpl in *; nia).
  rewrite (pieces_step (a ++ b)) by (by destruct a). rewrite (pieces_step a) by done.
  rewrite take_app_le, drop_app_le by (rewrite length_take in Ht; lia).
  rewrite IH; [done|]. rewrite length_drop, length_take in *. nia.
Qed.

Lemma pieces_concat data : concat (pieces k data) = data.
Proof using Hk.
  remember (length data) as n eqn:E. revert data E.
  induction n as [n IH] using lt_wf_ind. intros data ->.
  destruct (decide (data = [])) as [-> | Hd]; [done|]. rewrite pieces_step by done. simpl.
  rewrite (IH (length (drop (Z.to_nat k) data))); [apply take_drop| |done].
  destruct data; [done|]. rewrite length_drop. simpl. lia.
Qed.

Lemma pieces_sizes data : Forall (fun p => 0 < Z.of_nat (length p) <= k) (pieces k data).
Proof using Hk.
  remember (length data) as n eqn:E. revert data E.
  induction n as [n IH] using lt_wf_ind. intros data ->.
  destruct (decide (data = [])) as [-> | Hd]; [constructor|]. rewrite pieces_step by done.
  constructor.
  - rewrite length_take. destruct data; [done|]. simpl. lia.
  - apply (IH (length (drop (Z.to_nat k) data))); [|done].
    destruct data; [done|]. rewrite length_drop. simpl. lia.
Qed.

Lemma pieces_bound data :
  k * Z.of_nat (length (pieces k data)) < Z.of_nat (length data) + k.
Proof using Hk.
  remember (length data) as n eqn:E. revert data E.
  induction n as [n IH] using lt_wf_ind. intros data ->.
  destruct (decide (data = [])) as [-> | Hd]; [simpl; lia|]. rewrite pieces_step by done.
  rewrite length_cons, Nat2Z.inj_succ. destruct data as [|c data]; [done|].
  specialize (IH (length (drop (Z.to_nat k) (c :: data))) ltac:(rewrite length_drop; simpl; lia)
    _ eq_refl). rewrite length_drop in IH.
  destruct (decide (Z.of_nat (length (c :: data)) <= k)).
  - rewrite drop_ge by lia. simpl. lia.
  - lia.
Qed.

Lemma drop_pieces i data :
  drop i (pieces k data) = pieces k (drop (Z.to_nat k * i) data).
Proof using Hk.
  revert data. induction i as [|i IH]; intros data.
  { by rewrite Nat.mul_0_r. }
  destruct (decide (data = [])) as [-> | Hd]; [by rewrite drop_nil|].
  rewrite pieces_step by done. simpl. rewrite IH, drop_drop. do 2 f_equal. lia.
Qed.

Lemma pieces_count m a :
  Z.of_nat (length a) = k * Z.of_nat m -> length (pieces k a) = m.
Proof using Hk.
  revert a. induction m as [|m IH]; intros a Ha.
  { destruct a; [done|]. simpl in Ha. lia. }
  assert (a <> []) by (intros ->; simpl in *; nia).
  rewrite pieces_step by done. simpl. f_equal. apply IH. rewrite length_drop. nia.
Qed.
End Pieces.

(** ** Chunk documents *)

Lemma chunk_docs_app o n ps cs ps' cs' :
  chunk_docs o n ps cs -> chunk_docs o (n + Z.of_nat (length ps)) ps' cs' ->
  chunk_docs o n (ps ++ ps') (cs ++ cs').
Proof.
  revert n cs. induction ps as [|p ps IH]; intros n [|c cs] H H'; try done.
  - by rewrite Z.add_0_r in H'.
  - destruct H as [Hc H]. split; [done|]. apply IH; [done|].
    replace (n + 1 + Z.of_nat (length ps)) with (n + Z.of_nat (length (p :: ps))) by (simpl; lia).
    done.
Qed.

Lemma chunk_docs_elem o n ps cs c :
  chunk_docs o n ps cs -> c ∈ cs ->
  exists i p, n <= i < n + Z.of_nat (length ps) /\ chunk_of o i p c.
Proof.
  revert n cs. induction ps as [|p ps IH]; intros n [|c' cs] H Hc; try done.
  { by apply not_elem_of_nil in Hc. }
  destruct H as [H1 H2]. apply elem_of_cons in Hc as [-> |Hc].
  - exists n, p. split; [simpl; lia|done].
  - destruct (IH _ _ H2 Hc) as (i & q & Hi & Hq). exists i, q. split; [simpl; lia|done].
Qed.

Lemma chunk_docs_lengths o n ps cs : chunk_docs o n ps cs -> length cs = length ps.
Proof.
  revert n cs. induction ps as [|p ps IH]; intros n [|c cs] H; try done.
  simpl. f_equal. eapply IH, H.
Qed.

Lemma chunk_docs_drop o n ps cs i :
  chunk_docs o n ps cs -> chunk_docs o (n + Z.of_nat i) (drop i ps) (drop i cs)
     \/ (length ps < i)%nat.
Proof.
  revert n ps cs. induction i as [|i IH]; intros n ps cs H.
  { left. by rewrite Z.add_0_r. }
  destruct ps as [|p ps], cs as [|c cs]; try done.
  - right. simpl. lia.
  - destruct H as [_ H]. destruct (IH _ _ _ H) as [H' |]; [left|right; simpl; lia].
    replace (n + Z.of_nat (S i)) with (n + 1 + Z.of_nat i) by lia. done.
Qed.

(** ** Storing chunks *)

Lemma doc_length n v fs :
  length (doc_bytes (body ((n, v) :: fs))) =
    (length (doc_bytes (body fs)) + length n + length (payload v) + 2)%nat.
Proof.
  change (body ((n, v) :: fs)) with (elem_bytes (value_type v) n (payload v) ++ body fs).
  unfold doc_bytes, elem_bytes. repeat rewrite ?length_app, ?length_cons, ?le_length. lia.
Qed.

Lemma chunk_new_sendable o n data :
  length o = 12%nat -> Z.of_nat (length data) <= DEFAULT_CHUNK_SIZE ->
  sendable (chunk_new o n data).
Proof.
  intros Ho Hd. unfold DEFAULT_CHUNK_SIZE in Hd. split; [|done].
  unfold chunk_new. rewrite !doc_length. unfold max_bson_size.
  assert (length (doc_bytes (body [])) = 5%nat /\ length (bs "files_id") = 8%nat
    /\ length (bs "n") = 1%nat /\ length (bs "data") = 4%nat) as (-> & -> & -> & ->) by done.
  assert (length (payload (VInt n)) = 4%nat) as -> by apply le_length.
  assert (length (payload (VOid o)) = 12%nat) as -> by done.
  change (payload (VBinary BSON_BIN_BINARY data)) with (le 4 (Z.of_nat (length data)) ++ 0 :: data).
  rewrite length_app, le_length. simpl. lia.
Qed.

Lemma with_id_lookup d d' name v :
  with_id d d' -> lookup_field d name = Some v -> lookup_field d' name = Some v.
Proof.
  intros [-> |(o & Hn & ->)] Hl; [done|]. cbn [lookup_field].
  case_bool_decide as E; [subst name; congruence|done].
Qed.
Lemma with_id_lookup_none d d' name :
  with_id d d' -> name <> bs "_id" -> lookup_field d' name = lookup_field d name.
Proof.
  intros [-> |(o & Hn & ->)] Hl; [done|]. cbn [lookup_field].
  case_bool_decide as E; [subst name; congruence|done].
Qed.

Lemma chunk_of_with_id o n p d d' : with_id d d' -> chunk_of o n p d -> chunk_of o n p d'.
Proof. intros H (? & ? & ?). split_and!; by eapply with_id_lookup. Qed.

(** ** File documents *)

Lemma ascii_ok s : Forall (fun c => 0 <= c < 128) s -> string_ok s = true.
Proof.
  intros Hs. assert (bytes s) as Hb by (eapply Forall_impl; [exact Hs|]; unfold is_byte; lia).
  unfold string_ok, bson_check_string, bson_validate_string. simpl.
  destruct (validate_loop_spec false (length s) 0 s Hb) as [(_ & -> & _)|(Ha & _)]; [lia|done|].
  destruct Ha. exists (map (fun c => [c]) s). clear Hb. induction Hs as [|c s Hc _ (IH & E)].
  { by split. }
  split; [|simpl; by rewrite <- E]. constructor; [|done]. left. exists c. split; [lia|].
  unfold utf8_encode. by destruct (Z.ltb_spec c 128); [|lia].
Qed.

Lemma oid_hex_ascii s : Forall (fun c => c ∈ oid_hex) s -> Forall (fun c => 0 <= c < 128) s.
Proof.
  intros Hs. eapply Forall_impl; [exact Hs|]. intros c Hc. revert c Hc.
  assert (Forall (fun c => 0 <= c < 128) oid_hex) as H by (by apply (bool_decide_unpack _); vm_compute).
  intros c Hc. by eapply Forall_forall in H.
Qed.

(** A text given to GridFS: UTF-8 and at most 1 MB. *)
Definition text_ok (s : list Z) : Prop :=
  string_ok s = true /\ Z.of_nat (length s) <= 1024 * 1024.

(** The document [gridfs_insert_file] sends. *)
Definition text_opt (k s : list Z) : fields :=
  match s with [] => [] | _ => [(k, VString s)] end.
Definition file_meta (o name : list Z) (len : Z) (type md5 : list Z) (t : Z) : fields :=
  [(bs "_id", VOid o)] ++ text_opt (bs "filename") name ++
  [(bs "length", VLong len); (bs "chunkSize", VInt DEFAULT_CHUNK_SIZE);
   (bs "uploadDate", VDate t); (bs "md5", VString md5)] ++ text_opt (bs "contentType") type.

Lemma lookup_app_none fs fs' name :
  lookup_field fs name = None -> lookup_field (fs ++ fs') name = lookup_field fs' name.
Proof.
  induction fs as [|[n v] fs IH]; [done|]. cbn [lookup_field app].
  case_bool_decide; [done|]. apply IH.
Qed.

Lemma file_meta_doc o name len type md5 t : file_doc o name type len (file_meta o name len type md5 t).
Proof. unfold file_doc, file_meta. destruct name, type; split_and!; try done; by exists t. Qed.

(** The documents that are finished. *)
Definition field_ok (f : list Z * value) : Prop :=
  string_ok f.1 = true /\ match f.2 with VString s => string_ok s = true | _ => True end.

Lemma bson_doc_ok fs : Forall field_ok fs -> bson_doc fs = Some fs.
Proof.
  intros H. unfold bson_doc. assert (forall b : bool, b = true -> (if b then Some fs else None) = Some fs)
    as Hb by by intros ? ->.
  apply Hb. clear Hb. induction H as [|f fs [H1 H2] _ IH]; [done|]. cbn [forallb].
  rewrite IH, H1, andb_true_r. by destruct f.2.
Qed.

Lemma file_meta_ok o name len type md5 t :
  string_ok name = true -> string_ok type = true -> string_ok md5 = true ->
  Forall field_ok (file_meta o name len type md5 t).
Proof.
  intros Hn Ht Hm. unfold file_meta. rewrite !Forall_app.
  split_and!; [| |by repeat constructor|].
  - repeat constructor.
  - by destruct name; repeat constructor.
  - by destruct type; repeat constructor.
Qed.

Lemma doc_size_opt k s fs :
  (length (doc_bytes (body (text_opt k s ++ fs))) <=
    length (doc_bytes (body fs)) + length k + length s + 7)%nat.
Proof.
  destruct s as [|c s]; [simpl; lia|]. change (text_opt k (c :: s) ++ fs) with ((k, VString (c :: s)) :: fs).
  rewrite doc_length. change (payload (VString (c :: s))) with (string_payload (c :: s)).
  unfold string_payload. rewrite !length_app, le_length. simpl. lia.
Qed.

Lemma file_meta_sendable o name len type md5 t :
  length o = 12%nat -> length md5 = 32%nat -> text_ok name -> text_ok type ->
  sendable (file_meta o name len type md5 t).
Proof.
  intros Ho Hm [_ Hn] [_ Ht]. split; [|by destruct name, type].
  unfold file_meta. cbn [app]. rewrite doc_length.
  pose proof (doc_size_opt (bs "filename") name
    ([(bs "length", VLong len); (bs "chunkSize", VInt DEFAULT_CHUNK_SIZE);
      (bs "uploadDate", VDate t); (bs "md5", VString md5)] ++ text_opt (bs "contentType") type)) as H1.
  cbn [app] in H1. rewrite !doc_length in H1.
  pose proof (doc_size_opt (bs "contentType") type []) as H2. rewrite app_nil_r in H2.
  assert (length (payload (VString md5)) = 37%nat) as E0.
  { change (payload (VString md5)) with (string_payload md5). unfold string_payload.
    by rewrite !length_app, le_length, Hm. }
  rewrite E0 in H1.
  change (length (doc_bytes (body []))) with 5%nat in H2.
  assert (length (payload (VLong len)) = 8%nat /\ length (payload (VInt DEFAULT_CHUNK_SIZE)) = 4%nat
    /\ length (payload (VDate t)) = 8%nat) as (E1 & E2 & E3) by (split_and!; apply le_length).
  rewrite E1, E2, E3 in H1. change (length (payload (VOid o))) with (length o).
  unfold max_bson_size. change (length (bs "filename")) with 8%nat in *.
  change (length (bs "length")) with 6%nat in *. change (length (bs "chunkSize")) with 9%nat in *.
  change (length (bs "uploadDate")) with 10%nat in *. change (length (bs "md5")) with 3%nat in *.
  change (length (bs "contentType")) with 11%nat in *. change (length (bs "_id")) with 3%nat in *.
  change (length [0]) with 1%nat in *. lia.
Qed.

Section Stores.
Context `{MongoLaws W} (g : gridfs).
Hypothesis Hns : chunks_ns g <> files_ns g.
Hypothesis Hprefix : string_ok (prefix g) = true.

Lemma same_added cs ms w0 w w' : added g cs ms w0 w -> same w w' -> added g cs ms w0 w'.
Proof using.
  intros (Hu & H1 & H2 & H3) [Hu' Hd]. split_and!; [done|by rewrite Hd..|].
  intros ns ? ?. rewrite Hd. by apply H3.
Qed.

Lemma added_refl w : up w -> added g [] [] w w.
Proof using. intros. split_and!; by rewrite ?app_nil_r. Qed.

(** A chunk is inserted after those with smaller numbers. *)
Lemma put_chunk_added o w0 w ps cs data :
  unused g o w0 -> length o = 12%nat -> Z.of_nat (length data) <= DEFAULT_CHUNK_SIZE ->
  added g cs [] w0 w -> chunk_docs o 0 ps cs ->
  exists w' c, put_chunk g o (Z.of_nat (length ps)) data w = Some (tt, w')
    /\ added g (cs ++ [c]) [] w0 w' /\ chunk_docs o 0 (ps ++ [data]) (cs ++ [c]).
Proof using Hns.
  intros Hun Ho Hl (Hu & H1 & H2 & H3) Hcs.
  set (d := chunk_new o (Z.of_nat (length ps)) data).
  assert (chunk_of o (Z.of_nat (length ps)) data d) as Hd by (by split_and!).
  destruct (insert_law (chunks_ns g) d w Hu) as (_ & Hu' & (d' & Hid & Hd') & Ho').
  { by apply chunk_new_sendable. }
  { intros d0 Hd0 [(v & Hv & _)|(v & n & Hf & Hf' & Hn & Hn')].
    - done.
    - destruct Hd as (F1 & F2 & _). rewrite F1 in Hf. rewrite F2 in Hn.
      injection Hf as <-. injection Hn as <-. rewrite H1 in Hd0.
      apply elem_of_app in Hd0 as [Hd0|Hd0]; [by apply (proj1 Hun d0 Hd0)|].
      destruct (chunk_docs_elem _ _ _ _ _ Hcs Hd0) as (i & p & Hi & _ & Hc & _).
      rewrite Hc in Hn'. injection Hn'. lia. }
  exists (mongo_insert (chunks_ns g) d w).2, d'. split.
  { unfold put_chunk, io, mbind, M_bind. fold d. by destruct (mongo_insert _ d w). }
  split.
  - split_and!; [done| | |].
    + by rewrite Hd', H1, app_assoc.
    + rewrite Ho' by done. done.
    + intros. rewrite Ho' by done. by apply H3.
  - apply chunk_docs_app; [done|]. split; [|done].
    by apply (chunk_of_with_id _ _ _ d).
Qed.
(** The document of a file is inserted after its chunks. *)
Lemma insert_file_added o w0 w cs name type len :
  unused g o w0 -> length o = 12%nat -> text_ok (default [] name) -> text_ok (default [] type) ->
  0 <= len < 2 ^ 63 -> added g cs [] w0 w ->
  exists w' m, gridfs_insert_file g name o len type w = Some (MONGO_OK, w')
    /\ added g cs [m] w0 w' /\ file_doc o (default [] name) (default [] type) len m.
Proof using Hns Hprefix.
  intros Hun Ho Hn Ht Hlen Hadd. unfold gridfs_insert_file.
  assert (bson_doc [(bs "filemd5", VOid o); (bs "root", VString (prefix g))]
          = Some [(bs "filemd5", VOid o); (bs "root", VString (prefix g))]) as ->.
  { apply bson_doc_ok. repeat constructor; exact Hprefix. }
  destruct (filemd5_law (dbname g) o (prefix g) w (proj1 Hadd))
    as (Hs1 & res & md5 & Hres & Hmd5 & Hlm & Hhex).
  unfold io, mbind, M_bind, mret, M_ret.
  destruct (mongo_run_command _ _ w) as [r w1]. simpl in Hres, Hs1. subst r.
  apply (same_added _ _ _ _ _ Hadd) in Hs1 as Hadd1.
  pose proof (time_now_law w1 (proj1 Hadd1)) as Hs2.
  destruct (time_now w1) as [t w2]. simpl in Hs2.
  apply (same_added _ _ _ _ _ Hadd1) in Hs2 as (Hu & H1 & H2 & H3).
  set (t' := s64 (1000 * t)). rewrite Hmd5. simpl (field_string _).
  assert (c_str md5 = md5) as ->.
  { clear - Hhex. induction Hhex as [|c l Hc _ IH]; [done|]. simpl. rewrite IH.
    destruct (Z.eqb_spec c 0) as [->|]; [|done]. exfalso. revert Hc.
    by apply (bool_decide_eq_false_1 (0 ∈ oid_hex)). }
  set (d := file_meta o (default [] name) len (default [] type) md5 t').
  match goal with |- context [bson_doc ?fs] => assert (bson_doc fs = Some d) as -> end.
  { assert (string_ok md5 = true) as Hok by by apply ascii_ok, oid_hex_ascii.
    destruct Hn as [Hn _], Ht as [Ht _]. rewrite s64_small by lia.
    unfold d. rewrite <- (bson_doc_ok (file_meta o (default [] name) len (default [] type) md5 t'))
      by by apply file_meta_ok.
    by destruct name as [[|c1 name]|], type as [[|c2 type]|]. }
  pose proof (file_meta_doc o (default [] name) len (default [] type) md5 t') as Hd. fold d in Hd.
  unfold insert_bson, io.
  destruct (insert_law (files_ns g) d w2 Hu) as (Hrc & Hu' & (d' & Hid & Hd') & Ho').
  { by apply file_meta_sendable. }
  { intros d0 Hd0 [(v & Hv & Hv')|(v & n & Hf & _)].
    - rewrite H2, app_nil_r in Hd0. apply (proj2 Hun d0 Hd0).
      rewrite (proj1 Hd) in Hv. by injection Hv as <-.
    - unfold d, file_meta in Hf. by destruct (default [] name), (default [] type). }
  assert (d' = d) as ->.
  { destruct Hid as [? |(? & Hid & _)]; [done|]. by rewrite (proj1 Hd) in Hid. }
  exists (mongo_insert (files_ns g) d w2).2, d. split.
  - destruct (mongo_insert (files_ns g) d w2). simpl in *. by subst.
  - split; [|done]. split_and!; [done| | |].
    + by rewrite Ho', H1.
    + by rewrite Hd', H2, app_nil_r.
    + intros. rewrite Ho' by done. by apply H3.
Qed.
End Stores.
