(* ===== verification/GridFSMemory.v ===== *)
(** * A MongoDB server in memory

    An instance of the interface [Mongo], with its laws: collections are lists
    of documents, identifiers are drawn from a counter.  It shows that the
    contract of GridFSSpec.v can be met and runs the examples. *)

From stdpp Require Import sorting.
From S2P Require Import Prelude BsonUtf8 BsonBuild BsonIter BsonDoc GridFS GridFSSpec.

Set Warnings "-register-all".

#[local] Abbreviation length := (@List.length _).

Record memory := Memory {
  collections : gmap (list Z) (list fields);
  counter : Z
}.
#[export] Instance eta_memory : Settable memory := fun m => Memory (collections m) (counter m).

Definition mem_docs (m : memory) (ns : list Z) : list fields := default [] (collections m !! ns).

#[export] Instance before_dec k dir : RelDecision (before k dir).
Proof. intros d1 d2. unfold before. apply _. Defined.

(** The documents a request selects, in order. *)
Definition select (ds : list fields) (req : fields) : list fields :=
  match req with
  | [(_, VObject q); (_, VObject [(k, VInt dir)])] =>
      merge_sort (before k dir) (filter (fun d => matches q d = true) ds)
  | q => filter (fun d => matches q d = true) ds
  end.

Definition fake_md5 : list Z := replicate 32 "0"%chr.

#[export] Instance mongo_memory : Mongo memory := {
  new_oid m := (le 12 (counter m), m <| counter := counter m + 1 |>);
  time_now m := (0, m);
  mongo_insert ns d m :=
    (MONGO_OK, m <| collections := <[ns := mem_docs m ns ++ [d]]> (collections m) |>);
  mongo_find ns req limit m :=
    (Some (let l := select (mem_docs m ns) req in
           if 0 <? limit then take (Z.to_nat limit) l else l), m);
  mongo_find_one ns req m := (head (select (mem_docs m ns) req), m);
  mongo_remove ns q m :=
    (MONGO_OK, m <| collections :=
       <[ns := filter (fun d => matches q d = false) (mem_docs m ns)]> (collections m) |>);
  mongo_run_command _ _ m := (Some [(bs "md5", VString fake_md5)], m);
  mongo_create_index _ _ _ m := (MONGO_OK, m)
}.

#[export] Instance before_total k dir : Total (before k dir).
Proof. intros d1 d2. unfold before. lia. Qed.
#[export] Instance before_trans k dir : Transitive (before k dir).
Proof. intros d1 d2 d3. unfold before. lia. Qed.

Lemma select_answers ds q k dir : answers ds q k dir (select ds (request q k dir)).
Proof.
  split; simpl.
  - apply merge_sort_Permutation.
  - apply (StronglySorted_merge_sort _).
Qed.

#[export] Instance mongo_memory_laws : MongoLaws memory.
Proof.
  refine (Build_MongoLaws memory _ mem_docs (fun _ => True) _ _ _ _ _ _).
  - intros w _. split; [done|]. split; [apply le_bytes|apply le_length].
  - intros w _. done.
  - intros ns d w _ _ _. simpl. split; [done|]. split; [done|]. split.
    + exists d. split; [by left|]. unfold mem_docs. simpl. by rewrite lookup_insert_eq.
    + intros ns' Hns. unfold mem_docs. simpl. by rewrite lookup_insert_ne.
  - intros db o p w _. split; [done|]. exists [(bs "md5", VString fake_md5)], fake_md5.
    split; [done|]. split; [done|]. split; [done|]. by apply (bool_decide_unpack _).
  - intros ns q k dir limit w _ _ _. split; [done|].
    set (l := select (mem_docs w ns) (request q k dir)).
    exists l, (if 0 <? limit then Z.to_nat limit else length l).
    split; [apply select_answers|]. split; [|by intros ->%Z.ltb_lt].
    change (Some (if 0 <? limit then take (Z.to_nat limit) l else l)
      = Some (take (if 0 <? limit then Z.to_nat limit else length l) l)).
    destruct (0 <? limit); [done|]. by rewrite take_ge.
  - intros ns q k dir w _ _ _. split; [done|].
    exists (select (mem_docs w ns) (request q k dir)). split; [apply select_answers|done].
Defined.

(** A server with nothing stored. *)
Definition empty_memory : memory := Memory ∅ 1.

Lemma docs_empty ns : docs empty_memory ns = [].
Proof. simpl. unfold mem_docs. simpl. by rewrite lookup_empty. Qed.

Lemma unused_empty g o : unused g o empty_memory.
Proof. split; intros d Hd; rewrite docs_empty in Hd; by apply not_elem_of_nil in Hd. Qed.
