(* ===== verification/GridFSWrite.v ===== *)
(** * Writing GridFS files

    The incremental writer ([gridfile_writer_init], [gridfile_write_buffer],
    [gridfile_writer_done]) and [gridfs_store_buffer] store the same thing: the
    pieces of the data and the document of the file.  The second does not
    return when it is given four gigabytes or more. *)

From S2P Require Import Prelude BsonUtf8 BsonBuild BsonIter BsonDoc GridFS GridFSSpec GridFSMemory.

Set Warnings "-register-all".

#[local] Abbreviation length := (@List.length _).
#[local] Abbreviation CS := DEFAULT_CHUNK_SIZE.

(** The bytes written so far are held by the pending memory. *)
Definition pending_holds (p : option (list Z)) (l : list Z) : Prop :=
  match p with
  | None => l = []
  | Some m => l <> [] /\ exists tail, m = l ++ tail
  end.

Lemma CS_pos : 0 < CS.
Proof. done. Qed.
Lemma CS_small : CS < 2 ^ 20.
Proof. done. Qed.
#[local] Opaque DEFAULT_CHUNK_SIZE.
#[local] Hint Resolve CS_pos : core.

Lemma read_n_prefix (l tail : list Z) n : n = Z.of_nat (length l) -> read_n (l ++ tail) n = Some l.
Proof.
  intros ->. unfold read_n. rewrite length_app.
  destruct (Z.leb_spec 0 (Z.of_nat (length l))), (Z.leb_spec (Z.of_nat (length l))
    (Z.of_nat (length l + length tail)%nat)); try lia. simpl.
  by rewrite Nat2Z.id, take_app_length.
Qed.

Lemma read_n_take (l : list Z) n :
  0 <= n <= Z.of_nat (length l) -> read_n l n = Some (take (Z.to_nat n) l).
Proof.
  intros Hn. unfold read_n.
  by destruct (Z.leb_spec 0 n), (Z.leb_spec n (Z.of_nat (length l))); try lia.
Qed.

(** Copying after the bytes [a] keeps them. *)
Lemma poke_app (a l b : list Z) :
  (length l <= length b)%nat ->
  poke (Z.of_nat (length a)) l (a ++ b) = Some (a ++ l ++ drop (length l) b).
Proof.
  intros Hl. unfold poke. rewrite length_app, Nat2Z.id.
  destruct (Z.leb_spec 0 (Z.of_nat (length a))), (Z.leb_spec
    (Z.of_nat (length a) + Z.of_nat (length l)) (Z.of_nat (length a + length b)%nat)); try lia.
  simpl. rewrite take_app_length, drop_app_ge by lia. do 4 f_equal. lia.
Qed.

Section Write.
Context `{MongoLaws W} (junk : Z -> Z) (g : gridfs).
Hypothesis Hns : chunks_ns g <> files_ns g.
Hypothesis Hprefix : string_ok (prefix g) = true.
Context (o : list Z) (w0 : W).
Hypothesis Hunused : unused g o w0.
Hypothesis Ho : length o = 12%nat.

(** The bytes [full] are in the chunks stored since [w0]. *)
Definition in_chunks (n : Z) (full : list Z) (w : W) : Prop :=
  0 <= n /\ Z.of_nat (length full) = CS * n /\
  exists cs, added g cs [] w0 w /\ chunk_docs o 0 (pieces CS full) cs.

(** What the writer has done when it was given [data]. *)
Definition writing (f : gridfile) (data : list Z) (w : W) : Prop :=
  gfs f = g /\ id f = o /\
  exists full rest, data = full ++ rest /\ in_chunks (chunk_num f) full w
    /\ GridFS.length f = Z.of_nat (length full)
    /\ pending_len f = Z.of_nat (length rest) /\ Z.of_nat (length rest) < CS
    /\ pending_holds (pending_data f) rest.

(** One more chunk; only the last may be shorter. *)
Lemma put_chunk_next n full data w :
  in_chunks n full w -> 0 < Z.of_nat (length data) <= CS ->
  exists w' cs, put_chunk g o n data w = Some (tt, w')
    /\ added g cs [] w0 w' /\ chunk_docs o 0 (pieces CS (full ++ data)) cs.
Proof using Hns Hunused Ho.
  intros (Hn & Hl & cs & Hadd & Hcs) Hd.
  rewrite <- (Z2Nat.id n) in Hl by done.
  pose proof (pieces_count CS CS_pos _ _ Hl) as Hcount.
  destruct (put_chunk_added g Hns o w0 w _ cs data Hunused Ho ltac:(lia) Hadd Hcs)
    as (w' & c & Hput & Hadd' & Hcs').
  exists w', (cs ++ [c]). rewrite Hcount, Z2Nat.id in Hput by done.
  split; [done|]. split; [done|].
  rewrite (pieces_app CS CS_pos _ _ _ Hl), (pieces_small CS CS_pos data); [done| |lia].
  intros ->. simpl in Hd. lia.
Qed.

Lemma put_chunk_full n full data w :
  in_chunks n full w -> Z.of_nat (length data) = CS ->
  exists w', put_chunk g o n data w = Some (tt, w') /\ in_chunks (n + 1) (full ++ data) w'.
Proof using Hns Hunused Ho.
  intros Hin Hd. destruct (put_chunk_next n full data w Hin) as (w' & cs & Hp & Ha & Hc).
  { rewrite Hd. pose proof CS_pos. lia. }
  exists w'. split; [done|]. destruct Hin as (Hn & Hl & _). split; [lia|]. split; [|by exists cs].
  rewrite length_app. lia.
Qed.

(** ** The loop of [gridfs_store_buffer] *)

Lemma store_loop_stores fuel n full data w :
  in_chunks n full w -> Z.of_nat (length data) < 2 ^ 32 ->
  (length (pieces CS data) <= fuel)%nat ->
  exists w' cs, store_loop fuel g o n data w = Some (tt, w')
    /\ added g cs [] w0 w' /\ chunk_docs o 0 (pieces CS (full ++ data)) cs.
Proof using Hns Hunused Ho.
  revert n full data w. induction fuel as [|fuel IH]; intros n full data w Hin Hl Hf;
    (destruct (decide (data = [])) as [-> |Hd];
      [rewrite app_nil_r; destruct Hin as (_ & _ & cs & ? & ?); by exists w, cs|]);
    rewrite pieces_step in Hf by done; simpl in Hf; [lia|].
  destruct data as [|x data]; [done|]. remember (x :: data) as l eqn:El.
  assert (store_loop (S fuel) g o n l =
    (let left := u32 (Z.of_nat (length l)) in
     let chunkLen := if DEFAULT_CHUNK_SIZE <? left then DEFAULT_CHUNK_SIZE else left in
     _ ← put_chunk g o n (take (Z.to_nat chunkLen) l);
     store_loop fuel g o (n + 1) (drop (Z.to_nat chunkLen) l))) as -> by by rewrite El.
  cbv zeta. rewrite u32_small by lia. pose proof CS_pos.
  assert (0 < Z.of_nat (length l)) by (rewrite El; simpl; lia). clear El Hd x data.
  unfold mbind at 1, M_bind at 1.
  destruct (Z.ltb_spec CS (Z.of_nat (length l))) as [Hlt|Hge].
  - destruct (put_chunk_full n full (take (Z.to_nat CS) l) w Hin) as (w' & -> & Hin').
    { rewrite length_take. lia. }
    destruct (IH _ _ (drop (Z.to_nat CS) l) w' Hin') as (w'' & cs & ? & ? & Hc).
    + rewrite length_drop. lia.
    + lia.
    + rewrite <- app_assoc, take_drop in Hc. by exists w'', cs.
  - rewrite Nat2Z.id, take_ge, drop_ge by lia.
    destruct (put_chunk_next n full l w Hin ltac:(lia)) as (w' & cs & -> & ? & ?).
    exists w', cs. by destruct fuel.
Qed.
(** A buffer so large that its size, read as an [unsigned int], is less: the
    loop never ends. *)
Lemma store_loop_diverges fuel id n data (w : W) :
  2 ^ 32 <= Z.of_nat (length data) -> store_loop fuel g id n data w = None.
Proof using.
  clear Hunused Ho.
  revert n data w. induction fuel as [|fuel IH]; intros n data w Hl;
    (destruct data as [|x data]; [simpl in Hl; lia|]); [done|].
  remember (x :: data) as l eqn:El.
  assert (store_loop (S fuel) g id n l =
    (let left := u32 (Z.of_nat (length l)) in
     let chunkLen := if DEFAULT_CHUNK_SIZE <? left then DEFAULT_CHUNK_SIZE else left in
     _ ← put_chunk g id n (take (Z.to_nat chunkLen) l);
     store_loop fuel g id (n + 1) (drop (Z.to_nat chunkLen) l))) as -> by by rewrite El.
  cbv zeta. clear El x data. unfold mbind, M_bind. set (k := if CS <? _ then CS else _).
  destruct (put_chunk _ _ _ _ w) as [[[] w']|]; [|done].
  apply IH. rewrite length_drop.
  assert (k <= Z.of_nat (length l) mod 2 ^ 32) by (unfold k, u32; by destruct (Z.ltb_spec CS (Z.of_nat (length l) mod 2 ^ 32)); lia).
  pose proof (Z.div_mod (Z.of_nat (length l)) (2 ^ 32) ltac:(lia)).
  assert (1 <= Z.of_nat (length l) / 2 ^ 32) by (apply Z.div_le_lower_bound; lia).
  pose proof (Z.mod_pos_bound (Z.of_nat (length l)) (2 ^ 32) ltac:(lia)). lia.
Qed.

(** ** The writer *)

Lemma in_chunks_0 : up w0 -> in_chunks 0 [] w0.
Proof using.
  intros Hu. split; [done|]. split; [done|]. exists []. split; [by apply added_refl|done].
Qed.

(** Writing nothing but whole chunks. *)
Lemma write_chunks_writes m f full data w :
  gfs f = g -> id f = o -> in_chunks (chunk_num f) full w ->
  GridFS.length f = Z.of_nat (length full) ->
  CS * Z.of_nat m <= Z.of_nat (length data) -> Z.of_nat (length full + length data)%nat < 2 ^ 62 ->
  let done := take (Z.to_nat CS * m) data in
  exists w' f', write_chunks m f data w = Some ((f', drop (Z.to_nat CS * m) data), w')
    /\ gfs f' = g /\ id f' = o /\ in_chunks (chunk_num f') (full ++ done) w'
    /\ GridFS.length f' = Z.of_nat (length (full ++ done))
    /\ remote_name f' = remote_name f /\ content_type f' = content_type f.
Proof using Hns Hunused Ho.
  pose proof CS_pos. revert f full data w.
  induction m as [|m IH]; intros f full data w Hg Hi Hin Hlen Hm Hl; cbv zeta.
  { exists w, f. rewrite Nat.mul_0_r, take_0, app_nil_r. by split_and!. }
  cbn [write_chunks]. rewrite read_n_take by lia. unfold or_crash, mbind, M_bind, mret, M_ret.
  rewrite Hg, Hi.
  destruct (put_chunk_full (chunk_num f) full (take (Z.to_nat CS) data) w Hin) as (w' & -> & Hin').
  { rewrite length_take. lia. }
  destruct f as [fg fm fp fi fr fc fl fn fd fpl]. simpl in *. subst fg fi.
  set (f1 := GridFile _ _ _ _ _ _ _ _ _ _).
  destruct (IH f1 (full ++ take (Z.to_nat CS) data) (drop (Z.to_nat CS) data) w')
    as (w'' & f' & Hw & Hg' & Hi' & Hin'' & Hl' & Hr & Hc); try done.
  - simpl. rewrite Hlen, length_app, length_take, u64_small by lia. lia.
  - rewrite length_drop. lia.
  - rewrite length_app, length_take, length_drop. lia.
  - replace (Z.to_nat CS * S m)%nat with (Z.to_nat CS + Z.to_nat CS * m)%nat by lia.
    exists w'', f'. rewrite drop_drop in Hw.
    assert (full ++ take (Z.to_nat CS + Z.to_nat CS * m) data =
      (full ++ take (Z.to_nat CS) data) ++ take (Z.to_nat CS * m) (drop (Z.to_nat CS) data)) as ->.
    { rewrite <- app_assoc. f_equal. by rewrite take_take_drop. }
    by split_and!.
Qed.
Lemma resize_app n (a b : list Z) :
  Z.of_nat (length a) <= n ->
  exists c, resize junk n (a ++ b) = a ++ c /\ Z.of_nat (length a + length c)%nat = n.
Proof using.
  clear Ho. intros Hn. unfold resize, fresh. rewrite <- app_assoc.
  rewrite take_app_ge by lia. eexists. split; [reflexivity|].
  rewrite length_take, length_app, length_map, length_seqZ, length_app. lia.
Qed.

Lemma fresh_length n : length (fresh junk n) = Z.to_nat n.
Proof using. unfold fresh. by rewrite length_map, length_seqZ. Qed.

(** Less than a chunk altogether: the bytes become pending. *)
Lemma write_pending_writes f data buf w :
  writing f data w ->
  let to_write := Z.of_nat (length buf) + pending_len f in
  to_write < CS ->
  exists f', write_pending junk f buf to_write w = Some (f', w)
    /\ writing f' (data ++ buf) w
    /\ remote_name f' = remote_name f /\ content_type f' = content_type f.
Proof using.
  clear Ho Hunused. intros (Hg & Hi & full & rest & Hdata & Hin & Hlen & Hpl & _ & Hp) to_write Ht.
  destruct f as [fg fm fp fi fr fc fl fn fd fpl]. simpl in *. subst fpl to_write.
  assert (forall p, pending_holds p (rest ++ buf) ->
    writing (GridFile fg fm fp fi fr fc fl fn p (Z.of_nat (length rest) + Z.of_nat (length buf)))
      (data ++ buf) w) as Hw.
  { intros p Hpend. split; [done|]. split; [done|]. exists full, (rest ++ buf).
    simpl. rewrite Hdata, app_assoc, length_app. split_and!; [done|done|done|lia|lia|done]. }
  unfold write_pending, or_crash, mbind, M_bind, mret, M_ret. simpl.
  destruct fd as [m|]; simpl in Hp.
  - destruct Hp as [Hne [tail ->]].
    destruct (resize_app (Z.of_nat (length rest) + (Z.of_nat (length buf) + Z.of_nat (length rest)))
      rest tail) as (c & -> & Hc); [lia|].
    rewrite poke_app by lia. eexists. split; [reflexivity|]. split; [|done]. apply Hw. split.
    + by destruct rest.
    + exists (drop (length buf) c). by rewrite <- app_assoc.
  - subst rest. simpl in *. change (Z.of_nat 0) with 0 in *. rewrite Z.add_0_r in *.
    destruct (Z.ltb_spec 0 (Z.of_nat (length buf))).
    + pose proof (poke_app [] buf (fresh junk (Z.of_nat (length buf)))) as Hpoke.
      rewrite fresh_length, Nat2Z.id in Hpoke. specialize (Hpoke ltac:(lia)).
      change (Z.of_nat (length (@nil Z))) with 0 in Hpoke. simpl app in Hpoke. rewrite Hpoke.
      eexists. split; [reflexivity|]. split; [|done]. apply Hw. split.
      * intros ->. simpl in *. lia.
      * by eexists.
    + assert (buf = []) as -> by (destruct buf; [done|simpl in *; lia]).
      eexists. split; [reflexivity|]. split; [|done]. by apply Hw.
Qed.

(** The rest of a write of at least one chunk. *)
Lemma write_rest_writes m r f full buf w :
  gfs f = g -> id f = o -> in_chunks (chunk_num f) full w ->
  GridFS.length f = Z.of_nat (length full) ->
  Z.of_nat (length buf) = CS * Z.of_nat m + r -> 0 <= r < CS ->
  Z.of_nat (length full + length buf)%nat < 2 ^ 62 ->
  exists f' w',
    ('(f, data) ← write_chunks m f buf;
     p ← (if r =? 0 then mret None else l ← or_crash (read_n data r); mret (Some l));
     mret (f <| pending_data := p |> <| pending_len := r |>)) w = Some (f', w')
    /\ writing f' (full ++ buf) w'
    /\ remote_name f' = remote_name f /\ content_type f' = content_type f.
Proof using Hns Hunused Ho.
  intros Hg Hi Hin Hlen Hbuf Hr Hmax. pose proof CS_pos.
  destruct (write_chunks_writes m f full buf w Hg Hi Hin Hlen ltac:(lia) Hmax)
    as (w' & f' & E & Hg' & Hi' & Hin' & Hlen' & Hrn & Hct).
  unfold mbind at 1, M_bind at 1. rewrite E.
  set (rest := drop (Z.to_nat CS * m) buf) in *.
  assert (Z.of_nat (length rest) = r) as Hrest by (unfold rest; rewrite length_drop; lia).
  assert (full ++ buf = (full ++ take (Z.to_nat CS * m) buf) ++ rest) as ->.
  { rewrite <- app_assoc. f_equal. unfold rest. by rewrite take_drop. }
  clearbody rest. unfold or_crash, mbind, M_bind, mret, M_ret.
  destruct f' as [fg fm fp fi fr fc fl fn fd fpl]. simpl in *.
  exists (GridFile fg fm fp fi fr fc fl fn (if r =? 0 then None else Some rest) r), w'.
  split; [|split; [|done]].
  - destruct (Z.eqb_spec r 0); [done|]. rewrite read_n_take by lia.
    by rewrite take_ge by lia.
  - split; [done|]. split; [done|]. exists (full ++ take (Z.to_nat CS * m) buf), rest.
    split_and!; [done|done|done|done|simpl; lia|]. simpl.
    destruct (Z.eqb_spec r 0) as [->|].
    + by destruct rest.
    + split; [by intros ->|]. exists []. by rewrite app_nil_r.
Qed.
(** The pending bytes and the first new ones make a chunk. *)
Lemma write_first_writes f full rest buf w :
  gfs f = g -> id f = o -> in_chunks (chunk_num f) full w ->
  GridFS.length f = Z.of_nat (length full) -> pending_len f = Z.of_nat (length rest) ->
  pending_holds (pending_data f) rest -> 0 < Z.of_nat (length rest) < CS ->
  CS <= Z.of_nat (length rest) + Z.of_nat (length buf) ->
  Z.of_nat (length full + length buf)%nat < 2 ^ 62 ->
  let partial := Z.to_nat (CS - Z.of_nat (length rest)) in
  let full' := full ++ rest ++ take partial buf in
  exists f' w',
    write_first junk f buf w = Some ((f', drop partial buf), w')
    /\ gfs f' = g /\ id f' = o /\ in_chunks (chunk_num f') full' w'
    /\ GridFS.length f' = Z.of_nat (length full')
    /\ remote_name f' = remote_name f /\ content_type f' = content_type f.
Proof using Hns Hunused Ho.
  intros Hg Hi Hin Hlen Hpl Hp Hrest Hbuf Hmax partial full'. pose proof CS_small.
  destruct f as [fg fm fp fi fr fc fl fn fd fpl]. simpl in *. subst fg fi fl fpl.
  unfold write_first, or_crash, mbind, M_bind, mret, M_ret. simpl.
  destruct fd as [mem|]; simpl in Hp; [|subst rest; simpl in Hrest; lia].
  destruct Hp as [_ [tail ->]]. simpl. rewrite read_n_prefix by done.
  rewrite read_n_take by lia. fold partial.
  pose proof (poke_app [] rest (fresh junk CS)) as Hpoke. rewrite fresh_length in Hpoke.
  specialize (Hpoke ltac:(lia)). change (Z.of_nat (length (@nil Z))) with 0 in Hpoke.
  simpl app in Hpoke. cbv beta iota. rewrite Hpoke. cbv beta iota.
  assert (length (take partial buf) = partial) as Htk by (rewrite length_take; lia).
  rewrite poke_app by (rewrite Htk, length_drop, fresh_length; lia).
  rewrite (drop_ge (drop _ _)) by (rewrite Htk, !length_drop, fresh_length; lia).
  rewrite app_nil_r. cbv beta iota.
  destruct (put_chunk_full fn full (rest ++ take partial buf) w Hin) as (w' & -> & Hin').
  { rewrite length_app, Htk. lia. }
  eexists _, w'. split; [reflexivity|]. simpl. split_and!; try done.
  unfold full'. rewrite !length_app, Htk, u64_small by lia. lia.
Qed.

Lemma write_buffer_writes f data buf w :
  writing f data w -> Z.of_nat (length data + length buf)%nat < 2 ^ 62 ->
  exists f' w', gridfile_write_buffer junk f buf w = Some (f', w')
    /\ writing f' (data ++ buf) w'
    /\ remote_name f' = remote_name f /\ content_type f' = content_type f.
Proof using Hns Hunused Ho.
  intros Hw Hmax. pose proof Hw as (Hg & Hi & full & rest & -> & Hin & Hlen & Hpl & Hrest & Hp).
  pose proof CS_small. pose proof CS_pos. rewrite length_app in Hmax.
  unfold gridfile_write_buffer. rewrite u64_small by lia.
  destruct (Z.ltb_spec (Z.of_nat (length buf) + pending_len f) CS) as [Hlt|Hge].
  { destruct (write_pending_writes f _ buf w Hw Hlt) as (f' & ? & ?). by exists f', w. }
  set (t := Z.of_nat (length buf) + pending_len f) in *.
  pose proof (Z.div_mod t CS ltac:(lia)) as Hdiv.
  pose proof (Z.mod_pos_bound t CS ltac:(lia)) as Hmod.
  assert (1 <= t / CS) by (apply Z.div_le_lower_bound; lia).
  destruct (Z.ltb_spec 0 (pending_len f)) as [Hpos|Hneg].
  - destruct (write_first_writes f full rest buf w Hg Hi Hin Hlen Hpl Hp ltac:(lia) ltac:(lia) ltac:(lia))
      as (f1 & w1 & E1 & Hg1 & Hi1 & Hin1 & Hlen1 & Hr1 & Hc1).
    destruct (write_rest_writes (Z.to_nat (t / CS - 1)) (t mod CS) f1 _
      (drop (Z.to_nat (CS - Z.of_nat (length rest))) buf) w1 Hg1 Hi1 Hin1 Hlen1)
      as (f' & w' & E & Hw' & Hr' & Hc').
    + rewrite length_drop, Z2Nat.id by lia. lia.
    + done.
    + rewrite !length_app, length_take, length_drop. lia.
    + exists f', w'. split_and!; [| |congruence|congruence];
        [|by rewrite <- !app_assoc, take_drop in Hw'; rewrite <- app_assoc].
      unfold mbind, M_bind, mret, M_ret in E |- *. rewrite E1. exact E.
  - assert (rest = []) as -> by (destruct rest; [done|simpl in *; lia]).
    rewrite app_nil_r.
    destruct (write_rest_writes (Z.to_nat (t / CS)) (t mod CS) f full buf w Hg Hi Hin Hlen)
      as (f' & w' & E & Hw' & Hr' & Hc').
    + rewrite Z2Nat.id by lia. simpl in Hpl. lia.
    + done.
    + simpl in Hmax. lia.
    + exists f', w'. by split_and!.
Qed.

(** The last bytes and the document of the file. *)
Lemma writer_done_stores f data w :
  writing f data w -> Z.of_nat (length data) < 2 ^ 62 ->
  text_ok (remote_name f) -> text_ok (content_type f) ->
  exists f' w', gridfile_writer_done f w = Some ((MONGO_OK, f'), w')
    /\ stored g o (remote_name f) (content_type f) data w0 w'.
Proof using Hns Hprefix Hunused Ho.
  intros (Hg & Hi & full & rest & -> & Hin & Hlen & Hpl & Hrest & Hp) Hmax Hn Ht.
  rewrite length_app in Hmax. pose proof CS_pos.
  assert (exists f1 w1 cs, (match pending_data f with
      | Some m => l ← or_crash (read_n m (pending_len f));
          _ ← put_chunk (gfs f) (id f) (chunk_num f) l;
          mret (f <| GridFS.length := u64 (GridFS.length f + pending_len f) |>)
      | None => mret f
      end) w = Some (f1, w1) /\ added g cs [] w0 w1
    /\ chunk_docs o 0 (pieces CS (full ++ rest)) cs /\ gfs f1 = g /\ id f1 = o
    /\ GridFS.length f1 = Z.of_nat (length (full ++ rest))
    /\ remote_name f1 = remote_name f /\ content_type f1 = content_type f)
    as (f1 & w1 & cs & E & Hadd & Hcs & Hg1 & Hi1 & Hlen1 & Hr1 & Hc1).
  { destruct f as [fg fm fp fi fr fc fl fn fd fpl]. simpl in *. subst fg fi fl fpl.
    unfold or_crash, mbind, M_bind, mret, M_ret. destruct fd as [m|]; simpl in Hp.
    - destruct Hp as [Hne [tail ->]]. rewrite read_n_prefix by done.
      destruct (put_chunk_next fn full rest w Hin) as (w1 & cs & -> & Ha & Hc).
      { destruct rest; [done|]. simpl in *. lia. }
      eexists _, w1, cs. split; [reflexivity|]. rewrite length_app, u64_small by lia.
      split_and!; simpl; try done. lia.
    - subst rest. rewrite app_nil_r. destruct Hin as (_ & _ & cs & Ha & Hc).
      eexists _, w, cs. split; [reflexivity|]. by split_and!. }
  destruct (insert_file_added g Hns Hprefix o w0 w1 cs (Some (remote_name f)) (Some (content_type f))
    (GridFS.length f1) Hunused Ho Hn Ht) as (w' & m & E' & Hadd' & Hm).
  { rewrite Hlen1, length_app. lia. }
  { done. }
  exists f1, w'. split; [|exists cs, m; simpl in Hm; rewrite Hlen1 in Hm; by split_and!].
  unfold gridfile_writer_done. unfold mbind at 1, M_bind at 1. rewrite E.
  unfold mbind, M_bind. by rewrite Hg1, Hi1, Hr1, Hc1, E'.
Qed.
End Write.

(** ** Whole files *)

(** A file written through the incremental interface, in any buffers. *)
Fixpoint write_buffers `{Mongo W} (junk : Z -> Z) (f : gridfile) (bufs : list (list Z))
  : M W gridfile :=
  match bufs with
  | [] => mret f
  | buf :: bufs => f ← gridfile_write_buffer junk f buf; write_buffers junk f bufs
  end.
Definition write_whole `{Mongo W} (junk : Z -> Z) (f : gridfile) (g : gridfs) (name type : list Z)
    (bufs : list (list Z)) : M W (Z * gridfile) :=
  f ← gridfile_writer_init f g name type;
  f ← write_buffers junk f bufs;
  gridfile_writer_done f.

(** A GridFS with its two collections. *)
Definition gridfs_ok (g : gridfs) : Prop :=
  chunks_ns g <> files_ns g /\ string_ok (prefix g) = true.

Lemma stored_same `{MongoLaws W} g o name type data (w0 w1 w : W) :
  same w0 w1 -> stored g o name type data w1 w -> stored g o name type data w0 w.
Proof.
  intros [_ Hd] (cs & m & (H1 & H2 & H3 & H4) & ?). exists cs, m. split; [|done].
  split_and!; [done|by rewrite <- Hd..|]. intros. rewrite <- Hd. by apply H4.
Qed.
Lemma unused_same `{MongoLaws W} g o (w0 w1 : W) : same w0 w1 -> unused g o w0 -> unused g o w1.
Proof. intros [_ Hd] [H1 H2]. split; intros d; rewrite Hd; auto. Qed.

Lemma write_buffers_writes `{MongoLaws W} junk g o (w0 : W) f data bufs w :
  gridfs_ok g -> unused g o w0 -> length o = 12%nat ->
  writing g o w0 f data w -> Z.of_nat (length data + length (concat bufs))%nat < 2 ^ 62 ->
  exists f' w', write_buffers junk f bufs w = Some (f', w')
    /\ writing g o w0 f' (data ++ concat bufs) w'
    /\ remote_name f' = remote_name f /\ content_type f' = content_type f.
Proof.
  intros Hg Hun Ho. revert f data w. induction bufs as [|buf bufs IH]; intros f data w Hw Hl.
  { exists f, w. simpl. by rewrite app_nil_r. }
  simpl in Hl |- *. rewrite length_app in Hl.
  destruct (write_buffer_writes junk g (proj1 Hg) o w0 Hun Ho f data buf w Hw ltac:(lia))
    as (f1 & w1 & E1 & Hw1 & Hr1 & Hc1).
  destruct (IH f1 _ w1 Hw1) as (f2 & w2 & E2 & Hw2 & Hr2 & Hc2).
  { rewrite length_app. lia. }
  exists f2, w2. unfold mbind, M_bind. rewrite E1, E2, app_assoc. split_and!; congruence.
Qed.

Lemma write_whole_stores `{MongoLaws W} junk f g name type bufs (w0 : W) :
  up w0 -> gridfs_ok g -> unused g (new_oid w0).1 w0 -> text_ok name -> text_ok type ->
  Z.of_nat (length (concat bufs)) <= 2 ^ 48 ->
  exists f' w', write_whole junk f g name type bufs w0 = Some ((MONGO_OK, f'), w')
    /\ stored g (new_oid w0).1 name type (concat bufs) w0 w'.
Proof.
  intros Hup Hg Hun Hn Ht Hl. destruct (new_oid_law w0 Hup) as (Hs & _ & Ho).
  unfold write_whole, gridfile_writer_init, io, mbind, M_bind, mret, M_ret.
  destruct (new_oid w0) as [o w1]. simpl in Hs, Ho, Hun |- *.
  pose proof (unused_same _ _ _ _ Hs Hun) as Hun1.
  match goal with |- context [write_buffers junk ?x] => set (f1 := x) end.
  destruct (write_buffers_writes junk g o w1 f1 [] bufs w1 Hg Hun1 Ho) as (f2 & w2 & E2 & Hw2 & Hr & Hc).
  - destruct f. split; [done|]. split; [done|]. exists [], []. split_and!; try done.
    apply in_chunks_0, Hs.
  - simpl. lia.
  - assert (remote_name f1 = name /\ content_type f1 = type) as [E3 E4] by by destruct f.
    destruct (writer_done_stores g (proj1 Hg) (proj2 Hg) o w1 Hun1 Ho f2 (concat bufs) w2)
      as (f3 & w3 & E5 & Hst); [done|lia|by rewrite Hr, E3|by rewrite Hc, E4|].
    exists f3, w3. rewrite E2, E5. split; [done|].
    rewrite Hr, Hc, E3, E4 in Hst. by eapply stored_same.
Qed.

(** ** Properties *)

(** C2: Over a server that answers, writing a file of at most 2^48 bytes, whose
    name and type are UTF-8 and at most 1 MB long, through the incremental
    interface, the data cut in any buffers, terminates without undefined
    behaviour, reports success, and has stored exactly the pieces of 256 kB of
    the data as chunks numbered from 0 under the new identifier, and one file
    document with the name, the type, the length of the data and the chunk
    size; nothing else has changed on the server. *)
Theorem gridfile_writer_stores `{MongoLaws W} junk f g name type bufs (w0 : W) :
  up w0 -> gridfs_ok g -> unused g (new_oid w0).1 w0 -> text_ok name -> text_ok type ->
  Z.of_nat (length (concat bufs)) <= 2 ^ 48 ->
  exists f' w', write_whole junk f g name type bufs w0 = Some ((MONGO_OK, f'), w')
    /\ stored g (new_oid w0).1 name type (concat bufs) w0 w'.
Proof. apply write_whole_stores. Qed.

Definition demo_fs : gridfs := GridFS (bs "db") (bs "fs") (bs "db.fs.files") (bs "db.fs.chunks").

Definition demo_file : gridfile := GridFile demo_fs [] 0 [] [] [] 0 0 None 0.
Definition demo_bufs : list (list Z) :=
  [replicate (Z.to_nat 200000) 7; []; replicate (Z.to_nat 200000) 8; [9]].

Lemma gridfile_writer_stores_witness :
  exists f' w', write_whole (fun _ => 0) demo_file demo_fs (bs "a.txt") (bs "text/plain") demo_bufs
      empty_memory = Some ((MONGO_OK, f'), w')
    /\ stored demo_fs (new_oid empty_memory).1 (bs "a.txt") (bs "text/plain")
         (concat demo_bufs) empty_memory w'.
Proof.
  apply (gridfile_writer_stores (fun _ => 0) demo_file demo_fs (bs "a.txt") (bs "text/plain")
    demo_bufs empty_memory).
  - exact I.
  - by split.
  - apply unused_empty.
  - by split.
  - by split.
  - unfold demo_bufs. cbn [concat]. rewrite !length_app, !length_replicate. cbn [List.length]. lia.
Defined.

(** Storing a buffer of less than four gigabytes in one call stores the
    same pieces and the same document as the incremental writer; no more
    rounds of the loop are needed than there are pieces. *)
Theorem gridfs_store_buffer_stores `{MongoLaws W} fuel g data name type (w0 : W) :
  up w0 -> gridfs_ok g -> unused g (new_oid w0).1 w0 ->
  text_ok (default [] name) -> text_ok (default [] type) ->
  Z.of_nat (length data) < 2 ^ 32 -> (length (pieces CS data) <= fuel)%nat ->
  exists w', gridfs_store_buffer fuel g data name type w0 = Some (MONGO_OK, w')
    /\ stored g (new_oid w0).1 (default [] name) (default [] type) data w0 w'.
Proof.
  intros Hup Hg Hun Hn Ht Hl Hf. destruct (new_oid_law w0 Hup) as (Hs & _ & Ho).
  unfold gridfs_store_buffer, io, mbind, M_bind.
  destruct (new_oid w0) as [o w1]. simpl in Hs, Ho, Hun |- *.
  pose proof (unused_same _ _ _ _ Hs Hun) as Hun1.
  destruct (store_loop_stores g (proj1 Hg) o w1 Hun1 Ho fuel 0 [] data w1) as (w2 & cs & -> & Ha & Hc);
    [by apply in_chunks_0, Hs|done|done|].
  destruct (insert_file_added g (proj1 Hg) (proj2 Hg) o w1 w2 cs name type (Z.of_nat (length data)) Hun1
    Ho Hn Ht ltac:(lia) Ha) as (w3 & m & -> & Ha3 & Hm).
  exists w3. split; [done|]. eapply stored_same; [done|]. by exists cs, m.
Qed.

Lemma gridfs_store_buffer_stores_witness :
  exists w', gridfs_store_buffer 2 demo_fs (replicate (Z.to_nat 400000) 7) (Some (bs "a.txt")) None empty_memory
      = Some (MONGO_OK, w')
    /\ stored demo_fs (new_oid empty_memory).1 (bs "a.txt") [] (replicate (Z.to_nat 400000) 7) empty_memory w'.
Proof.
  apply (gridfs_store_buffer_stores 2 demo_fs (replicate (Z.to_nat 400000) 7) (Some (bs "a.txt")) None empty_memory).
  - exact I.
  - by split.
  - apply unused_empty.
  - by split.
  - by split.
  - rewrite length_replicate. lia.
  - pose proof (pieces_bound CS CS_pos (replicate (Z.to_nat 400000) 7)) as Hb.
    rewrite length_replicate in Hb. change CS with 262144 in Hb at 1 3. lia.
Defined.

(** Storing a buffer of four gigabytes or more in one call never returns:
    the size left, converted to [unsigned int], is less than the size left, and
    reaches 0, after which every chunk is empty. *)
Theorem gridfs_store_buffer_diverges `{Mongo W} fuel g data name type (w : W) :
  2 ^ 32 <= Z.of_nat (length data) ->
  gridfs_store_buffer fuel g data name type w = None.
Proof.
  intros Hl. unfold gridfs_store_buffer, io, mbind, M_bind. destruct (new_oid w) as [o w1].
  by rewrite store_loop_diverges.
Qed.

Lemma gridfs_store_buffer_diverges_witness :
  gridfs_store_buffer (Z.to_nat 100000) demo_fs (replicate (Z.to_nat (2 ^ 32)) 7) None None empty_memory = None.
Proof.
  apply (gridfs_store_buffer_diverges (Z.to_nat 100000) demo_fs _ None None empty_memory).
  rewrite length_replicate. lia.
Defined.
