(* ===== verification/GridFSRead.v ===== *)
(** * Reading GridFS files

    [gridfile_read] gives back the bytes of the chunks, from any position; a
    file that was written is found and read back; what happens on an empty
    file; the number of chunks. *)

From stdpp Require Import sorting.
From S2P Require Import Prelude BsonUtf8 BsonBuild BsonIter BsonDoc GridFS GridFSSpec GridFSMemory GridFSWrite.

Set Warnings "-register-all".

#[local] Abbreviation length := (@List.length _).

(** ** The loop *)

Section ReadLoop.
Context (k : Z) (Hk : 0 < k) (o : list Z).

(** [n] chunks hold the bytes asked for, which end in the last of them. *)
Lemma read_loop_reads n skip left current cs D i :
  0 <= skip < k -> 0 < left -> k * (Z.of_nat n - 1) < skip + left <= k * Z.of_nat n ->
  skip + left <= Z.of_nat (length D) -> Z.of_nat (length D) < 2 ^ 62 ->
  chunk_docs o i (take n (pieces k D)) cs ->
  read_loop n skip left current cs = Some (take (Z.to_nat left) (drop (Z.to_nat skip) D)).
Proof using Hk.
  revert skip left current cs D i.
  induction n as [|n IH]; intros skip left current cs D i Hs Hl Hn HD Hmax Hcs; [lia|].
  assert (D <> []) as Hne by (intros ->; simpl in HD; lia).
  rewrite pieces_step in Hcs by done. rewrite firstn_cons in Hcs.
  destruct cs as [|c cs]; [done|]. destruct Hcs as [(_ & _ & Hc) Hcs].
  cbn [read_loop mbind option_bind]. rewrite Hc. cbn [field_binary mbind option_bind].
  rewrite length_take. rewrite u64_small by lia.
  destruct (Z.ltb_spec (Z.of_nat (Z.to_nat k `min` length D) - skip) left) as [Hlt|Hge].
  - destruct n as [|n]; [lia|].
    assert (k < skip + left) by nia.
    assert (Z.of_nat (Z.to_nat k `min` length D) = k) as Hmin by lia. rewrite Hmin in *.
    rewrite read_n_take by (rewrite length_drop, length_take; lia). cbn [mbind option_bind].
    rewrite u64_small by lia.
    rewrite (IH 0 _ (Some c) cs (drop (Z.to_nat k) D) (i + 1)); [|lia|lia|nia|rewrite length_drop; lia..|done].
    cbn [mbind option_bind]. f_equal. rewrite drop_0.
    rewrite (take_ge (drop _ _)) by (rewrite length_drop, length_take; lia).
    rewrite <- (take_drop (Z.to_nat k) D) at 3.
    rewrite drop_app_le by (rewrite length_take; lia).
    rewrite take_app_ge by (rewrite length_drop, length_take; lia).
    do 2 f_equal. rewrite length_drop, length_take. lia.
  - assert (n = 0%nat) as -> by nia.
    rewrite read_n_take by (rewrite length_drop, length_take; lia). cbn [mbind option_bind read_loop].
    rewrite drop_nil, app_nil_r, take_drop_commute, take_take. f_equal.
    rewrite take_drop_commute. do 2 f_equal. lia.
Qed.
End ReadLoop.

(** ** The documents a request for chunks gives *)

Lemma chunk_docs_key o n ps cs c1 c2 :
  chunk_docs o n ps cs -> c1 ∈ cs -> c2 ∈ cs -> int_key c1 (bs "n") = int_key c2 (bs "n") -> c1 = c2.
Proof.
  revert n cs. induction ps as [|p ps IH]; intros n [|c cs] H H1 H2 E; try done.
  { by apply not_elem_of_nil in H1. }
  destruct H as [Hc H].
  assert (forall c', c' ∈ cs -> int_key c' (bs "n") <> int_key c (bs "n")) as Hlt.
  { intros c' Hc'. destruct (chunk_docs_elem _ _ _ _ _ H Hc') as (i & q & Hi & _ & Hn & _).
    destruct Hc as (_ & Hn' & _). unfold int_key. rewrite Hn, Hn'. lia. }
  apply elem_of_cons in H1 as [-> |H1], H2 as [-> |H2]; [done| | |by eapply IH].
  - by destruct (Hlt _ H2).
  - by destruct (Hlt _ H1).
Qed.

Lemma chunk_docs_sorted o n ps cs :
  chunk_docs o n ps cs -> StronglySorted (before (bs "n") 1) cs.
Proof.
  revert n cs. induction ps as [|p ps IH]; intros n [|c cs] H; try done; [constructor|].
  destruct H as [Hc H]. constructor; [by eapply IH|]. apply Forall_forall. intros c' Hc'.
  destruct (chunk_docs_elem _ _ _ _ _ H Hc') as (i & q & Hi & _ & Hn & _).
  destruct Hc as (_ & Hn' & _). unfold before, int_key. rewrite Hn, Hn'. lia.
Qed.

(** Sorted answers about chunks are the chunks. *)
Lemma sorted_chunks o n ps cs l :
  chunk_docs o n ps cs -> l ≡ₚ cs -> StronglySorted (before (bs "n") 1) l -> l = cs.
Proof.
  intros Hcs Hp Hs. apply (StronglySorted_unique_strong (before (bs "n") 1)); [|done| |done].
  - intros c1 c2 H1 H2 B1 B2. rewrite Hp in H1. eapply chunk_docs_key; [done..|].
    unfold before in *. lia.
  - by eapply chunk_docs_sorted.
Qed.

(** The chunks numbered [s] and more, or just [s]. *)
Lemma matches_n q n d :
  lookup_field d (bs "n") = Some (VInt n) ->
  matches [(bs "n", q)] d = match q with
                            | VInt s => s =? n
                            | VObject [(op, VInt s)] => bool_decide (op = bs "$gte") && (s <=? n)
                            | _ => false
                            end.
Proof.
  intros Hn. unfold matches. cbn [forallb fst snd]. rewrite Hn, andb_true_r. by destruct q.
Qed.

Definition from (s : Z) : fields := [(bs "n", VObject [(bs "$gte", VInt s)])].
Definition just (s : Z) : fields := [(bs "n", VInt s)].

Lemma matches_from s n d :
  lookup_field d (bs "n") = Some (VInt n) -> matches (from s) d = (s <=? n).
Proof. intros Hn. unfold from. rewrite (matches_n _ n) by done. by rewrite bool_decide_true. Qed.

Lemma filter_later o n ps cs s :
  chunk_docs o n ps cs ->
  (s <= n -> filter (fun d => matches (from s) d = true) cs = cs) /\
  (s < n -> filter (fun d => matches (just s) d = true) cs = []).
Proof.
  revert n cs. induction ps as [|p ps IH]; intros n [|c cs] H; try done.
  destruct H as [(_ & Hn & _) H]. destruct (IH _ _ H) as [IH1 IH2]. rewrite !filter_cons.
  rewrite (matches_from s n) by done. unfold just. rewrite (matches_n _ n) by done. split; intros Hs.
  - rewrite (proj2 (Z.leb_le s n)), decide_True by done. f_equal. apply IH1. lia.
  - rewrite (proj2 (Z.eqb_neq s n)), decide_False by (done || lia). apply IH2. lia.
Qed.

Lemma filter_chunks o n ps cs s :
  chunk_docs o n ps cs -> n <= s ->
  filter (fun d => matches (from s) d = true) cs = drop (Z.to_nat (s - n)) cs /\
  filter (fun d => matches (just s) d = true) cs = take 1 (drop (Z.to_nat (s - n)) cs).
Proof.
  revert n cs. induction ps as [|p ps IH]; intros n [|c cs] H Hs; try done.
  { by rewrite drop_nil. }
  destruct H as [(_ & Hn & _) H]. rewrite !filter_cons.
  rewrite (matches_from s n) by done. unfold just. rewrite (matches_n _ n) by done.
  destruct (filter_later _ _ _ _ s H) as [H1 H2].
  destruct (decide (s = n)) as [-> |].
  - rewrite Z.leb_refl, Z.eqb_refl, !decide_True, Z.sub_diag by done.
    rewrite H1 by lia. unfold just in H2. by rewrite H2 by lia.
  - rewrite (proj2 (Z.leb_gt s n)), (proj2 (Z.eqb_neq s n)), !decide_False by (done || lia).
    replace (Z.to_nat (s - n)) with (S (Z.to_nat (s - (n + 1)))) by lia.
    apply IH; [done|lia].
Qed.

(** ** Files on the server *)

(** The collection of chunks holds the pieces of [data] for [o], in any
    order; its other documents are chunks of other files. *)
Definition chunk_typed (d : fields) : Prop :=
  same_type (VOid []) (lookup_field d (bs "files_id")) = true /\
  same_type (VInt 0) (lookup_field d (bs "n")) = true.
Definition of_file (o : list Z) : fields := [(bs "files_id", VOid o)].
Definition holds_file `{MongoLaws W} (g : gridfs) (o : list Z) (k : Z) (data : list Z) (w : W) : Prop :=
  up w /\ Forall chunk_typed (docs w (chunks_ns g)) /\
  exists cs, filter (fun d => matches (of_file o) d = true) (docs w (chunks_ns g)) ≡ₚ cs
    /\ chunk_docs o 0 (pieces k data) cs.

Lemma filter_query (o : list Z) (q : fields) (ds : list fields) :
  filter (fun d => matches ((bs "files_id", VOid o) :: q) d = true) ds
  = filter (fun d => matches q d = true) (filter (fun d => matches (of_file o) d = true) ds).
Proof.
  rewrite list_filter_filter. apply list_filter_iff. intros d. unfold of_file, matches.
  cbn [forallb]. rewrite andb_true_r, andb_true_iff. tauto.
Qed.

Lemma chunk_docs_take o n ps cs j : chunk_docs o n ps cs -> chunk_docs o n (take j ps) (take j cs).
Proof.
  revert n ps cs. induction j as [|j IH]; intros n [|p ps] [|c cs] H; try done.
  destruct H. split; [done|by apply IH].
Qed.

Lemma chunk_docs_take_drop o ps cs i j :
  chunk_docs o 0 ps cs -> chunk_docs o (Z.of_nat i) (take j (drop i ps)) (take j (drop i cs)).
Proof.
  intros H. apply chunk_docs_take. destruct (chunk_docs_drop o 0 ps cs i H) as [? |Hlt]; [done|].
  rewrite (drop_ge ps), (drop_ge cs) by (rewrite ?(chunk_docs_lengths _ _ _ _ H); lia). done.
Qed.

Section Read.
Context `{MongoLaws W} (g : gridfs) (o : list Z) (k : Z) (Hk : 0 < k).

Lemma get_chunks_answers f data first total w :
  gfs f = g -> lookup_field (meta f) (bs "_id") = Some (VOid o) -> holds_file g o k data w ->
  0 <= first -> 1 <= total ->
  first + total <= Z.of_nat (length (pieces k data)) <= INT_MAX ->
  exists w' cs, gridfile_get_chunks f first total w = Some (Some cs, w') /\ same w w'
    /\ chunk_docs o first (take (Z.to_nat total) (drop (Z.to_nat first) (pieces k data))) cs.
Proof using Hk.
  intros Hg Hid (Hu & Hty & cs & Hp & Hcs) Hf Ht [Hb HM]. unfold INT_MAX in HM.
  set (q := [(bs "files_id", VOid o);
             (bs "n", if total =? 1 then VInt first else VObject [(bs "$gte", VInt first)])]).
  set (ds := filter (fun d => matches q d = true) (docs w (chunks_ns g))).
  set (sel := if total =? 1 then take 1 (drop (Z.to_nat first) cs) else drop (Z.to_nat first) cs).
  assert (ds ≡ₚ sel) as Hds.
  { unfold ds, q, sel. rewrite filter_query, Hp.
    destruct (filter_chunks _ _ _ _ first Hcs Hf) as [H1 H2]. rewrite Z.sub_0_r in H1, H2.
    destruct (total =? 1); [by rewrite <- H2|by rewrite <- H1]. }
  assert (exists n, chunk_docs o first (take n (drop (Z.to_nat first) (pieces k data))) sel
    /\ (Z.to_nat total <= n)%nat) as (n & Hsel & Hn).
  { unfold sel. destruct (Z.eqb_spec total 1).
    - exists 1%nat. split; [|lia]. rewrite <- (Z2Nat.id first) at 1 by done.
      by apply chunk_docs_take_drop.
    - exists (max (length (pieces k data)) (Z.to_nat total)). split; [|lia].
      rewrite <- (take_ge (drop _ cs) (max (length (pieces k data)) (Z.to_nat total))).
      + rewrite <- (Z2Nat.id first) at 1 by done. by apply chunk_docs_take_drop.
      + rewrite length_drop, (chunk_docs_lengths _ _ _ _ Hcs). lia. }
  destruct (find_law (chunks_ns g) q (bs "n") 1 total w Hu) as (Hs & l & m & [Hl1 Hl2] & El & Em).
  - eapply Forall_impl; [exact Hty|]. intros d [Hd1 Hd2]. unfold typed, q. cbn [forallb fst snd].
    assert (same_type (VOid o) (lookup_field d (bs "files_id")) = true) as ->
      by (by destruct (lookup_field d (bs "files_id")) as [[]|]).
    destruct (total =? 1); by destruct (lookup_field d (bs "n")) as [[]|].
  - left. intros d Hd. fold ds in Hd. rewrite Hds in Hd.
    destruct (chunk_docs_elem _ _ _ _ _ Hsel Hd) as (i & p & _ & _ & Hi & _). by exists i.
  - fold ds in Hl1. rewrite Hds in Hl1. apply (sorted_chunks _ _ _ _ _ Hsel) in Hl1; [|done]. subst l.
    eexists _, (take (Z.to_nat total) sel). split; [|split; [exact Hs|]].
    + unfold gridfile_get_chunks. rewrite Hid. cbn [field_oid or_crash].
      unfold mbind, M_bind, mret, M_ret, io. rewrite Hg, !s32_small by (unfold INT_MIN, INT_MAX; lia).
      fold q. change [(bs "query", VObject q); (bs "orderby", VObject [(bs "n", VInt 1)])]
        with (request q (bs "n") 1).
      rewrite <- (Em ltac:(lia)), <- El. by destruct (mongo_find _ _ _ w).
    + replace (Z.to_nat total) with (Z.to_nat total `min` n)%nat at 1 by lia. rewrite <- take_take.
      by apply chunk_docs_take.
Qed.
Lemma pieces_enough data : Z.of_nat (length data) <= k * Z.of_nat (length (pieces k data)).
Proof using Hk.
  rewrite <- (pieces_concat k Hk data) at 1. induction (pieces_sizes k Hk data) as [|p ps Hp _ IH];
    [simpl; lia|]. simpl concat. rewrite length_app, length_cons. lia.
Qed.

(** From anywhere in the file: the bytes asked for, up to the end. *)
Lemma read_reads f data size w :
  gfs f = g -> lookup_field (meta f) (bs "_id") = Some (VOid o) -> holds_file g o k data w ->
  gridfile_get_contentlength f = Z.of_nat (length data) -> gridfile_get_chunksize f = k ->
  k <= INT_MAX -> Z.of_nat (length data) <= 2 ^ 48 -> Z.of_nat (length (pieces k data)) <= INT_MAX ->
  0 <= pos f < Z.of_nat (length data) -> 0 < size < 2 ^ 64 ->
  exists w', gridfile_read f size w =
      Some ((Z.min size (Z.of_nat (length data) - pos f),
             take (Z.to_nat size) (drop (Z.to_nat (pos f)) data),
             f <| pos := pos f + Z.min size (Z.of_nat (length data) - pos f) |>), w')
    /\ same w w'.
Proof using Hk.
  intros Hg Hid Hh Hlen Hck HkM Hmax Hcount Hpos Hsize. unfold INT_MAX in *.
  unfold gridfile_read. rewrite Hlen, Hck, (u64_small k), (u64_small (_ - _)) by lia.
  destruct (Z.eqb_spec k 0) as [|_]; [lia|].
  set (n := Z.of_nat (length data)) in *.
  set (m := Z.min size (n - pos f)).
  replace (if n - pos f <? size then n - pos f else size) with m
    by (unfold m; destruct (Z.ltb_spec (n - pos f) size); lia).
  assert (0 < m <= n - pos f) as Hm by lia. rewrite !(u64_small (pos f + m)) by lia.
  rewrite (u64_small (pos f + m - 1)) by lia.
  set (first := pos f / k). set (last := (pos f + m - 1) / k).
  pose proof (Z.div_mod (pos f) k ltac:(lia)) as D1. fold first in D1.
  pose proof (Z.mod_pos_bound (pos f) k ltac:(lia)) as B1.
  pose proof (Z.div_mod (pos f + m - 1) k ltac:(lia)) as D2. fold last in D2.
  pose proof (Z.mod_pos_bound (pos f + m - 1) k ltac:(lia)) as B2.
  assert (0 <= first) by (apply Z.div_pos; lia).
  assert (first <= last) by (apply Z.div_le_mono; lia).
  pose proof (pieces_enough data) as Hen. fold n in Hen.
  assert (last + 1 <= Z.of_nat (length (pieces k data))) by nia.
  rewrite u64_small by lia.
  destruct (get_chunks_answers f data first (last - first + 1) w Hg Hid Hh) as (w' & cs & E & Hs & Hcs);
    [lia|lia|unfold INT_MAX; lia|].
  exists w'. split; [|done]. unfold or_crash, mbind, M_bind, mret, M_ret. rewrite E. cbv iota beta.
  rewrite drop_pieces in Hcs by done.
  rewrite (read_loop_reads k Hk o _ (pos f mod k) m None cs _ _ B1 (proj1 Hm)) with (4 := Hcs).
  - rewrite drop_drop.
    replace (Z.to_nat k * Z.to_nat first + Z.to_nat (pos f mod k))%nat with (Z.to_nat (pos f)) by nia.
    assert (take (Z.to_nat m) (drop (Z.to_nat (pos f)) data)
            = take (Z.to_nat size) (drop (Z.to_nat (pos f)) data)) as ->; [|done].
    destruct (decide (size <= n - pos f)); [f_equal; lia|].
    by rewrite !take_ge by (rewrite length_drop; lia).
  - rewrite Z2Nat.id by lia. nia.
  - rewrite length_drop. nia.
  - rewrite length_drop. lia.
Qed.
End Read.

(** ** A file that was written *)

Definition name_typed (d : fields) : Prop :=
  same_type (VString []) (lookup_field d (bs "filename")) = true.
Definition by_name (name : list Z) : fields := [(bs "filename", VString name)].

Lemma filter_none (q : fields) (ds : list fields) :
  (forall d, d ∈ ds -> matches q d = false) -> filter (fun d => matches q d = true) ds = [].
Proof.
  intros Hd. induction ds as [|d ds IH]; [done|]. rewrite filter_cons, decide_False.
  - apply IH. intros d' H. apply Hd. by right.
  - rewrite Hd; [done|by left].
Qed.
Lemma filter_whole (q : fields) (ds : list fields) :
  (forall d, d ∈ ds -> matches q d = true) -> filter (fun d => matches q d = true) ds = ds.
Proof.
  intros Hd. induction ds as [|d ds IH]; [done|]. rewrite filter_cons, decide_True.
  - f_equal. apply IH. intros d' H. apply Hd. by right.
  - apply Hd. by left.
Qed.

Lemma matches_one k v d : matches [(k, v)] d = condition v (lookup_field d k).
Proof. unfold matches. cbn [forallb fst snd]. apply andb_true_r. Qed.

(** The server holds a stored file. *)
Lemma stored_holds `{MongoLaws W} g o name type data (w0 w : W) :
  unused g o w0 -> Forall chunk_typed (docs w0 (chunks_ns g)) ->
  stored g o name type data w0 w -> holds_file g o DEFAULT_CHUNK_SIZE data w.
Proof.
  intros Hun Hty (cs & m & (Hu & H1 & _) & Hcs & _). split; [done|]. rewrite H1.
  assert (forall c, c ∈ cs -> exists i p, chunk_of o i p c) as Hc.
  { intros c Hc. destruct (chunk_docs_elem _ _ _ _ _ Hcs Hc) as (i & p & _ & ?). by exists i, p. }
  split.
  - apply Forall_app. split; [done|]. apply Forall_forall. intros c Hin.
    destruct (Hc c Hin) as (i & p & E1 & E2 & _). unfold chunk_typed. by rewrite E1, E2.
  - exists cs. split; [|done]. rewrite filter_app. unfold of_file. rewrite filter_none, filter_whole; [done|..].
    + intros c Hin. destruct (Hc c Hin) as (i & p & E1 & _). rewrite matches_one, E1. simpl.
      by apply bool_decide_eq_true.
    + intros d Hd. rewrite matches_one. pose proof (proj1 Hun d Hd) as Hne.
      destruct (lookup_field d (bs "files_id")) as [[]|]; try done. simpl.
      apply bool_decide_eq_false. by intros ->.
Qed.

Lemma contentlength_long f n :
  lookup_field (meta f) (bs "length") = Some (VLong n) -> 0 <= n < 2 ^ 63 ->
  gridfile_get_contentlength f = n.
Proof.
  intros H Hn. unfold gridfile_get_contentlength. rewrite H.
  change (u64 n = n). apply u64_small. lia.
Qed.

(** It is found by its name. *)
Lemma find_filename_finds `{MongoLaws W} g o name type data (w0 w : W) f :
  Forall name_typed (docs w0 (files_ns g)) ->
  (forall d, d ∈ docs w0 (files_ns g) -> lookup_field d (bs "filename") <> Some (VString name)) ->
  name <> [] -> string_ok name = true -> stored g o name type data w0 w ->
  exists m w', gridfs_find_filename g name f w = Some ((MONGO_OK, gridfile_init g m f), w')
    /\ same w w' /\ file_doc o name type (Z.of_nat (length data)) m.
Proof.
  intros Hty Hnew Hne Hok (cs & m & (Hu & _ & H2 & _) & _ & Hm). exists m.
  pose proof Hm as (_ & Hname & _ & _ & _ & (t & Ht)).
  assert (Hname' : lookup_field m (bs "filename") = Some (VString name)) by by destruct name.
  assert (filter (fun d => matches (by_name name) d = true) (docs w (files_ns g)) = [m]) as Hf.
  { rewrite H2, filter_app. unfold by_name. rewrite filter_none, filter_whole; [done|..].
    - intros d Hd. apply list_elem_of_singleton in Hd as ->. rewrite matches_one, Hname'. simpl.
      by apply bool_decide_eq_true.
    - intros d Hd. rewrite matches_one. pose proof (Hnew d Hd).
      destruct (lookup_field d (bs "filename")) as [[]|]; try done. simpl.
      apply bool_decide_eq_false. by intros ->. }
  destruct (find_one_law (files_ns g) (by_name name) (bs "uploadDate") (-1) w Hu) as (Hs & l & [Hl _] & El).
  - rewrite H2. apply Forall_app. split.
    + eapply Forall_impl; [exact Hty|]. intros d Hd. unfold typed, by_name. cbn [forallb fst snd].
      unfold name_typed in Hd. rewrite andb_true_r. by destruct (lookup_field d (bs "filename")) as [[]|].
    + constructor; [|done]. unfold typed, by_name. cbn [forallb fst snd]. by rewrite Hname'.
  - right. rewrite Hf. intros d Hd%list_elem_of_singleton. subst d. by exists t.
  - rewrite Hf in Hl. apply Permutation_singleton_r in Hl as ->. simpl in El.
    exists (mongo_find_one (files_ns g) (request (by_name name) (bs "uploadDate") (-1)) w).2.
    split; [|by split].
    unfold gridfs_find_filename. rewrite bson_doc_ok.
    + unfold gridfs_find_query, or_crash, io, mbind, M_bind, mret, M_ret.
      change [(bs "query", VObject [(bs "filename", VString name)]);
              (bs "orderby", VObject [(bs "uploadDate", VInt (-1))])]
        with (request (by_name name) (bs "uploadDate") (-1)).
      destruct (mongo_find_one _ _ w). simpl in El |- *. by subst.
    + repeat constructor. exact Hok.
Qed.

(** ** The number of chunks

    [rnd] rounds with a relative error of at most [2^-53], and keeps the
    integers below [2^53]. *)

Lemma half_even_error n d : 0 < d -> - d <= 2 * (half_even n d * d - n) <= d.
Proof.
  intros Hd. unfold half_even. pose proof (Z.div_mod n d ltac:(lia)).
  pose proof (Z.mod_pos_bound n d Hd).
  destruct (Z.ltb_spec (2 * (n mod d)) d), (Z.eqb_spec (2 * (n mod d)) d), (Z.even (n / d));
    cbn [orb andb]; nia.
Qed.

Lemma pow_split x y : 0 <= x -> 0 <= y ->
  2 ^ x * 2 ^ Z.max 0 (- (x - y)) = 2 ^ y * 2 ^ Z.max 0 (x - y).
Proof. intros. rewrite <- !Z.pow_add_r by lia. f_equal. lia. Qed.

Lemma pow_step k : 2 ^ Z.max 0 k * 2 ^ Z.max 0 (- (k - 1)) = 2 * (2 ^ Z.max 0 (k - 1) * 2 ^ Z.max 0 (- k)).
Proof.
  change 2 with (2 ^ 1) at 3. rewrite <- !Z.pow_add_r by lia. f_equal. lia.
Qed.

Lemma pow_max_pos k : 0 < 2 ^ Z.max 0 k.
Proof. apply Z.pow_pos_nonneg; lia. Qed.

(** The exponent [rnd] works with. *)
Lemma rnd_exponent n d : 0 < n -> 0 < d ->
  exists k, d * 2 ^ Z.max 0 k <= n * 2 ^ Z.max 0 (- k) < 2 * (d * 2 ^ Z.max 0 k)
    /\ rnd (n, d) =
        (let e := k - 52 in
         (half_even (n * 2 ^ Z.max 0 (- e)) (d * 2 ^ Z.max 0 e) * 2 ^ Z.max 0 e, 2 ^ Z.max 0 (- e))).
Proof.
  intros Hn Hd. unfold rnd. destruct (Z.eqb_spec n 0); [lia|].
  pose proof (Z.log2_spec n Hn) as [N1 N2]. pose proof (Z.log2_spec d Hd) as [D1 D2].
  rewrite Z.pow_succ_r in N2, D2 by apply Z.log2_nonneg.
  pose proof (pow_split (Z.log2 n) (Z.log2 d) (Z.log2_nonneg _) (Z.log2_nonneg _)) as E.
  set (k := Z.log2 n - Z.log2 d) in *. pose proof (pow_step k) as S.
  pose proof (pow_max_pos k). pose proof (pow_max_pos (- k)).
  pose proof (pow_max_pos (k - 1)). pose proof (pow_max_pos (- (k - 1))).
  set (a := 2 ^ Z.max 0 k) in *. set (b := 2 ^ Z.max 0 (- k)) in *.
  set (a' := 2 ^ Z.max 0 (k - 1)) in *. set (b' := 2 ^ Z.max 0 (- (k - 1))) in *.
  set (x := 2 ^ Z.log2 n) in *. set (y := 2 ^ Z.log2 d) in *.
  assert (n * b < 2 * (d * a)) by nia. assert (d * a < 2 * (n * b)) by nia.
  destruct (Z.ltb_spec (n * b) (d * a)) as [Hlt|Hge].
  - exists (k - 1). fold a' b'. split; [|done].
    assert (d * a' * (2 * b) <= n * b' * (2 * b)) by nia.
    assert (n * b' * b < 2 * (d * a') * b) by nia. split; nia.
  - exists k. fold a b. split; [lia|done].
Qed.

Lemma rnd_error n d : 0 < n -> 0 < d ->
  0 < (rnd (n, d)).2 /\
  - (n * (rnd (n, d)).2) <= 2 ^ 53 * ((rnd (n, d)).1 * d - n * (rnd (n, d)).2) <= n * (rnd (n, d)).2.
Proof.
  intros Hn Hd. destruct (rnd_exponent n d Hn Hd) as (k & [Hk _] & ->). cbv zeta. cbn [fst snd].
  pose proof (pow_max_pos (- (k - 52))) as P1. pose proof (pow_max_pos (k - 52)) as P2.
  pose proof (pow_max_pos k). pose proof (pow_max_pos (- k)).
  assert (2 ^ Z.max 0 (- (k - 52)) * 2 ^ Z.max 0 k = 2 ^ 52 * (2 ^ Z.max 0 (k - 52) * 2 ^ Z.max 0 (- k))) as E.
  { rewrite <- !Z.pow_add_r by lia. f_equal. lia. }
  set (e' := 2 ^ Z.max 0 (- (k - 52))) in *. set (e := 2 ^ Z.max 0 (k - 52)) in *.
  set (a := 2 ^ Z.max 0 k) in *. set (b := 2 ^ Z.max 0 (- k)) in *. split; [done|].
  pose proof (half_even_error (n * e') (d * e) ltac:(nia)) as Hh.
  set (q := half_even _ _) in *. clearbody q e e' a b.
  assert (2 ^ 52 * (d * e) * b <= n * e' * b).
  { replace (2 ^ 52 * (d * e) * b) with (d * (2 ^ 52 * (e * b))) by ring. rewrite <- E. nia. }
  assert (2 ^ 52 * (d * e) <= n * e') by nia.
  replace (q * e * d - n * e') with (q * (d * e) - n * e') by ring. lia.
Qed.

Lemma half_even_exact c d : 0 < d -> half_even (c * d) d = c.
Proof. intros. unfold half_even. rewrite Z.div_mul, Z_mod_mult by lia. by destruct (Z.ltb_spec (2 * 0) d); [|lia]. Qed.

(** Integers below [2^53] are not rounded. *)
Lemma rnd_exact c d : 0 < d -> 0 < c < 2 ^ 53 ->
  0 < (rnd (c * d, d)).2 /\ (rnd (c * d, d)).1 = c * (rnd (c * d, d)).2.
Proof.
  intros Hd Hc. destruct (rnd_exponent (c * d) d ltac:(nia) Hd) as (k & [Hk _] & ->).
  cbv zeta. cbn [fst snd]. split; [apply pow_max_pos|].
  assert (k <= 52) as Hk'.
  { destruct (decide (k <= 52)); [done|]. rewrite (Z.max_l 0 (- k)), Z.max_r in Hk by lia.
    assert (2 ^ 53 <= 2 ^ k) by (apply Z.pow_le_mono_r; lia). simpl (2 ^ 0) in Hk. nia. }
  rewrite (Z.max_l 0 (k - 52)) by lia. change (2 ^ 0) with 1. rewrite !Z.mul_1_r.
  replace (c * d * 2 ^ Z.max 0 (- (k - 52))) with (c * 2 ^ Z.max 0 (- (k - 52)) * d) by ring.
  by apply half_even_exact.
Qed.

(** A quotient that is no integer stays between the same integers, also when
    1 is added. *)
Lemma between_rounded f p m p2 m2 k r :
  0 < p -> 0 < p2 -> 0 < r < k -> 0 <= f -> f * k + r < 2 ^ 51 -> k <= INT_MAX ->
  - ((f * k + r) * p) <= 2 ^ 53 * (m * k - (f * k + r) * p) <= (f * k + r) * p ->
  - ((m + p) * p2) <= 2 ^ 53 * (m2 * p - (m + p) * p2) <= (m + p) * p2 ->
  (f * p < m < (f + 1) * p) /\ (f + 1) * p2 <= m2 < (f + 2) * p2.
Proof.
  intros Hp Hp2 Hr Hf Hn Hk E1 E2. unfold INT_MAX in Hk. set (n := f * k + r) in *.
  assert (p * (2 ^ 53 * r - n) <= 2 ^ 53 * (k * (m - f * p))) as L1.
  { replace (k * (m - f * p)) with (m * k - n * p + r * p) by (unfold n; ring). lia. }
  assert (p * (2 ^ 53 * (k - r) - n) <= 2 ^ 53 * (k * ((f + 1) * p - m))) as L2.
  { replace (k * ((f + 1) * p - m)) with (n * p - m * k + (k - r) * p) by (unfold n; ring). lia. }
  assert (0 < p * (2 ^ 53 * r - n - n - 2 * k)) as P1 by (apply Z.mul_pos_pos; lia).
  assert (0 < p * (2 ^ 53 * (k - r) - n - n - 2 * k)) as P2 by (apply Z.mul_pos_pos; lia).
  assert (0 < k * (m - f * p)) by nia. assert (0 < k * ((f + 1) * p - m)) by nia.
  assert (f * p < m < (f + 1) * p) as Hm by nia. split; [done|].
  assert (k * (m + p) <= p * (n + 2 * k)) as L3.
  { assert (0 <= p * r) by nia. unfold n. nia. }
  assert (0 < 2 ^ 53 * (k * (m - f * p)) - k * (m + p)) by nia.
  assert (0 < 2 ^ 53 * (k * ((f + 1) * p - m)) - k * (m + p)) by nia.
  assert (0 < 2 ^ 53 * (m - f * p) - (m + p)) as Q1 by nia.
  assert (0 < 2 ^ 53 * ((f + 1) * p - m) - (m + p)) as Q2 by nia.
  assert (0 < p2 * (2 ^ 53 * (m - f * p) - (m + p))) as R1 by (by apply Z.mul_pos_pos).
  assert (0 < p2 * (2 ^ 53 * ((f + 1) * p - m) - (m + p))) as R2 by (by apply Z.mul_pos_pos).
  assert (0 < 2 ^ 53 * (p * (m2 - (f + 1) * p2))).
  { replace (p * (m2 - (f + 1) * p2)) with (m2 * p - (m + p) * p2 + (m - f * p) * p2) by ring. lia. }
  assert (0 < 2 ^ 53 * (p * ((f + 2) * p2 - m2))).
  { replace (p * ((f + 2) * p2 - m2)) with ((m + p) * p2 - m2 * p + ((f + 1) * p - m) * p2) by ring. lia. }
  split; nia.
Qed.

Lemma div_between m p f : f * p <= m < (f + 1) * p -> m / p = f.
Proof. intros H. symmetry. apply (Z.div_unique m p f (m - f * p)); lia. Qed.

Lemma numchunks_exact f :
  let n := gridfile_get_contentlength f in
  let k := gridfile_get_chunksize f in
  0 < k <= INT_MAX -> 0 <= n < 2 ^ 51 -> (n + k - 1) / k <= INT_MAX ->
  gridfile_get_numchunks f = (n + k - 1) / k.
Proof.
  cbv zeta. unfold gridfile_get_numchunks. set (n := gridfile_get_contentlength f).
  set (k := gridfile_get_chunksize f). intros Hk Hn Hmax.
  rewrite u64_small by (unfold INT_MAX in *; lia). destruct (Z.eqb_spec k 0); [lia|].
  assert (forall c, 0 < c < 2 ^ 53 -> 0 < (rnd (c, 1)).2 /\ (rnd (c, 1)).1 = c * (rnd (c, 1)).2) as Hx.
  { intros c Hc. pose proof (rnd_exact c 1 ltac:(lia) Hc) as H. by rewrite Z.mul_1_r in H. }
  destruct (Hx k) as [HB EB]; [unfold INT_MAX in *; lia|].
  destruct (decide (n = 0)) as [E0|Hn0].
  { rewrite E0. change (rnd (0, 1)) with (0, 1). cbn [fst snd]. rewrite Z.mul_0_l.
    change (rnd (0, _)) with (0, 1). change (dbl_int (0, 1)) with 0. cbn [fst snd].
    rewrite Z.div_small by lia. done. }
  destruct (Hx n) as [HA EA]; [lia|]. rewrite EA, EB. clear Hx EA EB.
  set (A := (rnd (n, 1)).2) in *. set (B := (rnd (k, 1)).2) in *.
  pose proof (Z.div_mod n k ltac:(lia)) as D. pose proof (Z.mod_pos_bound n k ltac:(lia)) as Hr.
  set (q := n / k) in *. set (r := n mod k) in *.
  assert (0 <= q) by (apply Z.div_pos; lia).
  destruct (decide (r = 0)) as [Hr0|Hr0].
  - assert ((n + k - 1) / k = q) as E by (apply div_between; lia). rewrite E in *.
    replace (n * A * B, A * (k * B)) with (q * (k * A * B), k * A * B) by (f_equal; nia).
    destruct (rnd_exact q (k * A * B)) as [P1 P2]; [nia|nia|].
    destruct (rnd (q * (k * A * B), k * A * B)) as [m p]. cbn [fst snd] in *. subst m.
    unfold dbl_int. cbn [fst snd]. rewrite Z.div_mul by lia.
    rewrite (proj2 (Z.leb_le q INT_MAX)) by done. by rewrite Z.ltb_irrefl.
  - assert ((n + k - 1) / k = q + 1) as E by (apply div_between; lia). rewrite E in *.
    destruct (rnd_error (n * A * B) (A * (k * B))) as [P1 P2]; [nia|nia|].
    destruct (rnd (n * A * B, A * (k * B))) as [m p]. cbn [fst snd] in *.
    assert (- (n * p) <= 2 ^ 53 * (m * k - n * p) <= n * p) as P2'.
    { assert (0 < A * B) as HAB by nia. set (c := A * B) in *.
      replace (n * A * B * p) with (n * p * c) in P2 by (unfold c; ring).
      replace (m * (A * (k * B)) - n * p * c) with ((m * k - n * p) * c) in P2 by (unfold c; ring).
      clearbody c. nia. }
    assert (0 < m) by nia.
    destruct (rnd_error (m + p) p) as [P3 P4]; [lia|done|].
    destruct (rnd (m + p, p)) as [m2 p2]. cbn [fst snd] in *.
    replace n with (q * k + r) in P2' by lia.
    destruct (between_rounded q p m p2 m2 k r P1 P3) as [Q1 Q2]; try done; try lia.
    unfold dbl_int. cbn [fst snd].
    rewrite (div_between m p q), (div_between m2 p2 (q + 1)) by lia.
    rewrite (proj2 (Z.leb_le q INT_MAX)), (proj2 (Z.leb_le (q + 1) INT_MAX)) by lia.
    by rewrite (proj2 (Z.ltb_lt (q * p) m)) by lia.
Qed.

(** ** Properties *)

(** C1: A file with data, at most 2^48 bytes of it, written through the
    incremental interface in any buffers, under a name that is not empty and no
    other file has, the name and the type UTF-8 and at most 1 MB long, over a
    server that answers: the file is found by its name, has the length of the
    data, and seeking to any offset before the end and reading any positive
    number of bytes gives exactly those bytes of the data, up to its end. (To
    read a file without data, or no bytes at the start, is undefined.) *)
Theorem gridfs_file_roundtrip `{MongoLaws W} junk f0 f1 g name type bufs (w0 : W) :
  up w0 -> gridfs_ok g -> unused g (new_oid w0).1 w0 ->
  Forall chunk_typed (docs w0 (chunks_ns g)) -> Forall name_typed (docs w0 (files_ns g)) ->
  (forall d, d ∈ docs w0 (files_ns g) -> lookup_field d (bs "filename") <> Some (VString name)) ->
  text_ok name -> name <> [] -> text_ok type -> Z.of_nat (length (concat bufs)) <= 2 ^ 48 ->
  exists f w1 f' w2,
    write_whole junk f0 g name type bufs w0 = Some ((MONGO_OK, f), w1)
    /\ gridfs_find_filename g name f1 w1 = Some ((MONGO_OK, f'), w2)
    /\ gridfile_get_contentlength f' = Z.of_nat (length (concat bufs))
    /\ forall offset size, 0 <= offset < Z.of_nat (length (concat bufs)) -> 0 < size < 2 ^ 64 ->
       exists n f'' w3, gridfile_read (gridfile_seek f' offset).2 size w2
         = Some ((n, take (Z.to_nat size) (drop (Z.to_nat offset) (concat bufs)), f''), w3)
         /\ pos f'' = offset + n.
Proof.
  intros Hup Hg Hun Hty Hnt Hnew Hn Hne Ht Hl.
  destruct (write_whole_stores junk f0 g name type bufs w0 Hup Hg Hun Hn Ht Hl) as (f & w1 & E1 & Hst).
  destruct (find_filename_finds g _ name type _ w0 w1 f1 Hnt Hnew Hne (proj1 Hn) Hst)
    as (m & w2 & E2 & [Hu2 Hd2] & Hm).
  destruct (stored_holds _ _ _ _ _ _ _ Hun Hty Hst) as (Hu & Hty1 & cs & Hcs).
  assert (holds_file g (new_oid w0).1 DEFAULT_CHUNK_SIZE (concat bufs) w2) as Hh.
  { split; [done|]. rewrite Hd2. split; [done|by exists cs]. }
  exists f, w1, (gridfile_init g m f1), w2. split; [done|]. split; [done|].
  destruct Hm as (Hid & _ & _ & Hlen & Hck & _).
  assert (gridfile_get_contentlength (gridfile_init g m f1) = Z.of_nat (length (concat bufs))) as HL.
  { apply contentlength_long; [|lia]. by destruct f1. }
  split; [done|]. intros offset size Ho Hs.
  unfold gridfile_seek. cbv zeta. cbn [snd]. rewrite HL.
  destruct (Z.ltb_spec (Z.of_nat (length (concat bufs))) offset); [lia|].
  set (f2 := (gridfile_init g m f1) <| pos := offset |>).
  assert (gfs f2 = g /\ meta f2 = m /\ pos f2 = offset) as (G1 & G2 & G3)
    by by destruct f1.
  assert (gridfile_get_contentlength f2 = Z.of_nat (length (concat bufs))) as HL2
    by (apply contentlength_long; [by rewrite G2|lia]).
  pose proof (pieces_bound DEFAULT_CHUNK_SIZE ltac:(done) (concat bufs)) as Hb.
  assert (DEFAULT_CHUNK_SIZE = 262144) as E by done.
  destruct (read_reads g (new_oid w0).1 DEFAULT_CHUNK_SIZE ltac:(done) f2 (concat bufs) size w2)
    as (w3 & E3 & _); rewrite ?G2, ?G3; try done.
  - unfold gridfile_get_chunksize. by rewrite G2, Hck.
  - unfold INT_MAX. lia.
  - rewrite E3, G3. eexists _, _, w3. split; [reflexivity|]. by destruct f1.
Qed.

Lemma gridfs_file_roundtrip_witness :
  exists f w1 f' w2,
    write_whole (fun _ => 0) demo_file demo_fs (bs "a.txt") (bs "text/plain") demo_bufs
      empty_memory = Some ((MONGO_OK, f), w1)
    /\ gridfs_find_filename demo_fs (bs "a.txt") demo_file w1 = Some ((MONGO_OK, f'), w2)
    /\ gridfile_get_contentlength f' = Z.of_nat (length (concat demo_bufs))
    /\ forall offset size, 0 <= offset < Z.of_nat (length (concat demo_bufs)) -> 0 < size < 2 ^ 64 ->
       exists n f'' w3, gridfile_read (gridfile_seek f' offset).2 size w2
         = Some ((n, take (Z.to_nat size) (drop (Z.to_nat offset) (concat demo_bufs)), f''), w3)
         /\ pos f'' = offset + n.
Proof.
  apply (gridfs_file_roundtrip (fun _ => 0) demo_file demo_file demo_fs (bs "a.txt")
    (bs "text/plain") demo_bufs empty_memory).
  - exact I.
  - by split.
  - apply unused_empty.
  - by rewrite docs_empty.
  - by rewrite docs_empty.
  - intros d Hd. rewrite docs_empty in Hd. by apply not_elem_of_nil in Hd.
  - by split.
  - done.
  - by split.
  - unfold demo_bufs. cbn [concat]. rewrite !length_app, !length_replicate. cbn [List.length]. lia.
Defined.

(** The number of chunks, computed in double precision, is the length
    divided by the chunk size, rounded up, for every chunk size and lengths
    below [2^51]: neither the quotient nor the addition of 1 is rounded over an
    integer. *)
Theorem gridfile_get_numchunks_exact f :
  let n := gridfile_get_contentlength f in
  let k := gridfile_get_chunksize f in
  0 < k <= INT_MAX -> 0 <= n < 2 ^ 51 -> (n + k - 1) / k <= INT_MAX ->
  gridfile_get_numchunks f = (n + k - 1) / k.
Proof. apply numchunks_exact. Qed.

Lemma gridfile_get_numchunks_exact_witness :
  gridfile_get_numchunks (demo_file <| meta := [(bs "length", VLong (2 ^ 50 + 1));
                                                (bs "chunkSize", VInt 1000003)] |>) = 1125896530.
Proof.
  etransitivity; [apply gridfile_get_numchunks_exact|].
  - vm_compute. by split.
  - vm_compute. by split.
  - by vm_compute.
  - by vm_compute.
Defined.

(** Reading an empty file follows a null pointer: the position of the last
    byte wraps, so the loop over the chunks is entered, and there is no
    chunk. *)
Theorem gridfile_read_empty `{MongoLaws W} g o k f size (w : W) :
  gfs f = g -> lookup_field (meta f) (bs "_id") = Some (VOid o) -> holds_file g o k [] w ->
  gridfile_get_contentlength f = 0 -> gridfile_get_chunksize f = k -> 1 < k <= INT_MAX ->
  pos f = 0 -> 0 <= size -> gridfile_read f size w = None.
Proof.
  intros Hg Hid (Hu & Hty & cs & Hp & Hcs) Hlen Hck Hk Hpos Hsize. unfold INT_MAX in Hk.
  destruct cs; [|done]. unfold gridfile_read. rewrite Hlen, Hck, Hpos, (u64_small k) by lia.
  destruct (Z.eqb_spec k 0); [lia|]. change (u64 (0 - 0)) with 0.
  replace (if 0 <? size then 0 else size) with 0 by (destruct (Z.ltb_spec 0 size); lia).
  change (u64 (u64 (0 + 0) - 1)) with (2 ^ 64 - 1). rewrite Z.div_0_l, Z.mod_0_l by lia.
  assert (1 <= (2 ^ 64 - 1) / k < 2 ^ 64 - 1) as Hq.
  { split; [apply Z.div_le_lower_bound; lia|apply Z.div_lt; lia]. }
  rewrite Z.sub_0_r. set (t := (2 ^ 64 - 1) / k + 1) in *. rewrite (u64_small t) by lia.
  unfold gridfile_get_chunks, or_crash, io, mbind, M_bind. rewrite Hid. cbn [field_oid].
  unfold mret, M_ret.
  rewrite (proj2 (Z.eqb_neq t 1)) by lia. rewrite Hg.
  change (s32 0) with 0.
  set (q := [(bs "files_id", VOid o); (bs "n", VObject [(bs "$gte", VInt 0)])]).
  assert (filter (fun d => matches q d = true) (docs w (chunks_ns g)) = []) as Hnil.
  { apply Permutation_nil_r. unfold q. by rewrite filter_query, Hp. }
  destruct (find_law (chunks_ns g) q (bs "n") 1 (s32 t) w Hu) as (_ & l & m & [Hl _] & El & _).
  - eapply Forall_impl; [exact Hty|]. intros d [Hd1 Hd2]. unfold typed, q. cbn [forallb fst snd].
    assert (same_type (VOid o) (lookup_field d (bs "files_id")) = true) as ->
      by (by destruct (lookup_field d (bs "files_id")) as [[]|]).
    by destruct (lookup_field d (bs "n")) as [[]|].
  - left. rewrite Hnil. intros d Hd. by apply not_elem_of_nil in Hd.
  - rewrite Hnil in Hl. apply Permutation_nil_r in Hl as ->. rewrite take_nil in El.
    change [(bs "query", VObject q); (bs "orderby", VObject [(bs "n", VInt 1)])]
      with (request q (bs "n") 1).
    destruct (mongo_find _ _ _ w) as [r w']. simpl in El. subst r. cbv iota beta.
    by replace (Z.to_nat t) with (S (Z.to_nat (t - 1))) by lia.
Qed.

Lemma gridfile_read_empty_witness :
  gridfile_read (demo_file <| meta := [(bs "_id", VOid (le 12 1)); (bs "length", VLong 0);
                                       (bs "chunkSize", VInt 262144)] |>) 100 empty_memory = None.
Proof.
  apply (gridfile_read_empty demo_fs (le 12 1) 262144).
  - reflexivity.
  - reflexivity.
  - split; [exact I|]. rewrite docs_empty. split; [constructor|]. by exists [].
  - reflexivity.
  - reflexivity.
  - unfold INT_MAX. lia.
  - reflexivity.
  - lia.
Defined.
