(* ===== verification/GridfsUrl.v ===== *)
(** * Request parsing of the GridFS module (ngx_http_gridfs_module.c)

    The key of a file is the percent-decoded rest of the URI, decoded in place;
    the [Range] header is read by a parser of the module's own. *)

From S2P Require Import Prelude NgxNumbers BsonUtf8 NgxCodec.

(** ** Decoding the key *)

(** [module/ngx_http_gridfs_module.c:637-639] h_digit *)
Definition h_digit (hex : Z) : Z :=
  if ("0"%chr <=? hex) && (hex <=? "9"%chr) then hex - "0"%chr else ngx_tolower hex - "a"%chr + 10.

Definition ok_digits : list Z := bs "0123456789AaBbCcDdEeFf".

(** [module/ngx_http_gridfs_module.c:641-646] htoi *)
Definition htoi (h0 h1 : Z) : Z :=
  if bool_decide (h0 ∈ ok_digits) && bool_decide (h1 ∈ ok_digits)
  then h_digit h0 * 16 + h_digit h1 else -1.

(** [module/ngx_http_gridfs_module.c:655-668] url_decode: the loop, on the
    memory [m] with the offsets [read] and [write]; at most [fuel] rounds.
    [None] is a read outside of the memory, or no end; [url_decode] gives rounds
    enough for the memory, see [url_decode_rounds]. *)
Fixpoint url_decode_loop (fuel : nat) (m : list Z) (read write : nat) : option (Z * list Z) :=
  match fuel with
  | O => None
  | S fuel =>
      c ← m !! read;
      if c =? 0 then Some (1, <[write := 0]> m)
      else if c =? "%"%chr then
        h0 ← m !! (read + 1)%nat;
        if h0 =? 0 then Some (0, m)
        else
          h1 ← m !! (read + 2)%nat;
          if h1 =? 0 then Some (0, m)
          else
            let c := htoi h0 h1 in
            if c =? -1 then Some (0, m)
            else url_decode_loop fuel (<[write := u8 c]> m) (read + 3) (write + 1)
      else url_decode_loop fuel (<[write := c]> m) (read + 1) (write + 1)
  end.

(** [module/ngx_http_gridfs_module.c:648-671] url_decode: in the memory from
    [filename] on. *)
Definition url_decode (filename : list Z) : option (Z * list Z) :=
  url_decode_loop (S (List.length filename)) filename 0 0.

(** ** Ranges *)

(** [module/ngx_http_gridfs_module.c:677-684] gridfs_parse_range: the states. *)
Inductive range_state :=
  | sw_start | sw_first_byte_pos | sw_first_byte_pos_n | sw_last_byte_pos | sw_last_byte_pos_n
  | sw_done.

Definition is_separator (c : Z) : bool := (c =? ","%chr) || (c =? "&"%chr) || (c =? ";"%chr).

(** What [range_start] and [range_end] point to, and the local variables. *)
Record range := Range {
  range_start : Z;
  range_end : Z;
  start : Z;
  end_ : Z
}.
#[export] Instance eta_range : Settable range := fun r =>
  Range (range_start r) (range_end r) (start r) (end_ r).

(** [module/ngx_http_gridfs_module.c:704-777] gridfs_parse_range: the loop on
    the characters from [p] to [last]; the state [sw_done] does not move [p].
    [None]: the rounds are used up; [Some (inl r)]: an invalid character. *)
Fixpoint range_loop (fuel : nat) (p : list Z) (st : range_state) (r : range) (content_length : Z)
  : option (range + range_state * range) :=
  match p with
  | [] => Some (inr (st, r))
  | c :: p' =>
      match fuel with
      | O => None
      | S fuel =>
          let digit := ("0"%chr <=? c) && (c <=? "9"%chr) in
          let first r :=
            if c =? "-"%chr then range_loop fuel p' sw_last_byte_pos r content_length
            else if negb digit then Some (inl r)
            else range_loop fuel p' sw_first_byte_pos_n
                   (r <| start := s64 (start r * 10 + c - "0"%chr) |>) content_length in
          let last r :=
            if is_separator c then range_loop fuel p sw_done r content_length
            else if negb digit then Some (inl r)
            else range_loop fuel p' sw_last_byte_pos_n
                   (r <| end_ := s64 (end_ r * 10 + c - "0"%chr) |>) content_length in
          match st with
          | sw_start | sw_first_byte_pos =>
              if c =? "-"%chr then range_loop fuel p' sw_last_byte_pos r content_length
              else first (r <| start := 0 |>)
          | sw_first_byte_pos_n => first r
          | sw_last_byte_pos =>
              if is_separator c
              then range_loop fuel p sw_done (r <| end_ := s64 (content_length - 1) |>) content_length
              else last (r <| end_ := 0 |>)
          | sw_last_byte_pos_n => last r
          | sw_done =>
              range_loop fuel p sw_done
                (r <| range_start := u64 (start r) |> <| range_end := u64 (end_ r) |>) content_length
          end
      end
  end.

(** [module/ngx_http_gridfs_module.c:779-800] gridfs_parse_range: after the
    loop. *)
Definition range_finish (st : range_state) (r : range) (content_length : Z) : range :=
  let done r :=
    if end_ r <? start r then r
    else r <| range_start := u64 (start r) |> <| range_end := u64 (end_ r) |> in
  match st with
  | sw_last_byte_pos => done (r <| end_ := s64 (content_length - 1) |>)
  | sw_last_byte_pos_n => done r
  | _ => r
  end.

(** [module/ngx_http_gridfs_module.c:673-801] gridfs_parse_range: the new
    [range_start] and [range_end]. *)
Definition gridfs_parse_range (fuel : nat) (range_str : list Z) (range_start range_end content_length : Z)
  : option (Z * Z) :=
  match ngx_strnstr range_str (bs "bytes=") with
  | None => Some (range_start, range_end)
  | Some p =>
      res ← range_loop fuel (drop 6 p) sw_start (Range range_start range_end 0 0) content_length;
      let r := match res with
               | inl r => r
               | inr (st, r) => range_finish st r content_length
               end in
      Some (GridfsUrl.range_start r, GridfsUrl.range_end r)
  end.

(** ** What the decoder computes *)

(** Percent-decoding, or an invalid escape. *)
Fixpoint decode (s : list Z) : option (list Z) :=
  match s with
  | [] => Some []
  | c :: s' =>
      if c =? "%"%chr then
        match s' with
        | h0 :: h1 :: s'' =>
            let c := htoi h0 h1 in
            if c =? -1 then None else d ← decode s''; Some (u8 c :: d)
        | _ => None
        end
      else d ← decode s'; Some (c :: d)
  end.

Definition c_string (s : list Z) : Prop := Forall (fun c => c <> 0) s.

(** More rounds make no difference: [None] is a read outside of the memory. *)
Lemma url_decode_rounds n fuel m read write : (length m < read + fuel)%nat ->
  url_decode_loop (n + fuel) m read write = url_decode_loop fuel m read write.
Proof.
  revert m read write. induction fuel as [|fuel IH]; intros m read write Hl.
  - rewrite Nat.add_0_r. destruct n as [|n]; [done|]. cbn [url_decode_loop]. by rewrite (lookup_ge_None_2 m read) by lia.
  - rewrite Nat.add_succ_r. cbn [url_decode_loop]. destruct (m !! read) as [c|]; [|done]. cbn [mbind option_bind].
    destruct (c =? 0); [done|]. destruct (c =? "%"%chr); [|apply IH; rewrite length_insert; lia].
    destruct (m !! (read + 1)%nat) as [h0|]; [|done]. cbn [mbind option_bind]. destruct (h0 =? 0); [done|].
    destruct (m !! (read + 2)%nat) as [h1|]; [|done]. cbn [mbind option_bind]. destruct (h1 =? 0); [done|]. cbv zeta.
    destruct (htoi h0 h1 =? -1); [done|]. apply IH. rewrite length_insert. lia.
Qed.

Lemma insert_shift (d J rest : list Z) x : J <> [] ->
  exists J', length J' = (length J - 1)%nat /\
    <[length d := x]> (d ++ J ++ rest) = (d ++ [x]) ++ J' ++ rest.
Proof.
  intros HJ. destruct J as [|y J]; [done|]. exists J. split; [simpl; lia|].
  rewrite <- (Nat.add_0_r (length d)), insert_app_r. simpl. by rewrite <- app_assoc.
Qed.

Lemma url_decode_loop_spec s : forall fuel d junk tail,
  c_string s -> (length s < fuel)%nat ->
  match decode s with
  | Some e => exists j, length j = (length junk + length s - length e)%nat /\
      url_decode_loop fuel (d ++ junk ++ s ++ 0 :: tail) (length (d ++ junk)) (length d)
        = Some (1, d ++ e ++ 0 :: j ++ tail)
  | None => exists m, length m = length (d ++ junk ++ s) /\
      url_decode_loop fuel (d ++ junk ++ s ++ 0 :: tail) (length (d ++ junk)) (length d)
        = Some (0, m ++ 0 :: tail)
  end.
Proof.
  induction s as [s IH] using (induction_ltof1 _ (@length Z)); unfold ltof in IH.
  intros [|fuel] d junk tail Hs Hf; [lia|]. cbn [url_decode_loop].
  assert (forall a k, (d ++ junk ++ a) !! (length (d ++ junk) + k)%nat = a !! k) as Hlk.
  { intros a k. rewrite app_assoc, lookup_app_r by lia. f_equal. lia. }
  assert (forall a, (d ++ junk ++ a) !! length (d ++ junk) = a !! 0%nat) as Hlk0.
  { intros a. by rewrite <- (Hlk a 0%nat), Nat.add_0_r. }
  rewrite !Hlk0.
  destruct s as [|c s]; cbn [decode].
  { cbn [lookup list_lookup app mbind option_bind].
    change (0 =? 0) with true. cbv iota.
    destruct (insert_shift d (junk ++ [0]) tail 0) as (j & Hj & E); [by destruct junk|].
    rewrite length_app in Hj. cbn [length] in Hj.
    exists j. split; [simpl; lia|]. rewrite <- app_assoc in E. cbn [app] in E |- *.
    by rewrite E, <- app_assoc. }
  apply Forall_cons in Hs as [Hc Hs].
  cbn [lookup list_lookup app mbind option_bind]. rewrite (proj2 (Z.eqb_neq c 0)) by done.
  destruct (c =? "%"%chr).
  - destruct s as [|h0 s]; [|apply Forall_cons in Hs as [Hh0 Hs]].
    { exists (d ++ junk ++ [c]). split; [done|]. rewrite (Hlk _ 1%nat). cbn [lookup list_lookup app mbind option_bind].
      change (0 =? 0) with true. by rewrite <- ?app_assoc. }
    rewrite (Hlk _ 1%nat). cbn [lookup list_lookup app mbind option_bind]. rewrite (proj2 (Z.eqb_neq h0 0)) by done.
    destruct s as [|h1 s]; [|apply Forall_cons in Hs as [Hh1 Hs]].
    { exists (d ++ junk ++ [c; h0]). split; [done|].
      rewrite (Hlk _ 2%nat). cbn [lookup list_lookup app mbind option_bind].
      change (0 =? 0) with true. by rewrite <- ?app_assoc. }
    rewrite (Hlk _ 2%nat). cbn [lookup list_lookup app mbind option_bind]. rewrite (proj2 (Z.eqb_neq h1 0)) by done.
    destruct (htoi h0 h1 =? -1).
    { exists (d ++ junk ++ c :: h0 :: h1 :: s). split; [done|]. by rewrite <- ?app_assoc. }
    destruct (insert_shift d (junk ++ [c; h0; h1]) (s ++ 0 :: tail) (u8 (htoi h0 h1))) as (J & HJ & E);
      [by destruct junk|].
    rewrite length_app in HJ. cbn [length] in HJ. rewrite <- app_assoc in E. cbn [app] in E. rewrite E.
    specialize (IH s ltac:(simpl; lia) fuel (d ++ [u8 (htoi h0 h1)]) J tail Hs ltac:(simpl in Hf; lia)).
    rewrite !length_app in *. cbn [length] in *.
    replace (length d + 1 + length J)%nat with (length d + length junk + 3)%nat in IH by lia.
    destruct (decode s) as [e|].
    + destruct IH as (j & Hj & IH). cbn [mbind option_bind]. exists j. split; [simpl in *; lia|].
      rewrite IH. by rewrite <- ?app_assoc.
    + destruct IH as (m & Hm & IH). exists m. split; [|done]. rewrite ?length_app in *. simpl in *. lia.
  - destruct (insert_shift d (junk ++ [c]) (s ++ 0 :: tail) c) as (J & HJ & E); [by destruct junk|].
    rewrite length_app in HJ. cbn [length] in HJ. rewrite <- app_assoc in E. cbn [app] in E. rewrite E.
    specialize (IH s ltac:(simpl; lia) fuel (d ++ [c]) J tail Hs ltac:(simpl in Hf; lia)).
    rewrite !length_app in *. cbn [length] in *.
    replace (length d + 1 + length J)%nat with (length d + length junk + 1)%nat in IH by lia.
    destruct (decode s) as [e|].
    + destruct IH as (j & Hj & IH). cbn [mbind option_bind]. exists j. split; [simpl in *; lia|].
      rewrite IH. by rewrite <- ?app_assoc.
    + destruct IH as (m & Hm & IH). exists m. split; [|done]. rewrite ?length_app in *. simpl in *. lia.
Qed.

Lemma htoi_hex c : is_byte c ->
  htoi (hex_upper !!! Z.to_nat (Z.shiftr c 4)) (hex_upper !!! Z.to_nat (Z.land c 0xf)) = c.
Proof. intros Hc. by_byte c. Qed.

Lemma decode_escaped t k :
  t <> NGX_ESCAPE_REFRESH -> bytes k -> decode (ngx_escape_uri k t) = Some k.
Proof.
  intros Ht Hk. induction Hk as [|c k Hc _ IH]; [done|]. cbn [ngx_escape_uri].
  destruct (must_escape t c) eqn:E.
  - cbn [decode]. change ("%"%chr =? "%"%chr) with true. cbv iota zeta.
    rewrite htoi_hex, IH by done. unfold is_byte in Hc.
    destruct (Z.eqb_spec c (-1)); [lia|]. cbn [mbind option_bind].
    by rewrite u8_small by (change (2 ^ 8) with 256; lia).
  - cbn [decode]. destruct (Z.eqb_spec c "%"%chr) as [-> |].
    + by rewrite must_escape_percent in E.
    + by rewrite IH.
Qed.

Lemma hex_upper_nonzero c : is_byte c ->
  hex_upper !!! Z.to_nat (Z.shiftr c 4) <> 0 /\ hex_upper !!! Z.to_nat (Z.land c 0xf) <> 0.
Proof. intros Hc. by_byte c. Qed.

Lemma escaped_c_string t k : bytes k -> must_escape t 0 = true -> c_string (ngx_escape_uri k t).
Proof.
  intros Hk Ht. induction Hk as [|c k Hc _ IH]; [constructor|]. cbn [ngx_escape_uri].
  destruct (must_escape t c) eqn:E.
  - destruct (hex_upper_nonzero c Hc).
    do 3 (constructor; [done|]). done.
  - constructor; [|done]. intros ->. by rewrite Ht in E.
Qed.

(** ** What the range parser computes *)

Lemma range_first_digits L l rest r fuel :
  forallb is_digit l = true -> 0 <= start r -> dec_from (start r) l < 2 ^ 63 ->
  range_loop (length l + fuel) (l ++ rest) sw_first_byte_pos_n r L
    = range_loop fuel rest sw_first_byte_pos_n (r <| start := dec_from (start r) l |>) L.
Proof.
  revert r. induction l as [|c l IH]; intros r Hd Hs Hm.
  { by destruct r. }
  cbn [forallb] in Hd. apply andb_prop in Hd as [Hc Hd]. rewrite dec_from_cons in Hm.
  unfold is_digit in Hc. pose proof Hc as Hc'. apply andb_prop in Hc' as [H1%Z.leb_le H2%Z.leb_le].
  pose proof (dec_from_ge (start r * 10 + (c - "0"%chr)) l ltac:(lia) Hd).
  cbn [length plus app range_loop]. rewrite Hc. cbn [negb].
  destruct (Z.eqb_spec c "-"%chr); [lia|].
  rewrite s64_small by lia. replace (start r * 10 + c - "0"%chr) with (start r * 10 + (c - "0"%chr)) by lia.
  destruct r as [rs re st en]. simpl in *. rewrite IH; simpl; try done; lia.
Qed.

Lemma range_last_digits L l rest r fuel :
  forallb is_digit l = true -> 0 <= end_ r -> dec_from (end_ r) l < 2 ^ 63 ->
  range_loop (length l + fuel) (l ++ rest) sw_last_byte_pos_n r L
    = range_loop fuel rest sw_last_byte_pos_n (r <| end_ := dec_from (end_ r) l |>) L.
Proof.
  revert r. induction l as [|c l IH]; intros r Hd Hs Hm.
  { by destruct r. }
  cbn [forallb] in Hd. apply andb_prop in Hd as [Hc Hd]. rewrite dec_from_cons in Hm.
  unfold is_digit in Hc. pose proof Hc as Hc'. apply andb_prop in Hc' as [H1%Z.leb_le H2%Z.leb_le].
  pose proof (dec_from_ge (end_ r * 10 + (c - "0"%chr)) l ltac:(lia) Hd).
  cbn [length plus app range_loop]. rewrite Hc. cbn [negb].
  assert (is_separator c = false) as ->.
  { unfold is_separator. destruct (Z.eqb_spec c ","%chr), (Z.eqb_spec c "&"%chr), (Z.eqb_spec c ";"%chr); lia || done. }
  rewrite s64_small by lia. replace (end_ r * 10 + c - "0"%chr) with (end_ r * 10 + (c - "0"%chr)) by lia.
  destruct r as [rs re st en]. simpl in *. rewrite IH; simpl; try done; lia.
Qed.

(** Up to the digits of the last position. *)
Definition range_text (a b : list Z) : list Z := a ++ "-"%chr :: b.

Lemma range_start_digits L a rest rs re fuel :
  forallb is_digit a = true -> dec_value a < 2 ^ 63 ->
  range_loop (length a + S fuel) (a ++ "-"%chr :: rest) sw_start (Range rs re 0 0) L
    = range_loop fuel rest sw_last_byte_pos (Range rs re (dec_value a) 0) L.
Proof.
  intros Ha Hm. destruct a as [|c a].
  { cbn [length plus app range_loop]. by change ("-"%chr =? "-"%chr) with true. }
  assert (range_loop (length (c :: a) + S fuel) ((c :: a) ++ "-"%chr :: rest) sw_start (Range rs re 0 0) L
    = range_loop (length (c :: a) + S fuel) ((c :: a) ++ "-"%chr :: rest) sw_first_byte_pos_n
        (Range rs re 0 0) L) as ->.
  { cbn [length plus app range_loop]. by destruct (c =? "-"%chr). }
  rewrite range_first_digits; [|done|done|done]. cbn [range_loop].
  by change ("-"%chr =? "-"%chr) with true.
Qed.

Lemma range_end_digits L b c rest rs re st fuel :
  forallb is_digit (c :: b) = true -> dec_value (c :: b) < 2 ^ 63 ->
  range_loop (length (c :: b) + fuel) ((c :: b) ++ rest) sw_last_byte_pos (Range rs re st 0) L
    = range_loop fuel rest sw_last_byte_pos_n (Range rs re st (dec_value (c :: b))) L.
Proof.
  intros Hb Hm.
  assert (range_loop (length (c :: b) + fuel) ((c :: b) ++ rest) sw_last_byte_pos (Range rs re st 0) L
    = range_loop (length (c :: b) + fuel) ((c :: b) ++ rest) sw_last_byte_pos_n (Range rs re st 0) L) as ->.
  { cbn [length plus app range_loop]. cbn [forallb] in Hb. apply andb_prop in Hb as [Hc _].
    assert (is_separator c = false) as ->; [|done].
    unfold is_digit in Hc. apply andb_prop in Hc as [H1%Z.leb_le H2%Z.leb_le].
    unfold is_separator. destruct (Z.eqb_spec c ","%chr), (Z.eqb_spec c "&"%chr), (Z.eqb_spec c ";"%chr); lia || done. }
  by rewrite range_last_digits.
Qed.

Lemma range_done_loops L fuel p r : p <> [] -> range_loop fuel p sw_done r L = None.
Proof.
  intros Hp. revert r. induction fuel as [|fuel IH]; intros r; destruct p as [|c p]; try done.
  cbn [range_loop]. apply IH.
Qed.

Lemma find_bytes p : ngx_strnstr (bs "bytes=" ++ p) (bs "bytes=") = Some (bs "bytes=" ++ p).
Proof.
  assert (forall c1 s1' c2 s2', c1 <> 0 -> c1 = c2 -> (length s2' <= length s1')%nat ->
    take (length s2') s1' = s2' -> ngx_strnstr (c1 :: s1') (c2 :: s2') = Some (c1 :: s1')) as H.
  { intros c1 s1' c2 s2' H0 -> Hl Ht. cbn [ngx_strnstr].
    rewrite (proj2 (Z.eqb_neq _ _) H0), Z.eqb_refl. cbn [negb].
    rewrite (proj2 (Nat.ltb_ge _ _)) by done. by rewrite bool_decide_true. }
  change (bs "bytes=" ++ p) with ("b"%chr :: (bs "ytes=" ++ p)).
  change (bs "bytes=") with ("b"%chr :: bs "ytes="). apply H; [done|done| |done].
  rewrite length_app. lia.
Qed.

Lemma url_decode_spec s tail :
  c_string s ->
  match decode s with
  | Some e => exists j, length (e ++ 0 :: j) = S (length s)
      /\ url_decode (s ++ 0 :: tail) = Some (1, e ++ 0 :: j ++ tail)
  | None => exists m, length m = length s /\ url_decode (s ++ 0 :: tail) = Some (0, m ++ 0 :: tail)
  end.
Proof.
  intros Hs. unfold url_decode.
  pose proof (url_decode_loop_spec s (S (length (s ++ 0 :: tail))) [] [] tail Hs) as H.
  cbn [app length] in H. assert (forall s, (forall e, decode s = Some e -> (length e <= length s)%nat)) as Hle.
  { clear. induction s as [s IH] using (induction_ltof1 _ (@length Z)); unfold ltof in IH.
    intros e. destruct s as [|c s]; [intros [= <-]; simpl; lia|]. cbn [decode].
    destruct (c =? "%"%chr).
    - destruct s as [|h0 [|h1 s]]; [done..|]. destruct (_ =? -1); [done|].
      destruct (decode s) as [d|] eqn:E; [|done]. intros [= <-].
      specialize (IH s ltac:(simpl; lia) d E). simpl. lia.
    - destruct (decode s) as [d|] eqn:E; [|done]. intros [= <-].
      specialize (IH s ltac:(simpl; lia) d E). simpl. lia. }
  destruct (decode s) as [e|] eqn:E; apply Hle in E || idtac.
  - destruct H as (j & Hj & ->); [rewrite length_app; simpl; lia|]. exists j. split; [|done].
    rewrite length_app. simpl. lia.
  - destruct H as (m & Hm & ->); [rewrite length_app; simpl; lia|]. by exists m.
Qed.

Lemma parse_range_text L a b rs re fuel :
  forallb is_digit a = true -> forallb is_digit b = true ->
  dec_value a < 2 ^ 63 -> dec_value b < 2 ^ 63 -> 0 < L < 2 ^ 63 ->
  gridfs_parse_range (length (range_text a b) + fuel) (bs "bytes=" ++ range_text a b) rs re L =
    let last := match b with [] => L - 1 | _ => dec_value b end in
    Some (if last <? dec_value a then (rs, re) else (dec_value a, last)).
Proof.
  intros Ha Hb Hma Hmb HL. unfold gridfs_parse_range. rewrite find_bytes.
  change (drop 6 (bs "bytes=" ++ range_text a b)) with (range_text a b). unfold range_text.
  rewrite length_app. cbn [length]. rewrite <- Nat.add_assoc. cbn [plus].
  rewrite range_start_digits by done.
  pose proof (dec_from_ge 0 a ltac:(lia) Ha). fold (dec_value a) in *.
  destruct b as [|c b].
  - cbn [range_loop mbind option_bind range_finish]. destruct fuel;
      cbn [range_loop mbind option_bind range_finish]; simpl; rewrite s64_small by lia;
      destruct (Z.ltb_spec (L - 1) (dec_value a)); simpl; by rewrite ?u64_small by lia.
  - pose proof (dec_from_ge 0 (c :: b) ltac:(lia) Hb). fold (dec_value (c :: b)) in *.
    rewrite <- (app_nil_r (c :: b)) at 2. rewrite range_end_digits by done.
    destruct fuel; cbn [range_loop mbind option_bind range_finish]; simpl;
      destruct (Z.ltb_spec (dec_value (c :: b)) (dec_value a)); simpl; by rewrite ?u64_small by lia.
Qed.

(** ** Properties *)

(** Decoding the key in place ends for every C string, without reading past
    its terminator or writing outside of it, leaves the memory after it alone,
    and accepts exactly the strings whose percent signs are followed by two
    hexadecimal digits.  A key that was percent-encoded by [ngx_escape_uri],
    for any purpose that escapes NUL and the percent sign, is given back. *)
Theorem url_decode_exact s tail :
  c_string s ->
  match decode s with
  | Some e => exists j, length (e ++ 0 :: j) = S (length s)
      /\ url_decode (s ++ 0 :: tail) = Some (1, e ++ 0 :: j ++ tail)
  | None => exists m, length m = length s /\ url_decode (s ++ 0 :: tail) = Some (0, m ++ 0 :: tail)
  end
  /\ (forall t k, t <> NGX_ESCAPE_REFRESH -> bytes k -> s = ngx_escape_uri k t -> decode s = Some k).
Proof.
  intros Hs. split; [by apply url_decode_spec|]. intros t k Ht Hk ->. by apply decode_escaped.
Qed.

Lemma url_decode_exact_witness :
  (exists j, url_decode (bs "a%2fb" ++ [0; 7]) = Some (1, bs "a/b" ++ 0 :: j ++ [7]))
  /\ (exists m, url_decode (bs "100%" ++ [0; 7]) = Some (0, m ++ [0; 7]))
  /\ decode (bs "x%20y") = Some (bs "x y").
Proof.
  split; [|split].
  - destruct (url_decode_exact (bs "a%2fb") [7]) as [(j & _ & H) _].
    + by apply (bool_decide_unpack _).
    + exists j. exact H.
  - destruct (url_decode_exact (bs "100%") [7]) as [(m & _ & H) _].
    + by apply (bool_decide_unpack _).
    + exists m. exact H.
  - destruct (url_decode_exact (bs "x%20y") []) as [_ H].
    + by apply (bool_decide_unpack _).
    + apply (H NGX_ESCAPE_URI); [discriminate|by apply (bool_decide_unpack _)|reflexivity].
Defined.

(** A [Range] header [bytes=a-b] of decimal numbers below [2^63] sets the
    range to [a .. b], or to [a .. length - 1] without [b], unless it would be
    empty, when it is left alone; an empty [a], which in HTTP asks for the last
    [b] bytes, counts as 0, and [b] is not cut to the length.  The loop needs no
    more rounds than the header has characters. *)
Theorem gridfs_parse_range_exact L a b rs re fuel :
  forallb is_digit a = true -> forallb is_digit b = true ->
  dec_value a < 2 ^ 63 -> dec_value b < 2 ^ 63 -> 0 < L < 2 ^ 63 ->
  gridfs_parse_range (length (range_text a b) + fuel) (bs "bytes=" ++ range_text a b) rs re L =
    let last := match b with [] => L - 1 | _ => dec_value b end in
    Some (if last <? dec_value a then (rs, re) else (dec_value a, last)).
Proof. apply parse_range_text. Qed.

Lemma gridfs_parse_range_exact_witness :
  gridfs_parse_range 5 (bs "bytes=10-19") 0 0 1000 = Some (10, 19)
  /\ gridfs_parse_range 4 (bs "bytes=-500") 0 0 1000 = Some (0, 500).
Proof.
  split.
  - exact (gridfs_parse_range_exact 1000 (bs "10") (bs "19") 0 0 0 eq_refl eq_refl
      ltac:(vm_compute; reflexivity) ltac:(vm_compute; reflexivity) ltac:(lia)).
  - exact (gridfs_parse_range_exact 1000 [] (bs "500") 0 0 0 eq_refl eq_refl
      ltac:(vm_compute; reflexivity) ltac:(vm_compute; reflexivity) ltac:(lia)).
Defined.

(** A [Range] header with several ranges is never parsed to an end: after
    the first range the parser stays on the separator for ever, whatever the
    number of rounds. *)
Theorem gridfs_parse_range_hangs L a b sep rest rs re fuel :
  forallb is_digit a = true -> forallb is_digit b = true ->
  dec_value a < 2 ^ 63 -> dec_value b < 2 ^ 63 -> is_separator sep = true ->
  gridfs_parse_range (length (range_text a b) + fuel)
    (bs "bytes=" ++ range_text a b ++ sep :: rest) rs re L = None.
Proof.
  intros Ha Hb Hma Hmb Hsep. unfold gridfs_parse_range. rewrite find_bytes.
  change (drop 6 (bs "bytes=" ++ range_text a b ++ sep :: rest)) with (range_text a b ++ sep :: rest).
  unfold range_text. rewrite <- app_assoc, length_app. cbn [length app].
  rewrite <- Nat.add_assoc. cbn [plus]. rewrite range_start_digits by done.
  destruct b as [|c b].
  - destruct fuel; cbn [app length plus range_loop mbind option_bind]; [done|].
    by rewrite Hsep, range_done_loops.
  - rewrite range_end_digits by done. destruct fuel; cbn [range_loop mbind option_bind]; [done|].
    by rewrite Hsep, range_done_loops.
Qed.

Lemma gridfs_parse_range_hangs_witness :
  gridfs_parse_range 1000 (bs "bytes=0-1,4-5") 0 0 100 = None.
Proof.
  exact (gridfs_parse_range_hangs 100 (bs "0") (bs "1") ","%chr (bs "4-5") 0 0 997 eq_refl eq_refl
    ltac:(vm_compute; reflexivity) ltac:(vm_compute; reflexivity) eq_refl).
Defined.
