(* ===== verification/GridfsConf.v ===== *)
(** * Configuration and connections of the GridFS module

    The two directives, the inheritance of their settings, and the array of
    MongoDB connections a worker opens, checks and opens again
    (ngx_http_gridfs_module.c). *)

From S2P Require Import Prelude BsonUtf8 NgxCodec NgxInet NgxUrl BsonBuild BsonIter BsonDoc GridFS GridfsUrl.

Set Warnings "-register-all".

(** ** Settings *)

(** [module/ngx_http_gridfs_module.c:96-99] ngx_http_mongod_server_t *)
Record mongod_server := Server { host : list Z; port : Z }.

Definition NGX_CONF_UNSET_UINT : Z := -1.

(** [module/ngx_http_gridfs_module.c:71-81] ngx_http_gridfs_loc_conf_t: a string
    is [None] when its [data] is [NULL], [mongods] is [None] when it is
    [NGX_CONF_UNSET_PTR]. *)
Record loc_conf := LocConf {
  db : option (list Z);
  root_collection : option (list Z);
  field : option (list Z);
  type : Z;
  user : option (list Z);
  pass : option (list Z);
  mongo : option (list Z);
  mongods : option (list mongod_server);
  replset : option (list Z)
}.
#[export] Instance eta_loc_conf : Settable loc_conf := fun c =>
  LocConf (db c) (root_collection c) (field c) (type c) (user c) (pass c) (mongo c)
    (mongods c) (replset c).

(** [module/ngx_http_gridfs_module.c:340-366] ngx_http_gridfs_create_loc_conf *)
Definition ngx_http_gridfs_create_loc_conf : loc_conf :=
  LocConf None None None NGX_CONF_UNSET_UINT None None None None None.

Section Directives.
(** What the C library knows of the names of hosts. *)
Context (getaddrinfo : list Z -> option (list (option sockaddr))).

(** [module/ngx_http_gridfs_module.c:192-215] ngx_http_mongo: the loop on the
    addresses. *)
Fixpoint mongo_servers (args : list (list Z)) : option (list mongod_server) :=
  match args with
  | [] => Some []
  | a :: args =>
      '(h, p) ← mongo_url getaddrinfo a;
      l ← mongo_servers args;
      Some (Server h p :: l)
  end.

(** [module/ngx_http_gridfs_module.c:165-218] ngx_http_mongo: [arg] and [args]
    are the words after the directive's name; [None] is an error. *)
Definition ngx_http_mongo (arg : list Z) (args : list (list Z)) (conf : loc_conf) : option loc_conf :=
  let conf := conf <| mongo := Some arg |> in
  match args with
  | _ :: _ =>
      l ← mongo_servers args;
      Some (conf <| replset := Some arg |> <| mongods := Some l |>)
  | [] =>
      l ← mongo_servers [arg];
      Some (conf <| mongods := Some l |>)
  end.
End Directives.

(** [src/core/ngx_string.c:570-593] ngx_strcasecmp: on C strings, given without
    their terminators. *)
Fixpoint ngx_strcasecmp (s1 s2 : list Z) : Z :=
  match s1, s2 with
  | [], [] => 0
  | [], c2 :: _ => 0 - ngx_tolower c2
  | c1 :: _, [] => ngx_tolower c1
  | c1 :: s1, c2 :: s2 =>
      if ngx_tolower c1 =? ngx_tolower c2 then ngx_strcasecmp s1 s2
      else ngx_tolower c1 - ngx_tolower c2
  end.

(** What follows a prefix. *)
Fixpoint strip (prefix s : list Z) : option (list Z) :=
  match prefix, s with
  | [], s => Some s
  | c :: prefix, c' :: s => if c =? c' then strip prefix s else None
  | _, [] => None
  end.

(** [module/ngx_http_gridfs_module.c:260-277] ngx_http_gridfs: the parameter
    [type=]. The length tested is that of a pointer, less one. *)
Definition parse_type (t : list Z) : option Z :=
  let len := 8 - 1 in
  if len =? 0 then Some NGX_CONF_UNSET_UINT
  else if ngx_strcasecmp t (bs "objectid") =? 0 then Some BSON_OID
  else if ngx_strcasecmp t (bs "string") =? 0 then Some BSON_STRING
  else if ngx_strcasecmp t (bs "int") =? 0 then Some BSON_INT
  else None.

(** [module/ngx_http_gridfs_module.c:234-296] ngx_http_gridfs: one parameter. *)
Definition gridfs_param (v : list Z) (conf : loc_conf) : option loc_conf :=
  match strip (bs "root_collection=") v with
  | Some s => Some (conf <| root_collection := Some s |>)
  | None =>
  match strip (bs "field=") v with
  | Some s =>
      if bool_decide (s = bs "filename") || bool_decide (s = bs "_id") || bool_decide (s = bs "storageKey")
      then Some (conf <| field := Some s |>) else None
  | None =>
  match strip (bs "type=") v with
  | Some s => t ← parse_type s; Some (conf <| type := t |>)
  | None =>
  match strip (bs "user=") v with
  | Some s => Some (conf <| user := Some s |>)
  | None =>
  match strip (bs "pass=") v with
  | Some s => Some (conf <| pass := Some s |>)
  | None => None
  end end end end end.

Fixpoint gridfs_params (vs : list (list Z)) (conf : loc_conf) : option loc_conf :=
  match vs with
  | [] => Some conf
  | v :: vs => conf ← gridfs_param v conf; gridfs_params vs conf
  end.

Definition no_text (s : option (list Z)) : bool :=
  match s with None | Some [] => true | _ => false end.

(** [module/ngx_http_gridfs_module.c:221-321] ngx_http_gridfs: [arg] is the
    database, [args] the parameters; [None] is an error. *)
Definition ngx_http_gridfs (arg : list Z) (args : list (list Z)) (conf : loc_conf) : option loc_conf :=
  conf ← gridfs_params args (conf <| db := Some arg |>);
  if bool_decide (field conf = Some (bs "filename")) && negb (type conf =? BSON_STRING) then None
  else if no_text (user conf) && negb (no_text (pass conf)) then None
  else if negb (no_text (user conf)) && no_text (pass conf) then None
  else Some conf.

(** [src/core/ngx_conf_file.h:241-250] ngx_conf_merge_str_value *)
Definition ngx_conf_merge_str_value (conf prev default : option (list Z)) : option (list Z) :=
  match conf with
  | None => match prev with Some _ => prev | None => default end
  | Some _ => conf
  end.
(** [src/core/ngx_conf_file.h:216-219] ngx_conf_merge_uint_value *)
Definition ngx_conf_merge_uint_value (conf prev default : Z) : Z :=
  if conf =? NGX_CONF_UNSET_UINT then (if prev =? NGX_CONF_UNSET_UINT then default else prev) else conf.

(** [module/ngx_http_gridfs_module.c:368-403] ngx_http_gridfs_merge_loc_conf: the
    child, and the locations of the main configuration
    ([ngx_http_gridfs_main_conf_t]) after it. *)
Definition ngx_http_gridfs_merge_loc_conf (loc_confs : list loc_conf) (parent child : loc_conf)
  : loc_conf * list loc_conf :=
  let child := LocConf
    (ngx_conf_merge_str_value (db child) (db parent) None)
    (ngx_conf_merge_str_value (root_collection child) (root_collection parent) (Some (bs "fs")))
    (ngx_conf_merge_str_value (field child) (field parent) (Some (bs "_id")))
    (ngx_conf_merge_uint_value (type child) (type parent) BSON_OID)
    (ngx_conf_merge_str_value (user child) (user parent) None)
    (ngx_conf_merge_str_value (pass child) (pass parent) None)
    (ngx_conf_merge_str_value (mongo child) (mongo parent) (Some (bs "127.0.0.1:27017")))
    (match mongods child with
     | Some l => Some l
     | None => match mongods parent with
               | Some l => Some l
               | None => Some [Server (bs "127.0.0.1") 27017]
               end
     end)
    (replset child) in
  (child, match db child with Some _ => loc_confs ++ [child] | None => loc_confs end).

(** ** Connections *)

(** [module/ngx_http_gridfs_module.c:83-87] ngx_http_mongo_auth_t *)
Record mongo_auth := Auth { auth_db : list Z; auth_user : list Z; auth_pass : list Z }.

(** [module/ngx_http_gridfs_module.c:89-93] ngx_http_mongo_connection_t: the
    client of the connection is the one numbered by its place in the array. *)
Record connection := Connection { name : list Z; auths : list mongo_auth }.

(** [driver/mongo.h:42-48] MONGO_CONN_SUCCESS: the only status that is looked
    for by name. *)
Definition MONGO_CONN_SUCCESS : Z := 0.

(** What the module asks of the clients of mongo.c, by number; each is also a
    [Mongo] for GridFS. *)
Class Driver (W : Type) := {
  client : nat -> Mongo W;
  connected : nat -> W -> bool;
  mongo_client : nat -> list Z -> Z -> W -> Z * W;
  mongo_replica_set_init : nat -> list Z -> W -> W;
  mongo_replica_set_add_seed : nat -> list Z -> Z -> W -> W;
  mongo_replica_set_client : nat -> W -> Z * W;
  mongo_disconnect : nat -> W -> W;
  ngx_msleep : Z -> W -> W;
  mongo_reconnect : nat -> W -> Z * W;
  mongo_cmd_authenticate : nat -> list Z -> list Z -> list Z -> W -> Z * W;
  mongo_cmd_get_last_error : nat -> list Z -> W -> Z * W
}.

Section Connections.
Context {W : Type} `{Driver W}.

(** [module/ngx_http_gridfs_module.c:405-419] ngx_http_get_mongo_connection: the
    number of the connection, and the connection. *)
Fixpoint get_connection (i : nat) (n : list Z) (conns : list connection) : option (nat * connection) :=
  match conns with
  | [] => None
  | c :: conns => if bool_decide (name c = n) then Some (i, c) else get_connection (S i) n conns
  end.
Definition ngx_http_get_mongo_connection (n : list Z) (conns : list connection)
  : option (nat * connection) := get_connection 0 n conns.

(** [module/ngx_http_gridfs_module.c:421-470] ngx_http_mongo_authenticate: a
    missing connection is followed all the same. *)
Definition ngx_http_mongo_authenticate (conns : list connection) (conf : loc_conf)
  : M W (Z * list connection) :=
  '(i, c) ← or_crash (m ← mongo conf; ngx_http_get_mongo_connection m conns);
  d ← or_crash (db conf);
  r ← match user conf, pass conf with
      | Some u, Some p =>
          status ← io (mongo_cmd_authenticate i d u p);
          if negb (status =? MONGO_OK) then mret None
          else mret (Some (<[i := Connection (name c) (auths c ++ [Auth d u p])]> conns))
      | _, _ => mret (Some conns)
      end;
  match r with
  | None => mret (NGX_ERROR, conns)
  | Some conns =>
      _ ← io (@mongo_find W (client i) (d ++ bs ".test") [] 0);
      error ← io (mongo_cmd_get_last_error i d);
      if negb (error =? 0) then mret (NGX_ERROR, conns) else mret (NGX_OK, conns)
  end.

(** [ngx_cpystrn( host, mongods[i].host.data, mongods[i].host.len + 1 )] into
    255 bytes. *)
Definition copy_host (h : list Z) : M W (list Z) :=
  if (List.length h + 1 <=? 255)%nat then mret h else crash.

Fixpoint add_seeds (i : nat) (servers : list mongod_server) : M W unit :=
  match servers with
  | [] => mret tt
  | s :: servers =>
      h ← copy_host (host s);
      _ ← tell (mongo_replica_set_add_seed i h (port s));
      add_seeds i servers
  end.

(** [module/ngx_http_gridfs_module.c:472-548] ngx_http_mongo_add_connection: the
    connection stays in the array when it fails; the name of the replica set
    is followed without a test. *)
Definition ngx_http_mongo_add_connection (conns : list connection) (conf : loc_conf)
  : M W (Z * list connection) :=
  m ← or_crash (mongo conf);
  servers ← or_crash (mongods conf);
  match ngx_http_get_mongo_connection m conns with
  | Some _ => mret (NGX_OK, conns)
  | None =>
      let i := List.length conns in
      let conns := conns ++ [Connection m []] in
      status ← match servers with
               | [s] =>
                   h ← copy_host (host s);
                   s ← io (mongo_client i h (port s)); mret (Some s)
               | _ =>
                   if (2 <=? List.length servers)%nat && (List.length servers <? 9)%nat then
                     r ← or_crash (replset conf);
                     _ ← tell (mongo_replica_set_init i r);
                     _ ← add_seeds i servers;
                     s ← io (mongo_replica_set_client i); mret (Some s)
                   else mret None
               end;
      match status with
      | Some s => mret (if s =? MONGO_CONN_SUCCESS then NGX_OK else NGX_ERROR, conns)
      | None => mret (NGX_ERROR, conns)
      end
  end.

(** [module/ngx_http_gridfs_module.c:561-568] ngx_http_gridfs_init_worker: the
    loop; it stops at the first failure. *)
Fixpoint init_worker_loop (conns : list connection) (confs : list loc_conf) : M W (list connection) :=
  match confs with
  | [] => mret conns
  | conf :: confs =>
      '(rc, conns) ← ngx_http_mongo_add_connection conns conf;
      if rc =? NGX_ERROR then mret conns
      else
        '(rc, conns) ← ngx_http_mongo_authenticate conns conf;
        if rc =? NGX_ERROR then mret conns else init_worker_loop conns confs
  end.

(** [module/ngx_http_gridfs_module.c:550-571] ngx_http_gridfs_init_worker: the
    return code is always [NGX_OK]. *)
Definition ngx_http_gridfs_init_worker (confs : list loc_conf) : M W (Z * list connection) :=
  conns ← init_worker_loop [] confs; mret (NGX_OK, conns).

(** [module/ngx_http_gridfs_module.c:49-49] MONGO_RECONNECT_WAITTIME *)
Definition MONGO_RECONNECT_WAITTIME : Z := 500.

(** [module/ngx_http_gridfs_module.c:573-612] ngx_http_mongo_reconnect: the test
    is of an address, so always true. *)
Definition ngx_http_mongo_reconnect (i : nat) : M W Z :=
  _ ← tell (mongo_disconnect i);
  _ ← tell (ngx_msleep MONGO_RECONNECT_WAITTIME);
  status ← io (mongo_reconnect i);
  mret (if status =? MONGO_CONN_SUCCESS then NGX_OK else NGX_ERROR).

Fixpoint reauth_loop (i : nat) (l : list mongo_auth) : M W Z :=
  match l with
  | [] => mret NGX_OK
  | a :: l =>
      status ← io (mongo_cmd_authenticate i (auth_db a) (auth_user a) (auth_pass a));
      if negb (status =? MONGO_OK) then mret NGX_ERROR else reauth_loop i l
  end.
(** [module/ngx_http_gridfs_module.c:614-635] ngx_http_mongo_reauth *)
Definition ngx_http_mongo_reauth (i : nat) (c : connection) : M W Z := reauth_loop i (auths c).
End Connections.
