(* ===== verification/GridfsHandler.v ===== *)
(** * The GridFS request handler (ngx_http_gridfs_module.c)

    A request names a file by the rest of its URI; the handler finds it, sends
    the header and then the chunks, one buffer each.  The HTTP filters it calls
    are the interface [Http]. *)

From S2P Require Import Prelude NgxNumbers BsonUtf8 NgxCodec BsonBuild BsonIter BsonDoc GridFS GridfsUrl GridfsConf.

Set Warnings "-register-all".

(** [src/http/ngx_http_request.h:72-72] NGX_HTTP_OK *)
Definition NGX_HTTP_OK : Z := 200.
Definition NGX_HTTP_PARTIAL_CONTENT : Z := 206.
Definition NGX_HTTP_BAD_REQUEST : Z := 400.
Definition NGX_HTTP_NOT_FOUND : Z := 404.
Definition NGX_HTTP_INTERNAL_SERVER_ERROR : Z := 500.
Definition NGX_HTTP_SERVICE_UNAVAILABLE : Z := 503.

(** [module/ngx_http_gridfs_module.c:48-48] MONGO_MAX_RETRIES_PER_REQUEST *)
Definition MONGO_MAX_RETRIES_PER_REQUEST : Z := 1.

(** What the handler reads of a request: its URI, the name of its location and
    its [Range] header. *)
Record http_request := HttpRequest {
  uri : list Z;
  location_name : list Z;
  range_header : option (list Z)
}.

(** What it sets of [headers_out]; no content type stands for the one
    [ngx_http_set_content_type] finds by the URI. *)
Record headers_out := HeadersOut {
  status : Z;
  content_length_n : Z;
  content_range : option (list Z);
  content_type : option (list Z);
  etag : list Z;
  last_modified_time : option Z;
  gzipped : bool
}.

Class Http (W : Type) := {
  ngx_http_send_header : headers_out -> W -> Z * W;
  (* one buffer, with its [last_buf] *)
  ngx_http_output_filter : list Z -> bool -> W -> Z * W
}.

(** [%O] of [ngx_sprintf] *)
Definition sprintf_off (n : Z) : list Z :=
  let n := s64 n in
  if n <? 0 then "-"%chr :: default [] (ngx_sprintf_num 20 (- n) 0 0 0)
  else default [] (ngx_sprintf_num 20 n 0 0 0).

(** [module/ngx_http_gridfs_module.c:967-994] ngx_http_gridfs_handler: the status
    and the fields for the range. *)
Definition range_headers (rs re length : Z) : Z * Z * option (list Z) :=
  if (rs =? 0) && (re =? 0) then (NGX_HTTP_OK, s64 length, None)
  else (NGX_HTTP_PARTIAL_CONTENT, s64 (re - rs + 1),
        Some (bs "bytes " ++ sprintf_off rs ++ bs "-" ++ sprintf_off re ++ bs "/" ++ sprintf_off length)).

(** [module/ngx_http_gridfs_module.c:1134-1180] ngx_http_gridfs_handler: what is
    sent of a chunk at [pos] for a range, if anything. *)
Definition range_buffer (rs re pos : Z) (last_chunk : bool) (data : list Z) : option (list Z * bool) :=
  let chunk_len := Z.of_nat (List.length data) in
  if (u64 (pos + chunk_len) <=? rs) || (re <=? pos) then None
  else
    let from := if rs <=? pos then 0 else rs - pos in
    let to := if re <? u64 (pos + chunk_len) then re - pos + 1 else chunk_len in
    Some (take (Z.to_nat (to - from)) (drop (Z.to_nat from) data),
          last_chunk || (re <? u64 (pos + chunk_len))).

Section Handler.
Context {W : Type} `{Driver W} `{Http W}.

(** [module/ngx_http_gridfs_module.c:1111-1120] ngx_http_gridfs_handler: after a
    failure; whether to try again. *)
Definition recover (i : nat) (c : connection) (ecounter : Z) : M W bool :=
  let abandon := (connected_now ← ask (connected i);
                  _ ← (if connected_now : bool then tell (mongo_disconnect i) else mret tt);
                  mret false) in
  if MONGO_MAX_RETRIES_PER_REQUEST <? ecounter then abandon
  else
    rc ← ngx_http_mongo_reconnect i;
    if rc =? NGX_ERROR then abandon
    else
      rc ← ngx_http_mongo_reauth i c;
      if rc =? NGX_ERROR then abandon else mret true.

(** [module/ngx_http_gridfs_module.c:894-912] ngx_http_gridfs_handler: the loop
    [do ... while (e)] around the first use of the connection, and the same
    around each chunk (1106-1122); [ecounter] counts for the request. *)
Fixpoint retry {A} (fuel : nat) (i : nat) (c : connection) (ecounter : Z) (attempt : M W (option A))
  : M W (bounded (option A * Z)) :=
  match fuel with
  | O => mret Unfinished
  | S fuel =>
      a ← attempt;
      match a with
      | Some a => mret (Ended (Some a, ecounter))
      | None =>
          again ← recover i c (ecounter + 1);
          if again : bool then retry fuel i c (ecounter + 1) attempt else mret (Ended (None, ecounter + 1))
      end
  end.

(** [module/ngx_http_gridfs_module.c:843-863] ngx_http_gridfs_handler: a
    connection, or the status to return. *)
Definition ensure_connection (conns : list connection) (m : list Z)
  : M W (Z + nat * connection) :=
  match ngx_http_get_mongo_connection m conns with
  | None => mret (inl NGX_HTTP_INTERNAL_SERVER_ERROR)
  | Some (i, c) =>
      let unavailable := (up ← ask (connected i);
                          _ ← (if up : bool then tell (mongo_disconnect i) else mret tt);
                          mret (inl NGX_HTTP_SERVICE_UNAVAILABLE)) in
      up ← ask (connected i);
      if up : bool then mret (inr (i, c))
      else
        rc ← ngx_http_mongo_reconnect i;
        if rc =? NGX_ERROR then unavailable
        else
          rc ← ngx_http_mongo_reauth i c;
          if rc =? NGX_ERROR then unavailable else mret (inr (i, c))
  end.

(** [module/ngx_http_gridfs_module.c:867-890] ngx_http_gridfs_handler: the memory
    of the decoded key, or the status to return. *)
Definition request_key (r : http_request) : option (Z + list Z) :=
  if (List.length (uri r) <? List.length (location_name r))%nat
  then Some (inl NGX_HTTP_INTERNAL_SERVER_ERROR)
  else
    '(rc, value) ← url_decode (drop (List.length (location_name r)) (uri r) ++ [0]);
    Some (if rc =? 0 then inl NGX_HTTP_BAD_REQUEST else inr value).

(** [module/ngx_http_gridfs_module.c:914-927] ngx_http_gridfs_handler: the query;
    an identifier is read from 24 characters, whatever the length of the
    key. *)
Definition key_query (conf : loc_conf) (value : list Z) : option (option fields) :=
  f ← field conf;
  if type conf =? BSON_OID then
    oid ← read_n value 24; Some (bson_doc [(f, VOid (bson_oid_from_string oid))])
  else if type conf =? BSON_INT then Some (bson_doc [(f, VInt (s32 (ngx_atoi (c_str value))))])
  else if type conf =? BSON_STRING then Some (bson_doc [(f, VString (c_str value))])
  else Some (Some []).

(** [module/ngx_http_gridfs_module.c:1106-1127] ngx_http_gridfs_handler: one
    attempt to get a chunk. *)
Definition get_one_chunk `{Mongo W} (f : gridfile) (k : Z) : M W (option fields) :=
  cursor ← gridfile_get_chunks f k 1;
  mret (l ← cursor; head l).

(** [module/ngx_http_gridfs_module.c:1093-1186] ngx_http_gridfs_handler: the loop
    on the chunks; [n] are left, [k] is [i]. *)
Fixpoint body_loop (fuel n : nat) (i : nat) (c : connection) (f : gridfile) (k : Z)
    (rs re pos ecounter rc : Z) : M W (bounded Z) :=
  match n with
  | O => mret (Ended rc)
  | S n =>
      '(chunk, ecounter) <~ retry fuel i c ecounter (@get_one_chunk (client i) f k);
      match chunk with
      | None => mret (Ended NGX_HTTP_SERVICE_UNAVAILABLE)
      | Some chunk =>
          data ← or_crash (field_binary (lookup_field chunk (bs "data")));
          let last_chunk := (n =? 0)%nat in
          let out := if (rs =? 0) && (re =? 0) then Some (data, last_chunk)
                     else range_buffer rs re pos last_chunk data in
          rc ← match out with
               | Some (l, last_buf) => io (ngx_http_output_filter l last_buf)
               | None => mret rc
               end;
          if rc =? NGX_ERROR then mret (Ended NGX_ERROR)
          else body_loop fuel n i c f (k + 1) rs re (u64 (pos + Z.of_nat (List.length data))) ecounter rc
      end
  end.

(** [module/ngx_http_gridfs_module.c:937-1042] ngx_http_gridfs_handler: the
    header; the range it was for. *)
Definition send_headers (fuel : nat) (r : http_request) (f : gridfile) : M W (bounded (Z * Z)) :=
  let length := gridfile_get_contentlength f in
  let md5 := gridfile_get_md5 f in
  last_modified ← or_crash (gridfile_get_uploaddate f);
  '(rs, re) <~ mret (within (match range_header r with
                             | Some v => gridfs_parse_range fuel v 0 0 length
                             | None => Some (0, 0)
                             end));
  let '(st, n, cr) := range_headers rs re length in
  _ ← io (ngx_http_send_header
            (HeadersOut st n cr (gridfile_get_contenttype f) ([34] ++ md5 ++ [34])
               (if last_modified =? 0 then None else Some (Z.quot last_modified 1000))
               (gridfile_get_boolean f (bs "gzipped"))));
  mret (Ended (rs, re)).

(** [module/ngx_http_gridfs_module.c:1046-1191] ngx_http_gridfs_handler: the
    body. *)
Definition send_body (fuel : nat) (i : nat) (c : connection) (f : gridfile) (numchunks rs re ecounter : Z)
  : M W (bounded Z) :=
  if numchunks =? 0 then rc ← io (ngx_http_output_filter [] true); mret (Ended rc)
  else body_loop fuel (Z.to_nat numchunks) i c f 0 rs re 0 ecounter NGX_OK.

(** [module/ngx_http_gridfs_module.c:803-1191] ngx_http_gridfs_handler: [fuel]
    bounds the loops [do ... while] and the range parser; [Unfinished] if it
    was not enough. *)
Definition ngx_http_gridfs_handler (fuel : nat) (conns : list connection) (conf : loc_conf)
    (f : gridfile) (r : http_request) : M W (bounded Z) :=
  m ← or_crash (mongo conf);
  con ← ensure_connection conns m;
  match con with
  | inl rc => mret (Ended rc)
  | inr (i, c) =>
      key ← or_crash (request_key r);
      match key with
      | inl rc => mret (Ended rc)
      | inr value =>
          d ← or_crash (db conf);
          '(g, ecounter) <~ retry fuel i c 0
            ('(rc, g) ← @gridfs_init W (client i) d (root_collection conf);
             mret (if rc =? MONGO_OK then Some g else None));
          match g with
          | None => mret (Ended NGX_HTTP_SERVICE_UNAVAILABLE)
          | Some g =>
              query ← or_crash (key_query conf value);
              '(rc, f) ← @gridfs_find_query W (client i) g query f;
              if rc =? MONGO_ERROR then mret (Ended NGX_HTTP_NOT_FOUND)
              else
                let numchunks := u64 (gridfile_get_numchunks f) in
                if INT_MAX <? numchunks then mret (Ended NGX_HTTP_NOT_FOUND)
                else
                  '(rs, re) <~ send_headers fuel r f;
                  send_body fuel i c f numchunks rs re ecounter
          end
      end
  end.
End Handler.
