(* ===== verification/GridfsWorld.v ===== *)
(** * The surroundings of the GridFS handler

    What the clients and the HTTP filters do for the handler, as interfaces,
    and a world in memory that does so. *)

From stdpp Require Import sorting.
From S2P Require Import Prelude NgxNumbers BsonUtf8 BsonBuild BsonIter BsonDoc GridFS GridFSSpec GridFSMemory GridfsUrl GridfsConf GridfsHandler.

Set Warnings "-register-all".

#[local] Abbreviation length := (@List.length _).

(** ** The monad *)

(** ** The handler's surroundings

    The clients answer as GridFSSpec.v says; [sent] and [response] are what
    went to the HTTP filters, which accept everything.  [calm] relates the
    worlds before and after a call that only asks the server. *)

Class HandlerLaws (W : Type) `{Driver W} `{Http W} := {
  client_laws :: forall i, @MongoLaws W (client i);
  response : W -> option headers_out;
  sent : W -> list (list Z * bool);
  calm (i : nat) (w w' : W) := response w' = response w /\ sent w' = sent w
    /\ connected i w' = connected i w;
  find_calm i ns q limit w : calm i w (@mongo_find W (client i) ns q limit w).2;
  find_one_calm i ns q w : calm i w (@mongo_find_one W (client i) ns q w).2;
  create_index_law i ns q opt w :
    up (MongoLaws := client_laws i) w ->
    (@mongo_create_index W (client i) ns q opt w).1 = MONGO_OK
    /\ same (MongoLaws := client_laws i) w (@mongo_create_index W (client i) ns q opt w).2
    /\ calm i w (@mongo_create_index W (client i) ns q opt w).2;
  send_header_law i h w :
    up (MongoLaws := client_laws i) w ->
    same (MongoLaws := client_laws i) w (ngx_http_send_header h w).2
    /\ response (ngx_http_send_header h w).2 = Some h /\ sent (ngx_http_send_header h w).2 = sent w;
  output_filter_law i l b w :
    up (MongoLaws := client_laws i) w ->
    same (MongoLaws := client_laws i) w (ngx_http_output_filter l b w).2
    /\ (ngx_http_output_filter l b w).1 = NGX_OK
    /\ response (ngx_http_output_filter l b w).2 = response w
    /\ sent (ngx_http_output_filter l b w).2 = sent w ++ [(l, b)]
}.


(** [reconnects] counts the calls of [mongo_reconnect]. *)
Class Reconnects (W : Type) `{Driver W} `{Http W} := {
  reconnects : W -> nat;
  reconnect_counts i w : reconnects (mongo_reconnect i w).2 = S (reconnects w);
  disconnect_free i w : reconnects (mongo_disconnect i w) = reconnects w;
  msleep_free t w : reconnects (ngx_msleep t w) = reconnects w;
  authenticate_free i d u p w : reconnects (mongo_cmd_authenticate i d u p w).2 = reconnects w;
  create_index_free i ns q opt w : reconnects (@mongo_create_index W (client i) ns q opt w).2 = reconnects w;
  find_free i ns q limit w : reconnects (@mongo_find W (client i) ns q limit w).2 = reconnects w;
  find_one_free i ns q w : reconnects (@mongo_find_one W (client i) ns q w).2 = reconnects w;
  send_header_free h w : reconnects (ngx_http_send_header h w).2 = reconnects w;
  output_filter_free l b w : reconnects (ngx_http_output_filter l b w).2 = reconnects w
}.

(** ** A world in memory

    One server, which answers all clients whose connection is open. *)

Record world := World {
  server : memory;
  open_links : gset nat;
  tries : nat;
  reply : option headers_out;
  output : list (list Z * bool)
}.
#[export] Instance eta_world : Settable world := fun w =>
  World (server w) (open_links w) (tries w) (reply w) (output w).

(** What a call of the server does to the world. *)
Definition at_server {A} (f : memory -> A * memory) (w : world) : A * world :=
  let '(a, m) := f (server w) in (a, w <| server := m |>).

Definition world_client : Mongo world := {|
  new_oid := at_server new_oid;
  time_now := at_server time_now;
  mongo_insert ns d := at_server (mongo_insert ns d);
  mongo_find ns q limit := at_server (mongo_find ns q limit);
  mongo_find_one ns q := at_server (mongo_find_one ns q);
  mongo_remove ns q := at_server (mongo_remove ns q);
  mongo_run_command d q := at_server (mongo_run_command d q);
  mongo_create_index ns q opt := at_server (mongo_create_index ns q opt)
|}.

Definition open_link (i : nat) (w : world) : Z * world :=
  (MONGO_CONN_SUCCESS, w <| open_links := {[i]} ∪ open_links w |>).

#[export] Instance driver_world : Driver world := {
  client _ := world_client;
  connected i w := bool_decide (i ∈ open_links w);
  mongo_client i _ _ := open_link i;
  mongo_replica_set_init _ _ w := w;
  mongo_replica_set_add_seed _ _ _ w := w;
  mongo_replica_set_client := open_link;
  mongo_disconnect i w := w <| open_links := open_links w ∖ {[i]} |>;
  ngx_msleep _ w := w;
  mongo_reconnect i w := open_link i (w <| tries := S (tries w) |>);
  mongo_cmd_authenticate _ _ _ _ w := (MONGO_OK, w);
  mongo_cmd_get_last_error _ _ w := (0, w)
}.

#[export] Instance http_world : Http world := {
  ngx_http_send_header h w := (NGX_OK, w <| reply := Some h |>);
  ngx_http_output_filter l b w := (NGX_OK, w <| output := output w ++ [(l, b)] |>)
}.

Lemma world_laws : @MongoLaws world world_client.
Proof.
  refine (Build_MongoLaws world world_client (fun w => mem_docs (server w)) (fun _ => True) _ _ _ _ _ _).
  - intros w Hw. exact (new_oid_law (server w) Hw).
  - intros w Hw. exact (time_now_law (server w) Hw).
  - intros ns d w Hw. exact (insert_law ns d (server w) Hw).
  - intros db o p w Hw. exact (filemd5_law db o p (server w) Hw).
  - intros ns q k dir limit w Hw. exact (find_law ns q k dir limit (server w) Hw).
  - intros ns q k dir w Hw. exact (find_one_law ns q k dir (server w) Hw).
Defined.

#[export] Instance handler_laws_world : HandlerLaws world.
Proof.
  refine (Build_HandlerLaws world _ _ (fun _ => world_laws) reply output _ _ _ _ _); try done.
Defined.

#[export] Instance reconnects_world : Reconnects world.
Proof. by refine (Build_Reconnects world _ _ tries _ _ _ _ _ _ _ _ _). Defined.
