(* ===== verification/GridfsServe.v ===== *)
(** * Serving files

    What the handler sends for a stored file, the whole of it or the bytes of
    a range; that its loops end; and how often it opens the connection
    again. *)

From S2P Require Import Prelude NgxNumbers BsonUtf8 NgxCodec BsonBuild BsonIter BsonDoc GridFS GridFSSpec GridFSMemory GridFSWrite GridFSRead GridfsUrl GridfsConf GridfsHandler GridfsWorld.

Set Warnings "-register-all".

#[local] Abbreviation length := (@List.length _).

(** ** What is sent of the pieces of a file *)

(** The buffers for the pieces from the position [pos] on; the range [0 .. 0] is
    the whole file. *)
Definition piece_buffer (rs re pos : Z) (last_chunk : bool) (p : list Z) : option (list Z * bool) :=
  if (rs =? 0) && (re =? 0) then Some (p, last_chunk) else range_buffer rs re pos last_chunk p.
Fixpoint serve (rs re pos : Z) (ps : list (list Z)) : list (list Z * bool) :=
  match ps with
  | [] => []
  | p :: ps =>
      option_list (piece_buffer rs re pos (bool_decide (ps = [])) p)
        ++ serve rs re (u64 (pos + Z.of_nat (length p))) ps
  end.

Lemma serve_whole pos ps :
  concat (map fst (serve 0 0 pos ps)) = concat ps
  /\ (ps <> [] -> exists j, map snd (serve 0 0 pos ps) = replicate j false ++ [true]).
Proof.
  revert pos. induction ps as [|p ps IH]; intros pos; [done|].
  cbn [serve]. unfold piece_buffer. change ((0 =? 0) && (0 =? 0)) with true. cbv iota. simpl.
  destruct (IH (u64 (pos + Z.of_nat (length p)))) as [IH1 IH2]. split; [by rewrite IH1|].
  intros _. destruct (decide (ps = [])) as [-> |Hne].
  - by exists 0%nat.
  - rewrite bool_decide_false by done. destruct (IH2 Hne) as [j ->]. by exists (S j).
Qed.

Section Range.
Context (k : Z) (Hk : 0 < k) (rs re : Z) (Hrs : 0 <= rs <= re) (Hre : 0 < re).

Lemma piece_range pos b p : piece_buffer rs re pos b p = range_buffer rs re pos b p.
Proof using Hre.
  unfold piece_buffer. destruct (Z.eqb_spec re 0); [lia|]. by rewrite andb_false_r.
Qed.

(** How much of the last byte is sent: nothing when it is the first of its
    chunk. *)
Definition tail_byte : Z := if re mod k =? 0 then 0 else 1.

Lemma mod_inside pos : pos mod k = 0 -> pos < re < pos + k -> re mod k <> 0.
Proof using Hk.
  intros H1 H2 H3. apply Z.div_exact in H1, H3; [|lia..].
  assert (pos / k < re / k) by nia. assert (re / k < pos / k + 1) by nia. lia.
Qed.

Lemma serve_past pos ps :
  re <= pos -> pos + Z.of_nat (length (concat ps)) < 2 ^ 64 -> serve rs re pos ps = [].
Proof using Hre Hrs.
  revert pos. induction ps as [|p ps IH]; intros pos Hp Hl; [done|]. cbn [serve concat] in *.
  rewrite length_app in Hl. rewrite piece_range. unfold range_buffer.
  rewrite (proj2 (Z.leb_le re pos)), orb_true_r by done. simpl.
  rewrite u64_small by lia. apply IH; lia.
Qed.

Lemma serve_range D pos :
  pos mod k = 0 -> 0 <= pos -> re < pos + Z.of_nat (length D) -> pos + Z.of_nat (length D) < 2 ^ 64 ->
  concat (map fst (serve rs re pos (pieces k D))) =
    take (Z.to_nat (Z.max 0 (re - pos + tail_byte) - Z.max 0 (rs - pos)))
      (drop (Z.to_nat (Z.max 0 (rs - pos))) D)
  /\ exists j, map snd (serve rs re pos (pieces k D)) =
       replicate j false ++ (if (re <=? pos) || (re mod k =? 0) then [] else [true]).
Proof using Hk Hre Hrs.
  remember (length D) as n eqn:En. revert D pos En.
  induction n as [n IH] using lt_wf_ind. intros D pos -> Hpos Hpos0 Hend Hmax.
  assert (0 <= tail_byte <= 1) as Htb by (unfold tail_byte; destruct (_ =? _); lia).
  destruct (Z.leb_spec re pos) as [Hle|Hgt].
  { rewrite serve_past by (rewrite ?pieces_concat by done; done).
    replace (Z.to_nat (Z.max 0 (re - pos + tail_byte) - _)) with 0%nat; [by split; [|exists 0%nat]|].
    unfold tail_byte. destruct (Z.eqb_spec (re mod k) 0); [lia|].
    assert (re <> pos) by (intros ->; done). lia. }
  cbn [orb]. destruct (decide (D = [])) as [-> |HD]; [simpl in Hend; lia|].
  rewrite pieces_step by done. cbn [serve]. rewrite piece_range. unfold range_buffer.
  set (p := take (Z.to_nat k) D). set (D' := drop (Z.to_nat k) D).
  assert (Z.of_nat (length p) = Z.min k (Z.of_nat (length D))) as Hlp by (unfold p; rewrite length_take; lia).
  assert (D = p ++ D') as ED by (symmetry; apply take_drop).
  assert (Z.of_nat (length D') = Z.of_nat (length D) - Z.of_nat (length p)) as HlD.
  { unfold D'. rewrite length_drop. lia. }
  assert (0 < Z.of_nat (length p)) as Hp0 by (destruct D; [done|]; simpl in Hlp; lia).
  rewrite u64_small by lia. rewrite (proj2 (Z.leb_gt re pos)), orb_false_r by done.
  destruct (Z.ltb_spec re (pos + Z.of_nat (length p))) as [Hin|Hout].
  - (* the range ends in this piece *)
    pose proof (mod_inside pos Hpos ltac:(lia)) as Hmod.
    assert (tail_byte = 1) as -> by (unfold tail_byte; by rewrite (proj2 (Z.eqb_neq _ _) Hmod)).
    rewrite (proj2 (Z.eqb_neq _ _) Hmod).
    destruct (Z.leb_spec (pos + Z.of_nat (length p)) rs); [lia|].
    rewrite serve_past by (rewrite ?pieces_concat by done; lia).
    simpl. rewrite orb_true_r. split; [|by exists 0%nat].
    rewrite app_nil_r.
    replace (if rs <=? pos then 0 else rs - pos) with (Z.max 0 (rs - pos))
      by (destruct (Z.leb_spec rs pos); lia).
    rewrite ED. rewrite drop_app_le by lia.
    rewrite take_app_le by (rewrite length_drop; lia). f_equal. lia.
  - (* it goes on *)
    assert (Z.of_nat (length p) = k) as Hpk by lia.
    destruct (IH (length D') ltac:(lia) D' (pos + k) eq_refl) as [IH1 [j IH2]].
    { rewrite <- Z.add_mod_idemp_r, Z_mod_same_full, Z.add_0_r by lia. done. }
    { lia. } { lia. } { lia. }
    rewrite Hpk in *.
    assert (D' <> []) as HD' by (intros E; rewrite E in HlD; simpl in HlD; lia).
    assert (pieces k D' <> []) as Hps by (by rewrite pieces_step).
    rewrite bool_decide_false by done. cbn [orb].
    assert (take (Z.to_nat (Z.max 0 (re - pos + tail_byte) - Z.max 0 (rs - pos)))
        (drop (Z.to_nat (Z.max 0 (rs - pos))) D) =
      drop (Z.to_nat (Z.max 0 (rs - pos))) p ++
      take (Z.to_nat (Z.max 0 (re - (pos + k) + tail_byte) - Z.max 0 (rs - (pos + k))))
        (drop (Z.to_nat (Z.max 0 (rs - (pos + k)))) D')) as Hcut.
    { rewrite ED. destruct (Z.leb_spec (pos + k) rs).
      - rewrite drop_app_ge, (drop_ge p), app_nil_l by lia. f_equal; [|f_equal]; lia.
      - rewrite drop_app_le by lia. rewrite take_app_ge by (rewrite length_drop; lia). f_equal.
        rewrite length_drop. replace (Z.max 0 (rs - (pos + k))) with 0 by lia. rewrite drop_0. f_equal. lia. }
    rewrite Hcut. split.
    + destruct (Z.leb_spec (pos + k) rs) as [Hskip|Hno].
      * simpl. rewrite IH1. by rewrite (drop_ge p), app_nil_l by lia.
      * simpl. rewrite IH1. f_equal.
        replace (if rs <=? pos then 0 else rs - pos) with (Z.max 0 (rs - pos))
          by (destruct (Z.leb_spec rs pos); lia).
        rewrite take_ge; [done|]. rewrite length_drop. lia.
    + assert ((re <=? pos + k) || (re mod k =? 0) = (re mod k =? 0)) as Eb.
      { destruct (Z.leb_spec re (pos + k)); [|done]. assert (re = pos + k) as -> by lia.
        rewrite <- Z.add_mod_idemp_r, Z_mod_same_full, Z.add_0_r by lia. by rewrite Hpos. }
      rewrite Eb in IH2.
      destruct (Z.leb_spec (pos + k) rs); simpl; rewrite IH2;
        [by exists j|by exists (S j)].
Qed.
End Range.

Section Serve.
Context `{HandlerLaws W} (i : nat) (c : connection).
#[local] Existing Instance client.

Abbreviation csame := (@same W (client i) (client_laws i)).
Abbreviation cholds := (@holds_file W (client i) (client_laws i)).

Lemma csame_trans w1 w2 w3 : csame w1 w2 -> csame w2 w3 -> csame w1 w3.
Proof using. intros [U1 E1] [U2 E2]. split; [done|]. intros ns. by rewrite E2, E1. Qed.

Lemma holds_same g o k data w w' : csame w w' -> cholds g o k data w -> cholds g o k data w'.
Proof using.
  intros [U E] (Hu & Ht & cs & Hp & Hc). split; [done|]. rewrite E. split; [done|]. by exists cs.
Qed.

(** One chunk of a stored file. *)
Lemma one_chunk f g o k data n p w :
  0 < k -> gfs f = g -> lookup_field (meta f) (bs "_id") = Some (VOid o) -> cholds g o k data w ->
  pieces k data !! n = Some p -> Z.of_nat (length (pieces k data)) <= INT_MAX ->
  exists w' chunk, @get_one_chunk W (client i) f (Z.of_nat n) w = Some (Some chunk, w')
    /\ csame w w' /\ calm i w w' /\ lookup_field chunk (bs "data") = Some (VBinary BSON_BIN_BINARY p).
Proof using.
  intros Hk Hg Hid Hh Hp Hmax. pose proof (lookup_lt_Some _ _ _ Hp) as Hn.
  destruct (@get_chunks_answers W (client i) (client_laws i) g o k Hk f data (Z.of_nat n) 1 w Hg Hid Hh)
    as (w' & cs & E & Hs & Hcs); [lia|lia|lia|].
  exists w'. unfold get_one_chunk, mbind at 1, M_bind at 1. rewrite E.
  rewrite Nat2Z.id in Hcs. change (Z.to_nat 1) with 1%nat in Hcs.
  erewrite drop_S in Hcs by done. cbn [take] in Hcs. destruct cs as [|chunk cs]; [done|].
  destruct Hcs as [(_ & _ & Hd) _]. exists chunk. split; [done|]. split; [done|]. split; [|done].
  unfold gridfile_get_chunks in E. rewrite Hid in E. cbn [field_oid or_crash] in E.
  unfold mbind, M_bind, mret, M_ret, io in E. injection E as E.
  match type of E with ?x = _ => replace w' with x.2 by by rewrite E end. apply find_calm.
Qed.

(** The loop on the chunks sends what [serve] says. *)
Lemma body_loop_serves fuel f g o k data rs re pos n m ecounter w :
  0 < k -> gfs f = g -> lookup_field (meta f) (bs "_id") = Some (VOid o) -> cholds g o k data w ->
  Z.of_nat (length (pieces k data)) <= INT_MAX -> (n + m)%nat = length (pieces k data) ->
  exists w', body_loop (S fuel) n i c f (Z.of_nat m) rs re pos ecounter NGX_OK w = Some (Ended NGX_OK, w')
    /\ csame w w' /\ response w' = response w
    /\ sent w' = sent w ++ serve rs re pos (drop m (pieces k data)).
Proof using.
  intros Hk Hg Hid Hh Hmax. revert m pos w Hh. induction n as [|n IH]; intros m pos w Hh Hnm.
  { exists w. rewrite drop_ge by lia. cbn [serve]. rewrite app_nil_r. split; [done|]. split; [split; [apply Hh|done]|done]. }
  destruct (lookup_lt_is_Some_2 (pieces k data) m) as [p Hp]; [lia|].
  destruct (one_chunk f g o k data m p w Hk Hg Hid Hh Hp Hmax) as (w1 & chunk & E & Hs & (C1 & C2 & C3) & Hd).
  erewrite drop_S by done. cbn [body_loop retry].
  unfold after_end, mbind, M_bind, mret, M_ret. rewrite E. rewrite Hd. cbn [field_binary or_crash].
  unfold mret, M_ret. cbv beta iota zeta.
  assert ((n =? 0)%nat = bool_decide (drop (S m) (pieces k data) = [])) as ->.
  { destruct (Nat.eqb_spec n 0).
    - by rewrite bool_decide_true by (apply drop_ge; lia).
    - rewrite bool_decide_false; [done|]. intros Hnil%(f_equal length). rewrite length_drop in Hnil.
      simpl in Hnil. lia. }
  cbn [serve]. fold (piece_buffer rs re pos (bool_decide (drop (S m) (pieces k data) = [])) p).
  replace (Z.of_nat m + 1) with (Z.of_nat (S m)) by lia.
  pose proof (holds_same _ _ _ _ _ _ Hs Hh) as Hh1.
  destruct (piece_buffer _ _ _ _ p) as [[l b]|].
  - destruct (output_filter_law i l b w1 (proj1 Hs)) as (Hs2 & Hrc & Hr2 & Ho2).
    unfold io. destruct (ngx_http_output_filter l b w1) as [rc w2]. simpl in *. subst rc.
    change (NGX_OK =? NGX_ERROR) with false. cbv iota.
    destruct (IH (S m) (u64 (pos + Z.of_nat (length p))) w2) as (w' & E' & Hs' & Hr' & Ho').
    + by eapply holds_same.
    + lia.
    + exists w'. split; [done|]. split; [by eapply csame_trans, csame_trans|]. split; [congruence|].
      rewrite Ho', Ho2, C2. simpl. by rewrite <- app_assoc.
  - change (NGX_OK =? NGX_ERROR) with false. cbv iota.
    destruct (IH (S m) (u64 (pos + Z.of_nat (length p))) w1 Hh1) as (w' & E' & Hs' & Hr' & Ho'); [lia|].
    exists w'. split; [done|]. split; [by eapply csame_trans|]. split; [congruence|].
    by rewrite Ho', C2.
Qed.
Lemma pieces_length k data : 0 < k ->
  Z.of_nat (length (pieces k data)) = (Z.of_nat (length data) + k - 1) / k.
Proof using.
  intros Hk. pose proof (pieces_bound k Hk data). pose proof (pieces_enough k Hk data).
  apply (Z.div_unique_pos _ _ _ (Z.of_nat (length data) + k - 1 - k * Z.of_nat (length (pieces k data)))); lia.
Qed.

(** The GridFS a location serves. *)
Definition location_fs (conf : loc_conf) (d : list Z) : gridfs :=
  let p := default (bs "fs") (root_collection conf) in
  GridFS d p (d ++ bs "." ++ p ++ bs ".files") (d ++ bs "." ++ p ++ bs ".chunks").

(** The request names one stored file, and the connection is there. *)
Record servable (conns : list connection) (conf : loc_conf) (r : http_request) (w : W)
    (m d value : list Z) (q doc : fields) (o : list Z) (k : Z) (data : list Z) : Prop := {
  sv_mongo : mongo conf = Some m;
  sv_conn : ngx_http_get_mongo_connection m conns = Some (i, c);
  sv_connected : connected i w = true;
  sv_key : request_key r = Some (inr value);
  sv_db : db conf = Some d;
  sv_query : key_query conf value = Some (Some q);
  sv_typed : Forall (typed q) (@docs W (client i) (client_laws i) w (files_ns (location_fs conf d)));
  sv_found : filter (fun x => matches q x = true)
               (@docs W (client i) (client_laws i) w (files_ns (location_fs conf d))) ≡ₚ [doc];
  sv_id : lookup_field doc (bs "_id") = Some (VOid o);
  sv_length : lookup_field doc (bs "length") = Some (VLong (Z.of_nat (length data)));
  sv_chunk : lookup_field doc (bs "chunkSize") = Some (VInt k);
  sv_date : exists t, lookup_field doc (bs "uploadDate") = Some (VDate t);
  sv_chunks : cholds (location_fs conf d) o k data w;
  sv_k : 0 < k <= INT_MAX;
  sv_size : Z.of_nat (length data) < 2 ^ 48;
  sv_count : Z.of_nat (length (pieces k data)) <= INT_MAX
}.

Lemma gridfs_init_ok conf d w :
  @up W (client i) (client_laws i) w -> exists w',
  @gridfs_init W (client i) d (root_collection conf) w = Some ((MONGO_OK, location_fs conf d), w')
  /\ csame w w' /\ calm i w w'.
Proof using.
  intros Hu. unfold gridfs_init, io, mbind, M_bind, mret, M_ret. fold (location_fs conf d).
  match goal with |- context [@mongo_create_index _ _ ?ns ?q ?opt w] =>
    destruct (create_index_law i ns q opt w Hu) as (R1 & S1 & (A1 & A2 & A3));
    destruct (@mongo_create_index W (client i) ns q opt w) as [rc1 w1] end.
  cbn [fst snd] in R1, S1, A1, A2, A3. subst rc1.
  change (negb (MONGO_OK =? MONGO_OK)) with false. cbv beta iota.
  match goal with |- context [@mongo_create_index _ _ ?ns ?q ?opt w1] =>
    destruct (create_index_law i ns q opt w1 (proj1 S1)) as (R2 & S2 & (B1 & B2 & B3));
    destruct (@mongo_create_index W (client i) ns q opt w1) as [rc2 w2] end.
  cbn [fst snd] in R2, S2, B1, B2, B3. subst rc2.
  change (negb (MONGO_OK =? MONGO_OK)) with false. cbv beta iota.
  exists w2. split; [done|]. split; [by eapply csame_trans|]. split_and!; congruence.
Qed.

Lemma find_query_ok g q doc f w t :
  @up W (client i) (client_laws i) w ->
  Forall (typed q) (@docs W (client i) (client_laws i) w (files_ns g)) ->
  filter (fun x => matches q x = true) (@docs W (client i) (client_laws i) w (files_ns g)) ≡ₚ [doc] ->
  lookup_field doc (bs "uploadDate") = Some (VDate t) ->
  exists w', @gridfs_find_query W (client i) g (Some q) f w
      = Some ((MONGO_OK, gridfile_init g doc f), w')
    /\ csame w w' /\ calm i w w'.
Proof using.
  intros Hu Hty Hf Ht.
  destruct (find_one_law (MongoLaws := client_laws i) (files_ns g) q (bs "uploadDate") (-1) w Hu Hty)
    as (Hs & l & [Hl _] & El).
  { right. intros x Hx. rewrite Hf in Hx. apply list_elem_of_singleton in Hx as ->. by exists t. }
  rewrite Hf in Hl. apply Permutation_singleton_r in Hl as ->. simpl in El.
  exists (@mongo_find_one W (client i) (files_ns g) (request q (bs "uploadDate") (-1)) w).2.
  split; [|split; [exact Hs|apply find_one_calm]].
  unfold gridfs_find_query, or_crash, io, mbind, M_bind, mret, M_ret.
  change [(bs "query", VObject q); (bs "orderby", VObject [(bs "uploadDate", VInt (-1))])]
    with (request q (bs "uploadDate") (-1)).
  destruct (mongo_find_one _ _ w). simpl in El |- *. by subst.
Qed.

(** Up to the header. *)
Lemma handler_finds fuel conns conf r f0 w m d value q doc o k data :
  servable conns conf r w m d value q doc o k data ->
  let f := gridfile_init (location_fs conf d) doc f0 in
  exists w', csame w w' /\ calm i w w'
    /\ ngx_http_gridfs_handler (S fuel) conns conf f0 r w =
        ('(rs, re) <~ send_headers (S fuel) r f;
         send_body (S fuel) i c f (Z.of_nat (length (pieces k data))) rs re 0) w'.
Proof using.
  intros Hsv f. destruct Hsv. destruct sv_date0 as [t Ht].
  destruct sv_chunks0 as (Hu & Hch).
  destruct (gridfs_init_ok conf d w Hu) as (w1 & E1 & S1 & (A1 & A2 & A3)).
  destruct (find_query_ok (location_fs conf d) q doc f0 w1 t) as (w2 & E2 & S2 & (B1 & B2 & B3)); try done.
  { apply S1. } { by rewrite (proj2 S1). } { by rewrite (proj2 S1). }
  exists w2. split; [by eapply csame_trans|]. split; [split_and!; congruence|].
  unfold ngx_http_gridfs_handler. rewrite sv_mongo0, bind_or_crash.
  rewrite (bind_eq _ _ _ (inr (i, c)) w) by
    (unfold ensure_connection, ask, mbind, M_bind, mret, M_ret; by rewrite sv_conn0, sv_connected0).
  cbv beta iota. rewrite sv_key0, bind_or_crash. cbv beta iota. rewrite sv_db0, bind_or_crash.
  rewrite (after_end_eq _ _ _ (Some (location_fs conf d), 0) w1) by
    (cbn [retry]; unfold mbind, M_bind, mret, M_ret; by rewrite E1).
  cbv beta iota. rewrite sv_query0, bind_or_crash. rewrite (bind_eq _ _ _ _ _ E2).
  cbv beta iota. change (MONGO_OK =? MONGO_ERROR) with false. cbv iota. fold f.
  assert (meta f = doc) as Hmeta by by destruct f0.
  assert (gridfile_get_numchunks f = Z.of_nat (length (pieces k data))) as ->.
  { assert (gridfile_get_contentlength f = Z.of_nat (length data)) as HL
      by (apply contentlength_long; [by rewrite Hmeta|lia]).
    assert (gridfile_get_chunksize f = k) as HK by (unfold gridfile_get_chunksize; by rewrite Hmeta, sv_chunk0).
    rewrite numchunks_exact; rewrite ?HL, ?HK; try lia; rewrite <- pieces_length by lia; done. }
  unfold INT_MAX in *. rewrite u64_small by lia.
  by destruct (Z.ltb_spec 2147483647 (Z.of_nat (length (pieces k data)))); [lia|].
Qed.
Lemma send_headers_sends fuel r f t rs re w :
  @up W (client i) (client_laws i) w -> gridfile_get_uploaddate f = Some t ->
  match range_header r with
  | Some v => gridfs_parse_range fuel v 0 0 (gridfile_get_contentlength f)
  | None => Some (0, 0)
  end = Some (rs, re) ->
  exists w' h, send_headers fuel r f w = Some (Ended (rs, re), w') /\ csame w w' /\ sent w' = sent w
    /\ response w' = Some h
    /\ (status h, content_length_n h, content_range h) = range_headers rs re (gridfile_get_contentlength f).
Proof using.
  intros Hu Ht Hr. unfold send_headers. rewrite Ht, bind_or_crash, Hr. rewrite (after_end_eq _ _ _ (rs, re) w) by done. cbv beta iota zeta.
  destruct (range_headers rs re (gridfile_get_contentlength f)) as [[st n] cr].
  set (h := HeadersOut st n cr _ _ _ _).
  destruct (send_header_law i h w Hu) as (S & R & O). exists (ngx_http_send_header h w).2, h.
  unfold io, mbind, M_bind, mret, M_ret. split; [by destruct (ngx_http_send_header h w)|by split_and!].
Qed.

(** The whole of a request that finds its file. *)
Lemma handler_serves fuel conns conf r f0 w m d value q doc o k data rs re :
  servable conns conf r w m d value q doc o k data -> data <> [] ->
  match range_header r with
  | Some v => gridfs_parse_range (S fuel) v 0 0 (Z.of_nat (length data))
  | None => Some (0, 0)
  end = Some (rs, re) ->
  exists w' h, ngx_http_gridfs_handler (S fuel) conns conf f0 r w = Some (Ended NGX_OK, w')
    /\ csame w w' /\ response w' = Some h
    /\ (status h, content_length_n h, content_range h) = range_headers rs re (Z.of_nat (length data))
    /\ sent w' = sent w ++ serve rs re 0 (pieces k data).
Proof using.
  intros Hsv Hne Hr. destruct (handler_finds fuel conns conf r f0 w m d value q doc o k data Hsv)
    as (w1 & S1 & (A1 & A2 & A3) & ->). destruct Hsv. destruct sv_date0 as [t Ht].
  set (f := gridfile_init (location_fs conf d) doc f0) in *.
  assert (meta f = doc /\ gfs f = location_fs conf d) as [Hmeta Hgfs] by by destruct f0.
  assert (gridfile_get_contentlength f = Z.of_nat (length data)) as HL
    by (apply contentlength_long; [by rewrite Hmeta|lia]).
  destruct (send_headers_sends (S fuel) r f t rs re w1 (proj1 S1)) as (w2 & h & E2 & S2 & O2 & R2 & Hh).
  { unfold gridfile_get_uploaddate. by rewrite Hmeta, Ht. }
  { by rewrite HL. }
  rewrite (after_end_eq _ _ _ _ _ E2). cbv beta iota. rewrite HL in Hh.
  assert (pieces k data <> []) as Hps by (by rewrite pieces_step by (done || lia)).
  assert (Z.of_nat (length (pieces k data)) <> 0) by (destruct (pieces k data); [done|simpl; lia]).
  unfold send_body. rewrite (proj2 (Z.eqb_neq _ _)) by done. rewrite Nat2Z.id.
  destruct (body_loop_serves fuel f (location_fs conf d) o k data rs re 0 (length (pieces k data)) 0 0 w2)
    as (w3 & E3 & S3 & R3 & O3); try done; try lia.
  { eapply holds_same, sv_chunks0. by eapply csame_trans. }
  exists w3, h. split; [exact E3|]. split; [by eapply csame_trans, csame_trans|].
  split; [congruence|]. split; [done|]. rewrite O3, O2, A2. by rewrite drop_0.
Qed.
End Serve.

(** ** A small file *)

Definition small_conf : loc_conf :=
  LocConf (Some (bs "d")) (Some (bs "fs")) (Some (bs "filename")) BSON_STRING None None
    (Some (bs "m")) (Some []) None.
Definition small_id : list Z := le 12 7.
Definition small_doc : fields :=
  [(bs "_id", VOid small_id); (bs "filename", VString (bs "a")); (bs "length", VLong 3);
   (bs "chunkSize", VInt 2); (bs "uploadDate", VDate 5000)].
Definition small_chunk (n : Z) (l : list Z) : fields :=
  [(bs "files_id", VOid small_id); (bs "n", VInt n); (bs "data", VBinary BSON_BIN_BINARY l)].
Definition small_world : world :=
  World (Memory {[ bs "d.fs.files" := [small_doc];
                   bs "d.fs.chunks" := [small_chunk 0 [10; 20]; small_chunk 1 [30]] ]} 8)
    {[0%nat]} 0 None [].
Definition small_conns : list connection := [Connection (bs "m") []].
Definition small_request (range : option (list Z)) : http_request :=
  HttpRequest (bs "/f/a") (bs "/f/") range.
Definition small_key : fields := [(bs "filename", VString (bs "a"))].
Definition some_file : gridfile := GridFile (GridFS [] [] [] []) [] 0 [] [] [] 0 0 None 0.

Lemma small_servable range :
  servable 0 (Connection (bs "m") []) small_conns small_conf (small_request range) small_world
    (bs "m") (bs "d") [97; 0] small_key small_doc small_id 2 [10; 20; 30].
Proof.
  split; try (vm_compute; reflexivity).
  - apply Forall_forall. intros x Hx. vm_compute in Hx.
    apply list_elem_of_singleton in Hx as ->. by vm_compute.
  - by exists 5000.
  - split; [done|]. split.
    + apply Forall_forall. intros x Hx. vm_compute in Hx.
      apply elem_of_cons in Hx as [-> |Hx]; [by vm_compute|].
      apply list_elem_of_singleton in Hx as ->. by vm_compute.
    + exists [small_chunk 0 [10; 20]; small_chunk 1 [30]]. split; [apply Permutation_refl'; by vm_compute|].
      by vm_compute.
  - by split; vm_compute.
  - by vm_compute.
Qed.

(** ** Properties *)

(** C5: A request without a [Range] header, over an open connection and with
    filters that accept what they are given, for the file its key names, which
    has data, is answered with status 200, the length of the file, and exactly
    its bytes in order, the last buffer and no other marked as such. *)
Theorem ngx_http_gridfs_handler_whole `{HandlerLaws W} i c fuel conns conf r f0 (w : W) m d value q doc o k data :
  servable i c conns conf r w m d value q doc o k data -> data <> [] -> range_header r = None ->
  exists w' h out, ngx_http_gridfs_handler (S fuel) conns conf f0 r w = Some (Ended NGX_OK, w')
    /\ response w' = Some h /\ status h = NGX_HTTP_OK
    /\ content_length_n h = Z.of_nat (length data) /\ content_range h = None
    /\ sent w' = sent w ++ out /\ concat (map fst out) = data
    /\ exists j, map snd out = replicate j false ++ [true].
Proof.
  intros Hsv Hne Hr.
  destruct (handler_serves i c fuel conns conf r f0 w m d value q doc o k data 0 0 Hsv Hne)
    as (w' & h & E & _ & R & Hh & O); [by rewrite Hr|].
  destruct Hsv. unfold range_headers in Hh. change ((0 =? 0) && (0 =? 0)) with true in Hh.
  cbv iota in Hh. rewrite s64_small in Hh by lia. injection Hh as Hst Hcl Hcr.
  exists w', h, (serve 0 0 0 (pieces k data)).
  destruct (serve_whole 0 (pieces k data)) as [Hw1 Hw2].
  rewrite pieces_concat in Hw1 by lia. split_and!; try done.
  apply Hw2. by rewrite pieces_step by (done || lia).
Qed.

Lemma ngx_http_gridfs_handler_whole_witness : exists w' h out,
  ngx_http_gridfs_handler 5 small_conns small_conf some_file (small_request None) small_world = Some (Ended NGX_OK, w')
  /\ reply w' = Some h /\ status h = NGX_HTTP_OK /\ output w' = out /\ concat (map fst out) = [10; 20; 30].
Proof.
  destruct (ngx_http_gridfs_handler_whole 0 (Connection (bs "m") []) 4 small_conns small_conf
      (small_request None) some_file small_world (bs "m") (bs "d") [97; 0] small_key small_doc small_id 2
      [10; 20; 30] (small_servable None) ltac:(discriminate) eq_refl)
    as (w' & h & out & E & R & Hs & _ & _ & O & Hd & _).
  exists w', h, out. split; [exact E|]. split; [exact R|]. split; [exact Hs|]. split; [exact O|exact Hd].
Defined.

(** C6: A request with the header [Range: bytes=a-b], where [a] is not beyond
    [b], and [b] is not 0 and lies in the file, over an open connection and
    with filters that accept what they are given, is answered with status 206
    and the length [b - a + 1]; the body is the bytes from [a] to [b] with the
    last buffer marked, unless [b] is the first byte of a chunk: then that byte
    is not sent, and no buffer is marked as the last. *)
Theorem ngx_http_gridfs_handler_range `{HandlerLaws W} i c fuel conns conf r f0 (w : W) m d value q doc o k data a b :
  servable i c conns conf r w m d value q doc o k data -> b <> [] ->
  range_header r = Some (bs "bytes=" ++ range_text a b) ->
  forallb is_digit a = true -> forallb is_digit b = true ->
  dec_value a <= dec_value b -> 0 < dec_value b < Z.of_nat (length data) ->
  (length (range_text a b) <= S fuel)%nat ->
  exists w' h out, ngx_http_gridfs_handler (S fuel) conns conf f0 r w = Some (Ended NGX_OK, w')
    /\ response w' = Some h /\ status h = NGX_HTTP_PARTIAL_CONTENT
    /\ content_length_n h = dec_value b - dec_value a + 1
    /\ sent w' = sent w ++ out
    /\ (let n := dec_value b - dec_value a + (if dec_value b mod k =? 0 then 0 else 1) in
        concat (map fst out) = take (Z.to_nat n) (drop (Z.to_nat (dec_value a)) data))
    /\ exists j, map snd out = replicate j false ++ (if dec_value b mod k =? 0 then [] else [true]).
Proof.
  intros Hsv Hb0 Hr Ha Hb Hab Hbl Hfuel. pose proof Hsv as Hsv'. destruct Hsv'.
  assert (data <> []) as Hne by (intros ->; simpl in Hbl; lia).
  pose proof (dec_from_ge 0 a ltac:(lia) Ha). fold (dec_value a) in *.
  destruct (handler_serves i c fuel conns conf r f0 w m d value q doc o k data (dec_value a) (dec_value b) Hsv Hne)
    as (w' & h & E & _ & R & Hh & O).
  { rewrite Hr. replace (S fuel) with (length (range_text a b) + (S fuel - length (range_text a b)))%nat by lia.
    rewrite parse_range_text by (done || lia). destruct b as [|c0 b]; [done|]. cbv zeta.
    by destruct (Z.ltb_spec (dec_value (c0 :: b)) (dec_value a)); [lia|]. }
  destruct (serve_range k ltac:(lia) (dec_value a) (dec_value b) ltac:(lia) ltac:(lia) data 0)
    as [Hs1 [j Hs2]]; [done|done|lia|lia|].
  exists w', h, (serve (dec_value a) (dec_value b) 0 (pieces k data)).
  unfold range_headers in Hh. rewrite (proj2 (Z.eqb_neq (dec_value b) 0)), andb_false_r in Hh by lia.
  rewrite s64_small in Hh by lia. injection Hh as Hst Hcl _. split_and!; try done.
  - cbv zeta. rewrite Hs1. unfold tail_byte. f_equal; [|f_equal; lia].
    destruct (dec_value b mod k =? 0); lia.
  - exists j. rewrite Hs2. by destruct (Z.leb_spec (dec_value b) 0); [lia|].
Qed.

Lemma ngx_http_gridfs_handler_range_witness : exists w' h out,
  ngx_http_gridfs_handler 20 small_conns small_conf some_file (small_request (Some (bs "bytes=1-2"))) small_world
    = Some (Ended NGX_OK, w')
  /\ reply w' = Some h /\ status h = NGX_HTTP_PARTIAL_CONTENT /\ content_length_n h = 2
  /\ output w' = out /\ concat (map fst out) = [20] /\ exists j, map snd out = replicate j false.
Proof.
  destruct (ngx_http_gridfs_handler_range 0 (Connection (bs "m") []) 19 small_conns small_conf
      (small_request (Some (bs "bytes=1-2"))) some_file small_world (bs "m") (bs "d") [97; 0] small_key
      small_doc small_id 2 [10; 20; 30] (bs "1") (bs "2"))
    as (w' & h & out & E & R & Hs & Hc & O & Hd & j & Hj).
  - apply small_servable.
  - done.
  - done.
  - done.
  - done.
  - by vm_compute.
  - by vm_compute.
  - by apply Nat.leb_le.
  - exists w', h, out. split; [exact E|]. split; [exact R|]. split; [exact Hs|]. split; [exact Hc|].
    split; [exact O|]. split; [exact Hd|]. exists j. rewrite Hj. apply app_nil_r.
Defined.
