(* ===== verification/GridfsRetry.v ===== *)
(** * Retrying

    The handler's loops [do ... while (e)] end after at most two rounds, and a
    request opens its connection again at most twice, whatever the server
    answers.  Rounds that were not enough are [Unfinished], which is not
    undefined behaviour: a request ends when its header Range can be read to
    its end, and does not when it has two ranges.  A small program logic
    ([finishes], [spends]) follows the outcomes and counts the calls. *)

From S2P Require Import Prelude NgxNumbers BsonUtf8 NgxCodec BsonBuild BsonIter BsonDoc GridFS GridFSSpec GridFSMemory GridfsUrl GridfsConf GridfsHandler GridfsWorld GridfsServe.

Set Warnings "-register-all".

#[local] Abbreviation length := (@List.length _).

(** ** Ends of the loops *)

(** Two programs that do the same, step by step. *)
Lemma bind_ext {W A B} (m m' : M W A) (k k' : A -> M W B) w :
  (forall w, m w = m' w) ->
  (forall a w', (exists w0 w1, m' w0 = Some (a, w1)) -> k a w' = k' a w') ->
  (m ≫= k) w = (m' ≫= k') w.
Proof.
  intros Hm Hk. unfold mbind, M_bind. rewrite Hm. destruct (m' w) as [[a w']|] eqn:E; [|done].
  apply Hk. eauto.
Qed.

Section Ends.
Context {W : Type} `{Driver W} `{Http W}.

Lemma recover_late i c e w :
  1 < e -> match recover i c e w with Some (again, _) => again = false | None => True end.
Proof using.
  intros He. unfold recover, MONGO_MAX_RETRIES_PER_REQUEST.
  rewrite (proj2 (Z.ltb_lt 1 e)) by done.
  unfold mbind, M_bind, mret, M_ret, ask, tell. by destruct (connected i w).
Qed.

(** Beyond two rounds the fuel is not used. *)
Lemma retry_fuel {A} fuel i c e (attempt : M W (option A)) w :
  0 <= e -> retry (S (S fuel)) i c e attempt w = retry 2 i c e attempt w.
Proof using.
  intros He. cbn [retry]. unfold mbind, M_bind.
  destruct (attempt w) as [[[a|] w1]|]; [done| |done].
  destruct (recover i c (e + 1) w1) as [[[|] w2]|]; [|done|done].
  destruct (attempt w2) as [[[a|] w3]|]; [done| |done].
  pose proof (recover_late i c (e + 1 + 1) w3 ltac:(lia)) as Hl.
  destruct (recover i c (e + 1 + 1) w3) as [[again w4]|]; [by subst again|done].
Qed.

Lemma retry_counts {A} fuel i c e (attempt : M W (option A)) w a e' w' :
  retry fuel i c e attempt w = Some (Ended (a, e'), w') -> e <= e'.
Proof using.
  revert e w. induction fuel as [|fuel IH]; intros e w; [done|]. cbn [retry]. unfold mbind, M_bind, mret, M_ret.
  destruct (attempt w) as [[[b|] w1]|]; [by intros [= <- <- <-]| |done].
  destruct (recover i c (e + 1) w1) as [[[|] w2]|]; [|by intros [= <- <- <-]; lia|done].
  intros Hr%IH. lia.
Qed.

(** Two programs that go on in the same way after their ends. *)
Lemma after_end_ext {A B} (m m' : M W (bounded A)) (k k' : A -> M W (bounded B)) w :
  (forall w, m w = m' w) ->
  (forall a w', (exists w0 w1, m' w0 = Some (Ended a, w1)) -> k a w' = k' a w') ->
  after_end m k w = after_end m' k' w.
Proof using.
  intros Hm Hk. unfold after_end. apply bind_ext; [done|]. intros [a|] w' Hr; [by apply Hk|done].
Qed.

Lemma body_loop_fuel fuel n i c f k rs re pos e rc w :
  0 <= e -> body_loop (S (S fuel)) n i c f k rs re pos e rc w = body_loop 2 n i c f k rs re pos e rc w.
Proof using.
  revert k pos e rc w. induction n as [|n IH]; intros k pos e rc w He; [done|].
  cbn [body_loop].
  apply after_end_ext; [intros; by apply retry_fuel|intros [chunk e'] w1 (w0 & w0' & Er%retry_counts)].
  destruct chunk as [chunk|]; [|done]. apply bind_ext; [done|intros data w2 _].
  apply bind_ext; [done|intros rc' w3 _]. destruct (rc' =? NGX_ERROR); [done|]. apply IH. lia.
Qed.

(** Programs that come to their end before their rounds are used up, with a
    result that satisfies [Q], unless their behaviour is undefined. *)
Definition finishes {A} (m : M W (bounded A)) (Q : A -> Prop) : Prop :=
  forall w o w', m w = Some (o, w') -> exists a, o = Ended a /\ Q a.

Lemma finishes_ret {A} (a : A) (Q : A -> Prop) : Q a -> finishes (mret (Ended a)) Q.
Proof using. intros HQ w o w' [= <- <-]. by exists a. Qed.
Lemma finishes_bind {A B} (m : M W A) (k : A -> M W (bounded B)) Q : (forall a, finishes (k a) Q) -> finishes (m ≫= k) Q.
Proof using. intros Hk w o w' E. unfold mbind, M_bind in E. destruct (m w) as [[a w1]|]; [by apply (Hk a) in E|done]. Qed.
Lemma finishes_after {A B} (m : M W (bounded A)) (k : A -> M W (bounded B)) P Q :
  finishes m P -> (forall a, P a -> finishes (k a) Q) -> finishes (after_end m k) Q.
Proof using.
  intros Hm Hk w o w' E. unfold after_end, mbind, M_bind in E. destruct (m w) as [[o1 w1]|] eqn:Em; [|done].
  destruct (Hm _ _ _ Em) as (a & -> & Ha). by apply (Hk a Ha) in E.
Qed.

Lemma retry_finishes {A} fuel i c e (attempt : M W (option A)) :
  0 <= e -> finishes (retry (S (S fuel)) i c e attempt) (fun r => 0 <= r.2).
Proof using.
  intros He w o w' E. rewrite retry_fuel in E by done. cbn [retry] in E. unfold mbind, M_bind, mret, M_ret in E.
  destruct (attempt w) as [[[a|] w1]|]; [injection E as <- <-; by eexists| |done].
  destruct (recover i c (e + 1) w1) as [[[|] w2]|]; [|injection E as <- <-; eexists; split; [done|simpl; lia]|done].
  destruct (attempt w2) as [[[a|] w3]|]; [injection E as <- <-; eexists; split; [done|simpl; lia]| |done].
  pose proof (recover_late i c (e + 1 + 1) w3 ltac:(lia)) as Hl.
  destruct (recover i c (e + 1 + 1) w3) as [[again w4]|]; [|done]. subst again. injection E as <- <-. eexists. split; [done|simpl; lia].
Qed.

Lemma body_loop_finishes fuel n i c f k rs re pos e rc :
  0 <= e -> finishes (body_loop (S (S fuel)) n i c f k rs re pos e rc) (fun _ => True).
Proof using.
  revert k pos e rc. induction n as [|n IH]; intros k pos e rc He; cbn [body_loop]; [by apply finishes_ret|].
  eapply finishes_after; [by apply retry_finishes|]. intros [chunk e'] He'. simpl in He'.
  destruct chunk as [chunk|]; [|by apply finishes_ret]. apply finishes_bind; intros data. apply finishes_bind; intros rc'.
  destruct (rc' =? NGX_ERROR); [by apply finishes_ret|by apply IH].
Qed.
End Ends.

(** ** Counting *)

Section Counting.
Context {W : Type} `{Reconnects W}.

(** All outcomes of [m] after [n] more reconnects satisfy [Q _ n]. *)
Definition spends {A} (m : M W A) (Q : A -> nat -> Prop) : Prop :=
  forall w a w', m w = Some (a, w') -> exists n, reconnects w' = (reconnects w + n)%nat /\ Q a n.

Lemma spends_weaken {A} (m : M W A) (Q Q' : A -> nat -> Prop) :
  spends m Q -> (forall a n, Q a n -> Q' a n) -> spends m Q'.
Proof using. intros Hm HQ w a w' E. destruct (Hm _ _ _ E) as (n & ? & ?). exists n. auto. Qed.

Lemma spends_after {A B} (m : M W (bounded A)) (k : A -> M W (bounded B)) P Q :
  spends m P -> (forall a n, P (Ended a) n -> spends (k a) (fun b n' => Q b (n + n')%nat)) ->
  (forall n, P Unfinished n -> Q Unfinished n) -> spends (after_end m k) Q.
Proof using.
  intros Hm Hk Hu w b w' E. unfold after_end, mbind, M_bind in E. destruct (m w) as [[[a|] w1]|] eqn:Em; [| |done].
  - destruct (Hm _ _ _ Em) as (n & E1 & HP). destruct (Hk a n HP _ _ _ E) as (n' & E2 & HQ).
    exists (n + n')%nat. split; [lia|done].
  - destruct (Hm _ _ _ Em) as (n & E1 & HP). injection E as <- <-. exists n. split; [done|by apply Hu].
Qed.

Lemma spends_ret {A} (a : A) (Q : A -> nat -> Prop) : Q a 0%nat -> spends (mret a) Q.
Proof using. intros HQ w a' w' [= <- <-]. exists 0%nat. split; [lia|done]. Qed.

Lemma spends_bind {A B} (m : M W A) (k : A -> M W B) P Q :
  spends m P -> (forall a n, P a n -> spends (k a) (fun b n' => Q b (n + n')%nat)) -> spends (m ≫= k) Q.
Proof using.
  intros Hm Hk w b w' E. unfold mbind, M_bind in E. destruct (m w) as [[a w1]|] eqn:Em; [|done].
  destruct (Hm _ _ _ Em) as (n & E1 & HP). destruct (Hk a n HP _ _ _ E) as (n' & E2 & HQ).
  exists (n + n')%nat. split; [lia|done].
Qed.

(** A program that opens nothing again. *)
Definition free {A} (m : M W A) : Prop := spends m (fun _ n => n = 0%nat).

Lemma spends_free {A} (m : M W A) (Q : A -> nat -> Prop) : free m -> (forall a, Q a 0%nat) -> spends m Q.
Proof using. intros Hm HQ. eapply spends_weaken; [exact Hm|]. by intros a n ->. Qed.
Lemma free_bind {A B} (m : M W A) (k : A -> M W B) : free m -> (forall a, free (k a)) -> free (m ≫= k).
Proof using. intros Hm Hk. eapply spends_bind; [done|]. intros a n ->. apply Hk. Qed.
Lemma spends_free_bind {A B} (m : M W A) (k : A -> M W B) Q :
  free m -> (forall a, spends (k a) Q) -> spends (m ≫= k) Q.
Proof using. intros Hm Hk. eapply spends_bind; [done|]. intros a n ->. apply Hk. Qed.
Lemma free_ret {A} (a : A) : free (mret a).
Proof using. by apply spends_ret. Qed.
Lemma free_or_crash {A} (x : option A) : free (or_crash x).
Proof using. destruct x; [by apply spends_ret|done]. Qed.
Lemma free_ask {A} (f : W -> A) : free (ask f).
Proof using. intros w a w' [= <- <-]. exists 0%nat. split; [lia|done]. Qed.
Lemma free_tell (f : W -> W) : (forall w, reconnects (f w) = reconnects w) -> free (tell f).
Proof using. intros Hf w a w' [= <- <-]. exists 0%nat. rewrite Hf. split; [lia|done]. Qed.
Lemma free_io {A} (f : W -> A * W) : (forall w, reconnects (f w).2 = reconnects w) -> free (io f).
Proof using.
  intros Hf w a w' E. unfold io in E. injection E as E. exists 0%nat.
  specialize (Hf w). rewrite E in Hf. simpl in Hf. split; [lia|done].
Qed.
Lemma free_if {A} (b : bool) (m1 m2 : M W A) : free m1 -> free m2 -> free (if b then m1 else m2).
Proof using. by destruct b. Qed.
End Counting.

Create HintDb spends.
#[export] Hint Resolve free_ret free_or_crash free_ask : spends.
#[export] Hint Resolve disconnect_free msleep_free authenticate_free create_index_free find_free
  find_one_free send_header_free output_filter_free : spends.

(** Programs built of calls that open nothing again. *)
Ltac free :=
  repeat first
    [ progress cbv beta iota zeta
    | apply free_bind; [|intros ?]
    | match goal with
      | |- free (io _) => apply free_io; intros ?
      | |- free (tell _) => apply free_tell; intros ?
      end
    | solve [auto with spends]
    | match goal with
      | |- free (match ?x with _ => _ end) => destruct x
      end ].

Section Bound.
Context {W : Type} `{Reconnects W}.

Lemma reauth_free i c : free (ngx_http_mongo_reauth i c).
Proof using. unfold ngx_http_mongo_reauth. induction (auths c) as [|a l IH]; cbn [reauth_loop]; free. Qed.

Lemma reconnect_spends i : spends (ngx_http_mongo_reconnect i) (fun _ n => n = 1%nat).
Proof using.
  unfold ngx_http_mongo_reconnect. apply spends_free_bind; [free|intros _].
  apply spends_free_bind; [free|intros _].
  apply spends_bind with (P := fun _ n => n = 1%nat).
  - intros w a w' E. unfold io in E. injection E as E. exists 1%nat. split; [|done].
    pose proof (reconnect_counts i w) as Hc. rewrite E in Hc. simpl in Hc. lia.
  - intros a n ->. apply spends_ret. done.
Qed.

(** Another attempt is one reconnect, and there is at most one of them. *)
Definition left (e : Z) : nat := if 1 <=? e then 0 else 1.

Lemma recover_spends i c e : spends (recover i c (e + 1)) (fun _ n => (n <= left e)%nat).
Proof using.
  unfold recover, MONGO_MAX_RETRIES_PER_REQUEST, left.
  destruct (Z.ltb_spec 1 (e + 1)), (Z.leb_spec 1 e); try lia.
  - apply spends_free; [free|lia].
  - eapply spends_bind; [apply reconnect_spends|]. intros rc n ->.
    apply spends_free; [|lia].
    destruct (rc =? NGX_ERROR); [free|]. apply free_bind; [apply reauth_free|intros rc']. free.
Qed.

Lemma retry_spends {A} fuel i c e (attempt : M W (option A)) :
  0 <= e -> free attempt ->
  spends (retry fuel i c e attempt)
    (fun o n => match o with Ended r => 0 <= r.2 /\ (n + left r.2 <= left e)%nat | Unfinished => (n <= left e)%nat end).
Proof using.
  intros He Ha. revert e He. induction fuel as [|fuel IH]; intros e He; cbn [retry]; [by apply spends_ret; lia|].
  apply spends_free_bind; [done|]. intros [a|].
  { apply spends_ret. simpl. lia. }
  eapply spends_bind; [apply recover_spends|]. intros again n Hn. cbv beta in Hn.
  destruct again.
  - assert (Hl : (n + left (e + 1) <= left e)%nat) by (unfold left in *; destruct (Z.leb_spec 1 (e + 1)), (Z.leb_spec 1 e); lia).
    eapply spends_weaken; [apply IH; lia|]. intros [r|] n'; [intros [Hr Hn']; split; [done|]|intros Hn']; lia.
  - apply spends_ret. simpl. split; [lia|]. unfold left in *.
    destruct (Z.leb_spec 1 (e + 1)), (Z.leb_spec 1 e); lia.
Qed.

Lemma get_one_chunk_free i f k : free (@get_one_chunk W (client i) f k).
Proof using. unfold get_one_chunk, gridfile_get_chunks. free. Qed.

Lemma body_loop_spends fuel n i c f k rs re pos e rc :
  0 <= e -> spends (body_loop fuel n i c f k rs re pos e rc) (fun _ n => (n <= left e)%nat).
Proof using.
  revert k pos e rc. induction n as [|n IH]; intros k pos e rc He; cbn [body_loop].
  { apply spends_ret. lia. }
  eapply spends_after; [apply retry_spends; [done|apply get_one_chunk_free]| |done].
  intros [chunk e'] m [He' Hm]. simpl in He', Hm.
  destruct chunk as [chunk|]; [|apply spends_ret; lia].
  apply spends_free_bind; [free|intros data]. apply spends_free_bind; [free|intros rc'].
  destruct (rc' =? NGX_ERROR); [apply spends_ret; lia|].
  eapply spends_weaken; [by apply IH|]. simpl. lia.
Qed.

Lemma ensure_connection_spends conns m :
  spends (ensure_connection conns m) (fun _ n => (n <= 1)%nat).
Proof using.
  unfold ensure_connection. destruct (ngx_http_get_mongo_connection m conns) as [[i c]|].
  - apply spends_free_bind; [free|intros [|]]; [apply spends_ret; lia|].
    eapply spends_bind; [apply reconnect_spends|]. intros rc n ->.
    apply spends_free; [|lia].
    destruct (rc =? NGX_ERROR); [free|]. apply free_bind; [apply reauth_free|intros rc']. free.
  - apply spends_ret. lia.
Qed.

Lemma send_headers_free fuel r f : free (send_headers fuel r f).
Proof using.
  unfold send_headers. apply free_bind; [free|intros t]. unfold after_end. apply free_bind; [free|intros [[rs re]|]; [|free]].
  destruct (range_headers rs re _) as [[st n] cr]. free.
Qed.

Lemma handler_spends fuel conns conf f r :
  spends (ngx_http_gridfs_handler fuel conns conf f r) (fun _ n => (n <= 2)%nat).
Proof using.
  unfold ngx_http_gridfs_handler. apply spends_free_bind; [free|intros m].
  eapply spends_bind; [apply ensure_connection_spends|]. intros con n Hn. cbv beta in Hn.
  destruct con as [rc|[i c]]; [apply spends_ret; lia|].
  apply spends_free_bind; [free|intros [rc|value]]; [apply spends_ret; lia|].
  apply spends_free_bind; [free|intros d].
  eapply spends_after; [apply retry_spends; [lia|]| |].
  { unfold gridfs_init. free. }
  2: { intros n' Hn'. cbv beta iota in Hn'. change (left 0) with 1%nat in Hn'. lia. }
  intros [g e] n' [He Hn']. change (left 0) with 1%nat in Hn'. simpl in He, Hn'.
  destruct g as [g|]; [|apply spends_ret; lia].
  apply spends_free_bind; [free|intros query].
  apply spends_free_bind; [unfold gridfs_find_query; free|intros [rc f']].
  destruct (rc =? MONGO_ERROR); [apply spends_ret; lia|].
  destruct (INT_MAX <? _); [apply spends_ret; lia|].
  eapply spends_after; [apply send_headers_free| |intros n3 Hn3; cbv beta in Hn3; lia]. intros [rs re] n2 ->.
  unfold send_body. destruct (_ =? 0).
  - apply spends_free; [free|lia].
  - eapply spends_weaken; [by apply body_loop_spends|]. cbv beta. lia.
Qed.
End Bound.

(** ** The parser of ranges *)

(** A round of the loop on a character. *)
Definition range_round (loop : list Z -> range_state -> range -> option (range + range_state * range))
    (c : Z) (p : list Z) (st : range_state) (r : range) (L : Z) : option (range + range_state * range) :=
  let digit := ("0"%chr <=? c) && (c <=? "9"%chr) in
  let first r :=
    if c =? "-"%chr then loop p sw_last_byte_pos r
    else if negb digit then Some (inl r)
    else loop p sw_first_byte_pos_n (r <| start := s64 (start r * 10 + c - "0"%chr) |>) in
  let last r :=
    if is_separator c then loop (c :: p) sw_done r
    else if negb digit then Some (inl r)
    else loop p sw_last_byte_pos_n (r <| end_ := s64 (end_ r * 10 + c - "0"%chr) |>) in
  match st with
  | sw_start | sw_first_byte_pos => if c =? "-"%chr then loop p sw_last_byte_pos r else first (r <| start := 0 |>)
  | sw_first_byte_pos_n => first r
  | sw_last_byte_pos =>
      if is_separator c then loop (c :: p) sw_done (r <| end_ := s64 (L - 1) |>) else last (r <| end_ := 0 |>)
  | sw_last_byte_pos_n => last r
  | sw_done => loop (c :: p) sw_done (r <| range_start := u64 (start r) |> <| range_end := u64 (end_ r) |>)
  end.

Lemma range_loop_S fuel c p st r L :
  range_loop (S fuel) (c :: p) st r L = range_round (fun p st r => range_loop fuel p st r L) c p st r L.
Proof. by destruct st. Qed.

Lemma range_loop_more fuel : forall p st r L x, range_loop fuel p st r L = Some x -> range_loop (S fuel) p st r L = Some x.
Proof.
  induction fuel as [|fuel IH]; intros [|c p] st r L x; [done|done|done|]. rewrite !range_loop_S. unfold range_round. cbv zeta.
  destruct st, (c =? "-"%chr), (is_separator c), (negb (("0"%chr <=? c) && (c <=? "9"%chr))); try done; apply IH.
Qed.

Lemma parse_range_more n fuel v rs re L x : gridfs_parse_range fuel v rs re L = Some x -> gridfs_parse_range (n + fuel) v rs re L = Some x.
Proof.
  unfold gridfs_parse_range. destruct (ngx_strnstr v (bs "bytes=")) as [p|]; [|done].
  destruct (range_loop fuel _ _ _ _) as [y|] eqn:E; [|done]. intros <-.
  assert (range_loop (n + fuel) (drop 6 p) sw_start (Range rs re 0 0) L = Some y) as ->; [|done].
  induction n as [|n IH]; [done|]. by apply range_loop_more.
Qed.

(** The parser comes to the end of the header, if there is one, in [fuel]
    rounds, whatever the length of the file. *)
Definition range_read (fuel : nat) (r : http_request) : Prop :=
  match range_header r with
  | Some v => forall L, is_Some (gridfs_parse_range fuel v 0 0 L)
  | None => True
  end.

Section Whole.
Context {W : Type} `{Driver W} `{Http W}.

Lemma send_headers_fuel n fuel r f (w : W) : range_read fuel r -> send_headers (n + fuel) r f w = send_headers fuel r f w.
Proof using.
  unfold range_read, send_headers. destruct (range_header r) as [v|]; [|done]. intros Hv.
  destruct (Hv (gridfile_get_contentlength f)) as [x E]. by rewrite (parse_range_more n _ _ _ _ _ _ E), E.
Qed.

Lemma send_headers_finishes fuel r f : range_read fuel r -> finishes (send_headers fuel r f : M W _) (fun _ => True).
Proof using.
  intros Hr. unfold send_headers. apply finishes_bind; intros t. apply finishes_after with (P := fun _ => True).
  - unfold range_read in Hr. destruct (range_header r) as [v|]; [|by apply finishes_ret].
    destruct (Hr (gridfile_get_contentlength f)) as [x ->]. by apply finishes_ret.
  - intros [rs re] _. destruct (range_headers rs re _) as [[st n] cr]. apply finishes_bind; intros rc. by apply finishes_ret.
Qed.

Lemma handler_finishes fuel conns conf f r : range_read (S (S fuel)) r ->
  finishes (ngx_http_gridfs_handler (S (S fuel)) conns conf f r : M W _) (fun _ => True).
Proof using.
  intros Hr. unfold ngx_http_gridfs_handler. apply finishes_bind; intros m.
  apply finishes_bind; intros [rc|[i c]]; [by apply finishes_ret|]. apply finishes_bind; intros [rc|value]; [by apply finishes_ret|].
  apply finishes_bind; intros d. eapply finishes_after; [by apply retry_finishes|]. intros [g e] He. simpl in He.
  destruct g as [g|]; [|by apply finishes_ret]. apply finishes_bind; intros query. apply finishes_bind; intros [rc f'].
  destruct (rc =? MONGO_ERROR); [by apply finishes_ret|]. destruct (INT_MAX <? _); [by apply finishes_ret|].
  eapply finishes_after; [by apply send_headers_finishes|]. intros [rs re] _. unfold send_body.
  destruct (_ =? 0); [|by apply body_loop_finishes]. apply finishes_bind; intros rc'. by apply finishes_ret.
Qed.
End Whole.

(** ** Properties *)

(** C32: Every request ends whose [Range] header, if it has one, the parser reads
    to its end: whatever the server answers, the handler returns before the
    rounds of its loops are used up, unless its behaviour is undefined, with
    two rounds for the loops that open the connection again; more rounds make
    no difference.  (The parser does not come to the end of a header with two
    ranges, and the request does not end then.) *)
Theorem ngx_http_gridfs_handler_ends `{Driver W} `{Http W} fuel more conns conf f r (w : W) :
  range_read (2 + fuel) r ->
  (forall o w', ngx_http_gridfs_handler (2 + fuel) conns conf f r w = Some (o, w') -> exists rc, o = Ended rc) /\
  ngx_http_gridfs_handler (more + (2 + fuel)) conns conf f r w = ngx_http_gridfs_handler (2 + fuel) conns conf f r w.
Proof.
  intros Hr. split.
  { intros o w' E. destruct (handler_finishes fuel conns conf f r Hr _ _ _ E) as (rc & -> & _). by exists rc. }
  assert (Em : (more + (2 + fuel))%nat = S (S (more + fuel))) by lia. pose proof (send_headers_fuel more (2 + fuel) r) as Hsend.
  rewrite Em in Hsend |- *. change (2 + fuel)%nat with (S (S fuel)) in *.
  unfold ngx_http_gridfs_handler. apply bind_ext; [done|intros m w1 _].
  apply bind_ext; [done|intros [rc|[i c]] w2 _; [done|]].
  apply bind_ext; [done|intros [rc|value] w3 _; [done|]]. apply bind_ext; [done|intros d w4 _].
  apply after_end_ext; [intros; by rewrite (retry_fuel (more + fuel)), (retry_fuel fuel)|intros [g e] w5 (w0 & w0' & He%retry_counts)].
  destruct g as [g|]; [|done]. apply bind_ext; [done|intros query w6 _].
  apply bind_ext; [done|intros [rc f'] w7 _]. destruct (rc =? MONGO_ERROR); [done|].
  set (n := u64 _). destruct (INT_MAX <? n); [done|].
  apply after_end_ext; [intros w8; by apply Hsend|intros [rs re] w9 _].
  unfold send_body. destruct (n =? 0); [done|]. by rewrite (body_loop_fuel (more + fuel)), (body_loop_fuel fuel).
Qed.

Lemma ngx_http_gridfs_handler_ends_witness :
  (exists w', ngx_http_gridfs_handler 8 small_conns small_conf some_file (small_request (Some (bs "bytes=1-2"))) small_world = Some (Ended NGX_OK, w'))
  /\ ngx_http_gridfs_handler 18 small_conns small_conf some_file (small_request (Some (bs "bytes=1-2"))) small_world
     = ngx_http_gridfs_handler 8 small_conns small_conf some_file (small_request (Some (bs "bytes=1-2"))) small_world.
Proof.
  destruct (ngx_http_gridfs_handler_ends 6 10 small_conns small_conf some_file (small_request (Some (bs "bytes=1-2"))) small_world) as [H1 H2].
  { intros L. destruct (gridfs_parse_range 8 (bs "bytes=1-2") 0 0 L) eqn:E; [by eexists|]. by vm_compute in E. }
  split; [|exact H2].
  destruct (ngx_http_gridfs_handler 8 _ _ _ _ _) as [[o w']|] eqn:E; [|by vm_compute in E].
  destruct (H1 o w' E) as [rc ->]. vm_compute in E. injection E as <- <-. by eexists.
Defined.

(** With a separator after the first range the rounds are used up, however many
    there are. *)
Theorem ngx_http_gridfs_handler_hangs `{HandlerLaws W} i c fuel conns conf r f0 (w : W) m d value q doc o k data a b sep rest :
  servable i c conns conf r w m d value q doc o k data ->
  range_header r = Some (bs "bytes=" ++ range_text a b ++ sep :: rest) ->
  forallb is_digit a = true -> forallb is_digit b = true ->
  dec_value a < 2 ^ 63 -> dec_value b < 2 ^ 63 -> is_separator sep = true ->
  exists w', ngx_http_gridfs_handler (length (range_text a b) + S fuel) conns conf f0 r w = Some (Unfinished, w').
Proof.
  intros Hsv Hr Ha Hb Hma Hmb Hsep. rewrite Nat.add_succ_r.
  destruct (handler_finds i c (length (range_text a b) + fuel) conns conf r f0 w m d value q doc o k data Hsv) as (w1 & _ & _ & ->).
  destruct Hsv. destruct sv_date as [t Ht]. set (f := gridfile_init _ doc f0).
  assert (meta f = doc) as Hmeta by by destruct f0.
  assert (gridfile_get_uploaddate f = Some t) as Hu by (unfold gridfile_get_uploaddate; by rewrite Hmeta, Ht).
  exists w1. unfold send_headers. rewrite Hu, Hr, <- Nat.add_succ_r.
  by rewrite gridfs_parse_range_hangs.
Qed.

Lemma ngx_http_gridfs_handler_hangs_witness : exists w',
  ngx_http_gridfs_handler 13 small_conns small_conf some_file (small_request (Some (bs "bytes=0-1,2-2"))) small_world = Some (Unfinished, w').
Proof.
  apply (ngx_http_gridfs_handler_hangs 0 (Connection (bs "m") []) 9 small_conns small_conf
      (small_request (Some (bs "bytes=0-1,2-2"))) some_file small_world (bs "m") (bs "d") [97; 0] small_key
      small_doc small_id 2 [10; 20; 30] (bs "0") (bs "1") ","%chr (bs "2-2")); [apply small_servable|by vm_compute..].
Defined.

(** A request opens its connection again at most twice: once when it finds
    it closed, and once more in all for everything it then asks the server. *)
Theorem ngx_http_gridfs_handler_reconnects `{Reconnects W} fuel conns conf f r (w : W) rc w' :
  ngx_http_gridfs_handler fuel conns conf f r w = Some (rc, w') ->
  (reconnects w <= reconnects w' <= reconnects w + 2)%nat.
Proof. intros E. apply handler_spends in E as (n & -> & Hn). lia. Qed.

(** The connection is closed, then opened. *)
Lemma ngx_http_gridfs_handler_reconnects_witness : exists w',
  ngx_http_gridfs_handler 2 small_conns small_conf some_file (small_request None)
    (small_world <| open_links := ∅ |>) = Some (Ended NGX_OK, w')
  /\ tries w' = 1%nat /\ (0 <= tries w' <= 2)%nat.
Proof.
  set (w0 := small_world <| open_links := ∅ |>).
  set (x := ngx_http_gridfs_handler 2 small_conns small_conf some_file (small_request None) w0).
  destruct x as [[rc w']|] eqn:E; [|vm_compute in E; discriminate E].
  pose proof (ngx_http_gridfs_handler_reconnects 2 small_conns small_conf some_file (small_request None)
    w0 rc w' E) as Hb.
  assert (rc = Ended NGX_OK /\ tries w' = 1%nat) as [-> Ht].
  { vm_compute in E. injection E as <- <-. by split. }
  exists w'. split; [reflexivity|]. split; [exact Ht|exact Hb].
Defined.
