(* ===== verification/GridfsRegistry.v ===== *)
(** * Configurations and the array of connections

    What holds of every configuration a location can have, and of the array of
    connections a worker starts with. *)

From S2P Require Import Prelude NgxInet NgxUrl BsonUtf8 BsonBuild BsonIter BsonDoc GridFS GridFSSpec GridFSMemory GridfsUrl GridfsConf GridfsHandler GridfsWorld GridfsServe GridfsRetry.

Set Warnings "-register-all".

#[local] Abbreviation length := (@List.length _).

(** ** Configurations *)

Definition key_types : list Z := [BSON_OID; BSON_STRING; BSON_INT].
Definition key_fields : list (list Z) := [bs "filename"; bs "_id"; bs "storageKey"].

(** Every setting is missing or one of those the handler knows. *)
Definition plausible (c : loc_conf) : Prop :=
  (type c = NGX_CONF_UNSET_UINT \/ type c ∈ key_types)
  /\ (forall f, field c = Some f -> f ∈ key_fields)
  /\ (forall l, mongods c = Some l -> l <> []).
(** Every setting is there. *)
Definition complete (c : loc_conf) : Prop :=
  type c ∈ key_types /\ (exists f, field c = Some f /\ f ∈ key_fields)
  /\ is_Some (root_collection c) /\ is_Some (mongo c)
  /\ (exists l, mongods c = Some l /\ l <> []).

Lemma parse_type_known s t : parse_type s = Some t -> t ∈ key_types.
Proof.
  unfold parse_type, key_types. change (8 - 1 =? 0) with false. cbv beta iota zeta.
  repeat case_match; intros [= <-]; by apply (bool_decide_unpack _).
Qed.

Lemma gridfs_param_plausible v c c' : gridfs_param v c = Some c' -> plausible c -> plausible c'.
Proof.
  unfold gridfs_param, plausible. intros E (Ht & Hf & Hm).
  destruct (strip (bs "root_collection=") v); [injection E as <-; by split_and!|].
  destruct (strip (bs "field=") v) as [s|].
  { assert (s ∈ key_fields /\ Some (c <| field := Some s |>) = Some c') as [Hs [= <-]].
    { destruct (_ || _) eqn:Eb in E; [|done]. split; [|done]. unfold key_fields.
      rewrite !orb_true_iff, !bool_decide_eq_true in Eb. rewrite !elem_of_cons. tauto. }
    split_and!; [done| |done]. intros f [= <-]. done. }
  destruct (strip (bs "type=") v) as [s|].
  { destruct (parse_type s) as [t|] eqn:Et; [|done]. injection E as <-.
    split_and!; [|done|done]. right. by eapply parse_type_known. }
  destruct (strip (bs "user=") v); [injection E as <-; by split_and!|].
  destruct (strip (bs "pass=") v); [injection E as <-; by split_and!|done].
Qed.

Lemma gridfs_params_plausible vs c c' : gridfs_params vs c = Some c' -> plausible c -> plausible c'.
Proof.
  revert c. induction vs as [|v vs IH]; intros c E Hc; simpl in E; [by simplify_eq|].
  destruct (gridfs_param v c) as [c1|] eqn:E1; [|done]. eapply IH; [done|].
  by eapply gridfs_param_plausible.
Qed.

Lemma merge_complete locs p c :
  plausible p -> plausible c -> complete (ngx_http_gridfs_merge_loc_conf locs p c).1.
Proof.
  intros (Pt & Pf & Pm) (Ct & Cf & Cm). unfold complete. simpl.
  unfold ngx_conf_merge_str_value, ngx_conf_merge_uint_value. split_and!.
  - destruct (Z.eqb_spec (type c) NGX_CONF_UNSET_UINT); [|by destruct Ct].
    destruct (Z.eqb_spec (type p) NGX_CONF_UNSET_UINT); [by left|by destruct Pt].
  - destruct (field c) as [f|]; [by eauto|]. destruct (field p) as [f|]; [by eauto|].
    eexists. split; [done|]. by right; left.
  - by repeat case_match.
  - by repeat case_match.
  - destruct (mongods c) as [l|]; [by eauto|]. destruct (mongods p) as [l|]; [by eauto|]. by eexists.
Qed.

Section Written.
Context (getaddrinfo : list Z -> option (list (option sockaddr))).

(** What the directives of one location can write. *)
Inductive written : loc_conf -> Prop :=
  | written_nothing : written ngx_http_gridfs_create_loc_conf
  | written_mongo arg args c c' :
      written c -> ngx_http_mongo getaddrinfo arg args c = Some c' -> written c'
  | written_gridfs arg args c c' :
      written c -> ngx_http_gridfs arg args c = Some c' -> written c'.

(** The configurations that are merged into others: those of the blocks around
    locations, and those of locations. *)
Inductive enclosing : loc_conf -> Prop :=
  | enclosing_written c : written c -> enclosing c
  | enclosing_location locs p c :
      enclosing p -> written c -> enclosing (ngx_http_gridfs_merge_loc_conf locs p c).1.

Lemma mongo_servers_length args l : mongo_servers getaddrinfo args = Some l -> length l = length args.
Proof using getaddrinfo.
  revert l. induction args as [|a args IH]; intros l E; simpl in E; [by simplify_eq|].
  destruct (mongo_url getaddrinfo a) as [[h p]|]; [|done]. simpl in E.
  destruct (mongo_servers getaddrinfo args) as [l'|]; [|done]. simplify_option_eq. simpl. by rewrite (IH l').
Qed.

Lemma written_plausible c : written c -> plausible c.
Proof using getaddrinfo.
  induction 1 as [|arg args c c' _ IH E|arg args c c' _ IH E].
  - split_and!; [by left|done|done].
  - destruct IH as (Ht & Hf & Hm). unfold ngx_http_mongo in E.
    destruct args as [|a args];
      (destruct (mongo_servers _ _) as [l|] eqn:El in E; [|done]); injection E as <-;
      (split_and!; [done|done|]); intros l' [= <-] ->; by apply mongo_servers_length in El.
  - unfold ngx_http_gridfs in E.
    destruct (gridfs_params args (c <| db := Some arg |>)) as [c1|] eqn:E1; [|done].
    cbn [mbind option_bind] in E. repeat case_match; simplify_eq.
    by eapply gridfs_params_plausible.
Qed.

Lemma enclosing_plausible c : enclosing c -> plausible c.
Proof using getaddrinfo.
  induction 1 as [c Hc|locs p c _ IH Hc]; [by apply written_plausible|].
  destruct (merge_complete locs p c IH (written_plausible _ Hc)) as (Ht & (f & Ef & Hf) & _ & _ & l & El & Hl).
  split_and!; [by right| |]; intros; congruence.
Qed.
End Written.

(** ** Connections *)

Lemma get_connection_found i n conns j c :
  get_connection i n conns = Some (j, c) ->
  exists k, j = (i + k)%nat /\ conns !! k = Some c /\ name c = n.
Proof.
  revert i. induction conns as [|c0 conns IH]; intros i E; simpl in E; [done|]. case_bool_decide.
  - simplify_eq. exists 0%nat. split; [lia|done].
  - apply IH in E as (k & -> & ? & ?). exists (S k). split; [lia|done].
Qed.

Lemma get_connection_none i n conns : get_connection i n conns = None -> n ∉ map name conns.
Proof.
  revert i. induction conns as [|c0 conns IH]; intros i E; simpl in E; [apply not_elem_of_nil|].
  case_bool_decide; [done|]. apply IH in E. simpl. rewrite not_elem_of_cons. split; [congruence|done].
Qed.

(** The credentials of a location, and what became of it. *)
Definition credentials (conf : loc_conf) (a : mongo_auth) : Prop :=
  db conf = Some (auth_db a) /\ user conf = Some (auth_user a) /\ pass conf = Some (auth_pass a).
Definition connected_for (conns : list connection) (conf : loc_conf) : Prop :=
  exists c, c ∈ conns /\ mongo conf = Some (name c) /\ forall a, credentials conf a -> a ∈ auths c.

(** No two connections have a name, and all there is comes from a location. *)
Definition registered (confs : list loc_conf) (conns : list connection) : Prop :=
  NoDup (map name conns) /\ forall c, c ∈ conns ->
    (exists conf, conf ∈ confs /\ mongo conf = Some (name c)) /\
    forall a, a ∈ auths c -> exists conf, conf ∈ confs /\ mongo conf = Some (name c) /\ credentials conf a.

(** What grows in the array: entries, and credentials of the entries. *)
Definition grows (conns conns' : list connection) : Prop :=
  forall c, c ∈ conns -> exists c', c' ∈ conns' /\ name c' = name c /\ auths c ⊆ auths c'.

#[export] Instance grows_preorder : PreOrder grows.
Proof.
  split; [intros l c Hc; by exists c|]. intros l1 l2 l3 H12 H23 c Hc.
  destruct (H12 c Hc) as (c2 & Hc2 & En & Ha). destruct (H23 c2 Hc2) as (c3 & Hc3 & En3 & Ha3).
  exists c3. split; [done|]. split; [congruence|]. by etrans.
Qed.

Lemma grows_connected_for conns conns' conf :
  grows conns conns' -> connected_for conns conf -> connected_for conns' conf.
Proof.
  intros Hg (c & Hc & Hm & Ha). destruct (Hg c Hc) as (c' & Hc' & En & Hs). exists c'.
  split; [done|]. split; [by rewrite En|]. intros a Hcr. by apply Hs, Ha.
Qed.

Lemma grows_app conns c : grows conns (conns ++ [c]).
Proof. intros c0 Hc. exists c0. split; [apply elem_of_app; by left|done]. Qed.
Lemma grows_insert conns i c a :
  conns !! i = Some c -> grows conns (<[i := Connection (name c) (auths c ++ [a])]> conns).
Proof.
  intros Hi c0 [j Hj]%list_elem_of_lookup. destruct (decide (i = j)) as [<- |Hij].
  - exists (Connection (name c) (auths c ++ [a])). simplify_eq.
    split; [apply list_elem_of_lookup; exists i; apply list_lookup_insert_eq; by eapply lookup_lt_Some|].
    split; [done|]. simpl. set_solver.
  - exists c0. split; [|done]. apply list_elem_of_lookup. exists j. by rewrite list_lookup_insert_ne.
Qed.

Lemma insert_names (conns : list connection) i c l :
  conns !! i = Some c -> map name (<[i := Connection (name c) l]> conns) = map name conns.
Proof. intros Hi. rewrite list_fmap_insert. apply list_insert_id. by rewrite list_lookup_fmap, Hi. Qed.
Lemma insert_elem (conns : list connection) i c l c' :
  conns !! i = Some c -> c' ∈ <[i := Connection (name c) l]> conns ->
  c' = Connection (name c) l \/ c' ∈ conns.
Proof.
  intros Hi [j Hj]%list_elem_of_lookup. destruct (decide (i = j)) as [<- |Hij].
  - rewrite list_lookup_insert_eq in Hj by (by eapply lookup_lt_Some). left. congruence.
  - rewrite list_lookup_insert_ne in Hj by done. right. by eapply list_elem_of_lookup_2.
Qed.

(** The two steps keep the array's form, for the location of the step. *)
Lemma registered_add confs conns conf m :
  conf ∈ confs -> mongo conf = Some m -> m ∉ map name conns ->
  registered confs conns -> registered confs (conns ++ [Connection m []]).
Proof.
  intros Hin Hm Hnew [Hnd Hall]. split.
  - rewrite map_app. apply NoDup_app. split; [done|]. split; [|apply NoDup_singleton].
    intros x Hx ->%list_elem_of_singleton. done.
  - intros c [Hc| ->%list_elem_of_singleton]%elem_of_app; [by apply Hall|]. split; [by exists conf|].
    intros a []%elem_of_nil.
Qed.
Lemma registered_auth confs conns conf i c a :
  conf ∈ confs -> mongo conf = Some (name c) -> credentials conf a -> conns !! i = Some c ->
  registered confs conns -> registered confs (<[i := Connection (name c) (auths c ++ [a])]> conns).
Proof.
  intros Hin Hm Hcr Hi [Hnd Hall]. split; [by rewrite insert_names|].
  intros c' [-> |Hc']%insert_elem; [|by apply Hall|done]. simpl.
  destruct (Hall c) as [Hname Hauths]; [by eapply list_elem_of_lookup_2|]. split; [done|].
  intros a' [Ha| ->%list_elem_of_singleton]%elem_of_app; [by apply Hauths|]. by exists conf.
Qed.

Section Init.
Context {W : Type} `{Driver W}.

Lemma copy_host_short h (w : W) : (length h < 255)%nat -> copy_host h w = Some (h, w).
Proof using. intros Hh. unfold copy_host. by rewrite (proj2 (Nat.leb_le _ _)) by lia. Qed.

(** A new connection, or none: whatever the outcome. *)
Lemma add_connection_step conns conf (w : W) rc conns' w' :
  ngx_http_mongo_add_connection conns conf w = Some ((rc, conns'), w') ->
  exists m, mongo conf = Some m /\
    ((conns' = conns /\ ngx_http_get_mongo_connection m conns <> None) \/
     (conns' = conns ++ [Connection m []] /\ m ∉ map name conns)).
Proof using.
  unfold ngx_http_mongo_add_connection. destruct (mongo conf) as [m|]; [|done]. rewrite bind_or_crash.
  destruct (mongods conf) as [servers|]; [|done]. rewrite bind_or_crash.
  destruct (ngx_http_get_mongo_connection m conns) as [[i c]|] eqn:Eg.
  - intros [= <- <- <-]. exists m. split; [done|]. left. by rewrite Eg.
  - intros E. exists m. split; [done|]. right. apply get_connection_none in Eg. split; [|done].
    unfold mbind at 1, M_bind at 1 in E. cbv zeta in E.
    match type of E with match ?x with _ => _ end = _ => destruct x as [[[s|] w1]|]; [..|done] end;
      by injection E as <- <- <-.
Qed.

(** Credentials are added to the connection, or nothing changes. *)
Lemma authenticate_step conns conf (w : W) rc conns' w' :
  ngx_http_mongo_authenticate conns conf w = Some ((rc, conns'), w') ->
  exists i c, mongo conf = Some (name c) /\ conns !! i = Some c /\
    ((conns' = conns /\ (rc = NGX_ERROR \/ forall a, ~ credentials conf a)) \/
     exists a, credentials conf a /\ conns' = <[i := Connection (name c) (auths c ++ [a])]> conns).
Proof using.
  unfold ngx_http_mongo_authenticate. intros E.
  destruct (mongo conf ≫= fun m => ngx_http_get_mongo_connection m conns) as [[i c]|] eqn:Eg; [|done].
  apply bind_Some in Eg as (m & Hm & (k & -> & Hk & Hn)%get_connection_found).
  rewrite bind_or_crash in E. cbv beta iota in E.
  destruct (db conf) as [d|] eqn:Hd; [|done]. rewrite bind_or_crash in E.
  exists k, c. split; [by subst|]. split; [done|].
  unfold credentials, mbind, M_bind, mret, M_ret, io in *. repeat case_match; simplify_eq.
  all: try (left; split; [done|]; (by left) || (right; intros a (? & ? & ?); congruence)).
  all: right; eexists; split; [|done]; done.
Qed.

Lemma step_grows conns conf (w : W) rc conns' w' :
  ngx_http_mongo_add_connection conns conf w = Some ((rc, conns'), w') \/
  ngx_http_mongo_authenticate conns conf w = Some ((rc, conns'), w') -> grows conns conns'.
Proof using.
  intros [(m & _ & [[-> _]|[-> _]])%add_connection_step|
    (i & c & _ & Hi & [[-> _]|(a & _ & ->)])%authenticate_step].
  - done.
  - apply grows_app.
  - done.
  - by apply grows_insert.
Qed.

Lemma step_registered confs conns conf (w : W) rc conns' w' :
  conf ∈ confs ->
  ngx_http_mongo_add_connection conns conf w = Some ((rc, conns'), w') \/
  ngx_http_mongo_authenticate conns conf w = Some ((rc, conns'), w') ->
  registered confs conns -> registered confs conns'.
Proof using.
  intros Hin [(m & Hm & [[-> _]|[-> Hnew]])%add_connection_step|
    (i & c & Hm & Hi & [[-> _]|(a & Ha & ->)])%authenticate_step]; try done.
  - by eapply registered_add.
  - by eapply registered_auth.
Qed.

Lemma authenticate_connects conns conf (w : W) rc conns' w' :
  ngx_http_mongo_authenticate conns conf w = Some ((rc, conns'), w') -> rc <> NGX_ERROR ->
  connected_for conns' conf.
Proof using.
  intros (i & c & Hm & Hi & Hr)%authenticate_step Hrc. destruct Hr as [[-> Hr]|(a & Ha & ->)].
  - destruct Hr as [|Hr]; [done|]. exists c. split; [by eapply list_elem_of_lookup_2|]. split; [done|].
    intros a Ha. by destruct (Hr a).
  - exists (Connection (name c) (auths c ++ [a])). split; [|split; [done|]].
    + apply list_elem_of_lookup. exists i. apply list_lookup_insert_eq. by eapply lookup_lt_Some.
    + intros a' Ha'. assert (a' = a) as ->; [|simpl; set_solver].
      destruct a, a', Ha as (? & ? & ?), Ha' as (? & ? & ?). simpl in *. congruence.
Qed.

Lemma init_worker_loop_registered all confs conns (w : W) conns' w' :
  confs ⊆ all -> init_worker_loop conns confs w = Some (conns', w') ->
  registered all conns -> registered all conns' /\ grows conns conns'.
Proof using.
  revert conns w. induction confs as [|conf confs IH]; intros conns w Hsub E Hreg; cbn [init_worker_loop] in E.
  { by injection E as <- <-. }
  assert (conf ∈ all) as Hin by (apply Hsub, elem_of_cons; by left).
  assert (confs ⊆ all) as Hsub' by (intros x Hx; apply Hsub, elem_of_cons; by right).
  unfold mbind at 1, M_bind at 1 in E.
  destruct (ngx_http_mongo_add_connection conns conf w) as [[[rc1 conns1] w1]|] eqn:E1; [|done].
  assert (registered all conns1) by (eapply step_registered; [done|by left|done]).
  assert (grows conns conns1) by (eapply step_grows; by left).
  destruct (rc1 =? NGX_ERROR); [by injection E as <- <-|].
  unfold mbind at 1, M_bind at 1 in E.
  destruct (ngx_http_mongo_authenticate conns1 conf w1) as [[[rc2 conns2] w2]|] eqn:E2; [|done].
  assert (registered all conns2) by (eapply step_registered; [done|by right|done]).
  assert (grows conns1 conns2) by (eapply step_grows; by right).
  destruct (rc2 =? NGX_ERROR); [injection E as <- <-; split; [done|]; by etrans|].
  apply IH in E as [? ?]; [|done|done]. split; [done|]. etrans; [|done]. by etrans.
Qed.
End Init.

(** ** A driver that accepts everything *)

Class Willing (W : Type) `{Driver W} := {
  client_willing i h p w : (mongo_client i h p w).1 = MONGO_CONN_SUCCESS;
  replica_willing i w : (mongo_replica_set_client i w).1 = MONGO_CONN_SUCCESS;
  authenticate_willing i d u p w : (mongo_cmd_authenticate i d u p w).1 = MONGO_OK;
  last_error_willing i d w : (mongo_cmd_get_last_error i d w).1 = 0
}.

(** A location that can be connected: a database, one server or the two to
    eight of a replica set, the names of their hosts short enough. *)
Definition ready (conf : loc_conf) : Prop :=
  is_Some (mongo conf) /\ is_Some (db conf) /\
  exists l, mongods conf = Some l /\ (1 <= length l < 9)%nat /\
    Forall (fun s => length (host s) < 255)%nat l /\ ((2 <= length l)%nat -> is_Some (replset conf)).

Section Willing.
Context {W : Type} `{Willing W}.

Lemma add_seeds_short i l (w : W) :
  Forall (fun s => length (host s) < 255)%nat l -> exists w', add_seeds i l w = Some (tt, w').
Proof using.
  intros Hl. revert w. induction Hl as [|s l Hs _ IH]; intros w; cbn [add_seeds]; [by eexists|].
  rewrite (bind_eq _ _ _ _ _ (copy_host_short _ w Hs)). unfold mbind, M_bind, tell. apply IH.
Qed.

Lemma add_connection_ready conns conf (w : W) :
  ready conf -> exists conns' w', ngx_http_mongo_add_connection conns conf w = Some ((NGX_OK, conns'), w').
Proof using All.
  intros ([m Hm] & _ & l & Hl & Hlen & Hhosts & Hset). unfold ngx_http_mongo_add_connection.
  rewrite Hm, bind_or_crash, Hl, bind_or_crash.
  destruct (ngx_http_get_mongo_connection m conns); [by do 2 eexists|]. cbv zeta.
  match goal with |- context [(?S ≫= ?k) w] =>
    assert (exists w1, S w = Some (Some MONGO_CONN_SUCCESS, w1)) as [w1 E];
      [|rewrite (bind_eq S k w _ _ E); by do 2 eexists] end.
  destruct l as [|s [|s2 l]]; [simpl in Hlen; lia| |].
  - apply Forall_cons in Hhosts as [Hs _]. rewrite (bind_eq _ _ _ _ _ (copy_host_short _ w Hs)).
    pose proof (client_willing (length conns) (host s) (port s) w) as Hc.
    unfold mbind, M_bind, mret, M_ret, io. destruct (mongo_client _ _ _ w) as [st w1]. simpl in Hc. subst st. by eexists.
  - cbv iota. rewrite (proj2 (Nat.leb_le 2 _)), (proj2 (Nat.ltb_lt _ 9)) by (simpl in *; lia). cbn [andb].
    destruct Hset as [r Hr]; [simpl; lia|]. rewrite Hr, bind_or_crash.
    destruct (add_seeds_short (length conns) (s :: s2 :: l) (mongo_replica_set_init (length conns) r w) Hhosts)
      as [w1 E1].
    unfold mbind at 1, M_bind at 1, tell. rewrite (bind_eq _ _ _ _ _ E1).
    pose proof (replica_willing (length conns) w1) as Hc.
    unfold mbind, M_bind, mret, M_ret, io. destruct (mongo_replica_set_client _ w1) as [st w2]. simpl in Hc. subst st.
    by eexists.
Qed.

Lemma authenticate_ready conns conf m (w : W) :
  mongo conf = Some m -> is_Some (db conf) -> ngx_http_get_mongo_connection m conns <> None ->
  exists conns' w', ngx_http_mongo_authenticate conns conf w = Some ((NGX_OK, conns'), w').
Proof using All.
  intros Hm [d Hd] Hc. unfold ngx_http_mongo_authenticate. rewrite Hm. cbn [mbind option_bind].
  destruct (ngx_http_get_mongo_connection m conns) as [[i c]|]; [|done]. rewrite bind_or_crash.
  cbv beta iota. rewrite Hd, bind_or_crash.
  match goal with |- context [(?S ≫= ?k) w] =>
    assert (exists conns1 w1, S w = Some (Some conns1, w1)) as (conns1 & w1 & E);
      [|rewrite (bind_eq S k w _ _ E)] end.
  { destruct (user conf) as [u|], (pass conf) as [p|]; try by do 2 eexists.
    pose proof (authenticate_willing i d u p w) as Ha. unfold mbind, M_bind, mret, M_ret, io.
    destruct (mongo_cmd_authenticate i d u p w) as [st w1]. simpl in Ha. subst st. by do 2 eexists. }
  cbv beta iota. unfold mbind, M_bind, mret, M_ret, io.
  destruct (mongo_find _ _ _ w1) as [cur w2]. pose proof (last_error_willing i d w2) as Ha.
  destruct (mongo_cmd_get_last_error i d w2) as [st w3]. simpl in Ha. subst st. by do 2 eexists.
Qed.

Lemma init_worker_loop_connects confs conns (w : W) :
  Forall ready confs -> exists conns' w', init_worker_loop conns confs w = Some (conns', w')
    /\ grows conns conns' /\ forall conf, conf ∈ confs -> connected_for conns' conf.
Proof using All.
  intros Hready. revert conns w. induction Hready as [|conf confs Hr _ IH]; intros conns w; cbn [init_worker_loop].
  { exists conns, w. split; [done|]. split; [done|]. by intros conf ?%elem_of_nil. }
  destruct (add_connection_ready conns conf w Hr) as (conns1 & w1 & E1). rewrite (bind_eq _ _ _ _ _ E1).
  cbv beta iota. change (NGX_OK =? NGX_ERROR) with false. cbv iota.
  destruct Hr as ([m Hm] & Hd & _).
  assert (ngx_http_get_mongo_connection m conns1 <> None) as Hin.
  { apply add_connection_step in E1 as E1'. destruct E1' as (m' & Hm' & Hc). assert (m' = m) as -> by congruence.
    destruct Hc as [[-> Hc]|[-> _]]; [done|]. intros Hc%get_connection_none. apply Hc.
    rewrite map_app. apply elem_of_app. right. by left. }
  destruct (authenticate_ready conns1 conf m w1 Hm Hd Hin) as (conns2 & w2 & E2). rewrite (bind_eq _ _ _ _ _ E2).
  cbv beta iota. change (NGX_OK =? NGX_ERROR) with false. cbv iota.
  destruct (IH conns2 w2) as (conns3 & w3 & E3 & Hg & Hall). exists conns3, w3. split; [done|].
  assert (grows conns conns1) by (eapply step_grows; by left).
  assert (grows conns1 conns2) by (eapply step_grows; by right).
  split; [etrans; [|exact Hg]; by etrans|]. intros conf' [-> |Hc]%elem_of_cons; [|by apply Hall].
  eapply grows_connected_for; [exact Hg|]. by eapply authenticate_connects.
Qed.
End Willing.

#[export] Instance willing_world : Willing world.
Proof. by split. Defined.

(** ** Examples *)

Definition localhost (name : list Z) : option (list (option sockaddr)) := Some [Some (AF_INET 0x0100007f 0)].
Definition two_confs : list loc_conf :=
  let c := LocConf (Some (bs "d")) (Some (bs "fs")) (Some (bs "_id")) BSON_OID (Some (bs "u")) (Some (bs "p"))
             (Some (bs "m")) (Some [Server (bs "h") 27017]) None in
  [c; c <| db := Some (bs "e") |>].
Definition new_world : world := World empty_memory ∅ 0 None [].
#[local] Abbreviation set_conf :=
  (ngx_http_mongo localhost (bs "rs") [bs "h1"; bs "h2"] ngx_http_gridfs_create_loc_conf).
Definition db_conf : option loc_conf :=
  ngx_http_gridfs (bs "d") [bs "field=filename"; bs "type=string"] ngx_http_gridfs_create_loc_conf.
Definition rs_conf : loc_conf :=
  ngx_http_gridfs_create_loc_conf <| mongo := Some (bs "rs") |> <| replset := Some (bs "rs") |>
    <| mongods := Some [Server (bs "h1") 27017; Server (bs "h2") 27017] |>.
Lemma set_conf_rs : set_conf = Some rs_conf.
Proof. by vm_compute. Qed.

(** ** Properties *)

(** C35: Whatever the servers answer, the array of connections that the
    initialisation of a worker leaves when it returns has one connection for a
    name, for a location that names it, and the credentials kept with a
    connection are those of locations that name it; what it returns is NGX_OK
    even when connections failed. *)
Theorem ngx_http_gridfs_init_worker_registry `{Driver W} confs (w : W) rc conns w' :
  ngx_http_gridfs_init_worker confs w = Some ((rc, conns), w') ->
  rc = NGX_OK /\ registered confs conns.
Proof.
  unfold ngx_http_gridfs_init_worker. unfold mbind, M_bind, mret, M_ret.
  destruct (init_worker_loop [] confs w) as [[conns1 w1]|] eqn:E; [|done]. intros [= <- <- <-].
  split; [done|]. apply (init_worker_loop_registered confs) in E as [? _]; [done..|].
  split; [apply NoDup_nil_2|]. by intros c ?%elem_of_nil.
Qed.

Lemma ngx_http_gridfs_init_worker_registry_witness : exists conns w',
  ngx_http_gridfs_init_worker two_confs new_world = Some ((NGX_OK, conns), w')
  /\ conns = [Connection (bs "m") [Auth (bs "d") (bs "u") (bs "p"); Auth (bs "e") (bs "u") (bs "p")]]
  /\ registered two_confs conns.
Proof.
  destruct (ngx_http_gridfs_init_worker two_confs new_world) as [[[rc conns] w']|] eqn:E;
    [|vm_compute in E; discriminate E].
  destruct (ngx_http_gridfs_init_worker_registry two_confs new_world rc conns w' E) as [Hrc Hr].
  exists conns, w'. split; [by rewrite Hrc|]. split; [|exact Hr].
  vm_compute in E. injection E as <- <- <-. vm_compute. reflexivity.
Defined.

(** When the servers accept everything and the locations can be connected,
    the worker starts with a connection for every location, which keeps its
    credentials. *)
Theorem ngx_http_gridfs_init_worker_connects `{Willing W} confs (w : W) :
  Forall ready confs ->
  exists conns w', ngx_http_gridfs_init_worker confs w = Some ((NGX_OK, conns), w')
    /\ forall conf, conf ∈ confs -> connected_for conns conf.
Proof.
  intros Hr. destruct (init_worker_loop_connects confs [] w Hr) as (conns & w' & E & _ & Hall).
  exists conns, w'. split; [|done]. unfold ngx_http_gridfs_init_worker. by rewrite (bind_eq _ _ _ _ _ E).
Qed.

Lemma ngx_http_gridfs_init_worker_connects_witness : Forall ready two_confs /\ exists conns w',
  ngx_http_gridfs_init_worker two_confs new_world = Some ((NGX_OK, conns), w')
  /\ forall conf, conf ∈ two_confs -> connected_for conns conf.
Proof.
  assert (Forall ready two_confs) as Hr.
  { repeat constructor; try by eexists. all: eexists; split; [reflexivity|].
    all: split; [by split; apply Nat.leb_le|]; split; [|intros Hl; apply Nat.leb_le in Hl; discriminate Hl].
    all: repeat constructor; by apply Nat.leb_le. }
  split; [exact Hr|]. exact (ngx_http_gridfs_init_worker_connects two_confs new_world Hr).
Defined.

(** C36: Every location has these settings the handler follows, however the
    directives are spread over the blocks around it: a type of key that is an
    identifier, a string or an integer, a field that can be asked for, a
    collection, a connection name and at least one server. (A database it may
    not have.) *)
Theorem ngx_http_gridfs_location_complete getaddrinfo locs p c :
  enclosing getaddrinfo p -> written getaddrinfo c ->
  complete (ngx_http_gridfs_merge_loc_conf locs p c).1.
Proof. intros Hp%enclosing_plausible Hc%written_plausible. by apply merge_complete. Qed.

Lemma ngx_http_gridfs_location_complete_witness : exists p c,
  set_conf = Some p /\ db_conf = Some c /\ complete (ngx_http_gridfs_merge_loc_conf [] p c).1.
Proof.
  destruct db_conf as [c|] eqn:Ec; [|discriminate Ec].
  exists rs_conf, c. split; [exact set_conf_rs|]. split; [reflexivity|].
  apply (ngx_http_gridfs_location_complete localhost [] rs_conf c).
  - apply enclosing_written. eapply written_mongo; [apply written_nothing|exact set_conf_rs].
  - eapply written_gridfs; [apply written_nothing|exact Ec].
Defined.

(** A location that gives no servers itself inherits those of a replica set
    without its name, and the worker that connects it follows a null
    pointer. *)
Theorem ngx_http_gridfs_inherited_replica_set `{Driver W} locs p c l conns (w : W) :
  mongods p = Some l -> (2 <= length l < 9)%nat -> mongods c = None -> replset c = None ->
  let conf := (ngx_http_gridfs_merge_loc_conf locs p c).1 in
  (forall m, mongo conf = Some m -> m ∉ map name conns) ->
  ngx_http_mongo_add_connection conns conf w = None.
Proof.
  intros Hl Hlen Hc Hs conf Hm. unfold ngx_http_mongo_add_connection.
  destruct (mongo conf) as [m|] eqn:Em; [|done]. rewrite bind_or_crash.
  assert (mongods conf = Some l) as -> by (unfold conf; simpl; by rewrite Hc, Hl). rewrite bind_or_crash.
  assert (replset conf = None) as -> by done.
  destruct (ngx_http_get_mongo_connection m conns) as [[i c']|] eqn:Eg.
  - apply get_connection_found in Eg as (k & _ & Hk & En). destruct (Hm m eq_refl). rewrite <- En.
    apply list_elem_of_fmap. exists c'. split; [done|]. by eapply list_elem_of_lookup_2.
  - cbv zeta. destruct l as [|s [|s2 l]]; [simpl in Hlen; lia..|].
    cbv iota. by rewrite (proj2 (Nat.leb_le 2 _)), (proj2 (Nat.ltb_lt _ 9)) by (simpl in *; lia).
Qed.

Lemma ngx_http_gridfs_inherited_replica_set_witness : exists p c,
  set_conf = Some p /\ db_conf = Some c /\
  ngx_http_mongo_add_connection [] (ngx_http_gridfs_merge_loc_conf [] p c).1 new_world = None.
Proof.
  destruct db_conf as [c|] eqn:Ec; [|discriminate Ec].
  exists rs_conf, c. split; [exact set_conf_rs|]. split; [reflexivity|].
  apply (ngx_http_gridfs_inherited_replica_set [] rs_conf c [Server (bs "h1") 27017; Server (bs "h2") 27017]).
  - reflexivity.
  - split; by apply Nat.leb_le.
  - vm_compute in Ec. injection Ec as <-. reflexivity.
  - vm_compute in Ec. injection Ec as <-. reflexivity.
  - intros m _. apply not_elem_of_nil.
Defined.

(** A location whose [gridfs] directive leaves it with the key field
    [filename] has keys that are strings; but a location that inherits the
    field and gives another type itself is accepted and asks for file names
    that are integers. *)
Theorem ngx_http_gridfs_filename_type :
  (forall arg args c c', ngx_http_gridfs arg args c = Some c' -> field c' = Some (bs "filename") ->
     type c' = BSON_STRING) /\
  exists p c, db_conf = Some p /\
    ngx_http_gridfs (bs "e") [bs "type=int"] ngx_http_gridfs_create_loc_conf = Some c /\
    let conf := (ngx_http_gridfs_merge_loc_conf [] p c).1 in
    field conf = Some (bs "filename") /\ type conf = BSON_INT.
Proof.
  split.
  - intros arg args c c' E Hf. unfold ngx_http_gridfs in E.
    destruct (gridfs_params args (c <| db := Some arg |>)) as [c1|]; [|done].
    cbn [mbind option_bind] in E.
    destruct (bool_decide_reflect (field c1 = Some (bs "filename"))) as [Hf1|Hf1];
      destruct (Z.eqb_spec (type c1) BSON_STRING) as [Ht|Ht];
      simpl in E; repeat case_match; simplify_eq; done.
  - do 2 eexists. split; [vm_compute; reflexivity|]. split; [vm_compute; reflexivity|]. by split.
Qed.
